(* ===== verification/_CoqProject ===== *)
-Q . S2P
Prelude.v
CMem.v
JosString.v
JosPrintfmt.v
JosPmap.v
JosPgdir.v
JosMonitor.v
JosKdebug.v
JosConsole.v
Xv6Lock.v
Xv6String.v
Xv6Console.v
Xv6Proc.v
Xv6Sched.v
Xv6Table.v
Xv6World.v
Xv6Kalloc.v
Xv6Vm.v
Xv6Uvm.v
Xv6User.v
Xv6Pipe.v
Xv6File.v
Xv6Input.v
Xv6Bio.v
Xv6Log.v
Xv6Crash.v
Xv6Reserve.v
Xv6Txn.v
Xv6Inode.v
Xv6Disk.v
Xv6Iops.v
Xv6Content.v
Xv6Wrote.v
Xv6Writei.v
Xv6Icache.v
Xv6Trunc.v
Xv6Ialloc.v
Xv6Dir.v
Xv6Dirops.v
Xv6Path.v
Xv6Image.v
Xv6Stuck.v
Xv6Syscall.v
Xv6Fs.v
Xv6Mkfs.v
Xv6MkfsOk.v
Xv6MkfsMain.v
Xv6Args.v
Xv6Sysfile.v
Xv6Tx.v
Xv6Unlink.v
Xv6Link.v
Xv6Create.v
Xv6Cwd.v
Xv6Fsck.v
Xv6Calls.v
Xv6MkfsTree.v
