(* ===== verification/Prelude.v ===== *)
(** * Verification of the CS1217 kernels

    The repository holds the coursework of an operating systems course: the
    memory management lab of the JOS kernel (lab3) and an xv6 kernel with three
    schedulers, priorities and tickets (lab2).  This development models the
    kernel code of both as Rocq functions and proves what makes it correct.

    ** How the code is modelled

    A C routine is a definition of the same name.  Machine integers are [Z]
    with the wrap-around of their width written out ([u32], [i32], ...; this
    file).  Memory is a finite map from addresses to bytes (CMem.v).  A routine
    with effects is a function of the monad [M S A] of this file: from a state
    [S] to [Ok] with a value and a state, to [Panic] with the message of the
    kernel's panic (or of a fault that C leaves undefined), or to [NoFuel].
    [wp m Q s] is total correctness: [m] run from [s] returns, and [Q] holds of
    what it returns.  Every theorem that says a routine has a result says it
    with [wp] or with an equation [m s = Ok a s'], never only under the
    assumption that it returns.

    ** JOS (lab3)

    - JosString.v: lib/string.c.  All routines, including the assembly versions
      of [memset] and [memmove].  Copies are exact for every overlap and
      alignment; bounded copies stay in bounds and terminate their strings.
    - JosPrintfmt.v: lib/printfmt.c, kern/printf.c.  The format interpreter
      [vprintfmt] over a list of arguments, [vsnprintf] and [cprintf].  It
      terminates on every input, prints numbers digit by digit as written,
      never leaves its buffer, and [strtol] reads back what [printnum] prints.
    - JosPmap.v: the page allocator of kern/pmap.c.  [boot_alloc], [page_init],
      [page_alloc], [page_free] and the invariant [alloc_inv] of the free list.
    - JosPgdir.v: the page tables of kern/pmap.c, over the same state.  The
      functional behaviour of [page_insert], [page_remove] and
      [boot_map_region], and [vm_safe]: no sequence of operations panics, maps
      a free page, or loses a reference.
    - JosMonitor.v: kern/monitor.c, lib/readline.c.  The commands, which read
      and write memory through the page tables of JosPgdir.v, the command
      parser and the line editor.
    - JosKdebug.v: kern/kdebug.c.  The binary search for a symbol.
    - JosConsole.v: kern/console.c.  The display refines a window on the paper
      of a printing terminal; the keyboard and the input ring.  The devices
      behind the ports are the class [Ports].

    ** xv6 (lab2)

    - Xv6Lock.v: spinlock.c and the processor part of proc.c.  A component
      embeds the processor state [hw] through the class [HasHw].
    - Xv6String.v, Xv6Console.v: string.c, and the formatted output of
      console.c.
    - Xv6Proc.v: proc.c on the process table.  What it calls of the rest of the
      kernel is the class [Services], operations on a state of their own; a
      context switch is the parameter [swtch].
    - Xv6Sched.v: the three schedulers of proc.c, tickets and listings.
    - Xv6Table.v: the step relation of the process table under all routines of
      proc.c, and the invariants of every reachable table: unique pids, a tree
      of processes, and no lost wakeup in [wait].
    - Xv6World.v: a logic for routines that run in one process and take locks:
      [wpx] is total correctness over the locks held and the component's state,
      [wpm] also over memory; [wpx_sleep] is the rule of [sleep], in which the
      specification of [swtch] is what other processes do meanwhile.
    - Xv6Kalloc.v: kalloc.c.  The free list refines a stack of pages.
    - Xv6Vm.v, Xv6Uvm.v, Xv6User.v: vm.c.  The routines on page tables; what
      an address space is ([vspace]) and who owns its pages; [allocuvm],
      [deallocuvm], [copyuvm] and [copyout] stated through the processor's own
      view of memory ([uaccess], [uread]), out of memory included.
    - Xv6Pipe.v: pipe.c.  A pipe carries a stream of bytes, whatever the sizes
      of reads and writes; writers and readers return if the other end does
      its part.
    - Xv6File.v: file.c and [pipealloc].  The table of open files over the
      pipes and an inode layer given by the class [Inodes]; the invariant that
      frees a pipe with its last end.
    - Xv6Input.v: the input and display of console.c.  The input buffer refines
      a line editor.
    - Xv6Bio.v: sleeplock.c, memide.c and bio.c.  The buffer cache refines a
      store of blocks.
    - Xv6Log.v, Xv6Crash.v, Xv6Reserve.v: log.c.  Commit and recovery; crash
      safety of a transaction for every prefix of the disk writes; the
      reservation of log space by [begin_op].
    - Xv6Txn.v: what a system call between [begin_op] and [end_op] knows of the
      block layer, the contents of the blocks and the blocks it logged.
    - Xv6Inode.v: fs.c, every routine.  The state is the inode cache, the
      superblock and the block layer; [bl] runs a routine of the block layer in
      it, and a wait inside that layer is its own parameter [bswtch].  The
      device switch is the class [Devsw].
    - Xv6Disk.v: the disk as data.  [fs_ok] is the invariant of the whole file
      system: the blocks of the inodes are disjoint, and the bitmap marks the
      blocks in use and no other.  What each kind of store does to it.
    - Xv6Iops.v: [wpa], total correctness of a routine of fs.c in a transaction,
      over the inode cache, the buffers held, the contents of the blocks and
      the blocks logged; the allocator of blocks.
    - Xv6Content.v, Xv6Wrote.v, Xv6Writei.v: [bmap], [readi] and [writei].
    - Xv6Icache.v, Xv6Trunc.v, Xv6Ialloc.v: the inode cache with its reference
      counts; [itrunc] and [iput]; [ialloc].
    - Xv6Dir.v, Xv6Dirops.v, Xv6Path.v: directories as tables of names,
      [dirlookup] and [dirlink]; the names of a path and [namex].
    - Xv6Image.v, Xv6Fs.v: a small file system, and the specifications of the
      routines of fs.c with it as their example.
    - Xv6Stuck.v: runs that never return; [dirlink] of a name for the directory
      itself is one.
    - Xv6Syscall.v: system calls as transactions.  A round of the loop of
      [filewrite] is atomic: after a crash at any of its disk writes the next
      boot finds every file as before the call, or every file as after it.
    - Xv6Mkfs.v, Xv6MkfsOk.v, Xv6MkfsMain.v: mkfs.c, the whole program on an
      image in memory; the files of the host are the class [Host].  The image
      it makes is well formed and holds the files, unless the root directory
      fills its last block.
    - Xv6Args.v: syscall.c.  The arguments of a call, read through the page
      table of the process; [argstr] and [argptr] never read an address that is
      not mapped, whatever the process passes.
    - Xv6Sysfile.v: sysfile.c, every routine.  The calls on paths run on the
      state of Xv6Inode.v; the calls on descriptors run on the table of
      Xv6File.v, whose class [Inodes] is here the inode layer.  The loader that
      [sys_exec] calls is a parameter.
    - Xv6Tx.v: a system call that holds several locked inodes: [txn] is the
      invariant between two routines of fs.c, with the locks and references of
      the call, and each routine keeps it.
    - Xv6Unlink.v, Xv6Link.v, Xv6Create.v: [unlink], [link] and [create] on
      absolute paths.  Each is one crash-safe transaction that changes the names
      and links it should and nothing else, or fails and changes nothing.
    - Xv6Cwd.v: a run that panics: a current directory is removed, then its
      parent, and ".." leads to an inode that is free.
    - Xv6Fsck.v: the consistency of the directory tree ([fsck]): dots, unique
      names, link counts, one parent for a directory, everything linked
      reachable from the root.  Removing and adding names keeps it, and it
      implies what the calls ask of the tree.
    - Xv6Calls.v: sequences of calls.  From a consistent tree with room for
      them they run to the end, without a panic, to a consistent tree; and a
      crash at any disk write of a call leaves one.
    - Xv6MkfsTree.v: the image of [mkfs] has a consistent tree, and a kernel
      that starts from it can run such a sequence.

    ** Fuel

    A loop without a bound in its own data takes a number of iterations: the
    string loops, for which the length of the string is shown to be enough;
    [vprintfmt], for which the length of the format is; [freerange], for which
    the number of pages of the machine is; the loops of vm.c over a range of
    addresses, for which its number of pages is; the loops of fs.c over blocks,
    inodes, directory entries and path elements, for which the size of what
    they run over is; [fetchstr], for which the size of the process is; the
    arguments of [exec], of which there are at most [MAXARG]; and the loops that wait for another process ([wait],
    [acquiresleep], [begin_op], [pipewrite], [piperead], [consoleread], the
    schedulers), whose number of iterations is up to the other processes and
    which are proved to return after one when the condition holds.

    ** Not modelled

    Devices other than the consoles (disk and interrupt controllers, the boot
    loaders): the disk is the in-memory disk that memide.c implements, and the
    monitor and the xv6 [cprintf] print to a list of characters.  The assembly
    entry points and [swtch].  The JOS self tests, which run the modelled
    routines on one machine.  The segment descriptors of vm.c, the wrappers of
    sysproc.c, the loader exec.c, trap.c and the user programs of xv6.  The
    calls on descriptors and [chdir] are modelled, but not specified beyond the
    routines of file.c and fs.c they call, and paths are absolute in the
    specifications of the other calls.  System calls that run at the same time
    share the log in Xv6Reserve.v; the routines of fs.c and the calls on paths
    are specified for one system call at a time.  The emulator kept under
    lab1/qemu is third-party code, lab1/jos is an earlier copy of lab3, and
    assignment3 is xv6 before the changes of lab2.

    ** This file

    Machine-width integers, characters, the monad with its weakest
    precondition, loops over lists, and the lemmas on them that every
    component uses. *)

From stdpp Require Import base numbers option list gmap strings.
From Stdlib Require Import ZArith Lia Ascii.

Declare Scope cword_scope.
Delimit Scope cword_scope with cword.
Open Scope Z_scope.

(** ** Machine-width integers *)

Definition u8 (z : Z) : Z := z mod 2 ^ 8.
Definition u16 (z : Z) : Z := z mod 2 ^ 16.
Definition u32 (z : Z) : Z := z mod 2 ^ 32.
Definition u64 (z : Z) : Z := z mod 2 ^ 64.
Definition i8 (z : Z) : Z := (z + 2 ^ 7) mod 2 ^ 8 - 2 ^ 7.
Definition i32 (z : Z) : Z := (z + 2 ^ 31) mod 2 ^ 32 - 2 ^ 31.
Definition i64 (z : Z) : Z := (z + 2 ^ 63) mod 2 ^ 64 - 2 ^ 63.

Infix "+u" := (fun a b => u32 (a + b)) (at level 50, left associativity) : cword_scope.
Infix "-u" := (fun a b => u32 (a - b)) (at level 50, left associativity) : cword_scope.
Infix "*u" := (fun a b => u32 (a * b)) (at level 40, left associativity) : cword_scope.

(** [lia] with division and remainder by constants. *)
Ltac dlia := Z.div_mod_to_equations; lia.

Lemma u32_small z : 0 <= z < 2 ^ 32 -> u32 z = z.
Proof. intros; unfold u32; by apply Z.mod_small. Qed.

Lemma u32_range z : 0 <= u32 z < 2 ^ 32.
Proof. unfold u32. by apply Z.mod_pos_bound. Qed.

Lemma u16_range z : 0 <= u16 z < 2 ^ 16.
Proof. unfold u16. by apply Z.mod_pos_bound. Qed.

Lemma u16_small z : 0 <= z < 2 ^ 16 -> u16 z = z.
Proof. intros; unfold u16; by apply Z.mod_small. Qed.

Lemma u8_range z : 0 <= u8 z < 2 ^ 8.
Proof. unfold u8. by apply Z.mod_pos_bound. Qed.

Lemma u8_small z : 0 <= z < 2 ^ 8 -> u8 z = z.
Proof. intros; unfold u8; by apply Z.mod_small. Qed.

Lemma i32_small z : - 2 ^ 31 <= z < 2 ^ 31 -> i32 z = z.
Proof. intros; unfold i32; rewrite Z.mod_small; lia. Qed.

Lemma i32_range z : - 2 ^ 31 <= i32 z < 2 ^ 31.
Proof.
  unfold i32. pose proof (Z.mod_pos_bound (z + 2 ^ 31) (2 ^ 32) ltac:(lia)). lia.
Qed.

(** ** Bit fields of page-sized words *)

Lemma shiftr_div12 z : Z.shiftr z 12 = z / 4096.
Proof. rewrite Z.shiftr_div_pow2 by lia. done. Qed.

Lemma land_ones_mod z n : 0 <= n -> Z.land z (Z.ones n) = z mod 2 ^ n.
Proof. apply Z.land_ones. Qed.

Lemma testbit_small z n i : 0 <= z < 2 ^ n -> n <= i -> Z.testbit z i = false.
Proof.
  intros Hz Hi. destruct (decide (n < 0)) as [Hn|Hn].
  { rewrite Z.pow_neg_r in Hz by lia. lia. }
  rewrite <- (Z.mod_small z (2 ^ n)) by done. apply Z.mod_pow2_bits_high. lia.
Qed.

(** A word whose low [n] bits are clear, joined with a value below [2 ^ n]. *)
Lemma land_low_disjoint z w n :
  0 <= n -> z mod 2 ^ n = 0 -> 0 <= w < 2 ^ n -> Z.land z w = 0.
Proof.
  intros Hn Hz Hw. apply Z.bits_inj'. intros i Hi.
  rewrite Z.land_spec, Z.bits_0. destruct (decide (n <= i)).
  - rewrite (testbit_small w n) by lia. apply andb_false_r.
  - rewrite <- (Z.mod_pow2_bits_low z n i) by lia. rewrite Hz, Z.bits_0. done.
Qed.

Lemma lor_low_add z w n :
  0 <= n -> z mod 2 ^ n = 0 -> 0 <= w < 2 ^ n -> Z.lor z w = z + w.
Proof.
  intros Hn Hz Hw. pose proof (Z.add_lor_land z w) as H.
  rewrite (land_low_disjoint z w n) in H by done. lia.
Qed.

Lemma lor_range n x y :
  0 <= n -> 0 <= x < 2 ^ n -> 0 <= y < 2 ^ n -> 0 <= Z.lor x y < 2 ^ n.
Proof.
  intros Hn Hx Hy. split; [by apply Z.lor_nonneg; lia|].
  rewrite <- (Z.mod_small x (2 ^ n)), <- (Z.mod_small y (2 ^ n)) by done.
  rewrite <- !Z.land_ones, <- Z.land_lor_distr_l, Z.land_ones by lia.
  apply Z.mod_pos_bound. lia.
Qed.

(** Clearing the low bits of a 32-bit word. *)
Lemma land_high_mask z n :
  0 <= n <= 32 -> 0 <= z < 2 ^ 32 -> Z.land z (2 ^ 32 - 2 ^ n) = 2 ^ n * (z / 2 ^ n).
Proof.
  intros Hn Hz.
  assert (2 ^ 32 - 2 ^ n = Z.ldiff (Z.ones 32) (Z.ones n)) as ->.
  { rewrite Z.ldiff_ones_r, Z.shiftl_mul_pow2, Z.shiftr_div_pow2, Z.ones_equiv by lia.
    assert (2 ^ 32 = 2 ^ n * 2 ^ (32 - n)) as E
      by (rewrite <- Z.pow_add_r by lia; f_equal; lia).
    rewrite E. assert (0 < 2 ^ n) by (apply Z.pow_pos_nonneg; lia).
    replace (Z.pred (2 ^ n * 2 ^ (32 - n)) / 2 ^ n) with (2 ^ (32 - n) - 1); [nia|].
    apply Z.div_unique with (2 ^ n - 1); [lia|nia]. }
  rewrite <- (Z.mul_comm (z / 2 ^ n)), <- Z.shiftr_div_pow2, <- Z.shiftl_mul_pow2 by lia.
  rewrite <- Z.ldiff_ones_r by lia. apply Z.bits_inj'. intros i Hi.
  rewrite Z.land_spec, !Z.ldiff_spec. destruct (decide (i < 32)).
  - rewrite (Z.ones_spec_low 32) by lia. simpl. done.
  - rewrite (testbit_small z 32) by lia. done.
Qed.

(** ** Counting *)

Fixpoint countb {A} (f : A -> bool) (l : list A) : Z :=
  match l with
  | [] => 0
  | x :: l' => Z.b2z (f x) + countb f l'
  end.

Lemma countb_nonneg {A} (f : A -> bool) l : 0 <= countb f l.
Proof. induction l as [|x l IH]; simpl; [lia|]. destruct (f x); simpl; lia. Qed.

Lemma countb_ext {A} (f g : A -> bool) l :
  (forall x, x ∈ l -> f x = g x) -> countb f l = countb g l.
Proof.
  induction l as [|x l IH]; intros H; simpl; [done|].
  rewrite H, IH; [done| |left]. intros y Hy. apply H. by right.
Qed.

Lemma countb_pos {A} (f : A -> bool) l x : x ∈ l -> f x = true -> 0 < countb f l.
Proof.
  intros Hx Hf. induction l as [|y l IH]; [by apply not_elem_of_nil in Hx|]. simpl.
  pose proof (countb_nonneg f l). apply elem_of_cons in Hx as [->|Hx].
  - rewrite Hf. simpl. lia.
  - specialize (IH Hx). destruct (f y); simpl; lia.
Qed.

Lemma countb_0 {A} (f : A -> bool) l x : countb f l <= 0 -> x ∈ l -> f x = false.
Proof. intros H Hx. destruct (f x) eqn:E; [|done]. pose proof (countb_pos f l x Hx E). lia. Qed.

Lemma countb_none {A} (f : A -> bool) l : (forall x, x ∈ l -> f x = false) -> countb f l = 0.
Proof.
  induction l as [|x l IH]; intros H; simpl; [done|]. rewrite H by left.
  apply IH. intros y Hy. apply H. by right.
Qed.

(** Two predicates that differ at one element only. *)
Lemma countb_change {A} (f g : A -> bool) l x :
  NoDup l -> x ∈ l -> (forall y, y ∈ l -> y <> x -> f y = g y) ->
  countb g l = countb f l + Z.b2z (g x) - Z.b2z (f x).
Proof.
  intros Hnd Hx Hext. revert Hx Hext. induction Hnd as [|y l Hy Hnd IH]; intros Hx Hext.
  { by apply not_elem_of_nil in Hx. }
  simpl. apply elem_of_cons in Hx as [->|Hx].
  - rewrite (countb_ext f g l); [lia|]. intros z Hz. apply Hext; [by right|]. by intros ->.
  - rewrite IH; [|done|intros; apply Hext; [by right|done]].
    rewrite (Hext y); [lia|left|]. by intros ->.
Qed.

(** ** Characters

    Characters and C strings are lists of byte values; the terminating zero of
    a C string is the end of its list. *)

Definition zc (c : Ascii.ascii) : Z := Z.of_N (Ascii.N_of_ascii c).
Definition zs (s : string) : list Z := map zc (String.list_ascii_of_string s).
Arguments zc c%_char_scope.
Arguments zs s%_string_scope.

(** ** The state, panic and fuel monad

    A kernel routine is a function from the machine state to an outcome: it
    returns a value and a new state, it panics with a message, leaving the
    state it had reached, or the fuel that bounds one of its loops ran out. *)

Inductive res (S A : Type) : Type :=
| Ok (a : A) (s : S)
| Panic (msg : string) (s : S)
| NoFuel.
Arguments Ok {S A} a s.
Arguments Panic {S A} msg s.
Arguments NoFuel {S A}.

Definition M (S A : Type) : Type := S -> res S A.

#[global] Instance M_ret S : MRet (M S) := fun A a s => Ok a s.
#[global] Instance M_bind S : MBind (M S) := fun A B f m s =>
  match m s with
  | Ok a s' => f a s'
  | Panic msg s' => Panic msg s'
  | NoFuel => NoFuel
  end.

Definition get {S} : M S S := fun s => Ok s s.
Definition gets {S A} (f : S -> A) : M S A := fun s => Ok (f s) s.
Definition modify {S} (f : S -> S) : M S unit := fun s => Ok tt (f s).
Definition panic {S A} (msg : string) : M S A := fun s => Panic msg s.
Definition no_fuel {S A} : M S A := fun _ => NoFuel.

(** C's [assert]: the kernels' macro panics when the condition is false. *)
Definition assertM {S} (b : bool) (msg : string) : M S unit :=
  if b then mret tt else panic msg.

Fixpoint for_each {S A} (l : list A) (body : A -> M S unit) : M S unit :=
  match l with
  | [] => mret tt
  | x :: l' => body x;; for_each l' body
  end.

(** [wp m Q s]: run from [s], the routine [m] returns, and [Q] holds of its
    value and final state.  A panic or a lack of fuel does not satisfy it. *)
Definition wp {S A} (m : M S A) (Q : A -> S -> Prop) (s : S) : Prop :=
  match m s with
  | Ok a s' => Q a s'
  | _ => False
  end.

Section wp_rules.
Context {S : Type}.
Implicit Types s : S.

Lemma wp_ret {A} (a : A) (Q : A -> S -> Prop) s : Q a s -> wp (mret a) Q s.
Proof. done. Qed.

Lemma wp_bind {A B} (m : M S A) (f : A -> M S B) Q s :
  wp m (fun a => wp (f a) Q) s -> wp (m ≫= f) Q s.
Proof. unfold wp, mbind, M_bind. by destruct (m s). Qed.

Lemma wp_mono {A} (m : M S A) (Q Q' : A -> S -> Prop) s :
  wp m Q s -> (forall a s', Q a s' -> Q' a s') -> wp m Q' s.
Proof. unfold wp. destruct (m s); naive_solver. Qed.

Lemma wp_gets {A} (f : S -> A) (Q : A -> S -> Prop) s : Q (f s) s -> wp (gets f) Q s.
Proof. done. Qed.

Lemma wp_modify (f : S -> S) (Q : unit -> S -> Prop) s : Q tt (f s) -> wp (modify f) Q s.
Proof. done. Qed.

Lemma wp_assert b msg (Q : unit -> S -> Prop) s :
  b = true -> Q tt s -> wp (assertM b msg) Q s.
Proof. by intros -> HQ. Qed.

Lemma wp_Ok {A} (m : M S A) Q s :
  wp m Q s <-> exists a s', m s = Ok a s' /\ Q a s'.
Proof. unfold wp. destruct (m s); naive_solver. Qed.

Lemma bind_Ok_inv {A B} (m : M S A) (f : A -> M S B) s b s'' :
  (m ≫= f) s = Ok b s'' -> exists a s', m s = Ok a s' /\ f a s' = Ok b s''.
Proof. unfold mbind, M_bind. destruct (m s); naive_solver. Qed.

Lemma run_bind {A B} (m : M S A) (f : A -> M S B) s a s' :
  m s = Ok a s' -> (m ≫= f) s = f a s'.
Proof. intros H. unfold mbind, M_bind. by rewrite H. Qed.

Lemma wp_run {A B} (m : M S A) (f : A -> M S B) Q a s :
  m s = Ok a s -> wp (m ≫= f) Q s = wp (f a) Q s.
Proof. intros H. unfold wp. by rewrite (run_bind m f s a s H). Qed.

(** The invariant rule of [for_each]: the invariant may speak of the elements
    done and the elements left. *)
Lemma wp_for_each {A} (I : list A -> list A -> S -> Prop) (body : A -> M S unit) l s :
  I [] l s ->
  (forall done x todo s', l = done ++ x :: todo -> I done (x :: todo) s' ->
     wp (body x) (fun _ => I (done ++ [x]) todo) s') ->
  wp (for_each l body) (fun _ => I l []) s.
Proof.
  intros H0 Hstep.
  assert (forall todo done s', l = done ++ todo -> I done todo s' ->
    wp (for_each todo body) (fun _ => I l []) s') as H; [|by apply (H l [])].
  induction todo as [|x todo IH]; intros done s' -> HI.
  - rewrite app_nil_r in *. done.
  - simpl. apply wp_bind. eapply wp_mono; [by apply Hstep|].
    intros ? s'' HI'. apply (IH (done ++ [x])); [by rewrite <- app_assoc|done].
Qed.
End wp_rules.

(** [tpost m P]: run from any state, [m] does not run out of fuel, and a value it
    returns satisfies [P]; it may panic. *)
Definition tpost {S A} (m : M S A) (P : A -> Prop) : Prop :=
  forall s, match m s with Ok a _ => P a | Panic _ _ => True | NoFuel => False end.

Section tpost_rules.
Context {S : Type}.

Lemma tpost_ret {A} (a : A) (P : A -> Prop) : P a -> tpost (S := S) (mret a) P.
Proof. by intros H s. Qed.

Lemma tpost_bind {A B} (m : M S A) (f : A -> M S B) P Q :
  tpost m P -> (forall a, P a -> tpost (f a) Q) -> tpost (m ≫= f) Q.
Proof.
  intros Hm Hf s. specialize (Hm s). unfold mbind, M_bind.
  destruct (m s); [by apply Hf|done|done].
Qed.

Lemma tpost_modify (f : S -> S) (P : unit -> Prop) : P tt -> tpost (modify f) P.
Proof. by intros H s. Qed.

Lemma tpost_gets {A} (f : S -> A) : tpost (gets f) (fun _ => True).
Proof. by intros s. Qed.

Lemma tpost_panic {A} msg (P : A -> Prop) : tpost (S := S) (panic msg) P.
Proof. by intros s. Qed.

Lemma tpost_mono {A} (m : M S A) (P Q : A -> Prop) :
  tpost m P -> (forall a, P a -> Q a) -> tpost m Q.
Proof. intros H HPQ s. specialize (H s). destruct (m s); auto. Qed.
End tpost_rules.

Create HintDb cwp.
#[export] Hint Resolve tpost_ret tpost_modify tpost_gets tpost_panic : cwp.
#[export] Hint Resolve wp_ret wp_gets wp_modify : cwp.

(** One symbolic step of a routine. *)
Ltac wp_step :=
  lazymatch goal with
  | |- wp (_ ≫= _) _ _ => apply wp_bind
  | |- wp (mret _) _ _ => apply wp_ret
  | |- wp (gets _) _ _ => apply wp_gets
  | |- wp get _ _ => apply (wp_gets id)
  | |- wp (modify _) _ _ => apply wp_modify
  | |- wp (assertM _ _) _ _ => apply wp_assert
  | |- wp (if ?b then _ else _) _ _ => destruct b eqn:?
  end.
Ltac wp_steps := repeat (wp_step; simpl).
