(* ===== verification/CMem.v ===== *)
(** * Byte-addressed memory

    The memory a C routine of the repository reads and writes: a finite map
    from addresses to bytes, absent bytes reading as zero, with the
    little-endian 32-bit accesses of the x86 and the null-terminated strings
    the string routines work on. *)

From S2P Require Import Prelude.
From stdpp Require Import base numbers option list gmap.
Open Scope Z_scope.

(** A store: the bytes at the addresses it holds. *)
Notation mem := (gmap Z Z).

Definition load8 (m : mem) (a : Z) : Z := default 0 (m !! a).
Definition store8 (m : mem) (a v : Z) : mem := <[a := u8 v]> m.

Definition load32 (m : mem) (a : Z) : Z :=
  load8 m a + 2 ^ 8 * load8 m (a + 1) + 2 ^ 16 * load8 m (a + 2) + 2 ^ 24 * load8 m (a + 3).

Definition store32 (m : mem) (a v : Z) : mem :=
  store8 (store8 (store8 (store8 m a v) (a + 1) (v / 2 ^ 8)) (a + 2) (v / 2 ^ 16))
    (a + 3) (v / 2 ^ 24).

#[global] Arguments load8 : simpl never.
#[global] Arguments store8 : simpl never.
#[global] Arguments load32 : simpl never.
#[global] Arguments store32 : simpl never.

(** Every byte the store holds is a byte. *)
Definition mem_ok (m : mem) : Prop := map_Forall (fun _ b => 0 <= b < 2 ^ 8) m.

#[global] Instance mem_ok_dec m : Decision (mem_ok m).
Proof. unfold mem_ok. apply _. Defined.

(** The null-terminated string [bs] starts at [p]. *)
Fixpoint cstr_at (m : mem) (p : Z) (bs : list Z) : Prop :=
  match bs with
  | [] => load8 m p = 0
  | b :: bs' => b <> 0 /\ load8 m p = b /\ cstr_at m (p + 1) bs'
  end.

Lemma load8_store8_eq m a v : load8 (store8 m a v) a = u8 v.
Proof. unfold load8, store8. by rewrite lookup_insert_eq. Qed.

Lemma load8_store8_ne m a b v : a <> b -> load8 (store8 m a v) b = load8 m b.
Proof. intros. unfold load8, store8. by rewrite lookup_insert_ne. Qed.

Lemma load8_store8 m a b v :
  load8 (store8 m a v) b = if decide (a = b) then u8 v else load8 m b.
Proof. case_decide; [subst; apply load8_store8_eq | by apply load8_store8_ne]. Qed.

Lemma mem_ok_store8 m a v : mem_ok m -> mem_ok (store8 m a v).
Proof. intros. apply map_Forall_insert_2; [apply u8_range | done]. Qed.

Lemma mem_ok_store32 m a v : mem_ok m -> mem_ok (store32 m a v).
Proof. intros. unfold store32. by repeat apply mem_ok_store8. Qed.

Lemma load8_range m a : mem_ok m -> 0 <= load8 m a < 2 ^ 8.
Proof.
  intros Hm. unfold load8. destruct (m !! a) eqn:E; simpl; [by eapply Hm | lia].
Qed.

Lemma load32_range m a : mem_ok m -> 0 <= load32 m a < 2 ^ 32.
Proof.
  intros Hm. unfold load32.
  pose proof (load8_range m a Hm). pose proof (load8_range m (a + 1) Hm).
  pose proof (load8_range m (a + 2) Hm). pose proof (load8_range m (a + 3) Hm). lia.
Qed.

Lemma load8_store32_out m a b v : b < a \/ a + 4 <= b -> load8 (store32 m a v) b = load8 m b.
Proof. intros. unfold store32. by rewrite !load8_store8_ne by lia. Qed.

(** The byte [i] of the word a 32-bit store wrote. *)
Lemma load8_store32_in m a v i :
  0 <= i < 4 -> load8 (store32 m a v) (a + i) = u8 (v / 2 ^ (8 * i)).
Proof.
  intros Hi. unfold store32. rewrite !load8_store8.
  assert (i = 0 \/ i = 1 \/ i = 2 \/ i = 3) as [->|[->|[->| ->]]] by lia;
    repeat (case_decide; try lia); f_equal.
  change (2 ^ (8 * 0)) with 1. by rewrite Z.div_1_r.
Qed.

Lemma load32_store32_eq m a v : load32 (store32 m a v) a = u32 v.
Proof.
  unfold load32.
  pose proof (load8_store32_in m a v 0 ltac:(lia)) as E0. rewrite Z.add_0_r in E0.
  rewrite E0, !load8_store32_in by lia. unfold u8, u32. simpl.
  change (2 ^ (8 * 0)) with 1. change (8 * 1) with 8. change (8 * 2) with 16.
  change (8 * 3) with 24. dlia.
Qed.

Lemma load32_store32_ne m a b v :
  b + 4 <= a \/ a + 4 <= b -> load32 (store32 m a v) b = load32 m b.
Proof. intros. unfold load32. by rewrite !load8_store32_out by lia. Qed.

Lemma load32_ext m m' a :
  (forall b, a <= b < a + 4 -> load8 m b = load8 m' b) -> load32 m a = load32 m' a.
Proof. intros H. unfold load32. by rewrite !H by lia. Qed.

Lemma cstr_at_ext m m' p bs :
  (forall b, p <= b <= p + Z.of_nat (length bs) -> load8 m b = load8 m' b) ->
  cstr_at m p bs -> cstr_at m' p bs.
Proof.
  revert p. induction bs as [|b bs IH]; intros p Hext; simpl.
  - intros <-. symmetry. apply Hext. simpl. lia.
  - intros (Hb & Hp & Hbs). split_and!; [done| |].
    + rewrite <- Hp. symmetry. apply Hext. simpl. lia.
    + apply IH; [|done]. intros c Hc. apply Hext. simpl. lia.
Qed.

Lemma cstr_at_lookup m p bs i b :
  cstr_at m p bs -> bs !! i = Some b -> load8 m (p + Z.of_nat i) = b /\ b <> 0.
Proof.
  revert p i. induction bs as [|b' bs IH]; intros p [|i] Hp Hi; simplify_eq/=.
  - destruct Hp as (? & ? & ?). by rewrite Z.add_0_r.
  - destruct Hp as (_ & _ & Hp). destruct (IH _ _ Hp Hi) as [<- ?].
    split; [f_equal; lia | done].
Qed.

Lemma cstr_at_end m p bs : cstr_at m p bs -> load8 m (p + Z.of_nat (length bs)) = 0.
Proof.
  revert p. induction bs as [|b bs IH]; intros p; simpl.
  - by rewrite Z.add_0_r.
  - intros (_ & _ & H). rewrite <- (IH _ H). f_equal. lia.
Qed.

Create HintDb cmem.
#[export] Hint Resolve mem_ok_store8 mem_ok_store32 load8_range load32_range : cmem.
