(* ===== verification/JosString.v ===== *)
(** * The JOS string library (lab3/lib/string.c)

    Every routine of the file, over the byte memory of [CMem].  A loop that
    stops at a terminating zero is given fuel; the theorems show that fuel
    beyond the length of the string is enough.  [memset] and [memmove] are the
    [ASM] versions the kernel is built with, down to the choice between the
    byte and the 32-bit string instructions and the direction flag. *)

From S2P Require Import Prelude CMem.
From stdpp Require Import base numbers option list gmap.
Open Scope Z_scope.

(** ** The routines *)

Fixpoint strlen_loop (fuel : nat) (m : mem) (s n : Z) : option Z :=
  match fuel with
  | O => None
  | S f => if load8 m s =? 0 then Some n else strlen_loop f m (s + 1) (n + 1)
  end.

Definition strlen (fuel : nat) (m : mem) (s : Z) : option Z := strlen_loop fuel m s 0.

Fixpoint strnlen_loop (fuel : nat) (m : mem) (s size n : Z) : option Z :=
  match fuel with
  | O => None
  | S f =>
      if (0 <? size) && negb (load8 m s =? 0)
      then strnlen_loop f m (s + 1) (size - 1) (n + 1)
      else Some n
  end.

Definition strnlen (fuel : nat) (m : mem) (s size : Z) : option Z :=
  strnlen_loop fuel m s size 0.

Fixpoint strcpy_loop (fuel : nat) (m : mem) (dst src : Z) : option mem :=
  match fuel with
  | O => None
  | S f =>
      let c := load8 m src in
      let m' := store8 m dst c in
      if c =? 0 then Some m' else strcpy_loop f m' (dst + 1) (src + 1)
  end.

(** The memory after the copy, and the pointer returned. *)
Definition strcpy (fuel : nat) (m : mem) (dst src : Z) : option (mem * Z) :=
  m' ← strcpy_loop fuel m dst src; Some (m', dst).

Definition strcat (fuel : nat) (m : mem) (dst src : Z) : option (mem * Z) :=
  len ← strlen fuel m dst;
  '(m', _) ← strcpy fuel m (dst + len) src;
  Some (m', dst).

Fixpoint strncpy_loop (size : nat) (m : mem) (dst src : Z) : mem :=
  match size with
  | O => m
  | S k =>
      let c := load8 m src in
      let m' := store8 m dst c in
      strncpy_loop k m' (dst + 1) (if load8 m' src =? 0 then src else src + 1)
  end.

Definition strncpy (m : mem) (dst src size : Z) : mem * Z :=
  (strncpy_loop (Z.to_nat size) m dst src, dst).

Fixpoint strlcpy_loop (size : nat) (m : mem) (dst src : Z) : mem * Z :=
  match size with
  | O => (m, dst)
  | S k =>
      if load8 m src =? 0 then (m, dst)
      else strlcpy_loop k (store8 m dst (load8 m src)) (dst + 1) (src + 1)
  end.

Definition strlcpy (m : mem) (dst src size : Z) : mem * Z :=
  if 0 <? size then
    let '(m', d) := strlcpy_loop (Z.to_nat (size - 1)) m dst src in
    (store8 m' d 0, d - dst)
  else (m, 0).

Fixpoint strcmp (fuel : nat) (m : mem) (p q : Z) : option Z :=
  match fuel with
  | O => None
  | S f =>
      if negb (load8 m p =? 0) && (load8 m p =? load8 m q)
      then strcmp f m (p + 1) (q + 1)
      else Some (load8 m p - load8 m q)
  end.

Fixpoint strncmp (n : nat) (m : mem) (p q : Z) : Z :=
  match n with
  | O => 0
  | S k =>
      if negb (load8 m p =? 0) && (load8 m p =? load8 m q)
      then strncmp k m (p + 1) (q + 1)
      else load8 m p - load8 m q
  end.

(** The address found, 0 for the null pointer. *)
Fixpoint strchr (fuel : nat) (m : mem) (s c : Z) : option Z :=
  match fuel with
  | O => None
  | S f =>
      if load8 m s =? 0 then Some 0
      else if load8 m s =? u8 c then Some s else strchr f m (s + 1) c
  end.

Fixpoint strfind (fuel : nat) (m : mem) (s c : Z) : option Z :=
  match fuel with
  | O => None
  | S f =>
      if load8 m s =? 0 then Some s
      else if load8 m s =? u8 c then Some s else strfind f m (s + 1) c
  end.

(** The x86 [rep stos] and [rep movs] instructions. *)
Fixpoint rep_stosl (cnt : nat) (m : mem) (d w : Z) : mem :=
  match cnt with
  | O => m
  | S k => rep_stosl k (store32 m d w) (d + 4) w
  end.

Fixpoint rep_stosb (cnt : nat) (m : mem) (d c : Z) : mem :=
  match cnt with
  | O => m
  | S k => rep_stosb k (store8 m d c) (d + 1) c
  end.

Definition memset (m : mem) (v c n : Z) : mem :=
  if n =? 0 then m
  else if (Z.rem (i32 v) 4 =? 0) && (n mod 4 =? 0) then
    let c := Z.land c 255 in
    let w := Z.lor (Z.lor (Z.lor (Z.shiftl c 24) (Z.shiftl c 16)) (Z.shiftl c 8)) c in
    rep_stosl (Z.to_nat (n / 4)) m v w
  else rep_stosb (Z.to_nat n) m v c.

#[global] Arguments memset : simpl never.

Definition movsb (m : mem) (d s : Z) : mem := store8 m d (load8 m s).
Definition movsl (m : mem) (d s : Z) : mem := store32 m d (load32 m s).

(** [rep] of a string move whose elements are [w] bytes wide, upwards with the
    direction flag clear ([dir = 1]) and downwards with it set ([dir = -1]). *)
Fixpoint rep_movs (mov : mem -> Z -> Z -> mem) (w dir : Z) (cnt : nat) (m : mem) (d s : Z) : mem :=
  match cnt with
  | O => m
  | S k => rep_movs mov w dir k (mov m d s) (d + dir * w) (s + dir * w)
  end.

Definition memmove (m : mem) (dst src n : Z) : mem :=
  let s := src in
  let d := dst in
  if (s <? d) && (d <? s + n) then
    let s := s + n in
    let d := d + n in
    if (Z.rem (i32 s) 4 =? 0) && (Z.rem (i32 d) 4 =? 0) && (n mod 4 =? 0)
    then rep_movs movsl 4 (-1) (Z.to_nat (n / 4)) m (d - 4) (s - 4)
    else rep_movs movsb 1 (-1) (Z.to_nat n) m (d - 1) (s - 1)
  else
    if (Z.rem (i32 s) 4 =? 0) && (Z.rem (i32 d) 4 =? 0) && (n mod 4 =? 0)
    then rep_movs movsl 4 1 (Z.to_nat (n / 4)) m d s
    else rep_movs movsb 1 1 (Z.to_nat n) m d s.

Definition memcpy (m : mem) (dst src n : Z) : mem := memmove m dst src n.

Fixpoint memcmp (n : nat) (m : mem) (s1 s2 : Z) : Z :=
  match n with
  | O => 0
  | S k =>
      if load8 m s1 =? load8 m s2 then memcmp k m (s1 + 1) (s2 + 1)
      else load8 m s1 - load8 m s2
  end.

Fixpoint memfind (n : nat) (m : mem) (s c : Z) : Z :=
  match n with
  | O => s
  | S k => if load8 m s =? u8 c then s else memfind k m (s + 1) c
  end.

(** ** [strtol] *)

Fixpoint skip_blanks (fuel : nat) (m : mem) (s : Z) : option Z :=
  match fuel with
  | O => None
  | S f =>
      if (load8 m s =? 32) || (load8 m s =? 9) then skip_blanks f m (s + 1) else Some s
  end.

(** The digit a character stands for in a base up to 36. *)
Definition digit_of (c : Z) : option Z :=
  if (48 <=? c) && (c <=? 57) then Some (c - 48)
  else if (97 <=? c) && (c <=? 122) then Some (c - 97 + 10)
  else if (65 <=? c) && (c <=? 90) then Some (c - 65 + 10)
  else None.

Fixpoint strtol_digits (fuel : nat) (m : mem) (s base val : Z) : option (Z * Z) :=
  match fuel with
  | O => None
  | S f =>
      match digit_of (i8 (load8 m s)) with
      | None => Some (val, s)
      | Some dig =>
          if base <=? dig then Some (val, s)
          else strtol_digits f m (s + 1) base (i32 (val * base + dig))
      end
  end.

(** The value, and what is stored through [endptr]. *)
Definition strtol (fuel : nat) (m : mem) (s base : Z) : option (Z * Z) :=
  s ← skip_blanks fuel m s;
  let '(s, neg) :=
    if load8 m s =? 43 then (s + 1, false)
    else if load8 m s =? 45 then (s + 1, true) else (s, false) in
  let '(s, base) :=
    if ((base =? 0) || (base =? 16)) && ((load8 m s =? 48) && (load8 m (s + 1) =? 120))
    then (s + 2, 16)
    else if (base =? 0) && (load8 m s =? 48) then (s + 1, 8)
    else if base =? 0 then (s, 10) else (s, base) in
  '(val, e) ← strtol_digits fuel m s base 0;
  Some (if neg : bool then i32 (- val) else val, e).

(** ** Lengths and comparisons *)

Lemma strlen_loop_spec m p bs n fuel :
  cstr_at m p bs -> (length bs < fuel)%nat ->
  strlen_loop fuel m p n = Some (n + Z.of_nat (length bs)).
Proof.
  revert p n fuel. induction bs as [|b bs IH]; intros p n [|fuel] Hp Hf; simpl in *; try lia.
  - rewrite Hp. simpl. f_equal. lia.
  - destruct Hp as (Hb & Hl & Hp). rewrite Hl. destruct (Z.eqb_spec b 0); [done|].
    rewrite IH by (done || lia). f_equal. lia.
Qed.

Lemma strlen_spec m p bs fuel :
  cstr_at m p bs -> (length bs < fuel)%nat -> strlen fuel m p = Some (Z.of_nat (length bs)).
Proof. intros. unfold strlen. by rewrite (strlen_loop_spec m p bs). Qed.

Lemma strnlen_loop_spec m p bs size n fuel :
  cstr_at m p bs -> 0 <= size -> (length bs < fuel)%nat ->
  strnlen_loop fuel m p size n = Some (n + Z.min size (Z.of_nat (length bs))).
Proof.
  revert p size n fuel.
  induction bs as [|b bs IH]; intros p size n [|fuel] Hp Hs Hf; simpl in *; try lia.
  - rewrite Hp, andb_false_r. f_equal. lia.
  - destruct Hp as (Hb & Hl & Hp). rewrite Hl. destruct (Z.eqb_spec b 0); [done|].
    destruct (Z.ltb_spec 0 size); simpl; [|f_equal; lia].
    rewrite IH by (done || lia). f_equal. lia.
Qed.

(** What [strcmp] computes, on the strings themselves: the difference of the
    first bytes that differ, the end of a string counting as a zero byte. *)
Fixpoint str_diff (bs cs : list Z) : Z :=
  match bs, cs with
  | [], [] => 0
  | [], c :: _ => - c
  | b :: _, [] => b
  | b :: bs', c :: cs' => if b =? c then str_diff bs' cs' else b - c
  end.

Lemma strcmp_diff m p q bs cs fuel :
  cstr_at m p bs -> cstr_at m q cs -> (length bs < fuel)%nat ->
  strcmp fuel m p q = Some (str_diff bs cs).
Proof.
  revert p q cs fuel.
  induction bs as [|b bs IH]; intros p q cs [|fuel] Hp Hq Hf; simpl in *; try lia.
  - rewrite Hp. simpl. destruct cs as [|c cs]; simpl in Hq; [by rewrite Hq|].
    destruct Hq as (? & -> & ?). f_equal.
  - destruct Hp as (Hb & Hl & Hp). rewrite Hl. destruct (Z.eqb_spec b 0); [done|].
    destruct cs as [|c cs]; simpl in Hq.
    + rewrite Hq. destruct (Z.eqb_spec b 0); simpl; [done|]. f_equal. lia.
    + destruct Hq as (? & -> & ?). destruct (Z.eqb_spec b c); simpl; [|done].
      apply IH; (done || lia).
Qed.

Lemma str_diff_0 m p q bs cs :
  cstr_at m p bs -> cstr_at m q cs -> str_diff bs cs = 0 -> bs = cs.
Proof.
  revert p q cs. induction bs as [|b bs IH]; intros p q [|c cs] Hp Hq; simpl in *; try done.
  - destruct Hq. lia.
  - destruct Hp. lia.
  - destruct Hp as (? & ? & ?), Hq as (? & ? & ?).
    destruct (Z.eqb_spec b c) as [->|]; [|lia]. intros. f_equal. by eapply IH.
Qed.

(** ** Copies *)

(** The effect of a [rep movs]: [w]-byte elements, in either direction. *)
Section rep_movs.
Context (mov : mem -> Z -> Z -> mem) (w : Z).
Hypothesis w_pos : 0 < w.
Hypothesis mov_ok : forall m d s, mem_ok m -> mem_ok (mov m d s).
Hypothesis mov_load : forall m d s b, mem_ok m ->
  load8 (mov m d s) b = if decide (d <= b < d + w) then load8 m (s + (b - d)) else load8 m b.

Lemma rep_movs_ok dir cnt m d s : mem_ok m -> mem_ok (rep_movs mov w dir cnt m d s).
Proof. revert m d s. induction cnt; simpl; auto. Qed.

Lemma rep_movs_up cnt m d s b :
  mem_ok m -> d <= s \/ s + w * Z.of_nat cnt <= d ->
  load8 (rep_movs mov w 1 cnt m d s) b =
    if decide (d <= b < d + w * Z.of_nat cnt) then load8 m (s + (b - d)) else load8 m b.
Proof.
  revert m d s. induction cnt as [|cnt IH]; intros m d s Hm Hov.
  { simpl. by rewrite decide_False by lia. }
  cbn [rep_movs]. rewrite IH by (auto; nia). repeat case_decide; try nia.
  - rewrite mov_load by done. rewrite decide_False by nia. f_equal. lia.
  - rewrite mov_load by done. by rewrite decide_True by nia.
  - rewrite mov_load by done. by rewrite decide_False by nia.
Qed.

Lemma rep_movs_down cnt m d s b :
  mem_ok m -> s <= d ->
  load8 (rep_movs mov w (-1) cnt m (d + w * (Z.of_nat cnt - 1)) (s + w * (Z.of_nat cnt - 1))) b =
    if decide (d <= b < d + w * Z.of_nat cnt) then load8 m (s + (b - d)) else load8 m b.
Proof.
  revert m. induction cnt as [|cnt IH]; intros m Hm Hov.
  { simpl. by rewrite decide_False by lia. }
  cbn [rep_movs].
  replace (d + w * (Z.of_nat (S cnt) - 1) + -1 * w) with (d + w * (Z.of_nat cnt - 1)) by lia.
  replace (s + w * (Z.of_nat (S cnt) - 1) + -1 * w) with (s + w * (Z.of_nat cnt - 1)) by lia.
  rewrite IH by auto. repeat case_decide; try nia.
  - rewrite mov_load by done. by rewrite decide_False by nia.
  - rewrite mov_load by done. rewrite decide_True by nia. f_equal. lia.
  - rewrite mov_load by done. by rewrite decide_False by nia.
Qed.
End rep_movs.

Lemma movsb_load m d s b : mem_ok m ->
  load8 (movsb m d s) b = if decide (d <= b < d + 1) then load8 m (s + (b - d)) else load8 m b.
Proof.
  intros Hm. unfold movsb. rewrite load8_store8. repeat case_decide; try lia.
  subst. rewrite u8_small by eauto with cmem. f_equal. lia.
Qed.

Lemma load32_byte m a i :
  mem_ok m -> 0 <= i < 4 -> u8 (load32 m a / 2 ^ (8 * i)) = load8 m (a + i).
Proof.
  intros Hm Hi. unfold load32, u8.
  pose proof (load8_range m a Hm). pose proof (load8_range m (a + 1) Hm).
  pose proof (load8_range m (a + 2) Hm). pose proof (load8_range m (a + 3) Hm).
  assert (i = 0 \/ i = 1 \/ i = 2 \/ i = 3) as [->|[->|[->| ->]]] by lia;
    rewrite ?Z.add_0_r.
  - change (2 ^ (8 * 0)) with 1. dlia.
  - change (2 ^ (8 * 1)) with (2 ^ 8). dlia.
  - change (2 ^ (8 * 2)) with (2 ^ 16). dlia.
  - change (2 ^ (8 * 3)) with (2 ^ 24). dlia.
Qed.

Lemma movsl_load m d s b : mem_ok m ->
  load8 (movsl m d s) b = if decide (d <= b < d + 4) then load8 m (s + (b - d)) else load8 m b.
Proof.
  intros Hm. unfold movsl. case_decide.
  - replace b with (d + (b - d)) at 1 by lia.
    rewrite load8_store32_in by lia. by rewrite load32_byte by (done || lia).
  - apply load8_store32_out. lia.
Qed.

Lemma movsb_ok m d s : mem_ok m -> mem_ok (movsb m d s).
Proof. unfold movsb. eauto with cmem. Qed.

Lemma movsl_ok m d s : mem_ok m -> mem_ok (movsl m d s).
Proof. unfold movsl. eauto with cmem. Qed.
#[export] Hint Resolve movsb_ok movsl_ok movsb_load movsl_load : cmem.

(** Whichever element width is chosen, when words are chosen only for a
    multiple of four bytes. *)
Lemma rep_movs_up_choice (c : bool) m d s n b :
  mem_ok m -> 0 <= n -> (c = true -> n mod 4 = 0) -> d <= s \/ s + n <= d ->
  load8 (if c then rep_movs movsl 4 1 (Z.to_nat (n / 4)) m d s
         else rep_movs movsb 1 1 (Z.to_nat n) m d s) b =
    if decide (d <= b < d + n) then load8 m (s + (b - d)) else load8 m b.
Proof.
  intros Hm Hn Hc Hov. destruct c.
  - assert (4 * Z.of_nat (Z.to_nat (n / 4)) = n) as H4 by (specialize (Hc eq_refl); dlia).
    rewrite (rep_movs_up movsl 4) by (eauto with cmem; lia). by rewrite H4.
  - rewrite (rep_movs_up movsb 1) by (eauto with cmem; lia). by rewrite Z.mul_1_l, Z2Nat.id.
Qed.

Lemma rep_movs_down_choice (c : bool) m d s n b :
  mem_ok m -> 0 <= n -> (c = true -> n mod 4 = 0) -> s <= d ->
  load8 (if c then rep_movs movsl 4 (-1) (Z.to_nat (n / 4)) m (d + n - 4) (s + n - 4)
         else rep_movs movsb 1 (-1) (Z.to_nat n) m (d + n - 1) (s + n - 1)) b =
    if decide (d <= b < d + n) then load8 m (s + (b - d)) else load8 m b.
Proof.
  intros Hm Hn Hc Hov. destruct c.
  - assert (4 * Z.of_nat (Z.to_nat (n / 4)) = n) as H4 by (specialize (Hc eq_refl); dlia).
    replace (d + n - 4) with (d + 4 * (Z.of_nat (Z.to_nat (n / 4)) - 1)) by lia.
    replace (s + n - 4) with (s + 4 * (Z.of_nat (Z.to_nat (n / 4)) - 1)) by lia.
    rewrite (rep_movs_down movsl 4) by (eauto with cmem; lia). by rewrite H4.
  - replace (d + n - 1) with (d + 1 * (Z.of_nat (Z.to_nat n) - 1)) by lia.
    replace (s + n - 1) with (s + 1 * (Z.of_nat (Z.to_nat n) - 1)) by lia.
    rewrite (rep_movs_down movsb 1) by (eauto with cmem; lia).
    by rewrite Z.mul_1_l, Z2Nat.id.
Qed.

(** C31: [memmove] copies [n] bytes as if through a temporary, however the two
    regions overlap: on every path (upwards or downwards, bytes or 32-bit
    words) byte [i] of the destination ends with the value byte [i] of the
    source had before the call, and no other byte changes. *)
Theorem memmove_spec m dst src n b :
  mem_ok m -> 0 <= n ->
  load8 (memmove m dst src n) b =
    if decide (dst <= b < dst + n) then load8 m (src + (b - dst)) else load8 m b.
Proof.
  intros Hm Hn. unfold memmove.
  destruct (Z.ltb_spec src dst), (Z.ltb_spec dst (src + n)); simpl;
    first [apply rep_movs_down_choice | apply rep_movs_up_choice]; try lia; try done;
    rewrite !andb_true_iff, !Z.eqb_eq; tauto.
Qed.

(** The overlapping case that runs downwards, words and bytes. *)
Lemma memmove_spec_witness :
  let m : mem := list_to_map (zip (seqZ 100 8) [1; 2; 3; 4; 5; 6; 7; 8]) in
  load8 (memmove m 104 100 8) 107 = 4 /\ load8 (memmove m 101 100 7) 107 = 7.
Proof.
  assert (mem_ok (list_to_map (zip (seqZ 100 8) [1; 2; 3; 4; 5; 6; 7; 8]))) as Hm.
  { apply (bool_decide_unpack _). vm_compute. exact I. }
  intros m. split.
  - rewrite memmove_spec; [vm_compute; reflexivity | exact Hm | lia].
  - rewrite memmove_spec; [vm_compute; reflexivity | exact Hm | lia].
Defined.

(** ** [memset] *)

Lemma rep_stosl_load cnt m d w b :
  load8 (rep_stosl cnt m d w) b =
    if decide (d <= b < d + 4 * Z.of_nat cnt)
    then u8 (w / 2 ^ (8 * ((b - d) mod 4))) else load8 m b.
Proof.
  revert m d. induction cnt as [|cnt IH]; intros m d; cbn [rep_stosl].
  { by rewrite decide_False by lia. }
  rewrite IH. repeat case_decide; try lia.
  - do 2 f_equal. f_equal. dlia.
  - replace b with (d + (b - d)) at 1 by lia. rewrite load8_store32_in by lia.
    by rewrite Z.mod_small by lia.
  - apply load8_store32_out. lia.
Qed.

Lemma rep_stosb_load cnt m d c b :
  load8 (rep_stosb cnt m d c) b =
    if decide (d <= b < d + Z.of_nat cnt) then u8 c else load8 m b.
Proof.
  revert m d. induction cnt as [|cnt IH]; intros m d; cbn [rep_stosb].
  { by rewrite decide_False by lia. }
  rewrite IH, load8_store8. repeat case_decide; lia || done.
Qed.

Lemma mem_ok_rep_stosl cnt m d w : mem_ok m -> mem_ok (rep_stosl cnt m d w).
Proof. revert m d. induction cnt; simpl; eauto with cmem. Qed.

Lemma mem_ok_rep_stosb cnt m d c : mem_ok m -> mem_ok (rep_stosb cnt m d c).
Proof. revert m d. induction cnt; simpl; eauto with cmem. Qed.

Lemma mem_ok_memset m v c n : mem_ok m -> mem_ok (memset m v c n).
Proof.
  intros. unfold memset. repeat case_match; auto using mem_ok_rep_stosl, mem_ok_rep_stosb.
Qed.

(** The word [memset] builds holds its byte four times. *)
Lemma splat_byte c i :
  0 <= i < 4 ->
  u8 (Z.lor (Z.lor (Z.lor (Z.shiftl (Z.land c 255) 24) (Z.shiftl (Z.land c 255) 16))
    (Z.shiftl (Z.land c 255) 8)) (Z.land c 255) / 2 ^ (8 * i)) = u8 c.
Proof.
  intros Hi. change 255 with (Z.ones 8). rewrite Z.land_ones by lia. fold (u8 c).
  pose proof (u8_range c) as Hc. generalize dependent (u8 c). intros x Hx.
  rewrite !Z.shiftl_mul_pow2 by lia.
  rewrite (lor_low_add (x * 2 ^ 24) (x * 2 ^ 16) 24) by (lia || dlia).
  rewrite (lor_low_add _ (x * 2 ^ 8) 16) by (lia || dlia).
  rewrite (lor_low_add _ x 8) by (lia || dlia). unfold u8.
  assert (i = 0 \/ i = 1 \/ i = 2 \/ i = 3) as [->|[->|[->| ->]]] by lia.
  - change (2 ^ (8 * 0)) with 1. dlia.
  - change (2 ^ (8 * 1)) with (2 ^ 8). dlia.
  - change (2 ^ (8 * 2)) with (2 ^ 16). dlia.
  - change (2 ^ (8 * 3)) with (2 ^ 24). dlia.
Qed.

(** [memset] fills exactly the [n] bytes at [v], by words or by bytes. *)
Lemma memset_load m v c n b :
  0 <= n -> load8 (memset m v c n) b = if decide (v <= b < v + n) then u8 c else load8 m b.
Proof.
  intros Hn. unfold memset. destruct (Z.eqb_spec n 0) as [->|].
  { by rewrite decide_False by lia. }
  destruct ((_ =? 0) && _) eqn:Hc.
  - rewrite andb_true_iff, !Z.eqb_eq in Hc. destruct Hc as [_ Hc].
    rewrite rep_stosl_load. rewrite Z2Nat.id by dlia.
    replace (4 * (n / 4)) with n by dlia. case_decide; [|done].
    apply splat_byte. dlia.
  - rewrite rep_stosb_load. by rewrite Z2Nat.id.
Qed.

Lemma load32_memset_0 m v n a :
  0 <= n -> v <= a -> a + 4 <= v + n -> load32 (memset m v 0 n) a = 0.
Proof.
  intros. unfold load32. rewrite !memset_load by done. by rewrite !decide_True by lia.
Qed.

Lemma load32_memset_out m v c n a :
  0 <= n -> a + 4 <= v \/ v + n <= a -> load32 (memset m v c n) a = load32 m a.
Proof.
  intros. apply load32_ext. intros. rewrite memset_load by done.
  by rewrite decide_False by lia.
Qed.
#[export] Hint Resolve mem_ok_memset : cmem.

(** ** String copies *)

(** Storing the bytes [bs] one after the other from [d] on. *)
Fixpoint store_bytes (m : mem) (d : Z) (bs : list Z) : mem :=
  match bs with
  | [] => m
  | b :: bs' => store_bytes (store8 m d b) (d + 1) bs'
  end.

Lemma store_bytes_out m d bs b :
  b < d \/ d + Z.of_nat (length bs) <= b -> load8 (store_bytes m d bs) b = load8 m b.
Proof.
  revert m d. induction bs as [|c bs IH]; intros m d Hb; simpl in *; [done|].
  rewrite IH by lia. apply load8_store8_ne. lia.
Qed.

Lemma store_bytes_snoc m d bs b :
  store_bytes m d (bs ++ [b]) = store8 (store_bytes m d bs) (d + Z.of_nat (length bs)) b.
Proof.
  revert m d. induction bs as [|c bs IH]; intros m d; simpl; [by rewrite Z.add_0_r|].
  rewrite IH. f_equal. lia.
Qed.

(** The bytes of a string are non-zero and fit a byte. *)
Lemma cstr_bytes m p bs : mem_ok m -> cstr_at m p bs -> Forall (fun b => 0 < b < 2 ^ 8) bs.
Proof.
  intros Hm. revert p. induction bs as [|b bs IH]; intros p Hp; [constructor|].
  destruct Hp as (Hb & Hl & Hp). pose proof (load8_range m p Hm).
  constructor; [lia|by eapply IH].
Qed.

Lemma cstr_at_store_bytes m d bs :
  Forall (fun b => 0 < b < 2 ^ 8) bs -> cstr_at (store_bytes m d (bs ++ [0])) d bs.
Proof.
  intros Hbs. revert m d. induction Hbs as [|b bs Hb _ IH]; intros m d.
  - simpl. by rewrite load8_store8_eq.
  - cbn [store_bytes app cstr_at]. split_and!; [lia| |apply IH].
    rewrite store_bytes_out by lia. rewrite load8_store8_eq. apply u8_small. lia.
Qed.

Lemma strcpy_loop_spec m dst src bs fuel :
  mem_ok m -> cstr_at m src bs ->
  dst + Z.of_nat (length bs) < src \/ src + Z.of_nat (length bs) < dst ->
  (length bs < fuel)%nat ->
  strcpy_loop fuel m dst src = Some (store_bytes m dst (bs ++ [0])).
Proof.
  revert m dst src fuel.
  induction bs as [|b bs IH]; intros m dst src [|fuel] Hm Hp Hd Hf; cbn [length] in *; try lia;
    cbn [strcpy_loop].
  - simpl in Hp. by rewrite Hp.
  - destruct Hp as (Hb & -> & Hp). destruct (Z.eqb_spec b 0); [done|].
    simpl. apply IH; [eauto with cmem| |lia|lia].
    eapply cstr_at_ext; [|done]. intros c Hc. symmetry. apply load8_store8_ne. lia.
Qed.

(** [strcpy] between disjoint buffers returns its destination, which then
    holds the source string with its terminator; no byte outside
    [dst .. dst + strlen(src)] changes, and fuel beyond the length suffices. *)
Theorem strcpy_spec m dst src bs fuel :
  mem_ok m -> cstr_at m src bs ->
  dst + Z.of_nat (length bs) < src \/ src + Z.of_nat (length bs) < dst ->
  (length bs < fuel)%nat ->
  exists m', strcpy fuel m dst src = Some (m', dst) /\ cstr_at m' dst bs /\
    forall b, b < dst \/ dst + Z.of_nat (length bs) < b -> load8 m' b = load8 m b.
Proof.
  intros Hm Hp Hd Hf. eexists. unfold strcpy.
  rewrite (strcpy_loop_spec m dst src bs) by done. split; [done|]. split.
  - eapply cstr_at_store_bytes, cstr_bytes; eauto.
  - intros b Hb. apply store_bytes_out. rewrite length_app. simpl. lia.
Qed.

Lemma strlcpy_loop_spec m dst src bs n :
  mem_ok m -> cstr_at m src bs ->
  dst + Z.of_nat n <= src \/ src + Z.of_nat (length bs) < dst ->
  strlcpy_loop n m dst src =
    (store_bytes m dst (take n bs), dst + Z.of_nat (length (take n bs))).
Proof.
  revert m dst src bs. induction n as [|n IH]; intros m dst src bs Hm Hp Hd.
  { simpl. by rewrite Z.add_0_r. }
  cbn [strlcpy_loop]. destruct bs as [|b bs]; simpl in Hp.
  - rewrite Hp. simpl. by rewrite Z.add_0_r.
  - destruct Hp as (Hb & -> & Hp). destruct (Z.eqb_spec b 0); [done|].
    rewrite (IH _ _ _ bs); [simpl; f_equal; lia|eauto with cmem| |simpl in *; lia].
    eapply cstr_at_ext; [|done]. intros c Hc. symmetry. apply load8_store8_ne.
    simpl in *. lia.
Qed.

(** [strlcpy] never writes past the [size] bytes of its destination: from a
    source that does not overlap it, it copies the longest prefix that fits with
    its terminator, terminates it, returns its length and leaves every other
    byte as it was. *)
Theorem strlcpy_spec m dst src bs size :
  mem_ok m -> cstr_at m src bs -> 0 < size ->
  dst + size <= src \/ src + Z.of_nat (length bs) < dst ->
  exists m', strlcpy m dst src size = (m', Z.min (size - 1) (Z.of_nat (length bs))) /\
    cstr_at m' dst (take (Z.to_nat (size - 1)) bs) /\
    forall b, b < dst \/ dst + size <= b -> load8 m' b = load8 m b.
Proof.
  intros Hm Hp Hs Hd. unfold strlcpy. destruct (Z.ltb_spec 0 size); [|lia].
  rewrite (strlcpy_loop_spec m dst src bs) by (done || lia).
  rewrite <- store_bytes_snoc, length_take. eexists. split_and!.
  - f_equal. lia.
  - apply cstr_at_store_bytes, Forall_take. by eapply cstr_bytes.
  - intros b Hb. apply store_bytes_out. rewrite length_app, length_take. simpl. lia.
Qed.

Lemma strcpy_spec_witness :
  exists m', strcpy 3 (store_bytes ∅ 16 [79; 75; 0]) 32 16 = Some (m', 32) /\
    cstr_at m' 32 [79; 75].
Proof.
  destruct (strcpy_spec (store_bytes ∅ 16 [79; 75; 0]) 32 16 [79; 75] 3)
    as (m' & H1 & H2 & _); [apply (bool_decide_unpack _); vm_compute; exact I| |simpl; lia..|].
  - vm_compute. repeat split; discriminate.
  - exists m'. split; [exact H1|exact H2].
Defined.

(** Truncation: two characters and the terminator fit the three bytes. *)
Lemma strlcpy_spec_witness :
  exists m', strlcpy (store_bytes ∅ 16 [74; 79; 83; 33; 0]) 32 16 3 = (m', 2) /\
    cstr_at m' 32 [74; 79] /\ load8 m' 35 = 0.
Proof.
  destruct (strlcpy_spec (store_bytes ∅ 16 [74; 79; 83; 33; 0]) 32 16 [74; 79; 83; 33] 3)
    as (m' & H1 & H2 & H3); [apply (bool_decide_unpack _); vm_compute; exact I| |simpl; lia..|].
  - vm_compute. repeat split; discriminate.
  - exists m'. split; [exact H1|]. split; [exact H2|]. apply H3. lia.
Defined.
