(* ===== verification/JosPrintfmt.v ===== *)
(** * Formatted output (lab3/lib/printfmt.c, lab3/kern/printf.c)

    [vprintfmt] and everything it calls, as routines over the characters put so
    far and the variadic arguments left.  An argument is a 32-bit slot of the
    argument area or a pointer to a string, given by the string it points to;
    fetching an argument of the wrong kind, which C leaves undefined, is the
    panic ["va_arg"].  A format string ends where its list does. *)

From S2P Require Import Prelude CMem JosString.
From stdpp Require Import base numbers option list gmap strings.
From Stdlib Require Import Ascii.
Open Scope Z_scope.

Inductive arg : Type :=
| AInt (w : Z)
| AStr (s : option (list Z)).

Record pstate : Type := PState { out : list Z; ap : list arg }.

Definition putch (ch : Z) : M pstate unit :=
  modify (fun s => PState (out s ++ [ch]) (ap s)).

Definition va_word : M pstate Z := fun s =>
  match ap s with
  | AInt w :: ap' => Ok (u32 w) (PState (out s) ap')
  | _ => Panic "va_arg" s
  end.

Definition va_str : M pstate (option (list Z)) := fun s =>
  match ap s with
  | AStr p :: ap' => Ok p (PState (out s) ap')
  | _ => Panic "va_arg" s
  end.

Definition va_int : M pstate Z := w ← va_word; mret (i32 w).

Definition E_INVAL : Z := 3.
Definition E_NO_MEM : Z := 4.
Definition MAXERROR : Z := 7.

Definition error_string (err : Z) : option (list Z) :=
  match err with
  | 1 => Some (zs "unspecified error")
  | 2 => Some (zs "bad environment")
  | 3 => Some (zs "invalid parameter")
  | 4 => Some (zs "out of memory")
  | 5 => Some (zs "out of environments")
  | 6 => Some (zs "segmentation fault")
  | _ => None
  end.

Fixpoint put_n (n : nat) (c : Z) : M pstate unit :=
  match n with
  | O => mret tt
  | S k => putch c;; put_n k c
  end.

Definition hexdigit (d : Z) : Z := nth (Z.to_nat d) (zs "0123456789abcdef") 0.

Fixpoint printnum (fuel : nat) (num base width padc : Z) : M pstate unit :=
  match fuel with
  | O => no_fuel
  | S f =>
      (if base <=? num then printnum f (num / base) base (width - 1) padc
       else put_n (Z.to_nat (width - 1)) padc);;
      putch (hexdigit (num mod base))
  end.

Definition getuint (lflag : Z) : M pstate Z :=
  if 2 <=? lflag then lo ← va_word; hi ← va_word; mret (lo + 2 ^ 32 * hi)
  else va_word.

Definition getint (lflag : Z) : M pstate Z :=
  if 2 <=? lflag then lo ← va_word; hi ← va_word; mret (i64 (lo + 2 ^ 32 * hi))
  else va_int.

(** The local variables of an escape sequence. *)
Record esc : Type := Esc {
  padc : Z; width : Z; precision : Z; lflag : Z; altflag : bool }.

Definition esc0 : esc := Esc (zc " ") (-1) (-1) 0 false.

Definition is_digit (c : Z) : bool := (zc "0" <=? c) && (c <=? zc "9").

(** The width loop: the digits of the field and the rest of the format. *)
Fixpoint read_number (prec ch : Z) (fmt : list Z) : Z * list Z :=
  let prec := i32 (prec * 10 + ch - zc "0") in
  match fmt with
  | c :: fmt' => if is_digit (i8 c) then read_number prec c fmt' else (prec, fmt)
  | [] => (prec, [])
  end.

Definition process_precision (e : esc) (prec : Z) : esc :=
  if width e <? 0 then Esc (padc e) prec (-1) (lflag e) (altflag e)
  else Esc (padc e) (width e) prec (lflag e) (altflag e).

(** The characters of a [%s] argument; the result is the width left. *)
Fixpoint put_str (p : list Z) (prec w : Z) (alt : bool) : M pstate Z :=
  match p with
  | [] => mret w
  | b :: p' =>
      if (prec <? 0) || (0 <=? prec - 1) then
        let ch := i8 b in
        putch (if alt && ((ch <? zc " ") || (zc "~" <? ch)) then zc "?" else ch);;
        put_str p' (if prec <? 0 then prec else prec - 1) (w - 1) alt
      else mret w
  end.

Definition fmt_string (e : esc) : M pstate unit :=
  p ← va_str;
  let p := default (zs "(null)") p in
  w ← (if (0 <? width e) && negb (padc e =? zc "-") then
         let w := width e - Z.min (u32 (precision e)) (Z.of_nat (length p)) in
         put_n (Z.to_nat w) (padc e);; mret (Z.min w 0)
       else mret (width e));
  w ← put_str p (precision e) w (altflag e);
  put_n (Z.to_nat w) (zc " ").

Definition fmt_number (num base : Z) (e : esc) : M pstate unit :=
  printnum 65 num base (width e) (padc e).

Definition fmt_decimal (e : esc) : M pstate unit :=
  num ← getint (lflag e);
  if num <? 0 then putch (zc "-");; fmt_number (u64 (- num)) 10 e
  else fmt_number num 10 e.

(** A nested [printfmt] call, with an argument list of its own. *)
Definition with_args (args : list arg) (m : M pstate unit) : M pstate unit :=
  saved ← gets ap;
  modify (fun s => PState (out s) args);; m;;
  modify (fun s => PState (out s) saved).

Fixpoint vprintfmt (fuel : nat) (fmt : list Z) : M pstate unit :=
  match fuel with
  | O => no_fuel
  | S f =>
      match fmt with
      | [] => mret tt
      | ch :: fmt' =>
          if ch =? zc "%" then reswitch f fmt' fmt' esc0
          else putch ch;; vprintfmt f fmt'
      end
  end

(** The [switch] of an escape sequence: [start] is the format right after its
    percent sign, where an unrecognised sequence resumes. *)
with reswitch (fuel : nat) (start fmt : list Z) (e : esc) : M pstate unit :=
  match fuel with
  | O => no_fuel
  | S f =>
      match fmt with
      | [] => putch (zc "%");; vprintfmt f start
      | ch :: fmt' =>
          if ch =? zc "-" then
            reswitch f start fmt' (Esc (zc "-") (width e) (precision e) (lflag e) (altflag e))
          else if ch =? zc "0" then
            reswitch f start fmt' (Esc (zc "0") (width e) (precision e) (lflag e) (altflag e))
          else if is_digit ch then
            let '(prec, fmt'') := read_number 0 ch fmt' in
            reswitch f start fmt'' (process_precision e prec)
          else if ch =? zc "*" then
            prec ← va_int; reswitch f start fmt' (process_precision e prec)
          else if ch =? zc "." then
            reswitch f start fmt'
              (Esc (padc e) (Z.max (width e) 0) (precision e) (lflag e) (altflag e))
          else if ch =? zc "#" then
            reswitch f start fmt' (Esc (padc e) (width e) (precision e) (lflag e) true)
          else if ch =? zc "l" then
            reswitch f start fmt'
              (Esc (padc e) (width e) (precision e) (lflag e + 1) (altflag e))
          else if ch =? zc "c" then c ← va_int; putch c;; vprintfmt f fmt'
          else if ch =? zc "e" then
            err ← va_int;
            let err := if err <? 0 then i32 (- err) else err in
            (if err <? 0 then panic "error_string[err]"
             else match (if MAXERROR <=? err then None else error_string err) with
                  | None => with_args [AInt err] (vprintfmt f (zs "error %d"))
                  | Some p => with_args [AStr (Some p)] (vprintfmt f (zs "%s"))
                  end);;
            vprintfmt f fmt'
          else if ch =? zc "s" then fmt_string e;; vprintfmt f fmt'
          else if ch =? zc "d" then fmt_decimal e;; vprintfmt f fmt'
          else if ch =? zc "u" then
            num ← getuint (lflag e); fmt_number num 10 e;; vprintfmt f fmt'
          else if ch =? zc "o" then
            putch (zc "X");; putch (zc "X");; putch (zc "X");; vprintfmt f fmt'
          else if ch =? zc "p" then
            putch (zc "0");; putch (zc "x");;
            num ← va_word; fmt_number num 16 e;; vprintfmt f fmt'
          else if ch =? zc "x" then
            num ← getuint (lflag e); fmt_number num 16 e;; vprintfmt f fmt'
          else if ch =? zc "%" then putch ch;; vprintfmt f fmt'
          else putch (zc "%");; vprintfmt f start
      end
  end.

(** Fuel that is always enough for a format of this length. *)
Definition fmt_fuel (fmt : list Z) : nat := (length fmt + 2) * (length fmt + 2) + 120.

Definition printfmt (fmt : list Z) (args : list arg) : res pstate unit :=
  vprintfmt (fmt_fuel fmt) fmt (PState [] args).

Example vprintfmt_ex1 :
  printfmt (zs "x %5d|%-4s|%s|%08x %e%z") [AInt (-42); AStr (Some (zs "ab")); AStr None;
    AInt 3735928559; AInt (-4)] =
  Ok tt (PState (zs "x -   42|ab  |(null)|deadbeef out of memory%z") []).
Proof. vm_compute. reflexivity. Qed.

(** ** Numbers *)

(** The digits of [n], most significant first, and the number they denote. *)
Fixpoint digits (fuel : nat) (base n : Z) : list Z :=
  match fuel with
  | O => []
  | S f => if base <=? n then digits f base (n / base) ++ [n mod base] else [n mod base]
  end.

Definition value (base : Z) (ds : list Z) : Z := foldl (fun v d => v * base + d) 0 ds.

Lemma foldl_value_app base v ds d :
  foldl (fun v d => v * base + d) v (ds ++ [d]) =
  foldl (fun v d => v * base + d) v ds * base + d.
Proof. by rewrite foldl_app. Qed.

Lemma put_n_run n c s :
  put_n n c s = Ok tt (PState (out s ++ replicate n c) (ap s)).
Proof.
  revert s. induction n as [|n IH]; intros s.
  - simpl. rewrite app_nil_r. by destruct s.
  - cbn [put_n]. unfold mbind, M_bind, putch, modify. rewrite IH. simpl.
    by rewrite <- app_assoc.
Qed.

Lemma length_digits fuel base n : (0 < length (digits (S fuel) base n))%nat.
Proof. simpl. case_match; [rewrite length_app; simpl; lia|simpl; lia]. Qed.

Lemma pow_succ base (fuel : nat) : 0 < base -> base ^ Z.of_nat (S fuel) = base * base ^ Z.of_nat fuel.
Proof. intros. rewrite Nat2Z.inj_succ, Z.pow_succ_r by lia. done. Qed.

Lemma printnum_run fuel num base w c s :
  2 <= base -> 0 <= num < base ^ Z.of_nat fuel -> (0 < fuel)%nat ->
  printnum fuel num base w c s =
    Ok tt (PState (out s ++ replicate (Z.to_nat (w - Z.of_nat (length (digits fuel base num)))) c
                     ++ map hexdigit (digits fuel base num)) (ap s)).
Proof.
  intros Hb. revert num w s. induction fuel as [|fuel IH]; intros num w s Hn Hf; [lia|].
  rewrite pow_succ in Hn by lia.
  cbn [printnum digits]. destruct (Z.leb_spec base num).
  - unfold mbind, M_bind. rewrite IH.
    + unfold putch, modify. simpl. rewrite length_app, map_app, <- !app_assoc. simpl.
      by replace (w - Z.of_nat (length (digits fuel base (num / base)) + 1))
        with (w - 1 - Z.of_nat (length (digits fuel base (num / base)))) by lia.
    + split; [apply Z.div_pos; lia|]. apply Z.div_lt_upper_bound; lia.
    + destruct fuel; [|lia]. simpl in Hn. lia.
  - unfold mbind, M_bind. rewrite put_n_run. unfold putch, modify. simpl.
    by rewrite <- app_assoc.
Qed.

Lemma digits_value fuel base n :
  2 <= base -> 0 <= n < base ^ Z.of_nat fuel -> value base (digits fuel base n) = n.
Proof.
  intros Hb. revert n. induction fuel as [|fuel IH]; intros n Hn.
  { simpl in *. unfold value. simpl. lia. }
  rewrite pow_succ in Hn by lia. cbn [digits]. unfold value in *.
  destruct (Z.leb_spec base n).
  - rewrite foldl_value_app, IH.
    + pose proof (Z.div_mod n base). lia.
    + split; [apply Z.div_pos; lia|apply Z.div_lt_upper_bound; lia].
  - simpl. rewrite Z.mod_small; lia.
Qed.

Lemma digits_range fuel base n : 2 <= base -> Forall (fun d => 0 <= d < base) (digits fuel base n).
Proof.
  intros Hb. revert n. induction fuel as [|fuel IH]; intros n; [constructor|]. cbn [digits].
  case_match; [apply Forall_app; split; [done|]|]; (constructor; [apply Z.mod_pos_bound; lia|constructor]).
Qed.

Lemma digits_head fuel base n d ds :
  2 <= base -> 0 < n < base ^ Z.of_nat fuel -> digits fuel base n = d :: ds -> d <> 0.
Proof.
  intros Hb. revert n ds. induction fuel as [|fuel IH]; intros n ds Hn; [done|].
  rewrite pow_succ in Hn by lia. cbn [digits]. destruct (Z.leb_spec base n).
  - destruct (digits fuel base (n / base)) as [|d' ds'] eqn:E; simpl; intros; simplify_eq.
    + destruct fuel; [simpl in Hn; lia|].
      pose proof (length_digits fuel base (n / base)) as Hl. rewrite E in Hl. simpl in Hl. lia.
    + eapply (IH (n / base)); [|done].
      split; [apply Z.div_str_pos; lia|apply Z.div_lt_upper_bound; lia].
  - intros; simplify_eq. rewrite Z.mod_small; lia.
Qed.

Lemma fuel65 base n : 2 <= base -> 0 <= n < 2 ^ 64 -> 0 <= n < base ^ Z.of_nat 65.
Proof.
  intros Hb Hn. split; [lia|]. eapply Z.lt_le_trans; [apply Hn|].
  apply Z.le_trans with (2 ^ Z.of_nat 65).
  - apply Z.pow_le_mono_r; lia.
  - apply Z.pow_le_mono_l. lia.
Qed.

(** [printnum] on any 64-bit number, in base 10 or 16, puts the padding up
    to the field width and then the digits of the number: digits of the base,
    which denote the number, with no leading zero unless it is zero. *)
Theorem printnum_spec num base w c s :
  2 <= base -> 0 <= num < 2 ^ 64 ->
  exists ds, printnum 65 num base w c s =
      Ok tt (PState (out s ++ replicate (Z.to_nat (w - Z.of_nat (length ds))) c
                       ++ map hexdigit ds) (ap s)) /\
    value base ds = num /\ Forall (fun d => 0 <= d < base) ds /\
    (0 < num -> hd 0 ds <> 0) /\ ds <> [].
Proof.
  intros Hb Hn. exists (digits 65 base num).
  pose proof (fuel65 base num Hb Hn) as Hlt.
  split_and!.
  - by apply printnum_run; [..|lia].
  - by apply digits_value.
  - by apply digits_range.
  - intros H. pose proof (length_digits 64 base num).
    destruct (digits 65 base num) as [|d ds] eqn:E; [simpl in *; lia|].
    simpl. eapply (digits_head 65 base num); (done || lia).
  - pose proof (length_digits 64 base num) as Hl. intros E. rewrite E in Hl. simpl in Hl. lia.
Qed.

(** ** Termination of [vprintfmt] *)

Lemma tpost_putch c : tpost (putch c) (fun _ => True).
Proof. by intros s. Qed.

Lemma tpost_va_word : tpost va_word (fun w => 0 <= w < 2 ^ 32).
Proof. intros s. unfold va_word. destruct (ap s) as [|[w|?] ?]; try done. apply u32_range. Qed.

Lemma tpost_va_str : tpost va_str (fun _ => True).
Proof. intros s. unfold va_str. by destruct (ap s) as [|[?|?] ?]. Qed.

Lemma tpost_va_int : tpost va_int (fun w => - 2 ^ 31 <= w < 2 ^ 31).
Proof. eapply tpost_bind; [apply tpost_va_word|]. intros. apply tpost_ret, i32_range. Qed.

Lemma tpost_getuint l : tpost (getuint l) (fun w => 0 <= w < 2 ^ 64).
Proof.
  unfold getuint. case_match.
  - eapply tpost_bind; [apply tpost_va_word|]. cbv beta; intros lo ?.
    eapply tpost_bind; [apply tpost_va_word|]. cbv beta; intros hi ?. apply tpost_ret. lia.
  - eapply tpost_mono; [apply tpost_va_word|]. simpl. lia.
Qed.

Lemma i64_range z : - 2 ^ 63 <= i64 z < 2 ^ 63.
Proof.
  unfold i64. pose proof (Z.mod_pos_bound (z + 2 ^ 63) (2 ^ 64) ltac:(lia)). lia.
Qed.

Lemma tpost_getint l : tpost (getint l) (fun w => - 2 ^ 63 <= w < 2 ^ 63).
Proof.
  unfold getint. case_match.
  - eapply tpost_bind; [apply tpost_va_word|]. cbv beta; intros lo ?.
    eapply tpost_bind; [apply tpost_va_word|]. cbv beta; intros hi ?. apply tpost_ret, i64_range.
  - eapply tpost_mono; [apply tpost_va_int|]. simpl. lia.
Qed.

Lemma tpost_put_n n c : tpost (put_n n c) (fun _ => True).
Proof. intros s. by rewrite put_n_run. Qed.

Lemma tpost_number num base e :
  2 <= base -> 0 <= num < 2 ^ 64 -> tpost (fmt_number num base e) (fun _ => True).
Proof.
  intros Hb Hn s. unfold fmt_number.
  rewrite printnum_run; [done|done|by apply fuel65|lia].
Qed.

Lemma tpost_put_str p prec w alt : tpost (put_str p prec w alt) (fun _ => True).
Proof.
  revert prec w. induction p as [|b p IH]; intros prec w; cbn [put_str]; [by apply tpost_ret|].
  case_match; [|by apply tpost_ret]. eapply tpost_bind; [apply tpost_putch|]. auto.
Qed.

Lemma tpost_string e : tpost (fmt_string e) (fun _ => True).
Proof.
  eapply tpost_bind; [apply tpost_va_str|]. intros p _.
  eapply tpost_bind with (P := fun _ => True).
  { case_match; [|by apply tpost_ret].
    eapply tpost_bind; [apply tpost_put_n|]. intros. by apply tpost_ret. }
  intros w _. eapply tpost_bind; [apply tpost_put_str|]. intros. apply tpost_put_n.
Qed.

Lemma tpost_decimal e : tpost (fmt_decimal e) (fun _ => True).
Proof.
  eapply tpost_bind; [apply tpost_getint|]. cbv beta; intros num Hn.
  destruct (Z.ltb_spec num 0).
  - eapply tpost_bind; [apply tpost_putch|]. intros _ _. apply tpost_number; [lia|].
    unfold u64. apply Z.mod_pos_bound. lia.
  - apply tpost_number; lia.
Qed.
#[export] Hint Resolve tpost_putch tpost_va_word tpost_va_str tpost_va_int tpost_string
  tpost_decimal tpost_put_n : cwp.

Lemma tpost_with_args args m :
  tpost m (fun _ => True) -> tpost (with_args args m) (fun _ => True).
Proof.
  intros Hm. eapply tpost_bind; [apply tpost_gets|]. intros saved _.
  eapply tpost_bind with (P := fun _ => True); [by apply tpost_modify|]. intros _ _.
  eapply tpost_bind; [apply Hm|]. intros. by apply tpost_modify.
Qed.

(** The two formats of [%e]. *)
Lemma tpost_error_d f : tpost (vprintfmt (12 + f) (zs "error %d")) (fun _ => True).
Proof.
  assert (vprintfmt (12 + f) (zs "error %d") =
    (putch (zc "e");; putch (zc "r");; putch (zc "r");; putch (zc "o");; putch (zc "r");;
     putch (zc " ");; fmt_decimal esc0;; vprintfmt (4 + f) [])) as -> by reflexivity.
  repeat (eapply tpost_bind; [by eauto with cwp|intros ? _]). by apply tpost_ret.
Qed.

Lemma tpost_error_s f : tpost (vprintfmt (12 + f) (zs "%s")) (fun _ => True).
Proof.
  assert (vprintfmt (12 + f) (zs "%s") = (fmt_string esc0;; vprintfmt (10 + f) [])) as ->
    by reflexivity.
  eapply tpost_bind; [by eauto with cwp|intros ? _]. by apply tpost_ret.
Qed.

Lemma read_number_length prec ch fmt :
  (length (snd (read_number prec ch fmt)) <= length fmt)%nat.
Proof.
  revert prec ch. induction fmt as [|c fmt IH]; intros prec ch; simpl; [lia|].
  case_match; simpl; [|lia]. etrans; [apply IH|lia].
Qed.

Ltac tbind t := eapply tpost_bind; [apply t; lia|cbv beta; intros ? ?].

Definition enough (n fuel : nat) : Prop := ((n + 2) * (n + 2) + 100 <= fuel)%nat.

(** An escape sequence, given that the rest of the format is printed. *)
Lemma tpost_reswitch n start :
  (forall fuel fmt, (length fmt <= n)%nat -> enough n fuel ->
     tpost (vprintfmt fuel fmt) (fun _ => True)) ->
  (length start <= n)%nat ->
  forall fmt fuel e, (length fmt <= n)%nat -> (enough n (fuel - length fmt - 1)) ->
  tpost (reswitch fuel start fmt e) (fun _ => True).
Proof.
  intros Hrest Hstart fmt. remember (length fmt) as k eqn:Hk. revert fmt Hk.
  induction (lt_wf k) as [k _ IH]. intros fmt Hk [|f] e Hn Hf; [unfold enough in Hf; lia|].
  assert (enough n f) as Hf1 by (unfold enough in *; lia).
  destruct fmt as [|ch fmt]; cbn [reswitch].
  { eapply tpost_bind; [apply tpost_putch|]. auto. }
  simpl in Hk. subst k.
  assert (forall fmt' e', (length fmt' <= length fmt)%nat ->
    tpost (reswitch f start fmt' e') (fun _ => True)) as Hre.
  { intros fmt' e' Hl. eapply (IH (length fmt')); [lia|done|lia|]. unfold enough in *. lia. }
  assert (tpost (vprintfmt f fmt) (fun _ => True)) as Hgo by (apply Hrest; [lia|done]).
  assert (exists g, f = (12 + g)%nat) as [g Hg] by (exists (f - 12)%nat; unfold enough in *; lia).
  destruct (ch =? zc "-"); [by apply Hre|].
  destruct (ch =? zc "0"); [by apply Hre|].
  destruct (is_digit ch).
  { pose proof (read_number_length 0 ch fmt) as Hl.
    destruct (read_number 0 ch fmt). by apply Hre. }
  destruct (ch =? zc "*"); [tbind tpost_va_int; by apply Hre|].
  destruct (ch =? zc "."); [by apply Hre|].
  destruct (ch =? zc "#"); [by apply Hre|].
  destruct (ch =? zc "l"); [by apply Hre|].
  destruct (ch =? zc "c"); [tbind tpost_va_int; by tbind tpost_putch|].
  destruct (ch =? zc "e").
  { tbind tpost_va_int. eapply tpost_bind with (P := fun _ => True); [|done]. subst f.
    generalize (if a <? 0 then i32 (- a) else a). intros err.
    destruct (err <? 0); [apply tpost_panic|].
    destruct (if MAXERROR <=? err then None else error_string err); apply tpost_with_args;
      [apply tpost_error_s | apply tpost_error_d]. }
  destruct (ch =? zc "s"); [by tbind tpost_string|].
  destruct (ch =? zc "d"); [by tbind tpost_decimal|].
  destruct (ch =? zc "u"); [tbind tpost_getuint; by tbind tpost_number|].
  destruct (ch =? zc "o"); [do 3 (tbind tpost_putch); done|].
  destruct (ch =? zc "p").
  { do 2 (tbind tpost_putch). tbind tpost_va_word. eapply tpost_bind; [|done].
    apply tpost_number; lia. }
  destruct (ch =? zc "x"); [tbind tpost_getuint; by tbind tpost_number|].
  destruct (ch =? zc "%"); [by tbind tpost_putch|].
  tbind tpost_putch. by apply Hrest.
Qed.

(** C34: [vprintfmt] terminates on every format string and every argument list:
    with the fuel of [fmt_fuel], which the length of the format determines, it
    returns or stops at a missing argument, and never runs out. *)
Theorem vprintfmt_terminates fmt s : vprintfmt (fmt_fuel fmt) fmt s <> NoFuel.
Proof.
  assert (forall n fuel fmt, (length fmt <= n)%nat -> enough n fuel ->
    tpost (vprintfmt fuel fmt) (fun _ => True)) as H.
  { induction n as [|n IH]; intros [|f] [|ch fmt'] Hl Hf; unfold enough in *; simpl in Hl;
      try lia; cbn [vprintfmt]; try by apply tpost_ret.
    destruct (ch =? zc "%").
    - eapply (tpost_reswitch n); [apply IH|lia|lia|unfold enough; lia].
    - tbind tpost_putch. apply IH; lia. }
  specialize (H (length fmt) (fmt_fuel fmt) fmt (le_n _)).
  assert (enough (length fmt) (fmt_fuel fmt)) as He by (unfold enough, fmt_fuel; lia).
  specialize (H He s). by destruct (vprintfmt _ fmt s).
Qed.

(** ** Printing into a buffer, and to the console *)

Record sprintbuf : Type := SprintBuf { sb_buf : Z; sb_ebuf : Z; sb_cnt : Z }.

Definition sprintputch (ch : Z) (st : mem * sprintbuf) : mem * sprintbuf :=
  let '(m, b) := st in
  if sb_buf b <? sb_ebuf b
  then (store8 m (sb_buf b) ch, SprintBuf (sb_buf b + 1) (sb_ebuf b) (sb_cnt b + 1))
  else (m, SprintBuf (sb_buf b) (sb_ebuf b) (sb_cnt b + 1)).

Definition vsnprintf (buf n : Z) (fmt : list Z) (args : list arg) : M mem Z := fun m =>
  if (buf =? 0) || (n <? 1) then Ok (- E_INVAL) m
  else
    match printfmt fmt args with
    | Ok _ s =>
        let '(m', b) :=
          fold_left (fun st ch => sprintputch ch st) (out s)
            (m, SprintBuf buf (buf + n - 1) 0) in
        Ok (sb_cnt b) (store8 m' (sb_buf b) 0)
    | Panic msg _ => Panic msg m
    | NoFuel => NoFuel
    end.

(** [putch] of kern/printf.c: the character goes to the console; [*cnt++]
    advances the local copy of the pointer, so the count stays. *)
Definition cons_putch (ch : Z) (st : list Z * Z) : list Z * Z :=
  let '(con, cnt) := st in (con ++ [ch], cnt).

(** Over the characters the console has been given. *)
Definition vcprintf (fmt : list Z) (args : list arg) : M (list Z) Z := fun con =>
  match printfmt fmt args with
  | Ok _ s =>
      let '(con', cnt) := fold_left (fun st ch => cons_putch ch st) (out s) (con, 0) in
      Ok cnt con'
  | Panic msg _ => Panic msg con
  | NoFuel => NoFuel
  end.

Lemma sprint_fold chs m buf ebuf cnt :
  fold_left (fun st ch => sprintputch ch st) chs (m, SprintBuf buf ebuf cnt) =
    let k := Z.to_nat (ebuf - buf) in
    (store_bytes m buf (take k chs),
     SprintBuf (buf + Z.of_nat (length (take k chs))) ebuf (cnt + Z.of_nat (length chs))).
Proof.
  revert m buf cnt. induction chs as [|ch chs IH]; intros m buf cnt; simpl.
  { rewrite take_nil. simpl. by rewrite !Z.add_0_r. }
  destruct (Z.ltb_spec buf ebuf).
  - rewrite IH. cbn [fst snd]. replace (Z.to_nat (ebuf - buf)) with (S (Z.to_nat (ebuf - (buf + 1)))) by lia.
    simpl. do 2 f_equal; lia.
  - rewrite IH. replace (Z.to_nat (ebuf - buf)) with 0%nat by lia. simpl.
    do 2 f_equal. lia.
Qed.

Lemma store_bytes_in m d bs i b :
  bs !! i = Some b -> load8 (store_bytes m d bs) (d + Z.of_nat i) = u8 b.
Proof.
  revert m d i. induction bs as [|c bs IH]; intros m d [|i] Hi; simplify_eq/=.
  - rewrite store_bytes_out by lia. rewrite Z.add_0_r. apply load8_store8_eq.
  - rewrite <- (IH (store8 m d c) (d + 1) i) by done. f_equal. lia.
Qed.



(** ** [strtol] reads back what [printnum] prints *)

Lemma hexdigit_cases d :
  0 <= d < 16 ->
  digit_of (i8 (hexdigit d)) = Some d /\
  (48 <= hexdigit d <= 57 \/ 97 <= hexdigit d <= 102).
Proof.
  intros Hd.
  assert (Forall (fun d => digit_of (i8 (hexdigit d)) = Some d /\
    (48 <= hexdigit d <= 57 \/ 97 <= hexdigit d <= 102)) (seqZ 0 16)) as H.
  { apply (bool_decide_unpack _). vm_compute. exact I. }
  rewrite Forall_forall in H. apply H. apply elem_of_seqZ. lia.
Qed.

Lemma foldl_value_ge base v ds :
  1 <= base -> 0 <= v -> Forall (fun d => 0 <= d < base) ds ->
  v <= foldl (fun v d => v * base + d) v ds.
Proof.
  intros Hb Hv Hds. revert v Hv. induction Hds as [|d ds Hd _ IH]; intros v Hv; simpl; [lia|].
  etrans; [|apply IH]; nia.
Qed.

Lemma strtol_digits_spec ds m p v fuel base :
  2 <= base <= 16 -> cstr_at m p (map hexdigit ds) -> Forall (fun d => 0 <= d < base) ds ->
  0 <= v -> foldl (fun v d => v * base + d) v ds < 2 ^ 31 -> (length ds < fuel)%nat ->
  strtol_digits fuel m p base v =
    Some (foldl (fun v d => v * base + d) v ds, p + Z.of_nat (length ds)).
Proof.
  intros Hb Hp Hds. revert p v fuel Hp.
  induction Hds as [|d ds Hd Hds IH]; intros p v [|fuel] Hp Hv Hlt Hf; simpl in *; try lia.
  - rewrite Hp. simpl. by rewrite Z.add_0_r.
  - destruct Hp as (_ & -> & Hp). destruct (hexdigit_cases d) as [-> _]; [lia|].
    destruct (Z.leb_spec base d); [lia|].
    assert (0 <= v * base + d) by nia.
    pose proof (foldl_value_ge base (v * base + d) ds ltac:(lia) ltac:(lia) Hds).
    rewrite i32_small by lia. rewrite IH by (done || lia). do 2 f_equal. lia.
Qed.

(** C36: [strtol] inverts [printnum]: reading, in base 10 or 16, the string that
    [printnum] puts for a number below [2 ^ 31] gives the number back and stops
    at the terminating zero. *)
Theorem strtol_printnum m p n base c s fuel :
  base = 10 \/ base = 16 -> 0 <= n < 2 ^ 31 ->
  printnum 65 n base 0 c (PState [] []) = Ok tt s ->
  cstr_at m p (out s) -> (length (out s) < fuel)%nat ->
  strtol fuel m p base = Some (n, p + Z.of_nat (length (out s))).
Proof.
  intros Hbase Hn Hrun Hp Hf.
  assert (2 <= base <= 16) as Hb by lia.
  pose proof (fuel65 base n ltac:(lia) ltac:(lia)) as H65.
  rewrite printnum_run in Hrun by (done || lia).
  pose proof (digits_value 65 base n ltac:(lia) H65) as Hval.
  pose proof (digits_range 65 base n ltac:(lia)) as Hds.
  pose proof (length_digits 64 base n) as Hne.
  generalize dependent (digits 65 base n). intros ds ? Hval Hds Hne. simplify_eq. simpl in *.
  replace (Z.to_nat (0 - Z.of_nat (length ds))) with 0%nat in * by lia. simpl in *.
  rewrite length_map in *.
  destruct ds as [|d ds]; [simpl in Hne; lia|]. pose proof Hp as (Hd0 & Hl0 & Hp').
  assert (load8 m (p + 1) <> 120) as Hx.
  { destruct ds as [|d1 ds]; simpl in Hp'; [lia|]. destruct Hp' as (_ & -> & _).
    inversion_clear Hds as [|? ? _ Hds']. inversion_clear Hds' as [|? ? Hd1 _].
    destruct (hexdigit_cases d1) as [_ Hc]; lia. }
  assert (strtol_digits fuel m p base 0 =
    Some (value base (d :: ds), p + Z.of_nat (S (length ds)))) as Hdig.
  { apply (strtol_digits_spec (d :: ds)); try done.
    change (value base (d :: ds) < 2 ^ 31). lia. }
  destruct (hexdigit_cases d) as [_ Hc]; [inversion Hds; lia|].
  unfold strtol. set (dg := strtol_digits fuel m) in *. clearbody dg.
  destruct fuel as [|fuel]; [lia|]. cbn [skip_blanks]. rewrite Hl0.
  destruct (Z.eqb_spec (hexdigit d) 32), (Z.eqb_spec (hexdigit d) 9); try lia. simpl.
  rewrite Hl0.
  destruct (Z.eqb_spec (hexdigit d) 43), (Z.eqb_spec (hexdigit d) 45); try lia.
  destruct (Z.eqb_spec (load8 m (p + 1)) 120); [done|].
  rewrite !andb_false_r. destruct (Z.eqb_spec base 0); [lia|]. simpl.
  rewrite Hdig. done.
Qed.

Lemma strtol_printnum_witness :
  strtol 5 (store_bytes ∅ 64 (zs "1217" ++ [0])) 64 10 = Some (1217, 68).
Proof.
  apply (strtol_printnum _ 64 1217 10 0 (PState (zs "1217") [])); try lia.
  - vm_compute. reflexivity.
  - vm_compute. repeat split; discriminate.
  - simpl. lia.
Defined.

Lemma printnum_spec_witness :
  exists ds, printnum 65 255 16 4 48 (PState [] []) =
    Ok tt (PState (replicate (Z.to_nat (4 - Z.of_nat (length ds))) 48 ++ map hexdigit ds) []) /\
    value 16 ds = 255.
Proof.
  destruct (printnum_spec 255 16 4 48 (PState [] [])) as (ds & H1 & H2 & _); [lia|lia|].
  exists ds. split; [exact H1|exact H2].
Defined.

(** ** A checker of formats against argument kinds

    [fmt_check] walks a format as [vprintfmt] does, over the kinds of the
    arguments instead of their values. *)

Inductive akind : Type := KInt | KStr.
#[global] Instance akind_eq_dec : EqDecision akind.
Proof. solve_decision. Defined.

Definition kind (a : arg) : akind := match a with AInt _ => KInt | AStr _ => KStr end.

Definition take_int (ks : list akind) : option (list akind) :=
  match ks with KInt :: ks' => Some ks' | _ => None end.
Definition take_str (ks : list akind) : option (list akind) :=
  match ks with KStr :: ks' => Some ks' | _ => None end.
Definition take_num (l : Z) (ks : list akind) : option (list akind) :=
  if 2 <=? l then ks ← take_int ks; take_int ks else take_int ks.

Fixpoint fmt_check (fuel : nat) (fmt : list Z) (ks : list akind) : bool :=
  match fuel with
  | O => false
  | S f =>
      match fmt with
      | [] => true
      | ch :: fmt' => if ch =? zc "%" then esc_check f fmt' fmt' 0 ks else fmt_check f fmt' ks
      end
  end
with esc_check (fuel : nat) (start fmt : list Z) (l : Z) (ks : list akind) : bool :=
  match fuel with
  | O => false
  | S f =>
      let go (o : option (list akind)) (fmt' : list Z) :=
        match o with Some ks' => fmt_check f fmt' ks' | None => false end in
      match fmt with
      | [] => fmt_check f start ks
      | ch :: fmt' =>
          if (ch =? zc "-") || (ch =? zc "0") || (ch =? zc ".") || (ch =? zc "#")
          then esc_check f start fmt' l ks
          else if is_digit ch then esc_check f start (snd (read_number 0 ch fmt')) l ks
          else if ch =? zc "*" then
            match take_int ks with Some ks' => esc_check f start fmt' l ks' | None => false end
          else if ch =? zc "l" then esc_check f start fmt' (l + 1) ks
          else if ch =? zc "c" then go (take_int ks) fmt'
          else if ch =? zc "e" then false
          else if ch =? zc "s" then go (take_str ks) fmt'
          else if (ch =? zc "d") || (ch =? zc "u") || (ch =? zc "x") then go (take_num l ks) fmt'
          else if ch =? zc "p" then go (take_int ks) fmt'
          else if (ch =? zc "o") || (ch =? zc "%") then fmt_check f fmt' ks
          else fmt_check f start ks
      end
  end.

(** [fits m ks]: run on arguments of kinds [ks], [m] returns; [P] is what holds
    of the kinds left. *)
Definition fits {A} (m : M pstate A) (ks : list akind) (P : A -> list akind -> Prop) : Prop :=
  forall s, map kind (ap s) = ks ->
    exists a s', m s = Ok a s' /\ P a (map kind (ap s')).

Lemma fits_bind {A B} (m : M pstate A) (f : A -> M pstate B) ks P Q :
  fits m ks P -> (forall a ks', P a ks' -> fits (f a) ks' Q) -> fits (m ≫= f) ks Q.
Proof.
  intros Hm Hf s Hs. destruct (Hm s Hs) as (a & s' & E & HP).
  destruct (Hf a _ HP s' eq_refl) as (b & s'' & E' & HQ).
  exists b, s''. split; [|done]. unfold mbind, M_bind. by rewrite E.
Qed.

Lemma fits_mono {A} (m : M pstate A) ks (P Q : A -> list akind -> Prop) :
  fits m ks P -> (forall a ks', P a ks' -> Q a ks') -> fits m ks Q.
Proof.
  intros Hm HPQ s Hs. destruct (Hm s Hs) as (a & s' & E & HP). exists a, s'. auto.
Qed.

Lemma fits_ret {A} (a : A) ks P : P a ks -> fits (mret a) ks P.
Proof. intros HP s <-. by exists a, s. Qed.

Lemma fits_putch c ks : fits (putch c) ks (fun _ ks' => ks' = ks).
Proof. intros s <-. by eexists _, _. Qed.

Lemma fits_va_word ks ks' : take_int ks = Some ks' ->
  fits va_word ks (fun w ks'' => ks'' = ks' /\ 0 <= w < 2 ^ 32).
Proof.
  intros H [o [|[w|?] l]] Hs; simpl in *; subst ks; simplify_eq/=.
  eexists _, _. split; [done|]. split; [done|apply u32_range].
Qed.

Lemma fits_va_int ks ks' : take_int ks = Some ks' ->
  fits va_int ks (fun w ks'' => ks'' = ks' /\ - 2 ^ 31 <= w < 2 ^ 31).
Proof.
  intros H. eapply fits_bind; [by apply fits_va_word|].
  intros w ks'' [-> _]. apply fits_ret. split; [done|apply i32_range].
Qed.

Lemma fits_va_str ks ks' : take_str ks = Some ks' -> fits va_str ks (fun _ ks'' => ks'' = ks').
Proof.
  intros H [o [|[w|?] l]] Hs; simpl in *; subst ks; simplify_eq/=. by eexists _, _.
Qed.

Lemma fits_put_n n c ks : fits (put_n n c) ks (fun _ ks' => ks' = ks).
Proof. intros s <-. rewrite put_n_run. by eexists _, _. Qed.

Lemma fits_number num base e ks :
  2 <= base -> 0 <= num < 2 ^ 64 -> fits (fmt_number num base e) ks (fun _ ks' => ks' = ks).
Proof.
  intros Hb Hn s <-. unfold fmt_number.
  rewrite printnum_run by (by apply fuel65 || done || lia). by eexists _, _.
Qed.

Lemma fits_getuint l ks ks' : take_num l ks = Some ks' ->
  fits (getuint l) ks (fun w ks'' => ks'' = ks' /\ 0 <= w < 2 ^ 64).
Proof.
  unfold take_num, getuint. destruct (2 <=? l).
  - intros (ks1 & H1 & H2)%bind_Some.
    eapply fits_bind; [by apply fits_va_word|]. intros lo ? [-> Hlo].
    eapply fits_bind; [by apply fits_va_word|]. intros hi ? [-> Hhi].
    apply fits_ret. split; [done|lia].
  - intros H. eapply fits_mono; [by apply fits_va_word|]. intros w ? [-> Hw].
    split; [done|lia].
Qed.

Lemma fits_getint l ks ks' : take_num l ks = Some ks' ->
  fits (getint l) ks (fun w ks'' => ks'' = ks' /\ - 2 ^ 63 <= w < 2 ^ 63).
Proof.
  unfold take_num, getint. destruct (2 <=? l).
  - intros (ks1 & H1 & H2)%bind_Some.
    eapply fits_bind; [by apply fits_va_word|]. intros lo ? [-> Hlo].
    eapply fits_bind; [by apply fits_va_word|]. intros hi ? [-> Hhi].
    apply fits_ret. split; [done|apply i64_range].
  - intros H. eapply fits_mono; [by apply fits_va_int|]. intros w ? [-> Hw].
    split; [done|lia].
Qed.

Lemma fits_put_str p prec w alt ks : fits (put_str p prec w alt) ks (fun _ ks' => ks' = ks).
Proof.
  revert prec w. induction p as [|b p IH]; intros prec w; cbn [put_str]; [by apply fits_ret|].
  case_match; [|by apply fits_ret].
  eapply fits_bind; [apply fits_putch|]. intros ? ? ->. apply IH.
Qed.

Lemma fits_string e ks ks' : take_str ks = Some ks' ->
  fits (fmt_string e) ks (fun _ ks'' => ks'' = ks').
Proof.
  intros H. eapply fits_bind; [by apply fits_va_str|]. intros p ? ->.
  eapply fits_bind with (P := fun _ ks'' => ks'' = ks').
  { case_match; [|by apply fits_ret].
    eapply fits_bind; [apply fits_put_n|]. intros ? ? ->. by apply fits_ret. }
  intros w ? ->. eapply fits_bind; [apply fits_put_str|]. intros ? ? ->. apply fits_put_n.
Qed.

Lemma fits_decimal e ks ks' : take_num (lflag e) ks = Some ks' ->
  fits (fmt_decimal e) ks (fun _ ks'' => ks'' = ks').
Proof.
  intros H. eapply fits_bind; [by apply fits_getint|]. intros num ? [-> Hn].
  destruct (Z.ltb_spec num 0).
  - eapply fits_bind; [apply fits_putch|]. intros ? ? ->. apply fits_number; [lia|].
    unfold u64. apply Z.mod_pos_bound. lia.
  - apply fits_number; lia.
Qed.

Ltac fbind t := eapply fits_bind; [by apply t|cbv beta; intros ? ? ?; destruct_and?; subst].

Lemma fmt_check_fits fuel :
  (forall fmt ks, fmt_check fuel fmt ks = true ->
     fits (vprintfmt fuel fmt) ks (fun _ _ => True)) /\
  (forall start fmt e ks, esc_check fuel start fmt (lflag e) ks = true ->
     fits (reswitch fuel start fmt e) ks (fun _ _ => True)).
Proof.
  induction fuel as [|f [IHv IHr]]; [done|]. split.
  { intros [|ch fmt] ks; cbn [fmt_check vprintfmt]; [intros; by apply fits_ret|].
    destruct (ch =? zc "%"); intros; [by apply IHr|]. fbind fits_putch. by apply IHv. }
  intros start [|ch fmt] e ks; cbn [esc_check reswitch].
  { intros. fbind fits_putch. by apply IHv. }
  destruct (ch =? zc "-"); [by intros; apply IHr|].
  destruct (ch =? zc "0"); [by intros; apply IHr|].
  destruct (ch =? zc ".") eqn:Edot; [cbn [orb]|].
  { intros H. replace (is_digit ch) with false by (apply Z.eqb_eq in Edot; by subst).
    destruct (ch =? zc "*") eqn:E; [apply Z.eqb_eq in E, Edot; by subst|]. by apply IHr. }
  destruct (ch =? zc "#") eqn:Ehash; [cbn [orb]|cbn [orb]].
  { intros H. replace (is_digit ch) with false by (apply Z.eqb_eq in Ehash; by subst).
    destruct (ch =? zc "*") eqn:E; [apply Z.eqb_eq in E, Ehash; by subst|]. by apply IHr. }
  destruct (is_digit ch).
  { destruct (read_number 0 ch fmt) as [prec fmt'']. intros. apply IHr.
    unfold process_precision. by case_match. }
  destruct (ch =? zc "*").
  { destruct (take_int ks) eqn:Ek; [|done]. intros. fbind fits_va_int. apply IHr.
    unfold process_precision. by case_match. }
  destruct (ch =? zc "l"); [by intros; apply IHr|].
  destruct (ch =? zc "c").
  { destruct (take_int ks) eqn:Ek; [|done]. intros. fbind fits_va_int. fbind fits_putch.
    by apply IHv. }
  destruct (ch =? zc "e"); [done|].
  destruct (ch =? zc "s").
  { destruct (take_str ks) eqn:Ek; [|done]. intros. fbind fits_string. by apply IHv. }
  destruct (ch =? zc "d"); [cbn [orb]|].
  { destruct (take_num (lflag e) ks) eqn:Ek; [|done]. intros. fbind fits_decimal. by apply IHv. }
  destruct (ch =? zc "u"); [cbn [orb]|cbn [orb]].
  { destruct (take_num (lflag e) ks) eqn:Ek; [|done]. intros.
    fbind fits_getuint. fbind fits_number. by apply IHv. }
  destruct (ch =? zc "x") eqn:Ex.
  { destruct (ch =? zc "o") eqn:E1; [apply Z.eqb_eq in E1, Ex; by subst|].
    destruct (ch =? zc "p") eqn:E2; [apply Z.eqb_eq in E2, Ex; by subst|].
    destruct (take_num (lflag e) ks) eqn:Ek; [|done]. intros.
    fbind fits_getuint. fbind fits_number. by apply IHv. }
  destruct (ch =? zc "p") eqn:Ep.
  { destruct (ch =? zc "o") eqn:E1; [apply Z.eqb_eq in E1, Ep; by subst|].
    destruct (take_int ks) eqn:Ek; [|done]. intros. do 2 (fbind fits_putch).
    fbind fits_va_word. eapply fits_bind; [apply fits_number; lia|].
    intros ? ? ->. by apply IHv. }
  destruct (ch =? zc "o"); [cbn [orb]|].
  { intros. do 3 (fbind fits_putch). by apply IHv. }
  destruct (ch =? zc "%"); [cbn [orb]|cbn [orb]]; intros; fbind fits_putch; by apply IHv.
Qed.

Lemma printfmt_checked fmt args :
  fmt_check (fmt_fuel fmt) fmt (map kind args) = true -> exists s, printfmt fmt args = Ok tt s.
Proof.
  intros H. destruct (fmt_check_fits (fmt_fuel fmt)) as [Hv _].
  destruct (Hv fmt _ H (PState [] args) eq_refl) as ([] & s & E & _). by exists s.
Qed.

Lemma vcprintf_run fmt args s con :
  printfmt fmt args = Ok tt s -> vcprintf fmt args con = Ok 0 (con ++ out s).
Proof.
  intros Hout. unfold vcprintf. rewrite Hout.
  assert (forall chs c0, fold_left (fun st ch => cons_putch ch st) chs (c0, 0) = (c0 ++ chs, 0)) as H.
  { induction chs as [|ch chs IH]; intros c0; simpl; [by rewrite app_nil_r|].
    rewrite IH. by rewrite <- app_assoc. }
  by rewrite H.
Qed.

(** C35: A format accepted by [fmt_check] for the kinds of its arguments is
    printed in full: [vprintfmt] returns, and never fetches an argument that is
    missing or of the wrong kind. *)
Theorem fmt_check_sound fmt args :
  fmt_check (fmt_fuel fmt) fmt (map kind args) = true ->
  exists s, printfmt fmt args = Ok tt s.
Proof.
  apply printfmt_checked.
Qed.

Lemma fmt_check_sound_witness :
  exists s, printfmt (zs "%s %08x%%") [AStr None; AInt 7] = Ok tt s.
Proof. apply fmt_check_sound. vm_compute. reflexivity. Defined.

(** [vcprintf], and so [cprintf], gives the console exactly the characters
    [vprintfmt] puts, but returns 0 whatever their number: its [putch]
    increments the pointer to the count instead of the count. *)
Theorem vcprintf_spec fmt args s con :
  printfmt fmt args = Ok tt s -> vcprintf fmt args con = Ok 0 (con ++ out s).
Proof. apply vcprintf_run. Qed.

Lemma vcprintf_spec_witness :
  vcprintf (zs "%u pages") [AInt 32768] [] = Ok 0 (zs "32768 pages").
Proof.
  rewrite (vcprintf_spec _ _ (PState (zs "32768 pages") [])); vm_compute; reflexivity.
Defined.
