(* ===== verification/JosPmap.v ===== *)
(** * JOS physical memory (lab3/kern/pmap.c, pmap.h, inc/mmu.h, inc/memlayout.h)

    The state of the memory manager and the physical page allocator: memory
    detection, [boot_alloc], [page_init], [page_alloc], [page_free] and
    [page_decref].  Kernel memory is the window the kernel sees at [KERNBASE]:
    the byte of physical address [pa] is at key [pa + KERNBASE] of [k_mem].  The
    array [pages] is a list of [PageInfo], and a [struct PageInfo *] is an index
    into it. *)

From S2P Require Import Prelude CMem JosString JosPrintfmt.
From stdpp Require Import base numbers option list gmap strings.
From Stdlib Require Import Ascii.
Open Scope Z_scope.

(** ** Constants and address arithmetic *)

Definition PGSIZE : Z := 4096.
Definition PGSHIFT : Z := 12.
Definition NPDENTRIES : Z := 1024.
Definition NPTENTRIES : Z := 1024.
Definition PTSIZE : Z := PGSIZE * NPTENTRIES.
Definition PTE_P : Z := 1.
Definition PTE_W : Z := 2.
Definition PTE_U : Z := 4.
Definition PTE_PS : Z := 128.
Definition KERNBASE : Z := 4026531840.       (* 0xF0000000 *)
Definition IOPHYSMEM : Z := 655360.          (* 0x0A0000 *)
Definition EXTPHYSMEM : Z := 1048576.        (* 0x100000 *)
Definition KSTACKTOP : Z := KERNBASE.
Definition KSTKSIZE : Z := 8 * PGSIZE.
Definition MMIOLIM : Z := KSTACKTOP - PTSIZE.
Definition MMIOBASE : Z := MMIOLIM - PTSIZE.
Definition ULIM : Z := MMIOBASE.
Definition UVPT : Z := ULIM - PTSIZE.
Definition UPAGES : Z := UVPT - PTSIZE.
Definition UENVS : Z := UPAGES - PTSIZE.
Definition UTOP : Z := UENVS.
Definition BOOT_LIMIT : Z := 4030726144.     (* 0xF0400000 *)
Definition ALLOC_ZERO : Z := 1.

Definition PGNUM (la : Z) : Z := Z.shiftr la 12.
Definition PDX (la : Z) : Z := Z.land (Z.shiftr la 22) 1023.
Definition PTX (la : Z) : Z := Z.land (Z.shiftr la 12) 1023.
Definition PGOFF (la : Z) : Z := Z.land la 4095.
Definition PGADDR (d t o : Z) : Z := Z.lor (Z.lor (Z.shiftl d 22) (Z.shiftl t 12)) o.
Definition PTE_ADDR (pte : Z) : Z := Z.land pte (u32 (Z.lnot 4095)).

Definition ROUNDDOWN (a n : Z) : Z := u32 a - u32 a mod n.
Definition ROUNDUP (a n : Z) : Z := ROUNDDOWN (u32 (u32 a + u32 n - 1)) (u32 n).

(** A flag test, [x & f]. *)
Definition has (x f : Z) : bool := negb (Z.land x f =? 0).

(** ** State *)

Record PageInfo : Type := MkPage { pp_link : option nat; pp_ref : Z }.

Record kst : Type := KSt {
  k_mem : mem;
  npages : Z;
  npages_basemem : Z;
  kern_pgdir : Z;
  pages_va : Z;                  (* the pointer [pages] *)
  pages : list PageInfo;         (* the array it points to *)
  page_free_list : option nat;
  nextfree : Z;                  (* the static of [boot_alloc] *)
  cr0 : Z; cr3 : Z; cr4 : Z;
  tlb : list Z;                  (* addresses flushed by [invlpg], oldest first *)
  con : list Z }.                (* characters written to the console *)

Definition set_mem (m : mem) (s : kst) : kst :=
  KSt m (npages s) (npages_basemem s) (kern_pgdir s) (pages_va s) (pages s)
    (page_free_list s) (nextfree s) (cr0 s) (cr3 s) (cr4 s) (tlb s) (con s).
Definition set_npages (n b : Z) (s : kst) : kst :=
  KSt (k_mem s) n b (kern_pgdir s) (pages_va s) (pages s)
    (page_free_list s) (nextfree s) (cr0 s) (cr3 s) (cr4 s) (tlb s) (con s).
Definition set_kern_pgdir (p : Z) (s : kst) : kst :=
  KSt (k_mem s) (npages s) (npages_basemem s) p (pages_va s) (pages s)
    (page_free_list s) (nextfree s) (cr0 s) (cr3 s) (cr4 s) (tlb s) (con s).
Definition set_pages (v : Z) (l : list PageInfo) (s : kst) : kst :=
  KSt (k_mem s) (npages s) (npages_basemem s) (kern_pgdir s) v l
    (page_free_list s) (nextfree s) (cr0 s) (cr3 s) (cr4 s) (tlb s) (con s).
Definition set_free_list (h : option nat) (s : kst) : kst :=
  KSt (k_mem s) (npages s) (npages_basemem s) (kern_pgdir s) (pages_va s) (pages s)
    h (nextfree s) (cr0 s) (cr3 s) (cr4 s) (tlb s) (con s).
Definition set_nextfree (p : Z) (s : kst) : kst :=
  KSt (k_mem s) (npages s) (npages_basemem s) (kern_pgdir s) (pages_va s) (pages s)
    (page_free_list s) p (cr0 s) (cr3 s) (cr4 s) (tlb s) (con s).
Definition set_crs (c0 c3 c4 : Z) (s : kst) : kst :=
  KSt (k_mem s) (npages s) (npages_basemem s) (kern_pgdir s) (pages_va s) (pages s)
    (page_free_list s) (nextfree s) c0 c3 c4 (tlb s) (con s).
Definition set_tlb (l : list Z) (s : kst) : kst :=
  KSt (k_mem s) (npages s) (npages_basemem s) (kern_pgdir s) (pages_va s) (pages s)
    (page_free_list s) (nextfree s) (cr0 s) (cr3 s) (cr4 s) l (con s).
Definition set_con (c : list Z) (s : kst) : kst :=
  KSt (k_mem s) (npages s) (npages_basemem s) (kern_pgdir s) (pages_va s) (pages s)
    (page_free_list s) (nextfree s) (cr0 s) (cr3 s) (cr4 s) (tlb s) c.

(** [cprintf]: the format is given by its characters. *)
Definition cprintf (fmt : list Z) (args : list arg) : M kst unit := fun s =>
  match vcprintf fmt args (con s) with
  | Ok _ c => Ok tt (set_con c s)
  | Panic msg _ => Panic msg s
  | NoFuel => NoFuel
  end.

(** A format that ends with a newline. *)
Definition zl (s : string) : list Z := zs s ++ [10].
Arguments zl s%_string_scope.

(** ** Pointers *)

Definition PADDR (kva : Z) : M kst Z :=
  if kva <? KERNBASE then panic "PADDR called with invalid kva" else mret (kva - KERNBASE).

Definition KADDR (pa : Z) : M kst Z :=
  n ← gets npages;
  if n <=? PGNUM pa then panic "KADDR called with invalid pa" else mret (u32 (pa + KERNBASE)).

Definition page2pa (pp : nat) : Z := u32 (Z.shiftl (Z.of_nat pp) PGSHIFT).

Definition pa2page (pa : Z) : M kst nat :=
  n ← gets npages;
  if n <=? PGNUM pa then panic "pa2page called with invalid pa"
  else mret (Z.to_nat (PGNUM pa)).

Definition page2kva (pp : nat) : M kst Z := KADDR (page2pa pp).

Definition load (a : Z) : M kst Z := gets (fun s => load32 (k_mem s) a).
Definition store (a v : Z) : M kst unit := modify (fun s => set_mem (store32 (k_mem s) a v) s).
Definition kmemset (a c n : Z) : M kst unit :=
  modify (fun s => set_mem (memset (k_mem s) a c n) s).

(** [pages[i]]; an index past the array, undefined in C, is a panic. *)
Definition pp_get (i : nat) : M kst PageInfo := fun s =>
  match pages s !! i with
  | Some p => Ok p s
  | None => Panic "pages: out of bounds" s
  end.

Definition pp_set (i : nat) (p : PageInfo) : M kst unit := fun s =>
  match pages s !! i with
  | Some _ => Ok tt (set_pages (pages_va s) (<[i := p]> (pages s)) s)
  | None => Panic "pages: out of bounds" s
  end.

(** ** Memory detection *)

(** The NVRAM of the clock chip is given by its registers. *)
Definition mc146818_read (nvram : Z -> Z) (reg : Z) : Z := u8 (nvram reg).

Definition nvram_read (nvram : Z -> Z) (r : Z) : Z :=
  Z.lor (mc146818_read nvram r) (Z.shiftl (mc146818_read nvram (r + 1)) 8).

Definition NVRAM_BASELO : Z := 21.
Definition NVRAM_EXTLO : Z := 23.
Definition NVRAM_EXT16LO : Z := 52.

Definition i386_detect_memory (nvram : Z -> Z) : M kst unit :=
  let basemem := nvram_read nvram NVRAM_BASELO in
  let extmem := nvram_read nvram NVRAM_EXTLO in
  let ext16mem := u32 (nvram_read nvram NVRAM_EXT16LO * 64) in
  let totalmem :=
    if negb (ext16mem =? 0) then u32 (16 * 1024 + ext16mem)
    else if negb (extmem =? 0) then 1 * 1024 + extmem else basemem in
  modify (set_npages (totalmem / (PGSIZE / 1024)) (basemem / (PGSIZE / 1024)));;
  cprintf (zl "Physical memory: %uK available, base = %uK, extended = %uK")
    [AInt totalmem; AInt basemem; AInt (u32 (totalmem - basemem))];;
  cprintf (zl "Amount of base memory in pages %u") [AInt (basemem / (PGSIZE / 1024))];;
  cprintf (zl "Total pages: %u") [AInt (totalmem / (PGSIZE / 1024))].

(** [check_pse]: [cpuid_edx] is what [cpuid(1)] leaves in [edx]; the result is
    stored in a [char]. *)
Definition check_pse (cpuid_edx : Z) : M kst Z :=
  let enabled := i8 (Z.land cpuid_edx 8) in
  (if negb (enabled =? 0)
   then modify (fun s => set_crs (cr0 s) (cr3 s) (Z.lor (cr4 s) 16) s)
   else mret tt);;
  mret 0.

(** ** The boot-time allocator

    [end_] is the linker's symbol: the first address past the kernel's bss. *)

Definition boot_alloc (end_ n : Z) : M kst Z :=
  nf ← gets nextfree;
  (if nf =? 0 then
     modify (set_nextfree (ROUNDUP end_ PGSIZE));;
     cprintf (zl "End: %x") [AInt end_]
   else mret tt);;
  nf ← gets nextfree;
  cprintf (zl "Nextfree: %u" ++ [10]) [AInt nf];;
  if n =? 0 then mret nf
  else if BOOT_LIMIT <=? nf then panic "boot_alloc: out of memory"
  else if BOOT_LIMIT <? u32 (nf + n) then panic "boot_alloc: out of memory"
  else modify (set_nextfree (ROUNDUP (u32 (nf + n)) PGSIZE));; mret nf.

(** ** The page allocator *)

Definition page_init_step (io ext nextfreepg : Z) (i : nat) : M kst unit :=
  if (io <=? Z.of_nat i) && (Z.of_nat i <=? ext) then pp_set 0 (MkPage None 1)
  else if (ext <? Z.of_nat i) && (Z.of_nat i <=? nextfreepg) then pp_set 0 (MkPage None 1)
  else
    fl ← gets page_free_list;
    pp_set i (MkPage fl 0);;
    modify (set_free_list (Some i)).

Definition page_init (end_ : Z) : M kst unit :=
  modify (set_free_list None);;
  pp_set 0 (MkPage None 1);;
  let iophysmem_pg := IOPHYSMEM / PGSIZE in
  let extphysmem_pg := EXTPHYSMEM / PGSIZE in
  cprintf (zl "IOphysmem: %x" ++ [10]) [AInt IOPHYSMEM];;
  cprintf (zl "Exphysmem: %x" ++ [10]) [AInt EXTPHYSMEM];;
  nf ← boot_alloc end_ 0;
  pa ← PADDR nf;
  let nextfreepg := pa / PGSIZE in
  cprintf (zl "Next free page: %u") [AInt nextfreepg];;
  n ← gets npages;
  for_each (seq 1 (Z.to_nat (n - 1))) (page_init_step iophysmem_pg extphysmem_pg nextfreepg).

Definition page_alloc (alloc_flags : Z) : M kst (option nat) :=
  fl ← gets page_free_list;
  match fl with
  | Some allocpg =>
      p ← pp_get allocpg;
      modify (set_free_list (pp_link p));;
      (if negb (alloc_flags =? 0) && negb (ALLOC_ZERO =? 0) then
         kva ← page2kva allocpg; kmemset kva 0 PGSIZE
       else mret tt);;
      pp_set allocpg (MkPage None 0);;
      mret (Some allocpg)
  | None => mret None
  end.

Definition page_free (pp : nat) : M kst unit :=
  p ← pp_get pp;
  if negb (pp_ref p =? 0) then panic "Reference pointers are non-zero"
  else match pp_link p with
  | Some _ => panic "Points to some other page through pp_link"
  | None =>
      fl ← gets page_free_list;
      pp_set pp (MkPage fl (pp_ref p));;
      modify (set_free_list (Some pp))
  end.

Definition page_decref (pp : nat) : M kst unit :=
  p ← pp_get pp;
  pp_set pp (MkPage (pp_link p) (u16 (pp_ref p - 1)));;
  if u16 (pp_ref p - 1) =? 0 then page_free pp else mret tt.

(** [pp->pp_ref++]. *)
Definition pp_incref (pp : nat) : M kst unit :=
  p ← pp_get pp; pp_set pp (MkPage (pp_link p) (u16 (pp_ref p + 1))).

(** ** Address arithmetic, in closed form *)

Lemma PGNUM_div a : PGNUM a = a / 4096.
Proof. apply shiftr_div12. Qed.

Lemma page2pa_eq pp : Z.of_nat pp < 2 ^ 20 -> page2pa pp = 4096 * Z.of_nat pp.
Proof.
  intros H. unfold page2pa, PGSHIFT. rewrite Z.shiftl_mul_pow2 by lia.
  rewrite u32_small by lia. lia.
Qed.

Lemma PGNUM_page2pa pp : Z.of_nat pp < 2 ^ 20 -> PGNUM (page2pa pp) = Z.of_nat pp.
Proof. intros H. rewrite page2pa_eq, PGNUM_div by done. dlia. Qed.

(** ** Output *)

Lemma wp_cprintf fmt args (Q : unit -> kst -> Prop) s :
  fmt_check (fmt_fuel fmt) fmt (map kind args) = true ->
  (forall c, Q tt (set_con c s)) -> wp (cprintf fmt args) Q s.
Proof.
  intros Hc HQ. destruct (printfmt_checked fmt args Hc) as [st Hst].
  unfold wp, cprintf. rewrite (vcprintf_run _ _ st) by done. apply HQ.
Qed.

(** ** The invariant of the allocator *)

(** The list [l] of pages is linked from [h]; its pages are unreferenced. *)
Fixpoint chain (ps : list PageInfo) (h : option nat) (l : list nat) : Prop :=
  match l with
  | [] => h = None
  | i :: l' => h = Some i /\ exists p, ps !! i = Some p /\ pp_ref p = 0 /\ chain ps (pp_link p) l'
  end.

Record alloc_inv (s : kst) (fl : list nat) : Prop := AllocInv {
  ai_len : length (pages s) = Z.to_nat (npages s);
  ai_npages : 0 < npages s <= 65536;
  ai_chain : chain (pages s) (page_free_list s) fl;
  ai_nodup : NoDup fl;
  ai_mem : mem_ok (k_mem s);
  ai_ref : forall i p, pages s !! i = Some p -> 0 <= pp_ref p < 2 ^ 16;
  ai_link : forall i p, pages s !! i = Some p -> i ∉ fl -> pp_link p = None }.

Lemma chain_head ps h l : chain ps h l -> h = head l.
Proof. destruct l; simpl; [done|]. by intros [-> _]. Qed.

Lemma chain_insert ps h l i p : i ∉ l -> chain ps h l -> chain (<[i := p]> ps) h l.
Proof.
  revert h. induction l as [|j l IH]; intros h Hi; simpl; [done|].
  rewrite not_elem_of_cons in Hi. destruct Hi as [Hij Hi].
  intros (-> & q & Hq & Hr & Hc). split; [done|]. exists q.
  rewrite list_lookup_insert_ne by done. auto.
Qed.

Lemma chain_lookup ps h l i :
  chain ps h l -> i ∈ l -> exists p, ps !! i = Some p /\ pp_ref p = 0.
Proof.
  revert h. induction l as [|j l IH]; intros h Hc Hi; [by apply not_elem_of_nil in Hi|].
  destruct Hc as (_ & p & Hp & Hr & Hc).
  apply elem_of_cons in Hi as [->|Hi]; [by exists p|by eapply IH].
Qed.

Lemma pages_lookup s fl i :
  alloc_inv s fl -> (i < Z.to_nat (npages s))%nat -> exists p, pages s !! i = Some p.
Proof. intros Hs Hi. apply lookup_lt_is_Some_2. by rewrite (ai_len s fl). Qed.

Lemma free_page_bound s fl i : alloc_inv s fl -> i ∈ fl -> Z.of_nat i < npages s.
Proof.
  intros Hs Hi. destruct (chain_lookup _ _ _ i (ai_chain s fl Hs) Hi) as (p & Hp & _).
  apply lookup_lt_Some in Hp. rewrite (ai_len s fl Hs) in Hp.
  pose proof (ai_npages s fl Hs). lia.
Qed.

Lemma page2kva_run s fl i :
  alloc_inv s fl -> Z.of_nat i < npages s ->
  page2kva i s = Ok (KERNBASE + 4096 * Z.of_nat i) s.
Proof.
  intros Hs Hi. pose proof (ai_npages s fl Hs). unfold page2kva, KADDR.
  unfold mbind, M_bind, gets. rewrite PGNUM_page2pa by lia.
  destruct (Z.leb_spec (npages s) (Z.of_nat i)); [lia|].
  rewrite page2pa_eq, u32_small by (unfold KERNBASE; lia). f_equal. lia.
Qed.

(** The memory after a page allocated with these flags. *)
Definition zeroed (flags : Z) (i : nat) (m : mem) : mem :=
  if flags =? 0 then m else memset m (KERNBASE + 4096 * Z.of_nat i) 0 PGSIZE.

#[global] Arguments zeroed : simpl never.

Definition alloc_state (flags : Z) (i : nat) (fl : list nat) (s : kst) : kst :=
  set_pages (pages_va s) (<[i := MkPage None 0]> (pages s))
    (set_mem (zeroed flags i (k_mem s)) (set_free_list (head fl) s)).

Lemma page_alloc_run flags s i fl :
  alloc_inv s (i :: fl) -> page_alloc flags s = Ok (Some i) (alloc_state flags i fl s).
Proof.
  intros Hs. destruct (ai_chain _ _ Hs) as (Hh & p & Hp & Hr & Hc).
  unfold page_alloc, mbind, M_bind, gets, pp_get, modify. rewrite Hh, Hp. simpl.
  rewrite (chain_head _ _ _ Hc). destruct (Z.eqb_spec flags 0) as [->|Hf]; simpl.
  - unfold pp_set. simpl. rewrite Hp. simpl. by destruct s.
  - pose proof (free_page_bound s (i :: fl) i Hs ltac:(left)) as Hi.
    pose proof (ai_npages _ _ Hs). unfold page2kva, KADDR, mbind, M_bind, gets. simpl.
    rewrite PGNUM_page2pa by lia. destruct (Z.leb_spec (npages s) (Z.of_nat i)); [lia|].
    unfold kmemset, modify, pp_set. simpl. rewrite Hp.
    rewrite page2pa_eq, u32_small by (unfold KERNBASE; lia).
    unfold alloc_state, zeroed. destruct (Z.eqb_spec flags 0); [done|].
    by rewrite (Z.add_comm (4096 * Z.of_nat i)).
Qed.

Lemma mem_ok_zeroed flags i m : mem_ok m -> mem_ok (zeroed flags i m).
Proof. intros. unfold zeroed. case_match; eauto with cmem. Qed.

Lemma page_alloc_inv flags s i fl :
  alloc_inv s (i :: fl) -> alloc_inv (alloc_state flags i fl s) fl.
Proof.
  intros Hs. destruct (ai_chain _ _ Hs) as (Hh & p & Hp & Hr & Hc).
  pose proof (ai_nodup _ _ Hs) as [Hi Hnd]%NoDup_cons.
  constructor; simpl.
  - rewrite length_insert. apply (ai_len _ _ Hs).
  - apply (ai_npages _ _ Hs).
  - rewrite <- (chain_head _ _ _ Hc). by apply chain_insert.
  - done.
  - apply mem_ok_zeroed, (ai_mem _ _ Hs).
  - intros j q [(<- & <- & _)|[_ Hq]]%list_lookup_insert_Some; simpl; [lia|].
    by apply (ai_ref _ _ Hs j).
  - intros j q [(<- & <- & _)|[Hij Hq]]%list_lookup_insert_Some Hj; [done|].
    apply (ai_link _ _ Hs j q Hq). rewrite not_elem_of_cons. naive_solver.
Qed.

Lemma page_alloc_empty flags s : alloc_inv s [] -> page_alloc flags s = Ok None s.
Proof.
  intros Hs. unfold page_alloc, mbind, M_bind, gets. by rewrite (ai_chain _ _ Hs : page_free_list s = None).
Qed.

Definition free_state (i : nat) (s : kst) : kst :=
  set_free_list (Some i)
    (set_pages (pages_va s) (<[i := MkPage (page_free_list s) 0]> (pages s)) s).

Lemma page_free_run s i :
  pages s !! i = Some (MkPage None 0) -> page_free i s = Ok tt (free_state i s).
Proof.
  intros Hp. unfold page_free, mbind, M_bind, pp_get, gets, pp_set, modify. rewrite Hp. simpl.
  by rewrite Hp.
Qed.

Lemma page_free_inv s i fl :
  alloc_inv s fl -> i ∉ fl -> pages s !! i = Some (MkPage None 0) ->
  alloc_inv (free_state i s) (i :: fl).
Proof.
  intros Hs Hi Hp. pose proof (lookup_lt_Some _ _ _ Hp) as Hlt. constructor; simpl.
  - rewrite length_insert. apply (ai_len _ _ Hs).
  - apply (ai_npages _ _ Hs).
  - split; [done|]. exists (MkPage (page_free_list s) 0).
    rewrite list_lookup_insert_eq by done. split_and!; [done..|].
    simpl. by apply chain_insert, (ai_chain _ _ Hs).
  - by apply NoDup_cons, conj, (ai_nodup _ _ Hs).
  - apply (ai_mem _ _ Hs).
  - intros j q [(<- & <- & _)|[_ Hq]]%list_lookup_insert_Some; simpl; [lia|].
    by apply (ai_ref _ _ Hs j).
  - intros j q [(<- & <- & _)|[Hij Hq]]%list_lookup_insert_Some Hj.
    + by destruct Hj; left.
    + apply (ai_link _ _ Hs j q Hq). rewrite not_elem_of_cons in Hj. naive_solver.
Qed.

(** Overwriting the record of a page that is not free. *)
Lemma alloc_inv_pp_set s fl i p :
  alloc_inv s fl -> i ∉ fl -> pp_link p = None -> 0 <= pp_ref p < 2 ^ 16 ->
  alloc_inv (set_pages (pages_va s) (<[i := p]> (pages s)) s) fl.
Proof.
  intros Hs Hi Hl Hr. constructor; simpl.
  - rewrite length_insert. apply (ai_len _ _ Hs).
  - apply (ai_npages _ _ Hs).
  - by apply chain_insert, (ai_chain _ _ Hs).
  - apply (ai_nodup _ _ Hs).
  - apply (ai_mem _ _ Hs).
  - intros j q [(<- & <- & _)|[_ Hq]]%list_lookup_insert_Some; [done|].
    by apply (ai_ref _ _ Hs j).
  - intros j q [(<- & <- & _)|[_ Hq]]%list_lookup_insert_Some Hj; [done|].
    by apply (ai_link _ _ Hs j).
Qed.

Lemma alloc_inv_con s fl c : alloc_inv s fl -> alloc_inv (set_con c s) fl.
Proof. by intros []; constructor. Qed.

Lemma alloc_inv_tlb s fl l : alloc_inv s fl -> alloc_inv (set_tlb l s) fl.
Proof. by intros []; constructor. Qed.

Lemma alloc_inv_mem s fl m : mem_ok m -> alloc_inv s fl -> alloc_inv (set_mem m s) fl.
Proof. by intros ? []; constructor. Qed.

(** [page_alloc] on a well-formed free list removes its first page, returns
    it with no reference and no link, fills it with zeros when a flag is given
    and touches no other byte and no other page; on an empty list it returns
    NULL and changes nothing. *)
Theorem page_alloc_spec flags s fl :
  alloc_inv s fl ->
  match fl with
  | [] => page_alloc flags s = Ok None s
  | i :: fl' =>
      exists s', page_alloc flags s = Ok (Some i) s' /\ alloc_inv s' fl' /\
        pages s' !! i = Some (MkPage None 0) /\
        (forall j, j <> i -> pages s' !! j = pages s !! j) /\
        (forall a, load8 (k_mem s') a =
           if decide (flags <> 0 /\ KERNBASE + 4096 * Z.of_nat i <= a
                                   < KERNBASE + 4096 * Z.of_nat i + PGSIZE)
           then 0 else load8 (k_mem s) a)
  end.
Proof.
  intros Hs. destruct fl as [|i fl]; [by apply page_alloc_empty|].
  exists (alloc_state flags i fl s). split_and!.
  - by apply page_alloc_run.
  - by apply page_alloc_inv.
  - simpl. apply list_lookup_insert_eq.
    destruct (chain_lookup _ _ _ i (ai_chain _ _ Hs)) as (p & Hp & _); [left|].
    by apply lookup_lt_Some in Hp.
  - intros j Hj. simpl. by apply list_lookup_insert_ne.
  - intros a. simpl. unfold zeroed. destruct (Z.eqb_spec flags 0) as [->|Hf].
    + rewrite decide_False by naive_solver. done.
    + rewrite memset_load by (unfold PGSIZE; lia). repeat case_decide; naive_solver.
Qed.

(** [page_free] panics on a page that is still referenced or still linked;
    otherwise it puts the page at the front of the free list, which stays
    well-formed, and touches no memory and no other page. *)
Theorem page_free_spec s fl i p :
  alloc_inv s fl -> pages s !! i = Some p -> i ∉ fl ->
  if decide (pp_ref p = 0) then
    exists s', page_free i s = Ok tt s' /\ alloc_inv s' (i :: fl) /\ k_mem s' = k_mem s /\
      (forall j, j <> i -> pages s' !! j = pages s !! j)
  else page_free i s = Panic "Reference pointers are non-zero" s.
Proof.
  intros Hs Hp Hi. pose proof (ai_link _ _ Hs i p Hp Hi) as Hl.
  destruct p as [l r]; simpl in *; subst l. case_decide; subst.
  - exists (free_state i s). split_and!; [by apply page_free_run|by apply page_free_inv|done|].
    intros j Hj. by apply list_lookup_insert_ne.
  - unfold page_free, mbind, M_bind, pp_get. rewrite Hp. simpl.
    by destruct (Z.eqb_spec r 0).
Qed.

(** The double-free test of [page_free] misses the last page of the free
    list: its link is null like that of an allocated page, so freeing it again
    succeeds, and the list becomes cyclic, each page on it reachable again from
    itself. *)
Theorem page_free_last_twice s fl i :
  alloc_inv s (fl ++ [i]) ->
  exists s', page_free i s = Ok tt s' /\ page_free_list s' = Some i /\
    pages s' !! i = Some (MkPage (head (fl ++ [i])) 0) /\
    (forall j, j ∈ fl -> pages s' !! j = pages s !! j).
Proof.
  intros Hs.
  assert (pages s !! i = Some (MkPage None 0)) as Hp.
  { pose proof (ai_chain _ _ Hs) as Hc. revert Hc. generalize (page_free_list s).
    clear Hs. induction fl as [|j fl IH]; intros h Hc; simpl in Hc.
    - destruct Hc as (_ & [l r] & Hp & Hr & Hl). simpl in *. by subst.
    - destruct Hc as (_ & p & _ & _ & Hc). by eapply IH. }
  exists (free_state i s). split; [by apply page_free_run|]. split; [done|]. split.
  - simpl. rewrite list_lookup_insert_eq by (by eapply lookup_lt_Some).
    by rewrite (chain_head _ _ _ (ai_chain _ _ Hs)).
  - intros j Hj. apply list_lookup_insert_ne. intros ->.
    pose proof (ai_nodup _ _ Hs) as Hnd. apply NoDup_app in Hnd as (_ & Hnd & _).
    apply (Hnd j Hj). by left.
Qed.

(** ** [boot_alloc] *)

Lemma ROUNDUP_spec a :
  0 <= a <= 2 ^ 32 - 4096 ->
  a <= ROUNDUP a PGSIZE < a + 4096 /\ ROUNDUP a PGSIZE mod 4096 = 0.
Proof.
  intros Ha. unfold ROUNDUP, ROUNDDOWN, PGSIZE.
  rewrite (u32_small a), (u32_small 4096), !(u32_small (a + 4096 - 1)) by lia. dlia.
Qed.

(** What [boot_alloc] leaves, up to the console: the pointer advanced to [nf]. *)
Definition boot_state (nf : Z) (s s' : kst) : Prop :=
  exists c, s' = set_con c (set_nextfree nf s).

Lemma wp_boot_alloc end_ n s (Q : Z -> kst -> Prop) :
  let nf := if nextfree s =? 0 then ROUNDUP end_ PGSIZE else nextfree s in
  n = 0 \/ (nf < BOOT_LIMIT /\ u32 (nf + n) <= BOOT_LIMIT) ->
  (forall s', boot_state (if n =? 0 then nf else ROUNDUP (u32 (nf + n)) PGSIZE) s s' -> Q nf s') ->
  wp (boot_alloc end_ n) Q s.
Proof.
  intros nf Hn HQ. unfold boot_alloc. apply wp_bind, wp_gets, wp_bind.
  assert (forall s', boot_state nf s s' ->
    wp (nf ← gets nextfree;
        cprintf (zl "Nextfree: %u" ++ [10]) [AInt nf];;
        if n =? 0 then mret nf
        else if BOOT_LIMIT <=? nf then panic "boot_alloc: out of memory"
        else if BOOT_LIMIT <? u32 (nf + n) then panic "boot_alloc: out of memory"
        else modify (set_nextfree (ROUNDUP (u32 (nf + n)) PGSIZE));; mret nf) Q s') as Hrest.
  { intros s' [c ->]. apply wp_bind, wp_gets, wp_bind, wp_cprintf; [vm_compute; reflexivity|].
    intros c'. simpl. destruct (Z.eqb_spec n 0) as [->|Hn0].
    - apply wp_ret, HQ. by exists c'.
    - destruct (Z.leb_spec BOOT_LIMIT nf); [lia|].
      destruct (Z.ltb_spec BOOT_LIMIT (u32 (nf + n))); [lia|].
      apply wp_bind, wp_modify, wp_ret, HQ. by exists c'. }
  destruct (Z.eqb_spec (nextfree s) 0) as [E|E].
  - apply wp_bind, wp_modify, wp_cprintf; [vm_compute; reflexivity|]. intros c.
    apply Hrest. by exists c.
  - apply wp_ret, Hrest. exists (con s). by destruct s.
Qed.

(** [boot_alloc] of [n] bytes below the 4MB limit returns the page-aligned
    address the last call left, advances it to a page boundary at or above the
    end of the [n] bytes and within the limit, so that successive allocations
    are disjoint, and changes nothing else but the console; [boot_alloc(0)]
    returns the next free page and allocates nothing. *)
Theorem boot_alloc_spec end_ n s :
  nextfree s mod 4096 = 0 -> KERNBASE <= nextfree s < BOOT_LIMIT ->
  0 <= n -> nextfree s + n <= BOOT_LIMIT ->
  wp (boot_alloc end_ n) (fun r s' => r = nextfree s /\
    boot_state (nextfree s') s s' /\
    nextfree s' mod 4096 = 0 /\ r + n <= nextfree s' <= BOOT_LIMIT /\
    nextfree s' < r + n + 4096) s.
Proof.
  intros Hal Hr Hn Hlim. unfold KERNBASE, BOOT_LIMIT in *. apply wp_boot_alloc.
  - right. destruct (Z.eqb_spec (nextfree s) 0); [lia|]. unfold BOOT_LIMIT.
    rewrite u32_small by lia. lia.
  - destruct (Z.eqb_spec (nextfree s) 0); [lia|]. intros s' [c ->].
    split; [done|]. simpl. split; [by exists c|].
    destruct (Z.eqb_spec n 0) as [->|]; [lia|].
    rewrite (u32_small (nextfree s + n)) by lia.
    pose proof (ROUNDUP_spec (nextfree s + n) ltac:(lia)) as [H1 H2]. dlia.
Qed.

Definition kst0 : kst := KSt ∅ 0 0 0 0 [] None 0 0 0 0 [] [].

Lemma boot_alloc_spec_witness :
  wp (boot_alloc 0 5000) (fun r s' => r = 4027699200 /\ nextfree s' = 4027707392)
    (set_nextfree 4027699200 kst0).
Proof.
  eapply wp_mono.
  - apply (boot_alloc_spec 0 5000 (set_nextfree 4027699200 kst0)); vm_compute; try reflexivity;
      try (split; [discriminate|reflexivity]); discriminate.
  - intros r s' (-> & _ & Hal & Hb & Hu). simpl in *. split; [reflexivity|].
    Z.div_mod_to_equations. lia.
Defined.

(** The limit test of [boot_alloc] is made on a sum that wraps around 32
    bits: a request that reaches past the top of the address space is granted,
    and the next free address falls below [KERNBASE]. *)
Theorem boot_alloc_wraps end_ n s :
  nextfree s mod 4096 = 0 -> KERNBASE <= nextfree s < BOOT_LIMIT ->
  2 ^ 32 <= nextfree s + n < 2 ^ 32 + KERNBASE - 4096 -> n < 2 ^ 32 ->
  wp (boot_alloc end_ n) (fun r s' => r = nextfree s /\ nextfree s' < KERNBASE) s.
Proof.
  intros Hal Hr Hw Hn. unfold KERNBASE, BOOT_LIMIT in *.
  assert (u32 (nextfree s + n) = nextfree s + n - 2 ^ 32) as Hu.
  { unfold u32. symmetry. apply Z.mod_unique with 1; lia. }
  apply wp_boot_alloc.
  - right. destruct (Z.eqb_spec (nextfree s) 0); [lia|]. unfold BOOT_LIMIT. rewrite Hu. lia.
  - destruct (Z.eqb_spec (nextfree s) 0); [lia|]. intros s' [c ->].
    split; [done|]. simpl. destruct (Z.eqb_spec n 0) as [->|]; [lia|]. rewrite Hu.
    pose proof (ROUNDUP_spec (nextfree s + n - 2 ^ 32) ltac:(lia)). unfold KERNBASE. lia.
Qed.

Lemma boot_alloc_wraps_witness :
  wp (boot_alloc 0 268435456) (fun r s' => r = 4027699200 /\ nextfree s' < KERNBASE)
    (set_nextfree 4027699200 kst0).
Proof.
  apply (boot_alloc_wraps 0 268435456 (set_nextfree 4027699200 kst0));
    unfold KERNBASE, BOOT_LIMIT; simpl; try lia. reflexivity.
Defined.

(** ** [page_init] *)

(** The pages [page_init] frees, [nfp] being the first page [boot_alloc] has
    not handed out. *)
Definition is_free_page (nfp : Z) (i : nat) : Prop :=
  Z.of_nat i < 160 \/ Z.max 256 nfp < Z.of_nat i.
#[global] Instance is_free_page_dec nfp i : Decision (is_free_page nfp i).
Proof. unfold is_free_page. apply _. Defined.

Definition init_free_list (n nfp : Z) : list nat :=
  reverse (filter (is_free_page nfp) (seq 1 (Z.to_nat (n - 1)))).

Lemma pp_set_run i p s q :
  pages s !! i = Some q ->
  pp_set i p s = Ok tt (set_pages (pages_va s) (<[i := p]> (pages s)) s).
Proof. intros H. unfold pp_set. by rewrite H. Qed.

Section page_init_loop.
Context (nfp : Z) (m0 : mem) (n0 : Z) (nf0 : Z).

(** The loop's invariant: the pages seen so far that are free are linked, and
    the pages ahead are as the memset left them. *)
Definition init_inv (seen : list nat) (s : kst) : Prop :=
  alloc_inv s (reverse (filter (is_free_page nfp) seen)) /\ npages s = n0 /\ nextfree s = nf0 /\
  k_mem s = m0 /\
  (forall j, (0 < j < Z.to_nat n0)%nat -> j ∉ seen \/ ~ is_free_page nfp j ->
     pages s !! j = Some (MkPage None 0)).

Lemma page_init_step_inv seen i s :
  (0 < i < Z.to_nat n0)%nat -> i ∉ seen -> 0%nat ∉ seen -> init_inv seen s ->
  wp (page_init_step 160 256 nfp i) (fun _ => init_inv (seen ++ [i])) s.
Proof.
  intros Hi His H0 (Hs & Hn & Hnf & Hm & Hp).
  assert (forall j, j ∉ seen -> j ∉ reverse (filter (is_free_page nfp) seen)) as Hfl.
  { intros j Hj. rewrite elem_of_reverse, list_elem_of_filter. naive_solver. }
  pose proof (pages_lookup s _ 0 Hs ltac:(lia)) as [p0 Hp0].
  assert (~ is_free_page nfp i ->
    wp (pp_set 0 (MkPage None 1)) (fun _ => init_inv (seen ++ [i])) s) as Hused.
  { intros Hnf'. unfold wp. rewrite (pp_set_run _ _ _ _ Hp0).
    split_and!; try done; simpl.
    - rewrite filter_app, filter_cons_False, app_nil_r by done.
      apply alloc_inv_pp_set; auto. simpl. lia.
    - intros j Hj Hjs. rewrite list_lookup_insert_ne by lia. apply Hp; [done|].
      destruct (decide (is_free_page nfp j)); [left; set_solver|by right]. }
  assert (is_free_page nfp i ->
    wp (fl ← gets page_free_list; pp_set i (MkPage fl 0);; modify (set_free_list (Some i)))
      (fun _ => init_inv (seen ++ [i])) s) as Hfree.
  { intros Hf. apply wp_bind, wp_gets, wp_bind. unfold wp at 1.
    rewrite (pp_set_run _ _ _ (MkPage None 0)) by (apply Hp; auto). apply wp_modify.
    change (init_inv (seen ++ [i]) (free_state i s)). split_and!; try done; simpl.
    - rewrite filter_app, filter_cons_True, filter_nil, reverse_snoc by done.
      apply page_free_inv; auto.
    - intros j Hj Hjs. rewrite list_lookup_insert_ne by (intros ->; set_solver).
      apply Hp; [done|]. destruct Hjs; [left; set_solver|by right]. }
  unfold page_init_step. unfold is_free_page in Hused, Hfree.
  destruct (Z.leb_spec 160 (Z.of_nat i)), (Z.leb_spec (Z.of_nat i) 256); simpl;
    try (apply Hused; lia);
  destruct (Z.ltb_spec 256 (Z.of_nat i)), (Z.leb_spec (Z.of_nat i) nfp); simpl;
    first [apply Hused; lia | apply Hfree; lia | lia].
Qed.
End page_init_loop.

Lemma wp_page_init end_ s n :
  nextfree s <> 0 -> KERNBASE <= nextfree s < 2 ^ 32 ->
  npages s = n -> 0 < n <= 65536 -> mem_ok (k_mem s) ->
  pages s = replicate (Z.to_nat n) (MkPage None 0) ->
  wp (page_init end_)
    (fun _ => init_inv ((nextfree s - KERNBASE) / 4096) (k_mem s) n (nextfree s)
       (seq 1 (Z.to_nat (n - 1)))) s.
Proof.
  intros Hnf0 Hnf <- Hnr Hm Hps. unfold page_init.
  apply wp_bind, wp_modify, wp_bind. unfold wp at 1.
  rewrite (pp_set_run _ _ _ (MkPage None 0))
    by (simpl; rewrite Hps; apply lookup_replicate; split; [done|lia]).
  apply wp_bind, wp_cprintf; [vm_compute; reflexivity|]; intros c1.
  apply wp_bind, wp_cprintf; [vm_compute; reflexivity|]; intros c2.
  apply wp_bind, wp_boot_alloc; [by left|]. simpl.
  destruct (Z.eqb_spec (nextfree s) 0) as [?|_]; [done|]. intros s1 [c3 ->].
  apply wp_bind. unfold PADDR. destruct (Z.ltb_spec (nextfree s) KERNBASE); [lia|].
  apply wp_ret, wp_bind, wp_cprintf; [vm_compute; reflexivity|]; intros c4.
  apply wp_bind, wp_gets. simpl.
  set (nfp := (nextfree s - KERNBASE) / 4096).
  change (IOPHYSMEM / PGSIZE) with 160. change (EXTPHYSMEM / PGSIZE) with 256.
  change ((nextfree s - KERNBASE) / PGSIZE) with nfp.
  apply (wp_for_each (fun seen _ => init_inv nfp (k_mem s) (npages s) (nextfree s) seen)).
  - split_and!; try done; simpl.
    + constructor; simpl; rewrite ?length_insert, ?Hps, ?length_replicate; try (done || lia).
      * by apply NoDup_nil_2.
      * intros i p [(_ & <- & _)|[_ [-> _]%lookup_replicate]]%list_lookup_insert_Some; simpl; lia.
      * by intros i p [(_ & <- & _)|[_ [-> _]%lookup_replicate]]%list_lookup_insert_Some.
    + intros j Hj _. rewrite list_lookup_insert_ne, Hps by lia.
      apply lookup_replicate. split; [done|lia].
  - intros seen i todo s' Hseq Hinv.
    assert (NoDup (seen ++ i :: todo)) as Hnd by (rewrite <- Hseq; apply NoDup_seq).
    assert (forall j, j ∈ seen ++ i :: todo -> (0 < j < Z.to_nat (npages s))%nat) as Hr.
    { intros j. rewrite <- Hseq, elem_of_seq. lia. }
    apply page_init_step_inv; [apply Hr; set_solver| | |done].
    + apply NoDup_app in Hnd as (_ & Hnd & _). intros Hi. apply (Hnd i Hi). left.
    + intros H0. specialize (Hr 0%nat). assert (0 < 0)%nat; [|lia]. apply Hr. set_solver.
Qed.

(** [page_init], run after the [pages] array was cleared, builds a
    well-formed free list of exactly the pages below the I/O hole, page 0
    excepted, and the pages above everything [boot_alloc] handed out; it
    touches no page's contents.  So no free page lies in the I/O hole, the
    kernel image, the page directory or the [pages] array. *)
Theorem page_init_spec end_ s :
  KERNBASE <= nextfree s < 2 ^ 32 -> 0 < npages s <= 65536 -> mem_ok (k_mem s) ->
  pages s = replicate (Z.to_nat (npages s)) (MkPage None 0) ->
  wp (page_init end_) (fun _ s' =>
    let fl := init_free_list (npages s) ((nextfree s - KERNBASE) / 4096) in
    alloc_inv s' fl /\ k_mem s' = k_mem s /\
    (forall i, i ∈ fl <-> (0 < Z.of_nat i < npages s) /\
       (4096 * Z.of_nat i < IOPHYSMEM \/
        (EXTPHYSMEM < 4096 * Z.of_nat i /\ nextfree s - KERNBASE < 4096 * Z.of_nat i)))) s.
Proof.
  intros Hnf Hn Hm Hps. eapply wp_mono.
  { apply (wp_page_init end_ s (npages s)); try done. unfold KERNBASE in Hnf. lia. }
  intros _ s' (Hs & _ & _ & Hm' & _). split_and!; [done|done|].
  intros i. unfold init_free_list, is_free_page, IOPHYSMEM, EXTPHYSMEM.
  rewrite elem_of_reverse, list_elem_of_filter, elem_of_seq. dlia.
Qed.

(** [page_init] does not mark the pages in use: in the I/O hole and in the
    kernel's own memory it writes [pages[0]] instead of [pages[i]], so every
    such page keeps a zero reference count and a null link, and [page_free]
    would accept it and put it on the free list. *)
Theorem page_init_in_use_unmarked end_ s :
  KERNBASE <= nextfree s < 2 ^ 32 -> 0 < npages s <= 65536 -> mem_ok (k_mem s) ->
  pages s = replicate (Z.to_nat (npages s)) (MkPage None 0) ->
  wp (page_init end_) (fun _ s' =>
    forall i, 160 <= Z.of_nat i <= Z.max 256 ((nextfree s - KERNBASE) / 4096) ->
      Z.of_nat i < npages s ->
      pages s' !! i = Some (MkPage None 0) /\
      exists s'', page_free i s' = Ok tt s'' /\ page_free_list s'' = Some i) s.
Proof.
  intros Hnf Hn Hm Hps. eapply wp_mono.
  { apply (wp_page_init end_ s (npages s)); try done. unfold KERNBASE in Hnf. lia. }
  intros _ s' (Hs & _ & _ & _ & Hp) i Hi Hin.
  assert (pages s' !! i = Some (MkPage None 0)) as H.
  { apply Hp; [lia|]. right. unfold is_free_page. lia. }
  split; [done|]. eexists. split; [by apply page_free_run|done].
Qed.

(** ** Witnesses *)

(** A machine with 300 pages, of which [boot_alloc] has used up to page 280. *)
Definition ex_boot : kst :=
  set_nextfree (KERNBASE + 4096 * 280)
    (set_pages (KERNBASE + 4096 * 278) (replicate 300 (MkPage None 0))
      (set_npages 300 160 kst0)).

Lemma page_init_spec_witness :
  wp (page_init 0) (fun _ s' => alloc_inv s' (init_free_list 300 280) /\
    (281%nat ∈ init_free_list 300 280 <-> True)) ex_boot.
Proof.
  eapply wp_mono.
  - apply (page_init_spec 0 ex_boot); simpl; unfold KERNBASE; try lia; try reflexivity.
    apply (bool_decide_unpack _). vm_compute. exact I.
  - intros _ s' (Hs & _ & Hfl). split; [exact Hs|]. split; [done|]. intros _.
    apply (Hfl 281%nat). split; [split; reflexivity|]. right. split; reflexivity.
Defined.

Lemma page_init_in_use_unmarked_witness :
  wp (page_init 0) (fun _ s' => exists s'', page_free 270 s' = Ok tt s'') ex_boot.
Proof.
  eapply wp_mono.
  - apply (page_init_in_use_unmarked 0 ex_boot); simpl; unfold KERNBASE; try lia;
      try reflexivity. apply (bool_decide_unpack _). vm_compute. exact I.
  - intros ? s' H. destruct (H 270%nat) as [_ (s'' & E & _)];
      [vm_compute; split; discriminate|reflexivity|].
    exists s''. exact E.
Defined.

(** Four pages: page 0 in use, page 1 allocated, pages 3 and 2 free. *)
Definition ex_alloc : kst :=
  set_free_list (Some 3%nat)
    (set_pages KERNBASE [MkPage None 1; MkPage None 0; MkPage None 0; MkPage (Some 2%nat) 0]
      (set_npages 4 4 kst0)).

Lemma ex_alloc_inv : alloc_inv ex_alloc [3; 2]%nat.
Proof.
  constructor; simpl.
  - done.
  - lia.
  - split; [done|]. exists (MkPage (Some 2%nat) 0). split_and!; try done.
    by exists (MkPage None 0).
  - apply (bool_decide_unpack _). vm_compute. exact I.
  - apply (bool_decide_unpack _). vm_compute. exact I.
  - intros [|[|[|[|i]]]] p Hp; simplify_eq/=; lia.
  - intros [|[|[|[|i]]]] p Hp Hi; simplify_eq/=; try done. destruct Hi. left.
Qed.

Lemma page_alloc_spec_witness :
  exists s', page_alloc ALLOC_ZERO ex_alloc = Ok (Some 3%nat) s' /\ alloc_inv s' [2%nat].
Proof.
  destruct (page_alloc_spec ALLOC_ZERO ex_alloc [3; 2]%nat ex_alloc_inv) as (s' & H1 & H2 & _).
  exists s'. split; [exact H1|exact H2].
Defined.

Lemma page_free_spec_witness :
  exists s', page_free 1 ex_alloc = Ok tt s' /\ alloc_inv s' [1; 3; 2]%nat.
Proof.
  destruct (page_free_spec ex_alloc [3; 2]%nat 1 (MkPage None 0) ex_alloc_inv)
    as (s' & H1 & H2 & _); [reflexivity|set_solver|].
  exists s'. split; [exact H1|exact H2].
Defined.

Lemma page_free_last_twice_witness :
  exists s', page_free 2 ex_alloc = Ok tt s' /\ pages s' !! 2%nat = Some (MkPage (Some 3%nat) 0).
Proof.
  destruct (page_free_last_twice ex_alloc [3%nat] 2 ex_alloc_inv) as (s' & H1 & _ & H2 & _).
  exists s'. split; [exact H1|exact H2].
Defined.
