(* ===== verification/JosPgdir.v ===== *)
(** * JOS page tables (lab3/kern/pmap.c)

    The two-level page table: [pgdir_walk], [boot_map_region], [page_lookup],
    [page_remove], [page_insert] and [check_va2pa], the lookup they implement,
    and the invariant that ties the page tables, the reference counts and the
    free list together. *)

From S2P Require Import Prelude CMem JosString JosPrintfmt JosPmap.
From stdpp Require Import base numbers option list gmap strings.
Open Scope Z_scope.

(** ** The routines *)

(** A page directory is the kernel address of its page; the result is the
    kernel address of the entry. *)
Definition pgdir_walk (pgdir va : Z) (create : bool) : M kst (option Z) :=
  let page_index := PTX va in
  let dir_index := PDX va in
  let ptr_pgtable := pgdir + 4 * dir_index in
  let finish : M kst (option Z) :=
    pde ← load ptr_pgtable;
    newpage ← KADDR (PTE_ADDR pde);
    mret (Some (newpage + 4 * page_index)) in
  pde ← load ptr_pgtable;
  if (ptr_pgtable =? 0) || negb (has pde PTE_P) then
    if negb create then mret None
    else
      newpage_ptr ← page_alloc ALLOC_ZERO;
      match newpage_ptr with
      | None => mret None
      | Some pp =>
          pp_incref pp;;
          store ptr_pgtable (Z.lor (Z.lor (Z.lor (page2pa pp) PTE_P) PTE_W) PTE_U);;
          finish
      end
  else finish.

(** The body of the loop of [boot_map_region], [n] pages from here on. *)
Fixpoint boot_map_loop (n : nat) (pgdir va pa perm : Z) (superpage : bool) : M kst unit :=
  match n with
  | O => mret tt
  | S k =>
      pgtable_entry ← pgdir_walk pgdir va true;
      match pgtable_entry with
      | None => mret tt
      | Some p =>
          (if superpage then store p (Z.lor (Z.lor (Z.lor pa perm) PTE_P) PTE_PS)
           else store p (Z.lor (Z.lor pa perm) PTE_P));;
          boot_map_loop k pgdir (u32 (va + PGSIZE)) (u32 (pa + PGSIZE)) perm superpage
      end
  end.

Definition boot_map_region (pgdir va size pa perm : Z) (superpage : bool) : M kst unit :=
  assertM (va mod PGSIZE =? 0) "assertion failed: va % PGSIZE == 0";;
  assertM (pa mod PGSIZE =? 0) "assertion failed: pa % PGSIZE == 0";;
  boot_map_loop (Z.to_nat (size / PGSIZE)) pgdir va pa perm superpage.

(** The page, and what is stored through [pte_store]. *)
Definition page_lookup (pgdir va : Z) : M kst (option (nat * Z)) :=
  mapped_pg ← pgdir_walk pgdir va false;
  match mapped_pg with
  | None => mret None
  | Some p =>
      e ← load p;
      if negb (has e PTE_P) then mret None
      else returnpage ← pa2page (PTE_ADDR e); mret (Some (returnpage, p))
  end.

Definition tlb_invalidate (pgdir va : Z) : M kst unit :=
  modify (fun s => set_tlb (tlb s ++ [va]) s).

Definition page_remove (pgdir va : Z) : M kst unit :=
  page_to_remove ← page_lookup pgdir va;
  match page_to_remove with
  | None => mret tt
  | Some (pp, store_entry) =>
      pgtable_entry ← pgdir_walk pgdir va false;
      match pgtable_entry with
      | None => panic "page_remove: null entry"
      | Some p =>
          e ← load p;
          q ← pa2page (PTE_ADDR e);
          assertM (q =? pp)%nat "assertion failed: pa2page(...) == page_to_remove";;
          e ← load p;
          if negb (has e PTE_P) then mret tt
          else
            store store_entry 0;;
            page_decref pp;;
            tlb_invalidate pgdir va
      end
  end.

Definition page_insert (pgdir : Z) (pp : nat) (va perm : Z) : M kst Z :=
  pgtable_entry ← pgdir_walk pgdir va true;
  match pgtable_entry with
  | None => mret (- E_NO_MEM)
  | Some p =>
      e ← load p;
      (if has e PTE_P then
         pp_incref pp;;
         page_remove pgdir va;;
         store p (Z.lor (Z.lor (page2pa pp) perm) PTE_P)
       else
         store p (Z.lor (Z.lor (page2pa pp) perm) PTE_P);;
         pp_incref pp);;
      mret 0
  end.

Definition check_va2pa (pgdir va : Z) : M kst Z :=
  pde ← load (pgdir + 4 * PDX va);
  if negb (has pde PTE_P) then mret (u32 (Z.lnot 0))
  else
    p ← KADDR (PTE_ADDR pde);
    e ← load (p + 4 * PTX va);
    if negb (has e PTE_P) then mret (u32 (Z.lnot 0)) else mret (PTE_ADDR e).

(** ** Words and fields *)

Lemma has_P x : has x PTE_P = Z.testbit x 0.
Proof.
  unfold has, PTE_P. change 1 with (Z.ones 1). rewrite Z.land_ones by lia.
  change (2 ^ 1) with 2. rewrite Zmod_odd, Z.bit0_odd.
  by destruct (Z.odd x).
Qed.

Lemma has_P_odd x : has x PTE_P = true <-> x mod 2 = 1.
Proof. rewrite has_P, Z.bit0_odd, Zmod_odd. by destruct (Z.odd x). Qed.

Lemma PTE_ADDR_eq x : 0 <= x < 2 ^ 32 -> PTE_ADDR x = 4096 * (x / 4096).
Proof.
  intros H. unfold PTE_ADDR. change (u32 (Z.lnot 4095)) with (2 ^ 32 - 2 ^ 12).
  by rewrite land_high_mask by lia.
Qed.

Lemma PDX_eq va : 0 <= va < 2 ^ 32 -> PDX va = va / 2 ^ 22.
Proof.
  intros H. unfold PDX. change 1023 with (Z.ones 10).
  rewrite Z.land_ones, Z.shiftr_div_pow2 by lia. dlia.
Qed.

Lemma PTX_eq va : PTX va = (va / 4096) mod 1024.
Proof.
  unfold PTX. change 1023 with (Z.ones 10). rewrite Z.land_ones, Z.shiftr_div_pow2 by lia. done.
Qed.

Lemma PDX_range va : 0 <= PDX va < 1024.
Proof.
  unfold PDX. change 1023 with (Z.ones 10). rewrite Z.land_ones by lia.
  apply Z.mod_pos_bound. lia.
Qed.

Lemma PTX_range va : 0 <= PTX va < 1024.
Proof. rewrite PTX_eq. apply Z.mod_pos_bound. lia. Qed.

(** The two indices determine the page. *)
Lemma PDX_PTX_inj va va' :
  0 <= va < 2 ^ 32 -> 0 <= va' < 2 ^ 32 -> PDX va = PDX va' -> PTX va = PTX va' ->
  va / 4096 = va' / 4096.
Proof. intros H H'. rewrite !PDX_eq, !PTX_eq by done. dlia. Qed.

Lemma PDX_page va : 0 <= va < 2 ^ 32 -> PDX (4096 * (va / 4096)) = PDX va.
Proof. intros. rewrite !PDX_eq by dlia. dlia. Qed.

Lemma PTX_page va : PTX (4096 * (va / 4096)) = PTX va.
Proof. rewrite !PTX_eq. f_equal. rewrite Z.mul_comm, Z.div_mul; lia. Qed.

(** An entry: a page number with flags below the page size. *)
Lemma lor_flags n f :
  0 <= f < 4096 -> Z.lor (4096 * n) f = 4096 * n + f.
Proof.
  intros. apply (lor_low_add _ _ 12); [lia| |lia]. change (2 ^ 12) with 4096. dlia.
Qed.

Lemma entry_eq pp perm :
  Z.of_nat pp < 2 ^ 20 -> 0 <= perm < 4096 ->
  Z.lor (Z.lor (page2pa pp) perm) PTE_P = 4096 * Z.of_nat pp + Z.lor perm PTE_P.
Proof.
  intros Hp Hf. rewrite page2pa_eq, <- Z.lor_assoc by done. apply lor_flags.
  apply (lor_range 12); unfold PTE_P; lia.
Qed.

Lemma perm_P perm :
  0 <= perm < 4096 -> 0 <= Z.lor perm PTE_P < 4096 /\ Z.lor perm PTE_P mod 2 = 1.
Proof.
  intros. split; [apply (lor_range 12); unfold PTE_P; lia|].
  apply has_P_odd. rewrite has_P, Z.lor_spec. apply orb_true_r.
Qed.

(** ** What the page tables say *)

Definition pde (s : kst) (pgdir d : Z) : Z := load32 (k_mem s) (pgdir + 4 * d).

(** The slot of the directory that maps the directory itself, at [UVPT]. *)
Definition self_slot : Z := PDX UVPT.

Definition present (s : kst) (pgdir d : Z) : bool := has (pde s pgdir d) PTE_P.

(** The kernel address of the entry of [va], when its table is present. *)
Definition slot (s : kst) (pgdir va : Z) : Z :=
  KERNBASE + 4096 * (pde s pgdir (PDX va) / 4096) + 4 * PTX va.

(** The entry of [va] when it is present: the mapping the tables implement. *)
Definition mapped (s : kst) (pgdir va : Z) : option Z :=
  if present s pgdir (PDX va) then
    let e := load32 (k_mem s) (slot s pgdir va) in if has e PTE_P then Some e else None
  else None.

(** The directory and the tables it refers to are distinct pages, in range and
    not free; the self-map slot is left out. *)
Record pt_inv (s : kst) (pgdir : Z) (fl : list nat) : Prop := PtInv {
  pt_alloc : alloc_inv s fl;
  pt_dir : exists pd : nat, pgdir = KERNBASE + 4096 * Z.of_nat pd /\
    Z.of_nat pd < npages s /\ pd ∉ fl;
  pt_tab : forall d, 0 <= d < 1024 -> d <> self_slot -> present s pgdir d = true ->
    pde s pgdir d / 4096 < npages s /\ Z.to_nat (pde s pgdir d / 4096) ∉ fl /\
    pgdir <> KERNBASE + 4096 * (pde s pgdir d / 4096);
  pt_inj : forall d d', 0 <= d < 1024 -> 0 <= d' < 1024 -> d <> self_slot -> d' <> self_slot ->
    present s pgdir d = true -> present s pgdir d' = true ->
    pde s pgdir d / 4096 = pde s pgdir d' / 4096 -> d = d' }.

Section walk.
Context (s : kst) (pgdir : Z) (fl : list nat).
Hypothesis Hpt : pt_inv s pgdir fl.

Lemma pde_range d : 0 <= pde s pgdir d < 2 ^ 32.
Proof. apply load32_range, (ai_mem _ _ (pt_alloc _ _ _ Hpt)). Qed.

Lemma walk_ptr_nonzero d : 0 <= d -> (pgdir + 4 * d =? 0) = false.
Proof.
  intros Hd. apply Z.eqb_neq. destruct (pt_dir _ _ _ Hpt) as (pd & -> & _).
  unfold KERNBASE. lia.
Qed.

Lemma walk_finish va :
  PDX va <> self_slot -> present s pgdir (PDX va) = true ->
  (pde ← load (pgdir + 4 * PDX va);
   newpage ← KADDR (PTE_ADDR pde);
   mret (Some (newpage + 4 * PTX va))) s = Ok (Some (slot s pgdir va)) s.
Proof.
  intros Hd Hp. unfold mbind, M_bind, load, gets. fold (pde s pgdir (PDX va)).
  pose proof (pde_range (PDX va)) as Hr.
  destruct (pt_tab _ _ _ Hpt _ (PDX_range va) Hd Hp) as (Hn & _).
  pose proof (ai_npages _ _ (pt_alloc _ _ _ Hpt)).
  unfold KADDR, mbind, M_bind, gets. rewrite PTE_ADDR_eq, PGNUM_div by done.
  rewrite Z.mul_comm, Z.div_mul by lia.
  destruct (Z.leb_spec (npages s) (pde s pgdir (PDX va) / 4096)); [lia|].
  rewrite u32_small by (unfold KERNBASE; dlia). simpl. unfold mret, M_ret, slot.
  do 2 f_equal. lia.
Qed.

Lemma pgdir_walk_present va create :
  PDX va <> self_slot -> present s pgdir (PDX va) = true ->
  pgdir_walk pgdir va create s = Ok (Some (slot s pgdir va)) s.
Proof.
  intros Hd Hp. rewrite <- (walk_finish va) by done. unfold pgdir_walk.
  unfold mbind at 1, M_bind at 1, load at 1, gets at 1. fold (pde s pgdir (PDX va)).
  rewrite walk_ptr_nonzero by apply PDX_range. unfold present in Hp. by rewrite Hp.
Qed.

Lemma pgdir_walk_absent va create :
  present s pgdir (PDX va) = false -> create = false \/ fl = [] ->
  pgdir_walk pgdir va create s = Ok None s.
Proof.
  intros Hp Hc. unfold pgdir_walk.
  unfold mbind at 1, M_bind at 1, load at 1, gets at 1. fold (pde s pgdir (PDX va)).
  rewrite walk_ptr_nonzero by apply PDX_range. unfold present in Hp. rewrite Hp. simpl.
  destruct create; [|done]. destruct Hc as [|Hfl]; [done|]. rewrite Hfl in Hpt.
  simpl. by rewrite (run_bind _ _ _ _ _ (page_alloc_empty _ _ (pt_alloc _ _ _ Hpt))).
Qed.

(** Writing a word of a present table leaves the directory, and the entries of
    every other page. *)
Lemma pde_store_slot va v d :
  0 <= d < 1024 -> PDX va <> self_slot -> present s pgdir (PDX va) = true ->
  load32 (store32 (k_mem s) (slot s pgdir va) v) (pgdir + 4 * d) = pde s pgdir d.
Proof.
  intros Hd Hs Hp. apply load32_store32_ne.
  destruct (pt_tab _ _ _ Hpt _ (PDX_range va) Hs Hp) as (_ & _ & Hne).
  destruct (pt_dir _ _ _ Hpt) as (pd & Hpd & _). pose proof (PTX_range va).
  unfold slot. lia.
Qed.

Lemma slot_disjoint va va' :
  0 <= va < 2 ^ 32 -> 0 <= va' < 2 ^ 32 -> va / 4096 <> va' / 4096 ->
  PDX va <> self_slot -> PDX va' <> self_slot ->
  present s pgdir (PDX va) = true -> present s pgdir (PDX va') = true ->
  slot s pgdir va' + 4 <= slot s pgdir va \/ slot s pgdir va + 4 <= slot s pgdir va'.
Proof.
  intros Hv Hv' Hne Hd Hd' Hp Hp'. unfold slot.
  pose proof (PTX_range va). pose proof (PTX_range va').
  destruct (decide (pde s pgdir (PDX va) / 4096 = pde s pgdir (PDX va') / 4096)) as [E|E]; [|lia].
  pose proof (pt_inj _ _ _ Hpt _ _ (PDX_range va) (PDX_range va') Hd Hd' Hp Hp' E) as Eq.
  assert (PTX va <> PTX va'); [|rewrite E; lia].
  intros Et. by apply Hne, PDX_PTX_inj.
Qed.

End walk.

(** ** Setting an entry *)

Definition set_entry (a v : Z) (s : kst) : kst := set_mem (store32 (k_mem s) a v) s.

Section set_entry.
Context (s : kst) (pgdir : Z) (fl : list nat) (va v : Z).
Hypothesis Hpt : pt_inv s pgdir fl.
Hypothesis Hva : 0 <= va < 2 ^ 32.
Hypothesis Hself : PDX va <> self_slot.
Hypothesis Hpres : present s pgdir (PDX va) = true.

Let s' := set_entry (slot s pgdir va) v s.

Lemma set_entry_pde d : 0 <= d < 1024 -> pde s' pgdir d = pde s pgdir d.
Proof. intros. by apply (pde_store_slot s pgdir fl). Qed.

Lemma set_entry_present d : 0 <= d < 1024 -> present s' pgdir d = present s pgdir d.
Proof. intros. unfold present. by rewrite set_entry_pde. Qed.

Lemma set_entry_inv : pt_inv s' pgdir fl.
Proof.
  constructor.
  - apply alloc_inv_mem; [|apply (pt_alloc _ _ _ Hpt)].
    apply mem_ok_store32, (ai_mem _ _ (pt_alloc _ _ _ Hpt)).
  - apply (pt_dir _ _ _ Hpt).
  - intros d Hd Hs. rewrite set_entry_present, set_entry_pde by done. by apply (pt_tab _ _ _ Hpt).
  - intros d d' Hd Hd'. rewrite !set_entry_present, !set_entry_pde by done.
    by apply (pt_inj _ _ _ Hpt).
Qed.

Lemma set_entry_slot va' : slot s' pgdir va' = slot s pgdir va'.
Proof. unfold slot. by rewrite set_entry_pde by apply PDX_range. Qed.

Lemma set_entry_mapped va' :
  0 <= va' < 2 ^ 32 -> PDX va' <> self_slot ->
  mapped s' pgdir va' =
    if decide (va' / 4096 = va / 4096)
    then (if has (u32 v) PTE_P then Some (u32 v) else None) else mapped s pgdir va'.
Proof.
  intros Hv' Hs'. unfold mapped.
  rewrite set_entry_present, set_entry_slot by apply PDX_range. simpl. case_decide as E.
  - assert (PDX va' = PDX va) as Ed.
    { by rewrite <- PDX_page, E, PDX_page. }
    assert (PTX va' = PTX va) as Et by (by rewrite <- PTX_page, E, PTX_page).
    rewrite Ed, Hpres. unfold slot. rewrite Ed, Et. by rewrite load32_store32_eq.
  - destruct (present s pgdir (PDX va')) eqn:Hp'; [|done].
    rewrite load32_store32_ne; [done|].
    by apply (slot_disjoint s pgdir fl).
Qed.
End set_entry.

(** ** Creating a table *)

(** The state after page [i] became the table of slot [d] of the directory. *)
Definition walk_state (i : nat) (fl : list nat) (pgdir d : Z) (s : kst) : kst :=
  set_entry (pgdir + 4 * d) (4096 * Z.of_nat i + 7)
    (set_pages (pages_va s) (<[i := MkPage None 1]> (pages s))
      (set_mem (zeroed ALLOC_ZERO i (k_mem s)) (set_free_list (head fl) s))).

(** The directory and its tables are not the page at the head of the free list. *)
Lemma create_dir s pgdir i fl : pt_inv s pgdir (i :: fl) ->
  exists pd : nat, pgdir = KERNBASE + 4096 * Z.of_nat pd /\
    Z.of_nat pd < npages s /\ pd ∉ fl /\ pd <> i.
Proof.
  intros Hpt. destruct (pt_dir _ _ _ Hpt) as (pd & -> & Hn & Hpd). exists pd.
  rewrite not_elem_of_cons in Hpd. naive_solver.
Qed.

Lemma create_old_table s pgdir i fl d : pt_inv s pgdir (i :: fl) ->
  0 <= d < 1024 -> d <> self_slot -> present s pgdir d = true ->
  pde s pgdir d / 4096 < npages s /\ Z.to_nat (pde s pgdir d / 4096) ∉ fl /\
  pde s pgdir d / 4096 <> Z.of_nat i /\ pgdir <> KERNBASE + 4096 * (pde s pgdir d / 4096).
Proof.
  intros Hpt Hd Hs Hp. destruct (pt_tab _ _ _ Hpt d Hd Hs Hp) as (? & Hn & ?).
  rewrite not_elem_of_cons in Hn. destruct Hn as [Hn ?]. split_and!; [done..| |done].
  intros E. apply Hn. rewrite E. lia.
Qed.

Section create.
Context (s : kst) (pgdir : Z) (i : nat) (fl : list nat) (va : Z).
Hypothesis Hpt : pt_inv s pgdir (i :: fl).
Hypothesis Hself : PDX va <> self_slot.
Hypothesis Habs : present s pgdir (PDX va) = false.

Let s1 := walk_state i fl pgdir (PDX va) s.

Lemma create_bound : Z.of_nat i < npages s <= 65536.
Proof.
  split; [apply (free_page_bound _ (i :: fl)); [apply (pt_alloc _ _ _ Hpt)|left]|apply (ai_npages _ _ (pt_alloc _ _ _ Hpt))].
Qed.

Lemma create_pde_eq : pde s1 pgdir (PDX va) = 4096 * Z.of_nat i + 7.
Proof.
  unfold pde. simpl. rewrite load32_store32_eq. pose proof create_bound. apply u32_small. lia.
Qed.

Lemma create_mem :
  k_mem s1 = store32 (memset (k_mem s) (KERNBASE + 4096 * Z.of_nat i) 0 4096)
    (pgdir + 4 * PDX va) (4096 * Z.of_nat i + 7).
Proof. reflexivity. Qed.

Lemma create_load a :
  a + 4 <= pgdir + 4 * PDX va \/ pgdir + 4 * PDX va + 4 <= a ->
  a + 4 <= KERNBASE + 4096 * Z.of_nat i \/ KERNBASE + 4096 * Z.of_nat i + 4096 <= a ->
  load32 (k_mem s1) a = load32 (k_mem s) a.
Proof.
  intros H1 H2. rewrite create_mem, load32_store32_ne by lia. apply load32_memset_out; lia.
Qed.

Lemma create_pde_ne d : 0 <= d < 1024 -> d <> PDX va -> pde s1 pgdir d = pde s pgdir d.
Proof.
  intros Hd Hne. destruct (create_dir s pgdir i fl Hpt) as (pd & Hpd & _ & _ & Hi). apply create_load; [lia|].
  pose proof (PDX_range va). lia.
Qed.

Lemma create_present d :
  0 <= d < 1024 -> present s1 pgdir d = if decide (d = PDX va) then true else present s pgdir d.
Proof.
  intros Hd. unfold present. case_decide as E.
  - subst d. rewrite create_pde_eq. apply has_P_odd. dlia.
  - by rewrite create_pde_ne.
Qed.

Lemma create_alloc_inv : alloc_inv s1 fl.
Proof.
  pose proof (pt_alloc _ _ _ Hpt) as Hal.
  apply alloc_inv_mem.
  { apply mem_ok_store32. simpl. apply mem_ok_zeroed, (ai_mem _ _ Hal). }
  pose proof (page_alloc_inv ALLOC_ZERO s i fl Hal) as H.
  pose proof (ai_nodup _ _ Hal) as [Hi _]%NoDup_cons.
  apply (alloc_inv_pp_set _ _ i (MkPage None 1)) in H; [|done|done|simpl; lia].
  unfold set_pages, alloc_state in H. simpl in H. by rewrite list_insert_insert_eq in H.
Qed.

Lemma create_inv : pt_inv s1 pgdir fl.
Proof.
  pose proof (pt_alloc _ _ _ Hpt) as Hal.
  destruct (create_dir s pgdir i fl Hpt) as (pd & Hpd & Hpn & Hpf & Hpi). pose proof create_bound as Hb.
  pose proof (ai_nodup _ _ Hal) as [Hi _]%NoDup_cons.
  assert ((4096 * Z.of_nat i + 7) / 4096 = Z.of_nat i) as Hdiv by dlia.
  constructor.
  - apply create_alloc_inv.
  - by exists pd.
  - intros d Hd Hs. rewrite create_present by done. case_decide as E.
    + intros _. subst d. rewrite create_pde_eq, Hdiv, Nat2Z.id.
      split_and!; [apply Hb|done|lia].
    + intros Hp. rewrite create_pde_ne by done.
      destruct (create_old_table s pgdir i fl d Hpt Hd Hs Hp) as (? & ? & _ & ?). done.
  - intros d d' Hd Hd' Hs Hs'. rewrite !create_present by done.
    destruct (decide (d = PDX va)) as [E1|E1], (decide (d' = PDX va)) as [E2|E2].
    + congruence.
    + intros _ Hp'. rewrite E1, create_pde_eq, Hdiv, create_pde_ne by done. intros E.
      destruct (create_old_table s pgdir i fl d' Hpt Hd' Hs' Hp') as (_ & _ & ? & _). lia.
    + intros Hp _. rewrite E2, create_pde_eq, Hdiv, create_pde_ne by done. intros E.
      destruct (create_old_table s pgdir i fl d Hpt Hd Hs Hp) as (_ & _ & ? & _). lia.
    + rewrite !create_pde_ne by done. by apply (pt_inj _ _ _ Hpt).
Qed.

(** A new table maps nothing, and no other mapping changes. *)
Lemma create_mapped va' : PDX va' <> self_slot -> mapped s1 pgdir va' = mapped s pgdir va'.
Proof.
  intros Hs'. unfold mapped. rewrite create_present by apply PDX_range.
  destruct (create_dir s pgdir i fl Hpt) as (pd & Hpd & _ & _ & Hpi).
  pose proof (PTX_range va'). pose proof (PDX_range va). case_decide as E.
  - rewrite E, Habs. unfold slot. rewrite E, create_pde_eq.
    replace ((4096 * Z.of_nat i + 7) / 4096) with (Z.of_nat i) by dlia.
    rewrite create_mem, load32_store32_ne by lia. by rewrite load32_memset_0 by lia.
  - unfold slot. rewrite create_pde_ne by (done || apply PDX_range).
    destruct (present s pgdir (PDX va')) eqn:Hp; [|done].
    destruct (create_old_table s pgdir i fl _ Hpt (PDX_range va') Hs' Hp) as (_ & _ & ? & ?).
    rewrite create_load; [done|lia|lia].
Qed.

Lemma pgdir_walk_create : pgdir_walk pgdir va true s = Ok (Some (slot s1 pgdir va)) s1.
Proof.
  pose proof create_bound as Hb. pose proof (pt_alloc _ _ _ Hpt) as Hal.
  assert (present s1 pgdir (PDX va) = true) as Hp
    by (rewrite create_present by apply PDX_range; by rewrite decide_True).
  rewrite <- (walk_finish s1 pgdir fl create_inv va) by done. unfold pgdir_walk.
  unfold mbind at 1, M_bind at 1, load at 1, gets at 1. fold (pde s pgdir (PDX va)).
  rewrite (walk_ptr_nonzero s pgdir (i :: fl)) by (done || apply PDX_range).
  unfold present in Habs. rewrite Habs. cbn [orb negb].
  rewrite (run_bind _ _ _ _ _ (page_alloc_run _ _ _ _ Hal)).
  assert (Z.lor (Z.lor (Z.lor (page2pa i) PTE_P) PTE_W) PTE_U = 4096 * Z.of_nat i + 7) as ->.
  { rewrite page2pa_eq, <- !Z.lor_assoc by lia. by apply lor_flags. }
  rewrite (run_bind _ _ _ tt (set_pages (pages_va s) (<[i := MkPage None 1]> (pages s))
    (set_mem (zeroed ALLOC_ZERO i (k_mem s)) (set_free_list (head fl) s)))); [done|].
  unfold pp_incref, mbind, M_bind, pp_get, pp_set. simpl.
  assert (<[i := MkPage None 0]> (pages s) !! i = Some (MkPage None 0)) as Hl.
  { apply list_lookup_insert_eq. rewrite (ai_len _ _ Hal). lia. }
  rewrite Hl. simpl. rewrite Hl. unfold set_pages. simpl. rewrite list_insert_insert_eq. reflexivity.
Qed.
End create.

(** What a walk that may create a table does. *)
Inductive walked (pgdir va : Z) (s : kst) (fl : list nat) : kst -> list nat -> Prop :=
| walked_present : present s pgdir (PDX va) = true -> walked pgdir va s fl s fl
| walked_created i fl' : fl = i :: fl' -> present s pgdir (PDX va) = false ->
    walked pgdir va s fl (walk_state i fl' pgdir (PDX va) s) fl'.

Lemma pgdir_walk_cases s pgdir fl va :
  pt_inv s pgdir fl -> PDX va <> self_slot ->
  (present s pgdir (PDX va) = false /\ fl = [] /\ pgdir_walk pgdir va true s = Ok None s) \/
  exists s1 fl1, walked pgdir va s fl s1 fl1 /\
    pgdir_walk pgdir va true s = Ok (Some (slot s1 pgdir va)) s1.
Proof.
  intros Hpt Hs. destruct (present s pgdir (PDX va)) eqn:Hp.
  - right. exists s, fl. split; [by constructor|]. by apply (pgdir_walk_present _ _ fl).
  - destruct fl as [|i fl]; [left; split_and!; [done..|]|right].
    + apply (pgdir_walk_absent _ _ []); auto.
    + eexists _, fl. split; [by econstructor|]. by apply pgdir_walk_create.
Qed.

Lemma walked_facts s pgdir fl va s1 fl1 :
  pt_inv s pgdir fl -> PDX va <> self_slot -> walked pgdir va s fl s1 fl1 ->
  pt_inv s1 pgdir fl1 /\ present s1 pgdir (PDX va) = true /\
  npages s1 = npages s /\
  (forall va', PDX va' <> self_slot -> mapped s1 pgdir va' = mapped s pgdir va') /\
  (forall q, q ∉ fl -> q ∉ fl1 /\ pages s1 !! q = pages s !! q).
Proof.
  intros Hpt Hs [Hp|i fl' -> Hp]; [done|]. split_and!.
  - by apply create_inv.
  - rewrite create_present by (done || apply PDX_range). by rewrite decide_True.
  - done.
  - intros. by apply create_mapped.
  - intros q [Hqi Hq]%not_elem_of_cons. split; [done|]. simpl. by apply list_lookup_insert_ne.
Qed.

(** ** Reference counts

    [nmaps] counts the user mappings of a page and [ntab] the directory slots
    that use it as a table.  The invariant says that the reference count covers
    both, and the further references [ext] that the kernel holds. *)

Definition user_pages : list Z := seqZ 0 (UTOP / 4096).

Definition maps_to (s : kst) (pgdir : Z) (q : nat) (n : Z) : bool :=
  match mapped s pgdir (4096 * n) with
  | Some e => e / 4096 =? Z.of_nat q
  | None => false
  end.

Definition nmaps (s : kst) (pgdir : Z) (q : nat) : Z := countb (maps_to s pgdir q) user_pages.

Definition table_is (s : kst) (pgdir : Z) (q : nat) (d : Z) : bool :=
  negb (d =? self_slot) && present s pgdir d && (pde s pgdir d / 4096 =? Z.of_nat q).

Definition ntab (s : kst) (pgdir : Z) (q : nat) : Z := countb (table_is s pgdir q) (seqZ 0 1024).

Definition held (ext : nat -> Z) (q : nat) : nat -> Z :=
  fun x => ext x + Z.b2z (x =? q)%nat.

Record vm_inv (s : kst) (pgdir : Z) (fl : list nat) (ext : nat -> Z) : Prop := VmInv {
  vi_pt : pt_inv s pgdir fl;
  vi_ref : forall q p, pages s !! q = Some p ->
    nmaps s pgdir q + ntab s pgdir q + ext q <= pp_ref p;
  vi_map : forall va e, 0 <= va < UTOP -> mapped s pgdir va = Some e ->
    e / 4096 < npages s /\ pgdir <> KERNBASE + 4096 * (e / 4096) }.

Lemma user_self va : 0 <= va < UTOP -> PDX va <> self_slot.
Proof.
  intros H. change UTOP with 4005560320 in H. change self_slot with 957.
  rewrite PDX_eq by lia. dlia.
Qed.

Lemma user_32 va : 0 <= va < UTOP -> 0 <= va < 2 ^ 32.
Proof. change UTOP with 4005560320. lia. Qed.

Lemma user_page va : 0 <= va < UTOP -> va / 4096 ∈ user_pages.
Proof.
  intros H. apply elem_of_seqZ. change UTOP with 4005560320 in *.
  change (4005560320 / 4096) with 977920. dlia.
Qed.

Lemma user_page_va n : n ∈ user_pages -> 0 <= 4096 * n < UTOP.
Proof.
  intros H%elem_of_seqZ. change UTOP with 4005560320 in *.
  change (4005560320 / 4096) with 977920 in *. lia.
Qed.

Lemma mapped_page s pgdir va :
  0 <= va < 2 ^ 32 -> mapped s pgdir (4096 * (va / 4096)) = mapped s pgdir va.
Proof. intros. unfold mapped, slot. by rewrite PDX_page, PTX_page. Qed.

Lemma entry_range s pgdir fl va e : pt_inv s pgdir fl -> mapped s pgdir va = Some e ->
  0 <= e < 2 ^ 32 /\ present s pgdir (PDX va) = true /\ e = load32 (k_mem s) (slot s pgdir va) /\
  has e PTE_P = true.
Proof.
  intros Hpt. unfold mapped. destruct (present s pgdir (PDX va)); [|done].
  destruct (has (load32 _ _) PTE_P) eqn:E; [|done]. intros; simplify_eq.
  split_and!; try done; apply load32_range, (ai_mem _ _ (pt_alloc _ _ _ Hpt)).
Qed.

(** A user mapping of a page, and a table, are counted. *)
Lemma nmaps_pos s pgdir q va e :
  0 <= va < UTOP -> mapped s pgdir va = Some e -> e / 4096 = Z.of_nat q ->
  0 < nmaps s pgdir q.
Proof.
  intros Hva He Hq. apply (countb_pos _ _ (va / 4096)); [by apply user_page|].
  unfold maps_to. rewrite mapped_page, He by (by apply user_32). by apply Z.eqb_eq.
Qed.

Lemma ntab_pos s pgdir q d :
  0 <= d < 1024 -> d <> self_slot -> present s pgdir d = true ->
  pde s pgdir d / 4096 = Z.of_nat q -> 0 < ntab s pgdir q.
Proof.
  intros Hd Hs Hp Hq. apply (countb_pos _ _ d); [apply elem_of_seqZ; lia|].
  unfold table_is. rewrite Hp, Hq, Z.eqb_refl. destruct (Z.eqb_spec d self_slot); done.
Qed.

(** The tables are in memory: the counts depend on nothing else. *)
Lemma mapped_mem s s' pgdir va : k_mem s' = k_mem s -> mapped s' pgdir va = mapped s pgdir va.
Proof. intros H. unfold mapped, present, slot, pde. by rewrite H. Qed.

Lemma nmaps_mem s s' pgdir q : k_mem s' = k_mem s -> nmaps s' pgdir q = nmaps s pgdir q.
Proof.
  intros H. apply countb_ext. intros n _. unfold maps_to. by rewrite (mapped_mem s s').
Qed.

Lemma ntab_mem s s' pgdir q : k_mem s' = k_mem s -> ntab s' pgdir q = ntab s pgdir q.
Proof.
  intros H. apply countb_ext. intros n _. unfold table_is, present, pde. by rewrite H.
Qed.

(** A change of the page records only, for a page that is not free. *)
Definition set_ref (q : nat) (r : Z) (s : kst) : kst :=
  set_pages (pages_va s) (<[q := MkPage None r]> (pages s)) s.

Lemma pt_inv_set_ref s pgdir fl q r :
  pt_inv s pgdir fl -> q ∉ fl -> 0 <= r < 2 ^ 16 -> pt_inv (set_ref q r s) pgdir fl.
Proof.
  intros [Hal Hd Ht Hi] Hq Hr. constructor; try done. by apply alloc_inv_pp_set.
Qed.

Lemma pp_incref_run s fl q p :
  alloc_inv s fl -> q ∉ fl -> pages s !! q = Some p -> pp_ref p < 2 ^ 16 - 1 ->
  pp_incref q s = Ok tt (set_ref q (pp_ref p + 1) s).
Proof.
  intros Hs Hq Hp Hr. unfold pp_incref, mbind, M_bind, pp_get. rewrite Hp.
  rewrite (pp_set_run _ _ _ p) by done.
  rewrite (ai_link _ _ Hs q p Hp Hq), u16_small; [done|].
  pose proof (ai_ref _ _ Hs q p Hp). lia.
Qed.

Lemma vm_incref s pgdir fl ext q p :
  vm_inv s pgdir fl ext -> q ∉ fl -> pages s !! q = Some p -> pp_ref p < 2 ^ 16 - 1 ->
  vm_inv (set_ref q (pp_ref p + 1) s) pgdir fl (held ext q).
Proof.
  intros [Hpt Href Hmap] Hq Hp Hr.
  pose proof (ai_ref _ _ (pt_alloc _ _ _ Hpt) q p Hp). constructor; [|simpl|done].
  - apply pt_inv_set_ref; [done..|lia].
  - intros x px Hx. rewrite (nmaps_mem s), (ntab_mem s) by done. unfold held.
    apply list_lookup_insert_Some in Hx as [(<- & <- & _)|[Hne Hx]].
    + rewrite Nat.eqb_refl. simpl. specialize (Href q p Hp). lia.
    + specialize (Href x px Hx). destruct (Nat.eqb_spec x q); [done|]. simpl. lia.
Qed.

(** How the counts change when the entry of a user page is set to [v]. *)
Lemma nmaps_set_entry s pgdir fl va v q :
  pt_inv s pgdir fl -> 0 <= va < UTOP -> present s pgdir (PDX va) = true ->
  nmaps (set_entry (slot s pgdir va) v s) pgdir q =
    nmaps s pgdir q + Z.b2z (has (u32 v) PTE_P && (u32 v / 4096 =? Z.of_nat q))
      - Z.b2z (maps_to s pgdir q (va / 4096)).
Proof.
  intros Hpt Hva Hp. pose proof (user_32 va Hva) as H32.
  unfold nmaps. rewrite (countb_change (maps_to s pgdir q) _ _ (va / 4096)).
  - f_equal. f_equal. unfold maps_to.
    rewrite mapped_page, (set_entry_mapped s pgdir fl va v) by (done || by apply user_self).
    rewrite decide_True by done. by destruct (has (u32 v) PTE_P).
  - apply NoDup_seqZ.
  - by apply user_page.
  - intros n Hn Hne. unfold maps_to.
    pose proof (user_page_va n Hn). rewrite (set_entry_mapped s pgdir fl va v); try done.
    + rewrite decide_False; [done|]. rewrite Z.mul_comm, Z.div_mul; lia.
    + by apply user_self.
    + by apply user_32.
    + by apply user_self.
Qed.

Lemma ntab_set_entry s pgdir fl va v q :
  pt_inv s pgdir fl -> 0 <= va < UTOP -> present s pgdir (PDX va) = true ->
  ntab (set_entry (slot s pgdir va) v s) pgdir q = ntab s pgdir q.
Proof.
  intros Hpt Hva Hp. apply countb_ext. intros d Hd%elem_of_seqZ. unfold table_is.
  rewrite (set_entry_present s pgdir fl), (set_entry_pde s pgdir fl)
    by (done || lia || by apply user_self). done.
Qed.

(** Clearing an entry leaves one more reference than mappings to its page. *)
Lemma vm_clear s pgdir fl ext va e q :
  vm_inv s pgdir fl ext -> 0 <= va < UTOP -> mapped s pgdir va = Some e ->
  e / 4096 = Z.of_nat q ->
  vm_inv (set_entry (slot s pgdir va) 0 s) pgdir fl (held ext q).
Proof.
  intros [Hpt Href Hmap] Hva He Hq.
  destruct (entry_range _ _ _ _ _ Hpt He) as (Her & Hp & _).
  pose proof (user_self va Hva) as Hs. pose proof (user_32 va Hva) as H32.
  constructor; [by apply set_entry_inv| |].
  - intros x px Hx. simpl in Hx. specialize (Href x px Hx).
    rewrite (nmaps_set_entry s pgdir fl), (ntab_set_entry s pgdir fl) by done.
    unfold held, maps_to. rewrite mapped_page, He, Hq by done.
    change (has (u32 0) PTE_P) with false. simpl.
    destruct (Nat.eqb_spec x q), (Z.eqb_spec (Z.of_nat q) (Z.of_nat x)); simpl in *; lia.
  - intros va' e' Hva'. rewrite (set_entry_mapped s pgdir fl); try done.
    + case_decide; [done|]. by apply Hmap.
    + by apply user_32.
    + by apply user_self.
Qed.

(** Setting an absent entry uses up a reference held to its page. *)
Lemma vm_map_entry s pgdir fl ext va q f :
  vm_inv s pgdir fl (held ext q) -> 0 <= va < UTOP -> mapped s pgdir va = None ->
  present s pgdir (PDX va) = true ->
  Z.of_nat q < npages s -> pgdir <> KERNBASE + 4096 * Z.of_nat q ->
  0 <= f < 4096 -> f mod 2 = 1 ->
  vm_inv (set_entry (slot s pgdir va) (4096 * Z.of_nat q + f) s) pgdir fl ext.
Proof.
  intros [Hpt Href Hmap] Hva He Hp Hq Hqd Hf Hodd.
  pose proof (user_self va Hva) as Hs. pose proof (user_32 va Hva) as H32.
  pose proof (ai_npages _ _ (pt_alloc _ _ _ Hpt)) as Hn.
  assert (u32 (4096 * Z.of_nat q + f) = 4096 * Z.of_nat q + f) as Hu by (apply u32_small; lia).
  assert (has (4096 * Z.of_nat q + f) PTE_P = true) as HP by (apply has_P_odd; dlia).
  assert ((4096 * Z.of_nat q + f) / 4096 = Z.of_nat q) as Hdiv by dlia.
  constructor; [by apply set_entry_inv| |].
  - intros x px Hx. simpl in Hx. specialize (Href x px Hx).
    rewrite (nmaps_set_entry s pgdir fl), (ntab_set_entry s pgdir fl) by done.
    rewrite Hu, HP, Hdiv. unfold held in Href. unfold maps_to. rewrite mapped_page, He by done.
    simpl. destruct (Nat.eqb_spec x q), (Z.eqb_spec (Z.of_nat q) (Z.of_nat x)); simpl in *; lia.
  - intros va' e' Hva'. rewrite (set_entry_mapped s pgdir fl); try done.
    + rewrite Hu, HP. case_decide; [|by apply Hmap]. intros; simplify_eq. by rewrite Hdiv.
    + by apply user_32.
    + by apply user_self.
Qed.

(** ** Dropping a reference *)

Definition dropped (q : nat) (r : Z) (s : kst) : kst :=
  if r =? 1 then free_state q (set_ref q 0 s) else set_ref q (r - 1) s.
Definition dropped_fl (q : nat) (r : Z) (fl : list nat) : list nat :=
  if r =? 1 then q :: fl else fl.

Lemma dropped_mem q r s : k_mem (dropped q r s) = k_mem s.
Proof. unfold dropped. by destruct (r =? 1). Qed.

Lemma page_decref_run s fl q p :
  alloc_inv s fl -> q ∉ fl -> pages s !! q = Some p -> 1 <= pp_ref p ->
  page_decref q s = Ok tt (dropped q (pp_ref p) s).
Proof.
  intros Hs Hq Hp Hr. pose proof (ai_ref _ _ Hs q p Hp) as Hrange.
  unfold page_decref, mbind, M_bind, pp_get. rewrite Hp.
  rewrite (pp_set_run _ _ _ p) by done. rewrite (ai_link _ _ Hs q p Hp Hq).
  rewrite u16_small by lia. unfold dropped.
  destruct (Z.eqb_spec (pp_ref p - 1) 0) as [E|E], (Z.eqb_spec (pp_ref p) 1); try lia; [|done].
  rewrite E. apply page_free_run. simpl. apply list_lookup_insert_eq.
  by eapply lookup_lt_Some.
Qed.

Lemma held_not_free s pgdir fl ext q p :
  vm_inv s pgdir fl (held ext q) -> (forall x, 0 <= ext x) -> pages s !! q = Some p ->
  nmaps s pgdir q + ntab s pgdir q + ext q + 1 <= pp_ref p /\ q ∉ fl.
Proof.
  intros [Hpt Href _] Hext Hp. specialize (Href q p Hp). unfold held in Href.
  rewrite Nat.eqb_refl in Href. simpl in Href. split; [lia|]. intros Hq.
  destruct (chain_lookup _ _ _ q (ai_chain _ _ (pt_alloc _ _ _ Hpt)) Hq) as (p' & Hp' & Hr).
  assert (0 <= nmaps s pgdir q /\ 0 <= ntab s pgdir q) as [? ?]
    by (split; apply countb_nonneg).
  specialize (Hext q). simplify_eq. lia.
Qed.

(** A page with no references can be freed. *)
Lemma vm_free s pgdir fl ext q :
  vm_inv s pgdir fl ext -> (forall x, 0 <= ext x) -> pages s !! q = Some (MkPage None 0) ->
  q ∉ fl -> pgdir <> KERNBASE + 4096 * Z.of_nat q ->
  vm_inv (free_state q s) pgdir (q :: fl) ext.
Proof.
  intros [Hpt Href Hmap] Hext Hp Hq Hqd.
  pose proof (pt_alloc _ _ _ Hpt) as Hal. specialize (Hext q) as Hext_q.
  assert (0 <= nmaps s pgdir q) as Hn0 by apply countb_nonneg.
  pose proof (Href q _ Hp) as Hr. simpl in Hr. constructor.
  - constructor; [by apply page_free_inv| |intros d Hd Hs Hpd|by apply (pt_inj _ _ _ Hpt)].
    + destruct (pt_dir _ _ _ Hpt) as (pd & -> & ? & ?). exists pd. split_and!; [done..|].
      rewrite not_elem_of_cons. split; [|done]. intros ->. done.
    + destruct (pt_tab _ _ _ Hpt d Hd Hs Hpd) as (? & ? & ?). split_and!; [done| |done].
      rewrite not_elem_of_cons. split; [|done]. intros Eq.
      change (Z.to_nat (pde s pgdir d / 4096) = q) in Eq.
      pose proof (pde_range _ _ _ Hpt d).
      assert (0 < ntab s pgdir q); [|lia]. apply (ntab_pos _ _ _ d); try done.
      rewrite <- Eq. rewrite Z2Nat.id; [done|]. apply Z.div_pos; lia.
  - intros x px Hx. rewrite (nmaps_mem s), (ntab_mem s) by done. simpl in Hx.
    apply list_lookup_insert_Some in Hx as [(<- & <- & Hlt)|[Hne Hx]]; [done|by apply Href].
  - done.
Qed.

Lemma vm_decref s pgdir fl ext q p :
  vm_inv s pgdir fl (held ext q) -> (forall x, 0 <= ext x) -> pages s !! q = Some p ->
  pgdir <> KERNBASE + 4096 * Z.of_nat q ->
  vm_inv (dropped q (pp_ref p) s) pgdir (dropped_fl q (pp_ref p) fl) ext.
Proof.
  intros Hvm Hext Hp Hqd.
  destruct (held_not_free _ _ _ _ _ _ Hvm Hext Hp) as [Hr Hq].
  destruct Hvm as [Hpt Href Hmap]. pose proof (pt_alloc _ _ _ Hpt) as Hal.
  pose proof (ai_ref _ _ Hal q p Hp) as Hrange. specialize (Hext q) as Hext_q.
  assert (0 <= nmaps s pgdir q) as Hn0 by apply countb_nonneg.
  assert (0 <= ntab s pgdir q) as Ht0 by apply countb_nonneg.
  assert (vm_inv (set_ref q (pp_ref p - 1) s) pgdir fl ext) as Hvm'.
  { constructor; [apply pt_inv_set_ref; [done..|lia]| |done].
    intros x px Hx. rewrite (nmaps_mem s), (ntab_mem s) by done. simpl in Hx.
    apply list_lookup_insert_Some in Hx as [(<- & <- & _)|[Hne Hx]]; [simpl; lia|].
    specialize (Href x px Hx). unfold held in Href.
    destruct (Nat.eqb_spec x q); [done|]. simpl in Href. lia. }
  unfold dropped, dropped_fl. destruct (Z.eqb_spec (pp_ref p) 1) as [E|E]; [|done].
  rewrite E in Hvm'. apply vm_free; try done. simpl.
  apply list_lookup_insert_eq. by eapply lookup_lt_Some.
Qed.

(** ** Walking *)

Lemma vm_walked s pgdir fl ext va s1 fl1 :
  vm_inv s pgdir fl ext -> PDX va <> self_slot -> walked pgdir va s fl s1 fl1 ->
  vm_inv s1 pgdir fl1 ext.
Proof.
  intros [Hpt Href Hmap] Hs Hw.
  destruct (walked_facts _ _ _ _ _ _ Hpt Hs Hw) as (Hpt1 & Hp1 & Hn1 & Hm1 & _).
  destruct Hw as [Hp|i fl' -> Hp]; [done|].
  assert (forall q, nmaps (walk_state i fl' pgdir (PDX va) s) pgdir q = nmaps s pgdir q) as Hnm.
  { intros q. apply countb_ext. intros n Hn. unfold maps_to.
    by rewrite Hm1 by (apply user_self, user_page_va, Hn). }
  assert (forall q, ntab (walk_state i fl' pgdir (PDX va) s) pgdir q =
    ntab s pgdir q + Z.b2z (i =? q)%nat) as Hnt.
  { intros q. unfold ntab.
    rewrite (countb_change (table_is s pgdir q) _ _ (PDX va)).
    - unfold table_is. rewrite Hp, Hp1, (create_pde_eq s pgdir i fl') by done.
      replace ((4096 * Z.of_nat i + 7) / 4096) with (Z.of_nat i) by dlia.
      destruct (Z.eqb_spec (PDX va) self_slot); [done|]. cbn [negb andb].
      destruct (Nat.eqb_spec i q), (Z.eqb_spec (Z.of_nat i) (Z.of_nat q)); cbn [Z.b2z]; lia.
    - apply NoDup_seqZ.
    - apply elem_of_seqZ. pose proof (PDX_range va). lia.
    - intros d Hd%elem_of_seqZ Hne. unfold table_is, present.
      by rewrite (create_pde_ne s pgdir i fl') by (done || lia). }
  destruct (ai_chain _ _ (pt_alloc _ _ _ Hpt)) as (_ & pi & Hpi & Hri & _).
  constructor; [done| |].
  - intros x px Hx. rewrite Hnm, Hnt. simpl in Hx.
    apply list_lookup_insert_Some in Hx as [(<- & <- & _)|[Hne Hx]].
    + rewrite Nat.eqb_refl. specialize (Href i pi Hpi). simpl. lia.
    + destruct (Nat.eqb_spec i x); [done|]. simpl. rewrite Z.add_0_r. by apply Href.
  - intros va' e Hva'. rewrite Hm1 by (by apply user_self). by apply Hmap.
Qed.

(** ** [page_lookup], [page_remove] and [page_insert] *)

Lemma vm_inv_tlb s pgdir fl ext t : vm_inv s pgdir fl ext -> vm_inv (set_tlb t s) pgdir fl ext.
Proof.
  intros [[Hal ? ? ?] Href Hmap]. constructor; [|simpl|done].
  - constructor; [by apply alloc_inv_tlb|done..].
  - intros q p Hp. rewrite (nmaps_mem s), (ntab_mem s) by done. by apply Href.
Qed.

Lemma user_entry s pgdir fl ext va e :
  vm_inv s pgdir fl ext -> 0 <= va < UTOP -> mapped s pgdir va = Some e ->
  exists (q : nat) p, e / 4096 = Z.of_nat q /\ Z.of_nat q < npages s /\
    pgdir <> KERNBASE + 4096 * Z.of_nat q /\ pages s !! q = Some p /\
    page_lookup pgdir va s = Ok (Some (q, slot s pgdir va)) s.
Proof.
  intros [Hpt _ Hmap] Hva He. destruct (Hmap va e Hva He) as [Hn Hqd].
  destruct (entry_range _ _ _ _ _ Hpt He) as (Hr & Hp & El & HP).
  assert (0 <= e / 4096) by (apply Z.div_pos; lia).
  assert (e / 4096 = Z.of_nat (Z.to_nat (e / 4096))) as Eq by lia.
  pose proof (ai_len _ _ (pt_alloc _ _ _ Hpt)) as Hlen.
  destruct (lookup_lt_is_Some_2 (pages s) (Z.to_nat (e / 4096))) as [p Hpg]; [lia|].
  exists (Z.to_nat (e / 4096)), p. rewrite <- Eq. split_and!; try done.
  unfold page_lookup. unfold mbind at 1, M_bind at 1.
  rewrite (pgdir_walk_present _ _ fl) by (done || by apply user_self).
  unfold load, gets, mbind, M_bind. rewrite <- El, HP. simpl.
  unfold pa2page, gets, mbind, M_bind. rewrite PTE_ADDR_eq, PGNUM_div by done.
  rewrite Z.mul_comm, Z.div_mul by lia.
  destruct (Z.leb_spec (npages s) (e / 4096)); [lia|]. done.
Qed.

Lemma page_lookup_none s pgdir fl va :
  pt_inv s pgdir fl -> 0 <= va < UTOP -> mapped s pgdir va = None ->
  page_lookup pgdir va s = Ok None s.
Proof.
  intros Hpt Hva. pose proof (user_self va Hva). unfold mapped, page_lookup.
  unfold mbind at 1, M_bind at 1. destruct (present s pgdir (PDX va)) eqn:Hp.
  - rewrite (pgdir_walk_present _ _ fl) by done. unfold load, gets, mbind, M_bind.
    by destruct (has _ PTE_P).
  - intros _. by rewrite (pgdir_walk_absent _ _ fl) by auto.
Qed.

Definition removed (pgdir va : Z) (q : nat) (r : Z) (s : kst) : kst :=
  let s1 := dropped q r (set_entry (slot s pgdir va) 0 s) in set_tlb (tlb s ++ [va]) s1.

Lemma page_remove_run s pgdir fl ext va e :
  vm_inv s pgdir fl ext -> (forall x, 0 <= ext x) -> 0 <= va < UTOP ->
  mapped s pgdir va = Some e ->
  exists q p, e / 4096 = Z.of_nat q /\ pages s !! q = Some p /\ 1 <= pp_ref p /\
    page_remove pgdir va s = Ok tt (removed pgdir va q (pp_ref p) s) /\
    vm_inv (removed pgdir va q (pp_ref p) s) pgdir (dropped_fl q (pp_ref p) fl) ext.
Proof.
  intros Hvm Hext Hva He.
  destruct (user_entry _ _ _ _ _ _ Hvm Hva He) as (q & p & Eq & Hn & Hqd & Hp & Hlk).
  pose proof (vi_pt _ _ _ _ Hvm) as Hpt.
  destruct (entry_range _ _ _ _ _ Hpt He) as (Hr & Hpr & El & HP).
  pose proof (vm_clear _ _ _ _ _ _ _ Hvm Hva He Eq) as Hclr.
  destruct (held_not_free _ _ _ _ q p Hclr Hext Hp) as [Href Hq].
  assert (1 <= pp_ref p) as H1.
  { pose proof (vi_ref _ _ _ _ Hvm q p Hp). pose proof (nmaps_pos _ _ _ _ _ Hva He Eq).
    pose proof (countb_nonneg (table_is s pgdir q) (seqZ 0 1024)). specialize (Hext q).
    unfold ntab in *. lia. }
  exists q, p. split_and!; try done.
  - unfold page_remove. rewrite (run_bind _ _ _ _ _ Hlk).
    unfold mbind at 1, M_bind at 1.
    rewrite (pgdir_walk_present _ _ fl) by (done || by apply user_self).
    unfold load, gets. unfold mbind at 1, M_bind at 1. rewrite <- El.
    unfold pa2page, gets, mbind, M_bind. rewrite PTE_ADDR_eq, PGNUM_div by done.
    rewrite Z.mul_comm, Z.div_mul, Eq, Nat2Z.id by lia.
    destruct (Z.leb_spec (npages s) (Z.of_nat q)); [lia|]. unfold mret at 1, M_ret at 1.
    rewrite Nat.eqb_refl. unfold assertM, mret, M_ret, store, modify. rewrite <- El, HP. cbn [negb].
    pose proof (page_decref_run _ fl q p (pt_alloc _ _ _ (vi_pt _ _ _ _ Hclr)) Hq Hp H1) as Hd.
    unfold set_entry in Hd. rewrite Hd. unfold tlb_invalidate, modify, removed, dropped.
    by destruct (pp_ref p =? 1).
  - by apply vm_inv_tlb, vm_decref.
Qed.

Lemma removed_mapped s pgdir fl ext va q r va' :
  vm_inv s pgdir fl ext -> 0 <= va < UTOP -> 0 <= va' < UTOP ->
  present s pgdir (PDX va) = true ->
  mapped (removed pgdir va q r s) pgdir va' =
    if decide (va' / 4096 = va / 4096) then None else mapped s pgdir va'.
Proof.
  intros [Hpt _ _] Hva Hva' Hp.
  rewrite (mapped_mem (set_entry (slot s pgdir va) 0 s)) by apply dropped_mem.
  rewrite (set_entry_mapped s pgdir fl) by (done || by apply user_32 || by apply user_self).
  done.
Qed.

(** The records of the pages after a removal. *)
Lemma removed_ref s pgdir va q p :
  pages s !! q = Some p ->
  pp_ref <$> pages (removed pgdir va q (pp_ref p) s) !! q = Some (pp_ref p - 1) /\
  forall x, x <> q -> pages (removed pgdir va q (pp_ref p) s) !! x = pages s !! x.
Proof.
  intros Hp%lookup_lt_Some. unfold removed, dropped.
  destruct (Z.eqb_spec (pp_ref p) 1) as [E|E]; simpl; split; intros.
  - rewrite list_lookup_insert_eq by (by rewrite length_insert). by rewrite E.
  - by rewrite !list_lookup_insert_ne.
  - by rewrite list_lookup_insert_eq.
  - by rewrite list_lookup_insert_ne.
Qed.

(** [page_remove] on a user address does nothing when no page is mapped
    there; otherwise it clears exactly that entry, drops one reference of the
    page (which goes to the front of the free list when it was the last one),
    invalidates the TLB entry, and never panics. *)
Theorem page_remove_spec s pgdir fl ext va :
  vm_inv s pgdir fl ext -> (forall x, 0 <= ext x) -> 0 <= va < UTOP ->
  match mapped s pgdir va with
  | None => page_remove pgdir va s = Ok tt s
  | Some e => exists (q : nat) p s', e / 4096 = Z.of_nat q /\ pages s !! q = Some p /\
      page_remove pgdir va s = Ok tt s' /\
      vm_inv s' pgdir (if pp_ref p =? 1 then q :: fl else fl) ext /\
      (forall va', 0 <= va' < UTOP -> mapped s' pgdir va' =
         if decide (va' / 4096 = va / 4096) then None else mapped s pgdir va') /\
      pp_ref <$> pages s' !! q = Some (pp_ref p - 1) /\
      (forall x, x <> q -> pages s' !! x = pages s !! x) /\
      tlb s' = tlb s ++ [va]
  end.
Proof.
  intros Hvm Hext Hva. destruct (mapped s pgdir va) as [e|] eqn:He.
  - destruct (page_remove_run _ _ _ _ _ _ Hvm Hext Hva He) as (q & p & Eq & Hp & Hr & Hrun & Hvm').
    exists q, p, (removed pgdir va q (pp_ref p) s). split_and!; try done.
    + intros. eapply removed_mapped; try done.
      by destruct (entry_range _ _ _ _ _ (vi_pt _ _ _ _ Hvm) He) as (_ & ? & _).
    + by apply removed_ref.
    + by apply removed_ref.
  - unfold page_remove.
    by rewrite (run_bind _ _ _ _ _ (page_lookup_none _ _ _ _ (vi_pt _ _ _ _ Hvm) Hva He)).
Qed.

Section insert.
Context (s : kst) (pgdir : Z) (fl : list nat) (ext : nat -> Z).
Context (pp : nat) (p : PageInfo) (va perm : Z).
Hypothesis Hvm : vm_inv s pgdir fl ext.
Hypothesis Hext : forall x, 0 <= ext x.
Hypothesis Hva : 0 <= va < UTOP.
Hypothesis Hperm : 0 <= perm < 4096.
Hypothesis Hpp : pages s !! pp = Some p.
Hypothesis Hfree : pp ∉ fl.
Hypothesis Href : pp_ref p < 2 ^ 16 - 1.
Hypothesis Hdir : pgdir <> KERNBASE + 4096 * Z.of_nat pp.

Let v := Z.lor (Z.lor (page2pa pp) perm) PTE_P.

Lemma insert_bound : Z.of_nat pp < npages s <= 65536.
Proof.
  pose proof (pt_alloc _ _ _ (vi_pt _ _ _ _ Hvm)) as Hal.
  pose proof (ai_npages _ _ Hal). apply lookup_lt_Some in Hpp as Hlt.
  rewrite (ai_len _ _ Hal) in Hlt. lia.
Qed.

Lemma insert_value : v = 4096 * Z.of_nat pp + Z.lor perm PTE_P /\ u32 v = v /\
  has v PTE_P = true.
Proof.
  pose proof insert_bound. destruct (perm_P perm Hperm) as [Hr Hodd].
  assert (v = 4096 * Z.of_nat pp + Z.lor perm PTE_P) as -> by (apply entry_eq; lia).
  split_and!; [done|apply u32_small; lia|apply has_P_odd; dlia].
Qed.

(** Setting an entry that is absent, with a reference held. *)
Lemma insert_entry s1 fl1 :
  vm_inv s1 pgdir fl1 (held ext pp) -> npages s1 = npages s -> mapped s1 pgdir va = None ->
  present s1 pgdir (PDX va) = true ->
  vm_inv (set_entry (slot s1 pgdir va) v s1) pgdir fl1 ext /\
  forall va', 0 <= va' < UTOP -> mapped (set_entry (slot s1 pgdir va) v s1) pgdir va' =
    if decide (va' / 4096 = va / 4096) then Some v else mapped s1 pgdir va'.
Proof.
  intros Hvm1 Hn Hm Hp. destruct insert_value as (Ev & Hu & HP).
  destruct (perm_P perm Hperm). pose proof insert_bound. split.
  - rewrite Ev. apply vm_map_entry; try done. lia.
  - intros va' Hva'. rewrite (set_entry_mapped s1 pgdir fl1), Hu, HP; try done;
      first [apply (vi_pt _ _ _ _ Hvm1)|by apply user_32|by apply user_self].
Qed.

Lemma insert_present e :
  mapped s pgdir va = Some e ->
  exists q pq s', e / 4096 = Z.of_nat q /\ pages (set_ref pp (pp_ref p + 1) s) !! q = Some pq /\
    page_insert pgdir pp va perm s = Ok 0 s' /\
    vm_inv s' pgdir (dropped_fl q (pp_ref pq) fl) ext /\
    (forall va', 0 <= va' < UTOP -> mapped s' pgdir va' =
       if decide (va' / 4096 = va / 4096) then Some v else mapped s pgdir va') /\
    pages s' = pages (removed pgdir va q (pp_ref pq) (set_ref pp (pp_ref p + 1) s)) /\
    tlb s' = tlb s ++ [va].
Proof.
  intros He. set (s1 := set_ref pp (pp_ref p + 1) s).
  pose proof (vi_pt _ _ _ _ Hvm) as Hpt.
  pose proof (vm_incref _ _ _ _ _ _ Hvm Hfree Hpp Href) as Hvm1.
  assert (forall x, 0 <= held ext pp x) as Hext1.
  { intros x. unfold held. specialize (Hext x). destruct (x =? pp)%nat; simpl; lia. }
  assert (mapped s1 pgdir va = Some e) as He1 by (by rewrite (mapped_mem s)).
  destruct (page_remove_run _ _ _ _ _ _ Hvm1 Hext1 Hva He1)
    as (q & pq & Eq & Hpq & Hrq & Hrun & Hvm2).
  destruct (entry_range _ _ _ _ _ Hpt He) as (Hr & Hpr & El & HP).
  set (s2 := removed pgdir va q (pp_ref pq) s1) in *.
  assert (Hm2 : forall va', 0 <= va' < UTOP -> mapped s2 pgdir va' =
    if decide (va' / 4096 = va / 4096) then None else mapped s pgdir va').
  { intros va' Hva'. unfold s2. rewrite (removed_mapped s1 _ _ _ _ _ _ _ Hvm1 Hva Hva' Hpr).
    by rewrite (mapped_mem s). }
  assert (Hpde : forall d, 0 <= d < 1024 -> pde s2 pgdir d = pde s pgdir d).
  { intros d Hd. transitivity (pde (set_entry (slot s1 pgdir va) 0 s1) pgdir d).
    - unfold pde, s2, removed. simpl. by rewrite dropped_mem.
    - apply (set_entry_pde s1 pgdir fl); [apply (vi_pt _ _ _ _ Hvm1)|by apply user_self|done..]. }
  assert (slot s2 pgdir va = slot s pgdir va) as Hslot.
  { unfold slot. by rewrite Hpde by apply PDX_range. }
  destruct (insert_entry s2 _ Hvm2) as [Hvm3 Hm3].
  { unfold s2, removed, dropped. by destruct (_ =? 1). }
  { rewrite Hm2 by done. by rewrite decide_True. }
  { unfold present. by rewrite Hpde by apply PDX_range. }
  exists q, pq, (set_entry (slot s2 pgdir va) v s2). split_and!; try done.
  - unfold page_insert. unfold mbind at 1, M_bind at 1.
    rewrite (pgdir_walk_present _ _ fl) by (done || by apply user_self).
    unfold load, gets. unfold mbind at 1, M_bind at 1. rewrite <- El, HP.
    unfold mbind at 1, M_bind at 1.
    rewrite (run_bind _ _ _ _ _ (pp_incref_run _ fl _ _ (pt_alloc _ _ _ Hpt) Hfree Hpp Href)).
    rewrite (run_bind _ _ _ _ _ Hrun). rewrite Hslot. done.
  - intros va' Hva'. rewrite Hm3, Hm2 by done. by case_decide.
Qed.

Lemma insert_absent s1 fl1 :
  mapped s pgdir va = None -> walked pgdir va s fl s1 fl1 ->
  pgdir_walk pgdir va true s = Ok (Some (slot s1 pgdir va)) s1 ->
  let s' := set_ref pp (pp_ref p + 1) (set_entry (slot s1 pgdir va) v s1) in
  page_insert pgdir pp va perm s = Ok 0 s' /\ vm_inv s' pgdir fl1 ext /\
  (forall va', 0 <= va' < UTOP -> mapped s' pgdir va' =
     if decide (va' / 4096 = va / 4096) then Some v else mapped s pgdir va').
Proof.
  intros Hm Hw Hrun s'. pose proof (vi_pt _ _ _ _ Hvm) as Hpt. pose proof (user_self va Hva) as Hs.
  destruct (walked_facts _ _ _ _ _ _ Hpt Hs Hw) as (Hpt1 & Hp1 & Hn1 & Hm1 & Hpg).
  destruct (Hpg pp Hfree) as [Hfree1 Hpp1]. rewrite Hpp in Hpp1.
  pose proof (vm_walked _ _ _ _ _ _ _ Hvm Hs Hw) as Hvm1.
  pose proof (vm_incref _ _ _ _ _ _ Hvm1 Hfree1 Hpp1 Href) as Hvm2.
  assert (mapped s1 pgdir va = None) as Hma by (by rewrite Hm1).
  destruct (insert_entry _ _ Hvm2) as [Hvm3 Hm3].
  { done. } { by rewrite (mapped_mem s1). } { done. }
  split_and!; [|done|].
  - unfold page_insert. rewrite (run_bind _ _ _ _ _ Hrun).
    unfold load, gets. unfold mbind at 1, M_bind at 1.
    assert (has (load32 (k_mem s1) (slot s1 pgdir va)) PTE_P = false) as ->.
    { unfold mapped in Hma. rewrite Hp1 in Hma. by destruct (has _ _). }
    unfold mbind at 1, M_bind at 1, store, modify. unfold mbind at 1, M_bind at 1.
    pose proof (set_entry_inv s1 pgdir fl1 va v Hpt1 Hs Hp1) as Hpt3.
    pose proof (pp_incref_run (set_entry (slot s1 pgdir va) v s1) fl1 pp p
                  (pt_alloc _ _ _ Hpt3) Hfree1 Hpp1 Href) as Hinc.
    unfold set_entry, v in Hinc. rewrite Hinc. done.
  - intros va' Hva'. specialize (Hm3 va' Hva'). etransitivity; [exact Hm3|].
    case_decide; [done|]. rewrite (mapped_mem s1) by done. apply Hm1. by apply user_self.
Qed.
End insert.

(** C30: [page_insert] of a page that is allocated, at a user address: when the
    table is missing and no page is free it returns [-E_NO_MEM] and changes
    nothing; otherwise it returns 0, maps exactly that address to
    [page2pa(pp)|perm|PTE_P] (also when another page, or the same page, was
    mapped there), invalidates the TLB entry exactly when something was mapped,
    and preserves the invariant.  The page's count grows by one, unless it was
    itself the page mapped there. *)
Theorem page_insert_spec s pgdir fl ext pp p va perm :
  vm_inv s pgdir fl ext -> (forall x, 0 <= ext x) -> 0 <= va < UTOP -> 0 <= perm < 4096 ->
  pages s !! pp = Some p -> pp ∉ fl -> pp_ref p < 2 ^ 16 - 1 ->
  pgdir <> KERNBASE + 4096 * Z.of_nat pp ->
  (present s pgdir (PDX va) = false /\ fl = [] /\
     page_insert pgdir pp va perm s = Ok (- E_NO_MEM) s) \/
  exists s' fl', page_insert pgdir pp va perm s = Ok 0 s' /\ vm_inv s' pgdir fl' ext /\
    (forall va', 0 <= va' < UTOP -> mapped s' pgdir va' =
       if decide (va' / 4096 = va / 4096)
       then Some (Z.lor (Z.lor (page2pa pp) perm) PTE_P) else mapped s pgdir va') /\
    tlb s' = tlb s ++ (if mapped s pgdir va then [va] else []) /\
    pp_ref <$> pages s' !! pp =
      Some (pp_ref p + 1 - Z.b2z (maps_to s pgdir pp (va / 4096))).
Proof.
  intros Hvm Hext Hva Hperm Hpp Hfree Href Hdir. unfold maps_to.
  pose proof (vi_pt _ _ _ _ Hvm) as Hpt. rewrite mapped_page by (by apply user_32).
  apply lookup_lt_Some in Hpp as Hlt.
  destruct (mapped s pgdir va) as [e|] eqn:He.
  - right.
    destruct (insert_present s pgdir fl ext pp p va perm Hvm Hext Hva Hperm Hpp Hfree Href Hdir e He)
      as (q & pq & s' & Eq & Hpq & Hrun & Hvm' & Hm & Hpg & Htlb).
    exists s', (dropped_fl q (pp_ref pq) fl). split_and!; try done.
    rewrite Hpg, Eq. destruct (removed_ref _ pgdir va q pq Hpq) as [Hq Hne].
    simpl in Hpq. destruct (Z.eqb_spec (Z.of_nat q) (Z.of_nat pp)) as [E|E].
    + apply Nat2Z.inj in E as ->. rewrite Hq. rewrite list_lookup_insert_eq in Hpq by done.
      by simplify_eq.
    + rewrite Hne by (intros ->; done). simpl. rewrite list_lookup_insert_eq by done.
      simpl. f_equal. lia.
  - destruct (pgdir_walk_cases s pgdir fl va Hpt (user_self _ Hva)) as [(Hp & Hf & Hw)|(s1 & fl1 & Hw & Hrun)].
    + left. split_and!; [done..|]. unfold page_insert. by rewrite (run_bind _ _ _ _ _ Hw).
    + right.
      destruct (insert_absent s pgdir fl ext pp p va perm Hvm Hva Hperm Hpp Hfree Href Hdir
                  s1 fl1 He Hw Hrun) as (Hrun' & Hvm' & Hm).
      eexists _, fl1. split_and!; [done..| |].
      * rewrite app_nil_r. by destruct Hw.
      * simpl. rewrite list_lookup_insert_eq; [simpl; f_equal; lia|].
        destruct Hw; simpl; by rewrite ?length_insert.
Qed.

(** ** Sequences of operations *)

(** Allocating a page leaves the tables alone, also when the page is zeroed. *)
Section alloc.
Context (s : kst) (pgdir : Z) (i : nat) (fl : list nat) (flags : Z).
Hypothesis Hpt : pt_inv s pgdir (i :: fl).

Let s1 := alloc_state flags i fl s.

Lemma alloc_load a :
  a + 4 <= KERNBASE + 4096 * Z.of_nat i \/ KERNBASE + 4096 * Z.of_nat i + 4096 <= a ->
  load32 (k_mem s1) a = load32 (k_mem s) a.
Proof.
  intros Ha. unfold s1, alloc_state, zeroed. simpl. destruct (flags =? 0); [done|].
  apply load32_memset_out; unfold PGSIZE; lia.
Qed.

Lemma alloc_pde d : 0 <= d < 1024 -> pde s1 pgdir d = pde s pgdir d.
Proof.
  intros Hd. destruct (create_dir s pgdir i fl Hpt) as (pd & Hpd & _ & _ & Hi).
  apply alloc_load. lia.
Qed.

Lemma alloc_present d : 0 <= d < 1024 -> present s1 pgdir d = present s pgdir d.
Proof. intros. unfold present. by rewrite alloc_pde. Qed.

Lemma alloc_mapped va : PDX va <> self_slot -> mapped s1 pgdir va = mapped s pgdir va.
Proof.
  intros Hs. unfold mapped, slot. rewrite alloc_present, alloc_pde by apply PDX_range.
  destruct (present s pgdir (PDX va)) eqn:Hp; [|done].
  destruct (create_old_table s pgdir i fl _ Hpt (PDX_range va) Hs Hp) as (_ & _ & Hne & _).
  rewrite alloc_load; [done|]. pose proof (PTX_range va). lia.
Qed.

Lemma alloc_pt_inv : pt_inv s1 pgdir fl.
Proof.
  constructor.
  - apply page_alloc_inv, (pt_alloc _ _ _ Hpt).
  - destruct (create_dir s pgdir i fl Hpt) as (pd & ? & ? & ? & _). by exists pd.
  - intros d Hd Hs. rewrite alloc_present, alloc_pde by done. intros Hp.
    by destruct (create_old_table s pgdir i fl d Hpt Hd Hs Hp) as (? & ? & _ & ?).
  - intros d d' Hd Hd'. rewrite !alloc_present, !alloc_pde by done. by apply (pt_inj _ _ _ Hpt).
Qed.
End alloc.

Lemma vm_alloc s pgdir i fl ext flags :
  vm_inv s pgdir (i :: fl) ext -> vm_inv (alloc_state flags i fl s) pgdir fl ext.
Proof.
  intros [Hpt Href Hmap]. constructor; [by apply alloc_pt_inv|..].
  - destruct (ai_chain _ _ (pt_alloc _ _ _ Hpt)) as (_ & pi & Hpi & Hri & _).
    intros q p Hq.
    assert (nmaps (alloc_state flags i fl s) pgdir q = nmaps s pgdir q) as ->.
    { apply countb_ext. intros n Hn. unfold maps_to.
      by rewrite (alloc_mapped s) by (done || by apply user_self, user_page_va). }
    assert (ntab (alloc_state flags i fl s) pgdir q = ntab s pgdir q) as ->.
    { apply countb_ext. intros d Hd%elem_of_seqZ. unfold table_is.
      by rewrite (alloc_present s), (alloc_pde s) by (done || lia). }
    simpl in Hq. apply list_lookup_insert_Some in Hq as [(<- & <- & _)|[Hne Hq]]; [|by apply Href].
    specialize (Href i pi Hpi). simpl. lia.
  - intros va e Hva. rewrite (alloc_mapped s) by (done || by apply user_self). by apply Hmap.
Qed.

(** A directory with no table but its own slot. *)
Lemma vm_fresh s fl (pd : nat) :
  let pgdir := KERNBASE + 4096 * Z.of_nat pd in
  alloc_inv s fl -> Z.of_nat pd < npages s -> pd ∉ fl ->
  (forall d, 0 <= d < 1024 -> d <> self_slot -> present s pgdir d = false) ->
  vm_inv s pgdir fl (fun _ => 0).
Proof.
  intros pgdir Hal Hn Hpd Hd.
  assert (Hm : forall va, 0 <= va < UTOP -> mapped s pgdir va = None).
  { intros va Hva. unfold mapped. by rewrite Hd by (apply PDX_range || by apply user_self). }
  constructor.
  - constructor; [done|by exists pd|..]; intros d; intros; by rewrite Hd in *.
  - intros q p Hq. unfold nmaps, ntab.
    rewrite (countb_none (maps_to s pgdir q)), (countb_none (table_is s pgdir q)).
    + pose proof (ai_ref _ _ Hal q p Hq). lia.
    + intros d Hd'%elem_of_seqZ. unfold table_is.
      destruct (Z.eqb_spec d self_slot); [done|]. by rewrite Hd by (done || lia).
    + intros n Hu. unfold maps_to. by rewrite Hm by (by apply user_page_va).
  - intros va e Hva. by rewrite Hm.
Qed.

(** What a client of the page tables may do: allocate a page, free a page it
    owns and that nothing refers to, map a page that is not free, unmap. *)
Inductive vm_op :=
| OpAlloc (flags : Z)
| OpFree (pp : nat)
| OpInsert (pp : nat) (va perm : Z)
| OpRemove (va : Z).

Definition run_op (pgdir : Z) (op : vm_op) : M kst unit :=
  match op with
  | OpAlloc flags => page_alloc flags;; mret tt
  | OpFree pp => page_free pp
  | OpInsert pp va perm => page_insert pgdir pp va perm;; mret tt
  | OpRemove va => page_remove pgdir va
  end.

Definition is_free (s : kst) (q : nat) : Prop :=
  exists fl, chain (pages s) (page_free_list s) fl /\ q ∈ fl.

Definition op_ok (pgdir : Z) (s : kst) (op : vm_op) : Prop :=
  match op with
  | OpAlloc _ => True
  | OpFree pp => pp_ref <$> pages s !! pp = Some 0 /\ ~ is_free s pp /\
      pgdir <> KERNBASE + 4096 * Z.of_nat pp
  | OpInsert pp va perm => (exists p, pages s !! pp = Some p /\ pp_ref p < 2 ^ 16 - 1) /\
      ~ is_free s pp /\ pgdir <> KERNBASE + 4096 * Z.of_nat pp /\
      0 <= va < UTOP /\ 0 <= perm < 4096
  | OpRemove va => 0 <= va < UTOP
  end.

(** The states that such a client reaches from a fresh directory. *)
Inductive vm_reach (pgdir : Z) : kst -> Prop :=
| vm_reach_fresh s fl (pd : nat) :
    pgdir = KERNBASE + 4096 * Z.of_nat pd -> alloc_inv s fl -> Z.of_nat pd < npages s ->
    pd ∉ fl -> (forall d, 0 <= d < 1024 -> d <> self_slot -> present s pgdir d = false) ->
    vm_reach pgdir s
| vm_reach_step s op s' :
    vm_reach pgdir s -> op_ok pgdir s op -> run_op pgdir op s = Ok tt s' -> vm_reach pgdir s'.

Lemma not_free_fl s fl q : alloc_inv s fl -> ~ is_free s q -> q ∉ fl.
Proof. intros Hal Hq Hin. apply Hq. exists fl. split; [apply (ai_chain _ _ Hal)|done]. Qed.

Lemma run_op_ok s pgdir fl op :
  vm_inv s pgdir fl (fun _ => 0) -> op_ok pgdir s op ->
  exists s' fl', run_op pgdir op s = Ok tt s' /\ vm_inv s' pgdir fl' (fun _ => 0).
Proof.
  intros Hvm Hok. pose proof (vi_pt _ _ _ _ Hvm) as Hpt. pose proof (pt_alloc _ _ _ Hpt) as Hal.
  destruct op as [flags|pp|pp va perm|va]; simpl in *.
  - destruct fl as [|i fl].
    + rewrite (run_bind _ _ _ _ _ (page_alloc_empty flags _ Hal)). by eexists _, _.
    + rewrite (run_bind _ _ _ _ _ (page_alloc_run flags _ _ _ Hal)).
      eexists _, fl. split; [done|]. by apply vm_alloc.
  - destruct Hok as (Hr & Hf%(not_free_fl _ fl) & Hd); [|done].
    destruct (pages s !! pp) as [p|] eqn:Hp; [|done].
    assert (p = MkPage None 0) as ->.
    { pose proof (ai_link _ _ Hal pp p Hp Hf). destruct p; simpl in *. by simplify_eq. }
    eexists _, (pp :: fl). split; [by apply page_free_run|]. by apply vm_free.
  - destruct Hok as ((p & Hp & Hr) & Hf%(not_free_fl _ fl) & Hd & Hva & Hperm); [|done].
    destruct (mapped s pgdir va) as [e|] eqn:He.
    + destruct (insert_present s pgdir fl (fun _ => 0) pp p va perm) with (e := e)
        as (q & pq & s' & _ & _ & Hrun & Hvm' & _); try done.
      rewrite (run_bind _ _ _ _ _ Hrun). by eexists _, _.
    + destruct (pgdir_walk_cases s pgdir fl va Hpt (user_self _ Hva))
        as [(_ & _ & Hw)|(s1 & fl1 & Hw & Hrun)].
      * exists s, fl. split; [|done]. unfold mbind at 1, M_bind at 1, page_insert.
        by rewrite (run_bind _ _ _ _ _ Hw).
      * destruct (insert_absent s pgdir fl (fun _ => 0) pp p va perm) with (s1 := s1) (fl1 := fl1)
          as (Hrun' & Hvm' & _); try done.
        rewrite (run_bind _ _ _ _ _ Hrun'). by eexists _, _.
  - destruct (mapped s pgdir va) as [e|] eqn:He.
    + destruct (page_remove_run s pgdir fl (fun _ => 0) va e) as (q & p & _ & _ & _ & Hrun & Hvm');
        try done. by eexists _, _.
    + eexists s, fl. split; [|done]. unfold page_remove.
      by rewrite (run_bind _ _ _ _ _ (page_lookup_none _ _ _ _ Hpt Hok He)).
Qed.

Lemma vm_reach_inv pgdir s : vm_reach pgdir s -> exists fl, vm_inv s pgdir fl (fun _ => 0).
Proof.
  induction 1 as [s fl pd -> Hal Hn Hpd Hd|s op s' _ [fl Hvm] Hok Hrun].
  - exists fl. by apply vm_fresh.
  - destruct (run_op_ok s pgdir fl op Hvm Hok) as (s2 & fl2 & Hrun2 & Hvm2).
    rewrite Hrun in Hrun2. simplify_eq. by exists fl2.
Qed.

Lemma chain_inj ps h l l' : chain ps h l -> chain ps h l' -> l = l'.
Proof.
  revert h l'. induction l as [|i l IH]; intros h [|i' l']; simpl; try done.
  - intros -> [? _]. done.
  - intros [-> _]. done.
  - intros [-> (p & Hp & _ & Hc)] [E (p' & Hp' & _ & Hc')]. simplify_eq. f_equal. by eapply IH.
Qed.

Lemma is_free_fl s fl q : alloc_inv s fl -> is_free s q -> q ∈ fl.
Proof.
  intros Hal (fl' & Hc & Hq). by rewrite (chain_inj _ _ _ _ (ai_chain _ _ Hal) Hc).
Qed.

(** C5: in every state a client reaches from a fresh directory by allocating,
    freeing, mapping and unmapping pages in any order: no such operation
    panics, no page on the free list is mapped at a user address or used as a
    page table, and the reference count of every page is at least the number
    of its user mappings and of the tables it serves as. *)
Theorem vm_safe pgdir s :
  vm_reach pgdir s ->
  (forall op, op_ok pgdir s op -> exists s', run_op pgdir op s = Ok tt s') /\
  (forall q, is_free s q ->
     (forall va e, 0 <= va < UTOP -> mapped s pgdir va = Some e -> e / 4096 <> Z.of_nat q) /\
     (forall d, 0 <= d < 1024 -> d <> self_slot -> present s pgdir d = true ->
        pde s pgdir d / 4096 <> Z.of_nat q)) /\
  (forall q p, pages s !! q = Some p -> nmaps s pgdir q + ntab s pgdir q <= pp_ref p).
Proof.
  intros [fl Hvm]%vm_reach_inv. pose proof (vi_pt _ _ _ _ Hvm) as Hpt.
  pose proof (pt_alloc _ _ _ Hpt) as Hal. split_and!.
  - intros op Hok. destruct (run_op_ok _ _ _ _ Hvm Hok) as (s' & _ & Hrun & _). by exists s'.
  - intros q Hq%(is_free_fl _ fl); [|done].
    destruct (chain_lookup _ _ _ q (ai_chain _ _ Hal) Hq) as (p & Hp & Hr).
    pose proof (vi_ref _ _ _ _ Hvm q p Hp) as Href. cbv beta in Href.
    pose proof (countb_nonneg (maps_to s pgdir q) user_pages).
    pose proof (countb_nonneg (table_is s pgdir q) (seqZ 0 1024)).
    split.
    + intros va e Hva He E. pose proof (nmaps_pos _ _ _ _ _ Hva He E). unfold ntab in *. lia.
    + intros d Hd Hs Hpr E. pose proof (ntab_pos _ _ _ _ Hd Hs Hpr E). unfold nmaps in *. lia.
  - intros q p Hp. pose proof (vi_ref _ _ _ _ Hvm q p Hp). cbv beta in *. lia.
Qed.

(** What [check_va2pa] computes. *)
Lemma check_va2pa_run s pgdir fl va :
  pt_inv s pgdir fl -> PDX va <> self_slot ->
  check_va2pa pgdir va s =
    Ok (match mapped s pgdir va with Some e => PTE_ADDR e | None => 2 ^ 32 - 1 end) s.
Proof.
  intros Hpt Hs. unfold check_va2pa, mapped.
  unfold mbind at 1, M_bind at 1, load at 1, gets at 1. fold (pde s pgdir (PDX va)).
  unfold present. destruct (has (pde s pgdir (PDX va)) PTE_P) eqn:Hp; [|done].
  pose proof (pde_range _ _ _ Hpt (PDX va)) as Hr. cbn [negb].
  destruct (pt_tab _ _ _ Hpt _ (PDX_range va) Hs Hp) as (Hn & _).
  pose proof (ai_npages _ _ (pt_alloc _ _ _ Hpt)).
  unfold KADDR, mbind, M_bind, gets. rewrite PTE_ADDR_eq, PGNUM_div by done.
  rewrite (Z.mul_comm 4096), Z.div_mul by lia.
  destruct (Z.leb_spec (npages s) (pde s pgdir (PDX va) / 4096)); [lia|].
  unfold mret, M_ret. rewrite u32_small by (unfold KERNBASE; dlia).
  unfold load, gets, slot. rewrite (Z.mul_comm 4096), (Z.add_comm _ KERNBASE). cbv zeta.
  by destruct (has (load32 _ _) PTE_P).
Qed.

(** [check_va2pa], the page walk the self tests use, agrees with
    [page_lookup] on user addresses: it returns [~0] exactly where
    [page_lookup] finds no page, and otherwise the address of that page. *)
Theorem check_va2pa_lookup s pgdir fl ext va :
  vm_inv s pgdir fl ext -> 0 <= va < UTOP ->
  (page_lookup pgdir va s = Ok None s /\ check_va2pa pgdir va s = Ok (2 ^ 32 - 1) s) \/
  exists q a, page_lookup pgdir va s = Ok (Some (q, a)) s /\
    check_va2pa pgdir va s = Ok (page2pa q) s.
Proof.
  intros Hvm Hva. pose proof (vi_pt _ _ _ _ Hvm) as Hpt.
  pose proof (check_va2pa_run _ _ _ _ Hpt (user_self va Hva)) as Hc.
  destruct (mapped s pgdir va) as [e|] eqn:He; [right|left].
  - destruct (user_entry _ _ _ _ _ _ Hvm Hva He) as (q & p & Eq & Hn & _ & _ & Hlk).
    destruct (entry_range _ _ _ _ _ Hpt He) as (Hr & _).
    exists q, (slot s pgdir va). split; [done|]. rewrite Hc. f_equal.
    pose proof (ai_npages _ _ (pt_alloc _ _ _ Hpt)).
    rewrite PTE_ADDR_eq, page2pa_eq by (done || lia). by rewrite Eq.
  - split; [by eapply page_lookup_none|done].
Qed.

(** ** [boot_map_region] *)

Definition boot_flags (perm : Z) (superpage : bool) : Z :=
  Z.lor perm (Z.lor PTE_P (if superpage then PTE_PS else 0)).

Lemma boot_flags_spec perm superpage : 0 <= perm < 4096 ->
  0 <= boot_flags perm superpage < 4096 /\ boot_flags perm superpage mod 2 = 1.
Proof.
  intros Hp. unfold boot_flags. split.
  - apply (lor_range 12); [lia|lia|]. destruct superpage; compute; split; congruence.
  - apply has_P_odd. rewrite has_P, !Z.lor_spec. simpl. apply orb_true_r.
Qed.

Lemma boot_entry pa perm (superpage : bool) :
  0 <= perm < 4096 -> pa mod 4096 = 0 ->
  (if superpage then Z.lor (Z.lor (Z.lor pa perm) PTE_P) PTE_PS else Z.lor (Z.lor pa perm) PTE_P) =
    pa + boot_flags perm superpage.
Proof.
  intros Hp Hpa. destruct (boot_flags_spec perm superpage Hp) as [Hf _].
  replace pa with (4096 * (pa / 4096)) at 3 by dlia. rewrite <- lor_flags by done.
  replace (4096 * (pa / 4096)) with pa by dlia. unfold boot_flags.
  destruct superpage; by rewrite ?Z.lor_0_r, <- ?Z.lor_assoc.
Qed.

(** The pages of a region, as the loop leaves them after [m] iterations. *)
Definition boot_mapped (s : kst) (pgdir va pa f : Z) (m : nat) (va' : Z) : option Z :=
  if decide (va <= va' < va + 4096 * Z.of_nat m)
  then Some (pa + 4096 * ((va' - va) / 4096) + f) else mapped s pgdir va'.

(** One iteration. *)
Lemma boot_map_step s pgdir fl va pa f :
  pt_inv s pgdir fl -> 0 <= va < 2 ^ 32 -> va mod 4096 = 0 -> 0 <= pa < 2 ^ 32 ->
  pa mod 4096 = 0 -> 0 <= f < 4096 -> f mod 2 = 1 -> PDX va <> self_slot ->
  (present s pgdir (PDX va) = false /\ fl = [] /\ pgdir_walk pgdir va true s = Ok None s) \/
  exists s1 fl1, pgdir_walk pgdir va true s = Ok (Some (slot s1 pgdir va)) s1 /\
    let s2 := set_entry (slot s1 pgdir va) (pa + f) s1 in
    pt_inv s2 pgdir fl1 /\ npages s2 = npages s /\
    forall va', 0 <= va' < 2 ^ 32 -> PDX va' <> self_slot ->
      mapped s2 pgdir va' = boot_mapped s pgdir va pa f 1 va'.
Proof.
  intros Hpt Hva Ha Hpa Hpa0 Hf Hodd Hs.
  destruct (pgdir_walk_cases s pgdir fl va Hpt Hs) as [|(s1 & fl1 & Hw & Hrun)]; [by left|right].
  destruct (walked_facts _ _ _ _ _ _ Hpt Hs Hw) as (Hpt1 & Hp1 & Hn1 & Hm1 & _).
  exists s1, fl1. split; [done|]. intros s2.
  split_and!; [by apply set_entry_inv|done|]. intros va' Hva' Hs'.
  unfold s2. rewrite (set_entry_mapped s1 pgdir fl1) by done.
  rewrite u32_small by dlia. rewrite Hm1 by done.
  assert (has (pa + f) PTE_P = true) as -> by (apply has_P_odd; dlia).
  unfold boot_mapped. case_decide; case_decide; try (exfalso; dlia); [|done].
  f_equal. dlia.
Qed.

Lemma boot_map_loop_run pgdir perm superpage k : 0 <= perm < 4096 -> forall s fl va pa,
  pt_inv s pgdir fl -> 0 <= va -> va + 4096 * Z.of_nat k <= 2 ^ 32 -> va mod 4096 = 0 ->
  0 <= pa -> pa + 4096 * Z.of_nat k <= 2 ^ 32 -> pa mod 4096 = 0 ->
  (forall a, va <= a < va + 4096 * Z.of_nat k -> PDX a <> self_slot) ->
  exists s' fl' m, boot_map_loop k pgdir va pa perm superpage s = Ok tt s' /\
    pt_inv s' pgdir fl' /\ (m <= k)%nat /\
    ((m < k)%nat -> fl' = [] /\ present s' pgdir (PDX (va + 4096 * Z.of_nat m)) = false) /\
    forall va', 0 <= va' < 2 ^ 32 -> PDX va' <> self_slot ->
      mapped s' pgdir va' = boot_mapped s pgdir va pa (boot_flags perm superpage) m va'.
Proof.
  intros Hperm. destruct (boot_flags_spec perm superpage Hperm) as [Hf Hodd].
  induction k as [|k IH]; intros s fl va pa Hpt Hva Hvk Ha Hpa Hpk Hpa0 Hs.
  { exists s, fl, 0%nat. split_and!; try done; [lia|]. intros va' _ _. unfold boot_mapped.
    case_decide; [lia|done]. }
  simpl boot_map_loop.
  destruct (boot_map_step s pgdir fl va pa (boot_flags perm superpage))
    as [(Hp & Hfl & Hw)|(s1 & fl1 & Hw & Hpt2 & Hn2 & Hm2)]; try (done || lia).
  { apply Hs. lia. }
  - rewrite (run_bind _ _ _ _ _ Hw). exists s, fl, 0%nat. split_and!; [done|done|lia| |].
    + intros _. by rewrite Z.add_0_r.
    + intros va' _ _. unfold boot_mapped. case_decide; [lia|done].
  - rewrite (run_bind _ _ _ _ _ Hw). set (s2 := set_entry _ _ _) in *.
    assert (forall B (f : unit -> M kst B), ((if superpage
        then store (slot s1 pgdir va) (Z.lor (Z.lor (Z.lor pa perm) PTE_P) PTE_PS)
        else store (slot s1 pgdir va) (Z.lor (Z.lor pa perm) PTE_P)) ≫= f) s1 = f tt s2) as Hst.
    { intros B f. unfold s2. rewrite <- (boot_entry pa perm superpage) by done.
      by destruct superpage. }
    rewrite Hst. destruct k as [|k].
    { exists s2, fl1, 1%nat. split_and!; [done|done|lia|lia|done]. }
    rewrite !u32_small by (unfold PGSIZE; lia).
    destruct (IH s2 fl1 (va + 4096) (pa + 4096)) as (s' & fl' & m & Hrun & Hpt' & Hm & Hlt & Hmap);
      try (done || lia || dlia).
    { intros a Haa. apply Hs. lia. }
    exists s', fl', (S m). split_and!; [done|done|lia| |].
    + intros Hlt'. replace (va + 4096 * Z.of_nat (S m)) with (va + 4096 + 4096 * Z.of_nat m) by lia.
      apply Hlt. lia.
    + intros va' Hva' Hs'. rewrite Hmap by done. unfold boot_mapped.
      rewrite Hm2 by done. unfold boot_mapped.
      repeat case_decide; try (exfalso; lia); try done; f_equal; dlia.
Qed.

(** [boot_map_region] maps page after page of [va, va+size) to
    [pa, pa+size) with [perm|PTE_P] (and [PTE_PS] for a superpage) and leaves
    every other mapping.  It stops early, silently, exactly when a table is
    missing and no page is free; then the pages before that point are mapped. *)
Theorem boot_map_region_spec s pgdir fl va size pa perm superpage :
  pt_inv s pgdir fl -> 0 <= va -> va + size <= 2 ^ 32 -> va mod PGSIZE = 0 ->
  0 <= size -> 0 <= pa -> pa + size <= 2 ^ 32 -> pa mod PGSIZE = 0 -> 0 <= perm < 4096 ->
  (forall a, va <= a < va + size -> PDX a <> self_slot) ->
  exists s' fl' m, boot_map_region pgdir va size pa perm superpage s = Ok tt s' /\
    pt_inv s' pgdir fl' /\ 0 <= m <= size / PGSIZE /\
    (m < size / PGSIZE -> fl' = [] /\ present s' pgdir (PDX (va + PGSIZE * m)) = false) /\
    forall va', 0 <= va' < 2 ^ 32 -> PDX va' <> self_slot ->
      mapped s' pgdir va' =
        if decide (va <= va' < va + PGSIZE * m)
        then Some (pa + PGSIZE * ((va' - va) / PGSIZE) + boot_flags perm superpage)
        else mapped s pgdir va'.
Proof.
  unfold PGSIZE. intros Hpt Hva Hvs Ha Hsz Hpa Hps Hpa0 Hperm Hs.
  assert (0 <= size / 4096) by (apply Z.div_pos; lia).
  assert (4096 * (size / 4096) <= size) by dlia.
  destruct (boot_map_loop_run pgdir perm superpage (Z.to_nat (size / 4096)) Hperm s fl va pa)
    as (s' & fl' & m & Hrun & Hpt' & Hm & Hlt & Hmap); try (done || lia).
  { intros a Haa. apply Hs. lia. }
  exists s', fl', (Z.of_nat m). split_and!; try (done || lia).
  - unfold boot_map_region, assertM, PGSIZE. rewrite Ha, Hpa0. exact Hrun.
  - intros Hlt'. apply Hlt. lia.
Qed.

(** ** Examples *)

(** Page 1 of [ex_alloc] as an empty directory. *)
Definition ex_dir : Z := KERNBASE + 4096.

Lemma ex_dir_empty d : present ex_alloc ex_dir d = false.
Proof.
  unfold present, pde. simpl. unfold load32, load8. rewrite !lookup_empty. reflexivity.
Qed.

Lemma ex_vm : vm_inv ex_alloc ex_dir [3; 2]%nat (fun _ => 0).
Proof.
  apply (vm_fresh ex_alloc [3; 2]%nat 1 ex_alloc_inv); [simpl; lia|set_solver|].
  intros. apply ex_dir_empty.
Qed.

Lemma page_insert_spec_witness :
  exists s', page_insert ex_dir 0 0x1000 PTE_W ex_alloc = Ok 0 s' /\
    mapped s' ex_dir 0x1000 = Some 3.
Proof.
  assert (0 <= 0x1000 < UTOP) as Hva by (vm_compute; split; [discriminate|reflexivity]).
  pose proof (page_insert_spec ex_alloc ex_dir [3; 2]%nat (fun _ => 0) 0 (MkPage None 1)
                0x1000 PTE_W ex_vm) as H.
  destruct H as [(_ & E & _)|(s' & fl' & H & _ & Hm & _)].
  - intros x. reflexivity.
  - exact Hva.
  - unfold PTE_W. lia.
  - reflexivity.
  - set_solver.
  - simpl. lia.
  - unfold ex_dir. lia.
  - discriminate E.
  - exists s'. split; [exact H|]. rewrite (Hm 0x1000 Hva). reflexivity.
Defined.

Lemma page_remove_spec_witness : page_remove ex_dir 0x1000 ex_alloc = Ok tt ex_alloc.
Proof.
  pose proof (page_remove_spec ex_alloc ex_dir [3; 2]%nat (fun _ => 0) 0x1000 ex_vm) as H.
  assert (mapped ex_alloc ex_dir 0x1000 = None) as E
    by (unfold mapped; by rewrite ex_dir_empty).
  rewrite E in H. apply H; [done|]. vm_compute. split; [discriminate|reflexivity].
Defined.

Lemma vm_safe_witness :
  exists s', run_op ex_dir (OpInsert 0 0x1000 PTE_W) ex_alloc = Ok tt s' /\
  (exists s'', run_op ex_dir (OpRemove 0x1000) s' = Ok tt s'').
Proof.
  assert (vm_reach ex_dir ex_alloc) as H0.
  { apply (vm_reach_fresh ex_dir ex_alloc [3; 2]%nat 1); try done;
      [apply ex_alloc_inv|set_solver]. }
  assert (op_ok ex_dir ex_alloc (OpInsert 0 0x1000 PTE_W)) as Hok.
  { split_and!; [by exists (MkPage None 1)| |done..].
    intros H%(is_free_fl _ [3; 2]%nat); [set_solver|apply ex_alloc_inv]. }
  destruct (vm_safe ex_dir ex_alloc H0) as [Hrun _]. destruct (Hrun _ Hok) as [s' Hs'].
  exists s'. split; [exact Hs'|].
  destruct (vm_safe ex_dir s' (vm_reach_step _ _ _ _ H0 Hok Hs')) as [Hrun' _].
  apply (Hrun' (OpRemove 0x1000)). split; [discriminate|reflexivity].
Defined.

Lemma boot_map_region_spec_witness :
  exists s', boot_map_region ex_dir KERNBASE 8192 0 PTE_W true ex_alloc = Ok tt s' /\
    exists m, 0 <= m <= 2.
Proof.
  destruct (boot_map_region_spec ex_alloc ex_dir [3; 2]%nat KERNBASE 8192 0 PTE_W true
              (vi_pt _ _ _ _ ex_vm)) as (s' & fl' & m & H & _ & Hm & _);
    try (unfold KERNBASE, PTE_W; simpl; lia); try reflexivity.
  - intros a Ha. rewrite PDX_eq by (unfold KERNBASE in Ha; lia).
    change self_slot with 957. unfold KERNBASE in Ha. dlia.
  - exists s'. split; [exact H|]. exists m. exact Hm.
Defined.

Lemma check_va2pa_lookup_witness : check_va2pa ex_dir 0x1000 ex_alloc = Ok (2 ^ 32 - 1) ex_alloc.
Proof.
  destruct (check_va2pa_lookup ex_alloc ex_dir [3; 2]%nat (fun _ => 0) 0x1000 ex_vm)
    as [[_ H]|(q & a & H & _)].
  - split; [discriminate|reflexivity].
  - exact H.
  - exfalso. revert H. vm_compute. discriminate.
Defined.
