(* ===== verification/JosMonitor.v ===== *)
(** * The JOS kernel monitor (lab3/kern/monitor.c, lab3/lib/readline.c)

    The commands of the monitor, the command interpreter and the line editor it
    reads from.  A string is the list of its characters; [argv] is the list of
    the arguments, and reading one that was not given, a null pointer in C, is a
    panic.  A load or store through a pointer goes through the page tables of
    [kern_pgdir]; an address they do not map is a page fault. *)

From S2P Require Import Prelude CMem JosString JosPrintfmt JosPmap JosPgdir.
From stdpp Require Import base numbers option list gmap strings.
From Stdlib Require Import Ascii.
Open Scope Z_scope.

Notation MK := (M kst).

(** ** Memory as the running kernel addresses it *)

(** The physical address of [va], and its byte in the window of the kernel. *)
Definition translate (s : kst) (va : Z) : option Z :=
  match mapped s (kern_pgdir s) va with
  | Some e => Some (PTE_ADDR e + PGOFF va)
  | None => None
  end.

Definition vload8 (va : Z) : MK Z := fun s =>
  match translate s (u32 va) with
  | Some pa => Ok (load8 (k_mem s) (pa + KERNBASE)) s
  | None => Panic "page fault" s
  end.
Definition vload32 (va : Z) : MK Z :=
  b0 ← vload8 va; b1 ← vload8 (va + 1); b2 ← vload8 (va + 2); b3 ← vload8 (va + 3);
  mret (b0 + 2 ^ 8 * b1 + 2 ^ 16 * b2 + 2 ^ 24 * b3).

Definition vstore8 (va v : Z) : MK unit := fun s =>
  match translate s (u32 va) with
  | Some pa => Ok tt (set_mem (store8 (k_mem s) (pa + KERNBASE) v) s)
  | None => Panic "page fault" s
  end.
Definition vstore32 (va v : Z) : MK unit :=
  vstore8 va v;; vstore8 (va + 1) (v / 2 ^ 8);; vstore8 (va + 2) (v / 2 ^ 16);; vstore8 (va + 3) (v / 2 ^ 24).

(** ** Commands *)

Definition argv_get (argv : list (list Z)) (i : nat) : MK (list Z) :=
  match argv !! i with Some a => mret a | None => panic "null argument" end.

(** The first character of a string, its terminator when it is empty. *)
Definition char0 (a : list Z) : Z := nth 0 a 0.

(** One character; any other than a hexadecimal digit is skipped. *)
Definition convert_step (result c : Z) : Z :=
  if (zc "0" <=? i8 c) && (i8 c <=? zc "9") then u32 (result * 16 + (i8 c - zc "0"))
  else if (zc "a" <=? i8 c) && (i8 c <=? zc "f") then u32 (result * 16 + (i8 c - zc "a" + 10))
  else if (zc "A" <=? i8 c) && (i8 c <=? zc "F") then u32 (result * 16 + (i8 c - zc "A" + 10))
  else result.
Definition convert2int (str : list Z) : Z := foldl convert_step 0 str.

Definition virtual2physical (va : Z) : MK Z :=
  d ← gets kern_pgdir;
  pte ← pgdir_walk d va false;
  match pte with
  | None => mret (-1)
  | Some p => e ← load p; mret (i32 (PTE_ADDR e + Z.land va 0xfff))
  end.

Definition physical2virtual (pa : Z) : MK Z := v ← KADDR pa; mret (i32 v).

Definition extractperm (pte : Z) : list Z :=
  [if has pte PTE_P then zc "P" else zc "-";
   if has pte PTE_W then zc "W" else zc "-";
   if has pte PTE_U then zc "U" else zc "-"].

Definition getperm (va : Z) : MK (option (list Z)) :=
  d ← gets kern_pgdir;
  pte ← pgdir_walk d va false;
  match pte with
  | None => mret None
  | Some p => e ← load p; mret (Some (extractperm e))
  end.

(** The entry a command works on; the walk allocates a table. *)
Definition entry_of (va : Z) : MK Z :=
  d ← gets kern_pgdir;
  pte ← pgdir_walk d va true;
  match pte with
  | None => panic "page table entry not found - out of memory?"
  | Some p => mret p
  end.

(** [for (; start <= end; start += PGSIZE)]; [fuel] bounds the pages. *)
Fixpoint showmappings_loop (fuel : nat) (start end_ : Z) : MK unit :=
  match fuel with
  | O => no_fuel
  | S f =>
      if start <=? end_ then
        p ← entry_of start;
        e ← load p;
        (if has e PTE_P then
           cprintf (zs "virtual page: %x ") [AInt start];;
           pa ← virtual2physical start;
           cprintf (zs "physical page: %x ") [AInt pa];;
           perm ← getperm start;
           cprintf (zl "permission: %s ") [AStr perm]
         else cprintf (zl "page don't exist: %x") [AInt start]);;
        showmappings_loop f (u32 (start + PGSIZE)) end_
      else mret tt
  end.

Definition mon_showmappings (fuel : nat) (argv : list (list Z)) : MK Z :=
  if (length argv =? 1)%nat then
    cprintf (zl "The function takes two arguments - beginning address and end address") [];; mret 0
  else
    a ← argv_get argv 1; let start := convert2int a in
    a ← argv_get argv 2; let end_ := convert2int a in
    cprintf (zl "start address: %x, end address: %x") [AInt start; AInt end_];;
    showmappings_loop fuel start end_;;
    mret 0.

Definition flag_int (b : bool) : arg := AInt (if b then 1 else 0).

Definition printPermission (p : Z) : MK unit :=
  e ← load p;
  cprintf (zs "PTE_P: %d, PTE_W: %d, PTE_U: %d " ++ [13; 32; 10])
    [flag_int (has e PTE_P); flag_int (has e PTE_W); flag_int (has e PTE_U)].

(** The permission a letter names; the tests are made one after the other. *)
Definition letter_perm (c : Z) : Z :=
  let perm := 0 in
  let perm := if c =? zc "P" then PTE_P else perm in
  let perm := if c =? zc "W" then PTE_W else perm in
  if c =? zc "U" then PTE_U else perm.

Definition mon_setperm (argv : list (list Z)) : MK Z :=
  if (length argv =? 1)%nat then
    cprintf (zl "The function takes three arguments - addresss, clear/set and permission") [];; mret 0
  else
    a ← argv_get argv 1; let addr := convert2int a in
    p ← entry_of addr;
    cprintf (zs "%x before setperm: ") [AInt addr];;
    printPermission p;;
    a3 ← argv_get argv 3; let perm := letter_perm (char0 a3) in
    a2 ← argv_get argv 2;
    e ← load p;
    (if char0 a2 =? zc "0" then store p (Z.land e (u32 (Z.lnot perm))) else store p (Z.lor e perm));;
    cprintf (zs "%x after setperm: ") [AInt addr];;
    printPermission p;;
    mret 0.

(** [while (start <= end)] of the two dump commands. *)
Fixpoint dump_loop (fuel : nat) (fmt : list Z) (start end_ : Z) : MK unit :=
  match fuel with
  | O => no_fuel
  | S f =>
      if start <=? end_ then
        w0 ← vload32 start; w1 ← vload32 (start + 1); w2 ← vload32 (start + 2); w3 ← vload32 (start + 3);
        cprintf fmt [AInt start; AInt w0; AInt w1; AInt w2; AInt w3];;
        dump_loop f fmt (u32 (start + 4)) end_
      else mret tt
  end.

Definition mon_dumpv (fuel : nat) (argv : list (list Z)) : MK Z :=
  if (length argv =? 1)%nat then
    cprintf (zl "The function takes two arguments - beginning address and end address") [];; mret 0
  else
    a ← argv_get argv 1; let start := convert2int a in
    a ← argv_get argv 2; let end_ := convert2int a in
    if end_ <? start then
      cprintf (zl "The start address should be less than the end address") [];; mret 0
    else if start <? UTOP then
      cprintf (zl "The start address should be greater than UTOP") [];; mret 0
    else if end_ <? UTOP then
      cprintf (zl "The end address should be greater than UTOP") [];; mret 0
    else
      cprintf (zl "start address: %x, end address: %x") [AInt start; AInt end_];;
      dump_loop fuel (zs "Virtual Address: %x contains %x %x %x %x " ++ [13; 32; 10]) start end_;;
      mret 0.

Definition mon_dumpp (fuel : nat) (argv : list (list Z)) : MK Z :=
  if (length argv =? 1)%nat then
    cprintf (zl "The function takes two arguments - beginning address and end address") [];; mret 0
  else
    a ← argv_get argv 1; v ← physical2virtual (convert2int a); let start := u32 v in
    a ← argv_get argv 2; v ← physical2virtual (convert2int a); let end_ := u32 v in
    if end_ <? start then
      cprintf (zl "The start address should be less than the end address") [];; mret 0
    else if UTOP <? start then
      cprintf (zl "The start address should be less than UTOP") [];; mret 0
    else if UTOP <? end_ then
      cprintf (zl "The end address should be less than UTOP") [];; mret 0
    else
      cprintf (zl "start address: %x, end address: %x") [AInt start; AInt end_];;
      dump_loop fuel (zs "Physical Address: %x contains %x %x %x %x " ++ [13; 32; 10]) start end_;;
      mret 0.

Definition mon_pagesize (argv : list (list Z)) : MK Z :=
  if (length argv =? 1)%nat then cprintf (zl "The function takes one argument - address") [];; mret 0
  else
    a ← argv_get argv 1;
    p ← entry_of (convert2int a);
    e ← load p;
    (if has e PTE_PS then cprintf (zs "Page size: 4MB " ++ [13; 32; 10]) []
     else cprintf (zs "Page size: 4KB " ++ [13; 32; 10]) []);;
    mret 0.

(** The checks and the store the two load commands share. *)
Definition load_value (addr value size : Z) : MK Z :=
  p ← entry_of addr;
  e ← load p;
  if negb (has e PTE_P) then panic "page not present"
  else
    e ← load p;
    if negb (has e PTE_W) then panic "page not writable"
    else if negb (size =? 1) && negb (size =? 2) && negb (size =? 4) then panic "invalid size"
    else if negb (addr mod size =? 0) then panic "address not aligned"
    else if (size =? 1) && (0xff <? value) then panic "invalid value"
    else if (size =? 2) && (0xffff <? value) then panic "invalid value"
    else if (size =? 4) && (0xffffffff <? value) then panic "invalid value"
    else vstore32 addr value;; mret 0.

Definition mon_loadv (argv : list (list Z)) : MK Z :=
  if (length argv =? 1)%nat then
    cprintf (zl "The function takes three arguments - address, value and size") [];; mret 0
  else
    a ← argv_get argv 1; let addr := convert2int a in
    a ← argv_get argv 2; let value := convert2int a in
    a ← argv_get argv 3; let size := convert2int a in
    load_value addr value size.

Definition mon_loadp (argv : list (list Z)) : MK Z :=
  if (length argv =? 1)%nat then
    cprintf (zl "The function takes three arguments - address, value and size") [];; mret 0
  else
    a ← argv_get argv 1; v ← physical2virtual (convert2int a); let addr := u32 v in
    a ← argv_get argv 2; let value := convert2int a in
    a ← argv_get argv 3; let size := convert2int a in
    load_value addr value size.

(** The linker's symbols. *)
Record symbols : Type := Symbols { sym_start : Z; sym_entry : Z; sym_etext : Z; sym_edata : Z; sym_end : Z }.

Definition mon_kerninfo (y : symbols) : MK Z :=
  cprintf (zl "Special kernel symbols:") [];;
  cprintf (zl "  _start                  %08x (phys)") [AInt (sym_start y)];;
  cprintf (zl "  entry  %08x (virt)  %08x (phys)") [AInt (sym_entry y); AInt (u32 (sym_entry y - KERNBASE))];;
  cprintf (zl "  etext  %08x (virt)  %08x (phys)") [AInt (sym_etext y); AInt (u32 (sym_etext y - KERNBASE))];;
  cprintf (zl "  edata  %08x (virt)  %08x (phys)") [AInt (sym_edata y); AInt (u32 (sym_edata y - KERNBASE))];;
  cprintf (zl "  end    %08x (virt)  %08x (phys)") [AInt (sym_end y); AInt (u32 (sym_end y - KERNBASE))];;
  cprintf (zl "Kernel executable memory footprint: %dKB")
    [AInt (ROUNDUP (u32 (sym_end y - sym_entry y)) 1024 / 1024)];;
  mret 0.

Definition mon_backtrace (argv : list (list Z)) : MK Z := mret 0.

(** ** The command interpreter *)

(** The table of commands, by name and description. *)
Inductive command := Help | Kerninfo | Showmappings | Setperm | Dumpv | Dumpp | Pagesize | Loadv | Loadp.

Definition commands : list (list Z * list Z * command) :=
  [(zs "help", zs "Display this list of commands", Help);
   (zs "kerninfo", zs "Display information about the kernel", Kerninfo);
   (zs "showmappings", zs "Display the page mappings of the given virtual address range", Showmappings);
   (zs "setperm", zs "Set the permission of the given virtual address range", Setperm);
   (zs "dumpv", zs "Dump the content of the given virtual or physical address range", Dumpv);
   (zs "dumpp", zs "Dump the content of the given virtual or physical address range", Dumpp);
   (zs "pagesize", zs "Prints the page size", Pagesize);
   (zs "loadv", zs "Modify a byte at given virtual memory", Loadv);
   (zs "loadp", zs "Modify a byte at given physical memory", Loadp)].

Definition mon_help : MK Z :=
  for_each commands (fun c => cprintf (zl "%s - %s") [AStr (Some (fst (fst c))); AStr (Some (snd (fst c)))]);;
  mret 0.

Section interpreter.
Context (fuel : nat) (syms : symbols).

Definition run_command (c : command) (argv : list (list Z)) : MK Z :=
  match c with
  | Help => mon_help
  | Kerninfo => mon_kerninfo syms
  | Showmappings => mon_showmappings fuel argv
  | Setperm => mon_setperm argv
  | Dumpv => mon_dumpv fuel argv
  | Dumpp => mon_dumpp fuel argv
  | Pagesize => mon_pagesize argv
  | Loadv => mon_loadv argv
  | Loadp => mon_loadp argv
  end.

Definition MAXARGS : nat := 16.
Definition is_space (c : Z) : bool := bool_decide (c ∈ [9; 13; 10; 32]).

(** The two inner loops of [runcmd]: past the blanks, past an argument. *)
Fixpoint skip_space (buf : list Z) : list Z :=
  match buf with
  | c :: b => if is_space c then skip_space b else buf
  | [] => []
  end.
Fixpoint take_word (buf : list Z) : list Z * list Z :=
  match buf with
  | c :: b => if is_space c then ([], buf) else let (w, r) := take_word b in (c :: w, r)
  | [] => ([], [])
  end.

(** The arguments of a line, none when there are too many; every argument is at
    least one character, so the length of the line bounds the loop. *)
Fixpoint parse_args (n : nat) (buf : list Z) (argv : list (list Z)) : option (list (list Z)) :=
  match n with
  | O => Some argv
  | S n =>
      match skip_space buf with
      | [] => Some argv
      | b => if (length argv =? MAXARGS - 1)%nat then None
             else let (w, r) := take_word b in parse_args n r (argv ++ [w])
      end
  end.

Fixpoint lookup_command (name : list Z) (l : list (list Z * list Z * command)) : option command :=
  match l with
  | [] => None
  | (n, _, c) :: l => if bool_decide (name = n) then Some c else lookup_command name l
  end.

Definition runcmd (buf : list Z) : MK Z :=
  match parse_args (S (length buf)) buf [] with
  | None => cprintf (zl "Too many arguments (max %d)") [AInt (Z.of_nat MAXARGS)];; mret 0
  | Some [] => mret 0
  | Some (name :: args) =>
      match lookup_command name commands with
      | Some c => run_command c (name :: args)
      | None => cprintf (zl "Unknown command '%s'") [AStr (Some name)];; mret 0
      end
  end.

(** ** The line editor *)

(** The characters still to come from the console are part of the state. *)
Notation MI := (M (kst * list Z)).

Definition klift {A} (m : MK A) : MI A := fun s =>
  match m (fst s) with
  | Ok a k => Ok a (k, snd s)
  | Panic msg k => Panic msg (k, snd s)
  | NoFuel => NoFuel
  end.

Definition BUFLEN : Z := 1024.

(** [getchar] waits for a character. *)
Definition getchar : MI Z := fun s =>
  match snd s with
  | c :: inp => Ok c (fst s, inp)
  | [] => NoFuel
  end.
Definition cputchar (c : Z) : MI unit := klift (modify (fun k => set_con (con k ++ [c]) k)).

(** [buf] holds the characters typed so far; the console echoes. *)
Fixpoint readline_loop (n : nat) (buf : list Z) : MI (option (list Z)) :=
  match n with
  | O => no_fuel
  | S n =>
      let i := Z.of_nat (length buf) in
      c ← getchar;
      if c <? 0 then klift (cprintf (zl "read error: %e") [AInt c]);; mret None
      else if ((c =? 8) || (c =? 127)) && (0 <? i) then
        cputchar 8;; readline_loop n (removelast buf)
      else if (32 <=? c) && (i <? BUFLEN - 1) then
        cputchar c;; readline_loop n (buf ++ [u8 c])
      else if (c =? 10) || (c =? 13) then cputchar 10;; mret (Some buf)
      else readline_loop n buf
  end.

Definition readline (prompt : option (list Z)) : MI (option (list Z)) := fun s =>
  ((match prompt with Some p => klift (cprintf (zs "%s") [AStr (Some p)]) | None => mret tt end);;
   readline_loop (S (length (snd s))) []) s.

(** The loop of the monitor, [n] lines at most. *)
Fixpoint monitor_loop (n : nat) : MI unit :=
  match n with
  | O => no_fuel
  | S n =>
      buf ← readline (Some (zs "K> "));
      match buf with
      | Some b => r ← klift (runcmd b); if r <? 0 then mret tt else monitor_loop n
      | None => monitor_loop n
      end
  end.

Definition monitor (n : nat) : MI unit :=
  klift (cprintf (zl "Welcome to the JOS kernel monitor!") []);;
  klift (cprintf (zl "Type 'help' for a list of commands.") []);;
  monitor_loop n.
End interpreter.

(** ** Numbers typed at the monitor *)

Lemma digit_char d : 0 <= d < 16 -> forall r, convert_step r (hexdigit d) = u32 (r * 16 + d).
Proof.
  intros Hd r.
  assert (d = 0 \/ d = 1 \/ d = 2 \/ d = 3 \/ d = 4 \/ d = 5 \/ d = 6 \/ d = 7 \/ d = 8 \/ d = 9 \/
    d = 10 \/ d = 11 \/ d = 12 \/ d = 13 \/ d = 14 \/ d = 15) as H by lia.
  repeat destruct H as [->|H]; try subst d; reflexivity.
Qed.

Lemma convert_digits ds r :
  Forall (fun d => 0 <= d < 16) ds -> 0 <= r < 2 ^ 32 ->
  foldl convert_step r (map hexdigit ds) = u32 (foldl (fun v d => v * 16 + d) r ds).
Proof.
  intros Hds. revert r. induction Hds as [|d ds Hd Hds IH]; intros r Hr; simpl.
  - by rewrite u32_small.
  - rewrite digit_char by done. rewrite IH by apply u32_range. clear.
    assert (forall a b, u32 a = u32 b -> u32 (foldl (fun v d => v * 16 + d) a ds) =
      u32 (foldl (fun v d => v * 16 + d) b ds)) as H; [|apply H; unfold u32; by rewrite Z.mod_mod].
    induction ds as [|x ds IH]; intros a b E; simpl; [done|]. apply IH. unfold u32 in *.
    rewrite <- (Z.add_mod_idemp_l (a * 16)), <- (Z.add_mod_idemp_l (b * 16)) by lia.
    rewrite <- (Z.mul_mod_idemp_l a), <- (Z.mul_mod_idemp_l b), E by lia. done.
Qed.

Lemma convert_pad n c r :
  c = zc "0" \/ c = zc " " -> r = 0 -> foldl convert_step r (replicate n c) = 0.
Proof.
  intros Hc ->. induction n as [|n IH]; simpl; [done|]. by destruct Hc as [->| ->].
Qed.

(** every address [cprintf] prints in hexadecimal, padded to any width with
    zeros or blanks, is read back by [convert2int] as the same address, with or
    without the prefix [0x]. *)
Theorem convert2int_printnum n w c args :
  0 <= n < 2 ^ 32 -> c = zc "0" \/ c = zc " " ->
  exists txt, printnum 65 n 16 w c (PState [] args) = Ok tt (PState txt args) /\
    convert2int txt = n /\ convert2int (zs "0x" ++ txt) = n.
Proof.
  intros Hn Hc. pose proof (fuel65 16 n ltac:(lia) ltac:(lia)) as H65.
  eexists. split; [by apply printnum_run; [|done|lia]|]. cbn [out ap app].
  assert (forall r, r = 0 -> foldl convert_step r
    (replicate (Z.to_nat (w - Z.of_nat (length (digits 65 16 n)))) c ++ map hexdigit (digits 65 16 n)) = n) as H.
  { intros r Hr. rewrite foldl_app, convert_pad by done.
    rewrite convert_digits by (lia || (apply digits_range; lia)).
    fold (value 16 (digits 65 16 n)). rewrite digits_value by (lia || done). by apply u32_small. }
  split; [by apply H|]. unfold convert2int. rewrite foldl_app. apply H. reflexivity.
Qed.

Lemma convert2int_printnum_witness : convert2int (zs "0xf0110000") = 0xf0110000.
Proof.
  assert (0 <= 0xf0110000 < 2 ^ 32) as Hn by lia.
  destruct (convert2int_printnum 0xf0110000 8 (zc "0") [] Hn (or_introl eq_refl)) as (txt & E & _ & H).
  assert (txt = zs "f0110000") as -> by (vm_compute in E; by injection E as <-). exact H.
Defined.

(** ** Arguments *)

Lemma take_word_nonspace w rest :
  Forall (fun c => is_space c = false) w -> (forall c r, rest = c :: r -> is_space c = true) ->
  take_word (w ++ rest) = (w, rest).
Proof.
  intros Hw Hr. induction Hw as [|c w Hc Hw IH]; simpl.
  - destruct rest as [|c r]; [done|]. simpl. by rewrite (Hr c r).
  - by rewrite Hc, IH.
Qed.

Lemma skip_space_nonspace c b : is_space c = false -> skip_space (c :: b) = c :: b.
Proof. intros H. simpl. by rewrite H. Qed.

Lemma parse_blank n b argv : parse_args n (32 :: b) argv = parse_args n b argv.
Proof. by destruct n. Qed.

(** A line of words, each followed by a blank. *)
Definition line (ws : list (list Z)) : list Z := foldr (fun w acc => w ++ 32 :: acc) [] ws.

(** The words of a line are its arguments, in order, at most [MAXARGS - 1] of
    them; the fuel [runcmd] gives is enough. *)
Lemma parse_args_line ws n argv :
  Forall (fun w => w <> [] /\ Forall (fun c => is_space c = false) w) ws ->
  (length argv <= MAXARGS - 1)%nat -> (length (line ws) < n)%nat ->
  parse_args n (line ws) argv =
    if (length argv + length ws <=? MAXARGS - 1)%nat then Some (argv ++ ws) else None.
Proof.
  intros Hws. revert n argv. induction Hws as [|w ws [Hne Hw] Hws IH]; intros n argv Hlen Hn.
  - destruct n as [|n]; [simpl in Hn; lia|]. cbn [parse_args line foldr skip_space length].
    rewrite Nat.add_0_r, app_nil_r. destruct (Nat.leb_spec (length argv) (MAXARGS - 1)); [done|lia].
  - destruct n as [|n]; [simpl in Hn; lia|]. cbn [line foldr] in *. fold (line ws) in *.
    rewrite length_app in Hn. simpl length in Hn.
    pose proof (take_word_nonspace w (32 :: line ws) Hw ltac:(by intros ? ? [= <- _])) as Htake.
    assert (skip_space (w ++ 32 :: line ws) = w ++ 32 :: line ws) as Hskip.
    { destruct w as [|c w]; [done|]. apply skip_space_nonspace. by inversion Hw. }
    cbn [parse_args]. rewrite Hskip. destruct (w ++ 32 :: line ws) as [|c0 l0]; [by destruct w|].
    rewrite Htake. simpl length. destruct (Nat.eqb_spec (length argv) (MAXARGS - 1)) as [E|E].
    + destruct (Nat.leb_spec (length argv + S (length ws)) (MAXARGS - 1)); [lia|done].
    + rewrite parse_blank, IH by (rewrite ?length_app; cbn [length]; lia).
      rewrite length_app, <- app_assoc. simpl length.
      by replace (length argv + 1 + length ws)%nat with (length argv + S (length ws))%nat by lia.
Qed.

(** ** Commands that never do what they are for *)

(** [showmappings] up to the last page never returns. *)
Lemma showmappings_forever fuel start s a s' :
  showmappings_loop fuel start (2 ^ 32 - 1) s = Ok a s' -> start <= 2 ^ 32 - 1 -> False.
Proof.
  revert start s. induction fuel as [|fuel IH]; intros start s H Hs; [done|]. cbn [showmappings_loop] in H.
  destruct (Z.leb_spec start (2 ^ 32 - 1)); [|lia].
  apply bind_Ok_inv in H as (p & s1 & _ & H). apply bind_Ok_inv in H as (e & s2 & _ & H).
  apply bind_Ok_inv in H as (u & s3 & _ & H). apply (IH _ _ H). pose proof (u32_range (start + PGSIZE)). lia.
Qed.

(** [dumpp] prints no memory: every physical address it converts is above [UTOP]. *)
Lemma mon_dumpp_refuses fuel s name a b :
  0 < npages s <= 65536 -> PGNUM (convert2int a) < npages s -> PGNUM (convert2int b) < npages s ->
  0 <= convert2int a -> 0 <= convert2int b ->
  exists c, mon_dumpp fuel [name; a; b] s = Ok 0 (set_con c s).
Proof.
  intros Hn Ha Hb Ha0 Hb0.
  assert (forall x, 0 <= x -> PGNUM x < npages s ->
    physical2virtual x s = Ok (i32 (x + KERNBASE)) s /\ u32 (i32 (x + KERNBASE)) = x + KERNBASE) as Hp.
  { intros x Hx0 Hx. rewrite PGNUM_div in Hx.
    unfold physical2virtual, KADDR, mbind, M_bind, gets. rewrite PGNUM_div.
    destruct (Z.leb_spec (npages s) (x / 4096)); [lia|]. unfold mret, M_ret, KERNBASE.
    rewrite u32_small by dlia. split; [done|]. unfold u32, i32. dlia. }
  destruct (Hp _ Ha0 Ha) as [Ea Ua], (Hp _ Hb0 Hb) as [Eb Ub].
  unfold mon_dumpp. cbn [length Nat.eqb].
  rewrite (run_bind (argv_get [name; a; b] 1) _ s a s eq_refl), (run_bind _ _ _ _ _ Ea). cbv zeta.
  rewrite (run_bind (argv_get [name; a; b] 2) _ s b s eq_refl), (run_bind _ _ _ _ _ Eb). rewrite Ua, Ub.
  assert (UTOP <? convert2int a + KERNBASE = true) as -> by (apply Z.ltb_lt; assert (UTOP < KERNBASE) by reflexivity; lia).
  assert (forall fmt, fmt_check (fmt_fuel fmt) fmt [] = true ->
    exists c, (cprintf fmt [];; mret 0) s = Ok 0 (set_con c s)) as Hc.
  { intros fmt Hf. destruct (proj1 (wp_Ok (cprintf fmt [];; mret 0) (fun r s' => r = 0 /\ exists c, s' = set_con c s) s))
      as (r & s' & E & -> & c & ->); [|by exists c].
    apply wp_bind, wp_cprintf; [done|]. intros c. split; [done|]. by exists c. }
  destruct (_ <? _); apply Hc; vm_compute; reflexivity.
Qed.

(** ** Permissions *)

(** What [setperm] makes of an entry. *)
Definition new_perm (op letter : list Z) (e : Z) : Z :=
  let perm := letter_perm (char0 letter) in
  if char0 op =? zc "0" then Z.land e (u32 (Z.lnot perm)) else Z.lor e perm.

Lemma pt_inv_con s d fl c : pt_inv s d fl -> pt_inv (set_con c s) d fl.
Proof. intros [H ? ? ?]. constructor; [by apply alloc_inv_con|done..]. Qed.

Lemma wp_printPermission p (Q : unit -> kst -> Prop) s :
  (forall c, Q tt (set_con c s)) -> wp (printPermission p) Q s.
Proof. intros H. apply wp_bind, wp_gets, wp_cprintf; [vm_compute; reflexivity|done]. Qed.

(** [setperm] on a mapped page changes the entry of that page as asked, and
    nothing else: the set bit is added or the named bit cleared, every other
    page keeps its mapping, and no page is allocated or freed. *)
Theorem mon_setperm_spec s fl name a op letter e :
  let d := kern_pgdir s in
  let va := convert2int a in
  pt_inv s d fl -> 0 <= va < 2 ^ 32 -> PDX va <> self_slot -> mapped s d va = Some e ->
  exists s', mon_setperm [name; a; op; letter] s = Ok 0 s' /\ pt_inv s' d fl /\ pages s' = pages s /\
    forall va', 0 <= va' < 2 ^ 32 -> PDX va' <> self_slot ->
      mapped s' d va' =
        if decide (va' / 4096 = va / 4096)
        then (let v := u32 (new_perm op letter e) in if has v PTE_P then Some v else None)
        else mapped s d va'.
Proof.
  intros d va Hpt Hva Hself He.
  assert (present s d (PDX va) = true /\ load32 (k_mem s) (slot s d va) = e) as [Hp Hl].
  { unfold mapped in He. destruct (present s d (PDX va)); [|done]. cbv zeta in He.
    destruct (has _ PTE_P); [|done]. split; [done|]. by injection He. }
  destruct (proj1 (wp_Ok (mon_setperm [name; a; op; letter]) (fun r s' => r = 0 /\ exists c,
    s' = set_con c (set_entry (slot s d va) (new_perm op letter e) s)) s)) as (r & s' & E & -> & c & ->).
  - unfold mon_setperm. cbn [length Nat.eqb]. cbv zeta.
    apply wp_bind, wp_ret. fold va. apply wp_bind.
    { apply wp_bind, wp_gets. fold d. apply wp_bind. unfold wp at 1.
      rewrite (pgdir_walk_present s d fl Hpt va true Hself Hp). apply wp_ret.
      apply wp_bind, wp_cprintf; [vm_compute; reflexivity|]. intros c1.
      apply wp_bind, wp_printPermission. intros c2. apply wp_bind, wp_ret, wp_bind, wp_ret, wp_bind, wp_gets.
      cbn [k_mem set_con]. rewrite Hl. apply wp_bind.
      assert (forall v, v = new_perm op letter e -> wp (store (slot s d va) v) (fun _ => wp
        (cprintf (zs "%x after setperm: ") [AInt va];; printPermission (slot s d va);; mret 0)
        (fun r s' => r = 0 /\ exists c, s' = set_con c (set_entry (slot s d va) (new_perm op letter e) s)))
        (set_con c2 (set_con c1 s))) as H.
      { intros v ->. apply wp_modify. apply wp_bind, wp_cprintf; [vm_compute; reflexivity|]. intros c3.
        apply wp_bind, wp_printPermission. intros c4. apply wp_ret. split; [done|]. by exists c4. }
      unfold new_perm in *. destruct (char0 op =? zc "0"); by apply H. }
  - exists (set_con c (set_entry (slot s d va) (new_perm op letter e) s)). split_and!; [done| |done|].
    + by apply pt_inv_con, set_entry_inv.
    + intros va' Hv' Hs'. exact (set_entry_mapped s d fl va (new_perm op letter e) Hpt Hva Hself Hp va' Hv' Hs').
Qed.

(** Page 1 is the directory, page 2 its only table, which maps address 0x1000
    to page 0, present and writable; page 3 is free. *)
Definition ex_mon : kst :=
  set_kern_pgdir ex_dir (set_free_list (Some 3%nat) (set_pages KERNBASE
    [MkPage None 1; MkPage None 1; MkPage None 1; MkPage None 0] (set_npages 4 4
      (set_mem (store32 (store32 ∅ ex_dir 8199) (KERNBASE + 8196) 3) kst0)))).

Lemma ex_mon_pde d : 0 <= d < 1024 -> pde ex_mon ex_dir d = if decide (d = 0) then 8199 else 0.
Proof.
  intros Hd. unfold pde, ex_mon, ex_dir. cbn [k_mem set_kern_pgdir set_free_list set_pages set_npages set_mem].
  rewrite load32_store32_ne by (unfold KERNBASE; lia). case_decide as E.
  - subst d. rewrite Z.mul_0_r, Z.add_0_r, load32_store32_eq. reflexivity.
  - rewrite load32_store32_ne by (unfold KERNBASE; lia). unfold load32, load8. by rewrite !lookup_empty.
Qed.

Lemma ex_mon_present d : 0 <= d < 1024 -> present ex_mon ex_dir d = true -> d = 0.
Proof. intros Hd. unfold present. rewrite ex_mon_pde by done. by case_decide. Qed.

Lemma ex_mon_pt : pt_inv ex_mon ex_dir [3]%nat.
Proof.
  constructor.
  - constructor; simpl.
    + done.
    + lia.
    + split; [done|]. by exists (MkPage None 0).
    + apply NoDup_singleton.
    + apply (bool_decide_unpack _). vm_compute. exact I.
    + intros [|[|[|[|i]]]] p Hp; simplify_eq/=; lia.
    + intros [|[|[|[|i]]]] p Hp Hi; simplify_eq/=; done.
  - exists 1%nat. split; [done|]. split; [simpl; lia|set_solver].
  - intros d Hd _ Hp. rewrite (ex_mon_present d Hd Hp), ex_mon_pde by lia. rewrite decide_True by done.
    change (8199 / 4096) with 2. split; [simpl; lia|]. split; [set_solver|unfold ex_dir; lia].
  - intros d d' Hd Hd' _ _ Hp Hp' _. by rewrite (ex_mon_present d Hd Hp), (ex_mon_present d' Hd' Hp').
Qed.

Lemma mon_setperm_spec_witness :
  exists s', mon_setperm [zs "setperm"; zs "0x1000"; zs "1"; zs "U"] ex_mon = Ok 0 s' /\
    mapped s' ex_dir 0x1000 = Some 7.
Proof.
  assert (mapped ex_mon ex_dir 0x1000 = Some 3) as Hm by (vm_compute; reflexivity).
  assert (PDX 0x1000 <> self_slot) as Hs by (vm_compute; discriminate).
  assert (0 <= 0x1000 < 2 ^ 32) as Hva by lia.
  destruct (mon_setperm_spec ex_mon [3]%nat (zs "setperm") (zs "0x1000") (zs "1") (zs "U") 3
    ex_mon_pt Hva Hs Hm) as (s' & E & _ & _ & H).
  exists s'. split; [exact E|]. exact (H 0x1000 Hva Hs).
Defined.
