(* ===== verification/JosKdebug.v ===== *)
(** * JOS debugging symbols (lab3/kern/kdebug.c, lab3/inc/stab.h)

    The binary search over the symbol table that the linker puts in the kernel
    image, and the lookup of a source position.  The table is a list; the string
    table is a range of memory.  An index outside the table is a fault. *)

From S2P Require Import Prelude CMem JosString JosPmap.
From stdpp Require Import base numbers option list gmap strings.
Open Scope Z_scope.

Definition N_FUN : Z := 0x24.
Definition N_SO : Z := 0x64.
Definition N_SOL : Z := 0x84.
Definition N_PSYM : Z := 0xa0.

Record Stab : Type := MkStab { n_strx : Z; n_type : Z; n_other : Z; n_desc : Z; n_value : Z }.

Section search.
Context {S' : Type} (stabs : list Stab).

(** [stabs[i]]. *)
Definition stab_get (i : Z) : option Stab := if 0 <=? i then stabs !! Z.to_nat i else None.
Definition stab_at (i : Z) : M S' Stab := fun s =>
  match stab_get i with Some x => Ok x s | None => Panic "stabs: out of range" s end.

(** [while (m >= l && stabs[m].n_type != type) m--], [k] being [m - l + 1]. *)
Fixpoint back_to (k : nat) (type m : Z) : M S' Z :=
  match k with
  | O => mret m
  | S k => x ← stab_at m; if n_type x =? type then mret m else back_to k type (m - 1)
  end.

(** The search loop; the bounds and [any_matches] at its end. *)
Fixpoint binsearch_loop (fuel : nat) (l r rl rr : Z) (any : bool) (type addr : Z) : M S' (Z * Z * bool) :=
  if l <=? r then
    match fuel with
    | O => no_fuel
    | S fuel =>
        let true_m := Z.quot (i32 (l + r)) 2 in
        m ← back_to (Z.to_nat (true_m - l + 1)) type true_m;
        if m <? l then binsearch_loop fuel (true_m + 1) r rl rr any type addr
        else
          x ← stab_at m;
          if n_value x <? addr then binsearch_loop fuel (true_m + 1) r m rr true type addr
          else if addr <? n_value x then binsearch_loop fuel l (m - 1) rl (m - 1) true type addr
          else binsearch_loop fuel m r m rr true type (u32 (addr + 1))
    end
  else mret (rl, rr, any).

(** The new values of [*region_left] and [*region_right]. *)
Definition stab_binsearch (fuel : nat) (region_left region_right type addr : Z) : M S' (Z * Z) :=
  a ← binsearch_loop fuel region_left region_right region_left region_right false type addr;
  let '(rl, rr, any) := a in
  if negb (any : bool) then mret (rl, rl - 1)
  else
    l ← back_to (Z.to_nat (rr - rl)) type rr;
    mret (l, rr).
End search.

(** [struct Eipdebuginfo]; a name is a string of the table or [<unknown>]. *)
Record Eipdebuginfo : Type := MkInfo {
  eip_file : option Z; eip_line : Z; eip_fn_name : option Z; eip_fn_namelen : Z; eip_fn_addr : Z; eip_fn_narg : Z }.

Section eip.
Context (stabs : list Stab) (stabstr stabstr_end : Z).

(** [while (lline >= lfile && ...) lline--], [k] being [lline - lfile + 1]. *)
Fixpoint file_of_line (k : nat) (lline : Z) : M mem Z :=
  match k with
  | O => mret lline
  | S k =>
      x ← stab_at stabs lline;
      if negb (n_type x =? N_SOL) && (negb (n_type x =? N_SO) || (n_value x =? 0))
      then file_of_line k (lline - 1) else mret lline
  end.

(** The number of parameter stabs from [lline] on, before [lline + k]. *)
Fixpoint count_args (k : nat) (lline : Z) : M mem Z :=
  match k with
  | O => mret 0
  | S k =>
      x ← stab_at stabs lline;
      if n_type x =? N_PSYM then n ← count_args k (lline + 1); mret (n + 1) else mret 0
  end.

(** The name at an offset of the string table, when it is in bounds. *)
Definition name_at (x : Stab) (old : option Z) : option Z :=
  if n_strx x <? stabstr_end - stabstr then Some (stabstr + n_strx x) else old.

(** [strfind(name, ':') - name]. *)
Definition name_len (fuel : nat) (name : option Z) : M mem Z := fun m =>
  match name with
  | None => Ok 9 m
  | Some p => match strfind fuel m p 58 with Some q => Ok (q - p) m | None => NoFuel end
  end.

(** The value returned and [*info]; [fuel] bounds the searches and the names. *)
Definition debuginfo_eip (fuel : nat) (addr : Z) : M mem (Z * Eipdebuginfo) :=
  let info := MkInfo None 0 None 9 addr 0 in
  if negb (ULIM <=? addr) then panic "User address"
  else
    last ← gets (fun m => load8 m (stabstr_end - 1));
    if (stabstr_end <=? stabstr) || negb (last =? 0) then mret (-1, info)
    else
      file ← stab_binsearch stabs fuel 0 (Z.of_nat (length stabs) - 1) N_SO addr;
      let '(lfile, rfile) := file in
      if lfile =? 0 then mret (-1, info)
      else
        fn ← stab_binsearch stabs fuel lfile rfile N_FUN addr;
        let '(lfun, rfun) := fn in
        a ← (if lfun <=? rfun then
               x ← stab_at stabs lfun;
               mret (name_at x None, n_value x, lfun)
             else mret (None, addr, lfile));
        let '(name, fn_addr, lline) := a in
        len ← name_len fuel name;
        lline ← file_of_line (Z.to_nat (lline - lfile + 1)) lline;
        f ← (if lfile <=? lline then x ← stab_at stabs lline; mret (name_at x None) else mret None);
        narg ← (if lfun <? rfun then count_args (Z.to_nat (rfun - (lfun + 1))) (lfun + 1) else mret 0);
        mret (0, MkInfo f 0 name len fn_addr narg).
End eip.

(** ** The search is correct *)

Section spec.
Context {S' : Type} (stabs : list Stab) (type L R : Z).
Hypothesis HL : 0 <= L.
Hypothesis HR : R < Z.of_nat (length stabs) < 2 ^ 30.

(** The stabs of the right type in the range. *)
Definition hit (i v : Z) : Prop := L <= i <= R /\ exists x, stab_get stabs i = Some x /\ n_type x = type /\ n_value x = v.

Lemma stab_in i : L <= i <= R -> exists x, stab_get stabs i = Some x.
Proof.
  intros Hi. unfold stab_get. rewrite (proj2 (Z.leb_le 0 i)) by lia. apply lookup_lt_is_Some. lia.
Qed.

Lemma wp_stab_at i x (s : S') Q : stab_get stabs i = Some x -> Q x s -> wp (stab_at stabs i) Q s.
Proof. intros E HQ. unfold wp, stab_at. by rewrite E. Qed.

(** The scan finds the last stab of the type that is not after [m]. *)
Lemma wp_back_to k m (s : S') :
  L <= m - Z.of_nat k + 1 -> m <= R ->
  wp (back_to stabs k type m) (fun i s' => s' = s /\ m - Z.of_nat k <= i <= m /\
    (forall j v, i < j <= m -> ~ hit j v) /\ (m - Z.of_nat k < i -> exists v, hit i v)) s.
Proof.
  revert m. induction k as [|k IH]; intros m Hl Hr; cbn [back_to].
  { apply wp_ret. split_and!; try lia; done || (intros; lia). }
  destruct (stab_in m) as [x Hx]; [lia|]. apply wp_bind, (wp_stab_at _ x); [done|].
  destruct (Z.eqb_spec (n_type x) type) as [E|E].
  - apply wp_ret. split_and!; try lia; [done|]. intros _. exists (n_value x). split; [lia|]. by exists x.
  - eapply wp_mono; [apply IH; lia|]. intros i s' (-> & Hi & Hno & Hyes). split_and!; try lia; [done| |].
    + intros j v Hj [_ (y & Hy & Hyt & Hyv)]. destruct (decide (j = m)) as [->|]; [congruence|].
      apply (Hno j v); [lia|]. split; [lia|]. by exists y.
    + intros Hlt. apply Hyes. lia.
Qed.

Context (addr : Z).
Hypothesis Haddr : 0 <= addr < 2 ^ 32 - 1.
Hypothesis Hsorted : forall i j v w, hit i v -> hit j w -> i <= j -> v <= w.
(** The next address is not that of another symbol, see [stab_binsearch_skips]. *)
Hypothesis Hnext : forall i, ~ hit i (addr + 1).

(** The loop invariant: [a] is the current address. *)
Record inv (l r rl rr : Z) (any : bool) (a : Z) : Prop := Inv {
  iv_a : a = addr \/ a = addr + 1;
  iv_r : r = rr /\ rr <= R /\ L <= l;
  iv_low i v : hit i v -> i < l -> v <= addr;
  iv_high i v : hit i v -> rr < i -> addr < v;
  iv_rr : rr = R \/ exists v, hit (rr + 1) v;
  iv_rl : (rl = L /\ forall i v, hit i v -> i < l -> False) \/
    ((exists v, hit rl v /\ v <= addr) /\ rl <= l /\ forall i v, hit i v -> rl < i < l -> False);
  iv_some : any = true -> exists i v, hit i v;
  iv_any : any = false -> rl = L /\ rr = R /\ forall i v, hit i v -> i < l -> False }.

(** Iterations left: an exact match is visited twice. *)
Definition todo (l r a : Z) : Z :=
  2 * (r - l + 1) - match stab_get stabs l with
                    | Some x => if (n_type x =? type) && (n_value x <? a) then 1 else 0
                    | None => 0
                    end.

Lemma hit_val i v x : hit i v -> stab_get stabs i = Some x -> n_type x = type /\ n_value x = v.
Proof. intros [_ (y & Hy & ? & ?)] Hx. by simplify_eq. Qed.

(** Nothing of the type in the lower half. *)
Lemma inv_none l r rl rr any a m :
  inv l r rl rr any a -> l <= m + 1 -> (forall j v, l <= j <= m -> ~ hit j v) -> inv (m + 1) r rl rr any a.
Proof.
  intros [Ha Hr Hlow Hhigh Hrr Hrl Hsome Hany] Hm Hno.
  assert (forall i v, hit i v -> i < m + 1 -> i < l) as Hin.
  { intros i v Hi Hlt. destruct (decide (i < l)); [done|]. destruct (Hno i v); [lia|done]. }
  constructor; try done.
  - lia.
  - intros i v Hi Hlt. eapply Hlow; eauto.
  - destruct Hrl as [[-> Hn]|(Hv & Hl' & Hn)]; [left|right].
    + split; [done|]. intros i v Hi Hlt. eapply Hn; eauto.
    + split; [done|]. split; [lia|]. intros i v Hi Hlt. apply (Hn i v Hi). pose proof (Hin i v Hi). lia.
  - intros E. destruct (Hany E) as (-> & -> & Hn). split_and!; try done. intros i v Hi Hlt. eapply Hn; eauto.
Qed.

(** The stab found is not after the address: go on in the upper half. *)
Lemma inv_low l r rl rr any a a' l' m v :
  inv l r rl rr any a -> a' = addr \/ a' = addr + 1 -> l <= m -> hit m v -> v <= addr -> m <= l' ->
  (forall j w, m < j < l' -> ~ hit j w) -> inv l' r m rr true a'.
Proof.
  intros [Ha Hr Hlow Hhigh Hrr Hrl Hsome Hany] Ha' Hm Hv Hva Hml Hno. constructor; try done.
  - lia.
  - intros i w Hi Hlt. destruct (decide (i <= m)) as [Hle|Hgt]; [pose proof (Hsorted i m w v Hi Hv Hle); lia|].
    destruct (Hno i w); [lia|done].
  - right. split; [by exists v|]. split; [done|]. intros i w Hi Hlt. by apply (Hno i w).
  - intros _. by exists m, v.
Qed.

(** It is after the address: go on in the lower half. *)
Lemma inv_high l r rl rr any a m v :
  inv l r rl rr any a -> l <= m -> hit m v -> addr < v -> inv l (m - 1) rl (m - 1) true a.
Proof.
  intros [Ha Hr Hlow Hhigh Hrr Hrl Hsome Hany] Hm Hv Hva. constructor; try done.
  - destruct Hv as [? _]. lia.
  - intros i w Hi Hlt. pose proof (Hsorted m i v w Hv Hi). lia.
  - right. exists v. by replace (m - 1 + 1) with m by lia.
  - intros _. by exists m, v.
Qed.

Lemma todo_bound l r a : 2 * (r - l) + 1 <= todo l r a <= 2 * (r - l + 1).
Proof. unfold todo. destruct (stab_get stabs l) as [x|]; [destruct (_ && _)|]; lia. Qed.

Lemma wp_binsearch_loop fuel l r rl rr any a (s : S') :
  inv l r rl rr any a -> todo l r a <= Z.of_nat fuel ->
  wp (binsearch_loop stabs fuel l r rl rr any type a) (fun o s' => s' = s /\
    exists l' a', inv l' o.1.2 o.1.1 o.1.2 o.2 a' /\ o.1.2 < l') s.
Proof.
  revert l r rl rr any a. induction fuel as [|fuel IH]; intros l r rl rr any a Hi Hf; cbn [binsearch_loop];
    destruct (Z.leb_spec l r) as [Hlr|Hlr].
  1: pose proof (todo_bound l r a); lia.
  1,3: destruct (iv_r _ _ _ _ _ _ Hi) as (-> & _ & _); apply wp_ret; split; [done|by exists l, a].
  destruct (iv_r _ _ _ _ _ _ Hi) as (Er & HrR & HlL). set (tm := Z.quot (i32 (l + r)) 2).
  assert (l <= tm <= r) as Htm.
  { unfold tm. rewrite i32_small, Z.quot_div_nonneg by lia. dlia. }
  apply wp_bind. eapply wp_mono; [apply wp_back_to; lia|]. intros m s' (-> & Hm & Hno & Hyes).
  rewrite Z2Nat.id in Hm, Hyes by lia. pose proof (todo_bound l r a). 
  destruct (Z.ltb_spec m l) as [Hml|Hml].
  { apply IH; [apply (inv_none l); [done|lia|intros j v Hj; apply Hno; lia]|].
    pose proof (todo_bound (tm + 1) r a). lia. }
  destruct Hyes as [v Hv]; [lia|]. destruct (stab_in m) as [x Hx]; [lia|].
  destruct (hit_val _ _ _ Hv Hx) as [Ht Hxv]. apply wp_bind, (wp_stab_at _ x); [done|]. rewrite Hxv.
  pose proof (iv_a _ _ _ _ _ _ Hi) as Ha. destruct (Z.ltb_spec v a) as [Hva|Hva].
  { apply IH; [apply (inv_low l r rl rr any a a _ m v); try done; try lia; intros j w Hj; apply Hno; lia|].
    pose proof (todo_bound (tm + 1) r a). lia. }
  destruct (Z.ltb_spec a v) as [Hav|Hav].
  { apply IH; [apply (inv_high l r rl rr any a m v); try done; lia|].
    pose proof (todo_bound l (m - 1) a). lia. }
  assert (a = addr) as -> by (destruct Ha as [Ha|Ha]; [done|]; destruct (Hnext m); by replace (addr + 1) with v by lia).
  rewrite u32_small by lia.
  apply IH; [apply (inv_low l r rl rr any addr (addr + 1) m m v); try done; try lia; auto; intros; lia|].
  assert (todo m r (addr + 1) = 2 * (r - m + 1) - 1) as ->.
  { unfold todo. rewrite Hx, Ht, Hxv, Z.eqb_refl. by rewrite (proj2 (Z.ltb_lt _ _)) by lia. }
  destruct (decide (m = l)) as [->|]; [|lia]. unfold todo in Hf. rewrite Hx, Ht, Hxv, Z.eqb_refl in Hf.
  rewrite (proj2 (Z.ltb_ge v addr)) in Hf by lia. simpl in Hf. lia.
Qed.

Lemma inv_start : L <= R + 1 -> inv L R L R false addr.
Proof.
  intros HLR. assert (forall i v, hit i v -> i < L -> False) as H0 by (intros i v [? _] ?; lia).
  constructor; eauto; try lia.
  - intros i v Hi ?. by destruct (H0 i v).
  - intros i v [? _] ?. lia.
Qed.

(** [stab_binsearch] terminates and, when some stab of the type is not after the
    address, returns the last such stab as the left end, and as the right end the
    index before the first stab of the type after the address, or the end of the
    range; when the range has no stab of the type the two ends are crossed.  The
    stabs of the type must be in order of their values, with none at the address
    that follows. *)
Theorem stab_binsearch_spec fuel (s : S') :
  L <= R + 1 -> 2 * (R - L + 1) <= Z.of_nat fuel ->
  ((forall i v, ~ hit i v) -> stab_binsearch stabs fuel L R type addr s = Ok (L, L - 1) s) /\
  ((exists i v, hit i v /\ v <= addr) -> exists rl rr, stab_binsearch stabs fuel L R type addr s = Ok (rl, rr) s /\
    rl <= rr <= R /\ (exists v, hit rl v /\ v <= addr) /\
    (forall i v, hit i v -> v <= addr -> i <= rl) /\
    (forall i v, hit i v -> addr < v -> rr < i) /\ (rr = R \/ exists v, hit (rr + 1) v /\ addr < v)).
Proof.
  intros HLR Hf. pose proof (todo_bound L R addr) as Ht.
  pose proof (wp_binsearch_loop fuel L R L R false addr s (inv_start HLR) ltac:(lia)) as Hw.
  apply wp_Ok in Hw as ([[rl rr] any] & s1 & E & -> & l' & a' & Hi & Hlt). cbn [fst snd] in *.
  destruct (iv_r _ _ _ _ _ _ Hi) as (_ & HrR & _). unfold stab_binsearch. rewrite (run_bind _ _ _ _ _ E). split.
  - intros Hno. destruct any; [|by destruct (iv_any _ _ _ _ _ _ Hi eq_refl) as (-> & _)].
    destruct (iv_some _ _ _ _ _ _ Hi eq_refl) as (i & v & Hv). by destruct (Hno i v).
  - intros (i0 & v0 & H0 & Hv0).
    assert (i0 <= rr) as Hi0 by (destruct (decide (rr < i0)) as [Hd|]; [pose proof (iv_high _ _ _ _ _ _ Hi i0 v0 H0 Hd)|]; lia).
    destruct any; [|destruct (iv_any _ _ _ _ _ _ Hi eq_refl) as (_ & _ & Hn); destruct (Hn i0 v0 H0); lia].
    destruct (iv_rl _ _ _ _ _ _ Hi) as [[_ Hn]|((v & Hv & Hva) & Hle & Hn)]; [destruct (Hn i0 v0 H0); lia|].
    assert (rl <= rr) as Hrr by (destruct (decide (rr < rl)) as [Hd|]; [pose proof (iv_high _ _ _ _ _ _ Hi rl v Hv Hd)|]; lia).
    pose proof (proj1 Hv) as HrL. cbn [negb].
    pose proof (wp_back_to (Z.to_nat (rr - rl)) rr s ltac:(lia) ltac:(lia)) as Hb.
    apply wp_Ok in Hb as (k & s2 & Eb & -> & Hk & _ & Hyes). rewrite Z2Nat.id in Hk, Hyes by lia.
    assert (k = rl) as ->.
    { destruct (decide (rl < k)) as [Hd|]; [|lia]. destruct Hyes as [w Hw']; [lia|]. destruct (Hn k w Hw'); lia. }
    exists rl, rr. rewrite (run_bind _ _ _ _ _ Eb). split_and!; try done.
    + by exists v.
    + intros i w Hw' Hwa. destruct (decide (rl < i)) as [Hd|]; [|lia]. destruct (decide (i < l')); [by destruct (Hn i w Hw')|].
      pose proof (iv_high _ _ _ _ _ _ Hi i w Hw'). lia.
    + intros i w Hw' Hwa. destruct (decide (rr < i)); [done|]. pose proof (iv_low _ _ _ _ _ _ Hi i w Hw'). lia.
    + destruct (iv_rr _ _ _ _ _ _ Hi) as [->|[w Hw']]; [by left|right]. exists w. split; [done|].
      apply (iv_high _ _ _ _ _ _ Hi (rr + 1) w Hw'). lia.
Qed.
End spec.

(** The example in the comment of the source. *)
Definition doc_stabs : list Stab :=
  (fun i => match i with
            | 0%nat => MkStab 0 N_SO 0 0 0xf0100000 | 13%nat => MkStab 0 N_SO 0 0 0xf0100040
            | 117%nat => MkStab 0 N_SO 0 0 0xf0100176 | 118%nat => MkStab 0 N_SO 0 0 0xf0100178
            | 555%nat => MkStab 0 N_SO 0 0 0xf0100652 | 556%nat => MkStab 0 N_SO 0 0 0xf0100654
            | 657%nat => MkStab 0 N_SO 0 0 0xf0100849 | _ => MkStab 0 N_FUN 0 0 0
            end) <$> seq 0 658.

Example doc_search : stab_binsearch doc_stabs 1316 0 657 N_SO 0xf0100184 tt = Ok (118, 554) tt.
Proof. vm_compute. reflexivity. Qed.

(** Of two symbols at consecutive addresses the search for the first finds the
    second: the address is incremented after an exact match, and may then match
    again. *)
Lemma stab_binsearch_skips :
  stab_binsearch [MkStab 0 N_FUN 0 0 5; MkStab 0 N_FUN 0 0 6] 4 0 1 N_FUN 5 tt = Ok (1, 1) tt.
Proof. reflexivity. Qed.

Definition ex_stabs : list Stab :=
  [MkStab 0 N_SO 0 0 100; MkStab 0 N_FUN 0 0 100; MkStab 0 N_PSYM 0 0 8; MkStab 0 N_FUN 0 0 120;
   MkStab 0 N_SOL 0 0 130; MkStab 0 N_FUN 0 0 140].

Lemma ex_hit i v : hit ex_stabs N_FUN 0 5 i v -> i = 1 /\ v = 100 \/ i = 3 /\ v = 120 \/ i = 5 /\ v = 140.
Proof.
  intros [Hi (x & Hx & Ht & Hv)].
  assert (i = 0 \/ i = 1 \/ i = 2 \/ i = 3 \/ i = 4 \/ i = 5) as Hc by lia.
  destruct Hc as [->|[->|[->|[->|[->| ->]]]]]; vm_compute in Hx; injection Hx as <-; vm_compute in Ht, Hv;
    try discriminate; subst v; tauto.
Qed.

Lemma stab_binsearch_spec_witness :
  exists rr, stab_binsearch ex_stabs 12 0 5 N_FUN 120 tt = Ok (3, rr) tt /\ 3 <= rr <= 5.
Proof.
  assert (hit ex_stabs N_FUN 0 5 3 120) as H3 by (split; [lia|]; eexists; split; [reflexivity|split; reflexivity]).
  destruct (stab_binsearch_spec ex_stabs N_FUN 0 5 (Z.le_refl 0) ltac:(split; reflexivity) 120 ltac:(lia)
    ltac:(intros i j v w [[-> ->]|[[-> ->]|[-> ->]]]%ex_hit [[-> ->]|[[-> ->]|[-> ->]]]%ex_hit; lia)
    ltac:(intros i [[_ E]|[[_ E]|[_ E]]]%ex_hit; discriminate) 12 tt ltac:(lia) ltac:(simpl; lia))
    as [_ (rl & rr & E & Hr & (v & Hv & Hva) & Hmax & _)]; [by exists 3, 120|].
  exists rr. pose proof (Hmax 3 120 H3 (Z.le_refl _)) as H.
  assert (rl = 3) as -> by (apply ex_hit in Hv as [[-> ->]|[[-> ->]|[-> ->]]]; lia).
  split; [exact E|exact Hr].
Defined.
