(* ===== verification/JosConsole.v ===== *)
(** * The JOS console (lab3/kern/console.c)

    The display, the keyboard and the input buffer of the console.  The devices
    behind the ports are an interface, the class [Ports].  The display memory is
    the list of its cells; a store outside of it is a fault. *)

From S2P Require Import Prelude CMem.
From stdpp Require Import base numbers option list gmap strings.
Open Scope Z_scope.

Definition MONO_BASE : Z := 0x3B4.
Definition CGA_BASE : Z := 0x3D4.
Definition CRT_ROWS : nat := 25.
Definition CRT_COLS : nat := 80.
Definition CRT_SIZE : nat := 2000.
Definition CONSBUFSIZE : nat := 512.

Definition COM1 : Z := 0x3F8.
Definition COM_RX : Z := 0.
Definition COM_TX : Z := 0.
Definition COM_DLL : Z := 0.
Definition COM_DLM : Z := 1.
Definition COM_IER : Z := 1.
Definition COM_IER_RDI : Z := 0x01.
Definition COM_IIR : Z := 2.
Definition COM_FCR : Z := 2.
Definition COM_LCR : Z := 3.
Definition COM_LCR_DLAB : Z := 0x80.
Definition COM_LCR_WLEN8 : Z := 0x03.
Definition COM_MCR : Z := 4.
Definition COM_LSR : Z := 5.
Definition COM_LSR_DATA : Z := 0x01.
Definition COM_LSR_TXRDY : Z := 0x20.
Definition KBSTATP : Z := 0x64.
Definition KBS_DIB : Z := 0x01.
Definition KBS_TERR : Z := 0x20.
Definition KBDATAP : Z := 0x60.

(** The devices: a read may change their state, and a byte is read. *)
Class Ports (D : Type) := {
  port_in : Z -> D -> Z * D;
  port_out : Z -> Z -> D -> D;
  port_in_byte : forall p d, 0 <= (port_in p d).1 < 2 ^ 8 }.

Record cst (D : Type) : Type := MkCst {
  addr_6845 : Z; crt_buf : list Z; crt_pos : Z; shift : Z; serial_exists : bool;
  cons_buf : list Z; rpos : Z; wpos : Z; dev_state : D }.
Arguments MkCst {D}. Arguments addr_6845 {D}. Arguments crt_buf {D}. Arguments crt_pos {D}. Arguments shift {D}.
Arguments serial_exists {D}. Arguments cons_buf {D}. Arguments rpos {D}. Arguments wpos {D}. Arguments dev_state {D}.

(** ** The key maps *)

Definition SHIFT : Z := 1.
Definition CTL : Z := 2.
Definition ALT : Z := 4.
Definition CAPSLOCK : Z := 8.
Definition NUMLOCK : Z := 16.
Definition SCROLLLOCK : Z := 32.
Definition E0ESC : Z := 64.

Definition KEY_HOME : Z := 0xE0.
Definition KEY_END : Z := 0xE1.
Definition KEY_UP : Z := 0xE2.
Definition KEY_DN : Z := 0xE3.
Definition KEY_LF : Z := 0xE4.
Definition KEY_RT : Z := 0xE5.
Definition KEY_PGUP : Z := 0xE6.
Definition KEY_PGDN : Z := 0xE7.
Definition KEY_INS : Z := 0xE8.
Definition KEY_DEL : Z := 0xE9.

(** A table of 256 bytes: its first entries, and those given by index. *)
Definition table (l : list Z) (at_ : list (nat * Z)) : list Z :=
  foldr (fun e t => <[e.1 := e.2]> t) (l ++ replicate (256 - length l) 0) at_.
Definition entry (t : list Z) (i : Z) : Z := default 0 (t !! Z.to_nat i).

Definition shiftcode : list Z :=
  table [] [(0x1D%nat, CTL); (0x2A%nat, SHIFT); (0x36%nat, SHIFT); (0x38%nat, ALT); (0x9D%nat, CTL); (0xB8%nat, ALT)].
Definition togglecode : list Z := table [] [(0x3A%nat, CAPSLOCK); (0x45%nat, NUMLOCK); (0x46%nat, SCROLLLOCK)].

Definition arrows : list (nat * Z) :=
  [(0xC8%nat, KEY_UP); (0xC9%nat, KEY_PGUP); (0xCB%nat, KEY_LF); (0xCD%nat, KEY_RT); (0xCF%nat, KEY_END);
   (0xD0%nat, KEY_DN); (0xD1%nat, KEY_PGDN); (0xD2%nat, KEY_INS); (0xD3%nat, KEY_DEL)].

(** The keypad, 0x47 to 0x53. *)
Definition keypad : list Z := zs "789-456+1230.".

Definition normalmap : list Z :=
  table ([0; 0x1B] ++ zs "1234567890-=" ++ [8; 9] ++ zs "qwertyuiop[]" ++ [10; 0] ++ zs "asdfghjkl;" ++ [39] ++ zs "`" ++
         [0; 92] ++ zs "zxcvbnm,./" ++ [0] ++ zs "*" ++ [0; 32] ++ replicate 13 0 ++ keypad)
    ((0xC7%nat, KEY_HOME) :: (0x9C%nat, 10) :: (0xB5%nat, 47) :: arrows).
Definition shiftmap : list Z :=
  table ([0; 27] ++ zs "!@#$%^&*()_+" ++ [8; 9] ++ zs "QWERTYUIOP{}" ++ [10; 0] ++ zs "ASDFGHJKL:" ++ [34] ++ zs "~" ++
         [0] ++ zs "|ZXCVBNM<>?" ++ [0] ++ zs "*" ++ [0; 32] ++ replicate 13 0 ++ keypad)
    ((0xC7%nat, KEY_HOME) :: (0x9C%nat, 10) :: (0xB5%nat, 47) :: arrows).

(** [C(x)] of a string of letters. *)
Definition ctl (l : list Z) : list Z := (fun x => u8 (x - 64)) <$> l.
Definition ctlmap : list Z :=
  table (replicate 16 0 ++ ctl (zs "QWERTYUIOP") ++ [0; 0; 13; 0] ++ ctl (zs "ASDFGHJKL") ++ [0; 0; 0; 0] ++ ctl [92] ++
         ctl (zs "ZXCVBNM") ++ [0; 0] ++ ctl (zs "/") ++ [0; 0])
    ((0x97%nat, KEY_HOME) :: (0xB5%nat, u8 (47 - 64)) :: arrows).

Definition charcode (i : Z) : list Z :=
  if i =? 0 then normalmap else if i =? 1 then shiftmap else ctlmap.

(** ** The devices *)

Section console.
Context {D : Type} `{PO : Ports D}.
Notation MC := (M (cst D)).

Definition set_dev (d : D) (s : cst D) : cst D :=
  MkCst (addr_6845 s) (crt_buf s) (crt_pos s) (shift s) (serial_exists s) (cons_buf s) (rpos s) (wpos s) d.
Definition set_crt (b : list Z) (p : Z) (s : cst D) : cst D :=
  MkCst (addr_6845 s) b p (shift s) (serial_exists s) (cons_buf s) (rpos s) (wpos s) (dev_state s).
Definition set_shift (n : Z) (s : cst D) : cst D :=
  MkCst (addr_6845 s) (crt_buf s) (crt_pos s) n (serial_exists s) (cons_buf s) (rpos s) (wpos s) (dev_state s).
Definition set_ring (b : list Z) (r w : Z) (s : cst D) : cst D :=
  MkCst (addr_6845 s) (crt_buf s) (crt_pos s) (shift s) (serial_exists s) b r w (dev_state s).
Definition set_serial (b : bool) (s : cst D) : cst D :=
  MkCst (addr_6845 s) (crt_buf s) (crt_pos s) (shift s) b (cons_buf s) (rpos s) (wpos s) (dev_state s).
Definition set_6845 (a : Z) (s : cst D) : cst D :=
  MkCst a (crt_buf s) (crt_pos s) (shift s) (serial_exists s) (cons_buf s) (rpos s) (wpos s) (dev_state s).

Definition inb (p : Z) : MC Z := fun s => let '(v, d) := port_in p (dev_state s) in Ok v (set_dev d s).
Definition outb (p v : Z) : MC unit := modify (fun s => set_dev (port_out p (u8 v) (dev_state s)) s).

Definition delay : MC unit := inb 0x84;; inb 0x84;; inb 0x84;; inb 0x84;; mret tt.

(** ** Serial line and parallel port *)

Definition serial_proc_data : MC Z :=
  st ← inb (COM1 + COM_LSR);
  if Z.land st COM_LSR_DATA =? 0 then mret (-1) else inb (COM1 + COM_RX).

(** [for (i = 0; !(inb(port) & mask) && i < 12800; i++) delay()], [n] times at most. *)
Fixpoint wait_ready (n : nat) (port mask : Z) : MC unit :=
  st ← inb port;
  if Z.land st mask =? 0
  then match n with O => mret tt | S n => delay;; wait_ready n port mask end
  else mret tt.

Definition serial_putc (c : Z) : MC unit :=
  wait_ready (Z.to_nat 12800) (COM1 + COM_LSR) COM_LSR_TXRDY;;
  outb (COM1 + COM_TX) c.

Definition serial_init : MC unit :=
  outb (COM1 + COM_FCR) 0;;
  outb (COM1 + COM_LCR) COM_LCR_DLAB;;
  outb (COM1 + COM_DLL) (115200 / 9600);;
  outb (COM1 + COM_DLM) 0;;
  outb (COM1 + COM_LCR) (Z.land COM_LCR_WLEN8 (Z.lnot COM_LCR_DLAB));;
  outb (COM1 + COM_MCR) 0;;
  outb (COM1 + COM_IER) COM_IER_RDI;;
  st ← inb (COM1 + COM_LSR);
  modify (set_serial (negb (st =? 0xFF)));;
  inb (COM1 + COM_IIR);;
  inb (COM1 + COM_RX);;
  mret tt.

Definition lpt_putc (c : Z) : MC unit :=
  wait_ready (Z.to_nat 12800) (0x378 + 1) 0x80;;
  outb 0x378 c;;
  outb (0x378 + 2) 0x0D;;
  outb (0x378 + 2) 0x08.

(** ** The display *)

(** [cga] tells whether the colour display answers; [cells] is what the display
    memory holds. *)
Definition cga_init (cga : bool) (cells : list Z) : MC unit :=
  modify (set_6845 (if cga then CGA_BASE else MONO_BASE));;
  a ← gets addr_6845;
  outb a 14;;
  hi ← inb (a + 1);
  outb a 15;;
  lo ← inb (a + 1);
  modify (set_crt cells (u16 (Z.lor (Z.shiftl hi 8) lo))).

(** [crt_buf[i] = v]. *)
Definition crt_store (i v : Z) : MC unit := fun s =>
  if (0 <=? i) && (i <? Z.of_nat (length (crt_buf s)))
  then Ok tt (set_crt (<[Z.to_nat i := u16 v]> (crt_buf s)) (crt_pos s) s)
  else Panic "crt_buf: out of range" s.
Definition set_pos (p : Z) : MC unit := modify (fun s => set_crt (crt_buf s) (u16 p) s).

Definition BLANK : Z := 0x0720.

(** The last lines move up by one, and a blank one follows. *)
Definition scroll : MC unit :=
  p ← gets crt_pos;
  if Z.of_nat CRT_SIZE <=? p then
    modify (fun s => set_crt (take (CRT_SIZE - CRT_COLS) (drop CRT_COLS (crt_buf s)) ++ drop (CRT_SIZE - CRT_COLS) (crt_buf s))
                       (crt_pos s) s);;
    for_each (seq (CRT_SIZE - CRT_COLS) CRT_COLS) (fun i => crt_store (Z.of_nat i) BLANK);;
    set_pos (p - Z.of_nat CRT_COLS)
  else mret tt.

Definition show_cursor : MC unit :=
  a ← gets addr_6845;
  p ← gets crt_pos;
  outb a 14;;
  outb (a + 1) (Z.shiftr p 8);;
  outb a 15;;
  outb (a + 1) p.

(** [cga_putc]; [tab] is [cons_putc(' ')]. *)
Definition cga_putc_with (tab : MC unit) (c : Z) : MC unit :=
  let c := if Z.land c (Z.lnot 0xFF) =? 0 then Z.lor c 0x0700 else c in
  let ch := Z.land c 0xFF in
  p ← gets crt_pos;
  (if ch =? 8 then
     if 0 <? p then set_pos (p - 1);; crt_store (p - 1) (Z.lor (Z.land c (Z.lnot 0xFF)) 32) else mret tt
   else if ch =? 10 then
     set_pos (p + Z.of_nat CRT_COLS);;
     q ← gets crt_pos;
     set_pos (q - q mod Z.of_nat CRT_COLS)
   else if ch =? 13 then set_pos (p - p mod Z.of_nat CRT_COLS)
   else if ch =? 9 then tab;; tab;; tab;; tab;; tab
   else crt_store p c;; set_pos (p + 1));;
  scroll;;
  show_cursor.

(** [cons_putc] and [cga_putc] call each other for a tab; a space is no tab, so
    the depth is two. *)
Fixpoint cons_putc_depth (d : nat) (c : Z) : MC unit :=
  serial_putc c;;
  lpt_putc c;;
  cga_putc_with (match d with O => no_fuel | S d => cons_putc_depth d 32 end) c.
Definition cons_putc (c : Z) : MC unit := cons_putc_depth 1 c.
Definition cga_putc (c : Z) : MC unit := cga_putc_with (cons_putc 32) c.

(** ** The keyboard *)

(** The character for a byte of the keyboard and the new shift state. *)
Definition kbd_decode (shift data : Z) : Z * Z :=
  if data =? 0xE0 then (0, Z.lor shift E0ESC)
  else if negb (Z.land data 0x80 =? 0) then
    let data := if negb (Z.land shift E0ESC =? 0) then data else Z.land data 0x7F in
    (0, Z.land shift (Z.lnot (Z.lor (entry shiftcode data) E0ESC)))
  else
    let '(data, shift) :=
      if negb (Z.land shift E0ESC =? 0) then (Z.lor data 0x80, Z.land shift (Z.lnot E0ESC)) else (data, shift) in
    let shift := Z.lor shift (entry shiftcode data) in
    let shift := Z.lxor shift (entry togglecode data) in
    let c := entry (charcode (Z.land shift (Z.lor CTL SHIFT))) data in
    let c :=
      if negb (Z.land shift CAPSLOCK =? 0) then
        if (97 <=? c) && (c <=? 122) then c + (65 - 97)
        else if (65 <=? c) && (c <=? 90) then c + (97 - 65) else c
      else c in
    (c, shift).

(** [cprintf("Rebooting!\n")], one character at a time. *)
Definition reboot : MC unit :=
  for_each (zs "Rebooting!" ++ [10]) cons_putc;;
  outb 0x92 0x3.

Definition kbd_proc_data : MC Z :=
  st ← inb KBSTATP;
  if Z.land st KBS_DIB =? 0 then mret (-1)
  else if negb (Z.land st KBS_TERR =? 0) then mret (-1)
  else
    data ← inb KBDATAP;
    sh ← gets shift;
    let '(c, sh') := kbd_decode sh data in
    modify (set_shift sh');;
    (if (Z.land (Z.lnot sh') (Z.lor CTL ALT) =? 0) && (c =? KEY_DEL) then reboot else mret tt);;
    mret c.

(** ** The input buffer *)

(** One character into the ring. *)
Definition cons_put (c : Z) : MC unit := fun s =>
  if (0 <=? wpos s) && (wpos s <? Z.of_nat (length (cons_buf s))) then
    let w := u32 (wpos s + 1) in
    Ok tt (set_ring (<[Z.to_nat (wpos s) := u8 c]> (cons_buf s)) (rpos s)
             (if w =? Z.of_nat CONSBUFSIZE then 0 else w) s)
  else Panic "cons.buf: out of range" s.

(** [while ((c = proc()) != -1)], [n] characters at most. *)
Fixpoint cons_intr (n : nat) (proc : MC Z) : MC unit :=
  c ← proc;
  if c =? -1 then mret tt
  else
    (if c =? 0 then mret tt else cons_put c);;
    match n with O => no_fuel | S n => cons_intr n proc end.

Definition serial_intr (n : nat) : MC unit :=
  e ← gets serial_exists;
  if (e : bool) then cons_intr n serial_proc_data else mret tt.
Definition kbd_intr (n : nat) : MC unit := cons_intr n kbd_proc_data.

(** The next character of the ring, or 0. *)
Definition cons_take : MC Z := fun s =>
  if rpos s =? wpos s then Ok 0 s
  else match cons_buf s !! Z.to_nat (rpos s) with
       | Some c =>
           let r := u32 (rpos s + 1) in
           Ok c (set_ring (cons_buf s) (if r =? Z.of_nat CONSBUFSIZE then 0 else r) (wpos s) s)
       | None => Panic "cons.buf: out of range" s
       end.

Definition cons_getc (n : nat) : MC Z :=
  serial_intr n;;
  kbd_intr n;;
  cons_take.

Definition cons_init (cga : bool) (cells : list Z) : MC unit :=
  cga_init cga cells;;
  serial_init;;
  e ← gets serial_exists;
  if negb e then for_each (zs "Serial port does not exist!" ++ [10]) cons_putc else mret tt.
End console.

(** ** The display shows the end of the paper *)

(** A printing terminal: all the cells ever printed, the first one on the
    display, and the cursor. *)
Record term : Type := MkTerm { t_cells : list Z; t_top : Z; t_cur : Z }.

Definition term_scroll (t : term) : term :=
  if t_top t + Z.of_nat CRT_SIZE <=? t_cur t
  then MkTerm (t_cells t ++ replicate CRT_COLS BLANK) (t_top t + Z.of_nat CRT_COLS) (t_cur t) else t.

Definition term_char (c : Z) (t : term) : term :=
  let c := if Z.land c (Z.lnot 0xFF) =? 0 then Z.lor c 0x0700 else c in
  let ch := Z.land c 0xFF in
  if ch =? 8 then
    if t_top t <? t_cur t
    then MkTerm (<[Z.to_nat (t_cur t - 1) := u16 (Z.lor (Z.land c (Z.lnot 0xFF)) 32)]> (t_cells t)) (t_top t) (t_cur t - 1)
    else t
  else if ch =? 10 then
    term_scroll (MkTerm (t_cells t) (t_top t) (Z.of_nat CRT_COLS * (t_cur t / Z.of_nat CRT_COLS + 1)))
  else if ch =? 13 then MkTerm (t_cells t) (t_top t) (Z.of_nat CRT_COLS * (t_cur t / Z.of_nat CRT_COLS))
  else term_scroll (MkTerm (<[Z.to_nat (t_cur t) := u16 c]> (t_cells t)) (t_top t) (t_cur t + 1)).

Definition term_put (c : Z) (t : term) : term :=
  if Z.land c 0xFF =? 9 then Nat.iter 5 (term_char 32) t else term_char c t.

Section display.
Context {D : Type} `{PO : Ports D}.
Implicit Types s : cst D.

Record shows (t : term) s : Prop := Shows {
  sh_top : 0 <= t_top t /\ t_top t mod Z.of_nat CRT_COLS = 0;
  sh_len : Z.of_nat (length (t_cells t)) = t_top t + Z.of_nat CRT_SIZE;
  sh_cur : t_top t <= t_cur t < t_top t + Z.of_nat CRT_SIZE;
  sh_pos : crt_pos s = t_cur t - t_top t;
  sh_buf : crt_buf s = drop (Z.to_nat (t_top t)) (t_cells t) }.

(** What concerns the display only. *)
Definition crt_only s s' : Prop :=
  addr_6845 s' = addr_6845 s /\ shift s' = shift s /\ serial_exists s' = serial_exists s /\
  cons_buf s' = cons_buf s /\ rpos s' = rpos s /\ wpos s' = wpos s.
(** What concerns the devices only. *)
Definition dev_only s s' : Prop := exists d, s' = set_dev d s.

Lemma dev_only_refl s : dev_only s s.
Proof. exists (dev_state s). by destruct s. Qed.

Lemma dev_only_trans s s1 s2 : dev_only s s1 -> dev_only s1 s2 -> dev_only s s2.
Proof. intros [d ->] [e ->]. by exists e. Qed.

Lemma crt_only_trans s s1 s2 : crt_only s s1 -> crt_only s1 s2 -> crt_only s s2.
Proof. intros (?&?&?&?&?&?) (?&?&?&?&?&?). split_and!; congruence. Qed.

Lemma dev_crt_only s s' : dev_only s s' -> crt_only s s'.
Proof. by intros [d ->]. Qed.

Lemma shows_dev t s s' : shows t s -> dev_only s s' -> shows t s'.
Proof. intros [] [d ->]. by constructor. Qed.

Lemma wp_inb p s : wp (inb p) (fun v s' => 0 <= v < 2 ^ 8 /\ dev_only s s') s.
Proof.
  unfold wp, inb. pose proof (port_in_byte p (dev_state s)). destruct (port_in p (dev_state s)) as [v d].
  split; [done|]. by exists d.
Qed.

Lemma wp_outb p v s : wp (outb p v) (fun _ s' => dev_only s s') s.
Proof. by eexists. Qed.

Lemma wp_dev_bind {A B} (m : M (cst D) A) (f : A -> M (cst D) B) Q s :
  wp m (fun _ s' => dev_only s s') s -> (forall a s', dev_only s s' -> wp (f a) Q s') -> wp (m ≫= f) Q s.
Proof. intros Hm Hf. apply wp_bind. eapply wp_mono; [done|]. intros a s' H. by apply Hf. Qed.

Lemma wp_inb_dev p s : wp (inb p) (fun _ s' => dev_only s s') s.
Proof. eapply wp_mono; [apply wp_inb|]. by intros v s' []. Qed.

(** Two steps that touch the devices only. *)
Lemma wp_dev_seq {A B} (m : M (cst D) A) (f : A -> M (cst D) B) s :
  wp m (fun _ s' => dev_only s s') s ->
  (forall a s', wp (f a) (fun _ s'' => dev_only s' s'') s') -> wp (m ≫= f) (fun _ s' => dev_only s s') s.
Proof.
  intros Hm Hf. apply (wp_dev_bind _ _ _ _ Hm). intros a s' H. eapply wp_mono; [apply Hf|].
  intros b s''. by apply dev_only_trans.
Qed.

Lemma wp_delay s : wp delay (fun _ s' => dev_only s s') s.
Proof.
  unfold delay. repeat (apply wp_dev_seq; [apply wp_inb_dev|]; intros _ ?). apply wp_ret, dev_only_refl.
Qed.

Lemma wp_wait_ready n p k s : wp (wait_ready n p k) (fun _ s' => dev_only s s') s.
Proof.
  revert s. induction n as [|n IH]; intros s; cbn [wait_ready]; (apply wp_dev_seq; [apply wp_inb_dev|]; intros st s1);
    destruct (_ =? 0); try apply wp_ret, dev_only_refl.
  apply wp_dev_seq; [apply wp_delay|]. intros _ s2. apply IH.
Qed.

Lemma wp_serial_putc c s : wp (serial_putc c) (fun _ s' => dev_only s s') s.
Proof. apply wp_dev_seq; [apply wp_wait_ready|]. intros _ s1. apply wp_outb. Qed.

Lemma wp_lpt_putc c s : wp (lpt_putc c) (fun _ s' => dev_only s s') s.
Proof.
  unfold lpt_putc. apply wp_dev_seq; [apply wp_wait_ready|]. intros _ s1.
  repeat (apply wp_dev_seq; [apply wp_outb|]; intros _ ?). apply wp_outb.
Qed.

Lemma wp_show_cursor s : wp show_cursor (fun _ s' => dev_only s s') s.
Proof.
  unfold show_cursor. apply wp_bind, wp_gets, wp_bind, wp_gets.
  repeat (apply wp_dev_seq; [apply wp_outb|]; intros _ ?). apply wp_outb.
Qed.

Lemma wp_crt_store i v s :
  0 <= i < Z.of_nat (length (crt_buf s)) ->
  wp (crt_store i v) (fun _ s' => s' = set_crt (<[Z.to_nat i := u16 v]> (crt_buf s)) (crt_pos s) s) s.
Proof.
  intros Hi. unfold wp, crt_store.
  by rewrite (proj2 (Z.leb_le _ _)), (proj2 (Z.ltb_lt _ _)) by lia.
Qed.

(** The blank line. *)
Lemma wp_blank n k s :
  (k + n = length (crt_buf s))%nat ->
  wp (for_each (seq k n) (fun i => crt_store (Z.of_nat i) BLANK))
    (fun _ s' => s' = set_crt (take k (crt_buf s) ++ replicate n BLANK) (crt_pos s) s) s.
Proof.
  revert k s. induction n as [|n IH]; intros k s Hk; simpl for_each.
  - apply wp_ret. rewrite take_ge by lia. rewrite app_nil_r. by destruct s.
  - apply wp_bind. eapply wp_mono; [apply wp_crt_store; lia|]. intros _ s1 ->.
    eapply wp_mono; [apply IH; cbn [crt_buf set_crt]; rewrite length_insert; lia|]. intros _ s2 ->.
    unfold set_crt. cbn [crt_buf crt_pos addr_6845 shift serial_exists cons_buf rpos wpos dev_state]. f_equal.
    rewrite Nat2Z.id. rewrite insert_take_drop by lia.
    rewrite take_app, length_take, Nat.min_l by lia.
    replace (S k - k)%nat with 1%nat by lia. simpl. rewrite take_take, Nat.min_r by lia.
    rewrite take_0, <- app_assoc. done.
Qed.

(** The display before it scrolls: the cursor may be past its end. *)
Record shows_before (t : term) s : Prop := ShowsBefore {
  sb_top : 0 <= t_top t /\ t_top t mod Z.of_nat CRT_COLS = 0;
  sb_len : Z.of_nat (length (t_cells t)) = t_top t + Z.of_nat CRT_SIZE;
  sb_cur : t_top t <= t_cur t < t_top t + Z.of_nat CRT_SIZE + Z.of_nat CRT_COLS;
  sb_pos : crt_pos s = t_cur t - t_top t;
  sb_buf : crt_buf s = drop (Z.to_nat (t_top t)) (t_cells t) }.

Lemma shows_before_of t s : shows t s -> shows_before t s.
Proof. intros [? ? ? ? ?]. constructor; try done. lia. Qed.

Lemma scroll_id t : t_cur t < t_top t + Z.of_nat CRT_SIZE -> term_scroll t = t.
Proof. intros H. unfold term_scroll. by rewrite (proj2 (Z.leb_gt _ _)) by lia. Qed.

Lemma wp_scroll t s :
  shows_before t s -> wp scroll (fun _ s' => shows (term_scroll t) s' /\ crt_only s s') s.
Proof.
  intros [Ht Hl Hc Hp Hb]. unfold scroll, term_scroll. apply wp_bind, wp_gets. rewrite Hp.
  assert (length (crt_buf s) = CRT_SIZE) as Hlen by (rewrite Hb, length_drop; lia).
  destruct (Z.leb_spec (t_top t + Z.of_nat CRT_SIZE) (t_cur t)) as [Hge|Hlt].
  2:{ rewrite (proj2 (Z.leb_gt _ _)) by lia. apply wp_ret. split; [constructor; try done; lia|done]. }
  rewrite (proj2 (Z.leb_le _ _)) by lia. apply wp_bind, wp_modify, wp_bind.
  assert (length (drop CRT_COLS (crt_buf s)) = CRT_SIZE - CRT_COLS)%nat as Hd by (rewrite length_drop; lia).
  eapply wp_mono; [apply wp_blank; cbn [crt_buf set_crt]; rewrite length_app, length_take, Hd, length_drop, Hlen; done|].
  intros _ s1 ->. apply wp_modify. cbn [crt_buf crt_pos set_crt]. rewrite (take_ge (drop _ _)) by lia.
  rewrite take_app_length' by done. split; [|done]. constructor; cbn [t_top t_cells t_cur crt_pos crt_buf set_crt].
  - split; [unfold CRT_COLS; lia|]. destruct Ht as [_ Ht]. unfold CRT_COLS in *. dlia.
  - rewrite length_app, length_replicate. unfold CRT_COLS. lia.
  - unfold CRT_COLS, CRT_SIZE in *. lia.
  - unfold u16, CRT_COLS, CRT_SIZE in *. rewrite Z.mod_small by lia. lia.
  - rewrite Hb, drop_drop, drop_app_le by (unfold CRT_COLS, CRT_SIZE in *; lia). f_equal. f_equal. lia.
Qed.

Lemma wp_finish t s :
  shows_before t s -> wp (scroll;; show_cursor) (fun _ s' => shows (term_scroll t) s' /\ crt_only s s') s.
Proof.
  intros Hb. apply wp_bind. eapply wp_mono; [by apply wp_scroll|]. intros _ s1 [Hs Ho].
  eapply wp_mono; [apply wp_show_cursor|]. intros u s2 Hd. split; [by eapply shows_dev|].
  eapply crt_only_trans; [done|by apply dev_crt_only].
Qed.

Lemma attr_char c : Z.land (if Z.land c (Z.lnot 0xFF) =? 0 then Z.lor c 0x0700 else c) 0xFF = Z.land c 0xFF.
Proof. destruct (_ =? 0); [|done]. rewrite Z.land_lor_distr_l. apply Z.lor_0_r. Qed.

(** A store on the display is a store on the paper. *)
Lemma shows_store t s i v :
  shows t s -> t_top t <= i < t_top t + Z.of_nat CRT_SIZE ->
  <[Z.to_nat (i - t_top t) := v]> (crt_buf s) = drop (Z.to_nat (t_top t)) (<[Z.to_nat i := v]> (t_cells t)).
Proof.
  intros [Ht _ _ _ ->] Hi. rewrite drop_insert_ge by lia. f_equal. lia.
Qed.

Lemma wp_set_pos p s : 0 <= p < 2 ^ 16 -> wp (set_pos p) (fun _ s' => s' = set_crt (crt_buf s) p s) s.
Proof. intros Hp. apply wp_modify. unfold u16. by rewrite Z.mod_small. Qed.

Lemma wp_cga_char tab c t s :
  Z.land c 0xFF <> 9 -> shows t s ->
  wp (cga_putc_with tab c) (fun _ s' => shows (term_char c t) s' /\ crt_only s s') s.
Proof.
  intros Hc9 Hs. pose proof Hs as [Ht Hl Hc Hp Hb]. unfold cga_putc_with, term_char. rewrite attr_char.
  set (c' := if Z.land c (Z.lnot 0xFF) =? 0 then Z.lor c 0x0700 else c).
  assert (Z.of_nat (length (crt_buf s)) = Z.of_nat CRT_SIZE) as Hlen by (rewrite Hb, length_drop; lia).
  apply wp_bind, wp_gets. rewrite Hp.
  assert (forall (m : M (cst D) unit) t1, wp m (fun _ s1 => shows_before t1 s1 /\ crt_only s s1) s ->
    wp (m;; scroll;; show_cursor) (fun _ s' => shows (term_scroll t1) s' /\ crt_only s s') s) as Hfin.
  { intros m t1 Hm. apply wp_bind. eapply wp_mono; [exact Hm|]. intros _ s1 [Hb1 Ho1].
    eapply wp_mono; [by apply wp_finish|]. intros _ s2 [? ?]. split; [done|]. by eapply crt_only_trans. }
  destruct (Z.eqb_spec (Z.land c 0xFF) 8) as [_|_]; [|destruct (Z.eqb_spec (Z.land c 0xFF) 10) as [_|_];
    [|destruct (Z.eqb_spec (Z.land c 0xFF) 13) as [_|_]]].
  - destruct (Z.ltb_spec (t_top t) (t_cur t)) as [Hgt|Hle].
    + rewrite (proj2 (Z.ltb_lt _ _)) by lia.
      set (t1 := MkTerm _ _ _). rewrite <- (scroll_id t1) by (simpl; lia). apply Hfin.
      apply wp_bind. eapply wp_mono; [apply wp_set_pos; unfold CRT_SIZE in *; lia|]. intros _ s1 ->.
      eapply wp_mono; [apply wp_crt_store; cbn [crt_buf set_crt]; lia|]. intros _ s2 ->. split; [|done].
      constructor; cbn [t_top t_cells t_cur crt_pos crt_buf set_crt t1]; try done; [by rewrite length_insert|unfold CRT_COLS; lia|lia|].
      replace (t_cur t - t_top t - 1) with (t_cur t - 1 - t_top t) by lia. apply shows_store; [done|lia].
    + rewrite (proj2 (Z.ltb_ge _ _)) by lia. rewrite <- (scroll_id t) by lia. apply Hfin. apply wp_ret.
      split; [by apply shows_before_of|done].
  - apply Hfin. apply wp_bind. eapply wp_mono; [apply wp_set_pos; unfold CRT_SIZE, CRT_COLS in *; lia|]. intros _ s1 ->.
    apply wp_bind, wp_gets. cbn [crt_pos set_crt].
    eapply wp_mono; [apply wp_set_pos; unfold CRT_SIZE, CRT_COLS in *; dlia|]. intros _ s2 ->. split; [|done].
    constructor; cbn [t_top t_cells t_cur crt_pos crt_buf set_crt]; try done; unfold CRT_SIZE, CRT_COLS in *; dlia.
  - set (t1 := MkTerm _ _ _). rewrite <- (scroll_id t1) by (unfold CRT_SIZE, CRT_COLS in *; simpl in *; dlia). apply Hfin.
    eapply wp_mono; [apply wp_set_pos; unfold CRT_SIZE, CRT_COLS in *; dlia|]. intros _ s2 ->. split; [|done].
    constructor; cbn [t_top t_cells t_cur crt_pos crt_buf set_crt t1]; try done; unfold CRT_SIZE, CRT_COLS in *; dlia.
  - rewrite (proj2 (Z.eqb_neq _ 9) Hc9). apply Hfin. apply wp_bind.
    eapply wp_mono; [apply wp_crt_store; lia|]. intros _ s1 ->.
    eapply wp_mono; [apply wp_set_pos; unfold CRT_SIZE in *; lia|]. intros _ s2 ->. split; [|done].
    constructor; cbn [t_top t_cells t_cur crt_pos crt_buf set_crt]; try done; [by rewrite length_insert|unfold CRT_COLS; lia|lia|].
    by apply shows_store.
Qed.

Lemma wp_cons_char d c t s :
  Z.land c 0xFF <> 9 -> shows t s ->
  wp (cons_putc_depth d c) (fun _ s' => shows (term_char c t) s' /\ crt_only s s') s.
Proof.
  intros Hc Hs. assert (forall tab, wp (serial_putc c;; lpt_putc c;; cga_putc_with tab c)
    (fun _ s' => shows (term_char c t) s' /\ crt_only s s') s) as H; [|destruct d; apply H].
  intros tab. apply (wp_dev_bind _ _ _ _ (wp_serial_putc c s)). intros _ s1 H1.
  apply (wp_dev_bind _ _ _ _ (wp_lpt_putc c s1)). intros _ s2 H2. pose proof (dev_only_trans _ _ _ H1 H2) as H3.
  eapply wp_mono; [apply wp_cga_char; [done|by eapply shows_dev]|]. intros _ s3 [? ?]. split; [done|].
  eapply crt_only_trans; [by apply dev_crt_only|done].
Qed.

Lemma shows_scroll_id t s : shows t s -> term_scroll t = t.
Proof. intros H. apply scroll_id, H. Qed.

Lemma wp_cons_putc c t s :
  shows t s -> wp (cons_putc c) (fun _ s' => shows (term_put c t) s' /\ crt_only s s') s.
Proof.
  intros Hs. unfold term_put. destruct (Z.eqb_spec (Z.land c 0xFF) 9) as [E|E]; [|by apply wp_cons_char].
  unfold cons_putc. cbn [cons_putc_depth].
  apply (wp_dev_bind _ _ _ _ (wp_serial_putc c s)). intros _ s1 H1.
  apply (wp_dev_bind _ _ _ _ (wp_lpt_putc c s1)). intros _ s2 H2. pose proof (dev_only_trans _ _ _ H1 H2) as H3.
  unfold cga_putc_with. rewrite attr_char, E. apply wp_bind, wp_gets. cbn [Z.eqb Pos.eqb].
  assert (shows t s2 /\ crt_only s s2) as H0 by (split; [by eapply shows_dev|by apply dev_crt_only]).
  assert (forall t2 s3, shows t2 s3 /\ crt_only s s3 ->
    wp (cons_putc_depth 0 32) (fun _ s' => shows (term_char 32 t2) s' /\ crt_only s s') s3) as Hsp.
  { clear. intros t2 s3 [Hs Ho]. eapply wp_mono; [by apply wp_cons_char|]. intros _ s4 [? ?]. split; [done|].
    by eapply crt_only_trans. }
  apply wp_bind. do 4 (apply wp_bind; eapply wp_mono; [apply Hsp; exact H0|]; clear H0; intros ? ? H0).
  eapply wp_mono; [apply Hsp; exact H0|]. clear H0. intros ? s5 [Hs5 Ho5].
  eapply wp_mono; [by apply wp_finish, shows_before_of|]. intros _ s6 [Hs6 Ho6].
  rewrite (shows_scroll_id _ _ Hs5) in Hs6. split; [done|]. by eapply crt_only_trans.
Qed.
End display.

(** C23: the display shows the last 25 lines of the paper of a printing terminal.
    Whatever is printed, newlines, carriage returns, tabs, backspaces and lines that
    wrap included, [cons_putc] returns, never stores outside the display memory, and
    leaves the display with the window of the paper that ends at its last line, the
    cursor at its place in it, and the rest of the console's state as it was. *)
Theorem display_refines {D} `{PO : Ports D} l t (s : cst D) :
  shows t s ->
  wp (for_each l cons_putc) (fun _ s' =>
    shows (fold_left (fun t c => term_put c t) l t) s' /\ crt_only s s') s.
Proof.
  revert t s. induction l as [|c l IH]; intros t s Hs; simpl; [by apply wp_ret|].
  apply wp_bind. eapply wp_mono; [by apply wp_cons_putc|]. intros _ s1 [Hs1 Ho1].
  eapply wp_mono; [by apply IH|]. intros _ s2 [Hs2 Ho2]. split; [done|]. by eapply crt_only_trans.
Qed.

(** Devices that are always ready and never send anything. *)
#[local] Instance quiet_ports : Ports unit.
Proof. refine {| port_in := fun _ d => (0x20, d); port_out := fun _ _ d => d |}. intros. simpl. lia. Defined.

Definition ex_console : cst unit :=
  MkCst CGA_BASE (replicate CRT_SIZE BLANK) 1919 0 true (replicate CONSBUFSIZE 0) 0 0 tt.

Lemma display_refines_witness :
  wp (for_each (zs "ab" ++ [9; 10; 10] ++ zs "c") cons_putc) (fun _ s' => exists t,
    shows t s' /\ t_top t = 160 /\ t_cur t = 2081 /\ t_cells t !! 1919%nat = Some 0x0761) ex_console.
Proof.
  assert (shows (MkTerm (replicate CRT_SIZE BLANK) 0 1919) ex_console) as Hs
    by (constructor; [split; [done|reflexivity]|reflexivity|vm_compute; split; [discriminate|reflexivity]|reflexivity|reflexivity]).
  refine (wp_mono _ _ _ _ (display_refines (zs "ab" ++ [9; 10; 10] ++ zs "c") _ _ Hs) _).
  intros a s' [H _]. eexists. split; [exact H|]. vm_compute. auto.
Defined.

(** ** The input buffer is a queue of 511 characters *)

Section ring.
Context {D : Type} `{PO : Ports D}.
Implicit Types s : cst D.

Definition held s : Z := (wpos s - rpos s) mod 512.
Record ring_ok s : Prop := RingOk {
  ro_len : length (cons_buf s) = CONSBUFSIZE; ro_r : 0 <= rpos s < 512; ro_w : 0 <= wpos s < 512 }.
Definition pending s : list Z :=
  (fun i => cons_buf s !!! Z.to_nat ((rpos s + Z.of_nat i) mod 512)) <$> seq 0 (Z.to_nat (held s)).

Lemma next_pos p : 0 <= p < 512 -> (if u32 (p + 1) =? Z.of_nat CONSBUFSIZE then 0 else u32 (p + 1)) = (p + 1) mod 512.
Proof.
  intros Hp. rewrite u32_small by lia. change (Z.of_nat CONSBUFSIZE) with 512.
  destruct (Z.eqb_spec (p + 1) 512) as [E|]; [by rewrite E|]. rewrite Z.mod_small; lia.
Qed.

Lemma wp_cons_put c s :
  ring_ok s -> held s < 511 -> wp (cons_put c) (fun _ s' => ring_ok s' /\ pending s' = pending s ++ [u8 c] /\
    held s' = held s + 1 /\ exists b w, s' = set_ring b (rpos s) w s) s.
Proof.
  intros [Hl Hr Hw] Hh. unfold wp, cons_put. rewrite Hl. change (Z.of_nat CONSBUFSIZE) with 512 at 1.
  rewrite (proj2 (Z.leb_le _ _)), (proj2 (Z.ltb_lt _ _)) by lia. cbn [andb]. rewrite next_pos by done.
  set (s' := set_ring _ _ _ _). assert (held s' = held s + 1) as Hh' by (unfold held in *; simpl; dlia).
  split; [constructor; simpl; [by rewrite length_insert|done|dlia]|]. split; [|split; [done|by eexists _, _]].
  assert (0 <= held s) as H0 by (unfold held; dlia). unfold pending. rewrite Hh'.
  rewrite Z2Nat.inj_add, seq_app, fmap_app by lia. f_equal.
  - apply list_fmap_ext. intros j i [-> Hj]%lookup_seq. simpl. rewrite list_lookup_total_insert_ne; [done|].
    intros E. apply Z2Nat.inj in E; [|lia|dlia]. assert (Z.of_nat j < held s) as Hlt by lia. unfold held in *. dlia.
  - simpl. f_equal. rewrite Z2Nat.id by lia.
    replace ((rpos s + held s) mod 512) with (wpos s) by (unfold held; dlia).
    apply list_lookup_total_insert_eq. rewrite Hl. unfold CONSBUFSIZE. lia.
Qed.

(** The 512th character makes the buffer look empty. *)
Lemma cons_put_overflow c s :
  ring_ok s -> held s = 511 -> exists s', cons_put c s = Ok tt s' /\ pending s' = [].
Proof.
  intros [Hl Hr Hw] Hh. unfold cons_put. rewrite Hl. change (Z.of_nat CONSBUFSIZE) with 512 at 1.
  rewrite (proj2 (Z.leb_le _ _)), (proj2 (Z.ltb_lt _ _)) by lia. cbn [andb]. rewrite next_pos by done.
  eexists. split; [done|]. unfold pending. replace (held _) with 0; [done|]. unfold held in *. simpl. dlia.
Qed.

Lemma wp_cons_take s :
  ring_ok s -> wp cons_take (fun c s' => ring_ok s' /\
    (pending s = [] /\ c = 0 /\ s' = s \/ pending s = c :: pending s')) s.
Proof.
  intros [Hl Hr Hw]. unfold wp, cons_take. destruct (Z.eqb_spec (rpos s) (wpos s)) as [E|E].
  { split; [by constructor|]. left. split; [|done]. unfold pending, held. by rewrite E, Z.sub_diag. }
  destruct (lookup_lt_is_Some_2 (cons_buf s) (Z.to_nat (rpos s))) as [c Hc]; [rewrite Hl; unfold CONSBUFSIZE; lia|].
  rewrite Hc. split; [constructor; simpl; [done|rewrite next_pos by done; dlia|done]|]. right.
  assert (0 < held s) as Hh by (unfold held; dlia).
  unfold pending. replace (Z.to_nat (held s)) with (S (Z.to_nat (held s - 1))) by lia. simpl. f_equal.
  - rewrite Z.add_0_r, Z.mod_small by lia. by apply list_lookup_total_correct.
  - rewrite next_pos by done.
    assert (forall b, held (set_ring b ((rpos s + 1) mod 512) (wpos s) s) = held s - 1) as -> by (intros; unfold held; simpl; dlia).
    rewrite <- fmap_S_seq, <- list_fmap_compose. apply list_fmap_ext. intros j i _. simpl. f_equal. f_equal. dlia.
Qed.

(** The device routine [proc] delivers the characters [cs], whatever is in the
    ring meanwhile. *)
Fixpoint delivers (proc : M (cst D) Z) (cs : list Z) s : Prop :=
  match cs with
  | [] => exists s', proc s = Ok (-1) s' /\ cons_buf s' = cons_buf s /\ rpos s' = rpos s /\ wpos s' = wpos s
  | c :: cs => c <> -1 /\ exists s', proc s = Ok c s' /\
      cons_buf s' = cons_buf s /\ rpos s' = rpos s /\ wpos s' = wpos s /\
      forall b r w, delivers proc cs (set_ring b r w s')
  end.

Lemma set_ring_id s : set_ring (cons_buf s) (rpos s) (wpos s) s = s.
Proof. by destruct s. Qed.

Lemma ring_same s s' :
  cons_buf s' = cons_buf s -> rpos s' = rpos s -> wpos s' = wpos s -> ring_ok s ->
  ring_ok s' /\ pending s' = pending s /\ held s' = held s.
Proof.
  intros Eb Er Ew [Hl Hr Hw]. assert (held s' = held s) as Hh by (unfold held; by rewrite Er, Ew).
  split; [constructor; congruence|]. split; [|done]. unfold pending. by rewrite Hh, Er, Eb.
Qed.

Lemma wp_cons_intr n proc cs s :
  ring_ok s -> delivers proc cs s -> (length cs <= n)%nat ->
  held s + Z.of_nat (length (filter (.≠ 0) cs)) < 512 ->
  wp (cons_intr n proc) (fun _ s' => ring_ok s' /\ pending s' = pending s ++ (u8 <$> filter (.≠ 0) cs)) s.
Proof.
  revert n s. induction cs as [|c cs IH]; intros n s Hok Hd Hn Hh.
  { destruct Hd as (s' & E & Eb & Er & Ew). destruct (ring_same s s' Eb Er Ew Hok) as (Hok' & Hp & _).
    destruct n; cbn [cons_intr]; apply wp_bind; (unfold wp at 1; rewrite E; apply wp_ret; simpl; by rewrite app_nil_r). }
  destruct Hd as (Hc & s1 & E & Eb & Er & Ew & Hd). destruct (ring_same s s1 Eb Er Ew Hok) as (Hok1 & Hp1 & Hh1).
  destruct n as [|n]; [simpl in Hn; lia|]. cbn [cons_intr]. apply wp_bind. unfold wp at 1. rewrite E.
  rewrite (proj2 (Z.eqb_neq c (-1)) Hc). destruct (Z.eqb_spec c 0) as [->|Hc0].
  - rewrite filter_cons_False in * by (by intros []). apply wp_bind, wp_ret. rewrite <- Hp1.
    apply IH; [done| |simpl in Hn; lia|lia]. rewrite <- (set_ring_id s1). apply Hd.
  - rewrite filter_cons_True in * by done. simpl length in Hh. apply wp_bind.
    eapply wp_mono; [apply wp_cons_put; [done|lia]|]. intros _ s2 (Hok2 & Hp2 & Hh2 & b & w & ->).
    eapply wp_mono; [apply IH; [done|apply Hd|simpl in Hn; lia|lia]|]. intros _ s3 [Hok3 Hp3]. split; [done|].
    rewrite Hp3, Hp2, Hp1. simpl. by rewrite <- app_assoc.
Qed.
End ring.

(** ** The keyboard *)

(** Every byte of the keyboard in every shift state leaves a shift state and
    gives a character of 8 bits; the escape prefix lasts for one byte. *)
Lemma kbd_decode_range sh data :
  0 <= sh < 128 -> 0 <= data < 256 ->
  let '(c, sh') := kbd_decode sh data in
  0 <= c < 256 /\ 0 <= sh' < 128 /\ (data <> 0xE0 -> Z.land sh' E0ESC = 0).
Proof.
  intros Hs Hd.
  assert (forallb (fun sh => forallb (fun data => let '(c, sh') := kbd_decode sh data in
    (0 <=? c) && (c <? 256) && (0 <=? sh') && (sh' <? 128) && ((data =? 0xE0) || (Z.land sh' E0ESC =? 0)))
    (seqZ 0 256)) (seqZ 0 128) = true) as H by (vm_compute; reflexivity).
  rewrite forallb_forall in H. specialize (H sh ltac:(apply list_elem_of_In, elem_of_seqZ; lia)).
  rewrite forallb_forall in H. specialize (H data ltac:(apply list_elem_of_In, elem_of_seqZ; lia)).
  destruct (kbd_decode sh data) as [c sh']. rewrite !andb_true_iff, orb_true_iff, !Z.leb_le, !Z.ltb_lt, !Z.eqb_eq in H.
  destruct H as ((((? & ?) & ?) & ?) & ?). split; [lia|]. split; [lia|]. intros. tauto.
Qed.

(** The bytes a keyboard sends for a key with a modifier held. *)
Definition type_key (down up : list Z) (k : Z) : list Z := down ++ [k; Z.lor k 0x80] ++ up.
Definition kbd_run (sh : Z) (l : list Z) : list Z * Z :=
  fold_left (fun a data => let '(c, sh') := kbd_decode a.2 data in (if c =? 0 then a.1 else a.1 ++ [c], sh')) l ([], sh).

(** Every printable character can be typed, with or without shift, and the
    keyboard is back in the state it was in. *)
Lemma kbd_types c :
  32 <= c < 127 ->
  exists k, kbd_run 0 (type_key [] [] k) = ([c], 0) \/ kbd_run 0 (type_key [0x2A] [0xAA] k) = ([c], 0).
Proof.
  intros Hc.
  assert (forallb (fun c => existsb (fun k =>
    bool_decide (kbd_run 0 (type_key [] [] k) = ([c], 0)) || bool_decide (kbd_run 0 (type_key [0x2A] [0xAA] k) = ([c], 0)))
    (seqZ 0 128)) (seqZ 32 95) = true) as H by (vm_compute; reflexivity).
  rewrite forallb_forall in H. specialize (H c ltac:(apply list_elem_of_In, elem_of_seqZ; lia)).
  apply existsb_exists in H as (k & _ & H). exists k. by rewrite orb_true_iff, !bool_decide_eq_true in H.
Qed.
