(* ===== verification/Xv6Lock.v ===== *)
(** * xv6 processors and spin locks (lab2/spinlock.c, lab2/proc.c)

    The processor a routine runs on, the nesting of disabled interrupts
    ([pushcli], [popcli]) and the spin lock.  The routines work on the record
    [hw]; a component that uses locks embeds it in its own state through the
    class [HasHw]. *)

From S2P Require Import Prelude CMem.
From stdpp Require Import base numbers option list gmap strings.
Open Scope Z_scope.

(** ** State *)

(** [struct cpu]; a [struct proc *] is an index of the process table. *)
Record cpu : Type := MkCpu {
  apicid : Z; ncli : Z; intena : bool; cpu_proc : option nat }.

(** [struct spinlock]; a [struct cpu *] is an index of [cpus]. *)
Record spinlock : Type := MkLock { locked : bool; lk_cpu : option nat; lk_pcs : list Z }.

(** What a processor sees: its interrupt flag and local APIC identifier, the
    [cpus] array, the locks by number, the kernel memory, and the address of
    the first argument in the frame of the running function. *)
Record hw : Type := MkHw {
  eflags_if : bool; lapicid : Z; cpus : list cpu; locks : gmap nat spinlock;
  h_mem : mem; h_frame : Z }.

Definition set_if (b : bool) (h : hw) : hw :=
  MkHw b (lapicid h) (cpus h) (locks h) (h_mem h) (h_frame h).
Definition set_cpus (l : list cpu) (h : hw) : hw :=
  MkHw (eflags_if h) (lapicid h) l (locks h) (h_mem h) (h_frame h).
Definition set_lock (lk : nat) (l : spinlock) (h : hw) : hw :=
  MkHw (eflags_if h) (lapicid h) (cpus h) (<[lk := l]> (locks h)) (h_mem h) (h_frame h).
Definition set_hmem (m : mem) (h : hw) : hw :=
  MkHw (eflags_if h) (lapicid h) (cpus h) (locks h) m (h_frame h).

(** A lock that was never touched is free. *)
Definition get_lock (lk : nat) (h : hw) : spinlock :=
  default (MkLock false None []) (locks h !! lk).

(** ** The routines *)

Definition cli : M hw unit := modify (set_if false).
Definition sti : M hw unit := modify (set_if true).

Definition mycpu : M hw nat := fun h =>
  if eflags_if h then Panic "mycpu called with interrupts enabled" h
  else match list_find (fun c => apicid c = lapicid h) (cpus h) with
       | Some (i, _) => Ok i h
       | None => Panic "unknown apicid" h
       end.

Definition cpu_get (i : nat) : M hw cpu := fun h =>
  match cpus h !! i with Some c => Ok c h | None => Panic "cpus: out of range" h end.
Definition cpu_set (i : nat) (c : cpu) : M hw unit := modify (fun h => set_cpus (<[i := c]> (cpus h)) h).

Definition cpuid : M hw nat := mycpu.

Definition pushcli : M hw unit :=
  eflags ← gets eflags_if;
  cli;;
  i ← mycpu; c ← cpu_get i;
  (if ncli c =? 0 then cpu_set i (MkCpu (apicid c) (ncli c) eflags (cpu_proc c)) else mret tt);;
  i ← mycpu; c ← cpu_get i;
  cpu_set i (MkCpu (apicid c) (ncli c + 1) (intena c) (cpu_proc c)).

Definition popcli : M hw unit :=
  eflags ← gets eflags_if;
  if eflags : bool then panic "popcli - interruptible"
  else
    i ← mycpu; c ← cpu_get i;
    cpu_set i (MkCpu (apicid c) (ncli c - 1) (intena c) (cpu_proc c));;
    if ncli c - 1 <? 0 then panic "popcli"
    else
      i ← mycpu; c ← cpu_get i;
      if (ncli c =? 0) && intena c then sti else mret tt.

Definition initlock (lk : nat) : M hw unit := modify (fun h =>
  set_lock lk (MkLock false None (lk_pcs (get_lock lk h))) h).

Definition holding (lk : nat) : M hw bool :=
  pushcli;;
  l ← gets (get_lock lk);
  i ← mycpu;
  let r := locked l && bool_decide (lk_cpu l = Some i) in
  popcli;;
  mret r.

(** The process running on this processor (lab2/proc.c). *)
Definition myproc : M hw (option nat) :=
  pushcli;;
  i ← mycpu; c ← cpu_get i;
  let p := cpu_proc c in
  popcli;;
  mret p.

(** The chain of saved frame pointers, ten return addresses at most. *)
Fixpoint follow_ebp (n : nat) (m : mem) (ebp : Z) : list Z :=
  match n with
  | O => []
  | S k =>
      if (ebp =? 0) || (ebp <? 0x80000000) || (ebp =? 0xffffffff) then replicate n 0
      else load32 m (u32 (ebp + 4)) :: follow_ebp k m (load32 m ebp)
  end.
Definition getcallerpcs (m : mem) (v : Z) : list Z := follow_ebp 10 m (u32 (v - 8)).

(** Spinning on a lock that is taken does not return: whoever holds it does
    not run while this routine does. *)
Definition acquire (lk : nat) : M hw unit :=
  pushcli;;
  h ← holding lk;
  if h : bool then panic "acquire"
  else
    l ← gets (get_lock lk);
    if locked l then no_fuel
    else
      modify (set_lock lk (MkLock true (lk_cpu l) (lk_pcs l)));;
      i ← mycpu;
      pcs ← gets (fun h => getcallerpcs (h_mem h) (h_frame h));
      modify (set_lock lk (MkLock true (Some i) pcs)).

Definition release (lk : nat) : M hw unit :=
  h ← holding lk;
  if h : bool then
    l ← gets (get_lock lk);
    modify (set_lock lk (MkLock (locked l) None (<[0%nat := 0]> (lk_pcs l))));;
    l ← gets (get_lock lk);
    modify (set_lock lk (MkLock false (lk_cpu l) (lk_pcs l)));;
    popcli
  else panic "release".

(** ** Embedding in a larger state *)

Class HasHw (S : Type) := {
  hw_of : S -> hw;
  set_hw : hw -> S -> S;
  hw_of_set : forall h s, hw_of (set_hw h s) = h;
  set_hw_set : forall h h' s, set_hw h (set_hw h' s) = set_hw h s;
  set_hw_of : forall s, set_hw (hw_of s) s = s }.

Definition lift {S A} `{HasHw S} (m : M hw A) : M S A := fun s =>
  match m (hw_of s) with
  | Ok a h => Ok a (set_hw h s)
  | Panic msg h => Panic msg (set_hw h s)
  | NoFuel => NoFuel
  end.

(** ** Running the routines *)

Definition this_cpu (h : hw) (i : nat) (c : cpu) : Prop :=
  list_find (fun c => apicid c = lapicid h) (cpus h) = Some (i, c).

(** Between routines: interrupts are enabled only at nesting depth 0. *)
Record cpu_ok (h : hw) (i : nat) (c : cpu) : Prop := CpuOk {
  co_this : this_cpu h i c;
  co_ncli : 0 <= ncli c;
  co_if : eflags_if h = true -> ncli c = 0 }.

Lemma this_cpu_lookup h i c : this_cpu h i c -> cpus h !! i = Some c.
Proof. by intros (? & _)%list_find_Some. Qed.

Lemma this_cpu_insert h i c c' :
  this_cpu h i c -> apicid c' = apicid c -> this_cpu (set_cpus (<[i := c']> (cpus h)) h) i c'.
Proof.
  intros (Hi & Hc & Hlt)%list_find_Some Ha. apply list_find_Some. simpl. split_and!.
  - apply list_lookup_insert_eq. by eapply lookup_lt_Some.
  - congruence.
  - intros j c2 Hj Hlt'. rewrite list_lookup_insert_ne in Hj by lia. eauto.
Qed.

Lemma mycpu_run h i c : eflags_if h = false -> this_cpu h i c -> mycpu h = Ok i h.
Proof. intros Hf Hc. unfold mycpu. rewrite Hf. unfold this_cpu in Hc. by rewrite Hc. Qed.

Lemma cpu_get_run h i c : this_cpu h i c -> cpu_get i h = Ok c h.
Proof. intros H%this_cpu_lookup. unfold cpu_get. by rewrite H. Qed.

Definition pushed (i : nat) (c : cpu) (h : hw) : hw :=
  set_if false (set_cpus (<[i := MkCpu (apicid c) (ncli c + 1)
    (if ncli c =? 0 then eflags_if h else intena c) (cpu_proc c)]> (cpus h)) h).

Definition popped (i : nat) (c : cpu) (h : hw) : hw :=
  set_if ((ncli c - 1 =? 0) && intena c)
    (set_cpus (<[i := MkCpu (apicid c) (ncli c - 1) (intena c) (cpu_proc c)]> (cpus h)) h).

Lemma pushcli_run h i c : this_cpu h i c -> pushcli h = Ok tt (pushed i c h).
Proof.
  intros Hc. set (h0 := set_if false h). assert (this_cpu h0 i c) as Hc0 by done.
  unfold pushcli, mbind, M_bind, gets, cli, modify. fold h0.
  rewrite (mycpu_run h0 i c), (cpu_get_run h0 i c) by done.
  destruct (ncli c =? 0) eqn:E.
  - unfold cpu_set at 1, modify.
    set (c1 := MkCpu (apicid c) (ncli c) (eflags_if h) (cpu_proc c)).
    pose proof (this_cpu_insert h0 i c c1 Hc0 eq_refl) as Hc1.
    rewrite (mycpu_run _ i c1), (cpu_get_run _ i c1) by done.
    unfold cpu_set, modify, pushed. rewrite E. simpl. by rewrite list_insert_insert_eq.
  - unfold mret at 1, M_ret at 1.
    rewrite (mycpu_run h0 i c), (cpu_get_run h0 i c) by done.
    unfold cpu_set, modify, pushed. by rewrite E.
Qed.

Lemma popcli_run h i c :
  this_cpu h i c -> eflags_if h = false -> 1 <= ncli c -> popcli h = Ok tt (popped i c h).
Proof.
  intros Hc Hf Hn. unfold popcli, mbind, M_bind, gets. rewrite Hf.
  rewrite (mycpu_run h i c), (cpu_get_run h i c) by done. unfold cpu_set, modify.
  destruct (Z.ltb_spec (ncli c - 1) 0); [lia|].
  set (c1 := MkCpu (apicid c) (ncli c - 1) (intena c) (cpu_proc c)).
  pose proof (this_cpu_insert h i c c1 Hc eq_refl) as Hc1.
  rewrite (mycpu_run _ i c1), (cpu_get_run _ i c1) by done. unfold c1, popped. simpl.
  destruct ((ncli c - 1 =? 0) && intena c); [done|]. unfold set_if, set_cpus. simpl. by rewrite Hf.
Qed.

(** A matched pair leaves the interrupt flag, and records it at depth 0. *)
Definition refreshed (i : nat) (c : cpu) (h : hw) : hw :=
  set_cpus (<[i := MkCpu (apicid c) (ncli c)
    (if ncli c =? 0 then eflags_if h else intena c) (cpu_proc c)]> (cpus h)) h.

Lemma pushed_this h i c : this_cpu h i c ->
  this_cpu (pushed i c h) i (MkCpu (apicid c) (ncli c + 1)
    (if ncli c =? 0 then eflags_if h else intena c) (cpu_proc c)).
Proof. intros Hc. by apply (this_cpu_insert h i c (MkCpu _ _ _ _)). Qed.

Lemma push_pop h i c : cpu_ok h i c -> popcli (pushed i c h) = Ok tt (refreshed i c h).
Proof.
  intros [Hc Hn Hif]. rewrite (popcli_run _ _ _ (pushed_this h i c Hc)) by (done || (simpl; lia)).
  f_equal. unfold popped, pushed, refreshed, set_if, set_cpus. simpl.
  rewrite list_insert_insert_eq. replace (ncli c + 1 - 1) with (ncli c) by lia.
  f_equal. destruct (Z.eqb_spec (ncli c) 0); [done|]. simpl.
  destruct (eflags_if h); [by rewrite Hif in *|done].
Qed.

Lemma refreshed_id h i c : this_cpu h i c -> 1 <= ncli c -> refreshed i c h = h.
Proof.
  intros Hc Hn. unfold refreshed. destruct (Z.eqb_spec (ncli c) 0); [lia|].
  rewrite list_insert_id by (rewrite (this_cpu_lookup _ _ _ Hc); by destruct c). by destruct h.
Qed.

Lemma refreshed_ok h i c : cpu_ok h i c ->
  cpu_ok (refreshed i c h) i (MkCpu (apicid c) (ncli c)
    (if ncli c =? 0 then eflags_if h else intena c) (cpu_proc c)).
Proof.
  intros [Hc Hn Hif]. constructor; [|done..]. by apply (this_cpu_insert h i c (MkCpu _ _ _ _)).
Qed.

Lemma holding_run lk h i c :
  cpu_ok h i c ->
  holding lk h = Ok (locked (get_lock lk h) && bool_decide (lk_cpu (get_lock lk h) = Some i))
    (refreshed i c h).
Proof.
  intros Hok. pose proof (co_this _ _ _ Hok) as Hc. unfold holding, mbind, M_bind.
  rewrite (pushcli_run h i c) by done. unfold gets.
  rewrite (mycpu_run (pushed i c h) i (MkCpu _ _ _ _) eq_refl (pushed_this h i c Hc)). by rewrite push_pop.
Qed.

Lemma myproc_run h i c : cpu_ok h i c -> myproc h = Ok (cpu_proc c) (refreshed i c h).
Proof.
  intros Hok. pose proof (co_this _ _ _ Hok) as Hc. unfold myproc, mbind, M_bind.
  rewrite (pushcli_run h i c) by done.
  rewrite (mycpu_run (pushed i c h) i (MkCpu _ _ _ _) eq_refl (pushed_this h i c Hc)), (cpu_get_run _ _ _ (pushed_this h i c Hc)).
  by rewrite push_pop.
Qed.

Definition acquired (lk i : nat) (c : cpu) (h : hw) : hw :=
  set_lock lk (MkLock true (Some i) (getcallerpcs (h_mem h) (h_frame h))) (pushed i c h).

Definition released (lk i : nat) (c : cpu) (h : hw) : hw :=
  set_lock lk (MkLock false None (<[0%nat := 0]> (getcallerpcs (h_mem h) (h_frame h))))
    (refreshed i c h).

(** Acquiring a lock: it is free, the processor has it already, or another
    processor has it. *)
Lemma acquire_run lk h i c :
  cpu_ok h i c ->
  acquire lk h =
    if locked (get_lock lk h)
    then (if decide (lk_cpu (get_lock lk h) = Some i) then Panic "acquire" (pushed i c h) else NoFuel)
    else Ok tt (acquired lk i c h).
Proof.
  intros [Hc Hn _]. unfold acquire, mbind, M_bind. rewrite (pushcli_run h i c) by done.
  pose proof (pushed_this h i c Hc) as Hc1.
  rewrite (holding_run lk _ i (MkCpu _ _ _ _)) by (constructor; [exact Hc1|simpl; lia|done]).
  rewrite (refreshed_id _ _ _ Hc1) by (simpl; lia).
  change (get_lock lk (pushed i c h)) with (get_lock lk h).
  destruct (locked (get_lock lk h)) eqn:El; simpl.
  - case_bool_decide; case_decide; try done. simpl. unfold gets.
    change (get_lock lk (pushed i c h)) with (get_lock lk h). by rewrite El.
  - unfold gets. change (get_lock lk (pushed i c h)) with (get_lock lk h). rewrite El.
    unfold modify. rewrite (mycpu_run _ _ _ (eq_refl : eflags_if (set_lock _ _ (pushed i c h)) = false) Hc1).
    unfold acquired, set_lock. simpl. by rewrite insert_insert_eq.
Qed.

Lemma get_lock_set lk l h : get_lock lk (set_lock lk l h) = l.
Proof. unfold get_lock. simpl. by rewrite lookup_insert_eq. Qed.

Lemma get_lock_set_ne lk lk' l h : lk <> lk' -> get_lock lk (set_lock lk' l h) = get_lock lk h.
Proof. intros. unfold get_lock. simpl. by rewrite lookup_insert_ne. Qed.

Lemma release_run lk h i c :
  this_cpu h i c -> eflags_if h = false -> 1 <= ncli c ->
  locked (get_lock lk h) = true -> lk_cpu (get_lock lk h) = Some i ->
  release lk h =
    Ok tt (set_lock lk (MkLock false None (<[0%nat := 0]> (lk_pcs (get_lock lk h)))) (popped i c h)).
Proof.
  intros Hc Hf Hn Hl Ho. unfold release, mbind, M_bind.
  rewrite (holding_run lk h i c), Hl, Ho by (constructor; [done|lia|by rewrite Hf]).
  rewrite (refreshed_id _ _ _ Hc), bool_decide_true by done. simpl.
  unfold gets, modify. rewrite get_lock_set. simpl.
  set (h1 := set_lock lk _ _).
  assert (this_cpu h1 i c) as Hc1 by exact Hc.
  rewrite (popcli_run h1 i c Hc1) by done. unfold h1, popped, set_lock. simpl.
  by rewrite insert_insert_eq.
Qed.

(** A critical section: what [release] leaves after [acquire]. *)
Lemma released_run lk h i c :
  cpu_ok h i c -> release lk (acquired lk i c h) = Ok tt (released lk i c h).
Proof.
  intros [Hc Hn Hif]. pose proof (pushed_this h i c Hc) as Hc1.
  rewrite (release_run lk _ _ _ (Hc1 : this_cpu (acquired lk i c h) _ _));
    try (done || (simpl; lia)); unfold acquired; try (by rewrite get_lock_set).
  rewrite get_lock_set. f_equal. unfold released, refreshed, popped, set_lock, set_if, set_cpus, pushed. simpl.
  rewrite list_insert_insert_eq, insert_insert_eq. replace (ncli c + 1 - 1) with (ncli c) by lia.
  f_equal. destruct (Z.eqb_spec (ncli c) 0); [done|]. simpl.
  destruct (eflags_if h); [by rewrite Hif in *|done].
Qed.

Lemma released_ok lk h i c : cpu_ok h i c ->
  cpu_ok (released lk i c h) i (MkCpu (apicid c) (ncli c)
       (if ncli c =? 0 then eflags_if h else intena c) (cpu_proc c)) /\
  locked (get_lock lk (released lk i c h)) = false /\
  forall lk', lk' <> lk -> get_lock lk' (released lk i c h) = get_lock lk' h.
Proof.
  intros Hok. split_and!.
  - destruct (refreshed_ok h i c Hok). by constructor.
  - unfold released. by rewrite get_lock_set.
  - intros lk' Hne. unfold released. by rewrite get_lock_set_ne.
Qed.

(** C38: on a processor with consistent interrupt state, [acquire] takes a free
    lock and turns interrupts off; while it is held the same processor panics
    on it and every other processor spins; [release] frees it and restores the
    interrupt flag and the nesting depth, and no other lock changes. *)
Theorem spinlock_spec lk h i c :
  cpu_ok h i c -> locked (get_lock lk h) = false ->
  exists h1 h2, acquire lk h = Ok tt h1 /\ eflags_if h1 = false /\
    (exists h', acquire lk h1 = Panic "acquire" h') /\
    (forall b j d, b <> lapicid h -> let g := MkHw false b (cpus h1) (locks h1) (h_mem h1) (h_frame h1) in
       cpu_ok g j d -> acquire lk g = NoFuel /\ exists g', release lk g = Panic "release" g') /\
    release lk h1 = Ok tt h2 /\ eflags_if h2 = eflags_if h /\
    locked (get_lock lk h2) = false /\ ncli <$> cpus h2 !! i = Some (ncli c) /\
    (forall lk', lk' <> lk -> get_lock lk' h2 = get_lock lk' h).
Proof.
  intros Hok Hfree. destruct (released_ok lk h i c Hok) as (Hok2 & Hfree2 & Hother).
  pose proof (pushed_this h i c (co_this _ _ _ Hok)) as Hc1. pose proof (co_ncli _ _ _ Hok).
  exists (acquired lk i c h), (released lk i c h). split_and!; try done.
  - by rewrite (acquire_run lk h i c), Hfree.
  - eexists. rewrite (acquire_run lk _ i (MkCpu _ _ _ _)) by (constructor; [exact Hc1|simpl; lia|done]).
    unfold acquired. rewrite get_lock_set. simpl. by rewrite decide_True.
  - intros b j d Hb g Hg.
    assert (get_lock lk g = get_lock lk (acquired lk i c h)) as Eg by done.
    assert (Some i <> Some j) as Hij.
    { intros [= <-]. apply list_find_Some in Hc1 as (Hi & Ha & _). simpl in Ha.
      destruct (proj1 (list_find_Some _ _ _ _) (co_this _ _ _ Hg)) as (Hj & Hd & _).
      simpl in Hi, Hj, Hd. rewrite Hi in Hj. injection Hj as <-. simpl in Hd. congruence. }
    split.
    + rewrite (acquire_run lk g j d Hg), Eg. unfold acquired. rewrite get_lock_set. simpl.
      by rewrite decide_False.
    + unfold release, mbind, M_bind. rewrite (holding_run lk g j d Hg), Eg. unfold acquired.
      rewrite get_lock_set. simpl. rewrite bool_decide_false by done. by eexists.
  - by apply released_run.
  - simpl. rewrite list_lookup_insert_eq; [done|].
    by eapply lookup_lt_Some, this_cpu_lookup, (co_this _ _ _ Hok).
Qed.

(** Two processors, interrupts enabled. *)
Definition ex_hw : hw :=
  MkHw true 4 [MkCpu 2 0 false None; MkCpu 4 0 false (Some 0%nat)] ∅ ∅ 0x80001000.

Lemma ex_hw_ok : cpu_ok ex_hw 1 (MkCpu 4 0 false (Some 0%nat)).
Proof. by constructor. Qed.

Lemma spinlock_spec_witness :
  exists h1, acquire 0 ex_hw = Ok tt h1 /\ exists h', acquire 0 h1 = Panic "acquire" h'.
Proof.
  destruct (spinlock_spec 0 ex_hw 1 _ ex_hw_ok eq_refl) as (h1 & _ & H1 & _ & H2 & _).
  exists h1. split; [exact H1|exact H2].
Defined.
