(* ===== verification/Xv6String.v ===== *)
(** * xv6 string routines (lab2/string.c)

    On the byte memory, except [safestrcpy], whose only arguments are the
    [name] arrays inside [struct proc] and which works on arrays as lists.  The
    names are those of the C routines, as in [JosString]. *)

From S2P Require Import Prelude CMem JosString.
From stdpp Require Import base numbers option list gmap strings.
Open Scope Z_scope.

Definition memset (m : mem) (dst c n : Z) : mem :=
  if (Z.rem (i32 dst) 4 =? 0) && (n mod 4 =? 0) then
    let c := Z.land c 255 in
    let w := Z.lor (Z.lor (Z.lor (Z.shiftl c 24) (Z.shiftl c 16)) (Z.shiftl c 8)) c in
    rep_stosl (Z.to_nat (n / 4)) m dst w
  else rep_stosb (Z.to_nat n) m dst c.

#[global] Arguments memset : simpl never.

Fixpoint memcmp (n : nat) (m : mem) (s1 s2 : Z) : Z :=
  match n with
  | O => 0
  | S k =>
      if negb (load8 m s1 =? load8 m s2) then load8 m s1 - load8 m s2
      else memcmp k m (s1 + 1) (s2 + 1)
  end.

(** The two loops of [memmove]. *)
Fixpoint copy_down (n : nat) (m : mem) (d s : Z) : mem :=
  match n with
  | O => m
  | S k => copy_down k (store8 m (d - 1) (load8 m (s - 1))) (d - 1) (s - 1)
  end.

Fixpoint copy_up (n : nat) (m : mem) (d s : Z) : mem :=
  match n with
  | O => m
  | S k => copy_up k (store8 m d (load8 m s)) (d + 1) (s + 1)
  end.

Definition memmove (m : mem) (dst src n : Z) : mem :=
  if (src <? dst) && (dst <? src + n) then copy_down (Z.to_nat n) m (dst + n) (src + n)
  else copy_up (Z.to_nat n) m dst src.

Definition memcpy (m : mem) (dst src n : Z) : mem := memmove m dst src n.

Fixpoint strncmp (n : nat) (m : mem) (p q : Z) : Z :=
  match n with
  | O => 0
  | S k =>
      if negb (load8 m p =? 0) && (load8 m p =? load8 m q) then strncmp k m (p + 1) (q + 1)
      else load8 m p - load8 m q
  end.

Fixpoint pad_zero (n : nat) (m : mem) (s : Z) : mem :=
  match n with
  | O => m
  | S k => pad_zero k (store8 m s 0) (s + 1)
  end.

Fixpoint strncpy_loop (n : nat) (m : mem) (s t : Z) : mem :=
  match n with
  | O => m
  | S k =>
      let m := store8 m s (load8 m t) in
      if load8 m s =? 0 then pad_zero k m (s + 1) else strncpy_loop k m (s + 1) (t + 1)
  end.
Definition strncpy (m : mem) (s t n : Z) : mem := strncpy_loop (Z.to_nat n) m s t.

Fixpoint strlen (fuel : nat) (m : mem) (s n : Z) : option Z :=
  match fuel with
  | O => None
  | S f => if load8 m (s + n) =? 0 then Some n else strlen f m s (n + 1)
  end.

(** [k] is [n - 1]; [pos] is how far both pointers have moved. *)
Fixpoint safestrcpy_loop (k pos : nat) (s t : list Z) : list Z :=
  match k with
  | O => <[pos := 0]> s
  | S k' =>
      let c := nth pos t 0 in
      let s := <[pos := c]> s in
      if c =? 0 then <[S pos := 0]> s else safestrcpy_loop k' (S pos) s t
  end.
Definition safestrcpy (s t : list Z) (n : Z) : list Z :=
  if n <=? 0 then s else safestrcpy_loop (Z.to_nat (n - 1)) 0 s t.

(** ** [memset] *)

Lemma memset_same m dst c n : 0 < n -> memset m dst c n = JosString.memset m dst c n.
Proof. intros. unfold memset, JosString.memset. by rewrite (proj2 (Z.eqb_neq n 0)) by lia. Qed.

(** ** [memmove] *)

Lemma copy_down_movs n m d s : copy_down n m d s = rep_movs movsb 1 (-1) n m (d - 1) (s - 1).
Proof.
  revert m d s. induction n as [|n IH]; intros; simpl; [done|]. rewrite IH.
  unfold movsb. f_equal; lia.
Qed.

Lemma copy_up_movs n m d s : copy_up n m d s = rep_movs movsb 1 1 n m d s.
Proof. revert m d s. induction n as [|n IH]; intros; simpl; [done|]. by rewrite IH. Qed.

(** The two loops as one copy. *)
Lemma memmove_load8 m dst src n b :
  mem_ok m -> 0 <= n ->
  load8 (memmove m dst src n) b = if decide (dst <= b < dst + n) then load8 m (src + (b - dst)) else load8 m b.
Proof.
  intros Hm Hn. unfold memmove. destruct ((src <? dst) && (dst <? src + n)) eqn:E.
  - apply andb_true_iff in E as [E1%Z.ltb_lt E2%Z.ltb_lt].
    rewrite copy_down_movs. by rewrite (rep_movs_down_choice false) by (done || lia).
  - rewrite copy_up_movs. by rewrite (rep_movs_up_choice false) by (done || lia).
Qed.

Lemma memmove_ok m dst src n : mem_ok m -> mem_ok (memmove m dst src n).
Proof.
  intros Hm. unfold memmove. case_match.
  - rewrite copy_down_movs. by apply rep_movs_ok; [exact movsb_ok|].
  - rewrite copy_up_movs. by apply rep_movs_ok; [exact movsb_ok|].
Qed.

(** C40: the byte loops of xv6's [memmove] leave every byte of memory as the
    word-wise [rep movs] code of JOS's [memmove] does, for every overlap and
    alignment. *)
Theorem memmove_equiv m dst src n b :
  mem_ok m -> 0 <= n ->
  load8 (memmove m dst src n) b = load8 (JosString.memmove m dst src n) b.
Proof.
  intros Hm Hn. unfold memmove, JosString.memmove.
  destruct ((src <? dst) && (dst <? src + n)) eqn:E.
  - apply andb_true_iff in E as [E1%Z.ltb_lt E2%Z.ltb_lt].
    rewrite copy_down_movs. symmetry.
    etransitivity; [apply rep_movs_down_choice; (done || lia)|].
    by rewrite (rep_movs_down_choice false) by (done || lia).
  - rewrite copy_up_movs. assert (dst <= src \/ src + n <= dst) by lia. symmetry.
    etransitivity; [apply rep_movs_up_choice; (done || lia)|].
    by rewrite (rep_movs_up_choice false) by (done || lia).
Qed.

Lemma memmove_equiv_witness :
  let m : mem := list_to_map (zip (seqZ 100 8) [1; 2; 3; 4; 5; 6; 7; 8]) in
  load8 (memmove m 101 100 7) 107 = load8 (JosString.memmove m 101 100 7) 107.
Proof.
  apply memmove_equiv; [apply (bool_decide_unpack _); vm_compute; exact I|lia].
Defined.

(** ** [safestrcpy] *)

(** The string an array holds: its bytes before the first 0. *)
Fixpoint cstr (l : list Z) : list Z :=
  match l with
  | [] => []
  | c :: l => if c =? 0 then [] else c :: cstr l
  end.

Lemma safestrcpy_loop_spec k pos s t :
  (pos + k < length s)%nat ->
  length (safestrcpy_loop k pos s t) = length s /\
  take pos (safestrcpy_loop k pos s t) = take pos s /\
  cstr (drop pos (safestrcpy_loop k pos s t)) = take k (cstr (drop pos t)).
Proof.
  revert pos s. induction k as [|k IH]; intros pos s Hlen; simpl.
  - rewrite length_insert. split_and!; [done|by rewrite take_insert_ge by lia|].
    by rewrite (drop_S _ 0) by (apply list_lookup_insert_eq; lia).
  - set (c := nth pos t 0). set (s1 := <[pos := c]> s).
    assert (length s1 = length s) as Hl1 by apply length_insert.
    assert (c = default 0 (t !! pos)) as Hc by apply nth_lookup.
    destruct (Z.eqb_spec c 0) as [E|E].
    + rewrite length_insert. unfold s1. split_and!; [by rewrite length_insert|by rewrite !take_insert_ge by lia|].
      rewrite (drop_S _ c); [simpl; rewrite E; simpl|].
      * destruct (t !! pos) as [c'|] eqn:Et.
        -- rewrite (drop_S _ c') by done. assert (c' = 0) as -> by (simpl in Hc; congruence). done.
        -- by rewrite (drop_ge t pos) by (by apply lookup_ge_None).
      * rewrite list_lookup_insert_ne by lia. apply list_lookup_insert_eq. lia.
    + destruct (IH (S pos) s1) as (IH1 & IH2 & IH3); [lia|]. split_and!; [lia|..].
      * apply (f_equal (take pos)) in IH2. rewrite !take_take in IH2.
        replace (pos `min` S pos)%nat with pos in IH2 by lia.
        rewrite IH2. unfold s1. by rewrite take_insert_ge by lia.
      * rewrite (drop_S _ c); [simpl; rewrite (drop_S t c); [simpl|]|].
        -- destruct (Z.eqb_spec c 0); [done|]. simpl. by rewrite IH3.
        -- destruct (t !! pos); simpl in Hc; congruence.
        -- assert (take (S pos) (safestrcpy_loop k (S pos) s1 t) !! pos = Some c) as H.
           { rewrite IH2, lookup_take_lt by lia. apply list_lookup_insert_eq. lia. }
           by rewrite lookup_take_lt in H by lia.
Qed.

(** [safestrcpy] into an array of at least [n > 0] bytes leaves a
    terminated string there: the longest prefix of the source string of at most
    [n - 1] characters; the size of the array does not change. *)
Theorem safestrcpy_spec s t n :
  0 < n <= Z.of_nat (length s) ->
  length (safestrcpy s t n) = length s /\
  cstr (safestrcpy s t n) = take (Z.to_nat (n - 1)) (cstr t) /\
  (length (cstr (safestrcpy s t n)) < length (safestrcpy s t n))%nat.
Proof.
  intros Hn. unfold safestrcpy. destruct (Z.leb_spec n 0); [lia|].
  destruct (safestrcpy_loop_spec (Z.to_nat (n - 1)) 0 s t) as (H1 & _ & H3); [lia|].
  rewrite !drop_0 in H3. rewrite H1, H3. split_and!; [done..|].
  rewrite length_take. lia.
Qed.

Lemma safestrcpy_spec_witness :
  cstr (safestrcpy (replicate 4 7) (zs "init" ++ [0]) 4) = zs "ini".
Proof.
  destruct (safestrcpy_spec (replicate 4 7) (zs "init" ++ [0]) 4) as (_ & H & _).
  - simpl. lia.
  - rewrite H. reflexivity.
Defined.
