(* ===== verification/Xv6Console.v ===== *)
(** * xv6 console output (lab2/console.c)

    [printint] with its 16-byte buffer, and the format interpreter of the
    kernel's [cprintf].  The console device is the list of the characters sent
    to it. *)

From S2P Require Import Prelude CMem JosString JosPrintfmt.
From stdpp Require Import base numbers option list gmap strings.
From Stdlib Require Import Ascii.
Open Scope Z_scope.

(** The do-while loop: the digits from the least significant one on. *)
Fixpoint printint_loop (fuel : nat) (x base : Z) : list Z :=
  match fuel with
  | O => []
  | S f =>
      let rest := if x / base =? 0 then [] else printint_loop f (x / base) base in
      hexdigit (x mod base) :: rest
  end.

(** The characters in the order in which the last loop prints them: the buffer
    from its end. *)
Definition printint_buf (xx base : Z) (sign : bool) : list Z :=
  let neg := sign && (i32 xx <? 0) in
  let x := if neg then u32 (- i32 xx) else u32 xx in
  let buf := printint_loop 33 x base in
  if neg then buf ++ [zc "-"] else buf.

Definition printint (xx base : Z) (sign : bool) : list Z := rev (printint_buf xx base sign).

(** What [cprintf] sends; [None] when an argument is missing or of the wrong
    kind. *)
Fixpoint cprintf_out (fmt : list Z) (args : list arg) : option (list Z) :=
  match fmt with
  | [] => Some []
  | c :: fmt1 =>
      if negb (c =? zc "%") then app [c] <$> cprintf_out fmt1 args
      else
        match fmt1 with
        | [] => Some []
        | c :: fmt2 =>
            if c =? zc "d" then
              match args with
              | AInt w :: args => app (printint w 10 true) <$> cprintf_out fmt2 args
              | _ => None
              end
            else if (c =? zc "x") || (c =? zc "p") then
              match args with
              | AInt w :: args => app (printint w 16 false) <$> cprintf_out fmt2 args
              | _ => None
              end
            else if c =? zc "s" then
              match args with
              | AStr s :: args => app (default (zs "(null)") s) <$> cprintf_out fmt2 args
              | _ => None
              end
            else if c =? zc "%" then app [zc "%"] <$> cprintf_out fmt2 args
            else app [zc "%"; c] <$> cprintf_out fmt2 args
        end
  end.

Example cprintf_example :
  cprintf_out (zs "%d %x %s%%%q") [AInt (-12); AInt 3735928559; AStr None] =
    Some (zs "-12 deadbeef (null)%%q").
Proof. reflexivity. Qed.

(** ** [printint] *)

Lemma printint_loop_digits fuel x base :
  2 <= base -> 0 <= x < base ^ Z.of_nat fuel -> (0 < fuel)%nat ->
  rev (printint_loop fuel x base) = map hexdigit (digits fuel base x).
Proof.
  intros Hb. revert x. induction fuel as [|fuel IH]; intros x Hx Hf; [lia|].
  rewrite pow_succ in Hx by lia. cbn [printint_loop digits]. simpl rev.
  destruct (Z.leb_spec base x) as [Hle|Hlt].
  - rewrite map_app. destruct (Z.eqb_spec (x / base) 0) as [E|E].
    { pose proof (Z.div_str_pos x base). lia. }
    rewrite IH; [done| |].
    + split; [apply Z.div_pos; lia|apply Z.div_lt_upper_bound; lia].
    + destruct fuel; [simpl in Hx; lia|lia].
  - rewrite Z.div_small by lia. done.
Qed.

Lemma digits_length fuel base x k :
  2 <= base -> 0 <= x < base ^ Z.of_nat k -> (0 < k)%nat -> (length (digits fuel base x) <= k)%nat.
Proof.
  intros Hb. revert x k. induction fuel as [|fuel IH]; intros x k Hx Hk; [simpl; lia|].
  cbn [digits]. destruct (Z.leb_spec base x); [|simpl; lia].
  destruct k as [|k]; [lia|]. rewrite pow_succ in Hx by lia. rewrite length_app. simpl.
  destruct k as [|k]; [simpl in Hx; lia|].
  specialize (IH (x / base) (S k)). rewrite Nat.add_1_r. apply le_n_S, IH; [|lia].
  split; [apply Z.div_pos; lia|apply Z.div_lt_upper_bound; lia].
Qed.

(** For every 32-bit word, [printint] in base 10 prints the minus sign of a
    negative number and the decimal digits of its absolute value, also for the
    most negative number; in base 16 it prints the hexadecimal digits of the
    unsigned word; and the digits with the sign fit in the 16-byte buffer. *)
Theorem printint_spec xx :
  0 <= xx < 2 ^ 32 ->
  printint xx 10 true =
    (if i32 xx <? 0 then [zc "-"] else []) ++ map hexdigit (digits 33 10 (Z.abs (i32 xx))) /\
  value 10 (digits 33 10 (Z.abs (i32 xx))) = Z.abs (i32 xx) /\
  printint xx 16 false = map hexdigit (digits 33 16 xx) /\
  value 16 (digits 33 16 xx) = xx /\
  (length (printint_buf xx 10 true) <= 16)%nat /\ (length (printint_buf xx 16 false) <= 16)%nat.
Proof.
  intros Hx. assert (- 2 ^ 31 <= i32 xx < 2 ^ 31) as Hi by apply i32_range.
  set (v := Z.abs (i32 xx)). assert (0 <= v <= 2 ^ 31) as Hv by lia.
  assert (Hb : forall b, 2 <= b -> forall y, 0 <= y < 2 ^ 32 -> 0 <= y < b ^ Z.of_nat 33).
  { intros b Hb y Hy. split; [lia|]. apply Z.lt_le_trans with (2 ^ Z.of_nat 33).
    - etransitivity; [apply Hy|]. by apply Z.pow_lt_mono_r.
    - by apply Z.pow_le_mono_l. }
  assert (Hbuf10 : printint_buf xx 10 true =
    printint_loop 33 v 10 ++ (if i32 xx <? 0 then [zc "-"] else [])).
  { unfold printint_buf. cbn [andb]. destruct (Z.ltb_spec (i32 xx) 0).
    - rewrite u32_small by lia. by replace (- i32 xx) with v by lia.
    - rewrite app_nil_r, u32_small by lia. f_equal. unfold v. rewrite Z.abs_eq by lia.
      revert H. unfold i32. clear Hb v Hv Hi. dlia. }
  assert (Hd10 : rev (printint_loop 33 v 10) = map hexdigit (digits 33 10 v))
    by (apply printint_loop_digits; [lia|apply Hb; lia|lia]).
  assert (Hd16 : rev (printint_loop 33 xx 16) = map hexdigit (digits 33 16 xx))
    by (apply printint_loop_digits; [lia|apply Hb; lia|lia]).
  assert (Hbuf16 : printint_buf xx 16 false = printint_loop 33 xx 16).
  { unfold printint_buf. cbn [andb]. rewrite u32_small by lia. reflexivity. }
  split_and!.
  - unfold printint. rewrite Hbuf10, rev_app_distr, Hd10. by destruct (i32 xx <? 0).
  - apply digits_value; [lia|apply Hb; lia].
  - unfold printint. by rewrite Hbuf16.
  - apply digits_value; [lia|apply Hb; lia].
  - rewrite Hbuf10, length_app, <- length_rev, Hd10, length_map.
    assert (length (digits 33 10 v) <= 10)%nat by (apply digits_length; lia).
    destruct (i32 xx <? 0); cbn [length]; lia.
  - rewrite Hbuf16, <- length_rev, Hd16, length_map.
    assert (length (digits 33 16 xx) <= 8)%nat by (apply digits_length; lia). lia.
Qed.

Lemma printint_spec_witness :
  printint (2 ^ 31) 10 true = zs "-2147483648" /\ 0 <= 2 ^ 31 < 2 ^ 32.
Proof.
  assert (0 <= 2 ^ 31 < 2 ^ 32) as H by lia. split; [|exact H].
  destruct (printint_spec (2 ^ 31) H) as (E & _). rewrite E. reflexivity.
Defined.
