(* ===== verification/Xv6Proc.v ===== *)
(** * xv6 processes (lab2/proc.c, lab2/proc.h)

    The process table and every routine of proc.c that works on it.  The
    components it calls (page allocator, address spaces, files, log) are the
    operations of the class [Services] on a state of their own; a context
    switch is a parameter of the routines that perform one. *)

From S2P Require Import Prelude CMem JosString JosPrintfmt Xv6Lock Xv6String Xv6Console.
From stdpp Require Import base numbers option list gmap strings.
From Stdlib Require Import Ascii.
Open Scope Z_scope.

Definition NPROC : nat := 64.
Definition NOFILE : nat := 16.
Definition KSTACKSIZE : Z := 4096.
Definition PGSIZE : Z := 4096.
Definition DEFAULT_BUDGET : Z := 5.
Definition MAXPRIORITY : Z := 2.
Definition TICKS_TO_PROMOTE : Z := 50.
Definition ROOTDEV : Z := 1.

(** ** Data *)

Inductive procstate := UNUSED | EMBRYO | SLEEPING | RUNNABLE | RUNNING | ZOMBIE.
#[global] Instance procstate_eq_dec : EqDecision procstate.
Proof. solve_decision. Defined.

(** A [void *]: null, a slot of the process table, or another address. *)
Inductive ptr := PNull | PProc (i : nat) | PAddr (a : Z).
#[global] Instance ptr_eq_dec : EqDecision ptr.
Proof. solve_decision. Defined.

Definition proc_ptr (p : option nat) : ptr :=
  match p with Some i => PProc i | None => PNull end.

Record proc : Type := MkProc {
  sz : Z; pgdir : Z; kstack : Z; state : procstate; pid : Z; parent : option nat;
  tf : Z; context : Z; chan : ptr; killed : Z; ofile : list Z; cwd : Z; name : list Z;
  priority : Z; budget : Z; num_tickets : Z; num_scheduled : Z; ticks : Z }.

Definition proc0 : proc :=
  MkProc 0 0 0 UNUSED 0 None 0 0 PNull 0 (replicate NOFILE 0) 0 (replicate 16 0) 0 0 0 0 0.

Definition set_state (x : procstate) (p : proc) : proc :=
  MkProc (sz p) (pgdir p) (kstack p) x (pid p) (parent p) (tf p) (context p) (chan p) (killed p)
    (ofile p) (cwd p) (name p) (priority p) (budget p) (num_tickets p) (num_scheduled p) (ticks p).
Definition set_chan (x : ptr) (p : proc) : proc :=
  MkProc (sz p) (pgdir p) (kstack p) (state p) (pid p) (parent p) (tf p) (context p) x (killed p)
    (ofile p) (cwd p) (name p) (priority p) (budget p) (num_tickets p) (num_scheduled p) (ticks p).
Definition set_killed (x : Z) (p : proc) : proc :=
  MkProc (sz p) (pgdir p) (kstack p) (state p) (pid p) (parent p) (tf p) (context p) (chan p) x
    (ofile p) (cwd p) (name p) (priority p) (budget p) (num_tickets p) (num_scheduled p) (ticks p).
Definition set_parent (x : option nat) (p : proc) : proc :=
  MkProc (sz p) (pgdir p) (kstack p) (state p) (pid p) x (tf p) (context p) (chan p) (killed p)
    (ofile p) (cwd p) (name p) (priority p) (budget p) (num_tickets p) (num_scheduled p) (ticks p).
Definition set_prio (x b : Z) (p : proc) : proc :=
  MkProc (sz p) (pgdir p) (kstack p) (state p) (pid p) (parent p) (tf p) (context p) (chan p)
    (killed p) (ofile p) (cwd p) (name p) x b (num_tickets p) (num_scheduled p) (ticks p).
Definition set_tickets (x y : Z) (p : proc) : proc :=
  MkProc (sz p) (pgdir p) (kstack p) (state p) (pid p) (parent p) (tf p) (context p) (chan p)
    (killed p) (ofile p) (cwd p) (name p) (priority p) (budget p) x y (ticks p).
Definition set_pticks (x : Z) (p : proc) : proc :=
  MkProc (sz p) (pgdir p) (kstack p) (state p) (pid p) (parent p) (tf p) (context p) (chan p)
    (killed p) (ofile p) (cwd p) (name p) (priority p) (budget p) (num_tickets p)
    (num_scheduled p) x.
Definition set_pid (x : Z) (p : proc) : proc :=
  MkProc (sz p) (pgdir p) (kstack p) (state p) x (parent p) (tf p) (context p) (chan p) (killed p)
    (ofile p) (cwd p) (name p) (priority p) (budget p) (num_tickets p) (num_scheduled p) (ticks p).
Definition set_stack (k t c : Z) (p : proc) : proc :=
  MkProc (sz p) (pgdir p) k (state p) (pid p) (parent p) t c (chan p) (killed p)
    (ofile p) (cwd p) (name p) (priority p) (budget p) (num_tickets p) (num_scheduled p) (ticks p).
Definition set_space (d z : Z) (p : proc) : proc :=
  MkProc z d (kstack p) (state p) (pid p) (parent p) (tf p) (context p) (chan p) (killed p)
    (ofile p) (cwd p) (name p) (priority p) (budget p) (num_tickets p) (num_scheduled p) (ticks p).
Definition set_files (l : list Z) (d : Z) (p : proc) : proc :=
  MkProc (sz p) (pgdir p) (kstack p) (state p) (pid p) (parent p) (tf p) (context p) (chan p)
    (killed p) l d (name p) (priority p) (budget p) (num_tickets p) (num_scheduled p) (ticks p).
Definition set_name (l : list Z) (p : proc) : proc :=
  MkProc (sz p) (pgdir p) (kstack p) (state p) (pid p) (parent p) (tf p) (context p) (chan p)
    (killed p) (ofile p) (cwd p) l (priority p) (budget p) (num_tickets p) (num_scheduled p) (ticks p).

(** What proc.c uses of the other components. *)
Class Services (R : Type) := {
  kalloc : M R Z;
  kfree : Z -> M R unit;
  setupkvm : M R Z;
  inituvm : Z -> Z -> Z -> M R unit;
  copyuvm : Z -> Z -> M R Z;
  freevm : Z -> M R unit;
  allocuvm : Z -> Z -> Z -> M R Z;
  deallocuvm : Z -> Z -> Z -> M R Z;
  switchuvm : proc -> M R unit;
  switchkvm : M R unit;
  filedup : Z -> M R Z;
  fileclose : Z -> M R unit;
  idup : Z -> M R Z;
  iput : Z -> M R unit;
  begin_op : M R unit;
  end_op : M R unit;
  namei : list Z -> M R Z;
  iinit : Z -> M R unit;
  initlog : Z -> M R unit }.

(** The kernel state; [x_ticks] is the global clock, [x_locking] the flag
    [cons.locking], [x_con] what the console has printed. *)
Record xst (R : Type) : Type := XSt {
  x_hw : hw; procs : list proc; nextpid : Z; initproc : option nat; promote_at : Z;
  x_ticks : Z; first : bool; x_locking : bool; x_con : list Z; x_rest : R }.
Arguments XSt {R}.
Arguments x_hw {R}. Arguments procs {R}. Arguments nextpid {R}. Arguments initproc {R}.
Arguments promote_at {R}. Arguments x_ticks {R}. Arguments first {R}. Arguments x_locking {R}.
Arguments x_con {R}. Arguments x_rest {R}.

Definition ptable_lock : nat := 0.
Definition cons_lock : nat := 1.
Definition ticks_lock : nat := 2.

Section setters.
Context {R : Type}.
Implicit Types s : xst R.
Definition with_hw (h : hw) s : xst R :=
  XSt h (procs s) (nextpid s) (initproc s) (promote_at s) (x_ticks s) (first s) (x_locking s) (x_con s) (x_rest s).
Definition with_procs (l : list proc) s : xst R :=
  XSt (x_hw s) l (nextpid s) (initproc s) (promote_at s) (x_ticks s) (first s) (x_locking s) (x_con s) (x_rest s).
Definition with_nextpid (n : Z) s : xst R :=
  XSt (x_hw s) (procs s) n (initproc s) (promote_at s) (x_ticks s) (first s) (x_locking s) (x_con s) (x_rest s).
Definition with_initproc (p : option nat) s : xst R :=
  XSt (x_hw s) (procs s) (nextpid s) p (promote_at s) (x_ticks s) (first s) (x_locking s) (x_con s) (x_rest s).
Definition with_promote (t : Z) s : xst R :=
  XSt (x_hw s) (procs s) (nextpid s) (initproc s) t (x_ticks s) (first s) (x_locking s) (x_con s) (x_rest s).
Definition with_first (b : bool) s : xst R :=
  XSt (x_hw s) (procs s) (nextpid s) (initproc s) (promote_at s) (x_ticks s) b (x_locking s) (x_con s) (x_rest s).
Definition with_con (c : list Z) s : xst R :=
  XSt (x_hw s) (procs s) (nextpid s) (initproc s) (promote_at s) (x_ticks s) (first s) (x_locking s) c (x_rest s).
Definition with_rest (r : R) s : xst R :=
  XSt (x_hw s) (procs s) (nextpid s) (initproc s) (promote_at s) (x_ticks s) (first s) (x_locking s) (x_con s) r.
End setters.

#[global] Instance xst_hw R : HasHw (xst R) := {
  hw_of := x_hw; set_hw := with_hw;
  hw_of_set := ltac:(reflexivity); set_hw_set := ltac:(reflexivity);
  set_hw_of := ltac:(by destruct s) }.

(** ** Access to the table *)

Section routines.
Context {R : Type} `{SV : Services R}.
Notation MX := (M (xst R)).

(** A call of another component; what it prints when it panics is told apart. *)
Definition rest {A} (m : M R A) : MX A := fun s =>
  match m (x_rest s) with
  | Ok a r => Ok a (with_rest r s)
  | Panic msg r => Panic ("service: " +:+ msg) (with_rest r s)
  | NoFuel => NoFuel
  end.

Definition pget (i : nat) : MX proc := fun s =>
  match procs s !! i with Some p => Ok p s | None => Panic "ptable: out of range" s end.
Definition pupd (i : nat) (f : proc -> proc) : MX unit := fun s =>
  match procs s !! i with
  | Some p => Ok tt (with_procs (<[i := f p]> (procs s)) s)
  | None => Panic "ptable: out of range" s
  end.
Definition memupd (f : mem -> mem) : MX unit :=
  modify (fun s => with_hw (set_hmem (f (h_mem (x_hw s))) (x_hw s)) s).

(** [for(p = ptable.proc; p < &ptable.proc[NPROC]; p++)]; the first slot that
    passes a test. *)
Definition slots : list nat := seq 0 NPROC.
Fixpoint find_slot (l : list nat) (test : proc -> bool) : MX (option nat) :=
  match l with
  | [] => mret None
  | i :: l => p ← pget i; if test p then mret (Some i) else find_slot l test
  end.

(** The running process; following a null pointer is an error. *)
Definition curproc : MX nat :=
  p ← lift myproc;
  match p with Some i => mret i | None => panic "null process" end.

(** ** Priorities *)

Definition setpriority (pid' prio : Z) : MX Z :=
  lift (acquire ptable_lock);;
  if (prio <? 0) || (MAXPRIORITY <? prio) then mret (-1)
  else
    r ← find_slot slots (fun p => pid p =? pid');
    match r with
    | Some i =>
        pupd i (set_prio prio DEFAULT_BUDGET);;
        lift (release ptable_lock);;
        mret 0
    | None => lift (release ptable_lock);; mret (-1)
    end.

Definition getpriority (pid' : Z) : MX Z :=
  lift (acquire ptable_lock);;
  r ← find_slot slots (fun p => (pid p =? pid') && negb (bool_decide (state p = UNUSED)));
  match r with
  | Some i =>
      lift (release ptable_lock);;
      p ← pget i; mret (priority p)
  | None => lift (release ptable_lock);; mret (-1)
  end.

Definition pinit : MX unit := lift (initlock ptable_lock).

(** ** Creation *)

Definition sizeof_trapframe : Z := 76.
Definition sizeof_context : Z := 20.

(** [trapret] and [forkret] are the addresses of these routines. *)
Definition allocproc (trapret forkret : Z) : MX (option nat) :=
  lift (acquire ptable_lock);;
  r ← find_slot slots (fun p => bool_decide (state p = UNUSED));
  match r with
  | None => lift (release ptable_lock);; mret None
  | Some i =>
      pupd i (set_state EMBRYO);;
      pupd i (set_prio MAXPRIORITY DEFAULT_BUDGET);;
      pupd i (set_tickets 1 0);;
      n ← gets nextpid;
      modify (with_nextpid (i32 (n + 1)));;
      pupd i (set_pid n);;
      lift (release ptable_lock);;
      k ← rest kalloc;
      pupd i (fun p => set_stack k (tf p) (context p) p);;
      if k =? 0 then pupd i (set_state UNUSED);; mret None
      else
        let sp := k + KSTACKSIZE in
        let sp := sp - sizeof_trapframe in
        pupd i (fun p => set_stack (kstack p) sp (context p) p);;
        let sp := sp - 4 in
        memupd (fun m => store32 m sp trapret);;
        let sp := sp - sizeof_context in
        pupd i (fun p => set_stack (kstack p) (tf p) sp p);;
        memupd (fun m => memset m sp 0 sizeof_context);;
        memupd (fun m => store32 m (sp + 16) forkret);;
        mret (Some i)
  end.

(** Fields of [struct trapframe], by their offset. *)
Definition store16 (m : mem) (a v : Z) : mem := store8 (store8 m a v) (a + 1) (Z.shiftr v 8).
Definition tf_eax : Z := 28.
Definition tf_es : Z := 40.
Definition tf_ds : Z := 44.
Definition tf_eip : Z := 56.
Definition tf_cs : Z := 60.
Definition tf_eflags : Z := 64.
Definition tf_esp : Z := 68.
Definition tf_ss : Z := 72.
Definition SEG_UCODE : Z := 3.
Definition SEG_UDATA : Z := 4.
Definition DPL_USER : Z := 3.
Definition FL_IF : Z := 512.

Definition userinit (trapret forkret initcode_start initcode_size : Z) : MX unit :=
  modify (fun s => with_promote (u32 (x_ticks s + TICKS_TO_PROMOTE)) s);;
  r ← allocproc trapret forkret;
  modify (with_initproc r);;
  match r with
  | None => panic "null process"
  | Some i =>
      d ← rest setupkvm;
      pupd i (fun p => set_space d (sz p) p);;
      if d =? 0 then panic "userinit: out of memory?"
      else
        rest (inituvm d initcode_start (i32 initcode_size));;
        pupd i (fun p => set_space (pgdir p) PGSIZE p);;
        p ← pget i;
        let t := tf p in
        let data := Z.lor (Z.shiftl SEG_UDATA 3) DPL_USER in
        memupd (fun m => memset m t 0 sizeof_trapframe);;
        memupd (fun m => store16 m (t + tf_cs) (Z.lor (Z.shiftl SEG_UCODE 3) DPL_USER));;
        memupd (fun m => store16 m (t + tf_ds) data);;
        memupd (fun m => store16 m (t + tf_es) data);;
        memupd (fun m => store16 m (t + tf_ss) data);;
        memupd (fun m => store32 m (t + tf_eflags) FL_IF);;
        memupd (fun m => store32 m (t + tf_esp) PGSIZE);;
        memupd (fun m => store32 m (t + tf_eip) 0);;
        pupd i (fun p => set_name (safestrcpy (name p) (zs "initcode" ++ [0]) 16) p);;
        c ← rest (namei (zs "/"));
        pupd i (fun p => set_files (ofile p) c p);;
        lift (acquire ptable_lock);;
        pupd i (set_state RUNNABLE);;
        lift (release ptable_lock)
  end.

Definition growproc (n : Z) : MX Z :=
  cur ← curproc;
  p ← pget cur;
  let sz0 := sz p in
  if 0 <? n then
    z ← rest (allocuvm (pgdir p) sz0 (u32 (sz0 + n)));
    if z =? 0 then mret (-1)
    else pupd cur (fun p => set_space (pgdir p) z p);; p ← pget cur; rest (switchuvm p);; mret 0
  else if n <? 0 then
    z ← rest (deallocuvm (pgdir p) sz0 (u32 (sz0 + n)));
    if z =? 0 then mret (-1)
    else pupd cur (fun p => set_space (pgdir p) z p);; p ← pget cur; rest (switchuvm p);; mret 0
  else
    pupd cur (fun p => set_space (pgdir p) sz0 p);; p ← pget cur; rest (switchuvm p);; mret 0.

(** A structure copy, word by word. *)
Fixpoint copy_words (n : nat) (m : mem) (d s : Z) : mem :=
  match n with
  | O => m
  | S k => copy_words k (store32 m d (load32 m s)) (d + 4) (s + 4)
  end.

Definition fork_files (np cur : nat) : MX unit :=
  for_each (seq 0 NOFILE) (fun i =>
    p ← pget cur;
    let f := nth i (ofile p) 0 in
    if f =? 0 then mret tt
    else f' ← rest (filedup f); pupd np (fun q => set_files (<[i := f']> (ofile q)) (cwd q) q)).

Definition fork (trapret forkret : Z) : MX Z :=
  cur ← curproc;
  r ← allocproc trapret forkret;
  match r with
  | None => mret (-1)
  | Some np =>
      p ← pget cur;
      d ← rest (copyuvm (pgdir p) (sz p));
      pupd np (fun q => set_space d (sz q) q);;
      if d =? 0 then
        q ← pget np;
        rest (kfree (kstack q));;
        pupd np (fun q => set_stack 0 (tf q) (context q) q);;
        pupd np (set_state UNUSED);;
        mret (-1)
      else
        p ← pget cur;
        pupd np (fun q => set_space (pgdir q) (sz p) q);;
        pupd np (set_parent (Some cur));;
        q ← pget np;
        memupd (fun m => copy_words 19 m (tf q) (tf p));;
        pupd np (set_tickets (num_tickets p) 0);;
        memupd (fun m => store32 m (tf q + tf_eax) 0);;
        fork_files np cur;;
        p ← pget cur;
        c ← rest (idup (cwd p));
        pupd np (fun q => set_files (ofile q) c q);;
        pupd np (fun q => set_name (safestrcpy (name q) (name p) 16) q);;
        q ← pget np;
        let pid' := pid q in
        lift (acquire ptable_lock);;
        pupd np (set_state RUNNABLE);;
        lift (release ptable_lock);;
        mret pid'
  end.

(** ** Giving up the processor *)

(** [swtch] is everything that happens between the switch to the scheduler and
    the switch back. *)
Definition sched (swtch : MX unit) : MX unit :=
  r ← lift myproc;
  h ← lift (holding ptable_lock);
  if negb h then panic "sched ptable.lock"
  else
    i ← lift mycpu; c ← lift (cpu_get i);
    if negb (ncli c =? 1) then panic "sched locks"
    else
      p ← (match r with Some j => pget j | None => panic "null process" end);
      if bool_decide (state p = RUNNING) then panic "sched running"
      else
        f ← gets (fun s => eflags_if (x_hw s));
        if f : bool then panic "sched interruptible"
        else
          i ← lift mycpu; c ← lift (cpu_get i);
          let saved := intena c in
          swtch;;
          i ← lift mycpu; c ← lift (cpu_get i);
          lift (cpu_set i (MkCpu (apicid c) (ncli c) saved (cpu_proc c))).

Definition yield (swtch : MX unit) : MX unit :=
  lift (acquire ptable_lock);;
  cur ← curproc;
  pupd cur (set_state RUNNABLE);;
  sched swtch;;
  lift (release ptable_lock).

Definition forkret : MX unit :=
  lift (release ptable_lock);;
  f ← gets first;
  if f : bool then
    modify (with_first false);;
    rest (iinit ROOTDEV);;
    rest (initlog ROOTDEV)
  else mret tt.

(** What [sleep] does before and after the switch. *)
Definition sleep_enter (ch : ptr) (lk : nat) : MX nat :=
  r ← lift myproc;
  match r with
  | None => panic "sleep"
  | Some cur =>
      (if negb (lk =? ptable_lock)%nat
       then lift (acquire ptable_lock);; lift (release lk) else mret tt);;
      pupd cur (set_chan ch);;
      pupd cur (set_state SLEEPING);;
      mret cur
  end.

Definition sleep (swtch : MX unit) (ch : ptr) (lk : nat) : MX unit :=
  cur ← sleep_enter ch lk;
  sched swtch;;
  pupd cur (set_chan PNull);;
  (if negb (lk =? ptable_lock)%nat
   then lift (release ptable_lock);; lift (acquire lk) else mret tt).

Definition wakeup1 (ch : ptr) : MX unit :=
  for_each slots (fun i =>
    p ← pget i;
    if bool_decide (state p = SLEEPING) && bool_decide (chan p = ch)
    then pupd i (set_state RUNNABLE) else mret tt).

Definition wakeup (ch : ptr) : MX unit :=
  lift (acquire ptable_lock);;
  wakeup1 ch;;
  lift (release ptable_lock).

Definition kill (pid' : Z) : MX Z :=
  lift (acquire ptable_lock);;
  r ← find_slot slots (fun p => pid p =? pid');
  match r with
  | Some i =>
      pupd i (set_killed 1);;
      p ← pget i;
      (if bool_decide (state p = SLEEPING) then pupd i (set_state RUNNABLE) else mret tt);;
      lift (release ptable_lock);;
      mret 0
  | None => lift (release ptable_lock);; mret (-1)
  end.

(** ** Exit and wait *)

Definition exit_files (cur : nat) : MX unit :=
  for_each (seq 0 NOFILE) (fun fd =>
    p ← pget cur;
    let f := nth fd (ofile p) 0 in
    if f =? 0 then mret tt
    else rest (fileclose f);; pupd cur (fun q => set_files (<[fd := 0]> (ofile q)) (cwd q) q)).

Definition exit_orphans (cur : nat) : MX unit :=
  for_each slots (fun i =>
    p ← pget i;
    if bool_decide (parent p = Some cur) then
      ini ← gets initproc;
      pupd i (set_parent ini);;
      p ← pget i;
      if bool_decide (state p = ZOMBIE) then wakeup1 (proc_ptr ini) else mret tt
    else mret tt).

(** The part of [exit] that runs under the lock of the table. *)
Definition exit_locked (cur : nat) : MX unit :=
  p ← pget cur;
  wakeup1 (proc_ptr (parent p));;
  exit_orphans cur;;
  pupd cur (set_state ZOMBIE).

Definition exit (swtch : MX unit) : MX unit :=
  cur ← curproc;
  ini ← gets initproc;
  if bool_decide (ini = Some cur) then panic "init exiting"
  else
    exit_files cur;;
    rest begin_op;;
    p ← pget cur;
    rest (iput (cwd p));;
    rest end_op;;
    pupd cur (fun q => set_files (ofile q) 0 q);;
    lift (acquire ptable_lock);;
    exit_locked cur;;
    sched swtch;;
    panic "zombie exit".

(** One scan of the table: the pid of a child that was reaped, or whether there
    are children at all. *)
Fixpoint wait_scan (l : list nat) (cur : nat) (havekids : bool) : MX (Z + bool) :=
  match l with
  | [] => mret (inr havekids)
  | i :: l =>
      p ← pget i;
      if negb (bool_decide (parent p = Some cur)) then wait_scan l cur havekids
      else if bool_decide (state p = ZOMBIE) then
        let pid' := pid p in
        rest (kfree (kstack p));;
        pupd i (fun q => set_stack 0 (tf q) (context q) q);;
        rest (freevm (pgdir p));;
        pupd i (set_pid 0);;
        pupd i (set_parent None);;
        pupd i (fun q => set_name (<[0%nat := 0]> (name q)) q);;
        pupd i (set_killed 0);;
        pupd i (set_state UNUSED);;
        mret (inl pid')
      else wait_scan l cur true
  end.

(** The loop of [wait]; each iteration but the last sleeps. *)
Fixpoint wait_loop (fuel : nat) (swtch : MX unit) (cur : nat) : MX Z :=
  match fuel with
  | O => no_fuel
  | S f =>
      r ← wait_scan slots cur false;
      match r with
      | inl pid' => lift (release ptable_lock);; mret pid'
      | inr havekids =>
          p ← pget cur;
          if negb havekids || negb (killed p =? 0)
          then lift (release ptable_lock);; mret (-1)
          else sleep swtch (PProc cur) ptable_lock;; wait_loop f swtch cur
      end
  end.

Definition wait (fuel : nat) (swtch : MX unit) : MX Z :=
  cur ← curproc;
  lift (acquire ptable_lock);;
  wait_loop fuel swtch cur.
End routines.

(** ** The table a routine leaves

    The lemmas below follow the process table through the routines.  A view
    keeps the table, the first process, the next pid and the process that runs
    on this processor.  [tri P m Q E] says: from a state whose view satisfies
    [P], when [m] returns its result and view satisfy [Q], and when [m] reaches
    the context switch [leave] the view satisfies [E] there. *)

Definition this_proc (h : hw) : option nat :=
  match list_find (fun c => apicid c = lapicid h) (cpus h) with
  | Some (_, c) => cpu_proc c
  | None => None
  end.

Record tab : Type := MkTab {
  t_procs : list proc; t_init : option nat; t_next : Z; t_cur : option nat }.

Definition view {R} (s : xst R) : tab :=
  MkTab (procs s) (initproc s) (nextpid s) (this_proc (x_hw s)).

Definition leave {S A} : M S A := fun s => Panic "swtch" s.

Section tri.
Context {R : Type}.

Definition tri {A} (t : tab) (m : M (xst R) A) (Q : A -> tab -> Prop) (E : tab -> Prop) : Prop :=
  forall s, view s = t ->
  match m s with
  | Ok a s' => Q a (view s')
  | Panic msg s' => msg = "swtch" -> E (view s')
  | NoFuel => True
  end.

Lemma tri_ret {A} (a : A) t (Q : A -> tab -> Prop) E : Q a t -> tri t (mret a) Q E.
Proof. intros HQ s <-. exact HQ. Qed.

Lemma tri_bind {A B} t (m : M (xst R) A) (f : A -> M (xst R) B) Q1 Q E :
  tri t m Q1 E -> (forall a t', Q1 a t' -> tri t' (f a) Q E) -> tri t (m ≫= f) Q E.
Proof.
  intros Hm Hf s Hs. specialize (Hm s Hs). unfold mbind, M_bind.
  destruct (m s) as [a s'|msg s'|]; [|done..]. by apply (Hf a (view s')).
Qed.

Lemma tri_mono {A} t (m : M (xst R) A) (Q Q' : A -> tab -> Prop) E E' :
  tri t m Q E -> (forall a t', Q a t' -> Q' a t') -> (forall t', E t' -> E' t') -> tri t m Q' E'.
Proof. intros Hm HQ HE s Hs. specialize (Hm s Hs). destruct (m s); auto. Qed.

Lemma tri_panic {A} t msg (Q : A -> tab -> Prop) E : msg <> "swtch" -> tri t (panic msg) Q E.
Proof. intros Hne s _ ?. done. Qed.

Lemma tri_leave {A} t (Q : A -> tab -> Prop) (E : tab -> Prop) : E t -> tri t leave Q E.
Proof. intros HE s <- _. done. Qed.

Lemma tri_no_fuel {A} t (Q : A -> tab -> Prop) E : tri t no_fuel Q E.
Proof. done. Qed.

Lemma tri_rest {A} t (m : M R A) E : tri t (rest m) (fun _ t' => t' = t) E.
Proof. intros s <-. unfold rest. by destruct (m (x_rest s)). Qed.

Lemma tri_pget t i E :
  tri t (pget i) (fun p t' => t' = t /\ t_procs t !! i = Some p) E.
Proof. intros s <-. unfold pget. simpl. by destruct (procs s !! i). Qed.

Definition put (i : nat) (p : proc) (t : tab) : tab :=
  MkTab (<[i := p]> (t_procs t)) (t_init t) (t_next t) (t_cur t).

Lemma tri_pupd t i f E :
  tri t (pupd i f) (fun _ t' => exists p, t_procs t !! i = Some p /\ t' = put i (f p) t) E.
Proof. intros s <-. unfold pupd. simpl. destruct (procs s !! i); [by eexists|done]. Qed.

Lemma tri_memupd t f E : tri t (memupd f) (fun _ t' => t' = t) E.
Proof. by intros s <-. Qed.

Lemma tri_gets {A} t (f : xst R -> A) (g : tab -> A) E :
  (forall s, f s = g (view s)) -> tri t (gets f) (fun a t' => a = g t /\ t' = t) E.
Proof. intros Hf s <-. split; [apply Hf|done]. Qed.
End tri.

(** The processor operations keep the running process. *)
Definition calm {A} (o : option nat) (m : M hw A) (Q : A -> Prop) : Prop :=
  forall h, this_proc h = o ->
  match m h with
  | Ok a h' => this_proc h' = o /\ Q a
  | Panic msg _ => msg <> "swtch"
  | NoFuel => True
  end.

Lemma calm_bind {A B} o (m : M hw A) (f : A -> M hw B) Q1 Q :
  calm o m Q1 -> (forall a, Q1 a -> calm o (f a) Q) -> calm o (m ≫= f) Q.
Proof.
  intros Hm Hf h Hh. specialize (Hm h Hh). unfold mbind, M_bind.
  destruct (m h) as [a h'|msg h'|]; [|done..]. destruct Hm as [Hh' HQ]. by apply (Hf a HQ h').
Qed.

Lemma calm_ret {A} o (a : A) (Q : A -> Prop) : Q a -> calm o (mret a) Q.
Proof. by intros HQ h Hh. Qed.

Lemma calm_panic {A} o msg (Q : A -> Prop) : msg <> "swtch" -> calm o (panic msg) Q.
Proof. by intros HQ h Hh. Qed.

Lemma calm_gets {A} o (f : hw -> A) : calm o (gets f) (fun _ => True).
Proof. by intros h Hh. Qed.

Lemma calm_lock o f g : calm o (modify (fun h => set_lock f (g h) h)) (fun _ => True).
Proof. by intros h Hh. Qed.

Lemma this_proc_cpu h i c : this_cpu h i c -> this_proc h = cpu_proc c.
Proof. unfold this_cpu, this_proc. by intros ->. Qed.

Lemma find_cpu h : (exists i c, this_cpu h i c) \/ forall g, lapicid g = lapicid h -> cpus g = cpus h ->
  eflags_if g = false -> mycpu g = Panic "unknown apicid" g.
Proof.
  destruct (list_find (fun c => apicid c = lapicid h) (cpus h)) as [[i c]|] eqn:E; [left; eauto|].
  right. intros g Hl Hcpus Hf. unfold mycpu. rewrite Hf, Hcpus.
  destruct (list_find (fun c => apicid c = lapicid g) (cpus h)) as [[i c]|] eqn:E'; [|done].
  apply list_find_Some in E' as (Hi & Hc & _). apply list_find_None in E.
  rewrite Forall_lookup in E. destruct (E i c Hi). by rewrite <- Hl.
Qed.

Lemma calm_mycpu o : calm o mycpu (fun _ => True).
Proof.
  intros h Hh. unfold mycpu. destruct (eflags_if h); [done|].
  by destruct (list_find _ _) as [[i c]|].
Qed.

Lemma calm_pushcli o : calm o pushcli (fun _ => True).
Proof.
  intros h Hh. destruct (find_cpu h) as [(i & c & Hc)|Hn].
  - rewrite (pushcli_run h i c Hc). split; [|done].
    rewrite (this_proc_cpu _ _ _ (pushed_this _ _ _ Hc)). by rewrite <- Hh, (this_proc_cpu _ _ _ Hc).
  - unfold pushcli, mbind, M_bind, gets, cli, modify. by rewrite Hn.
Qed.

Lemma calm_popcli o : calm o popcli (fun _ => True).
Proof.
  intros h Hh. destruct (eflags_if h) eqn:Hf.
  { unfold popcli, mbind, M_bind, gets. by rewrite Hf. }
  destruct (find_cpu h) as [(i & c & Hc)|Hn].
  - destruct (decide (1 <= ncli c)) as [Hle|Hlt].
    + rewrite (popcli_run h i c Hc Hf Hle). split; [|done].
      pose proof (this_cpu_insert h i c (MkCpu (apicid c) (ncli c - 1) (intena c) (cpu_proc c)) Hc eq_refl) as Hc'.
      assert (this_proc (popped i c h) = cpu_proc c) as -> by apply (this_proc_cpu _ _ _ Hc').
      by rewrite <- Hh, (this_proc_cpu _ _ _ Hc).
    + unfold popcli, mbind, M_bind, gets. rewrite Hf, (mycpu_run h i c), (cpu_get_run h i c) by done.
      unfold cpu_set, modify. destruct (Z.ltb_spec (ncli c - 1) 0); [done|lia].
  - unfold popcli, mbind, M_bind, gets. rewrite Hf. by rewrite Hn.
Qed.

Lemma calm_holding o lk : calm o (holding lk) (fun _ => True).
Proof.
  unfold holding. eapply calm_bind; [apply calm_pushcli|intros _ _].
  eapply calm_bind; [apply calm_gets|intros l _].
  eapply calm_bind; [apply calm_mycpu|intros i _].
  eapply calm_bind; [apply calm_popcli|intros _ _]. by apply calm_ret.
Qed.

Lemma calm_acquire o lk : calm o (acquire lk) (fun _ => True).
Proof.
  unfold acquire. eapply calm_bind; [apply calm_pushcli|intros _ _].
  eapply calm_bind; [apply calm_holding|intros b _]. destruct b; [by apply calm_panic|].
  eapply calm_bind; [apply calm_gets|intros l _]. destruct (locked l); [done|].
  eapply calm_bind; [apply (calm_lock _ lk (fun _ => MkLock true (lk_cpu l) (lk_pcs l)))|intros _ _].
  eapply calm_bind; [apply calm_mycpu|intros i _].
  eapply calm_bind; [apply calm_gets|intros pcs _].
  apply (calm_lock _ lk (fun _ => MkLock true (Some i) pcs)).
Qed.

Lemma calm_release o lk : calm o (release lk) (fun _ => True).
Proof.
  unfold release. eapply calm_bind; [apply calm_holding|intros b _].
  destruct b; [|by apply calm_panic].
  eapply calm_bind; [apply calm_gets|intros l _].
  eapply calm_bind; [apply (calm_lock _ lk (fun _ => MkLock (locked l) None (<[0%nat := 0]> (lk_pcs l))))|intros _ _].
  eapply calm_bind; [apply calm_gets|intros l' _].
  eapply calm_bind; [apply (calm_lock _ lk (fun _ => MkLock false (lk_cpu l') (lk_pcs l')))|intros _ _].
  apply calm_popcli.
Qed.

Lemma calm_cpu_get o i : calm o (cpu_get i) (fun _ => True).
Proof. intros h Hh. unfold cpu_get. by destruct (cpus h !! i). Qed.

Lemma calm_myproc o : calm o myproc (fun a => a = o).
Proof.
  intros h Hh. unfold myproc, mbind, M_bind. destruct (find_cpu h) as [(i & c & Hc)|Hn].
  - rewrite (pushcli_run h i c Hc). pose proof (pushed_this h i c Hc) as Hc'.
    rewrite (mycpu_run (pushed i c h) i (MkCpu _ _ _ _) eq_refl Hc'), (cpu_get_run _ _ _ Hc').
    assert (this_proc (pushed i c h) = o) as Ho.
    { rewrite (this_proc_cpu _ _ _ Hc'). by rewrite <- Hh, (this_proc_cpu _ _ _ Hc). }
    pose proof (calm_popcli o (pushed i c h) Ho) as Hp.
    destruct (popcli (pushed i c h)) as [[] h'|msg h'|]; [|done..].
    split; [apply Hp|]. simpl. by rewrite <- Hh, (this_proc_cpu _ _ _ Hc).
  - unfold pushcli, mbind, M_bind, gets, cli, modify. by rewrite Hn.
Qed.

Section tri_lift.
Context {R : Type}.

Lemma tri_lift {A} t (m : M hw A) Q E :
  calm (t_cur t) m Q -> tri t (lift m : M (xst R) A) (fun a t' => t' = t /\ Q a) E.
Proof.
  intros Hm s <-. specialize (Hm (x_hw s) eq_refl). unfold lift. simpl.
  destruct (m (x_hw s)) as [a h|msg h|]; [|done..]. destruct Hm as [Hh HQ]. split; [|done].
  unfold view. simpl. by rewrite Hh.
Qed.
End tri_lift.

(** ** Complete runs of the lock-protected routines *)

Section runs.
Context {R : Type}.
Implicit Types s : xst R.

(** The processor is consistent and the lock is free. *)
Definition ready (lk : nat) (h : hw) : Prop :=
  exists i c, cpu_ok h i c /\ locked (get_lock lk h) = false.

Lemma lift_acquire s lk i c :
  cpu_ok (x_hw s) i c -> locked (get_lock lk (x_hw s)) = false ->
  lift (acquire lk) s = Ok tt (with_hw (acquired lk i c (x_hw s)) s).
Proof. intros Hok Hf. unfold lift. simpl. by rewrite (acquire_run lk _ i c), Hf. Qed.

Lemma lift_release s lk h i c :
  x_hw s = acquired lk i c h -> cpu_ok h i c ->
  lift (release lk) s = Ok tt (with_hw (released lk i c h) s).
Proof. intros Hs Hok. unfold lift. simpl. by rewrite Hs, released_run. Qed.

Lemma ready_released lk h i c : cpu_ok h i c -> ready lk (released lk i c h).
Proof. intros Hok. destruct (released_ok lk h i c Hok) as (? & ? & _). eexists _, _. eauto. Qed.

(** The first slot that passes the test. *)
Fixpoint first_index (test : proc -> bool) (ps : list proc) (k : nat) : option nat :=
  match ps with
  | [] => None
  | p :: ps => if test p then Some k else first_index test ps (S k)
  end.

Lemma find_slot_run s test n k ps :
  drop k (procs s) = ps -> length ps = n ->
  find_slot (seq k n) test s = Ok (first_index test ps k) s.
Proof.
  revert k ps. induction n as [|n IH]; intros k ps Hd Hn.
  - by destruct ps.
  - destruct ps as [|p ps]; [done|]. simpl in Hn. assert (procs s !! k = Some p) as Hk.
    { rewrite <- (Nat.add_0_r k), <- lookup_drop, Hd. done. }
    cbn [seq find_slot first_index]. unfold mbind, M_bind, pget. rewrite Hk.
    destruct (test p); [done|]. apply IH; [|lia].
    rewrite (drop_S _ p) in Hd by done. by simplify_eq.
Qed.

Lemma find_slots_run s test :
  length (procs s) = NPROC -> find_slot slots test s = Ok (first_index test (procs s) 0) s.
Proof. intros Hl. by apply find_slot_run. Qed.

Lemma first_index_unique test ps k i p :
  ps !! i = Some p -> test p = true ->
  (forall j q, ps !! j = Some q -> test q = true -> j = i) ->
  first_index test ps k = Some (k + i)%nat.
Proof.
  revert k i. induction ps as [|q ps IH]; intros k i Hi Ht Hu; [done|]. simpl.
  destruct i as [|i]; simpl in Hi.
  - simplify_eq. by rewrite Ht, Nat.add_0_r.
  - destruct (test q) eqn:Hq; [by specialize (Hu 0%nat q eq_refl Hq)|].
    rewrite (IH (S k) i) by (done || intros j r Hj Hr; specialize (Hu (S j) r Hj Hr); lia).
    f_equal. lia.
Qed.

(** [setpriority] with a priority out of range returns -1 without releasing
    the lock of the process table: the lock stays taken, and the next use of
    the table on the same processor panics. *)
Theorem setpriority_leaks_lock s pid' prio :
  ready ptable_lock (x_hw s) -> prio < 0 \/ MAXPRIORITY < prio ->
  exists s', setpriority pid' prio s = Ok (-1) s' /\ procs s' = procs s /\
    locked (get_lock ptable_lock (x_hw s')) = true /\
    (forall pid2, exists s'', getpriority pid2 s' = Panic "acquire" s'') /\
    (forall ch, exists s'', wakeup ch s' = Panic "acquire" s'').
Proof.
  intros (i & c & Hok & Hfree) Hp.
  assert (exists s', lift (acquire ptable_lock) (with_hw (acquired ptable_lock i c (x_hw s)) s) =
    Panic "acquire" s') as [s' Hpanic].
  { pose proof (pushed_this _ _ _ (co_this _ _ _ Hok)) as Hc1. pose proof (co_ncli _ _ _ Hok).
    unfold lift. simpl. rewrite (acquire_run ptable_lock _ i (MkCpu _ _ _ _))
      by (constructor; [exact Hc1|simpl; lia|done]).
    unfold acquired. rewrite get_lock_set. simpl. rewrite decide_True by done. by eexists. }
  exists (with_hw (acquired ptable_lock i c (x_hw s)) s). split_and!; try done.
  - unfold setpriority. rewrite (run_bind _ _ _ _ _ (lift_acquire s _ i c Hok Hfree)).
    destruct (Z.ltb_spec prio 0), (Z.ltb_spec MAXPRIORITY prio); try done. lia.
  - simpl. unfold acquired. by rewrite get_lock_set.
  - intros pid2. exists s'. unfold getpriority, mbind, M_bind. by rewrite Hpanic.
  - intros ch. exists s'. unfold wakeup, mbind, M_bind. by rewrite Hpanic.
Qed.

(** For a priority in range and a process in use whose pid no other slot
    has, [setpriority] returns 0, changes exactly the priority and the budget of
    that slot and releases the lock, and a following [getpriority] returns the
    priority that was set. *)
Theorem setpriority_getpriority s i p prio :
  ready ptable_lock (x_hw s) -> length (procs s) = NPROC -> 0 <= prio <= MAXPRIORITY ->
  procs s !! i = Some p -> state p <> UNUSED ->
  (forall j q, procs s !! j = Some q -> pid q = pid p -> j = i) ->
  exists s' s'', setpriority (pid p) prio s = Ok 0 s' /\
    procs s' = <[i := set_prio prio DEFAULT_BUDGET p]> (procs s) /\
    ready ptable_lock (x_hw s') /\
    getpriority (pid p) s' = Ok prio s'' /\ procs s'' = procs s' /\ ready ptable_lock (x_hw s'').
Proof.
  intros (k & c & Hok & Hfree) Hl Hp Hi Hst Hu.
  set (s1 := with_hw (acquired ptable_lock k c (x_hw s)) s).
  set (s2 := with_procs (<[i := set_prio prio DEFAULT_BUDGET p]> (procs s)) s1).
  set (s3 := with_hw (released ptable_lock k c (x_hw s)) s2).
  destruct (ready_released ptable_lock (x_hw s) k c Hok) as (k' & c' & Hok' & Hfree').
  set (s4 := with_hw (acquired ptable_lock k' c' (x_hw s3)) s3).
  exists s3, (with_hw (released ptable_lock k' c' (x_hw s3)) s4). split_and!; try done.
  - unfold setpriority. rewrite (run_bind _ _ _ _ _ (lift_acquire s _ k c Hok Hfree)). fold s1.
    destruct (Z.ltb_spec prio 0), (Z.ltb_spec MAXPRIORITY prio); try lia. cbn [orb].
    rewrite (run_bind _ _ _ _ _ (find_slots_run s1 _ Hl)).
    rewrite (first_index_unique _ _ 0 i p Hi (Z.eqb_refl _))
      by (intros j q Hj Hq%Z.eqb_eq; by eapply Hu).
    simpl Nat.add. unfold mbind, M_bind, pupd. simpl. rewrite Hi.
    by rewrite (lift_release s2 _ (x_hw s) k c).
  - by eexists _, _.
  - unfold getpriority. rewrite (run_bind _ _ _ _ _ (lift_acquire s3 _ k' c' Hok' Hfree')). fold s4.
    rewrite (run_bind _ _ _ _ _ (find_slots_run s4 _ ltac:(simpl; by rewrite length_insert))).
    assert (<[i := set_prio prio DEFAULT_BUDGET p]> (procs s) !! i =
      Some (set_prio prio DEFAULT_BUDGET p)) as Hi'
      by (apply list_lookup_insert_eq; by eapply lookup_lt_Some).
    rewrite (first_index_unique _ _ 0 i (set_prio prio DEFAULT_BUDGET p) Hi').
    + simpl Nat.add. unfold mbind, M_bind. rewrite (lift_release s4 _ (x_hw s3) k' c') by done.
      unfold pget. simpl. by rewrite Hi'.
    + simpl. by rewrite Z.eqb_refl, bool_decide_false.
    + intros j q [(? & ? & _)|[? Hj]]%list_lookup_insert_Some Hq; [done|].
      apply andb_true_iff in Hq as [Hq%Z.eqb_eq _]. by eapply Hu.
  - by apply ready_released.
Qed.
End runs.

Section alloc_run.
Context {R : Type} `{SV : Services R}.
Implicit Types s : xst R.

(** The slot of a new process and the memory of its kernel stack at [k]. *)
Definition new_proc (n k : Z) (p : proc) : proc :=
  set_stack k (k + 4020) (k + 3996)
    (set_pid n (set_tickets 1 0 (set_prio MAXPRIORITY DEFAULT_BUDGET (set_state EMBRYO p)))).

Definition new_stack (trapret forkret k : Z) (m : mem) : mem :=
  store32 (memset (store32 m (k + 4016) trapret) (k + 3996) 0 20) (k + 4012) forkret.

Lemma new_stack_load trapret forkret k m a :
  load32 (new_stack trapret forkret k m) (k + 4012) = u32 forkret /\
  load32 (new_stack trapret forkret k m) (k + 4016) = u32 trapret /\
  (k + 3996 <= a -> a + 4 <= k + 4012 -> load32 (new_stack trapret forkret k m) a = 0) /\
  (a + 4 <= k \/ k + 4096 <= a -> load32 (new_stack trapret forkret k m) a = load32 m a).
Proof.
  unfold new_stack. rewrite memset_same by lia. split_and!.
  - apply load32_store32_eq.
  - rewrite load32_store32_ne by lia. rewrite load32_memset_out by lia. apply load32_store32_eq.
  - intros H1 H2. rewrite load32_store32_ne by lia. apply load32_memset_0; lia.
  - intros Ha. rewrite load32_store32_ne by lia. rewrite load32_memset_out by lia.
    by rewrite load32_store32_ne by lia.
Qed.

(** [allocproc] on a table with a free slot, when a page is available at
    [k]: it takes the first free slot, gives it the next pid, the top priority,
    a full budget and one ticket, and lays out the kernel stack in that page so
    that the first switch to the process runs [forkret], which returns to
    [trapret], with the trap frame above it at the top of the stack; no memory
    outside the page and no other slot changes, and the lock is free again. *)
Theorem allocproc_spec trapret forkret s i p k r :
  ready ptable_lock (x_hw s) -> length (procs s) = NPROC ->
  first_index (fun p => bool_decide (state p = UNUSED)) (procs s) 0 = Some i ->
  procs s !! i = Some p -> kalloc (x_rest s) = Ok k r -> k <> 0 ->
  exists s' q, allocproc trapret forkret s = Ok (Some i) s' /\
    procs s' = <[i := q]> (procs s) /\ x_rest s' = r /\ nextpid s' = i32 (nextpid s + 1) /\
    ready ptable_lock (x_hw s') /\
    state q = EMBRYO /\ pid q = nextpid s /\ parent q = parent p /\ priority q = MAXPRIORITY /\
    budget q = DEFAULT_BUDGET /\ num_tickets q = 1 /\ kstack q = k /\
    tf q + sizeof_trapframe = k + KSTACKSIZE /\ context q + sizeof_context + 4 = tf q /\
    load32 (h_mem (x_hw s')) (context q + 16) = u32 forkret /\
    load32 (h_mem (x_hw s')) (context q + sizeof_context) = u32 trapret /\
    (forall a, a + 4 <= k \/ k + KSTACKSIZE <= a ->
       load32 (h_mem (x_hw s')) a = load32 (h_mem (x_hw s)) a).
Proof.
  intros (j & c & Hok & Hfree) Hl Hfi Hi Hk Hk0.
  set (s1 := with_hw (acquired ptable_lock j c (x_hw s)) s).
  set (q0 := set_pid (nextpid s) (set_tickets 1 0 (set_prio MAXPRIORITY DEFAULT_BUDGET (set_state EMBRYO p)))).
  set (s2 := with_procs (<[i := q0]> (procs s)) (with_nextpid (i32 (nextpid s + 1)) s1)).
  set (h3 := released ptable_lock j c (x_hw s)).
  set (h4 := set_hmem (new_stack trapret forkret k (h_mem (x_hw s))) h3).
  exists (with_hw h4 (with_procs (<[i := new_proc (nextpid s) k p]> (procs s)) (with_rest r s2))),
    (new_proc (nextpid s) k p).
  pose proof (lookup_lt_Some _ _ _ Hi) as Hlt.
  assert (forall x, <[i := x]> (procs s) !! i = Some x) as Hins by (intros; by apply list_lookup_insert_eq).
  destruct (new_stack_load trapret forkret k (h_mem (x_hw s)) 0) as (He & Ht & _).
  split_and!; try done.
  - unfold allocproc. rewrite (run_bind _ _ _ _ _ (lift_acquire s _ j c Hok Hfree)). fold s1.
    rewrite (run_bind _ _ _ _ _ (find_slots_run s1 _ Hl)).
    change (procs s1) with (procs s). rewrite Hfi.
    unfold mbind, M_bind, pupd, gets, modify. change (procs s1) with (procs s). rewrite Hi.
    repeat (simpl procs; rewrite ?Hins, ?list_insert_insert_eq).
    rewrite (lift_release _ _ (x_hw s) j c) by done. unfold rest. simpl x_rest. rewrite Hk.
    simpl procs. rewrite Hins. rewrite (proj2 (Z.eqb_neq k 0) Hk0). cbv zeta.
    unfold mret, M_ret, memupd, modify.
    repeat (simpl procs; rewrite ?Hins, ?list_insert_insert_eq).
    unfold KSTACKSIZE, sizeof_trapframe, sizeof_context.
    replace (k + 4096 - 76) with (k + 4020) by lia. replace (k + 4020 - 4) with (k + 4016) by lia.
    replace (k + 4016 - 20) with (k + 3996) by lia. replace (k + 3996 + 16) with (k + 4012) by lia.
    reflexivity.
  - destruct (ready_released ptable_lock (x_hw s) j c Hok) as (j' & c' & [] & Hf).
    exists j', c'. split; [by constructor|done].
  - unfold sizeof_trapframe, KSTACKSIZE. cbn [tf new_proc set_stack]. lia.
  - unfold sizeof_context. cbn [tf context new_proc set_stack]. lia.
  - cbn [context new_proc set_stack]. replace (k + 3996 + 16) with (k + 4012) by lia. exact He.
  - unfold sizeof_context. cbn [context new_proc set_stack].
    replace (k + 3996 + 20) with (k + 4016) by lia. exact Ht.
  - intros a Ha. by apply new_stack_load.
Qed.
End alloc_run.

(** ** Examples *)

(** Services that always succeed; the state is the next page to hand out. *)
Definition ex_services : Services Z := {|
  kalloc := fun r => Ok r (r + 4096);
  kfree := fun _ r => Ok tt r;
  setupkvm := fun r => Ok r (r + 4096);
  inituvm := fun _ _ _ r => Ok tt r;
  copyuvm := fun _ _ r => Ok r (r + 4096);
  freevm := fun _ r => Ok tt r;
  allocuvm := fun _ _ n r => Ok n r;
  deallocuvm := fun _ _ n r => Ok n r;
  switchuvm := fun _ r => Ok tt r;
  switchkvm := fun r => Ok tt r;
  filedup := fun f r => Ok f r;
  fileclose := fun _ r => Ok tt r;
  idup := fun d r => Ok d r;
  iput := fun _ r => Ok tt r;
  begin_op := fun r => Ok tt r;
  end_op := fun r => Ok tt r;
  namei := fun _ r => Ok 7 r;
  iinit := fun _ r => Ok tt r;
  initlog := fun _ r => Ok tt r |}.

(** The first process, running on the second processor of [ex_hw]. *)
Definition ex_init : proc :=
  set_state RUNNING (set_pid 1 (set_tickets 1 0 (set_prio 2 5 proc0))).

Definition ex_x : xst Z :=
  XSt ex_hw (ex_init :: replicate 63 proc0) 2 (Some 0%nat) 50 0 false false [] 0x80400000.

Lemma ex_ready : ready ptable_lock (x_hw ex_x).
Proof. eexists 1%nat, _. split; [apply ex_hw_ok|done]. Qed.

Lemma setpriority_leaks_lock_witness :
  exists s', setpriority 1 3 ex_x = Ok (-1) s' /\ locked (get_lock ptable_lock (x_hw s')) = true.
Proof.
  destruct (setpriority_leaks_lock ex_x 1 3 ex_ready) as (s' & H & _ & Hl & _).
  - right. reflexivity.
  - exists s'. split; [exact H|exact Hl].
Defined.

Lemma setpriority_getpriority_witness :
  exists s' s'', setpriority 1 0 ex_x = Ok 0 s' /\ getpriority 1 s' = Ok 0 s''.
Proof.
  destruct (setpriority_getpriority ex_x 0 ex_init 0 ex_ready) as (s' & s'' & H1 & _ & _ & H2 & _).
  - reflexivity.
  - unfold MAXPRIORITY. lia.
  - reflexivity.
  - discriminate.
  - intros [|j] q Hq Hp; [reflexivity|]. exfalso.
    change (replicate 63 proc0 !! j = Some q) in Hq. apply lookup_replicate in Hq as [-> _]. discriminate Hp.
  - exists s', s''. split; [exact H1|exact H2].
Defined.

Lemma allocproc_spec_witness :
  exists s', allocproc (SV := ex_services) 0x80105000 0x80103000 ex_x = Ok (Some 1%nat) s' /\
    load32 (h_mem (x_hw s')) (0x80400000 + 4012) = 0x80103000.
Proof.
  destruct (allocproc_spec (SV := ex_services) 0x80105000 0x80103000 ex_x 1 proc0 0x80400000
              (0x80400000 + 4096) ex_ready)
    as (s' & q & H & _ & _ & _ & _ & _ & _ & _ & _ & _ & _ & Hk & Ht & Hc & He & _);
    try reflexivity; [discriminate|].
  exists s'. split; [exact H|].
  replace (0x80400000 + 4012) with (context q + 16).
  - rewrite He. reflexivity.
  - unfold sizeof_trapframe, sizeof_context, KSTACKSIZE in *. lia.
Defined.
