(* ===== verification/Xv6Sched.v ===== *)
(** * xv6 schedulers (lab2/proc.c)

    The round-robin, multi-level feedback queue and lottery schedulers, tickets
    and priorities, and the process listings.  [run i] is what happens between
    the switch to process [i] and the switch back to the scheduler. *)

From S2P Require Import Prelude CMem JosString JosPrintfmt Xv6Lock Xv6String Xv6Console Xv6Proc.
From stdpp Require Import base numbers option list gmap strings.
From Stdlib Require Import Ascii.
Open Scope Z_scope.

(** [struct rtcdate], as read from the clock. *)
Record rtcdate : Type := RtcDate {
  r_second : Z; r_minute : Z; r_hour : Z; r_day : Z; r_month : Z; r_year : Z }.

(** Unsigned arithmetic, converted to [int] and then reduced with the signed
    remainder of C. *)
Definition rand (r : rtcdate) : Z :=
  let timestamp := i32 (u32 (r_second r + 60 * r_minute r + 3600 * r_hour r
    + 86400 * (r_day r - 1) + 2592000 * (r_month r - 1) + 31536000 * (r_year r - 1970))) in
  let seed := Z.rem timestamp 100 in
  let seed := i32 (1593 * seed + 1042) in
  Z.rem seed 4930.

(** What [getpinfo] writes to its argument. *)
Record pstat : Type := PStat {
  ps_inuse : list Z; ps_tickets : list Z; ps_pid : list Z; ps_ticks : list Z }.

Section schedulers.
Context {R : Type} `{SV : Services R}.
Notation MX := (M (xst R)).

Definition set_cproc (ci : nat) (o : option nat) : MX unit :=
  c ← lift (cpu_get ci);
  lift (cpu_set ci (MkCpu (apicid c) (ncli c) (intena c) o)).

(** ** Round robin *)

Definition sched_visit (run : nat -> MX unit) (ci i : nat) : MX unit :=
  p ← pget i;
  if negb (bool_decide (state p = RUNNABLE)) then mret tt
  else
    set_cproc ci (Some i);;
    rest (switchuvm p);;
    pupd i (set_state RUNNING);;
    run i;;
    rest switchkvm;;
    set_cproc ci None.

Fixpoint scheduler_loop (rounds : nat) (run : nat -> MX unit) (ci : nat) : MX unit :=
  match rounds with
  | O => no_fuel
  | S n =>
      lift sti;;
      lift (acquire ptable_lock);;
      for_each slots (sched_visit run ci);;
      lift (release ptable_lock);;
      scheduler_loop n run ci
  end.

Definition scheduler (rounds : nat) (run : nat -> MX unit) : MX unit :=
  ci ← lift mycpu;
  set_cproc ci None;;
  scheduler_loop rounds run ci.

(** ** Multi-level feedback queue *)

Definition promote (p : proc) : proc :=
  if negb (bool_decide (state p = ZOMBIE)) && (priority p <? MAXPRIORITY)
  then set_prio (priority p + 1) DEFAULT_BUDGET p else p.

Definition adjustPriority : MX unit := for_each slots (fun i => pupd i promote).

(** The budget after [d] ticks, and the demotion when it is used up. *)
Definition charge (d : Z) (p : proc) : proc :=
  let b := i32 (budget p - d) in
  if b <=? 0 then
    if 0 <? priority p then set_prio (priority p - 1) DEFAULT_BUDGET p
    else set_prio (priority p) DEFAULT_BUDGET p
  else set_prio (priority p) b p.

(** One slot at one level; whether the process ran. *)
Definition mlfq_visit (run : nat -> MX unit) (ci : nat) (current_priority : Z) (i : nat) : MX bool :=
  p ← pget i;
  if negb (bool_decide (state p = RUNNABLE)) then mret false
  else if priority p =? current_priority then
    set_cproc ci (Some i);;
    rest (switchuvm p);;
    pupd i (fun p => set_tickets (num_tickets p) (i32 (num_scheduled p + 1)) p);;
    pupd i (set_state RUNNING);;
    time_in ← gets (fun s => i32 (x_ticks s));
    run i;;
    time_out ← gets (fun s => i32 (x_ticks s));
    rest switchkvm;;
    pupd i (fun p => set_pticks (i32 (ticks p + i32 (time_out - time_in))) p);;
    set_cproc ci None;;
    pupd i (charge (i32 (time_out - time_in)));;
    at_ ← gets promote_at; now ← gets x_ticks;
    (if at_ <=? now then
       adjustPriority;; modify (fun s => with_promote (u32 (x_ticks s + TICKS_TO_PROMOTE)) s)
     else mret tt);;
    mret true
  else mret false.

Fixpoint mlfq_pass (run : nat -> MX unit) (ci : nat) (l : list nat) (prio count : Z) : MX Z :=
  match l with
  | [] => mret count
  | i :: l =>
      ran ← mlfq_visit run ci prio i;
      mlfq_pass run ci l prio (if ran : bool then count + 1 else count)
  end.

(** [for (current_priority = MAXPRIORITY; current_priority >= 0;)] *)
Fixpoint mlfq_levels (fuel : nat) (run : nat -> MX unit) (ci : nat) (current_priority : Z) : MX unit :=
  match fuel with
  | O => no_fuel
  | S f =>
      if current_priority <? 0 then mret tt
      else
        count ← mlfq_pass run ci slots current_priority 0;
        if count =? 0 then mlfq_levels f run ci (current_priority - 1)
        else mlfq_levels f run ci current_priority
  end.

Fixpoint mlfq_loop (rounds : nat) (run : nat -> MX unit) (ci : nat) : MX unit :=
  match rounds with
  | O => no_fuel
  | S n =>
      lift sti;;
      lift (acquire ptable_lock);;
      mlfq_levels rounds run ci MAXPRIORITY;;
      lift (release ptable_lock);;
      mlfq_loop n run ci
  end.

Definition mlfqsched (rounds : nat) (run : nat -> MX unit) : MX unit :=
  ci ← lift mycpu;
  set_cproc ci None;;
  mlfq_loop rounds run ci.

(** ** Lottery *)

Definition settickets (number : Z) : MX Z :=
  if number <? 1 then mret (-1)
  else
    cur ← curproc;
    pupd cur (fun p => set_tickets number (num_scheduled p) p);;
    mret 0.

Fixpoint sum_tickets (l : list nat) (total : Z) : MX Z :=
  match l with
  | [] => mret total
  | i :: l =>
      p ← pget i;
      sum_tickets l (if bool_decide (state p = RUNNABLE) then i32 (total + num_tickets p) else total)
  end.

Definition total_runnable_tickets : MX Z :=
  lift (acquire ptable_lock);;
  available_tickets ← sum_tickets slots 0;
  lift (release ptable_lock);;
  mret available_tickets.

(** The body for the process that holds the chosen ticket. *)
Definition lottery_run (run : nat -> MX unit) (ci i : nat) : MX unit :=
  set_cproc ci (Some i);;
  startticks ← gets (fun s => i32 (x_ticks s));
  p ← pget i;
  rest (switchuvm p);;
  pupd i (fun p => set_tickets (num_tickets p) (i32 (num_scheduled p + 1)) p);;
  pupd i (set_state RUNNING);;
  run i;;
  rest switchkvm;;
  endticks ← gets (fun s => i32 (x_ticks s));
  pupd i (fun p => set_pticks (i32 (ticks p + i32 (endticks - startticks))) p);;
  set_cproc ci None.

Fixpoint lottery_draw (run : nat -> MX unit) (ci : nat) (l : list nat) (chosen_ticket counter : Z) : MX unit :=
  match l with
  | [] => mret tt
  | i :: l =>
      p ← pget i;
      if negb (bool_decide (state p = RUNNABLE)) then lottery_draw run ci l chosen_ticket counter
      else
        let counter := i32 (counter + num_tickets p) in
        if counter <? chosen_ticket then lottery_draw run ci l chosen_ticket counter
        else lottery_run run ci i
  end.

(** The iterations of the loop; [dates] are the readings of the clock. *)
Fixpoint lottery_loop (dates : list rtcdate) (run : nat -> MX unit) (ci : nat) : MX unit :=
  match dates with
  | [] => no_fuel
  | r :: dates =>
      lift sti;;
      lift (acquire ptable_lock);;
      runnable_tickets ← sum_tickets slots 0;
      lift (release ptable_lock);;
      (if 0 <? runnable_tickets then
         let chosen_ticket := Z.rem (rand r) runnable_tickets + 1 in
         lift (acquire ptable_lock);;
         lottery_draw run ci slots chosen_ticket 0;;
         lift (release ptable_lock)
       else mret tt);;
      lottery_loop dates run ci
  end.

Definition lotterysched (dates : list rtcdate) (run : nat -> MX unit) : MX unit :=
  ci ← lift mycpu;
  set_cproc ci None;;
  lottery_loop dates run ci.

(** ** Listings *)

Definition cprintf (fmt : list Z) (args : list arg) : MX unit :=
  locking ← gets x_locking;
  (if locking : bool then lift (acquire cons_lock) else mret tt);;
  (match cprintf_out fmt args with
   | Some out => modify (fun s => with_con (x_con s ++ out) s)
   | None => panic "va_arg"
   end);;
  (if locking : bool then lift (release cons_lock) else mret tt).

Definition getpinfo : MX (Z * pstat) :=
  lift (acquire ptable_lock);;
  l ← gets procs;
  let st := PStat (map (fun p => if bool_decide (state p = UNUSED) then 0 else 1) l)
              (map num_tickets l) (map pid l) (map ticks l) in
  lift (release ptable_lock);;
  lift (acquire ptable_lock);;
  for_each slots (fun i =>
    let at_ f := nth i (f st) 0 in
    if negb (at_ ps_inuse =? 0) || negb (at_ ps_ticks =? 0) || negb (at_ ps_tickets =? 0)
       || negb (at_ ps_pid =? 0) then
      p ← pget i;
      cprintf ([10] ++ zs " %d) Name: %s, PID: %d, Tickets: %d, Ticks: %d, Inuse: %d" ++ [10])
        [AInt (Z.of_nat i); AStr (Some (cstr (name p))); AInt (at_ ps_pid); AInt (at_ ps_tickets);
         AInt (at_ ps_ticks); AInt (at_ ps_inuse)]
    else mret tt);;
  lift (release ptable_lock);;
  mret (0, st).

Definition state_name (x : procstate) : list Z :=
  match x with
  | UNUSED => zs "unused" | EMBRYO => zs "embryo" | SLEEPING => zs "sleep "
  | RUNNABLE => zs "runble" | RUNNING => zs "run   " | ZOMBIE => zs "zombie"
  end.

(** The return addresses up to the first 0. *)
Fixpoint print_pcs (pcs : list Z) : MX unit :=
  match pcs with
  | [] => mret tt
  | pc :: pcs => if pc =? 0 then mret tt else cprintf (zs " %p") [AInt pc];; print_pcs pcs
  end.

Definition procdump : MX unit :=
  for_each slots (fun i =>
    p ← pget i;
    if bool_decide (state p = UNUSED) then mret tt
    else
      cprintf (zs "PID: %d,  State: %s,  Name: %s,         Tickets: %d, NumScheduled: %d, Ticks: %d, Priority: %d, Budget: %d")
        [AInt (pid p); AStr (Some (state_name (state p))); AStr (Some (cstr (name p)));
         AInt (num_tickets p); AInt (num_scheduled p); AInt (ticks p); AInt (priority p);
         AInt (budget p)];;
      (if bool_decide (state p = SLEEPING) then
         m ← gets (fun s => h_mem (x_hw s));
         print_pcs (getcallerpcs m (load32 m (context p + 12) + 8))
       else mret tt);;
      cprintf [10] []);;
  cprintf (zs "----------------------------" ++ [10]) [].
End schedulers.

(** ** The lottery is fair *)

Definition runnable (p : proc) : bool := bool_decide (state p = RUNNABLE).

(** The tickets in the draw, as exact numbers. *)
Fixpoint total (ps : list proc) : Z :=
  match ps with
  | [] => 0
  | p :: ps => (if runnable p then num_tickets p else 0) + total ps
  end.

(** The slot that holds ticket [t], when [c] tickets come before slot [i]. *)
Fixpoint winner (ps : list proc) (i : nat) (t c : Z) : option nat :=
  match ps with
  | [] => None
  | p :: ps =>
      if runnable p then
        if c + num_tickets p <? t then winner ps (S i) t (c + num_tickets p) else Some i
      else winner ps (S i) t c
  end.

Definition tickets_ok (ps : list proc) : Prop :=
  Forall (fun p => state p = RUNNABLE -> 1 <= num_tickets p) ps.

Lemma total_nonneg ps : tickets_ok ps -> 0 <= total ps.
Proof.
  induction 1 as [|p ps Hp _ IH]; simpl; [lia|]. unfold runnable. case_bool_decide; [|lia].
  specialize (Hp H). lia.
Qed.

Lemma winner_lt ps i t c w : winner ps i t c = Some w -> (i <= w)%nat.
Proof.
  revert i c. induction ps as [|p ps IH]; simpl; intros i c; [done|].
  destruct (runnable p); [case_match|]; intros Hw; try (apply IH in Hw; lia). simplify_eq. lia.
Qed.

Lemma winner_some ps i t c :
  tickets_ok ps -> c < t <= c + total ps ->
  exists w p, winner ps i t c = Some (i + w)%nat /\ ps !! w = Some p /\ state p = RUNNABLE.
Proof.
  intros Hok. revert i c. induction Hok as [|p ps Hp Hok IH]; simpl; intros i c Ht; [lia|].
  unfold runnable in *. case_bool_decide as Hr.
  - destruct (Z.ltb_spec (c + num_tickets p) t).
    + destruct (IH (S i) (c + num_tickets p)) as (w & q & Hw & Hq); [lia|].
      exists (S w), q. rewrite Hw. split; [f_equal; lia|done].
    + exists 0%nat, p. by rewrite Nat.add_0_r.
  - destruct (IH (S i) c) as (w & q & Hw & Hq); [lia|].
    exists (S w), q. rewrite Hw. split; [f_equal; lia|done].
Qed.

Lemma countb_app {A} (f : A -> bool) l1 l2 : countb f (l1 ++ l2) = countb f l1 + countb f l2.
Proof. induction l1 as [|x l1 IH]; simpl; [done|]. rewrite IH. lia. Qed.

Lemma countb_all {A} (f : A -> bool) l :
  (forall x, x ∈ l -> f x = true) -> countb f l = Z.of_nat (length l).
Proof.
  induction l as [|x l IH]; intros H; simpl length; [done|]. cbn [countb].
  rewrite H by left. rewrite IH by (intros; apply H; by right). simpl Z.b2z. lia.
Qed.

(** Among the tickets [c+1 .. c + total] slot [i] holds as many as it has. *)
Lemma winner_count ps k c i p :
  tickets_ok ps -> ps !! i = Some p ->
  countb (fun t => bool_decide (winner ps k t c = Some (k + i)%nat)) (seqZ (c + 1) (total ps)) =
    if runnable p then num_tickets p else 0.
Proof.
  intros Hok. revert k c i. induction Hok as [|q ps Hq Hok IH]; intros k c i Hi; [done|].
  pose proof (total_nonneg _ Hok). cbn [total].
  destruct (runnable q) eqn:Hr.
  - assert (1 <= num_tickets q) by (apply Hq; unfold runnable in Hr; by apply bool_decide_eq_true in Hr).
    rewrite seqZ_app by lia. rewrite countb_app.
    assert (Hw1 : forall t, t ∈ seqZ (c + 1) (num_tickets q) -> winner (q :: ps) k t c = Some k).
    { intros t Ht%elem_of_seqZ. cbn [winner]. rewrite Hr.
      destruct (Z.ltb_spec (c + num_tickets q) t); [lia|done]. }
    assert (Hw2 : forall t, t ∈ seqZ (c + 1 + num_tickets q) (total ps) ->
      winner (q :: ps) k t c = winner ps (S k) t (c + num_tickets q)).
    { intros t Ht%elem_of_seqZ. cbn [winner]. rewrite Hr.
      destruct (Z.ltb_spec (c + num_tickets q) t); [done|lia]. }
    destruct i as [|i]; simpl in Hi.
    + simplify_eq. rewrite Nat.add_0_r, Hr. rewrite countb_all.
      * rewrite length_seqZ. rewrite countb_none; [lia|]. intros t Ht. rewrite Hw2 by done.
        apply bool_decide_eq_false. intros E%winner_lt. lia.
      * intros t Ht. rewrite Hw1 by done. by apply bool_decide_eq_true.
    + rewrite countb_none.
      * rewrite <- (IH (S k) (c + num_tickets q) i) by done. rewrite Z.add_0_l.
        replace (c + num_tickets q + 1) with (c + 1 + num_tickets q) by lia.
        apply countb_ext. intros t Ht. rewrite Hw2 by done.
        by replace (k + S i)%nat with (S k + i)%nat by lia.
      * intros t Ht. rewrite Hw1 by done. apply bool_decide_eq_false. intros [= E]. lia.
  - rewrite Z.add_0_l.
    assert (Hw : forall t, winner (q :: ps) k t c = winner ps (S k) t c)
      by (intros t; cbn [winner]; by rewrite Hr).
    destruct i as [|i]; simpl in Hi.
    + simplify_eq. rewrite Hr, Nat.add_0_r. apply countb_none. intros t Ht. rewrite Hw.
      apply bool_decide_eq_false. intros E%winner_lt. lia.
    + rewrite <- (IH (S k) c i) by done. apply countb_ext. intros t Ht. rewrite Hw.
      by replace (k + S i)%nat with (S k + i)%nat by lia.
Qed.

Section lottery.
Context {R : Type} `{SV : Services R}.
Implicit Types s : xst R.

(** [slots] from the [k]-th on, against the table from there on. *)
Lemma pget_slot s k p ps :
  drop k (procs s) = p :: ps -> pget k s = Ok p s /\ drop (S k) (procs s) = ps.
Proof.
  intros Hd. assert (procs s !! k = Some p) as Hk.
  { rewrite <- (Nat.add_0_r k), <- lookup_drop, Hd. done. }
  split; [unfold pget; by rewrite Hk|].
  rewrite (drop_S _ p k) in Hd by done. by simplify_eq.
Qed.

Lemma sum_tickets_run s n k ps c :
  drop k (procs s) = ps -> length ps = n -> tickets_ok ps -> 0 <= c -> c + total ps < 2 ^ 31 ->
  sum_tickets (seq k n) c s = Ok (c + total ps) s.
Proof.
  revert k ps c. induction n as [|n IH]; intros k ps c Hd Hn Hok Hc Ht.
  - destruct ps; [|done]. simpl. unfold mret, M_ret. by rewrite Z.add_0_r.
  - destruct ps as [|p ps]; [done|]. destruct (pget_slot s k p ps Hd) as [Hg Hd'].
    inversion Hok as [|? ? Hp Hok']; subst. pose proof (total_nonneg _ Hok').
    cbn [seq sum_tickets]. rewrite (run_bind _ _ _ _ _ Hg). cbn [total] in *.
    unfold runnable in *. simpl in Hn. case_bool_decide as Hr.
    + specialize (Hp Hr). rewrite i32_small by lia. rewrite (IH (S k) _ _ eq_refl) by (done || lia).
      f_equal. lia.
    + rewrite (IH (S k) _ _ eq_refl) by (done || lia). f_equal.
Qed.

Lemma lottery_draw_run run ci s n k ps t c :
  drop k (procs s) = ps -> length ps = n -> tickets_ok ps -> 0 <= c -> c + total ps < 2 ^ 31 ->
  lottery_draw run ci (seq k n) t c s =
    match winner ps k t c with Some w => lottery_run run ci w s | None => Ok tt s end.
Proof.
  revert k ps c. induction n as [|n IH]; intros k ps c Hd Hn Hok Hc Ht.
  - by destruct ps.
  - destruct ps as [|p ps]; [done|]. destruct (pget_slot s k p ps Hd) as [Hg Hd'].
    inversion Hok as [|? ? Hp Hok']; subst. pose proof (total_nonneg _ Hok').
    cbn [seq lottery_draw]. rewrite (run_bind _ _ _ _ _ Hg). cbn [total winner] in *.
    unfold runnable in *. simpl in Hn. case_bool_decide as Hr; cbn [negb].
    + specialize (Hp Hr). rewrite i32_small by lia. destruct (c + num_tickets p <? t); [|done].
      rewrite (IH (S k) _ _ eq_refl) by (done || lia). done.
    + rewrite (IH (S k) _ _ eq_refl) by (done || lia). done.
Qed.

(** C33: the lottery is fair.  When every runnable process holds at least one
    ticket and their sum fits an [int], the scheduler counts exactly that sum;
    every ticket in the draw selects a runnable process; and among the tickets
    the number that select a process is the number of tickets it holds (none
    for a process that is not runnable). *)
Theorem lottery_fair s :
  length (procs s) = NPROC -> tickets_ok (procs s) -> total (procs s) < 2 ^ 31 ->
  sum_tickets slots 0 s = Ok (total (procs s)) s /\
  (forall t, 1 <= t <= total (procs s) -> exists w p,
     winner (procs s) 0 t 0 = Some w /\ procs s !! w = Some p /\ state p = RUNNABLE /\
     forall run ci, lottery_draw run ci slots t 0 s = lottery_run run ci w s) /\
  (forall i p, procs s !! i = Some p ->
     countb (fun t => bool_decide (winner (procs s) 0 t 0 = Some i)) (seqZ 1 (total (procs s))) =
       if bool_decide (state p = RUNNABLE) then num_tickets p else 0).
Proof.
  intros Hl Hok Ht. split_and!.
  - unfold slots. by rewrite (sum_tickets_run s _ _ (procs s)).
  - intros t Htt. destruct (winner_some (procs s) 0 t 0 Hok) as (w & p & Hw & Hp & Hr); [lia|].
    exists w, p. split_and!; try done. intros run ci. unfold slots.
    by rewrite (lottery_draw_run run ci s _ _ (procs s)), Hw.
  - intros i p Hp. apply (winner_count (procs s) 0 0 i p Hok Hp).
Qed.

Lemma rand_lt r : rand r < 4930.
Proof. unfold rand. set (x := i32 _). pose proof (Z.rem_bound_abs x 4930). lia. Qed.

Lemma winner_before ps i t c w :
  0 < total (take w ps) -> t <= c + total (take w ps) ->
  exists v, (v < w)%nat /\ winner ps i t c = Some (i + v)%nat.
Proof.
  revert i c w. induction ps as [|q ps IH]; intros i c w H0 Ht.
  { rewrite take_nil in H0. simpl in H0. lia. }
  destruct w as [|w]; [simpl in H0; lia|]. cbn [take total winner] in *.
  destruct (runnable q).
  - destruct (Z.ltb_spec (c + num_tickets q) t).
    + destruct (IH (S i) (c + num_tickets q) w) as (v & Hv & Hw); [lia..|].
      exists (S v). split; [lia|]. rewrite Hw. f_equal. lia.
    + exists 0%nat. split; [lia|]. by rewrite Nat.add_0_r.
  - destruct (IH (S i) c w) as (v & Hv & Hw); [lia..|].
    exists (S v). split; [lia|]. rewrite Hw. f_equal. lia.
Qed.

(** the random number is below 4930, so a process with 4930 or more tickets
    of other runnable processes in front of it in the table is never chosen,
    whatever the clock says. *)
Theorem lottery_starves s w p r :
  length (procs s) = NPROC -> tickets_ok (procs s) -> total (procs s) < 2 ^ 31 ->
  procs s !! w = Some p -> 4930 <= total (take w (procs s)) ->
  exists v, (v < w)%nat /\
    forall run ci, lottery_draw run ci slots (Z.rem (rand r) (total (procs s)) + 1) 0 s = lottery_run run ci v s.
Proof.
  intros Hl Hok Ht Hw Hb. pose proof (rand_lt r). set (n := total (procs s)) in *.
  assert (n = total (take w (procs s)) + total (drop w (procs s))) as Hn.
  { unfold n. rewrite <- (take_drop w (procs s)) at 1. generalize (take w (procs s)), (drop w (procs s)).
    intros l1 l2. induction l1 as [|x l1 IH]; cbn [app total]; [lia|]. rewrite IH. lia. }
  assert (0 <= total (drop w (procs s))) by (apply total_nonneg; by apply Forall_drop).
  assert (Z.rem (rand r) n + 1 <= 4930) as Hc.
  { destruct (decide (0 <= rand r)).
    - pose proof (Z.rem_le (rand r) n). lia.
    - pose proof (Z.rem_nonpos (rand r) n). lia. }
  destruct (winner_before (procs s) 0 (Z.rem (rand r) n + 1) 0 w) as (v & Hv & Hwin); [lia..|].
  exists v. split; [done|]. intros run ci. unfold slots.
  by rewrite (lottery_draw_run run ci s _ _ (procs s)), Hwin.
Qed.
End lottery.

(** ** The feedback queue stays within its levels and budgets *)

Definition level_ok (p : proc) : Prop :=
  0 <= priority p <= MAXPRIORITY /\
  (state p <> UNUSED -> 1 <= budget p <= DEFAULT_BUDGET /\ 1 <= num_tickets p).

Definition levels_ok (ps : list proc) : Prop := Forall level_ok ps.

Section levels.
Context {R : Type} `{SV : Services R} (ci : nat).

(** The state at the scheduler: the whole table, the levels in range, and this
    processor in the array. *)
Record mlfq_ok (s : xst R) : Prop := MlfqOk {
  mo_levels : levels_ok (procs s);
  mo_len : length (procs s) = NPROC;
  mo_cpu : (ci < length (cpus (x_hw s)))%nat }.

(** Slot [i] is in use as well. *)
Definition mlfq_ok_at (i : nat) (s : xst R) : Prop :=
  mlfq_ok s /\ exists p, procs s !! i = Some p /\ state p <> UNUSED.

(** [m] returns, and keeps [J]. *)
Definition keeps {A} (J : xst R -> Prop) (m : M (xst R) A) : Prop :=
  forall s, J s -> wp m (fun _ s' => J s') s.

(** The properties that only depend on the table and the processors. *)
Definition frame (J : xst R -> Prop) : Prop :=
  forall s s', J s -> procs s' = procs s -> length (cpus (x_hw s')) = length (cpus (x_hw s)) -> J s'.

Lemma mlfq_ok_frame : frame mlfq_ok.
Proof. intros s s' [? ? ?] Hp Hc. constructor; rewrite ?Hp, ?Hc; done. Qed.

Lemma mlfq_ok_at_frame i : frame (mlfq_ok_at i).
Proof.
  intros s s' [Hs Hi] Hp Hc. split; [by apply (mlfq_ok_frame s)|]. by rewrite Hp.
Qed.

Lemma keeps_bind {A B} J (m : M (xst R) A) (f : A -> M (xst R) B) :
  keeps J m -> (forall a, keeps J (f a)) -> keeps J (m ≫= f).
Proof. intros Hm Hf s Hs. apply wp_bind. eapply wp_mono; [by apply Hm|]. intros a s' Hs'. by apply Hf. Qed.

Lemma keeps_ret {A} J (a : A) : keeps J (mret a).
Proof. by intros s Hs. Qed.

Lemma keeps_gets {A} J (f : xst R -> A) : keeps J (gets f).
Proof. by intros s Hs. Qed.

Lemma keeps_modify J f : frame J ->
  (forall s, procs (f s) = procs s /\ x_hw (f s) = x_hw s) -> keeps J (modify f).
Proof. intros HJ Hf s Hs. destruct (Hf s) as [Hp Hh]. apply (HJ s); [done..|]. by rewrite Hh. Qed.

Lemma keeps_set_cproc J o : frame J -> (forall s, J s -> mlfq_ok s) -> keeps J (set_cproc ci o).
Proof.
  intros HJ Hok s Hs. pose proof (mo_cpu _ (Hok s Hs)) as Hc.
  destruct (lookup_lt_is_Some_2 _ _ Hc) as [c Hci].
  unfold set_cproc, mbind, M_bind, wp, lift, cpu_get. simpl. rewrite Hci. simpl.
  apply (HJ s); [done..|]. simpl. by rewrite length_insert.
Qed.

Lemma keeps_pupd i f : (i < NPROC)%nat -> (forall p, level_ok p -> level_ok (f p)) ->
  keeps mlfq_ok (pupd i f).
Proof.
  intros Hi Hf s [Hs Hl Hc]. unfold pupd, wp.
  destruct (lookup_lt_is_Some_2 (procs s) i) as [p Hp]; [by rewrite Hl|]. rewrite Hp.
  constructor; simpl; [|by rewrite length_insert|done].
  apply Forall_insert; [done|]. apply Hf. by eapply Forall_lookup_1 in Hs.
Qed.

(** An update of a slot that is in use, and stays so. *)
Lemma keeps_pupd_at i f :
  (forall p, level_ok p -> state p <> UNUSED -> level_ok (f p) /\ state (f p) <> UNUSED) ->
  keeps (mlfq_ok_at i) (pupd i f).
Proof.
  intros Hf s [[Hs Hl Hc] (p & Hp & Hu)]. unfold pupd, wp. rewrite Hp.
  destruct (Hf p) as [Hf1 Hf2]; [by eapply Forall_lookup_1 in Hs|done|].
  split; [constructor; simpl; [by apply Forall_insert|by rewrite length_insert|done]|].
  exists (f p). split; [|done]. apply list_lookup_insert_eq. by eapply lookup_lt_Some.
Qed.

Lemma level_ok_promote p : level_ok p -> level_ok (promote p).
Proof.
  intros [Hp Hb]. unfold promote, level_ok. destruct (negb _ && _) eqn:E; [|done].
  apply andb_true_iff in E as [_ E%Z.ltb_lt]. simpl. split; [lia|].
  intros Hu. specialize (Hb Hu). unfold DEFAULT_BUDGET. lia.
Qed.

Lemma level_ok_charge d p : 0 <= d < 2 ^ 31 -> level_ok p -> level_ok (charge d p).
Proof.
  intros Hd [Hp Hb]. unfold charge, level_ok. destruct (Z.leb_spec (i32 (budget p - d)) 0).
  - destruct (Z.ltb_spec 0 (priority p)); simpl; (split; [lia|]); intros Hu;
      specialize (Hb Hu); unfold DEFAULT_BUDGET; lia.
  - simpl. split; [done|]. intros Hu. specialize (Hb Hu). unfold DEFAULT_BUDGET in *.
    rewrite i32_small in * by lia. lia.
Qed.

Lemma keeps_adjust : keeps mlfq_ok adjustPriority.
Proof.
  unfold adjustPriority, slots.
  cut (forall l, Forall (fun i => (i < NPROC)%nat) l -> keeps mlfq_ok (for_each l (fun i => pupd i promote))).
  { intros H. apply H. apply Forall_forall. intros i [_ Hi]%elem_of_seq. exact Hi. }
  induction 1 as [|i l Hi _ IH]; simpl; [apply keeps_ret|].
  apply keeps_bind; [apply keeps_pupd; [done|apply level_ok_promote]|]. intros _. exact IH.
Qed.

(** What the processes do while the scheduler waits: each comes back, keeps the
    property, and ran for less than 2^31 ticks; and the switch of the address
    space returns. *)
Context (run : nat -> M (xst R) unit).
Definition run_ok : Prop := forall i s, mlfq_ok s ->
  wp (run i) (fun _ s' => mlfq_ok s' /\
    0 <= i32 (i32 (x_ticks s') - i32 (x_ticks s)) < 2 ^ 31) s.
Definition switch_ok : Prop :=
  (forall p r, exists r', switchuvm p r = Ok tt r') /\ (forall r, exists r', switchkvm r = Ok tt r').

Hypothesis Hrun : run_ok.
Hypothesis Hsw : switch_ok.

Lemma keeps_switchuvm J p : frame J -> keeps J (rest (switchuvm p)).
Proof.
  intros HJ s Hs. unfold rest, wp. destruct (proj1 Hsw p (x_rest s)) as [r' ->].
  by apply (HJ s).
Qed.

Lemma keeps_switchkvm J : frame J -> keeps J (rest switchkvm).
Proof.
  intros HJ s Hs. unfold rest, wp. destruct (proj2 Hsw (x_rest s)) as [r' ->]. by apply (HJ s).
Qed.

(** The accounting after a process has run. *)
Lemma keeps_account i tin tout : (i < NPROC)%nat -> 0 <= i32 (tout - tin) < 2 ^ 31 ->
  keeps mlfq_ok (
    rest switchkvm;;
    pupd i (fun p => set_pticks (i32 (ticks p + i32 (tout - tin))) p);;
    set_cproc ci None;;
    pupd i (charge (i32 (tout - tin)));;
    at_ ← gets promote_at; now ← gets x_ticks;
    (if at_ <=? now then
       adjustPriority;; modify (fun s => with_promote (u32 (x_ticks s + TICKS_TO_PROMOTE)) s)
     else mret tt);;
    mret true).
Proof.
  intros Hi Hd. pose proof mlfq_ok_frame as HF.
  apply keeps_bind; [by apply keeps_switchkvm|intros _].
  apply keeps_bind; [by apply keeps_pupd|intros _].
  apply keeps_bind; [by apply keeps_set_cproc|intros _].
  apply keeps_bind; [apply keeps_pupd; [done|]; intros q Hq; by apply level_ok_charge|intros _].
  apply keeps_bind; [apply keeps_gets|intros at_]. apply keeps_bind; [apply keeps_gets|intros now].
  apply keeps_bind; [|intros _; apply keeps_ret].
  destruct (at_ <=? now); [|apply keeps_ret].
  apply keeps_bind; [apply keeps_adjust|intros _]. by apply keeps_modify.
Qed.

Lemma keeps_visit prio i : (i < NPROC)%nat -> keeps mlfq_ok (mlfq_visit run ci prio i).
Proof.
  intros Hi s Hs. destruct (lookup_lt_is_Some_2 (procs s) i) as [p Hp]; [by rewrite (mo_len _ Hs)|].
  unfold mlfq_visit. apply wp_bind. unfold pget. unfold wp at 1. rewrite Hp.
  case_bool_decide as Hr; [|done]. cbn [negb]. destruct (priority p =? prio); [|done].
  assert (mlfq_ok_at i s) as Hat by (split; [done|exists p; split; congruence]).
  pose proof (mlfq_ok_at_frame i) as HF.
  assert (Hb : forall B (m : M (xst R) B) (f : B -> M (xst R) bool) s, mlfq_ok_at i s ->
    keeps (mlfq_ok_at i) m -> (forall b s', mlfq_ok_at i s' -> wp (f b) (fun _ s'' => mlfq_ok s'') s') ->
    wp (m ≫= f) (fun _ s'' => mlfq_ok s'') s).
  { intros B m f s0 H0 Hm Hf. apply wp_bind. eapply wp_mono; [by apply Hm|]. by intros b s'; apply Hf. }
  apply Hb; [done|apply keeps_set_cproc; [done|by intros ? [? _]]|intros _ s1 H1].
  apply Hb; [done|by apply keeps_switchuvm|intros _ s2 H2].
  apply Hb; [done|by apply keeps_pupd_at|intros _ s3 H3].
  apply Hb; [done|apply keeps_pupd_at; intros q [? Hq] Hu; split; [by split; auto|done]|intros _ s4 H4].
  apply wp_bind. unfold gets at 1. unfold wp at 1. apply wp_bind.
  eapply wp_mono; [apply Hrun, H4|]. intros _ s5 [H5 Hd].
  apply wp_bind. unfold gets at 1. unfold wp at 1. by apply keeps_account.
Qed.

Lemma slots_range : Forall (fun i => (i < NPROC)%nat) slots.
Proof. apply Forall_forall. intros i [_ Hi]%elem_of_seq. exact Hi. Qed.

Lemma keeps_pass l prio count :
  Forall (fun i => (i < NPROC)%nat) l -> keeps mlfq_ok (mlfq_pass run ci l prio count).
Proof.
  intros Hl. revert count. induction Hl as [|i l Hi _ IH]; intros count; [apply keeps_ret|].
  cbn [mlfq_pass]. apply keeps_bind; [by apply keeps_visit|]. intros b. apply IH.
Qed.

Lemma mlfq_levels_S f prio :
  mlfq_levels (S f) run ci prio =
    if prio <? 0 then mret tt
    else
      count ← mlfq_pass run ci slots prio 0;
      if count =? 0 then mlfq_levels f run ci (prio - 1) else mlfq_levels f run ci prio.
Proof. reflexivity. Qed.

Lemma bind_panic {A B} (m : M (xst R) A) (f : A -> M (xst R) B) s msg s' :
  (m ≫= f) s = Panic msg s' -> m s = Panic msg s' \/
  exists a s1, m s = Ok a s1 /\ f a s1 = Panic msg s'.
Proof. unfold mbind, M_bind. destruct (m s); naive_solver. Qed.

Lemma wp_elim {A} (m : M (xst R) A) Q s :
  wp m Q s -> (forall msg s', m s <> Panic msg s') /\ forall a s', m s = Ok a s' -> Q a s'.
Proof. unfold wp. destruct (m s); naive_solver. Qed.

Lemma mlfq_levels_no_panic fuel prio s msg s' :
  mlfq_ok s -> mlfq_levels fuel run ci prio s <> Panic msg s'.
Proof.
  revert prio s. induction fuel as [|fuel IH]; intros prio s Hs; [done|].
  rewrite mlfq_levels_S. destruct (prio <? 0); [done|].
  destruct (wp_elim _ _ _ (keeps_pass slots prio 0 slots_range s Hs)) as [Hnp Hok].
  intros [E|(n & s1 & E & Hf)]%bind_panic; [by apply Hnp in E|].
  apply Hok in E. destruct (n =? 0); by eapply IH.
Qed.

(** The feedback-queue scheduler and its levels.  Whatever the processes do
    while they run, as long as each switches back and keeps its own fields in
    range, every pass over the table completes, and afterwards every process
    has a priority between 0 and 2, and every process in use a budget between 1
    and 5 and at least one ticket; the loop over the levels never panics. *)
Theorem mlfq_levels_ok fuel prio count s :
  mlfq_ok s ->
  wp (mlfq_pass run ci slots prio count) (fun _ s' => mlfq_ok s') s /\
  (forall msg s', mlfq_levels fuel run ci prio s <> Panic msg s').
Proof.
  intros Hs. split.
  - exact (keeps_pass slots prio count slots_range s Hs).
  - intros msg s'. exact (mlfq_levels_no_panic fuel prio s msg s' Hs).
Qed.
End levels.

Lemma adjustPriority_run {R} (s : xst R) : length (procs s) = NPROC ->
  adjustPriority s = Ok tt (with_procs (map promote (procs s)) s).
Proof.
  intros Hl. unfold adjustPriority, slots.
  cut (forall n k (s : xst R), (k + n = length (procs s))%nat ->
    for_each (seq k n) (fun i => pupd i promote) s =
      Ok tt (with_procs (take k (procs s) ++ map promote (drop k (procs s))) s)).
  { intros H. rewrite H by done. done. }
  clear. induction n as [|n IH]; intros k s Hk.
  - rewrite drop_ge, take_ge by lia. simpl. rewrite app_nil_r. by destruct s.
  - destruct (lookup_lt_is_Some_2 (procs s) k) as [p Hp]; [lia|].
    cbn [seq for_each]. unfold mbind, M_bind, pupd at 1. rewrite Hp.
    rewrite IH by (simpl; rewrite length_insert; lia). f_equal. unfold with_procs. simpl. f_equal.
    rewrite (drop_S _ p k) by done. simpl.
    rewrite drop_insert_lt by lia. rewrite (take_S_r _ _ (promote p)) by (apply list_lookup_insert_eq; lia).
    rewrite take_insert_ge by lia. by rewrite <- app_assoc.
Qed.

(** promotion.  [adjustPriority] raises every process that is not a zombie
    by one level, up to the top one, with a full budget, and changes nothing
    else; so after two promotions every process that is not a zombie is at the
    top level, however low it had been. *)
Theorem adjustPriority_twice {R} (s : xst R) :
  length (procs s) = NPROC -> levels_ok (procs s) ->
  exists s' s'', adjustPriority s = Ok tt s' /\ procs s' = map promote (procs s) /\
    adjustPriority s' = Ok tt s'' /\
    forall i p, procs s !! i = Some p -> exists q, procs s'' !! i = Some q /\
      (state p <> ZOMBIE -> priority q = MAXPRIORITY) /\ state q = state p /\ pid q = pid p.
Proof.
  intros Hl Hok.
  exists (with_procs (map promote (procs s)) s).
  eexists. split_and!; [by apply adjustPriority_run|done|apply adjustPriority_run; simpl; by rewrite length_map|].
  intros i p Hp. exists (promote (promote p)). simpl.
  rewrite !list_lookup_fmap, Hp. split; [done|].
  destruct (Forall_lookup_1 _ _ _ _ Hok Hp) as [Hpr _]. unfold promote, MAXPRIORITY in *.
  destruct (bool_decide_reflect (state p = ZOMBIE)); simpl; [rewrite bool_decide_true by done; done|].
  destruct (Z.ltb_spec (priority p) 2); simpl; rewrite bool_decide_false by done; simpl.
  - destruct (Z.ltb_spec (priority p + 1) 2); simpl; split_and!; try done; lia.
  - destruct (Z.ltb_spec (priority p) 2); simpl; split_and!; try done; lia.
Qed.

(** ** Examples *)

Definition ex_runnable (n : Z) : proc :=
  set_state RUNNABLE (set_pid 1 (set_tickets n 0 (set_prio 1 5 proc0))).

Definition ex_table (m n : Z) : xst Z :=
  with_procs (ex_runnable m :: ex_runnable n :: replicate 62 proc0) ex_x.

Lemma ex_tickets_ok m n : 1 <= m -> 1 <= n -> tickets_ok (procs (ex_table m n)).
Proof.
  intros Hm Hn. constructor; [done|]. constructor; [done|]. apply Forall_replicate. done.
Qed.

Lemma lottery_fair_witness :
  countb (fun t => bool_decide (winner (procs (ex_table 2 3)) 0 t 0 = Some 1%nat)) (seqZ 1 5) = 3.
Proof.
  destruct (lottery_fair (SV := ex_services) (ex_table 2 3)) as (_ & _ & H).
  - reflexivity.
  - apply ex_tickets_ok; lia.
  - vm_compute. reflexivity.
  - exact (H 1%nat (ex_runnable 3) eq_refl).
Defined.

Lemma lottery_starves_witness :
  exists v, (v < 1)%nat /\ forall run ci,
    lottery_draw (SV := ex_services) run ci slots
      (Z.rem (rand (RtcDate 0 0 0 1 1 2023)) (total (procs (ex_table 4930 1))) + 1) 0 (ex_table 4930 1) =
    lottery_run (SV := ex_services) run ci v (ex_table 4930 1).
Proof.
  apply (lottery_starves (SV := ex_services) (ex_table 4930 1) 1 (ex_runnable 1)).
  - reflexivity.
  - apply ex_tickets_ok; lia.
  - vm_compute. reflexivity.
  - reflexivity.
  - vm_compute. discriminate.
Defined.

Lemma ex_levels_ok : levels_ok (procs (ex_table 1 1)).
Proof.
  constructor; [split; simpl; unfold MAXPRIORITY, DEFAULT_BUDGET; lia|].
  constructor; [split; simpl; unfold MAXPRIORITY, DEFAULT_BUDGET; lia|].
  apply Forall_replicate. split; simpl; [unfold MAXPRIORITY; lia|done].
Qed.

Lemma mlfq_levels_ok_witness :
  wp (mlfq_pass (SV := ex_services) (fun _ => mret tt) 1 slots 1 0)
    (fun _ s' => levels_ok (procs s')) (ex_table 1 1).
Proof.
  assert (run_ok (R := Z) 1 (fun _ => mret tt)) as Hrun.
  { intros i s Hs. split; [exact Hs|]. rewrite Z.sub_diag. split; [discriminate|reflexivity]. }
  assert (switch_ok (SV := ex_services)) as Hsw by (split; intros; eexists; reflexivity).
  assert (mlfq_ok 1 (ex_table 1 1)) as Hok
    by (constructor; [apply ex_levels_ok|reflexivity|simpl; lia]).
  pose proof (mlfq_levels_ok (SV := ex_services) 1 _ Hrun Hsw 4 1 0 (ex_table 1 1) Hok) as H.
  exact (wp_mono _ _ _ _ (proj1 H) (fun n s' Hs' => mo_levels _ _ Hs')).
Defined.

Lemma adjustPriority_twice_witness :
  exists s' s'', adjustPriority (ex_table 1 1) = Ok tt s' /\ adjustPriority s' = Ok tt s''.
Proof.
  destruct (adjustPriority_twice (ex_table 1 1) eq_refl ex_levels_ok) as (s' & s'' & H1 & _ & H2 & _).
  exists s', s''. split; [exact H1|exact H2].
Defined.
