(* ===== verification/Xv6Table.v ===== *)
(** * The xv6 process table over time

    What each routine of proc.c does to the table ([tri] statements), the step
    relation of the table under all of them, and the invariants of every
    reachable table: the pids are unique, the processes form a tree rooted at
    the first process, and no process sleeps in [wait] while it has a child to
    reap. *)

From S2P Require Import Prelude CMem JosString JosPrintfmt Xv6Lock Xv6String Xv6Console Xv6Proc Xv6Sched.
From stdpp Require Import base numbers option list gmap strings.
Open Scope Z_scope.

(** ** Automation *)

Ltac tri_prim :=
  first
    [ apply tri_rest | apply tri_memupd | apply tri_pget | apply tri_pupd
    | apply tri_lift; first
        [ apply calm_acquire | apply calm_release | apply calm_holding | apply calm_myproc
        | apply calm_mycpu | apply calm_cpu_get ]
    | apply tri_gets with (g := t_init); reflexivity
    | apply tri_gets with (g := t_next); reflexivity ].

(** One primitive operation of a routine. *)
Ltac tri_step x :=
  eapply tri_bind; [tri_prim|]; cbv beta; intros x ? ?; destruct_and?; simplify_eq.

Section table.
Context {R : Type} `{SV : Services R}.
Implicit Types t : tab.

Lemma tri_pget_at t i p (Q : proc -> tab -> Prop) E :
  t_procs t !! i = Some p -> Q p t -> tri t (pget i : M (xst R) proc) Q E.
Proof.
  intros Hp HQ. eapply tri_mono; [apply tri_pget| |done]. intros p' t' [-> Hp']. by simplify_eq.
Qed.

Lemma put_lookup i p q t : t_procs t !! i = Some q -> t_procs (put i p t) !! i = Some p.
Proof. intros H. simpl. apply list_lookup_insert_eq. by eapply lookup_lt_Some. Qed.

Lemma put_lookup_ne i j p t : i <> j -> t_procs (put i p t) !! j = t_procs t !! j.
Proof. intros H. simpl. by apply list_lookup_insert_ne. Qed.

Lemma put_put i p q t : put i p (put i q t) = put i p t.
Proof. unfold put. simpl. by rewrite list_insert_insert_eq. Qed.

Lemma put_id i p t : t_procs t !! i = Some p -> put i p t = t.
Proof. intros H. unfold put. rewrite list_insert_id by done. by destruct t. Qed.

(** A routine that works on one slot. *)
Lemma tri_pupd_put t i p0 p f (Q : unit -> tab -> Prop) E :
  t_procs t !! i = Some p0 -> Q tt (put i (f p) t) ->
  tri (put i p t) (pupd i f : M (xst R) unit) Q E.
Proof.
  intros H0 HQ. eapply tri_mono; [apply tri_pupd| |done]. intros [] t' (p' & Hp' & ->).
  rewrite (put_lookup _ _ p0) in Hp' by done. simplify_eq. by rewrite put_put.
Qed.

Lemma tri_pget_put t i p0 p (Q : proc -> tab -> Prop) E :
  t_procs t !! i = Some p0 -> Q p (put i p t) ->
  tri (put i p t) (pget i : M (xst R) proc) Q E.
Proof. intros H0 HQ. apply tri_pget_at with p; [by eapply put_lookup|done]. Qed.

(** The next update of the slot that a routine works on. *)
Ltac tri_put H :=
  eapply tri_bind;
  [eapply tri_pupd_put with (Q := fun _ t' => t' = _); [exact H|reflexivity]|intros _ ? ->].
Ltac tri_get H :=
  eapply tri_bind;
  [eapply tri_pget_put with (Q := fun p' t' => p' = _ /\ t' = _); [exact H|split; reflexivity]
  |intros ? ? [-> ->]].

(** ** Loops over the table *)

Lemma tri_for_each {A} (l : list A) (body : A -> M (xst R) unit) (I : list A -> tab -> Prop) t E :
  I [] t ->
  (forall pre x rest t, l = pre ++ x :: rest -> I pre t ->
     tri t (body x) (fun _ t' => I (pre ++ [x]) t') E) ->
  tri t (for_each l body) (fun _ t' => I l t') E.
Proof.
  intros H0 Hstep.
  cut (forall l2 l1 t, l = l1 ++ l2 -> I l1 t -> tri t (for_each l2 body) (fun _ t' => I l t') E).
  { intros H. by apply (H l []). }
  induction l2 as [|x l2 IH]; intros l1 t1 Hl HI; simpl.
  - rewrite app_nil_r in Hl. subst l1. by apply tri_ret.
  - eapply tri_bind; [by eapply Hstep|]. intros [] t' HI'. eapply IH; [|done].
    by rewrite <- app_assoc.
Qed.

Definition tmap (f : proc -> proc) (t : tab) : tab :=
  MkTab (map f (t_procs t)) (t_init t) (t_next t) (t_cur t).

(** The first [k] slots mapped. *)
Definition tmap_upto (f : proc -> proc) (k : nat) (t : tab) : tab :=
  MkTab (map f (take k (t_procs t)) ++ drop k (t_procs t)) (t_init t) (t_next t) (t_cur t).

Lemma tmap_upto_lookup f k t : (k <= length (t_procs t))%nat ->
  t_procs (tmap_upto f k t) !! k = t_procs t !! k.
Proof.
  intros Hk. simpl. rewrite lookup_app_r; rewrite length_map, length_take_le by lia; [|lia].
  rewrite Nat.sub_diag, lookup_drop. by rewrite Nat.add_0_r.
Qed.

Lemma tmap_upto_S f k t p : t_procs t !! k = Some p ->
  put k (f p) (tmap_upto f k t) = tmap_upto f (S k) t.
Proof.
  intros Hp. pose proof (lookup_lt_Some _ _ _ Hp). unfold put, tmap_upto. simpl. f_equal.
  assert (length (map f (take k (t_procs t))) = k) as Hlen
    by (rewrite length_map, length_take_le; [done|lia]).
  rewrite (take_S_r _ _ p), map_app, <- app_assoc by done. simpl.
  rewrite insert_app_r_alt, Hlen, Nat.sub_diag by lia. by rewrite (drop_S _ p) by done.
Qed.

Lemma tmap_upto_all f t : length (t_procs t) = NPROC -> tmap_upto f NPROC t = tmap f t.
Proof.
  intros Hl. unfold tmap_upto, tmap. rewrite take_ge, drop_ge by lia. by rewrite app_nil_r.
Qed.

Lemma slots_split pre i rest : slots = pre ++ i :: rest -> i = length pre /\ (i < NPROC)%nat.
Proof.
  intros H. assert (slots !! length pre = Some i) as Hi.
  { rewrite H. by rewrite list_lookup_middle. }
  apply lookup_seq in Hi as [-> Hlt]. split; [lia|exact Hlt].
Qed.

(** A loop whose body changes each slot by itself. *)
Lemma tri_each_slot (body : nat -> M (xst R) unit) f t E :
  length (t_procs t) = NPROC ->
  (forall i p t', t_procs t' !! i = Some p -> tri t' (body i) (fun _ t2 => t2 = put i (f p) t') E) ->
  tri t (for_each slots body) (fun _ t' => t' = tmap f t) E.
Proof.
  intros Hl Hb. eapply tri_mono.
  - apply tri_for_each with (I := fun pre t' => t' = tmap_upto f (length pre) t).
    + unfold tmap_upto. simpl. by destruct t.
    + intros pre i rest t1 [Hi Hlt]%slots_split ->. subst i.
      destruct (lookup_lt_is_Some_2 (t_procs t) (length pre)) as [p Hp]; [lia|].
      eapply tri_mono; [apply Hb; by rewrite tmap_upto_lookup by lia| |done].
      intros [] t2 ->. rewrite length_app. simpl. rewrite Nat.add_1_r. by apply tmap_upto_S.
  - intros [] t' ->. by apply tmap_upto_all.
  - done.
Qed.

Lemma tri_find_slot l test t E :
  tri t (find_slot l test : M (xst R) (option nat)) (fun r t' => t' = t /\
    match r with
    | Some i => i ∈ l /\ exists p, t_procs t !! i = Some p /\ test p = true
    | None => forall i p, i ∈ l -> t_procs t !! i = Some p -> test p = false
    end) E.
Proof.
  induction l as [|i l IH]; simpl.
  - apply tri_ret. split; [done|]. intros i p Hi. by apply not_elem_of_nil in Hi.
  - tri_step p. destruct (test p) eqn:Ht.
    + apply tri_ret. split; [done|]. split; [left|by exists p].
    + eapply tri_mono; [apply IH| |done]. intros [j|] t' [-> Hj]; (split; [done|]).
      * destruct Hj as [Hj ?]. split; [by right|done].
      * intros k q [->|Hk]%elem_of_cons Hq; [by simplify_eq|by eapply Hj].
Qed.

(** ** Waking up *)

Definition wake (ch : ptr) (p : proc) : proc :=
  if bool_decide (state p = SLEEPING) && bool_decide (chan p = ch) then set_state RUNNABLE p else p.

Lemma tri_wakeup1 ch t E :
  length (t_procs t) = NPROC ->
  tri t (wakeup1 ch : M (xst R) unit) (fun _ t' => t' = tmap (wake ch) t) E.
Proof.
  intros Hl. apply tri_each_slot; [done|]. intros i p t' Hp.
  eapply tri_bind; [apply (tri_pget_at _ _ p) with (Q := fun p' t2 => p' = p /\ t2 = t'); done|].
  intros ? ? [-> ->]. unfold wake. destruct (bool_decide _ && bool_decide _).
  - eapply tri_mono; [apply tri_pupd| |done]. intros [] t2 (p2 & Hp2 & ->). by simplify_eq.
  - apply tri_ret. by rewrite put_id.
Qed.

(** ** Exit *)

Definition reparent (cur : nat) (ini : option nat) (p : proc) : proc :=
  if bool_decide (parent p = Some cur) then set_parent ini p else p.

Lemma wake_state ch p : state (wake ch p) = state p \/
  state p = SLEEPING /\ chan p = ch /\ state (wake ch p) = RUNNABLE.
Proof. unfold wake. repeat case_bool_decide; simpl; auto. Qed.

Lemma wake_fields ch p : pid (wake ch p) = pid p /\ parent (wake ch p) = parent p /\
  chan (wake ch p) = chan p /\ (state (wake ch p) = ZOMBIE <-> state p = ZOMBIE) /\
  (state (wake ch p) = UNUSED <-> state p = UNUSED).
Proof. unfold wake. repeat case_bool_decide; simpl; split_and!; try done; rewrite ?H; done. Qed.

Lemma wake_idem ch p : wake ch (wake ch p) = wake ch p.
Proof. unfold wake. repeat case_bool_decide; simpl; try done; repeat case_bool_decide; done. Qed.

Lemma wake_set_parent ch x p : set_parent x (wake ch p) = wake ch (set_parent x p).
Proof. unfold wake. simpl. by repeat case_bool_decide. Qed.

Definition wake_if (b : bool) (ch : ptr) : proc -> proc := if b then wake ch else (fun p => p).

Lemma tmap_put f i p t : tmap f (put i p t) = put i (f p) (tmap f t).
Proof. unfold tmap, put. simpl. by rewrite list_fmap_insert. Qed.

Lemma tmap_tmap f g t : tmap f (tmap g t) = tmap (fun p => f (g p)) t.
Proof. unfold tmap. simpl. by rewrite map_map. Qed.

Lemma tmap_ext f g t : (forall p, f p = g p) -> tmap f t = tmap g t.
Proof. intros H. unfold tmap. by rewrite (map_ext _ _ H). Qed.

Lemma tmap_id t : tmap (fun p => p) t = t.
Proof. unfold tmap. rewrite map_id. by destruct t. Qed.

(** The children of [cur] go to the first process, which is woken exactly when
    one of them is a zombie. *)
Definition zombie_child (cur : nat) (p : proc) : bool :=
  bool_decide (parent p = Some cur) && bool_decide (state p = ZOMBIE).

Definition orphaned (cur : nat) (t : tab) : tab :=
  tmap (fun p => wake_if (existsb (zombie_child cur) (t_procs t)) (proc_ptr (t_init t))
                   (reparent cur (t_init t) p)) t.

Lemma tmap_upto_length f k t : length (t_procs (tmap_upto f k t)) = length (t_procs t).
Proof.
  simpl. rewrite length_app, length_map, <- length_app, take_drop. done.
Qed.

Lemma tri_orphan_step cur b k p t E :
  length (t_procs t) = NPROC -> t_procs t !! k = Some p ->
  tri (tmap (wake_if b (proc_ptr (t_init t))) (tmap_upto (reparent cur (t_init t)) k t))
    (p ← pget k;
     if bool_decide (parent p = Some cur) then
       ini ← gets initproc;
       pupd k (set_parent ini);;
       p ← pget k;
       if bool_decide (state p = ZOMBIE) then wakeup1 (proc_ptr ini) else mret tt
     else mret tt : M (xst R) unit)
    (fun _ t' => t' = tmap (wake_if (b || zombie_child cur p) (proc_ptr (t_init t)))
                        (tmap_upto (reparent cur (t_init t)) (S k) t)) E.
Proof.
  intros Hl Hp. set (ini := t_init t). set (t1 := tmap_upto (reparent cur ini) k t).
  pose proof (lookup_lt_Some _ _ _ Hp) as Hk.
  set (W := wake_if b (proc_ptr ini)). set (t2 := tmap W t1).
  assert (t_procs t2 !! k = Some (W p)) as Hp2.
  { change (t_procs t2) with (W <$> t_procs t1). rewrite list_lookup_fmap. unfold t1.
    by rewrite tmap_upto_lookup, Hp by lia. }
  assert (parent (W p) = parent p /\ (state (W p) = ZOMBIE <-> state p = ZOMBIE)) as [HWp HWz].
  { unfold W. destruct b; [|done]. simpl. by destruct (wake_fields (proc_ptr ini) p) as (_ & ? & _ & ? & _). }
  assert (length (t_procs t2) = NPROC) as Hl2.
  { change (t_procs t2) with (map W (t_procs t1)). rewrite length_map. unfold t1.
    by rewrite tmap_upto_length. }
  tri_step p'. rewrite HWp. rewrite <- (tmap_upto_S _ _ _ p) by done. fold t1.
  unfold zombie_child, reparent at 1.
  case_bool_decide as Hpar; simpl.
  2:{ rewrite orb_false_r. apply tri_ret. fold W. rewrite tmap_put. fold t2. by rewrite put_id. }
  tri_step ini'. tri_step u. destruct H as (p' & Hp' & ->). simplify_eq. change (t_init t2) with ini.
  eapply tri_bind; [by eapply tri_pget_put with (Q := fun p' t' => p' = set_parent ini (W p) /\ t' = _)|].
  intros ? ? [-> ->]. simpl.
  assert (set_parent ini (W p) = W (set_parent ini p)) as Ecomm.
  { unfold W. destruct b; [simpl; apply wake_set_parent|done]. }
  rewrite (bool_decide_ext (state (W p) = ZOMBIE) (state p = ZOMBIE)) by done.
  case_bool_decide.
  - rewrite orb_true_r. eapply tri_mono; [apply tri_wakeup1|intros _ t' ->|done].
    + simpl. by rewrite length_insert.
    + rewrite Ecomm. unfold t2. rewrite <- tmap_put, tmap_tmap. apply tmap_ext. intros q.
      unfold W. destruct b; simpl; [apply wake_idem|done].
  - rewrite orb_false_r. apply tri_ret. fold W. rewrite tmap_put. fold t2. by rewrite Ecomm.
Qed.

Lemma tri_exit_orphans cur t E :
  length (t_procs t) = NPROC ->
  tri t (exit_orphans cur : M (xst R) unit) (fun _ t' => t' = orphaned cur t) E.
Proof.
  intros Hl. eapply tri_mono.
  - apply tri_for_each with (I := fun pre t' =>
      t' = tmap (wake_if (existsb (zombie_child cur) (take (length pre) (t_procs t))) (proc_ptr (t_init t)))
             (tmap_upto (reparent cur (t_init t)) (length pre) t)).
    + simpl. rewrite tmap_id. unfold tmap_upto. simpl. by destruct t.
    + intros pre i rest t1 [Hi Hlt]%slots_split ->. subst i.
      destruct (lookup_lt_is_Some_2 (t_procs t) (length pre)) as [p Hp]; [lia|].
      eapply tri_mono; [by apply (tri_orphan_step _ _ _ p)|intros [] t2 ->|done].
      rewrite length_app. simpl length. rewrite Nat.add_1_r.
      rewrite (take_S_r _ _ p), existsb_app by done. simpl. by rewrite orb_false_r.
  - intros [] t' ->. change (length slots) with NPROC. rewrite tmap_upto_all by done.
    unfold orphaned. rewrite tmap_tmap. by rewrite take_ge by (rewrite Hl; done).
  - done.
Qed.

(** ** Routines up to the switch, and complete ones *)

Lemma tri_curproc t E :
  tri t (curproc : M (xst R) nat) (fun cur t' => t' = t /\ t_cur t = Some cur) E.
Proof.
  unfold curproc. tri_step r. destruct (t_cur t) as [cur|]; [by apply tri_ret|by apply tri_panic].
Qed.

Lemma tri_sched t (E : tab -> Prop) :
  E t -> tri t (sched leave : M (xst R) unit) (fun _ _ => False) E.
Proof.
  intros HE. unfold sched. tri_step r. tri_step h. destruct h; [|by apply tri_panic]. simpl.
  tri_step i. tri_step c. destruct (ncli c =? 1); [|by apply tri_panic]. simpl.
  eapply tri_bind with (Q1 := fun _ t' => t' = t).
  { destruct (t_cur t) as [j|]; [|by apply tri_panic].
    eapply tri_mono; [apply tri_pget|by intros ? ? [-> _]|done]. }
  intros p t' ->. case_bool_decide; [by apply tri_panic|].
  eapply tri_bind with (Q1 := fun _ t' => t' = t); [by intros s <-|].
  intros f t' ->. destruct f; [by apply tri_panic|].
  tri_step i'. tri_step c'.
  eapply tri_bind with (Q1 := fun _ _ => False); [by apply tri_leave|done].
Qed.

Definition core (p q : proc) : Prop :=
  state p = state q /\ pid p = pid q /\ parent p = parent q /\ chan p = chan q.

Lemma tri_one_slot_files cur (body : nat -> M (xst R) unit) l t p E :
  t_procs t !! cur = Some p ->
  (forall i q, core q p -> tri (put cur q t) (body i) (fun _ t' => exists q, core q p /\ t' = put cur q t) E) ->
  tri t (for_each l body) (fun _ t' => exists q, core q p /\ t' = put cur q t) E.
Proof.
  intros Hp Hb. apply tri_for_each with (I := fun _ t' => exists q, core q p /\ t' = put cur q t).
  - exists p. split; [done|]. by rewrite put_id.
  - intros pre x rest t1 _ (q & Hq & ->). by apply Hb.
Qed.

Lemma tri_exit_files cur t p E :
  t_procs t !! cur = Some p ->
  tri t (exit_files cur : M (xst R) unit) (fun _ t' => exists q, core q p /\ t' = put cur q t) E.
Proof.
  intros Hp. apply tri_one_slot_files; [done|]. intros i q Hq.
  eapply tri_bind; [eapply tri_pget_put with (Q := fun p' t' => p' = q /\ t' = put cur q t); done|].
  intros ? ? [-> ->]. cbv zeta. destruct (nth i (ofile q) 0 =? 0).
  - apply tri_ret. by exists q.
  - tri_step u. eapply tri_pupd_put; [done|].
    exists (set_files (<[i := 0]> (ofile q)) (cwd q) q). split; [exact Hq|done].
Qed.

Definition exited (cur : nat) (t : tab) : tab -> Prop := fun t' =>
  exists p q, t_procs t !! cur = Some p /\
    let t1 := orphaned cur (tmap (wake (proc_ptr (parent p))) t) in
    t_procs t1 !! cur = Some q /\ t' = put cur (set_state ZOMBIE q) t1.

Lemma tri_exit_locked cur t E :
  length (t_procs t) = NPROC ->
  tri t (exit_locked cur : M (xst R) unit) (fun _ t' => exited cur t t') E.
Proof.
  intros Hl. unfold exit_locked. tri_step p.
  eapply tri_bind; [by apply tri_wakeup1|intros _ t' ->].
  eapply tri_bind; [apply tri_exit_orphans; simpl; by rewrite length_map|intros _ t' ->].
  eapply tri_mono; [apply tri_pupd| |done]. intros _ t' (q & Hq & ->). by exists p, q.
Qed.

Lemma tri_exit t cur p :
  length (t_procs t) = NPROC -> t_cur t = Some cur -> t_procs t !! cur = Some p ->
  tri t (exit leave : M (xst R) unit) (fun _ _ => False) (fun t' =>
    t_init t <> Some cur /\ exists q, core q p /\ exited cur (put cur q t) t').
Proof.
  intros Hl Hcur Hp. unfold exit.
  eapply tri_bind; [apply tri_curproc|intros cur' t' [-> Hcur']]. simplify_eq.
  tri_step ini. case_bool_decide as Hini; [by apply tri_panic|].
  eapply tri_bind; [by apply tri_exit_files|intros _ t' (q & Hq & ->)].
  tri_step u1.
  eapply tri_bind; [eapply tri_pget_put with (Q := fun p' t' => p' = q /\ t' = put cur q t); done|].
  intros ? ? [-> ->]. tri_step u2. tri_step u3.
  eapply tri_bind; [eapply tri_pupd_put with (Q := fun _ t' => exists q, core q p /\ t' = put cur q t);
    [done|exists (set_files (ofile q) 0 q); split; [exact Hq|done]]|].
  intros _ t' (q' & Hq' & ->). tri_step u4.
  eapply tri_bind; [apply tri_exit_locked; simpl; by rewrite length_insert|intros [] t' Hex].
  eapply tri_bind; [by apply tri_sched; eauto|done].
Qed.

Lemma tri_wait_scan l cur hk t E :
  tri t (wait_scan l cur hk : M (xst R) (Z + bool)) (fun r t' =>
    match r with
    | inl pid' => exists i p q, i ∈ l /\ t_procs t !! i = Some p /\ parent p = Some cur /\
        state p = ZOMBIE /\ pid' = pid p /\ t' = put i q t /\
        state q = UNUSED /\ parent q = None /\ pid q = 0
    | inr b => t' = t /\ (hk = true -> b = true) /\
        forall i p, i ∈ l -> t_procs t !! i = Some p -> parent p = Some cur ->
          b = true /\ state p <> ZOMBIE
    end) E.
Proof.
  revert hk. induction l as [|i l IH]; intros hk; simpl.
  { apply tri_ret. split_and!; [done..|]. intros i p Hi. by apply not_elem_of_nil in Hi. }
  tri_step p. case_bool_decide as Hpar; simpl.
  - case_bool_decide as Hz.
    + tri_step u1. eapply tri_bind; [apply tri_pupd|intros _ t' (p1 & Hp1 & ->)]. simplify_eq.
      tri_step u2.
      repeat (eapply tri_bind;
        [eapply tri_pupd_put with (Q := fun _ t' => t' = _); [eassumption|reflexivity]|intros _ ? ->]).
      apply tri_ret. exists i, p. eexists. split_and!; try done. left.
    + eapply tri_mono; [apply (IH true)| |done]. intros [pid'|b] t'.
      * intros (j & q & q' & Hj & ?). exists j, q, q'. split; [by right|done].
      * intros (-> & Hb & Hall). split_and!; [done|by intros; apply Hb|].
        intros j q [->|Hj]%elem_of_cons Hq Hqp; [simplify_eq; auto|by eapply Hall].
  - eapply tri_mono; [apply (IH hk)| |done]. intros [pid'|b] t'.
    + intros (j & q & q' & Hj & ?). exists j, q, q'. split; [by right|done].
    + intros (-> & Hb & Hall). split_and!; [done..|].
      intros j q [->|Hj]%elem_of_cons Hq Hqp; [by simplify_eq|by eapply Hall].
Qed.

Lemma tri_sleep ch lk t cur p :
  t_cur t = Some cur -> t_procs t !! cur = Some p ->
  tri t (sleep leave ch lk : M (xst R) unit) (fun _ _ => False)
    (fun t' => t' = put cur (set_state SLEEPING (set_chan ch p)) t).
Proof.
  intros Hcur Hp. unfold sleep, sleep_enter.
  eapply tri_bind with (Q1 := fun _ t' => t' = put cur (set_state SLEEPING (set_chan ch p)) t).
  - tri_step r. rewrite Hcur. eapply tri_bind with (Q1 := fun _ t' => t' = t).
    { destruct (negb _); [|by apply tri_ret]. tri_step u1.
      eapply tri_mono; [tri_prim|by intros ? ? [-> _]|done]. }
    intros _ t' ->. eapply tri_bind; [apply tri_pupd|intros _ t' (p1 & Hp1 & ->)]. simplify_eq.
    eapply tri_bind; [eapply tri_pupd_put with (Q := fun _ t' => t' = _); [eassumption|reflexivity]|].
    intros _ ? ->. by apply tri_ret.
  - intros cur' t' ->. eapply tri_bind; [by apply tri_sched|done].
Qed.

(** [wait] returns after a child was reaped, or there is none or it was killed;
    otherwise it sleeps. *)
Lemma tri_wait fuel t cur p :
  t_cur t = Some cur -> t_procs t !! cur = Some p ->
  tri t (wait fuel leave : M (xst R) Z) (fun r t' =>
      (r = -1 /\ t' = t) \/
      exists i pi q, t_procs t !! i = Some pi /\ parent pi = Some cur /\ state pi = ZOMBIE /\
        r = pid pi /\ t' = put i q t /\ state q = UNUSED /\ parent q = None /\ pid q = 0)
    (fun t' => t' = put cur (set_state SLEEPING (set_chan (PProc cur) p)) t /\
      forall i pi, i ∈ slots -> t_procs t !! i = Some pi -> parent pi = Some cur -> state pi <> ZOMBIE).
Proof.
  intros Hcur Hp. unfold wait.
  eapply tri_bind; [apply tri_curproc|intros cur' t' [-> Hcur']]. simplify_eq. tri_step u0.
  destruct fuel as [|fuel]; [apply tri_no_fuel|]. cbn [wait_loop].
  eapply tri_bind; [apply tri_wait_scan|intros [pid'|b] t'].
  - intros (i & pi & q & _ & Hpi & Hpar & Hz & -> & -> & Hq). tri_step u1. apply tri_ret.
    right. by exists i, pi, q.
  - intros (-> & _ & Hall). tri_step p'. destruct (negb b || _).
    + tri_step u1. apply tri_ret. by left.
    + eapply tri_bind; [eapply tri_mono; [by apply tri_sleep|done|]|done].
      intros t' ->. split; [done|]. intros i pi Hi Hpi Hpar. by eapply Hall.
Qed.

Lemma tri_wakeup ch t E :
  length (t_procs t) = NPROC ->
  tri t (wakeup ch : M (xst R) unit) (fun _ t' => t' = tmap (wake ch) t) E.
Proof.
  intros Hl. unfold wakeup. tri_step u.
  eapply tri_bind; [by apply tri_wakeup1|intros _ t' ->].
  eapply tri_mono; [tri_prim|by intros ? ? [-> _]|done].
Qed.

Lemma tri_yield t cur p :
  t_cur t = Some cur -> t_procs t !! cur = Some p ->
  tri t (yield leave : M (xst R) unit) (fun _ _ => False)
    (fun t' => t' = put cur (set_state RUNNABLE p) t).
Proof.
  intros Hcur Hp. unfold yield. tri_step u.
  eapply tri_bind; [apply tri_curproc|intros cur' t' [-> Hcur']]. simplify_eq.
  eapply tri_bind; [apply tri_pupd|intros _ t' (p1 & Hp1 & ->)]. simplify_eq.
  eapply tri_bind; [by apply tri_sched|done].
Qed.

Definition wake_killed (p : proc) : proc :=
  let p := set_killed 1 p in if bool_decide (state p = SLEEPING) then set_state RUNNABLE p else p.

Lemma tri_kill pid' t E :
  tri t (kill pid' : M (xst R) Z) (fun r t' => (r = -1 /\ t' = t) \/
    exists i p, r = 0 /\ t_procs t !! i = Some p /\ pid p = pid' /\ t' = put i (wake_killed p) t) E.
Proof.
  unfold kill. tri_step u. eapply tri_bind; [apply tri_find_slot|intros [i|] t' [-> Hi]].
  - destruct Hi as (Hi & p & Hp & Ht%Z.eqb_eq).
    eapply tri_bind; [apply tri_pupd|intros _ t' (p1 & Hp1 & ->)]. simplify_eq.
    eapply tri_bind; [eapply tri_pget_put with (Q := fun p' t' => p' = set_killed 1 p /\ t' = _); done|].
    intros ? ? [-> ->].
    eapply tri_bind with (Q1 := fun _ t' => t' = put i (wake_killed p) t).
    { unfold wake_killed. cbv zeta. destruct (bool_decide _).
      - by eapply tri_pupd_put.
      - by apply tri_ret. }
    intros _ t' ->. tri_step u1. apply tri_ret. right. by exists i, p.
  - tri_step u1. apply tri_ret. by left.
Qed.

Lemma tri_setpriority pid' prio t E :
  tri t (setpriority pid' prio : M (xst R) Z) (fun r t' => (r = -1 /\ t' = t) \/
    exists i p, r = 0 /\ 0 <= prio <= MAXPRIORITY /\ t_procs t !! i = Some p /\ pid p = pid' /\
      t' = put i (set_prio prio DEFAULT_BUDGET p) t) E.
Proof.
  unfold setpriority. tri_step u.
  destruct (Z.ltb_spec prio 0), (Z.ltb_spec MAXPRIORITY prio); cbn [orb]; try (apply tri_ret; by left).
  eapply tri_bind; [apply tri_find_slot|intros [i|] t' [-> Hi]].
  - destruct Hi as (Hi & p & Hp & Ht%Z.eqb_eq).
    eapply tri_bind; [apply tri_pupd|intros _ t' (p1 & Hp1 & ->)]. simplify_eq.
    tri_step u1. apply tri_ret. right. by exists i, p.
  - tri_step u1. apply tri_ret. by left.
Qed.

(** ** Creation *)

Definition bump (t : tab) : tab := MkTab (t_procs t) (t_init t) (i32 (t_next t + 1)) (t_cur t).

Lemma tri_bump n t E :
  n = t_next t -> tri t (modify (with_nextpid (i32 (n + 1))) : M (xst R) unit) (fun _ t' => t' = bump t) E.
Proof. by intros -> s <-. Qed.

(** A slot [q] for a new process in place of the unused slot [p]. *)
Definition fresh (t : tab) (p q : proc) : Prop :=
  pid q = t_next t /\ parent q = parent p /\ priority q = MAXPRIORITY /\ budget q = DEFAULT_BUDGET /\
  num_tickets q = 1 /\ num_scheduled q = 0.

Lemma tri_allocproc trapret forkret t E :
  tri t (allocproc trapret forkret : M (xst R) (option nat)) (fun r t' =>
    (r = None /\ t' = t) \/
    exists i p q, t_procs t !! i = Some p /\ state p = UNUSED /\ fresh t p q /\
      t' = put i q (bump t) /\
      ((r = None /\ state q = UNUSED) \/ (r = Some i /\ state q = EMBRYO))) E.
Proof.
  unfold allocproc. tri_step u. eapply tri_bind; [apply tri_find_slot|intros [i|] t' [-> Hi]].
  2:{ tri_step u1. apply tri_ret. by left. }
  destruct Hi as (Hi & p & Hp & Ht%bool_decide_eq_true).
  eapply tri_bind; [apply tri_pupd|intros _ t' (p1 & Hp1 & ->)]. simplify_eq.
  do 2 tri_put Hp.
  tri_step n. eapply tri_bind; [by apply tri_bump|intros _ t' ->].
  change (bump (put i ?q t)) with (put i q (bump t)).
  tri_put Hp.
  tri_step u2. tri_step k.
  tri_put Hp.
  destruct (k =? 0).
  - tri_put Hp.
    apply tri_ret. right. exists i, p.
    refine (ex_intro _ _ (conj Hp (conj Ht (conj _ (conj eq_refl _))))); [done|by left].
  - cbv zeta.
    tri_put Hp.
    tri_step u3.
    tri_put Hp.
    tri_step u4. tri_step u5. apply tri_ret. right. exists i, p.
    refine (ex_intro _ _ (conj Hp (conj Ht (conj _ (conj eq_refl _))))); [done|by right].
Qed.

Lemma tri_fork_files np cur t p pc E :
  t_procs t !! np = Some p -> np <> cur -> t_procs t !! cur = Some pc ->
  forall q, tri (put np q t) (fork_files np cur : M (xst R) unit)
    (fun _ t' => exists l, t' = put np (set_files l (cwd q) q) t) E.
Proof.
  intros Hp Hne Hpc q.
  apply tri_for_each with (I := fun _ t' => exists l, t' = put np (set_files l (cwd q) q) t).
  - exists (ofile q). by destruct q.
  - intros pre i rest t1 _ [l ->].
    eapply tri_bind;
      [apply tri_pget_at with (p := pc) (Q := fun p' t' => p' = pc /\ t' = put np (set_files l (cwd q) q) t);
         [by rewrite put_lookup_ne|done]|].
    intros ? ? [-> ->]. cbv zeta. destruct (nth i (ofile pc) 0 =? 0).
    + apply tri_ret. by exists l.
    + tri_step f. eapply tri_pupd_put; [done|]. by exists (<[i := f]> l).
Qed.

Lemma tri_fork trapret forkret t cur pc E :
  t_cur t = Some cur -> t_procs t !! cur = Some pc -> state pc <> UNUSED ->
  tri t (fork trapret forkret : M (xst R) Z) (fun r t' =>
    (r = -1 /\ t' = t) \/
    exists i p q, t_procs t !! i = Some p /\ state p = UNUSED /\ pid q = t_next t /\
      t' = put i q (bump t) /\
      ((r = -1 /\ state q = UNUSED /\ parent q = parent p) \/
       (r = pid q /\ state q = RUNNABLE /\ parent q = Some cur /\
        num_tickets q = num_tickets pc /\ num_scheduled q = 0 /\
        priority q = MAXPRIORITY /\ budget q = DEFAULT_BUDGET))) E.
Proof.
  intros Hcur Hpc Hst. unfold fork.
  eapply tri_bind; [apply tri_curproc|intros cur' t' [-> Hcur']]. simplify_eq.
  eapply tri_bind; [apply tri_allocproc|intros r t' [[-> ->]|(i & p & q & Hp & Hun & Hfr & -> & Hr)]].
  { apply tri_ret. by left. }
  destruct Hr as [[-> Hq]|[-> Hq]].
  { apply tri_ret. right. exists i, p, q. destruct Hfr as (Hpid & Hpar & _). split_and!; [done..|by left]. }
  assert (i <> cur) as Hne by (intros ->; simplify_eq).
  assert (forall q', t_procs (put i q' (bump t)) !! cur = Some pc) as Hlk
    by (intros; by rewrite put_lookup_ne).
  eapply tri_bind; [by eapply tri_pget_at with (Q := fun p' t' => p' = pc /\ t' = _)|intros ? ? [-> ->]].
  tri_step d. tri_put Hp. destruct Hfr as (Hpid & Hpar & Hprio & Hbud & _).
  destruct (d =? 0).
  - tri_get Hp. tri_step u1. tri_put Hp. tri_put Hp. apply tri_ret. right. exists i, p.
    refine (ex_intro _ _ (conj Hp (conj Hun (conj _ (conj eq_refl _))))); [done|by left].
  - eapply tri_bind; [by eapply tri_pget_at with (Q := fun p' t' => p' = pc /\ t' = _)|intros ? ? [-> ->]].
    tri_put Hp. tri_put Hp. tri_get Hp. tri_step u1. tri_put Hp. tri_step u2.
    eapply tri_bind; [by eapply tri_fork_files|intros _ t' [l ->]].
    eapply tri_bind; [by eapply tri_pget_at with (Q := fun p' t' => p' = pc /\ t' = _)|intros ? ? [-> ->]].
    tri_step c. tri_put Hp. tri_put Hp. tri_get Hp. cbv zeta. tri_step u3. tri_put Hp. tri_step u4.
    apply tri_ret. right. exists i, p.
    refine (ex_intro _ _ (conj Hp (conj Hun (conj _ (conj eq_refl _))))); [done|by right].
Qed.
End table.

(** ** The invariant *)

Definition alive (p : proc) : Prop := state p <> UNUSED /\ state p <> ZOMBIE.

Record tab_ok (t : tab) : Prop := TabOk {
  ok_len : length (t_procs t) = NPROC;
  ok_init : exists i p, t_init t = Some i /\ t_procs t !! i = Some p /\ alive p /\ parent p = None;
  ok_parent : forall j p, t_procs t !! j = Some p -> state p <> UNUSED -> t_init t <> Some j ->
    exists q pq, parent p = Some q /\ q <> j /\ t_procs t !! q = Some pq /\ alive pq;
  ok_unused : forall j p, t_procs t !! j = Some p -> state p = UNUSED -> parent p = None;
  ok_next : 0 < t_next t < 2 ^ 31;
  ok_pid : forall j p, t_procs t !! j = Some p ->
    0 <= pid p < t_next t /\ (state p <> UNUSED -> pid p <> 0);
  ok_uniq : forall i j p q, t_procs t !! i = Some p -> t_procs t !! j = Some q ->
    pid p = pid q -> pid p <> 0 -> i = j;
  ok_chan : forall j p x, t_procs t !! j = Some p -> state p = SLEEPING -> chan p = PProc x -> x = j;
  ok_wait : forall j p k q, t_procs t !! j = Some p -> state p = SLEEPING -> chan p = PProc j ->
    t_procs t !! k = Some q -> parent q = Some j -> state q <> ZOMBIE }.

(** A change of a slot that keeps its place in the tree: it may go to sleep on
    its own address only when it has no child to reap. *)
Record local_change (t : tab) (j : nat) (p p' : proc) : Prop := Local {
  lc_pid : pid p' = pid p;
  lc_parent : parent p' = parent p;
  lc_unused : state p' = UNUSED <-> state p = UNUSED;
  lc_zombie : state p' = ZOMBIE <-> state p = ZOMBIE;
  lc_sleep : state p' = SLEEPING -> forall x, chan p' = PProc x -> x = j /\
    forall k q, t_procs t !! k = Some q -> parent q = Some j -> state q <> ZOMBIE }.

Lemma alive_local t j p p' : local_change t j p p' -> alive p' <-> alive p.
Proof. intros [_ _ Hu Hz _]. unfold alive. by rewrite Hu, Hz. Qed.

Lemma tab_ok_local t t' :
  tab_ok t -> length (t_procs t') = length (t_procs t) -> t_init t' = t_init t ->
  t_next t' = t_next t ->
  (forall j p, t_procs t !! j = Some p -> exists p', t_procs t' !! j = Some p' /\ local_change t j p p') ->
  tab_ok t'.
Proof.
  intros Hok Hl Hini Hnext Hch.
  assert (Hback : forall j p', t_procs t' !! j = Some p' ->
    exists p, t_procs t !! j = Some p /\ local_change t j p p').
  { intros j p' Hp'. destruct (lookup_lt_is_Some_2 (t_procs t) j) as [p Hp].
    { rewrite <- Hl. by eapply lookup_lt_Some. }
    destruct (Hch j p Hp) as (p2 & Hp2 & ?). simplify_eq. by exists p. }
  constructor.
  - rewrite Hl. apply (ok_len _ Hok).
  - destruct (ok_init _ Hok) as (i & p & Hi & Hp & Ha & Hpar).
    destruct (Hch i p Hp) as (p' & Hp' & Hlc). exists i, p'. rewrite Hini.
    split_and!; [done..|by apply (alive_local t i p)|by rewrite (lc_parent _ _ _ _ Hlc)].
  - intros j p' Hp' Hu Hj. destruct (Hback j p' Hp') as (p & Hp & Hlc). rewrite Hini in Hj.
    rewrite (lc_unused _ _ _ _ Hlc) in Hu. rewrite (lc_parent _ _ _ _ Hlc).
    destruct (ok_parent _ Hok j p Hp Hu Hj) as (q & pq & ? & ? & Hq & Ha).
    destruct (Hch q pq Hq) as (pq' & Hq' & Hlc'). exists q, pq'.
    split_and!; [done..|by apply (alive_local t q pq)].
  - intros j p' Hp' Hu. destruct (Hback j p' Hp') as (p & Hp & Hlc).
    rewrite (lc_parent _ _ _ _ Hlc). apply (ok_unused _ Hok j p Hp). by apply (lc_unused _ _ _ _ Hlc).
  - rewrite Hnext. apply (ok_next _ Hok).
  - intros j p' Hp'. destruct (Hback j p' Hp') as (p & Hp & Hlc).
    rewrite (lc_pid _ _ _ _ Hlc), (lc_unused _ _ _ _ Hlc), Hnext. by apply (ok_pid _ Hok j).
  - intros i j p' q' Hp' Hq'. destruct (Hback i p' Hp') as (p & Hp & Hlc).
    destruct (Hback j q' Hq') as (q & Hq & Hlc2).
    rewrite (lc_pid _ _ _ _ Hlc), (lc_pid _ _ _ _ Hlc2). by apply (ok_uniq _ Hok).
  - intros j p' x Hp' Hs Hc. destruct (Hback j p' Hp') as (p & Hp & Hlc).
    by destruct (lc_sleep _ _ _ _ Hlc Hs x Hc).
  - intros j p' k q' Hp' Hs Hc Hq'. destruct (Hback j p' Hp') as (p & Hp & Hlc).
    destruct (Hback k q' Hq') as (q & Hq & Hlc2).
    rewrite (lc_parent _ _ _ _ Hlc2), (lc_zombie _ _ _ _ Hlc2).
    destruct (lc_sleep _ _ _ _ Hlc Hs j Hc) as [_ Hk]. by apply (Hk k).
Qed.

(** A slot that sleeps as before. *)
Lemma local_same t j p p' :
  tab_ok t -> t_procs t !! j = Some p -> pid p' = pid p -> parent p' = parent p ->
  (state p' = UNUSED <-> state p = UNUSED) -> (state p' = ZOMBIE <-> state p = ZOMBIE) ->
  (state p' = SLEEPING -> state p = SLEEPING /\ chan p' = chan p) -> local_change t j p p'.
Proof.
  intros Hok Hp ? ? ? ? Hs. constructor; try done. intros Hs' x Hx.
  destruct (Hs Hs') as [Hsl Hc]. rewrite Hc in Hx.
  pose proof (ok_chan _ Hok j p x Hp Hsl Hx) as ->. split; [done|].
  intros k q Hq Hpar. by apply (ok_wait _ Hok j p k q).
Qed.

Lemma tab_ok_put t j p p' :
  tab_ok t -> t_procs t !! j = Some p -> local_change t j p p' -> tab_ok (put j p' t).
Proof.
  intros Hok Hp Hlc. apply (tab_ok_local t); try done; [by simpl; rewrite length_insert|].
  intros k q Hq. destruct (decide (k = j)) as [->|Hne].
  - simplify_eq. exists p'. split; [by eapply put_lookup|done].
  - exists q. split; [by rewrite put_lookup_ne|]. by apply local_same.
Qed.

Lemma tab_ok_wake ch t : tab_ok t -> tab_ok (tmap (wake ch) t).
Proof.
  intros Hok. apply (tab_ok_local t); try done; [by simpl; rewrite length_map|].
  intros j p Hp. exists (wake ch p). split.
  - change (t_procs (tmap (wake ch) t)) with (wake ch <$> t_procs t). by rewrite list_lookup_fmap, Hp.
  - destruct (wake_fields ch p) as (? & ? & Hc & ? & ?). apply local_same; try done.
    intros Hs. destruct (wake_state ch p) as [E|(_ & _ & E)]; split; congruence.
Qed.

(** ** The steps keep the invariant *)

(** Reaping a zombie. *)
Lemma tab_ok_reap t j p q :
  tab_ok t -> t_procs t !! j = Some p -> state p = ZOMBIE ->
  state q = UNUSED -> parent q = None -> pid q = 0 -> tab_ok (put j q t).
Proof.
  intros Hok Hp Hz Hq Hqp Hqid.
  assert (Hl : forall k r, t_procs (put j q t) !! k = Some r ->
    (k = j /\ r = q) \/ (k <> j /\ t_procs t !! k = Some r)).
  { intros k r Hr. destruct (decide (k = j)) as [->|Hne].
    - rewrite (put_lookup _ _ p) in Hr by done. naive_solver.
    - rewrite put_lookup_ne in Hr by done. auto. }
  assert (Hnz : forall k r, t_procs t !! k = Some r -> alive r -> k <> j).
  { intros k r Hr [_ Ha] ->. by simplify_eq. }
  constructor.
  - simpl. rewrite length_insert. apply (ok_len _ Hok).
  - destruct (ok_init _ Hok) as (i & r & Hi & Hr & Ha & ?). exists i, r.
    split_and!; try done. rewrite put_lookup_ne; [done|]. intros ->. by eapply Hnz.
  - intros k r [[-> ->]|[Hne Hr]]%Hl Hu Hi; [done|].
    destruct (ok_parent _ Hok k r Hr Hu Hi) as (x & px & ? & ? & Hx & Ha). exists x, px.
    split_and!; try done. rewrite put_lookup_ne; [done|]. intros ->. by eapply Hnz.
  - intros k r [[-> ->]|[Hne Hr]]%Hl Hu; [done|]. by apply (ok_unused _ Hok k r).
  - apply (ok_next _ Hok).
  - pose proof (ok_next _ Hok). intros k r [[-> ->]|[Hne Hr]]%Hl; [|by apply (ok_pid _ Hok k)].
    simpl. split; [lia|done].
  - intros i k r r' [[-> ->]|[Hne Hr]]%Hl [[-> ->]|[Hne' Hr']]%Hl; try done; try congruence.
    by apply (ok_uniq _ Hok).
  - intros k r x [[-> ->]|[Hne Hr]]%Hl Hs Hc; [congruence|]. by apply (ok_chan _ Hok k r).
  - intros k r k' r' [[-> ->]|[Hne Hr]]%Hl Hs Hc [[-> ->]|[Hne' Hr']]%Hl Hpar; try congruence.
    by apply (ok_wait _ Hok k r k' r').
Qed.

(** A slot taken for a process, which is runnable with a live parent, or unused
    again after a failure. *)
Lemma tab_ok_new t j p q :
  tab_ok t -> t_next t < 2 ^ 31 - 1 -> t_procs t !! j = Some p -> state p = UNUSED ->
  pid q = t_next t ->
  ((state q = UNUSED /\ parent q = parent p) \/
   (state q = RUNNABLE /\ exists c pc, parent q = Some c /\ t_procs t !! c = Some pc /\ alive pc)) ->
  tab_ok (put j q (bump t)).
Proof.
  intros Hok Hlt Hp Hu Hqid Hq. pose proof (ok_next _ Hok) as Hn.
  assert (i32 (t_next t + 1) = t_next t + 1) as Hb by (apply i32_small; lia).
  assert (Hl : forall k r, t_procs (put j q (bump t)) !! k = Some r ->
    (k = j /\ r = q) \/ (k <> j /\ t_procs t !! k = Some r)).
  { intros k r Hr. destruct (decide (k = j)) as [->|Hne].
    - rewrite (put_lookup _ _ p) in Hr by done. naive_solver.
    - rewrite put_lookup_ne in Hr by done. auto. }
  assert (Hne : forall k r, t_procs t !! k = Some r -> alive r -> k <> j).
  { intros k r Hr [Ha _] ->. by simplify_eq. }
  assert (Hq' : forall k r, t_procs t !! k = Some r -> alive r ->
    t_procs (put j q (bump t)) !! k = Some r).
  { intros k r Hr Ha. rewrite put_lookup_ne; [done|]. intros ->. by eapply Hne. }
  assert (Hold : forall k r, t_procs t !! k = Some r -> pid r <> t_next t).
  { intros k r Hr. destruct (ok_pid _ Hok k r Hr). lia. }
  assert (state q <> SLEEPING /\ state q <> ZOMBIE) as [Hqs Hqz]
    by (destruct Hq as [[-> _]|[-> _]]; done).
  constructor.
  - simpl. rewrite length_insert. apply (ok_len _ Hok).
  - destruct (ok_init _ Hok) as (i & r & Hi & Hr & Ha & ?). exists i, r. auto.
  - intros k r [[-> ->]|[Hk Hr]]%Hl Hur Hi.
    + destruct Hq as [[? _]|(_ & c & pc & Hc & Hpc & Ha)]; [done|]. exists c, pc.
      split_and!; auto. intros ->. by eapply Hne.
    + destruct (ok_parent _ Hok k r Hr Hur Hi) as (x & px & ? & ? & Hx & Ha). exists x, px. auto.
  - intros k r [[-> ->]|[Hk Hr]]%Hl Hur; [|by apply (ok_unused _ Hok k r)].
    destruct Hq as [[_ ->]|[? _]]; [by apply (ok_unused _ Hok j p)|congruence].
  - simpl. rewrite Hb. lia.
  - intros k r [[-> ->]|[Hk Hr]]%Hl; simpl; rewrite Hb; [lia|].
    destruct (ok_pid _ Hok k r Hr). split; [lia|done].
  - intros i k r r' [[-> ->]|[Hi Hr]]%Hl [[-> ->]|[Hk Hr']]%Hl Hpid Hz; try done.
    + exfalso. eapply Hold; [exact Hr'|congruence].
    + exfalso. eapply Hold; [exact Hr|congruence].
    + by apply (ok_uniq _ Hok i k r r').
  - intros k r x [[-> ->]|[Hk Hr]]%Hl Hs Hc; [done|]. by apply (ok_chan _ Hok k r).
  - intros k r k' r' [[-> ->]|[Hk Hr]]%Hl Hs Hc [[-> ->]|[Hk' Hr']]%Hl Hpar; try done.
    by apply (ok_wait _ Hok k r k' r').
Qed.

Section orphans.
Context (t : tab) (cur i0 : nat).
Hypothesis Hok : tab_ok t.
Hypothesis Hinit : t_init t = Some i0.
Hypothesis Hne : i0 <> cur.

Let b := existsb (zombie_child cur) (t_procs t).
Let F (p : proc) : proc := wake_if b (PProc i0) (reparent cur (Some i0) p).

Lemma orphaned_lookup j p' :
  t_procs (orphaned cur t) !! j = Some p' <-> exists p, t_procs t !! j = Some p /\ p' = F p.
Proof.
  unfold orphaned. rewrite Hinit. fold b.
  change (t_procs (tmap ?f t)) with (f <$> t_procs t). rewrite list_lookup_fmap.
  destruct (t_procs t !! j); simpl; naive_solver.
Qed.

Lemma orphan_fields p : pid (F p) = pid p /\ chan (F p) = chan p /\
  parent (F p) = (if decide (parent p = Some cur) then Some i0 else parent p) /\
  (state (F p) = UNUSED <-> state p = UNUSED) /\ (state (F p) = ZOMBIE <-> state p = ZOMBIE) /\
  (state (F p) = SLEEPING -> state p = SLEEPING /\ (b = true -> chan p <> PProc i0)).
Proof.
  assert (pid (reparent cur (Some i0) p) = pid p /\ chan (reparent cur (Some i0) p) = chan p /\
    state (reparent cur (Some i0) p) = state p /\
    parent (reparent cur (Some i0) p) = (if decide (parent p = Some cur) then Some i0 else parent p))
    as (Hp & Hc & Hs & Hpar) by (unfold reparent; case_bool_decide; case_decide; done).
  unfold F. set (r := reparent cur (Some i0) p) in *. unfold wake_if. destruct b.
  - destruct (wake_fields (PProc i0) r) as (-> & -> & -> & -> & ->). rewrite Hp, Hc, Hpar, Hs.
    split_and!; try done. unfold wake. case_bool_decide as E1; simpl; [|congruence].
    case_bool_decide as E2; simpl; [done|]. intros _. rewrite <- Hs, <- Hc. done.
  - rewrite Hp, Hc, Hpar, Hs. done.
Qed.

Lemma orphan_alive p : alive p -> alive (F p).
Proof. destruct (orphan_fields p) as (_ & _ & _ & Hu & Hz & _). unfold alive. by rewrite Hu, Hz. Qed.

Lemma zombie_child_b k q : t_procs t !! k = Some q -> parent q = Some cur -> state q = ZOMBIE -> b = true.
Proof.
  intros Hq Hpar Hz. apply existsb_exists. exists q. split.
  - apply list_elem_of_In. by eapply list_elem_of_lookup_2.
  - unfold zombie_child. by rewrite !bool_decide_true.
Qed.

Lemma tab_ok_orphaned : tab_ok (orphaned cur t).
Proof.
  destruct (ok_init _ Hok) as (i & pi & Hi & Hpi & Hai & Hpari). simplify_eq. constructor.
  - simpl. rewrite length_map. apply (ok_len _ Hok).
  - exists i0, (F pi). destruct (orphan_fields pi) as (_ & _ & Hpar & _). split_and!; [done|..].
    + apply orphaned_lookup. eauto.
    + by apply orphan_alive.
    + rewrite Hpar. case_decide; congruence.
  - intros j p' (p & Hp & ->)%orphaned_lookup Hu Hj.
    destruct (orphan_fields p) as (_ & _ & Hpar & Hu' & _). rewrite Hu' in Hu.
    destruct (ok_parent _ Hok j p Hp Hu Hj) as (q & pq & Hq & Hqj & Hpq & Ha).
    rewrite Hpar. case_decide.
    + exists i0, (F pi). split_and!; [done| |apply orphaned_lookup; eauto|by apply orphan_alive].
      intros ->. simplify_eq.
    + exists q, (F pq). split_and!; [done..|apply orphaned_lookup; eauto|by apply orphan_alive].
  - intros j p' (p & Hp & ->)%orphaned_lookup Hu.
    destruct (orphan_fields p) as (_ & _ & Hpar & Hu' & _). rewrite Hu' in Hu.
    rewrite Hpar, (ok_unused _ Hok j p Hp Hu). by case_decide.
  - apply (ok_next _ Hok).
  - intros j p' (p & Hp & ->)%orphaned_lookup.
    destruct (orphan_fields p) as (-> & _ & _ & Hu' & _). rewrite Hu'. by apply (ok_pid _ Hok j).
  - intros j k p' q' (p & Hp & ->)%orphaned_lookup (q & Hq & ->)%orphaned_lookup.
    destruct (orphan_fields p) as (-> & _), (orphan_fields q) as (-> & _). by apply (ok_uniq _ Hok).
  - intros j p' x (p & Hp & ->)%orphaned_lookup Hs.
    destruct (orphan_fields p) as (_ & -> & _ & _ & _ & Hsl). by apply (ok_chan _ Hok), Hsl.
  - intros j p' k q' (p & Hp & ->)%orphaned_lookup Hs Hc (q & Hq & ->)%orphaned_lookup Hpar.
    destruct (orphan_fields p) as (_ & Hcp & _ & _ & _ & Hsl). destruct (Hsl Hs) as [Hsp Hb].
    destruct (orphan_fields q) as (_ & _ & Hparq & _ & Hz & _). rewrite Hz. rewrite Hcp in Hc.
    intros Hzq. rewrite Hparq in Hpar. case_decide as E.
    + injection Hpar as <-. apply Hb; [by eapply zombie_child_b|done].
    + by apply (ok_wait _ Hok j p k q).
Qed.

Lemma orphaned_no_child k r : t_procs (orphaned cur t) !! k = Some r -> parent r <> Some cur.
Proof.
  intros (p & Hp & ->)%orphaned_lookup. destruct (orphan_fields p) as (_ & _ & -> & _).
  case_decide; congruence.
Qed.
End orphans.

(** Becoming a zombie without children, when the parent is not asleep in
    [wait]. *)
Lemma tab_ok_zombie t cur q x :
  tab_ok t -> t_procs t !! cur = Some q -> parent q = Some x -> state q <> UNUSED ->
  t_init t <> Some cur -> (forall k r, t_procs t !! k = Some r -> parent r <> Some cur) ->
  (forall r, t_procs t !! x = Some r -> state r = SLEEPING -> chan r <> PProc x) ->
  tab_ok (put cur (set_state ZOMBIE q) t).
Proof.
  intros Hok Hq Hqx Hqu Hini Hno Hx.
  assert (Hl : forall k r, t_procs (put cur (set_state ZOMBIE q) t) !! k = Some r ->
    (k = cur /\ r = set_state ZOMBIE q) \/ (k <> cur /\ t_procs t !! k = Some r)).
  { intros k r Hr. destruct (decide (k = cur)) as [->|Hne].
    - rewrite (put_lookup _ _ q) in Hr by done. naive_solver.
    - rewrite put_lookup_ne in Hr by done. auto. }
  assert (Hpar : forall k r, t_procs t !! k = Some r -> state r <> UNUSED -> t_init t <> Some k ->
    exists y py, parent r = Some y /\ y <> k /\
      t_procs (put cur (set_state ZOMBIE q) t) !! y = Some py /\ alive py).
  { intros k r Hr Hu Hk. destruct (ok_parent _ Hok k r Hr Hu Hk) as (y & py & Hy & ? & Hpy & Hay).
    exists y, py. split_and!; try done. rewrite put_lookup_ne; [done|]. intros <-.
    by apply (Hno k r). }
  constructor.
  - simpl. rewrite length_insert. apply (ok_len _ Hok).
  - destruct (ok_init _ Hok) as (i & r & Hi & Hr & Har & ?). exists i, r.
    split_and!; try done. rewrite put_lookup_ne; congruence.
  - intros k r [[-> ->]|[Hne Hr]]%Hl Hu Hk; [|by apply Hpar].
    destruct (Hpar cur q Hq Hqu Hini) as (y & py & ? & ? & ?). by exists y, py.
  - intros k r [[-> ->]|[Hne Hr]]%Hl Hu; [done|]. by apply (ok_unused _ Hok k r).
  - apply (ok_next _ Hok).
  - intros k r [[-> ->]|[Hne Hr]]%Hl; [|by apply (ok_pid _ Hok k)].
    destruct (ok_pid _ Hok cur q Hq) as [? Hnz]. split; [done|]. intros _. by apply Hnz.
  - intros i k r r' [[-> ->]|[Hi Hr]]%Hl [[-> ->]|[Hk Hr']]%Hl Hpid Hz; try done; simpl in *.
    + by apply (ok_uniq _ Hok cur k q r').
    + by apply (ok_uniq _ Hok i cur r q).
    + by apply (ok_uniq _ Hok i k r r').
  - intros k r y [[-> ->]|[Hk Hr]]%Hl Hs Hc; [done|]. by apply (ok_chan _ Hok k r).
  - intros k r k' r' [[-> ->]|[Hk Hr]]%Hl Hs Hc [[-> ->]|[Hk' Hr']]%Hl Hp; try done.
    + simpl in Hp. rewrite Hqx in Hp. injection Hp as ->. by destruct (Hx r Hr Hs).
    + by apply (ok_wait _ Hok k r k' r').
Qed.

(** The parent of an exiting process does not sleep in [wait] any more. *)
Lemma tab_ok_exited t t' cur p :
  tab_ok t -> t_procs t !! cur = Some p -> alive p -> t_init t <> Some cur ->
  exited cur t t' -> tab_ok t'.
Proof.
  intros Hok Hp Ha Hini (p0 & q & Hp0 & Hq & ->). simplify_eq.
  destruct (ok_init _ Hok) as (i0 & pi & Hi0 & _).
  assert (i0 <> cur) as Hne by congruence.
  destruct (ok_parent _ Hok cur p Hp (proj1 Ha) Hini) as (x & px & Hx & Hxc & Hpx & Hax).
  rewrite Hx in *. set (ta := tmap (wake (PProc x)) t) in *.
  pose proof (tab_ok_wake (PProc x) t Hok) as Hoka. fold ta in Hoka.
  assert (t_init ta = Some i0) as Hia by done.
  pose proof (tab_ok_orphaned ta cur i0 Hoka Hia Hne) as Hokb.
  assert (Hta : forall j r, t_procs ta !! j = Some r ->
    exists r0, t_procs t !! j = Some r0 /\ r = wake (PProc x) r0).
  { intros j r. change (t_procs ta) with (wake (PProc x) <$> t_procs t).
    rewrite list_lookup_fmap. destruct (t_procs t !! j); simpl; naive_solver. }
  change (proc_ptr (Some x)) with (PProc x) in Hq |- *. fold ta in Hq |- *.
  set (tb := orphaned cur ta) in *.
  assert (Hx' : forall r, t_procs tb !! x = Some r -> state r = SLEEPING -> chan r <> PProc x).
  { intros r (ra & Hra & ->)%(orphaned_lookup ta cur i0 Hia Hne) Hs.
    destruct (orphan_fields ta cur i0 ra) as (_ & -> & _ & _ & _ & Hsl).
    destruct (Hsl Hs) as [Hsa _]. destruct (Hta x ra Hra) as (r0 & _ & ->).
    destruct (wake_fields (PProc x) r0) as (_ & _ & -> & _). intros Hc.
    unfold wake in Hsa. rewrite (bool_decide_true (chan r0 = PProc x)) in Hsa by done.
    case_bool_decide; [done|]. by simpl in Hsa. }
  assert (parent q = Some x) as Hqx.
  { destruct (proj1 (orphaned_lookup ta cur i0 Hia Hne _ _) Hq) as (ra & Hra & ->).
    destruct (orphan_fields ta cur i0 ra) as (_ & _ & -> & _).
    destruct (Hta cur ra Hra) as (r0 & Hr0 & ->). simplify_eq.
    destruct (wake_fields (PProc x) p) as (_ & -> & _). case_decide; congruence. }
  assert (state q <> UNUSED) as Hqu.
  { destruct (proj1 (orphaned_lookup ta cur i0 Hia Hne _ _) Hq) as (ra & Hra & ->).
    destruct (orphan_fields ta cur i0 ra) as (_ & _ & _ & -> & _).
    destruct (Hta cur ra Hra) as (r0 & Hr0 & ->). simplify_eq.
    destruct (wake_fields (PProc x) p) as (_ & _ & _ & _ & ->). apply Ha. }
  apply (tab_ok_zombie tb cur q x); try done. intros k r. by apply (orphaned_no_child ta cur i0 Hia Hne).
Qed.

(** ** The schedulers, up to the switch to a process *)

Definition with_cur (o : option nat) (t : tab) : tab := MkTab (t_procs t) (t_init t) (t_next t) o.

(** Slot [i] was runnable and now runs. *)
Definition picked (i : nat) (t t' : tab) : Prop :=
  exists o p q, t_procs t !! i = Some p /\ state p = RUNNABLE /\ t' = put i q (with_cur o t) /\
    state q = RUNNING /\ pid q = pid p /\ parent q = parent p.

Section switch.
Context {R : Type} `{SV : Services R}.

Lemma tri_set_cproc ci o t E :
  tri t (set_cproc ci o : M (xst R) unit) (fun _ t' => exists o', t' = with_cur o' t) E.
Proof.
  unfold set_cproc. eapply tri_bind; [tri_prim|intros c t' [-> _]].
  intros s <-. unfold lift, cpu_set, modify. simpl.
  exists (this_proc (set_cpus (<[ci := MkCpu (apicid c) (ncli c) (intena c) o]> (cpus (x_hw s))) (x_hw s))).
  done.
Qed.

Ltac tri_put H :=
  eapply tri_bind;
  [eapply tri_pupd_put with (Q := fun _ t' => t' = _); [exact H|reflexivity]|intros _ ? ->].

Lemma tri_sched_visit ci i t :
  tri t (sched_visit (fun _ => leave) ci i : M (xst R) unit) (fun _ t' => t' = t) (picked i t).
Proof.
  unfold sched_visit. tri_step p. case_bool_decide as Hr; [|by apply tri_ret]. cbn [negb].
  eapply tri_bind; [apply tri_set_cproc|intros _ t' [o ->]]. tri_step u1.
  eapply tri_bind; [apply tri_pupd|intros _ t' (p1 & Hp1 & ->)]. simpl in Hp1. simplify_eq.
  eapply tri_bind with (Q1 := fun _ _ => False); [apply tri_leave|done].
  by exists o, p, (set_state RUNNING p).
Qed.

Lemma tri_mlfq_visit ci prio i t :
  tri t (mlfq_visit (fun _ => leave) ci prio i : M (xst R) bool) (fun _ t' => t' = t) (picked i t).
Proof.
  unfold mlfq_visit. tri_step p. case_bool_decide as Hr; [|by apply tri_ret]. cbn [negb].
  destruct (priority p =? prio); [|by apply tri_ret].
  eapply tri_bind; [apply tri_set_cproc|intros _ t' [o ->]]. tri_step u1.
  eapply tri_bind; [apply tri_pupd|intros _ t' (p1 & Hp1 & ->)]. simpl in Hp1. simplify_eq.
  eapply tri_bind; [eapply tri_pupd_put with (Q := fun _ t' => t' = _); [simpl; eassumption|reflexivity]|intros _ ? ->].
  eapply tri_bind with (Q1 := fun _ t' => t' = put i _ (with_cur o t)); [intros s Hs; exact Hs|].
  intros tin t' ->. eapply tri_bind with (Q1 := fun _ _ => False); [apply tri_leave|done].
  exists o, p. eexists. split_and!; [done..|reflexivity|done|done|done].
Qed.

Lemma tri_lottery_run ci i t p :
  t_procs t !! i = Some p -> state p = RUNNABLE ->
  tri t (lottery_run (fun _ => leave) ci i : M (xst R) unit) (fun _ t' => t' = t) (picked i t).
Proof.
  intros Hp Hr. unfold lottery_run.
  eapply tri_bind; [apply tri_set_cproc|intros _ t' [o ->]].
  eapply tri_bind with (Q1 := fun _ t' => t' = with_cur o t); [intros s Hs; exact Hs|intros tin t' ->].
  tri_step p1. tri_step u1.
  eapply tri_bind; [apply tri_pupd|intros _ t' (p2 & Hp2 & ->)]. simpl in Hp2. simplify_eq.
  eapply tri_bind; [eapply tri_pupd_put with (Q := fun _ t' => t' = _); [simpl; eassumption|reflexivity]|intros _ ? ->].
  eapply tri_bind with (Q1 := fun _ _ => False); [apply tri_leave|done].
  exists o, p. eexists. split_and!; [done..|reflexivity|done|done|done].
Qed.

Lemma tri_lottery_draw ci l ticket c t :
  tri t (lottery_draw (fun _ => leave) ci l ticket c : M (xst R) unit) (fun _ t' => t' = t)
    (fun t' => exists i, picked i t t').
Proof.
  revert c. induction l as [|i l IH]; intros c; simpl; [by apply tri_ret|].
  tri_step p. case_bool_decide as Hr; cbn [negb]; [|apply IH].
  destruct (_ <? ticket); [apply IH|].
  eapply tri_mono; [by eapply tri_lottery_run|done|eauto].
Qed.

Lemma tri_adjust t E :
  length (t_procs t) = NPROC ->
  tri t (adjustPriority : M (xst R) unit) (fun _ t' => t' = tmap promote t) E.
Proof.
  intros Hl. apply tri_each_slot; [done|]. intros i p t' Hp.
  eapply tri_mono; [apply tri_pupd| |done]. intros [] t2 (p2 & Hp2 & ->). by simplify_eq.
Qed.

Lemma tri_settickets n t E cur :
  t_cur t = Some cur ->
  tri t (settickets n : M (xst R) Z) (fun r t' => (r = -1 /\ t' = t) \/
    exists p, t_procs t !! cur = Some p /\ t' = put cur (set_tickets n (num_scheduled p) p) t) E.
Proof.
  intros Hcur. unfold settickets. destruct (n <? 1); [apply tri_ret; by left|].
  eapply tri_bind; [apply tri_curproc|intros cur' t' [-> Hc]]. simplify_eq.
  eapply tri_bind; [apply tri_pupd|intros _ t' (p & Hp & ->)]. apply tri_ret. right. by exists p.
Qed.

(** [userinit] leaves one process, the first, runnable. *)
Lemma tri_userinit trapret forkret start size t E :
  tri t (userinit trapret forkret start size : M (xst R) unit) (fun _ t' =>
    exists i p q, t_procs t !! i = Some p /\ state p = UNUSED /\ state q = RUNNABLE /\
      parent q = parent p /\ pid q = t_next t /\
      t' = MkTab (<[i := q]> (t_procs t)) (Some i) (i32 (t_next t + 1)) (t_cur t)) E.
Proof.
  unfold userinit. eapply tri_bind with (Q1 := fun _ t' => t' = t); [by intros s <-|intros _ ? ->].
  eapply tri_bind; [apply tri_allocproc|intros r t' Hr].
  eapply tri_bind with (Q1 := fun _ t2 => t2 = MkTab (t_procs t') r (t_next t') (t_cur t'));
    [by intros s <-|intros _ ? ->].
  destruct Hr as [[-> ->]|(i & p & q & Hp & Hun & Hfr & -> & [[-> _]|[-> Hq]])];
    [by apply tri_panic|by apply tri_panic|].
  set (t0 := MkTab (t_procs t) (Some i) (i32 (t_next t + 1)) (t_cur t)).
  change (MkTab _ _ _ _) with (put i q t0) at 1.
  destruct Hfr as (Hpid & Hpar & _).
  tri_step d. tri_put Hp. destruct (d =? 0); [by apply tri_panic|].
  tri_step u1. tri_put Hp.
  eapply tri_bind; [eapply tri_pget_put with (Q := fun p' t' => p' = _ /\ t' = _);
    [exact Hp|split; reflexivity]|intros ? ? [-> ->]].
  cbv zeta. do 8 (tri_step u2; clear u2). tri_put Hp. tri_step c. tri_put Hp. tri_step u3. tri_put Hp.
  eapply tri_mono; [tri_prim|intros _ t' [-> _]|done]. exists i, p. eexists.
  split_and!; [done..| | | |reflexivity]; done.
Qed.
End switch.

(** ** Reachable tables *)

Section reach.
Context {R : Type} `{SV : Services R} (trapret forkret initcode initsize : Z).
Implicit Types s : xst R.

(** The process that runs on this processor is in state [RUNNING]. *)
Definition running (s : xst R) : Prop :=
  exists cur p, this_proc (x_hw s) = Some cur /\ procs s !! cur = Some p /\ state p = RUNNING.

(** One step of the table: a routine that ran to its end, or up to the point
    where it switches to the scheduler or to a process.  A system call is made
    by a running process; [st_cpu] passes to another processor. *)
Inductive tstep : tab -> tab -> Prop :=
| st_fork s r s' : running s -> nextpid s < 2 ^ 31 - 1 ->
    fork trapret forkret s = Ok r s' -> tstep (view s) (view s')
| st_exit s s' : running s -> exit leave s = Panic "swtch" s' -> tstep (view s) (view s')
| st_wait_return s fuel r s' : running s -> wait fuel leave s = Ok r s' -> tstep (view s) (view s')
| st_wait_sleep s fuel s' : running s -> wait fuel leave s = Panic "swtch" s' ->
    tstep (view s) (view s')
| st_sleep s ch lk s' : running s -> (forall x, ch <> PProc x) ->
    sleep leave ch lk s = Panic "swtch" s' -> tstep (view s) (view s')
| st_awake s cur s' : running s -> this_proc (x_hw s) = Some cur ->
    pupd cur (set_chan PNull) s = Ok tt s' -> tstep (view s) (view s')
| st_yield s s' : running s -> yield leave s = Panic "swtch" s' -> tstep (view s) (view s')
| st_wakeup s ch s' : wakeup ch s = Ok tt s' -> tstep (view s) (view s')
| st_kill s pid' r s' : kill pid' s = Ok r s' -> tstep (view s) (view s')
| st_setpriority s pid' prio r s' : setpriority pid' prio s = Ok r s' -> tstep (view s) (view s')
| st_settickets s n r s' : running s -> settickets n s = Ok r s' -> tstep (view s) (view s')
| st_sched s ci i s' : sched_visit (fun _ => leave) ci i s = Panic "swtch" s' ->
    tstep (view s) (view s')
| st_mlfq s ci prio i s' : mlfq_visit (fun _ => leave) ci prio i s = Panic "swtch" s' ->
    tstep (view s) (view s')
| st_lottery s ci ticket s' :
    lottery_draw (fun _ => leave) ci slots ticket 0 s = Panic "swtch" s' -> tstep (view s) (view s')
| st_charge s i d s' : pupd i (charge d) s = Ok tt s' -> tstep (view s) (view s')
| st_adjust s s' : adjustPriority s = Ok tt s' -> tstep (view s) (view s')
| st_cpu t o : tstep t (with_cur o t).

(** The table at boot, before [userinit]. *)
Definition boot_tab : tab := MkTab (replicate NPROC proc0) None 1 None.

Inductive reachable : tab -> Prop :=
| reach_boot s s' : view s = boot_tab -> userinit trapret forkret initcode initsize s = Ok tt s' ->
    reachable (view s')
| reach_step t t' : reachable t -> tstep t t' -> reachable t'.

Lemma tri_Ok {A} t (m : M (xst R) A) Q E s a s' :
  tri t m Q E -> view s = t -> m s = Ok a s' -> Q a (view s').
Proof. intros Hm Hs Hr. specialize (Hm s Hs). by rewrite Hr in Hm. Qed.

Lemma tri_switch {A} t (m : M (xst R) A) Q E s s' :
  tri t m Q E -> view s = t -> m s = Panic "swtch" s' -> E (view s').
Proof. intros Hm Hs Hr. specialize (Hm s Hs). rewrite Hr in Hm. by apply Hm. Qed.

Lemma tab_ok_with_cur o t : tab_ok t -> tab_ok (with_cur o t).
Proof. intros []. by constructor. Qed.

Lemma tab_ok_picked i t t' : tab_ok t -> picked i t t' -> tab_ok t'.
Proof.
  intros Hok (o & p & q & Hp & Hr & -> & Hq & Hpid & Hpar).
  apply (tab_ok_put (with_cur o t) i p); [by apply tab_ok_with_cur|done|].
  constructor; try done; rewrite ?Hr, ?Hq; try done.
Qed.

(** A change of the scheduling fields only. *)
Lemma local_core t j p p' :
  tab_ok t -> t_procs t !! j = Some p -> core p' p -> local_change t j p p'.
Proof. intros Hok Hp (Hs & ? & ? & Hc). apply local_same; try done; rewrite Hs; auto. Qed.

Lemma tab_ok_boot s s' :
  view s = boot_tab -> userinit trapret forkret initcode initsize s = Ok tt s' -> tab_ok (view s').
Proof.
  intros Hs Hu. destruct (tri_Ok _ _ _ (fun _ => True) _ _ _
    (tri_userinit trapret forkret initcode initsize boot_tab _) Hs Hu)
    as (i & p & q & Hp & _ & Hq & Hpar & Hpid & ->).
  apply lookup_replicate in Hp as Hp'. destruct Hp' as [-> Hi]. simpl in Hpid.
  assert (Hl : forall k r, <[i := q]> (replicate NPROC proc0) !! k = Some r ->
    (k = i /\ r = q) \/ (k <> i /\ r = proc0)).
  { intros k r [(-> & -> & _)|[Hne Hr]]%list_lookup_insert_Some; [by left|right].
    apply lookup_replicate in Hr as [-> _]. done. }
  constructor; cbn [t_procs t_init t_next boot_tab].
  - by rewrite length_insert, length_replicate.
  - exists i, q. split_and!; [done|by apply list_lookup_insert_eq; rewrite length_replicate| |done].
    split; rewrite Hq; done.
  - intros j r [[-> ->]|[Hne ->]]%Hl Hu' Hj; done.
  - intros j r [[-> ->]|[Hne ->]]%Hl Hu'; [congruence|done].
  - change (i32 (1 + 1)) with 2. lia.
  - change (i32 (1 + 1)) with 2. intros j r [[-> ->]|[Hne ->]]%Hl; [rewrite Hpid; lia|done].
  - intros j k r r' [[-> ->]|[Hne ->]]%Hl [[-> ->]|[Hne' ->]]%Hl Hp1 Hp2; done || congruence.
  - intros j r x [[-> ->]|[Hne ->]]%Hl Hsl; [congruence|done].
  - intros j r k r' [[-> ->]|[Hne ->]]%Hl Hsl; [congruence|done].
Qed.

Lemma running_view s : running s ->
  exists cur p, t_cur (view s) = Some cur /\ t_procs (view s) !! cur = Some p /\ state p = RUNNING.
Proof. done. Qed.

Lemma tab_ok_call t t' : tab_ok t -> forall cur p,
  t_cur t = Some cur -> t_procs t !! cur = Some p -> state p = RUNNING ->
  (exists s r, view s = t /\ t_next t < 2 ^ 31 - 1 /\
     exists s', fork trapret forkret s = Ok r s' /\ t' = view s') \/
  (exists s s', view s = t /\ exit leave s = Panic "swtch" s' /\ t' = view s') \/
  (exists s fuel r s', view s = t /\ wait fuel leave s = Ok r s' /\ t' = view s') \/
  (exists s fuel s', view s = t /\ wait fuel leave s = Panic "swtch" s' /\ t' = view s') ->
  tab_ok t'.
Proof.
  intros Hok cur p Hcur Hp Hr Hstep.
  assert (alive p) as Ha by (split; rewrite Hr; done).
  destruct Hstep as [(s & r & Hs & Hn & s' & Hrun & ->)|[(s & s' & Hs & Hrun & ->)|
    [(s & fuel & r & s' & Hs & Hrun & ->)|(s & fuel & s' & Hs & Hrun & ->)]]].
  - destruct (tri_Ok _ _ _ (fun _ => True) _ _ _ (tri_fork trapret forkret t cur p _ Hcur Hp (proj1 Ha)) Hs Hrun)
      as [[_ ->]|(i & pi & q & Hi & Hu & Hpid & -> & Hq)]; [done|].
    apply (tab_ok_new t i pi q); try done. destruct Hq as [(_ & ? & ?)|(_ & ? & ? & _)]; [by left|].
    right. split; [done|]. by exists cur, p.
  - destruct (tri_switch _ _ _ _ _ _ (tri_exit t cur p (ok_len _ Hok) Hcur Hp) Hs Hrun)
      as (Hini & q & Hq & Hex).
    apply (tab_ok_exited (put cur q t) _ cur q).
    + apply (tab_ok_put t cur p); [done..|by apply local_core].
    + by eapply put_lookup.
    + destruct Hq as (Hst & _). unfold alive. by rewrite Hst.
    + done.
    + done.
  - destruct (tri_Ok _ _ _ _ _ _ _ (tri_wait fuel t cur p Hcur Hp) Hs Hrun)
      as [[_ ->]|(i & pi & q & Hi & _ & Hz & _ & -> & Hq & Hqp & Hqi)]; [done|].
    by apply (tab_ok_reap t i pi).
  - destruct (tri_switch _ _ _ _ _ _ (tri_wait fuel t cur p Hcur Hp) Hs Hrun) as (-> & Hnz).
    apply (tab_ok_put t cur p); [done..|]. constructor; simpl; try done; rewrite ?Hr; try done.
    intros _ x [= <-]. split; [done|]. intros k q Hk. apply (Hnz k q); [|done].
    apply elem_of_seq. apply lookup_lt_Some in Hk. rewrite (ok_len _ Hok) in Hk.
    split; [lia|exact Hk].
Qed.

Lemma tab_ok_tstep t t' : tab_ok t -> tstep t t' -> tab_ok t'.
Proof.
  intros Hok Hstep. pose proof (ok_len _ Hok) as Hl.
  destruct Hstep as
    [s r s' Hr Hn Hrun|s s' Hr Hrun|s fuel r s' Hr Hrun|s fuel s' Hr Hrun|s ch lk s' Hr Hch Hrun
    |s cur s' Hr Hcur Hrun|s s' Hr Hrun|s ch s' Hrun|s pid' r s' Hrun|s pid' prio r s' Hrun
    |s n r s' Hr Hrun|s ci i s' Hrun|s ci prio i s' Hrun|s ci ticket s' Hrun|s i d s' Hrun|s s' Hrun|t o];
    try (destruct (running_view s Hr) as (cur' & p & Hcur' & Hp & Hst)).
  1-4: apply (tab_ok_call (view s) _ Hok cur' p Hcur' Hp Hst); naive_solver.
  - rewrite (tri_switch _ _ _ _ _ _ (tri_sleep ch lk (view s) cur' p Hcur' Hp) eq_refl Hrun).
    apply (tab_ok_put _ cur' p); [done..|]. constructor; simpl; try done; rewrite ?Hst; try done.
    intros _ x ->. by destruct (Hch x).
  - destruct (tri_Ok _ _ _ (fun _ => True) _ _ _ (tri_pupd (view s) cur _ _) eq_refl Hrun) as (q & Hq & ->).
    assert (cur' = cur) as -> by (simpl in Hcur'; congruence).
    assert (q = p) as -> by congruence. apply (tab_ok_put _ cur p); [done..|].
    apply local_same; try done; simpl; rewrite Hst; done.
  - rewrite (tri_switch _ _ _ _ _ _ (tri_yield (view s) cur' p Hcur' Hp) eq_refl Hrun).
    apply (tab_ok_put _ cur' p); [done..|]. constructor; simpl; try done; rewrite ?Hst; done.
  - rewrite (tri_Ok _ _ _ (fun _ => True) _ _ _ (tri_wakeup ch (view s) _ Hl) eq_refl Hrun).
    by apply tab_ok_wake.
  - destruct (tri_Ok _ _ _ (fun _ => True) _ _ _ (tri_kill pid' (view s) _) eq_refl Hrun)
      as [[_ ->]|(i & p & _ & Hp & _ & ->)]; [done|].
    apply (tab_ok_put _ i p); [done..|]. unfold wake_killed. cbv zeta. case_bool_decide as Hs.
    + apply local_same; try done; simpl in *; rewrite Hs; done.
    + by apply local_same.
  - destruct (tri_Ok _ _ _ (fun _ => True) _ _ _ (tri_setpriority pid' prio (view s) _) eq_refl Hrun)
      as [[_ ->]|(i & p & _ & _ & Hp & _ & ->)]; [done|].
    apply (tab_ok_put _ i p); [done..|by apply local_core].
  - destruct (tri_Ok _ _ _ (fun _ => True) _ _ _ (tri_settickets n (view s) _ cur' Hcur') eq_refl Hrun)
      as [[_ ->]|(q & Hq & ->)]; [done|].
    apply (tab_ok_put _ cur' q); [done..|by apply local_core].
  - eapply tab_ok_picked; [done|]. exact (tri_switch _ _ _ _ _ _ (tri_sched_visit ci i (view s)) eq_refl Hrun).
  - eapply tab_ok_picked; [done|]. exact (tri_switch _ _ _ _ _ _ (tri_mlfq_visit ci prio i (view s)) eq_refl Hrun).
  - destruct (tri_switch _ _ _ _ _ _ (tri_lottery_draw ci slots ticket 0 (view s)) eq_refl Hrun) as [i Hi].
    by eapply tab_ok_picked.
  - destruct (tri_Ok _ _ _ (fun _ => True) _ _ _ (tri_pupd (view s) i _ _) eq_refl Hrun) as (q & Hq & ->).
    apply (tab_ok_put _ i q); [done..|]. apply local_core; [done..|].
    unfold charge. by repeat case_match.
  - rewrite (tri_Ok _ _ _ (fun _ => True) _ _ _ (tri_adjust (view s) _ Hl) eq_refl Hrun).
    apply (tab_ok_local (view s)); try done; [by simpl; rewrite length_map|]. intros j p Hp.
    exists (promote p). split; [|apply local_core; [done..|unfold promote; by case_match]].
    change (t_procs (tmap promote (view s))) with (promote <$> t_procs (view s)).
    by rewrite list_lookup_fmap, Hp.
  - by apply tab_ok_with_cur.
Qed.

Lemma reachable_ok t : reachable t -> tab_ok t.
Proof.
  induction 1 as [s s' Hs Hu|t t' _ IH Hstep]; [by eapply tab_ok_boot|by eapply tab_ok_tstep].
Qed.

(** C8: no lost wakeup between [exit] and [wait].  In every table reachable
    from boot by any interleaving of the routines of proc.c on any number of
    processors, a process that sleeps in [wait] (on its own address) has no
    zombie child. *)
Theorem no_lost_wakeup t i p j q :
  reachable t -> t_procs t !! i = Some p -> state p = SLEEPING -> chan p = PProc i ->
  t_procs t !! j = Some q -> parent q = Some i -> state q <> ZOMBIE.
Proof. intros Hr%reachable_ok Hp Hs Hc Hq Hpar. by apply (ok_wait _ Hr i p j q). Qed.


(** Pids.  In every reachable table, as long as fewer than 2^31 - 1 pids
    have been handed out, every process in use has a positive pid below the
    next one, and no two slots have the same non-zero pid. *)
Theorem pid_unique t :
  reachable t ->
  (forall i p, t_procs t !! i = Some p -> state p <> UNUSED -> 0 < pid p < t_next t) /\
  (forall i j p q, t_procs t !! i = Some p -> t_procs t !! j = Some q ->
     pid p = pid q -> pid p <> 0 -> i = j).
Proof.
  intros Hr%reachable_ok. split; [|apply (ok_uniq _ Hr)].
  intros i p Hp Hu. destruct (ok_pid _ Hr i p Hp) as [? Hz]. specialize (Hz Hu). lia.
Qed.
End reach.

(** ** A run: boot, the first process forks and waits for its child *)

Definition ex_boot : xst Z :=
  XSt (MkHw false 4 [MkCpu 2 0 false None; MkCpu 4 0 false None] ∅ ∅ 0x80001000)
    (replicate NPROC proc0) 1 None 0 0 true false [] 0x80400000.

Definition end_state {A} (r : res (xst Z) A) : xst Z :=
  match r with Ok _ s => s | Panic _ s => s | NoFuel => ex_boot end.

Definition ex_s1 : xst Z := end_state (userinit (SV := ex_services) 1 2 3 4 ex_boot).
Definition ex_s2 : xst Z := end_state (sched_visit (SV := ex_services) (fun _ => leave) 1 0 ex_s1).
Definition ex_s3 : xst Z := end_state (fork (SV := ex_services) 1 2 ex_s2).
Definition ex_s4 : xst Z := end_state (wait (SV := ex_services) 1 leave ex_s3).

Lemma ex_reachable : reachable (SV := ex_services) 1 2 3 4 (view ex_s4).
Proof.
  assert (reachable (SV := ex_services) 1 2 3 4 (view ex_s1)) as H1.
  { apply (reach_boot (SV := ex_services) 1 2 3 4 ex_boot); vm_compute; reflexivity. }
  assert (reachable (SV := ex_services) 1 2 3 4 (view ex_s2)) as H2.
  { apply (reach_step (SV := ex_services) _ _ _ _ _ _ H1).
    apply (st_sched (SV := ex_services) _ _ ex_s1 1 0). vm_compute. reflexivity. }
  assert (reachable (SV := ex_services) 1 2 3 4 (view ex_s3)) as H3.
  { apply (reach_step (SV := ex_services) _ _ _ _ _ _ H2).
    apply (st_fork (SV := ex_services) _ _ ex_s2 2).
    - eexists 0%nat, _. split_and!; vm_compute; reflexivity.
    - vm_compute. reflexivity.
    - vm_compute. reflexivity. }
  apply (reach_step (SV := ex_services) _ _ _ _ _ _ H3).
  apply (st_wait_sleep (SV := ex_services) _ _ ex_s3 1).
  - eexists 0%nat, _. split_and!; vm_compute; reflexivity.
  - vm_compute. reflexivity.
Qed.

(** The first process sleeps in [wait]; its child in slot 1 is no zombie. *)
Lemma no_lost_wakeup_witness :
  exists p q, t_procs (view ex_s4) !! 0%nat = Some p /\ chan p = PProc 0 /\
    t_procs (view ex_s4) !! 1%nat = Some q /\ parent q = Some 0%nat /\ state q <> ZOMBIE.
Proof.
  destruct (t_procs (view ex_s4) !! 0%nat) as [p|] eqn:Hp; [|exfalso; revert Hp; vm_compute; discriminate].
  destruct (t_procs (view ex_s4) !! 1%nat) as [q|] eqn:Hq; [|exfalso; revert Hq; vm_compute; discriminate].
  assert (state p = SLEEPING /\ chan p = PProc 0) as [Hs Hc].
  { revert Hp. vm_compute. intros [= <-]. split; reflexivity. }
  assert (parent q = Some 0%nat) as Hpar.
  { revert Hq. vm_compute. intros [= <-]. reflexivity. }
  refine (ex_intro _ p (ex_intro _ q (conj eq_refl (conj Hc (conj eq_refl (conj Hpar _)))))).
  exact (no_lost_wakeup (SV := ex_services) 1 2 3 4 _ 0 p 1 q ex_reachable Hp Hs Hc Hq Hpar).
Defined.


Lemma pid_unique_witness :
  exists q, t_procs (view ex_s4) !! 1%nat = Some q /\ 0 < pid q < t_next (view ex_s4).
Proof.
  destruct (t_procs (view ex_s4) !! 1%nat) as [q|] eqn:Hq; [|exfalso; revert Hq; vm_compute; discriminate].
  assert (state q <> UNUSED) as Hu.
  { revert Hq. vm_compute. intros [= <-]. discriminate. }
  exists q. split; [reflexivity|].
  exact (proj1 (pid_unique (SV := ex_services) 1 2 3 4 _ ex_reachable) 1%nat q Hq Hu).
Defined.
