(* ===== verification/Xv6World.v ===== *)
(** * A running xv6 process

    The routines of the file system, of pipes and of the page allocator run in
    one process, take and release spin locks, and work on a state of their own.
    [world o pd H s] says that the processor of [s] runs process [o], whose pid
    is [pd] and which is not killed, and holds exactly the locks [H]; [wpx] is total correctness of a
    routine in such a state, over the locks and the component's state only. *)

From S2P Require Import Prelude CMem Xv6Lock Xv6Proc.
From stdpp Require Import base numbers option list gmap strings.
Open Scope Z_scope.

Section world.
Context {R : Type} (o : option nat) (pd : Z).
Implicit Types (s : xst R) (H : list nat).

Record world_hw (H : list nat) (h : hw) (i : nat) (c : cpu) : Prop := WorldHw {
  wh_this : this_cpu h i c;
  wh_ncli : ncli c = Z.of_nat (length H);
  wh_if : H <> [] -> eflags_if h = false;
  wh_proc : cpu_proc c = o;
  wh_nodup : NoDup H;
  wh_held lk : lk ∈ H -> locked (get_lock lk h) = true /\ lk_cpu (get_lock lk h) = Some i;
  wh_free lk : lk ∉ H -> locked (get_lock lk h) = false }.

Record world (H : list nat) s : Prop := World {
  w_hw : exists i c, world_hw H (x_hw s) i c;
  w_len : length (procs s) = NPROC;
  w_proc : forall j, o = Some j -> exists p, procs s !! j = Some p /\ pid p = pd /\ killed p = 0 }.

(** The processor state of a process that holds the locks [H]. *)
Lemma world_hw_ok H h i c : world_hw H h i c -> cpu_ok h i c.
Proof.
  intros [Hc Hn Hf _ _ _ _]. constructor; [done|lia|]. intros He. rewrite Hn.
  destruct H as [|lk H]; [done|]. rewrite Hf in He by done. done.
Qed.

Lemma world_hw_acquire H h i c lk :
  world_hw H h i c -> lk ∉ H ->
  acquire lk h = Ok tt (acquired lk i c h) /\
  exists c', world_hw (lk :: H) (acquired lk i c h) i c'.
Proof.
  intros Hw Hlk. pose proof (world_hw_ok _ _ _ _ Hw) as Hok. destruct Hw as [Hc Hn Hf Ho Hnd Hheld Hfree].
  split; [by rewrite (acquire_run lk h i c Hok), Hfree|].
  eexists. constructor.
  - exact (pushed_this h i c Hc).
  - simpl. lia.
  - done.
  - done.
  - by constructor.
  - intros lk' Hin. unfold acquired. destruct (decide (lk' = lk)) as [->|Hne].
    + by rewrite get_lock_set.
    + rewrite get_lock_set_ne by done. apply Hheld. set_solver.
  - intros lk' Hin. unfold acquired. rewrite get_lock_set_ne by set_solver. apply Hfree. set_solver.
Qed.

Lemma world_hw_release H H' h i c lk :
  world_hw H h i c -> H ≡ₚ lk :: H' ->
  exists h' c', release lk h = Ok tt h' /\ h_mem h' = h_mem h /\ world_hw H' h' i c'.
Proof.
  intros [Hc Hn Hf Ho Hnd Hheld Hfree] HP.
  assert (lk ∈ H) as Hlk by (rewrite HP; left). destruct (Hheld lk Hlk) as [Hl Hi].
  assert (length H = S (length H')) as Hlen by (by rewrite HP).
  pose proof (Hnd) as Hnd'. rewrite HP in Hnd'. apply NoDup_cons in Hnd' as [Hni Hnd'].
  eexists _, _. split.
  { apply (release_run lk h i c); try done; [|lia]. apply Hf. by intros ->. }
  split; [done|]. constructor.
  - exact (this_cpu_insert h i c (MkCpu (apicid c) (ncli c - 1) (intena c) (cpu_proc c)) Hc eq_refl).
  - simpl. lia.
  - intros Hne. simpl. destruct H' as [|? ?]; [done|]. rewrite Hn, Hlen. simpl length.
    destruct (Z.eqb_spec (Z.of_nat (S (S (length H'))) - 1) 0); [lia|done].
  - done.
  - done.
  - intros lk' Hin. rewrite get_lock_set_ne by set_solver. apply Hheld. rewrite HP. by right.
  - intros lk' Hin. destruct (decide (lk' = lk)) as [->|Hne].
    + by rewrite get_lock_set.
    + rewrite get_lock_set_ne by done. apply Hfree. rewrite HP. set_solver.
Qed.

(** ** Total correctness over locks and component state *)

Definition wpx {A} (H : list nat) (r : R) (m : M (xst R) A) (Q : A -> list nat -> R -> Prop) : Prop :=
  forall s, world H s -> x_rest s = r ->
    wp m (fun a s' => exists H', world H' s' /\ Q a H' (x_rest s')) s.

Lemma wpx_ret {A} (a : A) H r (Q : A -> list nat -> R -> Prop) : Q a H r -> wpx H r (mret a) Q.
Proof. intros HQ s Hw <-. by exists H. Qed.

Lemma wpx_bind {A B} (m : M (xst R) A) (f : A -> M (xst R) B) H r Q1 Q :
  wpx H r m Q1 -> (forall a H' r', Q1 a H' r' -> wpx H' r' (f a) Q) -> wpx H r (m ≫= f) Q.
Proof.
  intros Hm Hf s Hw Hr. apply wp_bind. eapply wp_mono; [by apply Hm|].
  intros a s' (H' & Hw' & HQ). by apply (Hf a H' (x_rest s')).
Qed.

Lemma wpx_ret_bind {A B} (a : A) (f : A -> M (xst R) B) H r Q :
  wpx H r (f a) Q -> wpx H r (mret a ≫= f) Q.
Proof. done. Qed.

Lemma wpx_mono {A} (m : M (xst R) A) H r (Q Q' : A -> list nat -> R -> Prop) :
  wpx H r m Q -> (forall a H' r', Q a H' r' -> Q' a H' r') -> wpx H r m Q'.
Proof.
  intros Hm HQ s Hw Hr. eapply wp_mono; [by apply Hm|].
  intros a s' (H' & Hw' & HQ'). exists H'. auto.
Qed.

Lemma wpx_acquire lk H r :
  lk ∉ H -> wpx H r (lift (acquire lk)) (fun _ H' r' => H' = lk :: H /\ r' = r).
Proof.
  intros Hlk s [(i & c & Hh) Hl Hp] <-. destruct (world_hw_acquire _ _ _ _ lk Hh Hlk) as (E & c' & Hw).
  unfold wp, lift. simpl. rewrite E. exists (lk :: H). split; [|done].
  constructor; [by exists i, c'|done|done].
Qed.

Lemma wpx_release lk H H' r :
  H ≡ₚ lk :: H' -> wpx H r (lift (release lk)) (fun _ H1 r' => H1 = H' /\ r' = r).
Proof.
  intros HP s [(i & c & Hh) Hl Hp] <-.
  destruct (world_hw_release _ H' _ _ _ lk Hh HP) as (h' & c' & E & _ & Hw).
  unfold wp, lift. simpl. rewrite E. exists H'. split; [|done].
  constructor; [by exists i, c'|done|done].
Qed.

Lemma wpx_initlock lk H r :
  lk ∉ H -> wpx H r (lift (initlock lk)) (fun _ H' r' => H' = H /\ r' = r).
Proof.
  intros Hlk s [(i & c & [Hc Hn Hf Ho Hnd Hheld Hfree]) Hl Hp] <-. exists H. split; [|done].
  constructor; [|done|done]. exists i, c. constructor; try done.
  - intros lk' Hin. change (x_hw (set_hw ?h s)) with h. unfold initlock. simpl.
    rewrite get_lock_set_ne by set_solver. by apply Hheld.
  - intros lk' Hin. simpl. destruct (decide (lk' = lk)) as [->|Hne]; [by rewrite get_lock_set|].
    rewrite get_lock_set_ne by done. by apply Hfree.
Qed.

Lemma wpx_myproc H r : wpx H r (lift myproc) (fun a H' r' => a = o /\ H' = H /\ r' = r).
Proof.
  intros s [(i & c & Hh) Hl Hp] <-. unfold wp, lift. simpl.
  rewrite (myproc_run _ i c (world_hw_ok _ _ _ _ Hh)).
  destruct Hh as [Hc Hn Hf Ho Hnd Hheld Hfree]. exists H. split; [|by rewrite Ho].
  constructor; [|done|done]. exists i, (MkCpu (apicid c) (ncli c) (if ncli c =? 0 then eflags_if (x_hw s) else intena c)
    (cpu_proc c)). constructor; try done.
  exact (this_cpu_insert _ i c (MkCpu _ _ _ _) Hc eq_refl).
Qed.

Lemma wpx_gets {A} (f : R -> A) H r :
  wpx H r (gets (fun s => f (x_rest s))) (fun a H' r' => a = f r /\ H' = H /\ r' = r).
Proof. intros s Hw <-. by exists H. Qed.

Lemma wpx_modify (f : R -> R) H r :
  wpx H r (modify (fun s => with_rest (f (x_rest s)) s)) (fun _ H' r' => H' = H /\ r' = f r).
Proof. intros s [Hh Hl Hp] <-. exists H. split; [by constructor|done]. Qed.

Lemma wpx_rest {A} (m : M R A) H r a r' :
  m r = Ok a r' -> wpx H r (rest m) (fun a' H' r1 => a' = a /\ H' = H /\ r1 = r').
Proof.
  intros Hm s [Hh Hl Hp] <-. unfold wp, rest. rewrite Hm. exists H. split; [by constructor|done].
Qed.

(** A counting loop. *)
Lemma wpx_for_seq (I : nat -> R -> Prop) (body : nat -> M (xst R) unit) H r n :
  I 0%nat r ->
  (forall t r', (t < n)%nat -> I t r' -> wpx H r' (body t) (fun _ H' r2 => H' = H /\ I (S t) r2)) ->
  wpx H r (for_each (seq 0 n) body) (fun _ H' r' => H' = H /\ I n r').
Proof.
  intros H0 Hstep.
  assert (forall k t r', (t + k = n)%nat -> I t r' ->
    wpx H r' (for_each (seq t k) body) (fun _ H' r2 => H' = H /\ I n r2)) as Hl; [|by apply (Hl n 0%nat)].
  induction k as [|k IH]; intros t r' Ht HI; simpl.
  - apply wpx_ret. by replace n with t by lia.
  - eapply wpx_bind; [apply Hstep; [lia|done]|]. intros _ ? ? [-> HI']. apply IH; [lia|done].
Qed.

(** The wakeup of a channel touches the states of processes only. *)
Lemma wp_wakeup1 ch H s :
  world H s -> wp (wakeup1 ch) (fun _ s' => world H s' /\ x_hw s' = x_hw s /\ x_rest s' = x_rest s) s.
Proof.
  intros Hw. unfold wakeup1.
  apply (wp_for_each (fun _ _ s' => world H s' /\ x_hw s' = x_hw s /\ x_rest s' = x_rest s)); [done|].
  intros done x todo s' Hl ([Hh Hlen Hp] & Hx' & Hr).
  assert (x < NPROC)%nat as Hx.
  { assert (x ∈ slots) as [_ Hx]%elem_of_seq; [|lia]. rewrite Hl. set_solver. }
  destruct (lookup_lt_is_Some_2 (procs s') x) as [p Hpx]; [lia|].
  apply wp_bind. unfold wp at 1, pget. rewrite Hpx.
  destruct (_ && _); [|by split]. unfold wp, pupd. rewrite Hpx. split; [|done].
  constructor; [done|cbn [procs with_procs]; by rewrite length_insert|]. intros j Hj. cbn [procs with_procs].
  destruct (decide (j = x)) as [->|Hne].
  - rewrite list_lookup_insert_eq by lia. destruct (Hp x Hj) as (q & Hq & ?).
    assert (q = p) as -> by congruence. by exists (set_state RUNNABLE p).
  - rewrite list_lookup_insert_ne by done. auto.
Qed.

Lemma wpx_wakeup1 ch H r : wpx H r (wakeup1 ch) (fun _ H' r' => H' = H /\ r' = r).
Proof.
  intros s Hw <-. eapply wp_mono; [by apply wp_wakeup1|]. intros _ s' (Hw' & _ & Hr). by exists H.
Qed.

Lemma wpx_wakeup ch H r :
  ptable_lock ∉ H -> wpx H r (wakeup ch) (fun _ H' r' => H' = H /\ r' = r).
Proof.
  intros Hp. unfold wakeup. eapply wpx_bind; [by apply wpx_acquire|]. intros _ ? ? [-> ->].
  eapply wpx_bind; [apply wpx_wakeup1|]. intros _ ? ? [-> ->]. by apply wpx_release.
Qed.

(** The pid of the running process. *)
Lemma wpx_pid j H r :
  o = Some j ->
  wpx H r (c ← curproc; p ← pget c; mret (pid p)) (fun a H' r' => a = pd /\ H' = H /\ r' = r).
Proof.
  intros Ho. apply (wpx_bind curproc _ H r (fun a H' r' => a = j /\ H' = H /\ r' = r)).
  { unfold curproc. eapply wpx_bind; [apply wpx_myproc|]. intros a ? ? (-> & -> & ->). rewrite Ho.
    by apply wpx_ret. }
  intros a ? ? (-> & -> & ->). intros s Hw <-.
  destruct (w_proc _ _ Hw j Ho) as (p & E & Hp & _).
  apply wp_bind. unfold wp at 1, pget. rewrite E. by exists H.
Qed.

Lemma wpx_killed j H r :
  o = Some j ->
  wpx H r (c ← curproc; p ← pget c; mret (killed p)) (fun a H' r' => a = 0 /\ H' = H /\ r' = r).
Proof.
  intros Ho. apply (wpx_bind curproc _ H r (fun a H' r' => a = j /\ H' = H /\ r' = r)).
  { unfold curproc. eapply wpx_bind; [apply wpx_myproc|]. intros a ? ? (-> & -> & ->). rewrite Ho.
    by apply wpx_ret. }
  intros a ? ? (-> & -> & ->). intros s Hw <-.
  destruct (w_proc _ _ Hw j Ho) as (p & E & _ & Hp).
  apply wp_bind. unfold wp at 1, pget. rewrite E. by exists H.
Qed.

(** ** Sleeping *)

Lemma wpx_pupd i f H r :
  (i < NPROC)%nat -> (forall p, pid (f p) = pid p /\ killed (f p) = killed p) ->
  wpx H r (pupd i f) (fun _ H' r' => H' = H /\ r' = r).
Proof.
  intros Hi Hf s [Hh Hl Hp] <-. destruct (lookup_lt_is_Some_2 (procs s) i) as [p E]; [lia|].
  unfold wp, pupd. rewrite E. exists H. split; [|done].
  constructor; [done|cbn [procs with_procs]; by rewrite length_insert|]. intros j Hj. cbn [procs with_procs].
  destruct (Hp j Hj) as (q & Hq & Hpid & Hk). destruct (decide (j = i)) as [->|Hne].
  - rewrite list_lookup_insert_eq by lia. exists (f p). assert (q = p) as -> by congruence.
    destruct (Hf p) as [-> ->]. done.
  - rewrite list_lookup_insert_ne by done. by exists q.
Qed.

(** The switch to the scheduler and back: what other processes do to the
    component is the specification of [swtch]. *)
Lemma wp_sched j p s (swtch : M (xst R) unit) (Q : R -> Prop) :
  o = Some j -> world [ptable_lock] s -> procs s !! j = Some p -> state p <> RUNNING ->
  wpx [ptable_lock] (x_rest s) swtch (fun _ H' r' => H' = [ptable_lock] /\ Q r') ->
  wp (sched swtch) (fun _ s' => world [ptable_lock] s' /\ Q (x_rest s')) s.
Proof.
  intros Ho Hw Hj Hst Hsw. destruct (w_hw _ _ Hw) as (i & c & Hh). pose proof (world_hw_ok _ _ _ _ Hh) as Hok.
  pose proof Hh as [Hc Hn Hf Hp _ Hheld _]. destruct (Hheld ptable_lock) as [Hlk Hcpu]; [left|].
  assert (refreshed i c (x_hw s) = x_hw s) as Href by (apply refreshed_id; [done|rewrite Hn; simpl; lia]).
  assert (forall A (m : M hw A) a, m (x_hw s) = Ok a (x_hw s) -> lift m s = Ok a s) as Hlift.
  { intros A m a E. unfold lift. simpl. rewrite E. by destruct s. }
  assert (eflags_if (x_hw s) = false) as Hif by (by apply Hf).
  unfold sched.
  rewrite (wp_run _ _ _ (Some j) s (Hlift _ myproc (Some j) ltac:(rewrite (myproc_run _ i c Hok), Href; congruence))).
  rewrite (wp_run _ _ _ true s (Hlift _ (holding ptable_lock) true
    ltac:(rewrite (holding_run _ _ i c Hok), Href, Hlk, Hcpu, bool_decide_true by done; done))). cbn [negb].
  assert (lift mycpu s = Ok i s) as Hmy by (apply Hlift, (mycpu_run _ i c Hif Hc)).
  assert (lift (cpu_get i) s = Ok c s) as Hget by (apply Hlift, (cpu_get_run _ i c Hc)).
  rewrite (wp_run _ _ _ i s Hmy), (wp_run _ _ _ c s Hget), Hn. cbn [length Z.of_nat Z.eqb Pos.eqb negb Pos.of_succ_nat].
  assert (pget j s = Ok p s) as Hpg by (unfold pget; by rewrite Hj).
  change (negb (Z.of_nat 1 =? 1)) with false. cbv iota. rewrite (wp_run _ _ _ p s Hpg). rewrite bool_decide_false by done.
  rewrite (wp_run (gets (fun s => eflags_if (x_hw s))) _ _ false s) by (unfold gets; by rewrite Hif).
  rewrite (wp_run _ _ _ i s Hmy), (wp_run _ _ _ c s Hget). cbv zeta.
  apply wp_bind. eapply wp_mono; [by apply Hsw|]. intros _ s' (H' & Hw' & -> & HQ).
  destruct (w_hw _ _ Hw') as (i' & c' & [Hc' Hn' Hf' Hp' Hnd' Hheld' Hfree']).
  assert (eflags_if (x_hw s') = false) as Hif' by (by apply Hf').
  assert (lift mycpu s' = Ok i' s') as Hmy'.
  { unfold lift. simpl. rewrite (mycpu_run _ i' c' Hif' Hc'). by destruct s'. }
  assert (lift (cpu_get i') s' = Ok c' s') as Hget'.
  { unfold lift. simpl. rewrite (cpu_get_run _ i' c' Hc'). by destruct s'. }
  rewrite (wp_run _ _ _ i' s' Hmy'), (wp_run _ _ _ c' s' Hget'). split; [|done].
  constructor; [|apply (w_len _ _ Hw')|apply (w_proc _ _ Hw')].
  exists i', (MkCpu (apicid c') (ncli c') (intena c) (cpu_proc c')). constructor; try done.
  exact (this_cpu_insert _ i' c' (MkCpu _ _ _ _) Hc' eq_refl).
Qed.

Lemma wp_sleep_enter j ch lk r :
  o = Some j -> (j < NPROC)%nat -> lk <> ptable_lock ->
  forall s, world [lk] s -> x_rest s = r ->
  wp (sleep_enter ch lk) (fun a s' => a = j /\ world [ptable_lock] s' /\ x_rest s' = r /\
    exists p, procs s' !! j = Some p /\ state p = SLEEPING) s.
Proof.
  intros Ho Hj Hlk s Hw Hr. unfold sleep_enter.
  assert ((lk =? ptable_lock)%nat = false) as Elk by (by apply Nat.eqb_neq).
  apply wp_bind. eapply wp_mono; [by apply (wpx_myproc [lk] r)|]. intros a s1 (? & Hw1 & -> & -> & Hr1).
  rewrite Ho, Elk. cbn [negb]. apply wp_bind. eapply wp_mono.
  { refine (wpx_bind _ _ [lk] r _ (fun _ H' r' => H' = [ptable_lock] /\ r' = r) _ _ s1 Hw1 Hr1).
    - apply (wpx_acquire ptable_lock). set_solver.
    - intros _ ? ? [-> ->]. apply (wpx_release lk). apply perm_swap. }
  intros _ s2 (? & Hw2 & -> & Hr2).
  apply wp_bind. eapply wp_mono; [by apply (wpx_pupd j (set_chan ch) [ptable_lock] r)|].
  intros _ s3 (? & Hw3 & -> & Hr3).
  destruct (lookup_lt_is_Some_2 (procs s3) j) as [p E]; [by rewrite (w_len _ _ Hw3)|].
  pose proof (wpx_pupd j (set_state SLEEPING) [ptable_lock] r Hj (fun p => conj eq_refl eq_refl) s3 Hw3 Hr3) as H.
  apply wp_bind. unfold wp at 1 in H. unfold wp at 1. unfold pupd in *. rewrite E in *.
  destruct H as (? & Hw4 & -> & Hr4). split_and!; [done|done|done|].
  exists (set_state SLEEPING p). split; [|done]. cbn [procs with_procs]. apply list_lookup_insert_eq.
  by eapply lookup_lt_Some.
Qed.

Lemma wpx_sleep j ch lk r (swtch : M (xst R) unit) (Q : R -> Prop) :
  o = Some j -> (j < NPROC)%nat -> lk <> ptable_lock ->
  wpx [ptable_lock] r swtch (fun _ H' r' => H' = [ptable_lock] /\ Q r') ->
  wpx [lk] r (sleep swtch ch lk) (fun _ H' r' => H' = [lk] /\ Q r').
Proof.
  intros Ho Hj Hlk Hsw s Hw Hr. unfold sleep.
  assert ((lk =? ptable_lock)%nat = false) as Elk by (by apply Nat.eqb_neq).
  apply wp_bind. eapply wp_mono.
  { apply (wp_sleep_enter j ch lk r Ho Hj Hlk s Hw Hr). }
  intros a s1 (-> & Hw1 & Hr1 & p & Hp & Hst). apply wp_bind. eapply wp_mono.
  { apply (wp_sched j p s1 swtch Q Ho Hw1 Hp); [by rewrite Hst|]. by rewrite Hr1. }
  intros _ s2 [Hw2 HQ]. rewrite Elk. cbn [negb].
  assert (wpx [ptable_lock] (x_rest s2) (pupd j (set_chan PNull);; lift (release ptable_lock);; lift (acquire lk))
    (fun _ H' r' => H' = [lk] /\ r' = x_rest s2)) as H.
  { eapply wpx_bind; [by apply wpx_pupd|]. intros _ ? ? [-> ->].
    eapply wpx_bind; [by apply (wpx_release _ _ [])|]. intros _ ? ? [-> ->]. apply wpx_acquire. set_solver. }
  eapply wp_mono; [by apply H|]. intros _ s3 (H' & Hw3 & -> & Er). exists [lk]. by rewrite Er.
Qed.

(** ** Total correctness over locks, memory and component state *)

Definition wpm {A} (H : list nat) (m : mem) (r : R) (k : M (xst R) A)
    (Q : A -> list nat -> mem -> R -> Prop) : Prop :=
  forall s, world H s -> h_mem (x_hw s) = m -> x_rest s = r ->
    wp k (fun a s' => exists H', world H' s' /\ Q a H' (h_mem (x_hw s')) (x_rest s')) s.

Lemma wpm_ret {A} (a : A) H m r (Q : A -> list nat -> mem -> R -> Prop) : Q a H m r -> wpm H m r (mret a) Q.
Proof. intros HQ s Hw <- <-. by exists H. Qed.

Lemma wpm_ret_bind {A B} (a : A) (f : A -> M (xst R) B) H m r Q :
  wpm H m r (f a) Q -> wpm H m r (mret a ≫= f) Q.
Proof. done. Qed.

Lemma wpm_bind {A B} (k : M (xst R) A) (f : A -> M (xst R) B) H m r Q1 Q :
  wpm H m r k Q1 -> (forall a H' m' r', Q1 a H' m' r' -> wpm H' m' r' (f a) Q) -> wpm H m r (k ≫= f) Q.
Proof.
  intros Hk Hf s Hw Hm Hr. apply wp_bind. eapply wp_mono; [by apply Hk|].
  intros a s' (H' & Hw' & HQ). by apply (Hf a H' (h_mem (x_hw s')) (x_rest s')).
Qed.

Lemma wpm_mono {A} (k : M (xst R) A) H m r (Q Q' : A -> list nat -> mem -> R -> Prop) :
  wpm H m r k Q -> (forall a H' m' r', Q a H' m' r' -> Q' a H' m' r') -> wpm H m r k Q'.
Proof.
  intros Hk HQ s Hw Hm Hr. eapply wp_mono; [by apply Hk|].
  intros a s' (H' & Hw' & HQ'). exists H'. auto.
Qed.

Lemma wpm_acquire lk H m r :
  lk ∉ H -> wpm H m r (lift (acquire lk)) (fun _ H' m' r' => H' = lk :: H /\ m' = m /\ r' = r).
Proof.
  intros Hlk s [(i & c & Hh) Hl Hp] <- <-. destruct (world_hw_acquire _ _ _ _ lk Hh Hlk) as (E & c' & Hw).
  unfold wp, lift. simpl. rewrite E. exists (lk :: H). split; [|done].
  constructor; [by exists i, c'|done|done].
Qed.

Lemma wpm_release lk H H' m r :
  H ≡ₚ lk :: H' -> wpm H m r (lift (release lk)) (fun _ H1 m' r' => H1 = H' /\ m' = m /\ r' = r).
Proof.
  intros HP s [(i & c & Hh) Hl Hp] <- <-.
  destruct (world_hw_release _ H' _ _ _ lk Hh HP) as (h' & c' & E & Em & Hw).
  unfold wp, lift. simpl. rewrite E. exists H'. split; [|done].
  constructor; [by exists i, c'|done|done].
Qed.

Lemma wpm_initlock lk H m r :
  lk ∉ H -> wpm H m r (lift (initlock lk)) (fun _ H' m' r' => H' = H /\ m' = m /\ r' = r).
Proof.
  intros Hlk s Hw <- <-. destruct (wpx_initlock lk H (x_rest s) Hlk s Hw eq_refl) as (H' & Hw' & -> & Hr').
  exists H. done.
Qed.

Lemma wpm_wakeup ch H m r :
  ptable_lock ∉ H -> wpm H m r (wakeup ch) (fun _ H' m' r' => H' = H /\ m' = m /\ r' = r).
Proof.
  intros Hp. unfold wakeup. eapply wpm_bind; [by apply wpm_acquire|]. intros _ ? ? ? (-> & -> & ->).
  apply (wpm_bind _ _ _ _ _ (fun _ H' m' r' => H' = ptable_lock :: H /\ m' = m /\ r' = r)).
  - intros s Hw <- <-. eapply wp_mono; [by apply wp_wakeup1|]. intros _ s' (Hw' & Hh & Hr).
    eexists. split; [done|]. by rewrite Hh.
  - intros _ ? ? ? (-> & -> & ->). by apply wpm_release.
Qed.

Lemma wpm_gets {A} (f : R -> A) H m r :
  wpm H m r (gets (fun s => f (x_rest s))) (fun a H' m' r' => a = f r /\ H' = H /\ m' = m /\ r' = r).
Proof. intros s Hw <- <-. by exists H. Qed.

Lemma wpm_modify (f : R -> R) H m r :
  wpm H m r (modify (fun s => with_rest (f (x_rest s)) s)) (fun _ H' m' r' => H' = H /\ m' = m /\ r' = f r).
Proof. intros s [Hh Hl Hp] <- <-. exists H. split; [by constructor|done]. Qed.

Lemma wpm_load32 a H m r :
  wpm H m r (gets (fun s => load32 (h_mem (x_hw s)) a)) (fun v H' m' r' =>
    v = load32 m a /\ H' = H /\ m' = m /\ r' = r).
Proof. intros s Hw <- <-. by exists H. Qed.

Lemma wpm_memupd f H m r :
  wpm H m r (memupd f) (fun _ H' m' r' => H' = H /\ m' = f m /\ r' = r).
Proof.
  intros s [(i & c & [Hc Hn Hf Ho Hnd Hheld Hfree]) Hl Hp] <- <-. exists H. split; [|done].
  constructor; [|done|done]. exists i, c. by constructor.
Qed.
End world.

(** One call of a routine whose specification is [lem]. *)
Tactic Notation "wx" uconstr(lem) "as" simple_intropattern(pat) :=
  eapply wpx_bind; [eapply lem|intros ? ? ? pat].
Tactic Notation "wm" uconstr(lem) "as" simple_intropattern(pat) :=
  eapply wpm_bind; [eapply lem|intros ? ? ? ? pat].

(** Process 0, with pid 7, on the second of two processors. *)
Definition ex_running {R} (r : R) : xst R :=
  XSt ex_hw (replicate NPROC (set_pid 7 (set_state RUNNING proc0))) 8 (Some 0%nat) 0 0 false false [] r.

Lemma ex_running_world {R} (r : R) : world (Some 0%nat) 7 [] (ex_running r).
Proof.
  constructor; [|done|].
  2:{ intros j [= <-]. by exists (set_pid 7 (set_state RUNNING proc0)). }
  exists 1%nat, (MkCpu 4 0 false (Some 0%nat)). constructor; try done; [constructor|].
  intros lk Hlk. by apply not_elem_of_nil in Hlk.
Qed.
