(* ===== verification/Xv6Kalloc.v ===== *)
(** * The xv6 page allocator (lab2/kalloc.c)

    Free pages are linked through their first word; the list is in the kernel
    memory and its head in [kmem].  The theorem says that the list holds exactly
    the pages freed and not allocated since, each once. *)

From S2P Require Import Prelude CMem JosString Xv6Lock Xv6String Xv6Proc Xv6World.
From stdpp Require Import base numbers option list gmap strings.
Open Scope Z_scope.

Definition KERNBASE : Z := 0x80000000.
Definition PHYSTOP : Z := 0xE000000.
Definition V2P (a : Z) : Z := u32 (a - KERNBASE).
Definition PGROUNDUP (sz : Z) : Z := Z.land (u32 (sz + PGSIZE - 1)) (u32 (Z.lnot (PGSIZE - 1))).

(** [kmem]; its lock is [kmem_lock]. *)
Record kmem : Type := MkKmem { use_lock : bool; freelist : Z }.
Definition kmem_lock : nat := 6.

(** A component state with an allocator in it. *)
Class HasKmem (R : Type) := {
  kmem_of : R -> kmem;
  set_kmem : kmem -> R -> R;
  kmem_of_set : forall k r, kmem_of (set_kmem k r) = k;
  set_kmem_set : forall k k' r, set_kmem k (set_kmem k' r) = set_kmem k r }.

Section kalloc.
Context {R : Type} `{HK : HasKmem R}.
Notation MX := (M (xst R)).

Definition kget : MX kmem := gets (fun s => kmem_of (x_rest s)).
Definition kmod (f : kmem -> kmem) : MX unit :=
  modify (fun s => with_rest (set_kmem (f (kmem_of (x_rest s))) (x_rest s)) s).

(** [if(kmem.use_lock) acquire(&kmem.lock)] and the matching release. *)
Definition when_locked (m : MX unit) : MX unit := k ← kget; if use_lock k then m else mret tt.

(** [end_] is the linker's symbol. *)
Definition kfree (end_ v : Z) : MX unit :=
  if negb (v mod PGSIZE =? 0) || (v <? end_) || (PHYSTOP <=? V2P v) then panic "kfree"
  else
    memupd (fun m => memset m v 1 PGSIZE);;
    when_locked (lift (acquire kmem_lock));;
    k ← kget;
    memupd (fun m => store32 m v (freelist k));;
    kmod (fun k => MkKmem (use_lock k) v);;
    when_locked (lift (release kmem_lock)).

Definition kalloc : MX Z :=
  when_locked (lift (acquire kmem_lock));;
  k ← kget;
  let r := freelist k in
  (if negb (r =? 0) then
     next ← gets (fun s => load32 (h_mem (x_hw s)) r);
     kmod (fun k => MkKmem (use_lock k) next)
   else mret tt);;
  when_locked (lift (release kmem_lock));;
  mret r.

(** [for(; p + PGSIZE <= vend; p += PGSIZE) kfree(p)], [n] pages at most. *)
Fixpoint freerange_loop (n : nat) (end_ p vend : Z) : MX unit :=
  if u32 (p + PGSIZE) <=? vend then
    match n with
    | O => no_fuel
    | S n => kfree end_ p;; freerange_loop n end_ (u32 (p + PGSIZE)) vend
    end
  else mret tt.

Definition freerange (n : nat) (end_ vstart vend : Z) : MX unit :=
  freerange_loop n end_ (PGROUNDUP vstart) vend.

Definition kinit1 (n : nat) (end_ vstart vend : Z) : MX unit :=
  lift (initlock kmem_lock);;
  kmod (fun k => MkKmem false (freelist k));;
  freerange n end_ vstart vend.

Definition kinit2 (n : nat) (end_ vstart vend : Z) : MX unit :=
  freerange n end_ vstart vend;;
  kmod (fun k => MkKmem true (freelist k)).
End kalloc.

(** ** The free list *)

(** A page the allocator may hold. *)
Definition page_ok (end_ v : Z) : Prop :=
  v mod PGSIZE = 0 /\ end_ <= v /\ KERNBASE <= v < KERNBASE + PHYSTOP.

(** The pages [l] are linked from [h]. *)
Fixpoint linked (m : mem) (h : Z) (l : list Z) : Prop :=
  match l with
  | [] => h = 0
  | v :: l => h = v /\ v <> 0 /\ linked m (load32 m v) l
  end.

Record kmem_ok (end_ : Z) (m : mem) (k : kmem) (l : list Z) : Prop := KmemOk {
  km_linked : linked m (freelist k) l;
  km_pages v : v ∈ l -> page_ok end_ v;
  km_nodup : NoDup l }.

Lemma linked_ext m m' h l :
  (forall v, v ∈ l -> load32 m' v = load32 m v) -> linked m h l -> linked m' h l.
Proof.
  revert h. induction l as [|v l IH]; intros h He; [done|]. simpl. intros (-> & Hv & Hl).
  split; [done|]. split; [done|]. rewrite (He v) by apply list_elem_of_here.
  apply IH; [|done]. intros w Hw. apply He. by apply list_elem_of_further.
Qed.

(** The head of a list of kernel pages is a 32-bit pointer. *)
Lemma km_head end_ m k l : kmem_ok end_ m k l -> u32 (freelist k) = freelist k.
Proof.
  intros [Hl Hp _]. apply u32_small. destruct l as [|v l]; simpl in Hl; [lia|].
  destruct Hl as (-> & _). destruct (Hp v (list_elem_of_here _ _)) as (_ & _ & H).
  unfold KERNBASE, PHYSTOP in H. lia.
Qed.

(** Two pages are equal or do not overlap. *)
Lemma pages_apart end_ v w :
  page_ok end_ v -> page_ok end_ w -> v <> w -> v + PGSIZE <= w \/ w + PGSIZE <= v.
Proof.
  intros (Hv & _) (Hw & _) Hne. unfold PGSIZE in *.
  pose proof (Z.div_mod v 4096). pose proof (Z.div_mod w 4096). nia.
Qed.

(** What [kfree] writes: junk all over the page, then the link. *)
Definition freed (m : mem) (v next : Z) : mem := store32 (memset m v 1 PGSIZE) v next.

Lemma load32_freed_out m v next w :
  w + 4 <= v \/ v + PGSIZE <= w -> load32 (freed m v next) w = load32 m w.
Proof.
  intros Hw. unfold freed. rewrite load32_store32_ne by (unfold PGSIZE in Hw; lia).
  rewrite memset_same by done. by apply load32_memset_out.
Qed.

Lemma load8_freed_out m v next b :
  b < v \/ v + PGSIZE <= b -> load8 (freed m v next) b = load8 m b.
Proof.
  intros Hb. unfold freed. rewrite load8_store32_out by (unfold PGSIZE in Hb; lia).
  rewrite memset_same, memset_load by done. by rewrite decide_False by lia.
Qed.

Lemma kmem_ok_push end_ m k l v :
  kmem_ok end_ m k l -> page_ok end_ v -> v ∉ l ->
  kmem_ok end_ (freed m v (freelist k)) (MkKmem (use_lock k) v) (v :: l).
Proof.
  intros Hk Hv Hn. pose proof (km_head _ _ _ _ Hk) as Hu. destruct Hk as [Hl Hp Hnd].
  constructor.
  - cbn [freelist linked]. split; [done|]. split; [destruct Hv as (_ & _ & ?); unfold KERNBASE in *; lia|].
    replace (load32 (freed m v (freelist k)) v) with (freelist k)
      by (unfold freed; by rewrite load32_store32_eq).
    eapply linked_ext; [|done].
    intros w Hw. apply load32_freed_out.
    destruct (pages_apart end_ v w) as [?|?]; auto; [intros ->; done|]. unfold PGSIZE in *. lia.
  - intros w [->|Hw]%elem_of_cons; auto.
  - by constructor.
Qed.

Lemma kmem_ok_flag end_ m k l b : kmem_ok end_ m k l -> kmem_ok end_ m (MkKmem b (freelist k)) l.
Proof. by intros []. Qed.

Lemma kmem_ok_pop end_ m k l v :
  kmem_ok end_ m k (v :: l) ->
  freelist k = v /\ v <> 0 /\ kmem_ok end_ m (MkKmem (use_lock k) (load32 m v)) l.
Proof.
  intros [(E & Hv & Hl) Hp [_ Hnd]%NoDup_cons]. split; [done|]. split; [done|].
  constructor; [done| |done]. intros w Hw. apply Hp. by apply list_elem_of_further.
Qed.

(** ** The operations *)

Section spec.
Context {R : Type} `{HK : HasKmem R} (o : option nat) (pd : Z) (end_ : Z).
Notation wpm := (wpm o pd).

Definition lock_if (b : bool) (H : list nat) : list nat := if b then kmem_lock :: H else H.

Lemma wpm_lock H m r :
  kmem_lock ∉ H ->
  wpm H m r (when_locked (lift (acquire kmem_lock))) (fun _ H' m' r' =>
    H' = lock_if (use_lock (kmem_of r)) H /\ m' = m /\ r' = r).
Proof.
  intros HH. eapply wpm_bind; [apply (wpm_gets o pd kmem_of)|]. intros k ? ? ? (-> & -> & -> & ->).
  destruct (use_lock (kmem_of r)); [by apply wpm_acquire | by apply wpm_ret].
Qed.

Lemma wpm_unlock H m r :
  wpm (lock_if (use_lock (kmem_of r)) H) m r (when_locked (lift (release kmem_lock))) (fun _ H' m' r' =>
    H' = H /\ m' = m /\ r' = r).
Proof.
  eapply wpm_bind; [apply (wpm_gets o pd kmem_of)|]. intros k ? ? ? (-> & -> & -> & ->).
  destruct (use_lock (kmem_of r)); [by apply wpm_release | by apply wpm_ret].
Qed.

Lemma wpm_kmod f H m r :
  wpm H m r (kmod f) (fun _ H' m' r' => H' = H /\ m' = m /\ r' = set_kmem (f (kmem_of r)) r).
Proof. apply (wpm_modify o pd (fun r => set_kmem (f (kmem_of r)) r)). Qed.

Lemma kfree_guard v :
  page_ok end_ v -> negb (v mod PGSIZE =? 0) || (v <? end_) || (PHYSTOP <=? V2P v) = false.
Proof.
  intros (Hm & He & Hr). unfold V2P. rewrite u32_small by (unfold KERNBASE, PHYSTOP in *; lia).
  rewrite Hm. simpl. apply orb_false_iff. split; [apply Z.ltb_ge; lia|apply Z.leb_gt; lia].
Qed.

Lemma wpm_kfree v H m r l :
  kmem_ok end_ m (kmem_of r) l -> page_ok end_ v -> v ∉ l -> kmem_lock ∉ H ->
  wpm H m r (kfree end_ v) (fun _ H' m' r' =>
    H' = H /\ kmem_ok end_ m' (kmem_of r') (v :: l) /\
    use_lock (kmem_of r') = use_lock (kmem_of r) /\
    m' = freed m v (freelist (kmem_of r)) /\ exists k, r' = set_kmem k r).
Proof.
  intros Hk Hv Hn HH. unfold kfree. rewrite kfree_guard by done.
  eapply wpm_bind; [apply wpm_memupd|]. intros ? ? ? ? (-> & -> & ->).
  eapply wpm_bind; [by apply wpm_lock|]. intros ? ? ? ? (-> & -> & ->).
  eapply wpm_bind; [apply (wpm_gets o pd kmem_of)|]. intros ? ? ? ? (-> & -> & -> & ->).
  eapply wpm_bind; [apply wpm_memupd|]. intros ? ? ? ? (-> & -> & ->).
  eapply wpm_bind; [apply wpm_kmod|]. intros ? ? ? ? (-> & -> & ->).
  pose proof (wpm_unlock H (freed m v (freelist (kmem_of r)))
    (set_kmem (MkKmem (use_lock (kmem_of r)) v) r)) as HU.
  rewrite kmem_of_set in HU. eapply wpm_mono; [exact HU|].
  intros ? ? ? ? (-> & -> & ->). rewrite kmem_of_set. split; [done|].
  split; [by apply kmem_ok_push|]. split; [done|]. split; [done|by eexists].
Qed.

Lemma wpm_kalloc H m r l :
  kmem_ok end_ m (kmem_of r) l -> kmem_lock ∉ H ->
  wpm H m r kalloc (fun a H' m' r' =>
    a = default 0 (head l) /\ H' = H /\ m' = m /\ kmem_ok end_ m (kmem_of r') (tail l) /\
    use_lock (kmem_of r') = use_lock (kmem_of r) /\ (r' = r \/ exists k, r' = set_kmem k r)).
Proof.
  intros Hk HH. unfold kalloc.
  eapply wpm_bind; [by apply wpm_lock|]. intros ? ? ? ? (-> & -> & ->).
  eapply wpm_bind; [apply (wpm_gets o pd kmem_of)|]. intros ? ? ? ? (-> & -> & -> & ->).
  destruct l as [|v l].
  - assert (E : freelist (kmem_of r) = 0) by exact (km_linked _ _ _ _ Hk). rewrite E. simpl.
    apply wpm_ret_bind. eapply wpm_bind; [apply wpm_unlock|]. intros ? ? ? ? (-> & -> & ->).
    apply wpm_ret. split; [done|]. split; [done|]. split; [done|]. split; [done|]. split; [done|by left].
  - destruct (kmem_ok_pop _ _ _ _ _ Hk) as (E & Hv & Hk'). rewrite E.
    rewrite (proj2 (Z.eqb_neq v 0) Hv). simpl negb. cbv iota.
    eapply wpm_bind; [eapply wpm_bind; [apply wpm_load32|]|].
    { intros ? ? ? ? (-> & -> & -> & ->). apply wpm_kmod. }
    intros ? ? ? ? (-> & -> & ->).
    pose proof (wpm_unlock H m (set_kmem (MkKmem (use_lock (kmem_of r)) (load32 m v)) r)) as HU.
    rewrite kmem_of_set in HU. eapply wpm_bind; [exact HU|].
    intros ? ? ? ? (-> & -> & ->). apply wpm_ret. rewrite kmem_of_set. split_and!; try done. right. by eexists.
Qed.

(** The list after [n] pages from [p] on have been freed. *)
Fixpoint push_pages (p : Z) (n : nat) (l : list Z) : list Z :=
  match n with
  | O => l
  | S n => push_pages (p + PGSIZE) n (p :: l)
  end.

Lemma wpm_freerange_loop n c p vend H m r l :
  kmem_ok end_ m (kmem_of r) l -> kmem_lock ∉ H ->
  end_ <= p -> KERNBASE <= p -> p mod PGSIZE = 0 -> vend <= KERNBASE + PHYSTOP ->
  (forall v, v ∈ l -> v < p) -> p + PGSIZE * Z.of_nat c <= vend < p + PGSIZE * (Z.of_nat c + 1) ->
  (c <= n)%nat ->
  wpm H m r (freerange_loop n end_ p vend) (fun _ H' m' r' =>
    H' = H /\ kmem_ok end_ m' (kmem_of r') (push_pages p c l) /\
    use_lock (kmem_of r') = use_lock (kmem_of r)).
Proof.
  revert n p m r l. induction c as [|c IH]; intros n p m r l Hk HH He HK' Hp Hv Hl Hc Hn.
  - assert (E : (u32 (p + PGSIZE) <=? vend) = false).
    { apply Z.leb_gt. rewrite u32_small by (unfold KERNBASE, PHYSTOP, PGSIZE in *; lia). lia. }
    destruct n; simpl; rewrite E; by apply wpm_ret.
  - assert (Hu : u32 (p + PGSIZE) = p + PGSIZE)
      by (apply u32_small; unfold KERNBASE, PHYSTOP, PGSIZE in *; lia).
    assert (E : (p + PGSIZE <=? vend) = true) by (apply Z.leb_le; unfold PGSIZE in *; lia).
    destruct n as [|n]; [lia|]. cbn [freerange_loop]. rewrite Hu, E.
    eapply wpm_bind.
    { apply wpm_kfree; [done| |by intros ?%Hl; lia|done].
      split; [done|]. unfold PGSIZE in *. lia. }
    intros ? ? m' r' (-> & Hk' & Hlk & _). cbn [push_pages]. rewrite <- Hlk.
    apply IH; auto; try (unfold PGSIZE in *; lia).
    + rewrite <- (Z.mul_1_l PGSIZE) at 1. by rewrite Z_mod_plus_full.
    + intros v [->|Hin]%elem_of_cons; [|specialize (Hl v Hin)]; unfold PGSIZE; lia.
Qed.

Lemma push_pages_below p n l q :
  (forall v, v ∈ l -> v < q) -> p + PGSIZE * Z.of_nat n <= q ->
  forall v, v ∈ push_pages p n l -> v < q.
Proof.
  revert p l. induction n as [|n IH]; intros p l Hl Hq; [done|]. cbn [push_pages]. apply IH.
  - intros v [->|Hv]%elem_of_cons; [unfold PGSIZE in *; lia|auto].
  - unfold PGSIZE in *. lia.
Qed.
End spec.

Lemma PGROUNDUP_spec a :
  0 <= a < 2 ^ 32 - PGSIZE -> PGROUNDUP a = PGSIZE * ((a + PGSIZE - 1) / PGSIZE).
Proof.
  intros Ha. unfold PGROUNDUP. unfold PGSIZE in *. rewrite (u32_small (a + 4096 - 1)) by lia.
  change (u32 (Z.lnot (4096 - 1))) with (2 ^ 32 - 2 ^ 12). change 4096 with (2 ^ 12).
  apply land_high_mask; lia.
Qed.

Lemma PGROUNDUP_id a : 0 <= a < 2 ^ 32 - PGSIZE -> a mod PGSIZE = 0 -> PGROUNDUP a = a.
Proof.
  intros Ha Hm. rewrite PGROUNDUP_spec by done. unfold PGSIZE in *.
  pose proof (Z.div_mod a 4096). dlia.
Qed.

(** Rounding up stays below an aligned bound. *)
Lemma roundup_room a v :
  0 <= a <= v -> v < 2 ^ 32 - PGSIZE -> v mod PGSIZE = 0 ->
  a <= PGROUNDUP a /\ PGROUNDUP a <= v /\ PGROUNDUP a mod PGSIZE = 0.
Proof.
  intros Ha Hv Hm. rewrite PGROUNDUP_spec by lia. unfold PGSIZE in *. dlia.
Qed.

Lemma wpm_freerange {R} `{HK : HasKmem R} o pd end_ n vstart vend H m r l :
  kmem_ok end_ m (kmem_of r) l -> kmem_lock ∉ H ->
  end_ <= PGROUNDUP vstart -> KERNBASE <= PGROUNDUP vstart <= vend -> PGROUNDUP vstart mod PGSIZE = 0 ->
  vend <= KERNBASE + PHYSTOP -> (forall v, v ∈ l -> v < PGROUNDUP vstart) ->
  PHYSTOP / PGSIZE <= Z.of_nat n ->
  wpm o pd H m r (freerange n end_ vstart vend) (fun _ H' m' r' =>
    H' = H /\
    kmem_ok end_ m' (kmem_of r') (push_pages (PGROUNDUP vstart) (Z.to_nat ((vend - PGROUNDUP vstart) / PGSIZE)) l) /\
    use_lock (kmem_of r') = use_lock (kmem_of r)).
Proof.
  intros Hk HH He HK' Hp Hv Hl Hn. apply wpm_freerange_loop; auto; [lia| |].
  - rewrite Z2Nat.id by (apply Z.div_pos; unfold PGSIZE; lia).
    clear Hp. unfold PGSIZE. generalize (PGROUNDUP vstart). intros p. dlia.
  - cut ((vend - PGROUNDUP vstart) / PGSIZE <= PHYSTOP / PGSIZE); [lia|].
    apply Z.div_le_mono; [done|lia].
Qed.

(** ** The allocator as a stack of pages *)

(** A caller allocates, frees, or stores a byte. *)
Inductive kop := KAlloc | KFree (v : Z) | KStore (a b : Z).

(** A caller's run: the addresses that [kalloc] returned. *)
Fixpoint kops {R} `{HasKmem R} (end_ : Z) (ops : list kop) : M (xst R) (list Z) :=
  match ops with
  | [] => mret []
  | KAlloc :: ops => a ← kalloc; l ← kops end_ ops; mret (a :: l)
  | KFree v :: ops => kfree end_ v;; kops end_ ops
  | KStore a b :: ops => memupd (fun m => store8 m a b);; kops end_ ops
  end.

(** The same run on the set of free pages; a page may be freed when it is a
    kernel page that is not free, and a byte stored that is in no free page. *)
Inductive kruns (end_ : Z) : list Z -> list kop -> list Z -> list Z -> Prop :=
| kruns_nil l : kruns end_ l [] [] l
| kruns_empty ops rs l' : kruns end_ [] ops rs l' -> kruns end_ [] (KAlloc :: ops) (0 :: rs) l'
| kruns_alloc v l ops rs l' : kruns end_ l ops rs l' -> kruns end_ (v :: l) (KAlloc :: ops) (v :: rs) l'
| kruns_free v l ops rs l' :
    page_ok end_ v -> v ∉ l -> kruns end_ (v :: l) ops rs l' -> kruns end_ l (KFree v :: ops) rs l'
| kruns_store a b l ops rs l' :
    (forall v, v ∈ l -> a < v \/ v + PGSIZE <= a) -> kruns end_ l ops rs l' ->
    kruns end_ l (KStore a b :: ops) rs l'.

Lemma kmem_ok_store end_ m k l a b :
  kmem_ok end_ m k l -> (forall v, v ∈ l -> a < v \/ v + PGSIZE <= a) ->
  kmem_ok end_ (store8 m a b) k l.
Proof.
  intros [Hl Hp Hn] Ha. constructor; [|done|done]. eapply linked_ext; [|done].
  intros v Hv. apply load32_ext. intros c Hc. apply load8_store8_ne.
  destruct (Ha v Hv); unfold PGSIZE in *; lia.
Qed.

Section refine.
Context {R : Type} `{HK : HasKmem R} (o : option nat) (pd : Z) (end_ : Z).

Lemma wpm_kops l ops rs l' :
  kruns end_ l ops rs l' -> forall H m r,
  kmem_ok end_ m (kmem_of r) l -> kmem_lock ∉ H ->
  wpm o pd H m r (kops end_ ops) (fun a H' m' r' =>
    a = rs /\ H' = H /\ kmem_ok end_ m' (kmem_of r') l').
Proof.
  induction 1 as [l|ops rs l' Hr IH|v l ops rs l' Hr IH|v l ops rs l' Hv Hn Hr IH|a b l ops rs l' Ha Hr IH];
    intros H m r Hk HH; cbn [kops].
  - by apply wpm_ret.
  - eapply wpm_bind; [by apply (wpm_kalloc o pd end_)|]. intros a ? ? r' (-> & -> & -> & Hk' & _).
    eapply wpm_bind; [by apply IH|]. intros ? ? ? ? (-> & -> & Hk''). by apply wpm_ret.
  - eapply wpm_bind; [by apply (wpm_kalloc o pd end_)|]. intros a ? ? r' (-> & -> & -> & Hk' & _).
    eapply wpm_bind; [by apply IH|]. intros ? ? ? ? (-> & -> & Hk''). by apply wpm_ret.
  - eapply wpm_bind; [by apply (wpm_kfree o pd end_)|]. intros ? ? ? ? (-> & Hk' & _). by apply IH.
  - eapply wpm_bind; [apply wpm_memupd|]. intros ? ? ? ? (-> & -> & ->). apply IH; [|done].
    by apply kmem_ok_store.
Qed.

(** The free pages after boot. *)
Definition boot_pages (v1 v2 : Z) : list Z :=
  let p := PGROUNDUP end_ in
  let c1 := Z.to_nat ((v1 - p) / PGSIZE) in
  push_pages v1 (Z.to_nat ((v2 - v1) / PGSIZE)) (push_pages p c1 []).

(** C15: main's two calls, [kinit1(end, v1)] and [kinit2(v1, v2)], put every whole page
    of the kernel's memory above [end] on the free list, and any sequence of [kalloc],
    [kfree] of pages in use and stores outside the free pages that follows returns what
    a stack of pages returns: the last page freed, and 0 exactly when no page is free.
    So [kalloc] never hands out a page that is in use, and the links, which live in the
    free pages, survive the junk [kfree] writes. *)
Theorem kalloc_refines n v1 v2 ops rs l' H m r :
  KERNBASE <= end_ <= v1 -> v1 <= v2 <= KERNBASE + PHYSTOP -> v1 mod PGSIZE = 0 ->
  PHYSTOP / PGSIZE <= Z.of_nat n -> freelist (kmem_of r) = 0 -> kmem_lock ∉ H ->
  kruns end_ (boot_pages v1 v2) ops rs l' ->
  wpm o pd H m r (kinit1 n end_ end_ v1;; kinit2 n end_ v1 v2;; kops end_ ops) (fun a H' m' r' =>
    a = rs /\ H' = H /\ kmem_ok end_ m' (kmem_of r') l').
Proof.
  intros H1 H2 Ha Hn Hf HH Hr. unfold boot_pages in Hr.
  pose proof (roundup_room end_ v1 ltac:(unfold KERNBASE in *; lia) ltac:(unfold KERNBASE, PHYSTOP, PGSIZE in *; lia) Ha)
    as (Hp1 & Hp2 & Hp3).
  assert (Ev : PGROUNDUP v1 = v1) by (apply PGROUNDUP_id; [unfold KERNBASE, PHYSTOP, PGSIZE in *; lia|done]).
  eapply wpm_bind.
  { eapply wpm_bind; [by apply wpm_initlock|]. intros ? ? ? ? (-> & -> & ->).
    eapply wpm_bind; [apply wpm_kmod|]. intros ? ? ? ? (-> & -> & ->).
    apply (wpm_freerange _ _ _ _ _ _ _ _ _ []); rewrite ?kmem_of_set; auto; try lia; [|set_solver].
    by constructor; [|set_solver|constructor]. }
  intros ? ? m1 r1 (-> & Hk1 & _).
  apply (wpm_bind _ _ _ _ _ _ _ (fun _ H' m' r' =>
    H' = H /\ kmem_ok end_ m' (kmem_of r') (boot_pages v1 v2))).
  { eapply wpm_bind.
    - apply (wpm_freerange _ _ _ _ _ _ _ _ _ _ Hk1); rewrite ?Ev; auto; try lia.
      apply push_pages_below; [set_solver|]. rewrite Z2Nat.id; [|apply Z.div_pos; unfold PGSIZE; lia].
      pose proof (Z.mul_div_le (v1 - PGROUNDUP end_) PGSIZE ltac:(done)). lia.
    - intros ? ? m2 r2 (-> & Hk2 & _). eapply wpm_mono; [apply wpm_kmod|].
      intros ? ? ? ? (-> & -> & ->).
      pose proof (kmem_ok_flag _ _ _ _ true Hk2) as Hk3.
      rewrite Ev in Hk3. by rewrite kmem_of_set. }
  intros ? ? m3 r3 (-> & Hk3). by apply (wpm_kops _ _ _ _ Hr).
Qed.
End refine.

(** An allocator alone. *)
#[export] Instance kmem_alone : HasKmem kmem.
Proof. refine {| kmem_of := id; set_kmem := fun k _ => k |}; done. Defined.

Definition ex_end : Z := KERNBASE + 0x1234.
Definition ex_page (i : Z) : Z := KERNBASE + i * PGSIZE.

(** Two pages: a third allocation fails until one is freed. *)
Definition ex_kops : list kop :=
  [KAlloc; KStore (ex_page 3 + 8) 5; KAlloc; KAlloc; KFree (ex_page 3); KAlloc].

Lemma ex_kops_run : kruns ex_end (boot_pages ex_end (ex_page 3) (ex_page 4)) ex_kops
  [ex_page 3; ex_page 2; 0; ex_page 3] [].
Proof.
  change (boot_pages ex_end (ex_page 3) (ex_page 4)) with [ex_page 3; ex_page 2].
  apply kruns_alloc, kruns_store.
  { intros v ->%list_elem_of_singleton. right. by vm_compute. }
  apply kruns_alloc, kruns_empty, kruns_free; [by vm_compute|set_solver|].
  apply kruns_alloc, kruns_nil.
Qed.

Lemma kalloc_refines_witness :
  wp (kinit1 (Z.to_nat 57344) ex_end ex_end (ex_page 3);;
      kinit2 (Z.to_nat 57344) ex_end (ex_page 3) (ex_page 4);; kops ex_end ex_kops)
     (fun a s' => exists H', world (Some 0%nat) 7 H' s' /\
        a = [ex_page 3; ex_page 2; 0; ex_page 3] /\ H' = [] /\
        kmem_ok ex_end (h_mem (x_hw s')) (x_rest s') [])
     (ex_running (MkKmem false 0)).
Proof.
  refine (kalloc_refines (Some 0%nat) 7 ex_end (Z.to_nat 57344) (ex_page 3) (ex_page 4) ex_kops _ []
    [] (h_mem (x_hw (ex_running (MkKmem false 0)))) (MkKmem false 0) _ _ _ _ _ _ ex_kops_run
    (ex_running (MkKmem false 0)) (ex_running_world _) eq_refl eq_refl).
  - by vm_compute.
  - by vm_compute.
  - by vm_compute.
  - rewrite Z2Nat.id; by vm_compute.
  - done.
  - apply not_elem_of_nil.
Defined.
