(* ===== verification/Xv6Vm.v ===== *)
(** * xv6 address spaces (lab2/vm.c)

    Page directories and page tables in kernel memory, built from pages of the
    allocator of [Xv6Kalloc].  [vs_ok] says that an abstract address space, a
    directory, its tables and the pages they map, is what the memory holds. *)

From S2P Require Import Prelude CMem JosString JosPrintfmt Xv6Lock Xv6String Xv6Console Xv6Proc Xv6Sched Xv6World Xv6Kalloc.
From stdpp Require Import base numbers option list gmap strings.
Open Scope Z_scope.

Definition EXTMEM : Z := 0x100000.
Definition DEVSPACE : Z := 0xFE000000.
Definition KERNLINK : Z := KERNBASE + EXTMEM.
Definition P2V (a : Z) : Z := u32 (a + KERNBASE).

Definition PTE_P : Z := 1.
Definition PTE_W : Z := 2.
Definition PTE_U : Z := 4.
Definition PDX (va : Z) : Z := Z.land (Z.shiftr va 22) 0x3FF.
Definition PTX (va : Z) : Z := Z.land (Z.shiftr va 12) 0x3FF.
Definition PGADDR (d t o : Z) : Z := u32 (Z.lor (Z.lor (Z.shiftl d 22) (Z.shiftl t 12)) o).
Definition PTE_ADDR (pte : Z) : Z := Z.land pte (u32 (Z.lnot 0xFFF)).
Definition PTE_FLAGS (pte : Z) : Z := Z.land pte 0xFFF.
Definition PGROUNDDOWN (a : Z) : Z := Z.land a (u32 (Z.lnot (PGSIZE - 1))).
Definition NPDENTRIES : nat := 1024.
Definition present (e : Z) : bool := negb (Z.land e PTE_P =? 0).

(** The allocator, [kpgdir], the page table register and the kernel stack in the
    task state of the processor, and the state of other components. *)
Record vst (X : Type) : Type := MkVst { vs_kmem : kmem; kpgdir : Z; cr3 : Z; esp0 : Z; vs_rest : X }.
Arguments MkVst {X}. Arguments vs_kmem {X}. Arguments kpgdir {X}. Arguments cr3 {X}. Arguments esp0 {X}. Arguments vs_rest {X}.

#[export] Instance vst_kmem X : HasKmem (vst X).
Proof.
  refine {| kmem_of := vs_kmem; set_kmem := fun k r => MkVst k (kpgdir r) (cr3 r) (esp0 r) (vs_rest r) |}; done.
Defined.

Section routines.
Context {X : Type} (end_ data_ : Z).
Notation MX := (M (xst (vst X))).

Definition mload (a : Z) : MX Z := gets (fun s => load32 (h_mem (x_hw s)) a).
Definition mstore (a v : Z) : MX unit := memupd (fun m => store32 m a v).

(** The address of the entry, or 0. *)
Definition walkpgdir (pgdir va : Z) (alloc : bool) : MX Z :=
  let pde := pgdir + 4 * PDX va in
  e ← mload pde;
  if present e then mret (P2V (PTE_ADDR e) + 4 * PTX va)
  else if negb alloc then mret 0
  else
    pgtab ← kalloc;
    if pgtab =? 0 then mret 0
    else
      memupd (fun m => memset m pgtab 0 PGSIZE);;
      mstore pde (Z.lor (Z.lor (Z.lor (V2P pgtab) PTE_P) PTE_W) PTE_U);;
      mret (pgtab + 4 * PTX va).

(** The loop of [mappages]; [n] more pages follow. *)
Fixpoint map_loop (n : nat) (pgdir a pa perm : Z) : MX Z :=
  pte ← walkpgdir pgdir a true;
  if pte =? 0 then mret (-1)
  else
    e ← mload pte;
    if present e then panic "remap"
    else
      mstore pte (Z.lor (Z.lor pa perm) PTE_P);;
      match n with
      | O => mret 0
      | S n => map_loop n pgdir (u32 (a + PGSIZE)) (u32 (pa + PGSIZE)) perm
      end.

Definition mappages (pgdir va size pa perm : Z) : MX Z :=
  let a := PGROUNDDOWN va in
  let last := PGROUNDDOWN (u32 (va + size - 1)) in
  map_loop (Z.to_nat (u32 (last - a) / PGSIZE)) pgdir a pa perm.

(** The loop of [deallocuvm], [n] iterations at most. *)
Fixpoint dealloc_loop (n : nat) (pgdir a oldsz : Z) : MX unit :=
  if a <? oldsz then
    match n with
    | O => no_fuel
    | S n =>
        pte ← walkpgdir pgdir a false;
        if pte =? 0 then
          dealloc_loop n pgdir (u32 (u32 (PGADDR (PDX a + 1) 0 0 - PGSIZE) + PGSIZE)) oldsz
        else
          e ← mload pte;
          (if present e then
             let pa := PTE_ADDR e in
             if pa =? 0 then panic "kfree"
             else kfree end_ (P2V pa);; mstore pte 0
           else mret tt);;
          dealloc_loop n pgdir (u32 (a + PGSIZE)) oldsz
    end
  else mret tt.

Definition deallocuvm (pgdir oldsz newsz : Z) : MX Z :=
  if oldsz <=? newsz then mret oldsz
  else
    dealloc_loop (Z.to_nat ((oldsz + PGSIZE - 1) / PGSIZE)) pgdir (PGROUNDUP newsz) oldsz;;
    mret newsz.

Definition freevm (pgdir : Z) : MX unit :=
  if pgdir =? 0 then panic "freevm: no pgdir"
  else
    deallocuvm pgdir KERNBASE 0;;
    for_each (seq 0 NPDENTRIES) (fun i =>
      e ← mload (pgdir + 4 * Z.of_nat i);
      if present e then kfree end_ (P2V (PTE_ADDR e)) else mret tt);;
    kfree end_ pgdir.

(** [kmap]: virtual address, physical range, permissions. *)
Definition kmap : list (Z * Z * Z * Z) :=
  [(KERNBASE, 0, EXTMEM, PTE_W); (KERNLINK, V2P KERNLINK, V2P data_, 0);
   (data_, V2P data_, PHYSTOP, PTE_W); (DEVSPACE, DEVSPACE, 0, PTE_W)].

Fixpoint setup_loop (l : list (Z * Z * Z * Z)) (pgdir : Z) : MX Z :=
  match l with
  | [] => mret pgdir
  | (virt, phys_start, phys_end, perm) :: l =>
      r ← mappages pgdir virt (u32 (phys_end - phys_start)) phys_start perm;
      if r <? 0 then freevm pgdir;; mret 0 else setup_loop l pgdir
  end.

Definition setupkvm : MX Z :=
  pgdir ← kalloc;
  if pgdir =? 0 then mret 0
  else
    memupd (fun m => memset m pgdir 0 PGSIZE);;
    if DEVSPACE <? P2V PHYSTOP then panic "PHYSTOP too high"
    else setup_loop kmap pgdir.

Definition lcr3 (a : Z) : MX unit :=
  modify (fun s => let r := x_rest s in with_rest (MkVst (vs_kmem r) (kpgdir r) a (esp0 r) (vs_rest r)) s).

Definition switchkvm : MX unit := d ← gets (fun s => kpgdir (x_rest s)); lcr3 (V2P d).

Definition kvmalloc : MX unit :=
  d ← setupkvm;
  modify (fun s => let r := x_rest s in with_rest (MkVst (vs_kmem r) d (cr3 r) (esp0 r) (vs_rest r)) s);;
  switchkvm.

(** Of the task state only the kernel stack is modelled. *)
Definition switchuvm (p : option proc) : MX unit :=
  match p with
  | None => panic "switchuvm: no process"
  | Some p =>
      if kstack p =? 0 then panic "switchuvm: no kstack"
      else if pgdir p =? 0 then panic "switchuvm: no pgdir"
      else
        lift pushcli;;
        modify (fun s => let r := x_rest s in
          with_rest (MkVst (vs_kmem r) (kpgdir r) (cr3 r) (u32 (kstack p + KSTACKSIZE)) (vs_rest r)) s);;
        lcr3 (V2P (pgdir p));;
        lift popcli
  end.

Definition inituvm (pgdir init sz : Z) : MX unit :=
  if PGSIZE <=? sz then panic "inituvm: more than a page"
  else
    mem ← kalloc;
    memupd (fun m => memset m mem 0 PGSIZE);;
    mappages pgdir 0 PGSIZE (V2P mem) (Z.lor PTE_W PTE_U);;
    memupd (fun m => memmove m mem init sz).

(** [readi ip dst off n] reads into kernel memory. *)
Fixpoint load_loop (readi : Z -> Z -> Z -> Z -> MX Z) (k : nat) (pgdir addr ip offset sz i : Z) : MX Z :=
  if i <? sz then
    match k with
    | O => no_fuel
    | S k =>
        pte ← walkpgdir pgdir (u32 (addr + i)) false;
        if pte =? 0 then panic "loaduvm: address should exist"
        else
          e ← mload pte;
          let n := if sz - i <? PGSIZE then sz - i else PGSIZE in
          r ← readi ip (P2V (PTE_ADDR e)) (u32 (offset + i)) n;
          if negb (r =? n) then mret (-1)
          else load_loop readi k pgdir addr ip offset sz (u32 (i + PGSIZE))
    end
  else mret 0.

Definition loaduvm (readi : Z -> Z -> Z -> Z -> MX Z) (pgdir addr ip offset sz : Z) : MX Z :=
  if negb (addr mod PGSIZE =? 0) then panic "loaduvm: addr must be page aligned"
  else load_loop readi (Z.to_nat ((sz + PGSIZE - 1) / PGSIZE)) pgdir addr ip offset sz 0.

Fixpoint alloc_loop (n : nat) (pgdir a oldsz newsz : Z) : MX Z :=
  if a <? newsz then
    match n with
    | O => no_fuel
    | S n =>
        mem ← kalloc;
        if mem =? 0 then
          cprintf (zs "allocuvm out of memory" ++ [10]) [];;
          deallocuvm pgdir newsz oldsz;;
          mret 0
        else
          memupd (fun m => memset m mem 0 PGSIZE);;
          r ← mappages pgdir a PGSIZE (V2P mem) (Z.lor PTE_W PTE_U);
          if r <? 0 then
            cprintf (zs "allocuvm out of memory (2)" ++ [10]) [];;
            deallocuvm pgdir newsz oldsz;;
            kfree end_ mem;;
            mret 0
          else alloc_loop n pgdir (u32 (a + PGSIZE)) oldsz newsz
    end
  else mret newsz.

Definition allocuvm (pgdir oldsz newsz : Z) : MX Z :=
  if KERNBASE <=? newsz then mret 0
  else if newsz <? oldsz then mret oldsz
  else alloc_loop (Z.to_nat ((newsz + PGSIZE - 1) / PGSIZE)) pgdir (PGROUNDUP oldsz) oldsz newsz.

Definition clearpteu (pgdir uva : Z) : MX unit :=
  pte ← walkpgdir pgdir uva false;
  if pte =? 0 then panic "clearpteu"
  else e ← mload pte; mstore pte (Z.land e (u32 (Z.lnot PTE_U))).

(** The pages of the parent from [i] on; 0 when memory runs out. *)
Fixpoint copy_loop (n : nat) (pgdir d i sz : Z) : MX Z :=
  if i <? sz then
    match n with
    | O => no_fuel
    | S n =>
        pte ← walkpgdir pgdir i false;
        if pte =? 0 then panic "copyuvm: pte should exist"
        else
          e ← mload pte;
          if negb (present e) then panic "copyuvm: page not present"
          else
            let pa := PTE_ADDR e in
            let flags := PTE_FLAGS e in
            mem ← kalloc;
            if mem =? 0 then freevm d;; mret 0
            else
              memupd (fun m => memmove m mem (P2V pa) PGSIZE);;
              r ← mappages d i PGSIZE (V2P mem) flags;
              if r <? 0 then kfree end_ mem;; freevm d;; mret 0
              else copy_loop n pgdir d (u32 (i + PGSIZE)) sz
    end
  else mret d.

Definition copyuvm (pgdir sz : Z) : MX Z :=
  d ← setupkvm;
  if d =? 0 then mret 0
  else copy_loop (Z.to_nat ((sz + PGSIZE - 1) / PGSIZE)) pgdir d 0 sz.

(** The entry is read without a test that its table exists. *)
Definition uva2ka (pgdir uva : Z) : MX Z :=
  pte ← walkpgdir pgdir uva false;
  if pte =? 0 then panic "uva2ka: null pointer"
  else
    e ← mload pte;
    if negb (present e) then mret 0
    else if Z.land e PTE_U =? 0 then mret 0
    else mret (P2V (PTE_ADDR e)).

Fixpoint copyout (n : nat) (pgdir va p len : Z) : MX Z :=
  if 0 <? len then
    match n with
    | O => no_fuel
    | S n =>
        let va0 := PGROUNDDOWN va in
        pa0 ← uva2ka pgdir va0;
        if pa0 =? 0 then mret (-1)
        else
          let k := u32 (PGSIZE - (va - va0)) in
          let k := if len <? k then len else k in
          memupd (fun m => memmove m (pa0 + (va - va0)) p k);;
          copyout n pgdir (u32 (va0 + PGSIZE)) (p + k) (len - k)
    end
  else mret 0.
End routines.

(** ** Page table arithmetic *)

Lemma mask_4096 z : 0 <= z < 2 ^ 32 -> Z.land z (u32 (Z.lnot 0xFFF)) = 4096 * (z / 4096).
Proof.
  intros Hz. change (u32 (Z.lnot 0xFFF)) with (2 ^ 32 - 2 ^ 12). change 4096 with (2 ^ 12).
  by apply land_high_mask.
Qed.

Lemma PTE_ADDR_spec e : 0 <= e < 2 ^ 32 -> PTE_ADDR e = 4096 * (e / 4096).
Proof. apply mask_4096. Qed.

Lemma PGROUNDDOWN_spec a : 0 <= a < 2 ^ 32 -> PGROUNDDOWN a = 4096 * (a / 4096).
Proof. apply mask_4096. Qed.

Lemma PTE_FLAGS_spec e : PTE_FLAGS e = e mod 4096.
Proof. unfold PTE_FLAGS. change 0xFFF with (Z.ones 12). by apply Z.land_ones. Qed.

Lemma present_spec e : present e = Z.odd e.
Proof.
  unfold present, PTE_P. change 1 with (Z.ones 1). rewrite Z.land_ones by done.
  rewrite Zmod_odd. by destruct (Z.odd e).
Qed.

Lemma PDX_spec va : 0 <= va < 2 ^ 32 -> PDX va = va / 4096 / 1024.
Proof.
  intros Hv. unfold PDX. rewrite Z.shiftr_div_pow2 by done. change 0x3FF with (Z.ones 10).
  rewrite Z.land_ones by done. change (2 ^ 22) with 4194304. change (2 ^ 10) with 1024. dlia.
Qed.

Lemma PTX_spec va : PTX va = va / 4096 mod 1024.
Proof.
  unfold PTX. rewrite Z.shiftr_div_pow2 by done. change 0x3FF with (Z.ones 10).
  by rewrite Z.land_ones.
Qed.

Lemma PGADDR_spec d : 0 <= d < 1024 -> PGADDR d 0 0 = 4194304 * d.
Proof.
  intros Hd. unfold PGADDR. rewrite Z.shiftl_0_l, !Z.lor_0_r, Z.shiftl_mul_pow2 by done.
  change (2 ^ 22) with 4194304. rewrite u32_small; lia.
Qed.

(** An entry: the page at [pa] with the flags [fl]. *)
Lemma lor_entry pa fl : pa mod 4096 = 0 -> 0 <= fl < 4096 -> Z.lor pa fl = pa + fl.
Proof. intros Hp Hf. by apply (lor_low_add pa fl 12). Qed.

(** The kernel address of the page an entry maps. *)
Definition upage (e : Z) : Z := P2V (PTE_ADDR e).

Lemma V2P_page end_ t :
  page_ok end_ t -> V2P t = t - KERNBASE /\ V2P t mod 4096 = 0 /\ 0 <= V2P t < PHYSTOP.
Proof.
  intros (Hm & _ & Hr). unfold V2P. rewrite u32_small by (unfold KERNBASE, PHYSTOP in *; lia).
  split; [done|]. unfold KERNBASE, PHYSTOP, PGSIZE in *. split; [dlia|lia].
Qed.

Lemma upage_entry end_ t fl :
  page_ok end_ t -> 0 <= fl < 4096 -> upage (V2P t + fl) = t /\ 0 <= V2P t + fl < 2 ^ 32.
Proof.
  intros Ht Hf. destruct (V2P_page _ _ Ht) as (E & Hm & Hr). unfold PHYSTOP in Hr.
  split; [|lia]. unfold upage, P2V. rewrite PTE_ADDR_spec by lia.
  destruct Ht as (_ & _ & Hr'). unfold KERNBASE, PHYSTOP in *.
  replace (4096 * ((V2P t + fl) / 4096)) with (V2P t) by dlia. rewrite E.
  rewrite u32_small by lia. lia.
Qed.

(** ** Changing some pages only *)

(** Outside the pages [P] the memories agree. *)
Definition frame (P : list Z) (m m' : mem) : Prop :=
  forall b, (forall p, p ∈ P -> b < p \/ p + PGSIZE <= b) -> load8 m' b = load8 m b.

Lemma frame_refl P m : frame P m m.
Proof. done. Qed.

Lemma frame_trans P m m' m'' : frame P m m' -> frame P m' m'' -> frame P m m''.
Proof. intros H1 H2 b Hb. by rewrite H2, H1. Qed.

Lemma frame_mono P P' m m' : P ⊆ P' -> frame P m m' -> frame P' m m'.
Proof. intros HP H1 b Hb. apply H1. auto. Qed.

Lemma frame_store32 p a v m : p <= a -> a + 4 <= p + PGSIZE -> frame [p] m (store32 m a v).
Proof.
  intros Ha Ha' b Hb. apply load8_store32_out. specialize (Hb p (list_elem_of_here _ _)). lia.
Qed.

Lemma frame_memset p c m : frame [p] m (memset m p c PGSIZE).
Proof.
  intros b Hb. specialize (Hb p (list_elem_of_here _ _)).
  rewrite memset_same, memset_load by done. by rewrite decide_False by lia.
Qed.

Lemma frame_freed p m next : frame [p] m (freed m p next).
Proof. intros b Hb. apply load8_freed_out. apply Hb, list_elem_of_here. Qed.

Section frames.
Context (end_ : Z) (P : list Z) (m m' : mem).
Hypothesis HP : forall p, p ∈ P -> page_ok end_ p.
Hypothesis Hfr : frame P m m'.

(** A byte and a word of a page that did not change. *)
Lemma frame_load8 q b : page_ok end_ q -> q ∉ P -> q <= b < q + PGSIZE -> load8 m' b = load8 m b.
Proof.
  intros Hq Hn Hb. apply Hfr. intros p Hp.
  destruct (pages_apart end_ p q) as [?|?]; auto; [by intros ->|lia|lia].
Qed.

Lemma frame_load32 q a :
  page_ok end_ q -> q ∉ P -> q <= a -> a + 4 <= q + PGSIZE -> load32 m' a = load32 m a.
Proof. intros Hq Hn Ha Ha'. apply load32_ext. intros b Hb. apply (frame_load8 q); [done|done|lia]. Qed.

Lemma kmem_ok_frame k l : kmem_ok end_ m k l -> (forall p, p ∈ P -> p ∉ l) -> kmem_ok end_ m' k l.
Proof.
  intros [Hl Hp Hn] Hd. constructor; [|done|done]. eapply linked_ext; [|done].
  intros v Hv. apply (frame_load32 v); [by apply Hp|by intros ?%Hd|lia|unfold PGSIZE; lia].
Qed.
End frames.

(** ** Address spaces *)

(** The directory, the tables by directory index, and the entries present, by
    page number: those below [KERNBASE] and the others. *)
Record vspace : Type := MkVs { v_dir : Z; v_tabs : gmap Z Z; v_user : gmap Z Z; v_kern : gmap Z Z }.

Definition USER_PAGES : Z := 0x80000.
Definition v_entry (v : vspace) (n : Z) : option Z := if n <? USER_PAGES then v_user v !! n else v_kern v !! n.

(** The pages the tables occupy, the pages of the user, and all of them. *)
Definition tpages (v : vspace) : list Z := v_dir v :: (map_to_list (v_tabs v)).*2.
Definition upages (v : vspace) : list Z := upage <$> (map_to_list (v_user v)).*2.
Definition vpages (v : vspace) : list Z := tpages v ++ upages v.

(** [m] holds [v].  An entry of the kernel is closed to the user. *)
Record vs_ok (m : mem) (v : vspace) : Prop := VsOk {
  vo_dir i : 0 <= i < 1024 -> load32 m (v_dir v + 4 * i) = default 0 ((fun t => V2P t + 7) <$> v_tabs v !! i);
  vo_tab i t : v_tabs v !! i = Some t -> 0 <= i < 1024;
  vo_entry i t j : v_tabs v !! i = Some t -> 0 <= j < 1024 ->
    load32 m (t + 4 * j) = default 0 (v_entry v (1024 * i + j));
  vo_user n e : v_user v !! n = Some e ->
    0 <= n < USER_PAGES /\ present e = true /\ 0 <= e < 2 ^ 32 /\ is_Some (v_tabs v !! (n / 1024));
  vo_kern n e : v_kern v !! n = Some e ->
    USER_PAGES <= n < 2 ^ 20 /\ present e = true /\ 0 <= e < 2 ^ 32 /\ Z.land e PTE_U = 0 /\
    is_Some (v_tabs v !! (n / 1024)) }.

Lemma v_entry_tab m v n e : vs_ok m v -> v_entry v n = Some e -> is_Some (v_tabs v !! (n / 1024)) /\ present e = true.
Proof.
  intros [_ _ _ Hu Hk]. unfold v_entry. case_match; intros E.
  - by destruct (Hu _ _ E) as (_ & ? & _ & ?).
  - by destruct (Hk _ _ E) as (_ & ? & _ & _ & ?).
Qed.

Lemma elem_of_tabs v i t : v_tabs v !! i = Some t -> t ∈ tpages v.
Proof.
  intros Ht. apply list_elem_of_further, list_elem_of_fmap. exists (i, t). split; [done|].
  by apply elem_of_map_to_list.
Qed.

Lemma elem_of_upages v n e : v_user v !! n = Some e -> upage e ∈ upages v.
Proof.
  intros He. apply list_elem_of_fmap. exists e. split; [done|]. apply list_elem_of_fmap. exists (n, e).
  split; [done|]. by apply elem_of_map_to_list.
Qed.

Lemma elem_of_upages_inv v p : p ∈ upages v -> exists n e, v_user v !! n = Some e /\ p = upage e.
Proof.
  intros (e & -> & ([n e'] & -> & Hn%elem_of_map_to_list)%list_elem_of_fmap)%list_elem_of_fmap.
  by exists n, e'.
Qed.

Lemma vs_ok_frame end_ P m m' v :
  (forall p, p ∈ P -> page_ok end_ p) -> frame P m m' ->
  (forall p, p ∈ tpages v -> page_ok end_ p /\ p ∉ P) -> vs_ok m v -> vs_ok m' v.
Proof.
  intros HP Hf Ht [Hd Htab He Hu Hk]. constructor; [|done| |done|done].
  - intros i Hi. rewrite <- Hd by done. destruct (Ht (v_dir v)); [apply list_elem_of_here|].
    apply (frame_load32 end_ P _ _ HP Hf (v_dir v)); (done || unfold PGSIZE; lia).
  - intros i t j Hi Hj. rewrite <- (He i t j) by done. destruct (Ht t); [by eapply elem_of_tabs|].
    apply (frame_load32 end_ P _ _ HP Hf t); (done || unfold PGSIZE; lia).
Qed.

(** A new, empty table. *)
Definition add_tab (i t : Z) (v : vspace) : vspace := MkVs (v_dir v) (<[i := t]> (v_tabs v)) (v_user v) (v_kern v).

(** Setting and clearing the entry of a page. *)
Definition put_user (n e : Z) (v : vspace) : vspace := MkVs (v_dir v) (v_tabs v) (<[n := e]> (v_user v)) (v_kern v).
Definition put_kern (n e : Z) (v : vspace) : vspace := MkVs (v_dir v) (v_tabs v) (v_user v) (<[n := e]> (v_kern v)).
Definition del_user (n : Z) (v : vspace) : vspace := MkVs (v_dir v) (v_tabs v) (delete n (v_user v)) (v_kern v).

Lemma tpages_add_tab i t v : v_tabs v !! i = None -> tpages (add_tab i t v) ≡ₚ t :: tpages v.
Proof.
  intros Hi. unfold tpages. simpl. rewrite map_to_list_insert by done. simpl. apply Permutation_swap.
Qed.

Lemma upages_put n e v : v_user v !! n = None -> upages (put_user n e v) ≡ₚ upage e :: upages v.
Proof. intros Hi. unfold upages. simpl. by rewrite map_to_list_insert. Qed.

Lemma upages_del n e v : v_user v !! n = Some e -> upages v ≡ₚ upage e :: upages (del_user n v).
Proof. intros Hi. unfold upages. simpl. by rewrite <- (map_to_list_delete _ _ _ Hi). Qed.

(** Two words of the tables of an address space. *)
Lemma tab_apart end_ t t' j j' :
  page_ok end_ t -> page_ok end_ t' -> 0 <= j < 1024 -> 0 <= j' < 1024 -> t <> t' \/ j <> j' ->
  t + 4 * j + 4 <= t' + 4 * j' \/ t' + 4 * j' + 4 <= t + 4 * j.
Proof.
  intros Ht Ht' Hj Hj' Hne. destruct (decide (t = t')) as [->|Hn]; [lia|].
  destruct (pages_apart end_ t t') as [?|?]; auto; unfold PGSIZE in *; lia.
Qed.

Section vs.
Context (end_ : Z) (m : mem) (v : vspace).
Hypothesis Hv : vs_ok m v.
Hypothesis Hpg : forall p, p ∈ tpages v -> page_ok end_ p.
Hypothesis Hnd : NoDup (tpages v).

Lemma tab_not_dir i t : v_tabs v !! i = Some t -> t <> v_dir v.
Proof.
  intros Hi ->. apply NoDup_cons in Hnd as [Hd _]. apply Hd, list_elem_of_fmap.
  exists (i, v_dir v). split; [done|]. by apply elem_of_map_to_list.
Qed.

Lemma tab_inj i i' t : v_tabs v !! i = Some t -> v_tabs v !! i' = Some t -> i = i'.
Proof.
  intros Hi Hi'. destruct (decide (i = i')) as [|Hne]; [done|]. exfalso.
  apply NoDup_cons in Hnd as [_ Hd].
  rewrite <- (map_to_list_delete _ _ _ Hi) in Hd. simpl in Hd. apply NoDup_cons in Hd as [Hd _].
  apply Hd, list_elem_of_fmap. exists (i', t). split; [done|]. apply elem_of_map_to_list.
  by rewrite lookup_delete_ne.
Qed.

Lemma vs_ok_add_tab i t :
  0 <= i < 1024 -> v_tabs v !! i = None -> page_ok end_ t -> t ∉ tpages v ->
  vs_ok (store32 (memset m t 0 PGSIZE) (v_dir v + 4 * i) (V2P t + 7)) (add_tab i t v).
Proof.
  intros Hi Hn Ht Hnt. destruct (V2P_page _ _ Ht) as (_ & _ & Hr). unfold PHYSTOP in Hr.
  assert (Hd : page_ok end_ (v_dir v)) by apply Hpg, list_elem_of_here.
  assert (Hdt : t <> v_dir v) by (intros ->; apply Hnt, list_elem_of_here).
  assert (Hw : forall q j, page_ok end_ q -> q <> t -> 0 <= j < 1024 ->
    load32 (memset m t 0 PGSIZE) (q + 4 * j) = load32 m (q + 4 * j)).
  { intros q j Hq Hne Hj. apply (frame_load32 end_ [t] _ _) with q; try done; try (unfold PGSIZE; lia).
    - by intros p ->%list_elem_of_singleton.
    - apply frame_memset.
    - by rewrite list_elem_of_singleton. }
  pose proof Hv as [Hdir Htab He Hu Hk]. constructor; simpl.
  - intros i' Hi'. destruct (decide (i' = i)) as [->|Hne].
    + rewrite load32_store32_eq, lookup_insert_eq. simpl. apply u32_small. lia.
    + rewrite load32_store32_ne, Hw, Hdir, lookup_insert_ne by (done || lia). done.
  - intros i' t' [[-> _]|[_ Ht']]%lookup_insert_Some; [done|eauto].
  - intros i' t' j [[-> ->]|[Hne Ht']]%lookup_insert_Some Hj; rewrite load32_store32_ne;
      try (apply (tab_apart end_); eauto using elem_of_tabs, tab_not_dir).
    + change (v_entry (add_tab i' t' v)) with (v_entry v).
      rewrite memset_same, load32_memset_0 by (unfold PGSIZE; lia).
      destruct (v_entry v (1024 * i' + j)) eqn:E; [|done]. exfalso.
      apply (v_entry_tab m) in E as [[? E] _]; [|done].
      replace ((1024 * i' + j) / 1024) with i' in E by dlia. congruence.
    + rewrite Hw; [by apply He|by eapply Hpg, elem_of_tabs| |done].
      intros ->. by eapply Hnt, elem_of_tabs.
  - intros n e E. destruct (Hu n e E) as (? & ? & ? & Hs). do 3 (split; [done|]).
    rewrite lookup_insert_is_Some. destruct (decide (i = n / 1024)); auto.
  - intros n e E. destruct (Hk n e E) as (? & ? & ? & ? & Hs). do 4 (split; [done|]).
    rewrite lookup_insert_is_Some. destruct (decide (i = n / 1024)); auto.
Qed.

(** A table word that changes changes one entry. *)
Lemma vs_ok_store n t e v' :
  0 <= n < 2 ^ 20 -> v_tabs v !! (n / 1024) = Some t -> 0 <= e < 2 ^ 32 ->
  v_dir v' = v_dir v -> v_tabs v' = v_tabs v ->
  (forall n', n' <> n -> v_entry v' n' = v_entry v n') -> default 0 (v_entry v' n) = e ->
  (forall n e, v_user v' !! n = Some e ->
    0 <= n < USER_PAGES /\ present e = true /\ 0 <= e < 2 ^ 32 /\ is_Some (v_tabs v !! (n / 1024))) ->
  (forall n e, v_kern v' !! n = Some e ->
    USER_PAGES <= n < 2 ^ 20 /\ present e = true /\ 0 <= e < 2 ^ 32 /\ Z.land e PTE_U = 0 /\
    is_Some (v_tabs v !! (n / 1024))) ->
  vs_ok (store32 m (t + 4 * (n mod 1024)) e) v'.
Proof.
  intros Hn Ht He Ed Et Ene Een Hu' Hk'. assert (Hj : 0 <= n mod 1024 < 1024) by dlia.
  assert (Hpt : page_ok end_ t) by (by eapply Hpg, elem_of_tabs).
  pose proof Hv as [Hdir Htab Hent _ _].
  constructor; rewrite ?Ed, ?Et; [|done| |done|done].
  - intros i Hi. rewrite load32_store32_ne; [by apply Hdir|].
    apply (tab_apart end_); auto; [apply Hpg, list_elem_of_here|]. left. symmetry. by eapply tab_not_dir.
  - intros i t' j Hi Hj'. destruct (decide (1024 * i + j = n)) as [E|E].
    + assert (i = n / 1024 /\ j = n mod 1024) as [-> ->] by dlia. assert (t' = t) as -> by congruence.
      rewrite load32_store32_eq, E, Een. by apply u32_small.
    + rewrite load32_store32_ne; [rewrite Ene by done; by apply Hent|].
      apply (tab_apart end_); eauto using elem_of_tabs.
      destruct (decide (t' = t)) as [->|]; [|auto]. right. intros ->.
      pose proof (tab_inj _ _ _ Hi Ht). dlia.
Qed.

Lemma vs_ok_put_user n t e :
  0 <= n < USER_PAGES -> v_tabs v !! (n / 1024) = Some t -> present e = true -> 0 <= e < 2 ^ 32 ->
  vs_ok (store32 m (t + 4 * (n mod 1024)) e) (put_user n e v).
Proof.
  intros Hn Ht Hp He. pose proof Hv as [_ _ _ Hu Hk]. apply vs_ok_store; try done; unfold v_entry; simpl.
  - unfold USER_PAGES in Hn. lia.
  - intros n' Hne. case_match; [|done]. by rewrite lookup_insert_ne by done.
  - rewrite (proj2 (Z.ltb_lt n USER_PAGES)) by lia. by rewrite lookup_insert_eq.
  - intros n' e' [[<- <-]|[_ ?]]%lookup_insert_Some; eauto.
Qed.

Lemma vs_ok_del_user n t :
  0 <= n < USER_PAGES -> v_tabs v !! (n / 1024) = Some t ->
  vs_ok (store32 m (t + 4 * (n mod 1024)) 0) (del_user n v).
Proof.
  intros Hn Ht. pose proof Hv as [_ _ _ Hu Hk]. apply vs_ok_store; try done; unfold v_entry; simpl.
  - unfold USER_PAGES in Hn. lia.
  - intros n' Hne. case_match; [|done]. by rewrite lookup_delete_ne by done.
  - rewrite (proj2 (Z.ltb_lt n USER_PAGES)) by lia. by rewrite lookup_delete_eq.
  - intros n' e' [_ ?]%lookup_delete_Some; eauto.
Qed.

Lemma vs_ok_put_kern n t e :
  USER_PAGES <= n < 2 ^ 20 -> v_tabs v !! (n / 1024) = Some t -> present e = true -> 0 <= e < 2 ^ 32 ->
  Z.land e PTE_U = 0 -> vs_ok (store32 m (t + 4 * (n mod 1024)) e) (put_kern n e v).
Proof.
  intros Hn Ht Hp He HU. pose proof Hv as [_ _ _ Hu Hk]. apply vs_ok_store; try done; unfold v_entry; simpl.
  - unfold USER_PAGES in Hn. lia.
  - intros n' Hne. case_match; [done|]. by rewrite lookup_insert_ne by done.
  - rewrite (proj2 (Z.ltb_ge n USER_PAGES)) by lia. by rewrite lookup_insert_eq.
  - intros n' e' [[<- <-]|[_ ?]]%lookup_insert_Some; eauto.
Qed.
End vs.
