(* ===== verification/Xv6Uvm.v ===== *)
(** * Operations on xv6 address spaces

    The routines of [Xv6Vm] on the address spaces of [vs_ok].  Every page is the
    directory, a table or a user page of one address space, or free: each
    routine moves pages between these without losing or sharing one, and
    changes no page but those it moves and the tables. *)

From S2P Require Import Prelude CMem JosString JosPrintfmt Xv6Lock Xv6String Xv6Console Xv6Proc Xv6Sched Xv6World Xv6Kalloc Xv6Vm.
From stdpp Require Import base numbers option list gmap strings.
Open Scope Z_scope.

(** All but the allocator. *)
Definition rest_of {X} (r : vst X) : Z * Z * Z * X := (kpgdir r, cr3 r, esp0 r, vs_rest r).

(** [v] is in memory, [l] are the free pages, and no page is both or twice in
    either. *)
Record vinv {X} (end_ : Z) (m : mem) (r : vst X) (v : vspace) (l : list Z) : Prop := VInv {
  vi_mem : mem_ok m;
  vi_vs : vs_ok m v;
  vi_kmem : kmem_ok end_ m (kmem_of r) l;
  vi_pages p : p ∈ vpages v -> page_ok end_ p;
  vi_nodup : NoDup (vpages v ++ l) }.

(** The same mappings, perhaps with more tables. *)
Definition same_maps (v v' : vspace) : Prop :=
  v_dir v' = v_dir v /\ v_user v' = v_user v /\ v_kern v' = v_kern v /\ v_tabs v ⊆ v_tabs v'.

Section uvm.
Context {X : Type} (o : option nat) (pd : Z) (end_ : Z) (H : list nat).
Hypothesis Hend : KERNBASE < end_.
Hypothesis HH : kmem_lock ∉ H.
Notation MX := (M (xst (vst X))).
Implicit Types (m : mem) (r : vst X) (v : vspace) (l : list Z).

(** Total correctness of a routine that leaves the locks and the other
    components alone. *)
Definition wpv {A} m r (k : MX A) (Q : A -> mem -> vst X -> Prop) : Prop :=
  wpm o pd H m r k (fun a H' m' r' => H' = H /\ rest_of r' = rest_of r /\ Q a m' r').

Lemma wpv_ret {A} (a : A) m r (Q : A -> mem -> vst X -> Prop) : Q a m r -> wpv m r (mret a) Q.
Proof. intros HQ. by apply wpm_ret. Qed.

Lemma wpv_ret_bind {A B} (a : A) (f : A -> MX B) m r Q : wpv m r (f a) Q -> wpv m r (mret a ≫= f) Q.
Proof. done. Qed.

Lemma wpv_bind {A B} (k : MX A) (f : A -> MX B) m r Q1 Q :
  wpv m r k Q1 -> (forall a m' r', Q1 a m' r' -> wpv m' r' (f a) Q) -> wpv m r (k ≫= f) Q.
Proof.
  intros Hk Hf. eapply wpm_bind; [exact Hk|]. intros a H' m' r' (-> & Er & HQ).
  eapply wpm_mono; [by apply Hf|]. intros b H' m2 r2 (-> & Er' & HQ'). split_and!; try done. congruence.
Qed.

Lemma wpv_assoc {A B C} (k : MX A) (f : A -> MX B) (g : B -> MX C) m r Q :
  wpv m r ((k ≫= f) ≫= g) Q <-> wpv m r (k ≫= fun a => f a ≫= g) Q.
Proof.
  split; intros Hk s Hw Hm Hr; specialize (Hk s Hw Hm Hr); unfold wp, mbind, M_bind in *; by destruct (k s).
Qed.

Lemma wpv_mono {A} (k : MX A) m r (Q Q' : A -> mem -> vst X -> Prop) :
  wpv m r k Q -> (forall a m' r', Q a m' r' -> Q' a m' r') -> wpv m r k Q'.
Proof. intros Hk HQ. eapply wpm_mono; [exact Hk|]. intros a H' m' r' (-> & Er & ?). auto. Qed.

Lemma wpv_load a m r : wpv m r (mload a) (fun x m' r' => x = load32 m a /\ m' = m /\ r' = r).
Proof. eapply wpm_mono; [apply wpm_load32|]. by intros ? ? ? ? (-> & -> & -> & ->). Qed.

Lemma wpv_memupd f m r : wpv m r (memupd f) (fun _ m' r' => m' = f m /\ r' = r).
Proof. eapply wpm_mono; [apply wpm_memupd|]. by intros ? ? ? ? (-> & -> & ->). Qed.

Lemma wpv_store a x m r : wpv m r (mstore a x) (fun _ m' r' => m' = store32 m a x /\ r' = r).
Proof. apply wpv_memupd. Qed.

Lemma rest_set_kmem k r : rest_of (set_kmem k r) = rest_of r.
Proof. by destruct r. Qed.

Lemma wpv_kalloc m r l :
  kmem_ok end_ m (kmem_of r) l ->
  wpv m r kalloc (fun a m' r' => a = default 0 (head l) /\ m' = m /\ kmem_ok end_ m (kmem_of r') (tail l)).
Proof.
  intros Hk. eapply wpm_mono; [by apply (wpm_kalloc o pd end_)|].
  intros a H' m' r' (-> & -> & -> & Hk' & _ & Hr). split_and!; try done.
  destruct Hr as [->|[k ->]]; [done|]. apply rest_set_kmem.
Qed.

Lemma wpv_kfree p m r l :
  mem_ok m -> kmem_ok end_ m (kmem_of r) l -> page_ok end_ p -> p ∉ l ->
  wpv m r (kfree end_ p) (fun _ m' r' => kmem_ok end_ m' (kmem_of r') (p :: l) /\ mem_ok m' /\ frame [p] m m').
Proof.
  intros Hm Hk Hp Hl. eapply wpm_mono; [by apply (wpm_kfree o pd end_)|].
  intros a H' m' r' (-> & Hk' & _ & -> & [k ->]). split_and!; try done.
  - unfold freed. apply mem_ok_store32. rewrite memset_same by done. by apply mem_ok_memset.
  - apply frame_freed.
Qed.

Notation vinv := (vinv end_).

(** ** [walkpgdir] *)

Lemma vinv_pages m r v l p : vinv m r v l -> p ∈ vpages v ++ l -> page_ok end_ p.
Proof.
  intros Hv [Hp|Hp]%elem_of_app; [by eapply vi_pages|]. exact (km_pages _ _ _ _ (vi_kmem _ _ _ _ _ Hv) p Hp).
Qed.

Lemma vinv_tpages m r v l : vinv m r v l -> (forall p, p ∈ tpages v -> page_ok end_ p) /\ NoDup (tpages v).
Proof.
  intros Hv. split.
  - intros p Hp. eapply vi_pages; [done|]. apply elem_of_app. by left.
  - pose proof (vi_nodup _ _ _ _ _ Hv) as Hn. unfold vpages in Hn. by apply NoDup_app in Hn as [[Hn _]%NoDup_app _].
Qed.

Lemma wpv_walk_some m r v l va t b :
  vinv m r v l -> 0 <= va < 2 ^ 32 -> v_tabs v !! (va / 4096 / 1024) = Some t ->
  wpv m r (walkpgdir (v_dir v) va b) (fun a m' r' =>
    a = t + 4 * (va / 4096 mod 1024) /\ m' = m /\ r' = r).
Proof.
  intros Hv Hva Ht. unfold walkpgdir. rewrite PDX_spec, PTX_spec by done.
  eapply wpv_bind; [apply wpv_load|]. intros e ? ? (-> & -> & ->).
  rewrite (vo_dir _ _ (vi_vs _ _ _ _ _ Hv)) by dlia. rewrite Ht. simpl.
  assert (Hpt : page_ok end_ t) by (by eapply vinv_tpages, elem_of_tabs).
  destruct (upage_entry _ _ 7 Hpt) as [Eu _]; [lia|]. destruct (V2P_page _ _ Hpt) as (_ & Hm & _).
  rewrite present_spec. replace (Z.odd (V2P t + 7)) with true.
  2:{ rewrite Z.odd_add. rewrite Zodd_mod. simpl. assert (V2P t mod 2 = 0) as -> by dlia. done. }
  apply wpv_ret. split; [|done]. by rewrite <- Eu at 2.
Qed.

Lemma wpv_walk_none m r v l va :
  vinv m r v l -> 0 <= va < 2 ^ 32 -> v_tabs v !! (va / 4096 / 1024) = None ->
  wpv m r (walkpgdir (v_dir v) va false) (fun a m' r' => a = 0 /\ m' = m /\ r' = r).
Proof.
  intros Hv Hva Ht. unfold walkpgdir. rewrite PDX_spec by done.
  eapply wpv_bind; [apply wpv_load|]. intros e ? ? (-> & -> & ->).
  rewrite (vo_dir _ _ (vi_vs _ _ _ _ _ Hv)) by dlia. rewrite Ht. by apply wpv_ret.
Qed.

(** A page table is taken from the free list. *)
Lemma vinv_add_tab m r r' v t l i :
  vinv m r v (t :: l) -> kmem_ok end_ m (kmem_of r') l -> 0 <= i < 1024 -> v_tabs v !! i = None ->
  let m' := store32 (memset m t 0 PGSIZE) (v_dir v + 4 * i) (V2P t + 7) in
  vinv m' r' (add_tab i t v) l /\ vpages (add_tab i t v) ++ l ≡ₚ vpages v ++ t :: l /\
  frame (tpages (add_tab i t v)) m m'.
Proof.
  intros Hv Hk Hi Hn m'. destruct (vinv_tpages _ _ _ _ Hv) as [Htp Hnd].
  assert (Ht : page_ok end_ t) by (eapply vinv_pages; [done|]; set_solver).
  assert (HP : vpages (add_tab i t v) ++ l ≡ₚ vpages v ++ t :: l).
  { unfold vpages. rewrite tpages_add_tab by done. change (upages (add_tab i t v)) with (upages v).
    simpl. solve_Permutation. }
  assert (Hnd' : NoDup (vpages (add_tab i t v) ++ l)) by (rewrite HP; by eapply vi_nodup).
  assert (Hfr : frame (tpages (add_tab i t v)) m m').
  { apply frame_trans with (memset m t 0 PGSIZE).
    - apply (frame_mono [t]); [|apply frame_memset]. rewrite tpages_add_tab by done. set_solver.
    - apply (frame_mono [v_dir v]); [|apply frame_store32; unfold PGSIZE; lia].
      intros p ->%list_elem_of_singleton. apply list_elem_of_here. }
  split; [|done]. constructor; [| | | |done].
  - apply mem_ok_store32. rewrite memset_same by done. by eapply mem_ok_memset, vi_mem.
  - apply vs_ok_add_tab with end_; try done; [by eapply vi_vs|].
    pose proof (vi_nodup _ _ _ _ _ Hv) as (_ & Hd & _)%NoDup_app. intros Hin. apply (Hd t); [|set_solver].
    apply elem_of_app. by left.
  - eapply kmem_ok_frame; [|exact Hfr|done|].
    + intros p Hp. rewrite tpages_add_tab in Hp by done. apply elem_of_cons in Hp as [->|Hp]; auto.
    + intros p Hp. apply NoDup_app in Hnd' as (_ & Hd & _). apply Hd, elem_of_app. by left.
  - intros p Hp. eapply vinv_pages; [exact Hv|]. rewrite <- HP. apply elem_of_app. by left.
Qed.

Lemma wpv_walk_alloc m r v l va :
  vinv m r v l -> 0 <= va < 2 ^ 32 ->
  wpv m r (walkpgdir (v_dir v) va true) (fun a m' r' =>
    (a = 0 /\ l = [] /\ m' = m /\ vinv m r' v []) \/
    exists v' l' t, v_tabs v' !! (va / 4096 / 1024) = Some t /\ a = t + 4 * (va / 4096 mod 1024) /\
      same_maps v v' /\ vinv m' r' v' l' /\ vpages v' ++ l' ≡ₚ vpages v ++ l /\ frame (tpages v') m m').
Proof.
  intros Hv Hva. destruct (v_tabs v !! (va / 4096 / 1024)) as [t|] eqn:Et.
  { eapply wpv_mono; [by eapply wpv_walk_some|]. intros a m' r' (-> & -> & ->). right. by exists v, l, t. }
  unfold walkpgdir. rewrite PDX_spec, PTX_spec by done.
  eapply wpv_bind; [apply wpv_load|]. intros e ? ? (-> & -> & ->).
  rewrite (vo_dir _ _ (vi_vs _ _ _ _ _ Hv)) by dlia. rewrite Et. simpl.
  eapply wpv_bind; [eapply wpv_kalloc, vi_kmem, Hv|]. intros t ? r' (-> & -> & Hk).
  destruct l as [|t l]; simpl in *.
  - apply wpv_ret. left. split_and!; try done. destruct Hv. by constructor.
  - assert (Hpt : page_ok end_ t) by (eapply vinv_pages; [done|]; set_solver).
    destruct (Z.eqb_spec t 0) as [->|_]; [destruct Hpt as (_ & ? & _); unfold KERNBASE in *; lia|].
    destruct (V2P_page _ _ Hpt) as (_ & Hm & _).
    eapply wpv_bind; [apply wpv_memupd|]. intros _ ? ? (-> & ->).
    eapply wpv_bind; [apply wpv_store|]. intros _ ? ? (-> & ->). apply wpv_ret. right.
    rewrite <- !Z.lor_assoc, (lor_entry _ (Z.lor _ _)) by (done || by vm_compute).
    change (Z.lor PTE_P (Z.lor PTE_W PTE_U)) with 7.
    destruct (vinv_add_tab m r r' v t l (va / 4096 / 1024) Hv Hk) as (Hv' & HP & Hf); [dlia|done|].
    exists (add_tab (va / 4096 / 1024) t v), l, t. split; [apply lookup_insert_eq|]. split; [done|].
    split; [split_and!; try done; by apply insert_subseteq|]. done.
Qed.

(** ** [mappages] *)

Lemma same_maps_entry v v' n : same_maps v v' -> v_entry v' n = v_entry v n.
Proof. intros (_ & Eu & Ek & _). unfold v_entry. by rewrite Eu, Ek. Qed.

(** A write to the tables. *)
Lemma vinv_tables m r v l n t e v' :
  vinv m r v l -> v_tabs v !! (n / 1024) = Some t -> vs_ok (store32 m (t + 4 * (n mod 1024)) e) v' ->
  (forall p, p ∈ vpages v' -> page_ok end_ p) -> NoDup (vpages v' ++ l) ->
  v_dir v' = v_dir v -> v_tabs v' = v_tabs v ->
  vinv (store32 m (t + 4 * (n mod 1024)) e) r v' l /\
  frame (tpages v') m (store32 m (t + 4 * (n mod 1024)) e).
Proof.
  intros Hv Ht Hs Hp Hn Ed Et.
  assert (Htp : tpages v' = tpages v) by (unfold tpages; by rewrite Ed, Et).
  assert (Hin : t ∈ tpages v') by (rewrite Htp; by eapply elem_of_tabs).
  assert (Hj : 0 <= n mod 1024 < 1024) by dlia.
  assert (Hfr : frame (tpages v') m (store32 m (t + 4 * (n mod 1024)) e)).
  { apply (frame_mono [t]); [by intros p ->%list_elem_of_singleton|].
    apply frame_store32; unfold PGSIZE; lia. }
  split; [|done]. constructor; try done; [by eapply mem_ok_store32, vi_mem|].
  eapply kmem_ok_frame; [|exact Hfr|by eapply vi_kmem|].
  - rewrite Htp. by eapply vinv_tpages.
  - intros p Hp'. apply NoDup_app in Hn as (_ & Hd & _). apply Hd, elem_of_app. by left.
Qed.

Lemma vinv_put_user m r v l n t p fl :
  vinv m r v l -> v_tabs v !! (n / 1024) = Some t -> 0 <= n < USER_PAGES -> v_user v !! n = None ->
  page_ok end_ p -> p ∉ vpages v ++ l -> 0 <= fl < 4096 -> Z.odd fl = true ->
  let m' := store32 m (t + 4 * (n mod 1024)) (V2P p + fl) in
  let v' := put_user n (V2P p + fl) v in
  vinv m' r v' l /\ vpages v' ++ l ≡ₚ p :: vpages v ++ l /\ frame (tpages v') m m'.
Proof.
  intros Hv Ht Hn Hnone Hp Hnew Hf Ho m' v'. destruct (vinv_tpages _ _ _ _ Hv) as [Htp Hnd].
  destruct (upage_entry _ _ fl Hp Hf) as [Eu Hr]. destruct (V2P_page _ _ Hp) as (_ & Hm & _).
  assert (HP : vpages v' ++ l ≡ₚ p :: vpages v ++ l).
  { unfold vpages. change (tpages v') with (tpages v). unfold v'. rewrite upages_put, Eu by done.
    solve_Permutation. }
  assert (vinv m' r v' l /\ frame (tpages v') m m') as [? ?]; [|done].
  apply (vinv_tables m r v l); try done.
  - apply vs_ok_put_user with end_; try done; [by eapply vi_vs|].
    rewrite present_spec, Z.odd_add, Ho, Zodd_mod. by replace (V2P p mod 2) with 0 by dlia.
  - intros q Hq. assert (Hq' : q ∈ p :: vpages v ++ l) by (rewrite <- HP; set_solver).
    apply elem_of_cons in Hq' as [->|Hq']; [done|]. by eapply vinv_pages.
  - rewrite HP. constructor; [done|by eapply vi_nodup].
Qed.

Lemma vinv_put_kern m r v l n t e :
  vinv m r v l -> v_tabs v !! (n / 1024) = Some t -> USER_PAGES <= n < 2 ^ 20 ->
  0 <= e < 2 ^ 32 -> present e = true -> Z.land e PTE_U = 0 ->
  let m' := store32 m (t + 4 * (n mod 1024)) e in
  vinv m' r (put_kern n e v) l /\ frame (tpages v) m m'.
Proof.
  intros Hv Ht Hn He Hp HU m'. destruct (vinv_tpages _ _ _ _ Hv) as [Htp Hnd].
  apply (vinv_tables m r v l n t e (put_kern n e v)); try done.
  - apply vs_ok_put_kern with end_; try done. by eapply vi_vs.
  - exact (vi_pages _ _ _ _ _ Hv).
  - exact (vi_nodup _ _ _ _ _ Hv).
Qed.

Lemma same_maps_pages v v' : v_dir v' = v_dir v -> v_tabs v ⊆ v_tabs v' -> tpages v ⊆ tpages v'.
Proof.
  intros Ed Hs p. unfold tpages. rewrite Ed, !elem_of_cons.
  intros [->|([i t] & -> & Hi)%list_elem_of_fmap]; [by left|]. right. apply list_elem_of_fmap.
  exists (i, t). split; [done|]. apply elem_of_map_to_list. apply elem_of_map_to_list in Hi.
  by eapply lookup_weaken.
Qed.

(** One page, for the user: mapped, or the memory is exhausted and nothing
    changed. *)
Lemma wpv_map_user m r v l n p fl :
  vinv m r v l -> 0 <= n < USER_PAGES -> v_user v !! n = None ->
  page_ok end_ p -> p ∉ vpages v ++ l -> 0 <= fl < 4096 ->
  wpv m r (mappages (v_dir v) (4096 * n) PGSIZE (V2P p) fl) (fun a m' r' =>
    (a = -1 /\ l = [] /\ m' = m /\ vinv m r' v []) \/
    exists v' l', a = 0 /\ v_dir v' = v_dir v /\ v_user v' = <[n := V2P p + Z.lor fl 1]> (v_user v) /\
      v_kern v' = v_kern v /\ vinv m' r' v' l' /\ vpages v' ++ l' ≡ₚ p :: vpages v ++ l /\
      frame (tpages v') m m').
Proof.
  intros Hv Hn Hnone Hp Hnew Hf. unfold USER_PAGES in Hn. unfold mappages.
  rewrite (u32_small (4096 * n + PGSIZE - 1)), !PGROUNDDOWN_spec by (unfold PGSIZE; lia).
  replace (4096 * ((4096 * n + PGSIZE - 1) / 4096)) with (4096 * n) by (unfold PGSIZE; dlia).
  replace (4096 * (4096 * n / 4096)) with (4096 * n) by dlia.
  rewrite Z.sub_diag. change (Z.to_nat (u32 0 / PGSIZE)) with O. cbn [map_loop].
  eapply wpv_bind; [by eapply wpv_walk_alloc; [|lia]|].
  replace (4096 * n / 4096) with n by dlia.
  intros pte m' r' [(-> & -> & -> & Hv')|(v' & l' & t & Ht & -> & Hs & Hv' & HP & Hfr)].
  { apply wpv_ret. by left. }
  assert (Hpt : page_ok end_ t) by (by eapply vinv_tpages, elem_of_tabs).
  destruct (Z.eqb_spec (t + 4 * (n mod 1024)) 0) as [E|_];
    [destruct Hpt as (_ & ? & _); unfold KERNBASE in *; dlia|].
  eapply wpv_bind; [apply wpv_load|]. intros e ? ? (-> & -> & ->).
  rewrite (vo_entry _ _ (vi_vs _ _ _ _ _ Hv') _ t) by (done || dlia).
  replace (1024 * (n / 1024) + n mod 1024) with n by dlia. rewrite (same_maps_entry v) by done.
  unfold v_entry. rewrite (proj2 (Z.ltb_lt n USER_PAGES)), Hnone by (unfold USER_PAGES; lia). simpl.
  eapply wpv_bind; [apply wpv_store|]. intros _ ? ? (-> & ->). apply wpv_ret. right.
  destruct (V2P_page _ _ Hp) as (_ & Hm & _).
  assert (Hf1 : 0 <= Z.lor fl 1 < 4096) by (apply (lor_range 12); lia).
  change PTE_P with 1. rewrite <- Z.lor_assoc, (lor_entry _ (Z.lor fl 1)) by done.
  destruct Hs as (Ed & Eu & Ek & Hst).
  destruct (vinv_put_user m' r' v' l' n t p (Z.lor fl 1)) as (H1 & H2 & H3); try done.
  - by rewrite Eu.
  - by rewrite HP.
  - rewrite <- Z.bit0_odd, Z.lor_spec. by rewrite orb_true_r.
  - exists (put_user n (V2P p + Z.lor fl 1) v'), l'. simpl. rewrite Eu. split_and!; try done.
    + by rewrite H2, HP.
    + by eapply frame_trans.
Qed.

(** A run of kernel pages. *)
Definition kmapped v v' n0 k pa fl : Prop :=
  forall n, v_kern v' !! n =
    if decide (n0 <= n <= n0 + Z.of_nat k) then Some (pa + 4096 * (n - n0) + fl) else v_kern v !! n.

Lemma kern_entry pa perm :
  pa mod 4096 = 0 -> 0 <= pa < 2 ^ 32 -> perm = 0 \/ perm = PTE_W ->
  let e := pa + (perm + 1) in
  Z.lor (Z.lor pa perm) PTE_P = e /\ 0 <= e < 2 ^ 32 /\ present e = true /\ Z.land e PTE_U = 0.
Proof.
  intros Hm Hr Hp e. unfold PTE_W, PTE_P, PTE_U, e in *.
  assert (Hl : Z.lor (Z.lor pa perm) 1 = pa + (perm + 1)).
  { rewrite <- Z.lor_assoc. destruct Hp as [-> | ->]; by rewrite (lor_entry _ (Z.lor _ _)). }
  split; [done|]. split; [dlia|]. split.
  - rewrite present_spec. destruct Hp as [-> | ->]; rewrite Z.odd_add, Zodd_mod;
      by replace (pa mod 2) with 0 by dlia.
  - rewrite <- Hl, !Z.land_lor_distr_l. rewrite (land_low_disjoint pa 4 12) by done.
    by destruct Hp as [-> | ->].
Qed.

(** The body of the loop of [mappages] on a kernel page; [K] is what follows. *)
Lemma wpv_map_kern1 m r v l n0 pa perm (K : MX Z) Q :
  vinv m r v l -> USER_PAGES <= n0 < 2 ^ 20 -> pa mod 4096 = 0 -> 0 <= pa < 2 ^ 32 ->
  perm = 0 \/ perm = PTE_W -> v_kern v !! n0 = None ->
  (forall r1, l = [] -> vinv m r1 v [] -> Q (-1) m r1) ->
  (forall m1 r1 v1 l1, vinv m1 r1 v1 l1 -> v_dir v1 = v_dir v -> v_user v1 = v_user v ->
    v_tabs v ⊆ v_tabs v1 -> v_kern v1 = <[n0 := pa + (perm + 1)]> (v_kern v) ->
    vpages v1 ++ l1 ≡ₚ vpages v ++ l -> frame (tpages v1) m m1 -> wpv m1 r1 K Q) ->
  wpv m r (pte ← walkpgdir (v_dir v) (4096 * n0) true;
           if pte =? 0 then mret (-1)
           else e ← mload pte;
                if present e then panic "remap" else mstore pte (Z.lor (Z.lor pa perm) PTE_P);; K) Q.
Proof.
  intros Hv Hn Hpm Hpa Hperm Hnone HQ HK. unfold USER_PAGES in Hn.
  eapply wpv_bind; [by eapply wpv_walk_alloc; [|lia]|].
  replace (4096 * n0 / 4096) with n0 by dlia.
  intros pte m1 r1 [(-> & -> & -> & Hv1)|(v1 & l1 & t & Ht & -> & Hs & Hv1 & HP & Hfr)];
    [apply wpv_ret; by apply HQ|].
  assert (Hpt : page_ok end_ t) by (by eapply vinv_tpages, elem_of_tabs).
  destruct (Z.eqb_spec (t + 4 * (n0 mod 1024)) 0) as [E|_];
    [destruct Hpt as (_ & ? & _); unfold KERNBASE in *; dlia|].
  eapply wpv_bind; [apply wpv_load|]. intros e ? ? (-> & -> & ->).
  rewrite (vo_entry _ _ (vi_vs _ _ _ _ _ Hv1) _ t) by (done || dlia).
  replace (1024 * (n0 / 1024) + n0 mod 1024) with n0 by dlia. rewrite (same_maps_entry v) by done.
  unfold v_entry. rewrite (proj2 (Z.ltb_ge n0 USER_PAGES)), Hnone by (unfold USER_PAGES; lia). simpl.
  eapply wpv_bind; [apply wpv_store|]. intros _ ? ? (-> & ->).
  destruct (kern_entry pa perm Hpm Hpa Hperm) as (-> & He & Hpr & HU).
  destruct (vinv_put_kern m1 r1 v1 l1 n0 t _ Hv1 Ht ltac:(unfold USER_PAGES; lia) He Hpr HU) as [Hv2 Hf2].
  destruct Hs as (Ed & Eu & Ek & Hst). apply (HK _ _ _ _ Hv2); try done; [by simpl; rewrite Ek|].
  by eapply frame_trans.
Qed.

Lemma wpv_map_kern k m r v l n0 pa perm :
  vinv m r v l -> USER_PAGES <= n0 -> n0 + Z.of_nat k < 2 ^ 20 ->
  pa mod 4096 = 0 -> 0 <= pa -> pa + 4096 * Z.of_nat k < 2 ^ 32 -> perm = 0 \/ perm = PTE_W ->
  (forall n, n0 <= n <= n0 + Z.of_nat k -> v_kern v !! n = None) ->
  wpv m r (map_loop k (v_dir v) (4096 * n0) pa perm) (fun a m' r' => exists v' l',
    vinv m' r' v' l' /\ v_dir v' = v_dir v /\ v_user v' = v_user v /\ v_tabs v ⊆ v_tabs v' /\
    vpages v' ++ l' ≡ₚ vpages v ++ l /\ frame (tpages v') m m' /\
    (a = 0 /\ kmapped v v' n0 k pa (perm + 1) \/ a = -1 /\ l' = [])).
Proof.
  revert m r v l n0 pa. induction k as [|k IH]; intros m r v l n0 pa Hv Hn Hnk Hpm Hpa Hpk Hperm Hnone;
    cbn [map_loop]; (eapply wpv_map_kern1; [exact Hv|lia|done|lia|done|apply Hnone; lia|
      intros r1 -> Hv1; exists v, []; do 6 (split; [done|]); by right|]);
    intros m1 r1 v1 l1 Hv1 Ed Eu Hst Ek HP Hfr.
  - apply wpv_ret. exists v1, l1. do 6 (split; [done|]). left. split; [done|]. intros n. rewrite Ek.
    case_decide; [assert (n = n0) as -> by lia; rewrite lookup_insert_eq; f_equal; lia|].
    apply lookup_insert_ne. lia.
  - rewrite (u32_small (4096 * n0 + PGSIZE)), (u32_small (pa + PGSIZE)) by (unfold USER_PAGES, PGSIZE in *; lia).
    replace (4096 * n0 + PGSIZE) with (4096 * (n0 + 1)) by (unfold PGSIZE; lia). rewrite <- Ed.
    eapply wpv_mono; [apply (IH _ _ _ _ _ _ Hv1)|]; try done; try (unfold USER_PAGES, PGSIZE in *; lia).
    { unfold PGSIZE. dlia. }
    { intros n Hn'. rewrite Ek, lookup_insert_ne by lia. apply Hnone. lia. }
    intros a m' r' (v' & l' & Hv' & Ed' & Eu' & Ht' & HP' & Hf' & Hres).
    exists v', l'. split; [done|]. split; [congruence|]. split; [congruence|].
    split; [by etransitivity|]. split; [by rewrite HP'|]. split.
    { eapply frame_trans; [|exact Hf']. eapply frame_mono; [by apply same_maps_pages|done]. }
    destruct Hres as [[-> Hk]|?]; [left|by right]. split; [done|]. intros n. rewrite Hk, Ek.
    unfold PGSIZE. repeat case_decide; try lia; [f_equal; lia| |apply lookup_insert_ne; lia].
    assert (n = n0) as -> by lia. rewrite lookup_insert_eq. f_equal. lia.
Qed.

(** ** [deallocuvm] *)

(** [v'] is [v] without the user pages from [c] to [oldsz], and with the same
    tables. *)
Definition shrunk v v' c oldsz : Prop :=
  v_dir v' = v_dir v /\ v_kern v' = v_kern v /\
  forall n, v_user v' !! n = if decide (c <= n /\ 4096 * n < oldsz) then None else v_user v !! n.
Definition unmapped v v' c oldsz : Prop :=
  v_dir v' = v_dir v /\ v_tabs v' = v_tabs v /\ v_kern v' = v_kern v /\
  forall n, v_user v' !! n = if decide (c <= n /\ 4096 * n < oldsz) then None else v_user v !! n.

Lemma unmapped_shrunk v v' c oldsz : unmapped v v' c oldsz -> shrunk v v' c oldsz.
Proof. by intros (? & _ & ? & ?). Qed.

Lemma vinv_user m r v l n e :
  vinv m r v l -> v_user v !! n = Some e -> page_ok end_ (upage e) /\ upage e ∉ tpages v /\ upage e ∉ l.
Proof.
  intros Hv He. assert (Hin : upage e ∈ upages v) by (by eapply elem_of_upages).
  pose proof (vi_nodup _ _ _ _ _ Hv) as (Hn & Hd & _)%NoDup_app. apply NoDup_app in Hn as (_ & Hd' & _).
  split; [eapply vi_pages; [done|]; apply elem_of_app; by right|]. split; [by intros ?%Hd'|].
  apply Hd, elem_of_app. by right.
Qed.

(** The page of an entry is freed before the entry is cleared. *)
Lemma wpv_free_user m r v l n e t :
  vinv m r v l -> v_user v !! n = Some e -> v_tabs v !! (n / 1024) = Some t ->
  wpv m r (kfree end_ (upage e);; mstore (t + 4 * (n mod 1024)) 0) (fun _ m' r' =>
    vinv m' r' (del_user n v) (upage e :: l) /\
    vpages (del_user n v) ++ upage e :: l ≡ₚ vpages v ++ l /\ frame (upage e :: tpages v) m m').
Proof.
  intros Hv He Ht. destruct (vinv_user _ _ _ _ _ _ Hv He) as (Hp & Hnt & Hnl).
  destruct (vinv_tpages _ _ _ _ Hv) as [Htp Hnd]. pose proof (vi_vs _ _ _ _ _ Hv) as Hs.
  eapply wpv_bind; [apply wpv_kfree; [by eapply vi_mem|by eapply vi_kmem|done|done]|].
  intros _ m1 r1 (Hk1 & Hm1 & Hf1). eapply wpv_mono; [apply wpv_store|]. intros _ m2 r2 (-> & ->).
  assert (HP : vpages (del_user n v) ++ upage e :: l ≡ₚ vpages v ++ l).
  { unfold vpages. change (tpages (del_user n v)) with (tpages v). rewrite (upages_del n e v He).
    solve_Permutation. }
  assert (Hf2 : frame [t] m1 (store32 m1 (t + 4 * (n mod 1024)) 0))
    by (apply frame_store32; unfold PGSIZE; dlia).
  assert (Hin : t ∈ tpages v) by (by eapply elem_of_tabs). split; [|split; [done|]].
  - constructor; [by apply mem_ok_store32| | | |].
    + apply vs_ok_del_user with end_; try done; [|by apply (vo_user _ _ Hs n e)].
      eapply (vs_ok_frame end_ [upage e]); [by intros p ->%list_elem_of_singleton|done| |done].
      intros p Hp'. split; [by apply Htp|]. intros ->%list_elem_of_singleton. done.
    + eapply kmem_ok_frame; [|exact Hf2|done|]; intros p ->%list_elem_of_singleton; [by apply Htp|].
      rewrite not_elem_of_cons. split; [by intros ->|]. intros Hl.
      pose proof (vi_nodup _ _ _ _ _ Hv) as (_ & Hd & _)%NoDup_app. apply (Hd t); [|done].
      apply elem_of_app. by left.
    + intros p Hp'. eapply vinv_pages; [exact Hv|]. rewrite <- HP. apply elem_of_app. by left.
    + rewrite HP. by eapply vi_nodup.
  - eapply frame_trans; [eapply (frame_mono [upage e]); [set_solver|exact Hf1]|].
    eapply (frame_mono [t]); [set_solver|exact Hf2].
Qed.

Lemma upage_nonzero e : page_ok end_ (upage e) -> PTE_ADDR e <> 0.
Proof. intros (_ & He & _) E. unfold upage in He. rewrite E in He. change (P2V 0) with KERNBASE in He. lia. Qed.

(** One iteration went from page [c] to page [c1]. *)
Lemma unmapped_next v v1 v' c c1 oldsz :
  v_dir v1 = v_dir v -> v_tabs v1 = v_tabs v -> v_kern v1 = v_kern v -> c <= c1 ->
  (forall n, c <= n < c1 -> v_user v1 !! n = None /\ (4096 * n < oldsz \/ v_user v !! n = None)) ->
  (forall n, n < c \/ c1 <= n -> v_user v1 !! n = v_user v !! n) ->
  unmapped v1 v' c1 oldsz -> unmapped v v' c oldsz.
Proof.
  intros Ed Et Ek Hc Hin Hout (Ed' & Et' & Ek' & Eu). split_and!; try congruence.
  intros n. rewrite Eu. destruct (decide (c <= n < c1)) as [Hn|Hn].
  - destruct (Hin n Hn) as [E1 E2]. rewrite E1. repeat case_decide; try done; destruct E2 as [|E2]; (by rewrite E2) || lia.
  - rewrite Hout by lia. repeat case_decide; done || lia.
Qed.

(** Page [c] has a table. *)
Lemma wpv_dealloc_page m r v l c t :
  vinv m r v l -> 0 <= c < USER_PAGES -> v_tabs v !! (c / 1024) = Some t ->
  wpv m r (e ← mload (t + 4 * (c mod 1024));
           if present e then
             let pa := PTE_ADDR e in
             if pa =? 0 then panic "kfree" else kfree end_ (P2V pa);; mstore (t + 4 * (c mod 1024)) 0
           else mret tt) (fun _ m' r' => exists l',
    vinv m' r' (del_user c v) l' /\ vpages (del_user c v) ++ l' ≡ₚ vpages v ++ l /\ l ⊆ l' /\
    frame (tpages v ++ l') m m').
Proof.
  intros Hv Hc Et. eapply wpv_bind; [apply wpv_load|]. intros e ? ? (-> & -> & ->).
  rewrite (vo_entry _ _ (vi_vs _ _ _ _ _ Hv) _ t) by (done || dlia).
  replace (1024 * (c / 1024) + c mod 1024) with c by dlia. unfold v_entry.
  rewrite (proj2 (Z.ltb_lt c USER_PAGES)) by lia. destruct (v_user v !! c) as [e|] eqn:Ee; simpl default.
  - destruct (vo_user _ _ (vi_vs _ _ _ _ _ Hv) c e Ee) as (_ & Hpr & _ & _). rewrite Hpr.
    destruct (vinv_user _ _ _ _ _ _ Hv Ee) as (Hpe & Hnt & Hnl).
    cbv zeta. rewrite (proj2 (Z.eqb_neq (PTE_ADDR e) 0)) by (by apply upage_nonzero). fold (upage e).
    eapply wpv_mono; [by eapply wpv_free_user|]. intros _ m1 r1 (Hv1 & HP1 & Hf1).
    exists (upage e :: l). do 2 (split; [done|]). split; [set_solver|].
    eapply frame_mono; [|exact Hf1]. set_solver.
  - apply wpv_ret. exists l. assert (del_user c v = v) as -> by (destruct v; unfold del_user; simpl in *;
      by rewrite delete_id). done.
Qed.

Lemma wpv_dealloc_loop k m r v l c oldsz :
  vinv m r v l -> 0 <= c -> oldsz <= KERNBASE -> oldsz <= 4096 * (c + Z.of_nat k) ->
  wpv m r (dealloc_loop end_ k (v_dir v) (4096 * c) oldsz) (fun _ m' r' => exists v' l',
    vinv m' r' v' l' /\ unmapped v v' c oldsz /\ vpages v' ++ l' ≡ₚ vpages v ++ l /\ l ⊆ l' /\
    frame (tpages v' ++ l') m m').
Proof.
  revert m r v l c. induction k as [|k IH]; intros m r v l c Hv Hc Ho Hk; cbn [dealloc_loop];
    destruct (Z.ltb_spec (4096 * c) oldsz) as [Hlt|Hge]; try lia;
    try (apply wpv_ret; exists v, l; split; [done|]; split; [|done]; split_and!; try done;
         intros n; by rewrite decide_False by lia).
  assert (Hc' : 0 <= c < USER_PAGES) by (unfold KERNBASE, USER_PAGES in *; lia). unfold USER_PAGES in Hc'.
  destruct (v_tabs v !! (c / 1024)) as [t|] eqn:Et.
  - eapply wpv_bind; [eapply wpv_walk_some; [done|lia|]; by replace (4096 * c / 4096) with c by dlia|].
    replace (4096 * c / 4096) with c by dlia. intros pte ? ? (-> & -> & ->).
    assert (Hpt : page_ok end_ t) by (by eapply vinv_tpages, elem_of_tabs).
    destruct (Z.eqb_spec (t + 4 * (c mod 1024)) 0) as [E|_];
      [destruct Hpt as (_ & ? & _); unfold KERNBASE in *; dlia|].
    rewrite u32_small by (unfold PGSIZE; lia).
    replace (4096 * c + PGSIZE) with (4096 * (c + 1)) by (unfold PGSIZE; lia).
    apply (proj1 (wpv_assoc (mload _) _ _ _ _ _)). eapply wpv_bind; [by eapply wpv_dealloc_page|].
    intros _ m1 r1 (l1 & Hv1 & HP1 & Hl1 & Hf1).
    eapply wpv_mono; [apply (IH _ _ _ _ (c + 1) Hv1); lia|].
    intros _ m' r' (v' & l' & Hv' & Hu & HP & Hl & Hf). exists v', l'. split; [done|]. split.
    { apply (unmapped_next v (del_user c v) v' c (c + 1)); [done..|lia| | |exact Hu]; intros n Hn; simpl.
      - assert (n = c) as -> by lia. rewrite lookup_delete_eq. auto.
      - apply lookup_delete_ne. lia. }
    split; [by rewrite HP|]. split; [by etransitivity|]. eapply frame_trans; [|exact Hf].
    destruct Hu as (Ed & Et' & _). eapply frame_mono; [|exact Hf1].
    assert (tpages v' = tpages v) as -> by (unfold tpages; by rewrite Ed, Et'). set_solver.
  - eapply wpv_bind; [eapply wpv_walk_none; [done|lia|]; by replace (4096 * c / 4096) with c by dlia|].
    intros pte ? ? (-> & -> & ->). simpl.
    assert (PDX (4096 * c) + 1 = c / 1024 + 1) as -> by (rewrite PDX_spec by lia; dlia).
    rewrite PGADDR_spec by dlia. rewrite (u32_small (_ - _)), u32_small by (unfold PGSIZE; dlia).
    replace (4194304 * (c / 1024 + 1) - PGSIZE + PGSIZE) with (4096 * (1024 * (c / 1024 + 1))) by lia.
    eapply wpv_mono; [apply (IH _ _ _ _ _ Hv); dlia|].
    intros _ m' r' (v' & l' & Hv' & Hu & HP). exists v', l'. split; [done|]. split; [|done].
    apply (unmapped_next v v v' c (1024 * (c / 1024 + 1))); [done..|dlia| |done|exact Hu]. intros n Hn.
    destruct (v_user v !! n) as [e|] eqn:Ee; [|by auto]. exfalso.
    destruct (vo_user _ _ (vi_vs _ _ _ _ _ Hv) n e Ee) as (_ & _ & _ & [t Ht]).
    replace (n / 1024) with (c / 1024) in Ht by dlia. congruence.
Qed.

Lemma wpv_deallocuvm m r v l oldsz newsz :
  vinv m r v l -> 0 <= newsz < oldsz -> oldsz <= KERNBASE ->
  wpv m r (deallocuvm end_ (v_dir v) oldsz newsz) (fun a m' r' => a = newsz /\ exists v' l',
    vinv m' r' v' l' /\ unmapped v v' ((newsz + 4095) / 4096) oldsz /\
    vpages v' ++ l' ≡ₚ vpages v ++ l /\ l ⊆ l' /\ frame (tpages v' ++ l') m m').
Proof.
  intros Hv Hn Ho. unfold deallocuvm. rewrite (proj2 (Z.leb_gt oldsz newsz)) by lia.
  rewrite PGROUNDUP_spec by (unfold KERNBASE, PGSIZE in *; lia). change PGSIZE with 4096.
  replace (newsz + 4096 - 1) with (newsz + 4095) by lia.
  eapply wpv_bind; [apply (wpv_dealloc_loop _ _ _ _ l); try done; [dlia|]|].
  - rewrite Z2Nat.id by dlia. dlia.
  - intros ? m' r' HQ. by apply wpv_ret.
Qed.

(** ** [freevm] *)

(** The directory entries from [i] on name the tables [T]. *)
Record tabs_at m d i (T : gmap Z Z) l : Prop := TabsAt {
  ta_dir : page_ok end_ d;
  ta_word j : i <= j < 1024 -> load32 m (d + 4 * j) = default 0 ((fun t => V2P t + 7) <$> T !! j);
  ta_tab j t : T !! j = Some t -> i <= j < 1024 /\ page_ok end_ t;
  ta_nodup : NoDup (d :: (map_to_list T).*2 ++ l) }.

Lemma tabs_at_free m m' d i T l t :
  tabs_at m d i T l -> 0 <= i -> T !! i = Some t -> frame [t] m m' -> tabs_at m' d (i + 1) (delete i T) (t :: l).
Proof.
  intros [Hd Hw Ht Hn] Hi Et Hf. destruct (Ht i t Et) as [_ Hpt].
  assert (Hn' : NoDup (d :: (map_to_list (delete i T)).*2 ++ t :: l)).
  { rewrite <- (map_to_list_delete _ _ _ Et) in Hn. simpl in Hn. by rewrite <- Permutation_middle. }
  assert (d <> t) by (intros ->; apply NoDup_cons in Hn' as [Hn' _]; set_solver).
  constructor; [done| | |done].
  - intros j Hj. rewrite lookup_delete_ne, <- Hw by lia.
    apply (frame_load32 end_ [t]) with d; try done; try (unfold PGSIZE; lia); [|by rewrite list_elem_of_singleton].
    by intros p ->%list_elem_of_singleton.
  - intros j t' [Hne E]%lookup_delete_Some. destruct (Ht j t' E). split; [lia|done].
Qed.

Lemma tabs_at_skip m d i T l : tabs_at m d i T l -> T !! i = None -> tabs_at m d (i + 1) T l.
Proof.
  intros [Hd Hw Ht Hn] Et. constructor; [done| | |done].
  - intros j Hj. apply Hw. lia.
  - intros j t E. destruct (Ht j t E). split; [|done]. destruct (decide (j = i)) as [->|]; [congruence|lia].
Qed.

Lemma wpv_free_tabs k m r d i T l :
  (i + k = 1024)%nat -> mem_ok m -> kmem_ok end_ m (kmem_of r) l -> tabs_at m d (Z.of_nat i) T l ->
  wpv m r (for_each (seq i k) (fun i =>
      e ← mload (d + 4 * Z.of_nat i);
      if present e then kfree end_ (P2V (PTE_ADDR e)) else mret tt)) (fun _ m' r' => exists l',
    mem_ok m' /\ kmem_ok end_ m' (kmem_of r') l' /\ l' ≡ₚ (map_to_list T).*2 ++ l /\ frame l' m m').
Proof.
  revert m r i T l. induction k as [|k IH]; intros m r i T l Hik Hm Hk HT; cbn [seq for_each].
  { apply wpv_ret. exists l. split_and!; try done. assert (T = ∅) as ->; [|done].
    apply map_eq. intros j. rewrite lookup_empty. destruct (T !! j) as [t|] eqn:E; [|done].
    destruct (ta_tab _ _ _ _ _ HT j t E). lia. }
  apply (proj2 (wpv_assoc (mload _) _ _ _ _ _)). eapply wpv_bind; [apply wpv_load|]. intros e ? ? (-> & -> & ->).
  rewrite (ta_word _ _ _ _ _ HT) by lia. destruct (T !! Z.of_nat i) as [t|] eqn:Et; simpl default.
  - destruct (ta_tab _ _ _ _ _ HT _ _ Et) as [_ Hpt]. destruct (upage_entry end_ t 7) as [Eu _]; [done|lia|].
    destruct (V2P_page _ _ Hpt) as (_ & Hmod & _).
    rewrite present_spec, Z.odd_add, Zodd_mod. replace (V2P t mod 2) with 0 by dlia. cbn [Zeq_bool Z.odd xorb].
    fold (upage (V2P t + 7)). rewrite Eu.
    eapply wpv_bind; [apply (wpv_kfree _ _ _ l); try done|].
    { pose proof (ta_nodup _ _ _ _ _ HT) as [_ (_ & Hd & _)%NoDup_app]%NoDup_cons. apply Hd.
      apply list_elem_of_fmap. exists (Z.of_nat i, t). split; [done|]. by apply elem_of_map_to_list. }
    intros _ m1 r1 (Hk1 & Hm1 & Hf1). eapply wpv_mono.
    { apply (IH _ _ (S i) (delete (Z.of_nat i) T) (t :: l)); [lia|exact Hm1|exact Hk1|].
      rewrite Nat2Z.inj_succ. by eapply tabs_at_free; [|lia|..]. }
    intros _ m' r' (l' & Hm' & Hk' & HP & Hf). exists l'. do 2 (split; [done|]).
    assert (l' ≡ₚ (map_to_list T).*2 ++ l) as HP'.
    { rewrite HP, <- (map_to_list_delete _ _ _ Et). simpl. solve_Permutation. }
    split; [done|]. eapply frame_trans; [|exact Hf]. eapply frame_mono; [|exact Hf1].
    intros p ->%list_elem_of_singleton. rewrite HP. set_solver.
  - apply wpv_ret_bind.
    apply (IH _ _ (S i)); [lia|done|done|]. rewrite Nat2Z.inj_succ. by apply tabs_at_skip.
Qed.

Lemma vinv_tabs_at m r v l : vinv m r v l -> tabs_at m (v_dir v) 0 (v_tabs v) (upages v ++ l).
Proof.
  intros Hv. destruct (vinv_tpages _ _ _ _ Hv) as [Htp _]. pose proof (vi_vs _ _ _ _ _ Hv) as Hs. constructor.
  - apply Htp, list_elem_of_here.
  - apply (vo_dir _ _ Hs).
  - intros j t E. split; [by apply (vo_tab _ _ Hs j t)|]. by eapply Htp, elem_of_tabs.
  - pose proof (vi_nodup _ _ _ _ _ Hv) as Hn. unfold vpages, tpages in Hn. by rewrite <- app_assoc in Hn.
Qed.

(** All the pages of the address space are free again. *)
Lemma wpv_freevm m r v l :
  vinv m r v l ->
  wpv m r (freevm end_ (v_dir v)) (fun _ m' r' => exists l',
    mem_ok m' /\ kmem_ok end_ m' (kmem_of r') l' /\ l' ≡ₚ vpages v ++ l /\ frame l' m m').
Proof.
  intros Hv. unfold freevm.
  assert (Hd : page_ok end_ (v_dir v)) by (eapply vinv_tpages; [exact Hv|apply list_elem_of_here]).
  destruct (Z.eqb_spec (v_dir v) 0) as [E|_]; [destruct Hd as (_ & ? & _); unfold KERNBASE in *; lia|].
  eapply wpv_bind; [by apply (wpv_deallocuvm _ _ _ l)|].
  intros _ m1 r1 (_ & v1 & l1 & Hv1 & (Ed & Et & Ek & Eu) & HP1 & _ & Hf1).
  assert (Hu : upages v1 = []).
  { unfold upages. assert (v_user v1 = ∅) as ->; [|done]. apply map_eq. intros n. rewrite lookup_empty, Eu.
    case_decide as Hdec; [done|]. destruct (v_user v !! n) as [e|] eqn:E; [|done].
    destruct (vo_user _ _ (vi_vs _ _ _ _ _ Hv) n e E) as (Hn & _). unfold USER_PAGES, KERNBASE in *.
    change ((0 + 4095) / 4096) with 0 in Hdec. lia. }
  pose proof (vinv_tabs_at _ _ _ _ Hv1) as HT. rewrite Hu, Ed in HT. simpl in HT.
  eapply wpv_bind.
  { apply (wpv_free_tabs NPDENTRIES m1 r1 (v_dir v) 0 (v_tabs v1) l1); [done|by eapply vi_mem|by eapply vi_kmem|exact HT]. }
  intros _ m2 r2 (l2 & Hm2 & Hk2 & HP2 & Hf2).
  assert (Hl2 : v_dir v ∉ l2).
  { rewrite HP2. apply ta_nodup in HT. by apply NoDup_cons in HT as [HT _]. }
  eapply wpv_mono; [by apply (wpv_kfree _ _ _ l2)|]. intros _ m' r' (Hk' & Hm' & Hf').
  assert (HP : v_dir v :: l2 ≡ₚ vpages v ++ l).
  { rewrite <- HP1, HP2. unfold vpages, tpages. rewrite Hu, Ed, app_nil_r. done. }
  exists (v_dir v :: l2). do 3 (split; [done|]).
  eapply frame_trans; [eapply frame_trans|]; (eapply frame_mono; [|done]).
  - rewrite HP, <- HP1. intros p [?|?]%elem_of_app; apply elem_of_app; [left|by right]. apply elem_of_app. by left.
  - by right.
  - intros p ->%list_elem_of_singleton. apply list_elem_of_here.
Qed.

(** ** Counting the pages *)

Lemma length_vpages v : length (vpages v) = S (size (v_tabs v) + size (v_user v)).
Proof.
  unfold vpages, tpages, upages. simpl. by rewrite length_app, !length_fmap, !length_map_to_list.
Qed.

Lemma size_tabs m v : vs_ok m v -> (size (v_tabs v) <= 1024)%nat.
Proof.
  intros Hs. rewrite <- length_map_to_list, <- (length_fmap fst).
  change 1024%nat with (length (seqZ 0 1024)). apply submseteq_length, NoDup_submseteq; [apply NoDup_fst_map_to_list|].
  intros i ([i' t] & -> & Hi%elem_of_map_to_list)%list_elem_of_fmap.
  apply elem_of_seqZ. pose proof (vo_tab _ _ Hs i' t Hi). simpl. lia.
Qed.

(** ** [setupkvm] *)

(** The entry of page [n] in a table of segments. *)
Fixpoint seg_entry (l : list (Z * Z * Z * Z)) (n : Z) : option Z :=
  match l with
  | [] => None
  | (virt, p0, p1, perm) :: l =>
      if decide (virt <= 4096 * n < virt + u32 (p1 - p0)) then Some (p0 + (4096 * n - virt) + (perm + 1))
      else seg_entry l n
  end.

(** Whole pages, in order from [lo] on. *)
Fixpoint segs_ok (lo : Z) (l : list (Z * Z * Z * Z)) : Prop :=
  match l with
  | [] => True
  | (virt, p0, p1, perm) :: l =>
      let size := u32 (p1 - p0) in
      lo <= virt /\ virt mod 4096 = 0 /\ p0 mod 4096 = 0 /\ size mod 4096 = 0 /\ 0 < size /\ 0 <= p0 /\
      virt + size <= 2 ^ 32 /\ p0 + size <= 2 ^ 32 /\ (perm = 0 \/ perm = PTE_W) /\ segs_ok (virt + size) l
  end.

(** What the routines that build an address space promise when they fail: the
    pages are free again. *)
Definition all_freed m m' r' l : Prop :=
  exists l', mem_ok m' /\ kmem_ok end_ m' (kmem_of r') l' /\ l' ≡ₚ l /\ frame l' m m'.

Lemma wpv_mappages_kern m r v l virt size pa perm :
  vinv m r v l -> KERNBASE <= virt -> virt mod 4096 = 0 -> pa mod 4096 = 0 -> size mod 4096 = 0 ->
  0 < size -> 0 <= pa -> virt + size <= 2 ^ 32 -> pa + size <= 2 ^ 32 -> perm = 0 \/ perm = PTE_W ->
  (forall n, virt <= 4096 * n < virt + size -> v_kern v !! n = None) ->
  wpv m r (mappages (v_dir v) virt size pa perm) (fun a m' r' => exists v' l',
    vinv m' r' v' l' /\ v_dir v' = v_dir v /\ v_user v' = v_user v /\ v_tabs v ⊆ v_tabs v' /\
    vpages v' ++ l' ≡ₚ vpages v ++ l /\ frame (tpages v') m m' /\
    (a = 0 /\ (forall n, v_kern v' !! n =
        if decide (virt <= 4096 * n < virt + size) then Some (pa + (4096 * n - virt) + (perm + 1))
        else v_kern v !! n) \/ a = -1 /\ l' = [])).
Proof.
  intros Hv Hlo Hvm Hpm Hsm Hs Hpa Hvs Hps Hperm Hnone. unfold mappages. unfold KERNBASE in Hlo.
  rewrite (u32_small (virt + size - 1)), !PGROUNDDOWN_spec by lia.
  replace (4096 * (virt / 4096)) with (4096 * (virt / 4096)) by done.
  assert (E : (virt + size - 1) / 4096 = virt / 4096 + (size / 4096 - 1)) by dlia. rewrite E.
  rewrite u32_small by dlia. set (k := Z.to_nat _).
  assert (Hk : Z.of_nat k = size / 4096 - 1).
  { unfold k. rewrite Z2Nat.id by (apply Z.div_pos; [dlia|done]). unfold PGSIZE. dlia. }
  clearbody k. eapply wpv_mono.
  { apply (wpv_map_kern k _ _ _ l); try done; try (unfold USER_PAGES; dlia). intros n Hn. apply Hnone. dlia. }
  intros a m' r' (v' & l' & H1 & H2 & H3 & H4 & H5 & H6 & Hres). exists v', l'. do 6 (split; [done|]).
  destruct Hres as [[-> Hm]|?]; [left|by right]. split; [done|]. intros n. rewrite Hm.
  repeat case_decide; try done; [f_equal; dlia|exfalso; dlia|exfalso; dlia].
Qed.

Lemma seg_entry_above lo segs n e : segs_ok lo segs -> seg_entry segs n = Some e -> lo <= 4096 * n.
Proof.
  revert lo. induction segs as [|[[[virt p0] p1] perm] segs IH]; intros lo Hs; [done|]. simpl.
  destruct Hs as (Hl & _ & _ & _ & Hpos & _ & _ & _ & _ & Hs). case_decide; [lia|].
  intros E. specialize (IH _ Hs E). lia.
Qed.

Lemma all_freed_trans m m1 m' r' P l :
  frame P m m1 -> P ⊆ l -> all_freed m1 m' r' l -> all_freed m m' r' l.
Proof.
  intros Hf HP (l' & H1 & H2 & H3 & H4). exists l'. do 3 (split; [done|]). eapply frame_trans; [|done].
  eapply frame_mono; [|done]. intros p Hp. rewrite H3. auto.
Qed.

Lemma all_freed_perm m m' r' l l' : l ≡ₚ l' -> all_freed m m' r' l -> all_freed m m' r' l'.
Proof. intros HP (l1 & H1 & H2 & H3 & H4). exists l1. by rewrite <- HP. Qed.

Lemma tpages_sub v l : tpages v ⊆ vpages v ++ l.
Proof. intros p Hp. apply elem_of_app. left. apply elem_of_app. by left. Qed.

Lemma wpv_setup_loop segs m r v l lo :
  vinv m r v l -> KERNBASE <= lo -> segs_ok lo segs -> (forall n, lo <= 4096 * n -> v_kern v !! n = None) ->
  wpv m r (setup_loop end_ segs (v_dir v)) (fun a m' r' =>
    (exists v' l', a = v_dir v /\ vinv m' r' v' l' /\ v_dir v' = v_dir v /\ v_user v' = v_user v /\
      v_tabs v ⊆ v_tabs v' /\
      (forall n, v_kern v' !! n = match seg_entry segs n with Some e => Some e | None => v_kern v !! n end) /\
      vpages v' ++ l' ≡ₚ vpages v ++ l /\ frame (tpages v') m m') \/
    (a = 0 /\ (size (v_tabs v) + length l <= 1024)%nat /\ all_freed m m' r' (vpages v ++ l))).
Proof.
  revert m r v l lo. induction segs as [|[[[virt p0] p1] perm] segs IH]; intros m r v l lo Hv Hlo Hs Hnone.
  { apply wpv_ret. left. by exists v, l. }
  destruct Hs as (Hl & Hvm & Hpm & Hsm & Hpos & Hp0 & Hvs & Hps & Hperm & Hs). cbn [setup_loop].
  eapply wpv_bind.
  { apply (wpv_mappages_kern _ _ _ l); try done; [lia|]. intros n Hn. apply Hnone. lia. }
  intros a m1 r1 (v1 & l1 & Hv1 & Ed & Eu & Ht & HP & Hf & [[-> Ek]|[-> ->]]); cbn [Z.ltb Z.compare].
  - rewrite <- Ed. eapply wpv_mono; [eapply (IH _ _ _ _ _ Hv1); [|exact Hs|]; [lia|]|].
    { intros n Hn. rewrite Ek. rewrite decide_False by lia. apply Hnone. lia. }
    intros a m' r' [(v' & l' & -> & Hv' & Ed' & Eu' & Ht' & Ek' & HP' & Hf')|(-> & Hsz & Hfree)]; [left|right].
    + exists v', l'. split; [done|]. split; [done|]. split; [congruence|]. split; [congruence|].
      split; [by etransitivity|]. split; [|split; [by rewrite HP'|]].
      * intros n. rewrite Ek', Ek. cbn [seg_entry]. case_decide; [|done]. destruct (seg_entry segs n) eqn:E; [|done].
        pose proof (seg_entry_above _ _ _ _ Hs E). lia.
      * eapply frame_trans; [|exact Hf']. eapply frame_mono; [by apply same_maps_pages|done].
    + split; [done|]. split.
      { apply Permutation_length in HP. rewrite !length_app, !length_vpages, Eu in HP. lia. }
      eapply all_freed_perm; [exact HP|]. eapply all_freed_trans; [exact Hf|apply tpages_sub|done].
  - rewrite <- Ed. eapply wpv_bind; [by apply (wpv_freevm _ _ _ [])|]. intros ? m' r' Hfree.
    apply wpv_ret. right. split; [done|]. split.
    { pose proof (size_tabs _ _ (vi_vs _ _ _ _ _ Hv1)). apply Permutation_length in HP.
      rewrite !length_app, !length_vpages, Eu in HP. simpl in HP. lia. }
    eapply all_freed_perm; [exact HP|].
    eapply all_freed_trans; [exact Hf|apply tpages_sub|done].
Qed.

(** A page of zeros is an empty address space. *)
Lemma vinv_new m r d l :
  mem_ok m -> kmem_ok end_ m (kmem_of r) l -> page_ok end_ d -> d ∉ l ->
  vinv (memset m d 0 PGSIZE) r (MkVs d ∅ ∅ ∅) l.
Proof.
  intros Hm Hk Hd Hl. constructor.
  - rewrite memset_same by done. by apply mem_ok_memset.
  - constructor; simpl; try (intros * E; by rewrite lookup_empty in E).
    intros i Hi. rewrite lookup_empty. simpl. rewrite memset_same, load32_memset_0; unfold PGSIZE; done || lia.
  - eapply kmem_ok_frame; [|apply frame_memset|done|]; by intros p ->%list_elem_of_singleton.
  - intros p Hp. unfold vpages, tpages, upages in Hp. simpl in Hp. rewrite !map_to_list_empty in Hp.
    by apply list_elem_of_singleton in Hp as ->.
  - unfold vpages, tpages, upages. simpl. rewrite !map_to_list_empty. simpl. constructor; [done|].
    by apply (km_nodup _ _ _ _ Hk).
Qed.

(** ** Pages in transit *)

Definition same_page m m' q : Prop := forall b, q <= b < q + PGSIZE -> load8 m' b = load8 m b.

Lemma same_page_frame P m m' q :
  (forall p, p ∈ P -> page_ok end_ p) -> frame P m m' -> page_ok end_ q -> q ∉ P -> same_page m m' q.
Proof. intros HP Hf Hq Hn b Hb. by apply (frame_load8 end_ P m m' HP Hf q). Qed.

Lemma same_page_trans m m1 m' q : same_page m m1 q -> same_page m1 m' q -> same_page m m' q.
Proof. intros H1 H2 b Hb. by rewrite H2, H1. Qed.

(** A page is allocated: it is nobody's. *)
Lemma vinv_take m r r' v p l :
  vinv m r v (p :: l) -> kmem_ok end_ m (kmem_of r') l ->
  vinv m r' v l /\ page_ok end_ p /\ p ∉ vpages v ++ l /\ p <> 0.
Proof.
  intros [Hm Hs Hk Hp Hn] Hk'.
  assert (Hpp : page_ok end_ p) by (by apply (km_pages _ _ _ _ Hk), list_elem_of_here).
  rewrite <- Permutation_middle in Hn. apply NoDup_cons in Hn as [Hnew Hn].
  split; [by constructor|]. split_and!; try done. destruct Hpp as (_ & ? & _). unfold KERNBASE in *. lia.
Qed.

(** It may be written. *)
Lemma vinv_frame P m m1 r v l :
  vinv m r v l -> mem_ok m1 -> frame P m m1 -> (forall p, p ∈ P -> page_ok end_ p /\ p ∉ vpages v ++ l) ->
  vinv m1 r v l.
Proof.
  intros Hv Hm1 Hf HP. pose proof Hv as [Hm Hs Hk Hp Hn]. constructor; try done.
  - eapply (vs_ok_frame end_ P); [by intros p [? _]%HP|done| |done]. intros p Hin. split.
    + apply Hp. apply elem_of_app. by left.
    + intros [_ Hnot]%HP. apply Hnot. by apply tpages_sub.
  - eapply (kmem_ok_frame end_ P); [by intros p [? _]%HP|done|done|]. intros p [_ Hnot]%HP Hl.
    apply Hnot, elem_of_app. by right.
Qed.

(** And given back. *)
Lemma wpv_give m r v l p :
  vinv m r v l -> page_ok end_ p -> p ∉ vpages v ++ l ->
  wpv m r (kfree end_ p) (fun _ m' r' => vinv m' r' v (p :: l) /\ frame [p] m m').
Proof.
  intros Hv Hp Hnew. pose proof Hv as [Hm Hs Hk Hpg Hn].
  eapply wpv_mono; [apply (wpv_kfree p m r l); try done; set_solver|].
  intros _ m' r' (Hk' & Hm' & Hf). split; [|done]. constructor; try done.
  - eapply (vs_ok_frame end_ [p]); [by intros q ->%list_elem_of_singleton|done| |done]. intros q Hin. split.
    + apply Hpg. apply elem_of_app. by left.
    + intros ->%list_elem_of_singleton. apply Hnew. by apply tpages_sub.
  - rewrite <- Permutation_middle. by constructor.
Qed.

Lemma vinv_user_page m r v l n e : vinv m r v l -> v_user v !! n = Some e -> upage e ∈ vpages v.
Proof. intros Hv He. apply elem_of_app. right. by eapply elem_of_upages. Qed.

Lemma wpv_cprintf fmt args out m r :
  cons_lock ∉ H -> cprintf_out fmt args = Some out ->
  wpv m r (cprintf fmt args) (fun _ m' r' => m' = m /\ r' = r).
Proof.
  intros Hc Hout. unfold cprintf. rewrite Hout.
  apply (wpm_bind _ _ _ _ _ _ _ (fun _ H' m' r' => H' = H /\ m' = m /\ r' = r)).
  { intros s Hw <- <-. by exists H. }
  intros b ? ? ? (-> & -> & ->).
  apply (wpm_bind _ _ _ _ _ _ _ (fun _ H' m' r' => H' = (if b : bool then cons_lock :: H else H) /\ m' = m /\ r' = r)).
  { destruct b; [by apply wpm_acquire|by apply wpm_ret]. }
  intros _ ? ? ? (-> & -> & ->).
  apply (wpm_bind _ _ _ _ _ _ _ (fun _ H' m' r' => H' = (if b : bool then cons_lock :: H else H) /\ m' = m /\ r' = r)).
  { intros s [Hh Hl Hp] <- <-. eexists. split; [by constructor|done]. }
  intros _ ? ? ? (-> & -> & ->). destruct b; [|by apply wpm_ret].
  eapply wpm_mono; [by apply wpm_release|]. by intros ? ? ? ? (-> & -> & ->).
Qed.

(** ** [allocuvm] *)

(** The new pages of the user, zero and writable. *)
Definition grown v v' m' c c1 : Prop :=
  v_dir v' = v_dir v /\ v_kern v' = v_kern v /\
  forall n, if decide (c <= n < c1)
    then exists e, v_user v' !! n = Some e /\ Z.land e 0xFFF = 7 /\
      forall b, upage e <= b < upage e + PGSIZE -> load8 m' b = 0
    else v_user v' !! n = v_user v !! n.

(** From page [c] on; a failure goes back to [c0] pages. *)
Definition alloc_post m v l c0 c newsz a m' r' : Prop := exists v' l',
  vinv m' r' v' l' /\ vpages v' ++ l' ≡ₚ vpages v ++ l /\ frame (vpages v ++ l) m m' /\
  (a = newsz /\ grown v v' m' c ((newsz + 4095) / 4096) /\
    (forall n e, v_user v !! n = Some e -> same_page m m' (upage e)) \/
   a = 0 /\ shrunk v v' c0 newsz /\
    (forall n e, n < c0 -> v_user v !! n = Some e -> same_page m m' (upage e)) /\
    Z.of_nat (size (v_tabs v) + length l) <= 1024 + ((newsz + 4095) / 4096 - c)).

Lemma perm_sub l l' : l ≡ₚ l' -> l ⊆ l'.
Proof. intros HP p. by rewrite HP. Qed.

(** [deallocuvm] on the way out. *)
Lemma wpv_undo m r v l oldsz newsz (K : MX Z) Q :
  vinv m r v l -> 0 <= oldsz < newsz -> newsz <= KERNBASE ->
  (forall m' r' v' l', vinv m' r' v' l' -> vpages v' ++ l' ≡ₚ vpages v ++ l ->
    unmapped v v' ((oldsz + 4095) / 4096) newsz -> frame (vpages v ++ l) m m' ->
    (forall n e, n < (oldsz + 4095) / 4096 -> v_user v !! n = Some e -> same_page m m' (upage e)) ->
    wpv m' r' K Q) ->
  wpv m r (deallocuvm end_ (v_dir v) newsz oldsz;; K) Q.
Proof.
  intros Hv Ho Hn HK. eapply wpv_bind; [by apply (wpv_deallocuvm _ _ _ l)|].
  intros _ m' r' (_ & v' & l' & Hv' & Hu & HP & Hl & Hf). apply (HK _ _ _ _ Hv' HP Hu).
  - eapply frame_mono; [|exact Hf]. intros p Hp. rewrite <- HP. set_solver.
  - intros n e Hne He. eapply same_page_frame; [|exact Hf|exact (proj1 (vinv_user _ _ _ _ _ _ Hv He))|].
    + intros p Hp. eapply vinv_pages; [exact Hv'|]. set_solver.
    + destruct Hu as (Ed & Et & Ek & Eu).
      assert (He' : v_user v' !! n = Some e) by (rewrite Eu; by rewrite decide_False by lia).
      destruct (vinv_user _ _ _ _ _ _ Hv' He') as (_ & ? & ?). set_solver.
Qed.

(** One more page: what the rest of the loop does from there is what is wanted
    from here. *)
Lemma alloc_post_step m m2 r1 r2 v v1 l l1 p c0 c newsz a m' r' :
  let m1 := memset m p 0 PGSIZE in
  c0 <= c -> 4096 * c < newsz -> v_user v !! c = None ->
  vinv m1 r1 v l -> page_ok end_ p -> p ∉ vpages v ++ l -> vinv m2 r2 v1 l1 ->
  vpages v1 ++ l1 ≡ₚ p :: vpages v ++ l -> frame (tpages v1) m1 m2 ->
  v_dir v1 = v_dir v -> v_kern v1 = v_kern v -> v_user v1 = <[c := V2P p + 7]> (v_user v) ->
  alloc_post m2 v1 l1 c0 (c + 1) newsz a m' r' -> alloc_post m v (p :: l) c0 c newsz a m' r'.
Proof.
  intros m1 Hc Hlt Hnone Hv Hp Hnew Hv1 HP Hf Ed Ek Eu (v' & l' & Hv' & HP' & Hf' & Hres).
  destruct (upage_entry end_ p 7 Hp) as [Ep _]; [lia|]. destruct (V2P_page _ _ Hp) as (_ & Hmod & _).
  assert (Hk : forall n e, v_user v1 !! n = Some e -> same_page m1 m2 (upage e)).
  { intros n e He. destruct (vinv_user _ _ _ _ _ _ Hv1 He) as (? & ? & _).
    eapply same_page_frame; [|exact Hf|done|done]. by eapply vinv_tpages. }
  assert (Hk0 : forall n e, v_user v !! n = Some e -> v_user v1 !! n = Some e /\ same_page m m1 (upage e)).
  { intros n e He. split; [rewrite Eu, lookup_insert_ne; [done|congruence]|].
    eapply (same_page_frame [p]); [by intros q ->%list_elem_of_singleton|apply frame_memset| |].
    - by apply (vinv_user _ _ _ _ _ _ Hv He).
    - intros E%list_elem_of_singleton. apply Hnew. rewrite <- E. apply elem_of_app. left.
      by eapply vinv_user_page. }
  exists v', l'. split; [done|]. split; [rewrite HP', HP; solve_Permutation|]. split.
  { eapply frame_trans; [eapply (frame_mono [p]); [set_solver|apply frame_memset]|].
    eapply frame_trans; (eapply frame_mono; [|done]); intros q Hq.
    - assert (Hq' : q ∈ vpages v1 ++ l1) by by apply tpages_sub. by rewrite HP, Permutation_middle in Hq'.
    - by rewrite HP, Permutation_middle in Hq. }
  destruct Hres as [(-> & (Ed' & Ek' & Hg) & Hkeep)|(-> & (Ed' & Ek' & Hg) & Hkeep & Hlen)]; [left|right]; split; try done.
  - split; [split; [congruence|]; split; [congruence|]|].
    + intros n. specialize (Hg n). rewrite Eu in Hg. destruct (decide (n = c)) as [->|Hne].
      * rewrite decide_False, lookup_insert_eq in Hg by lia. rewrite decide_True by dlia.
        exists (V2P p + 7). split; [done|]. split; [change 0xFFF with (Z.ones 12); rewrite Z.land_ones by done; dlia|].
        assert (E1 : v_user v1 !! c = Some (V2P p + 7)) by (rewrite Eu; apply lookup_insert_eq).
        intros b Hb. rewrite (Hkeep c _ E1 b Hb), (Hk c _ E1 b Hb). rewrite Ep in Hb. unfold m1.
        rewrite memset_same, memset_load by done. by rewrite decide_True by done.
      * rewrite lookup_insert_ne in Hg by done. repeat case_decide; try lia; done.
    + intros n e He. destruct (Hk0 n e He) as [He1 Hs]. eapply same_page_trans; [exact Hs|].
      eapply same_page_trans; [by eapply Hk|by eapply Hkeep].
  - split; [split; [congruence|]; split; [congruence|]|].
    + intros n. rewrite Hg, Eu. destruct (decide (n = c)) as [->|Hne]; [by rewrite !decide_True by lia|].
      by rewrite lookup_insert_ne by done.
    + split; [|apply Permutation_length in HP; cbn [length] in HP; rewrite !length_app, !length_vpages, Eu in HP;
        rewrite map_size_insert_None in HP by done; cbn [length]; lia].
      intros n e Hn He. destruct (Hk0 n e He) as [He1 Hs]. eapply same_page_trans; [exact Hs|].
      eapply same_page_trans; [by eapply Hk|by eapply Hkeep].
Qed.

Lemma allocuvm_msgs :
  let m1 := zs "allocuvm out of memory" ++ [10] in
  let m2 := zs "allocuvm out of memory (2)" ++ [10] in
  cprintf_out m1 [] = Some m1 /\ cprintf_out m2 [] = Some m2.
Proof. by vm_compute. Qed.

Lemma wpv_alloc_loop k m r v l c oldsz newsz :
  cons_lock ∉ H -> vinv m r v l -> 0 <= oldsz -> (oldsz + 4095) / 4096 <= c -> newsz <= KERNBASE ->
  newsz <= 4096 * (c + Z.of_nat k) -> (forall n, c <= n -> v_user v !! n = None) ->
  wpv m r (alloc_loop end_ k (v_dir v) (4096 * c) oldsz newsz)
    (alloc_post m v l ((oldsz + 4095) / 4096) c newsz).
Proof.
  intros Hcl. revert m r v l c. induction k as [|k IH]; intros m r v l c Hv Ho Hc Hn Hk Hnone; cbn [alloc_loop];
    destruct (Z.ltb_spec (4096 * c) newsz) as [Hlt|Hge]; try lia;
    try (apply wpv_ret; exists v, l; split; [done|]; split; [done|]; split; [done|]; left; split; [done|];
         split; [|done]; split; [done|]; split; [done|]; intros n; by rewrite decide_False by dlia).
  assert (Hc' : 0 <= c < USER_PAGES) by (unfold KERNBASE, USER_PAGES in *; dlia).
  assert (Hold : 0 <= oldsz < newsz) by dlia.
  eapply wpv_bind; [eapply wpv_kalloc, vi_kmem, Hv|]. intros p ? r1 (-> & -> & Hk1).
  destruct l as [|p l]; cbn [head default tail] in *.
  { simpl (0 =? 0). cbv iota. eapply wpv_bind; [exact (wpv_cprintf _ _ _ _ _ Hcl (proj1 allocuvm_msgs))|].
    intros _ ? ? (-> & ->). assert (Hv1 : vinv m r1 v []) by (by destruct Hv).
    eapply wpv_undo; try done. intros m' r' v' l' Hv' HP Hu Hf Hs. apply wpv_ret.
    exists v', l'. do 3 (split; [done|]). right. split; [done|].
    split; [by apply unmapped_shrunk|]. split; [done|]. pose proof (size_tabs _ _ (vi_vs _ _ _ _ _ Hv)).
    simpl length. dlia. }
  destruct (vinv_take _ _ _ _ _ _ Hv Hk1) as (Hv1 & Hp & Hnew & Hp0).
  change (id p) with p. rewrite (proj2 (Z.eqb_neq p 0)) by done.
  eapply wpv_bind; [apply wpv_memupd|]. intros _ ? ? (-> & ->).
  set (m1 := memset m p 0 PGSIZE). assert (Hf1 : frame [p] m m1) by apply frame_memset.
  assert (Hv1' : vinv m1 r1 v l).
  { eapply vinv_frame; [exact Hv1| |exact Hf1|by intros q ->%list_elem_of_singleton].
    unfold m1. rewrite memset_same by done. by eapply mem_ok_memset, vi_mem. }
  eapply wpv_bind; [apply (wpv_map_user m1 r1 v l c p (Z.lor PTE_W PTE_U)); try done; by apply Hnone|].
  intros a m2 r2 [(-> & -> & -> & Hv2)|(v2 & l2 & -> & Ed & Eu & Ek & Hv2 & HP & Hf2)]; cbn [Z.ltb Z.compare].
  - eapply wpv_bind; [exact (wpv_cprintf _ _ _ _ _ Hcl (proj2 allocuvm_msgs))|]. intros _ ? ? (-> & ->).
    eapply wpv_undo; [exact Hv2|done|done|]. intros m' r' v' l' Hv' HP Hu Hf Hs.
    eapply wpv_bind; [apply (wpv_give m' r' v' l' p); [done|done|by rewrite HP]|].
    intros _ m3 r3 (Hv3 & Hf3). apply wpv_ret. exists v', (p :: l'). split; [done|].
    split; [rewrite <- !Permutation_middle; by rewrite HP|]. split.
    { eapply frame_trans; [|eapply (frame_mono [p]); [set_solver|exact Hf3]].
      eapply frame_trans; [eapply (frame_mono [p]); [set_solver|exact Hf1]|].
      eapply frame_mono; [|exact Hf]. set_solver. }
    right. split; [done|]. split; [by apply unmapped_shrunk|]. split.
    2:{ pose proof (size_tabs _ _ (vi_vs _ _ _ _ _ Hv)). simpl length. dlia. }
    intros n e Hne He.
    assert (Hpe : page_ok end_ (upage e) /\ upage e ∉ [p]).
    { split; [by apply (vinv_user _ _ _ _ _ _ Hv He)|]. intros E%list_elem_of_singleton.
      apply Hnew. rewrite <- E. apply elem_of_app. left. by eapply vinv_user_page. }
    destruct Hpe as [Hpe Hne']. assert (HP1 : forall q, q ∈ [p] -> page_ok end_ q)
      by by intros q ->%list_elem_of_singleton.
    eapply same_page_trans; [by apply (same_page_frame [p] _ _ _ HP1 Hf1)|].
    eapply same_page_trans; [by eapply Hs|]. by apply (same_page_frame [p] _ _ _ HP1 Hf3).
  - rewrite u32_small by (unfold PGSIZE, USER_PAGES in *; lia).
    replace (4096 * c + PGSIZE) with (4096 * (c + 1)) by (unfold PGSIZE; lia). rewrite <- Ed.
    eapply wpv_mono; [apply (IH _ _ _ _ (c + 1) Hv2); try lia|].
    { intros n Hn'. rewrite Eu, lookup_insert_ne by lia. apply Hnone. lia. }
    intros a m' r' Hpost. eapply (alloc_post_step m m2 r1 r2 v v2); try done. by apply Hnone.
Qed.
End uvm.
