(* ===== verification/Xv6User.v ===== *)
(** * User memory

    What a process sees of its address space through the page tables, and the
    effect of [allocuvm], [deallocuvm], [copyuvm], [copyout] and the others on it. *)

From S2P Require Import Prelude CMem JosString JosPrintfmt Xv6Lock Xv6String Xv6Console Xv6Proc Xv6Sched Xv6World Xv6Kalloc Xv6Vm Xv6Uvm.
From stdpp Require Import base numbers option list gmap strings.
Open Scope Z_scope.

Definition user (e : Z) : bool := negb (Z.land e PTE_U =? 0).
Definition writable (e : Z) : bool := negb (Z.land e PTE_W =? 0).

(** The processor's translation of a user access to [va] under the directory
    [pgdir]: the kernel address of the byte and whether it may be written;
    [None] is a page fault. *)
Definition uaccess (m : mem) (pgdir va : Z) : option (Z * bool) :=
  let pde := load32 m (pgdir + 4 * PDX va) in
  if present pde && user pde then
    let pte := load32 m (P2V (PTE_ADDR pde) + 4 * PTX va) in
    if present pte && user pte then Some (upage pte + va mod 4096, writable pde && writable pte) else None
  else None.

(** A byte read by the user, and whether it could be written. *)
Definition uread (m : mem) (pgdir va : Z) : option (Z * bool) :=
  '(a, w) ← uaccess m pgdir va; Some (load8 m a, w).

Lemma land_low e f : 0 <= f < 4096 -> Z.land e f = Z.land (e mod 4096) f.
Proof.
  intros Hf. change 4096 with (2 ^ 12). rewrite <- Z.land_ones by done. rewrite <- Z.land_assoc.
  f_equal. rewrite Z.land_comm, Z.land_ones by done. symmetry. by apply Z.mod_small.
Qed.

Lemma tab_entry_flags end_ t :
  page_ok end_ t -> present (V2P t + 7) = true /\ user (V2P t + 7) = true /\ writable (V2P t + 7) = true.
Proof.
  intros Ht. destruct (V2P_page _ _ Ht) as (_ & Hm & _). assert (E : (V2P t + 7) mod 4096 = 7) by dlia.
  unfold present, user, writable, PTE_P, PTE_U, PTE_W. rewrite !(land_low (V2P t + 7)), E by lia. done.
Qed.

Section user.
Context {X : Type} (o : option nat) (pd : Z) (end_ : Z) (H : list nat).
Hypothesis Hend : KERNBASE < end_.
Hypothesis HH : kmem_lock ∉ H.
Notation MX := (M (xst (vst X))).
Notation wpv := (wpv o pd H).
Notation vinv := (vinv end_).
Implicit Types (m : mem) (r : vst X) (v : vspace) (l : list Z).

(** ** The processor and the abstract address space *)

Lemma uaccess_vs m r v l va :
  vinv m r v l -> 0 <= va < 2 ^ 32 ->
  uaccess m (v_dir v) va =
    (e ← v_user v !! (va / 4096); if user e then Some (upage e + va mod 4096, writable e) else None).
Proof.
  intros Hv Hva. pose proof (vi_vs _ _ _ _ _ Hv) as Hs. unfold uaccess.
  rewrite PDX_spec, PTX_spec by done. rewrite (vo_dir _ _ Hs) by dlia.
  destruct (v_tabs v !! (va / 4096 / 1024)) as [t|] eqn:Et; simpl.
  - assert (Ht : page_ok end_ t) by (by eapply vinv_tpages, elem_of_tabs).
    destruct (tab_entry_flags _ _ Ht) as (-> & -> & ->). simpl.
    destruct (upage_entry end_ t 7 Ht) as [Eu _]; [lia|]. fold (upage (V2P t + 7)). rewrite Eu.
    rewrite (vo_entry _ _ Hs _ t) by (done || dlia).
    replace (1024 * (va / 4096 / 1024) + va / 4096 mod 1024) with (va / 4096) by dlia.
    unfold v_entry. destruct (Z.ltb_spec (va / 4096) USER_PAGES) as [Hlt|Hge].
    + destruct (v_user v !! (va / 4096)) as [e|] eqn:Ee; simpl; [|done].
      destruct (vo_user _ _ Hs _ _ Ee) as (_ & -> & _). done.
    + assert (v_user v !! (va / 4096) = None) as ->.
      { destruct (v_user v !! (va / 4096)) as [e|] eqn:Ee; [|done].
        destruct (vo_user _ _ Hs _ _ Ee) as (? & _). lia. }
      destruct (v_kern v !! (va / 4096)) as [e|] eqn:Ee; simpl; [|done].
      destruct (vo_kern _ _ Hs _ _ Ee) as (_ & _ & _ & HU & _). unfold user. by rewrite HU, andb_false_r.
  - destruct (v_user v !! (va / 4096)) as [e|] eqn:Ee; [|done].
    destruct (vo_user _ _ Hs _ _ Ee) as (_ & _ & _ & [t Ht]). congruence.
Qed.

Lemma uread_vs m r v l va :
  vinv m r v l -> 0 <= va < 2 ^ 32 ->
  uread m (v_dir v) va =
    (e ← v_user v !! (va / 4096);
     if user e then Some (load8 m (upage e + va mod 4096), writable e) else None).
Proof.
  intros Hv Hva. unfold uread. rewrite (uaccess_vs m r v l) by done.
  destruct (v_user v !! (va / 4096)) as [e|]; [|done]. simpl. by destruct (user e).
Qed.

(** ** Growing and shrinking *)

(** The user's view of a page that has not changed. *)
Lemma uread_same m m' r r' v v' l l' va :
  vinv m r v l -> vinv m' r' v' l' -> 0 <= va < 2 ^ 32 ->
  v_user v' !! (va / 4096) = v_user v !! (va / 4096) ->
  (forall e, v_user v !! (va / 4096) = Some e -> same_page m m' (upage e)) ->
  uread m' (v_dir v') va = uread m (v_dir v) va.
Proof.
  intros Hv Hv' Hva E Hs. rewrite (uread_vs m r v l), (uread_vs m' r' v' l') by done. rewrite E.
  destruct (v_user v !! (va / 4096)) as [e|]; [|done]. simpl. destruct (user e); [|done].
  rewrite (Hs e eq_refl); [done|]. unfold PGSIZE. dlia.
Qed.

Lemma flags_low e f : 0 <= f < 4096 -> Z.land e f = Z.land (PTE_FLAGS e) f.
Proof. intros Hf. rewrite PTE_FLAGS_spec. by apply land_low. Qed.

(** A new page reads as zeros. *)
Lemma uread_zero m' r' v' l' va e :
  vinv m' r' v' l' -> 0 <= va < 2 ^ 32 -> v_user v' !! (va / 4096) = Some e -> Z.land e 0xFFF = 7 ->
  (forall b, upage e <= b < upage e + PGSIZE -> load8 m' b = 0) -> uread m' (v_dir v') va = Some (0, true).
Proof.
  intros Hv Hva He Hf Hz. rewrite (uread_vs m' r' v' l') by done. rewrite He. simpl.
  assert (user e = true /\ writable e = true) as [-> ->].
  { unfold user, writable, PTE_U, PTE_W. rewrite !(flags_low e) by lia. unfold PTE_FLAGS. by rewrite Hf. }
  rewrite Hz by (unfold PGSIZE; dlia). done.
Qed.


(** [deallocuvm] takes away the bytes from the end of the last page of [newsz] to
    the end of the last page of [oldsz], and nothing else; their pages are free. *)
Lemma deallocuvm_spec m r v l oldsz newsz :
  vinv m r v l -> 0 <= newsz < oldsz -> oldsz <= KERNBASE ->
  wpv m r (deallocuvm end_ (v_dir v) oldsz newsz) (fun a m' r' => a = newsz /\ exists v' l',
    vinv m' r' v' l' /\ v_dir v' = v_dir v /\ vpages v' ++ l' ≡ₚ vpages v ++ l /\ frame (vpages v ++ l) m m' /\
    forall va, 0 <= va < 2 ^ 32 -> uread m' (v_dir v) va =
      if decide (PGROUNDUP newsz <= va < PGROUNDUP oldsz) then None else uread m (v_dir v) va).
Proof.
  intros Hv Hn Ho. rewrite !PGROUNDUP_spec by (unfold KERNBASE, PGSIZE in *; lia). change PGSIZE with 4096.
  eapply wpv_mono; [by apply (wpv_deallocuvm o pd end_ H Hend HH _ _ _ l)|].
  intros a m' r' (-> & v' & l' & Hv' & (Ed & Et & Ek & Eu) & HP & Hl & Hf). split; [done|].
  exists v', l'. do 3 (split; [done|]). split.
  { eapply frame_mono; [|exact Hf]. intros p Hp. rewrite <- HP. set_solver. }
  intros va Hva. transitivity (uread m' (v_dir v') va); [by rewrite Ed|]. case_decide as Hd.
  - rewrite (uread_vs m' r' v' l'), Eu by done. rewrite decide_True by dlia. done.
  - assert (E : v_user v' !! (va / 4096) = v_user v !! (va / 4096))
      by (rewrite Eu; rewrite decide_False by dlia; done).
    apply (uread_same m m' r r' v v' l l'); try done. intros e He.
    eapply same_page_frame; [|exact Hf|exact (proj1 (vinv_user _ _ _ _ _ _ _ Hv He))|].
    + intros p Hp. eapply vinv_pages; [exact Hv'|]. set_solver.
    + rewrite <- E in He. destruct (vinv_user _ _ _ _ _ _ _ Hv' He) as (_ & ? & ?). set_solver.
Qed.

(** ** [setupkvm] *)

Section kernel_half.
(** [data_] is the linker's symbol, at a page boundary. *)
Context (data_ : Z).
Hypothesis Hdata : KERNLINK < data_ < KERNBASE + PHYSTOP.
Hypothesis Hdm : data_ mod 4096 = 0.

Lemma kmap_ok : segs_ok KERNBASE (Xv6Vm.kmap data_).
Proof.
  unfold Xv6Vm.kmap, segs_ok, V2P, KERNLINK, KERNBASE, EXTMEM, PHYSTOP, DEVSPACE in *.
  rewrite !(u32_small (data_ - _)) by lia.
  change (u32 (0x80000000 + 0x100000 - 0x80000000)) with 0x100000. change (u32 (0x100000 - 0)) with 0x100000.
  change (u32 (0 - 0xFE000000)) with 0x2000000.
  rewrite (u32_small (data_ - 0x80000000 - 0x100000)), (u32_small (0xE000000 - (data_ - 0x80000000))) by lia.
  split_and!; try done; try lia; try dlia; by (left + right).
Qed.

Lemma wpv_setupkvm m r l :
  mem_ok m -> kmem_ok end_ m (kmem_of r) l ->
  wpv m r (setupkvm end_ data_) (fun a m' r' =>
    (exists v l', a = v_dir v /\ vinv m' r' v l' /\ v_user v = ∅ /\
      (forall n, v_kern v !! n = seg_entry (Xv6Vm.kmap data_) n) /\ vpages v ++ l' ≡ₚ l /\ frame (tpages v) m m') \/
    (a = 0 /\ (length l <= 1025)%nat /\ all_freed end_ m m' r' l)).
Proof.
  intros Hm Hk. unfold setupkvm. eapply wpv_bind; [by apply (wpv_kalloc o pd end_ H HH)|].
  intros d ? r1 (-> & -> & Hk1). destruct l as [|d l]; cbn [head tail] in *.
  { apply wpv_ret. right. split; [done|]. split; [simpl; lia|]. by exists []. }
  change (default 0 (Some d)) with d.
  assert (Hd : page_ok end_ d) by (by apply (km_pages _ _ _ _ Hk), list_elem_of_here).
  assert (Hnd : d ∉ l) by (pose proof (km_nodup _ _ _ _ Hk) as [? _]%NoDup_cons; done).
  rewrite (proj2 (Z.eqb_neq d 0)) by (destruct Hd as (_ & ? & _); unfold KERNBASE in *; lia).
  eapply wpv_bind; [apply wpv_memupd|]. intros _ ? ? (-> & ->).
  change (DEVSPACE <? P2V PHYSTOP) with false. cbv iota.
  pose proof (vinv_new end_ m r1 d l Hm Hk1 Hd Hnd) as Hv. set (v0 := MkVs d ∅ ∅ ∅) in *.
  assert (HP0 : vpages v0 ++ l = d :: l) by done.
  assert (Hf0 : frame [d] m (memset m d 0 PGSIZE)) by apply frame_memset.
  eapply wpv_mono; [apply (wpv_setup_loop o pd end_ H Hend HH (Xv6Vm.kmap data_) _ _ v0 l KERNBASE Hv); [lia|apply kmap_ok|done]|].
  intros a m' r' [(v & l' & -> & Hv' & Ed & Eu & Ht & Ek & HP & Hf)|(-> & Hsz & Hfree)]; [left|right].
  - exists v, l'. split; [done|]. split; [done|]. split; [done|]. split; [|split; [done|]].
    + intros n. rewrite Ek. by destruct (seg_entry (Xv6Vm.kmap data_) n).
    + eapply frame_trans; [|exact Hf]. eapply frame_mono; [|exact Hf0].
      intros p ->%list_elem_of_singleton. unfold tpages. rewrite Ed. apply list_elem_of_here.
  - split; [done|]. split; [simpl in *; lia|]. rewrite <- HP0.
    eapply all_freed_trans; [exact Hf0| |exact Hfree]. rewrite HP0. set_solver.
Qed.
End kernel_half.

(** ** [copyuvm] *)

Lemma vinv_nodup_other v v' l : NoDup (vpages v ++ vpages v' ++ l) -> NoDup (vpages v ++ l).
Proof.
  rewrite !NoDup_app. intros (Hv & Hd & _ & _ & Hl). split_and!; try done.
  intros p Hp Hpl. apply (Hd p Hp). apply elem_of_app. by right.
Qed.

(** The parent while the child is built: no page of it changes. *)
Lemma vinv_other m m' r r' v v' l l' P :
  vinv m r v l -> vinv m' r' v' l' -> frame P m m' -> P ⊆ vpages v' ++ l' ->
  NoDup (vpages v ++ vpages v' ++ l') -> vinv m' r' v l'.
Proof.
  intros Hv Hv' Hf HP Hn. assert (HPok : forall p, p ∈ P -> page_ok end_ p)
    by (intros p Hp; eapply vinv_pages; [exact Hv'|by apply HP]).
  constructor; [exact (vi_mem _ _ _ _ _ Hv')| |exact (vi_kmem _ _ _ _ _ Hv')|exact (vi_pages _ _ _ _ _ Hv)|
    by eapply vinv_nodup_other].
  eapply (vs_ok_frame end_ P); [done|done| |exact (vi_vs _ _ _ _ _ Hv)].
  intros p Hp. assert (Hpv : p ∈ vpages v) by (apply elem_of_app; by left).
  split; [exact (vi_pages _ _ _ _ _ Hv p Hpv)|].
  intros Hin%HP. apply NoDup_app in Hn as (_ & Hd & _). by apply (Hd p Hpv).
Qed.

(** Its bytes too. *)
Lemma parent_page m m' r r' v v' l l' P n e :
  vinv m r v l -> vinv m' r' v' l' -> frame P m m' -> P ⊆ vpages v' ++ l' ->
  NoDup (vpages v ++ vpages v' ++ l') -> v_user v !! n = Some e -> same_page m m' (upage e).
Proof.
  intros Hv Hv' Hf HP Hn He. pose proof (vinv_user_page _ _ _ _ _ _ _ Hv He) as Hin.
  eapply (same_page_frame end_ P); [|done|exact (vi_pages _ _ _ _ _ Hv _ Hin)|].
  - intros p Hp. eapply vinv_pages; [exact Hv'|by apply HP].
  - intros Hp%HP. apply NoDup_app in Hn as (_ & Hd & _). by apply (Hd _ Hin).
Qed.

(** The page [q'] of [m'] is a copy of the page [q] of [m]. *)
Definition copied m q m' q' : Prop := forall i, 0 <= i < PGSIZE -> load8 m' (q' + i) = load8 m (q + i).

Definition copy_ok m v v2 c sz m' v' : Prop :=
  v_dir v' = v_dir v2 /\ v_kern v' = v_kern v2 /\
  (forall n e, v_user v2 !! n = Some e -> same_page m m' (upage e)) /\
  forall n, if decide (c <= n /\ 4096 * n < sz)
    then exists e e', v_user v !! n = Some e /\ v_user v' !! n = Some e' /\ PTE_FLAGS e' = PTE_FLAGS e /\
      copied m (upage e) m' (upage e')
    else v_user v' !! n = v_user v2 !! n.

Definition copy_post m v v2 l c sz a m' r' : Prop :=
  (exists v' l', a = v_dir v2 /\ vinv m' r' v' l' /\ vpages v' ++ l' ≡ₚ vpages v2 ++ l /\
    frame (vpages v2 ++ l) m m' /\ copy_ok m v v2 c sz m' v') \/
  (a = 0 /\ Z.of_nat (size (v_tabs v2) + length l) <= 1024 + ((sz + 4095) / 4096 - c) /\
    all_freed end_ m m' r' (vpages v2 ++ l)).

(** One page of the child was copied: [m] to [m1] the copy, [m1] to [m2] the mapping. *)
Lemma copy_ok_step m m1 m2 r1 r2 v v2 v3 l l3 p c sz e m' v' :
  4096 * c < sz -> v_user v2 !! c = None -> v_user v !! c = Some e ->
  vinv m1 r1 v l -> vinv m1 r1 v2 l -> vinv m2 r2 v3 l3 -> page_ok end_ p -> p ∉ vpages v ++ vpages v2 ++ l ->
  NoDup (vpages v ++ vpages v3 ++ l3) ->
  frame [p] m m1 -> copied m (upage e) m1 p -> frame (tpages v3) m1 m2 ->
  vpages v3 ++ l3 ≡ₚ p :: vpages v2 ++ l ->
  v_dir v3 = v_dir v2 -> v_kern v3 = v_kern v2 -> v_user v3 = <[c := V2P p + PTE_FLAGS e]> (v_user v2) ->
  copy_ok m2 v v3 (c + 1) sz m' v' -> copy_ok m v v2 c sz m' v'.
Proof.
  intros Hlt Hnone He Hv Hv2 Hv3 Hp Hnew Hnd Hf1 Hcp Hf2 HP Ed Ek Eu (Ed' & Ek' & Hkeep & Hg).
  assert (Hfl : 0 <= PTE_FLAGS e < 4096) by (rewrite PTE_FLAGS_spec; dlia).
  destruct (upage_entry end_ p _ Hp Hfl) as [Ep _]. destruct (V2P_page _ _ Hp) as (_ & Hmod & _).
  assert (Hsub : tpages v3 ⊆ vpages v3 ++ l3) by apply tpages_sub.
  assert (Hp1 : forall q, q ∈ vpages v ++ vpages v2 ++ l -> page_ok end_ q -> same_page m m1 q).
  { intros q Hq Hok. eapply (same_page_frame end_ [p]); [by intros x ->%list_elem_of_singleton|done|done|].
    by intros ->%list_elem_of_singleton. }
  assert (Hpar : forall n e, v_user v !! n = Some e -> same_page m m2 (upage e)).
  { intros n e' He'. eapply same_page_trans; [|by eapply (parent_page m1 m2 r1 r2 v v3 l l3)].
    apply Hp1; [|exact (proj1 (vinv_user _ _ _ _ _ _ _ Hv He'))]. apply elem_of_app. left.
    by eapply vinv_user_page. }
  assert (Hk3 : forall n e, v_user v3 !! n = Some e -> same_page m1 m2 (upage e)).
  { intros n e' He'. destruct (vinv_user _ _ _ _ _ _ _ Hv3 He') as (? & ? & _).
    eapply same_page_frame; [|exact Hf2|done|done]. by eapply vinv_tpages. }
  split; [congruence|]. split; [congruence|]. split.
  - intros n e' He'. assert (He3 : v_user v3 !! n = Some e') by (rewrite Eu, lookup_insert_ne; congruence).
    eapply same_page_trans; [|by eapply Hkeep]. eapply same_page_trans; [|by eapply Hk3].
    apply Hp1; [|exact (proj1 (vinv_user _ _ _ _ _ _ _ Hv2 He'))]. apply elem_of_app. right.
    apply elem_of_app. left. by eapply vinv_user_page.
  - intros n. specialize (Hg n). rewrite Eu in Hg. destruct (decide (n = c)) as [->|Hne].
    + rewrite decide_False, lookup_insert_eq in Hg by lia. rewrite decide_True by lia.
      exists e, (V2P p + PTE_FLAGS e). split; [done|]. split; [done|]. split.
      { rewrite !PTE_FLAGS_spec in *. dlia. }
      intros i Hi. assert (E3 : v_user v3 !! c = Some (V2P p + PTE_FLAGS e)) by (rewrite Eu; apply lookup_insert_eq).
      rewrite (Hkeep _ _ E3), (Hk3 _ _ E3), Ep by lia. by apply Hcp.
    + rewrite lookup_insert_ne in Hg by done.
      destruct (decide (c <= n /\ _)) as [Hd|Hd]; [|by rewrite decide_False in Hg by lia].
      rewrite decide_True in Hg by lia. destruct Hg as (e1 & e' & He1 & He' & Hfl' & Hc').
      exists e1, e'. do 3 (split; [done|]). intros i Hi. rewrite (Hc' i Hi). apply (Hpar n e1 He1). lia.
Qed.

(** The child is given up. *)
Lemma wpv_abandon m m1 r v2 l P c sz v :
  vinv m1 r v2 l -> frame P m m1 -> P ⊆ vpages v2 ++ l ->
  Z.of_nat (size (v_tabs v2) + length l) <= 1024 + ((sz + 4095) / 4096 - c) ->
  wpv m1 r (freevm end_ (v_dir v2);; mret 0) (copy_post m v v2 l c sz).
Proof.
  intros Hv Hf HP Hlen. eapply wpv_bind; [by apply (wpv_freevm o pd end_ H Hend HH _ _ _ l)|].
  intros ? m' r' Hfree. apply wpv_ret. right. split; [done|]. split; [done|]. by eapply all_freed_trans.
Qed.

(** Reading the entry of a mapped page. *)
Lemma wpv_walk_user m r v l n e b {A} (K : Z -> MX A) Q :
  vinv m r v l -> v_user v !! n = Some e -> (forall pte, pte <> 0 -> load32 m pte = e -> wpv m r (K pte) Q) ->
  wpv m r (walkpgdir (v_dir v) (4096 * n) b ≫= K) Q.
Proof.
  intros Hv He HK. pose proof (vi_vs _ _ _ _ _ Hv) as Hs.
  destruct (vo_user _ _ Hs n e He) as (Hn & Hpr & Hr & [t Ht]). unfold USER_PAGES in Hn.
  eapply wpv_bind; [eapply (wpv_walk_some o pd end_ H); [exact Hv|lia|]; by replace (4096 * n / 4096) with n by dlia|].
  replace (4096 * n / 4096) with n by dlia. intros pte ? ? (-> & -> & ->). apply HK.
  - assert (Hpt : page_ok end_ t) by (by eapply vinv_tpages, elem_of_tabs).
    destruct Hpt as (_ & ? & _). unfold KERNBASE in *. dlia.
  - rewrite (vo_entry _ _ Hs _ t) by (done || dlia).
    replace (1024 * (n / 1024) + n mod 1024) with n by dlia. unfold v_entry.
    rewrite (proj2 (Z.ltb_lt n USER_PAGES)) by (unfold USER_PAGES; lia). by rewrite He.
Qed.

Lemma flags_present e : present e = true -> Z.lor (PTE_FLAGS e) 1 = PTE_FLAGS e.
Proof.
  rewrite present_spec, PTE_FLAGS_spec. intros Ho. apply Z.bits_inj'. intros i Hi. rewrite Z.lor_spec.
  destruct (decide (i = 0)) as [->|].
  - change 4096 with (2 ^ 12). rewrite Z.mod_pow2_bits_low, Z.bit0_odd, Ho by lia. done.
  - rewrite (testbit_small 1 1) by lia. apply orb_false_r.
Qed.

Lemma copy_page m p q :
  mem_ok m -> let m1 := memmove m p q PGSIZE in mem_ok m1 /\ frame [p] m m1 /\ copied m q m1 p.
Proof.
  intros Hm m1. split; [by apply memmove_ok|]. split.
  - intros b Hb. specialize (Hb p (list_elem_of_here _ _)). unfold m1.
    rewrite memmove_load8 by done. by rewrite decide_False by lia.
  - intros i Hi. unfold m1. rewrite memmove_load8 by done. rewrite decide_True by lia. f_equal. lia.
Qed.

Lemma wpv_copy_loop k m r v v2 l c sz :
  vinv m r v l -> vinv m r v2 l -> NoDup (vpages v ++ vpages v2 ++ l) -> 0 <= c -> sz <= KERNBASE ->
  sz <= 4096 * (c + Z.of_nat k) -> (forall n, c <= n /\ 4096 * n < sz -> is_Some (v_user v !! n)) ->
  (forall n, c <= n -> v_user v2 !! n = None) ->
  wpv m r (copy_loop end_ k (v_dir v) (v_dir v2) (4096 * c) sz) (copy_post m v v2 l c sz).
Proof.
  revert m r v2 l c. induction k as [|k IH]; intros m r v2 l c Hv Hv2 Hnd Hc Hsz Hk Hpar Hnone; cbn [copy_loop];
    destruct (Z.ltb_spec (4096 * c) sz) as [Hlt|Hge]; try lia;
    try (apply wpv_ret; left; exists v2, l; do 4 (split; [done|]); split; [done|]; split; [done|]; split; [done|];
         intros n; by rewrite decide_False by lia).
  destruct (Hpar c) as [e He]; [lia|]. pose proof (vi_vs _ _ _ _ _ Hv) as Hs.
  destruct (vo_user _ _ Hs c e He) as (Hc' & Hpr & Hr & _).
  apply (wpv_walk_user m r v l c e); [done|done|]. intros pte Hpte Hload.
  rewrite (proj2 (Z.eqb_neq pte 0)) by done.
  eapply wpv_bind; [apply wpv_load|]. intros ? ? ? (-> & -> & ->). rewrite Hload, Hpr. cbn [negb].
  fold (upage e). eapply wpv_bind; [eapply wpv_kalloc; [done|exact (vi_kmem _ _ _ _ _ Hv2)]|].
  intros p ? r1 (-> & -> & Hk1). pose proof (size_tabs _ _ (vi_vs _ _ _ _ _ Hv2)) as Htabs.
  destruct l as [|p l]; cbn [head tail] in *.
  { change (default 0 None =? 0) with true. cbv iota. eapply (wpv_abandon m m r1 v2 [] []); [by destruct Hv2|done|set_solver|].
    simpl length. dlia. }
  change (default 0 (Some p)) with p.
  destruct (vinv_take _ Hend _ _ _ _ _ _ Hv2 Hk1) as (Hv2' & Hp & Hnew & Hp0).
  destruct (vinv_take _ Hend _ _ _ _ _ _ Hv Hk1) as (Hv' & _ & Hnewv & _).
  rewrite (proj2 (Z.eqb_neq p 0)) by done.
  assert (Hnew3 : p ∉ vpages v ++ vpages v2 ++ l) by (intros [?|?]%elem_of_app; [apply Hnewv, elem_of_app; by left|done]).
  assert (HP0 : forall q, q ∈ [p] -> page_ok end_ q) by (by intros q ->%list_elem_of_singleton).
  eapply wpv_bind; [apply wpv_memupd|]. intros _ ? ? (-> & ->).
  destruct (copy_page m p (upage e) (vi_mem _ _ _ _ _ Hv)) as (Hm1 & Hf1 & Hcp).
  set (m1 := memmove m p (upage e) PGSIZE) in *.
  assert (Hv1 : vinv m1 r1 v l).
  { eapply (vinv_frame _ [p]); [exact Hv'|done|done|]. by intros q ->%list_elem_of_singleton. }
  assert (Hv21 : vinv m1 r1 v2 l).
  { eapply (vinv_frame _ [p]); [exact Hv2'|done|done|]. by intros q ->%list_elem_of_singleton. }
  assert (Hfl : 0 <= PTE_FLAGS e < 4096) by (rewrite PTE_FLAGS_spec; dlia).
  eapply wpv_bind; [apply (wpv_map_user o pd end_ H Hend HH m1 r1 v2 l c p (PTE_FLAGS e)); try done; by apply Hnone|].
  intros a m2 r2 [(-> & -> & -> & Hvx)|(v3 & l3 & -> & Ed & Eu & Ek & Hv3 & HP & Hf2)]; cbn [Z.ltb Z.compare].
  - eapply wpv_bind; [by apply (wpv_give o pd end_ H) with (v := v2) (l := [])|]. intros _ m3 r3 (Hvy & Hf3).
    eapply (wpv_abandon m m3 r3 v2 [p] [p]); [done|by eapply frame_trans|set_solver|]. simpl length. dlia.
  - rewrite flags_present in Eu by done. rewrite u32_small by (unfold PGSIZE, USER_PAGES in *; lia).
    replace (4096 * c + PGSIZE) with (4096 * (c + 1)) by (unfold PGSIZE; lia). rewrite <- Ed.
    assert (Hnd3 : NoDup (vpages v ++ vpages v3 ++ l3)).
    { rewrite HP. by rewrite Permutation_middle. }
    assert (Hv3' : vinv m2 r2 v l3) by (eapply (vinv_other m1 m2 r1 r2 v v3 l l3); try done; apply tpages_sub).
    eapply wpv_mono; [apply (IH m2 r2 v3 l3 (c + 1)); try done; try lia|].
    { intros n Hn. apply Hpar. lia. }
    { intros n Hn. rewrite Eu, lookup_insert_ne by lia. apply Hnone. lia. }
    assert (HP' : vpages v3 ++ l3 ≡ₚ vpages v2 ++ p :: l) by (by rewrite HP, Permutation_middle).
    assert (Hf : frame (vpages v2 ++ p :: l) m m2).
    { eapply frame_trans; (eapply frame_mono; [|done]); [set_solver|]. rewrite <- HP'. apply tpages_sub. }
    intros a m' r' [(v' & l' & -> & Hvz & HPz & Hfz & Hok)|(-> & Hlen & Hfree)]; [left|right].
    + exists v', l'. split; [done|]. split; [done|]. split; [by rewrite HPz|]. split.
      { eapply frame_trans; [done|]. eapply frame_mono; [|done]. by apply perm_sub. }
      eapply (copy_ok_step m m1 m2 r1 r2 v v2 v3); try done. by apply Hnone.
    + split; [done|]. split.
      { apply Permutation_length in HP'. rewrite !length_app, !length_vpages, Eu in HP'.
        rewrite map_size_insert_None in HP' by (by apply Hnone). lia. }
      eapply all_freed_trans; [exact Hf|done|]. by eapply all_freed_perm.
Qed.

(** Two processes never reach the same byte. *)
Lemma uaccess_apart m r v v' l va va' a a' w w' :
  vinv m r v l -> vinv m r v' l -> NoDup (vpages v ++ vpages v' ++ l) -> 0 <= va < 2 ^ 32 -> 0 <= va' < 2 ^ 32 ->
  uaccess m (v_dir v) va = Some (a, w) -> uaccess m (v_dir v') va' = Some (a', w') -> a <> a'.
Proof.
  intros Hv Hv' Hn Hva Hva'. rewrite (uaccess_vs m r v l), (uaccess_vs m r v' l) by done.
  destruct (v_user v !! (va / 4096)) as [e|] eqn:He; [|done]. simpl. destruct (user e); [|done]. intros [= <- _].
  destruct (v_user v' !! (va' / 4096)) as [e'|] eqn:He'; [|done]. simpl. destruct (user e'); [|done]. intros [= <- _].
  pose proof (vinv_user_page _ _ _ _ _ _ _ Hv He) as Hi. pose proof (vinv_user_page _ _ _ _ _ _ _ Hv' He') as Hi'.
  destruct (pages_apart end_ (upage e) (upage e')) as [Hd|Hd]; [exact (vi_pages _ _ _ _ _ Hv _ Hi)|exact (vi_pages _ _ _ _ _ Hv' _ Hi')| | |];
    [|unfold PGSIZE in Hd; dlia|unfold PGSIZE in Hd; dlia].
  intros E. apply NoDup_app in Hn as (_ & Hd & _). apply (Hd _ Hi). rewrite E. apply elem_of_app. by left.
Qed.

(** The user's view of a copied page. *)
Lemma uread_copied m m' r r' v v' l l' va e e' :
  vinv m r v l -> vinv m' r' v' l' -> 0 <= va < 2 ^ 32 ->
  v_user v !! (va / 4096) = Some e -> v_user v' !! (va / 4096) = Some e' -> PTE_FLAGS e' = PTE_FLAGS e ->
  copied m (upage e) m' (upage e') -> uread m' (v_dir v') va = uread m (v_dir v) va.
Proof.
  intros Hv Hv' Hva He He' Hf Hc. rewrite (uread_vs m r v l), (uread_vs m' r' v' l') by done.
  rewrite He, He'. simpl.
  assert (user e' = user e /\ writable e' = writable e) as [-> ->].
  { unfold user, writable, PTE_U, PTE_W. rewrite !(flags_low e), !(flags_low e'), Hf by lia. done. }
  rewrite Hc by (unfold PGSIZE; dlia). done.
Qed.

Lemma parent_view m m' r r' v v' l l' P va :
  vinv m r v l -> vinv m' r' v' l' -> frame P m m' -> P ⊆ vpages v' ++ l' ->
  NoDup (vpages v ++ vpages v' ++ l') -> 0 <= va < 2 ^ 32 -> uread m' (v_dir v) va = uread m (v_dir v) va.
Proof.
  intros Hv Hv' Hf HP Hn Hva. assert (Hvv : vinv m' r' v l') by (by apply (vinv_other m m' r r' v v' l l' P)).
  apply (uread_same m m' r r' v v l l'); try done. intros e He.
  by apply (parent_page m m' r r' v v' l l' P (va / 4096)).
Qed.

Lemma child_view m m' r r' v v2 v' l l' sz va :
  vinv m r v l -> vinv m' r' v' l' -> v_user v2 = ∅ -> copy_ok m v v2 0 sz m' v' -> 0 <= va < 2 ^ 32 ->
  uread m' (v_dir v') va = if decide (va < (sz + 4095) / 4096 * 4096) then uread m (v_dir v) va else None.
Proof.
  intros Hv Hv' Eu (_ & _ & _ & Hg) Hva. specialize (Hg (va / 4096)). rewrite Eu, lookup_empty in Hg.
  destruct (decide (va < _)) as [Hd|Hd].
  - rewrite decide_True in Hg by dlia. destruct Hg as (e & e' & He & He' & Hf & Hc).
    by apply (uread_copied m m' r r' v v' l l' va e e').
  - rewrite decide_False in Hg by dlia. by rewrite (uread_vs m' r' v' l'), Hg by done.
Qed.

Section child.
Context (data_ : Z).
Hypothesis Hdata : KERNLINK < data_ < KERNBASE + PHYSTOP.
Hypothesis Hdm : data_ mod 4096 = 0.

(** C16: [copyuvm] of a process of [sz] bytes gives a directory under which the user
    reads, for every address of the parent's pages, the byte the parent reads, with the
    same permission to write, and nothing above them; no address of the one process ever
    reaches a byte of the other, and the parent's memory is as before.  Or it returns 0,
    only when the free pages do not suffice for the pages and a full set of tables, and
    then every page it took is free again.  Nothing but free pages is written. *)
Theorem copyuvm_spec m r v l sz :
  vinv m r v l -> 0 <= sz <= KERNBASE -> (forall n, 0 <= n /\ 4096 * n < sz -> is_Some (v_user v !! n)) ->
  wpv m r (copyuvm end_ data_ (v_dir v) sz) (fun a m' r' =>
    (exists v' l', a = v_dir v' /\ a <> 0 /\ vinv m' r' v' l' /\ vinv m' r' v l' /\ vpages v' ++ l' ≡ₚ l /\
      frame l m m' /\ (forall n, v_kern v' !! n = seg_entry (Xv6Vm.kmap data_) n) /\
      (forall va, 0 <= va < 2 ^ 32 ->
        uread m' a va = (if decide (va < PGROUNDUP sz) then uread m (v_dir v) va else None) /\
        uread m' (v_dir v) va = uread m (v_dir v) va) /\
      (forall va va' x x' w w', 0 <= va < 2 ^ 32 -> 0 <= va' < 2 ^ 32 ->
        uaccess m' (v_dir v) va = Some (x, w) -> uaccess m' a va' = Some (x', w') -> x <> x')) \/
    (a = 0 /\ Z.of_nat (length l) <= 1025 + PGROUNDUP sz / PGSIZE /\ all_freed end_ m m' r' l)).
Proof.
  intros Hv Hsz Hpar. unfold copyuvm.
  rewrite PGROUNDUP_spec by (unfold KERNBASE, PGSIZE in *; lia). change PGSIZE with 4096.
  replace (sz + 4096 - 1) with (sz + 4095) by lia.
  rewrite (Z.mul_comm 4096 ((sz + 4095) / 4096)), Z.div_mul by done.
  eapply wpv_bind; [apply (wpv_setupkvm data_ Hdata Hdm); [exact (vi_mem _ _ _ _ _ Hv)|exact (vi_kmem _ _ _ _ _ Hv)]|].
  intros d m1 r1 [(v2 & l1 & -> & Hv2 & Eu & Ek & HP & Hf1)|(-> & Hlen & Hfree)].
  2:{ apply wpv_ret. right. split; [done|]. split; [|done]. dlia. }
  assert (Hnd : NoDup (vpages v ++ vpages v2 ++ l1)) by (rewrite HP; exact (vi_nodup _ _ _ _ _ Hv)).
  assert (Hsub : tpages v2 ⊆ vpages v2 ++ l1) by apply tpages_sub.
  assert (Hv1 : vinv m1 r1 v l1) by (by apply (vinv_other m m1 r r1 v v2 l l1 (tpages v2))).
  assert (Hd0 : v_dir v2 <> 0).
  { intros E. destruct (vi_pages _ _ _ _ _ Hv2 (v_dir v2)) as (_ & ? & _); [apply list_elem_of_here|].
    unfold KERNBASE in *. lia. }
  rewrite (proj2 (Z.eqb_neq _ 0)) by done.
  eapply wpv_mono.
  { apply (wpv_copy_loop _ m1 r1 v v2 l1 0 sz); try done; [lia| |]; [|intros n _; by rewrite Eu].
    rewrite Z2Nat.id by dlia. dlia. }
  intros a m' r' [(v' & l' & -> & Hv' & HP' & Hf2 & Hok)|(-> & Hlen & Hfree)]; [left|right].
  - pose proof Hok as (Ed & Ek' & _). assert (Hnd' : NoDup (vpages v ++ vpages v' ++ l')) by (by rewrite HP').
    assert (Hf : frame (vpages v' ++ l') m m').
    { eapply frame_trans; (eapply frame_mono; [|done]); rewrite HP'; [apply tpages_sub|done]. }
    assert (Hvv : vinv m' r' v l') by (by apply (vinv_other m m' r r' v v' l l' (vpages v' ++ l'))).
    exists v', l'. split; [done|]. split; [done|]. split; [done|]. split; [done|].
    split; [by rewrite HP'|]. split; [eapply frame_mono; [|exact Hf]; rewrite HP'; by apply perm_sub|].
    split; [intros n; by rewrite Ek'|]. split.
    + intros va Hva. split; [|by apply (parent_view m m' r r' v v' l l' (vpages v' ++ l'))].
      rewrite <- Ed, (child_view m1 m' r1 r' v v2 v' l1 l' sz) by done. case_decide; [|done].
      by apply (parent_view m m1 r r1 v v2 l l1 (tpages v2)).
    + intros va va' x x' w w' Hva Hva' E E'. rewrite <- Ed in E'.
      by apply (uaccess_apart m' r' v v' l' va va' x x' w w').
  - split; [done|]. split.
    + apply Permutation_length in HP. rewrite !length_app, !length_vpages, Eu, map_size_empty in HP. lia.
    + eapply all_freed_trans; [exact Hf1| |by eapply all_freed_perm]. intros p Hp. rewrite <- HP. by apply tpages_sub.
Qed.
End child.

(** ** [copyout] *)

(** Writing to user pages. *)
Lemma vinv_user_write P m m1 r v l :
  vinv m r v l -> mem_ok m1 -> frame P m m1 -> P ⊆ upages v -> vinv m1 r v l.
Proof.
  intros Hv Hm1 Hf HP. pose proof Hv as [Hm Hs Hk Hp Hn].
  assert (HPok : forall p, p ∈ P -> page_ok end_ p /\ p ∉ tpages v /\ p ∉ l).
  { intros p (n & e & He & ->)%HP%elem_of_upages_inv. by apply (vinv_user _ _ _ _ _ _ _ Hv He). }
  constructor; try done.
  - eapply (vs_ok_frame end_ P); [by intros p [? _]%HPok|done| |done]. intros p Hin. split.
    + apply Hp. apply elem_of_app. by left.
    + intros (_ & Hnot & _)%HPok. done.
  - eapply (kmem_ok_frame end_ P); [by intros p [? _]%HPok|done|done|]. intros p (_ & _ & Hnot)%HPok. done.
Qed.

Lemma upage_inj m r v l n n' e e' :
  vinv m r v l -> v_user v !! n = Some e -> v_user v !! n' = Some e' -> n <> n' -> upage e <> upage e'.
Proof.
  intros Hv He He' Hne E. pose proof (vi_nodup _ _ _ _ _ Hv) as (Hn & _)%NoDup_app.
  apply NoDup_app in Hn as (_ & _ & Hn). rewrite (upages_del n e v He) in Hn.
  apply NoDup_cons in Hn as [Hn _]. apply Hn. rewrite E. apply (elem_of_upages _ n'). simpl.
  by rewrite lookup_delete_ne.
Qed.

(** The bytes from [p] on, as the user finds them at [va]. *)
Definition pasted m d va p len x : option (Z * bool) :=
  if decide (va <= x < va + len) then (fun '(_, w) => (load8 m (p + (x - va)), w)) <$> uread m d x
  else uread m d x.

(** One chunk, inside a page. *)
Lemma paste_page m r v l n e off p k :
  vinv m r v l -> v_user v !! n = Some e -> user e = true -> 0 <= off -> 0 <= k -> off + k <= 4096 ->
  let m1 := memmove m (upage e + off) p k in
  vinv m1 r v l /\ frame [upage e] m m1 /\
  forall x, 0 <= x < 2 ^ 32 -> uread m1 (v_dir v) x = pasted m (v_dir v) (4096 * n + off) p k x.
Proof.
  intros Hv He Hu Hoff Hk Hle m1. pose proof (vi_mem _ _ _ _ _ Hv) as Hm.
  assert (Hl1 : forall b, load8 m1 b =
    if decide (upage e + off <= b < upage e + off + k) then load8 m (p + (b - (upage e + off))) else load8 m b)
    by (intros b; by apply memmove_load8).
  assert (Hf : frame [upage e] m m1).
  { intros b Hb. specialize (Hb _ (list_elem_of_here _ _)). unfold PGSIZE in Hb. rewrite Hl1. by rewrite decide_False by lia. }
  assert (Hin : [upage e] ⊆ upages v) by (intros q ->%list_elem_of_singleton; by eapply elem_of_upages).
  assert (Hv1 : vinv m1 r v l) by (by eapply (vinv_user_write [upage e]); [|apply memmove_ok|..]).
  split; [done|]. split; [done|]. intros x Hx. unfold pasted. rewrite !(uread_vs _ r v l) by done.
  destruct (decide (x / 4096 = n)) as [En|En].
  - rewrite En, He. simpl. rewrite Hu, Hl1. repeat case_decide; try done; try (exfalso; dlia).
    simpl. do 3 f_equal. dlia.
  - rewrite decide_False by dlia. destruct (v_user v !! (x / 4096)) as [e'|] eqn:E'; [|done]. simpl.
    destruct (user e'); [|done]. do 2 f_equal.
    apply (same_page_frame end_ [upage e] m m1 (upage e')); [|done| | |unfold PGSIZE; dlia].
    + intros q ->%list_elem_of_singleton. exact (proj1 (vinv_user _ _ _ _ _ _ _ Hv He)).
    + exact (proj1 (vinv_user _ _ _ _ _ _ _ Hv E')).
    + intros Eq%list_elem_of_singleton. by apply (upage_inj m r v l (x / 4096) n e' e).
Qed.

(** The source is not in a page of the process. *)
Definition outside v p len : Prop :=
  forall i q, 0 <= i < len -> q ∈ upages v -> p + i < q \/ q + PGSIZE <= p + i.

Lemma pasted_twice m m1 r v l va p k len :
  vinv m r v l -> 0 <= k <= len -> frame (upages v) m m1 -> outside v p len ->
  (forall x, 0 <= x < 2 ^ 32 -> uread m1 (v_dir v) x = pasted m (v_dir v) va p k x) ->
  forall x, 0 <= x < 2 ^ 32 -> pasted m1 (v_dir v) (va + k) (p + k) (len - k) x = pasted m (v_dir v) va p len x.
Proof.
  intros Hv Hk Hf Ho Hu x Hx. unfold pasted at 1. rewrite (Hu x Hx). unfold pasted.
  repeat case_decide; try lia; try done.
  destruct (uread m (v_dir v) x) as [[b w]|]; [|done]. simpl. do 2 f_equal.
  replace (p + k + (x - (va + k))) with (p + (x - va)) by lia.
  apply Hf. intros q Hq. apply Ho; [lia|done].
Qed.

Lemma wpv_uva2ka m r v l n e :
  vinv m r v l -> v_user v !! n = Some e -> user e = true ->
  wpv m r (uva2ka (v_dir v) (4096 * n)) (fun a m' r' => a = upage e /\ m' = m /\ r' = r).
Proof.
  intros Hv He Hu. destruct (vo_user _ _ (vi_vs _ _ _ _ _ Hv) n e He) as (_ & Hpr & _).
  apply (wpv_walk_user m r v l n e); [done|done|]. intros pte Hpte Hl.
  rewrite (proj2 (Z.eqb_neq pte 0)) by done. eapply wpv_bind; [apply wpv_load|]. intros ? ? ? (-> & -> & ->).
  rewrite Hl, Hpr. unfold user in Hu. apply negb_true_iff in Hu. rewrite Hu. by apply wpv_ret.
Qed.

(** C27: [copyout] of [len] bytes to a range of the process's own pages returns 0 and
    leaves the bytes where the process reads them, across page boundaries and however
    the physical pages lie; every other byte the process reads, every permission and
    every byte outside its user pages is as before. *)
Theorem copyout_spec n m r v l va p len :
  vinv m r v l -> 0 <= va -> 0 <= len -> va + len <= KERNBASE -> va mod 4096 + len <= 4096 * Z.of_nat n ->
  (forall x, va <= x < va + len -> exists e, v_user v !! (x / 4096) = Some e /\ user e = true) ->
  outside v p len ->
  wpv m r (copyout n (v_dir v) va p len) (fun a m' r' =>
    a = 0 /\ r' = r /\ vinv m' r v l /\ frame (upages v) m m' /\
    forall x, 0 <= x < 2 ^ 32 -> uread m' (v_dir v) x = pasted m (v_dir v) va p len x).
Proof.
  revert m va p len. induction n as [|n IH]; intros m va p len Hv Hva Hlen Htop Hn Hmap Ho; cbn [copyout];
    destruct (Z.ltb_spec 0 len) as [Hpos|Hz]; try dlia;
    try (apply wpv_ret; do 4 (split; [done|]); intros x Hx; unfold pasted; by rewrite decide_False by lia).
  destruct (Hmap va) as (e & He & Hu); [lia|]. unfold KERNBASE in Htop.
  rewrite PGROUNDDOWN_spec by lia. eapply wpv_bind; [by apply (wpv_uva2ka m r v l (va / 4096) e)|].
  intros ? ? ? (-> & -> & ->). destruct (vinv_user _ _ _ _ _ _ _ Hv He) as (Hpe & _).
  rewrite (proj2 (Z.eqb_neq (upage e) 0)) by (destruct Hpe as (_ & ? & _); unfold KERNBASE in *; lia).
  set (off := va - 4096 * (va / 4096)). assert (Hoff : 0 <= off < 4096) by (unfold off; dlia).
  rewrite (u32_small (PGSIZE - off)), (u32_small (4096 * (va / 4096) + PGSIZE)) by (unfold PGSIZE; dlia).
  set (k := if len <? PGSIZE - off then len else PGSIZE - off).
  assert (Hk : 0 < k <= len /\ off + k <= 4096 /\ (k = len \/ k < len /\ off + k = 4096))
    by (unfold k, PGSIZE; destruct (Z.ltb_spec len (4096 - off)); lia).
  eapply wpv_bind; [apply wpv_memupd|]. intros _ ? ? (-> & ->).
  destruct (paste_page m r v l (va / 4096) e off p k Hv He Hu) as (Hv1 & Hf1 & Hp1); [lia..|].
  replace (4096 * (va / 4096) + off) with va in Hp1 by (unfold off; lia).
  assert (Hf1' : frame (upages v) m (memmove m (upage e + off) p k)).
  { eapply frame_mono; [|exact Hf1]. intros q ->%list_elem_of_singleton. by eapply elem_of_upages. }
  destruct Hk as (Hk1 & Hk2 & [Ek|[Hk3 Hk4]]).
  - rewrite Ek, Z.sub_diag. destruct n; cbn [copyout]; apply wpv_ret; rewrite <- Ek; done.
  - replace (4096 * (va / 4096) + PGSIZE) with (va + k) by (unfold off, PGSIZE in *; lia).
    eapply wpv_mono; [apply (IH _ (va + k) (p + k) (len - k) Hv1)|]; try lia.
    + unfold KERNBASE. lia.
    + assert ((va + k) mod 4096 = 0) as -> by (unfold off in *; dlia). unfold off in *. dlia.
    + intros x Hx. apply Hmap. lia.
    + intros i q Hi Hq. rewrite <- Z.add_assoc. apply Ho; [lia|done].
    + intros a m' r' (-> & -> & Hv' & Hf' & Hp'). do 3 (split; [done|]).
      split; [by eapply frame_trans|]. intros x Hx. rewrite Hp' by done.
      apply (pasted_twice m _ r v l); try done. lia.
Qed.

(** ** [inituvm] and [clearpteu] *)

(** With two free pages, the first process starts with the initial code at address
    0, followed by zeros up to the end of the page. *)
Lemma inituvm_spec m r v p l init sz :
  vinv m r v (p :: l) -> l <> [] -> v_user v !! 0 = None -> 0 <= sz < PGSIZE ->
  (forall i q, 0 <= i < sz -> q ∈ vpages v ++ p :: l -> init + i < q \/ q + PGSIZE <= init + i) ->
  wpv m r (inituvm (v_dir v) init sz) (fun _ m' r' => exists v' l',
    vinv m' r' v' l' /\ v_dir v' = v_dir v /\ vpages v' ++ l' ≡ₚ vpages v ++ p :: l /\
    forall x, 0 <= x < 4096 ->
      uread m' (v_dir v') x = Some (if decide (x < sz) then load8 m (init + x) else 0, true)).
Proof.
  intros Hv Hl Hnone Hsz Ho. unfold inituvm. rewrite (proj2 (Z.leb_gt PGSIZE sz)) by lia.
  eapply wpv_bind; [eapply wpv_kalloc; [done|exact (vi_kmem _ _ _ _ _ Hv)]|].
  intros a ? r1 (-> & -> & Hk1). cbn [head tail] in *. change (default 0 (Some p)) with p.
  destruct (vinv_take _ Hend _ _ _ _ _ _ Hv Hk1) as (Hv1 & Hp & Hnew & Hp0).
  eapply wpv_bind; [apply wpv_memupd|]. intros _ ? ? (-> & ->).
  set (m1 := memset m p 0 PGSIZE). assert (Hf1 : frame [p] m m1) by apply frame_memset.
  assert (Hv1' : vinv m1 r1 v l).
  { eapply (vinv_frame _ [p]); [exact Hv1| |exact Hf1|by intros q ->%list_elem_of_singleton].
    unfold m1. rewrite memset_same by done. by eapply mem_ok_memset, vi_mem. }
  eapply wpv_bind.
  { apply (wpv_map_user o pd end_ H Hend HH m1 r1 v l 0 p (Z.lor PTE_W PTE_U)); by unfold USER_PAGES. }
  intros a m2 r2 [(_ & -> & _)|(v2 & l2 & _ & Ed & Eu & Ek & Hv2 & HP & Hf2)]; [done|].
  eapply wpv_mono; [apply wpv_memupd|]. intros _ ? ? (-> & ->).
  destruct (upage_entry end_ p 7 Hp) as [Ep _]; [lia|]. destruct (V2P_page _ _ Hp) as (_ & Hmod & _).
  change (Z.lor (Z.lor PTE_W PTE_U) 1) with 7 in Eu.
  assert (E2 : v_user v2 !! 0 = Some (V2P p + 7)) by (rewrite Eu; apply lookup_insert_eq).
  assert (HU : Z.land (V2P p + 7) 0xFFF = 7) by (change 0xFFF with (Z.ones 12); rewrite Z.land_ones by done; dlia).
  assert (Huser : user (V2P p + 7) = true)
    by (unfold user, PTE_U; rewrite (flags_low (V2P p + 7)) by lia; unfold PTE_FLAGS; by rewrite HU).
  destruct (paste_page m2 r2 v2 l2 0 _ 0 init sz Hv2 E2 Huser) as (Hv3 & Hf3 & Hu3); [unfold PGSIZE in *; lia..|].
  rewrite Ep, Z.add_0_r in Hv3, Hf3, Hu3. exists v2, l2. split; [done|]. split; [done|].
  split; [by rewrite HP, Permutation_middle|]. intros x Hx. rewrite Hu3 by lia. unfold pasted.
  assert (Hz : uread m2 (v_dir v2) x = Some (0, true)).
  { apply (uread_zero m2 r2 v2 l2 x (V2P p + 7)); [done|lia|by rewrite Z.div_small by lia|done|].
    rewrite Ep. intros b Hb. destruct (vinv_user _ _ _ _ _ _ _ Hv2 E2) as (_ & Hnt & _). rewrite Ep in Hnt.
    rewrite (same_page_frame end_ (tpages v2) m1 m2 p (proj1 (vinv_tpages _ _ _ _ _ Hv2)) Hf2 Hp Hnt b Hb).
    unfold m1. rewrite memset_same, memset_load by done. by rewrite decide_True by done. }
  rewrite Hz. change (4096 * 0) with 0. repeat case_decide; try lia; [|done]. simpl. rewrite Z.sub_0_r.
  do 2 f_equal. transitivity (load8 m1 (init + x)).
  - apply Hf2. intros q Hq%(tpages_sub v2 l2). apply Ho; [lia|]. by rewrite HP, Permutation_middle in Hq.
  - apply Hf1. intros q ->%list_elem_of_singleton. apply Ho; [lia|]. set_solver.
Qed.

Lemma clear_user e :
  0 <= e < 2 ^ 32 -> let e' := Z.land e (u32 (Z.lnot PTE_U)) in
  0 <= e' < 2 ^ 32 /\ present e' = present e /\ user e' = false /\ upage e' = upage e.
Proof.
  intros He e'. assert (Hr : 0 <= e' < 2 ^ 32).
  { assert (E : Z.land e' (Z.ones 32) = e')
      by (unfold e'; rewrite <- Z.land_assoc; f_equal; by vm_compute).
    rewrite Z.land_ones in E by done. pose proof (Z.mod_pos_bound e' (2 ^ 32)). lia. }
  assert (Hb : forall i, Z.testbit e' i = Z.testbit e i && Z.testbit (u32 (Z.lnot PTE_U)) i)
    by (intros i; apply Z.land_spec).
  split; [done|]. split; [|split].
  - rewrite !present_spec, <- !Z.bit0_odd, Hb. apply andb_true_r.
  - unfold user, e'. rewrite <- Z.land_assoc. change (Z.land (u32 (Z.lnot PTE_U)) PTE_U) with 0. by rewrite Z.land_0_r.
  - unfold upage. rewrite !PTE_ADDR_spec by done. do 2 f_equal.
    change 4096 with (2 ^ 12). rewrite <- !Z.shiftr_div_pow2 by done. apply Z.bits_inj'. intros i Hi.
    rewrite !Z.shiftr_spec, Hb by done. destruct (decide (i + 12 < 32)).
    + unfold u32. rewrite Z.mod_pow2_bits_low, Z.lnot_spec, (testbit_small PTE_U 3) by (done || lia).
      apply andb_true_r.
    + rewrite (testbit_small e 32) by lia. done.
Qed.

(** [clearpteu] on a mapped page closes that page to the user, and no other. *)
Lemma clearpteu_spec m r v l n e :
  vinv m r v l -> v_user v !! n = Some e ->
  wpv m r (clearpteu (v_dir v) (4096 * n)) (fun _ m' r' => exists v',
    vinv m' r' v' l /\ v_dir v' = v_dir v /\ vpages v' ≡ₚ vpages v /\ frame (tpages v) m m' /\
    forall x, 0 <= x < 2 ^ 32 -> uread m' (v_dir v) x = if decide (x / 4096 = n) then None else uread m (v_dir v) x).
Proof.
  intros Hv He. pose proof (vi_vs _ _ _ _ _ Hv) as Hs. destruct (vo_user _ _ Hs n e He) as (Hn & Hpr & Hr & [t Ht]).
  destruct (clear_user e Hr) as (Hr' & Hpr' & Hu' & Hp'). set (e' := Z.land e (u32 (Z.lnot PTE_U))) in *.
  unfold clearpteu. destruct (vinv_tpages _ _ _ _ _ Hv) as [Htp Hnd]. unfold USER_PAGES in Hn.
  eapply wpv_bind; [eapply (wpv_walk_some o pd end_ H); [exact Hv|lia|]; by replace (4096 * n / 4096) with n by dlia|].
  replace (4096 * n / 4096) with n by dlia. intros pte ? ? (-> & -> & ->).
  assert (Hpt : page_ok end_ t) by (by eapply Htp, elem_of_tabs).
  rewrite (proj2 (Z.eqb_neq _ 0)) by (destruct Hpt as (_ & ? & _); unfold KERNBASE in *; dlia).
  eapply wpv_bind; [apply wpv_load|]. intros ? ? ? (-> & -> & ->).
  rewrite (vo_entry _ _ Hs _ t) by (done || dlia).
  replace (1024 * (n / 1024) + n mod 1024) with n by dlia. unfold v_entry.
  rewrite (proj2 (Z.ltb_lt n USER_PAGES)), He by (unfold USER_PAGES; lia). simpl default. fold e'.
  eapply wpv_mono; [apply wpv_store|]. intros _ ? ? (-> & ->). set (v' := put_user n e' v).
  assert (HP : vpages v' ≡ₚ vpages v).
  { unfold vpages. change (tpages v') with (tpages v). f_equiv. rewrite (upages_del n e v He), <- Hp'.
    rewrite <- (upages_put n e' (del_user n v)) by apply lookup_delete_eq.
    unfold v', put_user, upages. simpl. by rewrite insert_delete_eq. }
  assert (Hin : t ∈ tpages v) by (by eapply elem_of_tabs).
  destruct (vinv_tables _ _ _ _ _ n t e' v' Hv Ht) as [Hv' Hf]; try done.
  - apply vs_ok_put_user with end_; try done. by rewrite Hpr'.
  - intros p. rewrite HP. exact (vi_pages _ _ _ _ _ Hv p).
  - rewrite HP. exact (vi_nodup _ _ _ _ _ Hv).
  - exists v'. split; [done|]. split; [done|]. split; [done|]. split; [done|]. intros x Hx.
    change (v_dir v) with (v_dir v') at 1. case_decide as Hd.
    + rewrite (uread_vs _ r v' l) by done. simpl. rewrite Hd, lookup_insert_eq. simpl. by rewrite Hu'.
    + apply (uread_same m _ r r v v' l l); try done; [by apply lookup_insert_ne|]. intros e1 He1.
      destruct (vinv_user _ _ _ _ _ _ _ Hv He1) as (? & ? & _). by eapply same_page_frame.
Qed.

(** [uva2ka], and with it [copyout], reads through a null pointer where the directory
    has no table. *)
Lemma uva2ka_null m r v l va s :
  vinv m r v l -> 0 <= va < 2 ^ 32 -> v_tabs v !! (va / 4096 / 1024) = None ->
  world o pd H s -> h_mem (x_hw s) = m -> x_rest s = r ->
  exists s', uva2ka (v_dir v) va s = Panic "uva2ka: null pointer" s'.
Proof.
  intros Hv Hva Ht Hw Hm Hr. pose proof (wpv_walk_none o pd end_ H m r v l va Hv Hva Ht s Hw Hm Hr) as HW.
  apply wp_Ok in HW as (a & s1 & E & H' & _ & _ & _ & -> & _). exists s1.
  unfold uva2ka. by rewrite (run_bind _ _ _ _ _ E).
Qed.
End user.

(** ** A process of one page *)

Definition uex_end : Z := KERNBASE + 0x200000.
Definition uex_data : Z := KERNBASE + 0x108000.
Definition uex_dir : Z := KERNBASE + 0x300000.
Definition uex_page : Z := KERNBASE + 0x301000.

(** The free pages and how they got there. *)
Definition uex_free (i : nat) : Z := KERNBASE + 0x400000 + 4096 * Z.of_nat i.
Fixpoint uex_fill (n : nat) : mem * kmem :=
  match n with
  | O => (∅, MkKmem true 0)
  | S n => let '(m, k) := uex_fill n in
           (freed m (uex_free n) (freelist k), MkKmem (use_lock k) (uex_free n))
  end.
Fixpoint uex_list (n : nat) : list Z :=
  match n with
  | O => []
  | S n => uex_free n :: uex_list n
  end.

Lemma uex_free_ok i : (i < 2000)%nat -> page_ok uex_end (uex_free i).
Proof. intros Hi. unfold page_ok, uex_end, uex_free, KERNBASE, PHYSTOP, PGSIZE. split; [dlia|lia]. Qed.

Lemma uex_list_in n p : p ∈ uex_list n -> exists i, (i < n)%nat /\ p = uex_free i.
Proof.
  induction n as [|n IH]; simpl; [by intros ?%not_elem_of_nil|].
  intros [->|(i & Hi & ->)%IH]%elem_of_cons; [exists n|exists i]; split; lia || done.
Qed.

Lemma uex_fill_ok n :
  (n <= 2000)%nat -> mem_ok (uex_fill n).1 /\ kmem_ok uex_end (uex_fill n).1 (uex_fill n).2 (uex_list n) /\
  length (uex_list n) = n.
Proof.
  induction n as [|n IH]; intros Hn; simpl.
  - split; [by apply map_Forall_empty|]. split; [|done]. constructor; [done|set_solver|constructor].
  - destruct IH as (Hm & Hk & Hl); [lia|]. destruct (uex_fill n) as [m k]. simpl in *. split_and!; [| |lia].
    + unfold freed. apply mem_ok_store32. rewrite memset_same by done. by apply mem_ok_memset.
    + apply kmem_ok_push; [done|apply uex_free_ok; lia|]. intros (i & Hi & E)%uex_list_in. unfold uex_free in E. lia.
Qed.

(** The directory [d], a table [t] and the page [p] at address 0. *)
Definition one_m0 (m : mem) (d : Z) : mem := memset m d 0 PGSIZE.
Definition one_m (m : mem) (d t p : Z) : mem :=
  store32 (store32 (memset (one_m0 m d) t 0 PGSIZE) (d + 4 * 0) (V2P t + 7)) (t + 4 * (0 mod 1024)) (V2P p + 7).
Definition one_r (m : mem) (d t : Z) : vst unit := MkVst (MkKmem true (load32 (one_m0 m d) t)) 0 0 0 tt.
Definition one_v (d t p : Z) : vspace := put_user 0 (V2P p + 7) (add_tab 0 t (MkVs d ∅ ∅ ∅)).

Lemma one_page_ok end_ m k d t p l :
  KERNBASE < end_ -> mem_ok m -> kmem_ok end_ m k (t :: l) -> page_ok end_ d -> page_ok end_ p -> d ∉ t :: l -> p ∉ d :: t :: l ->
  vinv end_ (one_m m d t p) (one_r m d t) (one_v d t p) l.
Proof.
  intros Hend Hm Hk Hd Hp Hnd Hnp. set (r0 := MkVst k 0 0 0 tt).
  assert (Hk0 : kmem_ok end_ m (kmem_of r0) (t :: l)) by exact Hk.
  pose proof (vinv_new end_ m r0 d (t :: l) Hm Hk0 Hd Hnd) as Hv0. fold (one_m0 m d) in Hv0.
  pose proof (vi_kmem _ _ _ _ _ Hv0) as Hk1. apply kmem_ok_pop in Hk1 as (_ & _ & Hk1).
  destruct (vinv_add_tab end_ [] Hend ltac:(apply not_elem_of_nil) _ r0 (one_r m d t) _ t l 0 Hv0 (kmem_ok_flag _ _ _ _ true Hk1)) as (Hv1 & HP & _);
    [lia|done|].
  apply (vinv_put_user end_ [] Hend ltac:(apply not_elem_of_nil) _ _ _ l 0 t p 7 Hv1); try done.
Qed.

Definition uex_tab : Z := uex_free 1099.
Definition uex_m : mem := one_m (uex_fill 1100).1 uex_dir uex_tab uex_page.
Definition uex_r : vst unit := one_r (uex_fill 1100).1 uex_dir uex_tab.
Definition uex_v : vspace := one_v uex_dir uex_tab uex_page.

#[local] Opaque uex_fill.

Lemma uex_out n q : (n <= 2000)%nat -> q < KERNBASE + 0x400000 -> q ∉ uex_list n.
Proof. intros Hn Hq (i & Hi & ->)%uex_list_in. unfold uex_free in Hq. lia. Qed.

Lemma uex_ok : vinv uex_end uex_m uex_r uex_v (uex_list 1099) /\ length (uex_list 1099) = 1099%nat.
Proof.
  destruct (uex_fill_ok 1100) as (Hm & Hk & _); [lia|]. destruct (uex_fill_ok 1099) as (_ & _ & Hlen); [lia|].
  split; [|done]. unfold uex_m, uex_r, uex_v. apply (one_page_ok _ _ (uex_fill 1100).2); [done|done|exact Hk| | | |].
  - by vm_compute.
  - by vm_compute.
  - apply (uex_out 1100); [lia|]. unfold uex_dir. lia.
  - apply not_elem_of_cons. split; [done|]. apply (uex_out 1100); [lia|]. unfold uex_page. lia.
Qed.

(** That process runs. *)
Definition running_at (m : mem) (r : vst unit) : xst (vst unit) :=
  with_hw (set_hmem m (x_hw (ex_running r))) (ex_running r).

Lemma running_at_world m r : world (Some 0%nat) 7 [] (running_at m r).
Proof.
  destruct (ex_running_world r) as [(i & c & [? ? ? ? ? ? ?]) ? ?]. constructor; [|done|done].
  exists i, c. by constructor.
Qed.

Lemma running_at_wpv {A} m r (k : M (xst (vst unit)) A) Q :
  wpv (Some 0%nat) 7 [] m r k Q -> wp k (fun a s' => Q a (h_mem (x_hw s')) (x_rest s')) (running_at m r).
Proof.
  intros Hk. eapply wp_mono; [exact (Hk (running_at m r) (running_at_world m r) eq_refl eq_refl)|].
  by intros a s' (H' & _ & _ & _ & HQ).
Qed.

Lemma copyuvm_spec_witness :
  wp (copyuvm uex_end uex_data uex_dir 4096) (fun a s' =>
    a <> 0 /\ forall va, 0 <= va < 2 ^ 32 ->
      uread (h_mem (x_hw s')) a va =
      if decide (va < PGROUNDUP 4096) then uread uex_m uex_dir va else None) (running_at uex_m uex_r).
Proof.
  destruct uex_ok as [Hv Hl].
  pose proof (copyuvm_spec (Some 0%nat) 7 uex_end [] ltac:(by vm_compute) ltac:(apply not_elem_of_nil)
    uex_data ltac:(by vm_compute) ltac:(by vm_compute) uex_m uex_r uex_v (uex_list 1099) 4096 Hv ltac:(by vm_compute)
    ltac:(intros n Hn; assert (n = 0) as -> by lia; by eexists)) as HW.
  eapply wp_mono; [exact (running_at_wpv _ _ _ _ HW)|].
  intros a s' [(v' & l' & _ & Ha & _ & _ & _ & _ & _ & Hu & _)|(_ & Hlen & _)].
  - split; [done|]. intros va Hva. by apply Hu.
  - rewrite Hl in Hlen. by vm_compute in Hlen.
Defined.


Lemma copyout_spec_witness :
  wp (copyout 1 uex_dir 100 uex_data 50) (fun a s' => a = 0 /\
    uread (h_mem (x_hw s')) uex_dir 149 = pasted uex_m uex_dir 100 uex_data 50 149) (running_at uex_m uex_r).
Proof.
  destruct uex_ok as [Hv _].
  pose proof (copyout_spec (Some 0%nat) 7 uex_end [] ltac:(by vm_compute)
    1 uex_m uex_r uex_v (uex_list 1099) 100 uex_data 50 Hv ltac:(lia) ltac:(lia) ltac:(by vm_compute)
    ltac:(by vm_compute)
    ltac:(intros x Hx; exists (V2P uex_page + 7); rewrite Z.div_small by lia; by split)
    ltac:(intros i q Hi Hq; change (upages uex_v) with [uex_page] in Hq; apply list_elem_of_singleton in Hq as ->;
          unfold uex_data, uex_page; lia)) as HW.
  eapply wp_mono; [exact (running_at_wpv _ _ _ _ HW)|].
  intros a s' (-> & _ & _ & _ & Hu). split; [done|]. apply Hu. lia.
Defined.
