(* ===== verification/Xv6Pipe.v ===== *)
(** * xv6 pipes (lab2/pipe.c)

    A pipe is a page of the allocator of [Xv6Kalloc] that holds a lock, two
    counters and a ring of 512 bytes.  The live pipes are a map from the address
    of the page to the contents of the structure; a page that [pipeclose] has
    freed leaves the map.  A buffer of the caller is the list of its bytes. *)

From S2P Require Import Prelude CMem Xv6Lock Xv6Proc Xv6World Xv6Kalloc.
From stdpp Require Import base numbers option list gmap strings.
Open Scope Z_scope.

Definition PIPESIZE : Z := 512.

Record pipe : Type := MkPipe {
  p_data : list Z; nread : Z; nwrite : Z; readopen : bool; writeopen : bool }.

(** [struct file]: an end of a pipe, or an inode with an offset. *)
Inductive ftype := FD_NONE | FD_PIPE | FD_INODE.
Record file : Type := MkFile {
  f_type : ftype; ref : Z; readable : bool; writable : bool; f_pipe : Z; f_ip : Z; off : Z }.

(** The state: the page allocator, the live pipes, the file table, and that of
    the components below and of the other processes. *)
Record pst (X : Type) : Type := MkPst {
  ps_kmem : kmem; pipes : gmap Z pipe; files : list file; ps_rest : X }.
Arguments MkPst {X}. Arguments ps_kmem {X}. Arguments pipes {X}. Arguments files {X}. Arguments ps_rest {X}.

Definition with_pipes {X} (l : gmap Z pipe) (r : pst X) : pst X := MkPst (ps_kmem r) l (files r) (ps_rest r).
Definition with_files {X} (l : list file) (r : pst X) : pst X := MkPst (ps_kmem r) (pipes r) l (ps_rest r).

#[export] Instance pst_kmem X : HasKmem (pst X).
Proof.
  refine {| kmem_of := ps_kmem; set_kmem := fun k r => MkPst k (pipes r) (files r) (ps_rest r) |}; done.
Defined.

(** [&p->lock], [&p->nread] and [&p->nwrite]. *)
Definition pipe_lock (p : Z) : nat := 100 + Z.to_nat ((p - KERNBASE) / PGSIZE).
Definition nread_chan (p : Z) : ptr := PAddr (p + 564).
Definition nwrite_chan (p : Z) : ptr := PAddr (p + 568).

Section routines.
Context {X : Type} (end_ : Z) (swtch : M (xst (pst X)) unit).
Notation MX := (M (xst (pst X))).

(** Access to a live pipe. *)
Definition pipe_get (p : Z) : MX pipe := fun s =>
  match pipes (x_rest s) !! p with Some x => Ok x s | None => Panic "pipe: freed" s end.
Definition pipe_set (p : Z) (x : pipe) : MX unit :=
  modify (fun s => with_rest (with_pipes (<[p := x]> (pipes (x_rest s))) (x_rest s)) s).

Definition pipeclose (p : Z) (writable : bool) : MX unit :=
  lift (acquire (pipe_lock p));;
  x ← pipe_get p;
  (if writable then
     pipe_set p (MkPipe (p_data x) (nread x) (nwrite x) (readopen x) false);;
     wakeup (nread_chan p)
   else
     pipe_set p (MkPipe (p_data x) (nread x) (nwrite x) false (writeopen x));;
     wakeup (nwrite_chan p));;
  x ← pipe_get p;
  if negb (readopen x) && negb (writeopen x) then
    lift (release (pipe_lock p));;
    kfree end_ p;;
    modify (fun s => with_rest (with_pipes (delete p (pipes (x_rest s))) (x_rest s)) s)
  else lift (release (pipe_lock p)).

(** [myproc()->killed]. *)
Definition mykilled : MX Z := c ← curproc; p ← pget c; mret (killed p).

(** The loop that waits for room; [false] when the call has returned -1.
    [fuel] bounds the times it is woken up. *)
Fixpoint wait_room (fuel : nat) (p : Z) : MX bool :=
  x ← pipe_get p;
  if nwrite x =? u32 (nread x + PIPESIZE) then
    stop ← (if negb (readopen x) then mret true else k ← mykilled; mret (negb (k =? 0)));
    if (stop : bool) then lift (release (pipe_lock p));; mret false
    else
      match fuel with
      | O => no_fuel
      | S fuel =>
          wakeup (nread_chan p);;
          sleep swtch (nwrite_chan p) (pipe_lock p);;
          wait_room fuel p
      end
  else mret true.

(** [p->data[p->nwrite++ % PIPESIZE] = b]. *)
Definition put_byte (b : Z) (x : pipe) : pipe :=
  MkPipe (<[Z.to_nat (nwrite x mod PIPESIZE) := b]> (p_data x)) (nread x) (u32 (nwrite x + 1))
    (readopen x) (writeopen x).

Fixpoint pipewrite_loop (fuel : nat) (p : Z) (addr : list Z) : MX bool :=
  match addr with
  | [] => mret true
  | b :: addr =>
      go ← wait_room fuel p;
      if (go : bool) then x ← pipe_get p; pipe_set p (put_byte b x);; pipewrite_loop fuel p addr
      else mret false
  end.

Definition pipewrite (fuel : nat) (p : Z) (addr : list Z) : MX Z :=
  lift (acquire (pipe_lock p));;
  ok ← pipewrite_loop fuel p addr;
  if (ok : bool) then
    wakeup (nread_chan p);;
    lift (release (pipe_lock p));;
    mret (Z.of_nat (length addr))
  else mret (-1).

(** The loop that waits for a byte or for the other end to close. *)
Fixpoint wait_byte (fuel : nat) (p : Z) : MX bool :=
  x ← pipe_get p;
  if (nread x =? nwrite x) && writeopen x then
    k ← mykilled;
    if negb (k =? 0) then lift (release (pipe_lock p));; mret false
    else
      match fuel with
      | O => no_fuel
      | S fuel => sleep swtch (nread_chan p) (pipe_lock p);; wait_byte fuel p
      end
  else mret true.

(** [p->data[p->nread++ % PIPESIZE]]. *)
Definition next_byte (x : pipe) : Z := p_data x !!! Z.to_nat (nread x mod PIPESIZE).
Definition take_byte (x : pipe) : pipe :=
  MkPipe (p_data x) (u32 (nread x + 1)) (nwrite x) (readopen x) (writeopen x).

(** At most [n] bytes; the bytes stored in the caller's buffer. *)
Fixpoint piperead_loop (n : nat) (p : Z) : MX (list Z) :=
  match n with
  | O => mret []
  | S n =>
      x ← pipe_get p;
      if nread x =? nwrite x then mret []
      else pipe_set p (take_byte x);; l ← piperead_loop n p; mret (next_byte x :: l)
  end.

(** The value returned and the bytes stored at [addr]. *)
Definition piperead (fuel : nat) (p : Z) (n : Z) : MX (Z * list Z) :=
  lift (acquire (pipe_lock p));;
  go ← wait_byte fuel p;
  if (go : bool) then
    l ← piperead_loop (Z.to_nat n) p;
    wakeup (nwrite_chan p);;
    lift (release (pipe_lock p));;
    mret (Z.of_nat (length l), l)
  else mret (-1, []).
End routines.

(** ** The ring as a queue *)

Definition used (x : pipe) : Z := u32 (nwrite x - nread x).

Record pipe_ok (x : pipe) : Prop := PipeOk {
  po_data : length (p_data x) = 512%nat;
  po_nread : 0 <= nread x < 2 ^ 32;
  po_nwrite : 0 <= nwrite x < 2 ^ 32;
  po_used : used x <= PIPESIZE }.

(** The bytes written and not yet read, oldest first. *)
Definition contents (x : pipe) : list Z :=
  (fun i => p_data x !!! Z.to_nat ((nread x + Z.of_nat i) mod PIPESIZE)) <$> seq 0 (Z.to_nat (used x)).

Lemma contents_length x : length (contents x) = Z.to_nat (used x).
Proof. unfold contents. by rewrite length_fmap, length_seq. Qed.

Lemma used_full x : pipe_ok x -> (nwrite x =? u32 (nread x + PIPESIZE)) = (used x =? PIPESIZE).
Proof.
  intros [_ Hr Hw _]. unfold used, u32, PIPESIZE.
  destruct (Z.eqb_spec (nwrite x) ((nread x + 512) mod 2 ^ 32)),
    (Z.eqb_spec ((nwrite x - nread x) mod 2 ^ 32) 512); try done; exfalso; dlia.
Qed.

Lemma used_empty x : pipe_ok x -> (nread x =? nwrite x) = (used x =? 0).
Proof.
  intros [_ Hr Hw _]. unfold used, u32.
  destruct (Z.eqb_spec (nread x) (nwrite x)), (Z.eqb_spec ((nwrite x - nread x) mod 2 ^ 32) 0);
    try done; exfalso; dlia.
Qed.

Lemma put_used b x : pipe_ok x -> used x < PIPESIZE -> used (put_byte b x) = used x + 1.
Proof. intros [_ Hr Hw _]. unfold used, put_byte, u32, PIPESIZE. simpl. intros. dlia. Qed.

Lemma take_used x : pipe_ok x -> 0 < used x -> used (take_byte x) = used x - 1.
Proof. intros [_ Hr Hw _]. unfold used, take_byte, u32, PIPESIZE. simpl. intros. dlia. Qed.

Lemma put_byte_ok b x : pipe_ok x -> used x < PIPESIZE -> pipe_ok (put_byte b x).
Proof.
  intros Hx Hu. pose proof (put_used b x Hx Hu). destruct Hx as [Hd Hr Hw _].
  constructor; [simpl; by rewrite length_insert|done|apply u32_range|lia].
Qed.

Lemma take_byte_ok x : pipe_ok x -> 0 < used x -> pipe_ok (take_byte x).
Proof.
  intros Hx Hu. pose proof (take_used x Hx Hu). destruct Hx as [Hd Hr Hw ?].
  constructor; [done|apply u32_range|done|lia].
Qed.

(** A write appends, a read takes the first byte. *)
Lemma contents_put b x : pipe_ok x -> used x < PIPESIZE -> contents (put_byte b x) = contents x ++ [b].
Proof.
  intros Hx Hu. unfold contents. rewrite put_used by done.
  assert (0 <= used x) as H0 by apply u32_range.
  rewrite Z2Nat.inj_add, seq_app, fmap_app by lia. destruct Hx as [Hd Hr Hw _]. unfold PIPESIZE in *. f_equal.
  - apply list_fmap_ext. intros j i [-> Hi]%lookup_seq. simpl.
    rewrite list_lookup_total_insert_ne; [done|]. intros E. clear -E Hi Hr Hw Hu.
    apply Z2Nat.inj in E; [|by apply Z.mod_pos_bound..].
    assert (Z.of_nat j < used x) as Hj by lia. unfold used, u32, PIPESIZE in *. dlia.
  - simpl. f_equal. replace ((nread x + _) mod 512) with (nwrite x mod 512).
    + apply list_lookup_total_insert_eq. rewrite Hd. unfold PIPESIZE. dlia.
    + rewrite Z2Nat.id by lia. unfold used, u32. dlia.
Qed.

Lemma contents_take x : pipe_ok x -> 0 < used x -> contents x = next_byte x :: contents (take_byte x).
Proof.
  intros Hx Hu. unfold contents. rewrite take_used by done.
  replace (Z.to_nat (used x)) with (S (Z.to_nat (used x - 1))) by lia. simpl. f_equal.
  - unfold next_byte. by rewrite Z.add_0_r.
  - rewrite <- fmap_S_seq, <- list_fmap_compose. apply list_fmap_ext. intros j i _. simpl.
    f_equal. f_equal. unfold u32, PIPESIZE. dlia.
Qed.

Lemma contents_nil x : pipe_ok x -> used x = 0 -> contents x = [].
Proof. intros _ E. unfold contents. by rewrite E. Qed.

(** ** Writers and readers *)

(** Pipe [p] is live and its structure is [x]. *)
Definition live {X} (p : Z) (r : pst X) (x : pipe) : Prop := pipes r !! p = Some x /\ pipe_ok x.

(** While a writer sleeps: others read from the pipe, at least one byte, and
    the bytes they got are appended to [received]. *)
Definition drains {X} (received : X -> list Z) (p : Z) (r r' : pst X) : Prop :=
  exists x', live p r' x' /\ readopen x' = true /\ used x' < PIPESIZE /\
    forall x, live p r x -> received (ps_rest r') ++ contents x' = received (ps_rest r) ++ contents x.

(** While a reader sleeps: others append to the pipe and to [sent], and leave
    it with a byte in it or closed for writing. *)
Definition feeds {X} (sent : X -> list Z) (p : Z) (r r' : pst X) : Prop :=
  exists x', live p r' x' /\ (0 < used x' \/ writeopen x' = false) /\
    forall x, live p r x -> exists l,
      contents x' = contents x ++ l /\ sent (ps_rest r') = sent (ps_rest r) ++ l.

Section specs.
Context {X : Type} (cur : nat) (pd : Z) (swtch : M (xst (pst X)) unit).
Implicit Types r : pst X.
Notation wpx := (wpx (Some cur) pd).

Lemma pipe_lock_ptable p : pipe_lock p <> ptable_lock.
Proof. unfold pipe_lock, ptable_lock. lia. Qed.

Lemma ptable_notin p : ptable_lock ∉ [pipe_lock p].
Proof. pose proof (pipe_lock_ptable p). set_solver. Qed.

Lemma live_fun p r x x' : live p r x -> live p r x' -> x = x'.
Proof. intros [E _] [E' _]. congruence. Qed.

Lemma wpx_pipe_get p H r x :
  live p r x -> wpx H r (pipe_get p) (fun a H' r' => a = x /\ H' = H /\ r' = r).
Proof. intros [E _] s Hw <-. unfold wp, pipe_get. rewrite E. by exists H. Qed.

Lemma wpx_pipe_set p x H r :
  wpx H r (pipe_set p x) (fun _ H' r' => H' = H /\ r' = with_pipes (<[p := x]> (pipes r)) r).
Proof. apply (wpx_modify _ _ (fun r => with_pipes (<[p := x]> (pipes r)) r)). Qed.

Lemma wpx_mykilled H r : wpx H r mykilled (fun a H' r' => a = 0 /\ H' = H /\ r' = r).
Proof. by apply (wpx_killed _ _ cur). Qed.

Lemma live_set p x r : pipe_ok x -> live p (with_pipes (<[p := x]> (pipes r)) r) x.
Proof. intros Hx. split; [apply lookup_insert_eq|done]. Qed.

Section writer.
Context (received : X -> list Z) (p : Z).
Hypothesis Hcur : (cur < NPROC)%nat.
Hypothesis Hswtch : forall r x, live p r x -> readopen x = true -> used x = PIPESIZE ->
  wpx [ptable_lock] r swtch (fun _ H' r' => H' = [ptable_lock] /\ drains received p r r').

(** The state a writer goes on in: [l] has been appended. *)
Definition written (r : pst X) (x : pipe) (l : list Z) (r' : pst X) (x' : pipe) : Prop :=
  live p r' x' /\ readopen x' = true /\
  received (ps_rest r') ++ contents x' = received (ps_rest r) ++ contents x ++ l.

Lemma wpx_room fuel r x :
  live p r x -> used x < PIPESIZE ->
  wpx [pipe_lock p] r (wait_room swtch fuel p) (fun a H' r' => a = true /\ H' = [pipe_lock p] /\ r' = r).
Proof.
  intros Hx Hu. destruct fuel as [|fuel]; cbn [wait_room]; wx (wpx_pipe_get _ _ _ _ Hx) as (-> & -> & ->);
    rewrite used_full by apply Hx; rewrite (proj2 (Z.eqb_neq _ _)) by lia; by apply wpx_ret.
Qed.

Lemma wpx_wait_room fuel r x :
  (0 < fuel)%nat -> live p r x -> readopen x = true ->
  wpx [pipe_lock p] r (wait_room swtch fuel p) (fun a H' r' => a = true /\ H' = [pipe_lock p] /\
    exists x', written r x [] r' x' /\ used x' < PIPESIZE).
Proof.
  intros Hf Hx Ho. pose proof (po_used x ltac:(apply Hx)) as Hm.
  destruct (decide (used x = PIPESIZE)) as [E|E].
  2:{ eapply wpx_mono; [by apply (wpx_room fuel r x); [|lia]|]. intros ? ? ? (-> & -> & ->).
      split; [done|]. split; [done|]. exists x. unfold written. rewrite app_nil_r. split; [done|lia]. }
  destruct fuel as [|fuel]; [lia|]. cbn [wait_room].
  wx (wpx_pipe_get _ _ _ _ Hx) as (-> & -> & ->). rewrite used_full by apply Hx.
  rewrite (proj2 (Z.eqb_eq _ _) E), Ho. cbn [negb].
  apply (wpx_bind _ _ _ _ _ _ (fun a H' r' => a = false /\ H' = [pipe_lock p] /\ r' = r)).
  { wx wpx_mykilled as (-> & -> & ->). by apply wpx_ret. }
  intros ? ? ? (-> & -> & ->). wx (wpx_wakeup _ _ _ _ _ (ptable_notin p)) as (-> & ->).
  eapply wpx_bind.
  { apply (wpx_sleep _ _ cur _ _ _ _ (drains received p r) eq_refl Hcur (pipe_lock_ptable p)). by eapply Hswtch. }
  intros _ ? r1 (-> & x1 & Hx1 & Ho1 & Hu1 & Hc1).
  eapply wpx_mono; [by apply (wpx_room fuel r1 x1)|]. intros ? ? ? (-> & -> & ->).
  split; [done|]. split; [done|]. exists x1. unfold written. rewrite app_nil_r. auto.
Qed.

Lemma wpx_pipewrite_loop fuel addr r x :
  (0 < fuel)%nat -> live p r x -> readopen x = true ->
  wpx [pipe_lock p] r (pipewrite_loop swtch fuel p addr) (fun a H' r' => a = true /\ H' = [pipe_lock p] /\
    exists x', written r x addr r' x').
Proof.
  intros Hf. revert r x. induction addr as [|b addr IH]; intros r x Hx Ho; cbn [pipewrite_loop].
  { apply wpx_ret. split; [done|]. split; [done|]. exists x. unfold written. by rewrite app_nil_r. }
  wx (wpx_wait_room fuel r x Hf Hx Ho) as (-> & -> & x1 & (Hx1 & Ho1 & Hc1) & Hu1).
  wx (wpx_pipe_get _ _ _ _ Hx1) as (-> & -> & ->). wx wpx_pipe_set as (-> & ->).
  eapply wpx_mono; [apply (IH _ (put_byte b x1)); [by apply live_set, put_byte_ok; [apply Hx1|]|done]|].
  intros ? ? r3 (-> & -> & x3 & Hx3 & Ho3 & Hc3). split; [done|]. split; [done|]. exists x3.
  split; [done|]. split; [done|]. rewrite Hc3. cbn [ps_rest with_pipes].
  rewrite contents_put by (done || apply Hx1). rewrite app_nil_r in Hc1.
  rewrite (app_assoc _ (contents x1 ++ [b])), (app_assoc _ (contents x1)), Hc1, <- !app_assoc. done.
Qed.

(** A write to an open pipe returns, whatever its length, and every byte is
    appended once and in order. *)
Lemma wpx_pipewrite fuel addr r x :
  (0 < fuel)%nat -> live p r x -> readopen x = true ->
  wpx [] r (pipewrite swtch fuel p addr) (fun a H' r' => a = Z.of_nat (length addr) /\ H' = [] /\
    exists x', written r x addr r' x').
Proof.
  intros Hf Hx Ho. unfold pipewrite.
  wx (wpx_acquire _ _ _ _ _ (not_elem_of_nil _)) as (-> & ->).
  wx (wpx_pipewrite_loop fuel addr r x Hf Hx Ho) as (-> & -> & x1 & Hw).
  wx (wpx_wakeup _ _ _ _ _ (ptable_notin p)) as (-> & ->).
  wx (wpx_release _ _ _ _ [] _ (reflexivity _)) as (-> & ->). apply wpx_ret. eauto.
Qed.
End writer.

Section reader.
Context (sent : X -> list Z) (p : Z).
Hypothesis Hcur : (cur < NPROC)%nat.
Hypothesis Hswtch : forall r x, live p r x -> used x = 0 -> writeopen x = true ->
  wpx [ptable_lock] r swtch (fun _ H' r' => H' = [ptable_lock] /\ feeds sent p r r').

(** When a reader goes on, [l] has been written meanwhile. *)
Definition fed (r : pst X) (x : pipe) (l : list Z) (r' : pst X) (x' : pipe) : Prop :=
  live p r' x' /\ contents x' = contents x ++ l /\ sent (ps_rest r') = sent (ps_rest r) ++ l.

Lemma wpx_byte fuel r x :
  live p r x -> 0 < used x \/ writeopen x = false ->
  wpx [pipe_lock p] r (wait_byte swtch fuel p) (fun a H' r' => a = true /\ H' = [pipe_lock p] /\ r' = r).
Proof.
  intros Hx Hu. assert ((nread x =? nwrite x) && writeopen x = false) as E.
  { rewrite used_empty by apply Hx. destruct Hu as [Hu| ->]; [|by rewrite andb_false_r].
    by rewrite (proj2 (Z.eqb_neq _ _)) by lia. }
  destruct fuel as [|fuel]; cbn [wait_byte]; wx (wpx_pipe_get _ _ _ _ Hx) as (-> & -> & ->);
    rewrite E; by apply wpx_ret.
Qed.

Lemma wpx_wait_byte fuel r x :
  (0 < fuel)%nat -> live p r x ->
  wpx [pipe_lock p] r (wait_byte swtch fuel p) (fun a H' r' => a = true /\ H' = [pipe_lock p] /\
    exists l x', fed r x l r' x' /\ (0 < used x' \/ writeopen x' = false)).
Proof.
  intros Hf Hx. assert (0 <= used x) as H0 by apply u32_range.
  destruct (decide (0 < used x \/ writeopen x = false)) as [Hu|Hu].
  { eapply wpx_mono; [by apply (wpx_byte fuel r x)|]. intros ? ? ? (-> & -> & ->).
    split; [done|]. split; [done|]. exists [], x. unfold fed. by rewrite !app_nil_r. }
  assert (used x = 0) as E by lia. assert (writeopen x = true) as Eo by (destruct (writeopen x); tauto).
  destruct fuel as [|fuel]; [lia|]. cbn [wait_byte].
  wx (wpx_pipe_get _ _ _ _ Hx) as (-> & -> & ->). rewrite used_empty by apply Hx. rewrite E, Eo.
  cbn [andb Z.eqb]. wx wpx_mykilled as (-> & -> & ->). cbn [negb Z.eqb]. eapply wpx_bind.
  { apply (wpx_sleep _ _ cur _ _ _ _ (feeds sent p r) eq_refl Hcur (pipe_lock_ptable p)). by eapply Hswtch. }
  intros _ ? r1 (-> & x1 & Hx1 & Hu1 & Hc1). destruct (Hc1 x Hx) as (l & Hl & Hs).
  eapply wpx_mono; [by apply (wpx_byte fuel r1 x1)|]. intros ? ? ? (-> & -> & ->).
  split; [done|]. split; [done|]. by exists l, x1.
Qed.

Lemma wpx_piperead_loop n r x :
  live p r x ->
  wpx [pipe_lock p] r (piperead_loop n p) (fun l H' r' => l = take n (contents x) /\ H' = [pipe_lock p] /\
    exists x', live p r' x' /\ contents x' = drop n (contents x) /\ writeopen x' = writeopen x /\
      ps_rest r' = ps_rest r).
Proof.
  revert r x. induction n as [|n IH]; intros r x Hx; cbn [piperead_loop].
  { apply wpx_ret. split; [done|]. split; [done|]. by exists x. }
  wx (wpx_pipe_get _ _ _ _ Hx) as (-> & -> & ->). rewrite used_empty by apply Hx.
  assert (0 <= used x) as H0 by apply u32_range. destruct (Z.eqb_spec (used x) 0) as [E|E].
  - apply wpx_ret. rewrite contents_nil by (done || apply Hx). split; [done|]. split; [done|].
    exists x. by rewrite contents_nil by (done || apply Hx).
  - wx wpx_pipe_set as (-> & ->). assert (pipe_ok (take_byte x)) as Hok by (apply take_byte_ok; [apply Hx|lia]).
    wx (IH _ (take_byte x) (live_set _ _ _ Hok)) as (-> & -> & x' & Hx' & Hc & Ho & Hr). apply wpx_ret.
    rewrite (contents_take x) by (lia || apply Hx). split; [done|]. split; [done|]. by exists x'.
Qed.

(** A read returns, with the next bytes of the stream; it returns none only when
    the other end is closed and everything was read, or none were asked for. *)
Lemma wpx_piperead fuel n r x :
  (0 < fuel)%nat -> live p r x ->
  wpx [] r (piperead swtch fuel p n) (fun a H' r' => H' = [] /\ exists l x', live p r' x' /\
    a.1 = Z.of_nat (length a.2) /\ Z.of_nat (length a.2) <= Z.max 0 n /\
    a.2 ++ contents x' = contents x ++ l /\ sent (ps_rest r') = sent (ps_rest r) ++ l /\
    (a.2 = [] -> n <= 0 \/ writeopen x' = false /\ contents x' = [])).
Proof.
  intros Hf Hx. unfold piperead.
  wx (wpx_acquire _ _ _ _ _ (not_elem_of_nil _)) as (-> & ->).
  wx (wpx_wait_byte fuel r x Hf Hx) as (-> & -> & l & x1 & (Hx1 & Hc1 & Hs1) & Hu1).
  wx (wpx_piperead_loop (Z.to_nat n) _ x1 Hx1) as (-> & -> & x2 & Hx2 & Hc2 & Ho2 & Hr2).
  wx (wpx_wakeup _ _ _ _ _ (ptable_notin p)) as (-> & ->).
  wx (wpx_release _ _ _ _ [] _ (reflexivity _)) as (-> & ->). apply wpx_ret. split; [done|].
  exists l, x2. cbn [fst snd]. split; [done|]. split; [done|]. rewrite length_take. split; [lia|].
  rewrite Hc2, take_drop, Hr2. split; [done|]. split; [done|].
  intros E%(f_equal length). rewrite length_take, contents_length in E. simpl in E.
  destruct (decide (n <= 0)); [by left|right]. destruct Hu1 as [Hu1|Hu1]; [lia|]. split; [congruence|].
  apply nil_length_inv. rewrite length_drop, contents_length. lia.
Qed.
End reader.
End specs.

(** ** A pipe is a queue *)

(** C18: a pipe carries a stream.  If a reader takes at least one byte whenever the
    writer sleeps, [pipewrite] of any number of bytes, also more than the ring
    holds, returns that number, and what the readers received followed by what is
    in the pipe is what it was before followed by exactly the bytes written.  If
    a writer appends or closes whenever the reader sleeps, [piperead] returns, and
    the bytes it returns followed by those left in the pipe are those that were in
    the pipe followed by those sent meanwhile; it returns no byte only at the end
    of the stream.  The counters may wrap around. *)
Theorem pipe_fifo {X} cur pd fuel (p : Z) (f : X -> list Z) (swtch : M (xst (pst X)) unit) (r : pst X) x :
  (cur < NPROC)%nat -> (0 < fuel)%nat -> live p r x ->
  ((forall r x, live p r x -> readopen x = true -> used x = PIPESIZE ->
      wpx (Some cur) pd [ptable_lock] r swtch (fun _ H' r' => H' = [ptable_lock] /\ drains f p r r')) ->
   readopen x = true -> forall addr,
   wpx (Some cur) pd [] r (pipewrite swtch fuel p addr) (fun a H' r' =>
     a = Z.of_nat (length addr) /\ H' = [] /\ exists x', live p r' x' /\ readopen x' = true /\
       f (ps_rest r') ++ contents x' = f (ps_rest r) ++ contents x ++ addr)) /\
  ((forall r x, live p r x -> used x = 0 -> writeopen x = true ->
      wpx (Some cur) pd [ptable_lock] r swtch (fun _ H' r' => H' = [ptable_lock] /\ feeds f p r r')) ->
   forall n,
   wpx (Some cur) pd [] r (piperead swtch fuel p n) (fun a H' r' => H' = [] /\ exists l x', live p r' x' /\
     a.1 = Z.of_nat (length a.2) /\ Z.of_nat (length a.2) <= Z.max 0 n /\
     a.2 ++ contents x' = contents x ++ l /\ f (ps_rest r') = f (ps_rest r) ++ l /\
     (a.2 = [] -> n <= 0 \/ writeopen x' = false /\ contents x' = []))).
Proof.
  intros Hc Hf Hx. split; intros Hs.
  - intros Ho addr. by apply (wpx_pipewrite cur pd swtch f p Hc Hs).
  - intros n. by apply (wpx_piperead cur pd swtch f p Hc Hs).
Qed.

(** A reader that takes everything, and a writer that closes its end. *)
Definition ex_drain (p : Z) (r : pst (list Z)) : pst (list Z) :=
  match pipes r !! p with
  | Some x => MkPst (ps_kmem r) (<[p := MkPipe (p_data x) (nwrite x) (nwrite x) (readopen x) (writeopen x)]> (pipes r))
                (files r) (ps_rest r ++ contents x)
  | None => r
  end.
Definition ex_close (p : Z) (r : pst (list Z)) : pst (list Z) :=
  match pipes r !! p with
  | Some x => with_pipes (<[p := MkPipe (p_data x) (nread x) (nwrite x) (readopen x) false]> (pipes r)) r
  | None => r
  end.

Lemma ex_drain_ok p r x :
  live p r x -> readopen x = true -> drains id p r (ex_drain p r).
Proof.
  intros [E [Hd Hr Hw Hu]] Ho. unfold ex_drain. rewrite E.
  set (x1 := MkPipe (p_data x) (nwrite x) (nwrite x) (readopen x) (writeopen x)). exists x1.
  assert (used x1 = 0) as H0 by (unfold used; simpl; by rewrite Z.sub_diag).
  split; [split; [apply lookup_insert_eq|]|].
  - constructor; try done. change (used x1 <= PIPESIZE). by rewrite H0.
  - split; [done|]. rewrite H0. split; [done|]. intros x' [E' _]. assert (x' = x) as -> by congruence.
    assert (contents x1 = []) as -> by (unfold contents; by rewrite H0). by rewrite app_nil_r.
Qed.

Lemma ex_close_ok p r x : live p r x -> feeds id p r (ex_close p r).
Proof.
  intros [E [Hd Hr Hw Hu]]. unfold ex_close. rewrite E. eexists.
  split; [split; [apply lookup_insert_eq|]; by constructor|]. split; [by right|].
  intros x' [E' _]. assert (x' = x) as -> by congruence. exists []. by rewrite !app_nil_r.
Qed.

(** A pipe whose counters are about to wrap around, with three bytes in it. *)
Definition ex_pipe : pipe := MkPipe (replicate 512 5) (2 ^ 32 - 2) 1 true true.
Definition ex_ppage : Z := KERNBASE + 16 * PGSIZE.
Definition ex_pst : pst (list Z) := MkPst (MkKmem true 0) {[ex_ppage := ex_pipe]} [] [].

Lemma ex_pst_live : live ex_ppage ex_pst ex_pipe.
Proof. split; [apply lookup_singleton_eq|]. by constructor. Qed.

Lemma pipe_fifo_witness :
  wp (pipewrite (modify (fun s => with_rest (ex_drain ex_ppage (x_rest s)) s)) 1 ex_ppage (replicate 2000 9))
    (fun a s' => a = 2000 /\ exists x', live ex_ppage (x_rest s') x' /\
       ps_rest (x_rest s') ++ contents x' = [5; 5; 5] ++ replicate 2000 9) (ex_running ex_pst) /\
  wp (piperead (modify (fun s => with_rest (ex_close ex_ppage (x_rest s)) s)) 1 ex_ppage 10)
    (fun a s' => exists l x', live ex_ppage (x_rest s') x' /\ a.2 ++ contents x' = [5; 5; 5] ++ l)
    (ex_running ex_pst).
Proof.
  assert (0 < NPROC)%nat as Hn by (vm_compute; lia).
  pose proof (pipe_fifo (X := list Z) 0 7 1 ex_ppage id) as H. split.
  - destruct (H (modify (fun s => with_rest (ex_drain ex_ppage (x_rest s)) s)) ex_pst ex_pipe Hn (Nat.lt_0_succ 0)
      ex_pst_live) as [Hw _].
    refine (wp_mono _ _ _ _ (Hw _ eq_refl (replicate 2000 9) (ex_running ex_pst) (ex_running_world _) eq_refl) _).
    + intros r x Hx Ho _. eapply wpx_mono; [apply (wpx_modify (Some 0%nat) 7 (ex_drain ex_ppage))|].
      intros _ ? ? [-> ->]. split; [reflexivity|]. exact (ex_drain_ok _ _ _ Hx Ho).
    + intros a s' (H' & _ & -> & _ & x' & Hx & _ & E). split; [reflexivity|]. exists x'. split; [exact Hx|exact E].
  - destruct (H (modify (fun s => with_rest (ex_close ex_ppage (x_rest s)) s)) ex_pst ex_pipe Hn (Nat.lt_0_succ 0)
      ex_pst_live) as [_ Hr].
    refine (wp_mono _ _ _ _ (Hr _ 10 (ex_running ex_pst) (ex_running_world _) eq_refl) _).
    + intros r x Hx _ _. eapply wpx_mono; [apply (wpx_modify (Some 0%nat) 7 (ex_close ex_ppage))|].
      intros _ ? ? [-> ->]. split; [reflexivity|]. exact (ex_close_ok _ _ _ Hx).
    + intros a s' (H' & _ & _ & l & x' & Hx & _ & _ & E & _). exists l, x'. split; [exact Hx|exact E].
Defined.
