(* ===== verification/Xv6File.v ===== *)
(** * xv6 open files (lab2/file.c, pipealloc of lab2/pipe.c)

    The table of open files with its reference counts, and the pipes and inodes
    they stand for.  The inode layer is an interface, the class [Inodes]; the
    invariant [files_ok] ties files, pipes and the page allocator together. *)

From S2P Require Import Prelude CMem Xv6Lock Xv6Proc Xv6World Xv6Kalloc Xv6Pipe.
From stdpp Require Import base numbers option list gmap strings.
Open Scope Z_scope.

Definition NFILE : nat := 100.
Definition ftable_lock : nat := 5.

Record stat : Type := MkStat { st_type : Z; st_dev : Z; st_ino : Z; st_nlink : Z; st_size : Z }.

(** What file.c uses of the inode layer: a file writes through transactions. *)
Class Inodes (X : Type) := {
  ino_begin_op : M (xst (pst X)) unit;
  ino_end_op : M (xst (pst X)) unit;
  ino_put : Z -> M (xst (pst X)) unit;
  ino_lock : Z -> M (xst (pst X)) unit;
  ino_unlock : Z -> M (xst (pst X)) unit;
  ino_stat : Z -> M (xst (pst X)) stat;
  ino_read : Z -> Z -> Z -> M (xst (pst X)) (Z * list Z);
  ino_write : Z -> list Z -> Z -> M (xst (pst X)) Z }.

Definition file0 : file := MkFile FD_NONE 0 false false 0 0 0.
Definition set_ref (n : Z) (f : file) : file :=
  MkFile (f_type f) n (readable f) (writable f) (f_pipe f) (f_ip f) (off f).
Definition set_type (t : ftype) (f : file) : file :=
  MkFile t (ref f) (readable f) (writable f) (f_pipe f) (f_ip f) (off f).
Definition set_off (n : Z) (f : file) : file :=
  MkFile (f_type f) (ref f) (readable f) (writable f) (f_pipe f) (f_ip f) n.
(** An end of the pipe [p]. *)
Definition set_pipe (w : bool) (p : Z) (f : file) : file :=
  MkFile FD_PIPE (ref f) (negb w) w p (f_ip f) (off f).

(** The bytes of a fresh page. *)
Definition page_bytes (m : mem) (a : Z) (n : nat) : list Z := (fun i => load8 m (a + Z.of_nat i)) <$> seq 0 n.

Section routines.
Context {X : Type} `{IN : Inodes X} (end_ : Z) (swtch : M (xst (pst X)) unit).
Notation MX := (M (xst (pst X))).

Definition file_get (i : nat) : MX file := fun s =>
  match files (x_rest s) !! i with Some f => Ok f s | None => Panic "ftable: out of range" s end.
Definition file_upd (i : nat) (g : file -> file) : MX unit := fun s =>
  match files (x_rest s) !! i with
  | Some f => Ok tt (with_rest (with_files (<[i := g f]> (files (x_rest s))) (x_rest s)) s)
  | None => Panic "ftable: out of range" s
  end.

Definition fileinit : MX unit := lift (initlock ftable_lock).

(** The first file with no references, taken. *)
Definition filealloc : MX (option nat) :=
  lift (acquire ftable_lock);;
  l ← gets (fun s => files (x_rest s));
  match list_find (fun f => ref f = 0) l with
  | Some (i, _) => file_upd i (set_ref 1);; lift (release ftable_lock);; mret (Some i)
  | None => lift (release ftable_lock);; mret None
  end.

Definition filedup (i : nat) : MX nat :=
  lift (acquire ftable_lock);;
  f ← file_get i;
  if ref f <? 1 then panic "filedup"
  else
    file_upd i (set_ref (i32 (ref f + 1)));;
    lift (release ftable_lock);;
    mret i.

Definition fileclose (i : nat) : MX unit :=
  lift (acquire ftable_lock);;
  f ← file_get i;
  if ref f <? 1 then panic "fileclose"
  else
    file_upd i (set_ref (i32 (ref f - 1)));;
    if 0 <? i32 (ref f - 1) then lift (release ftable_lock)
    else
      ff ← file_get i;
      file_upd i (set_ref 0);;
      file_upd i (set_type FD_NONE);;
      lift (release ftable_lock);;
      match f_type ff with
      | FD_PIPE => pipeclose end_ (f_pipe ff) (writable ff)
      | FD_INODE => ino_begin_op;; ino_put (f_ip ff);; ino_end_op
      | FD_NONE => mret tt
      end.

(** The value returned, with [*f0] and [*f1].  No path to [bad] has a page. *)
Definition pipe_bad (f0 f1 : option nat) : MX (Z * option nat * option nat) :=
  from_option fileclose (mret tt) f0;;
  from_option fileclose (mret tt) f1;;
  mret (-1, f0, f1).

Definition pipealloc : MX (Z * option nat * option nat) :=
  f0 ← filealloc;
  match f0 with
  | None => pipe_bad None None
  | Some i0 =>
      f1 ← filealloc;
      match f1 with
      | None => pipe_bad (Some i0) None
      | Some i1 =>
          p ← kalloc;
          if p =? 0 then pipe_bad (Some i0) (Some i1)
          else
            m ← gets (fun s => h_mem (x_hw s));
            pipe_set p (MkPipe (page_bytes m (p + 52) 512) 0 0 true true);;
            lift (initlock (pipe_lock p));;
            file_upd i0 (set_pipe false p);;
            file_upd i1 (set_pipe true p);;
            mret (0, Some i0, Some i1)
      end
  end.

(** -1, or 0 with the metadata. *)
Definition filestat (i : nat) : MX (option stat) :=
  f ← file_get i;
  match f_type f with
  | FD_INODE => ino_lock (f_ip f);; st ← ino_stat (f_ip f); ino_unlock (f_ip f);; mret (Some st)
  | _ => mret None
  end.

Definition fileread (fuel : nat) (i : nat) (n : Z) : MX (Z * list Z) :=
  f ← file_get i;
  if negb (readable f) then mret (-1, [])
  else
    match f_type f with
    | FD_PIPE => piperead swtch fuel (f_pipe f) n
    | FD_INODE =>
        ino_lock (f_ip f);;
        f ← file_get i;
        r ← ino_read (f_ip f) (off f) n;
        (if 0 <? r.1 then file_upd i (fun f => set_off (u32 (off f + r.1)) f) else mret tt);;
        ino_unlock (f_ip f);;
        mret r
    | FD_NONE => panic "fileread"
    end.

(** [((MAXOPBLOCKS-1-1-2) / 2) * 512]: what one transaction may write. *)
Definition write_max : nat := 1536.

(** The chunks of the buffer; [k] is the number of bytes left, an upper bound on
    the iterations. *)
Fixpoint filewrite_loop (k : nat) (i : nat) (addr : list Z) (done : Z) : MX Z :=
  match k with
  | O => mret done
  | S k =>
      if bool_decide (addr = []) then mret done
      else
        let chunk := take write_max addr in
        ino_begin_op;;
        f ← file_get i;
        ino_lock (f_ip f);;
        f ← file_get i;
        r ← ino_write (f_ip f) chunk (off f);
        (if 0 <? r then file_upd i (fun f => set_off (u32 (off f + r)) f) else mret tt);;
        ino_unlock (f_ip f);;
        ino_end_op;;
        if r <? 0 then mret done
        else if negb (r =? Z.of_nat (length chunk)) then panic "short filewrite"
        else filewrite_loop k i (drop write_max addr) (done + r)
  end.

Definition filewrite (fuel : nat) (i : nat) (addr : list Z) : MX Z :=
  f ← file_get i;
  if negb (writable f) then mret (-1)
  else
    match f_type f with
    | FD_PIPE => pipewrite swtch fuel (f_pipe f) addr
    | FD_INODE =>
        done ← filewrite_loop (length addr) i addr 0;
        mret (if done =? Z.of_nat (length addr) then done else -1)
    | FD_NONE => panic "filewrite"
    end.
End routines.

(** ** Files, pipes and pages *)

(** The end of a pipe a file stands for. *)
Definition end_of (f : file) : option (Z * bool) :=
  match f_type f with FD_PIPE => Some (f_pipe f, writable f) | _ => None end.
Definition end_open (w : bool) (x : pipe) : bool := if w then writeopen x else readopen x.
Definition close_end (w : bool) (x : pipe) : pipe :=
  if w then MkPipe (p_data x) (nread x) (nwrite x) (readopen x) false
  else MkPipe (p_data x) (nread x) (nwrite x) false (writeopen x).

(** A file with no references is closed, and an end of a pipe can be used the
    one way it is for. *)
Definition file_ok (f : file) : Prop :=
  0 <= ref f < 2 ^ 31 /\ (ref f = 0 -> f_type f = FD_NONE) /\
  (f_type f = FD_PIPE -> readable f = negb (writable f)).

Record files_ok {X} (end_ : Z) (m : mem) (r : pst X) : Prop := FilesOk {
  fo_len : length (files r) = NFILE;
  fo_file i f : files r !! i = Some f -> file_ok f;
  fo_end i f p w : files r !! i = Some f -> end_of f = Some (p, w) ->
    exists x, live p r x /\ end_open w x = true;
  fo_one i j f g e : files r !! i = Some f -> files r !! j = Some g ->
    end_of f = Some e -> end_of g = Some e -> i = j;
  fo_open p x w : pipes r !! p = Some x -> end_open w x = true ->
    exists i f, files r !! i = Some f /\ end_of f = Some (p, w);
  fo_used p x : pipes r !! p = Some x -> readopen x || writeopen x = true;
  fo_kmem : exists l, kmem_ok end_ m (ps_kmem r) l /\
    forall p x, pipes r !! p = Some x -> page_ok end_ p /\ p ∉ l }.

Section invariant.
Context {X : Type} (end_ : Z).
Implicit Types r : pst X.

(** A change that leaves the ends of pipes alone. *)
Lemma files_ok_same m r i f f' :
  files_ok end_ m r -> files r !! i = Some f -> end_of f' = end_of f -> file_ok f' ->
  files_ok end_ m (with_files (<[i := f']> (files r)) r).
Proof.
  intros [Hl Hf He H1 Ho Hu Hk] Hi E Hok. assert (i < length (files r))%nat as Hlt by by eapply lookup_lt_Some.
  assert (forall j g, <[i := f']> (files r) !! j = Some g -> exists g0, files r !! j = Some g0 /\ end_of g = end_of g0) as Hg.
  { intros j g Hj. apply list_lookup_insert_Some in Hj as [(-> & -> & _)|[_ Hj]]; eauto. }
  constructor; cbn [files pipes ps_kmem with_files]; try done.
  - by rewrite length_insert.
  - intros j g Hj. apply list_lookup_insert_Some in Hj as [(_ & -> & _)|[_ Hj]]; eauto.
  - intros j g p w Hj Eg. destruct (Hg j g Hj) as (g0 & H0 & E0). rewrite E0 in Eg. by eapply He.
  - intros j k g h e Hj Hk' Eg Eh. destruct (Hg j g Hj) as (g0 & H0 & E0), (Hg k h Hk') as (h0 & H0' & E0').
    rewrite E0 in Eg. rewrite E0' in Eh. by eapply H1.
  - intros p x w Hx Hw. destruct (Ho p x w Hx Hw) as (j & g & Hj & Eg).
    destruct (decide (j = i)) as [->|Hne].
    + exists i, f'. rewrite list_lookup_insert_eq by done. split; [done|]. rewrite E. congruence.
    + exists j, g. by rewrite list_lookup_insert_ne.
Qed.

(** A page leaves the free list. *)
Lemma files_ok_kmem m r k' l' :
  files_ok end_ m r -> kmem_ok end_ m k' l' -> (forall q y, pipes r !! q = Some y -> page_ok end_ q /\ q ∉ l') ->
  files_ok end_ m (MkPst k' (pipes r) (files r) (ps_rest r)).
Proof. intros [Hl Hf He H1 Ho Hu _] Hk Hp. constructor; try done. by exists l'. Qed.

(** The files of a table in which file [i] was closed. *)
Lemma closed_lookup (l : list file) i f' j g e :
  end_of f' = None -> <[i := f']> l !! j = Some g -> end_of g = Some e -> j <> i /\ l !! j = Some g.
Proof.
  intros E Hj Eg. apply list_lookup_insert_Some in Hj as [(-> & -> & _)|[Hne Hj]]; [congruence|].
  split; [by intros ->|done].
Qed.

(** One end is closed and the other stays open. *)
Lemma files_ok_close m r i f f' p w x :
  files_ok end_ m r -> files r !! i = Some f -> end_of f = Some (p, w) -> end_of f' = None -> file_ok f' ->
  live p r x -> end_open (negb w) x = true ->
  files_ok end_ m (MkPst (ps_kmem r) (<[p := close_end w x]> (pipes r)) (<[i := f']> (files r)) (ps_rest r)).
Proof.
  intros [Hl Hf He H1 Ho Hu Hk] Hi E E' Hok [Hx Hxo] Hopen.
  constructor; cbn [files pipes ps_kmem].
  - by rewrite length_insert.
  - intros j g Hj. apply list_lookup_insert_Some in Hj as [(_ & -> & _)|[_ Hj]]; eauto.
  - intros j g q v Hj Eg. destruct (closed_lookup _ _ _ _ _ _ E' Hj Eg) as [Hne Hj'].
    destruct (He j g q v Hj' Eg) as (y & Hy & Hv). destruct (decide (q = p)) as [->|Hq].
    + exists (close_end w x). assert (v <> w) as Hvw by (intros ->; eapply Hne, H1; eauto).
      assert (y = x) as -> by (destruct Hy; congruence). split.
      * split; [apply lookup_insert_eq|]. destruct Hxo. destruct w; by constructor.
      * by destruct w, v.
    + exists y. split; [|done]. destruct Hy. split; [|done]. cbn [pipes]. by rewrite lookup_insert_ne.
  - intros j k g h e Hj Hk' Eg Eh. destruct (closed_lookup _ _ _ _ _ _ E' Hj Eg) as [_ Hj'].
    destruct (closed_lookup _ _ _ _ _ _ E' Hk' Eh) as [_ Hk'']. by eapply H1.
  - intros q y v Hy Hv. assert (end_of f <> Some (q, v)) as Hfe.
    { rewrite E. intros [= -> ->]. rewrite lookup_insert_eq in Hy. injection Hy as <-. by destruct v. }
    assert (exists y0, pipes r !! q = Some y0 /\ end_open v y0 = true) as (y0 & Hy0 & Hv0).
    { destruct (decide (q = p)) as [->|Hq]; [|rewrite lookup_insert_ne in Hy by done; eauto].
      rewrite lookup_insert_eq in Hy. injection Hy as <-. exists x. split; [done|]. by destruct w, v. }
    destruct (Ho q y0 v Hy0 Hv0) as (j & g & Hj & Eg). exists j, g.
    rewrite list_lookup_insert_ne; [done|]. intros ->. congruence.
  - intros q y Hy. destruct (decide (q = p)) as [->|Hq]; [|rewrite lookup_insert_ne in Hy by done; eauto].
    rewrite lookup_insert_eq in Hy. injection Hy as <-. by destruct w; simpl in *; rewrite Hopen.
  - destruct Hk as (l & Hk & Hp). exists l. split; [done|]. intros q y Hy.
    destruct (decide (q = p)) as [->|Hq]; [by eapply Hp|]. rewrite lookup_insert_ne in Hy by done. by eapply Hp.
Qed.

(** The last end is closed and the page freed. *)
Lemma files_ok_free m r i f f' p w x l m' k' :
  files_ok end_ m r -> files r !! i = Some f -> end_of f = Some (p, w) -> end_of f' = None -> file_ok f' ->
  live p r x -> end_open (negb w) x = false ->
  kmem_ok end_ m (ps_kmem r) l -> (forall q y, pipes r !! q = Some y -> page_ok end_ q /\ q ∉ l) ->
  kmem_ok end_ m' k' (p :: l) ->
  files_ok end_ m' (MkPst k' (delete p (pipes r)) (<[i := f']> (files r)) (ps_rest r)).
Proof.
  intros [Hl Hf He H1 Ho Hu _] Hi E E' Hok [Hx Hxo] Hclosed Hk Hp Hk'.
  constructor; cbn [files pipes ps_kmem].
  - by rewrite length_insert.
  - intros j g Hj. apply list_lookup_insert_Some in Hj as [(_ & -> & _)|[_ Hj]]; eauto.
  - intros j g q v Hj Eg. destruct (closed_lookup _ _ _ _ _ _ E' Hj Eg) as [Hne Hj'].
    destruct (He j g q v Hj' Eg) as (y & [Hy Hyo] & Hv). exists y. split; [|done]. split; [|done].
    cbn [pipes]. rewrite lookup_delete_ne; [done|]. intros ->. assert (y = x) as -> by congruence.
    destruct (decide (v = w)) as [->|Hvw]; [by eapply Hne, H1|]. destruct v, w; simpl in *; congruence.
  - intros j k g h e Hj Hk'' Eg Eh. destruct (closed_lookup _ _ _ _ _ _ E' Hj Eg) as [_ Hj'].
    destruct (closed_lookup _ _ _ _ _ _ E' Hk'' Eh) as [_ Hk3]. by eapply H1.
  - intros q y v [Hq Hy]%lookup_delete_Some Hv. destruct (Ho q y v Hy Hv) as (j & g & Hj & Eg). exists j, g.
    rewrite list_lookup_insert_ne; [done|]. intros ->. congruence.
  - intros q y [_ Hy]%lookup_delete_Some. eauto.
  - exists (p :: l). split; [done|]. intros q y [Hq Hy]%lookup_delete_Some. destruct (Hp q y Hy).
    split; [done|]. set_solver.
Qed.

(** Two files become the ends of a fresh pipe. *)
Lemma files_ok_pipe m r i0 i1 f0 f1 p k' l d :
  files_ok end_ m r -> files r !! i0 = Some f0 -> files r !! i1 = Some f1 -> i0 <> i1 ->
  end_of f0 = None -> end_of f1 = None -> ref f0 <> 0 -> ref f1 <> 0 -> length d = 512%nat ->
  kmem_ok end_ m k' l -> page_ok end_ p -> p ∉ l ->
  (forall q y, pipes r !! q = Some y -> q <> p /\ page_ok end_ q /\ q ∉ l) ->
  files_ok end_ m (MkPst k' (<[p := MkPipe d 0 0 true true]> (pipes r))
    (<[i1 := set_pipe true p f1]> (<[i0 := set_pipe false p f0]> (files r))) (ps_rest r)).
Proof.
  intros [Hl Hf He H1 Ho Hu _] Hi0 Hi1 Hne E0 E1 Hr0 Hr1 Hd Hk Hp Hpl Hq.
  assert (forall j g, <[i1 := set_pipe true p f1]> (<[i0 := set_pipe false p f0]> (files r)) !! j = Some g ->
    j = i0 /\ g = set_pipe false p f0 \/ j = i1 /\ g = set_pipe true p f1 \/
    j <> i0 /\ j <> i1 /\ files r !! j = Some g) as Hg.
  { intros j g Hj. apply list_lookup_insert_Some in Hj as [(-> & -> & _)|[Hj1 Hj]]; [tauto|].
    apply list_lookup_insert_Some in Hj as [(-> & -> & _)|[Hj0 Hj]]; [tauto|]. right. right. by split_and!. }
  assert (forall j g e, files r !! j = Some g -> end_of g = Some e -> e.1 <> p) as Hold.
  { intros j g [q v] Hj Eg. destruct (He j g q v Hj Eg) as (y & [Hy _] & _). by destruct (Hq q y Hy). }
  constructor; cbn [files pipes ps_kmem].
  - by rewrite !length_insert.
  - intros j g [(-> & ->)|[(-> & ->)|(_ & _ & Hj)]]%Hg; [| |eauto].
    + destruct (Hf i0 f0 Hi0) as (H0 & _). split; [done|]. split; [by intros []%Hr0|done].
    + destruct (Hf i1 f1 Hi1) as (H0 & _). split; [done|]. split; [by intros []%Hr1|done].
  - assert (live p (MkPst k' (<[p := MkPipe d 0 0 true true]> (pipes r))
      (<[i1 := set_pipe true p f1]> (<[i0 := set_pipe false p f0]> (files r))) (ps_rest r)) (MkPipe d 0 0 true true)) as HL.
    { split; [apply lookup_insert_eq|]. by constructor. }
    intros j g q v [(-> & ->)|[(-> & ->)|(_ & _ & Hj)]]%Hg Eg.
    + injection Eg as <- <-. by exists (MkPipe d 0 0 true true).
    + injection Eg as <- <-. by exists (MkPipe d 0 0 true true).
    + destruct (He j g q v Hj Eg) as (y & [Hy Hyo] & Hv). exists y. split; [|done]. split; [|done].
      cbn [pipes]. rewrite lookup_insert_ne; [done|]. intros <-. by apply (Hold j g (p, v) Hj Eg).
  - intros j k g h e [(-> & ->)|[(-> & ->)|(_ & _ & Hj)]]%Hg [(-> & ->)|[(-> & ->)|(_ & _ & Hk')]]%Hg Eg Eh;
      try done; try (by injection Eg as <-; injection Eh);
      [by injection Eg as <-; destruct (Hold k h _ Hk' Eh)..| | |by eapply H1];
      by injection Eh as <-; destruct (Hold j g _ Hj Eg).
  - intros q y v Hy Hv. destruct (decide (q = p)) as [->|Hqp].
    + destruct v; [exists i1, (set_pipe true p f1)|exists i0, (set_pipe false p f0)].
      * rewrite list_lookup_insert_eq; [done|]. rewrite length_insert. by eapply lookup_lt_Some.
      * rewrite list_lookup_insert_ne, list_lookup_insert_eq; [done| |done]. by eapply lookup_lt_Some.
    + rewrite lookup_insert_ne in Hy by done. destruct (Ho q y v Hy Hv) as (j & g & Hj & Eg). exists j, g.
      rewrite !list_lookup_insert_ne; [done|intros ->; congruence|intros ->; congruence].
  - intros q y Hy. destruct (decide (q = p)) as [->|Hqp]; [|rewrite lookup_insert_ne in Hy by done; eauto].
    rewrite lookup_insert_eq in Hy. by injection Hy as <-.
  - exists l. split; [done|]. intros q y Hy. destruct (decide (q = p)) as [->|Hqp]; [done|].
    rewrite lookup_insert_ne in Hy by done. by destruct (Hq q y Hy) as (_ & ? & ?).
Qed.
End invariant.

(** ** The routines keep the invariant *)

Section specs.
Context {X : Type} `{IN : Inodes X} (cur : nat) (pd : Z) (end_ : Z).
Implicit Types r : pst X.
Notation wpm := (wpm (Some cur) pd).

Lemma wpm_pipe_get p H m r x :
  live p r x -> wpm H m r (pipe_get p) (fun a H' m' r' => a = x /\ H' = H /\ m' = m /\ r' = r).
Proof. intros [E _] s Hw <- <-. unfold wp, pipe_get. rewrite E. by exists H. Qed.

Lemma wpm_pipe_set p x H m r :
  wpm H m r (pipe_set p x) (fun _ H' m' r' => H' = H /\ m' = m /\ r' = with_pipes (<[p := x]> (pipes r)) r).
Proof. apply (wpm_modify _ _ (fun r => with_pipes (<[p := x]> (pipes r)) r)). Qed.

Lemma wpm_file_get i H m r f :
  files r !! i = Some f -> wpm H m r (file_get i) (fun a H' m' r' => a = f /\ H' = H /\ m' = m /\ r' = r).
Proof. intros E s Hw <- <-. unfold wp, file_get. rewrite E. by exists H. Qed.

Lemma wpm_file_upd i g H m r f :
  files r !! i = Some f ->
  wpm H m r (file_upd i g) (fun _ H' m' r' => H' = H /\ m' = m /\ r' = with_files (<[i := g f]> (files r)) r).
Proof.
  intros E s [Hh Hl Hp] <- <-. unfold wp, file_upd. rewrite E. exists H. split; [by constructor|done].
Qed.

Lemma wpm_mem H m r :
  wpm H m r (gets (fun s => h_mem (x_hw s))) (fun a H' m' r' => a = m /\ H' = H /\ m' = m /\ r' = r).
Proof. intros s Hw <- <-. by exists H. Qed.

Lemma wpm_page m r l :
  kmem_ok end_ m (ps_kmem r) l ->
  wpm [] m r kalloc (fun a H' m' r' => a = default 0 (head l) /\ H' = [] /\ m' = m /\
    exists k', kmem_ok end_ m k' (tail l) /\ r' = MkPst k' (pipes r) (files r) (ps_rest r)).
Proof.
  intros Hk. assert (kmem_ok end_ m (kmem_of r) l) as Hk0 by exact Hk.
  eapply wpm_mono; [by apply (wpm_kalloc _ _ end_ [] m r l Hk0), not_elem_of_nil|].
  intros a ? ? r' (-> & -> & -> & Hk' & _ & Hr). split_and!; try done.
  destruct Hr as [->|[k ->]]; [exists (ps_kmem r)|exists k]; (split; [done|]); by destruct r.
Qed.

Lemma wpm_filealloc m r :
  wpm [] m r filealloc (fun a H' m' r' => H' = [] /\ m' = m /\
    match a with
    | Some i => exists f, files r !! i = Some f /\ ref f = 0 /\ r' = with_files (<[i := set_ref 1 f]> (files r)) r
    | None => r' = r
    end).
Proof.
  unfold filealloc. wm (wpm_acquire _ _ _ _ _ _ (not_elem_of_nil _)) as (-> & -> & ->).
  wm (wpm_gets _ _ files) as (-> & -> & -> & ->).
  destruct (list_find _ (files r)) as [[i f]|] eqn:E.
  - apply list_find_Some in E as (Hi & Hf & _). wm (wpm_file_upd _ _ _ _ _ _ Hi) as (-> & -> & ->).
    wm (wpm_release _ _ _ _ [] _ _ (reflexivity _)) as (-> & -> & ->). apply wpm_ret.
    split; [done|]. split; [done|]. by exists f.
  - wm (wpm_release _ _ _ _ [] _ _ (reflexivity _)) as (-> & -> & ->). by apply wpm_ret.
Qed.

Lemma wpm_filedup i m r f :
  files r !! i = Some f -> 1 <= ref f < 2 ^ 31 - 1 ->
  wpm [] m r (filedup i) (fun a H' m' r' => a = i /\ H' = [] /\ m' = m /\
    r' = with_files (<[i := set_ref (ref f + 1) f]> (files r)) r).
Proof.
  intros Hi Hr. unfold filedup. wm (wpm_acquire _ _ _ _ _ _ (not_elem_of_nil _)) as (-> & -> & ->).
  wm (wpm_file_get _ _ _ _ _ Hi) as (-> & -> & -> & ->). rewrite (proj2 (Z.ltb_ge _ _)) by lia.
  wm (wpm_file_upd _ _ _ _ _ _ Hi) as (-> & -> & ->).
  wm (wpm_release _ _ _ _ [] _ _ (reflexivity _)) as (-> & -> & ->). apply wpm_ret.
  by rewrite i32_small by lia.
Qed.

Lemma wpm_pipeclose p w m r x l :
  live p r x -> kmem_ok end_ m (ps_kmem r) l -> page_ok end_ p -> p ∉ l ->
  wpm [] m r (pipeclose end_ p w) (fun _ H' m' r' => H' = [] /\
    if end_open (negb w) x then m' = m /\ r' = with_pipes (<[p := close_end w x]> (pipes r)) r
    else exists k', kmem_ok end_ m' k' (p :: l) /\ r' = MkPst k' (delete p (pipes r)) (files r) (ps_rest r)).
Proof.
  intros Hx Hk Hp Hl. unfold pipeclose. wm (wpm_acquire _ _ _ _ _ _ (not_elem_of_nil _)) as (-> & -> & ->).
  wm (wpm_pipe_get _ _ _ _ _ Hx) as (-> & -> & -> & ->).
  apply (wpm_bind _ _ _ _ _ _ _ (fun _ H' m' r' => H' = [pipe_lock p] /\ m' = m /\
    r' = with_pipes (<[p := close_end w x]> (pipes r)) r)).
  { destruct w; wm wpm_pipe_set as (-> & -> & ->); apply wpm_wakeup, ptable_notin. }
  intros _ ? ? ? (-> & -> & ->).
  assert (live p (with_pipes (<[p := close_end w x]> (pipes r)) r) (close_end w x)) as Hx1.
  { destruct Hx as [_ []]. split; [apply lookup_insert_eq|]. by destruct w; constructor. }
  wm (wpm_pipe_get _ _ _ _ _ Hx1) as (-> & -> & -> & ->).
  assert (negb (readopen (close_end w x)) && negb (writeopen (close_end w x)) = negb (end_open (negb w) x)) as ->
    by (destruct w; simpl; by rewrite ?andb_true_r, ?andb_true_l).
  destruct (end_open (negb w) x); cbn [negb].
  - eapply wpm_mono; [by apply (wpm_release _ _ _ _ [])|]. intros _ ? ? ? (-> & -> & ->). done.
  - wm (wpm_release _ _ _ _ [] _ _ (reflexivity _)) as (-> & -> & ->).
    assert (kmem_ok end_ m (kmem_of (with_pipes (<[p := close_end w x]> (pipes r)) r)) l) as Hk' by exact Hk.
    wm (wpm_kfree _ _ _ _ _ _ _ _ Hk' Hp Hl (not_elem_of_nil _)) as (-> & Hk1 & _ & _ & k1 & ->).
    eapply wpm_mono; [apply (wpm_modify _ _ (fun r => with_pipes (delete p (pipes r)) r))|].
    intros _ ? ? ? (-> & -> & ->). split; [done|]. exists k1. split; [done|]. unfold with_pipes. simpl.
    by rewrite delete_insert_eq.
Qed.

(** What the inode layer promises: its calls return without a lock held, and
    they, and whatever other processes do while they sleep, keep the invariant. *)
Class InodesOk : Prop := {
  io_begin m r : files_ok end_ m r -> wpm [] m r ino_begin_op (fun _ H' m' r' => H' = [] /\ files_ok end_ m' r');
  io_end m r : files_ok end_ m r -> wpm [] m r ino_end_op (fun _ H' m' r' => H' = [] /\ files_ok end_ m' r');
  io_put ip m r : files_ok end_ m r -> wpm [] m r (ino_put ip) (fun _ H' m' r' => H' = [] /\ files_ok end_ m' r') }.

Context `{IO : InodesOk}.

Definition closed (f : file) : file := set_type FD_NONE (set_ref 0 f).

Lemma closed_ok f : file_ok (closed f).
Proof. by split_and!. Qed.

(** What is left to close with the last reference. *)
Definition close_rest (f : file) : M (xst (pst X)) unit :=
  match f_type f with
  | FD_PIPE => pipeclose end_ (f_pipe f) (writable f)
  | FD_INODE => ino_begin_op;; ino_put (f_ip f);; ino_end_op
  | FD_NONE => mret tt
  end.

Lemma wpm_close_rest m r i f :
  files_ok end_ m r -> files r !! i = Some f ->
  wpm [] m (with_files (<[i := closed f]> (files r)) r) (close_rest f)
    (fun _ H' m' r' => H' = [] /\ files_ok end_ m' r').
Proof.
  intros Hok Hi. unfold close_rest. destruct (f_type f) eqn:Et.
  - apply wpm_ret. split; [done|]. eapply files_ok_same; [done..| |apply closed_ok]. unfold end_of. by rewrite Et.
  - assert (end_of f = Some (f_pipe f, writable f)) as Ee by (unfold end_of; by rewrite Et).
    destruct (fo_end _ _ _ Hok _ _ _ _ Hi Ee) as (x & Hx & Ho). destruct (fo_kmem _ _ _ Hok) as (l & Hk & Hp).
    destruct (Hp _ _ (proj1 Hx)) as [Hpg Hpl].
    eapply wpm_mono; [by apply (wpm_pipeclose (f_pipe f) (writable f) m _ x l)|].
    intros _ ? m' r' [-> Hr]. split; [done|]. destruct (end_open (negb (writable f)) x) eqn:Eo.
    + destruct Hr as [-> ->]. by apply (files_ok_close end_ m r i f (closed f) _ _ x Hok Hi Ee eq_refl (closed_ok f)).
    + destruct Hr as (k' & Hk' & ->).
      by apply (files_ok_free end_ m r i f (closed f) _ _ x l m' k' Hok Hi Ee eq_refl (closed_ok f)).
  - assert (files_ok end_ m (with_files (<[i := closed f]> (files r)) r)) as Hok1.
    { eapply files_ok_same; [done..| |apply closed_ok]. unfold end_of. by rewrite Et. }
    wm (io_begin _ _ Hok1) as (-> & Hok2). wm (io_put _ _ _ Hok2) as (-> & Hok3). by apply io_end.
Qed.

Lemma wpm_close_last m r i f Q :
  files r !! i = Some f -> ref f = 1 ->
  wpm [] m (with_files (<[i := closed f]> (files r)) r) (close_rest f) Q ->
  wpm [] m r (fileclose end_ i) Q.
Proof.
  intros Hi Hr HQ. assert (i < length (files r))%nat as Hlt by by eapply lookup_lt_Some.
  unfold fileclose. wm (wpm_acquire _ _ _ _ _ _ (not_elem_of_nil _)) as (-> & -> & ->).
  wm (wpm_file_get _ _ _ _ _ Hi) as (-> & -> & -> & ->). rewrite Hr. change (1 <? 1) with false. cbv iota.
  wm (wpm_file_upd _ _ _ _ _ _ Hi) as (-> & -> & ->). change (0 <? i32 (1 - 1)) with false. cbv iota.
  change (i32 (1 - 1)) with 0. set (f1 := set_ref 0 f).
  set (r1 := with_files (<[i := f1]> (files r)) r).
  set (r2 := with_files (<[i := set_ref 0 f1]> (files r1)) r1).
  assert (files r1 !! i = Some f1) as Hi1 by by apply list_lookup_insert_eq.
  assert (files r2 !! i = Some (set_ref 0 f1)) as Hi2
    by (apply list_lookup_insert_eq; simpl; by rewrite length_insert).
  wm (wpm_file_get _ _ _ _ _ Hi1) as (-> & -> & -> & ->).
  wm (wpm_file_upd _ _ _ _ _ _ Hi1) as (-> & -> & ->).
  wm (wpm_file_upd _ _ _ _ _ _ Hi2) as (-> & -> & ->). unfold r2, r1.
  wm (wpm_release _ _ _ _ [] _ _ (reflexivity _)) as (-> & -> & ->).
  unfold with_files. cbn [files pipes ps_kmem ps_rest]. rewrite !list_insert_insert_eq. exact HQ.
Qed.

Lemma wpm_fileclose m r i f :
  files_ok end_ m r -> files r !! i = Some f -> 1 <= ref f ->
  wpm [] m r (fileclose end_ i) (fun _ H' m' r' => H' = [] /\ files_ok end_ m' r').
Proof.
  intros Hok Hi Hr. destruct (fo_file _ _ _ Hok i f Hi) as (Hrf & Hz & Hrw).
  destruct (decide (ref f = 1)) as [E|E]; [by eapply wpm_close_last, wpm_close_rest|].
  unfold fileclose. wm (wpm_acquire _ _ _ _ _ _ (not_elem_of_nil _)) as (-> & -> & ->).
  wm (wpm_file_get _ _ _ _ _ Hi) as (-> & -> & -> & ->). rewrite (proj2 (Z.ltb_ge _ _)) by lia.
  wm (wpm_file_upd _ _ _ _ _ _ Hi) as (-> & -> & ->). rewrite i32_small by lia.
  rewrite (proj2 (Z.ltb_lt _ _)) by lia.
  eapply wpm_mono; [by apply (wpm_release _ _ _ _ [])|]. intros _ ? ? ? (-> & -> & ->). split; [done|].
  eapply files_ok_same; [done..|]. split; [simpl; lia|]. split; [simpl; lia|done].
Qed.

(** Taking a free file keeps the invariant: it was closed. *)
Lemma files_ok_take m r i f :
  files_ok end_ m r -> files r !! i = Some f -> ref f = 0 ->
  files_ok end_ m (with_files (<[i := set_ref 1 f]> (files r)) r) /\ f_type f = FD_NONE.
Proof.
  intros Hok Hi Hr. destruct (fo_file _ _ _ Hok i f Hi) as (_ & Hz & Hrw). specialize (Hz Hr).
  split; [|done]. eapply files_ok_same; [done..|]. by split_and!.
Qed.

(** A file just taken that is closed again. *)
Definition fresh (r : pst X) (i : nat) : Prop := exists f, files r !! i = Some f /\ ref f = 1 /\ f_type f = FD_NONE.

Lemma wpm_close_fresh m r i :
  files_ok end_ m r -> fresh r i ->
  wpm [] m r (fileclose end_ i) (fun _ H' m' r' => H' = [] /\ m' = m /\ files_ok end_ m r' /\
    forall j, j <> i -> fresh r j -> fresh r' j).
Proof.
  intros Hok (f & Hi & Hr & Ht). eapply wpm_close_last; [done..|]. unfold close_rest. rewrite Ht. apply wpm_ret.
  split; [done|]. split; [done|]. split.
  - eapply files_ok_same; [done..| |apply closed_ok]. unfold end_of. by rewrite Ht.
  - intros j Hj (g & Hg & ?). exists g. cbn [files with_files]. by rewrite list_lookup_insert_ne.
Qed.

Lemma wpm_alloc_fresh m r :
  files_ok end_ m r ->
  wpm [] m r filealloc (fun a H' m' r' => H' = [] /\ m' = m /\ files_ok end_ m r' /\
    ps_kmem r' = ps_kmem r /\ pipes r' = pipes r /\
    (forall j, fresh r j -> fresh r' j) /\
    forall i, a = Some i -> fresh r' i /\ forall j, fresh r j -> j <> i).
Proof.
  intros Hok. eapply wpm_mono; [apply wpm_filealloc|]. intros [i|] ? ? ? (-> & -> & Hr).
  2:{ subst. by split_and!. }
  destruct Hr as (f & Hi & Hz & ->). destruct (files_ok_take _ _ _ _ Hok Hi Hz) as [Hok' Ht].
  assert (forall j, fresh r j -> j <> i) as Hne by (intros j (g & Hg & Hr & ?) ->; simplify_eq; lia).
  split_and!; try done.
  - intros j Hj. pose proof (Hne j Hj). destruct Hj as (g & Hg & ?). exists g. cbn [files with_files].
    by rewrite list_lookup_insert_ne.
  - intros j [= <-]. split; [|done]. exists (set_ref 1 f). split; [|done]. apply list_lookup_insert_eq.
    by eapply lookup_lt_Some.
Qed.

Lemma wpm_pipe_bad m r f0 f1 :
  files_ok end_ m r -> (forall i, f0 = Some i -> fresh r i) -> (forall i, f1 = Some i -> fresh r i /\ f0 <> Some i) ->
  wpm [] m r (pipe_bad end_ f0 f1) (fun a H' m' r' => H' = [] /\ files_ok end_ m' r' /\ a.1.1 = -1).
Proof.
  intros Hok H0 H1. unfold pipe_bad.
  apply (wpm_bind _ _ _ _ _ _ _ (fun _ H' m' r' => H' = [] /\ m' = m /\ files_ok end_ m r' /\
    forall i, f1 = Some i -> fresh r' i)).
  { destruct f0 as [i0|]; simpl.
    - eapply wpm_mono; [by apply wpm_close_fresh; auto|]. intros _ ? ? ? (-> & -> & Hok' & Hf). split_and!; try done.
      intros i Hi. destruct (H1 i Hi) as [? Hne]. apply Hf; [congruence|done].
    - apply wpm_ret. split_and!; try done. intros i Hi. by apply H1. }
  intros _ ? ? r1 (-> & -> & Hok1 & Hf1).
  apply (wpm_bind _ _ _ _ _ _ _ (fun _ H' m' r' => H' = [] /\ files_ok end_ m' r')).
  { destruct f1 as [i1|]; simpl; [|by apply wpm_ret].
    eapply wpm_mono; [by apply wpm_close_fresh; auto|]. by intros _ ? ? ? (-> & -> & Hok' & _). }
  intros _ ? ? ? (-> & Hok2). by apply wpm_ret.
Qed.

(** A new pipe is empty, with one open file for each end. *)
Lemma wpm_pipealloc m r :
  files_ok end_ m r ->
  wpm [] m r (pipealloc end_) (fun a H' m' r' => H' = [] /\ files_ok end_ m' r' /\
    (a.1.1 = -1 \/ a.1.1 = 0 /\ exists i0 i1 p x, a = (0, Some i0, Some i1) /\ live p r' x /\ contents x = [] /\
      pipes r !! p = None /\ (end_of <$> files r' !! i0) = Some (Some (p, false)) /\
      (end_of <$> files r' !! i1) = Some (Some (p, true)))).
Proof.
  intros Hok. unfold pipealloc. wm (wpm_alloc_fresh _ _ Hok) as (-> & -> & Hok0 & Hk0 & Hp0 & _ & Hf0).
  destruct a as [i0|].
  2:{ eapply wpm_mono; [by apply wpm_pipe_bad|]. intros a ? ? ? (-> & ? & ?). auto. }
  destruct (Hf0 i0 eq_refl) as [Hi0 _]. eapply wpm_bind; [by eapply wpm_alloc_fresh|].
  intros a ? ? r1 (-> & -> & Hok1 & Hk1 & Hp1 & Hkeep & Hf1).
  destruct a as [i1|].
  2:{ eapply wpm_mono; [apply wpm_pipe_bad; [done| |done]|intros a ? ? ? (-> & ? & ?); auto].
      intros i [= <-]. auto. }
  destruct (Hf1 i1 eq_refl) as [Hi1 Hne1]. pose proof (Hne1 i0 Hi0) as Hne. apply Hkeep in Hi0.
  destruct (fo_kmem _ _ _ Hok1) as (l & Hk & Hp).
  wm (wpm_page m _ l Hk) as (-> & -> & -> & k2 & Hk2 & ->).
  destruct l as [|p l].
  { eapply wpm_mono; [apply wpm_pipe_bad|intros a ? ? ? (-> & ? & ?); auto].
    - by apply (files_ok_kmem end_ m _ k2 []).
    - by intros i [= <-].
    - intros i [= <-]. split; [done|congruence]. }
  destruct (kmem_ok_pop _ _ _ _ _ Hk) as (_ & Hnz & _). pose proof (km_nodup _ _ _ _ Hk) as [Hpl _]%NoDup_cons.
  pose proof (km_pages _ _ _ _ Hk p (list_elem_of_here _ _)) as Hpg.
  change (default 0 (head (p :: l))) with p. rewrite (proj2 (Z.eqb_neq p 0) Hnz). wm wpm_mem as (-> & -> & -> & ->).
  wm wpm_pipe_set as (-> & -> & ->). wm (wpm_initlock _ _ _ _ _ _ (not_elem_of_nil _)) as (-> & -> & ->).
  destruct Hi0 as (f0 & Hi0 & Hr0 & Ht0), Hi1 as (f1 & Hi1 & Hr1 & Ht1).
  eapply wpm_bind; [eapply wpm_file_upd; exact Hi0|intros ? ? ? ? (-> & -> & ->)].
  eapply wpm_bind; [eapply (wpm_file_upd i1 _ _ _ _ f1); cbn [files with_files with_pipes];
    by rewrite list_lookup_insert_ne|intros ? ? ? ? (-> & -> & ->)].
  set (d := page_bytes m (p + 52) 512).
  pose proof (files_ok_pipe end_ m r1 i0 i1 f0 f1 p k2 l d Hok1 Hi0 Hi1 Hne) as Hfin.
  apply wpm_ret. split; [done|]. split.
  - apply Hfin; try done; unfold end_of; rewrite ?Ht0, ?Ht1, ?Hr0, ?Hr1; try done.
    intros q y Hy. destruct (Hp q y Hy) as [? Hq]. set_solver.
  - right. split; [done|]. exists i0, i1, p, (MkPipe d 0 0 true true).
    cbn [files pipes with_files with_pipes]. split; [done|]. split.
    { split; [apply lookup_insert_eq|]. by constructor. }
    split; [done|]. split.
    { rewrite <- Hp0, <- Hp1. destruct (pipes r1 !! p) as [y|] eqn:Ey; [|done]. destruct (Hp p y Ey). set_solver. }
    split.
    + rewrite list_lookup_insert_ne by done. rewrite list_lookup_insert_eq by (by eapply lookup_lt_Some). done.
    + rewrite list_lookup_insert_eq; [done|]. rewrite length_insert. by eapply lookup_lt_Some.
Qed.
End specs.

(** ** Sequences of calls *)

(** What system calls do to the table: [OInode] is the opening of an inode in a
    file just taken.  A call that its caller may not make is left out. *)
Inductive fop := OAlloc | ODup (i : nat) | OClose (i : nat) | OPipe | OInode (i : nat) (ip : Z) (rd wr : bool).

Section sequences.
Context {X : Type} `{IN : Inodes X} (end_ : Z).
Notation MX := (M (xst (pst X))).

Definition file_at (i : nat) : MX (option file) := gets (fun s => files (x_rest s) !! i).

Definition run_fop (op : fop) : MX unit :=
  match op with
  | OAlloc => filealloc;; mret tt
  | OPipe => pipealloc end_;; mret tt
  | ODup i =>
      f ← file_at i;
      match f with
      | Some f => if (1 <=? ref f) && (ref f <? 2 ^ 31 - 1) then filedup i;; mret tt else mret tt
      | None => mret tt
      end
  | OClose i =>
      f ← file_at i;
      match f with Some f => if 1 <=? ref f then fileclose end_ i else mret tt | None => mret tt end
  | OInode i ip rd wr =>
      f ← file_at i;
      match f with
      | Some f =>
          if (1 <=? ref f) && bool_decide (end_of f = None)
          then file_upd i (fun f => MkFile FD_INODE (ref f) rd wr (f_pipe f) ip 0) else mret tt
      | None => mret tt
      end
  end.

Lemma wpm_file_at cur pd i H m r :
  wpm (Some cur) pd H m r (file_at i) (fun a H' m' r' => a = files r !! i /\ H' = H /\ m' = m /\ r' = r).
Proof. apply (wpm_gets _ _ (fun r => files r !! i)). Qed.

Lemma wpm_run_fop cur pd op m r :
  InodesOk cur pd end_ -> files_ok end_ m r ->
  wpm (Some cur) pd [] m r (run_fop op) (fun _ H' m' r' => H' = [] /\ files_ok end_ m' r').
Proof.
  intros IO Hok. destruct op as [|i|i| |i ip rd wr]; cbn [run_fop].
  - wm wpm_alloc_fresh as (-> & -> & Hok' & _); [done|]. by apply wpm_ret.
  - wm wpm_file_at as (-> & -> & -> & ->). destruct (files r !! i) as [f|] eqn:Hi; [|by apply wpm_ret].
    destruct (_ && _) eqn:E; [|by apply wpm_ret]. apply andb_true_iff in E as [E1%Z.leb_le E2%Z.ltb_lt].
    wm wpm_filedup as (-> & -> & -> & ->); [done..|]. apply wpm_ret. split; [done|].
    destruct (fo_file _ _ _ Hok i f Hi) as (Hr & Hz & Hrw).
    eapply files_ok_same; [done..|]. split; [simpl; lia|]. split; [simpl; lia|done].
  - wm wpm_file_at as (-> & -> & -> & ->). destruct (files r !! i) as [f|] eqn:Hi; [|by apply wpm_ret].
    destruct (Z.leb_spec 1 (ref f)); [by eapply wpm_fileclose|by apply wpm_ret].
  - wm wpm_pipealloc as (-> & Hok' & _); [done..|]. by apply wpm_ret.
  - wm wpm_file_at as (-> & -> & -> & ->). destruct (files r !! i) as [f|] eqn:Hi; [|by apply wpm_ret].
    destruct (_ && _) eqn:E; [|by apply wpm_ret]. apply andb_true_iff in E as [E1%Z.leb_le E2%bool_decide_eq_true].
    eapply wpm_mono; [by apply wpm_file_upd|]. intros _ ? ? ? (-> & -> & ->). split; [done|].
    destruct (fo_file _ _ _ Hok i f Hi) as (Hr & Hz & Hrw).
    eapply files_ok_same; [done..|]. split; [simpl; lia|]. split; [simpl; lia|done].
Qed.

End sequences.

(** The table at boot, with one free page, over an inode layer with no effects. *)
#[local] Instance no_inodes : Inodes unit := {|
  ino_begin_op := mret tt; ino_end_op := mret tt; ino_put := fun _ => mret tt; ino_lock := fun _ => mret tt;
  ino_unlock := fun _ => mret tt; ino_stat := fun _ => mret (MkStat 0 0 0 0 0);
  ino_read := fun _ _ _ => mret (0, []); ino_write := fun _ _ _ => mret 0 |}.

Lemma no_inodes_ok : InodesOk 0 7 KERNBASE.
Proof. constructor; intros; by apply wpm_ret. Qed.

Definition ex_files : pst unit := MkPst (MkKmem true ex_ppage) ∅ (replicate NFILE file0) tt.

Lemma ex_files_ok : files_ok KERNBASE (h_mem (x_hw (ex_running ex_files))) ex_files.
Proof.
  assert (forall i f, files ex_files !! i = Some f -> f = file0) as Hf by by intros i f [-> _]%lookup_replicate.
  constructor; try done.
  - by intros i f ->%Hf.
  - by intros i f p w ->%Hf.
  - by intros i j f g e ->%Hf.
  - exists [ex_ppage]. split; [|done]. constructor; [by vm_compute| |apply NoDup_singleton].
    intros v ->%list_elem_of_singleton. by vm_compute.
Qed.

