(* ===== verification/Xv6Input.v ===== *)
(** * xv6 console input and display (lab2/console.c)

    The line discipline of the console: the input buffer with its read, write
    and edit indices, the echo, and the reads of processes; and the display.
    The cursor register of the display controller is part of the state. *)

From S2P Require Import Prelude CMem JosPrintfmt Xv6Lock Xv6Console Xv6Proc Xv6Sched Xv6World.
From stdpp Require Import base numbers option list gmap strings.
Open Scope Z_scope.

Definition BACKSPACE : Z := 0x100.
Definition INPUT_BUF : Z := 128.
(** [C(x)]. *)
Definition ctrl (x : Z) : Z := x - 64.

Record input : Type := MkInput { i_buf : list Z; i_r : Z; i_w : Z; i_e : Z }.

(** The display memory, the cursor, what went to the serial line, the flag set
    by [panic], and the rest of the kernel. *)
Record ist (X : Type) : Type := MkIst {
  inp : input; crt : list Z; cursor : Z; uart : bool; uart_out : list Z; panicked : bool; i_rest : X }.
Arguments MkIst {X}. Arguments inp {X}. Arguments crt {X}. Arguments cursor {X}. Arguments uart {X}.
Arguments uart_out {X}. Arguments panicked {X}. Arguments i_rest {X}.

Definition with_inp {X} (i : input) (r : ist X) : ist X :=
  MkIst i (crt r) (cursor r) (uart r) (uart_out r) (panicked r) (i_rest r).
Definition with_crt {X} (c : list Z) (p : Z) (r : ist X) : ist X :=
  MkIst (inp r) c p (uart r) (uart_out r) (panicked r) (i_rest r).
Definition with_uart {X} (l : list Z) (r : ist X) : ist X :=
  MkIst (inp r) (crt r) (cursor r) (uart r) l (panicked r) (i_rest r).

(** [&input.r]. *)
Definition input_chan : ptr := PAddr 3000.

Section routines.
Context {X : Type} (swtch : M (xst (ist X)) unit).
Notation MX := (M (xst (ist X))).

Definition iget {A} (f : ist X -> A) : MX A := gets (fun s => f (x_rest s)).
Definition imod (f : ist X -> ist X) : MX unit := modify (fun s => with_rest (f (x_rest s)) s).

(** The wait for the line to be ready is left to the device. *)
Definition uartputc (c : Z) : MX unit := imod (fun r => if uart r then with_uart (uart_out r ++ [u8 c]) r else r).

(** A store into the display memory. *)
Definition crt_put (i v : Z) : MX unit := fun s =>
  let r := x_rest s in
  if (0 <=? i) && (i <? Z.of_nat (length (crt r)))
  then Ok tt (with_rest (with_crt (<[Z.to_nat i := v]> (crt r)) (cursor r) r) s)
  else Panic "crt: out of range" s.

Definition cgaputc (c : Z) : MX unit :=
  pos ← iget cursor;
  pos ← (if c =? 10 then mret (pos + (80 - Z.rem pos 80))
         else if c =? BACKSPACE then mret (if 0 <? pos then pos - 1 else pos)
         else crt_put pos (Z.lor (Z.land c 0xff) 0x0700);; mret (pos + 1));
  if (pos <? 0) || (25 * 80 <? pos) then panic "pos under/overflow"
  else
    pos ← (if 24 <=? Z.quot pos 80 then
             let pos := pos - 80 in
             imod (fun r =>
               let moved := take (23 * 80) (drop 80 (crt r)) ++ drop (23 * 80) (crt r) in
               with_crt (take (Z.to_nat pos) moved ++ replicate (24 * 80 - Z.to_nat pos) 0 ++ drop (24 * 80) moved)
                 (cursor r) r);;
             mret pos
           else mret pos);
    imod (fun r => with_crt (crt r) (u16 pos) r);;
    crt_put pos (Z.lor 32 0x0700).

(** A processor spins once another has panicked. *)
Definition consputc (c : Z) : MX unit :=
  p ← iget panicked;
  if (p : bool) then lift cli;; no_fuel
  else
    (if c =? BACKSPACE then uartputc 8;; uartputc 32;; uartputc 8 else uartputc c);;
    cgaputc c.

(** [input.buf[i % INPUT_BUF]]. *)
Definition ibyte (i : input) (n : Z) : Z := i_buf i !!! Z.to_nat (n mod INPUT_BUF).

(** [while(input.e != input.w && ...)], [k] characters at most. *)
Fixpoint kill_line (k : nat) : MX unit :=
  i ← iget inp;
  if negb (i_e i =? i_w i) && negb (ibyte i (u32 (i_e i - 1)) =? 10) then
    match k with
    | O => no_fuel
    | S k =>
        imod (with_inp (MkInput (i_buf i) (i_r i) (i_w i) (u32 (i_e i - 1))));;
        consputc BACKSPACE;;
        kill_line k
    end
  else mret tt.

(** One character of the interrupt; whether a process listing was asked for. *)
Definition console_char (c : Z) : MX bool :=
  if c =? ctrl 80 then mret true
  else if c =? ctrl 85 then kill_line (Z.to_nat INPUT_BUF);; mret false
  else if (c =? ctrl 72) || (c =? 127) then
    i ← iget inp;
    (if negb (i_e i =? i_w i) then
       imod (with_inp (MkInput (i_buf i) (i_r i) (i_w i) (u32 (i_e i - 1))));;
       consputc BACKSPACE
     else mret tt);;
    mret false
  else
    i ← iget inp;
    (if negb (c =? 0) && (u32 (i_e i - i_r i) <? INPUT_BUF) then
       let c := if c =? 13 then 10 else c in
       let e := u32 (i_e i + 1) in
       imod (with_inp (MkInput (<[Z.to_nat (i_e i mod INPUT_BUF) := c]> (i_buf i)) (i_r i) (i_w i) e));;
       consputc c;;
       (if (c =? 10) || (c =? ctrl 68) || (e =? u32 (i_r i + INPUT_BUF)) then
          i ← iget inp;
          imod (with_inp (MkInput (i_buf i) (i_r i) (i_e i) (i_e i)));;
          wakeup input_chan
        else mret tt)
     else mret tt);;
    mret false.

Fixpoint console_chars (cs : list Z) (dump : bool) : MX bool :=
  match cs with
  | [] => mret dump
  | c :: cs => d ← console_char c; console_chars cs (dump || d)
  end.

(** [cs] are the values [getc] returns before a negative one. *)
Definition consoleintr (cs : list Z) : MX unit :=
  lift (acquire cons_lock);;
  d ← console_chars cs false;
  lift (release cons_lock);;
  if (d : bool) then procdump else mret tt.

(** [myproc()->killed]. *)
Definition my_killed : MX Z := c ← curproc; p ← pget c; mret (killed p).

(** [while(input.r == input.w)]: [false] when the call has returned -1. *)
Fixpoint wait_input (fuel : nat) (ilock : MX unit) : MX bool :=
  i ← iget inp;
  if i_r i =? i_w i then
    k ← my_killed;
    if negb (k =? 0) then lift (release cons_lock);; ilock;; mret false
    else
      match fuel with
      | O => no_fuel
      | S fuel => sleep swtch input_chan cons_lock;; wait_input fuel ilock
      end
  else mret true.

(** The loop of [consoleread]: the bytes stored, or [None] when the call has
    returned -1; [first] tells that nothing was stored yet. *)
Fixpoint read_loop (fuel : nat) (ilock : MX unit) (n : nat) (first : bool) : MX (option (list Z)) :=
  match n with
  | O => mret (Some [])
  | S n =>
      ok ← wait_input fuel ilock;
      if (ok : bool) then
        i ← iget inp;
        let c := ibyte i (i_r i) in
        imod (with_inp (MkInput (i_buf i) (u32 (i_r i + 1)) (i_w i) (i_e i)));;
        if c =? ctrl 68 then
          (if first then mret tt
           else i ← iget inp; imod (with_inp (MkInput (i_buf i) (u32 (i_r i - 1)) (i_w i) (i_e i))));;
          mret (Some [])
        else if c =? 10 then mret (Some [c])
        else l ← read_loop fuel ilock n false; mret (cons c <$> l)
      else mret None
  end.

(** The value returned and the bytes stored at [dst]. *)
Definition consoleread (fuel : nat) (iunlock ilock : MX unit) (n : Z) : MX (Z * list Z) :=
  iunlock;;
  lift (acquire cons_lock);;
  l ← read_loop fuel ilock (Z.to_nat n) true;
  match l with
  | Some l => lift (release cons_lock);; ilock;; mret (Z.of_nat (length l), l)
  | None => mret (-1, [])
  end.

Definition consolewrite (iunlock ilock : MX unit) (buf : list Z) : MX Z :=
  iunlock;;
  lift (acquire cons_lock);;
  for_each buf (fun c => consputc (Z.land c 0xff));;
  lift (release cons_lock);;
  ilock;;
  mret (Z.of_nat (length buf)).

(** The entries of the device switch are the two routines above. *)
Definition consoleinit : MX unit :=
  lift (initlock cons_lock);;
  modify (fun s => XSt (x_hw s) (procs s) (nextpid s) (initproc s) (promote_at s) (x_ticks s) (first s) true (x_con s) (x_rest s)).
End routines.

(** ** The display stays in bounds *)

Record disp_ok {X} (r : ist X) : Prop := DispOk {
  do_run : panicked r = false; do_len : length (crt r) = 2000%nat; do_cur : 0 <= cursor r < 24 * 80 }.

(** What an echo leaves alone. *)
Definition echoed {X} (r r' : ist X) : Prop := inp r' = inp r /\ i_rest r' = i_rest r /\ uart r' = uart r.

Section display.
Context {X : Type} (o : option nat) (pd : Z).
Implicit Types r : ist X.
Notation wpx := (wpx o pd).

Lemma wpx_iget {A} (f : ist X -> A) H r : wpx H r (iget f) (fun a H' r' => a = f r /\ H' = H /\ r' = r).
Proof. apply wpx_gets. Qed.

Lemma wpx_imod (f : ist X -> ist X) H r : wpx H r (imod f) (fun _ H' r' => H' = H /\ r' = f r).
Proof. apply wpx_modify. Qed.

Lemma wpx_crt_put i v H r :
  0 <= i < Z.of_nat (length (crt r)) ->
  wpx H r (crt_put i v) (fun _ H' r' => H' = H /\ r' = with_crt (<[Z.to_nat i := v]> (crt r)) (cursor r) r).
Proof.
  intros Hi s [Hh Hl Hp] <-. unfold wp, crt_put.
  rewrite (proj2 (Z.leb_le _ _)), (proj2 (Z.ltb_lt _ _)) by lia. exists H. split; [by constructor|done].
Qed.

(** The display with the cursor on a cell or just past the last one. *)
Lemma wpx_cga_finish H r pos :
  panicked r = false -> length (crt r) = 2000%nat -> 0 <= pos <= 24 * 80 ->
  wpx H r (if (pos <? 0) || (25 * 80 <? pos) then panic "pos under/overflow"
    else
      pos ← (if 24 <=? Z.quot pos 80 then
               let pos := pos - 80 in
               imod (fun r =>
                 let moved := take (23 * 80) (drop 80 (crt r)) ++ drop (23 * 80) (crt r) in
                 with_crt (take (Z.to_nat pos) moved ++ replicate (24 * 80 - Z.to_nat pos) 0 ++ drop (24 * 80) moved)
                   (cursor r) r);;
               mret pos
             else mret pos);
      imod (fun r => with_crt (crt r) (u16 pos) r);;
      crt_put pos (Z.lor 32 0x0700)) (fun _ H' r' => H' = H /\ echoed r r' /\ disp_ok r').
Proof.
  intros Hrun Hlen Hpos.
  assert ((pos <? 0) || (25 * 80 <? pos) = false) as -> by (apply orb_false_iff; split; apply Z.ltb_ge; lia).
  apply (wpx_bind _ _ _ _ _ _ (fun p H' r' => 0 <= p < 24 * 80 /\ H' = H /\ echoed r r' /\ panicked r' = false /\
    length (crt r') = 2000%nat)).
  - rewrite Z.quot_div_nonneg by lia. destruct (Z.leb_spec 24 (pos / 80)).
    + wx wpx_imod as (-> & ->). apply wpx_ret. cbv zeta. split; [dlia|]. split; [done|]. split; [done|]. split; [done|].
      cbn [crt with_crt]. rewrite !length_app, length_replicate, length_take, length_drop, !length_app, length_take, !length_drop, Hlen.
      assert (Z.to_nat (pos - 80) <= 1840)%nat by lia. lia.
    + apply wpx_ret. split; [dlia|]. by split_and!.
  - intros p ? r1 (Hp & -> & (Hi & Hx & Hu) & Hrun1 & Hlen1). wx wpx_imod as (-> & ->).
    eapply wpx_mono; [apply wpx_crt_put; simpl; lia|]. intros _ ? ? [-> ->]. split; [done|]. split; [done|].
    constructor; simpl; [done|by rewrite length_insert|]. unfold u16. rewrite Z.mod_small; lia.
Qed.

Lemma wpx_cgaputc c H r :
  disp_ok r -> wpx H r (cgaputc c) (fun _ H' r' => H' = H /\ echoed r r' /\ disp_ok r').
Proof.
  intros [Hrun Hlen Hcur]. unfold cgaputc. wx wpx_iget as (-> & -> & ->).
  apply (wpx_bind _ _ _ _ _ _ (fun p H' r' => 0 <= p <= 24 * 80 /\ H' = H /\ echoed r r' /\ panicked r' = false /\
    length (crt r') = 2000%nat)).
  - destruct (c =? 10); [|destruct (c =? BACKSPACE)].
    + apply wpx_ret. rewrite Z.rem_mod_nonneg by lia. split; [dlia|]. by split_and!.
    + apply wpx_ret. split; [destruct (0 <? cursor r) eqn:E; [apply Z.ltb_lt in E|]; lia|]. by split_and!.
    + wx wpx_crt_put as (-> & ->); [lia|]. apply wpx_ret. split; [lia|]. split; [done|]. split; [done|]. split; [done|].
      simpl. by rewrite length_insert.
  - intros p ? r1 (Hp & -> & (Hi & Hx & Hu) & Hrun1 & Hlen1).
    eapply wpx_mono; [by apply wpx_cga_finish|]. intros _ ? r2 (-> & (Hi2 & Hx2 & Hu2) & Hd). split; [done|].
    split; [|done]. split_and!; congruence.
Qed.

Lemma wpx_uartputc c H r : 
  disp_ok r -> wpx H r (uartputc c) (fun _ H' r' => H' = H /\ echoed r r' /\ disp_ok r').
Proof.
  intros [? ? ?]. eapply wpx_mono; [apply wpx_imod|]. intros _ ? ? [-> ->]. split; [done|].
  destruct (uart r) eqn:E; (split; [by split_and!|by constructor]).
Qed.

Lemma echoed_trans r r1 r2 : echoed r r1 -> echoed r1 r2 -> echoed r r2.
Proof. intros (? & ? & ?) (? & ? & ?). split_and!; congruence. Qed.

Lemma wpx_consputc c H r :
  disp_ok r -> wpx H r (consputc c) (fun _ H' r' => H' = H /\ echoed r r' /\ disp_ok r').
Proof.
  intros Hd. unfold consputc. wx wpx_iget as (-> & -> & ->). rewrite (do_run _ Hd).
  apply (wpx_bind _ _ _ _ _ _ (fun _ H' r' => H' = H /\ echoed r r' /\ disp_ok r')).
  - destruct (c =? BACKSPACE); [|by apply wpx_uartputc].
    wx wpx_uartputc as (-> & He1 & Hd1); [done|]. wx wpx_uartputc as (-> & He2 & Hd2); [done|].
    eapply wpx_mono; [by apply wpx_uartputc|]. intros _ ? ? (-> & He3 & Hd3). split; [done|]. split; [|done].
    by eapply echoed_trans, echoed_trans.
  - intros _ ? r1 (-> & He1 & Hd1). eapply wpx_mono; [by apply wpx_cgaputc|]. intros _ ? ? (-> & He2 & Hd2).
    split; [done|]. split; [by eapply echoed_trans|done].
Qed.
End display.

(** ** The input buffer is a line editor *)

(** The lines a reader may take, and the line being typed. *)
Definition slice (i : input) (a n : Z) : list Z :=
  (fun k => ibyte i (a + Z.of_nat k)) <$> seq 0 (Z.to_nat n).
Definition ready (i : input) : Z := u32 (i_w i - i_r i).
Definition total (i : input) : Z := u32 (i_e i - i_r i).
Definition committed (i : input) : list Z := slice i (i_r i) (ready i).
Definition editing (i : input) : list Z := slice i (i_w i) (total i - ready i).

Record inp_ring (i : input) : Prop := InpRing {
  io_len : length (i_buf i) = 128%nat;
  io_r : 0 <= i_r i < 2 ^ 32; io_w : 0 <= i_w i < 2 ^ 32; io_e : 0 <= i_e i < 2 ^ 32;
  io_ord : ready i <= total i <= 128 }.
(** The line being typed has no newline in it. *)
Definition inp_ok (i : input) : Prop := inp_ring i /\ 10 ∉ editing i.

Definition type_char (c : Z) (a : list Z * list Z) : list Z * list Z :=
  let '(lines, ed) := a in
  if c =? ctrl 80 then a
  else if c =? ctrl 85 then (lines, [])
  else if (c =? ctrl 72) || (c =? 127) then (lines, take (length ed - 1) ed)
  else if negb (c =? 0) && (length lines + length ed <? 128)%nat then
    let c := if c =? 13 then 10 else c in
    if (c =? 10) || (c =? ctrl 68) || (length lines + length ed =? 127)%nat
    then (lines ++ ed ++ [c], []) else (lines, ed ++ [c])
  else a.

Lemma slice_length i a n : length (slice i a n) = Z.to_nat n.
Proof. unfold slice. by rewrite length_fmap, length_seq. Qed.

Lemma slice_take i a n k : 0 <= k <= n -> take (Z.to_nat k) (slice i a n) = slice i a k.
Proof.
  intros Hk. unfold slice. rewrite <- fmap_take, take_seq. do 2 f_equal. lia.
Qed.

Lemma slice_app i a b n k :
  0 <= n -> 0 <= k -> b mod 128 = (a + n) mod 128 -> slice i a n ++ slice i b k = slice i a (n + k).
Proof.
  intros Hn Hk Hb. unfold slice. rewrite Z2Nat.inj_add, seq_app, fmap_app by lia. f_equal.
  replace (0 + Z.to_nat n)%nat with (Z.to_nat n + 0)%nat by lia.
  rewrite <- fmap_add_seq, <- list_fmap_compose. apply list_fmap_ext. intros j x _. simpl.
  unfold ibyte, INPUT_BUF. do 2 f_equal. rewrite Nat2Z.inj_add, Z2Nat.id by lia.
  rewrite <- Zplus_mod_idemp_l, Hb, Zplus_mod_idemp_l. f_equal. lia.
Qed.

(** A store outside of a slice. *)
Lemma slice_store i a n p c :
  length (i_buf i) = 128%nat -> 0 <= n -> (forall k, 0 <= k < n -> (a + k) mod 128 <> p mod 128) ->
  slice (MkInput (<[Z.to_nat (p mod INPUT_BUF) := c]> (i_buf i)) (i_r i) (i_w i) (i_e i)) a n = slice i a n.
Proof.
  intros Hl Hn Hout. unfold slice. apply list_fmap_ext. intros j x [-> Hj]%lookup_seq. unfold ibyte, INPUT_BUF. simpl.
  apply list_lookup_total_insert_ne. intros E. apply Z2Nat.inj in E; [|dlia|dlia]. apply (Hout (Z.of_nat j)); lia.
Qed.

Lemma slice_one i a c : length (i_buf i) = 128%nat -> ibyte i a = c -> slice i a 1 = [c].
Proof. intros Hl <-. unfold slice. simpl. by rewrite Z.add_0_r. Qed.

Lemma ready_range i : 0 <= ready i < 2 ^ 32.
Proof. apply u32_range. Qed.

Lemma edit_empty i : inp_ring i -> (i_e i =? i_w i) = (total i =? ready i).
Proof.
  intros [_ Hr Hw He _]. unfold total, ready, u32.
  destruct (Z.eqb_spec (i_e i) (i_w i)), (Z.eqb_spec ((i_e i - i_r i) mod 2 ^ 32) ((i_w i - i_r i) mod 2 ^ 32));
    try done; exfalso; dlia.
Qed.

Lemma none_ready i : inp_ring i -> (i_r i =? i_w i) = (ready i =? 0).
Proof.
  intros [_ Hr Hw He _]. unfold ready, u32.
  destruct (Z.eqb_spec (i_r i) (i_w i)), (Z.eqb_spec ((i_w i - i_r i) mod 2 ^ 32) 0); try done; exfalso; dlia.
Qed.

(** Erasing the last character. *)
Lemma inp_erase i :
  inp_ring i -> ready i < total i ->
  let i' := MkInput (i_buf i) (i_r i) (i_w i) (u32 (i_e i - 1)) in
  inp_ring i' /\ committed i' = committed i /\ editing i' = take (length (editing i) - 1) (editing i).
Proof.
  intros [Hl Hr Hw He Ho] Hlt i'. assert (total i' = total i - 1) as Ht.
  { unfold total, u32 in *. simpl. pose proof (ready_range i). unfold i', u32. simpl. dlia. }
  split; [constructor; try done; [apply u32_range|rewrite Ht; change (ready i') with (ready i); lia]|].
  split; [done|]. unfold editing. rewrite Ht, slice_length. change (ready i') with (ready i).
  replace (Z.to_nat (total i - ready i) - 1)%nat with (Z.to_nat (total i - 1 - ready i)) by lia.
  rewrite slice_take by lia. done.
Qed.

(** The line is complete. *)
Lemma inp_commit i :
  inp_ring i ->
  let i' := MkInput (i_buf i) (i_r i) (i_e i) (i_e i) in
  inp_ring i' /\ committed i' = committed i ++ editing i /\ editing i' = [].
Proof.
  intros [Hl Hr Hw He Ho] i'. assert (ready i' = total i /\ total i' = total i) as [E1 E2] by done.
  split; [constructor; try done; lia|]. pose proof (ready_range i).
  split; [|unfold editing; by rewrite E1, E2, Z.sub_diag].
  unfold committed, editing. rewrite slice_app; [rewrite E1; do 2 f_equal; lia|lia|lia|].
  unfold ready, u32. dlia.
Qed.

(** The position of the next character is not in use. *)
Lemma apart a e k : 0 <= k < u32 (e - a) -> u32 (e - a) < 128 -> (a + k) mod 128 <> e mod 128.
Proof. unfold u32. intros Hk Hu. dlia. Qed.

Lemma edit_length i : inp_ring i -> u32 (i_e i - i_w i) = total i - ready i.
Proof. intros [_ Hr Hw He Ho]. unfold ready, total, u32 in *. dlia. Qed.

(** A character is typed. *)
Lemma inp_type i c :
  inp_ring i -> total i < 128 ->
  let i' := MkInput (<[Z.to_nat (i_e i mod INPUT_BUF) := c]> (i_buf i)) (i_r i) (i_w i) (u32 (i_e i + 1)) in
  inp_ring i' /\ committed i' = committed i /\ editing i' = editing i ++ [c] /\ total i' = total i + 1.
Proof.
  intros Hi Hlt i'. pose proof (edit_length i Hi) as Hel. destruct Hi as [Hl Hr Hw He Ho].
  assert (total i' = total i + 1) as Ht by (unfold total, u32 in *; simpl; unfold u32; dlia).
  pose proof (ready_range i) as H0. assert (ready i' = ready i) as Hrd by done.
  split; [constructor; try done; [simpl; by rewrite length_insert|apply u32_range|lia]|].
  assert (forall a n, 0 <= n -> (forall k, 0 <= k < n -> (a + k) mod 128 <> i_e i mod 128) -> slice i' a n = slice i a n) as Hs
    by (intros a n Hn Hout; by apply (slice_store i a n (i_e i) c)).
  split; [change (slice i' (i_r i) (ready i) = slice i (i_r i) (ready i)); apply Hs; [lia|]; intros k Hk;
    apply apart; change (u32 (i_e i - i_r i)) with (total i); lia|]. split; [|done].
  unfold editing. rewrite Ht, Hrd. replace (total i + 1 - ready i) with (total i - ready i + 1) by lia.
  change (i_w i') with (i_w i).
  rewrite <- (slice_app i' (i_w i) (i_e i)); [|lia|lia|clear -Hr Hw He; unfold ready, total, u32; dlia]. f_equal.
  - apply Hs; [lia|]. intros k Hk. apply apart; lia.
  - apply slice_one; [simpl; by rewrite length_insert|]. unfold ibyte. simpl.
    apply list_lookup_total_insert_eq. rewrite Hl. unfold INPUT_BUF. dlia.
Qed.

(** A character is read. *)
Lemma inp_read i :
  inp_ring i -> 0 < ready i ->
  let i' := MkInput (i_buf i) (u32 (i_r i + 1)) (i_w i) (i_e i) in
  inp_ring i' /\ committed i = ibyte i (i_r i) :: committed i' /\ editing i' = editing i.
Proof.
  intros [Hl Hr Hw He Ho] Hlt i'.
  assert (ready i' = ready i - 1 /\ total i' = total i - 1) as [E1 E2]
    by (unfold ready, total, u32 in *; simpl; unfold u32; split; dlia).
  split; [constructor; try done; [apply u32_range|lia]|]. split.
  - unfold committed. rewrite E1. replace (ready i) with (1 + (ready i - 1)) at 1 by lia.
    rewrite <- (slice_app i (i_r i) (i_r i')); [|lia|lia|simpl; unfold u32; dlia].
    by rewrite (slice_one i (i_r i) (ibyte i (i_r i)) Hl eq_refl).
  - unfold editing. rewrite E1, E2. replace (total i - 1 - (ready i - 1)) with (total i - ready i) by lia. done.
Qed.

Lemma edit_last i : inp_ring i -> ready i < total i -> ibyte i (u32 (i_e i - 1)) ∈ editing i.
Proof.
  intros Hi Hlt. pose proof (edit_length i Hi) as Hel. unfold editing, slice. apply list_elem_of_fmap.
  exists (Z.to_nat (total i - ready i - 1)). split; [|apply elem_of_seq; lia].
  unfold ibyte, INPUT_BUF. do 2 f_equal. rewrite Z2Nat.id by lia. rewrite <- Hel. destruct Hi. unfold u32. dlia.
Qed.

Lemma take_no (c : Z) k l : c ∉ l -> c ∉ take k l.
Proof. intros Hn (j & Hj & _)%elem_of_take. apply Hn. by eapply list_elem_of_lookup_2. Qed.

Section lines.
Context {X : Type} (cur : nat) (pd : Z) (swtch : M (xst (ist X)) unit).
Implicit Types r : ist X.
Notation wpx := (wpx (Some cur) pd).

(** What the interrupt does to the lines. *)
Definition typed (f : list Z * list Z -> list Z * list Z) r r' : Prop :=
  inp_ok (inp r') /\ disp_ok r' /\ i_rest r' = i_rest r /\
  (committed (inp r'), editing (inp r')) = f (committed (inp r), editing (inp r)).

Lemma wpx_kill_line k H r :
  inp_ok (inp r) -> disp_ok r -> (length (editing (inp r)) <= k)%nat ->
  wpx H r (kill_line k) (fun _ H' r' => H' = H /\ typed (fun a => (a.1, [])) r r').
Proof.
  revert r. induction k as [|k IH]; intros r [Hr Hn] Hd Hk; cbn [kill_line]; wx wpx_iget as (-> & -> & ->);
    rewrite edit_empty by done; pose proof (io_ord _ Hr) as Ho; unfold editing in Hk; rewrite slice_length in Hk;
    (destruct (Z.eqb_spec (total (inp r)) (ready (inp r))) as [E|E];
     [apply wpx_ret; split; [done|]; split; [by split|]; split; [done|]; split; [done|];
      unfold editing; by rewrite E, Z.sub_diag|]); [lia|].
  assert (ready (inp r) < total (inp r)) as Hlt by lia.
  assert (ibyte (inp r) (u32 (i_e (inp r) - 1)) <> 10) as H10 by (intros E10; apply Hn; rewrite <- E10; by apply edit_last).
  rewrite (proj2 (Z.eqb_neq _ 10) H10). cbn [negb andb].
  destruct (inp_erase (inp r) Hr Hlt) as (Hr1 & Hc1 & He1). wx wpx_imod as (-> & ->).
  wx wpx_consputc as (-> & (Hi2 & Hx2 & _) & Hd2); [by destruct Hd|].
  eapply wpx_mono; [apply IH|].
  - rewrite Hi2. split; [done|]. cbn [inp with_inp]. rewrite He1. by apply take_no.
  - done.
  - rewrite Hi2. cbn [inp with_inp]. rewrite He1, length_take. unfold editing. rewrite slice_length. lia.
  - intros _ ? r3 (-> & Hok3 & Hd3 & Hx3 & E3). split; [done|]. split; [done|]. split; [done|].
    split; [by rewrite Hx3, Hx2|]. rewrite E3. simpl. rewrite Hi2. cbn [inp with_inp]. by rewrite Hc1.
Qed.

Lemma lines_length i : inp_ring i -> (length (committed i) + length (editing i))%nat = Z.to_nat (total i).
Proof.
  intros [_ _ _ _ Ho]. pose proof (ready_range i). unfold committed, editing. rewrite !slice_length. lia.
Qed.

(** An ordinary character: it is appended, and the line committed when it ends. *)
Lemma wpx_type_char c H r :
  ptable_lock ∉ H -> inp_ok (inp r) -> disp_ok r -> c <> 0 -> total (inp r) < 128 ->
  let i := inp r in let c' := if c =? 13 then 10 else c in let e := u32 (i_e i + 1) in
  wpx H r (imod (with_inp (MkInput (<[Z.to_nat (i_e i mod INPUT_BUF) := c']> (i_buf i)) (i_r i) (i_w i) e));;
     consputc c';;
     (if (c' =? 10) || (c' =? ctrl 68) || (e =? u32 (i_r i + INPUT_BUF)) then
        i ← iget inp;
        imod (with_inp (MkInput (i_buf i) (i_r i) (i_e i) (i_e i)));;
        wakeup input_chan
      else mret tt))
    (fun _ H' r' => H' = H /\ typed (fun a =>
       if (c' =? 10) || (c' =? ctrl 68) || (length a.1 + length a.2 =? 127)%nat
       then (a.1 ++ a.2 ++ [c'], []) else (a.1, a.2 ++ [c'])) r r').
Proof.
  intros HH [Hr Hn] Hd Hc Ht i c' e. destruct (inp_type i c' Hr Ht) as (Hr1 & Hc1 & He1 & Ht1).
  fold e in Hr1, Hc1, He1, Ht1. set (i1 := MkInput _ _ _ e) in *. wx wpx_imod as (-> & ->).
  wx wpx_consputc as (-> & (Hi2 & Hx2 & _) & Hd2); [by destruct Hd|]. cbn [inp with_inp] in Hi2.
  assert ((e =? u32 (i_r i + INPUT_BUF)) = (length (committed i) + length (editing i) =? 127)%nat) as ->.
  { rewrite (lines_length i Hr). pose proof (u32_range (i_e i - i_r i)) as H0. change (u32 (i_e i - i_r i)) with (total i) in H0.
    destruct Hr as [_ Hrr _ Hre _]. unfold e, total, INPUT_BUF, u32 in *.
    destruct (Z.eqb_spec ((i_e i + 1) mod 2 ^ 32) ((i_r i + 128) mod 2 ^ 32)),
      (Nat.eqb_spec (Z.to_nat ((i_e i - i_r i) mod 2 ^ 32)) 127); try done; exfalso; dlia. }
  destruct (_ || _) eqn:Ecommit.
  - destruct (inp_commit i1 Hr1) as (Hr3 & Hc3 & He3). wx wpx_iget as (-> & -> & ->). rewrite Hi2.
    wx wpx_imod as (-> & ->). eapply wpx_mono; [by apply wpx_wakeup|]. intros _ ? ? [-> ->]. split; [done|].
    split; [split; [done|]; cbn [inp with_inp]; rewrite He3; apply not_elem_of_nil|]. split; [by destruct Hd2|].
    split; [done|]. cbn [inp with_inp fst snd]. fold i. rewrite Ecommit, Hc3, He3, Hc1, He1. done.
  - apply wpx_ret. split; [done|]. rewrite !orb_false_iff in Ecommit. destruct Ecommit as [[E10%Z.eqb_neq E4] E127].
    split; [rewrite Hi2; split; [done|]; rewrite He1; set_solver|]. split; [done|]. split; [done|].
    rewrite Hi2. fold i. cbn [fst snd]. rewrite Hc1, He1, E4, E127. by rewrite (proj2 (Z.eqb_neq _ _) E10).
Qed.

Lemma wpx_console_char c H r :
  ptable_lock ∉ H -> inp_ok (inp r) -> disp_ok r ->
  wpx H r (console_char c) (fun a H' r' => a = (c =? ctrl 80) /\ H' = H /\ typed (type_char c) r r').
Proof.
  intros HH Hi Hd. pose proof Hi as [Hr Hn]. pose proof (lines_length _ Hr) as Hll.
  pose proof (u32_range (i_e (inp r) - i_r (inp r))) as H0. change (u32 _) with (total (inp r)) in H0.
  unfold console_char, type_char. destruct (Z.eqb_spec c (ctrl 80)) as [E80|E80]; [by apply wpx_ret|].
  destruct (c =? ctrl 85).
  { wx wpx_kill_line as (-> & Ht); [done|done| |by apply wpx_ret].
    unfold editing. rewrite slice_length. pose proof (ready_range (inp r)). pose proof (io_ord _ Hr). unfold INPUT_BUF. lia. }
  destruct ((c =? ctrl 72) || (c =? 127)).
  { wx wpx_iget as (-> & -> & ->). rewrite edit_empty by done. pose proof (io_ord _ Hr) as Ho.
    apply (wpx_bind _ _ _ _ _ _ (fun _ H' r' => H' = H /\ typed (fun a => (a.1, take (length a.2 - 1) a.2)) r r'));
      [|intros _ ? r' (-> & Hok & Hd' & Hx & E); by apply wpx_ret].
    destruct (Z.eqb_spec (total (inp r)) (ready (inp r))) as [E|E]; cbn [negb].
    - apply wpx_ret. split; [done|]. split; [done|]. split; [done|]. split; [done|]. simpl.
      unfold editing. by rewrite E, Z.sub_diag.
    - destruct (inp_erase (inp r) Hr ltac:(lia)) as (Hr1 & Hc1 & He1). wx wpx_imod as (-> & ->).
      eapply wpx_mono; [apply wpx_consputc; by destruct Hd|]. intros _ ? r2 (-> & (Hi2 & Hx2 & _) & Hd2). split; [done|].
      unfold typed. rewrite Hi2. cbn [inp with_inp]. rewrite Hc1, He1. split; [split; [done|]|done].
      rewrite He1. by apply take_no. }
  wx wpx_iget as (-> & -> & ->). change (u32 (i_e (inp r) - i_r (inp r))) with (total (inp r)).
  assert ((total (inp r) <? INPUT_BUF) = (length (committed (inp r)) + length (editing (inp r)) <? 128)%nat) as ->.
  { rewrite Hll. unfold INPUT_BUF. destruct (Z.ltb_spec (total (inp r)) 128), (Nat.ltb_spec (Z.to_nat (total (inp r))) 128); lia || done. }
  destruct (negb (c =? 0) && _) eqn:Eroom.
  - apply andb_true_iff in Eroom as [Ec%negb_true_iff%Z.eqb_neq El%Nat.ltb_lt].
    wx (wpx_type_char c H r HH Hi Hd Ec ltac:(lia)) as (-> & Hok & Hd' & Hx & E).
    apply wpx_ret. split; [done|]. split; [done|]. split; [done|]. split; [done|]. split; [done|]. rewrite E.
    cbv beta iota. by rewrite (proj2 (Z.eqb_neq c 0) Ec), (proj2 (Nat.ltb_lt _ _) El).
  - apply wpx_ret_bind, wpx_ret. split; [done|]. split; [done|]. split; [done|]. split; [done|]. split; [done|].
    cbv beta iota. by rewrite Eroom.
Qed.

Definition type_chars (cs : list Z) (a : list Z * list Z) : list Z * list Z := fold_left (fun a c => type_char c a) cs a.

Lemma wpx_console_chars cs d H r :
  ptable_lock ∉ H -> inp_ok (inp r) -> disp_ok r -> ctrl 80 ∉ cs ->
  wpx H r (console_chars cs d) (fun a H' r' => a = d /\ H' = H /\ typed (type_chars cs) r r').
Proof.
  intros HH. revert d r. induction cs as [|c cs IH]; intros d r Hi Hd Hcs; cbn [console_chars].
  { by apply wpx_ret. }
  apply not_elem_of_cons in Hcs as [Hc Hcs].
  wx wpx_console_char as (-> & -> & Hi1 & Hd1 & Hx1 & E1); [done..|].
  rewrite (proj2 (Z.eqb_neq c (ctrl 80))), orb_false_r by done.
  eapply wpx_mono; [by apply IH|]. intros a ? r2 (-> & -> & Hi2 & Hd2 & Hx2 & E2). split_and!; try done.
  split; [done|]. split; [done|]. split; [congruence|]. rewrite E2, E1. done.
Qed.

Lemma wpx_consoleintr cs r :
  inp_ok (inp r) -> disp_ok r -> ctrl 80 ∉ cs ->
  wpx [] r (consoleintr cs) (fun _ H' r' => H' = [] /\ typed (type_chars cs) r r').
Proof.
  intros Hi Hd Hcs. unfold consoleintr. wx (wpx_acquire _ _ _ _ _ (not_elem_of_nil _)) as (-> & ->).
  wx wpx_console_chars as (-> & -> & Ht); [set_solver|done..|].
  wx (wpx_release _ _ _ _ [] _ (reflexivity _)) as (-> & ->). by apply wpx_ret.
Qed.

(** What a reader of at most [n] bytes takes from the lines: up to the end of a
    line, or up to an end of file, which is taken only by a read of no byte. *)
Fixpoint line_of (n : nat) (first : bool) (l : list Z) : option (list Z * list Z) :=
  match n, l with
  | O, _ => Some ([], l)
  | S n, [] => None
  | S n, c :: l' =>
      if c =? ctrl 68 then Some ([], if first then l' else l)
      else if c =? 10 then Some ([c], l')
      else match line_of n false l' with Some (out, rest) => Some (c :: out, rest) | None => None end
  end.

(** While a reader waits, lines are added. *)
Definition grows r r' : Prop := inp_ok (inp r') /\ exists l, committed (inp r') = committed (inp r) ++ l.

Context (ilock iunlock : M (xst (ist X)) unit).
Hypothesis Hcur : (cur < NPROC)%nat.
Hypothesis Hswtch : forall r, inp_ok (inp r) -> ready (inp r) = 0 ->
  wpx [ptable_lock] r swtch (fun _ H' r' => H' = [ptable_lock] /\ grows r r' /\ 0 < ready (inp r')).

Lemma wpx_some_ready fuel r :
  inp_ok (inp r) -> 0 < ready (inp r) ->
  wpx [cons_lock] r (wait_input swtch fuel ilock) (fun a H' r' => a = true /\ H' = [cons_lock] /\ r' = r).
Proof.
  intros [Hr _] Hlt. destruct fuel; cbn [wait_input]; wx wpx_iget as (-> & -> & ->); rewrite none_ready by done;
    rewrite (proj2 (Z.eqb_neq _ _)) by lia; by apply wpx_ret.
Qed.

Lemma wpx_wait_input fuel r :
  (0 < fuel)%nat -> inp_ok (inp r) ->
  wpx [cons_lock] r (wait_input swtch fuel ilock) (fun a H' r' => a = true /\ H' = [cons_lock] /\
    grows r r' /\ 0 < ready (inp r')).
Proof.
  intros Hf Hi. pose proof (ready_range (inp r)) as H0. destruct (decide (0 < ready (inp r))) as [Hlt|Hz].
  { eapply wpx_mono; [by apply wpx_some_ready|]. intros a ? ? (-> & -> & ->). split_and!; try done.
    split; [done|]. exists []. by rewrite app_nil_r. }
  destruct fuel as [|fuel]; [lia|]. cbn [wait_input]. wx wpx_iget as (-> & -> & ->).
  rewrite none_ready by apply Hi. rewrite (proj2 (Z.eqb_eq _ _)) by lia.
  wx (wpx_killed _ _ cur _ _ eq_refl) as (-> & -> & ->). cbn [negb Z.eqb]. eapply wpx_bind.
  { apply (wpx_sleep _ _ cur _ _ _ _ (fun r' => grows r r' /\ 0 < ready (inp r')) eq_refl Hcur ltac:(done)).
    apply Hswtch; [done|lia]. }
  intros _ ? r1 (-> & Hg & Hlt). eapply wpx_mono; [apply wpx_some_ready; [apply Hg|done]|].
  by intros a ? ? (-> & -> & ->).
Qed.

Lemma wpx_read_loop fuel n first r :
  (0 < fuel)%nat -> inp_ok (inp r) ->
  wpx [cons_lock] r (read_loop swtch fuel ilock n first) (fun a H' r' => H' = [cons_lock] /\ inp_ok (inp r') /\
    exists l out, line_of n first (committed (inp r) ++ l) = Some (out, committed (inp r')) /\ a = Some out).
Proof.
  intros Hf. revert first r. induction n as [|n IH]; intros first r Hi; cbn [read_loop].
  { apply wpx_ret. split; [done|]. split; [done|]. exists [], []. by rewrite app_nil_r. }
  wx (wpx_wait_input fuel r Hf Hi) as (-> & -> & (Hi1 & l1 & El1) & Hlt).
  wx wpx_iget as (-> & -> & ->). match goal with |- context [ibyte (inp ?x)] => set (r1 := x) in * end.
  pose proof Hi1 as [Hr1 Hn1]. destruct (inp_read (inp r1) Hr1 Hlt) as (Hr2 & Hc2 & He2).
  set (i2 := MkInput _ _ _ _) in *. set (c := ibyte (inp r1) (i_r (inp r1))) in *.
  assert (inp_ok i2) as Hi2 by (split; [done|by rewrite He2]). wx wpx_imod as (-> & ->).
  cbn [line_of]. destruct (c =? ctrl 68) eqn:E4.
  - apply (wpx_bind _ _ _ _ _ _ (fun _ H' r' => H' = [cons_lock] /\ inp_ok (inp r') /\
      committed (inp r') = if first then committed i2 else c :: committed i2)).
    + destruct first; [by apply wpx_ret|]. wx wpx_iget as (-> & -> & ->).
      eapply wpx_mono; [apply wpx_imod|]. intros _ ? ? [-> ->]. split; [done|]. cbn [inp with_inp i2 i_buf i_r i_w i_e].
      replace (u32 (u32 (i_r (inp r1) + 1) - 1)) with (i_r (inp r1)) by (destruct Hr1; unfold u32; dlia).
      rewrite <- Hc2. by destruct (inp r1).
    + intros _ ? r3 (-> & Hi3 & Hc3). apply wpx_ret. split; [done|]. split; [done|]. exists l1, [].
      rewrite <- El1, Hc2, E4, Hc3. by destruct first.
  - destruct (c =? 10) eqn:E10.
    + apply wpx_ret. split; [done|]. split; [done|]. exists l1, [c]. by rewrite <- El1, Hc2, E4, E10.
    + wx (IH false (with_inp i2 r1) Hi2) as (-> & Hi3 & l2 & out & El2 & ->). apply wpx_ret.
      split; [done|]. split; [done|]. exists (l1 ++ l2), (c :: out).
      rewrite app_assoc, <- El1, Hc2. simpl. rewrite E4, E10. cbn [inp with_inp] in El2. by rewrite El2.
Qed.
End lines.

(** C19: the console is a line editor.  An interrupt that delivers any characters
    (other than the request for a process listing) does to the finished lines and to
    the line being typed what [type_char] says: characters are appended while there is
    room, backspace and control-U erase only the line being typed, and a newline, an
    end of file or a full buffer finishes it; the echo never leaves the display.  A
    read waits until a line is there, returns the next bytes up to the end of the
    line, at most as many as asked for, and leaves the rest, an end of file being
    consumed only by a read of no byte.  The indices may wrap around. *)
Theorem console_lines {X} cur pd fuel (swtch ilock iunlock : M (xst (ist X)) unit) r :
  (cur < NPROC)%nat -> (0 < fuel)%nat -> inp_ok (inp r) -> disp_ok r ->
  (forall cs, ctrl 80 ∉ cs -> wpx (Some cur) pd [] r (consoleintr cs) (fun _ H' r' => H' = [] /\
     inp_ok (inp r') /\ disp_ok r' /\
     (committed (inp r'), editing (inp r')) = type_chars cs (committed (inp r), editing (inp r)))) /\
  ((forall r, inp_ok (inp r) -> ready (inp r) = 0 -> wpx (Some cur) pd [ptable_lock] r swtch (fun _ H' r' =>
      H' = [ptable_lock] /\ grows r r' /\ 0 < ready (inp r'))) ->
   (forall r, inp_ok (inp r) -> wpx (Some cur) pd [] r iunlock (fun _ H' r' => H' = [] /\ grows r r')) ->
   (forall r, inp_ok (inp r) -> wpx (Some cur) pd [] r ilock (fun _ H' r' => H' = [] /\ grows r r')) ->
   forall n, wpx (Some cur) pd [] r (consoleread swtch fuel iunlock ilock n) (fun a H' r' => H' = [] /\
     exists l out rest l', line_of (Z.to_nat n) true (committed (inp r) ++ l) = Some (out, rest) /\
       a = (Z.of_nat (length out), out) /\ committed (inp r') = rest ++ l')).
Proof.
  intros Hc Hf Hi Hd. split.
  - intros cs Hcs. eapply wpx_mono; [by apply wpx_consoleintr|]. by intros _ ? r' (-> & Hi' & Hd' & _ & E).
  - intros Hs Hu Hl n. unfold consoleread. wx (Hu r Hi) as (-> & Hi1 & l1 & E1).
    wx (wpx_acquire _ _ _ _ _ (not_elem_of_nil _)) as (-> & ->).
    wx (wpx_read_loop cur pd swtch ilock Hc Hs fuel (Z.to_nat n) true _ Hf Hi1) as (-> & Hi2 & l2 & out & E2 & ->).
    wx (wpx_release _ _ _ _ [] _ (reflexivity _)) as (-> & ->). wx (Hl _ Hi2) as (-> & Hi3 & l3 & E3).
    apply wpx_ret. split; [done|]. eexists (l1 ++ l2), out, _, l3. rewrite app_assoc, <- E1. split; [exact E2|].
    by rewrite E3.
Qed.

(** A console whose indices are about to wrap around, with a line typed and
    another begun. *)
Definition ex_input : input :=
  MkInput (<[127%nat := 10]> (replicate 128 97)) (2 ^ 32 - 3) 0 1.
Definition ex_ist : ist unit := MkIst ex_input (replicate 2000 0) 1919 true [] false tt.

Lemma ex_input_ok : inp_ok ex_input.
Proof.
  split; [constructor; vm_compute; auto; split; congruence|].
  assert (editing ex_input = [97]) as -> by reflexivity. intros H. apply list_elem_of_singleton in H. discriminate.
Qed.

Lemma ex_ist_ok : disp_ok ex_ist.
Proof. constructor; [reflexivity|reflexivity|vm_compute; split; congruence]. Qed.

(** Another process that types a line when there is none. *)
Definition ex_type (r : ist unit) : ist unit :=
  with_inp (MkInput (<[Z.to_nat (i_r (inp r) mod 128) := 10]> (i_buf (inp r))) (i_r (inp r)) (u32 (i_r (inp r) + 1))
    (u32 (i_r (inp r) + 1))) r.

Lemma ex_type_ok r : inp_ok (inp r) -> ready (inp r) = 0 -> grows r (ex_type r) /\ 0 < ready (inp (ex_type r)).
Proof.
  intros [[Hl Hr Hw He Ho] Hn] Hz.
  assert (ready (inp (ex_type r)) = 1) as E1 by (unfold ready, u32; simpl; unfold u32; dlia).
  assert (total (inp (ex_type r)) = 1) as E2 by (unfold total, u32; simpl; unfold u32; dlia).
  split; [|lia]. split; [split|].
  - constructor; try apply u32_range; simpl; [by rewrite length_insert|done|]. change (ready _) with (ready (inp (ex_type r))).
    change (total _) with (total (inp (ex_type r))). lia.
  - unfold editing. rewrite E1, E2. apply not_elem_of_nil.
  - exists (committed (inp (ex_type r))). unfold committed at 2. by rewrite Hz.
Qed.

Lemma console_lines_witness :
  wp (consoleintr [98; 127; 99; 13]) (fun _ s' =>
    committed (inp (x_rest s')) = [97; 97; 10; 97; 99; 10] /\ editing (inp (x_rest s')) = []) (ex_running ex_ist) /\
  wp (consoleread (modify (fun s => with_rest (ex_type (x_rest s)) s)) 1 (mret tt) (mret tt) 10)
    (fun a s' => a.2 = [97; 97; 10]) (ex_running ex_ist).
Proof.
  assert (0 < NPROC)%nat as Hn by (vm_compute; lia).
  destruct (console_lines 0 7 1 (modify (fun s => with_rest (ex_type (x_rest s)) s)) (mret tt) (mret tt) ex_ist
    Hn (Nat.lt_0_succ 0) ex_input_ok ex_ist_ok) as [H1 H2]. split.
  - refine (wp_mono _ _ _ _ (H1 [98; 127; 99; 13] _ (ex_running ex_ist) (ex_running_world _) eq_refl) _).
    + intros H. repeat (apply elem_of_cons in H as [H|H]; [discriminate|]). by apply not_elem_of_nil in H.
    + intros a s' (H' & _ & _ & _ & _ & E).
      assert (type_chars [98; 127; 99; 13] (committed (inp ex_ist), editing (inp ex_ist)) = ([97; 97; 10; 97; 99; 10], []))
        as Et by (vm_compute; reflexivity).
      rewrite Et in E. injection E as E3 E4. split; [exact E3|exact E4].
  - assert (forall r : ist unit, inp_ok (inp r) -> grows r r) as Hid.
    { intros r Hi. split; [exact Hi|]. exists []. symmetry. apply app_nil_r. }
    refine (wp_mono _ _ _ _ (H2 _ _ _ 10 (ex_running ex_ist) (ex_running_world _) eq_refl) _).
    + intros r Hi Hz. eapply wpx_mono; [apply (wpx_modify (Some 0%nat) 7 ex_type)|].
      intros _ ? ? [-> ->]. split; [reflexivity|]. exact (ex_type_ok r Hi Hz).
    + intros r Hi. apply wpx_ret. split; [reflexivity|exact (Hid r Hi)].
    + intros r Hi. apply wpx_ret. split; [reflexivity|exact (Hid r Hi)].
    + intros a s' (H' & _ & _ & l & out & rest & l' & E & -> & _). cbn [snd].
      assert (committed (inp ex_ist) = [97; 97; 10]) as Ec by (vm_compute; reflexivity).
      rewrite Ec in E. change (Z.to_nat 10) with 10%nat in E. cbn in E. injection E as <- _. reflexivity.
Defined.
