(* ===== verification/Xv6Bio.v ===== *)
(** * xv6 sleep locks, buffer cache and disk (lab2/sleeplock.c, bio.c, memide.c)

    The sleeping lock, the in-memory disk of memide.c and the buffer cache, with
    the invariant that ties the cache to the disk and the functional behaviour of
    [bread], [bwrite] and [brelse].  The list of buffers threaded through [prev]
    and [next] is the list of their indices, most recently used first. *)

From S2P Require Import Prelude CMem Xv6Lock Xv6Proc Xv6World.
From stdpp Require Import base numbers option list gmap strings.
Open Scope Z_scope.

(** ** Sleep locks *)

Record sleeplock : Type := MkSleep { sl_locked : Z; sl_pid : Z }.

(** A sleep lock that is part of the state [R]: how it is read and written, the
    number of the spin lock inside it, and its address as a channel. *)
Record slref (R : Type) : Type := SlRef {
  sl_get : R -> option sleeplock; sl_set : sleeplock -> R -> R; sl_spin : nat; sl_chan : ptr }.
Arguments SlRef {R}. Arguments sl_get {R}. Arguments sl_set {R}. Arguments sl_spin {R}.
Arguments sl_chan {R}.

Section sleeplocks.
Context {R : Type}.
Notation MX := (M (xst R)).

Definition sl_read (l : slref R) : MX sleeplock := fun s =>
  match sl_get l (x_rest s) with Some k => Ok k s | None => Panic "null lock" s end.
Definition sl_write (l : slref R) (k : sleeplock) : MX unit :=
  modify (fun s => with_rest (sl_set l k (x_rest s)) s).

Definition mypid : MX Z := c ← curproc; p ← pget c; mret (pid p).

Definition initsleeplock (l : slref R) : MX unit :=
  lift (initlock (sl_spin l));;
  sl_write l (MkSleep 0 0).

(** [while (lk->locked) sleep(lk, &lk->lk)]; [fuel] bounds the wake-ups. *)
Fixpoint wait_unlocked (fuel : nat) (swtch : MX unit) (l : slref R) : MX unit :=
  match fuel with
  | O => no_fuel
  | S n =>
      k ← sl_read l;
      if sl_locked k =? 0 then mret tt
      else sleep swtch (sl_chan l) (sl_spin l);; wait_unlocked n swtch l
  end.

Definition acquiresleep (fuel : nat) (swtch : MX unit) (l : slref R) : MX unit :=
  lift (acquire (sl_spin l));;
  wait_unlocked fuel swtch l;;
  k ← sl_read l;
  sl_write l (MkSleep 1 (sl_pid k));;
  p ← mypid;
  sl_write l (MkSleep 1 p);;
  lift (release (sl_spin l)).

Definition releasesleep (l : slref R) : MX unit :=
  lift (acquire (sl_spin l));;
  sl_write l (MkSleep 0 0);;
  wakeup (sl_chan l);;
  lift (release (sl_spin l)).

Definition holdingsleep (l : slref R) : MX bool :=
  lift (acquire (sl_spin l));;
  k ← sl_read l;
  r ← (if sl_locked k =? 0 then mret false else p ← mypid; mret (sl_pid k =? p));
  lift (release (sl_spin l));;
  mret r.
End sleeplocks.

(** ** Buffers, disk and log *)

Definition BSIZE : Z := 512.
Definition NBUF : nat := 30.
Definition B_VALID : Z := 2.
Definition B_DIRTY : Z := 4.

Record buf : Type := MkBuf {
  flags : Z; dev : Z; blockno : Z; b_lock : sleeplock; refcnt : Z; data : list Z }.

Definition set_flags (f : Z) (b : buf) : buf := MkBuf f (dev b) (blockno b) (b_lock b) (refcnt b) (data b).
Definition set_block (d n : Z) (b : buf) : buf := MkBuf (flags b) d n (b_lock b) (refcnt b) (data b).
Definition set_block_lock (k : sleeplock) (b : buf) : buf :=
  MkBuf (flags b) (dev b) (blockno b) k (refcnt b) (data b).
Definition set_refcnt (n : Z) (b : buf) : buf := MkBuf (flags b) (dev b) (blockno b) (b_lock b) n (data b).
Definition set_data (d : list Z) (b : buf) : buf :=
  MkBuf (flags b) (dev b) (blockno b) (b_lock b) (refcnt b) d.

(** [struct logheader] and [struct log] of log.c; its spin lock is [log_lock]. *)
Record logheader : Type := MkHeader { lh_n : Z; lh_block : list Z }.
Record logst : Type := MkLog {
  l_start : Z; l_size : Z; l_outstanding : Z; l_committing : bool; l_dev : Z; l_lh : logheader }.

(** The state of the block layer: the cache, its list, the disk with the writes
    it has performed, and the log. *)
Record fs : Type := MkFs {
  bufs : list buf; lru : list nat; disk : list (list Z); writes : list (Z * list Z); log : logst }.

Definition with_bufs (l : list buf) (r : fs) : fs := MkFs l (lru r) (disk r) (writes r) (log r).
Definition with_lru (l : list nat) (r : fs) : fs := MkFs (bufs r) l (disk r) (writes r) (log r).
Definition with_log (l : logst) (r : fs) : fs := MkFs (bufs r) (lru r) (disk r) (writes r) l.

Definition bcache_lock : nat := 3.
Definition log_lock : nat := 4.

Definition buf_lock (i : nat) : slref fs :=
  SlRef (fun r => b_lock <$> bufs r !! i)
    (fun k r => with_bufs (alter (set_block_lock k) i (bufs r)) r)
    (100 + i) (PAddr (1000 + Z.of_nat i)).

Notation MF := (M (xst fs)).

Definition fgets {A} (f : fs -> A) : MF A := gets (fun s => f (x_rest s)).
Definition fmod (f : fs -> fs) : MF unit := modify (fun s => with_rest (f (x_rest s)) s).

Definition buf_get (i : nat) : MF buf := fun s =>
  match bufs (x_rest s) !! i with Some b => Ok b s | None => Panic "bcache: out of range" s end.
Definition buf_upd (i : nat) (f : buf -> buf) : MF unit :=
  fmod (fun r => with_bufs (alter f i (bufs r)) r).

(** ** The disk of memide.c *)

(** The store [memmove(p, b->data, BSIZE)] into the disk. *)
Definition disk_write (n : Z) (d : list Z) (r : fs) : fs :=
  MkFs (bufs r) (lru r) (<[Z.to_nat n := d]> (disk r)) (writes r ++ [(n, d)]) (log r).

Definition iderw (i : nat) : MF unit :=
  h ← holdingsleep (buf_lock i);
  if negb h then panic "iderw: buf not locked"
  else
    b ← buf_get i;
    if Z.land (flags b) (Z.lor B_VALID B_DIRTY) =? B_VALID then panic "iderw: nothing to do"
    else if negb (dev b =? 1) then panic "iderw: request not for disk 1"
    else
      n ← fgets (fun r => Z.of_nat (length (disk r)));
      if n <=? blockno b then panic "iderw: block out of range"
      else
        (if negb (Z.land (flags b) B_DIRTY =? 0) then
           buf_upd i (fun b => set_flags (Z.land (flags b) (Z.lnot B_DIRTY)) b);;
           b ← buf_get i;
           fmod (disk_write (blockno b) (data b))
         else
           d ← fgets (fun r => nth (Z.to_nat (blockno b)) (disk r) []);
           buf_upd i (set_data d));;
        buf_upd i (fun b => set_flags (Z.lor (flags b) B_VALID) b).

(** ** The cache *)

Definition binit : MF unit :=
  lift (initlock bcache_lock);;
  fmod (with_lru []);;
  for_each (seq 0 NBUF) (fun i =>
    initsleeplock (buf_lock i);;
    fmod (fun r => with_lru (i :: lru r) r)).

(** The walk of the list: the first buffer that passes the test. *)
Fixpoint find_buf (bs : list buf) (l : list nat) (test : buf -> bool) : option nat :=
  match l with
  | [] => None
  | i :: l =>
      match bs !! i with
      | Some b => if test b then Some i else find_buf bs l test
      | None => find_buf bs l test
      end
  end.

Section cache.
Context (fuel : nat) (swtch : MF unit).

Definition bget (d n : Z) : MF nat :=
  lift (acquire bcache_lock);;
  hit ← fgets (fun r => find_buf (bufs r) (lru r) (fun b => (dev b =? d) && (blockno b =? n)));
  match hit with
  | Some i =>
      buf_upd i (fun b => set_refcnt (u32 (refcnt b + 1)) b);;
      lift (release bcache_lock);;
      acquiresleep fuel swtch (buf_lock i);;
      mret i
  | None =>
      free ← fgets (fun r => find_buf (bufs r) (rev (lru r))
                (fun b => (refcnt b =? 0) && (Z.land (flags b) B_DIRTY =? 0)));
      match free with
      | Some i =>
          buf_upd i (fun b => set_refcnt 1 (set_flags 0 (set_block d n b)));;
          lift (release bcache_lock);;
          acquiresleep fuel swtch (buf_lock i);;
          mret i
      | None => panic "bget: no buffers"
      end
  end.

Definition bread (d n : Z) : MF nat :=
  i ← bget d n;
  b ← buf_get i;
  (if Z.land (flags b) B_VALID =? 0 then iderw i else mret tt);;
  mret i.

Definition bwrite (i : nat) : MF unit :=
  h ← holdingsleep (buf_lock i);
  if negb h then panic "bwrite"
  else
    buf_upd i (fun b => set_flags (Z.lor (flags b) B_DIRTY) b);;
    iderw i.

Definition brelse (i : nat) : MF unit :=
  h ← holdingsleep (buf_lock i);
  if negb h then panic "brelse"
  else
    releasesleep (buf_lock i);;
    lift (acquire bcache_lock);;
    buf_upd i (fun b => set_refcnt (u32 (refcnt b - 1)) b);;
    b ← buf_get i;
    (if refcnt b =? 0
     then fmod (fun r => with_lru (i :: filter (fun j => j <> i) (lru r)) r)
     else mret tt);;
    lift (release bcache_lock).
End cache.

(** ** The invariant of the cache *)

Definition valid (b : buf) : bool := Z.testbit (flags b) 1.
Definition dirty (b : buf) : bool := Z.testbit (flags b) 2.

Lemma land_valid f : (Z.land f B_VALID =? 0) = negb (Z.testbit f 1).
Proof.
  assert (Z.land f B_VALID = if Z.testbit f 1 then 2 else 0) as ->; [|by destruct (Z.testbit f 1)].
  apply Z.bits_inj'. intros n Hn. rewrite Z.land_spec. change B_VALID with (2 ^ 1).
  rewrite Z.pow2_bits_eqb by lia. destruct (Z.eqb_spec 1 n) as [<-|Hne].
  - by destruct (Z.testbit f 1).
  - rewrite andb_false_r. destruct (Z.testbit f 1); [|by rewrite Z.bits_0].
    change 2 with (2 ^ 1). rewrite Z.pow2_bits_false; [done|lia].
Qed.

Lemma land_dirty f : (Z.land f B_DIRTY =? 0) = negb (Z.testbit f 2).
Proof.
  assert (Z.land f B_DIRTY = if Z.testbit f 2 then 4 else 0) as ->; [|by destruct (Z.testbit f 2)].
  apply Z.bits_inj'. intros n Hn. rewrite Z.land_spec. change B_DIRTY with (2 ^ 2).
  rewrite Z.pow2_bits_eqb by lia. destruct (Z.eqb_spec 2 n) as [<-|Hne].
  - by destruct (Z.testbit f 2).
  - rewrite andb_false_r. destruct (Z.testbit f 2); [|by rewrite Z.bits_0].
    change 4 with (2 ^ 2). rewrite Z.pow2_bits_false; [done|lia].
Qed.

Lemma land_busy f : Z.land f (Z.lor B_VALID B_DIRTY) = B_VALID ->
  Z.testbit f 1 = true /\ Z.testbit f 2 = false.
Proof.
  intros E. split.
  - assert (Z.testbit (Z.land f 6) 1 = true) as H by (by rewrite (E : Z.land f 6 = 2)).
    rewrite Z.land_spec in H. by apply andb_true_iff in H as [? _].
  - assert (Z.testbit (Z.land f 6) 2 = false) as H by (by rewrite (E : Z.land f 6 = 2)).
    rewrite Z.land_spec in H. change (Z.testbit 6 2) with true in H. by rewrite andb_true_r in H.
Qed.

(** The flag bits after the updates of bio.c and memide.c. *)
Lemma or_valid f : Z.testbit (Z.lor f B_VALID) 1 = true /\ Z.testbit (Z.lor f B_VALID) 2 = Z.testbit f 2.
Proof. rewrite !Z.lor_spec. split; [apply orb_true_r|apply orb_false_r]. Qed.

Lemma or_dirty f : Z.testbit (Z.lor f B_DIRTY) 2 = true /\ Z.testbit (Z.lor f B_DIRTY) 1 = Z.testbit f 1.
Proof. rewrite !Z.lor_spec. split; [apply orb_true_r|apply orb_false_r]. Qed.

Lemma clear_dirty f : Z.testbit (Z.land f (Z.lnot B_DIRTY)) 2 = false.
Proof. rewrite Z.land_spec. apply andb_false_r. Qed.

(** The buffer [b] caches block [n] of the disk. *)
Definition caches (n : Z) (b : buf) : bool := (dev b =? 1) && (blockno b =? n).

(** The content of block [n]: the cached copy if there is one, the disk's if not. *)
Definition content (r : fs) (n : Z) : option (list Z) :=
  match list_find (fun b => caches n b && valid b = true) (bufs r) with
  | Some (_, b) => Some (data b)
  | None => disk r !! Z.to_nat n
  end.

Definition dirty_block (r : fs) (n : Z) : Prop :=
  exists i b, bufs r !! i = Some b /\ caches n b = true /\ dirty b = true.

Definition ndirty (r : fs) : Z := countb dirty (bufs r).

Section invariant.
Context (pd : Z).

(** A buffer some routine holds, and one that is free. *)
Record held_buf (b : buf) : Prop := HeldBuf {
  hb_lock : b_lock b = MkSleep 1 pd;
  hb_ref : refcnt b = 1;
  hb_dev : dev b = 1;
  hb_valid : valid b = true }.

Record free_buf (r : fs) (b : buf) : Prop := FreeBuf {
  fb_lock : sl_locked (b_lock b) = 0;
  fb_ref : refcnt b = 0;
  fb_dirty : dirty b = true -> dev b = 1 /\ valid b = true;
  fb_clean : caches (blockno b) b = true -> valid b = true -> dirty b = false ->
             disk r !! Z.to_nat (blockno b) = Some (data b) }.

(** [L] are the buffers held. *)
Record bio_ok (r : fs) (L : list nat) : Prop := BioOk {
  bo_len : length (bufs r) = NBUF;
  bo_lru : lru r ≡ₚ seq 0 NBUF;
  bo_uniq i j b b' : bufs r !! i = Some b -> bufs r !! j = Some b' ->
    dev b = 1 -> dev b' = 1 -> blockno b = blockno b' -> i = j;
  bo_range i b : bufs r !! i = Some b -> dev b = 1 -> 0 <= blockno b < Z.of_nat (length (disk r));
  bo_held i : i ∈ L -> exists b, bufs r !! i = Some b /\ held_buf b;
  bo_free i b : i ∉ L -> bufs r !! i = Some b -> free_buf r b;
  bo_nodup : NoDup L }.

Lemma caches_true n b : caches n b = true <-> dev b = 1 /\ blockno b = n.
Proof. unfold caches. rewrite andb_true_iff, !Z.eqb_eq. done. Qed.

Lemma caches_self b : dev b = 1 -> caches (blockno b) b = true.
Proof. intros. by apply caches_true. Qed.

Lemma content_cached r L i b :
  bio_ok r L -> bufs r !! i = Some b -> dev b = 1 -> valid b = true ->
  content r (blockno b) = Some (data b).
Proof.
  intros Hok Hi Hd Hv. unfold content.
  destruct (list_find _ (bufs r)) as [[j b']|] eqn:E.
  - apply list_find_Some in E as (Hj & [Hc _]%andb_true_iff & _).
    apply caches_true in Hc as [Hd' Hb']. by rewrite (bo_uniq _ _ Hok i j b b') in Hi by done; simplify_eq.
  - apply list_find_None in E. rewrite Forall_lookup in E. exfalso. apply (E i b Hi).
    by rewrite Hv, caches_self.
Qed.

Lemma content_uncached r n :
  (forall i b, bufs r !! i = Some b -> caches n b = true -> valid b = true -> False) ->
  content r n = disk r !! Z.to_nat n.
Proof.
  intros H. unfold content. destruct (list_find _ (bufs r)) as [[j b']|] eqn:E; [|done].
  apply list_find_Some in E as (Hj & [Hc Hv]%andb_true_iff & _). exfalso. eauto.
Qed.

(** A block that is neither held nor dirty reads as it is on the disk. *)
Lemma content_clean r L n :
  bio_ok r L -> ~ dirty_block r n ->
  (forall i b, i ∈ L -> bufs r !! i = Some b -> blockno b <> n) ->
  content r n = disk r !! Z.to_nat n.
Proof.
  intros Hok Hnd Hnh. unfold content.
  destruct (list_find _ (bufs r)) as [[j b]|] eqn:E; [|done].
  apply list_find_Some in E as (Hj & [Hc Hv]%andb_true_iff & _).
  pose proof (proj1 (caches_true n b) Hc) as [Hd Hb].
  assert (j ∉ L) as HjL by (intros Hin; by eapply Hnh).
  symmetry. rewrite <- Hb. apply (bo_free _ _ Hok j b HjL Hj); [by rewrite Hb|done|].
  destruct (dirty b) eqn:Ed; [|done]. exfalso. apply Hnd. by exists j, b.
Qed.
End invariant.

Lemma find_buf_Some bs l test i :
  find_buf bs l test = Some i -> i ∈ l /\ exists b, bs !! i = Some b /\ test b = true.
Proof.
  induction l as [|j l IH]; simpl; [done|]. destruct (bs !! j) as [b|] eqn:E; [destruct (test b) eqn:Et|].
  - intros [= <-]. split; [left|]. eauto.
  - intros [? ?]%IH. split; [by right|done].
  - intros [? ?]%IH. split; [by right|done].
Qed.

Lemma find_buf_None bs l test i b :
  find_buf bs l test = None -> i ∈ l -> bs !! i = Some b -> test b = false.
Proof.
  induction l as [|j l IH]; simpl; intros Hf Hi Hb; [by apply not_elem_of_nil in Hi|].
  apply elem_of_cons in Hi as [->|Hi].
  - rewrite Hb in Hf. by destruct (test b).
  - destruct (bs !! j) as [b'|]; [destruct (test b'); [done|]|]; auto.
Qed.

(** ** Running the routines *)

(** The state with buffer [i] replaced. *)
Definition setb (i : nat) (b : buf) (r : fs) : fs := with_bufs (<[i := b]> (bufs r)) r.

Lemma setb_setb i b b' r : setb i b (setb i b' r) = setb i b r.
Proof. unfold setb, with_bufs. simpl. by rewrite list_insert_insert_eq. Qed.

Lemma setb_id i b r : bufs r !! i = Some b -> setb i b r = r.
Proof. intros H. unfold setb, with_bufs. rewrite list_insert_id by done. by destruct r. Qed.

Lemma setb_lookup i b b' r : bufs r !! i = Some b' -> bufs (setb i b r) !! i = Some b.
Proof. intros H. simpl. apply list_lookup_insert_eq. by eapply lookup_lt_Some. Qed.

Lemma setb_lookup_ne i j b r : i <> j -> bufs (setb i b r) !! j = bufs r !! j.
Proof. intros H. simpl. by apply list_lookup_insert_ne. Qed.

Lemma alter_setb i b (f : buf -> buf) r :
  bufs r !! i = Some b -> with_bufs (alter f i (bufs r)) r = setb i (f b) r.
Proof.
  intros H. unfold setb, with_bufs. f_equal. apply list_eq. intros j.
  destruct (decide (i = j)) as [<-|Hne].
  - rewrite list_lookup_alter_eq, H, list_lookup_insert_eq; [done|by eapply lookup_lt_Some].
  - by rewrite list_lookup_alter_ne, list_lookup_insert_ne.
Qed.

(** ** Sleep locks that are free *)

Section sleep_rules.
Context {R : Type} (cur : nat) (pd : Z) (l : slref R).
Notation wpr := (wpx (R := R) (Some cur) pd).

(** The lock is part of the state [r], with the value [k]. *)
Record sl_at (r : R) (k : sleeplock) : Prop := SlAt {
  sa_get : sl_get l r = Some k;
  sa_set k' : sl_get l (sl_set l k' r) = Some k';
  sa_twice k1 k2 : sl_set l k2 (sl_set l k1 r) = sl_set l k2 r }.

Lemma wpx_sl_read r k H : sl_get l r = Some k -> wpr H r (sl_read l) (fun a H' r' => a = k /\ H' = H /\ r' = r).
Proof. intros Hk s Hw <-. unfold wp, sl_read. rewrite Hk. by exists H. Qed.

Lemma wpx_sl_write r k H : wpr H r (sl_write l k) (fun _ H' r' => H' = H /\ r' = sl_set l k r).
Proof. apply wpx_modify. Qed.

Lemma wpx_mypid H r : wpr H r mypid (fun a H' r' => a = pd /\ H' = H /\ r' = r).
Proof. by eapply wpx_pid. Qed.

Lemma wpx_holdingsleep r k :
  sl_at r k -> wpr [] r (holdingsleep l) (fun a H' r' =>
    a = negb (sl_locked k =? 0) && (sl_pid k =? pd) /\ H' = [] /\ r' = r).
Proof.
  intros Hk. unfold holdingsleep.
  wx wpx_acquire as [-> ->]; [set_solver|].
  wx wpx_sl_read as (-> & -> & ->); [apply Hk|].
  apply (wpx_bind _ _ _ _ _ _ (fun a H' r' =>
    a = negb (sl_locked k =? 0) && (sl_pid k =? pd) /\ H' = [sl_spin l] /\ r' = r)).
  { destruct (sl_locked k =? 0); [by apply wpx_ret|].
    wx wpx_mypid as (-> & -> & ->). by apply wpx_ret. }
  intros ? ? ? (-> & -> & ->). wx wpx_release as [-> ->]; [done|]. by apply wpx_ret.
Qed.

Lemma wpx_acquiresleep fuel swtch r k :
  sl_at r k -> sl_locked k = 0 -> (0 < fuel)%nat ->
  wpr [] r (acquiresleep fuel swtch l) (fun _ H' r' => H' = [] /\ r' = sl_set l (MkSleep 1 pd) r).
Proof.
  intros Hk Hl Hf. unfold acquiresleep. destruct fuel as [|n]; [lia|].
  wx wpx_acquire as [-> ->]; [set_solver|].
  apply (wpx_bind _ _ _ _ _ _ (fun _ H' r' => H' = [sl_spin l] /\ r' = r)).
  { cbn [wait_unlocked]. wx wpx_sl_read as (-> & -> & ->); [apply Hk|]. rewrite Hl. by apply wpx_ret. }
  intros ? ? ? [-> ->].
  wx wpx_sl_read as (-> & -> & ->); [apply Hk|].
  wx wpx_sl_write as [-> ->].
  wx wpx_mypid as (-> & -> & ->).
  wx wpx_sl_write as [-> ->].
  eapply wpx_mono; [by eapply wpx_release|]. intros _ ? ? [-> ->]. split; [done|]. by rewrite (sa_twice _ _ Hk).
Qed.

Lemma wpx_releasesleep r :
  sl_spin l <> ptable_lock ->
  wpr [] r (releasesleep l) (fun _ H' r' => H' = [] /\ r' = sl_set l (MkSleep 0 0) r).
Proof.
  intros Hl. unfold releasesleep.
  wx wpx_acquire as [-> ->]; [set_solver|].
  wx wpx_sl_write as [-> ->].
  wx wpx_wakeup as [-> ->]; [set_solver|].
  by eapply wpx_release.
Qed.
End sleep_rules.

Section run.
Context (cur : nat) (pd : Z).
Notation wpf := (wpx (R := fs) (Some cur) pd).

Lemma wpf_buf_get i b H r :
  bufs r !! i = Some b -> wpf H r (buf_get i) (fun a H' r' => a = b /\ H' = H /\ r' = r).
Proof. intros Hb s Hw <-. unfold wp, buf_get. rewrite Hb. by exists H. Qed.

Lemma wpf_buf_upd i b f H r :
  bufs r !! i = Some b -> wpf H r (buf_upd i f) (fun _ H' r' => H' = H /\ r' = setb i (f b) r).
Proof.
  intros Hb. eapply wpx_mono; [apply wpx_modify|]. intros _ ? ? [-> ->].
  split; [done|]. by apply alter_setb.
Qed.

Lemma wpf_gets {A} (f : fs -> A) H r :
  wpf H r (fgets f) (fun a H' r' => a = f r /\ H' = H /\ r' = r).
Proof. apply wpx_gets. Qed.

Lemma wpf_mod f H r : wpf H r (fmod f) (fun _ H' r' => H' = H /\ r' = f r).
Proof. apply wpx_modify. Qed.

Lemma wpf_sl_write i b k H r :
  bufs r !! i = Some b ->
  wpf H r (sl_write (buf_lock i) k) (fun _ H' r' => H' = H /\ r' = setb i (set_block_lock k b) r).
Proof.
  intros Hb. eapply wpx_mono; [apply wpx_sl_write|].
  intros _ ? ? [-> ->]. split; [done|]. by apply (alter_setb i b (set_block_lock k)).
Qed.

Lemma buf_lock_at i b r : bufs r !! i = Some b -> sl_at (buf_lock i) r (b_lock b).
Proof.
  intros Hb. constructor; simpl.
  - by rewrite Hb.
  - intros k'. by rewrite list_lookup_alter_eq, Hb.
  - intros k1 k2. unfold with_bufs. simpl. f_equal. rewrite list_alter_alter_eq. by apply list_alter_ext.
Qed.

Lemma wpf_holdingsleep i b r :
  bufs r !! i = Some b ->
  wpf [] r (holdingsleep (buf_lock i)) (fun a H' r' =>
    a = negb (sl_locked (b_lock b) =? 0) && (sl_pid (b_lock b) =? pd) /\ H' = [] /\ r' = r).
Proof. intros Hb. by apply wpx_holdingsleep, buf_lock_at. Qed.

Lemma wpf_acquiresleep fuel swtch i b r :
  bufs r !! i = Some b -> sl_locked (b_lock b) = 0 -> (0 < fuel)%nat ->
  wpf [] r (acquiresleep fuel swtch (buf_lock i)) (fun _ H' r' =>
    H' = [] /\ r' = setb i (set_block_lock (MkSleep 1 pd) b) r).
Proof.
  intros Hb Hl Hf. eapply wpx_mono; [by apply (wpx_acquiresleep _ _ _ _ _ _ _ (buf_lock_at i b r Hb))|].
  intros _ ? ? [-> ->]. split; [done|]. by apply (alter_setb i b (set_block_lock (MkSleep 1 pd))).
Qed.

Lemma wpf_releasesleep i b r :
  bufs r !! i = Some b ->
  wpf [] r (releasesleep (buf_lock i)) (fun _ H' r' =>
    H' = [] /\ r' = setb i (set_block_lock (MkSleep 0 0) b) r).
Proof.
  intros Hb. eapply wpx_mono; [by apply wpx_releasesleep|].
  intros _ ? ? [-> ->]. split; [done|]. by apply (alter_setb i b (set_block_lock (MkSleep 0 0))).
Qed.
End run.

Lemma content_cases r n :
  (exists i b, bufs r !! i = Some b /\ caches n b = true /\ valid b = true /\ content r n = Some (data b)) \/
  (content r n = disk r !! Z.to_nat n /\
   forall i b, bufs r !! i = Some b -> caches n b = true -> valid b = true -> False).
Proof.
  unfold content. destruct (list_find _ (bufs r)) as [[j b]|] eqn:E.
  - apply list_find_Some in E as (Hj & [Hc Hv]%andb_true_iff & _). left. by exists j, b.
  - right. split; [done|]. intros i b Hi Hc Hv. apply list_find_None in E.
    rewrite Forall_lookup in E. apply (E i b Hi). by rewrite Hc, Hv.
Qed.

Lemma countb_insert {A} (f : A -> bool) (l : list A) i x y :
  l !! i = Some x -> countb f (<[i := y]> l) = countb f l - Z.b2z (f x) + Z.b2z (f y).
Proof.
  revert i. induction l as [|z l IH]; intros [|i] H; simplify_eq/=; [lia|]. rewrite (IH i) by done. lia.
Qed.

(** Every index is listed in [L] or passes the test. *)
Lemma countb_cover {A} (f : A -> bool) (l : list A) k (L : list nat) :
  (forall j x, l !! j = Some x -> (k + j)%nat ∈ L \/ f x = true) ->
  Z.of_nat (length l) <= countb f l + Z.of_nat (length L).
Proof.
  revert k L. induction l as [|x l IH]; intros k L Hc; simpl; [lia|].
  destruct (Hc 0%nat x eq_refl) as [HkL|Hf].
  - rewrite Nat.add_0_r in HkL. set (L' := filter (fun i => i <> k) L).
    assert (length L' < length L)%nat as Hlt.
    { apply length_filter_lt with k; [done|]. naive_solver. }
    assert (Z.of_nat (length l) <= countb f l + Z.of_nat (length L')) as Hl.
    { apply (IH (S k)). intros j y Hj. destruct (Hc (S j) y Hj) as [Hin|?]; [left|by right].
      apply list_elem_of_filter. split; [lia|]. by replace (S k + j)%nat with (k + S j)%nat by lia. }
    destruct (f x); simpl; lia.
  - rewrite Hf. simpl. assert (Z.of_nat (length l) <= countb f l + Z.of_nat (length L)); [|lia].
    apply (IH (S k)). intros j y Hj. replace (S k + j)%nat with (k + S j)%nat by lia. by apply Hc.
Qed.

Section routines.
Context (cur : nat) (pd : Z) (fuel : nat) (swtch : MF unit).
Notation wpf := (wpx (R := fs) (Some cur) pd).
Notation bio_ok := (bio_ok pd).
Notation held_buf := (held_buf pd).

Lemma wpf_iderw_read i b d r :
  bufs r !! i = Some b -> b_lock b = MkSleep 1 pd -> valid b = false -> dirty b = false -> dev b = 1 ->
  0 <= blockno b -> disk r !! Z.to_nat (blockno b) = Some d ->
  wpf [] r (iderw i) (fun _ H' r' =>
    H' = [] /\ r' = setb i (set_flags (Z.lor (flags b) B_VALID) (set_data d b)) r).
Proof.
  intros Hb Hl Hv Hdi Hd Hn Hdk. unfold iderw.
  wx wpf_holdingsleep as (-> & -> & ->); [done|]. rewrite Hl. simpl. rewrite Z.eqb_refl. simpl.
  wx wpf_buf_get as (-> & -> & ->); [done|].
  destruct (Z.eqb_spec (Z.land (flags b) (Z.lor B_VALID B_DIRTY)) B_VALID) as [E|_].
  { apply land_busy in E as [E _]. unfold valid in Hv. by rewrite Hv in E. }
  rewrite Hd. simpl. wx wpf_gets as (-> & -> & ->). cbv beta.
  pose proof (lookup_lt_Some _ _ _ Hdk). destruct (Z.leb_spec (Z.of_nat (length (disk r))) (blockno b)); [lia|].
  rewrite land_dirty, (Hdi : Z.testbit (flags b) 2 = false). simpl.
  apply (wpx_bind _ _ _ _ _ _ (fun _ H' r' => H' = [] /\ r' = setb i (set_data d b) r)).
  { wx wpf_gets as (-> & -> & ->). rewrite (nth_lookup_Some _ _ _ _ Hdk).
    by eapply (wpf_buf_upd _ _ i b (set_data d)). }
  intros _ ? ? [-> ->]. eapply wpx_mono; [eapply wpf_buf_upd; by eapply setb_lookup|].
  intros _ ? ? [-> ->]. split; [done|]. by rewrite setb_setb.
Qed.

Lemma wpf_iderw_write i b r :
  bufs r !! i = Some b -> b_lock b = MkSleep 1 pd -> dirty b = true -> dev b = 1 ->
  0 <= blockno b < Z.of_nat (length (disk r)) ->
  wpf [] r (iderw i) (fun _ H' r' => H' = [] /\
    r' = setb i (set_flags (Z.lor (Z.land (flags b) (Z.lnot B_DIRTY)) B_VALID) b)
           (disk_write (blockno b) (data b) r)).
Proof.
  intros Hb Hl Hdi Hd Hn. unfold iderw.
  wx wpf_holdingsleep as (-> & -> & ->); [done|]. rewrite Hl. simpl. rewrite Z.eqb_refl. simpl.
  wx wpf_buf_get as (-> & -> & ->); [done|].
  destruct (Z.eqb_spec (Z.land (flags b) (Z.lor B_VALID B_DIRTY)) B_VALID) as [E|_].
  { apply land_busy in E as [_ E]. unfold dirty in Hdi. by rewrite Hdi in E. }
  rewrite Hd. simpl. wx wpf_gets as (-> & -> & ->). cbv beta.
  destruct (Z.leb_spec (Z.of_nat (length (disk r))) (blockno b)); [lia|].
  rewrite land_dirty, (Hdi : Z.testbit (flags b) 2 = true). simpl.
  set (b1 := set_flags (Z.land (flags b) (Z.lnot B_DIRTY)) b).
  apply (wpx_bind _ _ _ _ _ _ (fun _ H' r' => H' = [] /\
    r' = setb i b1 (disk_write (blockno b) (data b) r))).
  { wx wpf_buf_upd as [-> ->]; [done|]. fold b1.
    wx wpf_buf_get as (-> & -> & ->); [by eapply setb_lookup|].
    eapply wpx_mono; [apply wpf_mod|]. intros _ ? ? [-> ->]. by split. }
  intros _ ? ? [-> ->]. eapply wpx_mono; [eapply wpf_buf_upd; by eapply setb_lookup|].
  intros _ ? ? [-> ->]. split; [done|]. by rewrite setb_setb.
Qed.

(** A buffer for the next miss exists when the held and the dirty buffers do
    not fill the cache. *)
Lemma spare_buf r L :
  bio_ok r L -> ndirty r + Z.of_nat (length L) < Z.of_nat NBUF ->
  exists i b, bufs r !! i = Some b /\ i ∉ L /\ dirty b = false.
Proof.
  intros Hok Hlt.
  destruct (decide (Exists (fun i => i ∉ L /\ (dirty <$> bufs r !! i) = Some false) (seq 0 NBUF))) as [He|Hn].
  - apply Exists_exists in He as (i & _ & HiL & Hi). destruct (bufs r !! i) as [b|] eqn:E; [|done].
    exists i, b. by injection Hi as ->.
  - exfalso. apply not_Exists_Forall in Hn; [|apply _]. rewrite Forall_forall in Hn.
    pose proof (countb_cover dirty (bufs r) 0 L) as Hc. rewrite (bo_len _ _ _ Hok) in Hc.
    unfold ndirty in Hlt. apply (Z.lt_irrefl (Z.of_nat NBUF)). eapply Z.le_lt_trans; [|exact Hlt].
    apply Hc. intros j b Hj. destruct (decide (j ∈ L)) as [?|HjL]; [by left|right].
    destruct (dirty b) eqn:Ed; [done|]. exfalso. apply (Hn j).
    + apply elem_of_seq. rewrite <- (bo_len _ _ _ Hok). apply lookup_lt_Some in Hj. lia.
    + split; [done|]. rewrite Hj. simpl. by rewrite Ed.
Qed.

(** Block [n] is cached, or there is room for it. *)
Definition room (r : fs) (L : list nat) (n : Z) : Prop :=
  (exists i b, bufs r !! i = Some b /\ caches n b = true) \/
  ndirty r + Z.of_nat (length L) < Z.of_nat NBUF.

Definition not_held (r : fs) (L : list nat) (n : Z) : Prop :=
  forall i b, i ∈ L -> bufs r !! i = Some b -> blockno b <> n.

(** The buffer [bread] takes for block [n]: one that caches it, or a clean one
    when none does; [b1] is the buffer it returns. *)
Record taken (r : fs) (L : list nat) (n : Z) (i : nat) (b0 : buf) : Prop := Taken {
  tk_buf : bufs r !! i = Some b0;
  tk_free : i ∉ L;
  tk_only j b : bufs r !! j = Some b -> caches n b = true -> j = i;
  tk_hit : caches n b0 = true \/ dirty b0 = false }.

Definition got (n : Z) (b0 : buf) : buf :=
  if caches n b0 then set_block_lock (MkSleep 1 pd) (set_refcnt 1 b0)
  else set_block_lock (MkSleep 1 pd) (set_refcnt 1 (set_flags 0 (set_block 1 n b0))).

Lemma lru_in r L i b : bio_ok r L -> bufs r !! i = Some b -> i ∈ lru r.
Proof.
  intros Hok Hb. rewrite (bo_lru _ _ _ Hok). apply elem_of_seq. apply lookup_lt_Some in Hb.
  rewrite (bo_len _ _ _ Hok) in Hb. lia.
Qed.

Lemma wpf_bget r L n :
  (0 < fuel)%nat -> bio_ok r L -> not_held r L n -> room r L n ->
  wpf [] r (bget fuel swtch 1 n) (fun i H' r' => H' = [] /\
    exists b0, taken r L n i b0 /\ r' = setb i (got n b0) r).
Proof.
  intros Hfuel Hok Hnh Hroom. unfold bget.
  wx wpx_acquire as [-> ->]; [set_solver|]. wx wpf_gets as (-> & -> & ->). cbv beta.
  destruct (find_buf (bufs r) (lru r) _) as [i|] eqn:Ef.
  - apply find_buf_Some in Ef as (_ & b & Hb & Hc). change (caches n b = true) in Hc.
    pose proof (proj1 (caches_true n b) Hc) as [Hd Hn].
    assert (i ∉ L) as HiL by (intros Hi; by eapply Hnh).
    pose proof (bo_free _ _ _ Hok i b HiL Hb) as Hfb.
    wx wpf_buf_upd as [-> ->]; [done|]. wx wpx_release as [-> ->]; [done|].
    wx wpf_acquiresleep as [-> ->]; [by eapply setb_lookup|apply Hfb|done|].
    apply wpx_ret. split; [done|]. exists b. split.
    + constructor; [done|done| |by left]. intros j b' Hj [Hd' Hn']%caches_true.
      apply (bo_uniq _ _ _ Hok j i b' b); congruence.
    + rewrite setb_setb. unfold got. rewrite Hc, (fb_ref _ _ Hfb). done.
  - assert (forall j b, bufs r !! j = Some b -> caches n b = true -> False) as Hmiss.
    { intros j b Hj Hc. pose proof (find_buf_None _ _ _ j b Ef (lru_in _ _ _ _ Hok Hj) Hj) as H.
      by rewrite (H : caches n b = false) in Hc. }
    wx wpf_gets as (-> & -> & ->). cbv beta.
    destruct (find_buf (bufs r) (rev (lru r)) _) as [i|] eqn:Eg.
    + apply find_buf_Some in Eg as (_ & b & Hb & Hc). rewrite land_dirty in Hc.
      apply andb_true_iff in Hc as [Hr%Z.eqb_eq Hd%negb_true_iff].
      assert (i ∉ L) as HiL.
      { intros Hi. destruct (bo_held _ _ _ Hok i Hi) as (b' & Hb' & Hheld). simplify_eq.
        rewrite (hb_ref _ _ Hheld) in Hr. done. }
      wx wpf_buf_upd as [-> ->]; [done|]. wx wpx_release as [-> ->]; [done|].
      wx wpf_acquiresleep as [-> ->]; [by eapply setb_lookup|apply (bo_free _ _ _ Hok i b HiL Hb)|done|].
      apply wpx_ret. split; [done|]. exists b. split.
      * constructor; [done|done| |by right]. intros j b' Hj Hc. exfalso. eauto.
      * rewrite setb_setb. unfold got. destruct (caches n b) eqn:Ec; [|done]. exfalso. eauto.
    + exfalso. destruct Hroom as [(i & b & Hb & Hc)|Hlt]; [eauto|].
      destruct (spare_buf r L Hok Hlt) as (i & b & Hb & HiL & Hd).
      assert (i ∈ rev (lru r)) as Hin by (apply list_elem_of_In, in_rev; rewrite rev_involutive;
        by apply list_elem_of_In, (lru_in _ _ _ _ Hok Hb)).
      pose proof (find_buf_None _ _ _ i b Eg Hin Hb) as H. cbv beta in H.
      rewrite land_dirty, (Hd : Z.testbit (flags b) 2 = false), (fb_ref _ _ (bo_free _ _ _ Hok i b HiL Hb)) in H.
      done.
Qed.

(** The buffer [bread] returns. *)
Record gave (r : fs) (n : Z) (b0 b1 : buf) : Prop := Gave {
  gv_held : held_buf b1;
  gv_block : blockno b1 = n;
  gv_data : content r n = Some (data b1);
  gv_dirty : dirty b1 = dirty b0 }.

Lemma wpf_bread_raw r L n :
  (0 < fuel)%nat -> bio_ok r L -> not_held r L n -> room r L n -> 0 <= n < Z.of_nat (length (disk r)) ->
  wpf [] r (bread fuel swtch 1 n) (fun i H' r' => H' = [] /\
    exists b0 b1, taken r L n i b0 /\ gave r n b0 b1 /\ r' = setb i b1 r).
Proof.
  intros Hfuel Hok Hnh Hroom Hn. unfold bread. wx wpf_bget as (-> & b0 & Ht & ->); [done..|].
  rename a into i. pose proof (setb_lookup i (got n b0) b0 r (tk_buf _ _ _ _ _ Ht)) as Hg.
  wx wpf_buf_get as (-> & -> & ->); [done|]. rewrite land_valid.
  destruct (lookup_lt_is_Some_2 (disk r) (Z.to_nat n)) as [d Hd]; [lia|].
  pose proof (bo_free _ _ _ Hok i b0 (tk_free _ _ _ _ _ Ht) (tk_buf _ _ _ _ _ Ht)) as Hfree.
  assert (blockno (got n b0) = n /\ dev (got n b0) = 1) as [Hbn Hdev].
  { unfold got. destruct (caches n b0) eqn:Ec; [|done]. apply caches_true in Ec as [? ?]. by split. }
  destruct (Z.testbit (flags (got n b0)) 1) eqn:Ev; simpl.
  - apply wpx_ret_bind, wpx_ret. split; [done|].
    exists b0, (got n b0). split_and!; [done| |done]. unfold got in *.
    destruct (caches n b0) eqn:Ec; [|done]. apply caches_true in Ec as [Hd1 Hb1].
    constructor; [by constructor|done| |done]. rewrite <- Hb1.
    exact (content_cached pd r L i b0 Hok (tk_buf _ _ _ _ _ Ht) Hd1 Ev).
  - assert (dirty (got n b0) = false /\ dirty b0 = false) as [Hdg Hd0].
    { unfold got in *. destruct (caches n b0) eqn:Ec; [|destruct (tk_hit _ _ _ _ _ Ht) as [?|?]; [congruence|by split]].
      change (valid b0 = false) in Ev. destruct (dirty b0) eqn:E0; [|done].
      destruct (fb_dirty _ _ Hfree E0) as [_ E]. by rewrite Ev in E. }
    wx (wpf_iderw_read i _ d) as [-> ->];
      [done|unfold got; by destruct (caches n b0)|done|done|done|lia|by rewrite Hbn|].
    apply wpx_ret. split; [done|]. eexists b0, _. split_and!; [done| |by rewrite setb_setb].
    constructor.
    + constructor; [unfold got; by destruct (caches n b0)|unfold got; by destruct (caches n b0)|exact Hdev|].
      unfold valid. apply or_valid.
    + done.
    + transitivity (disk r !! Z.to_nat n); [|exact Hd]. apply content_uncached. intros j b Hj Hc Hv.
      pose proof (tk_only _ _ _ _ _ Ht j b Hj Hc) as ->. rewrite (tk_buf _ _ _ _ _ Ht) in Hj. simplify_eq.
      unfold got in Ev. rewrite Hc in Ev. by rewrite (Ev : valid b = false) in Hv.
    + rewrite Hd0. unfold dirty. cbn [flags set_flags set_data]. rewrite (proj2 (or_valid _)). exact Hdg.
Qed.

(** Two states a client of the cache cannot tell apart. *)
Record view_eq (r r' : fs) : Prop := ViewEq {
  ve_disk : disk r' = disk r;
  ve_writes : writes r' = writes r;
  ve_log : log r' = log r;
  ve_content n : content r' n = content r n;
  ve_dirty n : dirty_block r' n <-> dirty_block r n;
  ve_ndirty : ndirty r' = ndirty r }.

Lemma view_eq_trans r1 r2 r3 : view_eq r1 r2 -> view_eq r2 r3 -> view_eq r1 r3.
Proof. intros [? ? ? ? H ?] [? ? ? ? H' ?]. constructor; try congruence. intros n. by rewrite H', H. Qed.

(** A buffer replaced by one with the same dirty bit and block. *)
Lemma dirty_setb r i b0 b1 n :
  bufs r !! i = Some b0 -> dirty b1 = dirty b0 -> (dirty b0 = true -> caches n b1 = caches n b0) ->
  dirty_block (setb i b1 r) n <-> dirty_block r n.
Proof.
  intros Hi Hd Hc. split; intros (j & b & Hj & Hcb & Hdb).
  - destruct (decide (i = j)) as [<-|Hne].
    + rewrite (setb_lookup i b1 b0 r Hi) in Hj. injection Hj as <-.
      exists i, b0. rewrite Hd in Hdb. by rewrite <- Hc.
    + rewrite setb_lookup_ne in Hj by done. by exists j, b.
  - destruct (decide (i = j)) as [<-|Hne].
    + rewrite Hi in Hj. injection Hj as <-. exists i, b1. rewrite (setb_lookup i b1 b0 r Hi), Hd, Hc; done.
    + exists j, b. by rewrite setb_lookup_ne.
Qed.

Lemma ndirty_setb r i b0 b1 :
  bufs r !! i = Some b0 -> ndirty (setb i b1 r) = ndirty r - Z.b2z (dirty b0) + Z.b2z (dirty b1).
Proof. intros Hi. unfold ndirty. simpl. by apply countb_insert. Qed.

Section take.
Context (r : fs) (L : list nat) (n : Z) (i : nat) (b0 b1 : buf).
Context (Hok : bio_ok r L) (Hn : 0 <= n < Z.of_nat (length (disk r))).
Context (Ht : taken r L n i b0) (Hg : gave r n b0 b1).

Lemma take_ok : bio_ok (setb i b1 r) (i :: L).
Proof.
  destruct Ht as [Hi HiL Honly Hhit], Hg as [Hheld Hb Hdat Hdir].
  pose proof (hb_dev _ _ Hheld) as Hdev. constructor.
  - simpl. rewrite length_insert. apply Hok.
  - apply Hok.
  - assert (forall j b, i <> j -> bufs r !! j = Some b -> dev b = 1 -> blockno b <> n) as Hother.
    { intros j b Hne Hj Hd E. apply Hne. symmetry. apply (Honly j b Hj). by apply caches_true. }
    intros j k b b' Hj Hk Hd Hd' E. destruct (decide (i = j)) as [<-|Hij], (decide (i = k)) as [<-|Hik].
    + done.
    + rewrite (setb_lookup i b1 b0 r Hi) in Hj. injection Hj as <-. rewrite setb_lookup_ne in Hk by done.
      exfalso. apply (Hother k b' Hik Hk Hd'). congruence.
    + rewrite (setb_lookup i b1 b0 r Hi) in Hk. injection Hk as <-. rewrite setb_lookup_ne in Hj by done.
      exfalso. apply (Hother j b Hij Hj Hd). congruence.
    + rewrite setb_lookup_ne in Hj, Hk by done. by apply (bo_uniq _ _ _ Hok j k b b').
  - intros j b Hj Hd. destruct (decide (i = j)) as [<-|Hij].
    + rewrite (setb_lookup i b1 b0 r Hi) in Hj. injection Hj as <-. simpl. by rewrite Hb.
    + rewrite setb_lookup_ne in Hj by done. by apply (bo_range _ _ _ Hok j b).
  - intros j Hj. destruct (decide (i = j)) as [<-|Hij].
    + exists b1. by rewrite (setb_lookup i b1 b0 r Hi).
    + rewrite setb_lookup_ne by done. apply (bo_held _ _ _ Hok j). set_solver.
  - intros j b Hj Hb'. rewrite setb_lookup_ne in Hb' by set_solver.
    destruct (bo_free _ _ _ Hok j b ltac:(set_solver) Hb'). by constructor.
  - constructor; [done|]. apply (bo_nodup _ _ _ Hok).
Qed.

Lemma take_view : view_eq r (setb i b1 r).
Proof.
  pose proof take_ok as Hok'. destruct Ht as [Hi HiL Honly Hhit], Hg as [Hheld Hb Hdat Hdir].
  pose proof (setb_lookup i b1 b0 r Hi) as Hi'. pose proof (hb_dev _ _ Hheld) as Hdev.
  constructor; [done|done|done| | |].
  - intros m. destruct (decide (m = n)) as [->|Hm].
    { rewrite Hdat, <- Hb. by apply (content_cached pd _ (i :: L) i b1 Hok' Hi'); [|apply Hheld]. }
    assert (caches m b1 = false) as Hcm by (apply not_true_iff_false; intros [_ ?]%caches_true; congruence).
    destruct (content_cases (setb i b1 r) m) as [(j & b & Hj & Hc & Hv & ->)|[-> Hno]].
    + assert (i <> j) as Hij by (intros <-; rewrite Hi' in Hj; congruence).
      rewrite setb_lookup_ne in Hj by done. apply caches_true in Hc as [Hd <-].
      by rewrite (content_cached pd r L j b).
    + simpl disk. destruct (content_cases r m) as [(j & b & Hj & Hc & Hv & ->)|[-> _]]; [|done].
      assert (j = i) as ->.
      { destruct (decide (i = j)) as [->|Hij]; [done|]. exfalso. apply (Hno j b); [|done|done].
        by rewrite setb_lookup_ne. }
      assert (b = b0) as -> by congruence. pose proof (proj1 (caches_true m b0) Hc) as [Hd0 Hm0].
      rewrite <- Hm0. apply (fb_clean _ _ (bo_free _ _ _ Hok i b0 HiL Hi)); [by rewrite Hm0|done|].
      destruct Hhit as [[_ ?]%caches_true|?]; [congruence|done].
  - intros m. apply (dirty_setb r i b0); [done|done|]. intros Hd0.
    destruct Hhit as [Hc|Hd1]; [|congruence]. apply caches_true in Hc as [Hdv Hbn]. unfold caches.
    by rewrite Hdev, Hdv, Hbn, Hb.
  - rewrite (ndirty_setb r i b0) by done. rewrite Hdir. lia.
Qed.
End take.

(** What a successful [bread] of block [n] gives its caller. *)
Record read_ok (r : fs) (L : list nat) (n : Z) (i : nat) (r' : fs) : Prop := ReadOk {
  ro_new : i ∉ L;
  ro_ok : bio_ok r' (i :: L);
  ro_view : view_eq r r';
  ro_others j : j <> i -> bufs r' !! j = bufs r !! j;
  ro_buf : exists b, bufs r' !! i = Some b /\ held_buf b /\ blockno b = n /\ content r n = Some (data b) }.

Lemma wpf_bread r L n :
  (0 < fuel)%nat -> bio_ok r L -> not_held r L n -> room r L n -> 0 <= n < Z.of_nat (length (disk r)) ->
  wpf [] r (bread fuel swtch 1 n) (fun i H' r' => H' = [] /\ read_ok r L n i r').
Proof.
  intros Hfuel Hok Hnh Hroom Hn. eapply wpx_mono; [by eapply wpf_bread_raw|].
  intros i H' r' (-> & b0 & b1 & Ht & Hg & ->). split; [done|]. constructor.
  - apply Ht.
  - by eapply take_ok.
  - by eapply take_view.
  - intros j Hj. by apply setb_lookup_ne.
  - exists b1. destruct Hg as [Hh Hb Hd _]. split; [|by split_and!]. eapply setb_lookup, Ht.
Qed.

Lemma held_of r L i b : bio_ok r L -> i ∈ L -> bufs r !! i = Some b -> held_buf b.
Proof. intros Hok HiL Hi. destruct (bo_held _ _ _ Hok i HiL) as (b' & Hi' & Hh). congruence. Qed.

(** A held buffer replaced by a held buffer for the same block. *)
Lemma held_setb_ok r L i b b' :
  bio_ok r L -> i ∈ L -> bufs r !! i = Some b -> held_buf b' -> blockno b' = blockno b ->
  bio_ok (setb i b' r) L.
Proof.
  intros Hok HiL Hi Hh Hb. pose proof (held_of r L i b Hok HiL Hi) as Hh2.
  assert (forall j x, bufs (setb i b' r) !! j = Some x -> exists y, bufs r !! j = Some y /\
    (dev x = 1 -> dev y = 1 /\ blockno x = blockno y)) as Hinv.
  { intros j x Hj. destruct (decide (i = j)) as [<-|Hij].
    - rewrite (setb_lookup i b' b r Hi) in Hj. injection Hj as <-. exists b.
      split; [done|]. intros _. split; [apply Hh2|done].
    - rewrite setb_lookup_ne in Hj by done. by exists x. }
  constructor.
  - simpl. rewrite length_insert. apply Hok.
  - apply Hok.
  - intros j k x x' Hj Hk Hd Hd' E. apply Hinv in Hj as (y & Hj & Hy). apply Hinv in Hk as (y' & Hk & Hy').
    apply (bo_uniq _ _ _ Hok j k y y' Hj Hk); destruct (Hy Hd), (Hy' Hd'); congruence.
  - intros j x Hj Hd. apply Hinv in Hj as (y & Hj & Hy). destruct (Hy Hd) as [Hd' ->].
    exact (bo_range _ _ _ Hok j y Hj Hd').
  - intros j Hj. destruct (decide (i = j)) as [<-|Hij].
    + exists b'. by rewrite (setb_lookup i b' b r Hi).
    + rewrite setb_lookup_ne by done. by apply (bo_held _ _ _ Hok j).
  - intros j x Hj Hx. rewrite setb_lookup_ne in Hx by set_solver.
    destruct (bo_free _ _ _ Hok j x Hj Hx). by constructor.
  - apply Hok.
Qed.

Lemma held_setb_content r L i b b' m :
  bio_ok r L -> i ∈ L -> bufs r !! i = Some b -> held_buf b' -> blockno b' = blockno b ->
  content (setb i b' r) m = if decide (m = blockno b) then Some (data b') else content r m.
Proof.
  intros Hok HiL Hi Hh Hb. pose proof (held_setb_ok r L i b b' Hok HiL Hi Hh Hb) as Hok'.
  pose proof (setb_lookup i b' b r Hi) as Hi'. case_decide as Hm.
  { subst m. rewrite <- Hb. by apply (content_cached pd _ L i b' Hok' Hi'); apply Hh. }
  assert (forall j x, caches m x = true -> (bufs (setb i b' r) !! j = Some x <-> bufs r !! j = Some x)) as Hsame.
  { intros j x [_ Hx]%caches_true. destruct (decide (i = j)) as [<-|Hij].
    - rewrite Hi', Hi. split; intros [= <-]; congruence.
    - by rewrite setb_lookup_ne. }
  destruct (content_cases (setb i b' r) m) as [(j & x & Hj & Hc & Hv & ->)|[-> Hno]].
  - apply Hsame in Hj; [|done]. apply caches_true in Hc as [Hd <-]. by rewrite (content_cached pd r L j x).
  - destruct (content_cases r m) as [(j & x & Hj & Hc & Hv & ->)|[-> _]]; [|done].
    exfalso. apply (Hno j x); [by apply Hsame|done|done].
Qed.

Lemma wpf_put r L i b d :
  bio_ok r L -> i ∈ L -> bufs r !! i = Some b ->
  wpf [] r (buf_upd i (set_data d)) (fun _ H' r' => H' = [] /\ r' = setb i (set_data d b) r).
Proof. intros Hok HiL Hi. by apply wpf_buf_upd. Qed.

(** The write of one block to the disk leaves the free buffers coherent. *)
Lemma disk_write_ok r L i b d :
  bio_ok r L -> i ∈ L -> bufs r !! i = Some b -> bio_ok (disk_write (blockno b) d r) L.
Proof.
  intros Hok HiL Hi. pose proof (held_of r L i b Hok HiL Hi) as Hh2.
  constructor; try apply Hok.
  - intros j x Hj Hd. simpl. rewrite length_insert. by apply (bo_range _ _ _ Hok j x).
  - intros j x Hj Hx. destruct (bo_free _ _ _ Hok j x Hj Hx) as [? ? ? Hcl]. constructor; try done.
    intros Hc Hv Hdi. simpl. apply caches_true in Hc as [Hd _].
    pose proof (bo_range _ _ _ Hok j x Hx Hd). pose proof (bo_range _ _ _ Hok i b Hi (hb_dev _ _ Hh2)).
    rewrite list_lookup_insert_ne; [by apply Hcl; [apply caches_self|..]|]. intros E.
    assert (i = j) as ->; [|done].
    apply (bo_uniq _ _ _ Hok i j b x Hi Hx (hb_dev _ _ Hh2) Hd). apply Z2Nat.inj; lia.
Qed.

(** The state after [bwrite] of the held buffer [b]. *)
Record wrote (r : fs) (L : list nat) (i : nat) (b : buf) (r' : fs) : Prop := Wrote {
  wr_ok : bio_ok r' L;
  wr_disk : disk r' = <[Z.to_nat (blockno b) := data b]> (disk r);
  wr_writes : writes r' = writes r ++ [(blockno b, data b)];
  wr_log : log r' = log r;
  wr_content n : 0 <= n -> content r' n = content r n;
  wr_dirty n : dirty_block r' n <-> dirty_block r n /\ n <> blockno b;
  wr_ndirty : ndirty r' = ndirty r - Z.b2z (dirty b);
  wr_buf : exists b', bufs r' !! i = Some b' /\ held_buf b' /\ blockno b' = blockno b /\
                      data b' = data b /\ dirty b' = false;
  wr_others j : j <> i -> bufs r' !! j = bufs r !! j }.

Lemma wpf_bwrite r L i b :
  bio_ok r L -> i ∈ L -> bufs r !! i = Some b ->
  wpf [] r (bwrite i) (fun _ H' r' => H' = [] /\ wrote r L i b r').
Proof.
  intros Hok HiL Hi. pose proof (held_of r L i b Hok HiL Hi) as Hh.
  pose proof (bo_range _ _ _ Hok i b Hi (hb_dev _ _ Hh)) as Hrng. unfold bwrite.
  wx wpf_holdingsleep as (-> & -> & ->); [done|]. rewrite (hb_lock _ _ Hh). simpl. rewrite Z.eqb_refl. simpl.
  wx wpf_buf_upd as [-> ->]; [done|]. set (b1 := set_flags _ b).
  eapply wpx_mono.
  { apply (wpf_iderw_write i b1); [by eapply setb_lookup|apply Hh|apply or_dirty|apply Hh|exact Hrng]. }
  intros _ ? ? [-> ->]. split; [done|].
  replace (setb i _ (disk_write _ _ _)) with
    (setb i (set_flags (Z.lor (Z.land (flags b1) (Z.lnot B_DIRTY)) B_VALID) b)
       (disk_write (blockno b) (data b) r)) by (symmetry; exact (setb_setb i _ b1 (disk_write (blockno b) (data b) r))).
  set (b3 := set_flags _ b).
  assert (held_buf b3) as Hh3 by (destruct Hh; constructor; [done..|apply or_valid]).
  assert (dirty b3 = false) as Hd3.
  { unfold dirty, b3. cbn [flags set_flags]. rewrite (proj2 (or_valid _)). apply clear_dirty. }
  pose proof (disk_write_ok r L i b (data b) Hok HiL Hi) as Hokw.
  pose proof (setb_lookup i b3 b (disk_write (blockno b) (data b) r) Hi) as Hi3.
  constructor; try done.
  - by apply (held_setb_ok _ L i b b3).
  - intros n Hn0. rewrite (held_setb_content _ L i b b3) by done. case_decide as Hn.
    + subst n. symmetry. exact (content_cached pd r L i b Hok Hi (hb_dev _ _ Hh) (hb_valid _ _ Hh)).
    + unfold content. simpl. destruct (list_find _ (bufs r)) as [[? ?]|] eqn:E; [done|].
      rewrite list_lookup_insert_ne; [done|]. intros E'. apply Hn. symmetry. apply Z2Nat.inj; lia.
  - intros n. split.
    + intros (j & x & Hj & Hc & Hdx). destruct (decide (i = j)) as [<-|Hij]; [congruence|].
      rewrite setb_lookup_ne in Hj by done. split; [by exists j, x|]. intros ->.
      apply caches_true in Hc as [Hd Hbx].
      apply Hij, (bo_uniq _ _ _ Hok i j b x Hi Hj (hb_dev _ _ Hh) Hd). done.
    + intros [(j & x & Hj & Hc & Hdx) Hne]. exists j, x. rewrite setb_lookup_ne; [done|]. intros <-.
      apply Hne. apply caches_true in Hc as [_ <-]. congruence.
  - rewrite (ndirty_setb _ i b) by done. rewrite Hd3. simpl. unfold ndirty. simpl. lia.
  - exists b3. by split_and!.
  - intros j Hj. by rewrite setb_lookup_ne.
Qed.

(** A buffer is released after its changes reached the disk or the log. *)
Definition settled (r : fs) (b : buf) : Prop :=
  dirty b = true \/ disk r !! Z.to_nat (blockno b) = Some (data b).

(** The content of blocks depends on the block, validity and data of buffers. *)
Lemma content_setb_same r i b b' n :
  bufs r !! i = Some b -> dev b' = dev b -> blockno b' = blockno b -> valid b' = valid b ->
  data b' = data b -> content (setb i b' r) n = content r n.
Proof.
  intros Hi Hd Hb Hv Hda. unfold content. simpl. revert i Hi. generalize (bufs r) as l.
  induction l as [|x l IH]; intros [|i] Hi; simplify_eq/=.
  - unfold caches. rewrite Hd, Hb, Hv. case_decide; [by f_equal|]. done.
  - case_decide; [done|]. specialize (IH i Hi).
    destruct (list_find _ (<[i:=b']> l)) as [[? ?]|], (list_find _ l) as [[? ?]|]; done.
Qed.

Lemma move_front (l : list nat) i : NoDup l -> i ∈ l -> i :: filter (fun j => j <> i) l ≡ₚ l.
Proof.
  intros Hnd Hi. apply NoDup_Permutation; [|done|].
  - constructor; [by intros [? _]%list_elem_of_filter|]. by apply NoDup_filter.
  - intros j. rewrite elem_of_cons, list_elem_of_filter. destruct (decide (j = i)) as [->|]; naive_solver.
Qed.

Lemma release_ok r i b L L' :
  bio_ok r L -> L ≡ₚ i :: L' -> bufs r !! i = Some b -> settled r b ->
  bio_ok (with_lru (i :: filter (fun j => j <> i) (lru r))
            (setb i (set_refcnt 0 (set_block_lock (MkSleep 0 0) b)) r)) L'.
Proof.
  intros Hok HP Hi Hset. assert (i ∈ L) as HiL by (rewrite HP; left).
  pose proof (held_of r L i b Hok HiL Hi) as Hh. set (b1 := set_refcnt 0 _).
  pose proof (setb_lookup i b1 b r Hi) as Hi1.
  assert (NoDup (i :: L')) as [HiL' Hnd]%NoDup_cons by (rewrite <- HP; apply Hok).
  assert (forall j x, <[i := b1]> (bufs r) !! j = Some x -> exists y, bufs r !! j = Some y /\
    dev x = dev y /\ blockno x = blockno y) as Hinv.
  { intros j x Hj. change (bufs (setb i b1 r) !! j = Some x) in Hj. destruct (decide (i = j)) as [<-|Hij].
    - rewrite Hi1 in Hj. injection Hj as <-. by exists b.
    - rewrite setb_lookup_ne in Hj by done. by exists x. }
  constructor; simpl.
  - rewrite length_insert. apply Hok.
  - rewrite move_front; [apply Hok| |by eapply lru_in].
    rewrite (bo_lru _ _ _ Hok). apply NoDup_seq.
  - intros j k x x' Hj Hk Hd Hd' E. apply Hinv in Hj as (y & Hj & Hy & Hy2).
    apply Hinv in Hk as (y' & Hk & Hy' & Hy2'). apply (bo_uniq _ _ _ Hok j k y y' Hj Hk); congruence.
  - intros j x Hj Hd. apply Hinv in Hj as (y & Hj & Hy & ->). apply (bo_range _ _ _ Hok j y Hj). congruence.
  - intros j Hj. rewrite list_lookup_insert_ne by set_solver. apply (bo_held _ _ _ Hok j). rewrite HP. by right.
  - intros j x Hj Hx. destruct (decide (i = j)) as [<-|Hij].
    + rewrite list_lookup_insert_eq in Hx by (by eapply lookup_lt_Some). injection Hx as <-.
      constructor; [done|done|intros _; split; apply Hh|]. intros _ _ Hd. simpl.
      destruct Hset as [Hd'|?]; [|done]. by rewrite (Hd : dirty b = false) in Hd'.
    + rewrite list_lookup_insert_ne in Hx by done.
      assert (j ∉ L) as HjL by (rewrite HP; set_solver).
      destruct (bo_free _ _ _ Hok j x HjL Hx). by constructor.
  - done.
Qed.

Lemma wpf_brelse r i b L L' :
  bio_ok r L -> L ≡ₚ i :: L' -> bufs r !! i = Some b -> settled r b ->
  wpf [] r (brelse i) (fun _ H' r' => H' = [] /\ bio_ok r' L' /\ view_eq r r' /\
    forall j, j <> i -> bufs r' !! j = bufs r !! j).
Proof.
  intros Hok HP Hi Hset. assert (i ∈ L) as HiL by (rewrite HP; left).
  pose proof (held_of r L i b Hok HiL Hi) as Hh. unfold brelse.
  wx wpf_holdingsleep as (-> & -> & ->); [done|]. rewrite (hb_lock _ _ Hh). simpl. rewrite Z.eqb_refl. simpl.
  wx wpf_releasesleep as [-> ->]; [done|]. wx wpx_acquire as [-> ->]; [set_solver|].
  wx wpf_buf_upd as [-> ->]; [by eapply setb_lookup|].
  rewrite setb_setb. cbn [refcnt set_block_lock]. rewrite (hb_ref _ _ Hh).
  change (u32 (1 - 1)) with 0. set (b1 := set_refcnt 0 _).
  pose proof (setb_lookup i b1 b r Hi) as Hi1.
  wx wpf_buf_get as (-> & -> & ->); [done|]. cbn [refcnt set_refcnt b1]. simpl.
  wx wpf_mod as [-> ->]. eapply wpx_mono; [by eapply wpx_release|].
  intros _ ? ? [-> ->]. split; [done|]. set (r1 := with_lru _ _).
  assert (bufs r1 = bufs (setb i b1 r)) as Eb by done. split_and!.
  - by apply (release_ok r i b L).
  - constructor; try done.
    + intros n. by apply (content_setb_same r i b b1 n Hi).
    + intros n. by apply (dirty_setb r i b b1 n Hi).
    + change (ndirty (setb i b1 r) = ndirty r). rewrite (ndirty_setb r i b b1 Hi).
      change (dirty b1) with (dirty b). lia.
  - intros j Hj. rewrite Eb. by apply setb_lookup_ne.
Qed.

(** The held buffer [b] is filled with [v] and written. *)
Lemma write_release r L j b v :
  bio_ok r L -> j ∈ L -> bufs r !! j = Some b ->
  wpf [] (setb j (set_data v b) r) (bwrite j) (fun _ H' r' => H' = [] /\
    bio_ok r' L /\ (forall k, k <> j -> bufs r' !! k = bufs r !! k) /\
    disk r' = <[Z.to_nat (blockno b) := v]> (disk r) /\
    writes r' = writes r ++ [(blockno b, v)] /\ log r' = log r /\
    (forall m, 0 <= m -> content r' m = if decide (m = blockno b) then Some v else content r m) /\
    (forall m, dirty_block r' m <-> dirty_block r m /\ m <> blockno b) /\
    ndirty r' <= ndirty r /\
    exists b', bufs r' !! j = Some b' /\ blockno b' = blockno b /\ data b' = v).
Proof.
  intros Hok HjL Hj. set (b1 := set_data v b). pose proof (held_of r L j b Hok HjL Hj) as Hh.
  assert (held_buf b1) as Hh1 by (destruct Hh; by constructor).
  pose proof (held_setb_ok r L j b b1 Hok HjL Hj Hh1 eq_refl) as Hok1.
  pose proof (setb_lookup j b1 b r Hj) as Hj1.
  eapply wpx_mono; [by apply (wpf_bwrite _ L j b1)|].
  intros _ ? r' [-> [Hok' Hd Hw Hl Hc Hdi Hn (b2 & Hb2 & _ & Hn2 & Hd2 & _) Ho]].
  split_and!; try done.
  - intros k Hk. rewrite Ho by done. by apply setb_lookup_ne.
  - intros m Hm. rewrite Hc by done. by rewrite (held_setb_content r L j b b1).
  - intros m. rewrite Hdi. by rewrite (dirty_setb r j b b1 m Hj).
  - rewrite Hn, (ndirty_setb r j b b1 Hj). change (dirty b1) with (dirty b). destruct (dirty b); simpl; lia.
  - by exists b2.
Qed.
End routines.

(** ** The cache as a store of blocks *)

(** C9: the buffer cache refines a store of blocks, the map [content]: [bread]
    returns a locked buffer with the contents of the block asked for and leaves
    every block as it was; [bwrite] of a buffer filled with [v] makes [v] the
    contents of its block, in the cache and on the disk, and changes no other
    block; [brelse] of a buffer that was written or logged changes no block.
    Each returns and keeps the invariant of the cache. *)
Theorem cache_refines cur pd fuel swtch r L :
  bio_ok pd r L -> (0 < fuel)%nat ->
  (forall n, not_held r L n -> room r L n -> 0 <= n < Z.of_nat (length (disk r)) ->
     wpx (Some cur) pd [] r (bread fuel swtch 1 n) (fun i H' r' => H' = [] /\ i ∉ L /\
       bio_ok pd r' (i :: L) /\ disk r' = disk r /\ (forall m, content r' m = content r m) /\
       exists b, bufs r' !! i = Some b /\ blockno b = n /\ content r n = Some (data b))) /\
  (forall i b v, i ∈ L -> bufs r !! i = Some b ->
     wpx (Some cur) pd [] (setb i (set_data v b) r) (bwrite i) (fun _ H' r' => H' = [] /\
       bio_ok pd r' L /\ disk r' = <[Z.to_nat (blockno b) := v]> (disk r) /\
       forall m, 0 <= m -> content r' m = if decide (m = blockno b) then Some v else content r m)) /\
  (forall i b L', L ≡ₚ i :: L' -> bufs r !! i = Some b -> settled r b ->
     wpx (Some cur) pd [] r (brelse i) (fun _ H' r' => H' = [] /\
       bio_ok pd r' L' /\ disk r' = disk r /\ forall m, content r' m = content r m)).
Proof.
  intros Hok Hfuel. split_and!.
  - intros n Hnh Hroom Hn. eapply wpx_mono; [by eapply wpf_bread|].
    intros i ? r' [-> [Hi Hok' Hv _ (b & Hb & _ & Hbn & Hc)]]. split_and!; try done; [apply Hv..|].
    by exists b.
  - intros i b v HiL Hi. eapply wpx_mono; [by eapply write_release|].
    intros _ ? r' (-> & Hok' & _ & Hd & _ & _ & Hc & _). done.
  - intros i b L' HP Hi Hset. eapply wpx_mono; [by eapply wpf_brelse|].
    intros _ ? r' (-> & Hok' & Hv & _). split_and!; [done|done|apply Hv..].
Qed.

(** A cache just initialised, over a disk of three blocks. *)
Definition buf0 : buf := MkBuf 0 0 0 (MkSleep 0 0) 0 (replicate 512 0).
Definition cache0 (d : list (list Z)) (g : logst) : fs :=
  MkFs (replicate NBUF buf0) (rev (seq 0 NBUF)) d [] g.

Lemma cache0_ok pd d g : bio_ok pd (cache0 d g) [].
Proof.
  assert (forall i b, bufs (cache0 d g) !! i = Some b -> b = buf0) as Hb
    by (intros i b [-> _]%lookup_replicate; done).
  constructor.
  - done.
  - simpl lru. symmetry. apply Permutation_rev.
  - intros i j b b' ->%Hb _ Hd. done.
  - intros i b ->%Hb Hd. done.
  - intros i Hi. by apply not_elem_of_nil in Hi.
  - intros i b _ ->%Hb. by constructor.
  - constructor.
Qed.

Definition ex_cache : fs :=
  cache0 [replicate 512 0; replicate 512 1; replicate 512 2] (MkLog 0 0 0 false 0 (MkHeader 0 [])).

Lemma cache_refines_witness :
  wp (bread 1 leave 1 2) (fun i s' => exists b, bufs (x_rest s') !! i = Some b /\ data b = replicate 512 2)
    (ex_running ex_cache).
Proof.
  assert (not_held ex_cache [] 2) as Hnh by (by intros ? ? ?%not_elem_of_nil).
  assert (room ex_cache [] 2) as Hroom by (by right).
  assert (0 <= 2 < Z.of_nat (length (disk ex_cache))) as Hn by (simpl; lia).
  pose proof (proj1 (cache_refines 0 7 1 leave ex_cache [] (cache0_ok 7 _ _) (Nat.lt_0_succ 0)) 2 Hnh Hroom Hn
    (ex_running ex_cache) (ex_running_world ex_cache) eq_refl) as H.
  eapply wp_mono; [exact H|]. intros i s' (H' & _ & _ & _ & _ & _ & _ & b & Hb & _ & Hc).
  exists b. split; [exact Hb|]. injection Hc as Hc. symmetry. exact Hc.
Defined.
