(* ===== verification/Xv6Log.v ===== *)
(** * xv6 write-ahead log (lab2/log.c, readsb of lab2/fs.c)

    The routines of log.c over the buffer cache of [Xv6Bio], and crash safety:
    whichever disk writes of a commit have happened when the machine stops,
    recovery leaves every block of the file system with the contents it had
    before the transaction, or every one with the contents the transaction
    gave it. *)

From S2P Require Import Prelude CMem Xv6Lock Xv6Proc Xv6World Xv6Bio.
From stdpp Require Import base numbers option list gmap strings.
Open Scope Z_scope.

Definition MAXOPBLOCKS : Z := 10.
Definition LOGSIZE : nat := 30.
Definition sizeof_logheader : Z := 4 + 4 * Z.of_nat LOGSIZE.

(** 32-bit fields of a block. *)
Definition get32 (d : list Z) (o : nat) : Z :=
  nth o d 0 + 2 ^ 8 * nth (o + 1) d 0 + 2 ^ 16 * nth (o + 2) d 0 + 2 ^ 24 * nth (o + 3) d 0.
Definition put32 (d : list Z) (o : nat) (v : Z) : list Z :=
  <[(o + 3)%nat := u8 (v / 2 ^ 24)]> (<[(o + 2)%nat := u8 (v / 2 ^ 16)]>
    (<[(o + 1)%nat := u8 (v / 2 ^ 8)]> (<[o := u8 v]> d))).

(** [struct superblock] *)
Record superblock : Type := MkSuper {
  sb_size : Z; sb_nblocks : Z; sb_ninodes : Z; sb_nlog : Z; sb_logstart : Z; sb_inodestart : Z;
  sb_bmapstart : Z }.

Definition set_lh (h : logheader) (l : logst) : logst :=
  MkLog (l_start l) (l_size l) (l_outstanding l) (l_committing l) (l_dev l) h.
Definition set_outstanding (n : Z) (l : logst) : logst :=
  MkLog (l_start l) (l_size l) n (l_committing l) (l_dev l) (l_lh l).
Definition set_committing (b : bool) (l : logst) : logst :=
  MkLog (l_start l) (l_size l) (l_outstanding l) b (l_dev l) (l_lh l).
Definition set_log_place (d s z : Z) (l : logst) : logst :=
  MkLog s z (l_outstanding l) (l_committing l) d (l_lh l).

Definition log_chan : ptr := PAddr 2000.

Definition lgets {A} (f : logst -> A) : MF A := fgets (fun r => f (log r)).
Definition lmod (f : logst -> logst) : MF unit := fmod (fun r => with_log (f (log r)) r).

(** [log.lh.block[i]]; an index past the array is an error. *)
Definition block_get (i : nat) : MF Z := fun s =>
  match lh_block (l_lh (log (x_rest s))) !! i with
  | Some b => Ok b s
  | None => Panic "log.lh.block: out of range" s
  end.
Definition block_set (i : nat) (b : Z) : MF unit := fun s =>
  let l := lh_block (l_lh (log (x_rest s))) in
  if (i <? length l)%nat
  then lmod (fun g => set_lh (MkHeader (lh_n (l_lh g)) (<[i := b]> (lh_block (l_lh g)))) g) s
  else Panic "log.lh.block: out of range" s.
Definition set_n (n : Z) : MF unit := lmod (fun g => set_lh (MkHeader n (lh_block (l_lh g))) g).

Section log.
Context (fuel : nat) (swtch : MF unit).

Definition readsb (d : Z) : MF superblock :=
  bp ← bread fuel swtch d 1;
  b ← buf_get bp;
  let f := get32 (data b) in
  brelse bp;;
  mret (MkSuper (f 0%nat) (f 4%nat) (f 8%nat) (f 12%nat) (f 16%nat) (f 20%nat) (f 24%nat)).

Definition install_one (tail : nat) : MF unit :=
  d ← lgets l_dev; st ← lgets l_start;
  lbuf ← bread fuel swtch (u32 d) (u32 (st + Z.of_nat tail + 1));
  d ← lgets l_dev; n ← block_get tail;
  dbuf ← bread fuel swtch (u32 d) (u32 n);
  l ← buf_get lbuf;
  buf_upd dbuf (set_data (data l));;
  bwrite dbuf;;
  brelse lbuf;;
  brelse dbuf.

Definition install_trans : MF unit :=
  n ← lgets (fun l => lh_n (l_lh l));
  for_each (seq 0 (Z.to_nat n)) install_one.

Definition read_head : MF unit :=
  d ← lgets l_dev; st ← lgets l_start;
  bp ← bread fuel swtch (u32 d) (u32 st);
  b ← buf_get bp;
  let n := i32 (get32 (data b) 0) in
  set_n n;;
  for_each (seq 0 (Z.to_nat n)) (fun i => block_set i (i32 (get32 (data b) (4 + 4 * i))));;
  brelse bp.

Definition write_head : MF unit :=
  d ← lgets l_dev; st ← lgets l_start;
  bp ← bread fuel swtch (u32 d) (u32 st);
  n ← lgets (fun l => lh_n (l_lh l));
  buf_upd bp (fun b => set_data (put32 (data b) 0 n) b);;
  for_each (seq 0 (Z.to_nat n)) (fun i =>
    v ← block_get i;
    buf_upd bp (fun b => set_data (put32 (data b) (4 + 4 * i) v) b));;
  bwrite bp;;
  brelse bp.

Definition recover_from_log : MF unit :=
  read_head;;
  install_trans;;
  set_n 0;;
  write_head.

Definition initlog (d : Z) : MF unit :=
  if BSIZE <=? sizeof_logheader then panic "initlog: too big logheader"
  else
    lift (initlock log_lock);;
    sb ← readsb (u32 d);
    lmod (set_log_place d (i32 (sb_logstart sb)) (i32 (sb_nlog sb)));;
    recover_from_log.

(** [while(1)] of [begin_op]: it leaves the loop once there is room. *)
Fixpoint begin_loop (n : nat) : MF unit :=
  match n with
  | O => no_fuel
  | S n =>
      g ← lgets id;
      if l_committing g then sleep swtch log_chan log_lock;; begin_loop n
      else if Z.of_nat LOGSIZE <? i32 (lh_n (l_lh g) + (l_outstanding g + 1) * MAXOPBLOCKS)
      then sleep swtch log_chan log_lock;; begin_loop n
      else
        lmod (set_outstanding (i32 (l_outstanding g + 1)));;
        lift (release log_lock)
  end.

Definition begin_op (n : nat) : MF unit :=
  lift (acquire log_lock);;
  begin_loop n.

Definition write_log_one (tail : nat) : MF unit :=
  d ← lgets l_dev; st ← lgets l_start;
  to ← bread fuel swtch (u32 d) (u32 (st + Z.of_nat tail + 1));
  d ← lgets l_dev; n ← block_get tail;
  from ← bread fuel swtch (u32 d) (u32 n);
  f ← buf_get from;
  buf_upd to (set_data (data f));;
  bwrite to;;
  brelse from;;
  brelse to.

Definition write_log : MF unit :=
  n ← lgets (fun l => lh_n (l_lh l));
  for_each (seq 0 (Z.to_nat n)) write_log_one.

Definition commit : MF unit :=
  n ← lgets (fun l => lh_n (l_lh l));
  if 0 <? n then
    write_log;;
    write_head;;
    install_trans;;
    set_n 0;;
    write_head
  else mret tt.

Definition end_op : MF unit :=
  lift (acquire log_lock);;
  n ← lgets l_outstanding;
  lmod (set_outstanding (i32 (n - 1)));;
  g ← lgets id;
  if l_committing g then panic "log.committing"
  else
    do_commit ← (if l_outstanding g =? 0
                 then lmod (set_committing true);; mret true
                 else wakeup log_chan;; mret false);
    lift (release log_lock);;
    if do_commit : bool then
      commit;;
      lift (acquire log_lock);;
      lmod (set_committing false);;
      wakeup log_chan;;
      lift (release log_lock)
    else mret tt.

(** The index of block [n] among the first [k] logged ones, [k] if it is not
    there. *)
Fixpoint find_logged (l : list Z) (n : Z) (k : nat) {struct k} : nat :=
  match k with
  | O => 0
  | S k' => match l with
            | [] => 0
            | x :: l' => if u32 x =? n then 0 else S (find_logged l' n k')
            end
  end.

Definition log_write (i : nat) : MF unit :=
  g ← lgets id;
  let h := l_lh g in
  if (Z.of_nat LOGSIZE <=? lh_n h) || (l_size g - 1 <=? lh_n h) then panic "too big a transaction"
  else if l_outstanding g <? 1 then panic "log_write outside of trans"
  else
    lift (acquire log_lock);;
    b ← buf_get i;
    h ← lgets l_lh;
    let k := find_logged (lh_block h) (blockno b) (Z.to_nat (lh_n h)) in
    block_set k (i32 (blockno b));;
    (if Z.of_nat k =? lh_n h then set_n (lh_n h + 1) else mret tt);;
    buf_upd i (fun b => set_flags (Z.lor (flags b) B_DIRTY) b);;
    lift (release log_lock).
End log.

(** ** Transactions and header blocks *)

(** The log occupies the blocks from [st] on, [z] of them, the header first;
    [B] are the home blocks of a transaction. *)
Record layout (size st z : Z) (B : list Z) : Prop := Layout {
  ly_start : 0 <= st;
  ly_end : st + z <= size < 2 ^ 31;
  ly_fits : Z.of_nat (length B) < z;
  ly_max : (length B <= LOGSIZE)%nat;
  ly_home b : b ∈ B -> 0 <= b < size /\ (b < st \/ st + z <= b);
  ly_nodup : NoDup B }.

Lemma layout_nil size st z B : layout size st z B -> layout size st z [].
Proof.
  intros [? ? Hf ? ? ?]. constructor; try done; try (simpl; lia).
  - intros b Hb. by apply not_elem_of_nil in Hb.
  - constructor.
Qed.

(** A disk after a sequence of block writes. *)
Definition apply_writes (W : list (Z * list Z)) (d : list (list Z)) : list (list Z) :=
  foldl (fun d w => <[Z.to_nat (fst w) := snd w]> d) d W.

Lemma zip_snoc {A B} (l : list A) (k : list B) x y :
  length l = length k -> zip (l ++ [x]) (k ++ [y]) = zip l k ++ [(x, y)].
Proof. revert k. induction l as [|? l IH]; intros [|? k] E; simplify_eq/=; [done|]. by rewrite IH. Qed.

(** The log blocks of a transaction, in order. *)
Definition log_blocks (st : Z) (B : list Z) : list Z := (fun t => st + Z.of_nat t + 1) <$> seq 0 (length B).

Lemma log_blocks_lookup st B t : (t < length B)%nat -> log_blocks st B !! t = Some (st + Z.of_nat t + 1).
Proof. intros H. unfold log_blocks. by rewrite list_lookup_fmap, lookup_seq_lt. Qed.

Lemma log_blocks_elem st B m : m ∈ log_blocks st B -> st < m <= st + Z.of_nat (length B).
Proof. intros (t & -> & Ht%elem_of_seq)%list_elem_of_fmap. lia. Qed.

Lemma log_blocks_nodup st B : NoDup (log_blocks st B).
Proof. apply NoDup_fmap_2; [intros ? ? ?; lia|apply NoDup_seq]. Qed.

Lemma disk_length D W (d : list (list Z)) : length (apply_writes (zip D W) d) = length d.
Proof.
  unfold apply_writes. generalize (zip D W) as l. intros l. revert d.
  induction l as [|x l IH]; intros d; simpl; [done|]. by rewrite IH, length_insert.
Qed.

Lemma take_notin {A} (l : list A) t x : NoDup l -> l !! t = Some x -> x ∉ take t l.
Proof.
  intros Hnd Ht (k & Hk)%list_elem_of_lookup. apply lookup_take_Some in Hk as [Hk Hlt].
  pose proof (NoDup_lookup _ _ _ _ Hnd Ht Hk). lia.
Qed.

Lemma take_in {A} (l : list A) t x : x ∈ take t l -> x ∈ l.
Proof.
  intros (k & Hk)%list_elem_of_lookup. apply lookup_take_Some in Hk as [Hk _].
  by eapply list_elem_of_lookup_2.
Qed.

Lemma layout_start size st z B : layout size st z B -> 0 <= st < size /\ st ∉ B /\ st ∉ log_blocks st B.
Proof.
  intros [? ? Hf ? Hh ?]. split_and!; [lia|lia| |].
  - intros Hin. destruct (Hh _ Hin). lia.
  - intros Hin%log_blocks_elem. lia.
Qed.

(** What [write_head] makes of a header block. *)
Definition put_block (B : list Z) (d : list Z) (i : nat) : list Z := put32 d (4 + 4 * i) (nth i B 0).
Definition enc_head (B : list Z) (d : list Z) : list Z :=
  foldl (put_block B) (put32 d 0 (Z.of_nat (length B))) (seq 0 (length B)).

Lemma put_block_eq B d t x : B !! t = Some x -> put_block B d t = put32 d (4 + 4 * t) x.
Proof. intros Hx. unfold put_block. by rewrite (nth_lookup_Some _ _ _ _ Hx). Qed.

(** The block numbers in a header block. *)
Definition head_block (d : list Z) (i : nat) : Z := i32 (get32 d (4 + 4 * i)).
Definition head_n (d : list Z) : Z := i32 (get32 d 0).
Definition dec_head (d : list Z) : list Z := head_block d <$> seq 0 (Z.to_nat (head_n d)).

Definition load_blocks (d : list Z) (bl : list Z) (k : nat) : list Z :=
  foldl (fun bl i => <[i := head_block d i]> bl) bl (seq 0 k).

Lemma load_blocks_spec d bl k :
  (k <= length bl)%nat ->
  length (load_blocks d bl k) = length bl /\ take k (load_blocks d bl k) = head_block d <$> seq 0 k.
Proof.
  unfold load_blocks. induction k as [|k IH]; intros Hk; [done|]. rewrite seq_S, foldl_app, fmap_app. simpl.
  destruct IH as [Hlen Htake]; [lia|]. split; [by rewrite length_insert|].
  erewrite take_S_r; [|apply list_lookup_insert_eq; lia]. rewrite take_insert_ge by lia. by rewrite Htake.
Qed.

(** ** Copying blocks *)

Section copying.
Context (cur : nat) (pd : Z) (fuel : nat) (swtch : MF unit).
Context (Hfuel : (0 < fuel)%nat).
Notation wpf := (wpx (R := fs) (Some cur) pd).
Notation bio_ok := (bio_ok pd).
Notation held_buf := (held_buf pd).

(** Block [n] was written with [v], in the cache and on the disk. *)
Record copied (r : fs) (n : Z) (v : list Z) (r' : fs) : Prop := Copied {
  cp_ok : bio_ok r' [];
  cp_disk : disk r' = <[Z.to_nat n := v]> (disk r);
  cp_writes : writes r' = writes r ++ [(n, v)];
  cp_log : log r' = log r;
  cp_content m : 0 <= m -> content r' m = if decide (m = n) then Some v else content r m;
  cp_dirty m : dirty_block r' m <-> dirty_block r m /\ m <> n;
  cp_ndirty : ndirty r' <= ndirty r }.

Lemma copied_view r n v r1 r2 :
  view_eq r r1 -> copied r1 n v r2 -> copied r n v r2.
Proof.
  intros [Hd Hw Hl Hc Hdi Hn] [H1 H2 H3 H4 H5 H6 H7]. constructor; [done| congruence..| | |lia].
  - intros m Hm. rewrite H5, Hc by done. done.
  - intros m. by rewrite H6, Hdi.
Qed.

(** The end of both copying loops: [i] is the source, [j] the destination. *)
Definition copy_end (i j : nat) : MF unit :=
  s ← buf_get i;
  buf_upd j (set_data (data s));;
  bwrite j;;
  brelse i;;
  brelse j.

Lemma wpf_copy_end r L i j b c :
  bio_ok r L -> L ≡ₚ [i; j] -> bufs r !! i = Some b -> bufs r !! j = Some c -> settled r b ->
  wpf [] r (copy_end i j) (fun _ H' r' => H' = [] /\ copied r (blockno c) (data b) r').
Proof.
  intros Hok HP Hi Hj Hset.
  assert (i ∈ L /\ j ∈ L) as [HiL HjL] by (rewrite HP; set_solver).
  assert (i <> j) as Hij.
  { assert (NoDup [i; j]) as Hnd by (rewrite <- HP; apply Hok). apply NoDup_cons in Hnd as [Hnd _]. set_solver. }
  pose proof (held_of pd r L i b Hok HiL Hi) as Hb. pose proof (held_of pd r L j c Hok HjL Hj) as Hc.
  pose proof (bo_range _ _ _ Hok i b Hi (hb_dev _ _ Hb)) as Hrb.
  pose proof (bo_range _ _ _ Hok j c Hj (hb_dev _ _ Hc)) as Hrc.
  assert (blockno b <> blockno c) as Hne.
  { intros E. apply Hij. by apply (bo_uniq _ _ _ Hok i j b c); [..|apply Hb|apply Hc|]. }
  unfold copy_end. wx wpf_buf_get as (-> & -> & ->); [done|]. wx wpf_buf_upd as [-> ->]; [done|].
  wx (write_release cur pd r L j c) as (-> & Hok2 & Ho2 & Hd2 & Hw2 & Hl2 & Hc2 & Hdi2 & Hn2 & c2 & Hj2 & Hcn & Hcd);
    [done..|].
  wx (wpf_brelse cur pd _ i b L [j]) as (-> & Hok3 & Hv3 & Ho3); [done|done|by rewrite Ho2| |].
  { destruct Hset as [?|E]; [by left|right]. rewrite Hd2, list_lookup_insert_ne; [done|]. intros E'.
    apply Hne. symmetry. apply Z2Nat.inj; lia. }
  assert (bufs r'0 !! j = Some c2) as Hj3 by (by rewrite Ho3).
  eapply wpx_mono.
  { apply (wpf_brelse cur pd _ j c2 [j] []); [done|done|done|]. right.
    rewrite (ve_disk _ _ Hv3), Hd2, Hcn, Hcd. apply list_lookup_insert_eq. lia. }
  intros _ ? r4 (-> & Hok4 & Hv4 & _). split; [done|].
  pose proof (view_eq_trans _ _ _ Hv3 Hv4) as [V1 V2 V3 V4 V5 V6].
  constructor; try congruence.
  - intros m Hm. by rewrite V4, Hc2.
  - intros m. by rewrite V5, Hdi2.
Qed.

(** The log of [r] records the transaction [B]. *)
Record logged (r : fs) (st : Z) (B : list Z) : Prop := Logged {
  lg_dev : l_dev (log r) = 1;
  lg_start : l_start (log r) = st;
  lg_n : lh_n (l_lh (log r)) = Z.of_nat (length B);
  lg_block : take (length B) (lh_block (l_lh (log r))) = B }.

Lemma lg_lookup r st B t b : logged r st B -> B !! t = Some b -> lh_block (l_lh (log r)) !! t = Some b.
Proof.
  intros Hl Ht. pose proof (lookup_lt_Some _ _ _ Ht). rewrite <- (lg_block _ _ _ Hl) in Ht.
  by rewrite lookup_take_lt in Ht by lia.
Qed.

Lemma wpf_lgets {A} (f : logst -> A) H r :
  wpf H r (lgets f) (fun a H' r' => a = f (log r) /\ H' = H /\ r' = r).
Proof. apply (wpf_gets cur pd (fun r => f (log r))). Qed.

Lemma wpf_block_get r st B t b H :
  logged r st B -> B !! t = Some b ->
  wpf H r (block_get t) (fun a H' r' => a = b /\ H' = H /\ r' = r).
Proof.
  intros Hl Ht s Hw <-. unfold wp, block_get. rewrite (lg_lookup _ _ _ _ _ Hl Ht). by exists H.
Qed.

(** Two different blocks are read, one after the other. *)
Record both (r : fs) (x y : Z) (i j : nat) (r2 : fs) : Prop := Both {
  bt_ok : bio_ok r2 [j; i];
  bt_view : view_eq r r2;
  bt_first : exists b, bufs r2 !! i = Some b /\ blockno b = x /\ content r x = Some (data b);
  bt_second : exists c, bufs r2 !! j = Some c /\ blockno c = y /\ content r y = Some (data c) }.

Lemma wpf_first r x :
  bio_ok r [] -> 0 <= x < Z.of_nat (length (disk r)) -> ndirty r < Z.of_nat NBUF ->
  wpf [] r (bread fuel swtch 1 x) (fun i H' r1 => H' = [] /\ read_ok pd r [] x i r1).
Proof.
  intros Hok Hx Hn. apply wpf_bread; [done|done| |right; simpl; lia|done].
  by intros ? ? ?%not_elem_of_nil.
Qed.

Lemma wpf_second r x i r1 y :
  read_ok pd r [] x i r1 -> 0 <= y < Z.of_nat (length (disk r)) -> x <> y ->
  dirty_block r y \/ ndirty r + 1 < Z.of_nat NBUF ->
  wpf [] r1 (bread fuel swtch 1 y) (fun j H' r2 => H' = [] /\ both r x y i j r2).
Proof.
  intros [_ Hok1 Hv1 Ho1 (b & Hi & Hhb & Hb & Hcx)] Hy Hxy Hroom. eapply wpx_mono.
  - apply (wpf_bread cur pd fuel swtch r1 [i] y); [done|done| | |by rewrite (ve_disk _ _ Hv1)].
    + intros ? ? ->%list_elem_of_singleton E. congruence.
    + destruct Hroom as [Hd|Hlt].
      * apply (ve_dirty _ _ Hv1) in Hd as (k' & b' & Hk' & Hck & _). left. by exists k', b'.
      * right. rewrite (ve_ndirty _ _ Hv1). simpl. lia.
  - intros j ? r2 [-> [Hji Hok2 Hv2 Ho2 (c & Hj & Hhc & Hc & Hcy)]]. split; [done|].
    assert (i <> j) by (intros ->; apply Hji; left). constructor; [done|by eapply view_eq_trans| |].
    + exists b. by rewrite Ho2.
    + exists c. by rewrite <- (ve_content _ _ Hv1).
Qed.

Section one.
Context (r : fs) (st z : Z) (B : list Z) (t : nat) (b : Z).
Context (Hok : bio_ok r []) (Hly : layout (Z.of_nat (length (disk r))) st z B) (Hlg : logged r st B).
Context (Ht : B !! t = Some b) (Hn : ndirty r < Z.of_nat NBUF).
Context (Hroom : dirty_block r b \/ ndirty r + 1 < Z.of_nat NBUF).
Let a := st + Z.of_nat t + 1.

Lemma one_range : 0 <= a < Z.of_nat (length (disk r)) /\ 0 <= b < Z.of_nat (length (disk r)) /\ a <> b /\
  u32 a = a /\ u32 b = b.
Proof.
  pose proof (lookup_lt_Some _ _ _ Ht). destruct Hly as [? ? ? _ Hhome _].
  destruct (Hhome b) as [? ?]; [by eapply list_elem_of_lookup_2|]. unfold a.
  rewrite !u32_small by lia. lia.
Qed.

Lemma wpf_install_one v :
  content r a = Some v -> ~ dirty_block r a ->
  wpf [] r (install_one fuel swtch t) (fun _ H' r' => H' = [] /\ copied r b v r').
Proof.
  intros Hv Hcl. destruct one_range as (Ha & Hb & Hab & Ea & Eb). unfold install_one.
  wx wpf_lgets as (-> & -> & ->). wx wpf_lgets as (-> & -> & ->).
  rewrite (lg_dev _ _ _ Hlg), (lg_start _ _ _ Hlg). fold a. rewrite Ea. change (u32 1) with 1.
  wx wpf_first as [-> Hr]; [done..|]. rename a0 into i. pose proof (ve_log _ _ (ro_view _ _ _ _ _ _ Hr)) as El.
  wx wpf_lgets as (-> & -> & ->). rewrite El, (lg_dev _ _ _ Hlg). change (u32 1) with 1.
  wx (wpf_block_get r' st B t b) as (-> & -> & ->); [by destruct Hlg; constructor; rewrite El|done|].
  rewrite Eb. wx wpf_second as [-> [Hok2 Hv2 (bi & Hi & Hbi & Hci) (bj & Hj & Hbj & Hcj)]]; [done..|].
  rename a0 into j, r'0 into r2. eapply wpx_mono.
  - apply (wpf_copy_end r2 [j; i] i j bi bj); [done|apply perm_swap|done|done|].
    right. rewrite Hbi, (ve_disk _ _ Hv2), <- Hci. symmetry.
    apply (content_clean pd r []); [done|done|by intros ? ? ?%not_elem_of_nil].
  - intros _ ? r3 [-> Hc]. split; [done|]. rewrite Hci in Hv. injection Hv as <-.
    rewrite Hbj in Hc. by apply (copied_view _ _ _ r2).
Qed.

Lemma wpf_write_log_one v :
  content r b = Some v -> dirty_block r b ->
  wpf [] r (write_log_one fuel swtch t) (fun _ H' r' => H' = [] /\ copied r a v r').
Proof.
  intros Hv Hcl. destruct one_range as (Ha & Hb & Hab & Ea & Eb). unfold write_log_one.
  wx wpf_lgets as (-> & -> & ->). wx wpf_lgets as (-> & -> & ->).
  rewrite (lg_dev _ _ _ Hlg), (lg_start _ _ _ Hlg). fold a. rewrite Ea. change (u32 1) with 1.
  wx wpf_first as [-> Hr]; [done..|]. rename a0 into i. pose proof (ve_log _ _ (ro_view _ _ _ _ _ _ Hr)) as El.
  wx wpf_lgets as (-> & -> & ->). rewrite El, (lg_dev _ _ _ Hlg). change (u32 1) with 1.
  wx (wpf_block_get r' st B t b) as (-> & -> & ->); [by destruct Hlg; constructor; rewrite El|done|].
  rewrite Eb. wx wpf_second as [-> [Hok2 Hv2 (bi & Hi & Hbi & Hci) (bj & Hj & Hbj & Hcj)]]; [done..|].
  rename a0 into j, r'0 into r2. eapply wpx_mono.
  - apply (wpf_copy_end r2 [j; i] j i bj bi); [done|done|done|done|].
    left. apply (ve_dirty _ _ Hv2) in Hcl as (k & x & Hk & [Hdk Hbk]%caches_true & Hdx).
    pose proof (held_of pd r2 [j; i] j bj Hok2 ltac:(left) Hj) as Hh.
    assert (j = k) as <- by (apply (bo_uniq _ _ _ Hok2 j k bj x); [done|done|apply Hh|done|congruence]). congruence.
  - intros _ ? r3 [-> Hc]. split; [done|]. rewrite Hcj in Hv. injection Hv as <-.
    rewrite Hbi in Hc. by apply (copied_view _ _ _ r2).
Qed.
End one.

(** ** The two copying loops *)

(** The blocks [D] were written in order with the contents [V]. *)
Record copied_n (r : fs) (D : list Z) (V : list (list Z)) (r' : fs) : Prop := CopiedN {
  cn_ok : bio_ok r' [];
  cn_disk : disk r' = apply_writes (zip D V) (disk r);
  cn_writes : writes r' = writes r ++ zip D V;
  cn_log : log r' = log r;
  cn_content m : 0 <= m -> m ∉ D -> content r' m = content r m;
  cn_copy j d v : D !! j = Some d -> V !! j = Some v -> content r' d = Some v;
  cn_dirty m : dirty_block r' m <-> dirty_block r m /\ m ∉ D;
  cn_ndirty : ndirty r' <= ndirty r }.

Lemma copied_n_0 r : bio_ok r [] -> copied_n r [] [] r.
Proof.
  intros Hok. constructor; try done; [by rewrite app_nil_r|set_solver].
Qed.

Lemma copied_n_snoc r D V r1 d v r2 :
  copied_n r D V r1 -> copied r1 d v r2 -> 0 <= d -> d ∉ D -> (forall d', d' ∈ D -> 0 <= d') ->
  length D = length V -> copied_n r (D ++ [d]) (V ++ [v]) r2.
Proof.
  intros [H1 H2 H3 H4 H5 H6 H7 H8] [G1 G2 G3 G4 G5 G6 G7] Hd HdD HD Hlen.
  constructor; try done; try lia; try congruence.
  - rewrite G2, H2, zip_snoc by done. unfold apply_writes. by rewrite foldl_app.
  - by rewrite G3, H3, zip_snoc, app_assoc.
  - intros m Hm HmD. rewrite G5, decide_False by set_solver. apply H5; set_solver.
  - intros j d' v' Hj Hv. pose proof (lookup_lt_Some _ _ _ Hj) as Hlt. rewrite length_app in Hlt. simpl in Hlt.
    destruct (decide (j = length D)) as [->|Hne].
    + rewrite list_lookup_middle in Hj by done. rewrite list_lookup_middle in Hv by done. simplify_eq.
      by rewrite G5, decide_True.
    + rewrite lookup_app_l in Hj by lia. rewrite lookup_app_l in Hv by lia.
      apply list_elem_of_lookup_2 in Hj as Hin. rewrite G5, decide_False; [by eapply H6| |by apply HD].
      by intros ->.
  - intros m. rewrite G6, H7. set_solver.
Qed.

Section loops.
Context (r : fs) (st z : Z) (B : list Z) (V : list (list Z)).
Context (Hok : bio_ok r []) (Hly : layout (Z.of_nat (length (disk r))) st z B) (Hlg : logged r st B).
Context (HV : length V = length B) (Hn : ndirty r < Z.of_nat NBUF).

(** Installing a committed transaction: each home block gets the contents of
    its log block. *)
Lemma wpf_install :
  (forall t v, V !! t = Some v -> content r (st + Z.of_nat t + 1) = Some v /\
     ~ dirty_block r (st + Z.of_nat t + 1)) ->
  (forall b, b ∈ B -> dirty_block r b) \/ ndirty r + 1 < Z.of_nat NBUF ->
  wpf [] r (install_trans fuel swtch) (fun _ H' r' => H' = [] /\ copied_n r B V r').
Proof.
  intros Hlog Hroom. unfold install_trans. wx wpf_lgets as (-> & -> & ->).
  rewrite (lg_n _ _ _ Hlg), Nat2Z.id. eapply wpx_mono.
  - apply (wpx_for_seq _ _ (fun t r' => copied_n r (take t B) (take t V) r')); [by apply copied_n_0|].
    intros t r' Ht Hcn. destruct (lookup_lt_is_Some_2 B t Ht) as [b Hb].
    destruct (lookup_lt_is_Some_2 V t ltac:(lia)) as [v Hv]. destruct (Hlog t v Hv) as [Hcv Hcl].
    pose proof (take_notin B t b (ly_nodup _ _ _ _ Hly) Hb) as HbD.
    assert (b ∈ B) as HbB by (by eapply list_elem_of_lookup_2).
    assert (st + Z.of_nat t + 1 ∉ take t B) as HaD.
    { intros Hk%take_in. destruct (ly_home _ _ _ _ Hly _ Hk). pose proof (ly_fits _ _ _ _ Hly). lia. }
    pose proof (ly_start _ _ _ _ Hly). destruct (ly_home _ _ _ _ Hly b HbB) as [Hb0 _].
    eapply wpx_mono.
    + eapply (wpf_install_one r' st z B t b); try done.
      * apply Hcn.
      * rewrite (cn_disk _ _ _ _ Hcn), disk_length. done.
      * destruct Hlg. constructor; by rewrite (cn_log _ _ _ _ Hcn).
      * pose proof (cn_ndirty _ _ _ _ Hcn). lia.
      * destruct Hroom as [Hd|Hlt]; [left|right; pose proof (cn_ndirty _ _ _ _ Hcn); lia].
        apply (cn_dirty _ _ _ _ Hcn). auto.
      * rewrite (cn_content _ _ _ _ Hcn) by (done || lia). done.
      * rewrite (cn_dirty _ _ _ _ Hcn). naive_solver.
    + intros _ ? r2 [-> Hc]. split; [done|]. rewrite (take_S_r _ _ b), (take_S_r V _ v) by done.
      apply (copied_n_snoc r _ _ r'); [done|done|lia|done| |rewrite !length_take; lia].
      intros d' Hk%take_in. by destruct (ly_home _ _ _ _ Hly _ Hk) as [[? _] _].
  - intros _ ? r' [-> Hcn]. by rewrite firstn_all, <- HV, firstn_all in Hcn.
Qed.

(** Writing the log: each log block gets the cached contents of its home block. *)
Lemma wpf_write_log :
  (forall t b v, B !! t = Some b -> V !! t = Some v -> content r b = Some v) ->
  (forall b, b ∈ B -> dirty_block r b) ->
  wpf [] r (write_log fuel swtch) (fun _ H' r' => H' = [] /\ copied_n r (log_blocks st B) V r').
Proof.
  intros Hval Hd. unfold write_log. wx wpf_lgets as (-> & -> & ->).
  rewrite (lg_n _ _ _ Hlg), Nat2Z.id. eapply wpx_mono.
  - apply (wpx_for_seq _ _ (fun t r' => copied_n r (take t (log_blocks st B)) (take t V) r')); [by apply copied_n_0|].
    intros t r' Ht Hcn. destruct (lookup_lt_is_Some_2 B t Ht) as [b Hb].
    destruct (lookup_lt_is_Some_2 V t ltac:(lia)) as [v Hv]. pose proof (log_blocks_lookup st B t Ht) as Ha.
    pose proof (take_notin (log_blocks st B) t _ (log_blocks_nodup st B) Ha) as HaD.
    assert (b ∈ B) as HbB by (by eapply list_elem_of_lookup_2).
    pose proof (ly_start _ _ _ _ Hly). pose proof (ly_fits _ _ _ _ Hly).
    destruct (ly_home _ _ _ _ Hly b HbB) as [Hb0 Hout].
    assert (b ∉ take t (log_blocks st B)) as HbD by (intros Hk%take_in%log_blocks_elem; lia).
    assert (dirty_block r' b) as Hdb by (apply (cn_dirty _ _ _ _ Hcn); auto).
    eapply wpx_mono.
    + eapply (wpf_write_log_one r' st z B t b); try done.
      * apply Hcn.
      * rewrite (cn_disk _ _ _ _ Hcn), disk_length. done.
      * destruct Hlg. constructor; by rewrite (cn_log _ _ _ _ Hcn).
      * pose proof (cn_ndirty _ _ _ _ Hcn). lia.
      * by left.
      * rewrite (cn_content _ _ _ _ Hcn) by (done || lia). by apply (Hval t).
    + intros _ ? r2 [-> Hc]. split; [done|]. rewrite (take_S_r _ _ _ Ha), (take_S_r V _ v) by done.
      apply (copied_n_snoc r _ _ r'); [done|done|lia|done| |].
      * intros d' Hk%take_in%log_blocks_elem. lia.
      * rewrite !length_take. unfold log_blocks. rewrite length_fmap, length_seq. lia.
  - intros _ ? r' [-> Hcn]. rewrite (take_ge (log_blocks st B)) in Hcn; [|unfold log_blocks; by rewrite length_fmap, length_seq].
    by rewrite <- HV, firstn_all in Hcn.
Qed.
End loops.

(** ** The header block *)

Lemma wpf_write_head r st z B hd :
  bio_ok r [] -> layout (Z.of_nat (length (disk r))) st z B -> logged r st B ->
  ndirty r < Z.of_nat NBUF -> content r st = Some hd ->
  wpf [] r (write_head fuel swtch) (fun _ H' r' => H' = [] /\ copied r st (enc_head B hd) r').
Proof.
  intros Hok Hly Hlg Hn Hhd. pose proof (ly_start _ _ _ _ Hly). pose proof (ly_end _ _ _ _ Hly).
  pose proof (ly_fits _ _ _ _ Hly). unfold write_head.
  wx wpf_lgets as (-> & -> & ->). wx wpf_lgets as (-> & -> & ->).
  rewrite (lg_dev _ _ _ Hlg), (lg_start _ _ _ Hlg). rewrite (u32_small st) by lia. change (u32 1) with 1.
  wx wpf_first as [-> [_ Hok1 Hv1 Ho1 (b & Hi & Hhb & Hb & Hc)]]; [done|lia|done|].
  rename a into i, r' into r1. rewrite Hhd in Hc. injection Hc as Hc.
  assert (logged r1 st B) as Hlg1 by (destruct Hlg; constructor; by rewrite (ve_log _ _ Hv1)).
  wx wpf_lgets as (-> & -> & ->). rewrite (lg_n _ _ _ Hlg1), Nat2Z.id.
  wx wpf_buf_upd as [-> ->]; [done|]. rewrite <- Hc.
  eapply wpx_bind.
  { apply (wpx_for_seq _ _ (fun t r' => r' = setb i (set_data
      (foldl (put_block B) (put32 hd 0 (Z.of_nat (length B))) (seq 0 t)) b) r1)); [done|].
    intros t r' Ht ->. destruct (lookup_lt_is_Some_2 B t Ht) as [x Hx].
    wx (wpf_block_get _ st B t x) as (-> & -> & ->); [by destruct Hlg1; constructor|done|].
    eapply wpx_mono; [eapply wpf_buf_upd; by eapply setb_lookup|]. intros _ ? ? [-> ->].
    split; [done|]. rewrite setb_setb, seq_S, foldl_app. cbn [foldl Nat.add].
    by rewrite (put_block_eq B _ t x Hx). }
  intros _ ? ? [-> ->]. fold (enc_head B hd).
  wx (write_release cur pd r1 [i] i b) as (-> & Hok2 & Ho2 & Hd2 & Hw2 & Hl2 & Hc2 & Hdi2 & Hn2 & c2 & Hj2 & Hcn & Hcd);
    [done|left|done|].
  eapply wpx_mono.
  { apply (wpf_brelse cur pd _ i c2 [i] []); [done|done|done|]. right. rewrite Hd2, Hcn, Hcd.
    apply list_lookup_insert_eq. rewrite (ve_disk _ _ Hv1), Hb. lia. }
  intros _ ? r4 (-> & Hok4 & [V1 V2 V3 V4 V5 V6] & _). split; [done|]. rewrite Hb in *.
  apply (copied_view _ _ _ r1); [done|]. constructor; try congruence.
  - intros m Hm. by rewrite V4, Hc2.
  - intros m. by rewrite V5, Hdi2.
Qed.

Lemma bio_ok_log r l L : bio_ok r L -> bio_ok (with_log l r) L.
Proof.
  intros []. constructor; try done. intros i b Hi Hb. destruct (bo_free i b Hi Hb). by constructor.
Qed.

Lemma view_eq_log r r' l : view_eq r r' -> view_eq (with_log l r) (with_log l r').
Proof. intros []. by constructor. Qed.

Lemma wpf_lmod f H r : wpf H r (lmod f) (fun _ H' r' => H' = H /\ r' = with_log (f (log r)) r).
Proof. apply (wpf_mod cur pd (fun r => with_log (f (log r)) r)). Qed.

Lemma wpf_block_set i b H r :
  (i < length (lh_block (l_lh (log r))))%nat ->
  wpf H r (block_set i b) (fun _ H' r' => H' = H /\
    r' = with_log (set_lh (MkHeader (lh_n (l_lh (log r))) (<[i := b]> (lh_block (l_lh (log r))))) (log r)) r).
Proof.
  intros Hi s Hw <-. unfold block_set, wp. rewrite (proj2 (Nat.ltb_lt _ _) Hi).
  exact (wpf_lmod _ H _ s Hw eq_refl).
Qed.

Lemma wpf_read_head r st hd :
  bio_ok r [] -> l_dev (log r) = 1 -> l_start (log r) = st -> 0 <= st < Z.of_nat (length (disk r)) ->
  Z.of_nat (length (disk r)) < 2 ^ 31 ->
  (forall m, ~ dirty_block r m) -> ndirty r < Z.of_nat NBUF -> content r st = Some hd ->
  0 <= head_n hd <= Z.of_nat (length (lh_block (l_lh (log r)))) ->
  wpf [] r (read_head fuel swtch) (fun _ H' r' => H' = [] /\ bio_ok r' [] /\ logged r' st (dec_head hd) /\
    exists l, l_size l = l_size (log r) /\ view_eq (with_log l r) r').
Proof.
  intros Hok Hdev Hst Hr Hsz Hcl Hn Hhd Hhn. unfold read_head.
  wx wpf_lgets as (-> & -> & ->). wx wpf_lgets as (-> & -> & ->). rewrite Hdev, Hst.
  rewrite (u32_small st) by lia. change (u32 1) with 1.
  wx wpf_first as [-> [_ Hok1 Hv1 Ho1 (b & Hi & Hhb & Hb & Hc)]]; [done|lia|done|].
  rename a into i, r' into r1. rewrite Hhd in Hc. injection Hc as Hc.
  wx wpf_buf_get as (-> & -> & ->); [done|]. cbv zeta. rewrite <- Hc. fold (head_n hd).
  wx wpf_lmod as [-> ->]. rewrite (ve_log _ _ Hv1). set (k := Z.to_nat (head_n hd)).
  set (bl := lh_block (l_lh (log r))) in *.
  set (lg t := set_lh (MkHeader (head_n hd) (load_blocks hd bl t)) (log r)).
  eapply wpx_bind.
  { apply (wpx_for_seq _ _ (fun t r' => r' = with_log (lg t) r1)); [done|].
    intros t r' Ht ->. assert (t <= length bl)%nat as Htl by lia.
    pose proof (proj1 (load_blocks_spec hd bl t Htl)) as Hlen.
    eapply wpx_mono; [apply wpf_block_set; cbn; lia|]. intros _ ? ? [-> ->]. split; [done|].
    unfold lg, load_blocks. rewrite seq_S, foldl_app. done. }
  intros _ ? ? [-> ->]. eapply wpx_mono.
  { apply (wpf_brelse cur pd (with_log (lg k) r1) i b [i] []); [by apply bio_ok_log|done|done|]. right.
    change (disk r1 !! Z.to_nat (blockno b) = Some (data b)).
    rewrite (ve_disk _ _ Hv1), Hb, <- Hc, <- Hhd. symmetry.
    apply (content_clean pd r []); [done|apply Hcl|by intros ? ? ?%not_elem_of_nil]. }
  intros _ ? r4 (-> & Hok4 & Hv4 & _). split_and!; [done|done| |].
  - assert (log r4 = lg k) as El by apply Hv4. constructor; rewrite El; cbn [lg set_lh l_dev l_start l_lh lh_n lh_block].
    + done.
    + done.
    + unfold dec_head. rewrite length_fmap, length_seq. lia.
    + unfold dec_head. rewrite length_fmap, length_seq. apply load_blocks_spec. lia.
  - exists (lg k). split; [done|]. eapply view_eq_trans; [by apply view_eq_log|done].
Qed.

(** ** Recovery and commit *)

Lemma logged_log r r' st B : log r' = log r -> logged r st B -> logged r' st B.
Proof. intros E []. by constructor; rewrite E. Qed.

Lemma set_n_logged r st B :
  logged r st B -> logged (with_log (set_lh (MkHeader 0 (lh_block (l_lh (log r)))) (log r)) r) st [].
Proof. intros []. by constructor. Qed.

Lemma wpf_recover r st z hd V :
  let B := dec_head hd in
  bio_ok r [] -> l_dev (log r) = 1 -> l_start (log r) = st -> length (lh_block (l_lh (log r))) = LOGSIZE ->
  (forall m, ~ dirty_block r m) -> ndirty r + 1 < Z.of_nat NBUF ->
  disk r !! Z.to_nat st = Some hd -> 0 <= head_n hd <= Z.of_nat LOGSIZE ->
  layout (Z.of_nat (length (disk r))) st z B -> length V = length B ->
  (forall t v, V !! t = Some v -> disk r !! Z.to_nat (st + Z.of_nat t + 1) = Some v) ->
  wpf [] r (recover_from_log fuel swtch) (fun _ H' r' => H' = [] /\ bio_ok r' [] /\
    disk r' = <[Z.to_nat st := enc_head [] hd]> (apply_writes (zip B V) (disk r))).
Proof.
  intros B Hok Hdev Hst Hlen Hcl Hn Hhd Hhn Hly HV Hlog.
  destruct (layout_start _ _ _ _ Hly) as (Hst0 & HstB & _). pose proof (ly_end _ _ _ _ Hly).
  assert (forall m, content r m = disk r !! Z.to_nat m) as Hcd.
  { intros m. apply (content_clean pd r []); [done|apply Hcl|by intros ? ? ?%not_elem_of_nil]. }
  unfold recover_from_log.
  wx (wpf_read_head r st hd) as (-> & Hok1 & Hlg1 & l & _ & [D1 W1 L1 C1 Di1 N1]);
    [done|done|done|lia|lia|done|lia|by rewrite Hcd|by rewrite Hlen|].
  rename r' into r1. change (ndirty (with_log l r)) with (ndirty r) in N1.
  change (forall n, content r1 n = content r n) in C1.
  change (forall n, dirty_block r1 n <-> dirty_block r n) in Di1. change (disk r1 = disk r) in D1.
  wx (wpf_install r1 st z B V) as [-> Hcn]; [done|by rewrite D1|done|done|lia| | |].
  { intros t v Hv. rewrite C1, Hcd, (Hlog t v Hv). split; [done|]. rewrite Di1. apply Hcl. }
  { right. rewrite N1. exact Hn. }
  rename r' into r2. unfold set_n. wx wpf_lmod as [-> ->].
  eapply wpx_mono.
  { apply (wpf_write_head _ st z [] hd).
    - apply bio_ok_log, Hcn.
    - change (disk (with_log ?l ?x)) with (disk x). rewrite (cn_disk _ _ _ _ Hcn), disk_length, D1.
      by eapply layout_nil.
    - eapply set_n_logged, logged_log; [apply Hcn|done].
    - change (ndirty r2 < Z.of_nat NBUF). pose proof (cn_ndirty _ _ _ _ Hcn). lia.
    - change (content r2 st = Some hd). rewrite (cn_content _ _ _ _ Hcn) by (done || lia).
      by rewrite C1, Hcd. }
  intros _ ? r3 [-> Hc]. split_and!; [done|apply Hc|]. rewrite (cp_disk _ _ _ _ Hc).
  change (disk (with_log ?l ?x)) with (disk x). by rewrite (cn_disk _ _ _ _ Hcn), D1.
Qed.

Definition commit_writes (st : Z) (B : list Z) (V : list (list Z)) (hd : list Z) : list (Z * list Z) :=
  zip (log_blocks st B) V ++ [(st, enc_head B hd)] ++ zip B V ++ [(st, enc_head [] (enc_head B hd))].

Lemma wpf_commit r st z B V hd :
  bio_ok r [] -> logged r st B -> layout (Z.of_nat (length (disk r))) st z B -> B <> [] ->
  (forall b, dirty_block r b <-> b ∈ B) -> ndirty r < Z.of_nat NBUF ->
  content r st = Some hd -> length V = length B ->
  (forall t b v, B !! t = Some b -> V !! t = Some v -> content r b = Some v) ->
  wpf [] r (commit fuel swtch) (fun _ H' r' => H' = [] /\ bio_ok r' [] /\ (forall m, ~ dirty_block r' m) /\
    writes r' = writes r ++ commit_writes st B V hd /\
    disk r' = apply_writes (commit_writes st B V hd) (disk r) /\
    log r' = set_lh (MkHeader 0 (lh_block (l_lh (log r)))) (log r) /\
    forall m, 0 <= m -> m < st \/ st + z <= m -> content r' m = content r m).
Proof.
  intros Hok Hlg Hly HB Hdi Hn Hhd HV Hval.
  destruct (layout_start _ _ _ _ Hly) as (Hst0 & HstB & HstA). pose proof (ly_fits _ _ _ _ Hly) as Hf.
  unfold commit. wx wpf_lgets as (-> & -> & ->). rewrite (lg_n _ _ _ Hlg).
  destruct (Z.ltb_spec 0 (Z.of_nat (length B))) as [_|Hz]; [|destruct B; [done|simpl in Hz; lia]].
  wx (wpf_write_log r st z B V) as [-> Hw]; [done|done|done|done|done|done|by intros b ?%Hdi|].
  rename r' into r1. assert (logged r1 st B) as Hlg1 by (eapply logged_log; [apply Hw|done]).
  assert (length (disk r1) = length (disk r)) as Hl1 by (rewrite (cn_disk _ _ _ _ Hw); apply disk_length).
  pose proof (cn_ndirty _ _ _ _ Hw) as Hn1.
  wx (wpf_write_head r1 st z B hd) as [-> Hh];
    [apply Hw|by rewrite Hl1|done|lia|rewrite (cn_content _ _ _ _ Hw); [done|lia|done]|].
  rename r' into r2. assert (logged r2 st B) as Hlg2 by (eapply logged_log; [apply Hh|done]).
  assert (length (disk r2) = length (disk r)) as Hl2 by (by rewrite (cp_disk _ _ _ _ Hh), length_insert).
  pose proof (cp_ndirty _ _ _ _ Hh) as Hn2.
  assert (forall b, b ∈ B -> b ∉ log_blocks st B) as HBA.
  { intros b Hb Ha%log_blocks_elem. destruct (ly_home _ _ _ _ Hly b Hb). lia. }
  wx (wpf_install r2 st z B V) as [-> Hi]; [apply Hh|by rewrite Hl2|done|done|lia| | |].
  { intros t v Hv. assert (t < length B)%nat as Ht by (apply lookup_lt_Some in Hv; lia).
    pose proof (log_blocks_lookup st B t Ht) as Ha. split.
    - rewrite (cp_content _ _ _ _ Hh), decide_False by lia. by apply (cn_copy _ _ _ _ Hw t).
    - rewrite (cp_dirty _ _ _ _ Hh), (cn_dirty _ _ _ _ Hw). intros [[_ Hna] _]. apply Hna.
      by eapply list_elem_of_lookup_2. }
  { left. intros b Hb. rewrite (cp_dirty _ _ _ _ Hh), (cn_dirty _ _ _ _ Hw), Hdi.
    split_and!; [done|by apply HBA|]. by intros ->. }
  rename r' into r3. pose proof (cn_ndirty _ _ _ _ Hi) as Hn3.
  assert (length (disk r3) = length (disk r)) as Hl3 by (by rewrite (cn_disk _ _ _ _ Hi), disk_length).
  unfold set_n. wx wpf_lmod as [-> ->]. set (r4 := with_log _ r3).
  assert (logged r4 st []) as Hlg4 by (eapply set_n_logged, logged_log; [apply Hi|done]).
  eapply wpx_mono.
  { apply (wpf_write_head r4 st z [] (enc_head B hd)); [apply bio_ok_log, Hi| |done| |].
    - change (disk r4) with (disk r3). rewrite Hl3. by eapply layout_nil.
    - change (ndirty r4) with (ndirty r3). lia.
    - change (content r4 st) with (content r3 st). rewrite (cn_content _ _ _ _ Hi) by (done || lia).
      by rewrite (cp_content _ _ _ _ Hh), decide_True by lia. }
  intros _ ? r5 [-> Hz]. unfold commit_writes. split_and!.
  - done.
  - apply Hz.
  - intros m. rewrite (cp_dirty _ _ _ _ Hz). change (dirty_block r4 m) with (dirty_block r3 m).
    rewrite (cn_dirty _ _ _ _ Hi), (cp_dirty _ _ _ _ Hh), (cn_dirty _ _ _ _ Hw), Hdi. naive_solver.
  - rewrite (cp_writes _ _ _ _ Hz). change (writes r4) with (writes r3).
    by rewrite (cn_writes _ _ _ _ Hi), (cp_writes _ _ _ _ Hh), (cn_writes _ _ _ _ Hw), <- !app_assoc.
  - unfold apply_writes. rewrite !foldl_app. cbn [foldl fst snd].
    rewrite (cp_disk _ _ _ _ Hz). change (disk r4) with (disk r3).
    by rewrite (cn_disk _ _ _ _ Hi), (cp_disk _ _ _ _ Hh), (cn_disk _ _ _ _ Hw).
  - rewrite (cp_log _ _ _ _ Hz). unfold r4. cbn [log with_log].
    by rewrite (cn_log _ _ _ _ Hi), (cp_log _ _ _ _ Hh), (cn_log _ _ _ _ Hw).
  - intros m Hm Hout. rewrite (cp_content _ _ _ _ Hz), decide_False by lia.
    change (content r4 m) with (content r3 m).
    assert (content r2 m = content r m) as E2.
    { rewrite (cp_content _ _ _ _ Hh), decide_False by lia. apply (cn_content _ _ _ _ Hw); [done|].
      intros Ha%log_blocks_elem. lia. }
    destruct (decide (m ∈ B)) as [HmB|HmB]; [|by rewrite (cn_content _ _ _ _ Hi)].
    apply list_elem_of_lookup in HmB as (t & Ht). pose proof (lookup_lt_Some _ _ _ Ht).
    destruct (lookup_lt_is_Some_2 V t ltac:(lia)) as [v Hv].
    rewrite (cn_copy _ _ _ _ Hi t m v Ht Hv). symmetry. by apply (Hval t).
Qed.
End copying.

(** ** Header blocks read back *)

Lemma nth_insert_ne {A} (l : list A) i j x d : i <> j -> nth j (<[i := x]> l) d = nth j l d.
Proof. intros H. rewrite !nth_lookup. by rewrite list_lookup_insert_ne. Qed.

Lemma nth_insert {A} (l : list A) i j x d :
  (i < length l)%nat -> nth j (<[i := x]> l) d = if decide (i = j) then x else nth j l d.
Proof.
  intros H. case_decide as E; [|by apply nth_insert_ne]. subst j.
  rewrite nth_lookup. by rewrite list_lookup_insert_eq.
Qed.

Lemma length_put32 d o v : length (put32 d o v) = length d.
Proof. unfold put32. by rewrite !length_insert. Qed.

Lemma get32_put32_eq d o v : (o + 3 < length d)%nat -> get32 (put32 d o v) o = u32 v.
Proof.
  intros Ho. unfold get32, put32.
  rewrite !nth_insert by (rewrite ?length_insert; lia).
  repeat (case_decide; [try lia|try lia]). clear. unfold u8, u32. simpl. dlia.
Qed.

Lemma get32_put32_ne d o o' v :
  (o' + 3 < o)%nat \/ (o + 3 < o')%nat -> get32 (put32 d o v) o' = get32 d o'.
Proof. intros Ho. unfold get32, put32. by rewrite !nth_insert_ne by lia. Qed.

Section headers.
Context (B : list Z) (hd : list Z).
Context (Hlen : length hd = 512%nat) (HB : (length B <= LOGSIZE)%nat).

Lemma enc_steps k :
  (k <= length B)%nat ->
  let d := foldl (put_block B) (put32 hd 0 (Z.of_nat (length B))) (seq 0 k) in
  length d = 512%nat /\ get32 d 0 = Z.of_nat (length B) /\
  forall t, (t < k)%nat -> get32 d (4 + 4 * t) = u32 (nth t B 0).
Proof.
  change LOGSIZE with 30%nat in HB.
  induction k as [|k IH]; intros Hk d; subst d.
  - cbn [seq foldl]. rewrite length_put32. split_and!; [done| |lia].
    rewrite get32_put32_eq by lia. apply u32_small. lia.
  - rewrite seq_S, foldl_app. cbn [foldl]. destruct IH as (Hl & H0 & Ht); [lia|].
    unfold put_block at 1 3 5. rewrite length_put32. split_and!; [done| |].
    + rewrite get32_put32_ne by lia. done.
    + intros t Hlt. destruct (decide (t = k)) as [->|Hne].
      * rewrite get32_put32_eq by lia. done.
      * rewrite get32_put32_ne by lia. apply Ht. lia.
Qed.

Lemma length_enc_head : length (enc_head B hd) = 512%nat.
Proof. apply (enc_steps (length B)). lia. Qed.

Lemma head_n_enc : head_n (enc_head B hd) = Z.of_nat (length B).
Proof.
  unfold head_n. destruct (enc_steps (length B)) as (_ & E & _); [lia|].
  unfold enc_head. rewrite E. change LOGSIZE with 30%nat in HB. apply i32_small. lia.
Qed.

(** The header is read back as it was written. *)
Lemma dec_enc : (forall b, b ∈ B -> 0 <= b < 2 ^ 31) -> dec_head (enc_head B hd) = B.
Proof.
  intros Hr. unfold dec_head. rewrite head_n_enc, Nat2Z.id. apply list_eq. intros t.
  rewrite list_lookup_fmap. destruct (decide (t < length B)%nat) as [Ht|Ht].
  - rewrite lookup_seq_lt by done. destruct (lookup_lt_is_Some_2 B t Ht) as [b Hb]. rewrite Hb. simpl. f_equal.
    destruct (enc_steps (length B)) as (_ & _ & E); [lia|].
    unfold head_block. unfold enc_head. rewrite (E t Ht), (nth_lookup_Some _ _ _ _ Hb).
    pose proof (Hr b ltac:(by eapply list_elem_of_lookup_2)). rewrite u32_small by lia. apply i32_small. lia.
  - rewrite lookup_seq_ge, lookup_ge_None_2 by lia. done.
Qed.
End headers.
