(* ===== verification/Xv6Crash.v ===== *)
(** * Crash safety of the xv6 log (lab2/log.c, lab2/bio.c)

    Whichever disk writes of a commit have happened when the machine stops, the
    next boot ([binit], [initlog]) leaves every block of the file system with
    the contents it had before the transaction, or every one with the contents
    the transaction gave it.  The header write is the commit point. *)

From S2P Require Import Prelude CMem Xv6Lock Xv6Proc Xv6World Xv6Bio Xv6Log.
From stdpp Require Import base numbers option list gmap strings.
Open Scope Z_scope.

(** ** Disks after a crash *)

(** What recovery makes of the disk [d], whose log starts at block [st]. *)
Definition log_data (st : Z) (d : list (list Z)) (n : nat) : list (list Z) :=
  (fun t => nth (Z.to_nat (st + Z.of_nat t + 1)) d []) <$> seq 0 n.
Definition recovered (st : Z) (d : list (list Z)) : list (list Z) :=
  let hd := nth (Z.to_nat st) d [] in
  let B := dec_head hd in
  <[Z.to_nat st := enc_head [] hd]> (apply_writes (zip B (log_data st d (length B))) d).

Definition home (st z size m : Z) : Prop := 0 <= m < size /\ (m < st \/ st + z <= m).

Lemma apply_writes_notin W d m :
  0 <= m -> (forall w, w ∈ W -> 0 <= fst w /\ fst w <> m) -> apply_writes W d !! Z.to_nat m = d !! Z.to_nat m.
Proof.
  intros Hm. revert d. induction W as [|w W IH]; intros d HW; [done|]. simpl.
  rewrite IH by (intros; apply HW; by right). destruct (HW w ltac:(left)) as [H0 Hne].
  apply list_lookup_insert_ne. intros E. apply Hne. apply Z2Nat.inj; lia.
Qed.

Lemma zip_elem {A B} (l : list A) (k : list B) w : w ∈ zip l k -> fst w ∈ l.
Proof. destruct w as [x y]. intros H%elem_of_zip_l. done. Qed.

Lemma apply_writes_in D V d j x v :
  NoDup D -> (forall y, y ∈ D -> 0 <= y) -> D !! j = Some x -> V !! j = Some v ->
  (Z.to_nat x < length d)%nat -> apply_writes (zip D V) d !! Z.to_nat x = Some v.
Proof.
  intros Hnd HD. revert j V d. induction Hnd as [|y D Hy Hnd IH]; intros [|j] [|w V] d Hj Hv Hx; simplify_eq/=.
  - rewrite apply_writes_notin.
    + by apply list_lookup_insert_eq.
    + apply HD. left.
    + intros w' Hw'%zip_elem. split; [apply HD; by right|]. congruence.
  - apply (IH ltac:(intros; apply HD; by right) j V); [done|done|]. by rewrite length_insert.
Qed.

Lemma log_data_lookup st d n t v :
  log_data st d n !! t = Some v -> (Z.to_nat (st + Z.of_nat t + 1) < length d)%nat ->
  d !! Z.to_nat (st + Z.of_nat t + 1) = Some v.
Proof.
  unfold log_data. rewrite list_lookup_fmap. intros (k & Hk & ->)%fmap_Some Hlt.
  apply lookup_seq in Hk as [-> _]. simpl.
  destruct (lookup_lt_is_Some_2 d _ Hlt) as [x Hx]. by rewrite (nth_lookup_Some _ _ _ _ Hx).
Qed.

Lemma log_data_length st d n : length (log_data st d n) = n.
Proof. unfold log_data. by rewrite length_fmap, length_seq. Qed.

Section crash.
Context (d : list (list Z)) (st z : Z) (B : list Z) (V : list (list Z)) (hd : list Z).
Context (Hly : layout (Z.of_nat (length d)) st z B) (HV : length V = length B).
Context (Hhd : d !! Z.to_nat st = Some hd) (Hlen : length hd = 512%nat) (Hempty : head_n hd = 0).

(** The blocks a committed transaction leaves. *)
Definition after (m : Z) : option (list Z) :=
  match list_find (fun b => b = m) B with
  | Some (t, _) => V !! t
  | None => d !! Z.to_nat m
  end.

(** A disk on which nothing is committed. *)
Lemma recovered_idle d' hd' m :
  d' !! Z.to_nat st = Some hd' -> head_n hd' = 0 -> home st z (Z.of_nat (length d)) m ->
  recovered st d' !! Z.to_nat m = d' !! Z.to_nat m.
Proof.
  intros Hd' H0 [Hm Hout]. destruct (layout_start _ _ _ _ Hly) as (Hst & _). pose proof (ly_fits _ _ _ _ Hly).
  unfold recovered. rewrite (nth_lookup_Some _ _ _ _ Hd'). unfold dec_head. rewrite H0.
  change (Z.to_nat 0) with 0%nat. cbn [seq fmap list_fmap length zip zip_with apply_writes foldl].
  apply list_lookup_insert_ne. intros E. assert (st = m) by (apply Z2Nat.inj; lia). lia.
Qed.

(** A disk with the transaction in its log. *)
Lemma recovered_eq d' hd' :
  length d' = length d -> d' !! Z.to_nat st = Some hd' -> dec_head hd' = B ->
  (forall t v, V !! t = Some v -> d' !! Z.to_nat (st + Z.of_nat t + 1) = Some v) ->
  recovered st d' = <[Z.to_nat st := enc_head [] hd']> (apply_writes (zip B V) d').
Proof.
  intros Hl Hd' Hdec Hlog. destruct (layout_start _ _ _ _ Hly) as (Hst & _).
  pose proof (ly_fits _ _ _ _ Hly). pose proof (ly_end _ _ _ _ Hly).
  unfold recovered. rewrite (nth_lookup_Some _ _ _ _ Hd'), Hdec. do 3 f_equal.
  apply list_eq. intros t. destruct (decide (t < length B)%nat) as [Ht|Ht].
  - destruct (lookup_lt_is_Some_2 (log_data st d' (length B)) t) as [x Hx]; [by rewrite log_data_length|].
    destruct (lookup_lt_is_Some_2 V t ltac:(lia)) as [v Hv]. rewrite Hx, Hv.
    apply log_data_lookup in Hx; [|lia]. rewrite (Hlog t v Hv) in Hx. by injection Hx as ->.
  - rewrite !lookup_ge_None_2; [done| |rewrite log_data_length]; lia.
Qed.

(** Its home blocks hold old or new contents; recovery makes them new. *)
Lemma recovered_committed d' hd' m :
  length d' = length d -> d' !! Z.to_nat st = Some hd' -> dec_head hd' = B ->
  (forall t v, V !! t = Some v -> d' !! Z.to_nat (st + Z.of_nat t + 1) = Some v) ->
  (forall b, home st z (Z.of_nat (length d)) b -> b ∉ B -> d' !! Z.to_nat b = d !! Z.to_nat b) ->
  home st z (Z.of_nat (length d)) m ->
  recovered st d' !! Z.to_nat m = after m.
Proof.
  intros Hl Hd' Hdec Hlog Hold Hhome. pose proof Hhome as [Hm Hout].
  destruct (layout_start _ _ _ _ Hly) as (Hst & _). pose proof (ly_fits _ _ _ _ Hly).
  rewrite (recovered_eq d' hd') by done.
  rewrite list_lookup_insert_ne; [|intros E; assert (st = m) by (apply Z2Nat.inj; lia); lia].
  assert (forall y, y ∈ B -> 0 <= y) as HB0 by (intros y Hy; apply (ly_home _ _ _ _ Hly y Hy)).
  unfold after. destruct (list_find _ B) as [[t x]|] eqn:E.
  - apply list_find_Some in E as (Ht & -> & _). pose proof (lookup_lt_Some _ _ _ Ht).
    destruct (lookup_lt_is_Some_2 V t ltac:(lia)) as [v Hv]. rewrite Hv.
    apply (apply_writes_in B V d' t m v); [apply Hly|done|done|done|lia].
  - apply list_find_None in E. rewrite Forall_forall in E.
    assert (m ∉ B) as HmB by (intros Hin; by apply (E m)).
    rewrite apply_writes_notin; [by apply Hold|lia|]. intros w Hw%zip_elem.
    split; [by apply HB0|]. congruence.
Qed.

(** A disk [d'] from which recovery leaves the contents [f] in every home block. *)
Definition recovers_to (f : Z -> option (list Z)) (d' : list (list Z)) : Prop :=
  length d' = length d /\
  (exists hd', d' !! Z.to_nat st = Some hd' /\ 0 <= head_n hd' <= Z.of_nat LOGSIZE /\
     layout (Z.of_nat (length d)) st z (dec_head hd')) /\
  (forall m, m = 1 -> home st z (Z.of_nat (length d)) m -> m ∉ B -> d' !! Z.to_nat m = d !! Z.to_nat m) /\
  forall m, home st z (Z.of_nat (length d)) m -> recovered st d' !! Z.to_nat m = f m.

Lemma apply_length W (d' : list (list Z)) : length (apply_writes W d') = length d'.
Proof. clear. revert d'. induction W as [|w W IH]; intros d'; simpl; [done|]. by rewrite IH, length_insert. Qed.

Lemma home_not_log m w :
  home st z (Z.of_nat (length d)) m -> w ∈ zip (log_blocks st B) V -> 0 <= fst w /\ fst w <> m.
Proof.
  intros [Hm Hout] Hw%zip_elem%log_blocks_elem. pose proof (ly_start _ _ _ _ Hly).
  pose proof (ly_fits _ _ _ _ Hly). lia.
Qed.

(** Before the header is written: the log blocks hold anything. *)
Lemma crash_before k :
  (k <= length B)%nat ->
  recovers_to (fun m => d !! Z.to_nat m) (apply_writes (take k (zip (log_blocks st B) V)) d).
Proof.
  intros Hk. destruct (layout_start _ _ _ _ Hly) as (Hst & _ & HstA). set (d' := apply_writes _ d).
  assert (d' !! Z.to_nat st = Some hd) as Hd'.
  { unfold d'. rewrite apply_writes_notin; [done|lia|]. intros w Hw%take_in%zip_elem.
    split; [apply log_blocks_elem in Hw; lia|]. congruence. }
  assert (forall m, home st z (Z.of_nat (length d)) m -> d' !! Z.to_nat m = d !! Z.to_nat m) as Hsame.
  { intros m Hm. unfold d'. apply apply_writes_notin; [apply Hm|]. intros w Hw%take_in. by apply home_not_log. }
  unfold recovers_to. split_and!.
  - unfold d'. apply apply_length.
  - exists hd. split_and!; [done|lia|lia|]. unfold dec_head. rewrite Hempty. by eapply layout_nil.
  - auto.
  - intros m Hm. rewrite (recovered_idle d' hd m) by done. by apply Hsame.
Qed.

(** The disk once the header is written, and with [k] home blocks installed. *)
Definition committed : list (list Z) :=
  <[Z.to_nat st := enc_head B hd]> (apply_writes (zip (log_blocks st B) V) d).
Definition installed (k : nat) : list (list Z) := apply_writes (take k (zip B V)) committed.

Lemma installed_keep k m : 0 <= m -> m ∉ B -> installed k !! Z.to_nat m = committed !! Z.to_nat m.
Proof.
  intros Hm HmB. apply apply_writes_notin; [done|]. intros w Hw%take_in%zip_elem.
  split; [by apply (ly_home _ _ _ _ Hly)|]. congruence.
Qed.

Lemma committed_other m : 0 <= m -> m <> st ->
  committed !! Z.to_nat m = apply_writes (zip (log_blocks st B) V) d !! Z.to_nat m.
Proof.
  intros Hm Hne. pose proof (ly_start _ _ _ _ Hly). apply list_lookup_insert_ne. intros E. apply Hne.
  symmetry. apply Z2Nat.inj; lia.
Qed.

Lemma installed_length k : length (installed k) = length d.
Proof. unfold installed, committed. by rewrite apply_length, length_insert, apply_length. Qed.

Lemma installed_head k : installed k !! Z.to_nat st = Some (enc_head B hd).
Proof.
  destruct (layout_start _ _ _ _ Hly) as (Hst & HstB & _). rewrite installed_keep by (done || lia).
  apply list_lookup_insert_eq. rewrite apply_length. lia.
Qed.

Lemma installed_dec : dec_head (enc_head B hd) = B.
Proof.
  pose proof (ly_end _ _ _ _ Hly).
  apply dec_enc; [done|apply Hly|]. intros b Hb. destruct (ly_home _ _ _ _ Hly b Hb). lia.
Qed.

Lemma installed_log k t v : V !! t = Some v -> installed k !! Z.to_nat (st + Z.of_nat t + 1) = Some v.
Proof.
  intros Hv. pose proof (lookup_lt_Some _ _ _ Hv) as Ht. rewrite HV in Ht.
  pose proof (ly_start _ _ _ _ Hly). pose proof (ly_fits _ _ _ _ Hly). pose proof (ly_end _ _ _ _ Hly).
  rewrite installed_keep, committed_other; [|lia|lia|lia|].
  - apply (apply_writes_in _ _ _ t); [apply log_blocks_nodup| |by apply log_blocks_lookup|done|lia].
    intros y Hy%log_blocks_elem. lia.
  - intros Hb. destruct (ly_home _ _ _ _ Hly _ Hb). lia.
Qed.

Lemma installed_old k b :
  home st z (Z.of_nat (length d)) b -> b ∉ B -> installed k !! Z.to_nat b = d !! Z.to_nat b.
Proof.
  intros Hb HbB. pose proof Hb as [Hb0 Hout]. pose proof (ly_fits _ _ _ _ Hly).
  rewrite installed_keep, committed_other by (done || lia).
  apply apply_writes_notin; [lia|]. intros w. by apply home_not_log.
Qed.

Lemma installed_home k m :
  home st z (Z.of_nat (length d)) m -> recovered st (installed k) !! Z.to_nat m = after m.
Proof.
  intros Hm. apply (recovered_committed _ (enc_head B hd)); [apply installed_length|apply installed_head|
    apply installed_dec|apply installed_log|apply installed_old|done].
Qed.

(** From the header write to the last installed block. *)
Lemma crash_between k : recovers_to after (installed k).
Proof.
  split_and!; [apply installed_length| |intros m _; apply installed_old|apply installed_home].
  exists (enc_head B hd). rewrite installed_dec, head_n_enc by (done || apply Hly).
  pose proof (ly_max _ _ _ _ Hly). split_and!; [apply installed_head|lia|lia|done].
Qed.

(** After the log is erased. *)
Lemma crash_after :
  recovers_to after (<[Z.to_nat st := enc_head [] (enc_head B hd)]> (apply_writes (zip B V) committed)).
Proof.
  destruct (layout_start _ _ _ _ Hly) as (Hst & HstB & _).
  rewrite <- (recovered_eq committed (enc_head B hd) (installed_length 0) (installed_head 0) installed_dec
    (installed_log 0)).
  assert (recovered st committed !! Z.to_nat st = Some (enc_head [] (enc_head B hd))) as Hhead.
  { rewrite (recovered_eq committed (enc_head B hd) (installed_length 0) (installed_head 0) installed_dec
    (installed_log 0)). apply list_lookup_insert_eq. rewrite apply_length.
    change committed with (installed 0). rewrite installed_length. lia. }
  assert (head_n (enc_head [] (enc_head B hd)) = 0) as H0.
  { apply (head_n_enc [] (enc_head B hd)); [by apply length_enc_head; [|apply Hly]|simpl; lia]. }
  split_and!.
  - unfold recovered. rewrite length_insert, apply_length. apply (installed_length 0).
  - eexists. split_and!; [exact Hhead|lia|lia|]. unfold dec_head. rewrite H0. by eapply layout_nil.
  - intros m _ Hm HmB. rewrite (installed_home 0 m Hm : recovered st committed !! Z.to_nat m = after m). unfold after.
    destruct (list_find _ B) as [[t x]|] eqn:E; [|done].
    apply list_find_Some in E as (Ht & -> & _). exfalso. apply HmB. by eapply list_elem_of_lookup_2.
  - intros m Hm. rewrite (recovered_idle _ _ m Hhead H0 Hm). by apply (installed_home 0).
Qed.

(** Every prefix of the writes of a commit. *)
Lemma crash_points k :
  recovers_to (if (k <=? length B)%nat then fun m => d !! Z.to_nat m else after)
    (apply_writes (take k (commit_writes st B V hd)) d).
Proof.
  assert (length (zip (log_blocks st B) V) = length B /\ length (zip B V) = length B) as [Hl1 Hl2].
  { rewrite !length_zip_with. unfold log_blocks. rewrite length_fmap, length_seq. lia. }
  unfold commit_writes. destruct (Nat.leb_spec k (length B)) as [Hk|Hk].
  - rewrite take_app_le by lia. by apply crash_before.
  - rewrite take_app_ge, Hl1 by lia. destruct (k - length B)%nat as [|k'] eqn:Ek; [lia|].
    cbn [take app]. unfold apply_writes. rewrite foldl_app. cbn [foldl fst snd].
    destruct (decide (k' <= length B)%nat) as [Hk'|Hk'].
    + rewrite take_app_le by lia. apply (crash_between k').
    + rewrite take_app_ge, Hl2 by lia. destruct (k' - length B)%nat as [|k2] eqn:Ek2; [lia|].
      cbn [take app]. rewrite foldl_app. cbn [foldl fst snd]. rewrite take_nil. apply crash_after.
Qed.
End crash.

(** ** The next boot *)

(** The block layer in a kernel just loaded: its memory is zero. *)
Definition fs0 (d : list (list Z)) : fs :=
  MkFs (replicate NBUF buf0) [] d [] (MkLog 0 0 0 false 0 (MkHeader 0 (replicate LOGSIZE 0))).

Section boot.
Context (cur : nat) (pd : Z) (fuel : nat) (swtch : MF unit).
Context (Hfuel : (0 < fuel)%nat).
Notation wpf := (wpx (R := fs) (Some cur) pd).

Lemma wpf_binit d :
  wpf [] (fs0 d) binit (fun _ H' r' => H' = [] /\ r' = with_lru (rev (seq 0 NBUF)) (fs0 d)).
Proof.
  unfold binit. wx wpx_initlock as [-> ->]; [set_solver|]. wx wpf_mod as [-> ->].
  eapply wpx_mono.
  - apply (wpx_for_seq _ _ (fun t r' => r' = with_lru (rev (seq 0 t)) (fs0 d))); [done|].
    intros t r' Ht ->. assert (bufs (fs0 d) !! t = Some buf0) as Hb by (by apply lookup_replicate_2).
    unfold initsleeplock. eapply wpx_bind.
    { wx wpx_initlock as [-> ->]; [set_solver|]. by apply (wpf_sl_write _ _ t buf0). }
    intros _ ? ? [-> ->]. eapply wpx_mono; [apply wpf_mod|]. intros _ ? ? [-> ->]. split; [done|].
    rewrite seq_S, rev_app_distr. unfold setb, with_bufs, with_lru. simpl.
    f_equal. by apply list_insert_id.
  - intros _ ? ? [-> ->]. done.
Qed.

Lemma wpf_readsb r sb :
  bio_ok pd r [] -> (forall m, ~ dirty_block r m) -> ndirty r < Z.of_nat NBUF ->
  1 < Z.of_nat (length (disk r)) -> disk r !! 1%nat = Some sb ->
  wpf [] r (readsb fuel swtch 1) (fun a H' r' => H' = [] /\ bio_ok pd r' [] /\ view_eq r r' /\
    sb_logstart a = get32 sb 16 /\ sb_nlog a = get32 sb 12).
Proof.
  intros Hok Hcl Hn Hlen Hsb. unfold readsb.
  assert (content r 1 = Some sb) as Hc.
  { rewrite <- Hsb. apply (content_clean pd r []); [done|apply Hcl|by intros ? ? ?%not_elem_of_nil]. }
  wx wpf_first as [-> [_ Hok1 Hv1 _ (b & Hi & _ & Hb & Hcb)]]; [done|done|lia|done|].
  wx wpf_buf_get as (-> & -> & ->); [done|]. cbv zeta. rewrite Hc in Hcb. injection Hcb as Hcb.
  wx (wpf_brelse cur pd r' a b [a] []) as (-> & Hok2 & Hv2 & _); [done|done|done| |].
  { right. rewrite Hb, (ve_disk _ _ Hv1), <- Hcb. exact Hsb. }
  apply wpx_ret. rewrite <- Hcb. split_and!; try done. by eapply view_eq_trans.
Qed.

(** What the superblock says of the log. *)
Definition super_ok (d : list (list Z)) (st z : Z) : Prop :=
  exists sb, d !! 1%nat = Some sb /\ i32 (get32 sb 16) = st /\ i32 (get32 sb 12) = z.

Lemma wpf_boot d st z hd :
  super_ok d st z -> d !! Z.to_nat st = Some hd -> 0 <= head_n hd <= Z.of_nat LOGSIZE ->
  layout (Z.of_nat (length d)) st z (dec_head hd) ->
  wpf [] (fs0 d) (binit;; initlog fuel swtch ROOTDEV) (fun _ H' r' =>
    H' = [] /\ bio_ok pd r' [] /\ disk r' = recovered st d).
Proof.
  intros (sb & Hsb & Hst & Hz) Hhd Hhn Hly.
  destruct (layout_start _ _ _ _ Hly) as (Hst0 & _). pose proof (ly_end _ _ _ _ Hly).
  pose proof (ly_fits _ _ _ _ Hly). pose proof (lookup_lt_Some _ _ _ Hsb).
  wx wpf_binit as [-> ->]. set (r0 := with_lru _ _). pose proof (cache0_ok pd d (log (fs0 d)) : bio_ok pd r0 []) as Hok0.
  assert (forall m, ~ dirty_block r0 m) as Hcl.
  { intros m (i & b & Hb & _ & Hd). apply lookup_replicate in Hb as [-> _]. done. }
  assert (ndirty r0 = 0) as Hn0 by reflexivity.
  unfold initlog. change (BSIZE <=? sizeof_logheader) with false. cbn [negb].
  wx wpx_initlock as [-> ->]; [set_solver|].
  wx (wpf_readsb r0 sb) as (-> & Hok1 & [D1 W1 L1 C1 Di1 N1] & Ea & Eb);
    [done|done|by rewrite Hn0|change (disk r0) with d; lia|done|].
  rewrite Ea, Eb, Hst, Hz. wx wpf_lmod as [-> ->]. rename r' into r1.
  set (r2 := with_log _ r1). change (disk r1 = d) in D1.
  eapply wpx_mono.
  { apply (wpf_recover cur pd fuel swtch Hfuel r2 st z hd (log_data st d (length (dec_head hd)))).
    - by apply bio_ok_log.
    - done.
    - done.
    - change (length (lh_block (l_lh (log r1))) = LOGSIZE). by rewrite L1.
    - intros m. change (~ dirty_block r1 m). by rewrite Di1.
    - change (ndirty r1 + 1 < Z.of_nat NBUF). by rewrite N1, Hn0.
    - change (disk r1 !! Z.to_nat st = Some hd). by rewrite D1.
    - done.
    - change (disk r2) with (disk r1). by rewrite D1.
    - apply log_data_length.
    - change (disk r2) with (disk r1). rewrite D1. intros t v Hv.
      pose proof (lookup_lt_Some _ _ _ Hv) as Ht. rewrite log_data_length in Ht.
      apply log_data_lookup in Hv; [done|lia]. }
  intros _ ? r3 (-> & Hok3 & Hd3). split_and!; [done|done|]. rewrite Hd3. change (disk r2) with (disk r1).
  rewrite D1. unfold recovered. by rewrite (nth_lookup_Some _ _ _ _ Hhd).
Qed.
End boot.

(** ** Crash safety *)

(** A transaction ready to commit: the blocks [B] are changed in the cache and
    recorded in the log, nothing else is, and the log on the disk is empty. *)
Record transaction (pd : Z) (r : fs) (st z : Z) (B : list Z) : Prop := Transaction {
  tx_bio : bio_ok pd r [];
  tx_logged : logged r st B;
  tx_layout : layout (Z.of_nat (length (disk r))) st z B;
  tx_some : B <> [];
  tx_dirty b : dirty_block r b <-> b ∈ B;
  tx_room : ndirty r < Z.of_nat NBUF;
  tx_head : exists hd, disk r !! Z.to_nat st = Some hd /\ length hd = 512%nat /\ head_n hd = 0;
  tx_super : super_ok (disk r) st z;
  tx_super_home : home st z (Z.of_nat (length (disk r))) 1 /\ 1 ∉ B }.

Lemma clean_content pd r m : bio_ok pd r [] -> ~ dirty_block r m -> content r m = disk r !! Z.to_nat m.
Proof. intros Hok Hcl. apply (content_clean pd r []); [done|done|by intros ? ? ?%not_elem_of_nil]. Qed.

Definition new_data (r : fs) (B : list Z) : list (list Z) := (fun b => default [] (content r b)) <$> B.

Lemma new_data_lookup pd r st z B t b v :
  transaction pd r st z B -> B !! t = Some b -> new_data r B !! t = Some v -> content r b = Some v.
Proof.
  intros Htx Hb. unfold new_data. rewrite list_lookup_fmap, Hb. simpl. intros [= <-].
  destruct (proj2 (tx_dirty _ _ _ _ _ Htx b)) as (i & x & Hx & [Hd <-]%caches_true & Hdx);
    [by eapply list_elem_of_lookup_2|].
  pose proof (bo_free _ _ _ (tx_bio _ _ _ _ _ Htx) i x (not_elem_of_nil i) Hx) as Hf.
  destruct (fb_dirty _ _ Hf Hdx) as [_ Hv].
  by rewrite (content_cached pd r [] i x (tx_bio _ _ _ _ _ Htx) Hx Hd Hv).
Qed.

Lemma after_content pd r st z B m :
  transaction pd r st z B -> home st z (Z.of_nat (length (disk r))) m ->
  after (disk r) B (new_data r B) m = content r m.
Proof.
  intros Htx Hm. unfold after. destruct (list_find _ B) as [[t b]|] eqn:E.
  - apply list_find_Some in E as (Ht & -> & _).
    destruct (lookup_lt_is_Some_2 (new_data r B) t) as [v Hv].
    { unfold new_data. rewrite length_fmap. by eapply lookup_lt_Some. }
    rewrite Hv. symmetry. by apply (new_data_lookup pd r st z B t).
  - symmetry. apply (clean_content pd); [apply Htx|]. rewrite (tx_dirty _ _ _ _ _ Htx).
    apply list_find_None in E. rewrite Forall_forall in E. intros Hin. by apply (E m).
Qed.

(** What the commit of a transaction leaves, when the machine runs on and when it
    stops after some of the disk writes. *)
Record commits (cur : nat) (pd : Z) (fuel : nat) (swtch : MF unit) (st z : Z) (B : list Z) (r r' : fs) : Prop := Commits {
  cm_bio : bio_ok pd r' [];
  cm_clean m : ~ dirty_block r' m;
  cm_home m : home st z (Z.of_nat (length (disk r))) m -> content r' m = content r m;
  cm_head : exists hd, disk r' !! Z.to_nat st = Some hd /\ length hd = 512%nat /\ head_n hd = 0;
  cm_writes : exists W, writes r' = writes r ++ W /\ length W = (2 * length B + 2)%nat /\
    disk r' = apply_writes W (disk r) /\
    forall k, wpx (Some cur) pd [] (fs0 (apply_writes (take k W) (disk r)))
      (binit;; initlog fuel swtch ROOTDEV) (fun _ _ r2 => forall m, home st z (Z.of_nat (length (disk r))) m ->
         disk r2 !! Z.to_nat m = if (k <=? length B)%nat then disk r !! Z.to_nat m else content r m) }.

Lemma cm_disk cur pd fuel swtch st z B r r' m :
  commits cur pd fuel swtch st z B r r' -> home st z (Z.of_nat (length (disk r))) m ->
  disk r' !! Z.to_nat m = content r m.
Proof. intros Hc Hm. rewrite <- (clean_content pd r' m (cm_bio _ _ _ _ _ _ _ _ _ Hc)); [by apply Hc|apply Hc]. Qed.

Lemma wpf_commit_tx cur pd fuel swtch r st z B :
  transaction pd r st z B -> (0 < fuel)%nat ->
  wpx (Some cur) pd [] r (commit fuel swtch) (fun _ H' r' => H' = [] /\ commits cur pd fuel swtch st z B r r' /\
    log r' = set_lh (MkHeader 0 (lh_block (l_lh (log r)))) (log r)).
Proof.
  intros Htx Hfuel. pose proof Htx as [Hok Hlg Hly HB Hdi Hn (hd & Hhd & Hlen & H0) Hsup [Hone HoneB]].
  destruct (layout_start _ _ _ _ Hly) as (Hst & HstB & _).
  assert (length (new_data r B) = length B) as HV by (unfold new_data; by rewrite length_fmap).
  eapply wpx_mono.
  { eapply (wpf_commit cur pd fuel swtch Hfuel r st z B (new_data r B) hd); try done.
    - rewrite <- Hhd. apply (clean_content pd); [done|]. by rewrite Hdi.
    - intros t b v Hb Hv. by apply (new_data_lookup pd r st z B t b v Htx). }
  intros _ ? r' (-> & Hok' & Hcl' & Hw & Hd & Hl & Hc). split; [done|]. split; [constructor; [done|done| | |]|done].
  - intros m [Hm Hout]. apply Hc; [lia|done].
  - rewrite Hd. unfold commit_writes, apply_writes. rewrite !app_assoc, foldl_app.
    cbn [foldl fst snd]. assert (length (enc_head B hd) = 512%nat) as HeB by (apply length_enc_head; [done|apply Hly]).
    eexists. split; [apply list_lookup_insert_eq; setoid_rewrite apply_length; apply lookup_lt_Some in Hhd; done|].
    split; [apply length_enc_head; [done|simpl; lia]|]. apply (head_n_enc [] (enc_head B hd)); [done|simpl; lia].
  - eexists. split; [exact Hw|]. split_and!; [|exact Hd|].
    { unfold commit_writes. rewrite !length_app, !length_zip_with. unfold log_blocks.
      rewrite length_fmap, length_seq. cbn [length]. lia. }
    intros k. pose proof (crash_points (disk r) st z B (new_data r B) hd Hly HV Hhd Hlen H0 k)
      as (Hl' & (hd' & Hhd' & Hhn & Hly') & Hsame & Hrec).
    eapply wpx_mono.
    { apply (wpf_boot cur pd fuel swtch Hfuel _ st z hd'); [|done|done|by rewrite Hl'].
      destruct Hsup as (sb & Hsb & ?). exists sb. split; [|done]. rewrite <- Hsb. by apply (Hsame 1). }
    intros _ ? r2 (-> & _ & Hd2) m Hm. rewrite Hd2, (Hrec m Hm).
    destruct (k <=? length B)%nat; [done|]. by apply (after_content pd r st z).
Qed.

(** C4: committing a transaction returns with every home block on the disk as
    the cache has it, and after any number [k] of the disk writes it makes, a
    machine that stops and boots again recovers every home block as it was
    before the commit, or, once the header has been written, every one as the
    transaction left it. *)
Theorem crash_safe cur pd fuel swtch r st z B :
  transaction pd r st z B -> (0 < fuel)%nat ->
  let size := Z.of_nat (length (disk r)) in
  wpx (Some cur) pd [] r (commit fuel swtch) (fun _ H' r' => H' = [] /\ bio_ok pd r' [] /\
    (forall m, home st z size m -> disk r' !! Z.to_nat m = content r m /\ content r' m = content r m) /\
    exists W, writes r' = writes r ++ W /\ length W = (2 * length B + 2)%nat /\
      disk r' = apply_writes W (disk r) /\
      forall k, wpx (Some cur) pd [] (fs0 (apply_writes (take k W) (disk r)))
        (binit;; initlog fuel swtch ROOTDEV) (fun _ _ r2 => forall m, home st z size m ->
           disk r2 !! Z.to_nat m = if (k <=? length B)%nat then disk r !! Z.to_nat m else content r m)).
Proof.
  intros Htx Hfuel size. eapply wpx_mono; [by apply (wpf_commit_tx cur pd fuel swtch r st z B)|].
  intros _ ? r' (-> & Hc & _). split_and!; [done|apply Hc| |apply Hc].
  intros m Hm. split; [by apply (cm_disk _ _ _ _ _ _ _ _ _ _ Hc)|by apply Hc].
Qed.

(** A disk of 40 blocks with its log in blocks 2 to 31, and a transaction that
    changes block 33. *)
Definition zero_block : list Z := replicate 512 0.
Definition ex_disk : list (list Z) :=
  zero_block :: put32 (put32 zero_block 12 30) 16 2 :: replicate 38 zero_block.
Definition ex_tx : fs :=
  MkFs (MkBuf 6 1 33 (MkSleep 0 0) 0 (replicate 512 1) :: replicate 29 buf0) (seq 0 NBUF) ex_disk []
    (MkLog 2 30 0 true 1 (MkHeader 1 (33 :: replicate 29 0))).

Lemma ex_tx_buf i b : bufs ex_tx !! i = Some b ->
  (i = 0%nat /\ b = MkBuf 6 1 33 (MkSleep 0 0) 0 (replicate 512 1)) \/ b = buf0.
Proof.
  destruct i as [|i]; cbn [bufs ex_tx lookup list_lookup]; [intros [= <-]; by left|].
  intros [-> _]%lookup_replicate. by right.
Qed.

Lemma ex_tx_ok : transaction 7 ex_tx 2 30 [33].
Proof.
  constructor.
  - constructor; [done|done| | | | |constructor].
    + intros i j b b' Hi Hj. destruct (ex_tx_buf i b Hi) as [[-> ->]| ->], (ex_tx_buf j b' Hj) as [[-> ->]| ->];
        intros Hd Hd'; done.
    + intros i b Hi. destruct (ex_tx_buf i b Hi) as [[-> ->]| ->]; [|done]. intros _.
      change (0 <= 33 < 40). lia.
    + intros i Hi. by apply not_elem_of_nil in Hi.
    + intros i b _ Hi. destruct (ex_tx_buf i b Hi) as [[-> ->]| ->]; by constructor.
  - by constructor.
  - change (Z.of_nat (length (disk ex_tx))) with 40. constructor; try (simpl; lia).
    + simpl length. unfold LOGSIZE. lia.
    + intros b ->%list_elem_of_singleton. lia.
    + apply NoDup_singleton.
  - done.
  - intros b. rewrite list_elem_of_singleton. split.
    + intros (i & x & Hx & [_ Hc]%caches_true & Hd). destruct (ex_tx_buf i x Hx) as [[-> ->]| ->]; done.
    + intros ->. eexists 0%nat, _. split; [reflexivity|]. done.
  - reflexivity.
  - exists zero_block. split_and!; reflexivity.
  - eexists. split; [reflexivity|]. split; vm_compute; reflexivity.
  - change (Z.of_nat (length (disk ex_tx))) with 40. split; [unfold home; lia|].
    by intros ?%list_elem_of_singleton.
Qed.

Lemma crash_safe_witness :
  wp (commit 1 leave) (fun _ s' => disk (x_rest s') !! 33%nat = Some (replicate 512 1)) (ex_running ex_tx).
Proof.
  pose proof (crash_safe 0 7 1 leave ex_tx 2 30 [33] ex_tx_ok (Nat.lt_0_succ 0)
    (ex_running ex_tx) (ex_running_world ex_tx) eq_refl) as H.
  eapply wp_mono; [exact H|]. intros _ s' (H' & _ & _ & _ & Hd & _).
  assert (home 2 30 40 33) as Hh by (unfold home; lia). exact (proj1 (Hd 33 Hh)).
Defined.
