(* ===== verification/Xv6Reserve.v ===== *)
(** * Space in the xv6 log (lab2/log.c)

    [begin_op], [log_write] and [end_op]: the reservation that [begin_op] makes
    for each system call keeps every [log_write] within the log when the log has
    a block more than [LOGSIZE]; with the log mkfs.c lays out it does not. *)

From S2P Require Import Prelude CMem Xv6Lock Xv6Proc Xv6World Xv6Bio Xv6Log Xv6Crash.
From stdpp Require Import base numbers option list gmap strings.
Open Scope Z_scope.

(** ** The search of [log_write] *)

Lemma find_logged_le l n k : (find_logged l n k <= k)%nat.
Proof.
  revert l. induction k as [|k IH]; intros l; simpl; [lia|]. destruct l as [|x l]; simpl; [lia|].
  destruct (u32 x =? n); [lia|]. specialize (IH l). lia.
Qed.

Lemma find_logged_hit l n k :
  (find_logged l n k < k)%nat -> (k <= length l)%nat ->
  exists x, l !! find_logged l n k = Some x /\ u32 x = n.
Proof.
  revert l. induction k as [|k IH]; intros l Hlt Hk; simpl in *; [lia|]. destruct l as [|x l]; simpl in *; [lia|].
  destruct (Z.eqb_spec (u32 x) n) as [E|_]; [by exists x|]. apply IH; lia.
Qed.

Lemma find_logged_miss l n k x :
  find_logged l n k = k -> x ∈ take k l -> u32 x <> n.
Proof.
  revert l. induction k as [|k IH]; intros l Hk Hx; simpl in *; [by apply not_elem_of_nil in Hx|].
  destruct l as [|y l]; simpl in *; [by apply not_elem_of_nil in Hx|]. destruct (Z.eqb_spec (u32 y) n) as [|Hne]; [done|].
  apply elem_of_cons in Hx as [->|Hx]; [done|]. apply (IH l); [lia|done].
Qed.

(** ** The reservation *)

(** Blocks the active system calls, which have logged [ws] blocks so far, may
    still log. *)
Definition left_over (ws : list Z) : Z := foldr (fun w a => MAXOPBLOCKS - w + a) 0 ws.

(** The log of [r] while the system calls of [ws] are active. *)
Record reserved (g : logst) (ws : list Z) : Prop := Reserved {
  rs_active : l_outstanding g = Z.of_nat (length ws);
  rs_few : Z.of_nat (length ws) * MAXOPBLOCKS <= Z.of_nat LOGSIZE;
  rs_idle : l_committing g = false;
  rs_len : length (lh_block (l_lh g)) = LOGSIZE;
  rs_n : 0 <= lh_n (l_lh g);
  rs_count w : w ∈ ws -> 0 <= w <= MAXOPBLOCKS;
  rs_space : lh_n (l_lh g) + left_over ws <= Z.of_nat LOGSIZE }.

Lemma left_over_nonneg ws : (forall w, w ∈ ws -> 0 <= w <= MAXOPBLOCKS) -> 0 <= left_over ws.
Proof.
  induction ws as [|w ws IH]; intros Hw; simpl; [lia|].
  pose proof (Hw w ltac:(left)). assert (0 <= left_over ws) by (apply IH; intros x Hx; apply Hw; by right). lia.
Qed.

Lemma left_over_app ws vs : left_over (ws ++ vs) = left_over ws + left_over vs.
Proof. induction ws as [|w ws IH]; simpl; lia. Qed.

Lemma left_over_insert ws j w v :
  ws !! j = Some w -> left_over (<[j := v]> ws) = left_over ws + w - v.
Proof. revert j. induction ws as [|x ws IH]; intros [|j] H; simplify_eq/=; [lia|]. rewrite (IH j) by done. lia. Qed.

Lemma left_over_delete ws j w :
  ws !! j = Some w -> left_over (delete j ws) = left_over ws - (MAXOPBLOCKS - w).
Proof. revert j. induction ws as [|x ws IH]; intros [|j] H; simplify_eq/=; [lia|]. rewrite (IH j) by done. lia. Qed.

Lemma elem_of_delete {A} (l : list A) j x : x ∈ delete j l -> x ∈ l.
Proof.
  revert j. induction l as [|y l IH]; intros [|j]; simpl; [done|done| |].
  - by right.
  - intros [->|H]%elem_of_cons; [left|right; eauto].
Qed.

Lemma left_over_lookup ws j w :
  (forall x, x ∈ ws -> 0 <= x <= MAXOPBLOCKS) -> ws !! j = Some w -> MAXOPBLOCKS - w <= left_over ws.
Proof.
  intros Hw Hj. pose proof (left_over_delete ws j w Hj) as E.
  assert (0 <= left_over (delete j ws)); [|lia]. apply left_over_nonneg. intros x Hx. apply Hw.
  by eapply elem_of_delete.
Qed.

Section ops.
Context (cur : nat) (pd : Z) (fuel : nat) (swtch : MF unit).
Notation wpf := (wpx (R := fs) (Some cur) pd).

(** The state [log_write] leaves. *)
Definition log_written (r : fs) (i : nat) (b : buf) : fs :=
  let h := l_lh (log r) in
  let k := find_logged (lh_block h) (blockno b) (Z.to_nat (lh_n h)) in
  let n := if Z.of_nat k =? lh_n h then lh_n h + 1 else lh_n h in
  with_log (set_lh (MkHeader n (<[k := i32 (blockno b)]> (lh_block h))) (log r))
    (setb i (set_flags (Z.lor (flags b) B_DIRTY) b) r).

Lemma wpf_log_write r i b :
  bufs r !! i = Some b -> length (lh_block (l_lh (log r))) = LOGSIZE -> 0 <= lh_n (l_lh (log r)) ->
  lh_n (l_lh (log r)) < Z.of_nat LOGSIZE -> lh_n (l_lh (log r)) < l_size (log r) - 1 ->
  1 <= l_outstanding (log r) ->
  wpf [] r (log_write i) (fun _ H' r' => H' = [] /\ r' = log_written r i b).
Proof.
  intros Hi Hl H0 Hn Hz Ho. unfold log_write. wx (wpf_lgets cur pd id) as (-> & -> & ->). unfold id.
  destruct (Z.leb_spec (Z.of_nat LOGSIZE) (lh_n (l_lh (log r)))); [lia|].
  destruct (Z.leb_spec (l_size (log r) - 1) (lh_n (l_lh (log r)))); [lia|]. cbn [orb].
  destruct (Z.ltb_spec (l_outstanding (log r)) 1); [lia|].
  wx wpx_acquire as [-> ->]; [set_solver|]. wx wpf_buf_get as (-> & -> & ->); [done|].
  wx wpf_lgets as (-> & -> & ->). cbv zeta.
  set (k := find_logged _ _ _). pose proof (find_logged_le (lh_block (l_lh (log r))) (blockno b)
    (Z.to_nat (lh_n (l_lh (log r))))) as Hk. fold k in Hk.
  wx wpf_block_set as [-> ->]; [lia|].
  apply (wpx_bind _ _ _ _ _ _ (fun _ H' r' => H' = [log_lock] /\ r' = with_log (set_lh
    (MkHeader (if Z.of_nat k =? lh_n (l_lh (log r)) then lh_n (l_lh (log r)) + 1 else lh_n (l_lh (log r)))
       (<[k := i32 (blockno b)]> (lh_block (l_lh (log r))))) (log r)) r)).
  { destruct (Z.of_nat k =? lh_n (l_lh (log r))); [|by apply wpx_ret].
    eapply wpx_mono; [apply wpf_lmod|]. intros _ ? ? [-> ->]. by split. }
  intros _ ? ? [-> ->]. wx wpf_buf_upd as [-> ->]; [done|]. by apply wpx_release.
Qed.

(** One more block is logged, or none when it was there. *)
Lemma reserved_log_write r i b ws j w :
  reserved (log r) ws -> ws !! j = Some w -> w < MAXOPBLOCKS ->
  reserved (log (log_written r i b)) (<[j := w + 1]> ws).
Proof.
  intros [Ha Hfew Hc Hl Hn Hcnt Hsp] Hj Hw. pose proof (left_over_lookup ws j w Hcnt Hj).
  constructor; cbn [log_written log with_log set_lh l_outstanding l_committing l_lh lh_n lh_block].
  - by rewrite length_insert.
  - by rewrite length_insert.
  - done.
  - by rewrite length_insert.
  - destruct (_ =? _); lia.
  - intros x (k & Hk)%list_elem_of_lookup. destruct (decide (j = k)) as [<-|Hne].
    + rewrite list_lookup_insert_eq in Hk by (by eapply lookup_lt_Some). injection Hk as <-.
      pose proof (Hcnt w ltac:(by eapply list_elem_of_lookup_2)). lia.
    + rewrite list_lookup_insert_ne in Hk by done. apply Hcnt. by eapply list_elem_of_lookup_2.
  - rewrite (left_over_insert ws j w) by done. destruct (_ =? _); lia.
Qed.

(** The block is in the log afterwards. *)
Lemma log_written_block r i b :
  length (lh_block (l_lh (log r))) = LOGSIZE -> 0 <= lh_n (l_lh (log r)) < Z.of_nat LOGSIZE ->
  0 <= blockno b < 2 ^ 31 ->
  let h := l_lh (log (log_written r i b)) in blockno b ∈ take (Z.to_nat (lh_n h)) (lh_block h).
Proof.
  intros Hl Hn Hb h. subst h. cbn [log_written log with_log set_lh l_lh lh_n lh_block].
  set (k := find_logged _ _ _). pose proof (find_logged_le (lh_block (l_lh (log r))) (blockno b)
    (Z.to_nat (lh_n (l_lh (log r))))) as Hk. fold k in Hk.
  apply list_elem_of_lookup. exists k. apply lookup_take_Some. split.
  - rewrite list_lookup_insert_eq by lia. by rewrite i32_small by lia.
  - destruct (Z.eqb_spec (Z.of_nat k) (lh_n (l_lh (log r)))); lia.
Qed.

Lemma wpf_begin_op r n :
  l_committing (log r) = false -> 0 <= lh_n (l_lh (log r)) -> 0 <= l_outstanding (log r) ->
  lh_n (l_lh (log r)) + (l_outstanding (log r) + 1) * MAXOPBLOCKS <= Z.of_nat LOGSIZE ->
  wpf [] r (begin_op swtch (S n)) (fun _ H' r' => H' = [] /\
    r' = with_log (set_outstanding (l_outstanding (log r) + 1) (log r)) r).
Proof.
  intros Hc H0 Ho Hs. unfold begin_op. wx wpx_acquire as [-> ->]; [set_solver|]. cbn [begin_loop].
  wx (wpf_lgets cur pd id) as (-> & -> & ->). unfold id. rewrite Hc.
  unfold MAXOPBLOCKS, LOGSIZE in *. simpl in Hs. rewrite !i32_small by lia.
  destruct (Z.ltb_spec (Z.of_nat 30) (lh_n (l_lh (log r)) + (l_outstanding (log r) + 1) * 10)); [lia|].
  wx wpf_lmod as [-> ->]. by apply wpx_release.
Qed.

(** An [end_op] that is not the last one. *)
Lemma wpf_end_op_more r :
  l_committing (log r) = false -> 2 <= l_outstanding (log r) < 2 ^ 31 ->
  wpf [] r (end_op fuel swtch) (fun _ H' r' => H' = [] /\
    r' = with_log (set_outstanding (l_outstanding (log r) - 1) (log r)) r).
Proof.
  intros Hc Ho. unfold end_op. wx wpx_acquire as [-> ->]; [set_solver|].
  wx wpf_lgets as (-> & -> & ->). wx wpf_lmod as [-> ->]. wx (wpf_lgets cur pd id) as (-> & -> & ->).
  unfold id. cbn [log with_log set_outstanding l_committing l_outstanding]. rewrite Hc.
  rewrite i32_small by lia. destruct (Z.eqb_spec (l_outstanding (log r) - 1) 0); [lia|].
  apply (wpx_bind _ _ _ _ _ _ (fun (a : bool) H' r' => a = false /\ H' = [log_lock] /\
    r' = with_log (set_outstanding (l_outstanding (log r) - 1) (log r)) r)).
  { wx wpx_wakeup as [-> ->]; [set_solver|]. by apply wpx_ret. }
  intros ? ? ? (-> & -> & ->). wx wpx_release as [-> ->]; [done|]. by apply wpx_ret.
Qed.

Lemma transaction_log r g st z B :
  l_dev g = l_dev (log r) -> l_start g = l_start (log r) -> l_lh g = l_lh (log r) ->
  transaction pd r st z B -> transaction pd (with_log g r) st z B.
Proof.
  intros E1 E2 E3 [Hb [? ? ? ?] ? ? ? ? ? ? ?]. constructor; try done; [by apply bio_ok_log|].
  constructor; cbn [log with_log]; rewrite ?E1, ?E2, ?E3; done.
Qed.

(** The last [end_op] of a transaction commits it. *)
Lemma wpf_end_op_last r st z B :
  (0 < fuel)%nat -> transaction pd r st z B -> l_committing (log r) = false -> l_outstanding (log r) = 1 ->
  wpf [] r (end_op fuel swtch) (fun _ H' r' => H' = [] /\ commits cur pd fuel swtch st z B r r' /\
    log r' = set_committing false (set_outstanding 0 (set_lh (MkHeader 0 (lh_block (l_lh (log r)))) (log r)))).
Proof.
  intros Hfuel Htx Hc Ho. unfold end_op. wx wpx_acquire as [-> ->]; [set_solver|].
  wx wpf_lgets as (-> & -> & ->). wx wpf_lmod as [-> ->]. wx (wpf_lgets cur pd id) as (-> & -> & ->).
  unfold id. cbn [log with_log set_outstanding l_committing l_outstanding]. rewrite Hc, Ho.
  change (i32 (1 - 1)) with 0. change (0 =? 0) with true. cbv iota.
  set (g := set_committing true (set_outstanding 0 (log r))).
  apply (wpx_bind _ _ _ _ _ _ (fun (a : bool) H' r' => a = true /\ H' = [log_lock] /\ r' = with_log g r)).
  { wx wpf_lmod as [-> ->]. by apply wpx_ret. }
  intros ? ? ? (-> & -> & ->). wx wpx_release as [-> ->]; [done|].
  assert (transaction pd (with_log g r) st z B) as Htx' by (by apply transaction_log).
  wx (wpf_commit_tx cur pd fuel swtch (with_log g r) st z B) as (-> & [H1 H2 H3 H4 H5] & Hl'); [done|done|].
  wx wpx_acquire as [-> ->]; [set_solver|]. wx wpf_lmod as [-> ->].
  wx wpx_wakeup as [-> ->]; [set_solver|]. eapply wpx_mono; [by eapply wpx_release|].
  intros _ ? ? [-> ->]. split; [done|]. split; [|cbn [log with_log]; by rewrite Hl'].
  constructor; [by apply bio_ok_log|done..].
Qed.
End ops.


(** The log mkfs.c lays out has [LOGSIZE] blocks, the header among them, so
    it holds one block less than [begin_op] reserves: an active system call
    within its [MAXOPBLOCKS] panics the kernel on the thirtieth block. *)
Theorem log_overflow s ws j w i :
  reserved (log (x_rest s)) ws -> ws !! j = Some w -> w < MAXOPBLOCKS ->
  l_size (log (x_rest s)) = Z.of_nat LOGSIZE -> lh_n (l_lh (log (x_rest s))) = Z.of_nat LOGSIZE - 1 ->
  log_write i s = Panic "too big a transaction" s.
Proof.
  intros Hres Hj Hw Hz Hn. unfold log_write, mbind, M_bind, lgets, fgets, gets, id.
  rewrite Hz, Hn. destruct (Z.leb_spec (Z.of_nat LOGSIZE) (Z.of_nat LOGSIZE - 1)); [lia|].
  destruct (Z.leb_spec (Z.of_nat LOGSIZE - 1) (Z.of_nat LOGSIZE - 1)); [done|lia].
Qed.

(** One call that logs its first block, in a log with a spare block; three calls
    that logged ten, ten and nine blocks, in the log mkfs.c lays out. *)
Definition ex_log (z n out : Z) : logst :=
  MkLog 2 z out false 1 (MkHeader n (replicate LOGSIZE 5)).
Definition ex_open (z n out : Z) : fs := cache0 [replicate 512 0; replicate 512 1] (ex_log z n out).


Lemma log_overflow_witness :
  log_write 0 (ex_running (ex_open 30 29 3)) = Panic "too big a transaction" (ex_running (ex_open 30 29 3)).
Proof.
  assert (reserved (log (ex_open 30 29 3)) [10; 10; 9]) as Hres.
  { constructor; try done. unfold MAXOPBLOCKS. intros w Hw. repeat (apply elem_of_cons in Hw as [->|Hw]; [lia|]).
    by apply not_elem_of_nil in Hw. }
  exact (log_overflow (ex_running (ex_open 30 29 3)) [10; 10; 9] 2 9 0 Hres eq_refl eq_refl eq_refl eq_refl).
Defined.
