(* ===== verification/Xv6Txn.v ===== *)
(** * Block contents inside a transaction (lab2/bio.c, log.c)

    What a system call between [begin_op] and [end_op] knows of the block layer:
    the contents of the blocks, the blocks it has logged and the buffers it
    holds.  [bread], a store followed by [log_write], and [brelse] are stated
    over these; at the end they make the transaction that [end_op] commits. *)

From S2P Require Import Prelude CMem Xv6Lock Xv6Proc Xv6World Xv6Bio Xv6Log Xv6Crash Xv6Reserve.
From stdpp Require Import base numbers option list gmap strings.
Open Scope Z_scope.

(** The log of a transaction after a [log_write] of block [n]. *)
Definition add_block (n : Z) (S : list Z) : list Z := if decide (n ∈ S) then S else S ++ [n].

Lemma add_block_elem n S m : m ∈ add_block n S <-> m ∈ S \/ m = n.
Proof. unfold add_block. case_decide; set_solver. Qed.

Lemma add_block_nodup n S : NoDup S -> NoDup (add_block n S).
Proof.
  intros Hnd. unfold add_block. case_decide; [done|]. apply NoDup_app. split_and!; [done|set_solver|].
  apply NoDup_singleton.
Qed.

Lemma add_block_length n S : (length S <= length (add_block n S) <= length S + 1)%nat.
Proof. unfold add_block. case_decide; rewrite ?length_app; simpl; lia. Qed.

Lemma add_block_in n S : n ∈ S -> add_block n S = S.
Proof. unfold add_block. by case_decide. Qed.

(** No write reaches the disk, and no transaction begins or ends. *)
Definition quiet (r r' : fs) : Prop :=
  disk r' = disk r /\ writes r' = writes r /\ l_outstanding (log r') = l_outstanding (log r).

Section txn.
Context (pd st z : Z).

(** The buffers [L] are held, each with the block it caches; the blocks have the
    contents [C]; the transaction has logged the blocks [S]. *)
Record intx (r : fs) (L : list (nat * Z)) (C : gmap Z (list Z)) (S : list Z) : Prop := InTx {
  ix_bio : bio_ok pd r L.*1;
  ix_logged : logged r st S;
  ix_len : length (lh_block (l_lh (log r))) = LOGSIZE;
  ix_size : l_size (log r) = z;
  ix_idle : l_committing (log r) = false;
  ix_open : 1 <= l_outstanding (log r);
  ix_layout : layout (Z.of_nat (length (disk r))) st z S;
  ix_view n d : C !! n = Some d <-> 0 <= n /\ content r n = Some d;
  ix_dirty n : dirty_block r n <-> n ∈ S;
  ix_ndirty : ndirty r = Z.of_nat (length S);
  ix_held i n : (i, n) ∈ L -> exists b, bufs r !! i = Some b /\ blockno b = n /\ settled r b;
  ix_head : exists hd, disk r !! Z.to_nat st = Some hd /\ length hd = 512%nat /\ head_n hd = 0;
  ix_super : super_ok (disk r) st z;
  ix_super_home : home st z (Z.of_nat (length (disk r))) 1 /\ 1 ∉ S }.

Lemma intx_content r L C S n d : intx r L C S -> C !! n = Some d -> content r n = Some d.
Proof. intros Hx Hn. by apply (ix_view _ _ _ _ Hx). Qed.

Lemma content_range r L n d : bio_ok pd r L -> 0 <= n -> content r n = Some d -> 0 <= n < Z.of_nat (length (disk r)).
Proof.
  intros Hok H0 Hc. destruct (content_cases r n) as [(i & b & Hi & Hcb & _ & _)|[E _]].
  - apply caches_true in Hcb as [Hd <-]. by apply (bo_range _ _ _ Hok i b).
  - rewrite Hc in E. symmetry in E. apply lookup_lt_Some in E. lia.
Qed.

Lemma intx_range r L C S n d : intx r L C S -> C !! n = Some d -> 0 <= n < Z.of_nat (length (disk r)).
Proof.
  intros Hx [H0 Hc]%(ix_view _ _ _ _ Hx). by eapply content_range; [apply Hx|..].
Qed.

(** A held buffer has the contents of its block. *)
Lemma intx_buf r L C S i n :
  intx r L C S -> (i, n) ∈ L ->
  exists b, bufs r !! i = Some b /\ blockno b = n /\ held_buf pd b /\ settled r b /\ C !! n = Some (data b).
Proof.
  intros Hx HiL. destruct (ix_held _ _ _ _ Hx i n HiL) as (b & Hi & Hb & Hs).
  assert (i ∈ L.*1) as HiL1 by (by apply (list_elem_of_fmap_2 fst _ _ HiL)).
  pose proof (held_of pd r _ i b (ix_bio _ _ _ _ Hx) HiL1 Hi) as Hh. exists b. split_and!; try done.
  apply (ix_view _ _ _ _ Hx). subst n.
  pose proof (bo_range _ _ _ (ix_bio _ _ _ _ Hx) i b Hi (hb_dev _ _ Hh)). split; [lia|].
  eapply content_cached; [apply Hx|done|apply Hh|apply Hh].
Qed.

(** A buffer is dirty when its block is in the log. *)
Lemma intx_dirty r L C S i n b :
  intx r L C S -> bufs r !! i = Some b -> dev b = 1 -> blockno b = n -> dirty b = true <-> n ∈ S.
Proof.
  intros Hx Hi Hd Hb. rewrite <- (ix_dirty _ _ _ _ Hx n). split.
  - intros Hdi. exists i, b. split_and!; [done|by apply caches_true|done].
  - intros (j & b' & Hj & [Hd' Hb']%caches_true & Hdi).
    assert (i = j) as -> by (eapply (bo_uniq _ _ _ (ix_bio _ _ _ _ Hx)); [done|done|done|done|congruence]).
    congruence.
Qed.

Lemma intx_view_eq r r' L L' C S :
  intx r L C S -> view_eq r r' -> bio_ok pd r' L'.*1 ->
  (forall i n, (i, n) ∈ L' -> exists b, bufs r' !! i = Some b /\ blockno b = n /\ settled r' b) ->
  intx r' L' C S.
Proof.
  intros [Hb [? ? ? ?] ? ? ? ? ? Hv Hd ? ? ? ? ?] [Ed _ El Ec Edi En] Hok Hh.
  constructor; rewrite ?El, ?Ed, ?En; try done.
  - by constructor; rewrite El.
  - intros n d. by rewrite Ec.
  - intros n. by rewrite Edi.
Qed.

(** With no buffer held, the transaction is ready to commit. *)
Lemma intx_transaction r C S :
  intx r [] C S -> S <> [] -> (length S < NBUF)%nat -> transaction pd r st z S.
Proof.
  intros Hx HS Hn. constructor; try apply Hx; [done|]. rewrite (ix_ndirty _ _ _ _ Hx). lia.
Qed.

Section rules.
Context (cur : nat).
Notation wpf := (wpx (R := fs) (Some cur) pd).

Lemma wpf_tx_bread fuel swtch r L C S n d :
  (0 < fuel)%nat -> intx r L C S -> C !! n = Some d -> n ∉ L.*2 -> (length L + length S < NBUF)%nat ->
  wpf [] r (bread fuel swtch 1 n) (fun i H' r' => H' = [] /\ intx r' ((i, n) :: L) C S /\
    quiet r r').
Proof.
  intros Hfuel Hx Hn HnL Hroom. pose proof (ix_bio _ _ _ _ Hx) as Hok.
  assert (not_held r L.*1 n) as Hnh.
  { intros i b ([j m] & -> & Hi)%list_elem_of_fmap Hb E. simpl in *.
    destruct (ix_held _ _ _ _ Hx j m Hi) as (b' & Hb' & Hm & _).
    apply HnL. apply list_elem_of_fmap. exists (j, m). split; [|done]. simpl. congruence. }
  eapply wpx_mono; [apply (wpf_bread cur pd fuel swtch r L.*1 n Hfuel Hok Hnh)|].
  - right. rewrite length_fmap, (ix_ndirty _ _ _ _ Hx). lia.
  - by eapply intx_range.
  - intros i H' r' [-> [Hi Hok' Hve Hoth (b & Hb & Hh & Hbn & Hc)]]. split; [done|]. split; [|split_and!; [apply Hve..|by rewrite (ve_log _ _ Hve)]].
    eapply intx_view_eq; [done|done|done|]. intros j m [[= -> ->]|Hj]%elem_of_cons.
    + exists b. split_and!; [done|done|]. unfold settled. destruct (dirty b) eqn:Ed; [by left|right].
      rewrite <- Hc, Hbn, (ve_disk _ _ Hve). symmetry. apply (content_clean pd r L.*1); [done| |done].
      rewrite <- (ve_dirty _ _ Hve). intros (k & b' & Hk & [Hd' Hb']%caches_true & Hdi).
      assert (i = k) as -> by (eapply (bo_uniq _ _ _ Hok'); [done|done|apply Hh|done|congruence]). congruence.
    + destruct (ix_held _ _ _ _ Hx j m Hj) as (b' & Hb' & Hm & Hs). exists b'. split_and!; [|done|].
      * rewrite Hoth; [done|]. intros ->. apply Hi. by apply (list_elem_of_fmap_2 fst _ _ Hj).
      * unfold settled. by rewrite (ve_disk _ _ Hve).
Qed.

Lemma wpf_tx_brelse r L L' C S i n :
  intx r L C S -> L ≡ₚ (i, n) :: L' ->
  wpf [] r (brelse i) (fun _ H' r' => H' = [] /\ intx r' L' C S /\ quiet r r').
Proof.
  intros Hx HP. destruct (ix_held _ _ _ _ Hx i n) as (b & Hb & Hbn & Hs); [rewrite HP; left|].
  assert (L.*1 ≡ₚ i :: L'.*1) as HP1 by (by rewrite HP).
  eapply wpx_mono; [by apply (wpf_brelse cur pd r i b L.*1 L'.*1); [apply Hx|..]|].
  intros _ H' r' (-> & Hok' & Hve & Hoth). split; [done|]. split; [|split_and!; [apply Hve..|by rewrite (ve_log _ _ Hve)]]. eapply intx_view_eq; [done|done|done|].
  intros j m Hj. destruct (ix_held _ _ _ _ Hx j m) as (b' & Hb' & Hm & Hs'); [rewrite HP; by right|].
  exists b'. split_and!; [|done|unfold settled; by rewrite (ve_disk _ _ Hve)].
  rewrite Hoth; [done|]. intros ->. pose proof (bo_nodup _ _ _ (ix_bio _ _ _ _ Hx)) as Hnd.
  rewrite HP1 in Hnd. apply NoDup_cons in Hnd as [Hni _]. apply Hni. by apply (list_elem_of_fmap_2 fst _ _ Hj).
Qed.

Lemma wpf_tx_get r L C S i n :
  intx r L C S -> (i, n) ∈ L ->
  wpf [] r (buf_get i) (fun b H' r' => H' = [] /\ r' = r /\ C !! n = Some (data b)).
Proof.
  intros Hx Hi. destruct (intx_buf r L C S i n Hx Hi) as (b & Hb & _ & _ & _ & HC).
  eapply wpx_mono; [by apply wpf_buf_get|]. by intros b' H' r' (-> & -> & ->).
Qed.

(** The search of [log_write] finds a block that is logged, and only one. *)
Lemma find_in_log r L C S n k :
  intx r L C S -> 0 <= n < Z.of_nat (length (disk r)) ->
  find_logged (lh_block (l_lh (log r))) n (length S) = k ->
  (k = length S /\ n ∉ S) \/ ((k < length S)%nat /\ S !! k = Some n).
Proof.
  intros Hx Hn <-. destruct (ix_logged _ _ _ _ Hx) as [_ _ _ H4].
  pose proof (ix_len _ _ _ _ Hx) as Hlen. pose proof (ly_max _ _ _ _ (ix_layout _ _ _ _ Hx)).
  pose proof (ly_end _ _ _ _ (ix_layout _ _ _ _ Hx)) as [_ Hsz].
  set (l := lh_block _) in *. pose proof (find_logged_le l n (length S)) as Hk.
  destruct (decide (find_logged l n (length S) = length S)) as [E|Hne]; [left; split; [done|]|right; split; [lia|]].
  - intros Hin. apply (find_logged_miss l n _ n E); [by rewrite H4|]. apply u32_small. lia.
  - destruct (find_logged_hit l n (length S) ltac:(lia) ltac:(lia)) as (x & Hxl & Hu).
    assert (take (length S) l !! find_logged l n (length S) = Some x) as Hxs by (by rewrite lookup_take_lt by lia).
    rewrite H4 in Hxs.
    pose proof (ly_home _ _ _ _ (ix_layout _ _ _ _ Hx) x (list_elem_of_lookup_2 _ _ _ Hxs)) as [? _].
    rewrite u32_small in Hu by lia. by subst x.
Qed.

(** The header after [log_write] of block [n]. *)
Lemma logged_write r i b C L S :
  intx r L C S -> 0 <= blockno b < Z.of_nat (length (disk r)) -> (length S < LOGSIZE)%nat ->
  logged (log_written r i b) st (add_block (blockno b) S).
Proof.
  intros Hx Hn Hlt. destruct (ix_logged _ _ _ _ Hx) as [H1 H2 H3 H4].
  pose proof (ix_len _ _ _ _ Hx) as Hlen. pose proof (ly_end _ _ _ _ (ix_layout _ _ _ _ Hx)) as [_ Hsz].
  constructor; cbn [log_written log with_log set_lh l_dev l_start l_lh lh_n lh_block]; try done.
  all: rewrite H3, Nat2Z.id; destruct (find_in_log r L C S (blockno b) _ Hx Hn eq_refl) as [[E Hni]|[Hk HS]].
  - rewrite E, Z.eqb_refl. unfold add_block. rewrite decide_False by done. rewrite length_app. simpl. lia.
  - rewrite add_block_in by (by eapply list_elem_of_lookup_2). destruct (Z.eqb_spec (Z.of_nat (find_logged
      (lh_block (l_lh (log r))) (blockno b) (length S))) (Z.of_nat (length S))); lia.
  - rewrite E. unfold add_block. rewrite decide_False by done. rewrite length_app, i32_small by lia.
    simpl length. rewrite Nat.add_1_r, (take_S_r _ _ (blockno b)) by (apply list_lookup_insert_eq; lia).
    by rewrite take_insert_ge, H4 by lia.
  - rewrite add_block_in by (by eapply list_elem_of_lookup_2). rewrite i32_small by lia.
    rewrite list_insert_id; [done|]. set (k := find_logged _ _ _) in *. clearbody k.
    rewrite <- H4 in HS. by rewrite lookup_take_lt in HS.
Qed.

Lemma layout_add r L C S n :
  intx r L C S -> home st z (Z.of_nat (length (disk r))) n -> (length S < LOGSIZE)%nat ->
  Z.of_nat (length S) < z - 1 -> layout (Z.of_nat (length (disk r))) st z (add_block n S).
Proof.
  intros Hx Hn Hlt Hz. destruct (ix_layout _ _ _ _ Hx) as [? ? ? ? Hh Hnd].
  pose proof (add_block_length n S). constructor; [done|done|lia|lia| |by apply add_block_nodup].
  by intros b [?| ->]%add_block_elem; [apply Hh|].
Qed.

(** A store into a held buffer, followed by [log_write]. *)
Lemma wpf_tx_write r L C S i n d f :
  intx r L C S -> (i, n) ∈ L -> C !! n = Some d -> home st z (Z.of_nat (length (disk r))) n -> n <> 1 ->
  (length S < LOGSIZE)%nat -> Z.of_nat (length S) < z - 1 ->
  wpf [] r (buf_upd i (fun b => set_data (f (data b)) b);; log_write i)
    (fun _ H' r' => H' = [] /\ intx r' L (<[n := f d]> C) (add_block n S) /\ quiet r r').
Proof.
  intros Hx HiL HC Hho H1 Hlt Hz. destruct (intx_buf r L C S i n Hx HiL) as (b & Hb & Hbn & Hh & _ & HC').
  assert (d = data b) as -> by congruence. clear HC'. destruct (ix_logged _ _ _ _ Hx) as [_ _ Hln _].
  wx wpf_buf_upd as [-> ->]; [done|]. set (b1 := set_data _ b).
  eapply wpx_mono; [apply (wpf_log_write cur pd _ i b1); cbn [log setb with_bufs]|].
  { by eapply setb_lookup. } { apply Hx. } { lia. } { lia. } { rewrite (ix_size _ _ _ _ Hx). lia. } { apply Hx. }
  intros _ H' r' [-> ->]. split; [done|]. split; [|done].
  set (b2 := set_flags (Z.lor (flags b1) B_DIRTY) b1).
  assert (log_written (setb i b1 r) i b1 = with_log (log (log_written r i b)) (setb i b2 r)) as ->.
  { unfold log_written. cbn [log setb with_bufs]. change (blockno b1) with (blockno b). f_equal.
    apply (setb_setb i b2 b1). }
  assert (held_buf pd b2) as Hh2.
  { destruct Hh. constructor; [done..|]. unfold valid. cbn [flags b2 set_flags b1 set_data]. by rewrite (proj2 (or_dirty _)). }
  assert (dirty b2 = true) as Hd2 by apply or_dirty.
  pose proof (setb_lookup i b2 b r Hb) as Hb2. pose proof (hb_dev _ _ Hh) as Hd.
  assert (i ∈ L.*1) as HiL1 by (by apply (list_elem_of_fmap_2 fst _ _ HiL)).
  pose proof (intx_dirty r L C S i n b Hx Hb Hd Hbn) as Hdn.
  constructor; cbn [log with_log disk setb with_bufs].
  - apply bio_ok_log. by apply (held_setb_ok pd r L.*1 i b b2); [apply Hx|..].
  - rewrite <- Hbn. destruct (logged_write r i b C L S Hx) as [? ? ? ?]; [rewrite Hbn; apply Hho|done|]. by constructor.
  - cbn. rewrite length_insert. apply Hx.
  - apply Hx.
  - apply Hx.
  - apply Hx.
  - by eapply layout_add.
  - intros m e. change (content (with_log ?g ?x) m) with (content x m).
    rewrite (held_setb_content pd r L.*1 i b b2 m (ix_bio _ _ _ _ Hx) HiL1 Hb Hh2 eq_refl).
    rewrite Hbn. case_decide as Hm; [subst m; rewrite lookup_insert_eq|rewrite lookup_insert_ne by done; apply Hx].
    destruct Hho as [? _]. split; [intros ?; split; [lia|done]|by intros [_ ?]].
  - intros m. change (dirty_block (with_log ?g ?x) m) with (dirty_block x m). rewrite add_block_elem. split.
    + intros (j & x & Hj & Hc & Hdx). destruct (decide (i = j)) as [<-|Hij].
      * rewrite Hb2 in Hj. injection Hj as <-. apply caches_true in Hc as [_ <-]. by right.
      * rewrite setb_lookup_ne in Hj by done. left. apply (ix_dirty _ _ _ _ Hx). by exists j, x.
    + intros [Hm| ->].
      * apply (ix_dirty _ _ _ _ Hx) in Hm as (j & x & Hj & Hc & Hdx). destruct (decide (i = j)) as [<-|Hij].
        -- exists i, b2. split_and!; [done| |done]. assert (x = b) as -> by congruence. done.
        -- exists j, x. by rewrite setb_lookup_ne.
      * exists i, b2. split_and!; [done| |done]. by apply caches_true.
  - change (ndirty (with_log ?g ?x)) with (ndirty x). rewrite (ndirty_setb r i b b2 Hb), Hd2, (ix_ndirty _ _ _ _ Hx).
    unfold add_block. case_decide as HnS.
    + rewrite (proj2 Hdn) by done. simpl. lia.
    + destruct (dirty b) eqn:E; [by destruct HnS; apply Hdn|]. rewrite length_app. simpl. lia.
  - intros j m Hj. destruct (ix_held _ _ _ _ Hx j m Hj) as (x & Hxj & Hxm & Hs).
    destruct (decide (i = j)) as [<-|Hij].
    + exists b2. split_and!; [done| |by left]. change (blockno b2) with (blockno b). congruence.
    + exists x. split_and!; [|done|done]. rewrite <- Hxj. by apply (setb_lookup_ne i j b2 r).
  - apply Hx.
  - apply Hx.
  - destruct (ix_super_home _ _ _ _ Hx) as [? ?]. split; [done|]. rewrite add_block_elem. intros [?|?]; [done|congruence].
Qed.

(** The block layer between transactions, with the contents [C] on its disk. *)
Record idle (r : fs) (C : gmap Z (list Z)) : Prop := Idle {
  id_bio : bio_ok pd r [];
  id_log : exists bs, log r = MkLog st z 0 false 1 (MkHeader 0 bs) /\ length bs = LOGSIZE;
  id_layout : layout (Z.of_nat (length (disk r))) st z [];
  id_view n d : C !! n = Some d <-> 0 <= n /\ disk r !! Z.to_nat n = Some d;
  id_clean n : ~ dirty_block r n;
  id_ndirty : ndirty r = 0;
  id_head : exists hd, disk r !! Z.to_nat st = Some hd /\ length hd = 512%nat /\ head_n hd = 0;
  id_super : super_ok (disk r) st z;
  id_super_home : home st z (Z.of_nat (length (disk r))) 1 }.

(** One transaction is open. *)
Definition opened (r : fs) : fs := with_log (set_outstanding 1 (log r)) r.

Lemma idle_opened r C : idle r C -> intx (opened r) [] C [].
Proof.
  intros [Hb (bs & Hl & Hlen) Hly Hv Hc Hnd Hhd Hsp Hsh]. unfold opened.
  constructor; cbn [log with_log disk]; rewrite ?Hl; cbn [l_outstanding]; try done.
  - by apply bio_ok_log.
  - intros m d. rewrite Hv. change (content (with_log ?g ?x) m) with (content x m).
    by rewrite (clean_content pd r m Hb (Hc m)).
  - intros m. change (dirty_block (with_log ?g ?x) m) with (dirty_block x m). split; [by intros ?%Hc|].
    by intros ?%not_elem_of_nil.
  - intros i m Hi. by apply not_elem_of_nil in Hi.
  - split; [done|]. apply not_elem_of_nil.
Qed.

(** [begin_op] opens a transaction, [end_op] commits it. *)
Lemma wpf_tx_begin fuel swtch r C :
  (0 < fuel)%nat -> idle r C -> wpf [] r (begin_op swtch fuel) (fun _ H' r' => H' = [] /\ intx r' [] C [] /\ (disk r' = disk r /\ writes r' = writes r) /\
    l_outstanding (log r') = 1).
Proof.
  intros Hfuel Hid. pose proof Hid as [_ (bs & Hl & Hlen) _ _ _ _ _ _ _]. destruct fuel as [|n]; [lia|].
  eapply wpx_mono; [apply wpf_begin_op; rewrite Hl; try done; unfold MAXOPBLOCKS, LOGSIZE; simpl; lia|].
  intros _ ? ? [-> ->]. split; [done|]. split; [|split; [done|by rewrite Hl]].
  replace (with_log _ r) with (opened r); [by apply idle_opened|]. unfold opened. by rewrite Hl.
Qed.

(** The blocks of a disk. *)
Definition disk_map (d : list (list Z)) : gmap Z (list Z) := map_seqZ 0 d.

Lemma disk_map_lookup d n x : disk_map d !! n = Some x <-> 0 <= n /\ d !! Z.to_nat n = Some x.
Proof. unfold disk_map. rewrite lookup_map_seqZ_Some. by rewrite Z.sub_0_r. Qed.

Lemma clean_ndirty r : bio_ok pd r [] -> (forall m, ~ dirty_block r m) -> ndirty r = 0.
Proof.
  intros Hb Hc. unfold ndirty. assert (forall b, b ∈ bufs r -> dirty b = false) as H.
  { intros b [i Hi]%list_elem_of_lookup. destruct (dirty b) eqn:E; [|done].
    destruct (fb_dirty _ _ (bo_free _ _ _ Hb i b (not_elem_of_nil i) Hi) E) as [Hd _].
    destruct (Hc (blockno b)). exists i, b. by rewrite caches_self. }
  induction (bufs r) as [|b l IH]; [done|]. simpl. rewrite (H b) by left. rewrite IH; [done|]. intros x Hx. apply H. by right.
Qed.

(** A transaction that logged the blocks [S] ends: the disk has the contents [C],
    and whichever of the writes reach it, all of them or none count. *)
Record ended (fuel : nat) (swtch : MF unit) (C : gmap Z (list Z)) (S : list Z) (r r' : fs) : Prop := Ended {
  ed_idle : idle r' (disk_map (disk r'));
  ed_home m : home st z (Z.of_nat (length (disk r))) m -> disk_map (disk r') !! m = C !! m;
  ed_len : length (disk r') = length (disk r);
  ed_crash : exists W, writes r' = writes r ++ W /\ (length W <= 2 * length S + 2)%nat /\ (S <> [] -> length S < length W)%nat /\
    forall k, wpf [] (fs0 (apply_writes (take k W) (disk r))) (binit;; initlog fuel swtch ROOTDEV)
      (fun _ _ r2 => forall m, home st z (Z.of_nat (length (disk r))) m ->
         disk_map (disk r2) !! m = if (k <=? length S)%nat then disk_map (disk r) !! m else C !! m) }.

Lemma disk_map_home d n : 0 <= n -> disk_map d !! n = d !! Z.to_nat n.
Proof.
  intros Hn. apply option_eq. intros x. rewrite disk_map_lookup. split; [by intros [_ ?]|done].
Qed.

Lemma intx_home r C S m :
  intx r [] C S -> 0 <= m -> C !! m = content r m.
Proof.
  intros Hx Hm. apply option_eq. intros x. rewrite (ix_view _ _ _ _ Hx). split; [by intros [_ ?]|done].
Qed.

Lemma wpf_tx_commit fuel swtch r C S :
  (0 < fuel)%nat -> intx r [] C S -> l_outstanding (log r) = 1 -> S <> [] -> (length S < NBUF)%nat ->
  wpf [] r (end_op fuel swtch) (fun _ H' r' => H' = [] /\ ended fuel swtch C S r r').
Proof.
  intros Hfuel Hx Ho HS HN. pose proof (intx_transaction r C S Hx HS HN) as Htx.
  eapply wpx_mono; [apply (wpf_end_op_last cur pd fuel swtch r st z S Hfuel Htx (ix_idle _ _ _ _ Hx) Ho)|].
  intros _ ? r' (-> & Hcm & Hl). split; [done|]. pose proof Hcm as [Hb Hcl Hhome Hhd (W & HW & HWl & HWd & Hcrash)].
  assert (length (disk r') = length (disk r)) as Hlen by (rewrite HWd; apply apply_length).
  destruct (ix_super_home _ _ _ _ Hx) as [Hsh H1S].
  assert (forall m, home st z (Z.of_nat (length (disk r))) m -> disk_map (disk r') !! m = C !! m) as Hd.
  { intros m Hm. pose proof Hm as [? _]. rewrite disk_map_home by lia.
    rewrite (intx_home r C S m Hx) by lia. by apply (cm_disk _ _ _ _ _ _ _ _ _ _ Hcm). }
  constructor; [|done|done|].
  - constructor; rewrite ?Hlen; [exact Hb| | |intros n d; apply disk_map_lookup|exact Hcl|by apply clean_ndirty|exact Hhd| |exact Hsh].
    + exists (lh_block (l_lh (log r))). split; [|apply Hx]. rewrite Hl. destruct (ix_logged _ _ _ _ Hx) as [E1 E2 _ _].
      unfold set_committing, set_outstanding, set_lh. cbn [l_start l_size l_dev l_lh]. by rewrite E1, E2, (ix_size _ _ _ _ Hx).
    + eapply layout_nil. apply Hx.
    + destruct (ix_super _ _ _ _ Hx) as (sbk & Hs & ?). exists sbk. split; [|done].
      rewrite <- Hs. change 1%nat with (Z.to_nat 1). rewrite (cm_disk _ _ _ _ _ _ _ _ _ _ Hcm) by done.
      apply (clean_content pd r 1 (ix_bio _ _ _ _ Hx)). by rewrite (ix_dirty _ _ _ _ Hx).
  - exists W. split; [done|]. split; [lia|]. split; [lia|]. intros k. eapply wpx_mono; [apply (Hcrash k)|].
    intros ? ? r2 H m Hm. pose proof Hm as [? _]. rewrite !disk_map_home by lia. rewrite (H m Hm).
    destruct (k <=? length S)%nat; [done|]. symmetry. apply (intx_home r C S m Hx). lia.
Qed.

(** Nothing was logged: nothing is written. *)
Lemma wpf_end_op_none fuel swtch r C :
  intx r [] C [] -> l_outstanding (log r) = 1 ->
  wpf [] r (end_op fuel swtch) (fun _ H' r' => H' = [] /\ r' = with_log (set_outstanding 0 (log r)) r).
Proof.
  intros Hx Ho. unfold end_op. wx wpx_acquire as [-> ->]; [set_solver|].
  wx wpf_lgets as (-> & -> & ->). wx wpf_lmod as [-> ->]. wx (wpf_lgets cur pd id) as (-> & -> & ->).
  unfold id. cbn [log with_log set_outstanding l_committing l_outstanding]. rewrite (ix_idle _ _ _ _ Hx), Ho.
  change (i32 (1 - 1)) with 0. change (0 =? 0) with true. cbv iota.
  set (g := set_committing true (set_outstanding 0 (log r))).
  apply (wpx_bind _ _ _ _ _ _ (fun (a : bool) H' r' => a = true /\ H' = [log_lock] /\ r' = with_log g r)).
  { wx wpf_lmod as [-> ->]. by apply wpx_ret. }
  intros ? ? ? (-> & -> & ->). wx wpx_release as [-> ->]; [done|].
  unfold commit. eapply wpx_bind.
  { wx wpf_lgets as (-> & -> & ->). cbn [log with_log g set_committing set_outstanding l_lh].
    rewrite (lg_n _ _ _ (ix_logged _ _ _ _ Hx)). cbn [length]. change (0 <? Z.of_nat 0) with false. cbv iota.
    apply (wpx_ret _ _ _ _ _ (fun _ H' r' => H' = [] /\ r' = with_log g r)). done. }
  intros ? ? ? [-> ->]. wx wpx_acquire as [-> ->]; [set_solver|]. wx wpf_lmod as [-> ->].
  wx wpx_wakeup as [-> ->]; [set_solver|]. eapply wpx_mono; [by eapply wpx_release|].
  intros _ ? ? [-> ->]. split; [done|]. unfold with_log, g, set_committing, set_outstanding. cbn. f_equal. f_equal.
  by rewrite (ix_idle _ _ _ _ Hx).
Qed.

Lemma wpf_tx_none fuel swtch r C :
  (0 < fuel)%nat -> intx r [] C [] -> l_outstanding (log r) = 1 ->
  wpf [] r (end_op fuel swtch) (fun _ H' r' => H' = [] /\ ended fuel swtch C [] r r').
Proof.
  intros Hfuel Hx Ho. eapply wpx_mono; [by apply (wpf_end_op_none fuel swtch r C)|]. intros _ ? r' [-> ->]. split; [done|].
  assert (forall m, ~ dirty_block r m) as Hcl by (intros m ?%(ix_dirty _ _ _ _ Hx); by eapply not_elem_of_nil).
  assert (forall m, 0 <= m -> disk_map (disk r) !! m = C !! m) as Hd.
  { intros m Hm. rewrite disk_map_home, (intx_home r C [] m Hx) by done. symmetry. by apply (clean_content pd), Hcl; apply Hx. }
  destruct (ix_super_home _ _ _ _ Hx) as [Hsh _].
  constructor; cbn [disk with_log]; [|intros m [? _]; apply Hd; lia|done|].
  - constructor; cbn [disk with_log log]; [apply bio_ok_log, Hx| | |intros n d; apply disk_map_lookup|exact Hcl|
      |apply Hx|apply Hx|exact Hsh].
    + exists (lh_block (l_lh (log r))). split; [|apply Hx]. destruct (ix_logged _ _ _ _ Hx) as [E1 E2 E3 _].
      unfold set_outstanding. rewrite E1, E2, (ix_size _ _ _ _ Hx), (ix_idle _ _ _ _ Hx). f_equal.
      cbn [length] in E3. destruct (l_lh (log r)). simpl in *. by rewrite E3.
    + apply Hx.
    + apply (ix_ndirty _ _ _ _ Hx).
  - exists []. split; [by rewrite app_nil_r|]. split; [simpl; lia|]. split; [done|]. intros k. rewrite take_nil.
    destruct (ix_head _ _ _ _ Hx) as (hd & Hhd & Hlh & H0).
    eapply wpx_mono; [apply (wpf_boot cur pd fuel swtch Hfuel (disk r) st z hd); [apply Hx|done|rewrite H0; lia|]|].
    { unfold dec_head. rewrite H0. apply (ix_layout _ _ _ _ Hx). }
    intros ? ? r2 (_ & _ & Hd2) m Hm. pose proof Hm as [? _]. rewrite Hd2, disk_map_home by lia.
    rewrite (recovered_idle (disk r) st z [] [] hd (ix_layout _ _ _ _ Hx) eq_refl Hlh (disk r) hd m Hhd H0 Hm).
    destruct (k <=? _)%nat; [by rewrite disk_map_home by lia|]. rewrite <- Hd by lia. by rewrite disk_map_home by lia.
Qed.

Lemma wpf_tx_end fuel swtch r C S :
  (0 < fuel)%nat -> intx r [] C S -> l_outstanding (log r) = 1 -> (length S < NBUF)%nat ->
  wpf [] r (end_op fuel swtch) (fun _ H' r' => H' = [] /\ ended fuel swtch C S r r').
Proof.
  intros Hfuel Hx Ho HN. destruct (decide (S = [])) as [->|HS]; [by apply wpf_tx_none|by apply wpf_tx_commit].
Qed.
End rules.
End txn.
