(* ===== verification/Xv6Inode.v ===== *)
(** * The xv6 file system (lab2/fs.c, fs.h, file.h)

    The routines of fs.c: the allocator of disk blocks, the cache of inodes,
    the contents of files, directories and path names.  A struct inode of the
    cache is named by its index in [icache.inode]; the null pointer is [None].
    The bytes a caller reads or writes are lists; an array of characters is the
    list of its elements. *)

From S2P Require Import Prelude CMem JosPrintfmt Xv6Lock Xv6String Xv6Console Xv6Proc Xv6World Xv6File Xv6Bio Xv6Log.
From stdpp Require Import base numbers option list gmap strings.
From Stdlib Require Import Ascii.
Open Scope Z_scope.

(** ** Constants and layout of fs.h *)

Definition ROOTINO : Z := 1.
Definition NDIRECT : nat := 12.
Definition NINDIRECT : nat := 128.
Definition MAXFILE : Z := Z.of_nat NDIRECT + Z.of_nat NINDIRECT.
Definition IPB : Z := BSIZE / 64.
Definition BPB : Z := BSIZE * 8.
Definition DIRSIZ : nat := 14.
Definition NINODE : nat := 50.
Definition NDEV : Z := 10.
Definition T_DIR : Z := 1.
Definition T_FILE : Z := 2.
Definition T_DEV : Z := 3.

Definition IBLOCK (i : Z) (s : superblock) : Z := u32 (i / IPB + sb_inodestart s).
Definition BBLOCK (b : Z) (s : superblock) : Z := u32 (b / BPB + sb_bmapstart s).

(** A [short] in a block. *)
Definition i16 (z : Z) : Z := (z + 2 ^ 15) mod 2 ^ 16 - 2 ^ 15.
Definition get16 (d : list Z) (o : nat) : Z := nth o d 0 + 2 ^ 8 * nth (o + 1) d 0.
Definition put16 (d : list Z) (o : nat) (v : Z) : list Z :=
  <[(o + 1)%nat := u8 (v / 2 ^ 8)]> (<[o := u8 v]> d).

(** [struct dinode]; it is also the part of [struct inode] that is a copy of the
    disk inode. *)
Record dinode : Type := MkDinode {
  d_type : Z; d_major : Z; d_minor : Z; d_nlink : Z; d_size : Z; d_addrs : list Z }.

Record inode : Type := MkInode {
  i_dev : Z; i_inum : Z; i_ref : Z; i_lock : sleeplock; i_valid : Z; i_di : dinode }.

(** The dinode at offset [o] of a block, and its stores. *)
Definition get_addrs (d : list Z) (o : nat) : list Z :=
  (fun k => get32 d (o + 12 + 4 * k)) <$> seq 0 (S NDIRECT).
Definition get_dinode (d : list Z) (o : nat) : dinode :=
  MkDinode (i16 (get16 d o)) (i16 (get16 d (o + 2))) (i16 (get16 d (o + 4))) (i16 (get16 d (o + 6)))
    (get32 d (o + 8)) (get_addrs d o).

Definition put_addrs (a : list Z) (d : list Z) (o : nat) : list Z :=
  foldl (fun d k => put32 d (o + 12 + 4 * k) (nth k a 0)) d (seq 0 (S NDIRECT)).
Definition put_dinode (di : dinode) (d : list Z) (o : nat) : list Z :=
  let d := put16 d o (d_type di) in
  let d := put16 d (o + 2) (d_major di) in
  let d := put16 d (o + 4) (d_minor di) in
  let d := put16 d (o + 6) (d_nlink di) in
  let d := put32 d (o + 8) (d_size di) in
  put_addrs (d_addrs di) d o.

(** The offset in its block of dinode [inum], [bp->data + inum%IPB]. *)
Definition dip (inum : Z) : nat := Z.to_nat (inum mod IPB) * 64.

Definition set_dtype (t : Z) (x : dinode) : dinode :=
  MkDinode t (d_major x) (d_minor x) (d_nlink x) (d_size x) (d_addrs x).
Definition set_dsize (n : Z) (x : dinode) : dinode :=
  MkDinode (d_type x) (d_major x) (d_minor x) (d_nlink x) n (d_addrs x).
Definition set_daddr (k : nat) (b : Z) (x : dinode) : dinode :=
  MkDinode (d_type x) (d_major x) (d_minor x) (d_nlink x) (d_size x) (<[k := b]> (d_addrs x)).

(** ** State *)

(** [icache], [sb] and the block layer. *)
Record ist : Type := MkIst { icache : list inode; sb : superblock; blk : fs }.

Definition with_icache (l : list inode) (r : ist) : ist := MkIst l (sb r) (blk r).
Definition with_sb (x : superblock) (r : ist) : ist := MkIst (icache r) x (blk r).
Definition with_blk (x : fs) (r : ist) : ist := MkIst (icache r) (sb r) x.

Definition set_iref (n : Z) (x : inode) : inode :=
  MkInode (i_dev x) (i_inum x) n (i_lock x) (i_valid x) (i_di x).
Definition set_ilock (k : sleeplock) (x : inode) : inode :=
  MkInode (i_dev x) (i_inum x) (i_ref x) k (i_valid x) (i_di x).
Definition set_ivalid (v : Z) (x : inode) : inode :=
  MkInode (i_dev x) (i_inum x) (i_ref x) (i_lock x) v (i_di x).
Definition set_idi (di : dinode) (x : inode) : inode :=
  MkInode (i_dev x) (i_inum x) (i_ref x) (i_lock x) (i_valid x) di.
Definition recycle (d n : Z) (x : inode) : inode := MkInode d n 1 (i_lock x) 0 (i_di x).

Definition icache_lock : nat := 7.
Definition ino_slock (i : nat) : slref ist :=
  SlRef (fun r => i_lock <$> icache r !! i)
    (fun k r => with_icache (alter (set_ilock k) i (icache r)) r)
    (200 + i) (PAddr (3000 + Z.of_nat i)).

Notation MI := (M (xst ist)).

Definition igets {A} (f : ist -> A) : MI A := gets (fun s => f (x_rest s)).
Definition imod (f : ist -> ist) : MI unit := modify (fun s => with_rest (f (x_rest s)) s).

(** A field of an entry is read, or stored. *)
Definition iread (i : nat) : MI inode := fun s =>
  match icache (x_rest s) !! i with Some x => Ok x s | None => Panic "icache: out of range" s end.
Definition iupd (i : nat) (f : inode -> inode) : MI unit :=
  imod (fun r => with_icache (alter f i (icache r)) r).

(** The kernel state with another component's state in it. *)
Definition with_part {R R'} (r : R') (s : xst R) : xst R' :=
  XSt (x_hw s) (procs s) (nextpid s) (initproc s) (promote_at s) (x_ticks s) (first s) (x_locking s)
    (x_con s) r.

(** A routine of the block layer. *)
Definition bl {A} (m : MF A) : MI A := fun s =>
  let back s' := with_part (with_blk (x_rest s') (x_rest s)) s' in
  match m (with_part (blk (x_rest s)) s) with
  | Ok a s' => Ok a (back s')
  | Panic msg s' => Panic msg (back s')
  | NoFuel => NoFuel
  end.

(** The table of devices: the read and write routines of a major number. *)
Class Devsw := {
  dev_read : Z -> option (nat -> Z -> MI (Z * list Z));
  dev_write : Z -> option (nat -> list Z -> Z -> MI Z) }.

(** ** Names and paths *)

(** [strncmp] and [strncpy] of string.c on the elements of two arrays. *)
Fixpoint strncmp_arr (n : nat) (s t : list Z) : Z :=
  match n with
  | O => 0
  | S k =>
      let c := hd 0 s in let c' := hd 0 t in
      if negb (c =? 0) && (c =? c') then strncmp_arr k (tail s) (tail t) else c - c'
  end.

Fixpoint strncpy_arr (n : nat) (t : list Z) : list Z :=
  match n with
  | O => []
  | S k => let c := hd 0 t in c :: if c =? 0 then replicate k 0 else strncpy_arr k (tail t)
  end.

Definition namecmp (s t : list Z) : Z := strncmp_arr DIRSIZ s t.

(** [struct dirent] *)
Definition de_inum (de : list Z) : Z := get16 de 0.
Definition de_name (de : list Z) : list Z := drop 2 de.
Definition mk_dirent (inum : Z) (name : list Z) : list Z :=
  u8 inum :: u8 (inum / 2 ^ 8) :: strncpy_arr DIRSIZ name.

Fixpoint skip_slashes (path : list Z) : list Z :=
  match path with
  | c :: p => if c =? zc "/" then skip_slashes p else path
  | [] => []
  end.
Fixpoint skip_name (path : list Z) : list Z :=
  match path with
  | c :: p => if negb (c =? zc "/") && negb (c =? 0) then skip_name p else path
  | [] => []
  end.

(** The rest of the path and the array [name]; a path ends with the list or
    with a zero byte. *)
Definition skipelem (path name : list Z) : option (list Z * list Z) :=
  let s := skip_slashes path in
  if hd 0 s =? 0 then None
  else
    let path := skip_name s in
    let len := (length s - length path)%nat in
    let name := if (DIRSIZ <=? len)%nat then list_inserts 0 (take DIRSIZ s) name
                else <[len := 0]> (list_inserts 0 (take len s) name) in
    Some (skip_slashes path, name).

(** ** Routines *)

Section fsc.
Context (fuel : nat) (bswtch : MF unit) (swtch : MI unit) `{DV : Devsw}.

Definition bread (d n : Z) : MI nat := bl (Xv6Bio.bread fuel bswtch d n).
Definition brelse (bp : nat) : MI unit := bl (Xv6Bio.brelse bp).
Definition log_write (bp : nat) : MI unit := bl (Xv6Log.log_write bp).
(** [bp->data] is read, or stored. *)
Definition bdata (bp : nat) : MI (list Z) := b ← bl (buf_get bp); mret (data b).
Definition bstore (bp : nat) (f : list Z -> list Z) : MI unit :=
  bl (buf_upd bp (fun b => set_data (f (data b)) b)).

Definition bzero (d n : Z) : MI unit :=
  bp ← bread d n;
  bstore bp (fun x => replicate (Z.to_nat BSIZE) 0);;
  log_write bp;;
  brelse bp.

(** The mask and the byte of bit [bi] of a bitmap block. *)
Definition bit_mask (bi : Z) : Z := Z.shiftl 1 (bi mod 8).
Definition bit_byte (d : list Z) (bi : Z) : Z := nth (Z.to_nat (bi / 8)) d 0.
Definition bit_clear (d : list Z) (bi : Z) : bool := Z.land (bit_byte d bi) (bit_mask bi) =? 0.
Definition bit_set (bi : Z) (d : list Z) : list Z :=
  <[Z.to_nat (bi / 8) := u8 (Z.lor (bit_byte d bi) (bit_mask bi))]> d.
Definition bit_reset (bi : Z) (d : list Z) : list Z :=
  <[Z.to_nat (bi / 8) := u8 (Z.land (bit_byte d bi) (Z.lnot (bit_mask bi)))]> d.

(** The inner loop of [balloc]: the first clear bit of a bitmap block. *)
Fixpoint scan_bits (k : nat) (d : list Z) (size b bi : Z) : option Z :=
  match k with
  | O => None
  | S k =>
      if (bi <? BPB) && (b + bi <? size) then
        if bit_clear d bi then Some bi else scan_bits k d size b (bi + 1)
      else None
  end.

Fixpoint balloc_loop (k : nat) (dv b : Z) : MI Z :=
  match k with
  | O => no_fuel
  | S k =>
      s ← igets sb;
      if b <? sb_size s then
        bp ← bread dv (BBLOCK b s);
        d ← bdata bp;
        match scan_bits (Z.to_nat BPB) d (sb_size s) b 0 with
        | Some bi =>
            bstore bp (bit_set bi);;
            log_write bp;;
            brelse bp;;
            bzero dv (b + bi);;
            mret (b + bi)
        | None => brelse bp;; balloc_loop k dv (i32 (b + BPB))
        end
      else panic "balloc: out of blocks"
  end.
Definition balloc (dv : Z) : MI Z :=
  s ← igets sb; balloc_loop (Z.to_nat (sb_size s / BPB + 2)) dv 0.

Definition bfree (dv b : Z) : MI unit :=
  s ← igets sb;
  bp ← bread dv (BBLOCK b s);
  let bi := b mod BPB in
  d ← bdata bp;
  if bit_clear d bi then panic "freeing free block"
  else
    bstore bp (bit_reset bi);;
    log_write bp;;
    brelse bp.

(** ** Inodes *)

Definition iinit (dv : Z) : MI unit :=
  lift (initlock icache_lock);;
  for_each (seq 0 NINODE) (fun i => initsleeplock (ino_slock i));;
  s ← bl (readsb fuel bswtch dv);
  imod (with_sb s);;
  match cprintf_out (zs "sb: size %d nblocks %d ninodes %d nlog %d logstart %d inodestart %d bmap start %d" ++ [10])
          [AInt (sb_size s); AInt (sb_nblocks s); AInt (sb_ninodes s); AInt (sb_nlog s);
           AInt (sb_logstart s); AInt (sb_inodestart s); AInt (sb_bmapstart s)] with
  | Some out => modify (fun st => with_con (x_con st ++ out) st)
  | None => mret tt
  end.

(** The loop of [iget]: the entry of the inode, or the first empty one. *)
Fixpoint iget_scan (l : list inode) (i : nat) (dv inum : Z) (empty : option nat) : nat + option nat :=
  match l with
  | [] => inr empty
  | x :: l =>
      if (0 <? i_ref x) && (i_dev x =? dv) && (i_inum x =? inum) then inl i
      else iget_scan l (S i) dv inum
             (match empty with None => if i_ref x =? 0 then Some i else None | Some _ => empty end)
  end.

Definition iget (dv inum : Z) : MI nat :=
  lift (acquire icache_lock);;
  l ← igets icache;
  match iget_scan l 0 dv inum None with
  | inl ip =>
      iupd ip (fun x => set_iref (i32 (i_ref x + 1)) x);;
      lift (release icache_lock);;
      mret ip
  | inr None => panic "iget: no inodes"
  | inr (Some ip) =>
      iupd ip (recycle dv inum);;
      lift (release icache_lock);;
      mret ip
  end.

Definition idup (ip : nat) : MI nat :=
  lift (acquire icache_lock);;
  iupd ip (fun x => set_iref (i32 (i_ref x + 1)) x);;
  lift (release icache_lock);;
  mret ip.

Fixpoint ialloc_loop (k : nat) (dv ty inum : Z) : MI nat :=
  match k with
  | O => no_fuel
  | S k =>
      s ← igets sb;
      if inum <? sb_ninodes s then
        bp ← bread dv (IBLOCK inum s);
        d ← bdata bp;
        if i16 (get16 d (dip inum)) =? 0 then
          bstore bp (fun d => put16 (list_inserts (dip inum) (replicate 64 0) d) (dip inum) ty);;
          log_write bp;;
          brelse bp;;
          iget dv inum
        else brelse bp;; ialloc_loop k dv ty (inum + 1)
      else panic "ialloc: no inodes"
  end.
Definition ialloc (dv ty : Z) : MI nat :=
  s ← igets sb; ialloc_loop (S (Z.to_nat (sb_ninodes s))) dv ty 1.

Definition iupdate (ip : nat) : MI unit :=
  s ← igets sb;
  x ← iread ip;
  bp ← bread (i_dev x) (IBLOCK (i_inum x) s);
  bstore bp (fun d => put_dinode (i_di x) d (dip (i_inum x)));;
  log_write bp;;
  brelse bp.

Definition ilock (p : option nat) : MI unit :=
  match p with
  | None => panic "ilock"
  | Some ip =>
      x ← iread ip;
      if i_ref x <? 1 then panic "ilock"
      else
        acquiresleep fuel swtch (ino_slock ip);;
        x ← iread ip;
        if i_valid x =? 0 then
          s ← igets sb;
          bp ← bread (i_dev x) (IBLOCK (i_inum x) s);
          d ← bdata bp;
          iupd ip (set_idi (get_dinode d (dip (i_inum x))));;
          brelse bp;;
          iupd ip (set_ivalid 1);;
          x ← iread ip;
          if d_type (i_di x) =? 0 then panic "ilock: no type" else mret tt
        else mret tt
  end.

Definition iunlock (p : option nat) : MI unit :=
  match p with
  | None => panic "iunlock"
  | Some ip =>
      h ← holdingsleep (ino_slock ip);
      x ← iread ip;
      if negb h || (i_ref x <? 1) then panic "iunlock" else releasesleep (ino_slock ip)
  end.

(** ** Contents *)

Definition bmap (ip : nat) (bn : Z) : MI Z :=
  x ← iread ip;
  if bn <? Z.of_nat NDIRECT then
    let addr := nth (Z.to_nat bn) (d_addrs (i_di x)) 0 in
    if addr =? 0 then
      addr ← balloc (i_dev x);
      iupd ip (fun x => set_idi (set_daddr (Z.to_nat bn) addr (i_di x)) x);;
      mret addr
    else mret addr
  else
    let bn := bn - Z.of_nat NDIRECT in
    if bn <? Z.of_nat NINDIRECT then
      addr ← (let addr := nth NDIRECT (d_addrs (i_di x)) 0 in
              if addr =? 0 then
                addr ← balloc (i_dev x);
                iupd ip (fun x => set_idi (set_daddr NDIRECT addr (i_di x)) x);;
                mret addr
              else mret addr);
      bp ← bread (i_dev x) addr;
      d ← bdata bp;
      let addr := get32 d (4 * Z.to_nat bn) in
      addr ← (if addr =? 0 then
                addr ← balloc (i_dev x);
                bstore bp (fun d => put32 d (4 * Z.to_nat bn) addr);;
                log_write bp;;
                mret addr
              else mret addr);
      brelse bp;;
      mret addr
    else panic "bmap: out of range".

Definition itrunc (ip : nat) : MI unit :=
  for_each (seq 0 NDIRECT) (fun i =>
    x ← iread ip;
    let addr := nth i (d_addrs (i_di x)) 0 in
    if addr =? 0 then mret tt
    else
      bfree (i_dev x) addr;;
      iupd ip (fun x => set_idi (set_daddr i 0 (i_di x)) x));;
  x ← iread ip;
  let addr := nth NDIRECT (d_addrs (i_di x)) 0 in
  (if addr =? 0 then mret tt
   else
     bp ← bread (i_dev x) addr;
     for_each (seq 0 NINDIRECT) (fun j =>
       d ← bdata bp;
       let a := get32 d (4 * j) in
       if a =? 0 then mret tt else bfree (i_dev x) a);;
     brelse bp;;
     bfree (i_dev x) addr;;
     iupd ip (fun x => set_idi (set_daddr NDIRECT 0 (i_di x)) x));;
  iupd ip (fun x => set_idi (set_dsize 0 (i_di x)) x);;
  iupdate ip.

Definition iput (ip : nat) : MI unit :=
  acquiresleep fuel swtch (ino_slock ip);;
  x ← iread ip;
  (if negb (i_valid x =? 0) && (d_nlink (i_di x) =? 0) then
     lift (acquire icache_lock);;
     x ← iread ip;
     let r := i_ref x in
     lift (release icache_lock);;
     if r =? 1 then
       itrunc ip;;
       iupd ip (fun x => set_idi (set_dtype 0 (i_di x)) x);;
       iupdate ip;;
       iupd ip (set_ivalid 0)
     else mret tt
   else mret tt);;
  releasesleep (ino_slock ip);;
  lift (acquire icache_lock);;
  iupd ip (fun x => set_iref (i32 (i_ref x - 1)) x);;
  lift (release icache_lock).

Definition iunlockput (ip : nat) : MI unit := iunlock (Some ip);; iput ip.

Definition stati (ip : nat) : MI stat :=
  x ← iread ip;
  mret (MkStat (d_type (i_di x)) (i_dev x) (i_inum x) (d_nlink (i_di x)) (d_size (i_di x))).

(** The bytes [readi] copies; [tot] of [n] are done. *)
Fixpoint readi_loop (k : nat) (ip : nat) (off n tot : Z) : MI (list Z) :=
  match k with
  | O => no_fuel
  | S k =>
      if tot <? n then
        addr ← bmap ip (off / BSIZE);
        x ← iread ip;
        bp ← bread (i_dev x) addr;
        let m := Z.min (u32 (n - tot)) (BSIZE - off mod BSIZE) in
        d ← bdata bp;
        let part := take (Z.to_nat m) (drop (Z.to_nat (off mod BSIZE)) d) in
        brelse bp;;
        more ← readi_loop k ip (u32 (off + m)) n (u32 (tot + m));
        mret (part ++ more)
      else mret []
  end.

(** Iterations that are enough for [n] bytes. *)
Definition loop_blocks (n : Z) : nat := Z.to_nat (n / BSIZE + 3).

Definition readi (ip : nat) (off n : Z) : MI (Z * list Z) :=
  x ← iread ip;
  let di := i_di x in
  if d_type di =? T_DEV then
    if (d_major di <? 0) || (NDEV <=? d_major di) then mret (-1, [])
    else match dev_read (d_major di) with
         | None => mret (-1, [])
         | Some f => f ip n
         end
  else if (d_size di <? off) || (u32 (off + n) <? off) then mret (-1, [])
  else
    let n := if d_size di <? u32 (off + n) then u32 (d_size di - off) else n in
    l ← readi_loop (loop_blocks n) ip off n 0;
    mret (i32 n, l).

(** The loop of [writei]; it returns [off]. *)
Fixpoint writei_loop (k : nat) (ip : nat) (src : list Z) (off n tot : Z) : MI Z :=
  match k with
  | O => no_fuel
  | S k =>
      if tot <? n then
        addr ← bmap ip (off / BSIZE);
        x ← iread ip;
        bp ← bread (i_dev x) addr;
        let m := Z.min (u32 (n - tot)) (BSIZE - off mod BSIZE) in
        bstore bp (list_inserts (Z.to_nat (off mod BSIZE)) (take (Z.to_nat m) src));;
        log_write bp;;
        brelse bp;;
        writei_loop k ip (drop (Z.to_nat m) src) (u32 (off + m)) n (u32 (tot + m))
      else mret off
  end.

Definition writei (ip : nat) (src : list Z) (off n : Z) : MI Z :=
  x ← iread ip;
  let di := i_di x in
  if d_type di =? T_DEV then
    if (d_major di <? 0) || (NDEV <=? d_major di) then mret (-1)
    else match dev_write (d_major di) with
         | None => mret (-1)
         | Some f => f ip src n
         end
  else if (d_size di <? off) || (u32 (off + n) <? off) then mret (-1)
  else if MAXFILE * BSIZE <? u32 (off + n) then mret (-1)
  else
    off ← writei_loop (loop_blocks n) ip src off n 0;
    x ← iread ip;
    (if (0 <? n) && (d_size (i_di x) <? off) then
       iupd ip (fun x => set_idi (set_dsize off (i_di x)) x);;
       iupdate ip
     else mret tt);;
    mret (i32 n).

(** ** Directories *)

Definition DESIZE : Z := 16.

Fixpoint dirlookup_loop (k : nat) (dp : nat) (name : list Z) (off : Z) : MI (option (nat * Z)) :=
  match k with
  | O => no_fuel
  | S k =>
      x ← iread dp;
      if off <? d_size (i_di x) then
        '(n, de) ← readi dp off DESIZE;
        if negb (n =? DESIZE) then panic "dirlookup read"
        else if de_inum de =? 0 then dirlookup_loop k dp name (u32 (off + DESIZE))
        else if namecmp name (de_name de) =? 0 then
          ip ← iget (i_dev x) (de_inum de);
          mret (Some (ip, off))
        else dirlookup_loop k dp name (u32 (off + DESIZE))
      else mret None
  end.

(** The inode found and the offset stored in [*poff]. *)
Definition dirlookup (dp : nat) (name : list Z) : MI (option (nat * Z)) :=
  x ← iread dp;
  if negb (d_type (i_di x) =? T_DIR) then panic "dirlookup not DIR"
  else dirlookup_loop (Z.to_nat (d_size (i_di x) / DESIZE + 2)) dp name 0.

(** The offset of an empty entry. *)
Fixpoint dirlink_loop (k : nat) (dp : nat) (off : Z) : MI Z :=
  match k with
  | O => no_fuel
  | S k =>
      x ← iread dp;
      if u32 off <? d_size (i_di x) then
        '(n, de) ← readi dp (u32 off) DESIZE;
        if negb (n =? DESIZE) then panic "dirlink read"
        else if de_inum de =? 0 then mret off
        else dirlink_loop k dp (i32 (off + DESIZE))
      else mret off
  end.

Definition dirlink (dp : nat) (name : list Z) (inum : Z) : MI Z :=
  found ← dirlookup dp name;
  match found with
  | Some (ip, _) => iput ip;; mret (-1)
  | None =>
      x ← iread dp;
      off ← dirlink_loop (Z.to_nat (d_size (i_di x) / DESIZE + 2)) dp 0;
      n ← writei dp (mk_dirent inum name) (u32 off) DESIZE;
      if negb (n =? DESIZE) then panic "dirlink" else mret 0
  end.

(** ** Path names *)

(** [myproc()->cwd]: the entry number plus one, zero for the null pointer. *)
Definition mycwd : MI nat :=
  c ← curproc;
  p ← pget c;
  if cwd p =? 0 then panic "null cwd" else mret (Z.to_nat (cwd p - 1)).

(** The inode found, and the array [name]. *)
Fixpoint namex_loop (k : nat) (ip : nat) (path : list Z) (parent : bool) (name : list Z)
  : MI (option nat * list Z) :=
  match k with
  | O => no_fuel
  | S k =>
      match skipelem path name with
      | Some (path, name) =>
          ilock (Some ip);;
          x ← iread ip;
          if negb (d_type (i_di x) =? T_DIR) then iunlockput ip;; mret (None, name)
          else if parent && (hd 0 path =? 0) then iunlock (Some ip);; mret (Some ip, name)
          else
            next ← dirlookup ip name;
            match next with
            | None => iunlockput ip;; mret (None, name)
            | Some (next, _) => iunlockput ip;; namex_loop k next path parent name
            end
      | None =>
          if parent then iput ip;; mret (None, name) else mret (Some ip, name)
      end
  end.

Definition namex (path : list Z) (parent : bool) (name : list Z) : MI (option nat * list Z) :=
  ip ← (if hd 0 path =? zc "/" then iget ROOTDEV ROOTINO else c ← mycwd; idup c);
  namex_loop (S (length path)) ip path parent name.

(** [junk] is what the uninitialised array [name] holds. *)
Definition namei (junk path : list Z) : MI (option nat) :=
  r ← namex path false junk; mret (fst r).
Definition nameiparent (path name : list Z) : MI (option nat * list Z) := namex path true name.
End fsc.
