(* ===== verification/Xv6Disk.v ===== *)
(** * The layout of an xv6 file system (lab2/fs.h, fs.c)

    The disk as data: bitmap bits, the encoding of disk inodes, the blocks an
    inode refers to, and [fs_ok], the invariant of the whole disk: no block
    belongs to two files, and the bitmap marks the blocks in use and no other. *)

From S2P Require Import Prelude CMem Xv6Bio Xv6Log Xv6Inode.
From stdpp Require Import base numbers option list gmap.
Open Scope Z_scope.

(** ** Bitmap bits *)

Lemma testbit_u8 x i : 0 <= i < 8 -> Z.testbit (u8 x) i = Z.testbit x i.
Proof. intros Hi. unfold u8. apply Z.mod_pow2_bits_low. lia. Qed.

Lemma bit_clear_testbit d bi : bit_clear d bi = negb (Z.testbit (bit_byte d bi) (bi mod 8)).
Proof.
  unfold bit_clear, bit_mask. pose proof (Z.mod_pos_bound bi 8 ltac:(lia)) as Hm.
  rewrite Z.shiftl_mul_pow2, Z.mul_1_l by lia. set (x := bit_byte d bi). set (i := bi mod 8) in *.
  destruct (Z.testbit x i) eqn:E; simpl.
  - apply Z.eqb_neq. intros H0. assert (Z.testbit (Z.land x (2 ^ i)) i = true) as Ht.
    { by rewrite Z.land_spec, E, Z.pow2_bits_true by lia. }
    by rewrite H0, Z.bits_0 in Ht.
  - apply Z.eqb_eq. apply Z.bits_inj'. intros n Hn. rewrite Z.land_spec, Z.bits_0.
    destruct (decide (n = i)) as [->|Hne]; [by rewrite E|]. rewrite Z.pow2_bits_false by lia. apply andb_false_r.
Qed.

Definition bit_index (bi : Z) : Prop := 0 <= bi < BPB.

Lemma bit_index_byte bi (d : list Z) : bit_index bi -> length d = 512%nat -> (Z.to_nat (bi / 8) < length d)%nat.
Proof. unfold bit_index, BPB, BSIZE. intros Hb ->. dlia. Qed.

(** A store to the byte of bit [bi]. *)
Lemma bit_byte_insert d bi bj v :
  bit_index bi -> bit_index bj -> length d = 512%nat ->
  bit_byte (<[Z.to_nat (bi / 8) := v]> d) bj = if decide (bi / 8 = bj / 8) then v else bit_byte d bj.
Proof.
  intros Hi Hj Hl. unfold bit_byte. rewrite nth_insert by (by apply bit_index_byte).
  unfold bit_index in *. case_decide as E; case_decide as E'; try done; exfalso.
  - apply E'. apply Z2Nat.inj in E; dlia.
  - apply E. by rewrite E'.
Qed.

Lemma div_mod_8 a b : a / 8 = b / 8 -> a mod 8 = b mod 8 -> a = b.
Proof. intros. dlia. Qed.

Lemma bit_set_clear d bi bj :
  bit_index bi -> bit_index bj -> length d = 512%nat ->
  bit_clear (bit_set bi d) bj = bit_clear d bj && negb (bi =? bj).
Proof.
  intros Hi Hj Hl. rewrite !bit_clear_testbit. unfold bit_set. rewrite bit_byte_insert by done.
  pose proof (Z.mod_pos_bound bj 8 ltac:(lia)). pose proof (Z.mod_pos_bound bi 8 ltac:(lia)).
  destruct (decide (bi / 8 = bj / 8)) as [E|Hne].
  - rewrite testbit_u8, Z.lor_spec by done. unfold bit_mask. rewrite Z.shiftl_mul_pow2, Z.mul_1_l by lia.
    assert (bit_byte d bi = bit_byte d bj) as -> by (unfold bit_byte; by rewrite E).
    destruct (Z.eqb_spec bi bj) as [->|Hb].
    + rewrite Z.pow2_bits_true by lia. rewrite orb_true_r. by rewrite andb_false_r.
    + rewrite Z.pow2_bits_false by (intros ?; apply Hb; by apply div_mod_8). by rewrite orb_false_r, andb_true_r.
  - destruct (Z.eqb_spec bi bj) as [->|]; [done|]. by rewrite andb_true_r.
Qed.

Lemma bit_reset_clear d bi bj :
  bit_index bi -> bit_index bj -> length d = 512%nat ->
  bit_clear (bit_reset bi d) bj = bit_clear d bj || (bi =? bj).
Proof.
  intros Hi Hj Hl. rewrite !bit_clear_testbit. unfold bit_reset. rewrite bit_byte_insert by done.
  pose proof (Z.mod_pos_bound bj 8 ltac:(lia)). pose proof (Z.mod_pos_bound bi 8 ltac:(lia)).
  destruct (decide (bi / 8 = bj / 8)) as [E|Hne].
  - rewrite testbit_u8, Z.land_spec by done. unfold bit_mask. rewrite Z.shiftl_mul_pow2, Z.mul_1_l by lia.
    rewrite Z.lnot_spec by lia.
    assert (bit_byte d bi = bit_byte d bj) as -> by (unfold bit_byte; by rewrite E).
    destruct (Z.eqb_spec bi bj) as [->|Hb].
    + rewrite Z.pow2_bits_true by lia. by rewrite andb_false_r, orb_true_r.
    + rewrite Z.pow2_bits_false by (intros ?; apply Hb; by apply div_mod_8). by rewrite andb_true_r, orb_false_r.
  - destruct (Z.eqb_spec bi bj) as [->|]; [done|]. by rewrite orb_false_r.
Qed.

Lemma length_bit_set bi d : length (bit_set bi d) = length d.
Proof. apply length_insert. Qed.
Lemma length_bit_reset bi d : length (bit_reset bi d) = length d.
Proof. apply length_insert. Qed.

(** ** Disk inodes *)

Lemma i16_range v : - 2 ^ 15 <= i16 v < 2 ^ 15.
Proof. unfold i16. pose proof (Z.mod_pos_bound (v + 2 ^ 15) (2 ^ 16) ltac:(lia)). lia. Qed.

Lemma length_put16 d o v : length (put16 d o v) = length d.
Proof. unfold put16. by rewrite !length_insert. Qed.

Lemma length_put_addrs a d o : length (put_addrs a d o) = length d.
Proof.
  unfold put_addrs. generalize (seq 0 (S NDIRECT)) as l. intros l. revert d.
  induction l as [|k l IH]; intros d; simpl; [done|]. by rewrite IH, length_put32.
Qed.

Lemma length_put_dinode di d o : length (put_dinode di d o) = length d.
Proof. unfold put_dinode. cbv zeta. by rewrite length_put_addrs, length_put32, !length_put16. Qed.

Lemma i16_get16_put16 d o v :
  (o + 1 < length d)%nat -> - 2 ^ 15 <= v < 2 ^ 15 -> i16 (get16 (put16 d o v) o) = v.
Proof.
  intros Ho Hv. unfold get16, put16. rewrite !nth_insert by (rewrite ?length_insert; lia).
  repeat (case_decide; [try lia|try lia]). unfold i16, u8. dlia.
Qed.

(** What a store changes. *)
Definition bytes_eq (d d' : list Z) (o n : nat) : Prop := forall k, (o <= k < o + n)%nat -> nth k d 0 = nth k d' 0.
Definition stores (d d' : list Z) (o n : nat) : Prop :=
  length d' = length d /\ forall k, (k < o \/ o + n <= k)%nat -> nth k d' 0 = nth k d 0.

Lemma stores_put16 d o v : stores d (put16 d o v) o 2.
Proof. split; [apply length_put16|]. intros k Hk. unfold put16. by rewrite !nth_insert_ne by lia. Qed.
Lemma stores_put32 d o v : stores d (put32 d o v) o 4.
Proof. split; [apply length_put32|]. intros k Hk. unfold put32. by rewrite !nth_insert_ne by lia. Qed.

Lemma stores_trans d d' d'' o n o1 n1 o2 n2 :
  stores d d' o1 n1 -> stores d' d'' o2 n2 -> (o <= o1)%nat -> (o <= o2)%nat ->
  (o1 + n1 <= o + n)%nat -> (o2 + n2 <= o + n)%nat -> stores d d'' o n.
Proof.
  intros [L1 H1] [L2 H2] ? ? ? ?. split; [congruence|]. intros k Hk. rewrite H2, H1 by lia. done.
Qed.

Lemma get16_bytes d d' o n x :
  stores d d' o n -> (x + 2 <= o \/ o + n <= x)%nat -> get16 d' x = get16 d x.
Proof. intros [_ H] Hx. unfold get16. by rewrite !H by lia. Qed.
Lemma get32_bytes d d' o n x :
  stores d d' o n -> (x + 4 <= o \/ o + n <= x)%nat -> get32 d' x = get32 d x.
Proof. intros [_ H] Hx. unfold get32. by rewrite !H by lia. Qed.

Lemma stores_put_addrs a d o : stores d (put_addrs a d o) (o + 12) 52.
Proof.
  unfold put_addrs. assert (forall k, (k <= 13)%nat -> stores d
    (foldl (fun d k => put32 d (o + 12 + 4 * k) (nth k a 0)) d (seq 0 k)) (o + 12) 52) as H; [|by apply H].
  induction k as [|k IH]; intros Hk; [by split|]. rewrite seq_S, foldl_app. cbn [foldl].
  eapply stores_trans; [apply IH; lia|apply stores_put32|lia..].
Qed.

Lemma get_put_addrs a d o :
  length a = S NDIRECT -> (forall b, b ∈ a -> 0 <= b < 2 ^ 32) -> (o + 64 <= length d)%nat ->
  get_addrs (put_addrs a d o) o = a.
Proof.
  intros Ha Hr Ho. unfold put_addrs, get_addrs.
  assert (forall k, (k <= S NDIRECT)%nat -> let d' := foldl (fun d k => put32 d (o + 12 + 4 * k) (nth k a 0)) d (seq 0 k) in
    length d' = length d /\ forall t, (t < k)%nat -> get32 d' (o + 12 + 4 * t) = u32 (nth t a 0)) as H.
  { induction k as [|k IH]; intros Hk; cbv zeta; [split; [done|lia]|]. unfold NDIRECT in *.
    rewrite seq_S, foldl_app. cbn [foldl]. destruct IH as [Hl Ht]; [lia|]. rewrite length_put32. split; [done|].
    intros t Hlt. change (0 + k)%nat with k. destruct (decide (t = k)) as [->|Hne].
    - rewrite get32_put32_eq by lia. done.
    - rewrite get32_put32_ne by lia. apply Ht. lia. }
  destruct (H (S NDIRECT) ltac:(lia)) as [_ Ht]. apply list_eq. intros t. rewrite list_lookup_fmap.
  destruct (decide (t < S NDIRECT)%nat) as [Hlt|Hge].
  - rewrite lookup_seq_lt by done. cbn [fmap option_fmap option_map]. change (0 + t)%nat with t. rewrite Ht by done.
    destruct (lookup_lt_is_Some_2 a t ltac:(lia)) as [x Hx]. rewrite Hx. f_equal.
    rewrite (nth_lookup_Some _ _ _ _ Hx). apply u32_small. by apply Hr, (list_elem_of_lookup_2 _ t).
  - rewrite lookup_seq_ge by lia. symmetry. apply lookup_ge_None. lia.
Qed.

(** The fields of a disk inode fit their types. *)
Record di_ok (x : dinode) : Prop := DiOk {
  do_type : - 2 ^ 15 <= d_type x < 2 ^ 15;
  do_major : - 2 ^ 15 <= d_major x < 2 ^ 15;
  do_minor : - 2 ^ 15 <= d_minor x < 2 ^ 15;
  do_nlink : - 2 ^ 15 <= d_nlink x < 2 ^ 15;
  do_size : 0 <= d_size x < 2 ^ 32;
  do_len : length (d_addrs x) = S NDIRECT;
  do_addrs b : b ∈ d_addrs x -> 0 <= b < 2 ^ 32 }.

(** A disk inode is read back as it was written. *)
Lemma get_put_dinode di d o :
  di_ok di -> (o + 64 <= length d)%nat -> get_dinode (put_dinode di d o) o = di.
Proof.
  intros [H1 H2 H3 H4 H5 H6 H7] Ho. unfold put_dinode, get_dinode. cbv zeta.
  rewrite get_put_addrs by (rewrite ?length_put32, ?length_put16; done).
  rewrite !(get16_bytes _ _ _ _ _ (stores_put_addrs _ _ _)) by lia.
  rewrite (get32_bytes _ _ _ _ _ (stores_put_addrs _ _ _)) by lia.
  rewrite !(get16_bytes _ _ _ _ _ (stores_put32 _ _ _)) by lia.
  rewrite get32_put32_eq by (rewrite !length_put16; lia). rewrite (u32_small (d_size di)) by done.
  rewrite (i16_get16_put16 _ (o + 6)) by (rewrite ?length_put16; done || lia).
  rewrite !(get16_bytes _ _ (o + 6) 2 _ (stores_put16 _ _ _)) by lia.
  rewrite (i16_get16_put16 _ (o + 4)) by (rewrite ?length_put16; done || lia).
  rewrite !(get16_bytes _ _ (o + 4) 2 _ (stores_put16 _ _ _)) by lia.
  rewrite (i16_get16_put16 _ (o + 2)) by (rewrite ?length_put16; done || lia).
  rewrite !(get16_bytes _ _ (o + 2) 2 _ (stores_put16 _ _ _)) by lia.
  rewrite (i16_get16_put16 _ o) by (rewrite ?length_put16; done || lia). by destruct di.
Qed.

Lemma stores_put_dinode di d o : stores d (put_dinode di d o) o 64.
Proof.
  unfold put_dinode. cbv zeta.
  eapply (stores_trans d _ _ o 64 o 12); [|apply stores_put_addrs|lia..].
  eapply (stores_trans d _ _ o 12 o 8); [|apply stores_put32|lia..].
  eapply (stores_trans d _ _ o 8 o 6); [|apply stores_put16|lia..].
  eapply (stores_trans d _ _ o 6 o 4); [|apply stores_put16|lia..].
  eapply (stores_trans d _ _ o 4 o 2); [|apply stores_put16|lia..]. apply stores_put16.
Qed.

Lemma get_dinode_stores d d' o x :
  stores d d' o 64 -> (x + 64 <= o \/ o + 64 <= x)%nat -> get_dinode d' x = get_dinode d x.
Proof.
  intros Hs Hx. unfold get_dinode, get_addrs.
  rewrite !(get16_bytes _ _ _ _ _ Hs), (get32_bytes _ _ _ _ _ Hs) by lia. f_equal.
  apply list_fmap_ext. intros i k Hk%lookup_seq. unfold NDIRECT in Hk.
  rewrite (get32_bytes _ _ _ _ _ Hs) by lia. done.
Qed.

(** ** Blocks of an inode *)

(** The block numbers of an inode: [NDIRECT] direct ones, the indirect block and
    the entries of the indirect block. *)
Definition NSLOT : nat := NDIRECT + 1 + NINDIRECT.
Definition slot (C : gmap Z (list Z)) (x : dinode) (k : nat) : Z :=
  let ind := nth NDIRECT (d_addrs x) 0 in
  if (k <=? NDIRECT)%nat then nth k (d_addrs x) 0
  else if ind =? 0 then 0 else get32 (default [] (C !! ind)) (4 * (k - S NDIRECT)).

(** The slot of data block [bn]. *)
Definition dslot (bn : nat) : nat := if (bn <? NDIRECT)%nat then bn else S bn.

Definition live (x : dinode) : Prop := d_type x <> 0.
#[global] Instance live_dec x : Decision (live x) := _.

(** The bytes of a file. *)
Definition dblk (C : gmap Z (list Z)) (x : dinode) (bn : nat) : list Z := default [] (C !! slot C x (dslot bn)).
Definition fbyte (C : gmap Z (list Z)) (x : dinode) (k : nat) : Z := nth (k mod 512) (dblk C x (k / 512)) 0.
Definition fbytes (C : gmap Z (list Z)) (x : dinode) : list Z := fbyte C x <$> seq 0 (Z.to_nat (d_size x)).

(** The inodes with one of them replaced. *)
Definition upd (D : Z -> dinode) (i : Z) (x : dinode) (j : Z) : dinode := if decide (j = i) then x else D j.

Lemma upd_eq D i x : upd D i x i = x.
Proof. unfold upd. by rewrite decide_True. Qed.
Lemma upd_ne D i x j : j <> i -> upd D i x j = D j.
Proof. intros. unfold upd. by rewrite decide_False. Qed.

Lemma dslot_lt bn : (bn < NDIRECT + NINDIRECT)%nat -> (dslot bn < NSLOT)%nat.
Proof. unfold dslot, NSLOT. destruct (Nat.ltb_spec bn NDIRECT); lia. Qed.
Lemma dslot_ne bn : dslot bn <> NDIRECT.
Proof. unfold dslot. destruct (Nat.ltb_spec bn NDIRECT); lia. Qed.
Lemma dslot_inj a b : dslot a = dslot b -> a = b.
Proof. unfold dslot. destruct (Nat.ltb_spec a NDIRECT), (Nat.ltb_spec b NDIRECT); lia. Qed.

Lemma slot_direct C x k : (k <= NDIRECT)%nat -> slot C x k = nth k (d_addrs x) 0.
Proof. intros Hk. unfold slot. by rewrite (proj2 (Nat.leb_le _ _) Hk). Qed.

Lemma slot_indirect C x k : (NDIRECT < k)%nat -> slot C x k =
  if slot C x NDIRECT =? 0 then 0 else get32 (default [] (C !! slot C x NDIRECT)) (4 * (k - S NDIRECT)).
Proof.
  intros Hk. rewrite (slot_direct C x NDIRECT) by lia. unfold slot at 1.
  by rewrite (proj2 (Nat.leb_gt _ _) Hk).
Qed.

(** Slots depend on the indirect block only. *)
Lemma slot_frame C C' x k :
  (slot C x NDIRECT <> 0 -> C' !! slot C x NDIRECT = C !! slot C x NDIRECT) -> slot C' x k = slot C x k.
Proof.
  intros H. destruct (decide (k <= NDIRECT)%nat) as [Hk|Hk]; [by rewrite !slot_direct by done|].
  rewrite (slot_indirect C' x k), (slot_indirect C x k), !(slot_direct _ _ NDIRECT) by lia. rewrite !(slot_direct _ _ NDIRECT) in H by lia.
  destruct (Z.eqb_spec (nth NDIRECT (d_addrs x) 0) 0) as [|Hne]; [done|]. by rewrite H.
Qed.

Lemma slot_ind_ne C x k : (NDIRECT < k)%nat -> slot C x k <> 0 -> slot C x NDIRECT <> 0.
Proof. intros Hk. rewrite slot_indirect by done. by destruct (Z.eqb_spec (slot C x NDIRECT) 0). Qed.

(** Two views of one file, the second with perhaps more blocks. *)
Record keeps (C : gmap Z (list Z)) (x : dinode) (C' : gmap Z (list Z)) (x' : dinode) : Prop := Keeps {
  ke_type : d_type x' = d_type x;
  ke_major : d_major x' = d_major x;
  ke_minor : d_minor x' = d_minor x;
  ke_nlink : d_nlink x' = d_nlink x;
  ke_size : d_size x' = d_size x;
  ke_slot k : (k < NSLOT)%nat -> slot C x k <> 0 -> slot C' x' k = slot C x k;
  ke_blk k : (k < NSLOT)%nat -> k <> NDIRECT -> slot C x k <> 0 -> C' !! slot C x k = C !! slot C x k }.

Lemma keeps_refl C x : keeps C x C x.
Proof. by constructor. Qed.

Lemma keeps_trans C1 x1 C2 x2 C3 x3 : keeps C1 x1 C2 x2 -> keeps C2 x2 C3 x3 -> keeps C1 x1 C3 x3.
Proof.
  intros [] []. constructor; try congruence.
  - intros k Hk H0. pose proof (ke_slot0 k Hk H0) as E. rewrite <- E. apply ke_slot1; [done|by rewrite E].
  - intros k Hk Hd H0. pose proof (ke_slot0 k Hk H0) as E. rewrite <- (ke_blk0 k Hk Hd H0), <- E.
    apply ke_blk1; [done|done|by rewrite E].
Qed.

(** ** The invariant of the disk *)

Section disk.
Context (SB : superblock).

(** The first data block. *)
Definition dstart : Z := sb_size SB - sb_nblocks SB.

(** The regions of the disk, in the order of fs.h, as mkfs.c lays them out. *)
Record geom : Prop := Geom {
  ge_log : 2 <= sb_logstart SB;
  ge_nlog : 30 <= sb_nlog SB;
  ge_ino : sb_logstart SB + sb_nlog SB <= sb_inodestart SB;
  ge_bmap : sb_inodestart SB + sb_ninodes SB / IPB + 1 <= sb_bmapstart SB;
  ge_data : sb_bmapstart SB + sb_size SB / BPB + 1 <= dstart;
  ge_nblocks : 0 <= sb_nblocks SB;
  ge_size : sb_size SB < 2 ^ 30;
  ge_ninodes : 1 < sb_ninodes SB }.

Definition inum_ok (i : Z) : Prop := 1 <= i < sb_ninodes SB.
Definition blk_ok (b : Z) : Prop := 0 <= b < sb_size SB.
(** A block after the log. *)
Definition fblk (b : Z) : Prop := sb_inodestart SB <= b < sb_size SB.

(** The bitmap says that block [b] is free. *)
Definition free (C : gmap Z (list Z)) (b : Z) : bool :=
  match C !! BBLOCK b SB with Some d => bit_clear d (b mod BPB) | None => false end.

Definition owns (C : gmap Z (list Z)) (D : Z -> dinode) (b : Z) : Prop :=
  exists i k, inum_ok i /\ live (D i) /\ (k < NSLOT)%nat /\ slot C (D i) k = b.

(** The blocks [P] are allocated and not yet, or no longer, part of a file. *)
Record fs_ok (C : gmap Z (list Z)) (D : Z -> dinode) (P : list Z) : Prop := FsOk {
  fo_blk n : fblk n -> exists d, C !! n = Some d /\ length d = 512%nat;
  fo_di i : inum_ok i -> di_ok (D i);
  fo_slot i k : inum_ok i -> live (D i) -> (k < NSLOT)%nat -> slot C (D i) k <> 0 ->
    dstart <= slot C (D i) k < sb_size SB;
  fo_inj i j k l : inum_ok i -> inum_ok j -> live (D i) -> live (D j) -> (k < NSLOT)%nat -> (l < NSLOT)%nat ->
    slot C (D i) k <> 0 -> slot C (D i) k = slot C (D j) l -> i = j /\ k = l;
  fo_free b : blk_ok b -> free C b = true <-> dstart <= b /\ b ∉ P /\ ~ owns C D b;
  fo_pend b : b ∈ P -> dstart <= b < sb_size SB /\ ~ owns C D b;
  fo_nodup : NoDup P;
  fo_size i : inum_ok i -> live (D i) -> d_size (D i) <= MAXFILE * BSIZE /\
    forall bn, Z.of_nat bn * BSIZE < d_size (D i) -> slot C (D i) (dslot bn) <> 0 }.

(** The disk inodes are those of [D], but for the inodes [X]. *)
Definition on_disk (C : gmap Z (list Z)) (D : Z -> dinode) (X : list Z) : Prop :=
  forall i, inum_ok i -> i ∉ X -> get_dinode (default [] (C !! IBLOCK i SB)) (dip i) = D i.

Context (G : geom).

Lemma geom_facts :
  0 < sb_bmapstart SB < dstart /\ 0 < sb_inodestart SB /\ dstart <= sb_size SB < 2 ^ 30 /\
  1 < sb_inodestart SB < sb_bmapstart SB.
Proof.
  destruct G. unfold dstart in *. change IPB with 8 in *. change BPB with 4096 in *. dlia.
Qed.

Lemma BBLOCK_eq b : blk_ok b -> BBLOCK b SB = b / BPB + sb_bmapstart SB /\ sb_bmapstart SB <= BBLOCK b SB < dstart.
Proof.
  intros Hb. unfold blk_ok in Hb. pose proof geom_facts. pose proof (ge_data G).
  assert (0 <= b / BPB <= sb_size SB / BPB) as Hd.
  { split; [apply Z.div_pos|apply Z.div_le_mono]; change BPB with 4096; lia. }
  unfold BBLOCK. rewrite u32_small by lia. lia.
Qed.

Lemma IBLOCK_eq i : inum_ok i -> IBLOCK i SB = i / IPB + sb_inodestart SB /\
  sb_inodestart SB <= IBLOCK i SB < sb_bmapstart SB.
Proof.
  intros Hi. unfold inum_ok in Hi. pose proof geom_facts. pose proof (ge_bmap G).
  assert (0 <= i / IPB <= sb_ninodes SB / IPB) as Hd.
  { split; [apply Z.div_pos|apply Z.div_le_mono]; change IPB with 8; lia. }
  unfold IBLOCK. rewrite u32_small by lia. lia.
Qed.

Lemma mod_BPB b : bit_index (b mod BPB).
Proof. unfold bit_index. apply Z.mod_pos_bound. unfold BPB, BSIZE. lia. Qed.

Lemma BBLOCK_inj b c : blk_ok b -> blk_ok c -> BBLOCK b SB = BBLOCK c SB -> b mod BPB = c mod BPB -> b = c.
Proof.
  intros Hb Hc. rewrite (proj1 (BBLOCK_eq b Hb)), (proj1 (BBLOCK_eq c Hc)). intros E1 E2.
  rewrite (Z.div_mod b BPB), (Z.div_mod c BPB) by (change BPB with 4096; lia). rewrite E2. lia.
Qed.

(** A block is one of a file or it is metadata; metadata is never free. *)
Lemma owns_range C D P b : fs_ok C D P -> owns C D b -> b <> 0 -> dstart <= b < sb_size SB.
Proof. intros Hf (i & k & Hi & Hl & Hk & <-) H0. by apply (fo_slot _ _ _ Hf i k). Qed.

Lemma agree_slot C D P C' :
  fs_ok C D P -> (forall b, b <> 0 -> owns C D b -> C' !! b = C !! b) ->
  forall i k, inum_ok i -> live (D i) -> slot C' (D i) k = slot C (D i) k.
Proof.
  intros Hf Ha i k Hi Hl. apply slot_frame. intros H0. apply Ha; [done|].
  exists i, NDIRECT. split_and!; [done|done|unfold NSLOT; lia|done].
Qed.

(** The same slots, and a bitmap that agrees with them. *)
Lemma fs_ok_slots C D P C' P' :
  fs_ok C D P -> (forall i k, inum_ok i -> live (D i) -> slot C' (D i) k = slot C (D i) k) ->
  (forall n, fblk n -> exists d, C' !! n = Some d /\ length d = 512%nat) ->
  (forall b, blk_ok b -> free C' b = true <-> dstart <= b /\ b ∉ P' /\ ~ owns C D b) ->
  (forall b, b ∈ P' -> dstart <= b < sb_size SB /\ ~ owns C D b) -> NoDup P' -> fs_ok C' D P'.
Proof.
  intros Hf Hs Hb Hfr Hp Hnd.
  assert (forall b, owns C' D b <-> owns C D b) as Ho.
  { intros b. split; intros (i & k & Hi & Hl & Hk & E); exists i, k; split_and!; try done;
      rewrite <- E; [symmetry|]; by apply Hs. }
  constructor; try done; try apply Hf.
  - intros i k Hi Hl Hk. rewrite Hs by done. by apply Hf.
  - intros i j k l Hi Hj Hl Hl' Hk Hk'. rewrite !Hs by done. by apply Hf.
  - intros b Hbo. rewrite Ho. by apply Hfr.
  - intros b Hbp. rewrite Ho. by apply Hp.
  - intros i Hi Hl. destruct (fo_size _ _ _ Hf i Hi Hl) as [? Hz]. split; [done|]. intros bn Hbn.
    rewrite Hs by done. by apply Hz.
Qed.

Lemma keeps_frame C C' x :
  (forall k, (k < NSLOT)%nat -> slot C x k <> 0 -> C' !! slot C x k = C !! slot C x k) -> keeps C x C' x.
Proof.
  intros Ha. constructor; try done.
  - intros k Hk H0. apply slot_frame. intros H1. apply Ha; [unfold NSLOT; lia|done].
  - intros k Hk _ H0. by apply Ha.
Qed.

Lemma fs_ok_frame C D P C' P' :
  fs_ok C D P -> (forall b, b <> 0 -> owns C D b -> C' !! b = C !! b) ->
  (forall n, fblk n -> exists d, C' !! n = Some d /\ length d = 512%nat) ->
  (forall b, blk_ok b -> free C' b = true <-> dstart <= b /\ b ∉ P' /\ ~ owns C D b) ->
  (forall b, b ∈ P' -> dstart <= b < sb_size SB /\ ~ owns C D b) -> NoDup P' ->
  fs_ok C' D P' /\ forall i, inum_ok i -> live (D i) -> keeps C (D i) C' (D i).
Proof.
  intros Hf Ha Hb Hfr Hp Hnd. split.
  - by eapply fs_ok_slots; [exact Hf|exact (agree_slot _ _ _ _ Hf Ha)|..].
  - intros i Hi Hl. apply keeps_frame. intros k Hk H0. apply Ha; [done|]. by exists i, k.
Qed.

(** ** Steps of the file system on the disk *)

Lemma on_disk_frame C D X C' :
  on_disk C D X -> (forall i, inum_ok i -> C' !! IBLOCK i SB = C !! IBLOCK i SB) -> on_disk C' D X.
Proof. intros Ho Ha i Hi HX. rewrite Ha by done. by apply Ho. Qed.

(** A store to the bitmap. *)
Definition mark (f : Z -> list Z -> list Z) (b : Z) (C : gmap Z (list Z)) : gmap Z (list Z) :=
  <[BBLOCK b SB := f (b mod BPB) (default [] (C !! BBLOCK b SB))]> C.

Definition blocks_ok (C : gmap Z (list Z)) : Prop :=
  forall n, fblk n -> exists d, C !! n = Some d /\ length d = 512%nat.

Lemma bitmap_blk b : blk_ok b -> fblk (BBLOCK b SB).
Proof. intros Hb. destruct (BBLOCK_eq b Hb) as [_ ?]. pose proof geom_facts. unfold fblk, blk_ok in *. lia. Qed.

Lemma inode_blk i : inum_ok i -> fblk (IBLOCK i SB).
Proof. intros Hb. destruct (IBLOCK_eq i Hb) as [_ ?]. pose proof geom_facts. unfold fblk in *. lia. Qed.

Lemma insert_blocks_ok C n d : blocks_ok C -> length d = 512%nat -> blocks_ok (<[n := d]> C).
Proof.
  intros Hb Hl m Hm. destruct (decide (m = n)) as [->|Hne].
  - exists d. by rewrite lookup_insert_eq.
  - rewrite lookup_insert_ne by done. by apply Hb.
Qed.

Lemma mark_blocks_ok f b C :
  (forall i d, length (f i d) = length d) -> blocks_ok C -> blk_ok b -> blocks_ok (mark f b C).
Proof.
  intros Hf HC Hb. apply insert_blocks_ok; [done|].
  destruct (HC _ (bitmap_blk b Hb)) as (d & Hd & Hl). by rewrite Hd, Hf.
Qed.

Lemma mark_other f b C n : n <> BBLOCK b SB -> mark f b C !! n = C !! n.
Proof. intros Hn. unfold mark. by rewrite lookup_insert_ne. Qed.

Lemma free_mark f b C c :
  blocks_ok C -> blk_ok b -> blk_ok c ->
  free (mark f b C) c = if decide (BBLOCK c SB = BBLOCK b SB)
    then bit_clear (f (b mod BPB) (default [] (C !! BBLOCK b SB))) (c mod BPB) else free C c.
Proof.
  intros HC Hb Hc. unfold free. case_decide as E.
  - rewrite E. unfold mark. by rewrite lookup_insert_eq.
  - by rewrite mark_other.
Qed.

Lemma free_set C b c :
  blocks_ok C -> blk_ok b -> blk_ok c -> free (mark bit_set b C) c = free C c && negb (b =? c).
Proof.
  intros HC Hb Hc. rewrite free_mark by done. destruct (HC _ (bitmap_blk b Hb)) as (d & Hd & Hl).
  destruct (decide _) as [E|Hne].
  - rewrite Hd. cbn [default option_bind from_option]. unfold id. rewrite bit_set_clear by (done || apply mod_BPB).
    unfold free. rewrite E, Hd. f_equal. f_equal.
    destruct (Z.eqb_spec b c) as [->|Hne]; [by rewrite Z.eqb_refl|].
    destruct (Z.eqb_spec (b mod BPB) (c mod BPB)); [|done]. by destruct Hne; apply BBLOCK_inj.
  - destruct (Z.eqb_spec b c) as [->|]; [done|]. by rewrite andb_true_r.
Qed.

Lemma free_reset C b c :
  blocks_ok C -> blk_ok b -> blk_ok c -> free (mark bit_reset b C) c = free C c || (b =? c).
Proof.
  intros HC Hb Hc. rewrite free_mark by done. destruct (HC _ (bitmap_blk b Hb)) as (d & Hd & Hl).
  destruct (decide _) as [E|Hne].
  - rewrite Hd. cbn [default option_bind from_option]. unfold id. rewrite bit_reset_clear by (done || apply mod_BPB).
    unfold free. rewrite E, Hd. f_equal.
    destruct (Z.eqb_spec b c) as [->|Hne]; [by rewrite Z.eqb_refl|].
    destruct (Z.eqb_spec (b mod BPB) (c mod BPB)); [|done]. by destruct Hne; apply BBLOCK_inj.
  - destruct (Z.eqb_spec b c) as [->|]; [done|]. by rewrite orb_false_r.
Qed.

Lemma fs_blocks C D P : fs_ok C D P -> blocks_ok C.
Proof. intros Hf n. apply Hf. Qed.

(** What [balloc] and [bfree] make of the disk. *)
Definition zeros : list Z := replicate (Z.to_nat BSIZE) 0.
Definition alloc_blk (b : Z) (C : gmap Z (list Z)) : gmap Z (list Z) := <[b := zeros]> (mark bit_set b C).
Definition free_blk (b : Z) (C : gmap Z (list Z)) : gmap Z (list Z) := mark bit_reset b C.

(** The changes of an operation to the rest of the file system. *)
Record frame (C : gmap Z (list Z)) (D : Z -> dinode) (C' : gmap Z (list Z)) : Prop := Frame {
  fr_keeps i : inum_ok i -> live (D i) -> keeps C (D i) C' (D i);
  fr_inodes i : inum_ok i -> C' !! IBLOCK i SB = C !! IBLOCK i SB }.

Lemma free_alloc C D P b c :
  fs_ok C D P -> blk_ok b -> free C b = true -> blk_ok c -> free (alloc_blk b C) c = free C c && negb (b =? c).
Proof.
  intros Hf Hb Hfr Hc. rewrite <- free_set by (done || by eapply fs_blocks). unfold alloc_blk, free at 1.
  rewrite lookup_insert_ne; [done|]. apply (fo_free _ _ _ Hf b Hb) in Hfr as [? _].
  destruct (BBLOCK_eq c Hc). lia.
Qed.

Lemma alloc_ok C D P b :
  fs_ok C D P -> blk_ok b -> free C b = true ->
  fs_ok (alloc_blk b C) D (b :: P) /\ frame C D (alloc_blk b C).
Proof.
  intros Hf Hb Hfr. pose proof (proj1 (fo_free _ _ _ Hf b Hb) Hfr) as (Hd & HbP & Hno).
  destruct (BBLOCK_eq b Hb) as [_ HBB]. unfold blk_ok in Hb.
  assert (forall c, c <> 0 -> owns C D c -> alloc_blk b C !! c = C !! c) as Ha.
  { intros c H0 Hoc. pose proof (owns_range _ _ _ _ Hf Hoc H0). unfold alloc_blk.
    rewrite lookup_insert_ne by (intros ->; done). apply mark_other. lia. }
  destruct (fs_ok_frame C D P (alloc_blk b C) (b :: P) Hf Ha) as [Hf' Hk].
  - apply insert_blocks_ok; [|done]. apply mark_blocks_ok; [apply length_bit_set|by eapply fs_blocks|done].
  - intros c Hc. rewrite (free_alloc C D P) by done. rewrite andb_true_iff, negb_true_iff, Z.eqb_neq.
    rewrite (fo_free _ _ _ Hf c Hc). set_solver.
  - intros c [->|Hc]%elem_of_cons; [by split; [lia|]|]. by apply Hf.
  - constructor; [done|apply Hf].
  - split; [done|]. constructor; [done|]. intros i Hi. destruct (IBLOCK_eq i Hi) as [_ ?]. unfold alloc_blk. pose proof geom_facts.
    rewrite lookup_insert_ne by lia. apply mark_other. lia.
Qed.

Lemma freeb_ok C D P P' b :
  fs_ok C D P -> P ≡ₚ b :: P' -> fs_ok (free_blk b C) D P' /\ frame C D (free_blk b C).
Proof.
  intros Hf HP. assert (b ∈ P) as HbP by (rewrite HP; left).
  destruct (fo_pend _ _ _ Hf b HbP) as [Hb Hno]. pose proof geom_facts.
  assert (blk_ok b) as Hbo by (unfold blk_ok; lia). destruct (BBLOCK_eq b Hbo) as [_ HBB].
  pose proof (fo_nodup _ _ _ Hf) as Hnd. rewrite HP in Hnd. apply NoDup_cons in Hnd as [HnP Hnd].
  destruct (fs_ok_frame C D P (free_blk b C) P' Hf) as [Hf' Hk].
  - intros c H0 Hoc. apply mark_other. pose proof (owns_range _ _ _ _ Hf Hoc H0). lia.
  - apply mark_blocks_ok; [apply length_bit_reset|by eapply fs_blocks|done].
  - intros c Hc. unfold free_blk. rewrite free_reset by (done || by eapply fs_blocks). rewrite orb_true_iff, Z.eqb_eq.
    rewrite (fo_free _ _ _ Hf c Hc). setoid_rewrite HP. split.
    + intros [(? & ? & ?)| <-]; [split_and!; set_solver|split_and!; [lia|done|done]].
    + intros (? & ? & ?). destruct (decide (b = c)) as [->|]; [by right|left]. split_and!; [done|set_solver|done].
  - intros c Hc. apply (fo_pend _ _ _ Hf). rewrite HP. by right.
  - done.
  - split; [done|]. constructor; [done|]. intros i Hi. destruct (IBLOCK_eq i Hi) as [_ ?]. apply mark_other. lia.
Qed.

(** Block [b], allocated, becomes slot [k] of inode [i]. *)
Section attach.
Context (C C' : gmap Z (list Z)) (D D' : Z -> dinode) (b i : Z) (k : nat).
Context (Hf : fs_ok C D [b]) (Hi : inum_ok i) (Hl : live (D i)) (Hk : (k < NSLOT)%nat).
Context (H0 : slot C (D i) k = 0) (Hdi : di_ok (D' i)) (Hty : d_type (D' i) = d_type (D i))
  (Hsz : d_size (D' i) = d_size (D i)) (HD : forall j, j <> i -> D' j = D j).
Context (Hsl : forall l, (l < NSLOT)%nat -> slot C' (D' i) l = if decide (l = k) then b else slot C (D i) l).
Context (Hsj : forall j l, j <> i -> inum_ok j -> live (D j) -> (l < NSLOT)%nat -> slot C' (D j) l = slot C (D j) l).
Context (HC : blocks_ok C') (Hfr : forall c, blk_ok c -> free C' c = free C c).

Lemma attach_slot j l :
  inum_ok j -> (l < NSLOT)%nat -> live (D' j) ->
  live (D j) /\ slot C' (D' j) l = if decide (j = i /\ l = k) then b else slot C (D j) l.
Proof.
  intros Hj Hlt Hlj. destruct (decide (j = i)) as [->|Hne].
  - split; [done|]. rewrite Hsl by done. case_decide as E; case_decide as E'; naive_solver.
  - rewrite HD in * by done. split; [done|]. rewrite decide_False by naive_solver. by apply Hsj.
Qed.

Lemma attach_owns c : c <> 0 -> owns C' D' c <-> c = b \/ owns C D c.
Proof.
  intros Hc. split.
  - intros (j & l & Hj & Hlj & Hlt & E). destruct (attach_slot j l Hj Hlt Hlj) as [Hlj' E'].
    rewrite E' in E. case_decide; [by left|right]. by exists j, l.
  - assert (live (D' i)) as Hli by (unfold live; by rewrite Hty). intros [->|(j & l & Hj & Hlj & Hlt & E)].
    + exists i, k. split_and!; try done. rewrite Hsl by done. by rewrite decide_True.
    + exists j, l. assert (live (D' j)) as Hlj'.
      { destruct (decide (j = i)) as [->|]; [done|by rewrite HD]. }
      split_and!; try done. destruct (attach_slot j l Hj Hlt Hlj') as [_ E']. rewrite E'.
      rewrite decide_False; [done|]. intros [-> ->]. congruence.
Qed.

Lemma attach_ok : fs_ok C' D' [].
Proof.
  destruct (fo_pend _ _ _ Hf b) as [Hb Hno]; [left|]. pose proof geom_facts.
  constructor.
  - exact HC.
  - intros j Hj. destruct (decide (j = i)) as [->|]; [done|]. rewrite HD by done. by apply Hf.
  - intros j l Hj Hlj Hlt. destruct (attach_slot j l Hj Hlt Hlj) as [Hlj' ->]. case_decide; [done|]. by apply Hf.
  - intros j1 j2 l1 l2 Hj1 Hj2 Hl1 Hl2 Hlt1 Hlt2.
    destruct (attach_slot j1 l1 Hj1 Hlt1 Hl1) as [Hl1' ->], (attach_slot j2 l2 Hj2 Hlt2 Hl2) as [Hl2' ->].
    case_decide as E1; case_decide as E2; intros Hne E.
    + by destruct E1 as [-> ->], E2 as [-> ->].
    + exfalso. apply Hno. exists j2, l2. by split_and!.
    + exfalso. apply Hno. exists j1, l1. by split_and!.
    + by apply (fo_inj _ _ _ Hf).
  - intros c Hc. rewrite Hfr by done. rewrite (fo_free _ _ _ Hf c Hc). split.
    + intros (Hd & Hcb & Hnc). split_and!; [done|apply not_elem_of_nil|]. rewrite attach_owns by lia.
      intros [->|?]; [apply Hcb; left|done].
    + intros (Hd & _ & Hnc). rewrite attach_owns in Hnc by lia. split_and!; [done| |naive_solver].
      intros ->%list_elem_of_singleton. naive_solver.
  - intros c Hc. by apply not_elem_of_nil in Hc.
  - constructor.
  - intros j Hj Hlj. destruct (attach_slot j 0 Hj ltac:(unfold NSLOT; lia) Hlj) as [Hlj' _].
    destruct (fo_size _ _ _ Hf j Hj Hlj') as [Hs1 Hs2].
    assert (d_size (D' j) = d_size (D j)) as ->.
    { destruct (decide (j = i)) as [->|]; [done|by rewrite HD]. }
    split; [done|]. intros bn Hbn. destruct (attach_slot j (dslot bn) Hj) as [_ ->]; [|done|].
    { apply dslot_lt. unfold MAXFILE, BSIZE in *. lia. }
    case_decide; [lia|]. by apply Hs2.
Qed.
End attach.

Lemma get32_zeros o : get32 zeros o = 0.
Proof.
  unfold get32. assert (forall k, nth k zeros 0 = 0) as H; [|by rewrite !H].
  intros k. unfold zeros. rewrite nth_lookup. destruct (replicate _ _ !! k) eqn:E; [|done].
  by apply lookup_replicate in E as [-> _].
Qed.

Lemma nth_insert_addr (l : list Z) k j b :
  length l = S NDIRECT -> (k <= NDIRECT)%nat -> nth j (<[k := b]> l) 0 = if decide (j = k) then b else nth j l 0.
Proof.
  intros Hl Hk. rewrite nth_insert by lia. destruct (decide (k = j)) as [->|]; [by rewrite decide_True|].
  by rewrite decide_False.
Qed.

Lemma di_ok_addr x k b : di_ok x -> 0 <= b < 2 ^ 32 -> di_ok (set_daddr k b x).
Proof.
  intros [] Hb. constructor; try done; cbn [set_daddr d_addrs].
  - by rewrite length_insert.
  - intros c (j & Hj)%list_elem_of_lookup. apply list_lookup_insert_Some in Hj as [(_ & <- & _)|(_ & Hj)]; [done|].
    by apply do_addrs0, (list_elem_of_lookup_2 _ j).
Qed.

(** A direct block, or the indirect block. *)
Lemma slot_addr C x k b l :
  di_ok x -> (k <= NDIRECT)%nat -> slot C x k = 0 -> b <> 0 -> C !! b = Some zeros ->
  slot C (set_daddr k b x) l = if decide (l = k) then b else slot C x l.
Proof.
  intros Hdi Hk H0 Hb Hz. pose proof (do_len _ Hdi) as Hlen. rewrite slot_direct in H0 by done.
  destruct (decide (l <= NDIRECT)%nat) as [Hl|Hl].
  - rewrite !slot_direct by done. cbn [set_daddr d_addrs]. by rewrite nth_insert_addr.
  - rewrite (slot_indirect C _ l), (slot_indirect C x l), !(slot_direct _ _ NDIRECT) by lia.
    cbn [set_daddr d_addrs]. rewrite nth_insert_addr by done.
    rewrite (decide_False (P := l = k)) by lia. case_decide as E; [|done]. subst k.
    rewrite H0, (proj2 (Z.eqb_neq b 0) Hb), Hz. simpl. apply get32_zeros.
Qed.

Lemma attach_addr C D i k b :
  fs_ok C D [b] -> inum_ok i -> live (D i) -> (k <= NDIRECT)%nat -> slot C (D i) k = 0 -> C !! b = Some zeros ->
  let x := set_daddr k b (D i) in
  fs_ok C (upd D i x) [] /\ keeps C (D i) C x /\ slot C x k = b.
Proof.
  intros Hf Hi Hl Hk H0 Hz x. pose proof (fo_di _ _ _ Hf i Hi) as Hdi. pose proof geom_facts.
  destruct (fo_pend _ _ _ Hf b) as [Hb Hno]; [left|].
  assert (forall l, slot C x l = if decide (l = k) then b else slot C (D i) l) as Hs.
  { intros l. apply slot_addr; try done. lia. }
  split_and!.
  - apply (attach_ok C C D _ b i k); try done; rewrite ?upd_eq; try done.
    + unfold NSLOT. lia.
    + apply di_ok_addr; [done|lia].
    + intros j Hj. by rewrite upd_ne.
    + by eapply fs_blocks.
  - constructor; try done. intros l Hlt Hne. rewrite Hs. case_decide; [congruence|done].
  - rewrite Hs. by rewrite decide_True.
Qed.

(** An entry of the indirect block. *)
Lemma attach_entry C D i k b d :
  fs_ok C D [b] -> inum_ok i -> live (D i) -> (NDIRECT < k < NSLOT)%nat -> slot C (D i) k = 0 ->
  slot C (D i) NDIRECT <> 0 -> C !! slot C (D i) NDIRECT = Some d ->
  let C' := <[slot C (D i) NDIRECT := put32 d (4 * (k - S NDIRECT)) b]> C in
  fs_ok C' D [] /\ frame C D C' /\ slot C' (D i) k = b.
Proof.
  intros Hf Hi Hl Hk H0 Hind Hd C'. pose proof (fo_di _ _ _ Hf i Hi) as Hdi. pose proof geom_facts.
  destruct (fo_pend _ _ _ Hf b) as [Hb Hno]; [left|]. set (ind := slot C (D i) NDIRECT) in *.
  pose proof (fo_slot _ _ _ Hf i NDIRECT Hi Hl ltac:(unfold NSLOT; lia) Hind) as Hir. fold ind in Hir.
  destruct (fo_blk _ _ _ Hf ind) as (d' & Hd' & Hlen); [unfold fblk; lia|]. assert (d' = d) as -> by congruence.
  assert (forall j l, inum_ok j -> live (D j) -> (l < NSLOT)%nat ->
    slot C' (D j) l = if decide (j = i /\ l = k) then b else slot C (D j) l) as Hs.
  { intros j l Hj Hlj Hlt. destruct (decide (j = i)) as [->|Hne].
    - destruct (decide (l <= NDIRECT)%nat) as [Hle|Hgt].
      { rewrite decide_False by lia. by rewrite !slot_direct. }
      assert (slot C' (D i) NDIRECT = ind) as E by (by rewrite slot_direct; [unfold ind; rewrite slot_direct|]).
      rewrite (slot_indirect C' _ l), (slot_indirect C _ l) by lia. rewrite E. fold ind. rewrite (proj2 (Z.eqb_neq ind 0) Hind).
      unfold C'. rewrite lookup_insert_eq, Hd. simpl default. unfold NSLOT, NDIRECT, NINDIRECT in *.
      destruct (decide (l = k)) as [->|Hlk].
      + rewrite decide_True by done. rewrite get32_put32_eq by lia. apply u32_small. lia.
      + rewrite decide_False by naive_solver. apply get32_put32_ne. lia.
    - rewrite decide_False by naive_solver. apply slot_frame. intros Hj0. unfold C'.
      apply lookup_insert_ne. intros E. destruct (fo_inj _ _ _ Hf i j NDIRECT NDIRECT) as [? _]; try done; unfold NSLOT; lia. }
  assert (forall j, inum_ok j -> live (D j) -> keeps C (D j) C' (D j)) as Hke.
  { intros j Hj Hlj. constructor; try done.
    - intros l Hlt Hne. rewrite Hs by done. case_decide as E; [|done]. destruct E as [-> ->]. congruence.
    - intros l Hlt Hnd Hne. unfold C'. apply lookup_insert_ne. intros E.
      destruct (fo_inj _ _ _ Hf i j NDIRECT l) as [_ ?]; try (done || congruence || (unfold NSLOT; lia)). }
  split_and!.
  - apply (attach_ok C C' D D b i k); try done.
    + lia.
    + intros l Hlt. rewrite Hs by done. destruct (decide (l = k)) as [->|]; [by rewrite decide_True|].
      rewrite decide_False by naive_solver. done.
    + intros j l Hj Hjo Hlj Hlt. rewrite Hs by done. by rewrite decide_False by naive_solver.
    + apply insert_blocks_ok; [by eapply fs_blocks|]. by rewrite length_put32.
    + intros c Hc. unfold free, C'. destruct (BBLOCK_eq c Hc). by rewrite lookup_insert_ne by lia.
  - constructor; [done|]. intros j Hj.
    destruct (IBLOCK_eq j Hj). unfold C'. by rewrite lookup_insert_ne by lia.
  - rewrite Hs by (done || lia). by rewrite decide_True.
Qed.

(** A store into a data block of inode [i]. *)
Lemma store_ok C D i k d :
  fs_ok C D [] -> inum_ok i -> live (D i) -> (k < NSLOT)%nat -> k <> NDIRECT -> slot C (D i) k <> 0 ->
  length d = 512%nat ->
  let C' := <[slot C (D i) k := d]> C in
  fs_ok C' D [] /\ (forall j, j <> i -> inum_ok j -> live (D j) -> keeps C (D j) C' (D j)) /\
  (forall l, slot C' (D i) l = slot C (D i) l) /\ forall j, inum_ok j -> C' !! IBLOCK j SB = C !! IBLOCK j SB.
Proof.
  intros Hf Hi Hl Hk Hnd Hne Hlen C'. pose proof geom_facts.
  pose proof (fo_slot _ _ _ Hf i k Hi Hl Hk Hne) as Hr.
  assert (forall j l, inum_ok j -> live (D j) -> slot C' (D j) l = slot C (D j) l) as Hs.
  { intros j l Hj Hlj. apply slot_frame. intros Hj0. apply lookup_insert_ne. intros E.
    destruct (fo_inj _ _ _ Hf i j k NDIRECT) as [_ ?]; try done. unfold NSLOT; lia. }
  split_and!.
  - apply (fs_ok_slots C D []); try done; try apply Hf.
    + apply insert_blocks_ok; [by eapply fs_blocks|done].
    + intros b Hb. rewrite <- (fo_free _ _ _ Hf b Hb). unfold free, C'. destruct (BBLOCK_eq b Hb).
      by rewrite lookup_insert_ne by lia.
  - intros j Hne' Hj Hlj. apply keeps_frame. intros l Hlt Hj0. apply lookup_insert_ne. intros E.
    destruct (fo_inj _ _ _ Hf i j k l) as [? _]; congruence.
  - intros l. by apply Hs.
  - intros j Hj. destruct (IBLOCK_eq j Hj).
    unfold C'. by rewrite lookup_insert_ne by lia.
Qed.

Lemma dip_range i : 0 <= i -> (dip i + 64 <= 512)%nat.
Proof. intros Hi. unfold dip. change IPB with 8. dlia. Qed.

Lemma dip_disjoint i j : inum_ok i -> inum_ok j -> i <> j -> IBLOCK i SB = IBLOCK j SB ->
  (dip j + 64 <= dip i \/ dip i + 64 <= dip j)%nat.
Proof.
  intros Hi Hj Hne. rewrite (proj1 (IBLOCK_eq i Hi)), (proj1 (IBLOCK_eq j Hj)). intros E.
  unfold dip, inum_ok in *. change IPB with 8 in *. dlia.
Qed.

(** A store to the disk inode [i]. *)
Lemma inode_store_ok C D X i d d' :
  fs_ok C D X -> inum_ok i -> C !! IBLOCK i SB = Some d -> stores d d' (dip i) 64 ->
  let C' := <[IBLOCK i SB := d']> C in
  fs_ok C' D X /\ (forall j, inum_ok j -> live (D j) -> keeps C (D j) C' (D j)) /\
  (forall j, inum_ok j -> j <> i -> get_dinode (default [] (C' !! IBLOCK j SB)) (dip j) =
     get_dinode (default [] (C !! IBLOCK j SB)) (dip j)).
Proof.
  intros Hf Hi Hd Hst C'. destruct (IBLOCK_eq i Hi) as [_ Hr]. pose proof geom_facts.
  destruct (fo_blk _ _ _ Hf _ (inode_blk i Hi)) as (d1 & Hd1 & Hlen). assert (d1 = d) as -> by congruence.
  destruct (fs_ok_frame C D X C' X Hf) as [Hf' Hk]; try apply Hf.
  - intros b Hb Hob. apply lookup_insert_ne. pose proof (owns_range _ _ _ _ Hf Hob Hb). lia.
  - apply insert_blocks_ok; [by eapply fs_blocks|]. destruct Hst as [-> _]. done.
  - intros b Hb. rewrite <- (fo_free _ _ _ Hf b Hb). unfold free, C'. destruct (BBLOCK_eq b Hb).
    by rewrite lookup_insert_ne by lia.
  - split_and!; [done|done|]. intros j Hj Hne. unfold C'.
    destruct (decide (IBLOCK j SB = IBLOCK i SB)) as [E|E].
    + rewrite E, lookup_insert_eq, Hd. simpl. apply (get_dinode_stores _ _ _ _ Hst).
      by apply dip_disjoint.
    + by rewrite lookup_insert_ne.
Qed.

(** What [iupdate] makes of the disk. *)
Lemma iupdate_ok C D X i d :
  fs_ok C D [] -> inum_ok i -> C !! IBLOCK i SB = Some d -> on_disk C D (i :: X) ->
  let C' := <[IBLOCK i SB := put_dinode (D i) d (dip i)]> C in
  fs_ok C' D [] /\ (forall j, inum_ok j -> live (D j) -> keeps C (D j) C' (D j)) /\ on_disk C' D X.
Proof.
  intros Hf Hi Hd Ho C'. destruct (fo_blk _ _ _ Hf _ (inode_blk i Hi)) as (d1 & Hd1 & Hlen).
  assert (d1 = d) as -> by congruence.
  destruct (inode_store_ok C D [] i d _ Hf Hi Hd (stores_put_dinode (D i) d (dip i))) as (Hf' & Hk & Hg).
  split_and!; [done|done|]. intros j Hj HjX. destruct (decide (j = i)) as [->|Hne].
  - unfold C'. rewrite lookup_insert_eq. simpl. apply get_put_dinode; [by apply Hf|].
    rewrite Hlen. apply dip_range. unfold inum_ok in Hi. lia.
  - rewrite Hg by done. apply Ho; [done|set_solver].
Qed.

(** The blocks of an inode. *)
Definition iblocks (C : gmap Z (list Z)) (x : dinode) : list Z :=
  filter (fun b => b <> 0) (slot C x <$> seq 0 NSLOT).

Lemma iblocks_elem C x b : b ∈ iblocks C x <-> b <> 0 /\ exists k, (k < NSLOT)%nat /\ slot C x k = b.
Proof.
  unfold iblocks. rewrite list_elem_of_filter, list_elem_of_fmap. split.
  - intros [H0 (k & -> & Hk%elem_of_seq)]. split; [done|]. exists k. split; [lia|done].
  - intros [H0 (k & Hk & <-)]. split; [done|]. exists k. split; [done|]. apply elem_of_seq. lia.
Qed.

Lemma NoDup_slots C x (l : list nat) :
  NoDup l -> (forall k k', k ∈ l -> k' ∈ l -> slot C x k <> 0 -> slot C x k = slot C x k' -> k = k') ->
  NoDup (filter (fun b => b <> 0) (slot C x <$> l)).
Proof.
  induction 1 as [|k l Hk Hnd IH]; intros Hinj; [constructor|]. rewrite fmap_cons, filter_cons.
  assert (NoDup (filter (fun b => b <> 0) (slot C x <$> l))) as IH'.
  { apply IH. intros. apply Hinj; [by right|by right|done|done]. }
  destruct (decide (slot C x k <> 0)) as [H0|]; [|done]. constructor; [|done].
  rewrite list_elem_of_filter, list_elem_of_fmap. intros [_ (k' & E & Hk')].
  apply Hk. rewrite (Hinj k k'); [done|left|by right|done|done].
Qed.

(** Inode [i] is taken out of the file system; its blocks are left over. *)
Lemma retire_ok C D i :
  fs_ok C D [] -> inum_ok i -> live (D i) ->
  fs_ok C (upd D i (set_dtype 0 (D i))) (iblocks C (D i)).
Proof.
  intros Hf Hi Hl. set (D' := upd D i _). pose proof geom_facts.
  assert (forall j, live (D' j) -> j <> i /\ D' j = D j) as HD.
  { intros j. unfold D', upd. case_decide as E; [by intros []|done]. }
  assert (forall b, b <> 0 -> owns C D b <-> b ∈ iblocks C (D i) \/ owns C D' b) as Ho.
  { intros b Hb. rewrite iblocks_elem. split.
    - intros (j & k & Hj & Hlj & Hk & E). destruct (decide (j = i)) as [->|Hne]; [left; eauto|right].
      exists j, k. unfold D'. by rewrite upd_ne.
    - intros [[_ (k & Hk & E)]|(j & k & Hj & Hlj & Hk & E)]; [by exists i, k|].
      destruct (HD j Hlj) as [_ E']. exists j, k. by rewrite E' in Hlj, E. }
  assert (forall b, b ∈ iblocks C (D i) -> ~ owns C D' b) as Hdis.
  { intros b [Hb (k & Hk & E)]%iblocks_elem (j & l & Hj & Hlj & Hlt & E'). destruct (HD j Hlj) as [Hne ED].
    rewrite ED in Hlj, E'. destruct (fo_inj _ _ _ Hf i j k l) as [? _]; congruence. }
  constructor.
  - apply Hf.
  - intros j Hj. unfold D', upd. case_decide; [|by apply Hf]. destruct (fo_di _ _ _ Hf i Hi). by constructor.
  - intros j k Hj Hlj Hk. destruct (HD j Hlj) as [_ E]. rewrite E in *. by apply Hf.
  - intros j1 j2 k1 k2 Hj1 Hj2 Hl1 Hl2. destruct (HD j1 Hl1) as [_ E1], (HD j2 Hl2) as [_ E2].
    rewrite E1, E2 in *. by apply Hf.
  - intros b Hb. rewrite (fo_free _ _ _ Hf b Hb). split.
    + intros (Hd & _ & Hno). rewrite Ho in Hno by lia. naive_solver.
    + intros (Hd & Hni & Hno). split_and!; [done|apply not_elem_of_nil|]. rewrite Ho by lia. naive_solver.
  - intros b Hb. pose proof (proj1 (iblocks_elem _ _ _) Hb) as [Hb0 (k & Hk & E)].
    split; [|by apply Hdis]. rewrite <- E. apply (fo_slot _ _ _ Hf); congruence.
  - apply NoDup_slots; [apply NoDup_seq|]. intros k k' Hk%elem_of_seq Hk'%elem_of_seq H0 E.
    destruct (fo_inj _ _ _ Hf i i k k') as [_ ?]; try done; lia.
  - intros j Hj Hlj. destruct (HD j Hlj) as [_ E]. rewrite E in *. by apply Hf.
Qed.

(** An inode without blocks enters the file system. *)
Lemma enter_ok C D i x P :
  fs_ok C D P -> ~ live (D i) -> di_ok x -> (forall k, slot C x k = 0) -> d_size x = 0 ->
  fs_ok C (upd D i x) P.
Proof.
  intros Hf Hnl Hdi Hz Hs. set (D' := upd D i x). pose proof geom_facts.
  assert (forall j k, live (D' j) -> slot C (D' j) k <> 0 -> D' j = D j) as HD.
  { intros j k. unfold D', upd. case_decide; [by rewrite Hz|done]. }
  assert (forall b, b <> 0 -> owns C D' b <-> owns C D b) as Ho.
  { intros b Hb. split; intros (j & k & Hj & Hlj & Hk & E); exists j, k.
    - rewrite <- (HD j k Hlj) by congruence. done.
    - assert (j <> i) by (intros ->; done). unfold D'. by rewrite upd_ne. }
  constructor.
  - apply Hf.
  - intros j Hj. unfold D', upd. case_decide; [done|by apply Hf].
  - intros j k Hj Hlj Hk Hne. pose proof (HD j k Hlj Hne) as E. rewrite E in *. by apply Hf.
  - intros j1 j2 k1 k2 Hj1 Hj2 Hl1 Hl2 Hk1 Hk2 Hne E. pose proof (HD j1 k1 Hl1 Hne) as E1.
    pose proof (HD j2 k2 Hl2 ltac:(congruence)) as E2. rewrite E1, E2 in *. by apply (fo_inj _ _ _ Hf).
  - intros b Hb. rewrite (fo_free _ _ _ Hf b Hb). destruct (decide (b = 0)) as [->|]; [intuition lia|].
    by rewrite Ho.
  - intros b Hb. destruct (fo_pend _ _ _ Hf b Hb) as [Hr Hno]. split; [done|]. by rewrite Ho by lia.
  - apply Hf.
  - intros j Hj Hlj. unfold D', upd in *. case_decide; [|by apply Hf]. rewrite Hs.
    split; [unfold MAXFILE, BSIZE; lia|]. unfold BSIZE. lia.
Qed.

(** Links and device numbers do not matter. *)
Lemma attr_ok C D D' P :
  fs_ok C D P -> (forall i, inum_ok i -> di_ok (D' i)) ->
  (forall i, d_type (D' i) = d_type (D i) /\ d_size (D' i) = d_size (D i) /\ d_addrs (D' i) = d_addrs (D i)) -> fs_ok C D' P.
Proof.
  intros Hf Hdi HD. assert (forall i k, slot C (D' i) k = slot C (D i) k) as Hsl.
  { intros i k. unfold slot. by destruct (HD i) as (_ & _ & ->). }
  assert (forall i, live (D' i) <-> live (D i)) as Hlv by (intros i; unfold live; by destruct (HD i) as (-> & _)).
  assert (forall b, owns C D' b <-> owns C D b) as How.
  { intros b. unfold owns. split; intros (i & k & ? & Hl & ? & E); exists i, k; (split_and!; [done|by apply Hlv|done|]);
      [by rewrite <- Hsl|by rewrite Hsl]. }
  destruct Hf. constructor; try done.
  - intros i k Hi Hl. rewrite Hsl. apply fo_slot0; [done|by apply Hlv].
  - intros i j k l Hi Hj Hli Hlj. rewrite !Hsl. apply fo_inj0; [done|done|by apply Hlv..].
  - intros b Hb. rewrite How. by apply fo_free0.
  - intros b Hb. rewrite How. by apply fo_pend0.
  - intros i Hi Hl. destruct (HD i) as (_ & -> & _). setoid_rewrite Hsl. apply fo_size0; [done|by apply Hlv].
Qed.

(** A file grows over blocks it has. *)
Lemma resize_ok C D i n P :
  fs_ok C D P -> inum_ok i -> 0 <= n <= MAXFILE * BSIZE ->
  (forall bn, Z.of_nat bn * BSIZE < n -> slot C (D i) (dslot bn) <> 0) ->
  fs_ok C (upd D i (set_dsize n (D i))) P.
Proof.
  intros Hf Hi Hn Hbn. set (D' := upd D i _).
  assert (forall j, live (D' j) <-> live (D j)) as Hlv.
  { intros j. unfold D', upd. case_decide; [by subst|done]. }
  assert (forall j k, slot C (D' j) k = slot C (D j) k) as Hs.
  { intros j k. unfold D', upd. case_decide; [by subst|done]. }
  assert (forall b, owns C D' b <-> owns C D b) as Ho.
  { intros b. split; intros (j & k & ? & Hlj & ? & E); exists j, k; rewrite ?Hs, ?Hlv in *; done. }
  constructor; try apply Hf.
  - intros j Hj. unfold D', upd. case_decide; [|by apply Hf]. destruct (fo_di _ _ _ Hf i Hi). constructor; try done.
    cbn [d_size set_dsize]. unfold MAXFILE, BSIZE, NDIRECT, NINDIRECT in Hn. lia.
  - intros j k Hj Hlj%Hlv Hk. rewrite Hs. by apply Hf.
  - intros j1 j2 k1 k2 Hj1 Hj2 Hl1%Hlv Hl2%Hlv. rewrite !Hs. by apply Hf.
  - intros b Hb. rewrite Ho. by apply Hf.
  - intros b Hb. rewrite Ho. by apply Hf.
  - intros j Hj Hlj%Hlv. setoid_rewrite Hs. unfold D', upd. case_decide; [|by apply Hf]. subst j. simpl. split; [lia|done].
Qed.

(** ** Contents of files *)

Lemma length_fbytes C x : length (fbytes C x) = Z.to_nat (d_size x).
Proof. unfold fbytes. by rewrite length_fmap, length_seq. Qed.

Lemma fbytes_lookup C x k : (k < Z.to_nat (d_size x))%nat -> fbytes C x !! k = Some (fbyte C x k).
Proof. intros Hk. unfold fbytes. by rewrite list_lookup_fmap, lookup_seq_lt. Qed.

(** The block of a byte of the file. *)
Lemma byte_block k n : Z.of_nat k < n -> n <= MAXFILE * BSIZE ->
  Z.of_nat (k / 512) * BSIZE < n /\ (k / 512 < NDIRECT + NINDIRECT)%nat.
Proof.
  intros Hk Hn. pose proof (Nat.div_mod k 512 ltac:(lia)). unfold MAXFILE, BSIZE, NDIRECT, NINDIRECT in *.
  split; [lia|]. apply Nat.Div0.div_lt_upper_bound. lia.
Qed.

Lemma keeps_bytes C D P C' i x' :
  fs_ok C D P -> inum_ok i -> live (D i) -> keeps C (D i) C' x' -> fbytes C' x' = fbytes C (D i).
Proof.
  intros Hf Hi Hl Hk. unfold fbytes. rewrite (ke_size _ _ _ _ Hk). apply list_fmap_ext.
  intros ? k [-> Hlt]%lookup_seq. simpl. destruct (fo_size _ _ _ Hf i Hi Hl) as [Hm Hs].
  unfold fbyte, dblk. rename i0 into k. destruct (byte_block k (d_size (D i)) ltac:(lia) Hm) as [Hb Hbn].
  pose proof (Hs _ Hb) as Hne. pose proof (dslot_lt _ Hbn) as Hsl.
  by rewrite (ke_slot _ _ _ _ Hk), (ke_blk _ _ _ _ Hk) by (done || apply dslot_ne).
Qed.

(** A data block is replaced. *)
Lemma fbyte_store C D i bn d k :
  fs_ok C D [] -> inum_ok i -> live (D i) -> (bn < NDIRECT + NINDIRECT)%nat -> (k / 512 < NDIRECT + NINDIRECT)%nat ->
  slot C (D i) (dslot bn) <> 0 -> slot C (D i) (dslot (k / 512)) <> 0 -> length d = 512%nat ->
  fbyte (<[slot C (D i) (dslot bn) := d]> C) (D i) k =
    if decide (k / 512 = bn)%nat then nth (k mod 512) d 0 else fbyte C (D i) k.
Proof.
  intros Hf Hi Hl Hbn Hkn Hne Hne' Hlen.
  destruct (store_ok C D i (dslot bn) d) as (_ & _ & Hs & _); try done; [by apply dslot_lt|apply dslot_ne|].
  unfold fbyte, dblk. rewrite Hs. destruct (decide (k / 512 = bn)%nat) as [->|Hdn].
  - by rewrite lookup_insert_eq.
  - rewrite lookup_insert_ne; [done|]. intros E.
    destruct (fo_inj _ _ _ Hf i i (dslot bn) (dslot (k / 512))) as [_ E']; try done; [by apply dslot_lt..|].
    by apply dslot_inj in E'.
Qed.

(** ** Free blocks *)

Definition nfree (C : gmap Z (list Z)) : nat := length (filter (fun b => free C b = true) (seqZ 0 (sb_size SB))).

Lemma nfree_alloc C D P b :
  fs_ok C D P -> blk_ok b -> free C b = true -> nfree C = S (nfree (alloc_blk b C)).
Proof.
  intros Hf Hb Hfr. unfold nfree. change (S (length ?l)) with (length (b :: l)). apply Permutation_length.
  apply NoDup_Permutation.
  - apply NoDup_filter, NoDup_seqZ.
  - constructor; [|apply NoDup_filter, NoDup_seqZ]. intros [E _]%list_elem_of_filter.
    rewrite (free_alloc C D P), Z.eqb_refl, andb_false_r in E by done. done.
  - intros c. rewrite elem_of_cons, !list_elem_of_filter, !elem_of_seqZ. unfold blk_ok in Hb. split.
    + intros [Hc Hr]. destruct (decide (c = b)) as [->|Hne]; [by left|right]. split; [|done].
      rewrite (free_alloc C D P) by (done || unfold blk_ok; lia). rewrite Hc. simpl.
      by rewrite negb_true_iff, Z.eqb_neq.
    + intros [->|[Hc Hr]]; [split; [done|lia]|]. split; [|done].
      rewrite (free_alloc C D P) in Hc by (done || unfold blk_ok; lia). by apply andb_true_iff in Hc as [? _].
Qed.

Lemma nfree_some C : (0 < nfree C)%nat -> exists b, blk_ok b /\ free C b = true.
Proof.
  unfold nfree. destruct (filter _ _) as [|b l] eqn:E; simpl; [lia|]. intros _. exists b.
  assert (b ∈ b :: l) as Hb by left. rewrite <- E in Hb. apply list_elem_of_filter in Hb as [? ?%elem_of_seqZ].
  split; [unfold blk_ok; lia|done].
Qed.

(** Blocks other than the bitmap do not matter. *)
Lemma nfree_ext C C' : (forall b, blk_ok b -> free C' b = free C b) -> nfree C' = nfree C.
Proof.
  intros H. unfold nfree. apply Permutation_length, NoDup_Permutation; [apply NoDup_filter, NoDup_seqZ..|].
  intros b. rewrite !list_elem_of_filter, elem_of_seqZ. split; intros [Hb Hr];
    (split; [|done]); [rewrite <- H|rewrite H]; done || unfold blk_ok; lia.
Qed.

Lemma nfree_mono C C' : (forall b, blk_ok b -> free C b = true -> free C' b = true) -> (nfree C <= nfree C')%nat.
Proof.
  intros H. unfold nfree. apply submseteq_length, NoDup_submseteq; [apply NoDup_filter, NoDup_seqZ|].
  intros b. rewrite !list_elem_of_filter, elem_of_seqZ. intros [Hb Hr]. split; [|done]. apply H; [unfold blk_ok; lia|done].
Qed.

Lemma free_insert C n d b :
  blk_ok b -> n < sb_bmapstart SB \/ dstart <= n -> free (<[n := d]> C) b = free C b.
Proof. intros Hb Hn. unfold free. destruct (BBLOCK_eq b Hb). by rewrite lookup_insert_ne by lia. Qed.
End disk.
