(* ===== verification/Xv6Iops.v ===== *)
(** * Running xv6's file system code in a transaction (lab2/fs.c)

    [wpa] is total correctness of a routine of fs.c inside a transaction, over
    the inode cache, the buffers held, the contents of the blocks and the blocks
    logged.  The rules of the block layer, and the allocator of blocks. *)

From S2P Require Import Prelude CMem Xv6Lock Xv6Proc Xv6World Xv6Bio Xv6Log Xv6Crash Xv6Reserve Xv6Txn Xv6Inode Xv6Disk.
From stdpp Require Import base numbers option list gmap strings.
Open Scope Z_scope.

Record astate : Type := AS {
  a_ic : list inode; a_held : list (nat * Z); a_blk : gmap Z (list Z); a_log : list Z }.

(** A routine of the block layer, in the state of the file system. *)
Lemma wpx_bl o pd {A} (m : MF A) H r (Q : A -> list nat -> fs -> Prop) :
  wpx o pd H (blk r) m Q -> wpx o pd H r (bl m) (fun a H' r' => exists b, Q a H' b /\ r' = with_blk b r).
Proof.
  intros Hm s [Hh Hl Hp] <-. assert (world o pd H (with_part (blk (x_rest s)) s)) as Hw by (by constructor).
  specialize (Hm _ Hw eq_refl). unfold wp, bl in *.
  destruct (m (with_part (blk (x_rest s)) s)) as [a s'|msg s'|]; [|done|done].
  destruct Hm as (H' & [Hh' Hl' Hp'] & HQ). exists H'. split; [by constructor|]. by exists (x_rest s').
Qed.

Lemma bl_bind {A B} (m : MF A) (f : A -> MF B) s : bl (m ≫= f) s = (bl m ≫= fun a => bl (f a)) s.
Proof.
  unfold bl, mbind, M_bind. destruct (m _) as [a s'|msg s'|]; [|done|done].
  destruct s'; simpl. destruct (f a _) as [b s''|msg s''|]; done.
Qed.

Section iops.
Context (cur : nat) (pd : Z) (SB : superblock).
Notation wpi := (wpx (R := ist) (Some cur) pd).

Record aok (a : astate) (r : ist) : Prop := Aok {
  ao_ic : icache r = a_ic a;
  ao_sb : sb r = SB;
  ao_tx : intx pd (sb_logstart SB) (sb_nlog SB) (blk r) (a_held a) (a_blk a) (a_log a);
  ao_len : Z.of_nat (length (disk (blk r))) = sb_size SB }.

Definition wpa {A} (m : MI A) (a : astate) (Q : A -> astate -> Prop) : Prop :=
  forall r, aok a r -> wpi [] r m (fun v H' r' => H' = [] /\ quiet (blk r) (blk r') /\ exists a', aok a' r' /\ Q v a').

Lemma wpa_ret {A} (v : A) a (Q : A -> astate -> Prop) : Q v a -> wpa (mret v) a Q.
Proof. intros HQ r Ha. apply wpx_ret. split; [done|]. split; [done|]. eauto. Qed.

Lemma wpa_bind {A B} (m : MI A) (f : A -> MI B) a Q1 Q :
  wpa m a Q1 -> (forall v a', Q1 v a' -> wpa (f v) a' Q) -> wpa (m ≫= f) a Q.
Proof.
  intros Hm Hf r Ha. eapply wpx_bind; [by apply Hm|]. intros v H' r' (-> & (Hq1 & Hq2 & Hq3) & a' & Ha' & HQ).
  eapply wpx_mono; [by apply (Hf v a')|]. intros w H'' r'' (-> & (Hq4 & Hq5 & Hq6) & H).
  split; [done|]. split; [split_and!; congruence|done].
Qed.

Lemma wpa_ret_bind {A B} (v : A) (f : A -> MI B) a Q : wpa (f v) a Q -> wpa (mret v ≫= f) a Q.
Proof. done. Qed.

Lemma wpa_mono {A} (m : MI A) a (Q Q' : A -> astate -> Prop) :
  wpa m a Q -> (forall v a', Q v a' -> Q' v a') -> wpa m a Q'.
Proof.
  intros Hm HQ r Ha. eapply wpx_mono; [by apply Hm|]. intros v H' r' (-> & Hq & a' & Ha' & H). eauto 6.
Qed.

Lemma wpa_sb a : wpa (igets sb) a (fun s a' => s = SB /\ a' = a).
Proof.
  intros r Ha. eapply wpx_mono; [apply wpx_gets|]. intros s H' r' (-> & -> & ->).
  split; [done|]. split; [done|]. exists a. split; [done|]. by rewrite (ao_sb _ _ Ha).
Qed.

(** No block is logged twice. *)
Lemma wpa_nodup {A} (m : MI A) a Q : (NoDup (a_log a) -> wpa m a Q) -> wpa m a Q.
Proof. intros H r Ha. apply H; [|done]. exact (ly_nodup _ _ _ _ (ix_layout _ _ _ _ _ _ _ (ao_tx _ _ Ha))). Qed.

Lemma wpa_iread a i x : a_ic a !! i = Some x -> wpa (iread i) a (fun y a' => y = x /\ a' = a).
Proof.
  intros Hi r Ha s Hw <-. unfold wp, iread. rewrite (ao_ic _ _ Ha), Hi. exists []. split; [done|].
  split; [done|]. split; [done|]. by exists a.
Qed.

Definition set_ic (l : list inode) (a : astate) : astate := AS l (a_held a) (a_blk a) (a_log a).

Lemma aok_set_ic a r l : aok a r -> aok (set_ic l a) (with_icache l r).
Proof. intros [? ? ? ?]. by constructor. Qed.

Lemma wpa_iupd a i x f :
  a_ic a !! i = Some x -> wpa (iupd i f) a (fun _ a' => a' = set_ic (<[i := f x]> (a_ic a)) a).
Proof.
  intros Hi r Ha. eapply wpx_mono; [apply wpx_modify|]. intros _ H' r' [-> ->]. split; [done|]. split; [done|].
  exists (set_ic (<[i := f x]> (a_ic a)) a). split; [|done].
  replace (alter f i (icache r)) with (<[i := f x]> (a_ic a)); [by apply aok_set_ic|].
  rewrite (ao_ic _ _ Ha). apply list_eq. intros j. destruct (decide (i = j)) as [<-|Hne].
  - rewrite list_lookup_insert_eq by (by eapply lookup_lt_Some). by rewrite list_lookup_alter_eq, Hi.
  - by rewrite list_lookup_insert_ne, list_lookup_alter_ne.
Qed.

(** A counting loop. *)
Lemma wpa_for_seq (I : nat -> astate -> Prop) (body : nat -> MI unit) n a :
  I 0%nat a -> (forall t a', (t < n)%nat -> I t a' -> wpa (body t) a' (fun _ a'' => I (S t) a'')) ->
  wpa (for_each (seq 0 n) body) a (fun _ a' => I n a').
Proof.
  intros H0 Hstep.
  assert (forall k t a', (t + k = n)%nat -> I t a' -> wpa (for_each (seq t k) body) a' (fun _ a'' => I n a'')) as Hl;
    [|by apply (Hl n 0%nat)].
  induction k as [|k IH]; intros t a' Ht HI; simpl.
  - apply wpa_ret. by replace n with t by lia.
  - eapply wpa_bind; [apply Hstep; [lia|done]|]. intros ? a'' HI'. apply IH; [lia|done].
Qed.

(** A routine of the block layer that keeps to a transaction. *)
Lemma wpa_bl {A} (m : MF A) a (Q : A -> list (nat * Z) -> gmap Z (list Z) -> list Z -> Prop) :
  (forall r, intx pd (sb_logstart SB) (sb_nlog SB) r (a_held a) (a_blk a) (a_log a) ->
     Z.of_nat (length (disk r)) = sb_size SB ->
     wpx (Some cur) pd [] r m (fun v H' r' => H' = [] /\ quiet r r' /\
       exists L C S, intx pd (sb_logstart SB) (sb_nlog SB) r' L C S /\ Q v L C S)) ->
  wpa (bl m) a (fun v a' => exists L C S, a' = AS (a_ic a) L C S /\ Q v L C S).
Proof.
  intros Hm r Ha. eapply wpx_mono; [apply wpx_bl, (Hm (blk r)); apply Ha|].
  intros v H' r' (b & (-> & Hq & L & C & S & Hx & HQ) & ->). split; [done|]. split; [done|].
  exists (AS (a_ic a) L C S). split; [|eauto 6]. destruct Ha, Hq as [Hq _]. constructor; try done. simpl. by rewrite Hq.
Qed.

Section rules.
Context (G : geom SB).

Lemma wpa_bread fuel bswtch a n d :
  (0 < fuel)%nat -> a_blk a !! n = Some d -> n ∉ (a_held a).*2 -> (length (a_held a) + length (a_log a) < NBUF)%nat ->
  wpa (bread fuel bswtch 1 n) a (fun i a' => a' = AS (a_ic a) ((i, n) :: a_held a) (a_blk a) (a_log a)).
Proof.
  intros Hfuel Hn HnL Hroom. eapply wpa_mono.
  { apply (wpa_bl _ a (fun i L C S => L = (i, n) :: a_held a /\ C = a_blk a /\ S = a_log a)). intros r Hx Hlen.
    eapply wpx_mono; [by eapply wpf_tx_bread|]. intros i H' r' (-> & Hx' & Hq). split; [done|]. split; [done|].
    eauto 8. }
  intros i a' (L & C & S & -> & -> & -> & ->). done.
Qed.

Lemma wpa_brelse a i n L' :
  a_held a ≡ₚ (i, n) :: L' ->
  wpa (brelse i) a (fun _ a' => a' = AS (a_ic a) L' (a_blk a) (a_log a)).
Proof.
  intros HP. eapply wpa_mono.
  { apply (wpa_bl _ a (fun _ L C S => L = L' /\ C = a_blk a /\ S = a_log a)). intros r Hx Hlen.
    eapply wpx_mono; [by eapply wpf_tx_brelse|]. intros _ H' r' (-> & Hx' & Hq). split; [done|]. split; [done|].
    eauto 8. }
  intros _ a' (L & C & S & -> & -> & -> & ->). done.
Qed.

Lemma wpa_bdata a i n d :
  (i, n) ∈ a_held a -> a_blk a !! n = Some d -> wpa (bdata i) a (fun d' a' => d' = d /\ a' = a).
Proof.
  intros Hi Hd. unfold bdata. eapply wpa_bind.
  { apply (wpa_bl _ a (fun b L C S => data b = d /\ L = a_held a /\ C = a_blk a /\ S = a_log a)). intros r Hx Hlen.
    eapply wpx_mono; [by eapply wpf_tx_get|]. intros b H' r' (-> & -> & Hb). split; [done|]. split; [done|].
    eexists _, _, _. split; [done|]. split_and!; congruence. }
  intros b a' (L & C & S & -> & Hb & -> & -> & ->). apply wpa_ret. destruct a. done.
Qed.

(** The blocks the file system writes: those after the log. *)
Lemma home_block n : sb_inodestart SB <= n < sb_size SB -> home (sb_logstart SB) (sb_nlog SB) (sb_size SB) n /\ n <> 1.
Proof.
  intros Hn. pose proof (geom_facts SB G). pose proof (ge_ino _ G). pose proof (ge_nlog _ G). pose proof (ge_log _ G).
  unfold home. lia.
Qed.

(** A store followed by [log_write]. *)
Lemma wpa_write {A} a i n d f (k : unit -> MI A) Q :
  (i, n) ∈ a_held a -> a_blk a !! n = Some d -> sb_inodestart SB <= n -> (length (a_log a) < 29)%nat ->
  wpa (k tt) (AS (a_ic a) (a_held a) (<[n := f d]> (a_blk a)) (add_block n (a_log a))) Q ->
  wpa (bstore i f ≫= fun _ => log_write i ≫= k) a Q.
Proof.
  intros Hi Hd Hn HS Hk.
  assert (wpa (bl (buf_upd i (fun b => set_data (f (data b)) b) ≫= fun _ => Xv6Log.log_write i)) a
    (fun _ a' => a' = AS (a_ic a) (a_held a) (<[n := f d]> (a_blk a)) (add_block n (a_log a)))) as H.
  { eapply wpa_mono.
    { apply (wpa_bl _ a (fun _ L C S => L = a_held a /\ C = <[n := f d]> (a_blk a) /\ S = add_block n (a_log a))).
      intros r Hx Hlen. pose proof (intx_range _ _ _ _ _ _ _ _ _ Hx Hd) as Hr. rewrite Hlen in Hr.
      destruct (home_block n ltac:(lia)) as [Hh H1]. pose proof (ge_nlog _ G).
      eapply wpx_mono; [eapply (wpf_tx_write _ _ _ _ r _ _ _ i n d f Hx Hi Hd); [by rewrite Hlen|done| |lia]|].
      { unfold LOGSIZE. lia. }
      intros _ H' r' (-> & Hx' & Hq). split; [done|]. split; [done|]. eauto 8. }
    intros _ a' (L & C & S & -> & -> & -> & ->). done. }
  intros r Ha s Hw Hr. assert (wpa (bl (buf_upd i (fun b => set_data (f (data b)) b) ≫= fun _ => Xv6Log.log_write i) ≫= k)
    a Q) as H2 by (eapply wpa_bind; [exact H|]; by intros [] ? ->).
  specialize (H2 r Ha s Hw Hr). unfold wp in *. unfold mbind at 1, M_bind at 1 in H2. rewrite bl_bind in H2.
  unfold mbind, M_bind in *. fold (bstore i f) in H2. fold (log_write i) in H2.
  destruct (bstore i f s) as [[] s1|msg s1|]; done.
Qed.
End rules.

(** ** The allocator of blocks *)

Section routines.
Context (fuel : nat) (bswtch : MF unit) (Hfuel : (0 < fuel)%nat) (G : geom SB).

Lemma scan_bits_spec k d size b bi :
  0 <= bi <= BPB -> BPB - bi <= Z.of_nat k ->
  match scan_bits k d size b bi with
  | Some j => bi <= j < BPB /\ b + j < size /\ bit_clear d j = true
  | None => forall l, bi <= l < BPB -> b + l < size -> bit_clear d l = false
  end.
Proof.
  revert bi. induction k as [|k IH]; intros bi Hbi Hk; simpl; [intros l ? ?; lia|].
  destruct (Z.ltb_spec bi BPB) as [Hlt|Hge]; simpl; [|intros l ? ?; lia].
  destruct (Z.ltb_spec (b + bi) size) as [Hs|Hs]; [|intros l ? ?; lia].
  destruct (bit_clear d bi) eqn:E; [split_and!; try done; lia|].
  specialize (IH (bi + 1) ltac:(lia) ltac:(lia)). destruct (scan_bits k d size b (bi + 1)) as [j|].
  - destruct IH as (? & ? & ?). split_and!; try done; lia.
  - intros l Hl Hls. destruct (decide (l = bi)) as [->|]; [done|]. apply IH; lia.
Qed.

(** Buffers that may stay held across an allocation. *)
Definition held_ok (a : astate) : Prop :=
  (length (a_held a) <= 3)%nat /\
  forall n, n ∈ (a_held a).*2 -> dstart SB <= n < sb_size SB /\ free SB (a_blk a) n = false.

Lemma wpa_bzero a b d :
  a_blk a !! b = Some d -> b ∉ (a_held a).*2 -> (length (a_held a) <= 3)%nat -> (length (a_log a) < 26)%nat ->
  sb_inodestart SB <= b ->
  wpa (bzero fuel bswtch 1 b) a
    (fun _ a' => a' = AS (a_ic a) (a_held a) (<[b := zeros]> (a_blk a)) (add_block b (a_log a))).
Proof.
  intros Hd Hb Hh HS Hn. unfold bzero. eapply wpa_bind; [apply (wpa_bread fuel bswtch a b d); try done; unfold NBUF; lia|].
  intros i ? ->. eapply (wpa_write G _ i b d (fun _ => zeros)); simpl; [left|done|lia|lia|].
  eapply wpa_mono; [by apply (wpa_brelse _ i b (a_held a))|]. by intros _ ? ->.
Qed.

Lemma block_of b bi : b mod BPB = 0 -> bit_index bi -> (b + bi) / BPB = b / BPB /\ (b + bi) mod BPB = bi.
Proof. unfold bit_index. change BPB with 4096. intros. dlia. Qed.

Lemma wpa_balloc_loop k b a D P c :
  fs_ok SB (a_blk a) D P -> held_ok a -> (length (a_log a) < 24)%nat ->
  0 <= b -> b mod BPB = 0 -> sb_size SB - b < BPB * Z.of_nat k -> b <= c ->
  blk_ok SB c -> free SB (a_blk a) c = true ->
  wpa (balloc_loop fuel bswtch k 1 b) a (fun n a' => blk_ok SB n /\ free SB (a_blk a) n = true /\
    a' = AS (a_ic a) (a_held a) (alloc_blk SB n (a_blk a)) (add_block n (add_block (BBLOCK n SB) (a_log a)))).
Proof.
  intros Hf Hh HS Hb0 Hbm Hk Hbc Hc Hfc. pose proof (geom_facts SB G) as Hg. revert b Hb0 Hbm Hk Hbc.
  induction k as [|k IH]; intros b Hb0 Hbm Hk Hbc; [unfold blk_ok in Hc; lia|]. cbn [balloc_loop].
  eapply wpa_bind; [apply wpa_sb|]. intros s ? [-> ->].
  assert (blk_ok SB b) as Hbo by (unfold blk_ok in *; lia).
  rewrite (proj2 (Z.ltb_lt b (sb_size SB))) by (unfold blk_ok in Hbo; lia).
  destruct (BBLOCK_eq SB G b Hbo) as [HB HBr]. destruct (fo_blk _ _ _ _ Hf _ (bitmap_blk SB G b Hbo)) as (d & Hd & Hlen).
  destruct Hh as [Hh1 Hh2].
  eapply wpa_bind; [apply (wpa_bread fuel bswtch a (BBLOCK b SB) d); try done|].
  { intros Hin%Hh2. lia. } { unfold NBUF. lia. }
  intros i ? ->. eapply wpa_bind; [by apply (wpa_bdata _ i (BBLOCK b SB) d); [left|]|].
  intros ? ? [-> ->].
  pose proof (scan_bits_spec (Z.to_nat BPB) d (sb_size SB) b 0 ltac:(change BPB with 4096; lia) ltac:(change BPB with 4096; lia)) as Hsc.
  assert (forall l, bit_index l -> b + l < sb_size SB -> free SB (a_blk a) (b + l) = bit_clear d l) as Hfree.
  { intros l Hl Hls. destruct (block_of b l Hbm Hl) as [E1 E2].
    assert (BBLOCK (b + l) SB = BBLOCK b SB) as E by (unfold BBLOCK; by rewrite E1).
    unfold free. by rewrite E, Hd, E2. }
  destruct (scan_bits _ d (sb_size SB) b 0) as [bi|].
  - destruct Hsc as (Hbi & Hlt & Hcl). assert (bit_index bi) as Hidx by (unfold bit_index; lia).
    destruct (block_of b bi Hbm Hidx) as [E1 E2].
    assert (BBLOCK (b + bi) SB = BBLOCK b SB) as EB by (unfold BBLOCK; by rewrite E1).
    assert (blk_ok SB (b + bi)) as Hbb by (unfold blk_ok, bit_index in *; lia).
    assert (free SB (a_blk a) (b + bi) = true) as Hfb by (by rewrite Hfree).
    pose proof (proj1 (fo_free _ _ _ _ Hf _ Hbb) Hfb) as (Hds & _ & _).
    destruct (fo_blk _ _ _ _ Hf (b + bi) ltac:(unfold fblk; unfold blk_ok in Hbb; lia)) as (db & Hdb & _).
    eapply (wpa_write G _ i (BBLOCK b SB) d (bit_set bi)); cbn [a_held a_blk a_log a_ic]; [left|done|lia|lia|].
    eapply wpa_bind; [by apply (wpa_brelse _ i (BBLOCK b SB) (a_held a))|]. intros _ ? ->. cbn [a_held a_blk a_log a_ic].
    pose proof (add_block_length (BBLOCK b SB) (a_log a)).
    eapply wpa_bind; [eapply (wpa_bzero _ (b + bi) db); cbn [a_held a_blk a_log a_ic]|].
    { rewrite lookup_insert_ne by lia. done. }
    { intros [_ ?]%Hh2. congruence. } { done. } { lia. } { lia. }
    intros _ ? ->. apply wpa_ret. split_and!; [done|done|]. cbn [a_held a_blk a_log a_ic].
    unfold alloc_blk, mark. by rewrite EB, E2, Hd.
  - eapply wpa_bind; [by apply (wpa_brelse _ i (BBLOCK b SB) (a_held a))|]. intros _ ? ->.
    cbn [a_held a_blk a_log a_ic]. replace (AS (a_ic a) (a_held a) (a_blk a) (a_log a)) with a by (by destruct a).
    rewrite i32_small by (unfold blk_ok in Hbo; change BPB with 4096; lia).
    apply IH; change BPB with 4096 in *; [lia|dlia|lia|].
    destruct (decide (b + 4096 <= c)) as [|Hge]; [done|]. exfalso.
    assert (bit_index (c - b)) as Hix by (unfold bit_index; change BPB with 4096; lia).
    assert (bit_clear d (c - b) = false) as Hbc' by (apply Hsc; unfold blk_ok in Hc; lia).
    rewrite <- (Hfree (c - b) Hix) in Hbc' by (unfold blk_ok in Hc; lia).
    replace (b + (c - b)) with c in Hbc' by lia. congruence.
Qed.

Lemma wpa_balloc a D P :
  fs_ok SB (a_blk a) D P -> held_ok a -> (length (a_log a) < 24)%nat -> (0 < nfree SB (a_blk a))%nat ->
  wpa (balloc fuel bswtch 1) a (fun n a' => blk_ok SB n /\ free SB (a_blk a) n = true /\
    a' = AS (a_ic a) (a_held a) (alloc_blk SB n (a_blk a)) (add_block n (add_block (BBLOCK n SB) (a_log a)))).
Proof.
  intros Hf Hh HS (c & Hc & Hfc)%nfree_some. unfold balloc. eapply wpa_bind; [apply wpa_sb|]. intros s ? [-> ->].
  eapply (wpa_balloc_loop _ 0 a D P c); try done.
  - change BPB with 4096. unfold blk_ok in Hc. dlia.
  - unfold blk_ok in Hc. lia.
Qed.

Lemma wpa_bfree a D P P' b :
  fs_ok SB (a_blk a) D P -> P ≡ₚ b :: P' -> held_ok a -> (length (a_log a) < 26)%nat ->
  wpa (bfree fuel bswtch 1 b) a (fun _ a' =>
    a' = AS (a_ic a) (a_held a) (free_blk SB b (a_blk a)) (add_block (BBLOCK b SB) (a_log a))).
Proof.
  intros Hf HP [Hh1 Hh2] HS. pose proof (geom_facts SB G) as Hg.
  destruct (fo_pend _ _ _ _ Hf b) as [Hb Hno]; [rewrite HP; left|].
  assert (blk_ok SB b) as Hbo by (unfold blk_ok; lia).
  destruct (BBLOCK_eq SB G b Hbo) as [HB HBr]. destruct (fo_blk _ _ _ _ Hf _ (bitmap_blk SB G b Hbo)) as (d & Hd & Hlen).
  unfold bfree. eapply wpa_bind; [apply wpa_sb|]. intros s ? [-> ->].
  eapply wpa_bind; [apply (wpa_bread fuel bswtch a (BBLOCK b SB) d); try done|].
  { intros Hin%Hh2. lia. } { unfold NBUF. lia. }
  intros i ? ->. cbv zeta. eapply wpa_bind; [by apply (wpa_bdata _ i (BBLOCK b SB) d); [left|]|].
  intros ? ? [-> ->].
  assert (bit_clear d (b mod BPB) = false) as ->.
  { apply not_true_iff_false. intros E. assert (free SB (a_blk a) b = true) as Hfr by (unfold free; by rewrite Hd).
    apply (fo_free _ _ _ _ Hf b Hbo) in Hfr as (_ & Hni & _). apply Hni. rewrite HP. left. }
  eapply (wpa_write G _ i (BBLOCK b SB) d (bit_reset (b mod BPB))); cbn [a_held a_blk a_log a_ic]; [left|done|lia|lia|].
  eapply wpa_mono; [by apply (wpa_brelse _ i (BBLOCK b SB) (a_held a))|]. intros _ ? ->.
  cbn [a_held a_blk a_log a_ic]. unfold free_blk, mark. by rewrite Hd.
Qed.

(** ** Disk inodes *)

Lemma wpa_iupdate a ip x d :
  a_ic a !! ip = Some x -> i_dev x = 1 -> inum_ok SB (i_inum x) -> a_blk a !! IBLOCK (i_inum x) SB = Some d ->
  a_held a = [] -> (length (a_log a) < 29)%nat ->
  wpa (iupdate fuel bswtch ip) a (fun _ a' => a' = AS (a_ic a) []
    (<[IBLOCK (i_inum x) SB := put_dinode (i_di x) d (dip (i_inum x))]> (a_blk a)) (add_block (IBLOCK (i_inum x) SB) (a_log a))).
Proof.
  intros Hx Hdev Hi Hd Hh HS. destruct (IBLOCK_eq SB G _ Hi) as [_ Hr]. unfold iupdate.
  eapply wpa_bind; [apply wpa_sb|]. intros s ? [-> ->]. eapply wpa_bind; [by apply wpa_iread|]. intros ? ? [-> ->].
  rewrite Hdev. eapply wpa_bind; [apply (wpa_bread fuel bswtch a _ d); rewrite ?Hh; try done; [apply not_elem_of_nil|unfold NBUF; simpl; lia]|].
  intros bp ? ->. eapply (wpa_write G _ bp (IBLOCK (i_inum x) SB) d (fun d => put_dinode (i_di x) d (dip (i_inum x))));
    cbn [a_held a_blk a_log a_ic]; [left|done|lia|lia|].
  eapply wpa_mono; [by apply (wpa_brelse _ bp (IBLOCK (i_inum x) SB) (a_held a))|]. intros _ ? ->. by rewrite Hh.
Qed.
End routines.
End iops.
