(* ===== verification/Xv6Content.v ===== *)
(** * Contents of xv6 files (lab2/fs.c)

    [bmap] and the routines on it: [readi] returns the bytes of the file,
    [writei] replaces them, growing the file, and [itrunc] gives all blocks of
    the file back; no other file changes. *)

From S2P Require Import Prelude CMem Xv6Lock Xv6Proc Xv6World Xv6Bio Xv6Log Xv6Txn Xv6Inode Xv6Disk Xv6Iops.
From stdpp Require Import base numbers option list gmap strings.
Open Scope Z_scope.

Section growth.
Context (SB : superblock) (G : geom SB).

(** Inode [i] gets blocks in the slots [K]; [W] are the blocks logged. *)
Record grew (i : Z) (K : list nat) (C : gmap Z (list Z)) (W : list Z) (D : Z -> dinode)
    (C' : gmap Z (list Z)) (W' : list Z) (D' : Z -> dinode) : Prop := Grew {
  gr_ok : fs_ok SB C' D' [];
  gr_D j : j <> i -> D' j = D j;
  gr_keeps j : inum_ok SB j -> live (D j) -> keeps C (D j) C' (D' j);
  gr_inodes j : inum_ok SB j -> C' !! IBLOCK j SB = C !! IBLOCK j SB;
  gr_slots k : (k < NSLOT)%nat -> k ∉ K -> slot C' (D' i) k = slot C (D i) k;
  gr_new k : k ∈ K -> (k < NSLOT)%nat /\ slot C' (D' i) k <> 0;
  gr_log m : m ∈ W' -> m ∈ W \/ exists k, k ∈ K /\ (m = slot C' (D' i) k \/ m = BBLOCK (slot C' (D' i) k) SB);
  gr_in k : k ∈ K -> slot C' (D' i) k ∈ W';
  gr_sub m : m ∈ W -> m ∈ W';
  gr_len : (length W' <= length W + 3 * length K)%nat;
  gr_free : (nfree SB C <= nfree SB C' + length (filter (fun k => slot C (D i) k = 0%Z) K))%nat }.

Lemma grew_refl i C W D : fs_ok SB C D [] -> grew i [] C W D C W D.
Proof.
  intros Hf. constructor; try done; try (simpl; lia).
  - intros k Hk. by apply not_elem_of_nil in Hk.
  - intros m Hm. by left.
  - intros k Hk. by apply not_elem_of_nil in Hk.
Qed.

Lemma grew_live i K C W D C' W' D' :
  grew i K C W D C' W' D' -> inum_ok SB i -> live (D i) -> live (D' i).
Proof. intros Hg Hi Hl. unfold live. by rewrite (ke_type _ _ _ _ (gr_keeps _ _ _ _ _ _ _ _ Hg i Hi Hl)). Qed.

Lemma filter_length_mono {A} (P Q : A -> Prop) `{!forall x, Decision (P x)} `{!forall x, Decision (Q x)} (l : list A) :
  (forall x, x ∈ l -> P x -> Q x) -> (length (filter P l) <= length (filter Q l))%nat.
Proof.
  induction l as [|x l IH]; intros HPQ; [done|]. rewrite !filter_cons.
  assert (length (filter P l) <= length (filter Q l))%nat by (apply IH; intros; apply HPQ; [by right|done]).
  pose proof (HPQ x ltac:(left)). repeat case_decide; simpl; try lia. exfalso; auto.
Qed.

Lemma grew_trans i K1 K2 C1 W1 D1 C2 W2 D2 C3 W3 D3 :
  inum_ok SB i -> live (D1 i) ->
  grew i K1 C1 W1 D1 C2 W2 D2 -> grew i K2 C2 W2 D2 C3 W3 D3 -> grew i (K1 ++ K2) C1 W1 D1 C3 W3 D3.
Proof.
  intros Hi Hl H12 H23. pose proof (grew_live _ _ _ _ _ _ _ _ H12 Hi Hl) as Hl2.
  pose proof (gr_keeps _ _ _ _ _ _ _ _ H12) as Hk12. pose proof (gr_keeps _ _ _ _ _ _ _ _ H23) as Hk23.
  assert (forall k, k ∈ K1 -> slot C3 (D3 i) k = slot C2 (D2 i) k) as Hs.
  { intros k Hk. destruct (gr_new _ _ _ _ _ _ _ _ H12 k Hk). by apply (ke_slot _ _ _ _ (Hk23 i Hi Hl2)). }
  constructor.
  - apply H23.
  - intros j Hj. by rewrite (gr_D _ _ _ _ _ _ _ _ H23), (gr_D _ _ _ _ _ _ _ _ H12).
  - intros j Hj Hlj. eapply keeps_trans; [by apply Hk12|]. apply Hk23; [done|].
    unfold live. by rewrite (ke_type _ _ _ _ (Hk12 j Hj Hlj)).
  - intros j Hj. by rewrite (gr_inodes _ _ _ _ _ _ _ _ H23), (gr_inodes _ _ _ _ _ _ _ _ H12).
  - intros k Hk HK. rewrite (gr_slots _ _ _ _ _ _ _ _ H23), (gr_slots _ _ _ _ _ _ _ _ H12); set_solver.
  - intros k [Hk|Hk]%elem_of_app; [|by apply H23]. rewrite Hs by done. by apply H12.
  - intros m [Hm|(k & Hk & Hm)]%(gr_log _ _ _ _ _ _ _ _ H23).
    + apply (gr_log _ _ _ _ _ _ _ _ H12) in Hm as [Hm|(k & Hk & Hm)]; [by left|right].
      exists k. rewrite Hs by done. split; [set_solver|done].
    + right. exists k. split; [set_solver|done].
  - intros k [Hk|Hk]%elem_of_app; [|by apply H23]. rewrite Hs by done. by apply H23, H12.
  - intros m Hm. by apply H23, H12.
  - pose proof (gr_len _ _ _ _ _ _ _ _ H12). pose proof (gr_len _ _ _ _ _ _ _ _ H23). rewrite length_app. lia.
  - pose proof (gr_free _ _ _ _ _ _ _ _ H12) as F1. pose proof (gr_free _ _ _ _ _ _ _ _ H23) as F2.
    rewrite filter_app, length_app. eapply Nat.le_trans; [exact F1|].
    enough (length (filter (fun k => slot C2 (D2 i) k = 0%Z) K2) <= length (filter (fun k => slot C1 (D1 i) k = 0%Z) K2))%nat by lia.
    apply filter_length_mono. intros k Hk E. destruct (decide (slot C1 (D1 i) k = 0)) as [|Hne]; [done|].
    destruct (gr_new _ _ _ _ _ _ _ _ H23 k Hk) as [Hkn _].
    by rewrite <- (ke_slot _ _ _ _ (Hk12 i Hi Hl) k Hkn Hne), E.
Qed.

Lemma grew_slots i K K' C W D C' W' D' :
  grew i K C W D C' W' D' -> (forall k, k ∈ K <-> k ∈ K') -> (length W' <= length W + 3 * length K')%nat ->
  (nfree SB C <= nfree SB C' + length (filter (fun k => slot C (D i) k = 0%Z) K'))%nat ->
  grew i K' C W D C' W' D'.
Proof.
  intros [] HK Hlen Hfree. constructor; try done.
  - intros k Hk HkK. apply gr_slots0; [done|]. by rewrite HK.
  - intros k Hk. apply gr_new0. by rewrite HK.
  - intros m Hm. destruct (gr_log0 m Hm) as [?|(k & Hk & ?)]; [by left|right]. exists k. by rewrite <- HK.
  - intros k Hk. apply gr_in0. by rewrite HK.
Qed.

(** A fresh block as direct or indirect block. *)
Lemma grew_addr i k b C W D :
  fs_ok SB C D [] -> inum_ok SB i -> live (D i) -> (k <= NDIRECT)%nat -> slot C (D i) k = 0 ->
  blk_ok SB b -> free SB C b = true ->
  grew i [k] C W D (alloc_blk SB b C) (add_block b (add_block (BBLOCK b SB) W)) (upd D i (set_daddr k b (D i))) /\
  slot (alloc_blk SB b C) (set_daddr k b (D i)) k = b.
Proof.
  intros Hf Hi Hl Hk H0 Hb Hfr. destruct (alloc_ok SB G C D [] b Hf Hb Hfr) as [Hf1 [Hk1 Ho1]].
  pose proof (geom_facts SB G). destruct (fo_pend _ _ _ _ Hf1 b) as [Hbr _]; [left|].
  set (C1 := alloc_blk SB b C) in *. set (x := set_daddr k b (D i)).
  assert (slot C1 (D i) k = 0) as H1 by (by rewrite slot_direct in *).
  destruct (attach_addr SB G C1 D i k b Hf1 Hi Hl Hk H1) as (Hf2 & Hk2 & Hs2); [apply lookup_insert_eq|].
  fold x in Hf2, Hk2, Hs2. split; [|done].
  assert (forall j, slot C1 x j = if decide (j = k) then b else slot C1 (D i) j) as Hsl.
  { intros j. apply slot_addr; [by apply Hf|done|done|lia|apply lookup_insert_eq]. }
  assert (forall j, slot C1 (D i) j = slot C (D i) j) as Hsc.
  { intros j. apply slot_frame. intros Hne. unfold C1, alloc_blk.
    pose proof (fo_slot _ _ _ _ Hf i NDIRECT Hi Hl ltac:(unfold NSLOT; lia) Hne). destruct (BBLOCK_eq SB G b Hb).
    rewrite lookup_insert_ne, mark_other; [done|lia|]. intros E.
    apply (fo_free _ _ _ _ Hf b Hb) in Hfr as (_ & _ & Hno). apply Hno.
    exists i, NDIRECT. split_and!; [done|done|unfold NSLOT; lia|done]. }
  constructor.
  - done.
  - intros j Hj. by rewrite upd_ne.
  - intros j Hj Hlj. destruct (decide (j = i)) as [->|Hne].
    + rewrite upd_eq. eapply keeps_trans; [by apply Hk1|done].
    + rewrite upd_ne by done. by apply Hk1.
  - done.
  - intros j Hj Hjk. rewrite upd_eq, Hsl, decide_False by set_solver. apply Hsc.
  - intros j ->%list_elem_of_singleton. rewrite upd_eq. split; [unfold NSLOT; lia|]. rewrite Hs2. lia.
  - intros m [[Hm|Hm]%add_block_elem|Hm]%add_block_elem; [by left|right; exists k..]; rewrite upd_eq, Hs2; set_solver.
  - intros j ->%list_elem_of_singleton. rewrite upd_eq, Hs2. apply add_block_elem. by right.
  - intros m Hm. apply add_block_elem. left. apply add_block_elem. by left.
  - pose proof (add_block_length b (add_block (BBLOCK b SB) W)). pose proof (add_block_length (BBLOCK b SB) W). simpl. lia.
  - rewrite (nfree_alloc SB G C D [] b Hf Hb Hfr). fold C1. rewrite filter_cons, decide_True by done. simpl. lia.
Qed.

(** A fresh block as an entry of the indirect block. *)
Lemma grew_entry i k b C W D d :
  fs_ok SB C D [] -> inum_ok SB i -> live (D i) -> (NDIRECT < k < NSLOT)%nat -> slot C (D i) k = 0 ->
  slot C (D i) NDIRECT <> 0 -> C !! slot C (D i) NDIRECT = Some d -> blk_ok SB b -> free SB C b = true ->
  let ind := slot C (D i) NDIRECT in
  let C' := <[ind := put32 d (4 * (k - S NDIRECT)) b]> (alloc_blk SB b C) in
  grew i [NDIRECT; k] C W D C' (add_block ind (add_block b (add_block (BBLOCK b SB) W))) D /\
  slot C' (D i) k = b /\ alloc_blk SB b C !! ind = Some d.
Proof.
  intros Hf Hi Hl Hk H0 Hind Hd Hb Hfr ind C'. destruct (alloc_ok SB G C D [] b Hf Hb Hfr) as [Hf1 [Hk1 Ho1]].
  pose proof (geom_facts SB G). destruct (fo_pend _ _ _ _ Hf1 b) as [Hbr _]; [left|].
  set (C1 := alloc_blk SB b C) in *.
  assert (NDIRECT < NSLOT)%nat as HN by (unfold NSLOT; lia).
  pose proof (fo_slot _ _ _ _ Hf i NDIRECT Hi Hl HN Hind) as Hir. fold ind in Hir, Hind, Hd.
  assert (C1 !! ind = Some d) as Hd1.
  { unfold C1, alloc_blk. destruct (BBLOCK_eq SB G b Hb). rewrite lookup_insert_ne, mark_other; [done|lia|]. intros ->.
    apply (fo_free _ _ _ _ Hf ind Hb) in Hfr as (_ & _ & Hno). apply Hno. by exists i, NDIRECT. }
  assert (forall j, slot C1 (D i) j = slot C (D i) j) as Hsc.
  { intros j. apply slot_frame. intros _. by fold ind; rewrite Hd1, Hd. }
  destruct (attach_entry SB G C1 D i k b d Hf1 Hi Hl Hk) as (Hf2 & [Hk2 Ho2] & Hs2); rewrite ?Hsc; try done.
  rewrite Hsc in Hf2, Hk2, Ho2, Hs2. fold ind in Hf2, Hk2, Ho2, Hs2. fold C' in Hf2, Hk2, Ho2, Hs2.
  assert (slot C' (D i) NDIRECT = ind) as HsN by (unfold ind; by rewrite !slot_direct by lia).
  split_and!; [|done|done]. constructor.
  - done.
  - done.
  - intros j Hj Hlj. eapply keeps_trans; [by apply Hk1|by apply Hk2].
  - intros j Hj. by rewrite Ho2, Ho1.
  - intros j Hj HjK. destruct (decide (slot C (D i) j = 0)) as [E0|Hne].
    + destruct (decide (j <= NDIRECT)%nat) as [Hle|Hgt]; [by rewrite !slot_direct|].
      rewrite E0. rewrite (slot_indirect C' _ j) by lia. rewrite HsN, (proj2 (Z.eqb_neq ind 0) Hind).
      unfold C'. rewrite lookup_insert_eq. cbn [default from_option id].
      rewrite (slot_indirect C _ j) in E0 by lia. fold ind in E0. rewrite (proj2 (Z.eqb_neq ind 0) Hind), Hd in E0.
      rewrite get32_put32_ne; [done|]. unfold NDIRECT in *. set_solver by lia.
    + rewrite <- Hsc in Hne. rewrite (ke_slot _ _ _ _ (Hk2 i Hi Hl) j Hj Hne). apply Hsc.
  - intros j [->| ->%list_elem_of_singleton]%elem_of_cons; [by rewrite HsN|]. rewrite Hs2. split; lia.
  - intros m [[[Hm|Hm]%add_block_elem|Hm]%add_block_elem|Hm]%add_block_elem; [by left|right..].
    + exists k. rewrite Hs2. set_solver.
    + exists k. rewrite Hs2. set_solver.
    + exists NDIRECT. rewrite HsN. set_solver.
  - intros j [->| ->%list_elem_of_singleton]%elem_of_cons; rewrite ?HsN, ?Hs2; rewrite !add_block_elem; tauto.
  - intros m Hm. rewrite !add_block_elem. tauto.
  - pose proof (add_block_length ind (add_block b (add_block (BBLOCK b SB) W))).
    pose proof (add_block_length b (add_block (BBLOCK b SB) W)). pose proof (add_block_length (BBLOCK b SB) W). simpl. lia.
  - rewrite (nfree_alloc SB G C D [] b Hf Hb Hfr). fold C1.
    rewrite (nfree_ext SB C1 C') by (intros c Hc; apply free_insert; [done|done|lia]).
    rewrite !filter_cons, (decide_True (P := slot C (D i) k = 0)) by done. case_decide; simpl; lia.
Qed.
(** The indirect block first, when it is missing, then one of its entries. *)
Lemma grew_indirect i bn K1 C W D C1 W1 D1 C3 W3 :
  inum_ok SB i -> live (D i) -> grew i K1 C W D C1 W1 D1 -> (forall k, k ∈ K1 -> k = NDIRECT) -> (length K1 <= 1)%nat ->
  slot C (D i) (S bn) = 0 -> slot C1 (D1 i) (S bn) = 0 -> slot C1 (D1 i) NDIRECT <> 0 ->
  grew i [NDIRECT; S bn] C1 W1 D1 C3 W3 D1 -> (length W3 <= length W + 6)%nat ->
  grew i [NDIRECT; S bn] C W D C3 W3 D1.
Proof.
  intros Hi Hl Hg1 HK1 HlK H0 H01 Hind Hg3 HW.
  pose proof (gr_free _ _ _ _ _ _ _ _ Hg1) as F1. pose proof (gr_free _ _ _ _ _ _ _ _ Hg3) as F3.
  eapply (grew_slots _ (K1 ++ [NDIRECT; S bn])); [by eapply grew_trans| |simpl; lia|].
  - intros k. rewrite elem_of_app. split; [|by right]. intros [->%HK1|]; [left|done].
  - rewrite !filter_cons, (decide_False (P := slot C1 (D1 i) NDIRECT = 0)), (decide_True (P := slot C1 (D1 i) (S bn) = 0))
      in F3 by done. rewrite !filter_cons, (decide_True (P := slot C (D i) (S bn) = 0)) by done.
    destruct K1 as [|k [|]]; simpl in HlK; [|rewrite (HK1 k ltac:(left)), filter_cons in F1|lia];
      repeat case_decide; simpl in *; lia || congruence.
Qed.
End growth.

(** ** [bmap] *)

Section bmap.
Context (cur : nat) (pd : Z) (SB : superblock) (fuel : nat) (bswtch : MF unit).
Context (Hfuel : (0 < fuel)%nat) (G : geom SB).
Notation wpa := (wpa cur pd SB).

(** Entry [ip] of the cache is the inode [x], read from the disk. *)
Record entry (a : astate) (D : Z -> dinode) (ip : nat) (x : inode) : Prop := Entry {
  en_ic : a_ic a !! ip = Some x;
  en_dev : i_dev x = 1;
  en_inum : inum_ok SB (i_inum x);
  en_di : i_di x = D (i_inum x);
  en_live : live (D (i_inum x)) }.

(** The slots [bmap] may fill. *)
Definition bslots (bn : nat) : list nat := if (bn <? NDIRECT)%nat then [bn] else [NDIRECT; S bn].

Lemma held_owned a D i k n bp :
  fs_ok SB (a_blk a) D [] -> inum_ok SB i -> live (D i) -> (k < NSLOT)%nat -> slot (a_blk a) (D i) k = n -> n <> 0 ->
  held_ok SB a -> (length (a_held a) <= 2)%nat ->
  held_ok SB (AS (a_ic a) ((bp, n) :: a_held a) (a_blk a) (a_log a)).
Proof.
  intros Hf Hi Hl Hk <- Hn [_ Hh] Hlen. split; simpl; [lia|]. intros m [->|Hm]%elem_of_cons; [|by apply Hh].
  pose proof (fo_slot _ _ _ _ Hf i k Hi Hl Hk Hn) as Hr. split; [done|]. apply not_true_iff_false.
  pose proof (geom_facts SB G). intros (_ & _ & Hno)%(fo_free _ _ _ _ Hf); [|unfold blk_ok; lia].
  apply Hno. by exists i, k.
Qed.

(** The block is there. *)
Lemma wpa_bmap_hit a D ip x bn :
  fs_ok SB (a_blk a) D [] -> entry a D ip x -> (bn < NDIRECT + NINDIRECT)%nat ->
  slot (a_blk a) (D (i_inum x)) (dslot bn) <> 0 -> (length (a_held a) <= 2)%nat -> (length (a_log a) < 26)%nat ->
  slot (a_blk a) (D (i_inum x)) NDIRECT ∉ (a_held a).*2 ->
  wpa (bmap fuel bswtch ip (Z.of_nat bn)) a
    (fun n a' => n = slot (a_blk a) (D (i_inum x)) (dslot bn) /\ a' = a).
Proof.
  intros Hf [Hic Hdev Hi Hdi Hl] Hbn Hne Hh HS HnL. pose proof (geom_facts SB G). unfold bmap.
  eapply wpa_bind; [by apply wpa_iread|]. intros ? ? [-> ->]. rewrite Hdi, Hdev.
  unfold dslot in *. destruct (Nat.ltb_spec bn NDIRECT) as [Hlt|Hge].
  - rewrite (proj2 (Z.ltb_lt _ _)) by lia. rewrite Nat2Z.id. rewrite slot_direct in * by lia.
    rewrite (proj2 (Z.eqb_neq _ 0) Hne). by apply wpa_ret.
  - rewrite (proj2 (Z.ltb_ge _ _)) by lia. cbv zeta. rewrite (proj2 (Z.ltb_lt _ _)) by lia.
    pose proof (slot_ind_ne _ _ (S bn) ltac:(lia) Hne) as Hind. set (ind := slot (a_blk a) _ NDIRECT) in *.
    assert (nth NDIRECT (d_addrs (D (i_inum x))) 0 = ind) as E by (unfold ind; by rewrite slot_direct).
    rewrite E. rewrite (proj2 (Z.eqb_neq _ 0) Hind). apply wpa_ret_bind.
    pose proof (fo_slot _ _ _ _ Hf _ NDIRECT Hi Hl ltac:(unfold NSLOT; lia) Hind) as Hir. fold ind in Hir.
    destruct (fo_blk _ _ _ _ Hf ind) as (d & Hd & Hlen); [unfold fblk; lia|].
    eapply wpa_bind; [apply (wpa_bread cur pd SB fuel bswtch a ind d); try done; unfold NBUF; lia|].
    intros bp ? ->. eapply wpa_bind; [by apply (wpa_bdata _ _ _ _ bp ind d); [left|]|]. intros ? ? [-> ->].
    assert (get32 d (4 * Z.to_nat (Z.of_nat bn - Z.of_nat NDIRECT)) = slot (a_blk a) (D (i_inum x)) (S bn)) as ->.
    { rewrite (slot_indirect _ _ (S bn)) by lia. fold ind. rewrite (proj2 (Z.eqb_neq _ 0) Hind), Hd. simpl default.
      f_equal. lia. }
    rewrite (proj2 (Z.eqb_neq _ 0) Hne). apply wpa_ret_bind. eapply wpa_bind; [by apply (wpa_brelse _ _ _ _ bp ind (a_held a))|].
    intros _ ? ->. apply wpa_ret. split; [done|by destruct a].
Qed.

(** The state [a'] in which inode [x] of entry [ip] has blocks in the slots [K]. *)
Record grown (a : astate) (D : Z -> dinode) (ip : nat) (x : inode) (K : list nat)
    (a' : astate) (D' : Z -> dinode) : Prop := Grown {
  gn_grew : grew SB (i_inum x) K (a_blk a) (a_log a) D (a_blk a') (a_log a') D';
  gn_held : a_held a' = a_held a;
  gn_ic : a_ic a' = <[ip := set_idi (D' (i_inum x)) x]> (a_ic a) }.

Lemma grown_entry a D ip x K a' D' :
  entry a D ip x -> grown a D ip x K a' D' -> entry a' D' ip (set_idi (D' (i_inum x)) x).
Proof.
  intros [Hic Hdev Hi Hdi Hl] [Hg Hh Hc]. constructor; try done.
  - rewrite Hc. apply list_lookup_insert_eq. by eapply lookup_lt_Some.
  - by eapply grew_live.
Qed.

Lemma grown_refl a D ip x : fs_ok SB (a_blk a) D [] -> entry a D ip x -> grown a D ip x [] a D.
Proof.
  intros Hf [Hic Hdev Hi Hdi Hl]. constructor; [by apply grew_refl|done|].
  rewrite <- Hdi, list_insert_id; [done|]. rewrite Hic. by destruct x.
Qed.

Lemma wpa_fresh_addr a D ip x k :
  fs_ok SB (a_blk a) D [] -> entry a D ip x -> (k <= NDIRECT)%nat ->
  slot (a_blk a) (D (i_inum x)) k = 0 -> held_ok SB a -> (length (a_log a) < 24)%nat -> (0 < nfree SB (a_blk a))%nat ->
  wpa (addr ← balloc fuel bswtch 1; iupd ip (fun x => set_idi (set_daddr k addr (i_di x)) x);; mret addr) a
    (fun n a' => exists D', grown a D ip x [k] a' D' /\ n = slot (a_blk a') (D' (i_inum x)) k /\
       (length (a_log a') <= length (a_log a) + 2)%nat).
Proof.
  intros Hf [Hic Hdev Hi Hdi Hl] Hk H0 Hh HS Hn.
  eapply wpa_bind; [by apply (wpa_balloc cur pd SB fuel bswtch Hfuel G a D [])|].
  intros b ? (Hb & Hfr & ->). eapply wpa_bind; [by apply wpa_iupd|]. intros _ ? ->. apply wpa_ret.
  destruct (grew_addr SB G (i_inum x) k b (a_blk a) (a_log a) D Hf Hi Hl Hk H0 Hb Hfr) as [Hg Hs].
  pose proof (add_block_length b (add_block (BBLOCK b SB) (a_log a))). pose proof (add_block_length (BBLOCK b SB) (a_log a)).
  eexists. split_and!; [|by rewrite upd_eq|simpl; lia].
  constructor; [exact Hg|done|]. cbn [a_ic set_ic]. by rewrite upd_eq, Hdi.
Qed.

(** The indirect block is there, the entry is not. *)
Lemma wpa_fresh_entry a D ip x k bp d :
  fs_ok SB (a_blk a) D [] -> entry a D ip x -> (NDIRECT < k < NSLOT)%nat ->
  slot (a_blk a) (D (i_inum x)) k = 0 -> slot (a_blk a) (D (i_inum x)) NDIRECT <> 0 ->
  (bp, slot (a_blk a) (D (i_inum x)) NDIRECT) ∈ a_held a -> a_blk a !! slot (a_blk a) (D (i_inum x)) NDIRECT = Some d ->
  held_ok SB a -> (length (a_log a) < 24)%nat -> (0 < nfree SB (a_blk a))%nat ->
  wpa (addr ← balloc fuel bswtch 1;
       bstore bp (fun d => put32 d (4 * (k - S NDIRECT)) addr);; log_write bp;; mret addr) a
    (fun n a' => grown a D ip x [NDIRECT; k] a' D /\ n = slot (a_blk a') (D (i_inum x)) k /\
       (length (a_log a') <= length (a_log a) + 3)%nat).
Proof.
  intros Hf [Hic Hdev Hi Hdi Hl] Hk H0 Hind Hbp Hd Hh HS Hn. pose proof (geom_facts SB G).
  eapply wpa_bind; [by apply (wpa_balloc cur pd SB fuel bswtch Hfuel G a D [])|].
  intros b ? (Hb & Hfr & ->).
  destruct (grew_entry SB G (i_inum x) k b (a_blk a) (a_log a) D d Hf Hi Hl Hk H0 Hind Hd Hb Hfr) as (Hg & Hs & Hd1).
  pose proof (fo_slot _ _ _ _ Hf _ NDIRECT Hi Hl ltac:(unfold NSLOT; lia) Hind) as Hir.
  pose proof (add_block_length b (add_block (BBLOCK b SB) (a_log a))). pose proof (add_block_length (BBLOCK b SB) (a_log a)).
  eapply (wpa_write cur pd SB G _ bp _ d); cbn [a_held a_blk a_log a_ic]; [done|done|lia|lia|].
  set (W := add_block b _) in *. pose proof (add_block_length (slot (a_blk a) (D (i_inum x)) NDIRECT) W).
  apply wpa_ret. split_and!; [|done|simpl; lia]. constructor; [done|done|]. cbn [a_ic].
  rewrite <- Hdi, list_insert_id; [done|]. rewrite Hic. by destruct x.
Qed.

(** The indirect block, allocated when it is missing. *)
Lemma wpa_bmap_ind a D ip x bn :
  fs_ok SB (a_blk a) D [] -> entry a D ip x -> (NDIRECT <= bn < NDIRECT + NINDIRECT)%nat -> held_ok SB a ->
  (length (a_log a) < 20)%nat -> slot (a_blk a) (D (i_inum x)) (S bn) = 0 ->
  (length (filter (fun k => slot (a_blk a) (D (i_inum x)) k = 0%Z) [NDIRECT; S bn]) <= nfree SB (a_blk a))%nat ->
  wpa (let addr := slot (a_blk a) (D (i_inum x)) NDIRECT in
       if addr =? 0 then
         addr ← balloc fuel bswtch 1; iupd ip (fun x => set_idi (set_daddr NDIRECT addr (i_di x)) x);; mret addr
       else mret addr) a
    (fun n a1 => exists K1 D1, grown a D ip x K1 a1 D1 /\
      n = slot (a_blk a1) (D1 (i_inum x)) NDIRECT /\ n <> 0 /\ slot (a_blk a1) (D1 (i_inum x)) (S bn) = 0 /\
      (forall k, k ∈ K1 -> k = NDIRECT) /\ (length K1 <= 1)%nat /\ (1 <= nfree SB (a_blk a1))%nat /\
      (length (a_log a1) <= length (a_log a) + 2)%nat).
Proof.
  intros Hf He Hbn Hho HS H0 Hn. set (i := i_inum x) in *. cbv zeta.
  rewrite !filter_cons, (decide_True (P := slot (a_blk a) (D i) (S bn) = 0)) in Hn by done. simpl in Hn.
  destruct (Z.eqb_spec (slot (a_blk a) (D i) NDIRECT) 0) as [E|Hind].
  - rewrite decide_True in Hn by done. simpl in Hn.
    eapply wpa_mono; [apply (wpa_fresh_addr a D ip x NDIRECT); try done; lia|].
    intros n a' (D' & Hg & -> & ?). pose proof (gn_grew _ _ _ _ _ _ _ Hg) as Hgg. exists [NDIRECT], D'. split_and!; try done.
    + eapply gr_new; [exact Hgg|left].
    + fold i. rewrite (gr_slots _ _ _ _ _ _ _ _ _ Hgg); [done|unfold NSLOT; lia|]. intros ?%list_elem_of_singleton. lia.
    + by intros k ->%list_elem_of_singleton.
    + pose proof (gr_free _ _ _ _ _ _ _ _ _ Hgg) as F. fold i in F. rewrite filter_cons, decide_True in F by done.
      simpl in F. lia.
  - apply wpa_ret. exists [], D. split_and!; try done; [by apply grown_refl|set_solver|simpl; lia|..].
    + rewrite decide_False in Hn by done. simpl in Hn. lia.
    + lia.
Qed.

(** The entry of the indirect block [ind], which [bmap] has read. *)
Lemma wpa_bmap_entry a D ip x bn K1 a1 D1 :
  fs_ok SB (a_blk a) D [] -> entry a D ip x -> (NDIRECT <= bn < NDIRECT + NINDIRECT)%nat -> a_held a = [] ->
  (length (a_log a) < 20)%nat -> slot (a_blk a) (D (i_inum x)) (S bn) = 0 ->
  grown a D ip x K1 a1 D1 -> let ind := slot (a_blk a1) (D1 (i_inum x)) NDIRECT in ind <> 0 ->
  slot (a_blk a1) (D1 (i_inum x)) (S bn) = 0 -> (forall k, k ∈ K1 -> k = NDIRECT) -> (length K1 <= 1)%nat ->
  (1 <= nfree SB (a_blk a1))%nat -> (length (a_log a1) <= length (a_log a) + 2)%nat ->
  wpa (bp ← bread fuel bswtch 1 ind; d ← bdata bp;
       let addr := get32 d (4 * (S bn - S NDIRECT)) in
       addr ← (if addr =? 0 then
                 addr ← balloc fuel bswtch 1;
                 bstore bp (fun d => put32 d (4 * (S bn - S NDIRECT)) addr);; log_write bp;; mret addr
               else mret addr);
       brelse bp;; mret addr) a1
    (fun n a' => grown a D ip x [NDIRECT; S bn] a' D1 /\ n = slot (a_blk a') (D1 (i_inum x)) (S bn) /\ n <> 0).
Proof.
  intros Hf He Hbn Hh HS H0 Hg1 ind Hind H01 HK1 HlK Hn1 HW1. pose proof He as [Hic Hdev Hi Hdi Hl]. set (i := i_inum x) in *.
  pose proof (gn_grew _ _ _ _ _ _ _ Hg1) as Hgg1. fold i in Hgg1. pose proof (gr_ok _ _ _ _ _ _ _ _ _ Hgg1) as Hf1.
  pose proof (grown_entry _ _ _ _ _ _ _ He Hg1) as He1. set (x1 := set_idi (D1 (i_inum x)) x) in *.
  pose proof (grew_live _ _ _ _ _ _ _ _ _ Hgg1 Hi Hl) as Hl1. pose proof (geom_facts SB G).
  pose proof (fo_slot _ _ _ _ Hf1 i NDIRECT Hi Hl1 ltac:(unfold NSLOT; lia) Hind) as Hir. fold ind in Hir.
  destruct (fo_blk _ _ _ _ Hf1 ind) as (d & Hd & Hlen); [unfold fblk; lia|].
  assert (a_held a1 = []) as Hh1 by (rewrite (gn_held _ _ _ _ _ _ _ Hg1); done).
  eapply wpa_bind; [apply (wpa_bread cur pd SB fuel bswtch a1 ind d); rewrite ?Hh1; try done; [set_solver|unfold NBUF; simpl; lia]|].
  intros bp ? ->. rewrite ?Hh1. set (a2 := AS _ _ _ _).
  eapply wpa_bind; [by apply (wpa_bdata _ _ _ a2 bp ind d); [left|]|]. intros ? ? [-> ->].
  assert (get32 d (4 * (S bn - S NDIRECT)) = 0) as ->.
  { rewrite (slot_indirect _ _ (S bn)) in H01 by lia. fold ind in H01. rewrite (proj2 (Z.eqb_neq _ 0) Hind), Hd in H01. done. }
  cbv zeta. rewrite Z.eqb_refl.
  eapply wpa_bind; [apply (wpa_fresh_entry a2 D1 ip x1 (S bn) bp d); cbn [a2 a_blk a_held a_log]; change (i_inum x1) with i;
    fold ind; try done; try (unfold NSLOT; lia)|].
  { by destruct He1. }
  { left. }
  { assert (held_ok SB a1) as Hho1 by (split; rewrite Hh1; [simpl; lia|]; intros ? ?%not_elem_of_nil; done).
    pose proof (held_owned a1 D1 i NDIRECT ind bp Hf1 Hi Hl1 ltac:(unfold NSLOT; lia) eq_refl Hind Hho1
      ltac:(rewrite Hh1; simpl; lia)) as Hho2. by rewrite Hh1 in Hho2. }
  intros n a3 (Hg3 & -> & HW3). cbn [a2 a_log] in HW3. pose proof (gn_grew _ _ _ _ _ _ _ Hg3) as Hgg3.
  change (i_inum x1) with i in *. cbn [a2 a_blk a_log] in Hgg3.
  eapply wpa_bind; [apply (wpa_brelse _ _ _ a3 bp ind []); by rewrite (gn_held _ _ _ _ _ _ _ Hg3)|].
  intros _ ? ->. apply wpa_ret. cbn [a_blk]. split_and!; [|done|eapply gr_new; [exact Hgg3|right; left]].
  constructor; cbn [a_blk a_log a_held a_ic]; [by apply (grew_indirect SB G i bn K1 _ _ _ (a_blk a1) (a_log a1)); try done; lia|done|].
  rewrite (gn_ic _ _ _ _ _ _ _ Hg3). cbn [a2 a_ic]. rewrite (gn_ic _ _ _ _ _ _ _ Hg1). rewrite list_insert_insert_eq. done.
Qed.

(** [bmap] returns the block of the file; it allocates the block, and the
    indirect block, when they are missing. *)
Lemma wpa_bmap a D ip x bn :
  fs_ok SB (a_blk a) D [] -> entry a D ip x -> (bn < NDIRECT + NINDIRECT)%nat ->
  a_held a = [] -> (length (a_log a) < 20)%nat ->
  (length (filter (fun k => slot (a_blk a) (D (i_inum x)) k = 0%Z) (bslots bn)) <= nfree SB (a_blk a))%nat ->
  wpa (bmap fuel bswtch ip (Z.of_nat bn)) a (fun n a' => exists K D',
    grown a D ip x K a' D' /\ n = slot (a_blk a') (D' (i_inum x)) (dslot bn) /\ n <> 0 /\
    (K = [] /\ a' = a /\ D' = D /\ slot (a_blk a) (D (i_inum x)) (dslot bn) <> 0 \/
     K = bslots bn /\ slot (a_blk a) (D (i_inum x)) (dslot bn) = 0)).
Proof.
  intros Hf He Hbn Hh HS Hn. set (i := i_inum x).
  assert (held_ok SB a) as Hho by (split; rewrite Hh; [simpl; lia|]; intros n ?; set_solver).
  destruct (decide (slot (a_blk a) (D i) (dslot bn) = 0)) as [H0|Hne].
  2:{ eapply wpa_mono; [apply (wpa_bmap_hit a D ip x bn); try done; rewrite ?Hh; simpl; [lia|lia|set_solver]|].
      intros n a' [-> ->]. exists [], D. split_and!; [by apply grown_refl|done|done|by left]. }
  pose proof He as [Hic Hdev Hi Hdi Hl]. unfold bmap.
  eapply wpa_bind; [by apply wpa_iread|]. intros ? ? [-> ->]. rewrite Hdi, Hdev. fold i.
  unfold dslot, bslots in *. destruct (Nat.ltb_spec bn NDIRECT) as [Hlt|Hge].
  { rewrite (proj2 (Z.ltb_lt _ _)) by lia. rewrite Nat2Z.id. rewrite <- (slot_direct (a_blk a) (D i) bn) by lia.
    rewrite H0. cbv zeta. rewrite Z.eqb_refl. fold i in Hn. rewrite filter_cons, decide_True in Hn by done. simpl in Hn.
    eapply wpa_mono; [apply (wpa_fresh_addr a D ip x bn); try done; lia|].
    intros n a' (D' & Hg & -> & _). exists [bn], D'. split_and!; [done|done| |by right].
    eapply gr_new; [apply Hg|left]. }
  rewrite (proj2 (Z.ltb_ge _ _)) by lia. cbv zeta. rewrite (proj2 (Z.ltb_lt _ _)) by lia.
  replace (Z.to_nat (Z.of_nat bn - Z.of_nat NDIRECT)) with (S bn - S NDIRECT)%nat by lia.
  rewrite <- (slot_direct (a_blk a) (D i) NDIRECT) by lia.
  eapply wpa_bind; [by apply (wpa_bmap_ind a D ip x bn)|].
  intros ind a1 (K1 & D1 & Hg1 & -> & Hind & H01 & HK1 & HlK & Hn1 & HW1).
  eapply wpa_mono; [by apply (wpa_bmap_entry a D ip x bn K1 a1 D1)|].
  intros n a' (Hg & -> & Hne). exists [NDIRECT; S bn], D1. split_and!; [done..|by right].
Qed.
End bmap.

(** ** [readi] *)

(** Part of one block is part of the file. *)
Lemma file_chunk C x off m :
  length (dblk C x (off / 512)) = 512%nat -> (off mod 512 + m <= 512)%nat -> (off + m <= Z.to_nat (d_size x))%nat ->
  take m (drop (off mod 512) (dblk C x (off / 512))) = take m (drop off (fbytes C x)).
Proof.
  intros Hl Hm Hs. apply list_eq. intros t. destruct (decide (t < m)%nat) as [Ht|Ht].
  - rewrite !lookup_take_lt, !lookup_drop, fbytes_lookup by lia. unfold fbyte.
    assert ((off + t) / 512 = off / 512 /\ (off + t) mod 512 = off mod 512 + t)%nat as [-> ->].
    { rewrite (Nat.div_mod off 512) at 1 3 by lia.
      replace (512 * (off / 512) + off mod 512 + t)%nat with ((off mod 512 + t) + (off / 512) * 512)%nat by lia.
      rewrite Nat.div_add, Nat.Div0.mod_add by lia. rewrite Nat.div_small, Nat.mod_small by lia. lia. }
    destruct (lookup_lt_is_Some_2 (dblk C x (off / 512)) (off mod 512 + t)) as [y Hy]; [lia|].
    by rewrite Hy, (nth_lookup_Some _ _ _ _ Hy).
  - by rewrite !lookup_take_ge by lia.
Qed.

Lemma Zdiv_nat off : 0 <= off -> off / BSIZE = Z.of_nat (Z.to_nat off / 512) /\ off mod BSIZE = Z.of_nat (Z.to_nat off mod 512).
Proof.
  intros H. rewrite Nat2Z.inj_div, Nat2Z.inj_mod, Z2Nat.id by done. done.
Qed.

Section readi.
Context (cur : nat) (pd : Z) (SB : superblock) (fuel : nat) (bswtch : MF unit) `{DV : Devsw}.
Context (Hfuel : (0 < fuel)%nat) (G : geom SB).
Notation wpa := (wpa cur pd SB).

(** One block of the file is read. *)
Lemma wpa_readi_loop k a D ip x off n tot :
  fs_ok SB (a_blk a) D [] -> entry SB a D ip x -> a_held a = [] -> (length (a_log a) < 26)%nat ->
  n <= MAXFILE * BSIZE -> 0 <= off -> 0 <= tot <= n -> off + (n - tot) <= d_size (D (i_inum x)) -> (0 < k)%nat ->
  (tot < n -> off mod BSIZE + (n - tot) <= BSIZE * (Z.of_nat k - 1)) ->
  wpa (readi_loop fuel bswtch k ip off n tot) a (fun l a' => a' = a /\
    l = take (Z.to_nat (n - tot)) (drop (Z.to_nat off) (fbytes (a_blk a) (D (i_inum x))))).
Proof.
  intros Hf He Hh HS HnM. pose proof He as [Hic Hdev Hi Hdi Hl].
  destruct (fo_size _ _ _ _ Hf _ Hi Hl) as [Hmax Hsl]. set (dx := D (i_inum x)) in *.
  revert off tot. induction k as [|k IH]; intros off tot Hoff Htot Hsz Hk0 Hk; [lia|]. cbn [readi_loop].
  destruct (Z.ltb_spec tot n) as [Hlt|Hge].
  2:{ apply wpa_ret. replace (n - tot) with 0 by lia. by rewrite take_0. }
  destruct (Zdiv_nat off Hoff) as [Ed Em]. set (o := Z.to_nat off) in *.
  destruct (byte_block o (d_size dx) ltac:(lia) Hmax) as [Hb Hbn]. pose proof (Hsl _ Hb) as Hne.
  rewrite Ed. eapply wpa_bind; [apply (wpa_bmap_hit cur pd SB fuel bswtch Hfuel G a D ip x); try done; rewrite ?Hh; try (simpl; lia); apply not_elem_of_nil|].
  intros ad ? [-> ->]. eapply wpa_bind; [by apply wpa_iread|]. intros ? ? [-> ->]. rewrite Hdev. fold dx.
  pose proof (dslot_lt _ Hbn) as Hds. pose proof (fo_slot _ _ _ _ Hf _ _ Hi Hl Hds Hne) as Hr. fold dx in Hr.
  pose proof (geom_facts SB G). set (ad := slot (a_blk a) dx (dslot (o / 512))) in *.
  destruct (fo_blk _ _ _ _ Hf ad) as (d & Hd & Hlen); [unfold fblk; lia|].
  eapply wpa_bind; [apply (wpa_bread cur pd SB fuel bswtch a ad d); rewrite ?Hh; try done; [set_solver|unfold NBUF; simpl; lia]|].
  intros bp ? ->. eapply wpa_bind; [by apply (wpa_bdata _ _ _ _ bp ad d); [left|]|]. intros ? ? [-> ->].
  eapply wpa_bind; [by apply (wpa_brelse _ _ _ _ bp ad (a_held a))|]. intros _ ? ->. cbn [a_ic a_blk a_log].
  replace (AS (a_ic a) (a_held a) (a_blk a) (a_log a)) with a by (by destruct a).
  pose proof (Z.mod_pos_bound off BSIZE ltac:(unfold BSIZE; lia)) as Hob.
  assert (n <= 2 ^ 31) by (unfold MAXFILE, BSIZE, NDIRECT, NINDIRECT in HnM; lia). rewrite (u32_small (n - tot)) by lia.
  set (m := Z.min (n - tot) (BSIZE - off mod BSIZE)).
  assert (0 < m <= n - tot /\ m <= BSIZE - off mod BSIZE) as [Hm1 Hm2] by (unfold m; lia).
  assert (m = n - tot \/ (off + m) mod BSIZE = 0 /\ m = BSIZE - off mod BSIZE) as Hm3.
  { unfold m. unfold BSIZE in *. destruct (decide (n - tot <= 512 - off mod 512)); [left; lia|right]. rewrite Z.min_r by lia. dlia. }
  assert (off + m < 2 ^ 31) by (unfold MAXFILE, BSIZE, NDIRECT, NINDIRECT in Hmax; lia).
  rewrite !u32_small by lia.
  specialize (Hk Hlt). unfold BSIZE in *.
  eapply wpa_bind; [apply (IH (off + m) (tot + m)); [lia|lia|lia|lia|intros ?; destruct Hm3 as [?|[-> ?]]; lia]|].
  intros l ? [-> ->]. apply wpa_ret. split; [done|].
  assert (take (Z.to_nat m) (drop (Z.to_nat (off mod 512)) d) = take (Z.to_nat m) (drop o (fbytes (a_blk a) dx))) as ->.
  { assert (dblk (a_blk a) dx (o / 512) = d) as <- by (unfold dblk; fold ad; by rewrite Hd).
    rewrite Em, Nat2Z.id. apply file_chunk; [|lia|lia].
    unfold dblk. fold ad. by rewrite Hd. }
  replace (Z.to_nat (off + m)) with (o + Z.to_nat m)%nat by lia.
  replace (Z.to_nat (n - tot)) with (Z.to_nat m + Z.to_nat (n - (tot + m)))%nat by lia.
  rewrite <- drop_drop. by rewrite take_take_drop.
Qed.

(** The bytes of a file from [off], at most [n] of them. *)
Definition read_at (f : list Z) (off n : Z) : list Z := take (Z.to_nat n) (drop (Z.to_nat off) f).

Lemma wpa_readi a D ip x off n :
  fs_ok SB (a_blk a) D [] -> entry SB a D ip x -> a_held a = [] -> (length (a_log a) < 26)%nat ->
  d_type (D (i_inum x)) <> T_DEV -> 0 <= off < 2 ^ 32 -> 0 <= n < 2 ^ 32 ->
  wpa (readi fuel bswtch ip off n) a (fun r a' => a' = a /\
    let f := fbytes (a_blk a) (D (i_inum x)) in
    let l := read_at f off n in
    r = if (Z.of_nat (length f) <? off) || (2 ^ 32 <=? off + n) then (-1, []) else (Z.of_nat (length l), l)).
Proof.
  intros Hf He Hh HS Hty Hoff Hn. pose proof He as [Hic Hdev Hi Hdi Hl].
  destruct (fo_size _ _ _ _ Hf _ Hi Hl) as [Hmax _]. pose proof (do_size _ (fo_di _ _ _ _ Hf _ Hi)) as Hsz.
  cbv zeta. rewrite length_fbytes, Z2Nat.id by lia. unfold readi. eapply wpa_bind; [by apply wpa_iread|].
  intros ? ? [-> ->]. cbv zeta. rewrite Hdi. set (dx := D (i_inum x)) in *.
  rewrite (proj2 (Z.eqb_neq _ _) Hty). destruct (Z.ltb_spec (d_size dx) off) as [|Hle]; [by apply wpa_ret|].
  cbn [orb]. destruct (Z.leb_spec (2 ^ 32) (off + n)) as [Hov|Hno].
  { assert (u32 (off + n) = off + n - 2 ^ 32) as -> by (unfold u32; dlia).
    rewrite (proj2 (Z.ltb_lt _ _)) by lia. by apply wpa_ret. }
  rewrite (u32_small (off + n)) by lia. rewrite (proj2 (Z.ltb_ge _ _)) by lia.
  assert ((if d_size dx <? off + n then u32 (d_size dx - off) else n) = Z.min n (d_size dx - off)) as ->.
  { destruct (Z.ltb_spec (d_size dx) (off + n)); [rewrite u32_small by lia|]; lia. }
  set (n' := Z.min n (d_size dx - off)). assert (0 <= n' <= d_size dx - off) as Hn' by (unfold n'; lia).
  eapply wpa_bind; [apply (wpa_readi_loop _ a D ip x off n' 0); try done; try lia|].
  { fold dx. lia. }
  { unfold loop_blocks. unfold BSIZE. dlia. }
  { intros _. pose proof (Z.mod_pos_bound off BSIZE ltac:(unfold BSIZE; lia)). unfold loop_blocks, BSIZE in *. dlia. }
  intros l ? [-> ->]. apply wpa_ret. split; [done|]. fold dx. rewrite Z.sub_0_r.
  assert (read_at (fbytes (a_blk a) dx) off n = take (Z.to_nat n') (drop (Z.to_nat off) (fbytes (a_blk a) dx))) as ->.
  { unfold read_at, n'. destruct (decide (n <= d_size dx - off)); [by rewrite Z.min_l|].
    rewrite Z.min_r by lia. rewrite !take_ge; [done|..]; rewrite length_drop, length_fbytes; lia. }
  rewrite length_take, length_drop, length_fbytes. rewrite i32_small by (unfold MAXFILE, BSIZE, NDIRECT, NINDIRECT in Hmax; lia).
  do 2 f_equal. lia.
Qed.
End readi.
