(* ===== verification/Xv6Wrote.v ===== *)
(** * What a write does to an xv6 file (lab2/fs.c)

    The blocks of a range of bytes, and [wrote], the effect of a part of a write
    on the disk: the bytes of the file, the other files, the blocks allocated
    and the blocks logged.  Parts compose. *)

From S2P Require Import Prelude CMem Xv6Lock Xv6Proc Xv6World Xv6Bio Xv6Log Xv6Txn Xv6Inode Xv6Disk Xv6Iops Xv6Content.
From stdpp Require Import base numbers option list gmap strings.
Open Scope Z_scope.
#[local] Opaque Nat.div Nat.modulo.

(** ** Chunks of a range of bytes *)

(** The blocks of [len] bytes at [off]. *)
Definition touched (off len : nat) : list nat :=
  if (len =? 0)%nat then [] else seq (off / 512) ((off + len - 1) / 512 - off / 512 + 1).

(** The bytes of the first block. *)
Definition chunk (off len : nat) : nat := Nat.min len (512 - off mod 512).

Lemma div_512 a b : (b < 512)%nat -> ((512 * a + b) / 512 = a /\ (512 * a + b) mod 512 = b)%nat.
Proof.
  intros Hb. replace (512 * a + b)%nat with (b + a * 512)%nat by lia.
  rewrite Nat.div_add, Nat.Div0.mod_add by lia. rewrite Nat.div_small, Nat.mod_small by lia. lia.
Qed.

Lemma chunk_facts off len :
  (0 < len)%nat -> let m := chunk off len in
  (0 < m <= len)%nat /\ (off mod 512 + m <= 512)%nat /\
  ((m = len) \/ ((off + m) mod 512 = 0 /\ (off + m) / 512 = off / 512 + 1 /\ m = 512 - off mod 512))%nat.
Proof.
  intros Hl m. pose proof (Nat.mod_upper_bound off 512 ltac:(lia)) as Hm. subst m. unfold chunk.
  split_and!; [lia|lia|lia|]. destruct (decide (len <= 512 - off mod 512)%nat); [left; lia|right].
  rewrite Nat.min_r by lia. pose proof (Nat.div_mod off 512 ltac:(lia)) as E.
  replace (off + (512 - off mod 512))%nat with (512 * (off / 512 + 1) + 0)%nat by lia.
  destruct (div_512 (off / 512 + 1) 0) as [-> ->]; lia.
Qed.

Lemma chunk_block off len t :
  (0 < len)%nat -> (off <= t < off + chunk off len)%nat -> (t / 512 = off / 512 /\ t mod 512 = off mod 512 + (t - off))%nat.
Proof.
  intros Hl Ht. destruct (chunk_facts off len Hl) as (H1 & H2 & _).
  pose proof (Nat.div_mod off 512 ltac:(lia)) as E.
  replace t with (512 * (off / 512) + (off mod 512 + (t - off)))%nat at 1 2 by lia. apply div_512. lia.
Qed.

Lemma touched_cons off len :
  (0 < len)%nat -> touched off len = (off / 512)%nat :: touched (off + chunk off len) (len - chunk off len).
Proof.
  intros Hl. destruct (chunk_facts off len Hl) as (H1 & H2 & H3). set (m := chunk off len) in *.
  unfold touched. rewrite (proj2 (Nat.eqb_neq len 0)) by lia.
  pose proof (Nat.div_mod off 512 ltac:(lia)) as E.
  destruct (Nat.eqb_spec (len - m) 0) as [Hz|Hnz].
  - replace (off + len - 1)%nat with (512 * (off / 512) + (off mod 512 + (len - 1)))%nat by lia.
    destruct (div_512 (off / 512) (off mod 512 + (len - 1))) as [-> _]; [lia|].
    replace (off / 512 - off / 512 + 1)%nat with 1%nat by lia. done.
  - destruct H3 as [?|(Hm & Hd & Hm')]; [lia|]. replace (off + m + (len - m) - 1)%nat with (off + len - 1)%nat by lia.
    rewrite Hd. assert (off / 512 + 1 <= (off + len - 1) / 512)%nat.
    { rewrite <- Hd. apply Nat.Div0.div_le_mono. lia. }
    replace ((off + len - 1) / 512 - off / 512 + 1)%nat with (S ((off + len - 1) / 512 - (off / 512 + 1) + 1)) by lia.
    cbn [seq]. f_equal. f_equal. lia.
Qed.

Lemma touched_elem off len bn :
  bn ∈ touched off len <-> exists t, (off <= t < off + len)%nat /\ (t / 512 = bn)%nat.
Proof.
  unfold touched. destruct (Nat.eqb_spec len 0) as [->|Hne].
  { split; [by intros ?%not_elem_of_nil|]. intros (t & ? & _). lia. }
  assert (off / 512 <= (off + len - 1) / 512)%nat by (apply Nat.Div0.div_le_mono; lia).
  rewrite elem_of_seq. split.
  - intros Hb. pose proof (Nat.div_mod off 512 ltac:(lia)). pose proof (Nat.div_mod (off + len - 1) 512 ltac:(lia)).
    pose proof (Nat.mod_upper_bound off 512 ltac:(lia)). pose proof (Nat.mod_upper_bound (off + len - 1) 512 ltac:(lia)).
    destruct (decide (bn = off / 512)%nat) as [->|Hn]; [exists off; split; [lia|done]|].
    exists (512 * bn + 0)%nat. destruct (div_512 bn 0) as [-> _]; lia.
  - intros (t & Ht & <-). assert (off / 512 <= t / 512)%nat by (apply Nat.Div0.div_le_mono; lia).
    assert (t / 512 <= (off + len - 1) / 512)%nat by (apply Nat.Div0.div_le_mono; lia). lia.
Qed.

(** What a write logs for the blocks [l] of a file: a block, and the bitmap when
    the block is new. *)
Definition cost (C : gmap Z (list Z)) (x : dinode) (l : list nat) : nat :=
  foldr (fun bn n => (if decide (slot C x (dslot bn) = 0%Z) then 2 else 1) + n)%nat 0%nat l.

Lemma cost_ext C x C' x' l :
  (forall bn, bn ∈ l -> slot C' x' (dslot bn) = slot C x (dslot bn)) -> cost C' x' l = cost C x l.
Proof.
  induction l as [|bn l IH]; intros H; [done|]. simpl. rewrite IH by (intros; apply H; by right).
  by rewrite H by left.
Qed.

Lemma cost_le C x l : (cost C x l <= 2 * length l)%nat.
Proof. induction l as [|bn l IH]; simpl; [lia|]. case_decide; lia. Qed.

(** ** What a write does *)

Lemma nth_inserts (d l : list Z) o p :
  (o + length l <= length d)%nat -> nth p (list_inserts o l d) 0 =
    if decide (o <= p < o + length l)%nat then nth (p - o) l 0 else nth p d 0.
Proof.
  intros Hl. rewrite !nth_lookup. case_decide as Hp; [by rewrite list_lookup_inserts by lia|].
  destruct (decide (p < o)%nat); [by rewrite list_lookup_inserts_lt|]. by rewrite list_lookup_inserts_ge by lia.
Qed.

Section wrote.
Context (SB : superblock) (G : geom SB).

(** The bytes [l] are in the file of inode [i] at [off]; the blocks logged are
    the old ones, those of [T], the indirect block and its bitmap block. *)
Record wrote (i : Z) (off : nat) (l : list Z) (T : list Z) (C : gmap Z (list Z)) (W : list Z) (D : Z -> dinode)
    (C' : gmap Z (list Z)) (W' : list Z) (D' : Z -> dinode) : Prop := Wrote {
  wt_ok : fs_ok SB C' D' [];
  wt_D j : j <> i -> D' j = D j;
  wt_keeps j : j <> i -> inum_ok SB j -> live (D j) -> keeps C (D j) C' (D j);
  wt_attr : d_type (D' i) = d_type (D i) /\ d_major (D' i) = d_major (D i) /\ d_minor (D' i) = d_minor (D i) /\
    d_nlink (D' i) = d_nlink (D i) /\ d_size (D' i) = d_size (D i);
  wt_slot k : (k < NSLOT)%nat -> slot C (D i) k <> 0 -> slot C' (D' i) k = slot C (D i) k;
  wt_other bn : (bn < NDIRECT + NINDIRECT)%nat -> bn ∉ touched off (length l) ->
    slot C' (D' i) (dslot bn) = slot C (D i) (dslot bn);
  wt_alloc bn : bn ∈ touched off (length l) -> slot C' (D' i) (dslot bn) <> 0;
  wt_in t : (off <= t < off + length l)%nat -> fbyte C' (D' i) t = nth (t - off) l 0;
  wt_out t : (t / 512 < NDIRECT + NINDIRECT)%nat -> ~ (off <= t < off + length l)%nat ->
    slot C (D i) (dslot (t / 512)) <> 0 -> fbyte C' (D' i) t = fbyte C (D i) t;
  wt_inodes j : inum_ok SB j -> C' !! IBLOCK j SB = C !! IBLOCK j SB;
  wt_hit : (forall bn, bn ∈ touched off (length l) -> slot C (D i) (dslot bn) <> 0) -> D' i = D i;
  wt_sub m : m ∈ W -> m ∈ W';
  wt_log m : m ∈ W' -> m ∈ W \/ m ∈ T \/ slot C' (D' i) NDIRECT <> 0 /\
    (m = slot C' (D' i) NDIRECT \/ m = BBLOCK (slot C' (D' i) NDIRECT) SB);
  wt_T : (length T <= cost C (D i) (touched off (length l)))%nat;
  wt_Tin m : m ∈ T -> (exists b, blk_ok SB b /\ m = BBLOCK b SB) \/
    exists bn, bn ∈ touched off (length l) /\ m = slot C' (D' i) (dslot bn);
  wt_free : (nfree SB C + (if decide (slot C' (D' i) NDIRECT = 0%Z) then 1 else 0) <=
    nfree SB C' + length (touched off (length l)) + (if decide (slot C (D i) NDIRECT = 0%Z) then 1 else 0))%nat }.

Lemma wrote_nil i off C W D : fs_ok SB C D [] -> wrote i off [] [] C W D C W D.
Proof.
  intros Hf. constructor; try done.
  - intros bn Hbn. by apply not_elem_of_nil in Hbn.
  - simpl. lia.
  - by left.
  - intros m Hm. by apply elem_of_nil in Hm.
  - simpl. lia.
Qed.

(** The first chunk of a write, then the others. *)
Lemma wrote_app i off l1 l2 T1 T2 C W D C1 W1 D1 C2 W2 D2 :
  inum_ok SB i -> live (D i) -> (0 < length (l1 ++ l2))%nat -> length l1 = chunk off (length (l1 ++ l2)) ->
  Z.of_nat (off + length (l1 ++ l2)) <= MAXFILE * BSIZE ->
  wrote i off l1 T1 C W D C1 W1 D1 -> wrote i (off + length l1) l2 T2 C1 W1 D1 C2 W2 D2 ->
  wrote i off (l1 ++ l2) (T1 ++ T2) C W D C2 W2 D2.
Proof.
  intros Hi Hl Hne Hch Hmax A B. assert (NDIRECT < NSLOT)%nat as HN by (unfold NSLOT; lia). destruct (chunk_facts off (length (l1 ++ l2)) Hne) as (Hc1 & Hc2 & _).
  rewrite <- Hch in Hc1, Hc2.
  assert (touched off (length (l1 ++ l2)) = (off / 512)%nat :: touched (off + length l1) (length l2)) as Et.
  { rewrite (touched_cons off) by done. rewrite <- Hch. do 2 f_equal. rewrite length_app. lia. }
  assert (touched off (length l1) = [(off / 512)%nat]) as E1.
  { rewrite (touched_cons off) by lia. assert (chunk off (length l1) = length l1) as ->.
    { unfold chunk. pose proof (Nat.mod_upper_bound off 512 ltac:(lia)). lia. }
    by rewrite Nat.sub_diag. }
  assert ((off / 512)%nat ∉ touched (off + length l1) (length l2)) as Hnin.
  { assert (NoDup (touched off (length (l1 ++ l2)))) as Hnd.
    { unfold touched. destruct (_ =? _)%nat; [constructor|apply NoDup_seq]. }
    rewrite Et in Hnd. by apply NoDup_cons in Hnd as [? _]. }
  assert (forall bn, bn ∈ touched off (length (l1 ++ l2)) -> (bn < NDIRECT + NINDIRECT)%nat) as Hlt.
  { intros bn (t & Ht & <-)%touched_elem. apply Nat.Div0.div_lt_upper_bound. unfold MAXFILE, BSIZE in Hmax. lia. }
  assert (forall k, (k < NSLOT)%nat -> slot C (D i) k <> 0 -> slot C1 (D1 i) k <> 0) as Hmono.
  { intros k Hk H0. by rewrite (wt_slot _ _ _ _ _ _ _ _ _ _ A). }
  constructor.
  - apply B.
  - intros j Hj. by rewrite (wt_D _ _ _ _ _ _ _ _ _ _ B), (wt_D _ _ _ _ _ _ _ _ _ _ A).
  - intros j Hj Hjo Hlj. pose proof (wt_D _ _ _ _ _ _ _ _ _ _ A j Hj) as E.
    eapply keeps_trans; [exact (wt_keeps _ _ _ _ _ _ _ _ _ _ A j Hj Hjo Hlj)|]. rewrite <- E. apply (wt_keeps _ _ _ _ _ _ _ _ _ _ B); [done|done|by rewrite E].
  - destruct (wt_attr _ _ _ _ _ _ _ _ _ _ A) as (? & ? & ? & ? & ?), (wt_attr _ _ _ _ _ _ _ _ _ _ B) as (? & ? & ? & ? & ?).
    split_and!; congruence.
  - intros k Hk H0. rewrite (wt_slot _ _ _ _ _ _ _ _ _ _ B) by auto. exact (wt_slot _ _ _ _ _ _ _ _ _ _ A k Hk H0).
  - intros bn Hbn Hnt. rewrite Et in Hnt. apply not_elem_of_cons in Hnt as [Hn1 Hn2].
    rewrite (wt_other _ _ _ _ _ _ _ _ _ _ B) by assumption.
    apply (wt_other _ _ _ _ _ _ _ _ _ _ A); [assumption|]. rewrite E1. by intros ?%list_elem_of_singleton.
  - intros bn Hbn. pose proof (Hlt bn Hbn). rewrite Et in Hbn. apply elem_of_cons in Hbn as [->|Hbn]; [|exact (wt_alloc _ _ _ _ _ _ _ _ _ _ B bn Hbn)].
    assert (slot C1 (D1 i) (dslot (off / 512)) <> 0) as H0 by (apply (wt_alloc _ _ _ _ _ _ _ _ _ _ A); rewrite E1; left).
    rewrite (wt_slot _ _ _ _ _ _ _ _ _ _ B); [done|by apply dslot_lt|done].
  - intros t Ht. rewrite length_app in Ht. destruct (decide (off + length l1 <= t)%nat) as [Hge|Hlt'].
    + rewrite (wt_in _ _ _ _ _ _ _ _ _ _ B) by lia. rewrite app_nth2 by lia. f_equal. lia.
    + rewrite app_nth1 by lia. rewrite <- (wt_in _ _ _ _ _ _ _ _ _ _ A) by lia.
      assert (t / 512 ∈ touched off (length l1))%nat as Hin by (apply touched_elem; exists t; split; [lia|done]).
      apply (wt_out _ _ _ _ _ _ _ _ _ _ B); [|lia|exact (wt_alloc _ _ _ _ _ _ _ _ _ _ A _ Hin)]. apply Hlt. rewrite Et. rewrite E1 in Hin.
      apply list_elem_of_singleton in Hin as ->. left.
  - intros t Hbn Ht H0. rewrite length_app in Ht. rewrite (wt_out _ _ _ _ _ _ _ _ _ _ B); [|done|lia|apply Hmono; [by apply dslot_lt|done]].
    apply (wt_out _ _ _ _ _ _ _ _ _ _ A); [done|lia|done].
  - intros j Hj. by rewrite (wt_inodes _ _ _ _ _ _ _ _ _ _ B), (wt_inodes _ _ _ _ _ _ _ _ _ _ A).
  - intros Hall. rewrite Et in Hall. rewrite (wt_hit _ _ _ _ _ _ _ _ _ _ B).
    + apply (wt_hit _ _ _ _ _ _ _ _ _ _ A). intros bn. rewrite E1. intros ->%list_elem_of_singleton. apply Hall. left.
    + intros bn Hbn. apply Hmono; [|apply Hall; by right]. apply dslot_lt, Hlt. rewrite Et. by right.
  - intros m Hm. apply (wt_sub _ _ _ _ _ _ _ _ _ _ B), (wt_sub _ _ _ _ _ _ _ _ _ _ A), Hm.
  - intros m [Hm|[Hm|Hm]]%(wt_log _ _ _ _ _ _ _ _ _ _ B); [|right; left; apply elem_of_app; auto|by right; right].
    apply (wt_log _ _ _ _ _ _ _ _ _ _ A) in Hm as [Hm|[Hm|[H0 Hm]]]; [by left|right; left; apply elem_of_app; auto|right; right].
    rewrite (wt_slot _ _ _ _ _ _ _ _ _ _ B NDIRECT HN H0). split; assumption.
  - rewrite Et, length_app. pose proof (wt_T _ _ _ _ _ _ _ _ _ _ A) as HA. pose proof (wt_T _ _ _ _ _ _ _ _ _ _ B) as HB.
    rewrite E1 in HA. rewrite (cost_ext C (D i)) in HB; [unfold cost in *; cbn [foldr] in *; lia|].
    intros bn Hbn. apply (wt_other _ _ _ _ _ _ _ _ _ _ A); [apply Hlt; rewrite Et; by right|]. rewrite E1.
    intros ->%list_elem_of_singleton. exact (Hnin Hbn).
  - intros m [Hm|Hm]%elem_of_app; [apply (wt_Tin _ _ _ _ _ _ _ _ _ _ A) in Hm|apply (wt_Tin _ _ _ _ _ _ _ _ _ _ B) in Hm];
      destruct Hm as [?|(bn & Hbn & ->)]; [by left|right|by left|right]; exists bn.
    + assert (bn = off / 512)%nat as -> by (rewrite E1 in Hbn; by apply list_elem_of_singleton in Hbn).
      assert ((off / 512)%nat ∈ touched off (length (l1 ++ l2))) as Hin by (rewrite Et; left). split; [exact Hin|]. symmetry.
      apply (wt_slot _ _ _ _ _ _ _ _ _ _ B); [by apply dslot_lt, Hlt|]. exact (wt_alloc _ _ _ _ _ _ _ _ _ _ A _ Hbn).
    + split; [|reflexivity]. rewrite Et. by right.
  - pose proof (wt_free _ _ _ _ _ _ _ _ _ _ A) as HA. pose proof (wt_free _ _ _ _ _ _ _ _ _ _ B) as HB.
    rewrite Et. rewrite E1 in HA. cbn [length] in *. lia.
Qed.

Lemma touched_one off l : (0 < length (l : list Z))%nat -> (off mod 512 + length l <= 512)%nat ->
  touched off (length l) = [(off / 512)%nat].
Proof.
  intros Hl Ho. rewrite touched_cons by done. assert (chunk off (length l) = length l) as -> by (unfold chunk; lia).
  by rewrite Nat.sub_diag.
Qed.

Lemma bslots_elem bn k : k ∈ bslots bn <-> k = dslot bn \/ (k = NDIRECT /\ (NDIRECT <= bn)%nat).
Proof.
  unfold bslots, dslot. destruct (Nat.ltb_spec bn NDIRECT).
  - rewrite list_elem_of_singleton. lia.
  - rewrite elem_of_cons, list_elem_of_singleton. lia.
Qed.

(** Free blocks used for one block of the file. *)
Lemma bslots_free i bn C W D C1 W1 D1 :
  grew SB i (bslots bn) C W D C1 W1 D1 ->
  (nfree SB C + (if decide (slot C1 (D1 i) NDIRECT = 0%Z) then 1 else 0) <=
    nfree SB C1 + 1 + (if decide (slot C (D i) NDIRECT = 0%Z) then 1 else 0))%nat.
Proof.
  intros Hg. pose proof (gr_free _ _ _ _ _ _ _ _ _ Hg) as Hf. unfold bslots in *.
  destruct (Nat.ltb_spec bn NDIRECT) as [Hlt|Hge].
  - rewrite (gr_slots _ _ _ _ _ _ _ _ _ Hg NDIRECT); [|unfold NSLOT; lia|rewrite list_elem_of_singleton; lia].
    rewrite filter_cons in Hf. destruct (decide (slot C (D i) bn = 0)); cbn [length filter list_filter] in Hf; lia.
  - destruct (gr_new _ _ _ _ _ _ _ _ _ Hg NDIRECT ltac:(left)) as [_ Hn]. rewrite (decide_False (P := slot C1 (D1 i) NDIRECT = 0)) by done.
    rewrite !filter_cons in Hf. repeat case_decide; cbn [length filter list_filter] in Hf; lia.
Qed.

Lemma wrote_block i off l C W D K C1 W1 D1 d :
  inum_ok SB i -> live (D i) -> (0 < length l)%nat -> (off mod 512 + length l <= 512)%nat ->
  (off / 512 < NDIRECT + NINDIRECT)%nat ->
  let bn := (off / 512)%nat in
  let n := slot C1 (D1 i) (dslot bn) in
  grew SB i K C W D C1 W1 D1 -> n <> 0 -> C1 !! n = Some d ->
  (K = [] /\ D1 = D /\ slot C (D i) (dslot bn) <> 0 \/ K = bslots bn /\ slot C (D i) (dslot bn) = 0) ->
  wrote i off l (if decide (slot C (D i) (dslot bn) = 0) then [n; BBLOCK n SB] else [n]) C W D
    (<[n := list_inserts (off mod 512) l d]> C1) (add_block n W1) D1.
Proof.
  intros Hi Hl Hlen Ho Hbn bn n Hg Hn Hd HK.
  assert (NDIRECT < NSLOT)%nat as HN by (unfold NSLOT; lia). pose proof (dslot_lt bn Hbn) as Hds.
  pose proof (gr_ok _ _ _ _ _ _ _ _ _ Hg) as Hf1. pose proof (grew_live _ _ _ _ _ _ _ _ _ Hg Hi Hl) as Hl1.
  pose proof (geom_facts SB G). pose proof (fo_slot _ _ _ _ Hf1 i _ Hi Hl1 Hds Hn) as Hr. fold n in Hr.
  destruct (fo_blk _ _ _ _ Hf1 n) as (d' & Hd' & Hld); [unfold fblk; lia|].
  assert (d' = d) as -> by congruence. set (d1 := list_inserts (off mod 512) l d).
  assert (length d1 = 512%nat) as Hl1' by (unfold d1; by rewrite length_inserts).
  destruct (store_ok SB G C1 D1 i (dslot bn) d1 Hf1 Hi Hl1 Hds (dslot_ne bn) Hn Hl1') as (Hf2 & Hk2 & Hs2 & Ho2).
  fold n in Hf2, Hk2, Hs2, Ho2. pose proof (touched_one off l Hlen Ho) as Et.
  assert (forall t, (t / 512 < NDIRECT + NINDIRECT)%nat -> slot C1 (D1 i) (dslot (t / 512)) <> 0 ->
    fbyte (<[n := d1]> C1) (D1 i) t = if decide (t / 512 = bn)%nat then nth (t mod 512) d1 0 else fbyte C1 (D1 i) t) as Hby.
  { intros t Ht H0. by apply (fbyte_store SB G C1 D1 i bn d1 t Hf1 Hi Hl1 Hbn Ht Hn H0 Hl1'). }
  pose proof (gr_keeps _ _ _ _ _ _ _ _ _ Hg i Hi Hl) as Hke.
  assert (forall k, k ∈ K -> k = dslot bn \/ k = NDIRECT) as HKe.
  { destruct HK as [[-> _]|[-> _]]; [by intros k ?%not_elem_of_nil|]. intros k Hk%bslots_elem. tauto. }
  constructor; try done.
  - apply Hg.
  - intros j Hj Hjo Hlj. pose proof (gr_D _ _ _ _ _ _ _ _ _ Hg j Hj) as E. eapply keeps_trans; [by apply (gr_keeps _ _ _ _ _ _ _ _ _ Hg)|].
    rewrite E. rewrite <- E. apply Hk2; [done|done|by rewrite E].
  - destruct Hke. by split_and!.
  - intros k Hk H0. rewrite Hs2. by apply (ke_slot _ _ _ _ Hke).
  - intros b Hb Hnt. rewrite Et in Hnt. rewrite Hs2. apply (gr_slots _ _ _ _ _ _ _ _ _ Hg); [by apply dslot_lt|].
    intros [E|E]%HKe; [|by apply dslot_ne in E]. apply dslot_inj in E. subst b. apply Hnt. left.
  - intros b. rewrite Et. intros ->%list_elem_of_singleton. rewrite Hs2. done.
  - intros t Ht. assert (chunk off (length l) = length l) as Ec by (unfold chunk; lia).
    destruct (chunk_block off (length l) t Hlen) as [E1 E2]; [lia|].
    rewrite Hby by (rewrite E1; done). rewrite decide_True by done. unfold d1.
    rewrite nth_inserts by lia. rewrite E2. rewrite decide_True by lia. f_equal. lia.
  - intros t Hbt Ht H0. assert (slot C1 (D1 i) (dslot (t / 512)) = slot C (D i) (dslot (t / 512))) as Es.
    { apply (ke_slot _ _ _ _ Hke); [by apply dslot_lt|done]. }
    assert (fbyte C1 (D1 i) t = fbyte C (D i) t) as Ef.
    { unfold fbyte, dblk. rewrite Es. rewrite (ke_blk _ _ _ _ Hke); [done|by apply dslot_lt|apply dslot_ne|done]. }
    rewrite Hby by (rewrite ?Es; done). destruct (decide (t / 512 = bn)%nat) as [E|]; [|done].
    rewrite <- Ef. unfold fbyte, dblk. rewrite E. fold n. rewrite Hd. cbn [default from_option id].
    unfold d1. rewrite nth_inserts by lia. rewrite decide_False; [done|].
    pose proof (Nat.div_mod t 512 ltac:(lia)). pose proof (Nat.div_mod off 512 ltac:(lia)). fold bn in H1. rewrite E in H0. lia.
  - intros j Hj. by rewrite Ho2, (gr_inodes _ _ _ _ _ _ _ _ _ Hg).
  - intros Hall. destruct HK as [(_ & -> & _)|[_ E]]; [done|]. exfalso. apply (Hall bn); [rewrite Et; left|done].
  - intros m Hm. apply add_block_elem. left. by apply (gr_sub _ _ _ _ _ _ _ _ _ Hg).
  - intros m [Hm|Hm]%add_block_elem.
    + apply (gr_log _ _ _ _ _ _ _ _ _ Hg) in Hm as [Hm|(k & Hk & Hm)]; [by left|right].
      destruct HK as [(-> & _)|[-> E]]; [by apply not_elem_of_nil in Hk|].
      apply bslots_elem in Hk as [->|[-> Hge]].
      * left. rewrite decide_True by done. fold n in Hm. set_solver.
      * right. rewrite Hs2. split; [|done]. apply (gr_new _ _ _ _ _ _ _ _ _ Hg). apply bslots_elem. by right.
    + right. left. subst m. case_decide; left.
  - rewrite Et. cbn [cost foldr]. fold bn. unfold cost. cbn [foldr]. case_decide; simpl; lia.
  - assert (exists b, b ∈ touched off (length l) /\ n = slot (<[n := d1]> C1) (D1 i) (dslot b)) as Hn'.
    { exists bn. rewrite Et, Hs2. split; [left|done]. }
    intros m. case_decide; [intros [->| ->%list_elem_of_singleton]%elem_of_cons|intros ->%list_elem_of_singleton]; [by right| |by right].
    left. exists n. split; [unfold blk_ok; lia|done].
  - rewrite Et, Hs2. cbn [length].
    rewrite (nfree_ext SB C1 (<[n := d1]> C1)) by (intros c Hc; apply free_insert; [done|done|lia]).
    destruct HK as [(-> & -> & H0)|[-> H0]].
    + pose proof (gr_free _ _ _ _ _ _ _ _ _ Hg) as Hfr. cbn [filter list_filter length] in Hfr.
      rewrite (gr_slots _ _ _ _ _ _ _ _ _ Hg NDIRECT HN) by apply not_elem_of_nil. lia.
    + by apply (bslots_free i bn C W D C1 W1 D1).
Qed.
End wrote.
