(* ===== verification/Xv6Writei.v ===== *)
(** * Writing xv6 files (lab2/fs.c)

    [writei]: the bytes of the file are replaced, the file grows, its new blocks
    are allocated and its inode is written; every other file keeps its bytes.
    The blocks a write logs are counted. *)

From S2P Require Import Prelude CMem Xv6Lock Xv6Proc Xv6World Xv6Bio Xv6Log Xv6Txn Xv6Inode Xv6Disk Xv6Iops Xv6Content Xv6Wrote.
From stdpp Require Import base numbers option list gmap strings.
Open Scope Z_scope.
#[local] Opaque Nat.div Nat.modulo.

(** ** The loop of [writei] *)

Section logs.
Context (SB : superblock).

(** The blocks logged so far are those of [B], the indirect block of [x] and its
    bitmap block. *)
Definition log_in (B : list Z) (ind : Z) (W : list Z) : Prop :=
  forall m, m ∈ W -> m ∈ B \/ ind <> 0 /\ (m = ind \/ m = BBLOCK ind SB).

Lemma log_in_length B ind W : NoDup W -> log_in B ind W -> (length W <= length B + 2)%nat.
Proof.
  intros Hnd Hin. assert (W ⊆+ B ++ [ind; BBLOCK ind SB]) as Hs.
  { apply NoDup_submseteq; [done|]. intros m Hm%Hin. set_solver. }
  apply submseteq_length in Hs. rewrite length_app in Hs. done.
Qed.

Lemma log_in_wrote i off l T C W D C' W' D' B :
  wrote SB i off l T C W D C' W' D' -> log_in B (slot C (D i) NDIRECT) W -> log_in (B ++ T) (slot C' (D' i) NDIRECT) W'.
Proof.
  intros Hw Hin m [Hm|[Hm|Hm]]%(wt_log _ _ _ _ _ _ _ _ _ _ _ Hw); [|left; set_solver|by right].
  apply Hin in Hm as [Hm|[H0 Hm]]; [left; set_solver|right].
  by rewrite (wt_slot _ _ _ _ _ _ _ _ _ _ _ Hw) by (done || unfold NSLOT; lia).
Qed.

End logs.

Section loop.
Context (cur : nat) (pd : Z) (SB : superblock) (fuel : nat) (bswtch : MF unit).
Context (Hfuel : (0 < fuel)%nat) (G : geom SB).
Notation wpa := (wpa cur pd SB).

(** The blocks [t] of inode [i] are there, or there are free blocks for them. *)
Definition space (C : gmap Z (list Z)) (x : dinode) (t : list nat) : Prop :=
  (forall bn, bn ∈ t -> slot C x (dslot bn) <> 0) \/
  (length t + (if decide (slot C x NDIRECT = 0%Z) then 1 else 0) <= nfree SB C)%nat.

Lemma space_bmap C x bn t :
  space C x (bn :: t) -> (length (filter (fun k => slot C x k = 0%Z) (bslots bn)) <= nfree SB C)%nat.
Proof.
  unfold bslots. intros [H|H].
  - specialize (H bn ltac:(left)). unfold dslot in H. destruct (Nat.ltb_spec bn NDIRECT) as [Hlt|Hge].
    + rewrite filter_cons, decide_False by done. simpl. lia.
    + assert (slot C x NDIRECT <> 0) as Hd.
      { intros E. apply H. rewrite slot_indirect by lia. by rewrite E. }
      rewrite !filter_cons, !decide_False by done. simpl. lia.
  - simpl in H. destruct (_ <? _)%nat; rewrite !filter_cons; repeat case_decide; simpl in *; lia.
Qed.

(** One round: a chunk of the bytes goes into one block. *)
Lemma wpa_writei_chunk a D ip x src off n tot (K : MI Z) Q :
  fs_ok SB (a_blk a) D [] -> entry SB a D ip x -> a_held a = [] ->
  n <= MAXFILE * BSIZE -> 0 <= tot < n -> Z.of_nat off + (n - tot) <= MAXFILE * BSIZE -> Z.of_nat (length src) = n - tot ->
  let i := i_inum x in
  let m := chunk off (length src) in
  (length (a_log a) < 20)%nat -> space (a_blk a) (D i) (touched off (length src)) ->
  (forall a2 D1 T1, wrote SB i off (take m src) T1 (a_blk a) (a_log a) D (a_blk a2) (a_log a2) D1 -> a_held a2 = [] ->
     a_ic a2 = <[ip := set_idi (D1 i) x]> (a_ic a) -> entry SB a2 D1 ip (set_idi (D1 i) x) -> wpa K a2 Q) ->
  wpa (addr ← bmap fuel bswtch ip (Z.of_nat off / BSIZE); x ← iread ip; bp ← Xv6Inode.bread fuel bswtch (i_dev x) addr;
       bstore bp (list_inserts (Z.to_nat (Z.of_nat off mod BSIZE)) (take m src));; Xv6Inode.log_write bp;; Xv6Inode.brelse bp;; K) a Q.
Proof.
  intros Hf He Hh HnM Htot Hmax Hsrc i m HW Hsp HK. pose proof He as [Hic Hdev Hi Hdi Hl]. fold i in Hi, Hdi, Hl.
  assert (0 < length src)%nat as Hlen by lia. destruct (chunk_facts off (length src) Hlen) as (Hc1 & Hc2 & Hc3). fold m in Hc1, Hc2, Hc3.
  assert (Z.of_nat off / BSIZE = Z.of_nat (off / 512) /\ Z.of_nat off mod BSIZE = Z.of_nat (off mod 512)) as [-> ->].
  { by rewrite Nat2Z.inj_div, Nat2Z.inj_mod. }
  assert (off / 512 < NDIRECT + NINDIRECT)%nat as Hbn.
  { apply Nat.Div0.div_lt_upper_bound. unfold MAXFILE, BSIZE in Hmax. lia. }
  rewrite (touched_cons off (length src) Hlen) in Hsp.
  eapply wpa_bind; [apply (wpa_bmap cur pd SB fuel bswtch Hfuel G a D ip x); try done; by eapply space_bmap|].
  intros ad a1 (K1 & D1 & Hg & Ead & Hne & HK1). fold i in Ead, HK1.
  pose proof (grown_entry _ _ _ _ _ _ _ _ He Hg) as He1. destruct Hg as [Hg Hh1 Hic1]. fold i in Hg, He1, Hic1.
  eapply wpa_bind; [apply wpa_iread, He1|]. intros ? ? [-> ->]. cbn [i_dev set_idi]. rewrite Hdev.
  pose proof (gr_ok _ _ _ _ _ _ _ _ _ Hg) as Hf1. pose proof (grew_live _ _ _ _ _ _ _ _ _ Hg Hi Hl) as Hl1.
  pose proof (geom_facts SB G).
  assert (dstart SB <= ad < sb_size SB) as Hr.
  { rewrite Ead. apply (fo_slot _ _ _ _ Hf1); [done|done|by apply dslot_lt|congruence]. }
  destruct (fo_blk _ _ _ _ Hf1 ad) as (d & Hd & Hld); [unfold fblk; lia|].
  assert (length (a_log a1) < 26)%nat as HW1.
  { pose proof (gr_len _ _ _ _ _ _ _ _ _ Hg). destruct HK1 as [(-> & _)|[-> _]]; [simpl in *; lia|].
    unfold bslots in *. destruct (_ <? _)%nat; simpl in *; lia. }
  rewrite Hh in Hh1.
  eapply wpa_bind; [apply (wpa_bread cur pd SB fuel bswtch a1 ad d); rewrite ?Hh1; try done; [apply not_elem_of_nil|unfold NBUF; simpl; lia]|].
  intros bp ? ->. rewrite Nat2Z.id.
  eapply (wpa_write cur pd SB G _ bp ad d); cbn [a_held a_blk a_log a_ic]; [left|done|lia|lia|].
  eapply wpa_bind; [by apply (wpa_brelse _ _ _ _ bp ad (a_held a1))|]. intros _ ? ->. cbn [a_ic a_blk a_log a_held].
  assert (length (take m src) = m) as Hl1' by (rewrite length_take; lia).
  eapply (HK _ D1); cbn [a_blk a_log a_held a_ic]; [|done|done|].
  - rewrite Ead. apply (wrote_block SB G i off (take m src) _ _ _ K1); rewrite ?Hl1'; rewrite <- ?Ead; try done; [lia|].
    destruct HK1 as [(-> & _ & -> & ?)|[-> ?]]; [left|right]; done.
  - destruct He1. by constructor.
Qed.

(** The blocks after the first round have the cost and the room they had. *)
Lemma chunk_rest i off src T C W D C' W' D' :
  let m := chunk off (length src) in
  (0 < length src)%nat -> Z.of_nat off + Z.of_nat (length src) <= MAXFILE * BSIZE ->
  wrote SB i off (take m src) T C W D C' W' D' -> space C (D i) (touched off (length src)) ->
  (length T + cost C' (D' i) (touched (off + m) (length src - m)) <= cost C (D i) (touched off (length src)))%nat /\
  space C' (D' i) (touched (off + m) (length src - m)).
Proof.
  intros m Hlen Hmax Hw Hsp. destruct (chunk_facts off (length src) Hlen) as (Hc1 & Hc2 & Hc3). fold m in Hc1, Hc2, Hc3.
  pose proof (touched_cons off (length src) Hlen) as Et. fold m in Et.
  assert (length (take m src) = m) as Hl1' by (rewrite length_take; lia).
  assert (touched off m = [(off / 512)%nat]) as Et1 by (rewrite <- Hl1'; apply touched_one; lia).
  assert (forall bn, bn ∈ touched (off + m) (length src - m) -> slot C' (D' i) (dslot bn) = slot C (D i) (dslot bn)) as Hsl.
  { intros bn Hb. apply (wt_other _ _ _ _ _ _ _ _ _ _ _ Hw).
    - apply touched_elem in Hb as (t & Ht & <-). apply Nat.Div0.div_lt_upper_bound. unfold MAXFILE, BSIZE in Hmax. lia.
    - rewrite Hl1', Et1. intros ->%list_elem_of_singleton. assert (NoDup (touched off (length src))) as Hnt.
      { unfold touched. destruct (_ =? _)%nat; [constructor|apply NoDup_seq]. }
      rewrite Et in Hnt. by apply NoDup_cons in Hnt as [? _]. }
  split.
  - pose proof (wt_T _ _ _ _ _ _ _ _ _ _ _ Hw) as HT. rewrite Hl1', Et1 in HT. rewrite (cost_ext C (D i)) by done.
    rewrite Et. unfold cost in *. cbn [foldr] in *. lia.
  - destruct Hsp as [Hsp|Hsp].
    + left. intros bn Hb. rewrite Hsl by done. apply Hsp. rewrite Et. by right.
    + right. pose proof (wt_free _ _ _ _ _ _ _ _ _ _ _ Hw) as Hfr. rewrite Hl1', Et1 in Hfr. rewrite Et in Hsp. cbn [length] in *. lia.
Qed.

Lemma wpa_writei_loop k a D ip x src off n tot B :
  fs_ok SB (a_blk a) D [] -> entry SB a D ip x -> a_held a = [] ->
  n <= MAXFILE * BSIZE -> 0 <= tot <= n -> Z.of_nat off + (n - tot) <= MAXFILE * BSIZE ->
  Z.of_nat (length src) = n - tot -> (0 < k)%nat ->
  (tot < n -> Z.of_nat off mod BSIZE + (n - tot) <= BSIZE * (Z.of_nat k - 1)) ->
  let i := i_inum x in
  log_in SB B (slot (a_blk a) (D i) NDIRECT) (a_log a) ->
  (length B + cost (a_blk a) (D i) (touched off (length src)) < 18)%nat ->
  space (a_blk a) (D i) (touched off (length src)) ->
  wpa (writei_loop fuel bswtch k ip src (Z.of_nat off) n tot) a (fun v a' => v = Z.of_nat (off + length src) /\
    exists T D', wrote SB i off src T (a_blk a) (a_log a) D (a_blk a') (a_log a') D' /\ a_held a' = [] /\
      a_ic a' = <[ip := set_idi (D' i) x]> (a_ic a)).
Proof.
  intros Hf He Hh HnM. revert a D x src off tot B Hf He Hh. induction k as [|k IH];
    intros a D x src off tot B Hf He Hh Htot Hmax Hsrc Hk0 Hk i HB Hbud Hsp; [lia|].
  pose proof He as [Hic Hdev Hi Hdi Hl]. fold i in Hi, Hdi, Hl. cbn [writei_loop].
  destruct (Z.ltb_spec tot n) as [Hlt|Hge].
  2:{ apply wpa_ret. assert (src = []) as -> by (apply nil_length_inv; lia). split; [f_equal; simpl; lia|].
      exists [], D. split_and!; [by apply wrote_nil|done|]. rewrite <- Hdi, list_insert_id; [done|]. rewrite Hic. by destruct x. }
  assert (0 < length src)%nat as Hlen by lia. destruct (chunk_facts off (length src) Hlen) as (Hc1 & Hc2 & Hc3).
  set (m := chunk off (length src)) in *.
  assert (Z.of_nat off mod BSIZE = Z.of_nat (off mod 512)) as Em by (by rewrite Nat2Z.inj_mod).
  assert (Z.min (u32 (n - tot)) (BSIZE - Z.of_nat off mod BSIZE) = Z.of_nat m) as Emin.
  { unfold MAXFILE, BSIZE, NDIRECT, NINDIRECT in *. rewrite u32_small, Em by lia. unfold m, chunk. lia. }
  rewrite Emin, Nat2Z.id. clear Emin. apply wpa_nodup. intros Hnd. pose proof (log_in_length SB _ _ _ Hnd HB) as HW.
  assert (u32 (Z.of_nat off + Z.of_nat m) = Z.of_nat (off + m) /\ u32 (tot + Z.of_nat m) = tot + Z.of_nat m) as [-> ->].
  { unfold MAXFILE, BSIZE, NDIRECT, NINDIRECT in *. rewrite !u32_small; lia. }
  apply (wpa_writei_chunk a D ip x src off n tot); try done; [lia|lia|]. fold i m. intros a2 D1 T1 Hw1 Hh2 Hic2 He2.
  destruct (chunk_rest i off src T1 _ _ D _ _ D1 Hlen ltac:(lia) Hw1 Hsp) as [Hcost Hsp2]. fold m in Hcost, Hsp2.
  assert (length (drop m src) = length src - m)%nat as Hld' by apply length_drop.
  eapply wpa_mono; [apply (IH a2 D1 (set_idi (D1 i) x) (drop m src) (off + m)%nat (tot + Z.of_nat m) (B ++ T1));
    change (i_inum (set_idi (D1 i) x)) with i; rewrite ?Hld'|].
  - apply Hw1.
  - done.
  - done.
  - lia.
  - lia.
  - lia.
  - specialize (Hk Hlt). rewrite Em in Hk. unfold BSIZE in Hk. lia.
  - specialize (Hk Hlt). rewrite Em in Hk. intros Hlt'. destruct Hc3 as [?|(Hz & _ & Hm')]; [lia|].
    assert (Z.of_nat (off + m) mod BSIZE = Z.of_nat ((off + m) mod 512)) as -> by (by rewrite Nat2Z.inj_mod). unfold BSIZE in *. lia.
  - by apply (log_in_wrote SB i off (take m src) _ (a_blk a) (a_log a) D).
  - rewrite length_app. lia.
  - done.
  - intros v a3 (-> & T2 & D3 & Hw2 & Hh3 & Hic3). change (i_inum (set_idi (D1 i) x)) with i in *.
    split; [rewrite Hld'; f_equal; lia|]. exists (T1 ++ T2), D3.
    assert (length (take m src) = m) as Hl1' by (rewrite length_take; lia). split_and!; [|done|].
    + rewrite <- (take_drop m src).
      eapply (wrote_app SB i off (take m src) (drop m src)); try done; rewrite ?length_app, ?Hl1', ?Hld'.
      * lia.
      * by replace (m + (length src - m))%nat with (length src) by lia.
      * lia.
      * exact Hw2.
    + rewrite Hic3, Hic2. by rewrite list_insert_insert_eq.
Qed.
End loop.

(** ** [writei] *)

(** The file [f] with the bytes [l] at [off]. *)
Definition write_at (f : list Z) (off : nat) (l : list Z) : list Z := take off f ++ l ++ drop (off + length l) f.

Lemma length_write_at f off l : (off <= length f)%nat -> length (write_at f off l) = Nat.max (length f) (off + length l).
Proof. intros H. unfold write_at. rewrite !length_app, length_take, length_drop. lia. Qed.

Lemma nth_write_at f off l t :
  (off <= length f)%nat -> nth t (write_at f off l) 0 =
    if decide (off <= t < off + length l)%nat then nth (t - off) l 0 else nth t f 0.
Proof.
  intros H. unfold write_at. case_decide as Ht.
  - rewrite app_nth2; rewrite length_take; [|lia]. rewrite app_nth1 by lia. f_equal. lia.
  - destruct (decide (t < off)%nat) as [Hlt|Hge].
    + rewrite app_nth1 by (rewrite length_take; lia). rewrite !nth_lookup. by rewrite lookup_take_lt.
    + rewrite app_nth2; rewrite length_take; [|lia]. rewrite app_nth2 by lia.
      rewrite !nth_lookup, lookup_drop. do 2 f_equal. lia.
Qed.

Lemma nth_fbytes C x t : (t < Z.to_nat (d_size x))%nat -> nth t (fbytes C x) 0 = fbyte C x t.
Proof. intros Ht. by rewrite nth_lookup, fbytes_lookup. Qed.

Section bytes.
Context (SB : superblock) (G : geom SB).

Lemma wrote_bytes i off l T C W D C' W' D' :
  fs_ok SB C D [] -> inum_ok SB i -> live (D i) -> wrote SB i off l T C W D C' W' D' ->
  (off <= Z.to_nat (d_size (D i)))%nat -> Z.of_nat (off + length l) <= MAXFILE * BSIZE ->
  let n := Z.max (d_size (D i)) (Z.of_nat (off + length l)) in
  fbytes C' (set_dsize n (D' i)) = write_at (fbytes C (D i)) off l /\
  (forall bn, Z.of_nat bn * BSIZE < n -> slot C' (D' i) (dslot bn) <> 0) /\ 0 <= n <= MAXFILE * BSIZE.
Proof.
  intros Hf Hi Hl Hw Hoff Hmax n. destruct (fo_size _ _ _ _ Hf i Hi Hl) as [Hms Hsl].
  pose proof (do_size _ (fo_di _ _ _ _ Hf i Hi)) as Hs0.
  assert (0 <= n <= MAXFILE * BSIZE) as Hn by (unfold n, MAXFILE, BSIZE in *; lia). split_and!; [| |lia|lia].
  - apply (nth_ext _ _ 0 0).
    + rewrite length_fbytes, length_write_at, length_fbytes by (by rewrite length_fbytes). cbn [d_size set_dsize]. unfold n. lia.
    + rewrite length_fbytes. cbn [d_size set_dsize]. intros t Ht. rewrite nth_fbytes by done.
      rewrite nth_write_at by (by rewrite length_fbytes). change (fbyte C' (set_dsize n (D' i)) t) with (fbyte C' (D' i) t).
      case_decide as Hin; [by apply (wt_in _ _ _ _ _ _ _ _ _ _ _ Hw)|].
      assert (Z.of_nat t < d_size (D i)) as Hts by (unfold n in Ht; lia). rewrite nth_fbytes by lia.
      destruct (byte_block t _ Hts Hms) as [Hb Hbn]. apply (wt_out _ _ _ _ _ _ _ _ _ _ _ Hw); [done|lia|by apply Hsl].
  - intros bn Hbn. destruct (decide (Z.of_nat bn * BSIZE < d_size (D i))) as [Hlt|Hge].
    + rewrite (wt_slot _ _ _ _ _ _ _ _ _ _ _ Hw); [by apply Hsl| |by apply Hsl]. apply dslot_lt.
      unfold MAXFILE, BSIZE in *. lia.
    + apply (wt_alloc _ _ _ _ _ _ _ _ _ _ _ Hw). apply touched_elem. exists (512 * bn + 0)%nat.
      destruct (div_512 bn 0 ltac:(lia)) as [-> _]. unfold n, BSIZE in *. lia.
Qed.
End bytes.

Section writei.
Context (cur : nat) (pd : Z) (SB : superblock) (fuel : nat) (bswtch : MF unit) `{DV : Devsw}.
Context (Hfuel : (0 < fuel)%nat) (G : geom SB).
Notation wpa := (wpa cur pd SB).

(** The file system after inode [x] of entry [ip] got the contents [f]. *)
Record written (a : astate) (D : Z -> dinode) (ip : nat) (x : inode) (f : list Z) (a' : astate) (D' : Z -> dinode) : Prop := Written {
  wn_ok : fs_ok SB (a_blk a') D' [];
  wn_disk X : on_disk SB (a_blk a) D X -> on_disk SB (a_blk a') D' X;
  wn_D j : j <> i_inum x -> D' j = D j;
  wn_keeps j : j <> i_inum x -> inum_ok SB j -> live (D j) -> keeps (a_blk a) (D j) (a_blk a') (D j);
  wn_type : d_type (D' (i_inum x)) = d_type (D (i_inum x));
  wn_major : d_major (D' (i_inum x)) = d_major (D (i_inum x));
  wn_minor : d_minor (D' (i_inum x)) = d_minor (D (i_inum x));
  wn_nlink : d_nlink (D' (i_inum x)) = d_nlink (D (i_inum x));
  wn_bytes : fbytes (a_blk a') (D' (i_inum x)) = f;
  wn_held : a_held a' = [];
  wn_ic : a_ic a' = <[ip := set_idi (D' (i_inum x)) x]> (a_ic a) }.

(** The blocks a write to the blocks [t] of the file logs, and the free blocks it
    takes. *)
Record logged (i : Z) (t : list nat) (a a' : astate) (D' : Z -> dinode) : Prop := Logged {
  lg_blk m : m ∈ a_log a' -> m ∈ a_log a \/ m = IBLOCK i SB \/ (exists b, blk_ok SB b /\ m = BBLOCK b SB) \/
    m = slot (a_blk a') (D' i) NDIRECT \/ exists bn, bn ∈ t /\ m = slot (a_blk a') (D' i) (dslot bn);
  lg_free : (nfree SB (a_blk a) <= nfree SB (a_blk a') + length t + 1)%nat }.

Lemma wrote_logged i off l T a D a1 D1 :
  wrote SB i off l T (a_blk a) (a_log a) D (a_blk a1) (a_log a1) D1 -> inum_ok SB i -> live (D1 i) ->
  logged i (touched off (length l)) a a1 D1.
Proof.
  intros Hw Hi Hl. constructor.
  - intros m [Hm|[Hm|[H0 [Hm| ->]]]]%(wt_log _ _ _ _ _ _ _ _ _ _ _ Hw); [by left| | |].
    + apply (wt_Tin _ _ _ _ _ _ _ _ _ _ _ Hw) in Hm as [?|?]; [by do 2 right; left|by do 4 right].
    + do 3 right. by left.
    + do 2 right. left. eexists. split; [|done]. pose proof (geom_facts SB G).
      destruct (fo_slot _ _ _ _ (wt_ok _ _ _ _ _ _ _ _ _ _ _ Hw) i NDIRECT Hi Hl); [unfold NSLOT; lia|done|]. unfold blk_ok. lia.
  - pose proof (wt_free _ _ _ _ _ _ _ _ _ _ _ Hw). destruct (decide (slot (a_blk a) _ _ = 0)), (decide (slot (a_blk a1) _ _ = 0)); lia.
Qed.

Lemma set_dsize_id x : set_dsize (d_size x) x = x.
Proof. by destruct x. Qed.

Lemma upd_id D i j : upd D i (D i) j = D j.
Proof. unfold upd. case_decide; by subst. Qed.

(** The store of the inode at the end. *)
Lemma writei_size_logged a i off l T a1 D D1 n d :
  inum_ok SB i -> live (D i) ->
  wrote SB i off l T (a_blk a) (a_log a) D (a_blk a1) (a_log a1) D1 -> a_blk a1 !! IBLOCK i SB = Some d ->
  fs_ok SB (a_blk a1) (upd D1 i (set_dsize n (D1 i))) [] ->
  forall ic, logged i (touched off (length l)) a (AS ic [] (<[IBLOCK i SB := put_dinode (set_dsize n (D1 i)) d (dip i)]> (a_blk a1))
    (add_block (IBLOCK i SB) (a_log a1))) (upd D1 i (set_dsize n (D1 i))).
Proof.
  intros Hi Hl Hw Hd Hf2 ic. destruct (wt_attr _ _ _ _ _ _ _ _ _ _ _ Hw) as (A1 & _). destruct (IBLOCK_eq SB G i Hi).
  assert (live (D1 i)) as Hl1 by (unfold live; by rewrite A1). destruct (wrote_logged i off l T a D a1 D1 Hw Hi Hl1) as [H1 H2].
  set (C' := <[_ := _]> (a_blk a1)). set (D2 := upd D1 i _) in *. assert (D2 i = set_dsize n (D1 i)) as E2 by apply upd_eq.
  assert (forall k, slot C' (D2 i) k = slot (a_blk a1) (D1 i) k) as Hs.
  { intros k. rewrite E2. transitivity (slot C' (D1 i) k); [done|]. apply slot_frame. intros Hd0. unfold C'. apply lookup_insert_ne.
    destruct (fo_slot _ _ _ _ (wt_ok _ _ _ _ _ _ _ _ _ _ _ Hw) i NDIRECT Hi Hl1); [unfold NSLOT; lia|done|]. pose proof (geom_facts SB G). lia. }
  constructor; cbn [a_log a_blk].
  - intros m [Hm| ->]%add_block_elem; [|by right; left]. rewrite Hs. setoid_rewrite Hs. by apply H1.
  - rewrite (nfree_ext SB (a_blk a1) C'); [done|]. intros b Hb. unfold C'. apply free_insert; [done|done|lia].
Qed.

(** The end of [writei]: the size of the file is stored. *)
Lemma wpa_writei_size a D ip x off l T a1 D1 :
  fs_ok SB (a_blk a) D [] -> entry SB a D ip x -> a_held a1 = [] -> (length (a_log a1) < 29)%nat ->
  wrote SB (i_inum x) off l T (a_blk a) (a_log a) D (a_blk a1) (a_log a1) D1 ->
  a_ic a1 = <[ip := set_idi (D1 (i_inum x)) x]> (a_ic a) ->
  (off <= length (fbytes (a_blk a) (D (i_inum x))))%nat -> Z.of_nat (off + length l) <= MAXFILE * BSIZE ->
  wpa (y ← iread ip;
       (if (0 <? Z.of_nat (length l)) && (d_size (i_di y) <? Z.of_nat (off + length l)) then
          iupd ip (fun x => set_idi (set_dsize (Z.of_nat (off + length l)) (i_di x)) x);; iupdate fuel bswtch ip
        else mret tt);;
       mret (i32 (Z.of_nat (length l)))) a1
    (fun v a' => v = Z.of_nat (length l) /\ (exists D',
       written a D ip x (write_at (fbytes (a_blk a) (D (i_inum x))) off l) a' D' /\
       logged (i_inum x) (touched off (length l)) a a' D') /\
       (length (a_log a') <= length (a_log a1) + 1)%nat).
Proof.
  intros Hf [Hic Hdev Hi Hdi Hl] Hh HS Hw Hic1 Hoff Hmax. set (i := i_inum x) in *. rewrite length_fbytes in Hoff.
  destruct (wrote_bytes SB i off l T _ _ D _ _ D1 Hf Hi Hl Hw Hoff Hmax) as (Hb & Hsl & Hn).
  destruct (wt_attr _ _ _ _ _ _ _ _ _ _ _ Hw) as (A1 & A2 & A3 & A4 & A5).
  pose proof (do_size _ (fo_di _ _ _ _ Hf i Hi)) as Hs0. pose proof (wt_ok _ _ _ _ _ _ _ _ _ _ _ Hw) as Hf1.
  set (x1 := set_idi (D1 i) x) in *.
  assert (a_ic a1 !! ip = Some x1) as Hx1 by (rewrite Hic1; apply list_lookup_insert_eq; by eapply lookup_lt_Some).
  assert (i32 (Z.of_nat (length l)) = Z.of_nat (length l)) as ->.
  { apply i32_small. unfold MAXFILE, BSIZE, NDIRECT, NINDIRECT in Hmax. lia. }
  eapply wpa_bind; [by apply wpa_iread|]. intros ? ? [-> ->]. cbn [i_di x1 set_idi]. rewrite A5.
  destruct (decide (d_size (D i) < Z.of_nat (off + length l))) as [Hgrow|Hsame].
  - rewrite (proj2 (Z.ltb_lt 0 _)), (proj2 (Z.ltb_lt _ _)) by lia. cbn [andb].
    rewrite Z.max_r in Hb, Hsl, Hn by lia. set (n := Z.of_nat (off + length l)) in *.
    set (D2 := upd D1 i (set_dsize n (D1 i))). pose proof (resize_ok SB _ D1 i n [] Hf1 Hi Hn Hsl) as Hf2. fold D2 in Hf2.
    destruct (fo_blk _ _ _ _ Hf1 _ (inode_blk SB G i Hi)) as (d & Hd & _).
    eapply wpa_bind.
    { eapply wpa_bind; [by apply wpa_iupd|]. intros _ ? ->.
      apply (wpa_iupdate cur pd SB fuel bswtch Hfuel G _ ip (set_idi (set_dsize n (D1 i)) x) d); try done.
      cbn [a_ic set_ic]. apply list_lookup_insert_eq. by eapply lookup_lt_Some. }
    intros _ ? ->. cbn [set_ic a_ic a_held a_blk a_log set_idi i_inum i_di]. fold i.
    apply wpa_ret. split; [done|]. split; [|cbn [a_log]; pose proof (add_block_length (IBLOCK i SB) (a_log a1)); lia].
    exists D2. assert (D2 i = set_dsize n (D1 i)) as E2 by apply upd_eq. split; [|by apply (writei_size_logged a i off l T a1 D D1 n d)].
    assert (forall X, on_disk SB (a_blk a) D X -> on_disk SB (a_blk a1) D2 (i :: X)) as Ho2.
    { intros X Ho j Hj HX. unfold D2. rewrite upd_ne by set_solver.
      rewrite (wt_inodes _ _ _ _ _ _ _ _ _ _ _ Hw), (wt_D _ _ _ _ _ _ _ _ _ _ _ Hw) by (done || set_solver).
      apply Ho; [done|set_solver]. }
    destruct (inode_store_ok SB G _ D2 [] i d _ Hf2 Hi Hd (stores_put_dinode (D2 i) d (dip i))) as (Hf3 & Hk3 & _).
    assert (live (D2 i)) as Hl2 by (rewrite E2; unfold live; cbn; by rewrite A1).
    constructor; cbn [a_blk a_held a_ic]; fold i; rewrite ?E2; try done.
    + by rewrite <- E2.
    + intros X Ho. rewrite <- E2. by apply (iupdate_ok SB G _ D2 X i d Hf2 Hi Hd (Ho2 X Ho)).
    + intros j Hj. unfold D2. rewrite upd_ne by done. by apply (wt_D _ _ _ _ _ _ _ _ _ _ _ Hw).
    + intros j Hj Hjo Hlj. eapply keeps_trans; [by apply (wt_keeps _ _ _ _ _ _ _ _ _ _ _ Hw)|].
      assert (D2 j = D j) as Ej by (unfold D2; rewrite upd_ne by done; by apply (wt_D _ _ _ _ _ _ _ _ _ _ _ Hw)).
      rewrite <- E2, <- Ej. apply Hk3; [done|by rewrite Ej].
    + rewrite <- E2. rewrite (keeps_bytes SB _ D2 [] _ i (D2 i) Hf2 Hi Hl2 (Hk3 i Hi Hl2)). by rewrite E2.
    + rewrite Hic1. by rewrite list_insert_insert_eq.
  - rewrite Z.max_l in Hb, Hsl, Hn by lia. rewrite (proj2 (Z.ltb_ge (d_size (D i)) _)) by lia. rewrite andb_false_r.
    apply wpa_ret_bind, wpa_ret. split; [done|]. split; [|lia]. exists D1. split; [|apply (wrote_logged i off l T a D a1 D1 Hw Hi); unfold live; by rewrite A1].
    assert (D1 i = D i) as E1.
    { apply (wt_hit _ _ _ _ _ _ _ _ _ _ _ Hw). intros bn (t & Ht & <-)%touched_elem.
      apply (fo_size _ _ _ _ Hf i Hi Hl). destruct (byte_block t (d_size (D i))); [lia|apply (fo_size _ _ _ _ Hf i Hi Hl)|done]. }
    constructor; fold i; try done.
    + intros X Ho j Hj HX. rewrite (wt_inodes _ _ _ _ _ _ _ _ _ _ _ Hw) by done.
      destruct (decide (j = i)) as [->|Hne]; [rewrite E1|rewrite (wt_D _ _ _ _ _ _ _ _ _ _ _ Hw) by done]; by apply Ho.
    + apply (wt_D _ _ _ _ _ _ _ _ _ _ _ Hw).
    + apply (wt_keeps _ _ _ _ _ _ _ _ _ _ _ Hw).
    + rewrite <- Hb, <- A5. by rewrite set_dsize_id.
Qed.

Lemma wpa_writei a D ip x src off n :
  fs_ok SB (a_blk a) D [] -> entry SB a D ip x -> a_held a = [] -> d_type (D (i_inum x)) <> T_DEV ->
  0 <= off < 2 ^ 32 -> 0 <= n < 2 ^ 32 -> Z.of_nat (length src) = n ->
  let f := fbytes (a_blk a) (D (i_inum x)) in
  let t := touched (Z.to_nat off) (length src) in
  (off + n <= MAXFILE * BSIZE -> (length (a_log a) + cost (a_blk a) (D (i_inum x)) t < 18)%nat) ->
  (off + n <= MAXFILE * BSIZE -> (forall bn, bn ∈ t -> slot (a_blk a) (D (i_inum x)) (dslot bn) <> 0) \/
     (length t + 1 <= nfree SB (a_blk a))%nat) ->
  wpa (writei fuel bswtch ip src off n) a (fun v a' =>
    if (Z.of_nat (length f) <? off) || (2 ^ 32 <=? off + n) || (MAXFILE * BSIZE <? off + n)
    then v = -1 /\ a' = a
    else v = n /\ (exists D', written a D ip x (write_at f (Z.to_nat off) src) a' D' /\ logged (i_inum x) t a a' D') /\
      (length (a_log a') <= length (a_log a) + cost (a_blk a) (D (i_inum x)) t + 3)%nat).
Proof.
  intros Hf He Hh Hty Hoff Hn Hsrc f t Hbud Hfree. pose proof He as [Hic Hdev Hi Hdi Hl].
  pose proof (do_size _ (fo_di _ _ _ _ Hf _ Hi)) as Hsz. unfold writei.
  eapply wpa_bind; [by apply wpa_iread|]. intros ? ? [-> ->]. cbv zeta. rewrite Hdi.
  assert (Z.of_nat (length f) = d_size (D (i_inum x))) as Ef by (unfold f; rewrite length_fbytes; lia). rewrite Ef.
  rewrite (proj2 (Z.eqb_neq _ _) Hty). destruct (Z.ltb_spec (d_size (D (i_inum x))) off) as [|Hle]; [by apply wpa_ret|].
  cbn [orb]. destruct (Z.leb_spec (2 ^ 32) (off + n)) as [Hov|Hno].
  { assert (u32 (off + n) = off + n - 2 ^ 32) as -> by (unfold u32; dlia).
    rewrite (proj2 (Z.ltb_lt _ _)) by lia. by apply wpa_ret. }
  rewrite (u32_small (off + n)) by lia. rewrite (proj2 (Z.ltb_ge _ _)) by lia. cbn [orb].
  destruct (Z.ltb_spec (MAXFILE * BSIZE) (off + n)) as [|Hmax]; [by apply wpa_ret|].
  specialize (Hbud Hmax). specialize (Hfree Hmax). set (o := Z.to_nat off) in *.
  assert (off = Z.of_nat o) as Eo by lia. rewrite Eo.
  eapply wpa_bind.
  { apply (wpa_writei_loop cur pd SB fuel bswtch Hfuel G _ a D ip x src o n 0 (a_log a)); try done; try lia.
    - unfold loop_blocks, BSIZE. dlia.
    - intros _. pose proof (Z.mod_pos_bound (Z.of_nat o) BSIZE ltac:(unfold BSIZE; lia)). unfold loop_blocks, BSIZE in *. dlia.
    - intros m Hm. by left.
    - fold t. destruct Hfree as [?|Hfree]; [by left|right]. destruct (decide (slot (a_blk a) (D (i_inum x)) NDIRECT = 0)); lia. }
  intros v a1 (-> & T & D1 & Hw & Hh1 & Hic1). apply wpa_nodup. intros Hnd.
  assert (length (a_log a1) <= length (a_log a) + cost (a_blk a) (D (i_inum x)) t + 2)%nat as HW.
  { assert (log_in SB (a_log a ++ T) (slot (a_blk a1) (D1 (i_inum x)) NDIRECT) (a_log a1)) as HL.
    { eapply log_in_wrote; [done|]. intros m Hm. by left. }
    apply log_in_length in HL; [|done]. rewrite length_app in HL. pose proof (wt_T _ _ _ _ _ _ _ _ _ _ _ Hw). fold t in H. lia. }
  rewrite <- Hsrc. eapply wpa_mono; [apply (wpa_writei_size a D ip x o src T a1 D1); try done; [lia|fold f; lia|lia]|].
  intros v a' (-> & HD & HL). split_and!; [done|done|lia].
Qed.
End writei.
