(* ===== verification/Xv6Icache.v ===== *)
(** * The xv6 inode cache (lab2/fs.c)

    [ic_ok], the invariant of the cache: an inode has one entry, and a valid
    entry is a copy of its inode.  [refs] counts the references to an inode;
    [iget], [idup], [ilock] and [iunlock] are stated with it. *)

From S2P Require Import Prelude CMem Xv6Lock Xv6Proc Xv6World Xv6Bio Xv6Log Xv6Txn Xv6Inode Xv6Disk Xv6Iops Xv6Content.
From stdpp Require Import base numbers option list gmap strings.
Open Scope Z_scope.

(** References to inode [n]. *)
Definition refs (ic : list inode) (n : Z) : Z :=
  foldr (fun x s => (if i_inum x =? n then i_ref x else 0) + s) 0 ic.

Definition contrib (x : inode) (n : Z) : Z := if i_inum x =? n then i_ref x else 0.

Lemma refs_insert ic ip x y n :
  ic !! ip = Some x -> refs (<[ip := y]> ic) n = refs ic n - contrib x n + contrib y n.
Proof.
  revert ip. induction ic as [|z ic IH]; intros [|ip] Hip; simplify_eq/=.
  - unfold contrib. lia.
  - rewrite (IH ip) by done. lia.
Qed.

Section cache.
Context (SB : superblock).

Record ic_ok (ic : list inode) (D : Z -> dinode) : Prop := IcOk {
  io_len : length ic = NINODE;
  io_ref ip x : ic !! ip = Some x -> 0 <= i_ref x;
  io_dev ip x : ic !! ip = Some x -> 0 < i_ref x -> i_dev x = 1 /\ inum_ok SB (i_inum x);
  io_valid ip x : ic !! ip = Some x -> 0 < i_ref x ->
    i_valid x = 0 \/ i_valid x = 1 /\ i_di x = D (i_inum x) /\ live (D (i_inum x));
  io_free ip x : ic !! ip = Some x -> i_ref x = 0 -> sl_locked (i_lock x) = 0;
  io_uniq ip jp x y : ic !! ip = Some x -> ic !! jp = Some y -> 0 < i_ref x -> 0 < i_ref y ->
    i_inum x = i_inum y -> ip = jp }.

(** An entry that may take the place of entry [ip]. *)
Record ent_ok (ic : list inode) (D : Z -> dinode) (ip : nat) (y : inode) : Prop := EntOk {
  eo_ref : 0 <= i_ref y;
  eo_dev : 0 < i_ref y -> i_dev y = 1 /\ inum_ok SB (i_inum y);
  eo_valid : 0 < i_ref y -> i_valid y = 0 \/ i_valid y = 1 /\ i_di y = D (i_inum y) /\ live (D (i_inum y));
  eo_free : i_ref y = 0 -> sl_locked (i_lock y) = 0;
  eo_uniq jp x : jp <> ip -> ic !! jp = Some x -> 0 < i_ref x -> 0 < i_ref y -> i_inum x <> i_inum y }.

Lemma ic_insert ic D ip y : ic_ok ic D -> ent_ok ic D ip y -> ic_ok (<[ip := y]> ic) D.
Proof.
  intros [] []. assert (forall jp x, <[ip := y]> ic !! jp = Some x -> jp = ip /\ x = y \/ jp <> ip /\ ic !! jp = Some x) as Hl.
  { intros jp x. rewrite list_lookup_insert_Some. naive_solver. }
  constructor.
  - by rewrite length_insert.
  - intros jp x [[-> ->]|[_ ?]]%Hl; eauto.
  - intros jp x [[-> ->]|[_ ?]]%Hl; eauto.
  - intros jp x [[-> ->]|[_ ?]]%Hl; eauto.
  - intros jp x [[-> ->]|[_ ?]]%Hl; eauto.
  - intros jp kp x z [[-> ->]|[Hj Hjx]]%Hl [[-> ->]|[Hk Hkz]]%Hl Hx Hz E; [done| | |by eapply io_uniq0].
    + exfalso. by apply (eo_uniq0 kp z Hk Hkz).
    + exfalso. by apply (eo_uniq0 jp x Hj Hjx).
Qed.

(** An entry in use, with another count, lock or copy. *)
Lemma ent_same ic D ip x y :
  ic_ok ic D -> ic !! ip = Some x -> 0 < i_ref x -> i_dev y = i_dev x -> i_inum y = i_inum x -> 0 <= i_ref y ->
  (i_ref y = 0 -> sl_locked (i_lock y) = 0) ->
  (i_valid y = 0 \/ i_valid y = 1 /\ i_di y = D (i_inum y) /\ live (D (i_inum y))) -> ent_ok ic D ip y.
Proof.
  intros Hok Hx Hr Hd Hi Hr' Hlk Hv. destruct (io_dev _ _ Hok ip x Hx Hr) as [? ?].
  constructor; try done.
  - intros _. by rewrite Hd, Hi.
  - intros jp z Hjp Hz Hrz _ E. apply Hjp. by apply (io_uniq _ _ Hok jp ip z x); [..|congruence].
Qed.

(** The contents of the disk may change under inodes that are not cached. *)
Lemma ic_ext ic D D' :
  ic_ok ic D -> (forall ip x, ic !! ip = Some x -> 0 < i_ref x -> i_valid x = 1 -> D' (i_inum x) = D (i_inum x)) -> ic_ok ic D'.
Proof.
  intros [] HD. constructor; try done. intros ip x Hx Hr. destruct (io_valid0 ip x Hx Hr) as [?|(? & ? & ?)]; [by left|right].
  by rewrite (HD ip x).
Qed.

Lemma refs_zero ic n :
  (forall ip x, ic !! ip = Some x -> 0 <= i_ref x) ->
  (forall ip x, ic !! ip = Some x -> 0 < i_ref x -> i_inum x <> n) -> refs ic n = 0.
Proof.
  induction ic as [|x ic IH]; intros Hr Hn; [done|].
  assert (refs ic n = 0) as E by (apply IH; intros ip; [apply (Hr (S ip))|apply (Hn (S ip))]).
  unfold refs in *. simpl. rewrite E. pose proof (Hr 0%nat x eq_refl). pose proof (Hn 0%nat x eq_refl).
  destruct (Z.eqb_spec (i_inum x) n); [|lia]. destruct (decide (0 < i_ref x)); [naive_solver|lia].
Qed.

(** An inode has one entry, with all its references. *)
Lemma refs_entry ic D ip x : ic_ok ic D -> ic !! ip = Some x -> 0 < i_ref x -> refs ic (i_inum x) = i_ref x.
Proof.
  intros Hok Hx Hr. pose proof (refs_insert ic ip x (set_iref 0 x) (i_inum x) Hx) as E.
  unfold contrib in E. simpl in E. rewrite Z.eqb_refl in E. rewrite refs_zero in E; [lia|..].
  - intros jp y Hy. apply list_lookup_insert_Some in Hy as [(_ & <- & _)|(_ & Hy)]; [done|]. by eapply io_ref.
  - intros jp y Hy Hry E'. apply list_lookup_insert_Some in Hy as [(_ & <- & _)|(Hne & Hy)]; [simpl in Hry; lia|].
    by apply Hne, (io_uniq _ _ Hok ip jp x y).
Qed.

(** ** The search of [iget] *)

Lemma iget_scan_hit l k dv n empty i :
  iget_scan l k dv n empty = inl i ->
  exists j x, i = (k + j)%nat /\ l !! j = Some x /\ 0 < i_ref x /\ i_dev x = dv /\ i_inum x = n.
Proof.
  revert k empty. induction l as [|x l IH]; intros k empty; [done|]. simpl.
  destruct (_ && _) eqn:E.
  - intros [= <-]. apply andb_true_iff in E as [[E1 E2]%andb_true_iff E3].
    exists 0%nat, x. split_and!; [lia|done|lia|lia|lia].
  - intros (j & y & -> & Hj & ?)%IH. exists (S j), y. split_and!; [lia|done|naive_solver..].
Qed.

Lemma iget_scan_miss l k dv n empty o :
  iget_scan l k dv n empty = inr o ->
  (forall j x, l !! j = Some x -> 0 < i_ref x -> i_dev x = dv -> i_inum x <> n) /\
  (o = empty \/ exists j x, o = Some (k + j)%nat /\ l !! j = Some x /\ i_ref x = 0) /\
  (o = None -> forall j x, l !! j = Some x -> i_ref x <> 0).
Proof.
  revert k empty. induction l as [|x l IH]; intros k empty; simpl; [intros [= ->]; split_and!; [done|by left|done]|].
  destruct (_ && _) eqn:E; [done|]. intros (H1 & H2 & H3)%IH.
  assert (0 < i_ref x -> i_dev x = dv -> i_inum x <> n) as Hx.
  { intros Hr Hd Hn. apply not_true_iff_false in E. apply E. rewrite !andb_true_iff. lia. }
  split_and!.
  - intros [|j] y Hj; simplify_eq/=; [done|]. by eapply H1.
  - destruct H2 as [->|(j & y & -> & Hj & Hy)]; [|right; exists (S j), y; split_and!; [f_equal; lia|done|done]].
    destruct empty as [e|]; [by left|]. destruct (Z.eqb_spec (i_ref x) 0) as [H0|]; [|by left].
    right. exists 0%nat, x. split_and!; [f_equal; lia|done|done].
  - intros -> [|j] y Hj; simplify_eq/=; [|by eapply H3].
    destruct H2 as [H2|(? & ? & ? & _)]; [|done]. destruct empty; [done|]. destruct (Z.eqb_spec (i_ref y) 0); [done|done].
Qed.
End cache.

(** ** Locks *)

Section rules.
Context (cur : nat) (pd : Z) (SB : superblock).
Notation wpa := (wpa cur pd SB).
Notation wpi := (wpx (R := ist) (Some cur) pd).

Lemma ino_slock_at r ip x : icache r !! ip = Some x -> sl_at (ino_slock ip) r (i_lock x).
Proof.
  intros Hx. constructor; simpl.
  - by rewrite Hx.
  - intros k'. by rewrite list_lookup_alter_eq, Hx.
  - intros k1 k2. unfold with_icache. simpl. f_equal. rewrite list_alter_alter_eq. by apply list_alter_ext.
Qed.

Lemma alter_entry (l : list inode) ip x f : l !! ip = Some x -> alter f ip l = <[ip := f x]> l.
Proof.
  intros Hx. apply list_eq. intros j. destruct (decide (ip = j)) as [<-|Hne].
  - rewrite list_lookup_insert_eq by (by eapply lookup_lt_Some). by rewrite list_lookup_alter_eq, Hx.
  - by rewrite list_lookup_insert_ne, list_lookup_alter_ne.
Qed.

Lemma wpa_acquiresleep fuel swtch a ip x :
  (0 < fuel)%nat -> a_ic a !! ip = Some x -> sl_locked (i_lock x) = 0 ->
  wpa (acquiresleep fuel swtch (ino_slock ip)) a
    (fun _ a' => a' = set_ic (<[ip := set_ilock (MkSleep 1 pd) x]> (a_ic a)) a).
Proof.
  intros Hfuel Hx Hl r Ha. rewrite <- (ao_ic _ _ _ _ Ha) in Hx.
  eapply wpx_mono; [by apply (wpx_acquiresleep _ _ _ _ _ _ _ (ino_slock_at r ip x Hx))|].
  intros _ ? ? [-> ->]. split; [done|]. split; [done|]. eexists. split; [|done].
  simpl. rewrite (alter_entry _ _ _ _ Hx), (ao_ic _ _ _ _ Ha). by apply aok_set_ic.
Qed.

Lemma wpa_releasesleep a ip x :
  a_ic a !! ip = Some x ->
  wpa (releasesleep (ino_slock ip)) a (fun _ a' => a' = set_ic (<[ip := set_ilock (MkSleep 0 0) x]> (a_ic a)) a).
Proof.
  intros Hx r Ha. rewrite <- (ao_ic _ _ _ _ Ha) in Hx.
  eapply wpx_mono; [by apply wpx_releasesleep|].
  intros _ ? ? [-> ->]. split; [done|]. split; [done|]. eexists. split; [|done].
  simpl. rewrite (alter_entry _ _ _ _ Hx), (ao_ic _ _ _ _ Ha). by apply aok_set_ic.
Qed.

Lemma wpa_holdingsleep a ip x :
  a_ic a !! ip = Some x ->
  wpa (holdingsleep (ino_slock ip)) a
    (fun h a' => h = negb (sl_locked (i_lock x) =? 0) && (sl_pid (i_lock x) =? pd) /\ a' = a).
Proof.
  intros Hx r Ha. rewrite <- (ao_ic _ _ _ _ Ha) in Hx.
  eapply wpx_mono; [by apply (wpx_holdingsleep _ _ _ _ _ (ino_slock_at r ip x Hx))|].
  intros h ? ? (-> & -> & ->). split; [done|]. split; [done|]. by exists a.
Qed.

(** An entry is changed, or read, under the lock of the cache. *)
Lemma wpa_lock_upd {B} a ip x f (k : unit -> MI B) Q :
  a_ic a !! ip = Some x -> wpa (k tt) (set_ic (<[ip := f x]> (a_ic a)) a) Q ->
  wpa (lift (acquire icache_lock) ≫= fun _ => iupd ip f ≫= fun _ => lift (release icache_lock) ≫= k) a Q.
Proof.
  intros Hx Hk r Ha. rewrite <- (ao_ic _ _ _ _ Ha) in Hx.
  wx wpx_acquire as [-> ->]; [set_solver|].
  eapply (wpx_bind _ _ _ _ _ _ (fun _ H' r' => H' = [icache_lock] /\ r' = with_icache (<[ip := f x]> (icache r)) r)).
  { eapply wpx_mono; [apply wpx_modify|]. intros _ ? ? [-> ->]. split; [done|]. by rewrite (alter_entry _ _ _ _ Hx). }
  intros _ ? ? [-> ->]. wx wpx_release as [-> ->]; [done|]. repeat match goal with u : unit |- _ => destruct u end.
  refine (Hk (with_icache _ r) _). rewrite (ao_ic _ _ _ _ Ha). by apply aok_set_ic.
Qed.

Lemma wpa_lock_read {B} a ip x (k : inode -> unit -> MI B) Q :
  a_ic a !! ip = Some x -> wpa (k x tt) a Q ->
  wpa (lift (acquire icache_lock) ≫= fun _ => iread ip ≫= fun y => lift (release icache_lock) ≫= k y) a Q.
Proof.
  intros Hx Hk r Ha. rewrite <- (ao_ic _ _ _ _ Ha) in Hx.
  wx wpx_acquire as [-> ->]; [set_solver|].
  eapply (wpx_bind _ _ _ _ _ _ (fun y H' r' => y = x /\ H' = [icache_lock] /\ r' = r)).
  { intros s Hw <-. unfold wp, iread. rewrite Hx. by exists [icache_lock]. }
  intros ? ? ? (-> & -> & ->). wx wpx_release as [-> ->]; [done|]. repeat match goal with u : unit |- _ => destruct u end. by apply Hk.
Qed.

(** ** [iget] and [idup] *)

(** The cache [ic'] with one more reference to inode [n], at entry [ip]. *)
Record took (ic : list inode) (D : Z -> dinode) (n : Z) (ip : nat) (ic' : list inode) : Prop := Took {
  tk_ok : ic_ok SB ic' D;
  tk_ent : exists x, ic' !! ip = Some x /\ i_inum x = n /\ 0 < i_ref x /\ (i_valid x = 0 \/ 1 < i_ref x) /\
    (forall y, ic !! ip = Some y -> i_lock x = i_lock y);
  tk_refs m : refs ic' m = refs ic m + (if m =? n then 1 else 0);
  tk_other jp : jp <> ip -> ic' !! jp = ic !! jp;
  tk_same y : ic !! ip = Some y -> 0 < i_ref y -> exists x, ic' !! ip = Some x /\ i_valid x = i_valid y /\ i_di x = i_di y }.

Lemma took_more ic D ip x :
  ic_ok SB ic D -> ic !! ip = Some x -> 0 < i_ref x -> refs ic (i_inum x) < 2 ^ 31 - 1 ->
  i32 (i_ref x + 1) = i_ref x + 1 /\ took ic D (i_inum x) ip (<[ip := set_iref (i_ref x + 1) x]> ic).
Proof.
  intros Hok Hx Hr Hs. rewrite (refs_entry SB ic D ip x Hok Hx Hr) in Hs. rewrite i32_small by lia. split; [done|].
  constructor.
  - apply ic_insert; [done|]. apply (ent_same SB ic D ip x); try done; simpl; [lia|lia|by apply (io_valid _ _ _ Hok ip x)].
  - exists (set_iref (i_ref x + 1) x). split_and!; [|done|simpl; lia|simpl; lia|].
    + apply list_lookup_insert_eq. by eapply lookup_lt_Some.
    + intros y Hy. assert (y = x) as -> by congruence. done.
  - intros m. rewrite (refs_insert ic ip x _ m Hx). unfold contrib. simpl. rewrite (Z.eqb_sym m). destruct (_ =? _); lia.
  - intros jp Hjp. by apply list_lookup_insert_ne.
  - intros y Hy _. assert (y = x) as -> by congruence. exists (set_iref (i_ref x + 1) x).
    split; [|done]. apply list_lookup_insert_eq. by eapply lookup_lt_Some.
Qed.

(** An inode other than that of entry [jp] is not taken at [jp]. *)
Lemma took_elsewhere ic D n ip ic' jp y :
  ic_ok SB ic D -> took ic D n ip ic' -> ic !! jp = Some y -> 0 < i_ref y -> i_inum y <> n -> ip <> jp.
Proof.
  intros Hok [Hok' (z & Hz & Ez & Hrz & _) Hrefs Hoth] Hy Hr Hne ->.
  specialize (Hrefs (i_inum y)). rewrite (refs_entry SB ic D jp y Hok Hy Hr), (proj2 (Z.eqb_neq _ _)) in Hrefs by done.
  rewrite refs_zero in Hrefs; [lia|by intros ? ? ?; eapply io_ref|].
  intros kp w Hw Hrw E. destruct (decide (kp = jp)) as [->|Hk]; [congruence|].
  apply Hk. rewrite Hoth in Hw by done. by apply (io_uniq _ _ _ Hok kp jp w y).
Qed.

Lemma wpa_iget a D n :
  ic_ok SB (a_ic a) D -> inum_ok SB n -> refs (a_ic a) n < 2 ^ 31 - 1 ->
  (0 < refs (a_ic a) n \/ exists ip x, a_ic a !! ip = Some x /\ i_ref x = 0) ->
  wpa (iget 1 n) a (fun ip a' => exists ic', a' = set_ic ic' a /\ took (a_ic a) D n ip ic').
Proof.
  intros Hok Hn Hs Hroom r Ha. unfold iget. wx wpx_acquire as [-> ->]; [set_solver|].
  wx wpx_gets as (-> & -> & ->). rewrite (ao_ic _ _ _ _ Ha).
  destruct (iget_scan (a_ic a) 0 1 n None) as [ip|[ip|]] eqn:E.
  - apply iget_scan_hit in E as (j & x & -> & Hx & Hr & Hd & <-). simpl.
    destruct (took_more _ D j x Hok Hx Hr Hs) as [E Ht].
    eapply (wpx_bind _ _ _ _ _ _ (fun _ H' r' => H' = [icache_lock] /\ r' = with_icache (<[j := set_iref (i_ref x + 1) x]> (a_ic a)) r)).
    { eapply wpx_mono; [apply wpx_modify|]. intros _ ? ? [-> ->]. split; [done|]. rewrite (ao_ic _ _ _ _ Ha).
      rewrite (alter_entry _ _ _ _ Hx). by rewrite E. }
    intros _ ? ? [-> ->]. wx wpx_release as [-> ->]; [done|]. apply wpx_ret. split; [done|]. split; [done|].
    eexists. split; [by apply aok_set_ic|]. by eexists.
  - apply iget_scan_miss in E as (Hno & [?|(j & x & [= ->] & Hx & Hr)] & _); [done|]. simpl.
    assert (forall jp y, a_ic a !! jp = Some y -> 0 < i_ref y -> i_inum y <> n) as Hno'.
    { intros jp y Hy Hry. apply (Hno jp y Hy Hry). by apply (io_dev _ _ _ Hok jp y). }
    eapply (wpx_bind _ _ _ _ _ _ (fun _ H' r' => H' = [icache_lock] /\ r' = with_icache (<[j := recycle 1 n x]> (a_ic a)) r)).
    { eapply wpx_mono; [apply wpx_modify|]. intros _ ? ? [-> ->]. split; [done|]. rewrite (ao_ic _ _ _ _ Ha).
      by rewrite (alter_entry _ _ _ _ Hx). }
    intros _ ? ? [-> ->]. wx wpx_release as [-> ->]; [done|]. apply wpx_ret. split; [done|]. split; [done|].
    eexists. split; [by apply aok_set_ic|]. eexists. split; [done|]. constructor.
    + apply ic_insert; [done|]. constructor; simpl; [lia|done|by left|done|].
      intros jp y Hjp Hy Hry _. by apply (Hno' jp).
    + exists (recycle 1 n x). split_and!; [|done|simpl; lia|by left|].
      * apply list_lookup_insert_eq. by eapply lookup_lt_Some.
      * intros y Hy. assert (y = x) as -> by congruence. done.
    + intros m. rewrite (refs_insert _ j x _ m Hx). unfold contrib. simpl. rewrite Hr. rewrite (Z.eqb_sym n).
      destruct (i_inum x =? m), (m =? n); lia.
    + intros jp Hjp. by apply list_lookup_insert_ne.
    + intros y Hy Hry. assert (y = x) as -> by congruence. lia.
  - exfalso. apply iget_scan_miss in E as (Hno & _ & Hnone). specialize (Hnone eq_refl).
    destruct Hroom as [Hr|(ip & x & Hx & Hr)]; [|by apply (Hnone ip x)].
    rewrite refs_zero in Hr; [lia|by intros ? ? ?; eapply io_ref|].
    intros jp y Hy Hry. apply (Hno jp y Hy Hry). by apply (io_dev _ _ _ Hok jp y).
Qed.

Lemma wpa_idup a D ip x :
  ic_ok SB (a_ic a) D -> a_ic a !! ip = Some x -> 0 < i_ref x -> refs (a_ic a) (i_inum x) < 2 ^ 31 - 1 ->
  wpa (idup ip) a (fun ip' a' => ip' = ip /\ exists ic', a' = set_ic ic' a /\ took (a_ic a) D (i_inum x) ip ic').
Proof.
  intros Hok Hx Hr Hs. destruct (took_more _ D ip x Hok Hx Hr Hs) as [E Ht]. unfold idup.
  eapply wpa_lock_upd; [done|]. rewrite E. apply wpa_ret. split; [done|]. by eexists.
Qed.

(** ** [ilock] and [iunlock] *)

(** The entry [x], locked and read. *)
Definition locked_at (D : Z -> dinode) (x : inode) : inode :=
  MkInode (i_dev x) (i_inum x) (i_ref x) (MkSleep 1 pd) 1 (D (i_inum x)).

Lemma ic_locked ic D ip x :
  ic_ok SB ic D -> ic !! ip = Some x -> 0 < i_ref x -> live (D (i_inum x)) -> ic_ok SB (<[ip := locked_at D x]> ic) D.
Proof.
  intros Hok Hx Hr Hl. apply ic_insert; [done|]. apply (ent_same SB ic D ip x); try done; simpl; [lia|lia|by right].
Qed.

Lemma wpa_ilock fuel bswtch swtch a D X ip x :
  (0 < fuel)%nat -> geom SB -> fs_ok SB (a_blk a) D [] -> on_disk SB (a_blk a) D X -> ic_ok SB (a_ic a) D ->
  a_ic a !! ip = Some x -> 0 < i_ref x -> sl_locked (i_lock x) = 0 -> i_inum x ∉ X -> live (D (i_inum x)) ->
  a_held a = [] -> (length (a_log a) < 29)%nat ->
  wpa (ilock fuel bswtch swtch (Some ip)) a (fun _ a' => a' = set_ic (<[ip := locked_at D x]> (a_ic a)) a).
Proof.
  intros Hfuel G Hf Ho Hok Hx Hr Hlk HX Hl Hh HS. destruct (io_dev _ _ _ Hok ip x Hx Hr) as [Hd Hi].
  assert (ip < length (a_ic a))%nat as Hlt by (by eapply lookup_lt_Some). unfold ilock.
  eapply wpa_bind; [by apply wpa_iread|]. intros ? ? [-> ->]. rewrite (proj2 (Z.ltb_ge _ _)) by lia.
  eapply wpa_bind; [by apply wpa_acquiresleep|]. intros _ ? ->.
  eapply wpa_bind; [apply wpa_iread; by apply list_lookup_insert_eq|]. intros ? ? [-> ->]. cbn [i_valid set_ilock].
  destruct (io_valid _ _ _ Hok ip x Hx Hr) as [Hv|(Hv & Hdi & _)]; rewrite Hv.
  2:{ apply wpa_ret. unfold locked_at. rewrite <- Hdi, <- Hv. by destruct x. }
  rewrite Z.eqb_refl. destruct (fo_blk _ _ _ _ Hf _ (inode_blk SB G _ Hi)) as (d & Hdk & _).
  eapply wpa_bind; [apply wpa_sb|]. intros s ? [-> ->]. cbn [i_dev i_inum set_ilock]. rewrite Hd.
  eapply wpa_bind; [apply (wpa_bread cur pd SB fuel bswtch _ _ d); cbn [a_blk a_held a_log set_ic]; rewrite ?Hh; try done;
    [apply not_elem_of_nil|unfold NBUF; simpl; lia]|].
  intros bp ? ->. cbn [a_blk a_held a_log a_ic set_ic]. rewrite Hh.
  eapply wpa_bind; [by apply (wpa_bdata _ _ _ _ bp (IBLOCK (i_inum x) SB) d); [left|]|]. intros ? ? [-> ->].
  pose proof (Ho _ Hi HX) as Hdi. rewrite Hdk in Hdi. cbn [default from_option id] in Hdi. rewrite Hdi.
  eapply wpa_bind; [apply wpa_iupd; by apply list_lookup_insert_eq|]. intros _ ? ->.
  eapply wpa_bind; [by apply (wpa_brelse _ _ _ _ bp (IBLOCK (i_inum x) SB) [])|]. intros _ ? ->.
  cbn [a_blk a_held a_log a_ic set_ic]. rewrite list_insert_insert_eq.
  eapply wpa_bind; [apply wpa_iupd; cbn [a_ic]; by apply list_lookup_insert_eq|]. intros _ ? ->.
  cbn [a_blk a_held a_log a_ic set_ic]. rewrite list_insert_insert_eq.
  eapply wpa_bind; [apply wpa_iread; cbn [a_ic]; by apply list_lookup_insert_eq|]. intros ? ? [-> ->].
  cbn [i_di set_ivalid set_idi]. rewrite (proj2 (Z.eqb_neq _ 0)) by done. apply wpa_ret.
  unfold set_ic, locked_at, set_ivalid, set_idi, set_ilock. simpl. by rewrite Hh.
Qed.

Lemma wpa_iunlock a ip x :
  a_ic a !! ip = Some x -> 0 < i_ref x -> i_lock x = MkSleep 1 pd ->
  wpa (iunlock (Some ip)) a (fun _ a' => a' = set_ic (<[ip := set_ilock (MkSleep 0 0) x]> (a_ic a)) a).
Proof.
  intros Hx Hr Hl. unfold iunlock. eapply wpa_bind; [by apply wpa_holdingsleep|]. intros h ? [-> ->].
  eapply wpa_bind; [by apply wpa_iread|]. intros ? ? [-> ->]. rewrite Hl. simpl sl_locked. simpl sl_pid.
  rewrite Z.eqb_refl. rewrite (proj2 (Z.ltb_ge _ _)) by lia. by apply wpa_releasesleep.
Qed.
End rules.
