(* ===== verification/Xv6Trunc.v ===== *)
(** * Freeing xv6 files (lab2/fs.c)

    [itrunc] gives every block of a file back to the free map and no other;
    [iput] drops a reference, and frees the inode with the last one when no
    directory entry is left. *)

From S2P Require Import Prelude CMem Xv6Lock Xv6Proc Xv6World Xv6Bio Xv6Log Xv6Txn Xv6Inode Xv6Disk Xv6Iops Xv6Content Xv6Icache.
From stdpp Require Import base numbers option list gmap strings.
Open Scope Z_scope.

Section pure.
Context (SB : superblock) (G : geom SB).

(** Blocks of the free map. *)
Definition nbitmap : nat := Z.to_nat (sb_size SB / BPB + 1).

(** The disk [C], on the way from [C0], when the blocks [P] are still to be freed. *)
Record truncating (C0 : gmap Z (list Z)) (W0 : list Z) (D0 : Z -> dinode) (P : list Z)
    (C : gmap Z (list Z)) (W : list Z) : Prop := Truncating {
  tr_ok : fs_ok SB C D0 P;
  tr_data n : dstart SB <= n -> C !! n = C0 !! n;
  tr_ino j : inum_ok SB j -> C !! IBLOCK j SB = C0 !! IBLOCK j SB;
  tr_log m : m ∈ W -> m ∈ W0 \/ sb_bmapstart SB <= m < sb_bmapstart SB + Z.of_nat nbitmap }.

Lemma truncating_free C0 W0 D0 P P' C W b :
  truncating C0 W0 D0 P C W -> P ≡ₚ b :: P' ->
  truncating C0 W0 D0 P' (free_blk SB b C) (add_block (BBLOCK b SB) W).
Proof.
  intros [Hf Hd Hi Hl] HP. destruct (freeb_ok SB G C D0 P P' b Hf HP) as [Hf' [_ Hi']]. pose proof (geom_facts SB G).
  destruct (fo_pend _ _ _ _ Hf b) as [Hb _]; [rewrite HP; left|].
  assert (blk_ok SB b) as Hbo by (unfold blk_ok; lia). destruct (BBLOCK_eq SB G b Hbo) as [E HB].
  constructor; [done| | |].
  - intros n Hn. unfold free_blk. rewrite mark_other by lia. by apply Hd.
  - intros j Hj. rewrite Hi' by done. by apply Hi.
  - intros m [Hm| ->]%add_block_elem; [by apply Hl|right]. rewrite E. unfold nbitmap.
    assert (0 <= b / BPB <= sb_size SB / BPB).
    { change BPB with 4096 in *. split; [apply Z.div_pos; lia|apply Z.div_le_mono; lia]. }
    lia.
Qed.

Lemma truncating_length C0 W0 D0 P C W :
  truncating C0 W0 D0 P C W -> NoDup W -> (length W <= length W0 + nbitmap)%nat.
Proof.
  intros Ht Hnd. assert (W ⊆+ W0 ++ seqZ (sb_bmapstart SB) (Z.of_nat nbitmap)) as Hs.
  { apply NoDup_submseteq; [done|]. intros m Hm. apply elem_of_app.
    destruct (tr_log _ _ _ _ _ _ Ht m Hm) as [?|?]; [by left|right]. apply elem_of_seqZ. lia. }
  apply submseteq_length in Hs. rewrite length_app, length_seqZ in Hs. lia.
Qed.

(** Blocks of the slots from [t] on. *)
Definition rem (C : gmap Z (list Z)) (x : dinode) (t : nat) : list Z :=
  filter (fun b => b <> 0) (slot C x <$> seq t (NSLOT - t)).

Lemma rem_step C x t :
  (t < NSLOT)%nat -> rem C x t = if decide (slot C x t = 0) then rem C x (S t) else slot C x t :: rem C x (S t).
Proof.
  intros Ht. unfold rem. replace (NSLOT - t)%nat with (S (NSLOT - S t)) by lia. cbn [seq fmap list_fmap].
  rewrite filter_cons. destruct (decide (slot C x t = 0)) as [E|E]; [rewrite decide_False|rewrite decide_True]; try done. congruence.
Qed.

Lemma rem_end C x : rem C x NSLOT = [].
Proof. unfold rem. by rewrite Nat.sub_diag. Qed.

Lemma rem_no_indirect C x : slot C x NDIRECT = 0 -> rem C x NDIRECT = [].
Proof.
  intros H0. apply elem_of_nil_inv. intros b [Hne (k & -> & Hk%elem_of_seq)%list_elem_of_fmap]%list_elem_of_filter.
  apply Hne. destruct (decide (k = NDIRECT)) as [->|]; [done|].
  rewrite slot_indirect by lia. by rewrite H0.
Qed.
End pure.

Section itrunc.
Context (cur : nat) (pd : Z) (SB : superblock) (fuel : nat) (bswtch : MF unit).
Context (Hfuel : (0 < fuel)%nat) (G : geom SB).
Notation wpa := (wpa cur pd SB).

(** The inode with its first [t] addresses cleared. *)
Definition zero_addrs (t : nat) (x : dinode) : dinode :=
  MkDinode (d_type x) (d_major x) (d_minor x) (d_nlink x) (d_size x) (replicate t 0 ++ drop t (d_addrs x)).

Lemma zero_addrs_nth t (x : dinode) : nth t (replicate t 0 ++ drop t (d_addrs x)) 0 = nth t (d_addrs x) 0.
Proof.
  rewrite app_nth2; rewrite length_replicate; [|lia]. rewrite Nat.sub_diag. rewrite !nth_lookup, lookup_drop.
  by rewrite Nat.add_0_r.
Qed.

Lemma zero_addrs_set t x :
  (t < length (d_addrs x))%nat -> set_daddr t 0 (zero_addrs t x) = zero_addrs (S t) x.
Proof.
  intros Ht. unfold set_daddr, zero_addrs. cbn [d_type d_major d_minor d_nlink d_size d_addrs]. f_equal.
  destruct (lookup_lt_is_Some_2 _ _ Ht) as [y Hy]. rewrite (drop_S _ y) by done.
  rewrite insert_app_r_alt by (rewrite length_replicate; lia). rewrite length_replicate, Nat.sub_diag. cbn [insert list_insert].
  rewrite replicate_S_end. by rewrite <- app_assoc.
Qed.

Lemma zero_addrs_skip t x :
  (t < length (d_addrs x))%nat -> nth t (d_addrs x) 0 = 0 -> zero_addrs (S t) x = zero_addrs t x.
Proof.
  intros Ht H0. rewrite <- zero_addrs_set by done. unfold set_daddr, zero_addrs. cbn [d_type d_major d_minor d_nlink d_size d_addrs].
  f_equal. apply list_insert_id. rewrite lookup_app_r by (rewrite length_replicate; lia).
  rewrite length_replicate, Nat.sub_diag, lookup_drop, Nat.add_0_r.
  destruct (lookup_lt_is_Some_2 _ _ Ht) as [y Hy]. rewrite Hy. by rewrite (nth_lookup_Some _ _ _ _ Hy) in H0; subst.
Qed.

Section run.
Context (a : astate) (D : Z -> dinode) (ip : nat) (x : inode).
Context (Hf : fs_ok SB (a_blk a) D []) (He : entry SB a D ip x) (Hh : a_held a = []).
Context (HW : (length (a_log a) + nbitmap SB < 24)%nat).
Let i := i_inum x.
Let D0 := upd D i (set_dtype 0 (D i)).

Lemma truncating_start : truncating SB (a_blk a) (a_log a) D0 (rem (a_blk a) (D i) 0) (a_blk a) (a_log a).
Proof.
  destruct He as [Hic Hdev Hi Hdi Hl]. constructor; [|done|done|by left].
  unfold rem. rewrite Nat.sub_0_r. by apply retire_ok.
Qed.

Definition truncated_to (t : nat) (L : list (nat * Z)) (P : list Z) (a' : astate) : Prop :=
  a_ic a' = <[ip := set_idi (zero_addrs t (D i)) x]> (a_ic a) /\ a_held a' = L /\
  truncating SB (a_blk a) (a_log a) D0 P (a_blk a') (a_log a').

Lemma held_ok_one a' P L :
  truncating SB (a_blk a) (a_log a) D0 P (a_blk a') (a_log a') -> a_held a' = L -> (length L <= 1)%nat ->
  (forall n, n ∈ L.*2 -> n ∈ P) -> held_ok SB a'.
Proof.
  intros [Hf' _ _ _] HL Hlen HP. split; rewrite HL; [lia|]. intros n Hn%HP.
  destruct (fo_pend _ _ _ _ Hf' n Hn) as [Hr _]. split; [done|]. pose proof (geom_facts SB G). apply not_true_iff_false.
  intros (_ & Hni & _)%(fo_free _ _ _ _ Hf'); [done|]. unfold blk_ok; lia.
Qed.

(** One block is freed. *)
Lemma wpa_trunc_free t L P P' b a' :
  truncated_to t L P a' -> P ≡ₚ b :: P' -> (length L <= 1)%nat -> (forall n, n ∈ L.*2 -> n ∈ P) ->
  wpa (bfree fuel bswtch 1 b) a' (fun _ a'' => truncated_to t L P' a'').
Proof.
  intros (Hic & HL & Ht) HP Hlen Hin. apply wpa_nodup. intros Hnd.
  pose proof (truncating_length _ _ _ _ _ _ _ Ht Hnd) as Hlog.
  eapply wpa_mono; [apply (wpa_bfree cur pd SB fuel bswtch Hfuel G a' D0 P P' b); [apply Ht|done| |lia]|].
  - by eapply held_ok_one.
  - intros _ ? ->. split_and!; [done|done|]. by eapply truncating_free.
Qed.

Lemma wpa_trunc_direct :
  wpa (for_each (seq 0 NDIRECT) (fun i =>
    x ← iread ip;
    let addr := nth i (d_addrs (i_di x)) 0 in
    if addr =? 0 then mret tt
    else bfree fuel bswtch (i_dev x) addr;; iupd ip (fun x => set_idi (set_daddr i 0 (i_di x)) x))) a
    (fun _ a' => truncated_to NDIRECT [] (rem (a_blk a) (D i) NDIRECT) a').
Proof.
  pose proof He as [Hic Hdev Hi Hdi Hl]. fold i in Hi, Hdi, Hl.
  assert (ip < length (a_ic a))%nat as Hlt by (by eapply lookup_lt_Some).
  pose proof (do_len _ (fo_di _ _ _ _ Hf i Hi)) as Hal.
  apply (wpa_for_seq cur pd SB (fun t => truncated_to t [] (rem (a_blk a) (D i) t))).
  { split_and!; [|done|apply truncating_start]. assert (zero_addrs 0 (D i) = D i) as -> by (unfold zero_addrs; simpl; by destruct (D i)).
    rewrite list_insert_id; [done|]. rewrite Hic, <- Hdi. by destruct x. }
  intros t a' Ht (Hic' & HL & Htr).
  assert (a_ic a' !! ip = Some (set_idi (zero_addrs t (D i)) x)) as Hx by (rewrite Hic'; by apply list_lookup_insert_eq).
  eapply wpa_bind; [by apply wpa_iread|]. intros ? ? [-> ->]. cbn [i_di set_idi i_dev zero_addrs d_addrs].
  rewrite zero_addrs_nth, Hdev. rewrite <- (slot_direct (a_blk a) (D i) t) by lia.
  pose proof (rem_step (a_blk a) (D i) t ltac:(unfold NSLOT; lia)) as Er.
  assert (truncated_to t [] (rem (a_blk a) (D i) t) a') as Htt by done.
  destruct (Z.eqb_spec (slot (a_blk a) (D i) t) 0) as [E|Hne].
  - apply wpa_ret. rewrite decide_True in Er by done. rewrite Er in Htt. destruct Htt as (H1 & H2 & H3).
    split_and!; [|done|done]. rewrite zero_addrs_skip; [done|lia|]. by rewrite slot_direct in E by lia.
  - rewrite decide_False in Er by done. rewrite Er in Htt.
    eapply wpa_bind; [eapply (wpa_trunc_free t [] _ _ _ _ Htt); [done|simpl; lia|]|].
    { intros n Hn. by apply not_elem_of_nil in Hn. }
    intros _ a'' (Hic'' & HL'' & Htr'').
    eapply wpa_mono; [apply wpa_iupd; rewrite Hic''; by apply list_lookup_insert_eq|].
    intros _ ? ->. split_and!; [|done|done]. cbn [a_ic set_ic]. rewrite Hic'', list_insert_insert_eq. cbn [i_di set_idi].
    rewrite zero_addrs_set by lia. done.
Qed.

Lemma wpa_trunc_entries bp d ind a' :
  slot (a_blk a) (D i) NDIRECT = ind -> ind <> 0 -> a_blk a !! ind = Some d ->
  truncated_to NDIRECT [(bp, ind)] (ind :: rem (a_blk a) (D i) (S NDIRECT)) a' ->
  wpa (for_each (seq 0 NINDIRECT) (fun j =>
         d ← bdata bp; let a := get32 d (4 * j) in if a =? 0 then mret tt else bfree fuel bswtch 1 a)) a'
    (fun _ a'' => truncated_to NDIRECT [(bp, ind)] [ind] a'').
Proof.
  intros Hind Hne Hd Ht. pose proof He as [Hic Hdev Hi Hdi Hl]. fold i in Hi, Hdi, Hl.
  pose proof (fo_slot _ _ _ _ Hf i NDIRECT Hi Hl ltac:(unfold NSLOT; lia) ltac:(congruence)) as Hir. rewrite Hind in Hir.
  eapply wpa_mono.
  { apply (wpa_for_seq cur pd SB (fun j => truncated_to NDIRECT [(bp, ind)] (ind :: rem (a_blk a) (D i) (S NDIRECT + j)))).
    { by rewrite Nat.add_0_r. }
    intros j a2 Hj Htt. pose proof Htt as (Hic2 & HL2 & Htr).
    eapply wpa_bind.
    { apply (wpa_bdata _ _ _ _ bp ind d); [rewrite HL2; left|]. rewrite (tr_data _ _ _ _ _ _ _ Htr); [done|lia]. }
    intros ? ? [-> ->]. cbv zeta.
    assert (get32 d (4 * j) = slot (a_blk a) (D i) (S NDIRECT + j)) as ->.
    { rewrite (slot_indirect _ _ (S NDIRECT + j)) by lia. rewrite Hind, (proj2 (Z.eqb_neq _ 0) Hne), Hd. simpl default.
      f_equal. lia. }
    pose proof (rem_step (a_blk a) (D i) (S NDIRECT + j) ltac:(unfold NSLOT; lia)) as Er.
    replace (S (S NDIRECT + j)) with (S NDIRECT + S j)%nat in Er by lia.
    destruct (Z.eqb_spec (slot (a_blk a) (D i) (S NDIRECT + j)) 0) as [E|Hne'].
    - apply wpa_ret. rewrite decide_True in Er by done. by rewrite Er in Htt.
    - rewrite decide_False in Er by done. rewrite Er in Htt.
      eapply (wpa_trunc_free NDIRECT [(bp, ind)] _ _ _ _ Htt); [apply Permutation_swap|simpl; lia|].
      intros n Hn. simpl in Hn. apply list_elem_of_singleton in Hn as ->. left. }
  intros ? a2 Ht2. assert (rem (a_blk a) (D i) (S NDIRECT + NINDIRECT) = []) as E by apply (rem_end (a_blk a) (D i)).
  by rewrite E in Ht2.
Qed.

(** All blocks are freed and the addresses cleared. *)
Lemma wpa_trunc_blocks a' :
  truncated_to NDIRECT [] (rem (a_blk a) (D i) NDIRECT) a' ->
  wpa (y ← iread ip;
       let addr := nth NDIRECT (d_addrs (i_di y)) 0 in
       if addr =? 0 then mret tt
       else
         bp ← bread fuel bswtch (i_dev y) addr;
         for_each (seq 0 NINDIRECT) (fun j =>
           d ← bdata bp; let a := get32 d (4 * j) in if a =? 0 then mret tt else bfree fuel bswtch (i_dev y) a);;
         brelse bp;;
         bfree fuel bswtch (i_dev y) addr;;
         iupd ip (fun x => set_idi (set_daddr NDIRECT 0 (i_di x)) x)) a'
    (fun _ a'' => truncated_to (S NDIRECT) [] [] a'').
Proof.
  intros Ht. pose proof Ht as (Hic' & HL & Htr). pose proof He as [Hic Hdev Hi Hdi Hl]. fold i in Hi, Hdi, Hl.
  assert (ip < length (a_ic a))%nat as Hlt by (by eapply lookup_lt_Some).
  pose proof (do_len _ (fo_di _ _ _ _ Hf i Hi)) as Hal.
  eapply wpa_bind; [apply wpa_iread; rewrite Hic'; by apply list_lookup_insert_eq|]. intros ? ? [-> ->].
  cbn [i_di set_idi i_dev zero_addrs d_addrs]. rewrite zero_addrs_nth, Hdev.
  rewrite <- (slot_direct (a_blk a) (D i) NDIRECT) by lia. cbv zeta.
  destruct (Z.eqb_spec (slot (a_blk a) (D i) NDIRECT) 0) as [E|Hne].
  { apply wpa_ret. rewrite (rem_no_indirect _ _ E) in Htr. split_and!; [|done|done].
    rewrite zero_addrs_skip; [done|lia|]. by rewrite slot_direct in E by lia. }
  set (ind := slot (a_blk a) (D i) NDIRECT) in *. pose proof (geom_facts SB G).
  pose proof (fo_slot _ _ _ _ Hf i NDIRECT Hi Hl ltac:(unfold NSLOT; lia) Hne) as Hir. fold ind in Hir.
  destruct (fo_blk _ _ _ _ Hf ind) as (d & Hd & _); [unfold fblk; lia|].
  pose proof (rem_step (a_blk a) (D i) NDIRECT ltac:(unfold NSLOT; lia)) as Er. fold ind in Er. rewrite decide_False in Er by done.
  rewrite Er in Ht, Htr. apply wpa_nodup. intros Hnd. pose proof (truncating_length _ _ _ _ _ _ _ Htr Hnd) as Hlog.
  eapply wpa_bind; [apply (wpa_bread cur pd SB fuel bswtch a' ind d); rewrite ?HL; try done|].
  { rewrite (tr_data _ _ _ _ _ _ _ Htr); [done|lia]. } { apply not_elem_of_nil. } { unfold NBUF; simpl; lia. }
  intros bp ? ->. eapply wpa_bind; [apply (wpa_trunc_entries bp d ind); [done|done|done|]; split_and!; [exact Hic'|cbn [a_held]; by rewrite ?HL|exact Htr]|].
  intros _ a2 (Hic2 & HL2 & Htr2).
  eapply wpa_bind; [apply (wpa_brelse _ _ _ a2 bp ind []); by rewrite HL2|]. intros _ ? ->.
  eapply wpa_bind; [eapply (wpa_trunc_free NDIRECT [] [ind] [] ind); [by split_and!|done|simpl; lia|]|].
  { intros n Hn. by apply not_elem_of_nil in Hn. }
  intros _ a3 (Hic3 & HL3 & Htr3).
  eapply wpa_mono; [apply wpa_iupd; rewrite Hic3; by apply list_lookup_insert_eq|]. intros _ ? ->.
  split_and!; [|done|done]. cbn [a_ic set_ic]. rewrite Hic3, list_insert_insert_eq. cbn [i_di set_idi].
  rewrite zero_addrs_set by lia. done.
Qed.

(** The inode without its contents. *)
Definition emptied (y : dinode) : dinode :=
  MkDinode (d_type y) (d_major y) (d_minor y) (d_nlink y) 0 (replicate (S NDIRECT) 0).

Lemma emptied_slot C y k : slot C (emptied y) k = 0.
Proof.
  assert (forall t, nth t (replicate (S NDIRECT) 0) 0 = 0) as H.
  { intros t. rewrite nth_lookup. destruct (replicate _ _ !! t) eqn:E; [|done]. by apply lookup_replicate in E as [-> _]. }
  unfold slot, emptied. cbn [d_addrs]. rewrite !H. by destruct (k <=? NDIRECT)%nat.
Qed.

Lemma emptied_ok y : di_ok y -> di_ok (emptied y).
Proof. intros []. constructor; try done. intros b (t & Ht)%list_elem_of_lookup. by apply lookup_replicate in Ht as [-> _]. Qed.

(** What [itrunc] does to the file system. *)
Record truncated (a' : astate) (D' : Z -> dinode) : Prop := Truncated {
  tc_ok : fs_ok SB (a_blk a') D' [];
  tc_inode : D' i = emptied (D i);
  tc_D j : j <> i -> D' j = D j;
  tc_disk X : on_disk SB (a_blk a) D X -> on_disk SB (a_blk a') D' X;
  tc_keeps j : j <> i -> inum_ok SB j -> live (D j) -> keeps (a_blk a) (D j) (a_blk a') (D j);
  tc_free b : blk_ok SB b -> free SB (a_blk a') b = true <-> free SB (a_blk a) b = true \/ b ∈ iblocks (a_blk a) (D i);
  tc_ic : a_ic a' = <[ip := set_idi (emptied (D i)) x]> (a_ic a);
  tc_held : a_held a' = [];
  tc_log : (length (a_log a') <= length (a_log a) + nbitmap SB + 1)%nat }.

(** The file is empty: its blocks are free, and no other. *)
Lemma truncated_free C' :
  fs_ok SB C' D0 [] -> (forall n, dstart SB <= n -> C' !! n = a_blk a !! n) ->
  (forall j, j <> i -> inum_ok SB j -> live (D j) -> keeps (a_blk a) (D j) C' (D j)) /\
  (forall b, blk_ok SB b -> free SB C' b = true <-> free SB (a_blk a) b = true \/ b ∈ iblocks (a_blk a) (D i)).
Proof.
  intros Hf' Hd. pose proof He as [_ _ Hi _ Hl]. fold i in Hi, Hl. pose proof (geom_facts SB G).
  assert (forall j, j <> i -> inum_ok SB j -> live (D j) -> keeps (a_blk a) (D j) C' (D j)) as Hk.
  { intros j Hj Hjo Hlj. apply keeps_frame. intros k Hk H0. apply Hd.
    apply (fo_slot _ _ _ _ Hf j k Hjo Hlj Hk H0). }
  split; [done|]. pose proof (retire_ok SB G (a_blk a) D i Hf Hi Hl) as Hf0. fold D0 in Hf0.
  assert (forall b, owns SB C' D0 b <-> owns SB (a_blk a) D0 b) as Ho.
  { assert (forall j k, live (D0 j) -> inum_ok SB j -> slot C' (D0 j) k = slot (a_blk a) (D0 j) k) as Hs.
    { intros j k Hlj Hjo. apply slot_frame. intros H0. apply Hd.
      apply (fo_slot _ _ _ _ Hf0 j NDIRECT Hjo Hlj); [unfold NSLOT; lia|done]. }
    intros b. split; intros (j & k & Hj & Hlj & Hk' & E); exists j, k; split_and!; try done; rewrite <- E; [symmetry|]; by apply Hs. }
  intros b Hb. rewrite (fo_free _ _ _ _ Hf' b Hb), Ho. pose proof (fo_free _ _ _ _ Hf0 b Hb) as Hfb.
  destruct (decide (b ∈ iblocks (a_blk a) (D i))) as [Hin|Hni].
  - destruct (fo_pend _ _ _ _ Hf0 b Hin) as [? Hno]. split; [by right|]. intros _. split_and!; [lia|apply not_elem_of_nil|done].
  - rewrite Hfb. split; [intros (? & _ & ?); by left|]. intros [(? & _ & ?)|]; [|done]. split_and!; [done|apply not_elem_of_nil|done].
Qed.

Lemma wpa_itrunc : wpa (itrunc fuel bswtch ip) a (fun _ a' => exists D', truncated a' D').
Proof.
  pose proof He as [Hic Hdev Hi Hdi Hl]. fold i in Hi, Hdi, Hl.
  assert (ip < length (a_ic a))%nat as Hlt by (by eapply lookup_lt_Some).
  pose proof (do_len _ (fo_di _ _ _ _ Hf i Hi)) as Hal. unfold itrunc.
  eapply wpa_bind; [apply wpa_trunc_direct|]. intros ? a1 Ht1.
  assert (forall (k : inode -> MI unit) (j : MI unit) a' Q, wpa ((y ← iread ip; k y);; j) a' Q ->
    wpa (y ← iread ip; k y;; j) a' Q) as Hassoc.
  { intros k j a' Q H r Ha s Hw Hr. specialize (H r Ha s Hw Hr). unfold wp, mbind, M_bind in *.
    destruct (iread ip s); done. }
  apply Hassoc. clear Hassoc. eapply wpa_bind; [by apply (wpa_trunc_blocks a1)|]. intros _ a2 (Hic2 & HL2 & Htr2).
  eapply wpa_bind; [apply wpa_iupd; rewrite Hic2; by apply list_lookup_insert_eq|]. intros _ ? ->.
  cbn [i_di set_idi]. rewrite Hic2, list_insert_insert_eq. cbn [set_idi i_dev i_inum i_ref i_lock i_valid].
  assert (set_dsize 0 (zero_addrs (S NDIRECT) (D i)) = emptied (D i)) as ->.
  { unfold set_dsize, zero_addrs, emptied. cbn [d_type d_major d_minor d_nlink d_addrs].
    rewrite drop_ge by lia. by rewrite app_nil_r. }
  change (MkInode (i_dev x) (i_inum x) (i_ref x) (i_lock x) (i_valid x) (emptied (D i))) with (set_idi (emptied (D i)) x).
  destruct (fo_blk _ _ _ _ (tr_ok _ _ _ _ _ _ _ Htr2) _ (inode_blk SB G i Hi)) as (d & Hd & _).
  apply wpa_nodup. intros Hnd. cbn [a_log set_ic] in Hnd. pose proof (truncating_length _ _ _ _ _ _ _ Htr2 Hnd) as Hlog.
  eapply wpa_mono; [apply (wpa_iupdate cur pd SB fuel bswtch Hfuel G _ ip (set_idi (emptied (D i)) x) d); cbn [a_ic set_ic a_held a_blk a_log]; try done; [by apply list_lookup_insert_eq|lia]|].
  intros _ ? ->. cbn [a_ic set_ic a_held a_blk a_log i_inum i_di set_idi]. fold i.
  destruct Htr2 as [Hf2 Hd2 Hi2 _]. set (D' := upd D0 i (emptied (D i))).
  assert (D' i = emptied (D i)) as ED by apply upd_eq.
  assert (forall j, j <> i -> D' j = D j) as EDj by (intros j Hj; unfold D', D0; by rewrite !upd_ne).
  assert (fs_ok SB (a_blk a2) D' []) as Hf3.
  { apply enter_ok; [done|done| |apply emptied_ok; by apply Hf|apply emptied_slot|done].
    unfold D0. rewrite upd_eq. by intros []. }
  destruct (truncated_free (a_blk a2) Hf2 Hd2) as [Hk Hfr].
  assert (forall X, on_disk SB (a_blk a) D X -> on_disk SB (a_blk a2) D' (i :: X)) as Ho.
  { intros X Hox j Hj HX. rewrite Hi2, EDj by (done || set_solver). apply Hox; [done|set_solver]. }
  destruct (inode_store_ok SB G _ D' [] i d _ Hf3 Hi Hd (stores_put_dinode (D' i) d (dip i))) as (Hf4 & Hk4 & _).
  rewrite ED in Hf4, Hk4. exists D'. constructor; cbn [a_ic a_held a_blk a_log]; try done.
  - intros X Hox. rewrite <- ED. by apply (iupdate_ok SB G _ D' X i d Hf3 Hi Hd (Ho X Hox)).
  - intros j Hj Hjo Hlj. eapply keeps_trans; [by apply Hk|]. pose proof (EDj j Hj) as E. rewrite <- E at 1. rewrite <- E.
    apply Hk4; [done|by rewrite E].
  - intros b Hb. rewrite <- Hfr by done. destruct (IBLOCK_eq SB G i Hi).
    rewrite free_insert by (done || lia). done.
  - pose proof (add_block_length (IBLOCK i SB) (a_log a2)). lia.
Qed.
End run.
End itrunc.

(** ** [iput] *)

Section iput.
Context (cur : nat) (pd : Z) (SB : superblock) (fuel : nat) (bswtch : MF unit) (swtch : MI unit).
Context (Hfuel : (0 < fuel)%nat) (G : geom SB).
Notation wpa := (wpa cur pd SB).

(** The last reference to an inode without links. *)
Definition orphan (D : Z -> dinode) (x : inode) : bool :=
  negb (i_valid x =? 0) && (d_nlink (D (i_inum x)) =? 0) && (i_ref x =? 1).

(** The file system after a reference to inode [x] of entry [ip] is dropped. *)
Record dropped (a : astate) (D : Z -> dinode) (ip : nat) (x : inode) (a' : astate) (D' : Z -> dinode) : Prop := Dropped {
  dr_ok : fs_ok SB (a_blk a') D' [];
  dr_disk X : on_disk SB (a_blk a) D X -> on_disk SB (a_blk a') D' X;
  dr_ic : ic_ok SB (a_ic a') D';
  dr_held : a_held a' = [];
  dr_refs m : refs (a_ic a') m = refs (a_ic a) m - (if m =? i_inum x then 1 else 0);
  dr_entry : exists y, a_ic a' !! ip = Some y /\ i_inum y = i_inum x /\ sl_locked (i_lock y) = 0 /\ i_ref y = i_ref x - 1;
  dr_other jp : jp <> ip -> a_ic a' !! jp = a_ic a !! jp;
  dr_D j : j <> i_inum x -> D' j = D j;
  dr_keeps j : j <> i_inum x -> inum_ok SB j -> live (D j) -> keeps (a_blk a) (D j) (a_blk a') (D j);
  dr_free : if orphan D x
    then ~ live (D' (i_inum x)) /\ forall b, blk_ok SB b ->
      free SB (a_blk a') b = true <-> free SB (a_blk a) b = true \/ b ∈ iblocks (a_blk a) (D (i_inum x))
    else D' = D /\ a_blk a' = a_blk a /\ a_log a' = a_log a;
  dr_log : (length (a_log a') <= length (a_log a) + nbitmap SB + 2)%nat }.

Lemma i32_dec x : 0 < i_ref x < 2 ^ 31 -> i32 (i_ref x - 1) = i_ref x - 1.
Proof. intros. apply i32_small. lia. Qed.

(** The end of [iput]. *)
Lemma wpa_iput_end a ip x :
  a_ic a !! ip = Some x -> 0 < i_ref x < 2 ^ 31 ->
  wpa (releasesleep (ino_slock ip);; lift (acquire icache_lock);;
       iupd ip (fun x => set_iref (i32 (i_ref x - 1)) x);; lift (release icache_lock)) a
    (fun _ a' => a' = set_ic (<[ip := set_iref (i_ref x - 1) (set_ilock (MkSleep 0 0) x)]> (a_ic a)) a).
Proof.
  intros Hx Hr. assert (ip < length (a_ic a))%nat as Hlt by (by eapply lookup_lt_Some).
  eapply wpa_bind; [by apply wpa_releasesleep|]. intros _ ? ->.
  set (a1 := set_ic _ a). assert (a_ic a1 !! ip = Some (set_ilock (MkSleep 0 0) x)) as Hx1 by (by apply list_lookup_insert_eq).
  assert (wpa (lift (acquire icache_lock) ≫= fun _ => iupd ip (fun x => set_iref (i32 (i_ref x - 1)) x) ≫= fun _ =>
    lift (release icache_lock) ≫= fun _ => mret tt) a1
    (fun _ a' => a' = set_ic (<[ip := set_iref (i_ref x - 1) (set_ilock (MkSleep 0 0) x)]> (a_ic a)) a)) as H.
  { eapply wpa_lock_upd; [done|]. apply wpa_ret. cbn [i_ref set_ilock]. rewrite i32_dec by done.
    unfold a1, set_ic. cbn [a_ic a_held a_blk a_log]. by rewrite list_insert_insert_eq. }
  intros r Ha s Hw Hr'. specialize (H r Ha s Hw Hr'). unfold wp, mbind, M_bind in *.
  destruct (lift (acquire icache_lock) s) as [u1 s1|? ?|]; [|done|done].
  destruct (iupd ip _ s1) as [u2 s2|? ?|]; [|done|done].
  destruct (lift (release icache_lock) s2) as [[] s3|? ?|]; done.
Qed.

Section run.
Context (a : astate) (D : Z -> dinode) (ip : nat) (x : inode).
Context (Hf : fs_ok SB (a_blk a) D []) (Hok : ic_ok SB (a_ic a) D) (Hh : a_held a = []).
Context (Hx : a_ic a !! ip = Some x) (Hr : 0 < i_ref x < 2 ^ 31).

Lemma put_refs ic' y m :
  i_inum y = i_inum x -> i_ref y = i_ref x - 1 -> ic' = <[ip := y]> (a_ic a) ->
  refs ic' m = refs (a_ic a) m - (if m =? i_inum x then 1 else 0).
Proof.
  intros Ei Er ->. rewrite (refs_insert _ ip x y m Hx). unfold contrib. rewrite Ei, Er, (Z.eqb_sym m). destruct (_ =? _); lia.
Qed.

(** The reference is not the last, or the inode has links. *)
Lemma dropped_count :
  orphan D x = false ->
  dropped a D ip x (set_ic (<[ip := set_iref (i_ref x - 1) (set_ilock (MkSleep 0 0) x)]> (a_ic a)) a) D.
Proof.
  intros Ho. assert (ip < length (a_ic a))%nat as Hlt by (by eapply lookup_lt_Some).
  constructor; cbn [a_ic a_held a_blk a_log set_ic]; try done.
  - apply ic_insert; [done|]. apply (ent_same SB (a_ic a) D ip x); simpl; try done; try lia.
    apply (io_valid _ _ _ Hok ip x Hx). lia.
  - intros m. by apply (put_refs _ (set_iref (i_ref x - 1) (set_ilock (MkSleep 0 0) x)) m).
  - eexists. split; [by apply list_lookup_insert_eq|]. done.
  - intros jp Hjp. by apply list_lookup_insert_ne.
  - by rewrite Ho.
  - lia.
Qed.

(** The inode is freed. *)
Lemma wpa_iput_free :
  orphan D x = true -> (length (a_log a) + nbitmap SB < 24)%nat ->
  let x1 := set_ilock (MkSleep 1 pd) x in
  wpa (itrunc fuel bswtch ip;; iupd ip (fun x => set_idi (set_dtype 0 (i_di x)) x);; iupdate fuel bswtch ip;;
       iupd ip (set_ivalid 0)) (set_ic (<[ip := x1]> (a_ic a)) a)
    (fun _ a' => exists D' y, a_ic a' = <[ip := y]> (a_ic a) /\ i_inum y = i_inum x /\ i_ref y = i_ref x /\
       forall ic', ic' = <[ip := set_iref (i_ref y - 1) (set_ilock (MkSleep 0 0) y)]> (a_ic a) ->
       dropped a D ip x (set_ic ic' a') D').
Proof.
  intros Ho HW x1. assert (ip < length (a_ic a))%nat as Hlt by (by eapply lookup_lt_Some).
  pose proof Ho as Ho'. unfold orphan in Ho'. apply andb_true_iff in Ho' as [[Hv Hn]%andb_true_iff Hr1].
  apply negb_true_iff, Z.eqb_neq in Hv. apply Z.eqb_eq in Hn, Hr1.
  destruct (io_dev _ _ _ Hok ip x Hx ltac:(lia)) as [Hd Hi].
  destruct (io_valid _ _ _ Hok ip x Hx ltac:(lia)) as [?|(Hv1 & Hdi & Hl)]; [done|].
  set (i := i_inum x) in *. set (a1 := set_ic _ a).
  assert (entry SB a1 D ip x1) as He by (constructor; try done; by apply list_lookup_insert_eq).
  eapply wpa_bind; [by apply (wpa_itrunc cur pd SB fuel bswtch Hfuel G a1 D ip x1)|].
  intros _ a2 (D2 & [Hf2 E2 ED2 Ho2 Hk2 Hfr2 Hic2 Hh2 HW2]). change (i_inum x1) with i in *. cbn [a1 a_blk a_log set_ic] in *.
  cbn [a1 a_ic set_ic] in Hic2. rewrite list_insert_insert_eq in Hic2.
  eapply wpa_bind; [apply wpa_iupd; rewrite Hic2; by apply list_lookup_insert_eq|]. intros _ ? ->.
  cbn [i_di set_idi]. rewrite Hic2, list_insert_insert_eq.
  set (z := set_dtype 0 (emptied (D i))). change (set_idi z (set_idi (emptied (D i)) x1)) with (set_idi z x1).
  destruct (fo_blk _ _ _ _ Hf2 _ (inode_blk SB G i Hi)) as (d & Hdk & _).
  eapply wpa_bind; [apply (wpa_iupdate cur pd SB fuel bswtch Hfuel G _ ip (set_idi z x1) d); cbn [a_ic set_ic a_held a_blk a_log];
    try done; [by apply list_lookup_insert_eq|lia]|].
  intros _ ? ->. cbn [a_ic set_ic a_held a_blk a_log i_inum i_di set_idi x1 set_ilock]. fold i.
  eapply wpa_mono; [apply wpa_iupd; cbn [a_ic]; by apply list_lookup_insert_eq|]. intros _ ? ->.
  cbn [a_ic set_ic a_held a_blk a_log]. rewrite list_insert_insert_eq.
  set (D3 := upd D2 i z). assert (D3 i = z) as E3 by apply upd_eq.
  assert (forall j, j <> i -> D3 j = D j) as ED3 by (intros j Hj; unfold D3; rewrite upd_ne by done; by apply ED2).
  assert (fs_ok SB (a_blk a2) D3 []) as Hf3.
  { assert (live (D2 i)) as Hl2 by (by rewrite E2). pose proof (retire_ok SB G (a_blk a2) D2 i Hf2 Hi Hl2) as H3.
    rewrite E2 in H3. assert (iblocks (a_blk a2) (emptied (D i)) = []) as E.
    { apply elem_of_nil_inv. intros b (Hb & k & _ & Hk)%iblocks_elem. rewrite emptied_slot in Hk. congruence. }
    by rewrite E in H3. }
  destruct (inode_store_ok SB G _ D3 [] i d _ Hf3 Hi Hdk (stores_put_dinode (D3 i) d (dip i))) as (Hf4 & Hk4 & _).
  rewrite E3 in Hf4, Hk4. eexists D3, _. split; [done|]. split; [done|]. split; [done|]. intros ic' ->.
  constructor; cbn [a_ic set_ic a_held a_blk a_log]; fold i; try done.
  - intros X HX. rewrite <- E3. apply (iupdate_ok SB G _ D3 X i d Hf3 Hi Hdk). intros j Hj HjX.
    rewrite ED3 by set_solver. rewrite <- ED2 by set_solver. apply (Ho2 X HX); [done|set_solver].
  - apply (ic_ext SB _ D).
    + apply ic_insert; [done|]. by apply (ent_same SB (a_ic a) D ip x); simpl; try done; try lia; left.
    + intros jp y Hy Hry _. apply list_lookup_insert_Some in Hy as [(_ & <- & _)|(Hne & Hy)]; [simpl in Hry; lia|].
      apply ED3. intros E. apply Hne. by apply (io_uniq _ _ _ Hok ip jp x y); [..|lia|done|].
  - intros m. eapply put_refs; [| |reflexivity]; done.
  - eexists. split; [by apply list_lookup_insert_eq|]. done.
  - intros jp Hjp. by apply list_lookup_insert_ne.
  - intros j Hj Hjo Hlj. eapply keeps_trans; [by apply Hk2|]. pose proof (ED3 j Hj) as E. rewrite <- E at 1. rewrite <- E.
    apply Hk4; [done|by rewrite E].
  - rewrite Ho. split; [rewrite E3; by intros []|]. intros b Hb. rewrite <- Hfr2 by done.
    destruct (IBLOCK_eq SB G i Hi). by rewrite free_insert by (done || lia).
  - pose proof (add_block_length (IBLOCK i SB) (a_log a2)). lia.
Qed.

Lemma wpa_iput :
  sl_locked (i_lock x) = 0 -> (orphan D x = true -> (length (a_log a) + nbitmap SB < 24)%nat) ->
  wpa (iput fuel bswtch swtch ip) a (fun _ a' => exists D', dropped a D ip x a' D').
Proof.
  intros Hlk HW. assert (ip < length (a_ic a))%nat as Hlt by (by eapply lookup_lt_Some). unfold iput.
  eapply wpa_bind; [by apply wpa_acquiresleep|]. intros _ ? ->.
  set (x1 := set_ilock (MkSleep 1 pd) x). set (a1 := set_ic _ a).
  assert (a_ic a1 !! ip = Some x1) as Hx1 by (by apply list_lookup_insert_eq).
  eapply wpa_bind; [by apply wpa_iread|]. intros ? ? [-> ->]. cbn [x1 i_valid i_di set_ilock].
  assert (orphan D x = false -> exists D', dropped a D ip x (set_ic (<[ip := set_iref (i_ref x - 1) (set_ilock (MkSleep 0 0) x1)]> (a_ic a1)) a1) D') as Hcount.
  { intros Ho. exists D. cbn [a1 a_ic set_ic]. rewrite list_insert_insert_eq. by apply dropped_count. }
  assert (negb (i_valid x =? 0) = true -> i_di x = D (i_inum x)) as Hdi.
  { intros Hv%negb_true_iff%Z.eqb_neq. by destruct (io_valid _ _ _ Hok ip x Hx ltac:(lia)) as [?|(_ & ? & _)]. }
  destruct (negb (i_valid x =? 0) && (d_nlink (i_di x) =? 0)) eqn:E.
  - apply andb_true_iff in E as [Ev En]. rewrite (Hdi Ev) in En.
    eapply wpa_bind.
    { eapply wpa_lock_read; [done|]. cbv zeta. cbn [x1 i_ref set_ilock]. 
      apply (fun H => H : wpa _ _ (fun _ a' => if orphan D x then exists D' y, a_ic a' = <[ip := y]> (a_ic a) /\ i_inum y = i_inum x /\
        i_ref y = i_ref x /\ forall ic', ic' = <[ip := set_iref (i_ref y - 1) (set_ilock (MkSleep 0 0) y)]> (a_ic a) ->
          dropped a D ip x (set_ic ic' a') D' else a' = a1)).
      unfold orphan in *. rewrite Ev, En in *. cbn [andb] in *. destruct (Z.eqb_spec (i_ref x) 1) as [E1|]; [|by apply wpa_ret].
      apply wpa_iput_free; [|by apply HW]. unfold orphan. by rewrite Ev, En, (proj2 (Z.eqb_eq _ _) E1). }
    cbv beta. intros ? a' Ha'. destruct (orphan D x).
    + destruct Ha' as (D' & y & Hic & Ei & Er & Hdr).
      eapply wpa_mono; [apply (wpa_iput_end a' ip y); [rewrite Hic; by apply list_lookup_insert_eq|lia]|].
      intros _ ? ->. exists D'. apply Hdr. by rewrite Hic, list_insert_insert_eq.
    + subst a'. eapply wpa_mono; [by apply (wpa_iput_end a1 ip x1)|]. intros _ ? ->. by apply Hcount.
  - apply wpa_ret_bind. eapply wpa_mono; [by apply (wpa_iput_end a1 ip x1)|]. intros _ ? ->. apply Hcount.
    unfold orphan. destruct (negb (i_valid x =? 0)) eqn:Ev; [|done]. cbn [andb] in *. rewrite (Hdi eq_refl) in E. by rewrite E.
Qed.
End run.
End iput.
