(* ===== verification/Xv6Ialloc.v ===== *)
(** * Allocating xv6 inodes (lab2/fs.c)

    [ialloc] takes the first free inode of the disk, writes it as an empty inode
    of the given type and returns a reference to it. *)

From S2P Require Import Prelude CMem Xv6Lock Xv6Proc Xv6World Xv6Bio Xv6Log Xv6Txn Xv6Inode Xv6Disk Xv6Iops Xv6Content Xv6Wrote Xv6Icache.
From stdpp Require Import base numbers option list gmap strings.
Open Scope Z_scope.

Definition fresh_di (ty : Z) : dinode := MkDinode ty 0 0 0 0 (replicate (S NDIRECT) 0).

(** What [ialloc] stores: a zeroed disk inode with a type. *)
Definition fresh_at (d : list Z) (o : nat) (ty : Z) : list Z := put16 (list_inserts o (replicate 64 0) d) o ty.

Lemma stores_fresh d o ty : (o + 64 <= length d)%nat -> stores d (fresh_at d o ty) o 64.
Proof.
  intros Ho. apply (stores_trans d (list_inserts o (replicate 64 0) d) _ o 64 o 64 o 2);
    [|apply stores_put16|lia..]. split; [apply length_inserts|]. intros k Hk.
  rewrite nth_inserts by (rewrite length_replicate; lia). rewrite decide_False; [done|]. rewrite length_replicate. lia.
Qed.

Lemma get_fresh d o ty :
  (o + 64 <= length d)%nat -> - 2 ^ 15 <= ty < 2 ^ 15 -> get_dinode (fresh_at d o ty) o = fresh_di ty.
Proof.
  intros Ho Hty. unfold fresh_at. set (d1 := list_inserts o (replicate 64 0) d).
  assert (forall k, (k < 64)%nat -> nth (o + k) d1 0 = 0) as H0.
  { intros k Hk. unfold d1. rewrite nth_inserts by (rewrite length_replicate; lia).
    rewrite decide_True by (rewrite length_replicate; lia). rewrite nth_lookup, lookup_replicate_2 by lia. done. }
  assert (forall k, (k + 2 <= 64)%nat -> get16 d1 (o + k) = 0) as H16.
  { intros k Hk. unfold get16. rewrite <- Nat.add_assoc, !H0 by lia. done. }
  assert (forall k, (k + 4 <= 64)%nat -> get32 d1 (o + k) = 0) as H32.
  { intros k Hk. unfold get32. rewrite <- !Nat.add_assoc, !H0 by lia. done. }
  unfold get_dinode, fresh_di. rewrite i16_get16_put16 by (unfold d1; rewrite ?length_inserts; lia).
  rewrite !(get16_bytes _ _ _ _ _ (stores_put16 _ _ _)) by lia.
  rewrite (get32_bytes _ _ _ _ _ (stores_put16 _ _ _)) by lia. rewrite !H16, H32 by lia.
  f_equal. unfold get_addrs. change (replicate (S NDIRECT) 0) with ((fun _ : nat => 0) <$> seq 0 (S NDIRECT)).
  apply list_fmap_ext. intros k j Hj. apply lookup_seq in Hj as [-> Hj]. unfold NDIRECT in Hj.
  rewrite (get32_bytes _ _ _ _ _ (stores_put16 _ _ _)) by lia. rewrite <- Nat.add_assoc. apply H32. lia.
Qed.

Lemma fresh_di_ok ty : - 2 ^ 15 <= ty < 2 ^ 15 -> di_ok (fresh_di ty).
Proof.
  intros. constructor; simpl; try lia; try done. intros b Hb.
  assert (b = 0) as -> by (repeat (apply elem_of_cons in Hb as [->|Hb]; [done|]); by apply elem_of_nil in Hb). lia.
Qed.

Lemma nth_replicate n j : nth j (replicate n 0) 0 = 0.
Proof. rewrite nth_lookup. destruct (replicate n 0 !! j) eqn:E; [|done]. by apply lookup_replicate in E as [-> _]. Qed.

Lemma fresh_slot C ty k : slot C (fresh_di ty) k = 0.
Proof.
  unfold slot. change (d_addrs (fresh_di ty)) with (replicate 13 0).
  assert (forall j, nth j (replicate 13 0) 0 = 0) as E by (intros j; apply (nth_replicate 13)).
  rewrite !E. by destruct (_ <=? _)%nat.
Qed.

Section ialloc.
Context (cur : nat) (pd : Z) (SB : superblock) (fuel : nat) (bswtch : MF unit).
Context (Hfuel : (0 < fuel)%nat) (G : geom SB).
Notation wpa := (wpa cur pd SB).

(** Inode [n], free before, is an empty inode of type [ty], with one reference
    at entry [ip] of the cache. *)
Record allocated (ty : Z) (a : astate) (D : Z -> dinode) (n : Z) (ip : nat) (a' : astate) : Prop := Allocated {
  al_inum : inum_ok SB n;
  al_free : ~ live (D n);
  al_ok : fs_ok SB (a_blk a') (upd D n (fresh_di ty)) [];
  al_disk : on_disk SB (a_blk a') (upd D n (fresh_di ty)) [];
  al_keeps j : inum_ok SB j -> live (D j) -> keeps (a_blk a) (D j) (a_blk a') (D j);
  al_log : a_log a' = add_block (IBLOCK n SB) (a_log a);
  al_held : a_held a' = [];
  al_took : took SB (a_ic a) (upd D n (fresh_di ty)) n ip (a_ic a');
  al_nfree : nfree SB (a_blk a') = nfree SB (a_blk a) }.

Context (a : astate) (D : Z -> dinode) (ty : Z).
Context (Hf : fs_ok SB (a_blk a) D []) (Ho : on_disk SB (a_blk a) D []) (Hok : ic_ok SB (a_ic a) D) (Hh : a_held a = [])
  (Hlog : (length (a_log a) < 29)%nat) (Hty : - 2 ^ 15 <= ty < 2 ^ 15) (Hty0 : ty <> 0).

(** The disk after the store. *)
Lemma fresh_ok n d :
  inum_ok SB n -> ~ live (D n) -> a_blk a !! IBLOCK n SB = Some d ->
  let C' := <[IBLOCK n SB := fresh_at d (dip n) ty]> (a_blk a) in
  let D' := upd D n (fresh_di ty) in
  fs_ok SB C' D' [] /\ on_disk SB C' D' [] /\ (forall j, inum_ok SB j -> live (D j) -> keeps (a_blk a) (D j) C' (D j)) /\
  ic_ok SB (a_ic a) D'.
Proof.
  intros Hn Hl Hd C' D'. assert (length d = 512%nat) as Hlen.
  { destruct (fo_blk _ _ _ _ Hf _ (inode_blk SB G n Hn)) as (d' & Hd' & Hlen). rewrite Hd in Hd'. by injection Hd' as ->. }
  assert (dip n + 64 <= length d)%nat as Hdip by (rewrite Hlen; apply dip_range; unfold inum_ok in Hn; lia).
  assert (fs_ok SB (a_blk a) D' []) as Hf' by (apply (enter_ok SB G); [exact Hf|exact Hl|by apply fresh_di_ok|intros k; apply fresh_slot|reflexivity]).
  destruct (inode_store_ok SB G _ D' [] n d _ Hf' Hn Hd (stores_fresh d (dip n) ty Hdip)) as (H1 & H2 & H3).
  assert (forall j, live (D j) -> D' j = D j) as HD by (intros j Hj; apply upd_ne; by intros ->).
  split_and!; [done| | |].
  - intros j Hj _. destruct (decide (j = n)) as [->|Hne]; [|rewrite H3 by done; unfold D'; rewrite upd_ne by done; by apply Ho, not_elem_of_nil].
    unfold C', D'. rewrite lookup_insert_eq, upd_eq. simpl. by apply get_fresh.
  - intros j Hj Hlj. specialize (H2 j Hj). rewrite HD in H2 by done. by apply H2.
  - apply (ic_ext SB _ D); [done|]. intros jp y Hy Hry Hv. apply HD.
    destruct (io_valid _ _ _ Hok jp y Hy Hry) as [?|(_ & _ & ?)]; [lia|done].
Qed.

Lemma wpa_ialloc_loop k n c :
  1 <= n <= c -> inum_ok SB c -> ~ live (D c) -> sb_ninodes SB - n < Z.of_nat k ->
  (forall m, inum_ok SB m -> refs (a_ic a) m < 2 ^ 31 - 1) -> (exists ip x, a_ic a !! ip = Some x /\ i_ref x = 0) ->
  wpa (ialloc_loop fuel bswtch k 1 ty n) a (fun ip a' => exists m, allocated ty a D m ip a').
Proof.
  intros Hnc Hc Hlc Hk Hs Hroom. revert n Hnc Hk. induction k as [|k IH]; intros n Hnc Hk; [unfold inum_ok in *; lia|].
  assert (inum_ok SB n) as Hn by (unfold inum_ok in *; lia). cbn [ialloc_loop].
  eapply wpa_bind; [apply wpa_sb|]. intros ? ? [-> ->]. rewrite (proj2 (Z.ltb_lt _ _)) by (unfold inum_ok in *; lia).
  destruct (fo_blk _ _ _ _ Hf _ (inode_blk SB G n Hn)) as (d & Hd & Hlen).
  eapply wpa_bind; [apply (wpa_bread cur pd SB fuel bswtch _ _ d); rewrite ?Hh; try done; [apply not_elem_of_nil|unfold NBUF; simpl; lia]|].
  intros bp ? ->. rewrite Hh.
  eapply wpa_bind; [by apply (wpa_bdata _ _ _ _ bp (IBLOCK n SB) d); [left|]|]. intros ? ? [-> ->].
  assert (i16 (get16 d (dip n)) = d_type (D n)) as Et.
  { pose proof (Ho n Hn (not_elem_of_nil n)) as E. rewrite Hd in E. rewrite <- E. reflexivity. }
  rewrite Et. destruct (Z.eqb_spec (d_type (D n)) 0) as [E0|Hl].
  - assert (~ live (D n)) as Hl by (by intros []). destruct (fresh_ok n d Hn Hl Hd) as (H1 & H2 & H3 & H4).
    destruct (IBLOCK_eq SB G n Hn) as [_ ?].
    eapply (wpa_write cur pd SB G _ bp (IBLOCK n SB) d (fun d => fresh_at d (dip n) ty)); [by left|done|lia|done|]. cbn [a_ic a_held a_blk a_log].
    eapply wpa_bind; [by apply (wpa_brelse _ _ _ _ bp (IBLOCK n SB) [])|]. intros _ ? ->. cbn [a_ic a_held a_blk a_log].
    eapply wpa_mono; [apply (wpa_iget cur pd SB (AS (a_ic a) [] _ _) (upd D n (fresh_di ty)) n); cbn [a_ic]; [done|done|by apply Hs|by right]|].
    intros ip a' (ic' & -> & Ht). exists n. constructor; try done. apply nfree_ext. intros b Hb. apply free_insert; [done|done|].
    destruct (IBLOCK_eq SB G n Hn). lia.
  - eapply wpa_bind; [by apply (wpa_brelse _ _ _ _ bp (IBLOCK n SB) [])|]. intros _ ? ->. cbn [a_ic a_held a_blk a_log].
    assert (AS (a_ic a) [] (a_blk a) (a_log a) = a) as -> by (rewrite <- Hh; by destruct a).
    assert (n <> c) by (by intros ->). apply IH; lia.
Qed.

Lemma wpa_ialloc c :
  inum_ok SB c -> ~ live (D c) ->
  (forall m, inum_ok SB m -> refs (a_ic a) m < 2 ^ 31 - 1) -> (exists ip x, a_ic a !! ip = Some x /\ i_ref x = 0) ->
  wpa (ialloc fuel bswtch 1 ty) a (fun ip a' => exists m, allocated ty a D m ip a').
Proof.
  intros Hc Hl Hs Hroom. unfold ialloc. eapply wpa_bind; [apply wpa_sb|]. intros ? ? [-> ->].
  pose proof (ge_ninodes _ G). eapply wpa_ialloc_loop; [|exact Hc|done| |done|done]; unfold inum_ok in Hc; lia.
Qed.
End ialloc.
