(* ===== verification/Xv6Dir.v ===== *)
(** * Directories of xv6 (lab2/fs.c)

    A directory is a file of 16-byte entries; read as a table it maps names of at
    most [DIRSIZ] characters to inode numbers.  [dirlookup] is the lookup in this
    table and [dirlink] adds a name to it. *)

From S2P Require Import Prelude CMem Xv6Lock Xv6String Xv6Proc Xv6World Xv6Bio Xv6Log Xv6Txn Xv6Inode Xv6Disk Xv6Iops Xv6Content Xv6Wrote Xv6Writei Xv6Icache Xv6Trunc.
From stdpp Require Import base numbers option list gmap strings.
Open Scope Z_scope.

#[local] Opaque Nat.div Nat.modulo.

(** ** Names *)

(** The characters of a name in an array of [n] elements: those before the first
    zero. *)
Fixpoint cname_n (n : nat) (s : list Z) : list Z :=
  match n, s with
  | S k, c :: s => if c =? 0 then [] else c :: cname_n k s
  | _, _ => []
  end.
Definition cname (s : list Z) : list Z := cname_n DIRSIZ s.

Lemma cname_n_hd n s : hd 0 s = 0 -> cname_n n s = [].
Proof. destruct n, s as [|c s]; simpl; try done. by intros ->. Qed.

Lemma strncmp_arr_eq n s t : strncmp_arr n s t = 0 <-> cname_n n s = cname_n n t.
Proof.
  revert s t. induction n as [|n IH]; intros s t; [done|]. cbn [strncmp_arr].
  destruct (Z.eqb_spec (hd 0 s) 0) as [Hs|Hs]; cbn [negb andb].
  - rewrite (cname_n_hd _ s Hs), Hs. destruct t as [|c t]; [done|]. simpl. destruct (Z.eqb_spec c 0) as [->|]; [done|].
    split; [lia|done].
  - destruct s as [|c s]; [done|]. cbn [hd tail cname_n] in *. destruct (Z.eqb_spec c 0) as [?|_]; [done|].
    destruct t as [|c' t]; cbn [hd tail cname_n].
    + destruct (Z.eqb_spec c 0); [done|]. split; [lia|done].
    + destruct (Z.eqb_spec c c') as [<-|Hne].
      * destruct (Z.eqb_spec c 0) as [?|_]; [done|]. rewrite IH. split; [by intros ->|by intros [= ->]].
      * destruct (Z.eqb_spec c' 0); (split; [lia|congruence]).
Qed.

(** Two names are the same for [namecmp] when they agree up to [DIRSIZ]
    characters. *)
Lemma namecmp_eq s t : namecmp s t = 0 <-> cname s = cname t.
Proof. apply strncmp_arr_eq. Qed.

Lemma cname_strncpy n s : cname_n n (strncpy_arr n s) = cname_n n s.
Proof.
  revert s. induction n as [|n IH]; intros s; [done|]. cbn [strncpy_arr]. destruct s as [|c s]; [done|].
  simpl. destruct (c =? 0); [done|]. by rewrite IH.
Qed.

Lemma length_strncpy n s : length (strncpy_arr n s) = n.
Proof.
  revert s. induction n as [|n IH]; intros s; [done|]. simpl. destruct (_ =? _); [by rewrite length_replicate|by rewrite IH].
Qed.

(** The array routines are those of string.c on the bytes in memory. *)
Fixpoint bytes_at (m : mem) (p : Z) (n : nat) : list Z :=
  match n with O => [] | S k => load8 m p :: bytes_at m (p + 1) k end.

Lemma strncmp_arr_mem n m p q : strncmp_arr n (bytes_at m p n) (bytes_at m q n) = Xv6String.strncmp n m p q.
Proof.
  revert p q. induction n as [|n IH]; intros p q; [done|]. cbn [strncmp_arr bytes_at hd tail Xv6String.strncmp]. by rewrite IH.
Qed.

Lemma bytes_at_frame m m' p n : (forall a, p <= a < p + Z.of_nat n -> load8 m' a = load8 m a) -> bytes_at m' p n = bytes_at m p n.
Proof.
  revert p. induction n as [|n IH]; intros p H; [done|]. cbn [bytes_at]. rewrite H by lia. f_equal. apply IH. intros a Ha. apply H. lia.
Qed.

Lemma pad_zero_other n m s a : a < s \/ s + Z.of_nat n <= a -> load8 (pad_zero n m s) a = load8 m a.
Proof.
  revert m s. induction n as [|n IH]; intros m s Ha; [done|]. cbn [pad_zero]. rewrite IH by lia. by rewrite load8_store8_ne by lia.
Qed.

Lemma strncpy_loop_other n m s t a : a < s \/ s + Z.of_nat n <= a -> load8 (strncpy_loop n m s t) a = load8 m a.
Proof.
  revert m s t. induction n as [|n IH]; intros m s t Ha; [done|]. cbn [strncpy_loop].
  destruct (_ =? 0); [rewrite pad_zero_other by lia|rewrite IH by lia]; by rewrite load8_store8_ne by lia.
Qed.

Lemma bytes_at_pad n m s : bytes_at (pad_zero n m s) s n = replicate n 0.
Proof.
  revert m s. induction n as [|n IH]; intros m s; [done|]. cbn [pad_zero bytes_at replicate]. rewrite IH.
  rewrite pad_zero_other by lia. by rewrite load8_store8_eq.
Qed.

Lemma strncpy_arr_mem n m s t :
  mem_ok m -> s + Z.of_nat n <= t \/ t + Z.of_nat n <= s ->
  bytes_at (strncpy_loop n m s t) s n = strncpy_arr n (bytes_at m t n).
Proof.
  revert m s t. induction n as [|n IH]; intros m s t Hm Hd; [done|]. cbn [strncpy_loop bytes_at strncpy_arr hd tail].
  pose proof (load8_range m t Hm) as Hr. rewrite load8_store8_eq, (u8_small (load8 m t)) by done.
  set (m1 := store8 m s (load8 m t)). assert (load8 m1 s = load8 m t) as E by (unfold m1; rewrite load8_store8_eq; by apply u8_small).
  destruct (load8 m t =? 0).
  - rewrite bytes_at_pad, pad_zero_other by lia. by rewrite E.
  - rewrite IH; [|by apply mem_ok_store8|lia]. rewrite strncpy_loop_other by lia. rewrite E. do 2 f_equal.
    apply bytes_at_frame. intros a Ha. unfold m1. apply load8_store8_ne. lia.
Qed.

(** ** The table *)

(** Entry [k] of a directory with the bytes [f]. *)
Definition ent (f : list Z) (k : nat) : list Z := read_at f (DESIZE * Z.of_nat k) DESIZE.
Definition nents (f : list Z) : nat := Z.to_nat (Z.of_nat (length f) / DESIZE).
Definition has_name (f nm : list Z) (k : nat) : bool :=
  negb (de_inum (ent f k) =? 0) && bool_decide (cname (de_name (ent f k)) = nm).
Fixpoint dfind (p : nat -> bool) (ks : list nat) : option nat :=
  match ks with [] => None | k :: ks => if p k then Some k else dfind p ks end.

(** The entry of a name, and the inode it stands for. *)
Definition dslot_of (f nm : list Z) : option nat := dfind (has_name f nm) (seq 0 (nents f)).
Definition dlookup (f nm : list Z) : option Z := (fun k => de_inum (ent f k)) <$> dslot_of f nm.
(** The entry [dirlink] takes: the first empty one, or a new one. *)
Definition dfree (f : list Z) : nat :=
  default (nents f) (dfind (fun k => de_inum (ent f k) =? 0) (seq 0 (nents f))).

Definition dir_ok (SB : superblock) (f : list Z) : Prop :=
  Z.of_nat (length f) mod DESIZE = 0 /\
  forall k, (k < nents f)%nat -> de_inum (ent f k) <> 0 -> inum_ok SB (de_inum (ent f k)).

Lemma dfind_some p ks k : dfind p ks = Some k -> k ∈ ks /\ p k = true.
Proof.
  induction ks as [|j ks IH]; simpl; [done|]. destruct (p j) eqn:E; [intros [= <-]; split; [by left|done]|].
  intros [? ?]%IH. split; [by right|done].
Qed.

Lemma dfind_none p ks : dfind p ks = None <-> forall k, k ∈ ks -> p k = false.
Proof.
  induction ks as [|j ks IH]; simpl; [split; [intros _ k Hk; by apply elem_of_nil in Hk|done]|].
  destruct (p j) eqn:E.
  - split; [done|]. intros H. rewrite H in E by left. done.
  - rewrite IH. split; [intros H k [->|]%elem_of_cons; auto|]. intros H k Hk. apply H. by right.
Qed.

Lemma dfind_app p k1 k2 :
  dfind p (k1 ++ k2) = match dfind p k1 with Some k => Some k | None => dfind p k2 end.
Proof. induction k1 as [|j k1 IH]; simpl; [done|]. by destruct (p j). Qed.

Lemma dfind_ext p q ks : (forall k, k ∈ ks -> p k = q k) -> dfind p ks = dfind q ks.
Proof.
  induction ks as [|j ks IH]; intros H; [done|]. simpl. rewrite (H j) by left. rewrite IH; [done|]. intros k Hk. apply H. by right.
Qed.

Lemma nents_bound f k : (k < nents f)%nat -> DESIZE * Z.of_nat k + DESIZE <= Z.of_nat (length f).
Proof. unfold nents, DESIZE. intros. dlia. Qed.

Lemma nents_len SB f : dir_ok SB f -> Z.of_nat (length f) = DESIZE * Z.of_nat (nents f).
Proof. intros [H _]. unfold nents, DESIZE in *. dlia. Qed.

Lemma length_ent f k : (k < nents f)%nat -> length (ent f k) = 16%nat.
Proof.
  intros Hk%nents_bound. unfold ent, read_at, DESIZE in *. rewrite length_take, length_drop. lia.
Qed.

Lemma dslot_of_lt f nm k : dslot_of f nm = Some k -> (k < nents f)%nat /\ has_name f nm k = true.
Proof. intros [Hk ?]%dfind_some. apply elem_of_seq in Hk. split; [lia|done]. Qed.

Lemma dlookup_inum SB f nm n : dir_ok SB f -> dlookup f nm = Some n -> inum_ok SB n /\ n <> 0.
Proof.
  intros [_ H] (k & [Hk Hn]%dslot_of_lt & ->)%fmap_Some. apply andb_true_iff in Hn as [Hn _].
  apply negb_true_iff, Z.eqb_neq in Hn. split; [by apply H|done].
Qed.

Lemma dfree_le f : (dfree f <= nents f)%nat /\ ((dfree f < nents f)%nat -> de_inum (ent f (dfree f)) = 0).
Proof.
  unfold dfree. destruct (dfind _ _) as [k|] eqn:E; simpl; [|split; [lia|lia]].
  apply dfind_some in E as [Hk%elem_of_seq E]. split; [lia|]. intros _. lia.
Qed.

(** ** A new entry *)

Section link.
Context (SB : superblock) (f : list Z) (Hok : dir_ok SB f) (name : list Z) (inum : Z) (Hinum : 0 < inum < 2 ^ 16).

Definition linked : list Z := write_at f (Z.to_nat (DESIZE * Z.of_nat (dfree f))) (mk_dirent inum name).

Lemma length_mk_dirent : length (mk_dirent inum name) = 16%nat.
Proof. unfold mk_dirent. cbn [length]. by rewrite length_strncpy. Qed.

Lemma dfree_off : (Z.to_nat (DESIZE * Z.of_nat (dfree f)) <= length f)%nat.
Proof. destruct (dfree_le f) as [H _]. pose proof (nents_len SB f Hok). unfold DESIZE in *. lia. Qed.

Lemma length_linked : Z.of_nat (length linked) = DESIZE * Z.of_nat (Nat.max (nents f) (S (dfree f))).
Proof.
  unfold linked. rewrite length_write_at by apply dfree_off. rewrite length_mk_dirent.
  pose proof (nents_len SB f Hok). unfold DESIZE in *. lia.
Qed.

Lemma nents_linked : nents linked = Nat.max (nents f) (S (dfree f)).
Proof. unfold nents at 1. rewrite length_linked. unfold DESIZE. dlia. Qed.

Lemma ent_eq g h k : (forall p, (16 * k <= p < 16 * k + 16)%nat -> g !! p = h !! p) -> ent g k = ent h k.
Proof.
  intros H. unfold ent, read_at, DESIZE. apply list_eq. intros p. destruct (decide (p < 16)%nat).
  - rewrite !lookup_take_lt by lia. rewrite !lookup_drop. apply H. lia.
  - rewrite !lookup_take_ge by lia. done.
Qed.

Lemma lookup_write_at g o l p :
  (o <= length g)%nat -> write_at g o l !! p =
    if decide (p < o)%nat then g !! p else if decide (p < o + length l)%nat then l !! (p - o)%nat else g !! p.
Proof.
  intros Ho. unfold write_at. destruct (decide (p < o)%nat).
  - rewrite lookup_app_l by (rewrite length_take; lia). by rewrite lookup_take_lt.
  - rewrite lookup_app_r by (rewrite length_take; lia). rewrite length_take, Nat.min_l by lia.
    destruct (decide (p < o + length l)%nat); [by rewrite lookup_app_l by lia|].
    rewrite lookup_app_r by lia. rewrite lookup_drop. f_equal. lia.
Qed.

Lemma ent_linked k : ent linked k = if decide (k = dfree f) then mk_dirent inum name else ent f k.
Proof.
  pose proof dfree_off. pose proof length_mk_dirent as Hl. destruct (decide (k = dfree f)) as [->|Hne].
  - unfold ent, read_at, DESIZE. apply list_eq. intros p. destruct (decide (p < 16)%nat).
    + rewrite lookup_take_lt by lia. rewrite lookup_drop. unfold linked. rewrite lookup_write_at by done.
      unfold DESIZE. rewrite decide_False by lia. rewrite decide_True by lia. f_equal. lia.
    + rewrite lookup_take_ge by lia. rewrite lookup_ge_None_2; [done|]. rewrite Hl. lia.
  - apply ent_eq. intros p Hp. unfold linked. rewrite lookup_write_at by done. rewrite Hl. unfold DESIZE.
    destruct (decide _); [done|]. rewrite decide_False by lia. done.
Qed.

Lemma de_inum_mk : de_inum (mk_dirent inum name) = inum.
Proof. unfold de_inum, mk_dirent, get16, u8. cbn [nth]. simpl (0 + 1)%nat. cbn [nth]. dlia. Qed.

Lemma has_name_linked nm k :
  has_name linked nm k = if decide (k = dfree f) then bool_decide (cname name = nm) else has_name f nm k.
Proof.
  unfold has_name. rewrite ent_linked. destruct (decide _); [|done]. rewrite de_inum_mk. destruct (Z.eqb_spec inum 0); [lia|].
  assert (cname (de_name (mk_dirent inum name)) = cname name) as ->; [|done].
  exact (cname_strncpy DIRSIZ name).
Qed.

(** The old table, around the new entry. *)
Lemma dslot_split nm :
  dslot_of f nm = match dfind (has_name f nm) (seq 0 (dfree f)) with
                  | Some k => Some k
                  | None => dfind (has_name f nm) (seq (S (dfree f)) (nents f - S (dfree f))) end.
Proof.
  destruct (dfree_le f) as [H1 H2]. unfold dslot_of. destruct (decide (dfree f = nents f)) as [E|].
  - rewrite <- E. rewrite (proj2 (Nat.sub_0_le _ _)) by lia. by destruct (dfind _ _).
  - replace (nents f) with (dfree f + S (nents f - S (dfree f)))%nat at 1 by lia.
    rewrite seq_app, dfind_app. cbn [seq Nat.add dfind].
    assert (has_name f nm (dfree f) = false) as ->; [|done]. unfold has_name. rewrite H2 by lia. done.
Qed.

Lemma dslot_linked nm :
  dslot_of linked nm = match dfind (has_name f nm) (seq 0 (dfree f)) with
                  | Some k => Some k
                  | None => if decide (cname name = nm) then Some (dfree f)
                            else dfind (has_name f nm) (seq (S (dfree f)) (nents f - S (dfree f))) end.
Proof.
  destruct (dfree_le f) as [H1 _]. unfold dslot_of. rewrite nents_linked.
  replace (Nat.max (nents f) (S (dfree f))) with (dfree f + S (nents f - S (dfree f)))%nat by lia.
  rewrite seq_app, dfind_app. cbn [seq Nat.add dfind].
  rewrite (dfind_ext _ (has_name f nm) (seq 0 (dfree f))).
  2:{ intros k [_ Hk]%elem_of_seq. rewrite has_name_linked, decide_False by lia. done. }
  rewrite has_name_linked, decide_True by done.
  rewrite (dfind_ext _ (has_name f nm) (seq (S _) _)).
  2:{ intros k [Hk _]%elem_of_seq. rewrite has_name_linked, decide_False by lia. done. }
  destruct (dfind _ (seq 0 _)); [done|]. destruct (decide _) as [E|E].
  - by rewrite bool_decide_eq_true_2.
  - by rewrite bool_decide_eq_false_2.
Qed.

(** The new table: the old one with one more name. *)
Lemma dlookup_linked nm :
  dlookup f (cname name) = None ->
  dlookup linked nm = if decide (nm = cname name) then Some inum else dlookup f nm.
Proof.
  intros Hno. unfold dlookup in *. apply fmap_None in Hno. rewrite dslot_split in Hno.
  rewrite dslot_linked. destruct (decide (nm = cname name)) as [->|Hne].
  - destruct (dfind _ (seq 0 _)); [done|]. rewrite decide_True by done. cbn [fmap option_fmap option_map]. rewrite ent_linked, decide_True by done.
    by rewrite de_inum_mk.
  - rewrite decide_False by done. rewrite dslot_split.
    assert (forall k, k <> dfree f -> de_inum (ent linked k) = de_inum (ent f k)) as E.
    { intros k Hk. by rewrite ent_linked, decide_False. }
    clear Hno. destruct (dfind _ (seq 0 _)) as [k|] eqn:E1.
    + apply dfind_some in E1 as [[_ Hk]%elem_of_seq _]. apply (f_equal Some), E. lia.
    + destruct (dfind _ (seq (S _) _)) as [k|] eqn:E2; [|done].
      apply dfind_some in E2 as [[Hk _]%elem_of_seq _]. apply (f_equal Some), E. lia.
Qed.

Lemma dir_ok_linked : inum_ok SB inum -> dir_ok SB linked.
Proof.
  intros Hi. split.
  - rewrite length_linked. unfold DESIZE. dlia.
  - intros k Hk. rewrite ent_linked. destruct (decide _) as [->|Hne]; [by rewrite de_inum_mk|].
    rewrite nents_linked in Hk. intros H. apply (proj2 Hok); [|done]. destruct (dfree_le f). lia.
Qed.
End link.

(** ** An entry less *)

(** No name twice. *)
Definition uniq_names (f : list Z) : Prop :=
  forall nm j k, (j < nents f)%nat -> (k < nents f)%nat -> has_name f nm j = true -> has_name f nm k = true -> j = k.

(** No entry after the first two. *)
Definition dir_empty (f : list Z) : bool := forallb (fun k => de_inum (ent f k) =? 0) (seq 2 (nents f - 2)).

(** The entry [t] is cleared. *)
Definition erased (f : list Z) (t : nat) : list Z := write_at f (Z.to_nat (DESIZE * Z.of_nat t)) (replicate 16 0).

Section erase.
Context (SB : superblock) (f : list Z) (t : nat) (Ht : (t < nents f)%nat).

Lemma length_erased : length (erased f t) = length f.
Proof.
  pose proof (nents_bound f t Ht). unfold erased, DESIZE in *. rewrite length_write_at by lia. rewrite length_replicate. lia.
Qed.

Lemma nents_erased : nents (erased f t) = nents f.
Proof. unfold nents. by rewrite length_erased. Qed.

Lemma ent_erased k : ent (erased f t) k = if decide (k = t) then replicate 16 0 else ent f k.
Proof.
  pose proof (nents_bound f t Ht) as Hb. unfold DESIZE in Hb. destruct (decide (k = t)) as [->|Hne].
  - unfold ent, read_at, erased, DESIZE. apply list_eq. intros p. destruct (decide (p < 16)%nat).
    + rewrite lookup_take_lt by lia. rewrite lookup_drop, lookup_write_at by lia. rewrite length_replicate.
      rewrite decide_False by lia. rewrite decide_True by lia. rewrite !lookup_replicate_2 by lia. done.
    + rewrite lookup_take_ge by lia. rewrite lookup_ge_None_2; [done|]. rewrite length_replicate. lia.
  - apply ent_eq. intros p Hp. unfold erased, DESIZE. rewrite lookup_write_at by lia. rewrite length_replicate.
    destruct (decide _); [done|]. by rewrite decide_False by lia.
Qed.

Lemma has_name_erased nm k : has_name (erased f t) nm k = if decide (k = t) then false else has_name f nm k.
Proof. unfold has_name. rewrite ent_erased. by destruct (decide _). Qed.

Lemma dir_ok_erased : dir_ok SB f -> dir_ok SB (erased f t).
Proof.
  intros [H1 H2]. split; [by rewrite length_erased|]. intros k. rewrite nents_erased, ent_erased. destruct (decide _); [done|]. apply H2.
Qed.

Lemma uniq_erased : uniq_names f -> uniq_names (erased f t).
Proof.
  intros H nm j k. rewrite nents_erased, !has_name_erased. destruct (decide (j = t)), (decide (k = t)); try done. apply H.
Qed.

(** The table without the name of the entry. *)
Lemma dlookup_erased nm nm' :
  uniq_names f -> has_name f nm t = true -> dlookup (erased f t) nm' = if decide (nm' = nm) then None else dlookup f nm'.
Proof.
  intros Hu Hn. unfold dlookup, dslot_of. rewrite nents_erased. destruct (decide (nm' = nm)) as [->|Hne].
  - rewrite (proj2 (dfind_none _ _)); [done|]. intros k [_ Hk]%elem_of_seq. rewrite has_name_erased. destruct (decide (k = t)) as [|Hkt]; [done|].
    apply not_true_iff_false. intros E. apply Hkt. by apply (Hu nm k t).
  - rewrite (dfind_ext _ (has_name f nm')).
    + destruct (dfind _ _) as [k|] eqn:E; [|done]. apply (f_equal Some). rewrite ent_erased. destruct (decide (k = t)) as [->|]; [|done].
      apply dfind_some in E as [_ E]. exfalso. unfold has_name in Hn, E. apply andb_true_iff in Hn as [_ Hn%bool_decide_eq_true].
      apply andb_true_iff in E as [_ E%bool_decide_eq_true]. congruence.
    + intros k _. rewrite has_name_erased. destruct (decide (k = t)) as [->|]; [|done]. symmetry. apply not_true_iff_false. intros E.
      unfold has_name in Hn, E. apply andb_true_iff in Hn as [_ Hn%bool_decide_eq_true].
      apply andb_true_iff in E as [_ E%bool_decide_eq_true]. congruence.
Qed.
End erase.
