(* ===== verification/Xv6Dirops.v ===== *)
(** * Looking up and adding names (lab2/fs.c)

    [dirlookup] and [dirlink] on the tables of directories. *)

From S2P Require Import Prelude CMem Xv6Lock Xv6Proc Xv6World Xv6Bio Xv6Log Xv6Txn Xv6Inode Xv6Disk Xv6Iops Xv6Content Xv6Wrote Xv6Writei Xv6Icache Xv6Trunc Xv6Dir.
From stdpp Require Import base numbers option list gmap strings.
Open Scope Z_scope.

#[local] Opaque Nat.div Nat.modulo.

Section dirs.
Context (cur : nat) (pd : Z) (SB : superblock) (fuel : nat) (bswtch : MF unit) (swtch : MI unit) `{DV : Devsw}.
Context (Hfuel : (0 < fuel)%nat) (G : geom SB).
Notation wpa := (wpa cur pd SB).

(** An entry lies in one block. *)
Lemma entry_blocks k : (length (touched (Z.to_nat (DESIZE * Z.of_nat k)) 16) <= 1)%nat.
Proof.
  unfold touched. simpl Nat.eqb. cbv iota. rewrite length_seq. replace (Z.to_nat _) with (16 * k)%nat by (unfold DESIZE; lia).
  pose proof (Nat.div_mod_eq (16 * k) 512). pose proof (Nat.mod_upper_bound (16 * k) 512 ltac:(lia)).
  pose proof (Nat.div_mod_eq (16 * k + 16 - 1) 512). pose proof (Nat.mod_upper_bound (16 * k + 16 - 1) 512 ltac:(lia)). lia.
Qed.

(** Room for one more inode in the cache. *)
Definition roomy (ic : list inode) : Prop :=
  (forall m, inum_ok SB m -> refs ic m < 2 ^ 31 - 1) /\ exists ip x, ic !! ip = Some x /\ i_ref x = 0.

Section dir.
Context (a : astate) (D : Z -> dinode) (dp : nat) (x : inode).
Context (Hf : fs_ok SB (a_blk a) D []) (He : entry SB a D dp x) (Hh : a_held a = []) (Hlog : (length (a_log a) < 26)%nat).
Context (Hty : d_type (D (i_inum x)) = T_DIR).
Let f := fbytes (a_blk a) (D (i_inum x)).
Context (Hdir : dir_ok SB f).

Lemma dir_size : d_size (D (i_inum x)) = Z.of_nat (length f) /\ Z.of_nat (length f) <= MAXFILE * BSIZE.
Proof.
  unfold f. rewrite length_fbytes. destruct (fo_size _ _ _ _ Hf _ (en_inum _ _ _ _ _ He) (en_live _ _ _ _ _ He)) as [H _].
  pose proof (do_size _ (fo_di _ _ _ _ Hf _ (en_inum _ _ _ _ _ He))). lia.
Qed.

(** One entry is read. *)
Lemma wpa_read_ent k :
  (k < nents f)%nat ->
  wpa (readi fuel bswtch dp (DESIZE * Z.of_nat k) DESIZE) a (fun r a' => a' = a /\ r = (DESIZE, ent f k)).
Proof.
  intros Hk. pose proof (nents_bound f k Hk) as Hb. destruct dir_size as [_ Hs]. change (MAXFILE * BSIZE) with 71680 in Hs.
  unfold DESIZE in *. eapply wpa_mono; [apply (wpa_readi cur pd SB fuel bswtch Hfuel G a D dp x); try done; try lia; by rewrite Hty|].
  cbv beta zeta. intros r a' [-> ->]. split; [done|]. fold f.
  rewrite (proj2 (Z.ltb_ge _ _)) by lia. rewrite (proj2 (Z.leb_gt _ _)) by lia. cbn [orb].
  change (read_at f (16 * Z.of_nat k) 16) with (ent f k). by rewrite length_ent.
Qed.

Lemma wpa_dirlookup_loop name k j :
  ic_ok SB (a_ic a) D -> roomy (a_ic a) -> (j <= nents f)%nat -> (nents f < j + k)%nat ->
  wpa (dirlookup_loop fuel bswtch k dp name (DESIZE * Z.of_nat j)) a (fun r a' =>
    match dfind (has_name f (cname name)) (seq j (nents f - j)) with
    | None => r = None /\ a' = a
    | Some t => exists ip ic', r = Some (ip, DESIZE * Z.of_nat t) /\ a' = set_ic ic' a /\
        took SB (a_ic a) D (de_inum (ent f t)) ip ic'
    end).
Proof.
  intros Hok [Hs Hroom]. revert j. induction k as [|k IH]; intros j Hj Hk; [lia|]. cbn [dirlookup_loop].
  eapply wpa_bind; [apply wpa_iread, (en_ic _ _ _ _ _ He)|]. intros ? ? [-> ->].
  rewrite (en_di _ _ _ _ _ He). destruct dir_size as [-> Hsz]. rewrite (nents_len SB f Hdir).
  change (MAXFILE * BSIZE) with 71680 in Hsz. pose proof (nents_len SB f Hdir) as Hn.
  destruct (decide (j = nents f)) as [->|Hne].
  - rewrite (proj2 (Z.ltb_ge _ _)) by lia. rewrite Nat.sub_diag. by apply wpa_ret.
  - rewrite (proj2 (Z.ltb_lt _ _)) by (unfold DESIZE in *; lia).
    eapply wpa_bind; [apply wpa_read_ent; lia|]. intros ? ? [-> ->]. cbn [negb]. rewrite Z.eqb_refl. cbn [negb].
    assert (u32 (DESIZE * Z.of_nat j + DESIZE) = DESIZE * Z.of_nat (S j)) as ->.
    { rewrite u32_small; unfold DESIZE in *; lia. }
    replace (nents f - j)%nat with (S (nents f - S j)) by lia. cbn [seq dfind].
    unfold has_name at 1. destruct (Z.eqb_spec (de_inum (ent f j)) 0) as [E0|E0]; cbn [negb andb]; [apply IH; lia|].
    destruct (Z.eqb_spec (namecmp name (de_name (ent f j))) 0) as [En|En].
    + apply namecmp_eq in En. rewrite bool_decide_eq_true_2 by done.
      assert (inum_ok SB (de_inum (ent f j))) as Hi by (apply (proj2 Hdir); [lia|done]).
      eapply wpa_bind; [rewrite (en_dev _ _ _ _ _ He); apply (wpa_iget cur pd SB a D); [done|done|by apply Hs|by right]|].
      intros ip ? (ic' & -> & Ht). apply wpa_ret. by exists ip, ic'.
    + rewrite bool_decide_eq_false_2 by (intros E; by apply En, namecmp_eq). apply IH; lia.
Qed.

Lemma wpa_dirlookup name :
  ic_ok SB (a_ic a) D -> roomy (a_ic a) ->
  wpa (dirlookup fuel bswtch dp name) a (fun r a' =>
    match dslot_of f (cname name) with
    | None => r = None /\ a' = a
    | Some t => exists ip ic', r = Some (ip, DESIZE * Z.of_nat t) /\ a' = set_ic ic' a /\
        took SB (a_ic a) D (de_inum (ent f t)) ip ic'
    end).
Proof.
  intros Hok Hroom. unfold dirlookup. eapply wpa_bind; [apply wpa_iread, (en_ic _ _ _ _ _ He)|]. intros ? ? [-> ->].
  rewrite (en_di _ _ _ _ _ He), Hty. cbn [negb]. rewrite Z.eqb_refl. cbn [negb]. destruct dir_size as [-> Hsz].
  pose proof (wpa_dirlookup_loop name (Z.to_nat (Z.of_nat (length f) / DESIZE + 2)) 0 Hok Hroom) as H.
  rewrite Nat.sub_0_r in H. apply H; [lia|]. unfold nents, DESIZE. dlia.
Qed.

Lemma wpa_dirlink_loop k j :
  (j <= nents f)%nat -> (nents f < j + k)%nat ->
  wpa (dirlink_loop fuel bswtch k dp (DESIZE * Z.of_nat j)) a (fun off a' => a' = a /\
    off = DESIZE * Z.of_nat (default (nents f) (dfind (fun k => de_inum (ent f k) =? 0) (seq j (nents f - j))))).
Proof.
  revert j. induction k as [|k IH]; intros j Hj Hk; [lia|]. cbn [dirlink_loop].
  eapply wpa_bind; [apply wpa_iread, (en_ic _ _ _ _ _ He)|]. intros ? ? [-> ->].
  rewrite (en_di _ _ _ _ _ He). destruct dir_size as [-> Hsz]. rewrite (nents_len SB f Hdir).
  change (MAXFILE * BSIZE) with 71680 in Hsz. pose proof (nents_len SB f Hdir) as Hn.
  rewrite u32_small by (unfold DESIZE in *; lia). destruct (decide (j = nents f)) as [->|Hne].
  - rewrite (proj2 (Z.ltb_ge _ _)) by lia. rewrite Nat.sub_diag. by apply wpa_ret.
  - rewrite (proj2 (Z.ltb_lt _ _)) by (unfold DESIZE in *; lia).
    eapply wpa_bind; [apply wpa_read_ent; lia|]. intros ? ? [-> ->]. cbn [negb]. rewrite Z.eqb_refl. cbn [negb].
    assert (i32 (DESIZE * Z.of_nat j + DESIZE) = DESIZE * Z.of_nat (S j)) as ->.
    { rewrite i32_small; unfold DESIZE in *; lia. }
    replace (nents f - j)%nat with (S (nents f - S j)) by lia. cbn [seq dfind].
    destruct (Z.eqb_spec (de_inum (ent f j)) 0) as [E0|E0]; [by apply wpa_ret|apply IH; lia].
Qed.

(** A reference that was just taken is given back. *)
Lemma wpa_put_back n ip ic' :
  ic_ok SB (a_ic a) D -> refs (a_ic a) n < 2 ^ 31 - 1 -> took SB (a_ic a) D n ip ic' ->
  (forall y, a_ic a !! ip = Some y -> sl_locked (i_lock y) = 0) ->
  wpa (iput fuel bswtch swtch ip) (set_ic ic' a) (fun _ a' => exists ic2, a' = set_ic ic2 a /\ ic_ok SB ic2 D /\
    (forall m, refs ic2 m = refs (a_ic a) m) /\ (forall jp, jp <> ip -> ic2 !! jp = a_ic a !! jp) /\
    exists y, ic2 !! ip = Some y /\ i_inum y = n /\ sl_locked (i_lock y) = 0 /\ i_ref y = refs (a_ic a) n).
Proof.
  intros Hok Hs [Hok' (y & Hy & Ey & Hry & Hnew & Hlk) Hrefs Hoth] Hun.
  assert (i_ref y = refs (a_ic a) n + 1) as Er.
  { rewrite <- (refs_entry SB ic' D ip y Hok' Hy Hry), Hrefs, Ey, Z.eqb_refl. done. }
  assert (is_Some (a_ic a !! ip)) as [y0 Hy0].
  { apply lookup_lt_is_Some. rewrite (io_len _ _ _ Hok), <- (io_len _ _ _ Hok'). by eapply lookup_lt_Some. }
  assert (orphan D y = false) as Ho.
  { unfold orphan. destruct Hnew as [->|]; [done|]. rewrite (proj2 (Z.eqb_neq (i_ref y) 1)) by lia. apply andb_false_r. }
  eapply wpa_mono; [apply (wpa_iput cur pd SB fuel bswtch swtch Hfuel G (set_ic ic' a) D ip y); try done; [lia| |by rewrite Ho]|].
  { rewrite (Hlk y0 Hy0). by apply Hun. }
  intros _ a' (D' & [_ _ Hic Hhd Hr' (z & Hz & Ez & Hlz & Hrz) Hoth' _ _ Hfr]). rewrite Ho in Hfr. destruct Hfr as (-> & Eb & El).
  exists (a_ic a'). split; [|split; [done|split; [|split]]].
  - destruct a'. simpl in *. subst. unfold set_ic. by rewrite Hh.
  - intros m. rewrite Hr'. cbn [a_ic set_ic]. rewrite Hrefs, Ey. destruct (_ =? _); lia.
  - intros jp Hjp. rewrite Hoth' by done. cbn [a_ic set_ic]. by apply Hoth.
  - exists z. split_and!; [done|congruence|done|lia].
Qed.

Lemma wpa_dirlink name inum :
  ic_ok SB (a_ic a) D -> roomy (a_ic a) -> 0 < i_ref x -> 0 < inum < 2 ^ 16 ->
  (dlookup f (cname name) <> None -> forall jp y, jp <> dp -> a_ic a !! jp = Some y -> sl_locked (i_lock y) = 0) ->
  dlookup f (cname name) <> Some (i_inum x) ->
  Z.of_nat (length f) + DESIZE <= MAXFILE * BSIZE -> (length (a_log a) < 14)%nat -> (2 < nfree SB (a_blk a))%nat ->
  wpa (dirlink fuel bswtch swtch dp name inum) a (fun v a' =>
    match dlookup f (cname name) with
    | Some n => v = -1 /\ exists ip ic', a' = set_ic ic' a /\ ic_ok SB ic' D /\ (forall m, refs ic' m = refs (a_ic a) m) /\
        ip <> dp /\ (forall jp, jp <> ip -> ic' !! jp = a_ic a !! jp) /\
        exists y, ic' !! ip = Some y /\ i_inum y = n /\ sl_locked (i_lock y) = 0 /\ i_ref y = refs (a_ic a) n
    | None => v = 0 /\ (exists D' t, written SB a D dp x (linked f name inum) a' D' /\ logged SB (i_inum x) t a a' D' /\ (length t <= 1)%nat) /\
        (length (a_log a') <= length (a_log a) + 5)%nat
    end).
Proof.
  intros Hok Hroom Hr Hinum Hun Hself Hfull Hl Hfree. unfold dirlink.
  eapply wpa_bind; [by apply wpa_dirlookup|]. unfold dlookup in *. destruct (dslot_of f (cname name)) as [t|] eqn:Et.
  - intros r ? (ip & ic' & -> & -> & Ht). cbn [fmap option_fmap option_map] in *.
    set (n := de_inum (ent f t)) in *. assert (i_inum x <> n) as Hne by (intros E; by apply Hself; f_equal).
    assert (ip <> dp) as Hip by (by apply (took_elsewhere SB _ D _ _ _ dp x Hok Ht (en_ic _ _ _ _ _ He))).
    assert (refs (a_ic a) n < 2 ^ 31 - 1) as Hs.
    { apply Hroom. apply (dlookup_inum SB f (cname name) n Hdir). unfold dlookup. by rewrite Et. }
    eapply wpa_bind; [apply (wpa_put_back n ip ic' Hok Hs Ht); intros y; by apply Hun|].
    intros _ ? (ic2 & -> & H1 & H2 & H3). apply wpa_ret. split; [done|]. by exists ip, ic2.
  - intros r ? [-> ->]. cbn [fmap option_fmap option_map].
    eapply wpa_bind; [apply wpa_iread, (en_ic _ _ _ _ _ He)|]. intros ? ? [-> ->].
    rewrite (en_di _ _ _ _ _ He). destruct dir_size as [-> Hsz]. change (MAXFILE * BSIZE) with 71680 in *.
    eapply wpa_bind.
    { pose proof (wpa_dirlink_loop (Z.to_nat (Z.of_nat (length f) / DESIZE + 2)) 0) as H. rewrite Nat.sub_0_r in H.
      apply H; [lia|]. unfold nents, DESIZE. dlia. }
    cbv beta. intros off ? [-> ->]. fold (dfree f).
    pose proof (dfree_off SB f Hdir) as Hoff. pose proof (length_mk_dirent name inum) as Hlen.
    set (o := DESIZE * Z.of_nat (dfree f)) in *. assert (0 <= o) as Ho0 by (unfold o, DESIZE; lia).
    rewrite u32_small by (unfold DESIZE in *; lia).
    assert (length (touched (Z.to_nat o) 16) <= 1)%nat as Htl.
    { apply entry_blocks. }
    pose proof (cost_le (a_blk a) (D (i_inum x)) (touched (Z.to_nat o) 16)) as Hcost.
    eapply wpa_bind; [apply (wpa_writei cur pd SB fuel bswtch Hfuel G a D dp x (mk_dirent inum name) o DESIZE); rewrite ?Hlen;
      try done; [by rewrite Hty|unfold DESIZE in *; lia|intros _; lia|intros _; right; lia]|].
    cbv beta zeta. fold f. intros v a'. change (MAXFILE * BSIZE) with 71680.
    rewrite (proj2 (Z.ltb_ge _ _)) by lia. rewrite (proj2 (Z.leb_gt _ _)) by (unfold DESIZE in *; lia).
    rewrite (proj2 (Z.ltb_ge _ _)) by (unfold DESIZE in *; lia). cbn [orb]. intros (-> & (D' & HD' & Hlgd) & Hlg).
    rewrite Z.eqb_refl. cbn [negb]. apply wpa_ret. split; [done|]. rewrite Hlen in Hlgd. split; [by exists D', (touched (Z.to_nat o) 16)|rewrite Hlen in Hlg; lia].
Qed.
End dir.
End dirs.
