(* ===== verification/Xv6Path.v ===== *)
(** * Path names of xv6 (lab2/fs.c)

    The names of a path and the walk along them through the directories of the
    disk; [namex] is this walk: it returns a reference to the inode the path
    stands for, and every other reference it takes on the way is given back. *)

From S2P Require Import Prelude CMem JosPrintfmt Xv6Lock Xv6Proc Xv6World Xv6Bio Xv6Log Xv6Txn Xv6Inode Xv6Disk Xv6Iops Xv6Content Xv6Wrote Xv6Writei Xv6Icache Xv6Trunc Xv6Dir Xv6Dirops.
From stdpp Require Import base numbers option list gmap strings.
From Stdlib Require Import Ascii.
Open Scope Z_scope.

#[local] Opaque Nat.div Nat.modulo.

(** ** The names of a path *)

Definition slash : Z := 47.

(** A word, unless it is empty. *)
Definition word (w : list Z) : list (list Z) := match w with [] => [] | _ => [w] end.

(** The words between slashes, up to a zero byte; [w] is the word being read. *)
Fixpoint words (path w : list Z) : list (list Z) :=
  match path with
  | [] => word w
  | c :: p => if c =? 0 then word w else if c =? slash then word w ++ words p [] else words p (w ++ [c])
  end.
Definition names (path : list Z) : list (list Z) := take DIRSIZ <$> words path [].

Lemma words_slashes p : words (skip_slashes p) [] = words p [].
Proof.
  induction p as [|c p IH]; [done|]. cbn [skip_slashes]. change (zc "/") with slash.
  destruct (Z.eqb_spec c slash) as [->|]; [|done]. rewrite IH. done.
Qed.

Lemma skip_slashes_hd p : hd 0 (skip_slashes p) <> slash.
Proof.
  induction p as [|c p IH]; [done|]. cbn [skip_slashes]. change (zc "/") with slash. by destruct (Z.eqb_spec c slash).
Qed.

(** The word at the start of a path. *)
Definition first_word (s : list Z) : list Z := take (length s - length (skip_name s)) s.

Lemma skip_name_suffix s : s = first_word s ++ skip_name s.
Proof.
  unfold first_word. induction s as [|c s IH]; [done|]. cbn [skip_name].
  assert (length (skip_name s) <= length s)%nat as Hle.
  { clear. induction s as [|c s IH]; [done|]. cbn [skip_name]. destruct (_ && _); simpl; lia. }
  destruct (_ && _); [|by rewrite Nat.sub_diag]. cbn [length]. rewrite Nat.sub_succ_l by done. cbn [take app]. by rewrite <- IH.
Qed.

Lemma first_word_cons c s :
  c <> slash -> c <> 0 -> first_word (c :: s) = c :: first_word s /\ skip_name (c :: s) = skip_name s.
Proof.
  intros H1 H2. assert (skip_name (c :: s) = skip_name s) as E.
  { cbn [skip_name]. change (zc "/") with slash. by rewrite (proj2 (Z.eqb_neq _ _) H1), (proj2 (Z.eqb_neq _ _) H2). }
  split; [|done]. unfold first_word. rewrite E. pose proof (f_equal length (skip_name_suffix s)) as Hl. rewrite length_app in Hl.
  cbn [length]. rewrite Nat.sub_succ_l by lia. done.
Qed.

Lemma words_first s w : words s w = match w ++ first_word s with
  | [] => words (skip_name s) [] | l => l :: words (skip_name s) [] end.
Proof.
  revert w. induction s as [|c s IH]; intros w.
  - simpl. rewrite app_nil_r. by destruct w.
  - destruct (decide (c = 0)) as [->|H0]; [|destruct (decide (c = slash)) as [->|Hs]].
    + unfold first_word. cbn [skip_name]. change (zc "/") with slash. cbn [Z.eqb negb andb]. rewrite Nat.sub_diag.
      cbn [take]. rewrite app_nil_r. cbn [words]. by destruct w.
    + unfold first_word. cbn [skip_name]. change (zc "/") with slash. rewrite Z.eqb_refl. cbn [negb andb]. rewrite Nat.sub_diag.
      cbn [take words]. rewrite app_nil_r. cbn [Z.eqb slash]. by destruct w.
    + destruct (first_word_cons c s Hs H0) as [-> ->]. cbn [words].
      rewrite (proj2 (Z.eqb_neq _ _) Hs), (proj2 (Z.eqb_neq _ _) H0). rewrite IH, <- app_assoc. done.
Qed.

Lemma first_word_nz s : forall c, c ∈ first_word s -> c <> 0.
Proof.
  induction s as [|d s IH]; intros c Hc; [by apply elem_of_nil in Hc|].
  destruct (decide (d = 0)) as [->|H0]; [|destruct (decide (d = slash)) as [->|Hs]].
  - unfold first_word in Hc. cbn [skip_name] in Hc. change (zc "/") with slash in Hc. cbn [Z.eqb negb andb] in Hc.
    rewrite Nat.sub_diag in Hc. by apply elem_of_nil in Hc.
  - unfold first_word in Hc. cbn [skip_name] in Hc. change (zc "/") with slash in Hc. rewrite Z.eqb_refl in Hc. cbn [negb andb] in Hc.
    rewrite Nat.sub_diag in Hc. by apply elem_of_nil in Hc.
  - destruct (first_word_cons d s Hs H0) as [E _]. rewrite E in Hc. apply elem_of_cons in Hc as [->|Hc]; [done|]. by apply IH.
Qed.

Lemma names_nil s : hd 0 s <> slash -> hd 0 s = 0 <-> names s = [].
Proof.
  destruct s as [|c s]; [done|]. simpl. intros Hs. unfold names. split.
  - intros ->. done.
  - intros H. destruct (decide (c = 0)) as [|H0]; [done|]. rewrite words_first in H.
    destruct (first_word_cons c s Hs H0) as [E _]. by rewrite E in H.
Qed.

Lemma cname_n_take n w r :
  (forall c, c ∈ w -> c <> 0) -> (length w <= n)%nat -> (length w = n \/ hd 0 r = 0) -> cname_n n (w ++ r) = w.
Proof.
  revert n. induction w as [|c w IH]; intros n Hw Hn Hr; simpl in *.
  - destruct Hr as [<-|Hr]; [by destruct r|]. by apply cname_n_hd.
  - destruct n as [|n]; [lia|]. cbn [cname_n]. rewrite (proj2 (Z.eqb_neq c 0)) by (apply Hw; left).
    rewrite IH; [done|intros d Hd; apply Hw; by right|lia|]. destruct Hr as [?|?]; [left; lia|by right].
Qed.

(** [skipelem] takes the first name off a path. *)
Lemma skipelem_names path name :
  length name = DIRSIZ ->
  match skipelem path name with
  | None => names path = []
  | Some (rest, name') => names path = cname name' :: names rest /\ length name' = DIRSIZ /\ (length rest < length path)%nat /\
      (hd 0 rest = 0 <-> names rest = [])
  end.
Proof.
  intros Hlen. unfold skipelem. set (s := skip_slashes path).
  assert (length s <= length path)%nat as Hle.
  { unfold s. clear. induction path as [|c p IH]; [done|]. cbn [skip_slashes]. destruct (_ =? _); simpl; lia. }
  assert (names path = take DIRSIZ <$> words s []) as En by (unfold names, s; by rewrite words_slashes).
  destruct (Z.eqb_spec (hd 0 s) 0) as [H0|H0].
  { rewrite En. destruct s as [|c s']; [done|]. simpl in H0. subst c. done. }
  assert (exists c s', s = c :: s' /\ c <> 0 /\ c <> slash) as (c & s' & Es & Hc0 & Hcs).
  { pose proof (skip_slashes_hd path) as Hs. fold s in Hs. destruct s as [|c s']; [done|]. by exists c, s'. }
  pose proof (skip_name_suffix s) as Hsuf. set (len := (length s - length (skip_name s))%nat).
  change (take len s) with (first_word s). pose proof (f_equal length Hsuf) as Hl. rewrite length_app in Hl.
  assert (length (first_word s) = len) as Hw by (unfold len; lia).
  assert (0 < len)%nat as Hpos by (destruct (first_word_cons c s' Hcs Hc0) as [E _]; rewrite <- Es in E; rewrite <- Hw, E; simpl; lia).
  assert (names path = take DIRSIZ (first_word s) :: names (skip_slashes (skip_name s))) as En'.
  { rewrite En, words_first. cbn [app]. unfold names. rewrite words_slashes. destruct (first_word s); [simpl in Hw; lia|done]. }
  assert (length (skip_slashes (skip_name s)) <= length (skip_name s))%nat as Hle2.
  { clear. induction (skip_name s) as [|c p IH]; [done|]. cbn [skip_slashes]. destruct (_ =? _); simpl; lia. }
  destruct (Nat.leb_spec DIRSIZ len) as [Hd|Hd]; (split; [|split; [|split; [lia|apply names_nil, skip_slashes_hd]]]).
  - rewrite En'. f_equal. assert (take DIRSIZ s = take DIRSIZ (first_word s)) as Et.
    { rewrite Hsuf at 1. rewrite take_app_le by lia. done. }
    rewrite Et. assert (length (take DIRSIZ (first_word s)) = DIRSIZ) as Htl by (rewrite length_take; lia).
    assert (list_inserts 0 (take DIRSIZ (first_word s)) name = take DIRSIZ (first_word s)) as ->.
    { apply list_eq. intros k. destruct (decide (k < DIRSIZ)%nat).
      - rewrite list_lookup_inserts by lia. f_equal. lia.
      - rewrite list_lookup_inserts_ge by lia. rewrite !lookup_ge_None_2 by lia. done. }
    unfold cname. rewrite <- (app_nil_r (take DIRSIZ (first_word s))) at 2. symmetry. apply cname_n_take; [|lia|by left].
    intros d Hin. apply (first_word_nz s). apply list_elem_of_lookup in Hin as [k [Hk _]%lookup_take_Some].
    by eapply list_elem_of_lookup_2.
  - by rewrite length_inserts.
  - rewrite En'. rewrite take_ge by lia. f_equal. symmetry. unfold cname.
    set (nm := <[len := 0]> (list_inserts 0 (first_word s) name)).
    assert (nm = first_word s ++ drop len nm) as ->.
    { rewrite <- (take_drop len nm) at 1. f_equal. unfold nm. rewrite take_insert_ge by lia. apply list_eq. intros k.
      destruct (decide (k < len)%nat).
      - rewrite lookup_take_lt by done. rewrite list_lookup_inserts by lia. f_equal. lia.
      - rewrite lookup_take_ge by lia. rewrite lookup_ge_None_2 by lia. done. }
    apply cname_n_take; [apply first_word_nz|lia|right].
    rewrite (drop_S nm 0 len); [done|]. unfold nm. apply list_lookup_insert_eq. rewrite length_inserts. lia.
  - by rewrite length_insert, length_inserts.
Qed.

(** ** The walk *)

Section walk.
Context (C : gmap Z (list Z)) (D : Z -> dinode).

(** The inode reached from inode [n] along the names [ns]; or, for [parent], the
    directory that holds the last of them. *)
Fixpoint walk (parent : bool) (n : Z) (ns : list (list Z)) : option Z :=
  match ns with
  | [] => if parent then None else Some n
  | nm :: ns =>
      if d_type (D n) =? T_DIR then
        if parent && bool_decide (ns = []) then Some n
        else match dlookup (fbytes C (D n)) nm with Some m => walk parent m ns | None => None end
      else None
  end.

(** Directories with links name inodes in use, with links.  A directory that was
    removed while a process has it open may name its old parent, and that one may
    be gone. *)
Definition tree_ok (SB : superblock) : Prop :=
  forall n, inum_ok SB n -> d_type (D n) = T_DIR -> d_nlink (D n) <> 0 -> dir_ok SB (fbytes C (D n)) /\
    forall nm m, dlookup (fbytes C (D n)) nm = Some m -> live (D m) /\ d_nlink (D m) <> 0.
End walk.

Definition plus1 (R : Z -> Z) (n m : Z) : Z := R m + (if m =? n then 1 else 0).

Section namex.
Context (cur : nat) (pd : Z) (SB : superblock) (fuel : nat) (bswtch : MF unit) (swtch : MI unit) `{DV : Devsw}.
Context (Hfuel : (0 < fuel)%nat) (G : geom SB).
Context (C : gmap Z (list Z)) (W : list Z) (D : Z -> dinode).
Context (Hf : fs_ok SB C D []) (Ho : on_disk SB C D []) (HW : (length W < 26)%nat) (Htree : tree_ok C D SB).
Notation wpa := (wpa cur pd SB).
Notation st ic := (AS ic [] C W).

(** No inode is locked, and inode [m] has [R m] references. *)
Record cached (ic : list inode) (R : Z -> Z) : Prop := Cached {
  ca_ok : ic_ok SB ic D;
  ca_unlocked ip x : ic !! ip = Some x -> sl_locked (i_lock x) = 0;
  ca_refs m : refs ic m = R m }.

(** Entry [ip] is inode [n]. *)
Definition holds (ic : list inode) (n : Z) (ip : nat) : Prop :=
  exists x, ic !! ip = Some x /\ i_inum x = n /\ 0 < i_ref x.

(** The entries in use by [R] stay where they are. *)
Definition pins (R : Z -> Z) (ic ic' : list inode) : Prop := forall m jp, holds ic m jp -> 0 < R m -> holds ic' m jp.

Lemma pins_refl R ic : pins R ic ic.
Proof. by intros m jp. Qed.

Lemma pins_trans R ic1 ic2 ic3 : pins R ic1 ic2 -> pins R ic2 ic3 -> pins R ic1 ic3.
Proof. intros H1 H2 m jp Hh Hm. by apply H2, Hm; apply H1. Qed.

(** An entry is replaced by one for the same inode. *)
Lemma holds_insert ic ip x y m jp :
  ic !! ip = Some x -> i_inum y = i_inum x -> i_ref y = i_ref x -> holds ic m jp -> holds (<[ip := y]> ic) m jp.
Proof.
  clear Hfuel HW. intros Hx Ei Er (z & Hz & Ez & Hrz). destruct (decide (jp = ip)) as [->|Hne]; [|exists z; by rewrite list_lookup_insert_ne].
  assert (z = x) as -> by congruence. exists y. split; [apply list_lookup_insert_eq; by eapply lookup_lt_Some|].
  split; [congruence|lia].
Qed.

Lemma wpa_put ic R n ip :
  cached ic (plus1 R n) -> holds ic n ip -> 0 <= R n < 2 ^ 31 - 1 -> (d_nlink (D n) <> 0 \/ 0 < R n) ->
  wpa (iput fuel bswtch swtch ip) (st ic) (fun _ a' => exists ic', a' = st ic' /\ cached ic' R /\
    pins R ic ic').
Proof.
  intros [Hok Hun Hrefs] (x & Hx & <- & Hr) HR Hln.
  assert (i_ref x = R (i_inum x) + 1) as Er.
  { rewrite <- (refs_entry SB ic D ip x Hok Hx Hr), Hrefs. unfold plus1. by rewrite Z.eqb_refl. }
  assert (orphan D x = false) as Horp.
  { unfold orphan. destruct Hln as [Hl|Hl].
    - rewrite (proj2 (Z.eqb_neq _ _) Hl). by rewrite andb_false_r.
    - rewrite (proj2 (Z.eqb_neq (i_ref x) 1)) by lia. apply andb_false_r. }
  eapply wpa_mono; [apply (wpa_iput cur pd SB fuel bswtch swtch Hfuel G (st ic) D ip x); try done; [lia|by apply (Hun ip)|by rewrite Horp]|].
  intros _ a' (D' & [_ _ Hic Hhd Hr' (y & Hy & Ey & Hly & Hry) Hoth _ _ Hfr]). rewrite Horp in Hfr. destruct Hfr as (-> & Eb & El).
  exists (a_ic a'). split; [destruct a'; simpl in *; by subst|]. split; [constructor; [done| |]|].
  - intros jp z Hz. destruct (decide (jp = ip)) as [->|Hne]; [congruence|]. rewrite Hoth in Hz by done. by apply (Hun jp).
  - intros m. rewrite Hr'. cbn [a_ic]. rewrite Hrefs. unfold plus1. destruct (_ =? _); lia.
  - intros m jp (z & Hz & Ez & Hrz) HRm. destruct (decide (jp = ip)) as [->|Hne]; [|exists z; by rewrite Hoth].
    assert (z = x) as -> by congruence. subst m. exists y. split_and!; [done|done|lia].
Qed.

(** The inode of entry [ip] is unlocked. *)
Lemma unlocked_cached ic R ip x :
  ic_ok SB ic D -> ic !! ip = Some x -> 0 < i_ref x ->
  (forall jp y, jp <> ip -> ic !! jp = Some y -> sl_locked (i_lock y) = 0) -> (forall m, refs ic m = R m) ->
  cached (<[ip := set_ilock (MkSleep 0 0) x]> ic) R.
Proof.
  intros Hok Hx Hr Hun Hrefs. constructor.
  - apply ic_insert; [done|]. by apply (ent_same SB ic D ip x); try done; [simpl; lia|apply (io_valid _ _ _ Hok ip x Hx Hr)].
  - intros jp y Hy. apply list_lookup_insert_Some in Hy as [(-> & <- & _)|(Hne & Hy)]; [done|]. by apply (Hun jp).
  - intros m. rewrite (refs_insert ic ip x _ m Hx). unfold contrib. simpl. rewrite Hrefs. lia.
Qed.

Lemma wpa_unlock_put ic R n ip x :
  ic_ok SB ic D -> ic !! ip = Some x -> i_inum x = n -> 0 < i_ref x -> i_lock x = MkSleep 1 pd ->
  (forall jp y, jp <> ip -> ic !! jp = Some y -> sl_locked (i_lock y) = 0) -> (forall m, refs ic m = plus1 R n m) ->
  0 <= R n < 2 ^ 31 - 1 -> (d_nlink (D n) <> 0 \/ 0 < R n) ->
  wpa (iunlockput fuel bswtch swtch ip) (st ic) (fun _ a' => exists ic', a' = st ic' /\ cached ic' R /\
    pins R ic ic').
Proof.
  intros Hok Hx En Hr Hlk Hun Hrefs HR Hln. assert (ip < length ic)%nat as Hlt by (by eapply lookup_lt_Some).
  unfold iunlockput. eapply wpa_bind; [by apply (wpa_iunlock cur pd SB (st ic) ip x)|]. intros _ ? ->.
  unfold set_ic. cbn [a_ic a_held a_blk a_log].
  eapply wpa_mono; [apply (wpa_put _ R n); [by apply unlocked_cached| |done|done]|].
  - eexists. split; [by apply list_lookup_insert_eq|]. done.
  - intros _ a' (ic' & -> & Hc & Hh). exists ic'. split; [done|]. split; [done|]. intros m jp (z & Hz & Ez & Hrz) HRm.
    apply Hh; [|done]. destruct (decide (jp = ip)) as [->|Hne].
    + assert (z = x) as -> by congruence. eexists. split; [by apply list_lookup_insert_eq|]. done.
    + exists z. by rewrite list_lookup_insert_ne.
Qed.

(** An inode cache that is not full: the inodes in use are those of [U]. *)
Lemma room_left ic (U : gset Z) :
  ic_ok SB ic D -> (forall m, 0 < refs ic m -> m ∈ U) -> (size U < NINODE)%nat -> exists ip x, ic !! ip = Some x /\ i_ref x = 0.
Proof.
  clear Hfuel HW. intros Hok HU Hsz. destruct (decide (Exists (fun x => i_ref x = 0) ic)) as [He|He].
  { apply Exists_exists in He as (x & [ip Hip]%list_elem_of_lookup & E). by exists ip, x. }
  exfalso. assert (forall ip x, ic !! ip = Some x -> 0 < i_ref x) as Hall.
  { intros ip x Hx. pose proof (io_ref _ _ _ Hok ip x Hx). destruct (decide (i_ref x = 0)); [|lia].
    destruct He. apply Exists_exists. exists x. split; [by eapply list_elem_of_lookup_2|done]. }
  assert (NoDup (i_inum <$> ic)) as Hnd.
  { apply NoDup_alt. intros ip jp n (x & -> & Hx)%list_lookup_fmap_Some (y & E & Hy)%list_lookup_fmap_Some.
    apply (io_uniq _ _ _ Hok ip jp x y Hx Hy); [by eapply Hall|by eapply Hall|done]. }
  assert (list_to_set (i_inum <$> ic) ⊆ U) as Hsub.
  { intros n Hn. apply elem_of_list_to_set, list_elem_of_fmap in Hn as (x & -> & [ip Hx]%list_elem_of_lookup). apply HU.
    rewrite (refs_entry SB ic D ip x Hok Hx); by eapply Hall. }
  apply subseteq_size in Hsub. rewrite size_list_to_set in Hsub by done. rewrite length_fmap, (io_len _ _ _ Hok) in Hsub. lia.
Qed.

(** The references [R] of the rest of the system. *)
Context (R : Z -> Z) (U : gset Z) (HR : forall m, 0 <= R m < 2 ^ 31 - 3) (HU : forall m, 0 < R m -> m ∈ U)
  (Hroom : (size U + 2 <= NINODE)%nat).

Lemma roomy_plus1 ic n : ic_ok SB ic D -> (forall m, refs ic m = plus1 R n m) -> roomy SB ic.
Proof.
  intros Hok Hrefs. split.
  - intros m _. rewrite Hrefs. unfold plus1. specialize (HR m). destruct (_ =? _); lia.
  - apply (room_left ic ({[n]} ∪ U)); [done| |].
    + intros m. rewrite Hrefs. unfold plus1. destruct (Z.eqb_spec m n) as [->|]; [set_solver|]. rewrite Z.add_0_r. set_solver.
    + pose proof (size_union_alt {[n]} U) as E. pose proof (subseteq_size (U ∖ {[n]}) U ltac:(set_solver)).
      rewrite size_singleton in E. lia.
Qed.

(** What [namex] promises: a reference to the inode the walk reaches. *)
Definition found (res : option Z) (r : option nat) (ic : list inode) : Prop :=
  match res with
  | Some m => exists ip, r = Some ip /\ holds ic m ip /\ cached ic (plus1 R m)
  | None => r = None /\ cached ic R
  end.

(** Inode [n], at entry [ip], is locked. *)
Record locked_in (ic : list inode) (n : Z) (ip : nat) (ic1 : list inode) : Prop := LockedIn {
  li_ok : ic_ok SB ic1 D;
  li_ent : exists x, ic1 !! ip = Some x /\ i_inum x = n /\ 0 < i_ref x /\ i_lock x = MkSleep 1 pd /\ i_dev x = 1 /\ i_di x = D n;
  li_other jp y : jp <> ip -> ic1 !! jp = Some y -> sl_locked (i_lock y) = 0;
  li_refs m : refs ic1 m = plus1 R n m;
  li_pins : pins R ic ic1 }.

Lemma wpa_lock_holds ic n ip :
  cached ic (plus1 R n) -> holds ic n ip -> live (D n) ->
  wpa (ilock fuel bswtch swtch (Some ip)) (st ic) (fun _ a' => exists ic1, a' = st ic1 /\ locked_in ic n ip ic1).
Proof.
  intros [Hok Hun Hrefs] (x & Hx & <- & Hr) Hl. assert (ip < length ic)%nat as Hlt by (by eapply lookup_lt_Some).
  eapply wpa_mono; [apply (wpa_ilock cur pd SB fuel bswtch swtch (st ic) D [] ip x); try done;
    [by apply (Hun ip)|apply not_elem_of_nil|cbn [a_log]; lia]|].
  intros _ ? ->. exists (<[ip := locked_at pd D x]> ic). split; [done|]. constructor.
  - by apply ic_locked.
  - eexists. split; [by apply list_lookup_insert_eq|]. destruct (io_dev _ _ _ Hok ip x Hx Hr). done.
  - intros jp y Hne Hy. rewrite list_lookup_insert_ne in Hy by done. by apply (Hun jp).
  - intros m. rewrite (refs_insert ic ip x _ m Hx). unfold contrib. simpl. rewrite Hrefs. lia.
  - intros m jp Hm _. by apply (holds_insert ic ip x).
Qed.

(** One step of the walk, with the directory locked: the next inode is taken and
    the directory is given back. *)
Lemma wpa_step {A} ic n ip ic1 name (stop : MI A) (go : nat -> MI A) (Q : A -> astate -> Prop) :
  locked_in ic n ip ic1 -> d_type (D n) = T_DIR -> d_nlink (D n) <> 0 ->
  match dlookup (fbytes C (D n)) (cname name) with
  | None => forall ic', cached ic' R -> pins R ic ic' -> wpa stop (st ic') Q
  | Some m => forall ic' jp, cached ic' (plus1 R m) -> holds ic' m jp -> pins R ic ic' -> wpa (go jp) (st ic') Q
  end ->
  wpa (next ← dirlookup fuel bswtch ip name;
       match next with
       | None => iunlockput fuel bswtch swtch ip;; stop
       | Some (next, _) => iunlockput fuel bswtch swtch ip;; go next
       end) (st ic1) Q.
Proof.
  intros [Hok (x & Hx & En & Hr & Hlk & Hd & Hdi) Hun Hrefs Hpin] Hty Hln HQ.
  destruct (io_dev _ _ _ Hok ip x Hx Hr) as [_ Hi]. rewrite En in Hi. destruct (Htree n Hi Hty Hln) as [Hdir Htgt].
  assert (entry SB (st ic1) D ip x) as He by (constructor; rewrite ?En; try done; unfold live; by rewrite Hty).
  eapply wpa_bind; [apply (wpa_dirlookup cur pd SB fuel bswtch Hfuel G (st ic1) D ip x); rewrite ?En; try done; by eapply roomy_plus1|].
  rewrite En. cbn [a_blk a_ic]. unfold dlookup in *. destruct (dslot_of (fbytes C (D n)) (cname name)) as [t|] eqn:Et.
  - intros r ? (jp & ic2 & -> & -> & Ht). set (m := de_inum (ent (fbytes C (D n)) t)) in *.
    cbn [fmap option_fmap option_map] in HQ. fold m in HQ.
    pose proof Ht as [Hok2 (y & Hy & Ey & Hry & _ & Hly) Hrefs2 Hoth].
    assert (exists x2, ic2 !! ip = Some x2 /\ i_inum x2 = n /\ 0 < i_ref x2 /\ i_lock x2 = MkSleep 1 pd) as (x2 & Hx2 & En2 & Hr2 & Hlk2).
    { destruct (decide (jp = ip)) as [->|Hne]; [|exists x; rewrite Hoth by done; by rewrite En].
      exists y. assert (n = m) as Enm; [|by rewrite (Hly x Hx), Enm].
      destruct (decide (n = m)) as [|Hnm]; [done|]. exfalso.
      by apply (took_elsewhere SB ic1 D m ip ic2 ip x Hok Ht Hx Hr ltac:(by rewrite En)). }
    assert (is_Some (ic1 !! jp)) as [y0 Hy0].
    { apply lookup_lt_is_Some. rewrite (io_len _ _ _ Hok), <- (io_len _ _ _ Hok2). by eapply lookup_lt_Some. }
    assert (0 <= plus1 R m n < 2 ^ 31 - 1 /\ R n <= plus1 R m n /\ 0 < plus1 R m m) as (Hb1 & Hb2 & Hb3).
    { unfold plus1. pose proof (HR n). pose proof (HR m). rewrite Z.eqb_refl. destruct (n =? m); lia. }
    eapply wpa_bind; [apply (wpa_unlock_put ic2 (plus1 R m) n ip x2); try done|].
    + intros kp z Hk Hz. destruct (decide (kp = jp)) as [->|Hkj]; [|rewrite Hoth in Hz by done; by apply (Hun kp)].
      assert (z = y) as -> by congruence. rewrite (Hly y0 Hy0). by apply (Hun jp).
    + intros k. rewrite Hrefs2, Hrefs. unfold plus1. lia.
    + by left.
    + intros _ ? (ic' & -> & Hc & Hh). apply HQ; [done|apply Hh; [by exists y|done]|]. intros k kp Hk HRk.
      apply Hh; [|unfold plus1; destruct (_ =? _); lia]. destruct (Hpin k kp Hk HRk) as (z & Hz & Ez & Hrz).
      destruct (decide (kp = jp)) as [->|Hkj]; [|exists z; by rewrite Hoth]. exists y. split; [done|]. split; [|done].
      destruct (decide (i_inum z = m)) as [|Hzm]; [congruence|]. by destruct (took_elsewhere SB ic1 D m jp ic2 jp z Hok Ht Hz Hrz Hzm).
  - intros r ? [-> ->]. cbn [fmap option_fmap option_map] in HQ. pose proof (HR n).
    eapply wpa_bind; [apply (wpa_unlock_put ic1 R n ip x); try done; [lia|by left]|]. intros _ ? (ic' & -> & Hc & Hh). apply HQ; [done|].
    by apply (pins_trans _ _ ic1).
Qed.

Lemma wpa_namex_loop k ic n ip path parent name :
  cached ic (plus1 R n) -> holds ic n ip -> live (D n) -> d_nlink (D n) <> 0 ->
  length name = DIRSIZ -> (length path < k)%nat ->
  wpa (namex_loop fuel bswtch swtch k ip path parent name) (st ic) (fun r a' => exists ic', a' = st ic' /\
    found (walk C D parent n (names path)) (fst r) ic' /\
    (parent = true -> fst r <> None -> last (names path) = Some (cname (snd r))) /\ length (snd r) = DIRSIZ /\ pins R ic ic').
Proof.
  revert ic n ip path name. induction k as [|k IH]; intros ic n ip path name Hc Hh Hl Hln Hnm Hk; [lia|].
  cbn [namex_loop]. pose proof (skipelem_names path name Hnm) as Hskip. pose proof (HR n) as HRn.
  destruct (skipelem path name) as [[rest name']|].
  2:{ rewrite Hskip. cbn [walk]. destruct parent.
      - eapply wpa_bind; [apply (wpa_put ic R n ip); try done; [lia|by left]|]. intros _ ? (ic' & -> & Hc' & Hp). apply wpa_ret.
        exists ic'. split; [done|]. split; [done|]. by simpl.
      - apply wpa_ret. exists ic. split; [done|]. split; [by exists ip|]. split; [done|]. split; [done|apply pins_refl]. }
  destruct Hskip as (-> & Hnm' & Hlt & Hend). cbn [walk].
  eapply wpa_bind; [by apply (wpa_lock_holds ic n ip)|]. intros _ ? (ic1 & -> & Hli).
  pose proof Hli as [Hok (x & Hx & En & Hr & Hlk & Hd & Hdi) Hun Hrefs Hpin].
  eapply wpa_bind; [by apply (wpa_iread cur pd SB (st ic1) ip x)|]. intros ? ? [-> ->]. rewrite Hdi.
  destruct (Z.eqb_spec (d_type (D n)) T_DIR) as [Hty|Hty]; cbn [negb].
  2:{ eapply wpa_bind; [apply (wpa_unlock_put ic1 R n ip x); try done; [lia|by left]|]. intros _ ? (ic' & -> & Hc' & Hp). apply wpa_ret.
      exists ic'. split; [done|]. split; [done|]. split; [done|]. split; [done|]. by apply (pins_trans _ _ ic1). }
  assert (parent && (hd 0 rest =? 0) = parent && bool_decide (names rest = [])) as ->.
  { f_equal. apply eq_bool_prop_intro. rewrite bool_decide_spec, Is_true_true, Z.eqb_eq. done. }
  destruct (parent && bool_decide (names rest = [])) eqn:Ep.
  - apply andb_true_iff in Ep as [-> Ep%bool_decide_eq_true].
    assert (ip < length ic1)%nat as Hip by (by eapply lookup_lt_Some).
    eapply wpa_bind; [by apply (wpa_iunlock cur pd SB (st ic1) ip x)|]. intros _ ? ->. apply wpa_ret.
    exists (<[ip := set_ilock (MkSleep 0 0) x]> ic1). split; [done|]. split; [|split; [by rewrite Ep|split; [done|]]].
    + exists ip. split; [done|]. split; [|by apply unlocked_cached]. eexists. split; [by apply list_lookup_insert_eq|]. done.
    + apply (pins_trans _ _ ic1); [done|]. intros m jp Hm _. by apply (holds_insert ic1 ip x).
  - apply (wpa_step ic n ip ic1 name'); [done|done|done|].
    destruct (Htree n) as [_ Htgt]; [rewrite <- En; by apply (io_dev _ _ _ Hok ip x)|done|done|].
    destruct (dlookup _ (cname name')) as [m|] eqn:Em.
    + intros ic' jp Hc' Hh' Hp'. destruct (Htgt _ _ Em) as [Hlm Hnl].
      eapply wpa_mono; [apply (IH ic' m jp rest name'); try done; lia|].
      intros r a' (ic2 & -> & Hfd & Hlast & Hlen & Hp). exists ic2. split; [done|]. split; [done|].
      split; [|split; [done|by apply (pins_trans _ _ ic')]]. intros -> Hr'. rewrite last_cons. by rewrite Hlast.
    + intros ic' Hc' Hp'. apply wpa_ret. exists ic'. split; [done|]. split; [done|]. by simpl.
Qed.

(** A reference is taken on the inode a path starts from. *)
Lemma took_cached ic n ip ic' :
  cached ic R -> took SB ic D n ip ic' -> cached ic' (plus1 R n) /\ holds ic' n ip /\ forall m jp, holds ic m jp -> holds ic' m jp.
Proof.
  clear Hfuel HW HR HU Hroom. intros [Hok Hun Hrefs] Ht. pose proof Ht as [Hok' (x & Hx & En & Hr & _ & Hlk) Hrefs' Hoth]. split; [|split; [by exists x|]].
  2:{ intros m jp (z & Hz & Ez & Hrz). destruct (decide (jp = ip)) as [->|Hne]; [|exists z; by rewrite Hoth]. exists x.
      split; [done|]. split; [|done]. destruct (decide (i_inum z = n)) as [|Hzn]; [congruence|].
      by destruct (took_elsewhere SB ic D n ip ic' ip z Hok Ht Hz Hrz Hzn). }
  constructor; [done| |].
  - intros jp y Hy. destruct (decide (jp = ip)) as [->|Hne]; [|rewrite Hoth in Hy by done; by apply (Hun jp)].
    assert (is_Some (ic !! ip)) as [y0 Hy0].
    { apply lookup_lt_is_Some. rewrite (io_len _ _ _ Hok), <- (io_len _ _ _ Hok'). by eapply lookup_lt_Some. }
    assert (y = x) as -> by congruence. rewrite (Hlk y0 Hy0). by apply (Hun ip).
  - intros m. rewrite Hrefs', Hrefs. done.
Qed.

(** The inode a path starts from: the root, or the current directory [c]. *)
Definition start (c : Z) (path : list Z) : Z := if hd 0 path =? slash then ROOTINO else c.

Lemma wpa_namex ic path parent name c :
  cached ic R -> length name = DIRSIZ -> live (D (start c path)) ->
  d_nlink (D (start c path)) <> 0 ->
  (hd 0 path <> slash -> exists cp, holds ic c cp /\ wpa mycwd (st ic) (fun v a' => v = cp /\ a' = st ic)) ->
  wpa (namex fuel bswtch swtch path parent name) (st ic) (fun r a' => exists ic', a' = st ic' /\
    found (walk C D parent (start c path) (names path)) (fst r) ic' /\
    (parent = true -> fst r <> None -> last (names path) = Some (cname (snd r))) /\ length (snd r) = DIRSIZ /\ pins R ic ic').
Proof.
  intros Hc Hnm Hl Hln Hcwd. pose proof Hc as [Hok _ Hrefs]. unfold namex.
  eapply (wpa_bind _ _ _ _ _ _ (fun ip a' => exists ic', a' = st ic' /\ took SB ic D (start c path) ip ic')).
  - unfold start in *. change (zc "/") with slash. destruct (Z.eqb_spec (hd 0 path) slash) as [E|E].
    + pose proof (ge_ninodes _ G). pose proof (HR ROOTINO). change ROOTDEV with 1.
      eapply wpa_mono; [apply (wpa_iget cur pd SB (st ic) D ROOTINO); cbn [a_ic]; [done|unfold inum_ok, ROOTINO; lia| |]|].
      * rewrite Hrefs. lia.
      * right. apply (room_left ic U); [done|intros m; rewrite Hrefs; apply HU|lia].
      * intros ip a' (ic' & -> & Ht). by exists ic'.
    + destruct (Hcwd E) as (cp & (x & Hx & <- & Hr) & Hw). pose proof (HR (i_inum x)).
      eapply wpa_bind; [apply Hw|]. intros ? ? [-> ->].
      eapply wpa_mono; [apply (wpa_idup cur pd SB (st ic) D cp x); cbn [a_ic]; [done|done|done|rewrite Hrefs; lia]|].
      intros ? ? (-> & ic' & -> & Ht). by exists ic'.
  - intros ip ? (ic' & -> & Ht). destruct (took_cached _ _ _ _ Hc Ht) as (Hc' & Hh & Hp).
    eapply wpa_mono; [apply wpa_namex_loop; try done; lia|]. intros r a' (ic2 & -> & H1 & H2 & H3 & H4). exists ic2.
    split_and!; [done|done|done|done|]. apply (pins_trans _ _ ic'); [|done]. intros m jp Hm _. by apply Hp.
Qed.
End namex.
