(* ===== verification/Xv6Image.v ===== *)
(** * A small xv6 file system (lab2/fs.h)

    A disk of 44 blocks with a root directory and one file of five bytes, and the
    proof that it is well formed: the concrete file system of the examples. *)

From S2P Require Import Prelude CMem Xv6Lock Xv6Proc Xv6World Xv6Bio Xv6Log Xv6Crash Xv6Reserve Xv6Txn Xv6Inode Xv6Disk Xv6Iops Xv6Content Xv6Icache.
From stdpp Require Import base numbers option list gmap strings.
Open Scope Z_scope.

Definition ex_sb : superblock := MkSuper 44 10 7 30 2 32 33.

Definition ex_root : dinode := MkDinode T_DIR 0 0 1 48 (34 :: replicate 12 0).
Definition ex_file : dinode := MkDinode T_FILE 0 0 1 5 (35 :: replicate 12 0).
Definition no_inode : dinode := MkDinode 0 0 0 0 0 (replicate 13 0).

Definition ex_inodes (i : Z) : dinode :=
  if i =? 1 then ex_root else if i =? 2 then ex_file else no_inode.

Definition block_of_bytes (l : list Z) : list Z := l ++ replicate (512 - length l) 0.
Definition ex_super : list Z :=
  put32 (put32 (put32 (put32 (put32 (put32 (put32 (replicate 512 0) 0 44) 4 10) 8 7) 12 30) 16 2) 20 32) 24 33.
Definition ex_iblock : list Z := put_dinode ex_file (put_dinode ex_root (replicate 512 0) 64) 128.
Definition ex_bitmap : list Z := block_of_bytes [255; 255; 255; 255; 15].
Definition ex_dir : list Z := mk_dirent 1 [46] ++ mk_dirent 1 [46; 46] ++ mk_dirent 2 [97].
Definition ex_hello : list Z := [104; 101; 108; 108; 111].

Definition ex_image : list (list Z) :=
  [replicate 512 0; ex_super] ++ replicate 30 (replicate 512 0) ++
  [ex_iblock; ex_bitmap; block_of_bytes ex_dir; block_of_bytes ex_hello] ++ replicate 8 (replicate 512 0).

Definition ex_blocks : gmap Z (list Z) := disk_map ex_image.

Lemma ex_geom : geom ex_sb.
Proof. constructor; vm_compute; (split; congruence) || congruence. Qed.

(** An inode with one direct block. *)
Lemma slot_single C x b k : d_addrs x = b :: replicate 12 0 -> slot C x k = if (k =? 0)%nat then b else 0.
Proof.
  intros E. unfold slot. rewrite E. change (nth NDIRECT (b :: replicate 12 0) 0) with 0. cbn [Z.eqb].
  destruct k as [|k]; [done|]. cbn [Nat.eqb]. destruct (_ <=? _)%nat; [|done].
  change (nth (S k) (b :: replicate 12 0) 0) with (nth k (replicate 12 0) 0).
  rewrite nth_lookup. destruct (replicate 12 0 !! k) eqn:E'; [|done]. by apply lookup_replicate in E' as [-> _].
Qed.

Lemma ex_live i : live (ex_inodes i) ->
  (i = 1 /\ ex_inodes i = ex_root) \/ (i = 2 /\ ex_inodes i = ex_file).
Proof.
  unfold ex_inodes. destruct (Z.eqb_spec i 1); [by left|]. destruct (Z.eqb_spec i 2); [by right|]. by intros [].
Qed.

Lemma ex_slot C i k : live (ex_inodes i) -> slot C (ex_inodes i) k = if (k =? 0)%nat then 33 + i else 0.
Proof. intros [[-> ->]|[-> ->]]%ex_live; by apply slot_single. Qed.

Lemma ex_free b : blk_ok ex_sb b -> free ex_sb ex_blocks b = (36 <=? b).
Proof.
  intros Hb. assert (forallb (fun b => Bool.eqb (free ex_sb ex_blocks b) (36 <=? b)) (seqZ 0 44) = true) as H by (vm_compute; done).
  rewrite forallb_forall in H. apply Bool.eqb_prop, H. apply list_elem_of_In, elem_of_seqZ. unfold blk_ok in Hb. simpl in Hb. lia.
Qed.

Lemma ex_owns b : b <> 0 -> owns ex_sb ex_blocks ex_inodes b <-> b = 34 \/ b = 35.
Proof.
  intros Hb. split.
  - intros (i & k & _ & Hl & _ & E). rewrite ex_slot in E by done. destruct (k =? 0)%nat; [|done].
    apply ex_live in Hl as [[-> _]|[-> _]]; [left|right]; lia.
  - intros [->| ->]; [exists 1, 0%nat|exists 2, 0%nat]; (split_and!; [vm_compute; split; congruence|done|unfold NSLOT; lia|reflexivity]).
Qed.

Lemma ex_di_ok i : di_ok (ex_inodes i).
Proof.
  unfold ex_inodes. destruct (i =? 1); [|destruct (i =? 2)]; (constructor; simpl; try lia; try done; intros b Hb;
    repeat (apply elem_of_cons in Hb as [->|Hb]; [lia|]); by apply elem_of_nil in Hb).
Qed.

Lemma ex_fs_ok : fs_ok ex_sb ex_blocks ex_inodes [].
Proof.
  constructor.
  - intros n Hn. unfold ex_blocks. rewrite disk_map_home by (unfold fblk in Hn; simpl in Hn; lia).
    assert (forallb (fun d => (length d =? 512)%nat) ex_image = true) as H by (vm_compute; done).
    destruct (ex_image !! Z.to_nat n) as [d|] eqn:E.
    + exists d. split; [done|]. rewrite forallb_forall in H. apply Nat.eqb_eq, H, list_elem_of_In. by eapply list_elem_of_lookup_2.
    + apply lookup_ge_None in E. unfold fblk in Hn. simpl in Hn. change (length ex_image) with 44%nat in E. lia.
  - intros i _. apply ex_di_ok.
  - intros i k _ Hl _. rewrite ex_slot by done. destruct (k =? 0)%nat; [|done]. intros _. unfold dstart. simpl.
    apply ex_live in Hl as [[-> _]|[-> _]]; lia.
  - intros i j k l _ _ Hi Hj _ _. rewrite !ex_slot by done. destruct (Nat.eqb_spec k 0); [|done]. destruct (Nat.eqb_spec l 0); lia.
  - intros b Hb. rewrite (ex_free b Hb), Z.leb_le. unfold dstart. simpl. split.
    + intros H. split_and!; [lia|apply not_elem_of_nil|]. intros [?|?]%ex_owns; lia.
    + intros (H & _ & Hno). destruct (decide (b = 34 \/ b = 35)) as [E|]; [|lia]. destruct Hno. apply ex_owns; [lia|done].
  - intros b Hb. by apply elem_of_nil in Hb.
  - constructor.
  - intros i _ Hl. split; [apply ex_live in Hl as [[_ ->]|[_ ->]]; vm_compute; congruence|].
    intros bn Hbn. assert (bn = 0%nat) as -> by (apply ex_live in Hl as [[_ E]|[_ E]]; rewrite E in Hbn; simpl in Hbn; change BSIZE with 512 in Hbn; lia).
    rewrite ex_slot by done. apply ex_live in Hl as [[-> _]|[-> _]]; done.
Qed.

Lemma ex_on_disk : on_disk ex_sb ex_blocks ex_inodes [].
Proof.
  intros i Hi _. unfold inum_ok in Hi. simpl in Hi.
  assert (i = 1 \/ i = 2 \/ i = 3 \/ i = 4 \/ i = 5 \/ i = 6) as Hc by lia.
  destruct Hc as [->|[->|[->|[->|[->| ->]]]]]; vm_compute; reflexivity.
Qed.

(** The cache of inodes, with references to the root and to the file. *)
Definition ino_free : inode := MkInode 0 0 0 (MkSleep 0 0) 0 no_inode.
Definition ex_icache (rn fn : Z) : list inode :=
  MkInode 1 1 rn (MkSleep 0 0) 0 no_inode :: MkInode 1 2 fn (MkSleep 0 0) 0 no_inode :: replicate 48 ino_free.

Lemma ex_icache_ok rn fn : 0 <= rn -> 0 <= fn -> ic_ok ex_sb (ex_icache rn fn) ex_inodes.
Proof.
  intros H1 H2. assert (forall ip x, ex_icache rn fn !! ip = Some x ->
    (ip = 0%nat /\ x = MkInode 1 1 rn (MkSleep 0 0) 0 no_inode) \/ (ip = 1%nat /\ x = MkInode 1 2 fn (MkSleep 0 0) 0 no_inode) \/
    x = ino_free) as Hl.
  { intros [|[|ip]] x; cbn [ex_icache lookup list_lookup]; [intros [= <-]; by left|intros [= <-]; right; by left|].
    intros [-> _]%lookup_replicate. by right; right. }
  constructor.
  - done.
  - intros ip x [[_ ->]|[[_ ->]| ->]]%Hl; simpl; lia.
  - intros ip x [[_ ->]|[[_ ->]| ->]]%Hl; simpl; [|unfold inum_ok; simpl..]; try lia; intros _; split; (unfold inum_ok; simpl; lia).
  - intros ip x [[_ ->]|[[_ ->]| ->]]%Hl; simpl; by left.
  - intros ip x [[_ ->]|[[_ ->]| ->]]%Hl; done.
  - intros ip jp x y [[-> ->]|[[-> ->]| ->]]%Hl [[-> ->]|[[-> ->]| ->]]%Hl; simpl; intros; done || lia.
Qed.

(** The block layer after the boot. *)
Definition ex_fs : fs := cache0 ex_image (MkLog 2 30 0 false 1 (MkHeader 0 (replicate LOGSIZE 0))).

Lemma ex_idle pd : idle pd 2 30 ex_fs ex_blocks.
Proof.
  constructor.
  - apply cache0_ok.
  - by eexists.
  - constructor; simpl; try lia; [intros b Hb; by apply elem_of_nil in Hb|constructor].
  - intros n d. apply disk_map_lookup.
  - intros n (i & b & Hb & _ & Hd). apply lookup_replicate in Hb as [-> _]. done.
  - reflexivity.
  - exists (replicate 512 0). split_and!; [reflexivity|reflexivity|vm_compute; reflexivity].
  - exists ex_super. split_and!; [reflexivity|vm_compute; reflexivity..].
  - split; [simpl; lia|left; lia].
Qed.

Definition ex_ist (rn fn : Z) : ist := MkIst (ex_icache rn fn) ex_sb ex_fs.
