(* ===== verification/Xv6Stuck.v ===== *)
(** * A directory that waits for itself (lab2/fs.c, sleeplock.c)

    [dirlink] gives the inode of an existing name back with [iput], which takes
    the lock of that inode.  When the name stands for the directory itself, as
    "." does, the caller already holds this lock and waits for it for ever. *)

From S2P Require Import Prelude CMem Xv6Lock Xv6Proc Xv6World Xv6Bio Xv6Log Xv6Txn Xv6Inode Xv6Disk Xv6Iops Xv6Content Xv6Wrote Xv6Writei Xv6Icache Xv6Trunc Xv6Dir Xv6Dirops.
From stdpp Require Import base numbers option list gmap strings.
Open Scope Z_scope.

(** ** Runs that keep a predicate, and runs that never return *)

Section runs.
Context {R : Type} (P : R -> Prop).

Definition stays {A} (m : M (xst R) A) : Prop := forall s v s', P (x_rest s) -> m s = Ok v s' -> P (x_rest s').
Definition never {A} (m : M (xst R) A) : Prop := forall s v s', P (x_rest s) -> m s <> Ok v s'.

Lemma stays_ret {A} (v : A) : stays (mret v).
Proof. intros s w s' HP [= _ <-]. done. Qed.

Lemma stays_panic {A} msg : stays (A := A) (panic msg).
Proof. intros s w s' HP. done. Qed.

Lemma stays_bind {A B} (m : M (xst R) A) (f : A -> M (xst R) B) : stays m -> (forall v, stays (f v)) -> stays (m ≫= f).
Proof.
  intros Hm Hf s v s' HP E. unfold mbind, M_bind in E. destruct (m s) as [w s1| |] eqn:E1; [|done|done].
  eapply Hf; [|exact E]. by eapply Hm.
Qed.

Lemma stays_lift {A} (m : M hw A) : stays (lift m).
Proof. intros s v s' HP. unfold lift. simpl. destruct (m (x_hw s)); [|done|done]. intros [= _ <-]. done. Qed.

Lemma stays_pget i : stays (pget i).
Proof. intros s v s' HP. unfold pget. destruct (_ !! i); [|done]. by intros [= _ <-]. Qed.

Lemma stays_pupd i f : stays (pupd i f).
Proof. intros s v s' HP. unfold pupd. destruct (_ !! i); [|done]. intros [= _ <-]. done. Qed.

Lemma stays_gets {A} (f : xst R -> A) : stays (gets f).
Proof. intros s v s' HP. unfold gets. by intros [= _ <-]. Qed.

Lemma never_first {A B} (m : M (xst R) A) (f : A -> M (xst R) B) : never m -> never (m ≫= f).
Proof.
  intros Hm s v s' HP E. unfold mbind, M_bind in E. destruct (m s) as [w s1| |] eqn:E1; [|done|done]. by eapply Hm.
Qed.

Lemma never_then {A B} (m : M (xst R) A) (f : A -> M (xst R) B) : stays m -> (forall v, never (f v)) -> never (m ≫= f).
Proof.
  intros Hm Hf s v s' HP E. unfold mbind, M_bind in E. destruct (m s) as [w s1| |] eqn:E1; [|done|done].
  eapply Hf; [|exact E]. by eapply Hm.
Qed.
End runs.

Create HintDb stays.
#[export] Hint Resolve stays_ret stays_panic stays_lift stays_pget stays_pupd stays_gets : stays.

Ltac stays_tac :=
  repeat (intros; first [apply stays_bind | progress auto with stays
    | match goal with |- stays _ (if ?b then _ else _) => destruct b end
    | match goal with |- stays _ (match ?o with Some _ => _ | None => _ end) => destruct o end]).

Section sleeping.
Context {R : Type} (P : R -> Prop) (swtch : M (xst R) unit) (Hsw : stays P swtch).

Lemma stays_sched : stays P (sched swtch).
Proof. unfold sched. stays_tac. Qed.

Lemma stays_sleep ch lk : stays P (sleep swtch ch lk).
Proof. unfold sleep, sleep_enter. stays_tac; apply stays_sched. Qed.
End sleeping.

(** A sleep lock that stays locked is never taken. *)
Lemma acquiresleep_never {R} (l : slref R) fuel swtch :
  let P := fun r => exists k, sl_get l r = Some k /\ sl_locked k <> 0 in
  stays P swtch -> never P (acquiresleep fuel swtch l).
Proof.
  intros P Hsw. unfold acquiresleep. apply never_then; [apply stays_lift|]. intros _. apply never_first.
  induction fuel as [|n IH]; [by intros ???|]. cbn [wait_unlocked].
  intros s v s' (k & Hk & Hl). unfold mbind, M_bind, sl_read. rewrite Hk, (proj2 (Z.eqb_neq _ 0)) by done. intros E.
  apply (never_then P (sleep swtch (sl_chan l) (sl_spin l)) (fun _ => wait_unlocked n swtch l) (stays_sleep P swtch Hsw _ _) (fun _ => IH) s v s');
    [by exists k|exact E].
Qed.

(** Entry [ip] of the inode cache is locked. *)
Definition ino_locked (ip : nat) (r : ist) : Prop :=
  exists k, sl_get (ino_slock ip) r = Some k /\ sl_locked k <> 0.

Lemma iput_never fuel bswtch swtch ip : stays (ino_locked ip) swtch -> never (ino_locked ip) (iput fuel bswtch swtch ip).
Proof. intros Hsw. unfold iput. apply never_first. by apply acquiresleep_never. Qed.

(** A second reference to an inode is taken at the entry it has. *)
Lemma took_same SB ic D ip ic' jp y :
  took SB ic D (i_inum y) ip ic' -> ic !! jp = Some y -> 0 < i_ref y ->
  ip = jp /\ exists z, ic' !! jp = Some z /\ i_lock z = i_lock y.
Proof.
  intros [Hok (z & Hz & Ez & Hrz & _ & Hlk) _ Hoth] Hy Hr. assert (ip = jp) as ->.
  { destruct (decide (ip = jp)) as [|Hne]; [done|]. apply (io_uniq _ _ _ Hok ip jp z y); [done| |done|done|done].
    rewrite Hoth; [done|]. congruence. }
  split; [done|]. exists z. split; [done|]. by apply Hlk.
Qed.

(** C28: [dirlink] of a name that stands for the directory itself, as "." does,
    never returns, whatever the other processes do short of releasing the lock
    this process holds: [iput] waits for the lock of the directory, which the
    caller of [dirlink] has taken. *)
Theorem dirlink_self_stuck cur pd SB fuel bswtch swtch `{DV : Devsw} a D dp x name inum s :
  (0 < fuel)%nat -> geom SB -> fs_ok SB (a_blk a) D [] -> entry SB a D dp x -> a_held a = [] -> (length (a_log a) < 26)%nat ->
  d_type (D (i_inum x)) = T_DIR -> ic_ok SB (a_ic a) D -> roomy SB (a_ic a) -> 0 < i_ref x -> sl_locked (i_lock x) <> 0 ->
  let f := fbytes (a_blk a) (D (i_inum x)) in
  dir_ok SB f -> dlookup f (cname name) = Some (i_inum x) -> stays (ino_locked dp) swtch ->
  world (Some cur) pd [] s -> aok pd SB a (x_rest s) ->
  forall v s', dirlink fuel bswtch swtch dp name inum s <> Ok v s'.
Proof.
  intros Hfuel G Hf He Hh Hlog Hty Hok Hroom Hr Hlk f Hdir Hself Hsw Hw Ha v s' E.
  pose proof (wpa_dirlookup cur pd SB fuel bswtch Hfuel G a D dp x Hf He Hh Hlog Hty Hdir name Hok Hroom
    (x_rest s) Ha s Hw eq_refl) as H. unfold dirlink in E. unfold mbind, M_bind in E. unfold wp in H. unfold dlookup in Hself.
  destruct (dirlookup fuel bswtch dp name s) as [r1 s1| |]; [|done|done].
  destruct H as (H' & _ & _ & _ & a1 & Ha1 & H). fold f in H. destruct (dslot_of f (cname name)) as [t|]; [|done].
  destruct H as (ip & ic' & -> & -> & Ht). injection Hself as Et. rewrite Et in Ht.
  destruct (took_same SB (a_ic a) D ip ic' dp x Ht (en_ic _ _ _ _ _ He) Hr) as (-> & z & Hz & Elk).
  apply (never_first (ino_locked dp) (iput fuel bswtch swtch dp) (fun _ => mret (-1)) (iput_never fuel bswtch swtch dp Hsw) s1 v s');
    [|exact E].
  exists (i_lock z). split; [simpl; rewrite (ao_ic _ _ _ _ Ha1); simpl; by rewrite Hz|by rewrite Elk].
Qed.
