(* ===== verification/Xv6Syscall.v ===== *)
(** * System calls on files as transactions (lab2/file.c, fs.c, log.c)

    A system call that changes the file system runs between [begin_op] and
    [end_op].  [atomic] is what this gives it: when the machine stops after any of
    its disk writes, the next boot finds the file system before the call or the
    one after it.  The loop body of [filewrite] is such a call; it logs at most
    [MAXOPBLOCKS] blocks. *)

From S2P Require Import Prelude CMem Xv6Lock Xv6Proc Xv6World Xv6File Xv6Bio Xv6Log Xv6Crash Xv6Reserve Xv6Txn Xv6Inode Xv6Disk Xv6Iops Xv6Content Xv6Wrote Xv6Writei Xv6Icache Xv6Trunc Xv6Image.
From stdpp Require Import base numbers option list gmap strings.
Open Scope Z_scope.

#[local] Opaque Nat.div Nat.modulo.

(** The body of the loop of [filewrite]: [n1] bytes of [addr] at offset [off] of
    the inode [ip]; the result of [writei] and the new [f->off]. *)
Definition write_chunk (fuel : nat) (bswtch : MF unit) (swtch : MI unit) `{DV : Devsw}
    (ip : nat) (addr : list Z) (off n1 : Z) : MI (Z * Z) :=
  bl (begin_op bswtch fuel);;
  ilock fuel bswtch swtch (Some ip);;
  r ← writei fuel bswtch ip addr off n1;
  let off := if 0 <? r then u32 (off + r) else off in
  iunlock (Some ip);;
  bl (end_op fuel bswtch);;
  mret (r, off).

(** The blocks on the disk. *)
Definition contents (r : ist) : gmap Z (list Z) := disk_map (disk (blk r)).
Definition file_of (r : ist) (D : Z -> dinode) (i : Z) : list Z := fbytes (contents r) (D i).

Section agree.
Context (SB : superblock) (G : geom SB).

(** The file system is in the blocks after the log. *)
Lemma nfree_agree C C' : (forall n, fblk SB n -> C' !! n = C !! n) -> nfree SB C' = nfree SB C.
Proof.
  intros Hag. pose proof (geom_facts SB G) as Hg. apply nfree_ext. intros b Hb. unfold free. rewrite Hag; [done|].
  destruct (BBLOCK_eq SB G b Hb). unfold fblk. lia.
Qed.

Lemma fs_ok_agree C C' D :
  fs_ok SB C D [] -> (forall n, fblk SB n -> C' !! n = C !! n) ->
  fs_ok SB C' D [] /\ forall i, inum_ok SB i -> live (D i) -> keeps C (D i) C' (D i).
Proof.
  intros Hf Hag. pose proof (geom_facts SB G) as Hg. apply (fs_ok_frame SB C D [] C' []); try done.
  - intros b Hb Ho. apply Hag. destruct (owns_range SB C D [] b Hf Ho Hb). unfold fblk. lia.
  - intros n Hn. rewrite Hag by done. by apply (fo_blk _ _ _ _ Hf).
  - intros b Hb. rewrite <- (fo_free _ _ _ _ Hf b Hb). unfold free. by rewrite Hag by (by apply bitmap_blk).
  - intros b Hb. by apply elem_of_nil in Hb.
  - apply NoDup_nil_2.
Qed.

Lemma on_disk_agree C C' D :
  on_disk SB C D [] -> (forall n, fblk SB n -> C' !! n = C !! n) -> on_disk SB C' D [].
Proof. intros Ho Hag. apply (on_disk_frame SB C D [] C' Ho). intros i Hi. apply Hag. by apply inode_blk. Qed.

Lemma fbytes_agree C C' D i :
  fs_ok SB C D [] -> (forall n, fblk SB n -> C' !! n = C !! n) -> inum_ok SB i -> live (D i) ->
  fbytes C' (D i) = fbytes C (D i).
Proof. intros Hf Hag Hi Hl. destruct (fs_ok_agree C C' D Hf Hag) as [_ Hk]. by apply (keeps_bytes SB C D [] C' i), Hk. Qed.
End agree.

Section syscall.
Context (cur : nat) (pd : Z) (SB : superblock) (fuel : nat) (bswtch : MF unit) (swtch : MI unit) `{DV : Devsw}.
Context (Hfuel : (0 < fuel)%nat) (G : geom SB).
Notation wpa := (wpa cur pd SB).
Notation wpi := (wpx (R := ist) (Some cur) pd).
Notation st := (sb_logstart SB).
Notation z := (sb_nlog SB).

(** Between system calls the inodes [D] are those of the disk. *)
Record fs_idle (r : ist) (D : Z -> dinode) : Prop := FsIdle {
  fi_sb : sb r = SB;
  fi_len : Z.of_nat (length (disk (blk r))) = sb_size SB;
  fi_idle : idle pd st z (blk r) (contents r);
  fi_ok : fs_ok SB (contents r) D [];
  fi_disk : on_disk SB (contents r) D [];
  fi_ic : ic_ok SB (icache r) D }.

(** The disk [d] has the file system of [r]. *)
Definition holds_fs (d : gmap Z (list Z)) (r : ist) (D : Z -> dinode) : Prop :=
  fs_ok SB d D [] /\ on_disk SB d D [] /\
  forall i, inum_ok SB i -> live (D i) -> fbytes d (D i) = file_of r D i.

(** Whichever of the writes of a call reach the disk, all of them or none count. *)
Definition atomic (r : ist) (D : Z -> dinode) (r' : ist) (D' : Z -> dinode) : Prop :=
  exists W c, writes (blk r') = writes (blk r) ++ W /\ (length W <= 2 * Z.to_nat MAXOPBLOCKS + 2)%nat /\
    (W <> [] -> c < length W)%nat /\
    forall k, wpx (Some cur) pd [] (fs0 (apply_writes (take k W) (disk (blk r)))) (binit;; initlog fuel bswtch ROOTDEV)
      (fun _ _ r2 => if (k <=? c)%nat then holds_fs (disk_map (disk r2)) r D else holds_fs (disk_map (disk r2)) r' D').

Lemma fblk_home n : fblk SB n -> home st z (sb_size SB) n.
Proof. intros Hn. by apply (home_block SB G n). Qed.

Lemma agree_holds C d r D :
  fs_ok SB C D [] -> on_disk SB C D [] -> (forall n, fblk SB n -> d !! n = C !! n) ->
  (forall i, inum_ok SB i -> live (D i) -> file_of r D i = fbytes C (D i)) -> holds_fs d r D.
Proof.
  intros Hf Ho Hag Hfi. split; [by apply (fs_ok_agree SB G C)|]. split; [by apply (on_disk_agree SB G C)|].
  intros i Hi Hl. rewrite Hfi by done. by apply (fbytes_agree SB G C).
Qed.

(** Inside the transaction. *)
Lemma wpi_begin {B} r D (f : unit -> MI B) Q :
  fs_idle r D ->
  (forall r1, aok pd SB (AS (icache r) [] (contents r) []) r1 -> disk (blk r1) = disk (blk r) -> writes (blk r1) = writes (blk r) ->
     l_outstanding (log (blk r1)) = 1 -> wpi [] r1 (f tt) Q) ->
  wpi [] r (bl (begin_op bswtch fuel) ≫= f) Q.
Proof.
  intros [Hsb Hlen Hid Hf Ho Hic] Hk. eapply wpx_bind; [apply wpx_bl; by apply (wpf_tx_begin pd st z cur)|].
  intros [] ? ? (b & (-> & Hx & [Hd Hw] & Hout) & ->). apply Hk; try done. constructor; try done. simpl. by rewrite Hd.
Qed.

Lemma wpi_run {A B} (m : MI A) (f : A -> MI B) a r Q1 Q :
  aok pd SB a r -> wpa m a Q1 ->
  (forall v a' r', aok pd SB a' r' -> quiet (blk r) (blk r') -> Q1 v a' -> wpi [] r' (f v) Q) -> wpi [] r (m ≫= f) Q.
Proof. intros Ha Hm Hf. eapply wpx_bind; [by apply Hm|]. intros v ? r' (-> & Hq & a' & Ha' & HQ). by eapply Hf. Qed.

(** The end of the transaction, in a state [r1] that [begin_op] and the body
    reached from [r]. *)
Lemma wpi_end {B} r D r1 a D' (f : unit -> MI B) Q :
  fs_idle r D -> aok pd SB a r1 -> disk (blk r1) = disk (blk r) -> writes (blk r1) = writes (blk r) ->
  l_outstanding (log (blk r1)) = 1 ->
  a_held a = [] -> (length (a_log a) <= Z.to_nat MAXOPBLOCKS)%nat ->
  fs_ok SB (a_blk a) D' [] -> on_disk SB (a_blk a) D' [] -> ic_ok SB (a_ic a) D' ->
  (forall r', fs_idle r' D' -> icache r' = a_ic a -> atomic r D r' D' ->
     (forall i, inum_ok SB i -> live (D' i) -> file_of r' D' i = fbytes (a_blk a) (D' i)) ->
     nfree SB (contents r') = nfree SB (a_blk a) -> wpi [] r' (f tt) Q) ->
  wpi [] r1 (bl (end_op fuel bswtch) ≫= f) Q.
Proof.
  intros [Hsb Hlen Hid Hf Ho Hic] [Hic1 Hsb1 Hx Hlen1] Hd Hw Hout Hh HS Hf' Ho' Hic' Hk. rewrite Hh in Hx.
  assert (Z.to_nat MAXOPBLOCKS = 10%nat) as EM by done. rewrite EM in HS.
  eapply wpx_bind; [apply wpx_bl; apply (wpf_tx_end pd st z cur fuel bswtch (blk r1) (a_blk a) (a_log a)); try done; unfold NBUF; lia|].
  intros [] ? ? (b & (-> & [Hid' Hhome Hlen' (W & HW & HWl & HWp & Hcr)]) & ->).
  rewrite Hlen1 in Hhome, Hcr. assert (forall n, fblk SB n -> disk_map (disk b) !! n = a_blk a !! n) as Hag.
  { intros n Hn. by apply Hhome, fblk_home. }
  assert (forall i, inum_ok SB i -> live (D' i) -> fbytes (disk_map (disk b)) (D' i) = fbytes (a_blk a) (D' i)) as Hfb.
  { intros i Hi Hl. by apply (fbytes_agree SB G (a_blk a)). }
  apply Hk; [|exact Hic1| |exact Hfb|by apply (nfree_agree SB G)].
  - constructor; unfold contents; cbn [sb blk icache with_blk];
      [exact Hsb1|rewrite Hlen'; exact Hlen1|exact Hid'|by apply (fs_ok_agree SB G (a_blk a))|by apply (on_disk_agree SB G (a_blk a))|
       rewrite Hic1; exact Hic'].
  - exists W, (length (a_log a)). split; [cbn [blk with_blk]; by rewrite HW, Hw|]. split; [rewrite EM; lia|]. split.
    + intros Hne. destruct (decide (a_log a = [])) as [->|E]; [|exact (HWp E)].
      destruct W; [destruct (Hne eq_refl)|apply Nat.lt_0_succ].
    + intros k. rewrite Hd in Hcr. eapply wpx_mono; [apply (Hcr k)|]. intros ? ? r2 Hr2.
      destruct (k <=? length (a_log a))%nat.
      * apply (agree_holds (contents r)); [done|done|intros n Hn; by apply Hr2, fblk_home|done].
      * apply (agree_holds (a_blk a)); [done|done|intros n Hn; by apply Hr2, fblk_home|done].
Qed.

(** ** [filewrite] *)

Lemma chunk_touched off n : (n <= write_max)%nat -> (length (touched off n) <= 4)%nat.
Proof.
  intros Hn. unfold write_max in Hn. unfold touched. destruct (Nat.eqb_spec n 0); [simpl; lia|]. rewrite length_seq.
  pose proof (Nat.div_mod_eq off 512). pose proof (Nat.mod_upper_bound off 512 ltac:(lia)).
  pose proof (Nat.div_mod_eq (off + n - 1) 512). pose proof (Nat.mod_upper_bound (off + n - 1) 512 ltac:(lia)). lia.
Qed.

(** A chunk of [filewrite] costs its blocks, of which the first is new only when
    the chunk starts at a block boundary. *)
Lemma chunk_cost C D i off n :
  fs_ok SB C D [] -> inum_ok SB i -> live (D i) -> (off <= length (fbytes C (D i)))%nat -> (n <= write_max)%nat ->
  (cost C (D i) (touched off n) <= 7)%nat.
Proof.
  intros Hf Hi Hl Hoff Hn. unfold write_max in Hn. rewrite length_fbytes in Hoff. unfold touched.
  destruct (Nat.eqb_spec n 0); [simpl; lia|].
  pose proof (Nat.div_mod_eq off 512) as H1. pose proof (Nat.mod_upper_bound off 512 ltac:(lia)).
  pose proof (Nat.div_mod_eq (off + n - 1) 512) as H2. pose proof (Nat.mod_upper_bound (off + n - 1) 512 ltac:(lia)).
  set (q := (off / 512)%nat) in *. set (cnt := ((off + n - 1) / 512 - q + 1)%nat).
  assert (cnt <= 4)%nat as H4 by (unfold cnt; lia).
  destruct (decide (off mod 512 = 0)%nat) as [E|E].
  - assert (cnt <= 3)%nat by (unfold cnt; lia). pose proof (cost_le C (D i) (seq q cnt)) as Hc. rewrite length_seq in Hc. lia.
  - assert (slot C (D i) (dslot q) <> 0) as Hq.
    { apply (fo_size _ _ _ _ Hf i Hi Hl). change BSIZE with 512. lia. }
    destruct cnt as [|cnt']; [simpl; lia|]. cbn [seq cost foldr]. rewrite decide_False by done.
    pose proof (cost_le C (D i) (seq (S q) cnt')) as Hc. rewrite length_seq in Hc. unfold cost in *. lia.
Qed.

(** The locked inode of the chunk. *)
Lemma locked_entry a D ip x :
  ic_ok SB (a_ic a) D -> a_ic a !! ip = Some x -> 0 < i_ref x -> live (D (i_inum x)) ->
  entry SB (set_ic (<[ip := locked_at pd D x]> (a_ic a)) a) D ip (locked_at pd D x).
Proof.
  intros Hok Hx Hr Hl. destruct (io_dev _ _ _ Hok ip x Hx Hr) as [Hd Hi].
  constructor; try done. apply list_lookup_insert_eq. by eapply lookup_lt_Some.
Qed.

(** The end of a call that wrote to inode [x] of entry [ip]. *)
Lemma written_cache ic D D' ip x :
  ic_ok SB ic D -> ic !! ip = Some x -> 0 < i_ref x -> live (D (i_inum x)) -> live (D' (i_inum x)) ->
  (forall j, j <> i_inum x -> D' j = D j) ->
  ic_ok SB (<[ip := set_ilock (MkSleep 0 0) (set_idi (D' (i_inum x)) (locked_at pd D x))]> ic) D'.
Proof.
  intros Hok Hx Hr Hl Hl' HD. apply (ic_ext SB _ (upd D (i_inum x) (D' (i_inum x)))).
  - assert (ic_ok SB (<[ip := set_iref 0 (set_ilock (MkSleep 0 0) x)]> ic) D) as Hok0.
    { apply ic_insert; [done|]. apply (ent_same SB ic D ip x); try done. simpl. apply (io_valid _ _ _ Hok ip x Hx Hr). }
    assert (ic_ok SB (<[ip := set_iref 0 (set_ilock (MkSleep 0 0) x)]> ic) (upd D (i_inum x) (D' (i_inum x)))) as Hok1.
    { apply (ic_ext SB _ D); [done|]. intros jp y Hy Hry _.
      apply list_lookup_insert_Some in Hy as [(_ & <- & _)|(Hne & Hy)]; [simpl in Hry; lia|].
      apply upd_ne. intros E. apply Hne. by apply (io_uniq _ _ _ Hok ip jp x y). }
    rewrite <- (list_insert_insert_eq ic ip (set_ilock (MkSleep 0 0) (set_idi (D' (i_inum x)) (locked_at pd D x)))
      (set_iref 0 (set_ilock (MkSleep 0 0) x))).
    apply ic_insert; [done|]. destruct (io_dev _ _ _ Hok ip x Hx Hr). constructor; simpl; try done; try lia.
    + intros _. right. by rewrite upd_eq.
    + intros jp y Hjp Hy Hry _ E. rewrite list_lookup_insert_ne in Hy by done. apply Hjp. by apply (io_uniq _ _ _ Hok jp ip y x).
  - intros jp y _ _ _. destruct (decide (i_inum y = i_inum x)) as [->|Hne]; [by rewrite upd_eq|].
    rewrite upd_ne by done. by apply HD.
Qed.

Section write.
Context (r : ist) (D : Z -> dinode) (ip : nat) (x : inode) (addr : list Z) (off : Z).
Context (Hi : fs_idle r D) (Hx : icache r !! ip = Some x) (Hr : 0 < i_ref x) (Hun : sl_locked (i_lock x) = 0).
Context (Hl : live (D (i_inum x))) (Hty : d_type (D (i_inum x)) <> T_DEV) (Hoff : 0 <= off < 2 ^ 32)
  (Hn : (length addr <= write_max)%nat) (Hfree : (4 < nfree SB (contents r))%nat).

Definition bad_range : bool :=
  (Z.of_nat (length (file_of r D (i_inum x))) <? off) || (MAXFILE * BSIZE <? off + Z.of_nat (length addr)).
Definition new_file : list Z :=
  if bad_range then file_of r D (i_inum x) else write_at (file_of r D (i_inum x)) (Z.to_nat off) addr.

(** The inode after the call. *)
Definition wrote_inode (D' : Z -> dinode) (a : astate) : Prop :=
  a_held a = [] /\ (length (a_log a) <= 10)%nat /\ fs_ok SB (a_blk a) D' [] /\ on_disk SB (a_blk a) D' [] /\
  a_ic a = <[ip := set_idi (D' (i_inum x)) (locked_at pd D x)]> (icache r) /\ live (D' (i_inum x)) /\
  (forall j, j <> i_inum x -> D' j = D j) /\ fbytes (a_blk a) (D' (i_inum x)) = new_file /\
  forall j, j <> i_inum x -> inum_ok SB j -> live (D j) -> fbytes (a_blk a) (D j) = file_of r D j.

Lemma wpa_write_body :
  let n := Z.of_nat (length addr) in
  let a := set_ic (<[ip := locked_at pd D x]> (icache r)) (AS (icache r) [] (contents r) []) in
  wpa (writei fuel bswtch ip addr off n) a (fun v a' =>
    v = (if bad_range then -1 else n) /\ exists D', wrote_inode D' a').
Proof.
  intros n a. destruct Hi as [_ _ _ Hf Ho Hic]. set (i := i_inum x).
  assert (inum_ok SB i) as Hii by (by apply (io_dev _ _ _ Hic ip x Hx Hr)).
  pose proof (locked_entry (AS (icache r) [] (contents r) []) D ip x Hic Hx Hr Hl) as He. fold a in He.
  assert (Z.of_nat (length addr) <= 1536) as Hn' by (unfold write_max in Hn; lia). fold n in Hn'.
  set (t := touched (Z.to_nat off) (length addr)). assert (length t <= 4)%nat as Ht by (by apply chunk_touched).
  pose proof (cost_le (contents r) (D i) t) as Hc. change (i_inum (locked_at pd D x)) with i in *.
  eapply wpa_mono; [apply (wpa_writei cur pd SB fuel bswtch Hfuel G a D ip (locked_at pd D x) addr off n); try done;
    [lia|intros _; change (i_inum (locked_at pd D x)) with i; cbn [a a_log a_blk set_ic length]; fold t; lia
    |intros _; right; cbn [a a_blk set_ic]; fold t; lia]|].
  change (i_inum (locked_at pd D x)) with i. cbn [a a_log a_blk set_ic length]. fold t. change (fbytes (contents r) (D i)) with (file_of r D i).
  assert ((Z.of_nat (length (file_of r D i)) <? off) || (2 ^ 32 <=? off + n) || (MAXFILE * BSIZE <? off + n) = bad_range) as ->.
  { unfold bad_range. fold i n. change (MAXFILE * BSIZE) with 71680. destruct (_ <? off); [done|]. simpl.
    destruct (Z.leb_spec (2 ^ 32) (off + n)); [|done]. symmetry. apply Z.ltb_lt. lia. }
  intros v a' H. unfold wrote_inode, new_file. fold i. destruct bad_range eqn:Eb.
  - destruct H as [-> ->]. split; [done|]. exists D. split_and!; try done. apply (Nat.le_0_l 10).
  - destruct H as (-> & (D' & [H1 H2 H3 H4 H5 H6 H7 H8 H9 H10 H11] & _) & Hlog). split; [done|]. exists D'.
    change (i_inum (locked_at pd D x)) with i in *. cbn [a a_blk a_ic set_ic] in *.
    assert (cost (contents r) (D i) t <= 7)%nat.
    { unfold bad_range in Eb. apply orb_false_iff in Eb as [Eb%Z.ltb_ge _]. fold i in Eb.
      apply (chunk_cost (contents r) D i); try done. unfold file_of in Eb. lia. }
    split_and!; try done; [lia|by apply H2|by rewrite H11, list_insert_insert_eq|unfold live; by rewrite H5|].
    intros j Hj Hjo Hlj. by apply (keeps_bytes SB (contents r) D [] (a_blk a') j), H4.
Qed.

(** C1: one round of the loop of [filewrite], a transaction of at most
    [MAXOPBLOCKS] blocks: it returns the bytes written and the new offset, the
    file has the bytes at the offset and every other file is as before; an
    offset past the end of the file or past the largest file gives -1 and
    changes nothing.  When the machine stops after any of the disk writes, the
    next boot finds a well-formed file system with the old contents of every
    file, or with the new ones. *)
Theorem filewrite_atomic :
  wpi [] r (write_chunk fuel bswtch swtch ip addr off (Z.of_nat (length addr))) (fun v H' r' => H' = [] /\
    v = (if bad_range then (-1, off) else (Z.of_nat (length addr), off + Z.of_nat (length addr))) /\
    exists D', fs_idle r' D' /\ atomic r D r' D' /\ file_of r' D' (i_inum x) = new_file /\
      (forall m, refs (icache r') m = refs (icache r) m) /\
      forall j, j <> i_inum x -> D' j = D j /\ (inum_ok SB j -> live (D j) -> file_of r' D' j = file_of r D j)).
Proof.
  unfold write_chunk. apply (wpi_begin r D); [done|]. intros r1 Ha1 Hd1 Hw1 Ho1. pose proof Hi as [_ _ _ Hf Ho Hic].
  assert (ip < length (icache r))%nat as Hlt by (by eapply lookup_lt_Some).
  eapply wpi_run; [exact Ha1|apply (wpa_ilock cur pd SB fuel bswtch swtch _ D [] ip x); try done; [apply not_elem_of_nil|simpl; lia]|].
  intros _ ? r2 Ha2 (Hd2 & Hw2 & Ho2) ->. eapply wpi_run; [exact Ha2|exact wpa_write_body|].
  intros v a3 r3 Ha3 (Hd3 & Hw3 & Ho3) (-> & D' & Hh & HS & Hf' & Hod & Eic & Hl' & HD & Hfi & Hoth).
  eapply wpi_run; [exact Ha3|apply (wpa_iunlock cur pd SB a3 ip (set_idi (D' (i_inum x)) (locked_at pd D x)))|].
  { rewrite Eic. by apply list_lookup_insert_eq. } { done. } { done. }
  intros _ ? r4 Ha4 (Hd4 & Hw4 & Ho4) ->. rewrite Eic, list_insert_insert_eq in Ha4.
  eapply (wpi_end r D r4 _ D'); [done|exact Ha4|congruence|congruence|congruence|done|done|done|done| |].
  { by apply (written_cache (icache r) D D' ip x). }
  intros r' Hi' Hic' Hat Hfb _. cbn [a_ic set_ic a_blk] in *. apply wpx_ret. split; [done|]. split.
  { unfold bad_range. fold (file_of r D (i_inum x)). destruct (_ || _) eqn:E; [done|]. apply orb_false_iff in E as [_ E%Z.ltb_ge].
    change (MAXFILE * BSIZE) with 71680 in E. f_equal. destruct (Z.ltb_spec 0 (Z.of_nat (length addr))); [by rewrite u32_small by lia|lia]. }
  exists D'. destruct (io_dev _ _ _ Hic ip x Hx Hr) as [_ Hii]. split_and!; [done|done|by rewrite Hfb| |].
  - intros m. rewrite Hic', (refs_insert _ ip x _ m Hx). unfold contrib. simpl. lia.
  - intros j Hj. split; [by apply HD|]. intros Hjo Hlj. rewrite Hfb, HD by (done || by rewrite HD). by apply Hoth.
Qed.
End write.
End syscall.

(** No devices. *)
#[export] Instance no_devs : Devsw := { dev_read _ := None; dev_write _ := None }.

Lemma ex_fs_idle pd rn fn : 0 <= rn -> 0 <= fn -> fs_idle pd ex_sb (ex_ist rn fn) ex_inodes.
Proof.
  intros. constructor; [done|done|apply ex_idle|apply ex_fs_ok|apply ex_on_disk|by apply ex_icache_ok].
Qed.

(** Three bytes are appended to the file of five bytes. *)
Lemma filewrite_atomic_witness :
  wp (write_chunk 1 leave leave 1 [1; 2; 3] 5 3) (fun v s' => v = (3, 8) /\
    exists D', file_of (x_rest s') D' 2 = ex_hello ++ [1; 2; 3]) (ex_running (ex_ist 1 1)).
Proof.
  pose proof (filewrite_atomic 0 7 ex_sb 1 leave leave (Nat.lt_0_succ 0) ex_geom (ex_ist 1 1) ex_inodes 1
    (MkInode 1 2 1 (MkSleep 0 0) 0 no_inode) [1; 2; 3] 5) as H.
  refine (wp_mono _ _ _ _ (H _ _ _ _ _ _ _ _ _ (ex_running (ex_ist 1 1)) (ex_running_world _) eq_refl) _); clear H.
  - by apply ex_fs_idle.
  - reflexivity.
  - reflexivity.
  - reflexivity.
  - done.
  - done.
  - lia.
  - unfold write_max. simpl. lia.
  - apply Nat.ltb_lt. vm_compute. reflexivity.
  - intros v s' (H' & _ & _ & Hv & D' & _ & _ & Hf & _).
    assert (bad_range (ex_ist 1 1) ex_inodes (MkInode 1 2 1 (MkSleep 0 0) 0 no_inode) [1; 2; 3] 5 = false) as Eb by (vm_compute; reflexivity).
    rewrite Eb in Hv. split; [exact Hv|]. exists D'. unfold new_file in Hf. rewrite Eb in Hf. cbn [i_inum] in Hf. rewrite Hf.
    vm_compute. reflexivity.
Defined.
