(* ===== verification/Xv6Fs.v ===== *)
(** * What the xv6 file system promises (lab2/fs.c)

    The specifications of the routines of fs.c inside a transaction, over the
    disk, the inodes, the cache of inodes and the blocks logged, with the small
    file system of Xv6Image as their example. *)

From S2P Require Import Prelude CMem Xv6Lock Xv6Proc Xv6World Xv6Bio Xv6Log Xv6Crash Xv6Reserve Xv6Txn Xv6Inode Xv6Disk Xv6Iops Xv6Content Xv6Wrote Xv6Writei Xv6Icache Xv6Trunc Xv6Ialloc Xv6Dir Xv6Dirops Xv6Path Xv6Image Xv6Stuck Xv6Syscall.
From stdpp Require Import base numbers option list gmap strings.
Open Scope Z_scope.

#[local] Opaque Nat.div Nat.modulo.

(** ** The example *)

(** The inode at entry [ip] is locked by process 7 and read. *)
Definition ex_lock (ip : nat) : list inode :=
  alter (fun x => locked_at 7 ex_inodes x) ip (ex_icache 1 1).
Definition ex_open (ip : nat) : astate := AS (ex_lock ip) [] ex_blocks [].
Definition ex_root_ino : inode := MkInode 1 1 1 (MkSleep 1 7) 1 ex_root.
Definition ex_file_ino : inode := MkInode 1 2 1 (MkSleep 1 7) 1 ex_file.

Lemma ex_lock_root : ic_ok ex_sb (ex_lock 0) ex_inodes.
Proof. apply (ic_locked 7 ex_sb (ex_icache 1 1) ex_inodes 0 (MkInode 1 1 1 (MkSleep 0 0) 0 no_inode)); [by apply ex_icache_ok|done..]. Qed.

Lemma ex_lock_file : ic_ok ex_sb (ex_lock 1) ex_inodes.
Proof. apply (ic_locked 7 ex_sb (ex_icache 1 1) ex_inodes 1 (MkInode 1 2 1 (MkSleep 0 0) 0 no_inode)); [by apply ex_icache_ok|done..]. Qed.

Lemma ex_root_entry : entry ex_sb (ex_open 0) ex_inodes 0 ex_root_ino.
Proof. by constructor. Qed.

Lemma ex_file_entry : entry ex_sb (ex_open 1) ex_inodes 1 ex_file_ino.
Proof. by constructor. Qed.

Lemma ex_refs m : refs (ex_icache 1 1) m = (if 1 =? m then 1 else 0) + (if 2 =? m then 1 else 0).
Proof.
  unfold refs, ex_icache. cbn [foldr i_inum i_ref]. assert (foldr (fun x s => (if i_inum x =? m then i_ref x else 0) + s) 0 (replicate 48 ino_free) = 0) as ->; [|lia].
  generalize 48%nat as n. induction n as [|n IH]; [done|]. cbn [replicate foldr]. rewrite IH. simpl. by destruct m.
Qed.

Lemma ex_lock_refs ip m : (ip < 2)%nat -> refs (ex_lock ip) m = refs (ex_icache 1 1) m.
Proof.
  intros Hip. unfold ex_lock. assert (is_Some (ex_icache 1 1 !! ip)) as [x E].
  { apply lookup_lt_is_Some. change (length (ex_icache 1 1)) with 50%nat. lia. }
  rewrite (alter_entry _ _ _ _ E), (refs_insert _ ip x _ m E). unfold contrib, locked_at. cbn [i_inum i_ref]. lia.
Qed.

Lemma ex_roomy ip : (ip < 2)%nat -> roomy ex_sb (ex_lock ip).
Proof.
  intros Hip. split.
  - intros m _. rewrite ex_lock_refs, ex_refs by done. destruct (1 =? m), (2 =? m); lia.
  - exists 2%nat, ino_free. unfold ex_lock. by rewrite list_lookup_alter_ne by lia.
Qed.

(** ** Contents of files *)

(** C22: [readi] returns the bytes of the file from an offset, as many as there
    are, and changes nothing; an offset past the end of the file, or one that
    overflows, gives -1, as does a device without a read routine. *)
Theorem readi_spec cur pd SB fuel bswtch `{DV : Devsw} a D ip x off n :
  (0 < fuel)%nat -> geom SB -> fs_ok SB (a_blk a) D [] -> entry SB a D ip x -> a_held a = [] -> (length (a_log a) < 26)%nat ->
  0 <= off < 2 ^ 32 -> 0 <= n < 2 ^ 32 ->
  (d_type (D (i_inum x)) = T_DEV ->
     d_major (D (i_inum x)) < 0 \/ NDEV <= d_major (D (i_inum x)) \/ dev_read (d_major (D (i_inum x))) = None) ->
  let f := fbytes (a_blk a) (D (i_inum x)) in
  let l := take (Z.to_nat n) (drop (Z.to_nat off) f) in
  wpa cur pd SB (readi fuel bswtch ip off n) a (fun r a' => a' = a /\
    r = if (d_type (D (i_inum x)) =? T_DEV) || (Z.of_nat (length f) <? off) || (2 ^ 32 <=? off + n)
        then (-1, []) else (Z.of_nat (length l), l)).
Proof.
  intros Hfuel G Hf He Hh Hlog Hoff Hn Hdev f l. destruct (Z.eqb_spec (d_type (D (i_inum x))) T_DEV) as [E|E].
  - unfold readi. eapply wpa_bind; [apply wpa_iread, (en_ic _ _ _ _ _ He)|]. intros ? ? [-> ->].
    rewrite (en_di _ _ _ _ _ He), E, Z.eqb_refl. cbn [orb].
    destruct (d_major (D (i_inum x)) <? 0) eqn:E1; [by apply wpa_ret|].
    destruct (NDEV <=? d_major (D (i_inum x))) eqn:E2; [by apply wpa_ret|]. cbn [orb].
    destruct (Hdev E) as [?|[?| ->]]; [lia|lia|by apply wpa_ret].
  - cbn [orb]. by apply (wpa_readi cur pd SB fuel bswtch Hfuel G a D ip x).
Qed.

Lemma readi_spec_witness :
  wpa 0 7 ex_sb (readi 1 leave 1 1 10) (ex_open 1) (fun r a' => a' = ex_open 1 /\ r = (4, [101; 108; 108; 111])).
Proof.
  eapply wpa_mono.
  - apply (readi_spec 0 7 ex_sb 1 leave (ex_open 1) ex_inodes 1 ex_file_ino 1 10);
      [lia|apply ex_geom|apply ex_fs_ok|apply ex_file_entry|done|simpl; lia|lia|lia|done].
  - intros r a' [-> ->]. split; [done|]. vm_compute. reflexivity.
Defined.

(** C14: [writei] puts bytes into a file at an offset within it, growing the file
    when they reach past its end, and writes the inode; every other file keeps
    its inode and its bytes, the disk stays well formed and no block is leaked.
    The transaction logs the blocks written, the bitmap blocks of those that are
    new, and at most three more.  An offset past the end of the file, or an end
    past the largest file, gives -1 and changes nothing. *)
Theorem writei_spec cur pd SB fuel bswtch `{DV : Devsw} a D ip x src off :
  (0 < fuel)%nat -> geom SB -> fs_ok SB (a_blk a) D [] -> entry SB a D ip x -> a_held a = [] ->
  d_type (D (i_inum x)) <> T_DEV -> 0 <= off < 2 ^ 32 -> Z.of_nat (length src) < 2 ^ 32 ->
  let n := Z.of_nat (length src) in
  let f := fbytes (a_blk a) (D (i_inum x)) in
  let t := touched (Z.to_nat off) (length src) in
  (off + n <= MAXFILE * BSIZE -> (length (a_log a) + cost (a_blk a) (D (i_inum x)) t < 18)%nat) ->
  (off + n <= MAXFILE * BSIZE -> (length t + 1 <= nfree SB (a_blk a))%nat) ->
  wpa cur pd SB (writei fuel bswtch ip src off n) a (fun v a' =>
    if (Z.of_nat (length f) <? off) || (MAXFILE * BSIZE <? off + n) then v = -1 /\ a' = a
    else v = n /\ (exists D', written SB a D ip x (write_at f (Z.to_nat off) src) a' D') /\
      (length (a_log a') <= length (a_log a) + cost (a_blk a) (D (i_inum x)) t + 3)%nat).
Proof.
  intros Hfuel G Hf He Hh Hty Hoff Hlen n f t Hlog Hfree.
  eapply wpa_mono; [apply (wpa_writei cur pd SB fuel bswtch Hfuel G a D ip x src off n); try done; [lia|intros; right; by apply Hfree]|].
  cbv beta zeta. fold f t. intros v a' H. destruct (Z.of_nat (length f) <? off); [done|]. cbn [orb] in *.
  destruct (Z.ltb_spec (MAXFILE * BSIZE) (off + n)) as [|Hle]; [by destruct (2 ^ 32 <=? off + n)|].
  change (MAXFILE * BSIZE) with 71680 in Hle. rewrite (proj2 (Z.leb_gt _ _)) in H by lia.
  destruct H as (-> & (D' & HD' & _) & HL). split; [done|]. split; [by exists D'|done].
Qed.

Lemma writei_spec_witness :
  wpa 0 7 ex_sb (writei 1 leave 1 [1; 2; 3] 5 3) (ex_open 1) (fun v a' => v = 3 /\
    exists D', fbytes (a_blk a') (D' 2) = ex_hello ++ [1; 2; 3]).
Proof.
  eapply wpa_mono.
  - apply (writei_spec 0 7 ex_sb 1 leave (ex_open 1) ex_inodes 1 ex_file_ino [1; 2; 3] 5);
      [lia|apply ex_geom|apply ex_fs_ok|apply ex_file_entry|done|done|lia|simpl; lia|intros _; vm_compute; lia|intros _; vm_compute; lia].
  - cbv zeta. intros v a' H. assert ((Z.of_nat (length (fbytes (a_blk (ex_open 1)) (ex_inodes (i_inum ex_file_ino)))) <? 5)
      || (MAXFILE * BSIZE <? 5 + Z.of_nat (length [1; 2; 3])) = false) as E by (vm_compute; reflexivity).
    rewrite E in H. destruct H as (-> & (D' & HD') & _). split; [done|]. exists D'.
    refine (eq_trans (wn_bytes _ _ _ _ _ _ _ _ HD') _). vm_compute. reflexivity.
Defined.

(** ** Inodes *)

(** [ialloc] returns a reference to an inode that was free, now an empty
    inode of the type asked for on the disk; no other file changes. *)
Theorem ialloc_spec cur pd SB fuel bswtch a D ty c :
  (0 < fuel)%nat -> geom SB -> fs_ok SB (a_blk a) D [] -> on_disk SB (a_blk a) D [] -> ic_ok SB (a_ic a) D -> a_held a = [] ->
  (length (a_log a) < 29)%nat -> - 2 ^ 15 <= ty < 2 ^ 15 -> ty <> 0 -> inum_ok SB c -> ~ live (D c) -> roomy SB (a_ic a) ->
  wpa cur pd SB (ialloc fuel bswtch 1 ty) a (fun ip a' => exists n, allocated SB ty a D n ip a').
Proof. intros Hfuel G Hf Ho Hok Hh Hlog Hty Hty0 Hc Hl [Hs Hroom]. by apply (wpa_ialloc cur pd SB fuel bswtch Hfuel G a D ty Hf Ho Hok Hh Hlog Hty c). Qed.

Lemma ialloc_spec_witness :
  wpa 0 7 ex_sb (ialloc 1 leave 1 T_FILE) (ex_open 0) (fun ip a' => exists n, 2 < n /\ fs_ok ex_sb (a_blk a') (upd ex_inodes n (fresh_di T_FILE)) []).
Proof.
  eapply wpa_mono.
  - apply (ialloc_spec 0 7 ex_sb 1 leave (ex_open 0) ex_inodes T_FILE 3);
      [lia|apply ex_geom|apply ex_fs_ok|apply ex_on_disk|apply ex_lock_root|done|simpl; lia|unfold T_FILE; lia|done|unfold inum_ok; simpl; lia|
       by intros []|by apply ex_roomy; lia].
  - intros ip a' (n & [Hn Hl Hok _ _ _ _ _]). exists n. split; [|exact Hok]. unfold inum_ok in Hn. simpl in Hn.
    destruct (decide (n = 1)) as [->|]; [by destruct Hl|]. destruct (decide (n = 2)) as [->|]; [by destruct Hl|]. lia.
Defined.

(** C20: [iput] gives one reference to an inode back.  When it is the last
    reference to an inode without links, the inode is freed on the disk, with
    exactly its blocks; otherwise the disk does not change.  No other file
    changes and no other entry of the cache. *)
Theorem iput_spec cur pd SB fuel bswtch swtch a D ip x :
  (0 < fuel)%nat -> geom SB -> fs_ok SB (a_blk a) D [] -> ic_ok SB (a_ic a) D -> a_held a = [] ->
  a_ic a !! ip = Some x -> 0 < i_ref x < 2 ^ 31 -> sl_locked (i_lock x) = 0 ->
  (orphan D x = true -> (length (a_log a) + nbitmap SB < 24)%nat) ->
  wpa cur pd SB (iput fuel bswtch swtch ip) a (fun _ a' => exists D', dropped SB a D ip x a' D').
Proof. intros Hfuel G Hf Hok Hh Hx Hr Hlk HW. by apply wpa_iput. Qed.

(** The file of the example, without links and referenced once. *)
Definition ex_unlinked (i : Z) : dinode := if i =? 2 then MkDinode T_FILE 0 0 0 5 (35 :: replicate 12 0) else ex_inodes i.
Definition ex_last : inode := MkInode 1 2 1 (MkSleep 0 0) 1 (ex_unlinked 2).

Definition ex_drop : astate := AS (<[1%nat := ex_last]> (ex_icache 1 1)) [] ex_blocks [].

Lemma ex_unlinked_ok : fs_ok ex_sb ex_blocks ex_unlinked [].
Proof.
  apply (attr_ok ex_sb ex_blocks ex_inodes); [apply ex_fs_ok| |].
  - intros i _. unfold ex_unlinked. destruct (i =? 2); [|apply ex_di_ok]. destruct (ex_di_ok 2). by constructor.
  - intros i. unfold ex_unlinked. destruct (Z.eqb_spec i 2) as [->|]; done.
Qed.

Lemma ex_drop_ok : ic_ok ex_sb (a_ic ex_drop) ex_unlinked.
Proof.
  cbn [a_ic ex_drop]. apply ic_insert.
  - apply (ic_ext ex_sb _ ex_inodes); [by apply ex_icache_ok|]. intros ip x Hx Hr Hv. exfalso.
    destruct ip as [|[|ip]]; cbn [ex_icache lookup list_lookup] in Hx; [by simplify_eq..|].
    by apply lookup_replicate in Hx as [-> _].
  - constructor; simpl; try lia; try done; [by right|]. intros jp x Hne Hx Hr _.
    destruct jp as [|[|jp]]; cbn [ex_icache lookup list_lookup] in Hx; [by simplify_eq|by simplify_eq|].
    apply lookup_replicate in Hx as [-> _]. simpl in Hr. lia.
Qed.

Lemma iput_spec_witness :
  wpa 0 7 ex_sb (iput 1 leave leave 1) ex_drop (fun _ a' => exists D', ~ live (D' 2) /\ free ex_sb (a_blk a') 35 = true /\
    refs (a_ic a') 2 = 0).
Proof.
  eapply wpa_mono.
  - apply (iput_spec 0 7 ex_sb 1 leave leave ex_drop ex_unlinked 1 ex_last);
      [lia|apply ex_geom|apply ex_unlinked_ok|apply ex_drop_ok|done|done|simpl; lia|done|intros _; vm_compute; lia].
  - intros _ a' (D' & Hd). exists D'. pose proof (dr_free _ _ _ _ _ _ _ Hd) as Hf.
    change (orphan ex_unlinked ex_last) with true in Hf. cbv iota in Hf. destruct Hf as [Hl Hf]. split; [exact Hl|]. split.
    + apply Hf; [unfold blk_ok; simpl; lia|]. right. apply iblocks_elem. split; [done|]. exists 0%nat. split; [unfold NSLOT; lia|reflexivity].
    + rewrite (dr_refs _ _ _ _ _ _ _ Hd 2). vm_compute. reflexivity.
Defined.

(** ** Directories and paths *)

(** C21: [dirlink] adds a name to the table of a directory: afterwards the name
    stands for the inode and every other name for what it stood for.  A name
    that is there already, for an inode other than the directory itself, gives
    -1, and no reference and no block changes. *)
Theorem dirlink_spec cur pd SB fuel bswtch swtch `{DV : Devsw} a D dp x name inum :
  (0 < fuel)%nat -> geom SB -> fs_ok SB (a_blk a) D [] -> entry SB a D dp x -> a_held a = [] -> (length (a_log a) < 14)%nat ->
  d_type (D (i_inum x)) = T_DIR -> ic_ok SB (a_ic a) D -> roomy SB (a_ic a) -> 0 < i_ref x -> 0 < inum < 2 ^ 16 -> inum_ok SB inum ->
  (forall jp y, jp <> dp -> a_ic a !! jp = Some y -> sl_locked (i_lock y) = 0) ->
  let f := fbytes (a_blk a) (D (i_inum x)) in
  dir_ok SB f -> dlookup f (cname name) <> Some (i_inum x) ->
  Z.of_nat (length f) + DESIZE <= MAXFILE * BSIZE -> (2 < nfree SB (a_blk a))%nat ->
  wpa cur pd SB (dirlink fuel bswtch swtch dp name inum) a (fun v a' =>
    match dlookup f (cname name) with
    | Some _ => v = -1 /\ exists ic', a' = set_ic ic' a /\ ic_ok SB ic' D /\ forall m, refs ic' m = refs (a_ic a) m
    | None => v = 0 /\ exists D' f', written SB a D dp x f' a' D' /\ dir_ok SB f' /\
        forall nm, dlookup f' nm = if decide (nm = cname name) then Some inum else dlookup f nm
    end).
Proof.
  intros Hfuel G Hf He Hh Hlog Hty Hok Hroom Hr Hinum Hi Hun f Hdir Hself Hfull Hfree.
  eapply wpa_mono; [apply (wpa_dirlink cur pd SB fuel bswtch swtch Hfuel G a D dp x Hf He Hh ltac:(lia) Hty Hdir name inum); try done|].
  fold f. intros v a' H. destruct (dlookup f (cname name)) as [m|] eqn:E.
  - destruct H as (-> & ip & ic' & -> & Hok' & Hrefs & _). split; [done|]. by exists ic'.
  - destruct H as (-> & (D' & t & HD' & _) & _). split; [done|]. exists D', (linked f name inum). split; [done|].
    split; [by apply dir_ok_linked|]. intros nm. by apply (dlookup_linked SB).
Qed.

Lemma ex_dir_bytes : fbytes ex_blocks ex_root = ex_dir.
Proof. vm_compute. reflexivity. Qed.

Lemma ex_dir_ok : dir_ok ex_sb ex_dir.
Proof.
  split; [vm_compute; reflexivity|]. change (nents ex_dir) with 3%nat. intros k Hk.
  assert (k = 0 \/ k = 1 \/ k = 2)%nat as [->|[->| ->]] by lia; vm_compute; intros _; split; congruence.
Qed.

Lemma ex_tree : tree_ok ex_blocks ex_inodes ex_sb.
Proof.
  intros n _ Hty _. assert (n = 1 /\ ex_inodes n = ex_root) as [-> ->].
  { destruct (ex_live n) as [?|[-> E]]; [unfold live; by rewrite Hty|done|]. by rewrite E in Hty. }
  rewrite ex_dir_bytes. split; [apply ex_dir_ok|]. intros nm m (k & [Hk _]%dslot_of_lt & ->)%fmap_Some.
  change (nents ex_dir) with 3%nat in Hk. assert (k = 0 \/ k = 1 \/ k = 2)%nat as [->|[->| ->]] by lia; vm_compute; split; congruence.
Qed.

Lemma ex_root_others jp y : jp <> 0%nat -> a_ic (ex_open 0) !! jp = Some y -> sl_locked (i_lock y) = 0.
Proof.
  intros Hne Hy. cbn [a_ic ex_open] in Hy. unfold ex_lock in Hy. rewrite list_lookup_alter_ne in Hy by done.
  destruct jp as [|[|jp]]; [done| |]; cbn [ex_icache lookup list_lookup] in Hy; [by simplify_eq|].
  by apply lookup_replicate in Hy as [-> _].
Qed.

(** The name "b" for the file. *)
Lemma dirlink_spec_witness :
  wpa 0 7 ex_sb (dirlink 1 leave leave 0 [98] 2) (ex_open 0) (fun v a' => v = 0 /\
    exists D', dlookup (fbytes (a_blk a') (D' 1)) [98] = Some 2 /\ dlookup (fbytes (a_blk a') (D' 1)) [97] = Some 2).
Proof.
  eapply wpa_mono.
  - apply (dirlink_spec 0 7 ex_sb 1 leave leave (ex_open 0) ex_inodes 0 ex_root_ino [98] 2);
      [lia|apply ex_geom|apply ex_fs_ok|apply ex_root_entry|done|simpl; lia|done|apply ex_lock_root|by apply ex_roomy; lia|done|lia|
       unfold inum_ok; simpl; lia|apply ex_root_others|exact ex_dir_ok|vm_compute; congruence|vm_compute; congruence|apply Nat.ltb_lt; vm_compute; reflexivity].
  - cbv zeta. intros v a' H.
    assert (dlookup (fbytes (a_blk (ex_open 0)) (ex_inodes (i_inum ex_root_ino))) (cname [98]) = None) as E by (vm_compute; reflexivity).
    rewrite E in H. destruct H as (-> & D' & f' & HD' & _ & Hl). split; [done|]. exists D'.
    assert (fbytes (a_blk a') (D' 1) = f') as -> by exact (wn_bytes _ _ _ _ _ _ _ _ HD').
    rewrite !Hl. split; vm_compute; reflexivity.
Defined.

(** A transaction has just begun, with the root directory locked. *)
Definition ex_busy : ist := MkIst (ex_lock 0) ex_sb (opened ex_fs).

Lemma ex_busy_aok : aok 7 ex_sb (ex_open 0) ex_busy.
Proof. constructor; [done|done|apply idle_opened, ex_idle|done]. Qed.

Lemma dirlink_self_stuck_witness :
  match dirlink 5 leave (mret tt) 0 [46] 2 (ex_running ex_busy) with Ok _ _ => False | _ => True end.
Proof.
  pose proof (dirlink_self_stuck 0 7 ex_sb 5 leave (mret tt) (ex_open 0) ex_inodes 0 ex_root_ino [46] 2 (ex_running ex_busy)) as H.
  destruct (dirlink 5 leave (mret tt) 0 [46] 2 (ex_running ex_busy)) as [v s'| |]; [|exact I|exact I].
  refine (H _ _ _ _ _ _ _ _ _ _ _ _ _ _ _ _ v s' eq_refl);
    [lia|apply ex_geom|apply ex_fs_ok|apply ex_root_entry|done|simpl; lia|done|apply ex_lock_root|by apply ex_roomy; lia|done|done|
     exact ex_dir_ok|vm_compute; reflexivity|apply stays_ret|apply ex_running_world|apply ex_busy_aok].
Defined.

(** C13: [namei] of an absolute path returns a reference to the inode the path
    leads to through the directories of the disk, and null when there is none;
    [nameiparent] returns the directory that holds the last name, and the name.
    The references of every inode but the one returned are what they were, no
    inode is locked and no block changes. *)
Theorem namei_spec cur pd SB fuel bswtch swtch `{DV : Devsw} ic C W D R (U : gset Z) path name :
  (0 < fuel)%nat -> geom SB -> fs_ok SB C D [] -> on_disk SB C D [] -> (length W < 26)%nat -> tree_ok C D SB ->
  (forall m, 0 <= R m < 2 ^ 31 - 3) -> (forall m, 0 < R m -> m ∈ U) -> (size U + 2 <= NINODE)%nat ->
  cached SB D ic R -> length name = DIRSIZ -> hd 0 path = slash -> live (D ROOTINO) -> d_nlink (D ROOTINO) <> 0 ->
  wpa cur pd SB (namei fuel bswtch swtch name path) (AS ic [] C W) (fun r a' => exists ic', a' = AS ic' [] C W /\
    found SB D R (walk C D false ROOTINO (names path)) r ic') /\
  wpa cur pd SB (nameiparent fuel bswtch swtch path name) (AS ic [] C W) (fun r a' => exists ic', a' = AS ic' [] C W /\
    found SB D R (walk C D true ROOTINO (names path)) (fst r) ic' /\
    (fst r <> None -> last (names path) = Some (cname (snd r)))).
Proof.
  intros Hfuel G Hf Ho HW Htree HR HU Hroom Hc Hnm Habs Hl Hln.
  assert (start 0 path = ROOTINO) as Es by (unfold start; by rewrite Habs).
  assert (forall parent, wpa cur pd SB (namex fuel bswtch swtch path parent name) (AS ic [] C W) (fun r a' => exists ic', a' = AS ic' [] C W /\
    found SB D R (walk C D parent ROOTINO (names path)) (fst r) ic' /\
    (parent = true -> fst r <> None -> last (names path) = Some (cname (snd r))) /\ length (snd r) = DIRSIZ /\ pins R ic ic')) as H.
  { intros parent. rewrite <- Es. apply (wpa_namex cur pd SB fuel bswtch swtch Hfuel G C W D Hf Ho HW Htree R U HR HU Hroom);
      rewrite ?Es; done. }
  split.
  - eapply wpa_bind; [apply (H false)|]. intros r a' (ic' & -> & Hfd & _). apply wpa_ret. by exists ic'.
  - eapply wpa_mono; [apply (H true)|]. intros r a' (ic' & -> & Hfd & Hlast & _). exists ic'. split; [done|]. split; [done|]. by apply Hlast.
Qed.

Lemma ex_cached : cached ex_sb ex_inodes (ex_icache 1 1) (refs (ex_icache 1 1)).
Proof.
  constructor; [by apply ex_icache_ok| |done]. intros [|[|ip]] x Hx; cbn [ex_icache lookup list_lookup] in Hx; [by simplify_eq..|].
  by apply lookup_replicate in Hx as [-> _].
Qed.

(** The path "/a". *)
Lemma namei_spec_witness :
  wpa 0 7 ex_sb (namei 1 leave leave (replicate 14 0) [47; 97]) (AS (ex_icache 1 1) [] ex_blocks []) (fun r a' =>
    exists ip ic', r = Some ip /\ a' = AS ic' [] ex_blocks [] /\ holds ic' 2 ip /\ refs ic' 2 = 2).
Proof.
  eapply wpa_mono.
  - refine (proj1 (namei_spec 0 7 ex_sb 1 leave leave (ex_icache 1 1) ex_blocks [] ex_inodes (refs (ex_icache 1 1)) {[1; 2]}
      [47; 97] (replicate 14 0) (Nat.lt_0_succ 0) ex_geom ex_fs_ok ex_on_disk (Nat.lt_0_succ 25) ex_tree _ _ _ ex_cached eq_refl eq_refl _ _)).
    + intros m. rewrite ex_refs. destruct (1 =? m), (2 =? m); lia.
    + intros m. rewrite ex_refs. destruct (Z.eqb_spec 1 m), (Z.eqb_spec 2 m); intros; (lia || set_solver).
    + apply Nat.leb_le. vm_compute. reflexivity.
    + done.
    + done.
  - intros r a' (ic' & -> & H).
    assert (walk ex_blocks ex_inodes false ROOTINO (names [47; 97]) = Some 2) as E by (vm_compute; reflexivity).
    rewrite E in H. destruct H as (ip & -> & Hh & [_ _ Hr]). exists ip, ic'. split_and!; [done|done|exact Hh|].
    rewrite Hr. vm_compute. reflexivity.
Defined.
