(* ===== verification/Xv6Mkfs.v ===== *)
(** * Making a file system (lab2/mkfs.c)

    The program that builds the disk image the kernel starts from.  The image is
    a list of blocks, the files of the host are a parameter.  [rsect] of a block
    past the end of the image fails, as the [read] it is made of does; [wsect]
    there makes the image longer.  The messages are not modelled. *)

From S2P Require Import Prelude CMem Xv6Bio Xv6Log Xv6Txn Xv6Inode Xv6Disk Xv6Iops Xv6Content Xv6Wrote Xv6Writei Xv6Ialloc Xv6Dir Xv6Path Xv6Image.
From stdpp Require Import base numbers option list gmap strings.
From Stdlib Require Import Ascii.
Open Scope Z_scope.
#[local] Opaque Nat.div Nat.modulo.

(** ** The program *)

Definition FSSIZE : Z := 1000.
Definition NINODES : Z := 200.
Definition nbitmap : Z := FSSIZE / (BSIZE * 8) + 1.
Definition ninodeblocks : Z := NINODES / IPB + 1.
Definition nlog : Z := Z.of_nat LOGSIZE.
Definition nmeta : Z := 2 + nlog + ninodeblocks + nbitmap.
Definition nblocks : Z := FSSIZE - nmeta.

(** Intel byte order: the bytes of the result, read by the host. *)
Definition xshort (x : Z) : Z := get16 (put16 (replicate 2 0) 0 x) 0.
Definition xint (x : Z) : Z := get32 (put32 (replicate 4 0) 0 x) 0.

Definition mkfs_sb : superblock :=
  MkSuper (xint FSSIZE) (xint nblocks) (xint NINODES) (xint nlog) (xint 2) (xint (2 + nlog)) (xint (2 + nlog + ninodeblocks)).

(** The file [fsfd] and the counters. *)
Record mst : Type := MkMst { m_img : list (list Z); m_freeinode : Z; m_freeblock : Z }.
Definition with_img (l : list (list Z)) (s : mst) : mst := MkMst l (m_freeinode s) (m_freeblock s).
Notation MM := (M mst).

(** The block at offset [sec * BSIZE] of the image. *)
Definition sector (sec : Z) : nat := Z.to_nat (u32 (sec * BSIZE) / BSIZE).

Definition put_sector (l : list (list Z)) (n : nat) (buf : list Z) : list (list Z) :=
  if (n <? length l)%nat then <[n := buf]> l else l ++ replicate (n - length l) zeros ++ [buf].

Definition wsect (sec : Z) (buf : list Z) : MM unit := modify (fun s => with_img (put_sector (m_img s) (sector sec) buf) s).
Definition rsect (sec : Z) : MM (list Z) :=
  l ← gets m_img;
  match l !! sector sec with Some buf => mret buf | None => panic "read" end.

Definition winode (inum : Z) (ip : dinode) : MM unit :=
  let bn := IBLOCK inum mkfs_sb in
  buf ← rsect bn;
  wsect bn (put_dinode ip buf (dip inum)).
Definition rinode (inum : Z) : MM dinode :=
  let bn := IBLOCK inum mkfs_sb in
  buf ← rsect bn;
  mret (get_dinode buf (dip inum)).

Definition next_inode : MM Z :=
  i ← gets m_freeinode; modify (fun s => MkMst (m_img s) (u32 (i + 1)) (m_freeblock s));; mret i.
(** [freeblock++] *)
Definition next_block : MM Z :=
  b ← gets m_freeblock; modify (fun s => MkMst (m_img s) (m_freeinode s) (u32 (b + 1)));; mret b.

Definition ialloc (type : Z) : MM Z :=
  inum ← next_inode;
  winode inum (MkDinode (i16 (xshort type)) 0 0 (i16 (xshort 1)) (xint 0) (replicate (S NDIRECT) 0));;
  mret inum.

Definition bitmap (used : Z) : list Z := foldl (fun buf i => bit_set i buf) zeros (seqZ 0 used).
Definition balloc (used : Z) : MM unit :=
  assertM (used <? BSIZE * 8) "used < BSIZE*8";;
  wsect (sb_bmapstart mkfs_sb) (bitmap used).

(** The block of the file for [iappend], allocated when it is missing. *)
Definition append_block (din : dinode) (fbn : Z) : MM (dinode * Z) :=
  if fbn <? Z.of_nat NDIRECT then
    let k := Z.to_nat fbn in
    din ← (if xint (nth k (d_addrs din) 0) =? 0 then b ← next_block; mret (set_daddr k (xint b) din) else mret din);
    mret (din, xint (nth k (d_addrs din) 0))
  else
    let k := Z.to_nat (fbn - Z.of_nat NDIRECT) in
    din ← (if xint (nth NDIRECT (d_addrs din) 0) =? 0 then b ← next_block; mret (set_daddr NDIRECT (xint b) din) else mret din);
    indirect ← rsect (xint (nth NDIRECT (d_addrs din) 0));
    indirect ← (if get32 indirect (4 * k) =? 0 then
                  b ← next_block;
                  let indirect := put32 indirect (4 * k) (xint b) in
                  wsect (xint (nth NDIRECT (d_addrs din) 0)) indirect;; mret indirect
                else mret indirect);
    mret (din, xint (get32 indirect (4 * k))).

(** The loop of [iappend] on the bytes [p] that are left. *)
Fixpoint iappend_loop (fuel : nat) (din : dinode) (off : Z) (p : list Z) : MM (dinode * Z) :=
  match p with
  | [] => mret (din, off)
  | _ =>
      match fuel with
      | O => no_fuel
      | S fuel =>
          let fbn := off / BSIZE in
          assertM (fbn <? MAXFILE) "fbn < MAXFILE";;
          '(din, x) ← append_block din fbn;
          let n1 := Z.min (Z.of_nat (length p)) (u32 ((fbn + 1) * BSIZE - off)) in
          buf ← rsect x;
          wsect x (list_inserts (Z.to_nat (off - fbn * BSIZE)) (take (Z.to_nat n1) p) buf);;
          iappend_loop fuel din (u32 (off + n1)) (drop (Z.to_nat n1) p)
      end
  end.

Definition iappend (inum : Z) (p : list Z) : MM unit :=
  din ← rinode inum;
  let off := xint (d_size din) in
  '(din, off) ← iappend_loop (length p) din off p;
  winode inum (set_dsize (xint off) din).

(** The host: whether the image can be opened, and for each file that can be
    opened the results of [read] up to the end of the file. *)
Class Host := { open_img : list Z -> bool; host_file : list Z -> option (list (list Z)) }.

Definition make_image : MM unit :=
  for_each (seqZ 0 FSSIZE) (fun i => wsect i zeros);;
  wsect 1 (put32 (put32 (put32 (put32 (put32 (put32 (put32 zeros 0 (sb_size mkfs_sb)) 4 (sb_nblocks mkfs_sb))
    8 (sb_ninodes mkfs_sb)) 12 (sb_nlog mkfs_sb)) 16 (sb_logstart mkfs_sb)) 20 (sb_inodestart mkfs_sb))
    24 (sb_bmapstart mkfs_sb)).

Definition make_root : MM Z :=
  rootino ← ialloc T_DIR;
  assertM (rootino =? ROOTINO) "rootino == ROOTINO";;
  iappend rootino (mk_dirent (xshort rootino) (zs "."));;
  iappend rootino (mk_dirent (xshort rootino) (zs ".."));;
  mret rootino.

(** [while((cc = read(fd, buf, sizeof(buf))) > 0) iappend(inum, buf, cc)] *)
Fixpoint append_reads (inum : Z) (reads : list (list Z)) : MM unit :=
  match reads with
  | [] => mret tt
  | buf :: reads => if (0 <? length buf)%nat then iappend inum buf;; append_reads inum reads else mret tt
  end.

Definition skip_underscore (arg : list Z) : list Z :=
  match arg with c :: s => if c =? zc "_" then s else arg | [] => [] end.

Section mkfs.
Context `{HO : Host}.

Definition add_file (rootino : Z) (arg : list Z) : MM unit :=
  assertM (forallb (fun c => negb (c =? zc "/")) arg) "index(argv[i], '/') == 0";;
  match host_file arg with
  | None => panic "open"
  | Some reads =>
      let arg := skip_underscore arg in
      inum ← ialloc T_FILE;
      iappend rootino (mk_dirent (xshort inum) arg);;
      append_reads inum reads
  end.

Definition fix_root_size (rootino : Z) : MM unit :=
  din ← rinode rootino;
  let off := xint (d_size din) in
  let off := u32 ((off / BSIZE + 1) * BSIZE) in
  winode rootino (set_dsize (xint off) din).

Definition main (argv : list (list Z)) : MM unit :=
  match argv with
  | _ :: img :: files =>
      assertM (BSIZE mod 64 =? 0) "BSIZE % sizeof(struct dinode)";;
      assertM (BSIZE mod DESIZE =? 0) "BSIZE % sizeof(struct dirent)";;
      assertM (open_img img) "open";;
      modify (fun s => MkMst (m_img s) (m_freeinode s) nmeta);;
      make_image;;
      rootino ← make_root;
      for_each files (add_file rootino);;
      fix_root_size rootino;;
      b ← gets m_freeblock;
      balloc b
  | _ => panic "Usage: mkfs fs.img files..."
  end.
End mkfs.

(** The state the program starts in; the image is created empty. *)
Definition mst0 : mst := MkMst [] 1 0.
