(* ===== verification/Xv6MkfsOk.v ===== *)
(** * mkfs.c makes a well-formed file system (lab2/mkfs.c)

    [iappend] and [ialloc] refine a list of files: an allocation adds an empty
    file, an append adds bytes to one file, and the blocks in use are those the
    lengths of the files ask for. *)

From S2P Require Import Prelude CMem Xv6Bio Xv6Log Xv6Txn Xv6Inode Xv6Disk Xv6Iops Xv6Content Xv6Wrote Xv6Writei Xv6Ialloc Xv6Dir Xv6Path Xv6Image Xv6Mkfs.
From stdpp Require Import base numbers option list gmap strings.
Open Scope Z_scope.
#[local] Opaque Nat.div Nat.modulo.

Notation SB := mkfs_sb.

Lemma mkfs_sb_eq : SB = MkSuper 1000 941 200 30 2 32 58.
Proof. reflexivity. Qed.

Lemma mkfs_geom : geom SB.
Proof. constructor; vm_compute; (split; congruence) || congruence. Qed.

Lemma xint_small x : 0 <= x < 2 ^ 32 -> xint x = x.
Proof. intros Hx. unfold xint. rewrite get32_put32_eq by (rewrite length_replicate; lia). by apply u32_small. Qed.

(** ** The image and the disk it stands for *)

Lemma length_bitmap n : length (bitmap n) = 512%nat.
Proof.
  unfold bitmap. assert (forall l d, length (foldl (fun buf i => bit_set i buf) d l) = length d) as H; [|by rewrite H].
  induction l as [|i l IH]; intros d; [done|]. cbn [foldl]. by rewrite IH, length_bit_set.
Qed.

Lemma bitmap_S n : 0 <= n -> bitmap (n + 1) = bit_set n (bitmap n).
Proof. intros Hn. unfold bitmap. rewrite seqZ_app, foldl_app by lia. done. Qed.

Lemma bitmap_clear n b : 0 <= n <= BPB -> bit_index b -> bit_clear (bitmap n) b = (n <=? b).
Proof.
  intros Hn Hb. destruct Hn as [Hn0 Hn]. revert Hn. pattern n. apply natlike_ind; [|clear n Hn0|done].
  - intros _. unfold bitmap. cbn [foldl seqZ]. rewrite bit_clear_testbit. unfold bit_byte, zeros.
    change (seqZ 0 0) with (@nil Z). cbn [foldl]. rewrite nth_replicate, Z.bits_0. unfold bit_index in Hb. symmetry. apply Z.leb_le. lia.
  - intros n Hn IH Hle. rewrite <- Z.add_1_r, bitmap_S by done.
    rewrite bit_set_clear; [|unfold bit_index; lia|done|apply length_bitmap]. rewrite IH by lia.
    destruct (Z.leb_spec n b), (Z.eqb_spec n b), (Z.leb_spec (n + 1) b); done || lia.
Qed.

(** The image before the first file. *)
Definition super_block : list Z :=
  put32 (put32 (put32 (put32 (put32 (put32 (put32 zeros 0 1000) 4 941) 8 200) 12 30) 16 2) 20 32) 24 58.
Definition blank : list (list Z) := zeros :: super_block :: replicate 998 zeros.

(** The disk is the image with the bitmap of the blocks allocated so far. *)
Record repr (s : mst) (C : gmap Z (list Z)) : Prop := Repr {
  rp_C : C = <[58 := bitmap (m_freeblock s)]> (disk_map (m_img s));
  rp_len : length (m_img s) = 1000%nat;
  rp_blk n d : m_img s !! n = Some d -> length d = 512%nat;
  rp_fb : 59 <= m_freeblock s <= 1000;
  rp_zero n : m_freeblock s <= Z.of_nat n < 1000 -> m_img s !! n = Some zeros;
  rp_boot n : (n < 32)%nat -> m_img s !! n = blank !! n }.

Lemma repr_lookup s C b : repr s C -> 0 <= b -> b <> 58 -> C !! b = m_img s !! Z.to_nat b.
Proof. intros Hr Hb Hne. rewrite (rp_C _ _ Hr), lookup_insert_ne by done. by apply disk_map_home. Qed.

Lemma sector_eq b : 0 <= b < 2 ^ 23 -> sector b = Z.to_nat b.
Proof. intros Hb. unfold sector, BSIZE. rewrite u32_small by lia. by rewrite Z.div_mul by lia. Qed.

Lemma disk_map_insert l n (d : list Z) : (n < length l)%nat -> disk_map (<[n := d]> l) = <[Z.of_nat n := d]> (disk_map l).
Proof.
  intros Hn. apply map_eq. intros b. apply option_eq. intros x. rewrite disk_map_lookup.
  destruct (decide (b = Z.of_nat n)) as [->|Hne].
  - rewrite Nat2Z.id, list_lookup_insert_eq, lookup_insert_eq by done. naive_solver lia.
  - rewrite lookup_insert_ne by done. rewrite disk_map_lookup. split; (intros [? H]; split; [done|]);
      rewrite list_lookup_insert_ne in *; done || lia.
Qed.

(** ** Blocks *)

Lemma rsect_ok s C b d (Q : list Z -> mst -> Prop) :
  repr s C -> 0 <= b < 1000 -> b <> 58 -> C !! b = Some d -> Q d s -> wp (rsect b) Q s.
Proof.
  intros Hr Hb Hne Hd HQ. unfold rsect. apply wp_bind, wp_gets. rewrite sector_eq by lia.
  rewrite <- (repr_lookup s C b) by (done || lia). rewrite Hd. by apply wp_ret.
Qed.

Lemma wsect_ok s C b d (Q : unit -> mst -> Prop) :
  repr s C -> 32 <= b < m_freeblock s -> b <> 58 -> length d = 512%nat ->
  (forall s', repr s' (<[b := d]> C) -> m_freeinode s' = m_freeinode s -> m_freeblock s' = m_freeblock s -> Q tt s') ->
  wp (wsect b d) Q s.
Proof.
  intros Hr Hb Hne Hl HQ. destruct (rp_fb _ _ Hr). apply wp_modify, HQ; [|done|done]. rewrite sector_eq by lia.
  unfold put_sector. rewrite (rp_len _ _ Hr), (proj2 (Nat.ltb_lt _ _)) by lia. destruct Hr as [HC Hlen Hblk Hfb Hz Hbt].
  constructor; cbn [m_img m_freeblock with_img]; try done.
  - rewrite disk_map_insert by lia. rewrite Z2Nat.id by lia. rewrite insert_insert_ne by done. by rewrite HC.
  - by rewrite length_insert.
  - intros n e [(_ & -> & _)|[_ He]]%list_lookup_insert_Some; [done|by eapply Hblk].
  - intros n Hn. rewrite list_lookup_insert_ne by lia. by apply Hz.
  - intros n Hn. rewrite list_lookup_insert_ne by lia. by apply Hbt.
Qed.

Lemma repr_blk s C n : repr s C -> fblk SB n -> exists d, C !! n = Some d /\ length d = 512%nat.
Proof.
  intros Hr Hn. unfold fblk in Hn. rewrite mkfs_sb_eq in Hn. cbn [sb_inodestart sb_size] in Hn.
  rewrite (rp_C _ _ Hr). destruct (decide (n = 58)) as [->|Hne].
  - eexists. rewrite lookup_insert_eq. split; [done|apply length_bitmap].
  - rewrite lookup_insert_ne, disk_map_home by (done || lia).
    destruct (lookup_lt_is_Some_2 (m_img s) (Z.to_nat n)) as [d Hd]; [rewrite (rp_len _ _ Hr); lia|].
    exists d. split; [done|by eapply rp_blk].
Qed.

Lemma BBLOCK_58 b : 0 <= b < 1000 -> BBLOCK b SB = 58.
Proof.
  intros Hb. rewrite (proj1 (BBLOCK_eq SB mkfs_geom b Hb)). rewrite mkfs_sb_eq. cbn [sb_bmapstart].
  rewrite Z.div_small; [done|]. unfold BPB, BSIZE. lia.
Qed.

(** The bitmap says that the blocks from [freeblock] on are free. *)
Lemma repr_free s C b : repr s C -> 0 <= b < 1000 -> free SB C b = (m_freeblock s <=? b).
Proof.
  intros Hr Hb. destruct (rp_fb _ _ Hr). unfold free. rewrite BBLOCK_58 by done. rewrite (rp_C _ _ Hr), lookup_insert_eq.
  rewrite Z.mod_small by (unfold BPB, BSIZE; lia). apply bitmap_clear; [unfold BPB, BSIZE; lia|].
  unfold bit_index, BPB, BSIZE. lia.
Qed.

(** The next block is a free one, and zero. *)
Lemma next_block_ok s C (Q : Z -> mst -> Prop) :
  repr s C -> m_freeblock s < 1000 ->
  (forall s', let b := m_freeblock s in repr s' (alloc_blk SB b C) -> free SB C b = true -> blk_ok SB b -> 59 <= b ->
     m_freeinode s' = m_freeinode s -> m_freeblock s' = b + 1 -> Q b s') ->
  wp next_block Q s.
Proof.
  intros Hr Hlt HQ. pose proof Hr as [HC Hlen Hblk Hfb Hz Hbt]. set (b := m_freeblock s) in *.
  unfold next_block. apply wp_bind, wp_gets, wp_bind, wp_modify, wp_ret. fold b.
  assert (u32 (b + 1) = b + 1) as E by (apply u32_small; lia).
  apply HQ; cbn [m_freeinode m_freeblock]; try done; [|rewrite (repr_free s C) by (done || lia); by apply Z.leb_refl| |lia].
  - constructor; cbn [m_img m_freeblock]; rewrite ?E; try done; [|lia|intros n Hn; apply Hz; lia].
    unfold alloc_blk, mark. rewrite BBLOCK_58 by lia. rewrite HC, lookup_insert_eq, insert_insert_eq.
    rewrite (Z.mod_small b) by (unfold BPB, BSIZE; lia). cbn [default from_option id].
    rewrite <- bitmap_S by lia. rewrite insert_insert_ne by lia. f_equal.
    apply insert_id. rewrite disk_map_home by lia. apply Hz. lia.
  - unfold blk_ok. rewrite mkfs_sb_eq. cbn [sb_size]. lia.
Qed.

(** ** The block of an append *)

(** No block of the file has changed. *)
Definition same_file (C C' : gmap Z (list Z)) (x : dinode) : Prop :=
  forall k, (k < NSLOT)%nat -> slot C x k <> 0 -> C' !! slot C x k = C !! slot C x k.

Lemma same_slot C C' x k : same_file C C' x -> slot C' x k = slot C x k.
Proof. intros H. apply slot_frame. apply H. unfold NSLOT. lia. Qed.

Lemma same_file_trans C1 C2 C3 x : same_file C1 C2 x -> same_file C2 C3 x -> same_file C1 C3 x.
Proof.
  intros H1 H2 k Hk H0. pose proof (same_slot _ _ _ k H1) as E. rewrite <- (H1 k Hk H0), <- E. apply H2; [done|by rewrite E].
Qed.

Lemma same_alloc C D j b :
  fs_ok SB C D [] -> inum_ok SB j -> live (D j) -> blk_ok SB b -> free SB C b = true -> same_file C (alloc_blk SB b C) (D j).
Proof.
  intros Hf Hj Hl Hb Hfr k Hk H0. apply (fo_free _ _ _ _ Hf b Hb) in Hfr as (? & _ & Hno).
  pose proof (fo_slot _ _ _ _ Hf j k Hj Hl Hk H0). destruct (BBLOCK_eq SB mkfs_geom b Hb).
  unfold alloc_blk. rewrite lookup_insert_ne, mark_other; [done|lia|]. intros E. apply Hno. by exists j, k.
Qed.

Lemma same_insert C D i j k d :
  fs_ok SB C D [] -> inum_ok SB i -> inum_ok SB j -> live (D i) -> live (D j) -> i <> j -> (k < NSLOT)%nat ->
  slot C (D i) k <> 0 -> same_file C (<[slot C (D i) k := d]> C) (D j).
Proof.
  intros Hf Hi Hj Hli Hlj Hne Hk H0 l Hl H1. apply lookup_insert_ne. intros E.
  by destruct (fo_inj _ _ _ _ Hf i j k l) as [? _].
Qed.

(** The blocks of files were allocated. *)
Lemma repr_owned s C D i k :
  repr s C -> fs_ok SB C D [] -> inum_ok SB i -> live (D i) -> (k < NSLOT)%nat -> slot C (D i) k <> 0 ->
  59 <= slot C (D i) k < m_freeblock s.
Proof.
  intros Hr Hf Hi Hl Hk H0. pose proof (fo_slot _ _ _ _ Hf i k Hi Hl Hk H0) as Hir.
  unfold dstart in Hir. rewrite mkfs_sb_eq in Hir. cbn [sb_size sb_nblocks] in Hir. split; [lia|].
  destruct (Z.leb_spec (m_freeblock s) (slot C (D i) k)) as [Hle|]; [|done].
  pose proof (repr_free s C (slot C (D i) k) Hr ltac:(lia)) as Ef. rewrite (proj2 (Z.leb_le _ _) Hle) in Ef.
  apply (fo_free _ _ _ _ Hf) in Ef as (_ & _ & Hno); [|unfold blk_ok; rewrite mkfs_sb_eq; simpl; lia].
  destruct Hno. by exists i, k.
Qed.

(** An inode but for its size, which [iappend] stores at its end. *)
Definition upto_size (din x : dinode) : Prop := set_dsize (d_size x) din = x.

Lemma upto_addrs din x : upto_size din x -> d_addrs din = d_addrs x.
Proof. intros E. by rewrite <- E. Qed.

Lemma upto_addr din x k b : upto_size din x -> upto_size (set_daddr k b din) (set_daddr k b x).
Proof. intros E. unfold upto_size in *. by rewrite <- E at 2. Qed.

Lemma nth_addr x k : di_ok x -> 0 <= nth k (d_addrs x) 0 < 2 ^ 32.
Proof.
  intros Hx. rewrite nth_lookup. destruct (d_addrs x !! k) as [b|] eqn:E; simpl; [|lia].
  by apply (do_addrs _ Hx), (list_elem_of_lookup_2 _ k).
Qed.

(** The blocks that the block [bn] of a file needs. *)
Definition need (C : gmap Z (list Z)) (x : dinode) (bn : nat) : Z :=
  if decide (slot C x (dslot bn) = 0) then Z.of_nat (length (filter (fun k => slot C x k = 0) (bslots bn))) else 0.

Record appended (i : Z) (bn : nat) (s : mst) (C : gmap Z (list Z)) (D : Z -> dinode)
    (s' : mst) (C1 : gmap Z (list Z)) (D1 : Z -> dinode) : Prop := Appended {
  ap_repr : repr s' C1;
  ap_grew : exists K W, grew SB i K C [] D C1 W D1 /\
    (K = [] /\ D1 = D /\ slot C (D i) (dslot bn) <> 0 \/ K = bslots bn /\ slot C (D i) (dslot bn) = 0);
  ap_slot : slot C1 (D1 i) (dslot bn) <> 0;
  ap_zero : slot C (D i) (dslot bn) = 0 -> C1 !! slot C1 (D1 i) (dslot bn) = Some zeros;
  ap_same j : j <> i -> inum_ok SB j -> live (D j) -> same_file C C1 (D j);
  ap_next : m_freeinode s' = m_freeinode s;
  ap_used : m_freeblock s' = m_freeblock s + need C (D i) bn }.

Section append.
Context (s : mst) (C : gmap Z (list Z)) (D : Z -> dinode) (i : Z) (din : dinode).
Context (Hr : repr s C) (Hf : fs_ok SB C D []) (Hi : inum_ok SB i) (Hl : live (D i)) (Hu : upto_size din (D i)).

Lemma appended_refl bn : slot C (D i) (dslot bn) <> 0 -> appended i bn s C D s C D.
Proof.
  intros H0. constructor; try done.
  - exists [], []. split; [by apply grew_refl|by left].
  - unfold need. rewrite decide_False by done. lia.
Qed.

(** A block in one of the addresses of the inode. *)
Lemma fresh_addr k (Q : dinode -> mst -> Prop) :
  (k <= NDIRECT)%nat -> slot C (D i) k = 0 -> m_freeblock s < 1000 ->
  (forall din' s' C1 D1 W, repr s' C1 -> grew SB i [k] C [] D C1 W D1 -> (length W <= 2)%nat -> upto_size din' (D1 i) ->
     C1 !! slot C1 (D1 i) k = Some zeros -> (forall j, j <> i -> inum_ok SB j -> live (D j) -> same_file C C1 (D j)) ->
     m_freeinode s' = m_freeinode s -> m_freeblock s' = m_freeblock s + 1 -> Q din' s') ->
  wp (b ← next_block; mret (set_daddr k (xint b) din)) Q s.
Proof.
  intros Hk H0 Hlt HQ. apply wp_bind. eapply next_block_ok; [exact Hr|done|]. intros s' b Hr' Hfr Hb Hge Hn Hfb. apply wp_ret.
  rewrite xint_small by lia. destruct (grew_addr SB mkfs_geom i k b C [] D Hf Hi Hl Hk H0 Hb Hfr) as [Hg Hs].
  eapply (HQ _ _ _ _ _ Hr' Hg); try done; rewrite ?upd_eq.
  - pose proof (add_block_length b (add_block (BBLOCK b SB) [])). pose proof (add_block_length (BBLOCK b SB) []). simpl in *. lia.
  - by apply upto_addr.
  - rewrite Hs. apply lookup_insert_eq.
  - intros j _ Hj Hlj. by apply (same_alloc C D j b).
Qed.

(** A block in an entry of the indirect block [ind]. *)
Lemma fresh_entry k d W0 (Q : list Z -> mst -> Prop) :
  let ind := slot C (D i) NDIRECT in
  (NDIRECT < k < NSLOT)%nat -> slot C (D i) k = 0 -> ind <> 0 -> C !! ind = Some d -> m_freeblock s < 1000 ->
  (forall s' C1 W e, repr s' C1 -> grew SB i [NDIRECT; k] C W0 D C1 W D -> (length W <= length W0 + 3)%nat ->
     get32 e (4 * (k - S NDIRECT)) = slot C1 (D i) k -> C1 !! slot C1 (D i) k = Some zeros ->
     (forall j, j <> i -> inum_ok SB j -> live (D j) -> same_file C C1 (D j)) ->
     m_freeinode s' = m_freeinode s -> m_freeblock s' = m_freeblock s + 1 -> Q e s') ->
  wp (b ← next_block; let indirect := put32 d (4 * (k - S NDIRECT)) (xint b) in wsect ind indirect;; mret indirect) Q s.
Proof.
  intros ind Hk H0 Hind Hd Hlt HQ. apply wp_bind. eapply next_block_ok; [exact Hr|done|]. intros s1 b Hr1 Hfr Hb Hge Hn Hfb.
  destruct (grew_entry SB mkfs_geom i k b C W0 D d Hf Hi Hl Hk H0 Hind Hd Hb Hfr) as (Hg & Hs & Hd1). fold ind in Hg, Hs, Hd1.
  pose proof (repr_owned s C D i NDIRECT Hr Hf Hi Hl ltac:(unfold NSLOT; lia) Hind) as Hir. fold ind b in Hir.
  assert (ind < b) as Hib by lia. unfold blk_ok in Hb. rewrite mkfs_sb_eq in Hb. cbn [sb_size] in Hb.
  destruct (repr_blk s C ind Hr) as (d' & Hd' & Hlen); [unfold fblk; rewrite mkfs_sb_eq; simpl; lia|].
  assert (d' = d) as -> by congruence. rewrite xint_small by lia. cbv zeta. apply wp_bind.
  eapply wsect_ok; [exact Hr1|lia|lia|by rewrite length_put32|]. intros s2 Hr2 Hn2 Hfb2. apply wp_ret.
  assert (get32 (put32 d (4 * (k - S NDIRECT)) b) (4 * (k - S NDIRECT)) = b) as Eg.
  { rewrite get32_put32_eq; [apply u32_small; lia|]. unfold NSLOT, NDIRECT, NINDIRECT in *. lia. }
  eapply (HQ _ _ _ _ Hr2 Hg); try congruence.
  - pose proof (add_block_length ind (add_block b (add_block (BBLOCK b SB) W0))).
    pose proof (add_block_length b (add_block (BBLOCK b SB) W0)). pose proof (add_block_length (BBLOCK b SB) W0). lia.
  - rewrite Hs. rewrite lookup_insert_ne by lia. apply lookup_insert_eq.
  - intros j Hne Hj Hlj. pose proof (same_alloc C D j b Hf Hj Hlj Hb Hfr) as Hsa. eapply same_file_trans; [exact Hsa|].
    intros l Hll H1. apply lookup_insert_ne. intros E. rewrite (same_slot _ _ _ _ Hsa) in E, H1.
    destruct (fo_inj _ _ _ _ Hf i j NDIRECT l) as [? _]; try done; unfold NSLOT; lia.
  - unfold b in Hfb. lia.
Qed.
End append.

Section append_block.
Context (s : mst) (C : gmap Z (list Z)) (D : Z -> dinode) (i : Z) (din : dinode).
Context (Hr : repr s C) (Hf : fs_ok SB C D []) (Hi : inum_ok SB i) (Hl : live (D i)) (Hu : upto_size din (D i)).

Lemma addr_slot k : (k <= NDIRECT)%nat -> xint (nth k (d_addrs din) 0) = slot C (D i) k.
Proof.
  intros Hk. rewrite (upto_addrs _ _ Hu), slot_direct by done. apply xint_small, nth_addr. by apply (fo_di _ _ _ _ Hf).
Qed.

Lemma need_direct bn : (bn < NDIRECT)%nat -> slot C (D i) bn = 0 -> need C (D i) bn = 1.
Proof.
  intros Hlt H0. unfold need, dslot, bslots. rewrite (proj2 (Nat.ltb_lt _ _) Hlt). rewrite decide_True by done.
  rewrite filter_cons, decide_True by done. done.
Qed.

Lemma append_block_direct bn (Q : dinode * Z -> mst -> Prop) :
  (bn < NDIRECT)%nat -> m_freeblock s + need C (D i) bn <= 1000 ->
  (forall din' s' C1 D1, appended i bn s C D s' C1 D1 -> upto_size din' (D1 i) ->
     Q (din', slot C1 (D1 i) (dslot bn)) s') ->
  wp (append_block din (Z.of_nat bn)) Q s.
Proof.
  intros Hlt Hcap HQ. unfold append_block. rewrite (proj2 (Z.ltb_lt _ _)) by lia. rewrite Nat2Z.id. cbv zeta.
  rewrite addr_slot by lia. assert (dslot bn = bn) as Ed by (unfold dslot; by rewrite (proj2 (Nat.ltb_lt _ _) Hlt)).
  destruct (Z.eqb_spec (slot C (D i) bn) 0) as [E|E].
  - rewrite need_direct in Hcap by done. apply wp_bind. eapply (fresh_addr s C D i din); try done; [lia|lia|].
    intros din' s' C1 D1 W Hr1 Hg HW Hu1 Hz Hs Hn Hfb. apply wp_ret.
    assert (xint (nth bn (d_addrs din') 0) = slot C1 (D1 i) (dslot bn)) as ->.
    { rewrite (upto_addrs _ _ Hu1), Ed, slot_direct by lia. apply xint_small, nth_addr. by apply (gr_ok _ _ _ _ _ _ _ _ _ Hg). }
    apply HQ; [|done]. constructor; rewrite ?Ed; try done.
    + exists [bn], W. split; [done|right]. unfold bslots. by rewrite (proj2 (Nat.ltb_lt _ _) Hlt).
    + eapply gr_new; [exact Hg|left].
    + by rewrite need_direct.
  - apply wp_bind, wp_ret, wp_ret. rewrite addr_slot by lia. rewrite <- Ed at 1. apply HQ; [|done]. apply appended_refl; [done|done|by rewrite Ed].
Qed.

(** The indirect block is there, or it is allocated. *)
Lemma append_ind bn (Q : dinode -> mst -> Prop) :
  (NDIRECT <= bn < NDIRECT + NINDIRECT)%nat -> m_freeblock s + need C (D i) bn <= 1000 ->
  (forall din' s' K1 C1 D1 W1, repr s' C1 -> grew SB i K1 C [] D C1 W1 D1 -> (length W1 <= 2)%nat -> upto_size din' (D1 i) ->
     (forall k, k ∈ K1 -> k = NDIRECT) -> (length K1 <= 1)%nat -> slot C1 (D1 i) NDIRECT <> 0 ->
     slot C1 (D1 i) (S bn) = slot C (D i) (S bn) -> (slot C (D i) (S bn) <> 0 -> s' = s /\ C1 = C /\ D1 = D) ->
     (forall j, j <> i -> inum_ok SB j -> live (D j) -> same_file C C1 (D j)) -> m_freeinode s' = m_freeinode s ->
     (slot C (D i) (S bn) = 0 -> m_freeblock s' + 1 = m_freeblock s + need C (D i) bn) -> Q din' s') ->
  wp (if xint (nth NDIRECT (d_addrs din) 0) =? 0 then b ← next_block; mret (set_daddr NDIRECT (xint b) din) else mret din) Q s.
Proof.
  intros Hbn Hcap HQ. rewrite addr_slot by lia. unfold need, dslot, bslots in *.
  rewrite (proj2 (Nat.ltb_ge bn NDIRECT)) in * by lia. destruct (Z.eqb_spec (slot C (D i) NDIRECT) 0) as [E|E].
  - assert (slot C (D i) (S bn) = 0) as E0.
    { destruct (decide (slot C (D i) (S bn) = 0)) as [|Hne]; [done|]. apply slot_ind_ne in Hne; [done|lia]. }
    rewrite !filter_cons, !decide_True in * by done. change (Z.of_nat (length _)) with 2 in *.
    eapply (fresh_addr s C D i din); try done; [lia|].
    intros din' s' C1 D1 W Hr1 Hg HW Hu1 Hz Hs Hn Hfb. eapply (HQ _ _ _ _ _ _ Hr1 Hg); try done.
    + by intros k ->%list_elem_of_singleton.
    + eapply gr_new; [exact Hg|left].
    + apply (gr_slots _ _ _ _ _ _ _ _ _ Hg); [unfold NSLOT; lia|]. intros ?%list_elem_of_singleton. lia.
    + lia.
  - apply wp_ret. eapply (HQ _ _ _ _ _ _ Hr (grew_refl SB i C [] D Hf)); try done; try (simpl; lia).
    + by intros k ?%not_elem_of_nil.
    + intros E0. rewrite decide_True, !filter_cons, decide_False, decide_True by done. done.
Qed.

Lemma append_block_ok bn (Q : dinode * Z -> mst -> Prop) :
  (bn < NDIRECT + NINDIRECT)%nat -> m_freeblock s + need C (D i) bn <= 1000 ->
  (forall din' s' C1 D1, appended i bn s C D s' C1 D1 -> upto_size din' (D1 i) ->
     Q (din', slot C1 (D1 i) (dslot bn)) s') ->
  wp (append_block din (Z.of_nat bn)) Q s.
Proof.
  intros Hbn Hcap HQ. destruct (decide (bn < NDIRECT)%nat) as [Hlt|Hge]; [by apply append_block_direct|].
  unfold append_block. rewrite (proj2 (Z.ltb_ge _ _)) by lia. cbv zeta.
  replace (Z.to_nat (Z.of_nat bn - Z.of_nat NDIRECT)) with (S bn - S NDIRECT)%nat by lia.
  apply wp_bind. apply (append_ind bn); [lia|done|].
  intros din1 s1 K1 C1 D1 W1 Hr1 Hg1 HW1 Hu1 HK1 HlK Hind Hsb Hid Hs1 Hn1 Hfb1.
  pose proof (gr_ok _ _ _ _ _ _ _ _ _ Hg1) as Hf1. pose proof (grew_live _ _ _ _ _ _ _ _ _ Hg1 Hi Hl) as Hl1.
  assert (dslot bn = S bn) as Ed by (unfold dslot; by rewrite (proj2 (Nat.ltb_ge _ _)) by lia).
  assert (xint (nth NDIRECT (d_addrs din1) 0) = slot C1 (D1 i) NDIRECT) as ->.
  { rewrite (upto_addrs _ _ Hu1), slot_direct by lia. apply xint_small, nth_addr. by apply Hf1. }
  pose proof (fo_slot _ _ _ _ Hf1 i NDIRECT Hi Hl1 ltac:(unfold NSLOT; lia) Hind) as Hir.
  unfold dstart in Hir. rewrite mkfs_sb_eq in Hir. cbn [sb_size sb_nblocks] in Hir.
  destruct (repr_blk s1 C1 (slot C1 (D1 i) NDIRECT) Hr1) as (d & Hd & _); [unfold fblk; rewrite mkfs_sb_eq; simpl; lia|].
  apply wp_bind. eapply rsect_ok; [exact Hr1|lia|lia|exact Hd|].
  assert (get32 d (4 * (S bn - S NDIRECT)) = slot C1 (D1 i) (S bn)) as Eg.
  { rewrite (slot_indirect C1 _ (S bn)) by lia. by rewrite (proj2 (Z.eqb_neq _ 0) Hind), Hd. }
  rewrite Eg, Hsb. destruct (Z.eqb_spec (slot C (D i) (S bn)) 0) as [E|E].
  - specialize (Hfb1 E). apply wp_bind. rewrite E in Hsb. eapply (fresh_entry s1 C1 D1 i Hr1 Hf1 Hi Hl1 (S bn) d W1); try done; [unfold NSLOT; lia|lia|].
    intros s2 C2 W2 e Hr2 Hg2 HW2 Ee Hz2 Hs2 Hn2 Hfb2. apply wp_ret.
    pose proof (gr_ok _ _ _ _ _ _ _ _ _ Hg2) as Hf2. pose proof (grew_live _ _ _ _ _ _ _ _ _ Hg2 Hi Hl1) as Hl2.
    destruct (gr_new _ _ _ _ _ _ _ _ _ Hg2 (S bn)) as [Hlt2 Hne2]; [right; left|].
    pose proof (fo_slot _ _ _ _ Hf2 i (S bn) Hi Hl2 Hlt2 Hne2) as Hr2'. pose proof (geom_facts SB mkfs_geom).
    rewrite Ee, xint_small by lia. rewrite <- Ed at 1. apply HQ; [|done]. constructor; rewrite ?Ed; try done; try congruence; try lia.
    + exists [NDIRECT; S bn], W2. split; [|right; split; [|done]].
      * apply (grew_indirect SB mkfs_geom i bn K1 C [] D C1 W1); try done. simpl. lia.
      * unfold bslots. by rewrite (proj2 (Nat.ltb_ge _ _)) by lia.
    + intros j Hne Hj Hlj. eapply same_file_trans; [by apply Hs1|]. pose proof (gr_D _ _ _ _ _ _ _ _ _ Hg1 j Hne) as Ej. rewrite <- Ej.
      apply Hs2; [done|done|by rewrite Ej].
  - destruct (Hid E) as (-> & -> & ->). apply wp_bind, wp_ret, wp_ret. rewrite Eg, xint_small.
    + rewrite <- Ed. apply HQ; [|done]. apply appended_refl; [done|done|by rewrite Ed].
    + pose proof (fo_slot _ _ _ _ Hf i (S bn) Hi Hl ltac:(unfold NSLOT; lia) E). pose proof (geom_facts SB mkfs_geom). lia.
Qed.
End append_block.

(** ** Files that grow at their end *)

(** The blocks of a file of [n] bytes, the indirect block among them. *)
Definition blocks_of (n : Z) : Z := (n + 511) / 512 + (if 6144 <? n then 1 else 0).

Lemma blocks_of_mono n m : n <= m -> blocks_of n <= blocks_of m.
Proof.
  intros H. unfold blocks_of. assert ((n + 511) / 512 <= (m + 511) / 512) by (apply Z.div_le_mono; lia).
  destruct (Z.ltb_spec 6144 n), (Z.ltb_spec 6144 m); lia.
Qed.

(** A file has no more blocks than its size asks for, and the rest of its last
    block is zero. *)
Record filled (C : gmap Z (list Z)) (x : dinode) : Prop := Filled {
  fi_slot bn : (bn < NDIRECT + NINDIRECT)%nat -> d_size x <= Z.of_nat bn * 512 -> slot C x (dslot bn) = 0;
  fi_ind : d_size x <= 6144 -> slot C x NDIRECT = 0;
  fi_zero t : (t / 512 < NDIRECT + NINDIRECT)%nat -> slot C x (dslot (t / 512)) <> 0 -> d_size x <= Z.of_nat t -> fbyte C x t = 0 }.

Lemma fbyte_same C C' x t :
  same_file C C' x -> (t / 512 < NDIRECT + NINDIRECT)%nat -> slot C x (dslot (t / 512)) <> 0 -> fbyte C' x t = fbyte C x t.
Proof. intros Hs Ht H0. unfold fbyte, dblk. rewrite (same_slot _ _ _ _ Hs). by rewrite (Hs _ (dslot_lt _ Ht) H0). Qed.

Lemma filled_same C C' x : same_file C C' x -> filled C x -> filled C' x.
Proof.
  intros Hs [H1 H2 H3]. constructor.
  - intros bn. rewrite (same_slot _ _ _ _ Hs). apply H1.
  - rewrite (same_slot _ _ _ _ Hs). apply H2.
  - intros t Ht H0 Hle. rewrite (same_slot _ _ _ _ Hs) in H0. rewrite (fbyte_same _ _ _ _ Hs) by done. by apply H3.
Qed.

(** The blocks an append takes are those the new size asks for. *)
Lemma need_blocks C x off n :
  filled C x -> d_size x = Z.of_nat off -> (forall bn, Z.of_nat bn * BSIZE < d_size x -> slot C x (dslot bn) <> 0) ->
  (0 < n)%nat -> (off mod 512 + n <= 512)%nat -> (off / 512 < NDIRECT + NINDIRECT)%nat ->
  need C x (off / 512) = blocks_of (Z.of_nat (off + n)) - blocks_of (Z.of_nat off).
Proof.
  intros Hfi Hsz Hsl Hn Ho Hbn. pose proof (Nat.div_mod off 512 ltac:(lia)) as E.
  pose proof (Nat.mod_upper_bound off 512 ltac:(lia)). set (bn := (off / 512)%nat) in *. unfold BSIZE in Hsl.
  assert (blocks_of (Z.of_nat (off + n)) = Z.of_nat bn + 1 + (if (bn <? NDIRECT)%nat then 0 else 1)) as ->.
  { unfold blocks_of. replace ((Z.of_nat (off + n) + 511) / 512) with (Z.of_nat bn + 1) by dlia.
    unfold NDIRECT. destruct (Nat.ltb_spec bn 12), (Z.ltb_spec 6144 (Z.of_nat (off + n))); lia. }
  unfold need. case_decide as E0.
  - assert (off mod 512 = 0)%nat as Hm.
    { destruct (decide (off mod 512 = 0)%nat) as [|Hne]; [done|]. destruct (Hsl bn); [lia|done]. }
    assert (blocks_of (Z.of_nat off) = Z.of_nat bn + (if (bn <=? NDIRECT)%nat then 0 else 1)) as ->.
    { unfold blocks_of. replace ((Z.of_nat off + 511) / 512) with (Z.of_nat bn) by dlia.
      unfold NDIRECT. destruct (Nat.leb_spec bn 12), (Z.ltb_spec 6144 (Z.of_nat off)); lia. }
    unfold bslots, dslot in *. destruct (Nat.ltb_spec bn NDIRECT) as [Hlt|Hge].
    + rewrite filter_cons, decide_True by done. rewrite (proj2 (Nat.leb_le _ _)) by lia. simpl. lia.
    + rewrite !filter_cons, (decide_True (P := slot C x (S bn) = 0)) by done. destruct (Nat.leb_spec bn NDIRECT) as [Hle|Hgt].
      * rewrite decide_True by (apply (fi_ind _ _ Hfi); unfold NDIRECT in *; lia). simpl. lia.
      * rewrite decide_False; [simpl; lia|]. apply (slot_ind_ne _ _ (S NDIRECT)); [lia|].
        apply (Hsl NDIRECT). unfold NDIRECT in *. lia.
  - assert (off mod 512 <> 0)%nat as Hm.
    { intros Hm. apply E0, (fi_slot _ _ Hfi); [done|]. lia. }
    unfold blocks_of. replace ((Z.of_nat off + 511) / 512) with (Z.of_nat bn + 1) by dlia.
    unfold NDIRECT. destruct (Nat.ltb_spec bn 12), (Z.ltb_spec 6144 (Z.of_nat off)); lia.
Qed.

Lemma write_at_end f l : write_at f (length f) l = f ++ l.
Proof. unfold write_at. rewrite firstn_all, drop_ge by lia. by rewrite app_nil_r. Qed.

Lemma last_block off (l : list Z) :
  (0 < length l)%nat -> Z.of_nat (off + length l) <= 71680 -> (off / 512 < NDIRECT + NINDIRECT)%nat.
Proof. intros. pose proof (Nat.div_mod off 512 ltac:(lia)). unfold NDIRECT, NINDIRECT. lia. Qed.

(** ** One round of [iappend] *)

Section round.
Context (s s1 : mst) (C C1 : gmap Z (list Z)) (D D1 : Z -> dinode) (i : Z) (off : nat) (l d : list Z).
Context (Hf : fs_ok SB C D []) (Hi : inum_ok SB i) (Hl : live (D i)).
Context (Hfi : filled C (D i)) (Hsz : d_size (D i) = Z.of_nat off).
Context (Hne : (0 < length l)%nat) (Ho : (off mod 512 + length l <= 512)%nat) (Hmax : Z.of_nat (off + length l) <= 71680).
Let bn : nat := (off / 512)%nat.
Context (Hap : appended i bn s C D s1 C1 D1).
Let x : Z := slot C1 (D1 i) (dslot bn).
Context (Hd : C1 !! x = Some d).
Definition round_C : gmap Z (list Z) := <[x := list_inserts (off mod 512) l d]> C1.
Definition round_D : Z -> dinode := upd D1 i (set_dsize (Z.of_nat (off + length l)) (D1 i)).

Lemma round_wrote : exists T W, wrote SB i off l T C [] D round_C W D1.
Proof.
  destruct (ap_grew _ _ _ _ _ _ _ _ Hap) as (K & W & Hg & HK). eexists _, _.
  eapply (wrote_block SB mkfs_geom i off l C [] D K C1 W D1 d); try done; [by apply (last_block off l)|apply (ap_slot _ _ _ _ _ _ _ _ Hap)].
Qed.

Lemma round_store :
  (forall k, slot round_C (D1 i) k = slot C1 (D1 i) k) /\ forall j, j <> i -> inum_ok SB j -> live (D j) -> same_file C round_C (D j).
Proof.
  destruct (ap_grew _ _ _ _ _ _ _ _ Hap) as (K & W & Hg & HK).
  pose proof (gr_ok _ _ _ _ _ _ _ _ _ Hg) as Hf1. pose proof (grew_live _ _ _ _ _ _ _ _ _ Hg Hi Hl) as Hl1.
  pose proof (ap_slot _ _ _ _ _ _ _ _ Hap) as Hx. pose proof (dslot_lt bn (last_block off l Hne Hmax)) as Hds.
  destruct (repr_blk s1 C1 x (ap_repr _ _ _ _ _ _ _ _ Hap)) as (d' & Hd' & Hlen).
  { pose proof (fo_slot _ _ _ _ Hf1 i _ Hi Hl1 Hds Hx). pose proof (geom_facts SB mkfs_geom). unfold fblk, x. lia. }
  assert (d' = d) as -> by congruence.
  destruct (store_ok SB mkfs_geom C1 D1 i (dslot bn) (list_inserts (off mod 512) l d) Hf1 Hi Hl1 Hds (dslot_ne bn) Hx)
    as (_ & _ & Hs & _); [by rewrite length_inserts|]. split; [exact Hs|].
  intros j Hj Hjo Hlj. eapply same_file_trans; [by apply (ap_same _ _ _ _ _ _ _ _ Hap)|].
  pose proof (gr_D _ _ _ _ _ _ _ _ _ Hg j Hj) as Ej. rewrite <- Ej. apply same_insert; try done; by rewrite Ej.
Qed.

Lemma round_filled : filled round_C (round_D i).
Proof.
  destruct round_wrote as (T & W & Hw). destruct round_store as [Hs _]. pose proof (last_block off l Hne Hmax) as Hbn.
  pose proof (touched_one off l Hne Ho) as Et. unfold round_D. rewrite upd_eq. pose proof (Nat.div_mod off 512 ltac:(lia)) as E.
  fold bn in E, Et. assert (forall k, slot round_C (set_dsize (Z.of_nat (off + length l)) (D1 i)) k = slot round_C (D1 i) k) as Hsd by done.
  constructor; cbn [d_size set_dsize].
  - intros b Hb Hle. rewrite Hsd, (wt_other _ _ _ _ _ _ _ _ _ _ _ Hw b Hb).
    + apply (fi_slot _ _ Hfi); [done|lia].
    + rewrite Et. intros ->%list_elem_of_singleton. lia.
  - intros Hle. rewrite Hsd, Hs. destruct (ap_grew _ _ _ _ _ _ _ _ Hap) as (K & W' & Hg & HK).
    rewrite (gr_slots _ _ _ _ _ _ _ _ _ Hg NDIRECT); [apply (fi_ind _ _ Hfi); lia|unfold NSLOT; lia|].
    destruct HK as [[-> _]|[-> _]]; [apply not_elem_of_nil|]. rewrite bslots_elem. intros [Hc|[_ Hc]]; [by apply (dslot_ne bn)|].
    unfold NDIRECT in Hc. lia.
  - intros t Ht H0 Hle. rewrite Hsd in H0. change (fbyte round_C (D1 i) t = 0).
    destruct (decide (slot C (D i) (dslot (t / 512)) = 0)) as [Ez|Hnz].
    + destruct (decide (t / 512 = bn)%nat) as [Eb|Hb].
      * unfold fbyte, dblk. rewrite Eb, Hs. fold x. unfold round_C. rewrite lookup_insert_eq. cbn [default from_option id].
        rewrite Eb in Ez. pose proof (ap_zero _ _ _ _ _ _ _ _ Hap Ez) as Hz. fold x in Hz. assert (d = zeros) as -> by congruence.
        rewrite nth_inserts by (unfold zeros; rewrite length_replicate; change (Z.to_nat BSIZE) with 512%nat; lia).
        rewrite decide_False; [apply nth_replicate|]. pose proof (Nat.div_mod t 512 ltac:(lia)) as E'. rewrite Eb in E'. lia.
      * rewrite (wt_other _ _ _ _ _ _ _ _ _ _ _ Hw) in H0; [done|done|]. rewrite Et. by intros ?%list_elem_of_singleton.
    + rewrite (wt_out _ _ _ _ _ _ _ _ _ _ _ Hw) by (done || lia). apply (fi_zero _ _ Hfi); [done|done|lia].
Qed.

Lemma round_ok :
  fs_ok SB round_C round_D [] /\ fbytes round_C (round_D i) = fbytes C (D i) ++ l /\
  (d_type (round_D i) = d_type (D i) /\ d_major (round_D i) = d_major (D i) /\ d_minor (round_D i) = d_minor (D i) /\
    d_nlink (round_D i) = d_nlink (D i)) /\
  (forall j, j <> i -> round_D j = D j) /\ forall j, inum_ok SB j -> round_C !! IBLOCK j SB = C !! IBLOCK j SB.
Proof.
  destruct round_wrote as (T & W & Hw).
  destruct (wrote_bytes SB i off l T C [] D round_C W D1 Hf Hi Hl Hw) as (Hb & Hs & Hn); [lia|exact Hmax|].
  rewrite Z.max_r in Hb, Hs, Hn by lia.
  destruct (wt_attr _ _ _ _ _ _ _ _ _ _ _ Hw) as (A1 & A2 & A3 & A4 & _). unfold round_D. rewrite upd_eq. split_and!; try done.
  - apply resize_ok; [apply (wt_ok _ _ _ _ _ _ _ _ _ _ _ Hw)|done|exact Hn|exact Hs].
  - rewrite Hb. replace off with (length (fbytes C (D i))) at 1 by (rewrite length_fbytes; lia). apply write_at_end.
  - intros j Hj. rewrite upd_ne by done. by apply (wt_D _ _ _ _ _ _ _ _ _ _ _ Hw).
  - apply (wt_inodes _ _ _ _ _ _ _ _ _ _ _ Hw).
Qed.
End round.

(** ** The list of files *)

Record mfile (C : gmap Z (list Z)) (x : dinode) (ty : Z) (f : list Z) : Prop := Mfile {
  mf_type : d_type x = ty;
  mf_major : d_major x = 0;
  mf_minor : d_minor x = 0;
  mf_nlink : d_nlink x = 1;
  mf_size : d_size x = Z.of_nat (length f);
  mf_bytes : fbytes C x = f;
  mf_filled : filled C x }.

Definition used (A : list (Z * list Z)) : Z := foldr (fun a n => blocks_of (Z.of_nat (length a.2)) + n) 0 A.

(** The image holds the files [A], of a type and with contents, in the inodes
    from 1 on; the inodes [X] are not yet on the disk. *)
Record image (X : list Z) (s : mst) (A : list (Z * list Z)) (C : gmap Z (list Z)) (D : Z -> dinode) : Prop := Image {
  im_repr : repr s C;
  im_ok : fs_ok SB C D [];
  im_disk : on_disk SB C D X;
  im_next : m_freeinode s = 1 + Z.of_nat (length A);
  im_count : (length A < 200)%nat;
  im_file k ty f : A !! k = Some (ty, f) -> ty <> 0 /\ mfile C (D (1 + Z.of_nat k)) ty f;
  im_free j : inum_ok SB j -> 1 + Z.of_nat (length A) <= j -> D j = no_inode;
  im_used : m_freeblock s = nmeta + used A }.

Lemma used_insert A k a b :
  A !! k = Some a -> used (<[k := b]> A) = used A - blocks_of (Z.of_nat (length a.2)) + blocks_of (Z.of_nat (length b.2)).
Proof.
  revert k. induction A as [|c A IH]; intros [|k]; simpl; try done; [intros [= ->]; lia|]. intros Hk. rewrite (IH k Hk). lia.
Qed.

Lemma mkfs_inum i : inum_ok SB i <-> 1 <= i < 200.
Proof. unfold inum_ok. by rewrite mkfs_sb_eq. Qed.

Lemma image_inum X s A C D k a : image X s A C D -> A !! k = Some a -> inum_ok SB (1 + Z.of_nat k).
Proof. intros Him Hk. apply lookup_lt_Some in Hk. pose proof (im_count _ _ _ _ _ Him). apply mkfs_inum. lia. Qed.

Lemma mfile_live C x ty f : ty <> 0 -> mfile C x ty f -> live x.
Proof. intros H0 Hm. unfold live. by rewrite (mf_type _ _ _ _ Hm). Qed.

Lemma mfile_same C C' D i ty f :
  fs_ok SB C D [] -> inum_ok SB i -> live (D i) -> same_file C C' (D i) -> mfile C (D i) ty f -> mfile C' (D i) ty f.
Proof.
  intros Hf Hi Hl Hs [H1 H2 H3 H4 H5 H6 H7]. constructor; try done; [|by eapply filled_same].
  rewrite <- H6. unfold fbytes. apply list_fmap_ext. intros n t Ht%lookup_seq.
  destruct (fo_size _ _ _ _ Hf i Hi Hl) as [Hms Hsl].
  destruct (byte_block t (d_size (D i))) as [Hb Hbn]; [lia|done|]. apply fbyte_same; [done|done|by apply Hsl].
Qed.

(** The image after one file has changed. *)
Lemma image_change X s s' A C C' D D' k ty f g :
  image X s A C D -> A !! k = Some (ty, f) -> let i := 1 + Z.of_nat k in
  repr s' C' -> fs_ok SB C' D' [] -> on_disk SB C' D' X -> (forall j, j <> i -> D' j = D j) ->
  (forall j, j <> i -> inum_ok SB j -> live (D j) -> same_file C C' (D j)) -> mfile C' (D' i) ty g ->
  m_freeinode s' = m_freeinode s ->
  m_freeblock s' = m_freeblock s + blocks_of (Z.of_nat (length g)) - blocks_of (Z.of_nat (length f)) ->
  image X s' (<[k := (ty, g)]> A) C' D'.
Proof.
  intros Him Hk i Hr Hf Hod HD Hsame Hg Hn Hu. pose proof (lookup_lt_Some _ _ _ Hk) as Hlt.
  constructor; try done; rewrite ?length_insert.
  - rewrite Hn. apply Him.
  - apply Him.
  - intros j t h [(<- & [= <- <-] & _)|[Hne Hj]]%list_lookup_insert_Some.
    + split; [|done]. by destruct (im_file _ _ _ _ _ Him k ty f Hk).
    + destruct (im_file _ _ _ _ _ Him j t h Hj) as [Ht Hm]. split; [done|]. rewrite HD by lia.
      pose proof (image_inum _ _ _ _ _ _ _ Him Hj) as Hji.
      apply (mfile_same C C' D); [apply Him|done|by eapply mfile_live| |done]. apply Hsame; [lia|done|by eapply mfile_live].
  - intros j Hj Hge. rewrite HD by lia. by apply (im_free _ _ _ _ _ Him).
  - rewrite Hu, (im_used _ _ _ _ _ Him), (used_insert _ _ _ _ Hk). simpl. lia.
Qed.

(** One round of the loop of [iappend], on the bytes [l] of one block. *)
Lemma iappend_round s A C D k ty f l din (m : dinode -> MM (dinode * Z)) (Q : dinode * Z -> mst -> Prop) :
  let i := 1 + Z.of_nat k in let off := length f in
  image [i] s A C D -> A !! k = Some (ty, f) -> upto_size din (D i) ->
  (0 < length l)%nat -> (off mod 512 + length l <= 512)%nat -> Z.of_nat (off + length l) <= 71680 ->
  nmeta + used (<[k := (ty, f ++ l)]> A) <= 1000 ->
  (forall s' C' D' din', image [i] s' (<[k := (ty, f ++ l)]> A) C' D' -> upto_size din' (D' i) -> wp (m din') Q s') ->
  wp ('(din, x) ← append_block din (Z.of_nat (off / 512));
      buf ← rsect x; wsect x (list_inserts (off mod 512) l buf);; m din) Q s.
Proof.
  intros i off Him Hk Hu Hne Ho Hmax Hcap HQ. destruct (im_file _ _ _ _ _ Him k ty f Hk) as [Hty Hm]. fold i in Hm.
  pose proof (image_inum _ _ _ _ _ _ _ Him Hk : inum_ok SB i) as Hi. pose proof (mfile_live _ _ _ _ Hty Hm) as Hl.
  pose proof (im_ok _ _ _ _ _ Him) as Hf. pose proof (im_repr _ _ _ _ _ Him) as Hr.
  destruct (fo_size _ _ _ _ Hf i Hi Hl) as [_ Hsl]. pose proof (mf_size _ _ _ _ Hm : d_size (D i) = Z.of_nat off) as Hsz.
  pose proof (last_block off l Hne Hmax) as Hbn.
  pose proof (need_blocks C (D i) off (length l) (mf_filled _ _ _ _ Hm) Hsz Hsl Hne Ho Hbn) as Hneed.
  rewrite (used_insert _ _ _ _ Hk) in Hcap. cbn [snd] in Hcap. rewrite length_app in Hcap. fold off in Hcap.
  apply wp_bind. apply (append_block_ok s C D i din Hr Hf Hi Hl Hu); [done|rewrite (im_used _ _ _ _ _ Him); lia|].
  intros din' s1 C1 D1 Hap Hu1. set (x := slot C1 (D1 i) (dslot (off / 512))).
  destruct (ap_grew _ _ _ _ _ _ _ _ Hap) as (K & W & Hg & _). pose proof (ap_repr _ _ _ _ _ _ _ _ Hap) as Hr1.
  pose proof (repr_owned s1 C1 D1 i _ Hr1 (gr_ok _ _ _ _ _ _ _ _ _ Hg) Hi (grew_live _ _ _ _ _ _ _ _ _ Hg Hi Hl)
    (dslot_lt _ Hbn) (ap_slot _ _ _ _ _ _ _ _ Hap)) as Hx. fold x in Hx. pose proof (rp_fb _ _ Hr1).
  destruct (repr_blk s1 C1 x Hr1) as (d & Hd & Hlen); [unfold fblk; rewrite mkfs_sb_eq; simpl; lia|].
  apply wp_bind. eapply rsect_ok; [exact Hr1|lia|lia|exact Hd|]. apply wp_bind.
  eapply wsect_ok; [exact Hr1|lia|lia|by rewrite length_inserts|]. intros s2 Hr2 Hn2 Hfb2.
  destruct (round_ok s s1 C C1 D D1 i off l d Hf Hi Hl Hsz Hne Ho Hmax Hap Hd) as (Hf2 & Hb2 & (A1 & A2 & A3 & A4) & HD2 & Hin2).
  pose proof (round_filled s s1 C C1 D D1 i off l d Hi Hl (mf_filled _ _ _ _ Hm) Hsz Hne Ho Hmax Hap Hd) as Hfi2.
  destruct (round_store s s1 C C1 D D1 i off l d Hi Hl Hne Ho Hmax Hap Hd) as [_ Hsame2].
  apply (HQ s2 (round_C C1 D1 i off l d) (round_D D1 i off l) din').
  - apply (image_change [i] s s2 A C _ D _ k ty f); try done.
    + intros j Hj HjX. rewrite Hin2 by done. rewrite HD2 by set_solver. by apply (im_disk _ _ _ _ _ Him).
    + fold i. destruct Hm as [M1 M2 M3 M4 _ M6 _]. constructor; [congruence..| |by rewrite Hb2, M6|exact Hfi2].
      unfold round_D. by rewrite upd_eq, length_app.
    + rewrite Hn2. apply (ap_next _ _ _ _ _ _ _ _ Hap).
    + rewrite Hfb2, (ap_used _ _ _ _ _ _ _ _ Hap), Hneed, length_app. fold off. lia.
  - unfold round_D. rewrite upd_eq. unfold upto_size in *. rewrite <- Hu1. done.
Qed.

Lemma iappend_loop_ok fuel s A C D k ty f p din (Q : dinode * Z -> mst -> Prop) :
  let i := 1 + Z.of_nat k in
  image [i] s A C D -> A !! k = Some (ty, f) -> upto_size din (D i) -> (length p <= fuel)%nat ->
  Z.of_nat (length f + length p) <= 71680 -> nmeta + used (<[k := (ty, f ++ p)]> A) <= 1000 ->
  (forall s' C' D' din', image [i] s' (<[k := (ty, f ++ p)]> A) C' D' -> upto_size din' (D' i) ->
     Q (din', Z.of_nat (length (f ++ p))) s') ->
  wp (iappend_loop fuel din (Z.of_nat (length f)) p) Q s.
Proof.
  intros i. revert s A C D f p din. induction fuel as [|fuel IH]; intros s A C D f p din Him Hk Hu Hfuel Hmax Hcap HQ.
  { destruct p; [|simpl in Hfuel; lia]. apply wp_ret. rewrite app_nil_r, (list_insert_id _ _ _ Hk) in HQ. by eapply HQ. }
  destruct (decide (p = [])) as [->|Hp].
  { apply wp_ret. rewrite app_nil_r, (list_insert_id _ _ _ Hk) in HQ. by eapply HQ. }
  assert (0 < length p)%nat as Hne by (destruct p; simpl; [done|lia]).
  set (off := length f) in *. destruct (chunk_facts off (length p) Hne) as (Hc1 & Hc2 & _).
  set (n1 := chunk off (length p)) in *. pose proof (Nat.div_mod off 512 ltac:(lia)) as E.
  assert (iappend_loop (S fuel) din (Z.of_nat off) p = (
    assertM (Z.of_nat (off / 512) <? MAXFILE) "fbn < MAXFILE";;
    '(din, x) ← append_block din (Z.of_nat (off / 512));
    buf ← rsect x; wsect x (list_inserts (off mod 512) (take n1 p) buf);;
    iappend_loop fuel din (Z.of_nat (length (f ++ take n1 p))) (drop n1 p))) as ->.
  { destruct p as [|c p]; [done|]. cbn [iappend_loop]. replace (Z.of_nat off / BSIZE) with (Z.of_nat (off / 512)) by (unfold BSIZE; dlia).
    replace (Z.to_nat (Z.of_nat off - Z.of_nat (off / 512) * BSIZE)) with (off mod 512)%nat by (unfold BSIZE; lia).
    assert (Z.min (Z.of_nat (length (c :: p))) (u32 ((Z.of_nat (off / 512) + 1) * BSIZE - Z.of_nat off)) = Z.of_nat n1) as ->.
    { unfold n1, chunk, BSIZE. rewrite u32_small; lia. }
    rewrite Nat2Z.id, length_app, length_take, Nat.min_l by lia. fold off. rewrite <- Nat2Z.inj_add, u32_small by lia. done. }
  apply wp_bind, wp_assert.
  { apply Z.ltb_lt. unfold MAXFILE, NDIRECT, NINDIRECT. lia. }
  eapply (iappend_round s A C D k ty f (take n1 p)); try done; fold off; rewrite ?length_take, ?Nat.min_l by lia; try lia.
  - pose proof (used_insert _ _ _ (ty, f ++ take n1 p) Hk) as E1. rewrite (used_insert _ _ _ _ Hk) in Hcap. cbn [snd] in *.
    rewrite E1. pose proof (blocks_of_mono (Z.of_nat (length (f ++ take n1 p))) (Z.of_nat (length (f ++ p)))) as Hbm.
    rewrite !length_app, length_take in *. lia.
  - intros s' C' D' din' Him' Hu'. pose proof (lookup_lt_Some _ _ _ Hk) as Hlt.
    eapply (IH _ _ _ _ (f ++ take n1 p) (drop n1 p)); try done.
    + by apply list_lookup_insert_eq.
    + rewrite length_drop. lia.
    + rewrite !length_app, length_take, length_drop. fold off. lia.
    + rewrite <- app_assoc, take_drop, list_insert_insert_eq. done.
    + intros s2 C2 D2 din2 Him2 Hu2. rewrite <- app_assoc, take_drop in *. rewrite list_insert_insert_eq in Him2. by eapply HQ.
Qed.

(** ** Inodes *)

Lemma IBLOCK_range i : inum_ok SB i -> 32 <= IBLOCK i SB < 58.
Proof. intros Hi. destruct (IBLOCK_eq SB mkfs_geom i Hi) as [_ H]. by rewrite mkfs_sb_eq in H at 1 3. Qed.

Lemma same_iblock C D i j d :
  fs_ok SB C D [] -> inum_ok SB i -> inum_ok SB j -> live (D j) -> same_file C (<[IBLOCK i SB := d]> C) (D j).
Proof.
  intros Hf Hi Hj Hl k Hk H0. apply lookup_insert_ne. pose proof (IBLOCK_range i Hi).
  pose proof (fo_slot _ _ _ _ Hf j k Hj Hl Hk H0) as Hr. unfold dstart in Hr. rewrite mkfs_sb_eq in Hr at 1 2. simpl in Hr. lia.
Qed.

(** The disk inode of an image, read and written back. *)
Lemma rinode_ok s A C D X i (Q : dinode -> mst -> Prop) :
  image X s A C D -> inum_ok SB i -> i ∉ X -> Q (D i) s -> wp (rinode i) Q s.
Proof.
  intros Him Hi HX HQ. pose proof (im_repr _ _ _ _ _ Him) as Hr. pose proof (IBLOCK_range i Hi).
  destruct (repr_blk s C (IBLOCK i SB) Hr (inode_blk SB mkfs_geom i Hi)) as (d & Hd & _).
  unfold rinode. apply wp_bind. eapply rsect_ok; [exact Hr|lia|lia|exact Hd|]. apply wp_ret.
  pose proof (im_disk _ _ _ _ _ Him i Hi HX) as E. rewrite Hd in E. simpl in E. by rewrite E.
Qed.

Lemma winode_raw s C i din (Q : unit -> mst -> Prop) :
  repr s C -> inum_ok SB i ->
  (forall s' d, C !! IBLOCK i SB = Some d -> repr s' (<[IBLOCK i SB := put_dinode din d (dip i)]> C) ->
     m_freeinode s' = m_freeinode s -> m_freeblock s' = m_freeblock s -> Q tt s') ->
  wp (winode i din) Q s.
Proof.
  intros Hr Hi HQ. pose proof (IBLOCK_range i Hi). pose proof (rp_fb _ _ Hr).
  destruct (repr_blk s C (IBLOCK i SB) Hr (inode_blk SB mkfs_geom i Hi)) as (d & Hd & Hlen).
  unfold winode. apply wp_bind. eapply rsect_ok; [exact Hr|lia|lia|exact Hd|].
  eapply wsect_ok; [exact Hr|lia|lia|by rewrite length_put_dinode|]. intros s' Hr' Hn Hfb. by eapply HQ.
Qed.

Lemma winode_ok s A C D i (Q : unit -> mst -> Prop) :
  image [i] s A C D -> inum_ok SB i -> (forall s' C', image [] s' A C' D -> Q tt s') -> wp (winode i (D i)) Q s.
Proof.
  intros Him Hi HQ. pose proof (im_repr _ _ _ _ _ Him) as Hr. pose proof (im_ok _ _ _ _ _ Him) as Hf.
  eapply winode_raw; [exact Hr|done|]. intros s' d Hd Hr' Hn Hfb.
  destruct (iupdate_ok SB mkfs_geom C D [] i d Hf Hi Hd (im_disk _ _ _ _ _ Him)) as (Hf' & _ & Hod).
  eapply HQ. constructor; try done.
  - rewrite Hn. apply Him.
  - apply Him.
  - intros k ty f Hk. destruct (im_file _ _ _ _ _ Him k ty f Hk) as [Hty Hm]. split; [done|].
    pose proof (image_inum _ _ _ _ _ _ _ Him Hk) as Hki. pose proof (mfile_live _ _ _ _ Hty Hm) as Hl.
    apply (mfile_same C _ D); try done. by apply (same_iblock C D).
  - apply Him.
  - rewrite Hfb. apply Him.
Qed.

Lemma image_except X Y s A C D : (forall i, i ∈ X -> i ∈ Y) -> image X s A C D -> image Y s A C D.
Proof. intros HXY []. constructor; try done. intros i Hi HY. apply im_disk0; [done|]. intros ?. apply HY; auto. Qed.

(** [iappend] adds bytes to the end of a file. *)
Lemma iappend_ok s A C D k ty f p (Q : unit -> mst -> Prop) :
  image [] s A C D -> A !! k = Some (ty, f) -> Z.of_nat (length f + length p) <= 71680 ->
  nmeta + used (<[k := (ty, f ++ p)]> A) <= 1000 ->
  (forall s' C' D', image [] s' (<[k := (ty, f ++ p)]> A) C' D' -> Q tt s') ->
  wp (iappend (1 + Z.of_nat k) p) Q s.
Proof.
  intros Him Hk Hmax Hcap HQ. set (i := 1 + Z.of_nat k). destruct (im_file _ _ _ _ _ Him k ty f Hk) as [Hty Hm]. fold i in Hm.
  pose proof (image_inum _ _ _ _ _ _ _ Him Hk : inum_ok SB i) as Hi. pose proof (lookup_lt_Some _ _ _ Hk) as Hlt.
  unfold iappend. apply wp_bind. eapply rinode_ok; [exact Him|done|apply not_elem_of_nil|].
  rewrite (mf_size _ _ _ _ Hm), xint_small by lia. apply wp_bind.
  eapply (iappend_loop_ok (length p) s A C D k ty f p); try done.
  - fold i. eapply image_except; [|exact Him]. by intros ? ?%not_elem_of_nil.
  - fold i. unfold upto_size. by destruct (D i).
  - intros s' C' D' din' Him' Hu'. fold i in Him', Hu'. rewrite length_app, xint_small by lia.
    destruct (im_file _ _ _ _ _ Him' k ty (f ++ p)) as [_ Hm']; [by apply list_lookup_insert_eq|]. fold i in Hm'.
    unfold upto_size in Hu'. rewrite (mf_size _ _ _ _ Hm'), length_app in Hu'. rewrite Hu'.
    eapply winode_ok; [exact Him'|done|exact (fun s2 C2 => HQ s2 C2 D')].
Qed.

(** An empty file. *)
Definition empty_di (ty : Z) : dinode := MkDinode ty 0 0 1 0 (replicate (S NDIRECT) 0).

Lemma empty_slot C ty k : slot C (empty_di ty) k = 0.
Proof. exact (fresh_slot C ty k). Qed.

Lemma empty_mfile C ty : mfile C (empty_di ty) ty [].
Proof. constructor; try done. constructor; intros; try apply empty_slot. by rewrite empty_slot in H0. Qed.

Lemma empty_di_ok ty : 0 < ty < 2 ^ 15 -> di_ok (empty_di ty).
Proof. intros Hty. destruct (fresh_di_ok ty) as []; [lia|]. by constructor. Qed.

Lemma used_snoc A ty : used (A ++ [(ty, [])]) = used A.
Proof. induction A as [|a A IH]; simpl; [done|]. unfold used in *. rewrite IH. done. Qed.

Lemma image_snoc s s' A C D ty d :
  image [] s A C D -> (length A < 199)%nat -> 0 < ty < 2 ^ 15 -> let i := 1 + Z.of_nat (length A) in
  let C' := <[IBLOCK i SB := put_dinode (empty_di ty) d (dip i)]> C in
  C !! IBLOCK i SB = Some d -> repr s' C' -> m_freeinode s' = i + 1 -> m_freeblock s' = m_freeblock s ->
  image [] s' (A ++ [(ty, [])]) C' (upd D i (empty_di ty)).
Proof.
  intros Him Hlen Hty i C' Hd Hr Hn Hfb. pose proof (im_ok _ _ _ _ _ Him) as Hf.
  assert (inum_ok SB i) as Hi by (apply mkfs_inum; lia). pose proof (im_free _ _ _ _ _ Him i Hi ltac:(lia)) as Hno.
  assert (fs_ok SB C (upd D i (empty_di ty)) []) as Hf1.
  { apply (enter_ok SB mkfs_geom); [done| |by apply empty_di_ok|apply empty_slot|done]. rewrite Hno. by intros []. }
  destruct (iupdate_ok SB mkfs_geom C _ [] i d Hf1 Hi Hd) as (Hf' & _ & Hod).
  { intros j Hj HjX. rewrite upd_ne by set_solver. apply (im_disk _ _ _ _ _ Him); [done|apply not_elem_of_nil]. }
  rewrite upd_eq in Hf', Hod. constructor; try done; rewrite ?length_app; cbn [length].
  - rewrite Hn. lia.
  - lia.
  - intros k t f [Hk|[Hge Hk]]%lookup_app_Some.
    + destruct (im_file _ _ _ _ _ Him k t f Hk) as [Ht Hm]. split; [done|]. pose proof (lookup_lt_Some _ _ _ Hk).
      rewrite upd_ne by lia. pose proof (image_inum _ _ _ _ _ _ _ Him Hk) as Hki. pose proof (mfile_live _ _ _ _ Ht Hm).
      apply (mfile_same C _ D); try done. by apply (same_iblock C D).
    + apply list_lookup_singleton_Some in Hk as [Hk [= <- <-]]. split; [lia|].
      replace (1 + Z.of_nat k) with i by lia. rewrite upd_eq. apply empty_mfile.
  - intros j Hj Hge. rewrite upd_ne by lia. apply (im_free _ _ _ _ _ Him); [done|lia].
  - rewrite Hfb, used_snoc. apply Him.
Qed.

(** [ialloc] adds an empty file. *)
Lemma ialloc_ok s A C D ty (Q : Z -> mst -> Prop) :
  image [] s A C D -> (length A < 199)%nat -> 0 < ty < 2 ^ 15 ->
  (forall s' C' D', image [] s' (A ++ [(ty, [])]) C' D' -> Q (1 + Z.of_nat (length A)) s') ->
  wp (ialloc ty) Q s.
Proof.
  intros Him Hlen Hty HQ. set (i := 1 + Z.of_nat (length A)) in *. assert (inum_ok SB i) as Hi by (apply mkfs_inum; lia).
  pose proof (im_repr _ _ _ _ _ Him) as Hr. pose proof (im_next _ _ _ _ _ Him) as Hnx. fold i in Hnx.
  unfold ialloc. apply wp_bind. unfold next_inode. apply wp_bind, wp_gets, wp_bind, wp_modify, wp_ret. rewrite Hnx.
  assert (u32 (i + 1) = i + 1) as -> by (apply u32_small; lia). set (s1 := MkMst _ _ _).
  assert (repr s1 C) as Hr1 by (destruct Hr; by constructor).
  replace (MkDinode _ _ _ _ _ _) with (empty_di ty).
  2:{ unfold empty_di. f_equal. unfold xshort. rewrite i16_get16_put16; [done|rewrite length_replicate; lia|lia]. }
  apply wp_bind. eapply winode_raw; [exact Hr1|done|]. intros s2 d Hd Hr2 Hn2 Hfb2. apply wp_ret.
  eapply HQ. by eapply (image_snoc s).
Qed.
