(* ===== verification/Xv6MkfsMain.v ===== *)
(** * The whole of mkfs.c (lab2/mkfs.c)

    The root directory as a table of names, the files given on the command line,
    and the disk the program leaves: one the kernel can start from, with one file
    for each argument. *)

From S2P Require Import Prelude CMem Xv6Bio Xv6Log Xv6Crash Xv6Txn Xv6Inode Xv6Disk Xv6Iops Xv6Content Xv6Wrote Xv6Writei Xv6Ialloc Xv6Dir Xv6Path Xv6Image Xv6Mkfs Xv6MkfsOk.
From stdpp Require Import base numbers option list gmap strings.
From Stdlib Require Import Ascii.
Open Scope Z_scope.
#[local] Opaque Nat.div Nat.modulo.

(** ** Directories written entry by entry *)

Definition dir_bytes (t : list (list Z * Z)) : list Z := mjoin ((fun e => mk_dirent e.2 e.1) <$> t).

Lemma dir_bytes_snoc t n i : dir_bytes (t ++ [(n, i)]) = dir_bytes t ++ mk_dirent i n.
Proof. unfold dir_bytes. rewrite fmap_app, join_app. simpl. by rewrite app_nil_r. Qed.

(** A directory with no empty entry. *)
Record dir_full (t : list (list Z * Z)) (f : list Z) : Prop := DirFull {
  df_ok : dir_ok SB f;
  df_nents : nents f = length t;
  df_full k : (k < nents f)%nat -> de_inum (ent f k) <> 0;
  df_lookup nm m : dlookup f nm = Some m <-> (nm, m) ∈ (fun e => (cname e.1, e.2)) <$> t }.

Lemma dir_full_nil : dir_full [] [].
Proof.
  constructor; try done.
  - split; [done|]. intros k Hk. unfold nents in Hk. change (Z.to_nat _) with 0%nat in Hk. lia.
  - intros k Hk. change (nents []) with 0%nat in Hk. lia.
  - intros nm m. split; [done|]. by intros ?%not_elem_of_nil.
Qed.

Lemma full_dfree t f : dir_full t f -> dfree f = nents f.
Proof.
  intros Hd. unfold dfree. destruct (dfind _ _) as [k|] eqn:E; [|done]. exfalso.
  apply dfind_some in E as [[_ Hk]%elem_of_seq E]. apply Z.eqb_eq in E. by apply (df_full _ _ Hd k).
Qed.

Lemma dir_full_snoc t f n i :
  dir_full t f -> inum_ok SB i -> cname n ∉ (fun e => cname e.1) <$> t -> dir_full (t ++ [(n, i)]) (f ++ mk_dirent i n).
Proof.
  intros Hd Hi Hn. pose proof (df_ok _ _ Hd) as Hok. pose proof (full_dfree _ _ Hd) as Hfr. pose proof (proj1 (mkfs_inum i) Hi) as Hi'.
  assert (f ++ mk_dirent i n = linked f n i) as ->.
  { unfold linked. rewrite Hfr. pose proof (nents_len SB f Hok) as E.
    rewrite <- E, Nat2Z.id. by rewrite write_at_end. }
  pose proof (nents_linked SB f Hok n i) as Hne. rewrite Hfr in Hne.
  constructor.
  - apply dir_ok_linked; done || lia.
  - rewrite Hne, length_app, (df_nents _ _ Hd). simpl. lia.
  - intros k Hk. rewrite Hne in Hk. rewrite (ent_linked SB f Hok n i). case_decide as E; [rewrite de_inum_mk; lia|].
    apply (df_full _ _ Hd). rewrite Hfr in E. lia.
  - intros nm m. rewrite (dlookup_linked SB f Hok n i ltac:(lia)).
    2:{ destruct (dlookup f (cname n)) as [j|] eqn:E; [|done]. apply (df_lookup _ _ Hd) in E. destruct Hn.
        apply list_elem_of_fmap in E as (e & [= E _] & He). apply list_elem_of_fmap. by exists e. }
    rewrite fmap_app, elem_of_app. cbn [fmap list_fmap fst snd]. rewrite list_elem_of_singleton. case_decide as E.
    + subst nm. split; [intros [= ->]; by right|]. intros [Hm|[= ->]]; [|done]. destruct Hn.
      apply list_elem_of_fmap in Hm as (e & [= E _] & He). apply list_elem_of_fmap. by exists e.
    + rewrite (df_lookup _ _ Hd). split; [by left|]. by intros [?|[= ? _]].
Qed.

Lemma dir_bytes_full t :
  NoDup ((fun e => cname e.1) <$> t) -> (forall e, e ∈ t -> inum_ok SB e.2) -> dir_full t (dir_bytes t).
Proof.
  induction t as [|[n i] t IH] using rev_ind; intros Hnd Hi; [apply dir_full_nil|].
  rewrite fmap_app in Hnd. apply NoDup_app in Hnd as (Hnd & Hx & _). rewrite dir_bytes_snoc. apply dir_full_snoc.
  - apply IH; [done|]. intros e He. apply Hi. set_solver.
  - apply (Hi (n, i)). set_solver.
  - intros Hin. apply (Hx _ Hin). left.
Qed.

(** The empty entries that pad the last block. *)
Lemma ent_zeros f z k : Z.of_nat (length f) <= DESIZE * Z.of_nat k -> de_inum (ent (f ++ replicate z 0) k) = 0.
Proof.
  intros Hk. unfold de_inum, ent, read_at, get16, DESIZE in *. rewrite drop_app_ge, drop_replicate by lia.
  rewrite take_replicate, !nth_replicate. done.
Qed.

Lemma dir_pad t f z :
  dir_full t f -> (z mod 16 = 0)%nat -> dir_ok SB (f ++ replicate z 0) /\ forall nm, dlookup (f ++ replicate z 0) nm = dlookup f nm.
Proof.
  intros Hd Hz. pose proof (df_ok _ _ Hd) as Hok. pose proof (nents_len SB f Hok) as Hlen.
  assert (nents (f ++ replicate z 0%Z) = nents f + z / 16)%nat as Hn.
  { unfold nents at 1. rewrite length_app, length_replicate. pose proof (Nat.div_mod z 16 ltac:(lia)). unfold DESIZE in *. dlia. }
  assert (forall k, (k < nents f)%nat -> ent (f ++ replicate z 0) k = ent f k) as He.
  { intros k Hk. apply ent_eq. intros p Hp. apply lookup_app_l. unfold DESIZE in Hlen. lia. }
  assert (forall k, (nents f <= k)%nat -> de_inum (ent (f ++ replicate z 0) k) = 0) as Hz0.
  { intros k Hk. apply ent_zeros. unfold DESIZE in *. lia. }
  split; [split|].
  - rewrite length_app, length_replicate. pose proof (Nat.div_mod z 16 ltac:(lia)). unfold DESIZE in *. dlia.
  - intros k Hk H0. destruct (decide (k < nents f)%nat) as [Hlt|Hge]; [|by rewrite Hz0 in H0 by lia].
    rewrite He in * by done. by apply Hok.
  - intros nm. unfold dlookup, dslot_of. rewrite Hn, seq_app, dfind_app.
    rewrite (dfind_ext _ (has_name f nm) (seq 0 _)) by (intros k [_ Hk]%elem_of_seq; unfold has_name; by rewrite He).
    destruct (dfind _ (seq 0 _)) as [k|] eqn:E.
    + apply dfind_some in E as [[_ Hk]%elem_of_seq _]. simpl. by rewrite He.
    + rewrite (proj2 (dfind_none _ _)); [done|]. intros k [Hk _]%elem_of_seq. unfold has_name. by rewrite Hz0 by lia.
Qed.

Lemma length_dir_bytes t : length (dir_bytes t) = (16 * length t)%nat.
Proof.
  induction t as [|[n i] t IH]; [done|]. change (dir_bytes ((n, i) :: t)) with (mk_dirent i n ++ dir_bytes t).
  rewrite length_app, IH, length_mk_dirent. simpl. lia.
Qed.

(** ** The empty image *)

Definition mst1 : mst := MkMst blank 1 nmeta.

Lemma make_image_ok : make_image (MkMst [] 1 nmeta) = Ok tt mst1.
Proof. exact (eq_refl (Ok tt mst1) <: make_image (MkMst [] 1 nmeta) = Ok tt mst1). Qed.

Lemma blank_zero n : (2 <= n < 1000)%nat -> blank !! n = Some zeros.
Proof. intros Hn. destruct n as [|[|n]]; [lia|lia|]. 
  change (blank !! S (S n)) with (replicate 998 zeros !! n). apply lookup_replicate_2. lia.
Qed.

Lemma blank_repr : repr mst1 (<[58 := bitmap 59]> (disk_map blank)).
Proof.
  constructor; cbn [mst1 m_img m_freeblock]; try done.
  - intros n d Hn. apply list_elem_of_lookup_2 in Hn. unfold blank in Hn.
    apply elem_of_cons in Hn as [->|Hn]; [done|]. apply elem_of_cons in Hn as [->|Hn]; [done|].
    by apply elem_of_replicate in Hn as [-> _].
  - intros n Hn. apply blank_zero. change nmeta with 59 in Hn. lia.
Qed.

Lemma zeros_dinode o : get_dinode zeros o = no_inode.
Proof.
  assert (forall k, nth k zeros 0 = 0) as Hz by (intros k; apply nth_replicate).
  unfold get_dinode, get16. rewrite !Hz, get32_zeros. unfold no_inode. f_equal. unfold get_addrs.
  apply (list_eq_same_length _ _ 13); [done|done|]. intros k x y Hk Hx Hy.
  apply lookup_replicate in Hy as [-> _]. apply list_lookup_fmap_Some in Hx as (t & -> & _). apply get32_zeros.
Qed.

Lemma blank_image : image [] mst1 [] (<[58 := bitmap 59]> (disk_map blank)) (fun _ => no_inode).
Proof.
  pose proof blank_repr as Hr. set (C := <[58 := bitmap 59]> (disk_map blank)) in *. clearbody C.
  constructor; [done| | |done|simpl; lia|intros k ty f Hk; by rewrite lookup_nil in Hk|done|done].
  - constructor.
    + intros n Hn. by apply (repr_blk mst1).
    + intros i _. constructor; try done. intros b Hb. change (b ∈ replicate 13 0) in Hb. by apply elem_of_replicate in Hb as [-> _].
    + intros i k _ []. done.
    + intros i j k l _ _ []. done.
    + intros b Hb. unfold blk_ok in Hb. rewrite mkfs_sb_eq in Hb. simpl in Hb. rewrite (repr_free mst1 _ b Hr Hb).
      unfold dstart. rewrite mkfs_sb_eq at 1 2. cbn [mst1 m_freeblock sb_size sb_nblocks]. change nmeta with 59.
      rewrite Z.leb_le. split; [|lia]. intros H. split_and!; [lia|apply not_elem_of_nil|]. intros (i & k & _ & [] & _). done.
    + intros b Hb. by apply not_elem_of_nil in Hb.
    + constructor.
    + intros i _ []. done.
  - intros i Hi _. pose proof (IBLOCK_range i Hi). rewrite (repr_lookup mst1) by (done || lia). cbn [mst1 m_img].
    rewrite blank_zero by lia. apply zeros_dinode.
Qed.

(** ** The size of the root directory *)

(** The bytes after the file in its last block. *)
Definition pad (z : nat) : nat := (z / 512 + 1) * 512 - z.

Lemma pad_file C D i ty f :
  fs_ok SB C D [] -> inum_ok SB i -> live (D i) -> mfile C (D i) ty f -> (length f mod 512 <> 0)%nat ->
  let n := Z.of_nat (length f + pad (length f)) in
  mfile C (set_dsize n (D i)) ty (f ++ replicate (pad (length f)) 0) /\
  (forall bn, Z.of_nat bn * BSIZE < n -> slot C (D i) (dslot bn) <> 0) /\
  n <= MAXFILE * BSIZE /\ blocks_of n = blocks_of (Z.of_nat (length f)).
Proof.
  intros Hf Hi Hl Hm Hz n. destruct (fo_size _ _ _ _ Hf i Hi Hl) as [Hms Hsl]. rewrite (mf_size _ _ _ _ Hm) in Hms, Hsl.
  set (z := length f) in *. pose proof (Nat.div_mod z 512 ltac:(lia)) as E. pose proof (Nat.mod_upper_bound z 512 ltac:(lia)).
  unfold pad in *. unfold MAXFILE, BSIZE, NDIRECT, NINDIRECT in *.
  assert (n = Z.of_nat (z / 512 + 1) * 512) as En by (unfold n; lia).
  assert (forall bn, Z.of_nat bn * 512 < n -> slot C (D i) (dslot bn) <> 0) as Hsl' by (intros bn Hbn; apply Hsl; lia).
  split_and!; [|done|lia|].
  2:{ unfold blocks_of. replace ((n + 511) / 512) with (Z.of_nat (z / 512 + 1)) by dlia.
      replace ((Z.of_nat z + 511) / 512) with (Z.of_nat (z / 512 + 1)) by dlia.
      destruct (Z.ltb_spec 6144 n), (Z.ltb_spec 6144 (Z.of_nat z)); lia. }
  destruct Hm as [M1 M2 M3 M4 M5 M6 [F1 F2 F3]]. fold z in M5.
  constructor; try done; cbn [d_size set_dsize]; [rewrite length_app, length_replicate; unfold n; lia| |].
  - apply (nth_ext _ _ 0 0); rewrite length_fbytes; cbn [d_size set_dsize];
      [rewrite length_app, length_replicate; fold z; unfold n; lia|].
    intros t Ht. rewrite nth_fbytes by done. change (fbyte C (set_dsize n (D i)) t) with (fbyte C (D i) t).
    pose proof (Nat.div_mod t 512 ltac:(lia)) as E'. destruct (decide (t < z)%nat) as [Hlt|Hge].
    + rewrite app_nth1 by done. rewrite <- M6, nth_fbytes by lia. done.
    + rewrite app_nth2 by lia. rewrite nth_replicate. apply F3; [unfold NDIRECT, NINDIRECT; lia|apply Hsl'; lia|lia].
  - constructor; cbn [d_size set_dsize].
    + intros bn Hbn Hle. apply F1; [done|lia].
    + intros Hle. apply F2. lia.
    + intros t Ht H0 Hle. apply F3; [done|done|lia].
Qed.

(** ** The files of the command line *)

Section main.
Context `{HO : Host}.

Definition contents (arg : list Z) : list Z := mjoin (default [] (host_file arg)).
Definition root_entries (args : list (list Z)) : list (list Z * Z) :=
  (zs ".", 1) :: (zs "..", 1) :: imap (fun k arg => (skip_underscore arg, 2 + Z.of_nat k)) args.
Definition files_of (args : list (list Z)) : list (Z * list Z) :=
  (T_DIR, dir_bytes (root_entries args)) :: ((fun arg => (T_FILE, contents arg)) <$> args).

Lemma root_entries_snoc l a : root_entries (l ++ [a]) = root_entries l ++ [(skip_underscore a, 2 + Z.of_nat (length l))].
Proof. unfold root_entries. rewrite imap_app. simpl. rewrite Nat.add_0_r. done. Qed.

Lemma length_root_entries l : length (root_entries l) = (2 + length l)%nat.
Proof. unfold root_entries. cbn [length]. by rewrite length_imap. Qed.

Lemma blocks_of_nonneg n : 0 <= n -> 0 <= blocks_of n.
Proof. intros H. unfold blocks_of. assert (0 <= (n + 511) / 512) by (apply Z.div_pos; lia). destruct (_ <? _); lia. Qed.

Lemma used_app A B : used (A ++ B) = used A + used B.
Proof. induction A as [|a A IH]; [done|]. cbn [app used foldr] in *. unfold used in *. rewrite IH. lia. Qed.

Lemma used_nonneg A : 0 <= used A.
Proof. induction A as [|a A IH]; [done|]. unfold used in *. cbn [foldr]. pose proof (blocks_of_nonneg (Z.of_nat (length a.2)) ltac:(lia)). lia. Qed.

Lemma used_prefix l l' : used (files_of l) <= used (files_of (l ++ l')).
Proof.
  unfold files_of. rewrite fmap_app. change (?a :: (?b ++ ?c)) with ((a :: b) ++ c). cbn [used foldr app].
  fold (used ((fun arg => (T_FILE, contents arg)) <$> l)).
  fold (used (((fun arg => (T_FILE, contents arg)) <$> l) ++ ((fun arg => (T_FILE, contents arg)) <$> l'))).
  rewrite used_app. pose proof (used_nonneg ((fun arg => (T_FILE, contents arg)) <$> l')). cbn [snd].
  rewrite !length_dir_bytes, !length_root_entries, length_app.
  pose proof (blocks_of_mono (Z.of_nat (16 * (2 + length l))) (Z.of_nat (16 * (2 + (length l + length l'))))). lia.
Qed.

Lemma append_reads_ok reads s A C D k ty f (Q : unit -> mst -> Prop) :
  image [] s A C D -> A !! k = Some (ty, f) -> Forall (fun b => 0 < length b)%nat reads ->
  Z.of_nat (length f + length (mjoin reads : list Z)) <= 71680 -> nmeta + used (<[k := (ty, f ++ mjoin reads)]> A) <= 1000 ->
  (forall s' C' D', image [] s' (<[k := (ty, f ++ mjoin reads)]> A) C' D' -> Q tt s') ->
  wp (append_reads (1 + Z.of_nat k) reads) Q s.
Proof.
  revert s A C D f. induction reads as [|b reads IH]; intros s A C D f Him Hk Hre Hmax Hcap HQ.
  { apply wp_ret. change (mjoin []) with (@nil Z) in HQ. rewrite app_nil_r, (list_insert_id _ _ _ Hk) in HQ. by eapply HQ. }
  apply Forall_cons in Hre as [Hb Hre]. cbn [append_reads]. rewrite (proj2 (Nat.ltb_lt _ _) Hb).
  change (mjoin (b :: reads)) with (b ++ mjoin reads) in *. rewrite length_app in Hmax. pose proof (lookup_lt_Some _ _ _ Hk) as Hlt.
  apply wp_bind. eapply (iappend_ok s A C D k ty f b); try done; [lia| |].
  - pose proof (used_insert _ _ _ (ty, f ++ b) Hk) as E1. rewrite (used_insert _ _ _ _ Hk) in Hcap. cbn [snd] in *. rewrite E1.
    pose proof (blocks_of_mono (Z.of_nat (length (f ++ b))) (Z.of_nat (length (f ++ b ++ mjoin reads)))) as Hbm.
    rewrite !length_app in *. lia.
  - intros s' C' D' Him'. rewrite app_assoc in Hcap, HQ. eapply (IH _ _ _ _ (f ++ b)); try done.
    + by apply list_lookup_insert_eq.
    + rewrite length_app. lia.
    + by rewrite list_insert_insert_eq.
    + intros s2 C2 D2 Him2. rewrite list_insert_insert_eq in Him2. by eapply HQ.
Qed.

(** An argument of the command line that [mkfs] takes. *)
Definition arg_ok (arg : list Z) : Prop :=
  forallb (fun c => negb (c =? zc "/")) arg = true /\
  exists reads, host_file arg = Some reads /\ Forall (fun b => 0 < length b <= 512)%nat reads /\
    Z.of_nat (length (contents arg)) <= MAXFILE * BSIZE.

Lemma xshort_small x : 0 <= x < 2 ^ 16 -> xshort x = x.
Proof. intros Hx. unfold xshort, get16, put16. simpl. unfold u8. dlia. Qed.

Lemma add_file_ok s l arg C D (Q : unit -> mst -> Prop) :
  image [] s (files_of l) C D -> arg_ok arg -> (length l < 198)%nat -> nmeta + used (files_of (l ++ [arg])) <= 1000 ->
  (forall s' C' D', image [] s' (files_of (l ++ [arg])) C' D' -> Q tt s') ->
  wp (add_file ROOTINO arg) Q s.
Proof.
  intros Him (Hsl & reads & Hh & Hre & Hsz) Hl Hcap HQ. unfold add_file. apply wp_bind, wp_assert; [done|]. rewrite Hh.
  assert (length (files_of l) = S (length l)) as Hlen by (unfold files_of; cbn [length]; by rewrite length_fmap).
  assert (contents arg = mjoin reads) as Hc by (unfold contents; by rewrite Hh).
  assert (Z.of_nat (length (contents arg)) <= 71680) as Hsz' by (unfold MAXFILE, BSIZE, NDIRECT, NINDIRECT in Hsz; lia).
  set (root := dir_bytes (root_entries (l ++ [arg]))).
  assert (root = dir_bytes (root_entries l) ++ mk_dirent (2 + Z.of_nat (length l)) (skip_underscore arg)) as Hroot.
  { unfold root. by rewrite root_entries_snoc, dir_bytes_snoc. }
  set (F := (fun arg => (T_FILE, contents arg)) <$> l) in *.
  assert (files_of (l ++ [arg]) = (T_DIR, root) :: F ++ [(T_FILE, contents arg)]) as Hfin.
  { unfold files_of. rewrite fmap_app. done. }
  rewrite Hfin in Hcap, HQ.
  assert (nmeta + used ((T_DIR, root) :: F ++ [(T_FILE, [])]) <= 1000) as Hcap1.
  { unfold used in *. cbn [foldr] in *. fold (used (F ++ [(T_FILE, [])])) (used (F ++ [(T_FILE, contents arg)])) in *.
    rewrite used_app in *. unfold used at 2 in Hcap. cbn [foldr snd length] in *. change (used [(T_FILE, [])]) with 0.
    pose proof (blocks_of_nonneg (Z.of_nat (length (contents arg))) ltac:(lia)). lia. }
  apply wp_bind. eapply ialloc_ok; [exact Him|lia|unfold T_FILE; lia|]. intros s1 C1 D1 Him1. rewrite Hlen.
  replace (1 + Z.of_nat (S (length l))) with (2 + Z.of_nat (length l)) by lia. rewrite xshort_small by lia. apply wp_bind.
  change ROOTINO with (1 + Z.of_nat 0). eapply (iappend_ok s1 _ C1 D1 0 T_DIR (dir_bytes (root_entries l))); [exact Him1|done| | |].
  - rewrite length_dir_bytes, length_root_entries, length_mk_dirent. lia.
  - rewrite <- Hroot. exact Hcap1.
  - intros s2 C2 D2 Him2. rewrite <- Hroot in Him2. change (<[0%nat := _]> (files_of l ++ [(T_FILE, [])])) with ((T_DIR, root) :: F ++ [(T_FILE, [])]) in Him2.
    replace (2 + Z.of_nat (length l)) with (1 + Z.of_nat (S (length l))) by lia.
    assert (length F = length l) as HF by (unfold F; by rewrite length_fmap).
    assert (forall g, <[S (length l) := (T_FILE, g)]> ((T_DIR, root) :: F ++ [(T_FILE, [])]) = (T_DIR, root) :: F ++ [(T_FILE, g)]) as Hins.
    { intros g. change (<[S (length l) := ?b]> (?a :: ?r)) with (a :: <[length l := b]> r).
      by rewrite <- HF, insert_app_r_alt, Nat.sub_diag by lia. }
    eapply (append_reads_ok reads s2 _ C2 D2 (S (length l)) T_FILE []); [exact Him2| | | | |].
    + change ((?a :: ?r) !! S (length l)) with (r !! length l). rewrite <- HF, lookup_app_r, Nat.sub_diag by lia. done.
    + eapply Forall_impl; [exact Hre|]. simpl. lia.
    + rewrite <- Hc. simpl. lia.
    + rewrite Hins, <- Hc. exact Hcap.
    + intros s3 C3 D3 Him3. rewrite Hins, <- Hc in Him3. by eapply HQ.
Qed.

Lemma make_root_ok (Q : Z -> mst -> Prop) :
  (forall s C D, image [] s (files_of []) C D -> Q ROOTINO s) -> wp make_root Q mst1.
Proof.
  intros HQ. unfold make_root. apply wp_bind. eapply ialloc_ok; [apply blank_image|simpl; lia|unfold T_DIR; lia|].
  intros s C D Him. cbn [length app] in *. apply wp_bind, wp_assert; [done|].
  change (1 + Z.of_nat 0) with ROOTINO. change (xshort ROOTINO) with 1. change ROOTINO with (1 + Z.of_nat 0).
  apply wp_bind. eapply (iappend_ok s _ C D 0 T_DIR []); [exact Him|done|vm_compute; congruence|vm_compute; congruence|].
  intros s1 C1 D1 Him1. apply wp_bind.
  eapply (iappend_ok s1 _ C1 D1 0 T_DIR); [exact Him1|done|vm_compute; congruence|vm_compute; congruence|].
  intros s2 C2 D2 Him2. apply wp_ret. eapply HQ. exact Him2.
Qed.

Lemma add_files_ok s args C D (Q : unit -> mst -> Prop) :
  image [] s (files_of []) C D -> Forall arg_ok args -> (length args <= 198)%nat -> nmeta + used (files_of args) <= 1000 ->
  (forall s' C' D', image [] s' (files_of args) C' D' -> Q tt s') -> wp (for_each args (add_file ROOTINO)) Q s.
Proof.
  intros Him Hargs Hlen Hcap HQ.
  eapply wp_mono; [apply (wp_for_each (fun done _ s => exists C D, image [] s (files_of done) C D))|].
  - by exists C, D.
  - intros don x todo s' -> (C' & D' & Him'). apply Forall_app in Hargs as [_ Hx]. apply Forall_cons in Hx as [Hx _].
    rewrite length_app in Hlen. cbn [length] in Hlen. eapply add_file_ok; [exact Him'|done|lia| |].
    + pose proof (used_prefix (don ++ [x]) todo) as Hu. rewrite <- app_assoc in Hu. cbn [app] in Hu. lia.
    + intros s2 C2 D2 Him2. by exists C2, D2.
  - intros [] s' (C' & D' & Him'). by eapply HQ.
Qed.

Definition final_files (args : list (list Z)) : list (Z * list Z) :=
  let root := dir_bytes (root_entries args) in
  (T_DIR, root ++ replicate (pad (length root)) 0) :: ((fun arg => (T_FILE, contents arg)) <$> args).

Lemma used_final args : ((16 * (2 + length args)) mod 512 <> 0)%nat -> used (final_files args) = used (files_of args).
Proof.
  intros Hz. unfold final_files, files_of, used. cbn [foldr snd]. f_equal. rewrite length_app, length_replicate, length_dir_bytes, length_root_entries.
  set (z := (16 * (2 + length args))%nat) in *. unfold pad. pose proof (Nat.div_mod z 512 ltac:(lia)) as E. pose proof (Nat.mod_upper_bound z 512 ltac:(lia)).
  unfold blocks_of. replace ((Z.of_nat (z + ((z / 512 + 1) * 512 - z)) + 511) / 512) with (Z.of_nat (z / 512 + 1)) by dlia.
  replace ((Z.of_nat z + 511) / 512) with (Z.of_nat (z / 512 + 1)) by dlia.
  destruct (Z.ltb_spec 6144 (Z.of_nat z)), (Z.ltb_spec 6144 (Z.of_nat (z + ((z / 512 + 1) * 512 - z)))); lia.
Qed.

Lemma fix_root_ok s args C D (Q : unit -> mst -> Prop) :
  image [] s (files_of args) C D -> (length args <= 198)%nat -> ((16 * (2 + length args)) mod 512 <> 0)%nat ->
  (forall s' C' D', image [] s' (final_files args) C' D' -> Q tt s') -> wp (fix_root_size ROOTINO) Q s.
Proof.
  intros Him Hn Hz HQ. set (root := dir_bytes (root_entries args)).
  assert (length root = 16 * (2 + length args))%nat as Hlen by (unfold root; by rewrite length_dir_bytes, length_root_entries).
  rewrite <- Hlen in Hz. assert (files_of args !! 0%nat = Some (T_DIR, root)) as Hk by done.
  destruct (im_file _ _ _ _ _ Him 0%nat _ _ Hk) as [Hty Hm]. change (1 + Z.of_nat 0) with ROOTINO in Hm.
  pose proof (image_inum _ _ _ _ _ _ _ Him Hk : inum_ok SB ROOTINO) as Hi. pose proof (mfile_live _ _ _ _ Hty Hm) as Hl.
  pose proof (im_ok _ _ _ _ _ Him) as Hf. destruct (pad_file C D ROOTINO T_DIR root Hf Hi Hl Hm Hz) as (Hm' & Hsl & Hmax & Hbl).
  set (n := Z.of_nat (length root + pad (length root))) in *. set (D' := upd D ROOTINO (set_dsize n (D ROOTINO))).
  assert (image [ROOTINO] s (final_files args) C D') as Him'.
  { apply (image_change [ROOTINO] s s (files_of args) C C D D' 0 T_DIR root); try done.
    - eapply image_except; [|exact Him]. by intros ? ?%not_elem_of_nil.
    - apply Him.
    - apply resize_ok; [done|done|split; [unfold n; lia|done]|done].
    - intros j Hj HjX. unfold D'. rewrite upd_ne by set_solver. apply (im_disk _ _ _ _ _ Him); [done|apply not_elem_of_nil].
    - intros j Hj. unfold D'. by rewrite upd_ne.
    - fold root. rewrite length_app, length_replicate. fold n. lia. }
  unfold fix_root_size. apply wp_bind. eapply rinode_ok; [exact Him|done|apply not_elem_of_nil|].
  rewrite (mf_size _ _ _ _ Hm). rewrite (xint_small (Z.of_nat (length root))) by lia. cbv zeta.
  assert (u32 ((Z.of_nat (length root) / BSIZE + 1) * BSIZE) = n) as ->.
  { unfold n, pad, BSIZE. pose proof (Nat.div_mod (length root) 512 ltac:(lia)).
    pose proof (Nat.mod_upper_bound (length root) 512 ltac:(lia)).
    replace (Z.of_nat (length root) / 512) with (Z.of_nat (length root / 512)) by dlia. rewrite u32_small; lia. }
  rewrite xint_small by (unfold n, MAXFILE, BSIZE, NDIRECT, NINDIRECT in *; lia).
  replace (set_dsize n (D ROOTINO)) with (D' ROOTINO) by (unfold D'; by rewrite upd_eq).
  eapply winode_ok; [exact Him'|done|]. intros s' C' Him2. by eapply HQ.
Qed.

(** ** What [mkfs] makes *)

(** The block layer of a kernel that starts from the image. *)
Definition booted (img : list (list Z)) : fs := cache0 img (MkLog 2 30 0 false 1 (MkHeader 0 (replicate LOGSIZE 0))).

Record made (args : list (list Z)) (img : list (list Z)) (D : Z -> dinode) : Prop := Made {
  md_len : length img = Z.to_nat FSSIZE;
  md_super : exists d, img !! 1%nat = Some d /\
    MkSuper (get32 d 0) (get32 d 4) (get32 d 8) (get32 d 12) (get32 d 16) (get32 d 20) (get32 d 24) = mkfs_sb;
  md_idle pd : idle pd 2 30 (booted img) (disk_map img);
  md_ok : fs_ok SB (disk_map img) D [];
  md_disk : on_disk SB (disk_map img) D [];
  md_tree : tree_ok (disk_map img) D SB;
  md_root : d_type (D ROOTINO) = T_DIR /\ d_nlink (D ROOTINO) = 1;
  md_names nm m : dlookup (fbytes (disk_map img) (D ROOTINO)) nm = Some m <->
    (nm, m) ∈ (fun e => (cname e.1, e.2)) <$> root_entries args;
  md_file k arg : args !! k = Some arg -> let x := D (2 + Z.of_nat k) in
    d_type x = T_FILE /\ d_nlink x = 1 /\ fbytes (disk_map img) x = contents arg;
  md_free i : inum_ok SB i -> 2 + Z.of_nat (length args) <= i -> ~ live (D i);
  md_bytes : fbytes (disk_map img) (D ROOTINO) = let root := dir_bytes (root_entries args) in root ++ replicate (pad (length root)) 0;
  md_blocks : Z.of_nat (nfree SB (disk_map img)) = FSSIZE - (nmeta + used (final_files args)) }.

Lemma booted_idle s C pd : repr s C -> disk_map (m_img s) = C -> idle pd 2 30 (booted (m_img s)) C.
Proof.
  intros Hr <-. constructor.
  - apply cache0_ok.
  - by eexists.
  - constructor; cbn [booted cache0 disk]; rewrite ?(rp_len _ _ Hr); try (simpl; lia); [intros b Hb; by apply elem_of_nil in Hb|constructor].
  - intros n d. apply disk_map_lookup.
  - intros n (i & b & Hb & _ & Hd). apply lookup_replicate in Hb as [-> _]. done.
  - reflexivity.
  - exists zeros. split_and!; [|reflexivity|vm_compute; reflexivity]. exact (rp_boot _ _ Hr 2 ltac:(lia)).
  - exists super_block. split_and!; [exact (rp_boot _ _ Hr 1 ltac:(lia))|vm_compute; reflexivity..].
  - cbn [booted cache0 disk]. rewrite (rp_len _ _ Hr). split; [lia|left; lia].
Qed.

(** The bitmap, written last. *)
Lemma balloc_ok s C (Q : unit -> mst -> Prop) :
  repr s C ->
  (forall s', repr s' C -> disk_map (m_img s') = C -> m_freeinode s' = m_freeinode s -> m_freeblock s' = m_freeblock s -> Q tt s') ->
  wp (b ← gets m_freeblock; balloc b) Q s.
Proof.
  intros Hr HQ. pose proof (rp_fb _ _ Hr). apply wp_bind, wp_gets.
  unfold balloc. apply wp_bind, wp_assert; [apply Z.ltb_lt; unfold BSIZE; lia|]. apply wp_modify.
  change (sector (sb_bmapstart SB)) with 58%nat. unfold put_sector. rewrite (rp_len _ _ Hr).
  assert (disk_map (<[58%nat := bitmap (m_freeblock s)]> (m_img s)) = C) as HC.
  { rewrite disk_map_insert by (rewrite (rp_len _ _ Hr); lia). by rewrite (rp_C _ _ Hr). }
  apply HQ; [|exact HC|done|done]. destruct Hr as [R1 R2 R3 R4 R5 R6].
  constructor; cbn [with_img m_img m_freeblock Nat.ltb Nat.leb]; try done.
  - rewrite HC, R1, insert_insert_eq. done.
  - by rewrite length_insert.
  - intros n e [(_ & <- & _)|[_ He]]%list_lookup_insert_Some; [apply length_bitmap|by eapply R3].
  - intros n Hn. rewrite list_lookup_insert_ne by lia. by apply R5.
  - intros n Hn. rewrite list_lookup_insert_ne by lia. by apply R6.
Qed.

Lemma root_entries_inum args e : (length args <= 198)%nat -> e ∈ root_entries args -> inum_ok SB e.2 /\ e.2 <= 1 + Z.of_nat (length args).
Proof.
  intros Hn He. rewrite mkfs_inum. unfold root_entries in He. apply elem_of_cons in He as [->|He]; [simpl; lia|].
  apply elem_of_cons in He as [->|He]; [simpl; lia|]. apply elem_of_lookup_imap in He as (k & arg & -> & Hk%lookup_lt_Some).
  simpl. lia.
Qed.

(** The free blocks are those from the next one on. *)
Lemma repr_nfree s C : repr s C -> Z.of_nat (nfree SB C) = FSSIZE - m_freeblock s.
Proof.
  intros Hr. pose proof (rp_fb _ _ Hr) as Hfb. unfold nfree, FSSIZE. change (sb_size SB) with 1000.
  rewrite (Permutation_length (l' := seqZ (m_freeblock s) (1000 - m_freeblock s))); [rewrite length_seqZ; lia|].
  apply NoDup_Permutation; [apply NoDup_filter, NoDup_seqZ|apply NoDup_seqZ|]. intros b. rewrite list_elem_of_filter, !elem_of_seqZ. split.
  - intros [Hb ?]. rewrite (repr_free s C) in Hb by (done || lia). lia.
  - intros Hb. split; [|lia]. rewrite (repr_free s C) by (done || lia). lia.
Qed.

(** An image with these files is a file system with these names. *)
Lemma image_made s args C D :
  image [] s (final_files args) C D -> disk_map (m_img s) = C -> (length args <= 198)%nat ->
  NoDup (cname (zs ".") :: cname (zs "..") :: ((fun arg => cname (skip_underscore arg)) <$> args)) ->
  made args (m_img s) D.
Proof.
  intros Him HC Hn Hnd. pose proof (im_repr _ _ _ _ _ Him) as Hr. set (root := dir_bytes (root_entries args)).
  assert (dir_full (root_entries args) root) as Hdf.
  { apply dir_bytes_full; [|intros e He; by apply (root_entries_inum args)].
    replace (_ <$> _) with (cname (zs ".") :: cname (zs "..") :: ((fun arg => cname (skip_underscore arg)) <$> args)); [done|].
    unfold root_entries. cbn [fmap list_fmap]. do 2 f_equal. rewrite fmap_imap. symmetry.
    exact (imap_const (fun arg => cname (skip_underscore arg)) args). }
  assert (forall k ty f, final_files args !! k = Some (ty, f) -> ty <> 0 /\ mfile C (D (1 + Z.of_nat k)) ty f) as Hfile by apply Him.
  assert (length (final_files args) = S (length args)) as Hlen by (unfold final_files; cbn [length]; by rewrite length_fmap).
  destruct (Hfile 0%nat _ _ eq_refl) as [_ Hroot]. fold root in Hroot. change (1 + Z.of_nat 0) with ROOTINO in Hroot.
  destruct (dir_pad _ root (pad (length root)) Hdf) as [Hdok Hdl].
  { unfold pad. unfold root. rewrite length_dir_bytes. replace (_ - _)%nat with ((16 * length (root_entries args) / 512 + 1) * 32 * 16 - length (root_entries args) * 16)%nat by lia.
    rewrite <- Nat.mul_sub_distr_r. apply Nat.Div0.mod_mul. }
  assert (forall k arg, args !! k = Some arg -> mfile C (D (2 + Z.of_nat k)) T_FILE (contents arg)) as Hargs.
  { intros k arg Hk. destruct (Hfile (S k) T_FILE (contents arg)) as [_ Hm].
    - unfold final_files. change ((?a :: ?r) !! S k) with (r !! k). by rewrite list_lookup_fmap, Hk.
    - by replace (2 + Z.of_nat k) with (1 + Z.of_nat (S k)) by lia. }
  assert (forall i, inum_ok SB i -> 2 + Z.of_nat (length args) <= i -> ~ live (D i)) as Hfree.
  { intros i Hi Hge. rewrite (im_free _ _ _ _ _ Him i Hi) by (rewrite Hlen; lia). by intros []. }
  assert (forall i, inum_ok SB i -> live (D i) -> i = ROOTINO \/ exists k arg, args !! k = Some arg /\ i = 2 + Z.of_nat k) as Hlive.
  { intros i Hi Hl. pose proof (proj1 (mkfs_inum i) Hi). destruct (decide (i = ROOTINO)) as [|Hne]; [by left|right].
    unfold ROOTINO in Hne. destruct (decide (2 + Z.of_nat (length args) <= i)) as [Hge|Hlt]; [by destruct (Hfree i)|].
    destruct (lookup_lt_is_Some_2 args (Z.to_nat (i - 2))) as [arg Ha]; [lia|]. exists (Z.to_nat (i - 2)), arg. split; [done|lia]. }
  constructor; rewrite ?HC.
  - apply Hr.
  - exists super_block. split; [exact (rp_boot _ _ Hr 1 ltac:(lia))|vm_compute; reflexivity].
  - intros pd. by apply booted_idle.
  - apply Him.
  - apply Him.
  - intros n Hni Hty _. assert (n = ROOTINO) as ->.
    { destruct (Hlive n Hni) as [|(k & arg & Hk & ->)]; [unfold live; by rewrite Hty|done|].
      by rewrite (mf_type _ _ _ _ (Hargs k arg Hk)) in Hty. }
    rewrite (mf_bytes _ _ _ _ Hroot). split; [done|]. intros nm m. rewrite Hdl, (df_lookup _ _ Hdf).
    intros (e & [= -> ->] & He)%list_elem_of_fmap. destruct (root_entries_inum args e Hn He) as [He1 He2]. pose proof (proj1 (mkfs_inum _) He1).
    destruct (decide (e.2 = ROOTINO)) as [->|Hne].
    + unfold live. rewrite (mf_type _ _ _ _ Hroot), (mf_nlink _ _ _ _ Hroot). done.
    + unfold ROOTINO in Hne. destruct (lookup_lt_is_Some_2 args (Z.to_nat (e.2 - 2))) as [arg Ha]; [lia|].
      pose proof (Hargs _ _ Ha) as Hm. replace (2 + Z.of_nat (Z.to_nat (e.2 - 2))) with e.2 in Hm by lia.
      unfold live. rewrite (mf_type _ _ _ _ Hm), (mf_nlink _ _ _ _ Hm). done.
  - by rewrite (mf_type _ _ _ _ Hroot), (mf_nlink _ _ _ _ Hroot).
  - intros nm m. rewrite (mf_bytes _ _ _ _ Hroot), Hdl. apply (df_lookup _ _ Hdf).
  - intros k arg Hk x. by destruct (Hargs k arg Hk).
  - done.
  - by rewrite (mf_bytes _ _ _ _ Hroot).
  - rewrite (repr_nfree s C Hr). by rewrite (im_used _ _ _ _ _ Him).
Qed.

(** The program up to the last file. *)
Lemma main_prefix argv0 img args (Q : unit -> mst -> Prop) :
  open_img img = true -> Forall arg_ok args -> (length args <= 198)%nat -> nmeta + used (files_of args) <= FSSIZE ->
  (forall s C D, image [] s (files_of args) C D -> wp (fix_root_size ROOTINO;; b ← gets m_freeblock; balloc b) Q s) ->
  wp (main (argv0 :: img :: args)) Q mst0.
Proof.
  intros Hopen Hargs Hn Hcap HQ. unfold main.
  apply wp_bind, wp_assert; [done|]. apply wp_bind, wp_assert; [done|]. apply wp_bind, wp_assert; [done|].
  apply wp_bind, wp_modify. cbn [mst0 m_img m_freeinode]. apply wp_bind. unfold wp at 1. rewrite make_image_ok.
  apply wp_bind, make_root_ok. intros s C D Him. apply wp_bind. by eapply add_files_ok; [exact Him|..].
Qed.

Lemma main_made argv0 img args :
  open_img img = true -> Forall arg_ok args -> (length args <= 198)%nat ->
  NoDup (cname (zs ".") :: cname (zs "..") :: ((fun arg => cname (skip_underscore arg)) <$> args)) ->
  nmeta + used (files_of args) <= FSSIZE -> ((16 * (2 + length args)) mod 512 <> 0)%nat ->
  exists s D, main (argv0 :: img :: args) mst0 = Ok tt s /\ made args (m_img s) D.
Proof.
  intros Hopen Hargs Hn Hnd Hcap Hz.
  assert (wp (main (argv0 :: img :: args)) (fun _ s => exists D, made args (m_img s) D) mst0) as Hwp.
  { apply main_prefix; [done..|].
    intros s1 C1 D1 Him1. apply wp_bind. eapply fix_root_ok; [exact Him1|done|done|].
    intros s2 C2 D2 Him2. eapply balloc_ok; [apply Him2|]. intros s3 Hr3 HC3 Hn3 Hfb3. exists D2. eapply image_made; [|done..].
    destruct Him2. constructor; try done; congruence. }
  unfold wp in Hwp. destruct (main _ _) as [[] s| |]; [|done|done]. destruct Hwp as [D HD]. by exists s, D.
Qed.


(** ** A root directory that fills its blocks *)

(** When the entries fill the last block of the root directory, the size
    [mkfs] stores counts a block that was never allocated. *)
Lemma fix_root_hole s args C D (Q : unit -> mst -> Prop) :
  image [] s (files_of args) C D -> (length args <= 198)%nat -> ((16 * (2 + length args)) mod 512 = 0)%nat ->
  (forall s' C', repr s' C' -> (forall D', on_disk SB C' D' [] -> ~ fs_ok SB C' D' []) -> Q tt s') ->
  wp (fix_root_size ROOTINO) Q s.
Proof.
  intros Him Hn Hz HQ. set (root := dir_bytes (root_entries args)).
  assert (length root = 16 * (2 + length args))%nat as Hlen by (unfold root; by rewrite length_dir_bytes, length_root_entries).
  rewrite <- Hlen in Hz. assert (files_of args !! 0%nat = Some (T_DIR, root)) as Hk by done.
  destruct (im_file _ _ _ _ _ Him 0%nat _ _ Hk) as [Hty Hm]. change (1 + Z.of_nat 0) with ROOTINO in Hm.
  pose proof (image_inum _ _ _ _ _ _ _ Him Hk : inum_ok SB ROOTINO) as Hi. pose proof (mfile_live _ _ _ _ Hty Hm) as Hl.
  pose proof (im_ok _ _ _ _ _ Him) as Hf. pose proof (im_repr _ _ _ _ _ Him) as Hr.
  unfold fix_root_size. apply wp_bind. eapply rinode_ok; [exact Him|done|apply not_elem_of_nil|].
  rewrite (mf_size _ _ _ _ Hm). rewrite (xint_small (Z.of_nat (length root))) by lia. cbv zeta.
  set (bn := (length root / 512)%nat). pose proof (Nat.div_mod (length root) 512 ltac:(lia)) as E. fold bn in E.
  assert (u32 ((Z.of_nat (length root) / BSIZE + 1) * BSIZE) = Z.of_nat (bn + 1) * 512) as ->.
  { unfold BSIZE. replace (Z.of_nat (length root) / 512) with (Z.of_nat bn) by dlia. rewrite u32_small; lia. }
  rewrite xint_small by lia. set (x := set_dsize _ _).
  eapply winode_raw; [exact Hr|done|]. intros s' d Hd Hr' Hn' Hfb'. eapply HQ; [exact Hr'|]. intros D' Hod Hf'.
  destruct (repr_blk s C _ Hr (inode_blk SB mkfs_geom ROOTINO Hi)) as (d' & Hd' & Hld). assert (d' = d) as -> by congruence.
  assert (D' ROOTINO = x) as Ex.
  { rewrite <- (Hod ROOTINO Hi (not_elem_of_nil _)), lookup_insert_eq. apply get_put_dinode.
    - destruct (fo_di _ _ _ _ Hf ROOTINO Hi). constructor; try done. cbn [x d_size set_dsize]. lia.
    - cbn [default from_option id]. rewrite Hld. apply dip_range. pose proof (proj1 (mkfs_inum _) Hi). lia. }
  destruct (fo_size _ _ _ _ Hf' ROOTINO Hi) as [_ Hsl]; [by rewrite Ex|]. rewrite Ex in Hsl. apply (Hsl bn); [cbn [x d_size set_dsize]; unfold BSIZE; lia|].
  change (slot ?C' x ?k) with (slot C' (D ROOTINO) k). rewrite (same_slot C); [|by apply (same_iblock C D)].
  apply (fi_slot _ _ (mf_filled _ _ _ _ Hm)); [unfold NDIRECT, NINDIRECT; lia|]. rewrite (mf_size _ _ _ _ Hm). lia.
Qed.

(** C39: when the root directory fills its last block (30 files, for one), the
    image [mkfs] makes is not well formed: the size of the root directory counts a
    block that is not allocated. *)
Theorem mkfs_root_hole argv0 img args :
  open_img img = true -> Forall arg_ok args -> (length args <= 198)%nat ->
  nmeta + used (files_of args) <= FSSIZE -> ((16 * (2 + length args)) mod 512 = 0)%nat ->
  exists s, main (argv0 :: img :: args) mst0 = Ok tt s /\
    forall D, on_disk SB (disk_map (m_img s)) D [] -> ~ fs_ok SB (disk_map (m_img s)) D [].
Proof.
  intros Hopen Hargs Hn Hcap Hz.
  assert (wp (main (argv0 :: img :: args)) (fun _ s => forall D, on_disk SB (disk_map (m_img s)) D [] ->
    ~ fs_ok SB (disk_map (m_img s)) D []) mst0) as Hwp.
  { apply main_prefix; [done..|]. intros s1 C1 D1 Him1. apply wp_bind. eapply fix_root_hole; [exact Him1|done|done|].
    intros s2 C2 Hr2 Hno. eapply balloc_ok; [exact Hr2|]. intros s3 Hr3 HC3 _ _. by rewrite HC3. }
  unfold wp in Hwp. destruct (main _ _) as [[] s| |]; [|done|done]. by exists s.
Qed.
End main.

(** ** Examples *)

(** A host with a file of five bytes and a file of 600 bytes in two reads. *)
Definition ex_cat : list Z := zs "_cat".
Definition ex_readme : list Z := zs "README".
Definition ex_host : Host := {|
  open_img := fun _ => true;
  host_file := fun f => if bool_decide (f = ex_cat) then Some [[104; 101; 108; 108; 111]]
    else if bool_decide (f = ex_readme) then Some [replicate 512 35; replicate 88 36] else None |}.

Lemma ex_args_ok : Forall (@arg_ok ex_host) [ex_cat; ex_readme].
Proof.
  repeat constructor; eexists; (split; [reflexivity|]); (split; [repeat constructor|vm_compute; congruence]).
Qed.


(** A host whose files are all empty, and distinct names. *)
Definition empty_host : Host := {| open_img := fun _ => true; host_file := fun _ => Some [] |}.
Definition two_letters (n : nat) : list Z := [97 + Z.of_nat n / 26; 97 + Z.of_nat n mod 26].

Lemma empty_args_ok args :
  Forall (fun arg => forallb (fun c => negb (c =? zc "/")) arg = true) args -> Forall (@arg_ok empty_host) args.
Proof. intros H. eapply Forall_impl; [exact H|]. intros arg Ha. split; [exact Ha|]. by exists []. Qed.

Lemma mkfs_root_hole_witness : exists s,
  @main empty_host ([] :: [] :: map two_letters (seq 0 30)) mst0 = Ok tt s /\
  forall D, on_disk SB (disk_map (m_img s)) D [] -> ~ fs_ok SB (disk_map (m_img s)) D [].
Proof.
  apply (@mkfs_root_hole empty_host [] [] (map two_letters (seq 0 30))).
  - reflexivity.
  - apply empty_args_ok, Forall_forall. intros x Hx.
    assert (forallb (forallb (fun c => negb (c =? zc "/"))) (map two_letters (seq 0 30)) = true) as H by (vm_compute; reflexivity).
    rewrite forallb_forall in H. apply H. by apply list_elem_of_In.
  - vm_compute; lia.
  - vm_compute. congruence.
  - vm_compute. reflexivity.
Defined.

(** [mkfs] does not look at the number of inodes: with 207 files it ends without
    an error, and the inode of the last file, in the block of the bitmap, is lost. *)
Theorem mkfs_inode_lost :
  match @main empty_host ([] :: [] :: map two_letters (seq 0 207)) mst0 with
  | Ok _ s => m_freeinode s = 209 /\ IBLOCK 208 mkfs_sb = sb_bmapstart mkfs_sb /\
      m_img s !! 58%nat = Some (bitmap (m_freeblock s)) /\ d_type (get_dinode (bitmap (m_freeblock s)) (dip 208)) = -1
  | _ => False
  end.
Proof. vm_compute. repeat split. Qed.
