(* ===== verification/Xv6Args.v ===== *)
(** * System call arguments (lab2/syscall.c)

    The kernel reads the arguments of a system call from the memory of the
    process, at addresses the process chose.  A read goes through the page table
    of the process; a page that is not there is a trap in the kernel, which
    panics.  The routines check each address against the size of the process. *)

From S2P Require Import Prelude CMem Xv6Lock Xv6Console Xv6Proc Xv6World Xv6Kalloc Xv6Vm Xv6Uvm Xv6User.
From stdpp Require Import base numbers option list gmap strings.
Open Scope Z_scope.

(** A read by the kernel at the address [va] of the process: entries must be
    present, whether or not they are open to the user. *)
Definition kaccess (m : mem) (pgdir va : Z) : option Z :=
  let pde := load32 m (pgdir + 4 * PDX va) in
  if present pde then
    let pte := load32 m (P2V (PTE_ADDR pde) + 4 * PTX va) in
    if present pte then Some (upage pte + va mod 4096) else None
  else None.

(** [tf->esp] and [tf->eax] in [struct trapframe]. *)
Definition tf_esp (m : mem) (tf : Z) : Z := load32 m (tf + 68).
Definition tf_eax (m : mem) (tf : Z) : Z := load32 m (tf + 28).

(** The kernel reads the user pages of an address space, the guard page of the
    stack included, which the user cannot. *)
Lemma kaccess_vs {X} end_ m (r : vst X) v l va :
  vinv end_ m r v l -> 0 <= va < KERNBASE ->
  kaccess m (v_dir v) va = (fun e => upage e + va mod 4096) <$> v_user v !! (va / 4096).
Proof.
  intros Hv Hva. unfold KERNBASE in Hva. pose proof (vi_vs _ _ _ _ _ Hv) as Hs. unfold kaccess.
  rewrite PDX_spec, PTX_spec by lia. rewrite (vo_dir _ _ Hs) by dlia.
  destruct (v_tabs v !! (va / 4096 / 1024)) as [t|] eqn:Et; simpl.
  - assert (Ht : page_ok end_ t) by (by eapply vinv_tpages, elem_of_tabs).
    destruct (tab_entry_flags _ _ Ht) as (-> & _). destruct (upage_entry end_ t 7 Ht) as [Eu _]; [lia|].
    fold (upage (V2P t + 7)). rewrite Eu, (vo_entry _ _ Hs _ t) by (done || dlia).
    replace (1024 * (va / 4096 / 1024) + va / 4096 mod 1024) with (va / 4096) by dlia.
    unfold v_entry. rewrite (proj2 (Z.ltb_lt _ _)) by (unfold USER_PAGES; dlia).
    destruct (v_user v !! (va / 4096)) as [e|] eqn:Ee; simpl; [|done]. by destruct (vo_user _ _ Hs _ _ Ee) as (_ & -> & _).
  - destruct (v_user v !! (va / 4096)) as [e|] eqn:Ee; [|done]. destruct (vo_user _ _ Hs _ _ Ee) as (_ & _ & _ & [t Ht]). congruence.
Qed.

Section args.
Context {R : Type}.
Notation MX := (M (xst R)).

Definition myself : MX proc := c ← curproc; pget c.

Definition kload8 (va : Z) : MX Z :=
  p ← myself;
  m ← gets (fun s => h_mem (x_hw s));
  match kaccess m (pgdir p) va with Some a => mret (load8 m a) | None => panic "trap" end.

Definition kload32 (va : Z) : MX Z :=
  a ← kload8 va; b ← kload8 (va + 1); c ← kload8 (va + 2); d ← kload8 (va + 3);
  mret (a + 2 ^ 8 * b + 2 ^ 16 * c + 2 ^ 24 * d).

(** [None] is the result -1. *)
Definition fetchint (addr : Z) : MX (option Z) :=
  p ← myself;
  if (sz p <=? addr) || (sz p <? u32 (addr + 4)) then mret None
  else v ← kload32 addr; mret (Some (i32 v)).

(** The characters from [s] up to the first zero before [ep]. *)
Fixpoint fetch_chars (k : nat) (s ep : Z) : MX (option (list Z)) :=
  if s <? ep then
    match k with
    | O => no_fuel
    | S k =>
        c ← kload8 s;
        if c =? 0 then mret (Some [])
        else r ← fetch_chars k (s + 1) ep; mret (cons c <$> r)
    end
  else mret None.

(** The string at [*pp]; its length is the value returned. *)
Definition fetchstr (addr : Z) : MX (option (list Z)) :=
  p ← myself;
  if sz p <=? addr then mret None
  else fetch_chars (Z.to_nat (sz p - addr)) addr (sz p).

Definition argint (n : Z) : MX (option Z) :=
  p ← myself;
  m ← gets (fun s => h_mem (x_hw s));
  fetchint (u32 (tf_esp m (tf p) + 4 + 4 * n)).

Definition argptr (n size : Z) : MX (option Z) :=
  p ← myself;
  r ← argint n;
  match r with
  | None => mret None
  | Some i => if (size <? 0) || (sz p <=? u32 i) || (sz p <? u32 (u32 i + size)) then mret None else mret (Some (u32 i))
  end.

Definition argstr (n : Z) : MX (option (list Z)) :=
  r ← argint n;
  match r with None => mret None | Some addr => fetchstr (u32 addr) end.

(** [syscalls[num]()] for the number in [eax], and the result stored there. *)
Definition set_eax (v : Z) : MX unit :=
  p ← myself; memupd (fun m => store32 m (tf p + 28) v).

Definition syscall (syscalls : list (option (MX Z))) (unknown : Z -> MX unit) : MX unit :=
  p ← myself;
  m ← gets (fun s => h_mem (x_hw s));
  let num := i32 (tf_eax m (tf p)) in
  match (if (0 <? num) && (num <? Z.of_nat (length syscalls)) then mjoin (syscalls !! Z.to_nat num) else None) with
  | Some f => v ← f; set_eax v
  | None => unknown num;; set_eax (-1)
  end.
End args.

(** ** Correctness *)

Section spec.
Context {R : Type} (c : nat) (pd : Z) (H : list nat) (p : proc) (m : mem).
Notation MX := (M (xst R)).

(** The state of a system call of process [p], with memory [m]. *)
Definition calling (s : xst R) : Prop :=
  world (Some c) pd H s /\ procs s !! c = Some p /\ h_mem (x_hw s) = m.

(** A routine that only looks. *)
Definition wpu {A} (k : MX A) (Q : A -> Prop) : Prop :=
  forall s, calling s -> wp k (fun a s' => Q a /\ calling s' /\ x_rest s' = x_rest s /\ procs s' = procs s) s.

Lemma wpu_ret {A} (a : A) (Q : A -> Prop) : Q a -> wpu (mret a) Q.
Proof. intros HQ s Hs. by split. Qed.

Lemma wpu_mono {A} (k : MX A) (Q Q' : A -> Prop) : wpu k Q -> (forall a, Q a -> Q' a) -> wpu k Q'.
Proof. intros Hk HQ s Hs. eapply wp_mono; [by apply Hk|]. intros a s' (? & ?). split; auto. Qed.

Lemma wpu_bind {A B} (k : MX A) (f : A -> MX B) Q1 Q :
  wpu k Q1 -> (forall a, Q1 a -> wpu (f a) Q) -> wpu (k ≫= f) Q.
Proof.
  intros Hk Hf s Hs. apply wp_bind. eapply wp_mono; [by apply Hk|]. intros a s1 (HQ & Hs1 & Hr1 & Hp1).
  eapply wp_mono; [by apply (Hf a HQ)|]. intros b s2 (HQ2 & Hs2 & Hr2 & Hp2). split_and!; [done|done|congruence|congruence].
Qed.

Lemma wpu_myself : wpu myself (fun a => a = p).
Proof.
  intros s (Hw & Hp & Hm). pose proof Hw as [(i & cp & Hh) Hl Hpr]. unfold myself, curproc. apply wp_bind, wp_bind.
  pose proof (wpx_myproc (Some c) pd H (x_rest s) s Hw eq_refl) as Hwp. unfold wp in *. unfold lift in *. cbn [hw_of xst_hw] in *.
  rewrite (myproc_run _ i cp (world_hw_ok _ _ _ _ _ Hh)) in *. destruct Hwp as (H' & Hw' & Ho & -> & _). rewrite Ho.
  unfold mret, M_ret, pget. change (procs (set_hw ?h s)) with (procs s). rewrite Hp. split_and!; [done| |done|done]. split_and!; done.
Qed.

Lemma wpu_mem : wpu (gets (fun s => h_mem (x_hw s))) (fun a => a = m).
Proof. intros s Hs. pose proof Hs as (_ & _ & Hm). by apply wp_gets. Qed.

(** The pages of the process below its size are there. *)
Context (Hsz : 0 <= sz p <= KERNBASE) (Hmap : forall va, 0 <= va < sz p -> is_Some (kaccess m (pgdir p) va)).

(** The byte and the word of the process at an address. *)
Definition ubyte (va : Z) : Z := default 0 (load8 m <$> kaccess m (pgdir p) va).
Definition uword (va : Z) : Z := ubyte va + 2 ^ 8 * ubyte (va + 1) + 2 ^ 16 * ubyte (va + 2) + 2 ^ 24 * ubyte (va + 3).

Lemma wpu_kload8 va : 0 <= va < sz p -> wpu (kload8 va) (fun a => a = ubyte va).
Proof.
  intros Hva. unfold kload8. eapply wpu_bind; [apply wpu_myself|]. intros ? ->. eapply wpu_bind; [apply wpu_mem|]. intros ? ->.
  unfold ubyte. destruct (Hmap va Hva) as [a ->]. by apply wpu_ret.
Qed.

Lemma wpu_kload32 va : 0 <= va -> va + 4 <= sz p -> wpu (kload32 va) (fun a => a = uword va).
Proof.
  intros H0 H1. unfold kload32. do 4 (eapply wpu_bind; [apply wpu_kload8; lia|]; intros ? ->). by apply wpu_ret.
Qed.

Lemma wpu_fetchint addr :
  0 <= addr < 2 ^ 32 ->
  wpu (fetchint addr) (fun r => r = if addr + 4 <=? sz p then Some (i32 (uword addr)) else None).
Proof.
  intros Ha. unfold KERNBASE in Hsz. unfold fetchint. eapply wpu_bind; [apply wpu_myself|]. intros ? ->.
  destruct (Z.leb_spec (sz p) addr) as [Hge|Hlt]; cbn [orb].
  { rewrite (proj2 (Z.leb_gt _ _)) by lia. by apply wpu_ret. }
  rewrite u32_small by lia. destruct (Z.ltb_spec (sz p) (addr + 4)) as [H1|H1].
  - rewrite (proj2 (Z.leb_gt _ _)) by lia. by apply wpu_ret.
  - rewrite (proj2 (Z.leb_le _ _)) by lia. eapply wpu_bind; [apply wpu_kload32; lia|]. intros ? ->. by apply wpu_ret.
Qed.

(** The address of argument [n]. *)
Definition arg_addr (n : Z) : Z := u32 (tf_esp m (tf p) + 4 + 4 * n).
Definition arg (n : Z) : option Z := if arg_addr n + 4 <=? sz p then Some (i32 (uword (arg_addr n))) else None.

Lemma wpu_argint n : wpu (argint n) (fun r => r = arg n).
Proof.
  unfold argint. eapply wpu_bind; [apply wpu_myself|]. intros ? ->. eapply wpu_bind; [apply wpu_mem|]. intros ? ->.
  apply wpu_fetchint, u32_range.
Qed.

(** A string of the process: no zero before its end, and a zero at its end,
    within the process. *)
Definition string_at (addr : Z) (l : list Z) : Prop :=
  addr + Z.of_nat (length l) < sz p /\ ubyte (addr + Z.of_nat (length l)) = 0 /\
  forall i, (i < length l)%nat -> nth i l 0 = ubyte (addr + Z.of_nat i) /\ nth i l 0 <> 0.

Lemma wpu_fetch_chars k s :
  0 <= s -> sz p - s <= Z.of_nat k ->
  wpu (fetch_chars k s (sz p)) (fun r => match r with
    | Some l => string_at s l
    | None => forall a, s <= a < sz p -> ubyte a <> 0 end).
Proof.
  revert s. induction k as [|k IH]; intros s Hs Hk; cbn [fetch_chars]; destruct (Z.ltb_spec s (sz p)) as [Hlt|Hge];
    try lia; try (apply wpu_ret; intros; lia).
  eapply wpu_bind; [apply wpu_kload8; lia|]. intros ? ->. destruct (Z.eqb_spec (ubyte s) 0) as [E|E].
  - apply wpu_ret. split_and!; cbn [length]; [lia|by rewrite Z.add_0_r|]. intros i Hi. simpl in Hi. lia.
  - eapply wpu_bind; [apply IH; lia|]. intros [l|] HQ; apply wpu_ret; cbn [fmap option_fmap option_map].
    + destruct HQ as (H1 & H2 & H3). split_and!; cbn [length].
      * lia.
      * rewrite <- H2. f_equal. lia.
      * intros [|i] Hi; cbn [nth]; [by rewrite Z.add_0_r|]. destruct (H3 i) as [E1 E2]; [simpl in Hi; lia|].
        split; [|done]. rewrite E1. f_equal. lia.
    + intros a Ha. destruct (decide (a = s)) as [->|]; [done|]. apply HQ. lia.
Qed.

(** C26: [argstr] never traps.  It returns the string the process passed, with its
    end inside the process, and -1 exactly when the argument itself, or the end of
    the string, is not inside. *)
Theorem argstr_spec n :
  wpu (argstr n) (fun r => match r with
    | Some l => exists a, arg n = Some a /\ string_at (u32 a) l
    | None => forall a, arg n = Some a -> forall b, u32 a <= b < sz p -> ubyte b <> 0 end).
Proof.
  unfold argstr. eapply wpu_bind; [apply wpu_argint|]. intros ? ->. destruct (arg n) as [a|] eqn:Ea.
  2:{ apply wpu_ret. intros a Ha. done. }
  unfold fetchstr. eapply wpu_bind; [apply wpu_myself|]. intros ? ->. pose proof (u32_range a).
  destruct (Z.leb_spec (sz p) (u32 a)) as [Hge|Hlt].
  - apply wpu_ret. intros ? [= <-] b Hb. lia.
  - eapply wpu_mono; [apply wpu_fetch_chars; lia|]. intros [l|] HQ; [by exists a|]. by intros ? [= <-].
Qed.

(** [argptr] never traps, and returns a pointer exactly when the whole of the
    block, of a size that is not negative, lies inside the process. *)
Theorem argptr_spec n size :
  - 2 ^ 31 <= size < 2 ^ 31 ->
  wpu (argptr n size) (fun r => forall q, r = Some q <->
    (exists a, arg n = Some a /\ q = u32 a) /\ 0 <= size /\ q < sz p /\ q + size <= sz p).
Proof.
  intros Hs. unfold KERNBASE in Hsz. unfold argptr. eapply wpu_bind; [apply wpu_myself|]. intros ? ->.
  eapply wpu_bind; [apply wpu_argint|]. intros ? ->. destruct (arg n) as [a|].
  2:{ apply wpu_ret. intros q. split; [done|]. by intros ((a & ? & _) & _). }
  pose proof (u32_range a). destruct (Z.ltb_spec size 0) as [Hneg|Hpos]; cbn [orb].
  { apply wpu_ret. intros q. split; [done|]. intros (_ & ? & _). lia. }
  destruct (Z.leb_spec (sz p) (u32 a)) as [Hge|Hlt]; cbn [orb].
  { apply wpu_ret. intros q. split; [done|]. intros ((b & [= <-] & ->) & ? & ? & _). lia. }
  rewrite (u32_small (u32 a + size)) by lia. destruct (Z.ltb_spec (sz p) (u32 a + size)).
  - apply wpu_ret. intros q. split; [done|]. intros ((b & [= <-] & ->) & ? & ? & ?). lia.
  - apply wpu_ret. intros q. split; [intros [= <-]; split_and!; [by exists a|lia..]|]. intros ((b & [= <-] & ->) & _). done.
Qed.
End spec.

(** A process of 12 bytes, of one page, with the string "ab" at 8 as its argument. *)
Definition ex_pgdir : Z := KERNBASE + 16 * PGSIZE.
Definition ex_pgtab : Z := KERNBASE + 17 * PGSIZE.
Definition ex_upage : Z := KERNBASE + 18 * PGSIZE.
Definition ex_tf : Z := KERNBASE + 19 * PGSIZE.
Definition ex_args : mem :=
  store8 (store8 (store32 (store32 (store32 (store32 ∅ ex_pgdir (V2P ex_pgtab + 7)) ex_pgtab (V2P ex_upage + 7))
    (ex_tf + 68) 0) (ex_upage + 4) 8) (ex_upage + 8) 97) (ex_upage + 9) 98.
Definition ex_caller : proc := set_stack 0 ex_tf 0 (set_space ex_pgdir 12 (set_pid 7 (set_state RUNNING proc0))).
Definition ex_calling : xst unit :=
  XSt (set_hmem ex_args ex_hw) (replicate NPROC ex_caller) 8 (Some 0%nat) 0 0 false false [] tt.

Lemma ex_calling_ok : calling 0 7 [] ex_caller ex_args ex_calling.
Proof.
  split; [|done]. constructor; [|done|]. 2:{ intros j [= <-]. by exists ex_caller. }
  exists 1%nat, (MkCpu 4 0 false (Some 0%nat)). constructor; try done; [constructor|].
  intros lk Hlk. by apply not_elem_of_nil in Hlk.
Qed.

Lemma ex_caller_mapped va : 0 <= va < sz ex_caller -> is_Some (kaccess ex_args (pgdir ex_caller) va).
Proof.
  intros Hva. assert (Forall (fun va => is_Some (kaccess ex_args (pgdir ex_caller) va)) (seqZ 0 12)) as HF.
  { repeat (constructor; [vm_compute; by eexists|]). constructor. }
  rewrite Forall_forall in HF. apply HF, elem_of_seqZ. exact Hva.
Qed.

Lemma ex_arg : arg ex_caller ex_args 0 = Some 8.
Proof. exact (eq_refl (Some 8) <: arg ex_caller ex_args 0 = Some 8). Qed.

Lemma argstr_spec_witness :
  wp (argstr 0) (fun r _ => exists l, r = Some l /\ string_at ex_caller ex_args 8 l) ex_calling.
Proof.
  refine (wp_mono _ _ _ _ (argstr_spec 0 7 [] ex_caller ex_args _ ex_caller_mapped 0 ex_calling ex_calling_ok) _).
  - vm_compute. split; discriminate.
  - rewrite ex_arg. intros [l|] s' [HQ _].
    + destruct HQ as (a & Ea & Hl). injection Ea as <-. exists l. split; [reflexivity|exact Hl].
    + exfalso. apply (HQ 8 eq_refl 10); [vm_compute; split; [discriminate|reflexivity]|vm_compute; reflexivity].
Defined.

Lemma argptr_spec_witness :
  wp (argptr 0 4) (fun r _ => r = Some 8) ex_calling /\ wp (argptr 0 5) (fun r _ => r = None) ex_calling.
Proof.
  assert (0 <= sz ex_caller <= KERNBASE) as Hsz by (vm_compute; split; discriminate). split.
  - refine (wp_mono _ _ _ _ (argptr_spec 0 7 [] ex_caller ex_args Hsz ex_caller_mapped 0 4 _ ex_calling ex_calling_ok) _); [lia|].
    rewrite ex_arg. intros r s' [HQ _]. apply HQ. split; [exists 8; split; reflexivity|]. change (sz ex_caller) with 12. lia.
  - refine (wp_mono _ _ _ _ (argptr_spec 0 7 [] ex_caller ex_args Hsz ex_caller_mapped 0 5 _ ex_calling ex_calling_ok) _); [lia|].
    rewrite ex_arg. intros [q|] s' [HQ _]; [|reflexivity]. destruct (proj1 (HQ q) eq_refl) as ((a & Ea & ->) & H).
    injection Ea as <-. change (sz ex_caller) with 12 in H.
    change (u32 _) with 8 in H. lia.
Defined.
