(* ===== verification/Xv6Sysfile.v ===== *)
(** * File-system calls (lab2/sysfile.c)

    The calls on paths, [link], [unlink], [create], [mkdir], [mknod] and [chdir],
    are transactions on the inode layer; the calls on file descriptors work on
    the table of open files over it.  An open file or an inode is its index in
    its table; in [struct proc], where 0 is the null pointer, the index plus
    one.  The bytes a call passes through user memory are copied at its start or
    end. *)

From S2P Require Import Prelude CMem JosPrintfmt Xv6Lock Xv6Proc Xv6World Xv6Kalloc Xv6Vm Xv6Pipe Xv6File Xv6Bio Xv6Log Xv6Inode Xv6Args.
From stdpp Require Import base numbers option list gmap strings.
Open Scope Z_scope.

Definition O_RDONLY : Z := 0x000.
Definition O_WRONLY : Z := 0x001.
Definition O_RDWR : Z := 0x002.
Definition O_CREATE : Z := 0x200.

Definition set_dnlink (n : Z) (x : dinode) : dinode :=
  MkDinode (d_type x) (d_major x) (d_minor x) n (d_size x) (d_addrs x).
Definition set_ddev (j n : Z) (x : dinode) : dinode :=
  MkDinode (d_type x) j n (d_nlink x) (d_size x) (d_addrs x).

Section paths.
Context (fuel : nat) (bswtch : MF unit) (swtch : MI unit) (junk : list Z) `{DV : Devsw}.
Notation begin_op := (bl (begin_op bswtch fuel)).
Notation end_op := (bl (end_op fuel bswtch)).
Notation ilock := (ilock fuel bswtch swtch).
Notation iunlockput := (iunlockput fuel bswtch swtch).
Notation iupdate := (iupdate fuel bswtch).
Notation iput := (iput fuel bswtch swtch).
Notation namei := (namei fuel bswtch swtch junk).
Notation nameiparent := (nameiparent fuel bswtch swtch).
Notation dirlookup := (dirlookup fuel bswtch).
Notation dirlink := (dirlink fuel bswtch swtch).

(** [ip->nlink += d] *)
Definition add_nlink (ip : nat) (d : Z) : MI unit :=
  iupd ip (fun x => set_idi (set_dnlink (i16 (d_nlink (i_di x) + d)) (i_di x)) x).

Definition link_bad (ip : nat) : MI Z :=
  ilock (Some ip);; add_nlink ip (-1);; iupdate ip;; iunlockput ip;; end_op;; mret (-1).

(** [sys_link] on its two paths. *)
Definition link_paths (old new : list Z) : MI Z :=
  begin_op;;
  r ← namei old;
  match r with
  | None => end_op;; mret (-1)
  | Some ip =>
      ilock (Some ip);;
      x ← iread ip;
      if d_type (i_di x) =? T_DIR then iunlockput ip;; end_op;; mret (-1)
      else
        add_nlink ip 1;; iupdate ip;; iunlock (Some ip);;
        '(r, name) ← nameiparent new junk;
        match r with
        | None => link_bad ip
        | Some dp =>
            ilock (Some dp);;
            d ← iread dp; x ← iread ip;
            n ← (if negb (i_dev d =? i_dev x) then mret (-1) else dirlink dp name (i_inum x));
            if n <? 0 then iunlockput dp;; link_bad ip
            else iunlockput dp;; iput ip;; end_op;; mret 0
        end
  end.

Definition sys_link : MI Z :=
  old ← argstr 0;
  match old with
  | None => mret (-1)
  | Some old =>
      new ← argstr 1;
      match new with None => mret (-1) | Some new => link_paths old new end
  end.

(** The entries from [off] on are empty. *)
Fixpoint isdirempty_loop (k : nat) (dp : nat) (off : Z) : MI bool :=
  match k with
  | O => no_fuel
  | S k =>
      x ← iread dp;
      if u32 off <? d_size (i_di x) then
        '(n, de) ← readi fuel bswtch dp (u32 off) DESIZE;
        if negb (n =? DESIZE) then panic "isdirempty: readi"
        else if negb (de_inum de =? 0) then mret false
        else isdirempty_loop k dp (i32 (off + DESIZE))
      else mret true
  end.
Definition isdirempty (dp : nat) : MI bool :=
  x ← iread dp;
  isdirempty_loop (Z.to_nat (d_size (i_di x) / DESIZE + 2)) dp (2 * DESIZE).

Definition unlink_bad (dp : nat) : MI Z := iunlockput dp;; end_op;; mret (-1).

(** [sys_unlink] on its path. *)
Definition unlink_path (path : list Z) : MI Z :=
  begin_op;;
  '(r, name) ← nameiparent path junk;
  match r with
  | None => end_op;; mret (-1)
  | Some dp =>
      ilock (Some dp);;
      if (namecmp name (zs ".") =? 0) || (namecmp name (zs "..") =? 0) then unlink_bad dp
      else
        r ← dirlookup dp name;
        match r with
        | None => unlink_bad dp
        | Some (ip, off) =>
            ilock (Some ip);;
            x ← iread ip;
            if d_nlink (i_di x) <? 1 then panic "unlink: nlink < 1"
            else
              full ← (if d_type (i_di x) =? T_DIR then e ← isdirempty ip; mret (negb e) else mret false);
              if full : bool then iunlockput ip;; unlink_bad dp
              else
                n ← writei fuel bswtch dp (replicate (Z.to_nat DESIZE) 0) off DESIZE;
                if negb (n =? DESIZE) then panic "unlink: writei"
                else
                  x ← iread ip;
                  (if d_type (i_di x) =? T_DIR then add_nlink dp (-1);; iupdate dp else mret tt);;
                  iunlockput dp;;
                  add_nlink ip (-1);; iupdate ip;; iunlockput ip;;
                  end_op;; mret 0
        end
  end.

Definition sys_unlink : MI Z :=
  path ← argstr 0;
  match path with None => mret (-1) | Some path => unlink_path path end.

(** The new inode, locked. *)
Definition create (path : list Z) (type major minor : Z) : MI (option nat) :=
  '(r, name) ← nameiparent path junk;
  match r with
  | None => mret None
  | Some dp =>
      ilock (Some dp);;
      r ← dirlookup dp name;
      match r with
      | Some (ip, _) =>
          iunlockput dp;;
          ilock (Some ip);;
          x ← iread ip;
          if (type =? T_FILE) && (d_type (i_di x) =? T_FILE) then mret (Some ip)
          else iunlockput ip;; mret None
      | None =>
          d ← iread dp;
          ip ← ialloc fuel bswtch (i_dev d) type;
          ilock (Some ip);;
          iupd ip (fun x => set_idi (set_dnlink 1 (set_ddev major minor (i_di x))) x);;
          iupdate ip;;
          x ← iread ip;
          (if type =? T_DIR then
             add_nlink dp 1;; iupdate dp;;
             n ← dirlink ip (zs ".") (i_inum x);
             n ← (if n <? 0 then mret n else dirlink ip (zs "..") (i_inum d));
             if n <? 0 then panic "create dots" else mret tt
           else mret tt);;
          n ← dirlink dp name (i_inum x);
          if n <? 0 then panic "create: dirlink"
          else iunlockput dp;; mret (Some ip)
      end
  end.

(** The end of [sys_mkdir] and [sys_mknod]. *)
Definition made_node (r : option nat) : MI Z :=
  match r with
  | None => end_op;; mret (-1)
  | Some ip => iunlockput ip;; end_op;; mret 0
  end.

Definition sys_mkdir : MI Z :=
  begin_op;;
  path ← argstr 0;
  match path with
  | None => end_op;; mret (-1)
  | Some path => r ← create path T_DIR 0 0; made_node r
  end.

Definition sys_mknod : MI Z :=
  begin_op;;
  path ← argstr 0;
  match path with
  | None => end_op;; mret (-1)
  | Some path =>
      major ← argint 1;
      match major with
      | None => end_op;; mret (-1)
      | Some major =>
          minor ← argint 2;
          match minor with
          | None => end_op;; mret (-1)
          | Some minor => r ← create path T_DEV (i16 major) (i16 minor); made_node r
          end
      end
  end.

Definition chdir_path (path : list Z) : MI Z :=
  r ← namei path;
  match r with
  | None => end_op;; mret (-1)
  | Some ip =>
      ilock (Some ip);;
      x ← iread ip;
      if negb (d_type (i_di x) =? T_DIR) then iunlockput ip;; end_op;; mret (-1)
      else
        iunlock (Some ip);;
        old ← mycwd;
        iput old;;
        end_op;;
        c ← curproc;
        pupd c (fun p => set_files (ofile p) (Z.of_nat ip + 1) p);;
        mret 0
  end.

Definition sys_chdir : MI Z :=
  begin_op;;
  path ← argstr 0;
  match path with
  | None => end_op;; mret (-1)
  | Some path => chdir_path path
  end.
End paths.

(** ** Files over inodes *)

Notation MS := (M (xst (pst ist))).

(** A routine of the inode layer. *)
Definition il {A} (m : MI A) : MS A := fun s =>
  let back s' := with_part (MkPst (ps_kmem (x_rest s)) (pipes (x_rest s)) (files (x_rest s)) (x_rest s')) s' in
  match m (with_part (ps_rest (x_rest s)) s) with
  | Ok a s' => Ok a (back s')
  | Panic msg s' => Panic msg (back s')
  | NoFuel => NoFuel
  end.

Section descriptors.
Context (fuel : nat) (bswtch : MF unit) (swtch : MI unit) (pswtch : MS unit) (junk : list Z) (end_ : Z) `{DV : Devsw}.

(** What file.c uses of the inode layer is fs.c and log.c. *)
#[local] Instance fs_inodes : Inodes ist := {
  ino_begin_op := il (bl (begin_op bswtch fuel));
  ino_end_op := il (bl (end_op fuel bswtch));
  ino_put ip := il (iput fuel bswtch swtch (Z.to_nat ip));
  ino_lock ip := il (ilock fuel bswtch swtch (Some (Z.to_nat ip)));
  ino_unlock ip := il (iunlock (Some (Z.to_nat ip)));
  ino_stat ip := il (stati (Z.to_nat ip));
  ino_read ip off n := il (readi fuel bswtch (Z.to_nat ip) off n);
  ino_write ip addr off := il (writei fuel bswtch (Z.to_nat ip) addr off (Z.of_nat (length addr))) }.

Definition set_ofile (fd : nat) (f : Z) : MS unit :=
  c ← curproc; pupd c (fun p => set_files (<[fd := f]> (ofile p)) (cwd p) p).

(** The descriptor and the file. *)
Definition argfd (n : Z) : MS (option (nat * nat)) :=
  fd ← argint n;
  match fd with
  | None => mret None
  | Some fd =>
      if (fd <? 0) || (Z.of_nat NOFILE <=? fd) then mret None
      else
        p ← myself;
        let f := nth (Z.to_nat fd) (ofile p) 0 in
        mret (if f =? 0 then None else Some (Z.to_nat fd, Z.to_nat (f - 1)))
  end.

(** The first free descriptor, or -1. *)
Definition fdalloc (f : nat) : MS Z :=
  p ← myself;
  match list_find (fun x => x = 0) (take NOFILE (ofile p)) with
  | Some (fd, _) => set_ofile fd (Z.of_nat f + 1);; mret (Z.of_nat fd)
  | None => mret (-1)
  end.

Definition sys_dup : MS Z :=
  r ← argfd 0;
  match r with
  | None => mret (-1)
  | Some (_, f) =>
      fd ← fdalloc f;
      if fd <? 0 then mret (-1) else filedup f;; mret fd
  end.

Definition sys_close : MS Z :=
  r ← argfd 0;
  match r with
  | None => mret (-1)
  | Some (fd, f) => set_ofile fd 0;; fileclose end_ f;; mret 0
  end.

(** The bytes of a buffer of the process, and a store to it. *)
Fixpoint copy_in (n : nat) (va : Z) : MS (list Z) :=
  match n with O => mret [] | S k => c ← kload8 va; l ← copy_in k (va + 1); mret (c :: l) end.
Fixpoint copy_back (l : list Z) (va : Z) : MS unit :=
  match l with
  | [] => mret tt
  | c :: l =>
      p ← myself;
      m ← gets (fun s => h_mem (x_hw s));
      match kaccess m (pgdir p) va with
      | Some a => memupd (fun m => store8 m a c);; copy_back l (va + 1)
      | None => panic "trap"
      end
  end.

Definition sys_read : MS Z :=
  r ← argfd 0;
  match r with
  | None => mret (-1)
  | Some (_, f) =>
      n ← argint 2;
      match n with
      | None => mret (-1)
      | Some n =>
          p ← argptr 1 n;
          match p with
          | None => mret (-1)
          | Some p => '(v, l) ← fileread pswtch fuel f n; copy_back l p;; mret v
          end
      end
  end.

Definition sys_write : MS Z :=
  r ← argfd 0;
  match r with
  | None => mret (-1)
  | Some (_, f) =>
      n ← argint 2;
      match n with
      | None => mret (-1)
      | Some n =>
          p ← argptr 1 n;
          match p with
          | None => mret (-1)
          | Some p => l ← copy_in (Z.to_nat n) p; filewrite pswtch fuel f l
          end
      end
  end.

(** The fields of [struct stat]; the padding stays. *)
Definition put_stat (st : stat) (p : Z) : MS unit :=
  copy_back [u8 (st_type st); u8 (st_type st / 2 ^ 8)] p;;
  copy_back [u8 (st_dev st); u8 (st_dev st / 2 ^ 8); u8 (st_dev st / 2 ^ 16); u8 (st_dev st / 2 ^ 24)] (p + 4);;
  copy_back [u8 (st_ino st); u8 (st_ino st / 2 ^ 8); u8 (st_ino st / 2 ^ 16); u8 (st_ino st / 2 ^ 24)] (p + 8);;
  copy_back [u8 (st_nlink st); u8 (st_nlink st / 2 ^ 8)] (p + 12);;
  copy_back [u8 (st_size st); u8 (st_size st / 2 ^ 8); u8 (st_size st / 2 ^ 16); u8 (st_size st / 2 ^ 24)] (p + 16).

Definition sys_fstat : MS Z :=
  r ← argfd 0;
  match r with
  | None => mret (-1)
  | Some (_, f) =>
      p ← argptr 1 20;
      match p with
      | None => mret (-1)
      | Some p =>
          st ← filestat f;
          match st with None => mret (-1) | Some st => put_stat st p;; mret 0 end
      end
  end.

(** The inode to open, locked. *)
Definition open_inode (path : list Z) (omode : Z) : MI (option nat) :=
  if negb (Z.land omode O_CREATE =? 0) then create fuel bswtch swtch junk path T_FILE 0 0
  else
    r ← namei fuel bswtch swtch junk path;
    match r with
    | None => mret None
    | Some ip =>
        ilock fuel bswtch swtch (Some ip);;
        x ← iread ip;
        if (d_type (i_di x) =? T_DIR) && negb (omode =? O_RDONLY) then iunlockput fuel bswtch swtch ip;; mret None
        else mret (Some ip)
    end.

Definition open_path (path : list Z) (omode : Z) : MS Z :=
  il (bl (begin_op bswtch fuel));;
  r ← il (open_inode path omode);
  match r with
  | None => il (bl (end_op fuel bswtch));; mret (-1)
  | Some ip =>
      f ← filealloc;
      fd ← match f with None => mret (-1) | Some f => fdalloc f end;
      match f with
      | Some f =>
          if fd <? 0 then
            fileclose end_ f;; il (iunlockput fuel bswtch swtch ip);; il (bl (end_op fuel bswtch));; mret (-1)
          else
            il (iunlock (Some ip));; il (bl (end_op fuel bswtch));;
            file_upd f (fun x => MkFile FD_INODE (ref x) (Z.land omode O_WRONLY =? 0)
              (negb (Z.land omode O_WRONLY =? 0) || negb (Z.land omode O_RDWR =? 0)) (f_pipe x) (Z.of_nat ip) 0);;
            mret fd
      | None => il (iunlockput fuel bswtch swtch ip);; il (bl (end_op fuel bswtch));; mret (-1)
      end
  end.

Definition sys_open : MS Z :=
  path ← argstr 0;
  match path with
  | None => mret (-1)
  | Some path =>
      omode ← argint 1;
      match omode with None => mret (-1) | Some omode => open_path path omode end
  end.

Definition put_int (v p : Z) : MS unit :=
  copy_back [u8 v; u8 (v / 2 ^ 8); u8 (v / 2 ^ 16); u8 (v / 2 ^ 24)] p.

Definition sys_pipe : MS Z :=
  fd ← argptr 0 8;
  match fd with
  | None => mret (-1)
  | Some fd =>
      r ← pipealloc end_;
      match r with
      | (0, Some rf, Some wf) =>
          fd0 ← fdalloc rf;
          fd1 ← (if fd0 <? 0 then mret (-1) else fdalloc wf);
          if (fd0 <? 0) || (fd1 <? 0) then
            (if fd0 <? 0 then mret tt else set_ofile (Z.to_nat fd0) 0);;
            fileclose end_ rf;; fileclose end_ wf;; mret (-1)
          else put_int fd0 fd;; put_int fd1 (fd + 4);; mret 0
      | _ => mret (-1)
      end
  end.

(** The strings of [uargv] up to a null pointer, at most [MAXARG - 1] of them. *)
Definition MAXARG : Z := 32.
Fixpoint fetch_argv (k : nat) (uargv i : Z) : MS (option (list (list Z))) :=
  match k with
  | O => no_fuel
  | S k =>
      if MAXARG <=? i then mret None
      else
        uarg ← fetchint (u32 (uargv + 4 * i));
        match uarg with
        | None => mret None
        | Some uarg =>
            if uarg =? 0 then mret (Some [])
            else
              s ← fetchstr (u32 uarg);
              match s with
              | None => mret None
              | Some s => r ← fetch_argv k uargv (i + 1); mret (cons s <$> r)
              end
        end
  end.

Definition sys_exec (exec : list Z -> list (list Z) -> MS Z) : MS Z :=
  path ← argstr 0;
  match path with
  | None => mret (-1)
  | Some path =>
      uargv ← argint 1;
      match uargv with
      | None => mret (-1)
      | Some uargv =>
          argv ← fetch_argv 33 (u32 uargv) 0;
          match argv with None => mret (-1) | Some argv => exec path argv end
      end
  end.
End descriptors.
