(* ===== verification/Xv6Tx.v ===== *)
(** * Calls that hold several inodes (lab2/sysfile.c, fs.c)

    The state inside a transaction, with a list of inodes that the process has
    locked and the references to each inode; and what the routines of fs.c do to
    this state. *)

From S2P Require Import Prelude CMem JosPrintfmt Xv6Lock Xv6Proc Xv6World Xv6Bio Xv6Log Xv6Txn Xv6Inode Xv6Disk Xv6Iops Xv6Content Xv6Wrote Xv6Writei Xv6Icache Xv6Trunc Xv6Ialloc Xv6Dir Xv6Dirops Xv6Path Xv6Sysfile.
From stdpp Require Import base numbers option list gmap strings.
Open Scope Z_scope.

#[local] Opaque Nat.div Nat.modulo.

Definition minus1 (R : Z -> Z) (n m : Z) : Z := R m - (if m =? n then 1 else 0).

Section tx.
Context (cur : nat) (pd : Z) (SB : superblock) (fuel : nat) (bswtch : MF unit) (swtch : MI unit) `{DV : Devsw}.
Context (Hfuel : (0 < fuel)%nat) (G : geom SB).
Notation wpa := (wpa cur pd SB).

(** The entry [x] of a locked inode [n]. *)
Record owned (D : Z -> dinode) (n : Z) (x : inode) : Prop := Owned {
  ow_inum : i_inum x = n;
  ow_ref : 0 < i_ref x;
  ow_lock : i_lock x = MkSleep 1 pd;
  ow_dev : i_dev x = 1;
  ow_valid : i_valid x = 1;
  ow_di : i_di x = D n;
  ow_live : live (D n) }.

(** The entries [L] of the cache are locked, by their inodes, and inode [m] has
    [R m] references. *)
Record locks (D : Z -> dinode) (ic : list inode) (L : list (nat * Z)) (R : Z -> Z) : Prop := Locks {
  lk_ok : ic_ok SB ic D;
  lk_own ip n : (ip, n) ∈ L -> exists x, ic !! ip = Some x /\ owned D n x;
  lk_free ip x : ip ∉ L.*1 -> ic !! ip = Some x -> sl_locked (i_lock x) = 0;
  lk_refs m : refs ic m = R m }.

Record txn (a : astate) (D : Z -> dinode) (L : list (nat * Z)) (R : Z -> Z) : Prop := Txn {
  tx_fs : fs_ok SB (a_blk a) D [];
  tx_disk : on_disk SB (a_blk a) D [];
  tx_locks : locks D (a_ic a) L R;
  tx_held : a_held a = [] }.

(** The files other than [X] are as they were. *)
Definition same_files (X : list Z) (a : astate) (D : Z -> dinode) (a' : astate) (D' : Z -> dinode) : Prop :=
  forall j, j ∉ X -> D' j = D j /\ (inum_ok SB j -> live (D j) -> fbytes (a_blk a') (D' j) = fbytes (a_blk a) (D j)).

Lemma same_refl X a D : same_files X a D a D.
Proof. by intros j Hj. Qed.

Lemma same_trans X a D a1 D1 a2 D2 : same_files X a D a1 D1 -> same_files X a1 D1 a2 D2 -> same_files X a D a2 D2.
Proof.
  intros H1 H2 j Hj. destruct (H1 j Hj) as [E1 F1], (H2 j Hj) as [E2 F2]. split; [congruence|].
  intros Hi Hl. rewrite F2; [by apply F1|done|by rewrite E1].
Qed.

Lemma same_sub X Y a D a' D' : (forall j, j ∈ X -> j ∈ Y) -> same_files X a D a' D' -> same_files Y a D a' D'.
Proof. intros HXY H j Hj. apply H. auto. Qed.

(** The blocks of the free map. *)
Definition bitmaps : list Z := seqZ (sb_bmapstart SB) (Z.of_nat (nbitmap SB)).

Lemma bblock_bitmaps b : blk_ok SB b -> BBLOCK b SB ∈ bitmaps.
Proof.
  intros Hb. destruct (BBLOCK_eq SB G b Hb) as [E _]. apply elem_of_seqZ. rewrite E. unfold nbitmap, blk_ok in *.
  assert (0 <= b / BPB <= sb_size SB / BPB); [|lia]. change BPB with 4096 in *. split; [apply Z.div_pos; lia|apply Z.div_le_mono; lia].
Qed.

Lemma log_count (W X : list Z) : NoDup W -> (forall m, m ∈ W -> m ∈ X) -> (length W <= length X)%nat.
Proof. intros Hnd Hs. by apply submseteq_length, NoDup_submseteq. Qed.

(** The references of the system to [m], beyond those of the call. *)
Lemma roomy_refs D ic (L : list (nat * Z)) R (U : gset Z) :
  locks D ic L R -> (forall m, R m < 2 ^ 31 - 1) -> (forall m, 0 < R m -> m ∈ U) -> (size U < NINODE)%nat -> roomy SB ic.
Proof.
  intros [Hok _ _ Hrefs] HR HU Hsz. split; [intros m _; by rewrite Hrefs|].
  apply (room_left SB D ic U); [done|intros m; rewrite Hrefs; apply HU|done].
Qed.

(** Besides the inodes [U] of the rest of the system, those of [X]. *)
Lemma roomy_more D ic L R (U : gset Z) (X : list Z) :
  locks D ic L R -> (forall m, R m < 2 ^ 31 - 1) -> (forall m, 0 < R m -> m ∈ X \/ m ∈ U) -> (length X + size U < NINODE)%nat -> roomy SB ic.
Proof.
  clear Hfuel G. intros Hlk HR HU Hsz. apply (roomy_refs D ic L R (list_to_set X ∪ U) Hlk HR).
  - intros m [?|?]%HU; apply elem_of_union; [left; by apply elem_of_list_to_set|by right].
  - pose proof (size_union_alt (list_to_set X) U) as E. pose proof (subseteq_size (U ∖ list_to_set X) U ltac:(set_solver)).
    assert (size (list_to_set X : gset Z) <= length X)%nat; [|lia]. clear. induction X as [|x X IH]; [done|].
    rewrite list_to_set_cons. pose proof (size_union_alt {[x]} (list_to_set X : gset Z)) as E. cbn [length].
    pose proof (subseteq_size (list_to_set X ∖ {[x]}) (list_to_set X : gset Z) ltac:(set_solver)). rewrite size_singleton in E. lia.
Qed.

Lemma cached_locks D ic R : cached SB D ic R <-> locks D ic [] R.
Proof.
  split.
  - intros [H1 H2 H3]. constructor; [done|by intros ip n Hin%elem_of_nil|intros ip x _; apply H2|done].
  - intros [H1 _ H2 H3]. constructor; try done. intros ip x. apply (H2 ip x), not_elem_of_nil.
Qed.

Lemma own_entry a D L R ip n x : txn a D L R -> a_ic a !! ip = Some x -> owned D n x -> entry SB a D ip x.
Proof.
  intros [_ _ [Hok _ _ _] _] Hx [En Hr _ Hd _ Hdi Hl]. destruct (io_dev _ _ _ Hok ip x Hx Hr) as [_ Hi].
  by constructor; rewrite ?En in *.
Qed.

Lemma owned_inum D ic L R ip n : locks D ic L R -> (ip, n) ∈ L -> inum_ok SB n /\ live (D n).
Proof.
  intros [Hok Hown _ _] (x & Hx & [<- Hr _ _ _ _ Hl])%Hown. split; [by apply (io_dev _ _ _ Hok ip x)|done].
Qed.

(** One inode is locked once. *)
Lemma locks_uniq D ic L R ip jp n : locks D ic L R -> (ip, n) ∈ L -> holds ic n jp -> jp = ip.
Proof.
  intros [Hok Hown _ _] (x & Hx & [En Hr _ _ _ _ _])%Hown (y & Hy & Ey & Hry).
  apply (io_uniq _ _ _ Hok jp ip y x); try done. congruence.
Qed.

Lemma not_locked D ic L R ip n : locks D ic L R -> holds ic n ip -> n ∉ L.*2 -> ip ∉ L.*1.
Proof.
  intros [Hok Hown _ _] (y & Hy & Ey & Hry) Hn Hin. apply list_elem_of_fmap in Hin as ([jp m] & E & Hin). cbn in E. subst jp.
  destruct (Hown _ _ Hin) as (x & Hx & [En _ _ _ _ _ _]). apply Hn, list_elem_of_fmap. exists (ip, m). split; [|done]. cbn. congruence.
Qed.

(** ** Locking *)

Lemma wpa_lock a D L R ip n :
  txn a D L R -> holds (a_ic a) n ip -> n ∉ L.*2 -> live (D n) -> (length (a_log a) < 29)%nat ->
  wpa (ilock fuel bswtch swtch (Some ip)) a (fun _ a' => exists ic', a' = set_ic ic' a /\ txn a' D ((ip, n) :: L) R /\
    forall m jp, holds (a_ic a) m jp -> holds ic' m jp).
Proof.
  intros [Hf Ho Hlk Hh] Hhold HnL Hl Hlog. pose proof (not_locked D _ L R ip n Hlk Hhold HnL) as Hnin.
  pose proof Hlk as [Hok Hown Hfree Hrefs]. destruct Hhold as (x & Hx & En & Hr). subst n.
  assert (ip < length (a_ic a))%nat as Hlt by (by eapply lookup_lt_Some).
  eapply wpa_mono; [apply (wpa_ilock cur pd SB fuel bswtch swtch a D [] ip x); try done; [by apply (Hfree ip)|apply not_elem_of_nil]|].
  intros _ ? ->. eexists. split; [done|]. split; [|intros m jp; by apply (holds_insert _ ip x)].
  destruct (io_dev _ _ _ Hok ip x Hx Hr) as [Hd Hi]. constructor; try done. constructor; cbn [a_ic set_ic].
  - by apply ic_locked.
  - intros jp m [[= -> ->]|Hin]%elem_of_cons.
    + eexists. split; [by apply list_lookup_insert_eq|]. by constructor.
    + destruct (Hown jp m Hin) as (y & Hy & Hoy). exists y. split; [|done]. rewrite list_lookup_insert_ne; [done|].
      intros ->. apply Hnin, list_elem_of_fmap. by exists (jp, m).
  - intros jp y Hjp Hy. cbn [fmap list_fmap fst] in Hjp. apply not_elem_of_cons in Hjp as [Hne Hjp].
    rewrite list_lookup_insert_ne in Hy by done. by apply (Hfree jp).
  - intros m. rewrite (refs_insert _ ip x _ m Hx). unfold contrib. simpl. rewrite Hrefs. lia.
Qed.

Lemma wpa_own a D L R ip n :
  txn a D L R -> (ip, n) ∈ L -> wpa (iread ip) a (fun x a' => a' = a /\ owned D n x).
Proof.
  intros Ht Hin. destruct (lk_own _ _ _ _ (tx_locks _ _ _ _ Ht) ip n Hin) as (x & Hx & Ho).
  eapply wpa_mono; [by apply wpa_iread|]. by intros ? ? [-> ->].
Qed.

(** The lock of entry [ip] is released. *)
Lemma unlock_locks D ic L R ip n x :
  locks D ic ((ip, n) :: L) R -> ip ∉ L.*1 -> ic !! ip = Some x -> 0 < i_ref x ->
  locks D (<[ip := set_ilock (MkSleep 0 0) x]> ic) L R.
Proof.
  intros [Hok Hown Hfree Hrefs] Hnin Hx Hr. constructor.
  - apply ic_insert; [done|]. apply (ent_same SB ic D ip x); try done; [simpl; lia|apply (io_valid _ _ _ Hok ip x Hx Hr)].
  - intros jp m Hin. destruct (Hown jp m) as (y & Hy & Hoy); [by right|]. exists y. split; [|done].
    rewrite list_lookup_insert_ne; [done|]. intros ->. apply Hnin, list_elem_of_fmap. by exists (jp, m).
  - intros jp y Hjp Hy. apply list_lookup_insert_Some in Hy as [(-> & <- & _)|(Hne & Hy)]; [done|]. apply (Hfree jp y); [|done].
    cbn [fmap list_fmap fst]. by apply not_elem_of_cons.
  - intros m. rewrite (refs_insert ic ip x _ m Hx). unfold contrib. simpl. rewrite Hrefs. lia.
Qed.

Lemma wpa_unlock a D L R ip n :
  txn a D ((ip, n) :: L) R -> ip ∉ L.*1 ->
  wpa (iunlock (Some ip)) a (fun _ a' => exists ic', a' = set_ic ic' a /\ txn a' D L R /\
    forall m jp, holds (a_ic a) m jp -> holds ic' m jp).
Proof.
  intros [Hf Ho Hlk Hh] Hnin. destruct (lk_own _ _ _ _ Hlk ip n) as (x & Hx & Hox); [by left|].
  eapply wpa_mono; [apply (wpa_iunlock cur pd SB a ip x Hx); apply Hox|]. intros _ ? ->. eexists. split; [done|].
  split; [|intros m jp; by apply (holds_insert _ ip x)]. constructor; try done. apply (unlock_locks D _ L R ip n); try done. apply Hox.
Qed.

(** ** References *)

Lemma dropped_txn a D L R ip x a' D' :
  txn a D L R -> a_ic a !! ip = Some x -> 0 < i_ref x -> ip ∉ L.*1 -> dropped SB a D ip x a' D' ->
  txn a' D' L (minus1 R (i_inum x)) /\ same_files [i_inum x] a D a' D' /\ pins (minus1 R (i_inum x)) (a_ic a) (a_ic a').
Proof.
  intros [Hf Ho Hlk Hh] Hx Hr Hnin [H1 H2 H3 H4 H5 (y & Hy & Ey & Hly & Hry) H7 H8 H9 _ _].
  pose proof Hlk as [Hok Hown Hfree Hrefs]. split; [|split].
  - constructor; [done|by apply H2| |done]. constructor; [done| | |].
    + intros jp m Hin. assert (jp <> ip) as Hne by (intros ->; apply Hnin, list_elem_of_fmap; by exists (ip, m)).
      destruct (Hown jp m Hin) as (z & Hz & Hoz). exists z. rewrite H7 by done. split; [done|].
      assert (m <> i_inum x) as Hm.
      { intros ->. destruct Hne. symmetry. apply (locks_uniq D _ L R jp ip (i_inum x) Hlk Hin). by exists x. }
      destruct Hoz. constructor; rewrite ?(H8 m Hm); done.
    + intros jp z Hjp Hz. destruct (decide (jp = ip)) as [->|Hne]; [congruence|]. rewrite H7 in Hz by done. by apply (Hfree jp).
    + intros m. rewrite H5, Hrefs. done.
  - intros j Hj. apply not_elem_of_cons in Hj as [Hj _]. split; [by apply H8|]. intros Hi Hl. rewrite H8 by done.
    by apply (keeps_bytes SB (a_blk a) D [] (a_blk a') j), H9.
  - intros m jp (z & Hz & Ez & Hrz) Hm. destruct (decide (jp = ip)) as [->|Hne]; [|exists z; by rewrite H7].
    assert (z = x) as -> by congruence. exists y. split; [done|]. split; [congruence|]. subst m. unfold minus1 in Hm. rewrite Z.eqb_refl in Hm.
    rewrite <- Hrefs, (refs_entry SB _ D ip x Hok Hx Hr) in Hm. lia.
Qed.

(** What giving a reference to inode [n] back does, when [last] tells that no
    other is left and that the inode has no links. *)
Record gave (last : bool) (a : astate) (D : Z -> dinode) (L : list (nat * Z)) (R : Z -> Z) (n : Z) (a' : astate) (D' : Z -> dinode) : Prop := Gave {
  gv_txn : txn a' D' L (minus1 R n);
  gv_same : same_files [n] a D a' D';
  gv_pins : pins (minus1 R n) (a_ic a) (a_ic a');
  gv_free : if last then ~ live (D' n) /\ forall b, blk_ok SB b ->
      free SB (a_blk a') b = true <-> free SB (a_blk a) b = true \/ b ∈ iblocks (a_blk a) (D n)
    else D' = D /\ a_blk a' = a_blk a /\ a_log a' = a_log a;
  gv_log : (length (a_log a') <= length (a_log a) + nbitmap SB + 2)%nat }.

Lemma wpa_give a D L R ip n :
  txn a D L R -> holds (a_ic a) n ip -> n ∉ L.*2 -> R n < 2 ^ 31 -> d_nlink (D n) <> 0 \/ 1 < R n ->
  wpa (iput fuel bswtch swtch ip) a (fun _ a' => gave false a D L R n a' D).
Proof.
  intros Ht Hhold HnL HR Hln. pose proof Ht as [Hf Ho Hlk Hh]. pose proof (not_locked D _ L R ip n Hlk Hhold HnL) as Hnin.
  destruct Hhold as (x & Hx & En & Hr). subst n. pose proof Hlk as [Hok Hown Hfree Hrefs].
  assert (i_ref x = R (i_inum x)) as Er by (by rewrite <- Hrefs, (refs_entry SB _ D ip x Hok Hx Hr)).
  assert (orphan D x = false) as Horp.
  { unfold orphan. destruct Hln as [Hl|Hl].
    - rewrite (proj2 (Z.eqb_neq _ _) Hl). by rewrite andb_false_r.
    - rewrite (proj2 (Z.eqb_neq (i_ref x) 1)) by lia. apply andb_false_r. }
  eapply wpa_mono; [apply (wpa_iput cur pd SB fuel bswtch swtch Hfuel G a D ip x); try done; [lia|by apply (Hfree ip)|by rewrite Horp]|].
  intros _ a' (D' & Hdr). destruct (dropped_txn a D L R ip x a' D' Ht Hx Hr Hnin Hdr) as (H1 & H2 & H3).
  pose proof (dr_free _ _ _ _ _ _ _ Hdr) as Hfr. rewrite Horp in Hfr. destruct Hfr as (-> & Hb & Hg).
  constructor; [done|done|done|done|apply Hdr].
Qed.

Lemma wpa_unlock_give a D L R ip n :
  txn a D ((ip, n) :: L) R -> n ∉ L.*2 -> R n < 2 ^ 31 -> (length (a_log a) + nbitmap SB < 24)%nat ->
  wpa (iunlockput fuel bswtch swtch ip) a (fun _ a' => exists D', gave ((d_nlink (D n) =? 0) && (R n =? 1)) a D L R n a' D').
Proof.
  intros Ht HnL HR Hlog. pose proof Ht as [Hf Ho Hlk Hh]. destruct (lk_own _ _ _ _ Hlk ip n) as (x & Hx & Hox); [by left|].
  assert (ip ∉ L.*1) as Hnin.
  { intros ([jp m] & E & Hin)%list_elem_of_fmap. cbn in E. subst jp. apply HnL, list_elem_of_fmap. exists (ip, m). split; [|done]. cbn.
    destruct (lk_own _ _ _ _ Hlk ip m) as (y & Hy & Hoy); [by right|]. rewrite <- (ow_inum _ _ _ Hox), <- (ow_inum _ _ _ Hoy). congruence. }
  assert (ip < length (a_ic a))%nat as Hlt by (by eapply lookup_lt_Some).
  unfold iunlockput. eapply wpa_bind; [apply (wpa_iunlock cur pd SB a ip x Hx); apply Hox|]. intros _ ? ->.
  set (x1 := set_ilock (MkSleep 0 0) x). set (a1 := set_ic _ a).
  assert (txn a1 D L R) as Ht1.
  { constructor; try done. apply (unlock_locks D _ L R ip n); try done. apply Hox. }
  assert (a_ic a1 !! ip = Some x1) as Hx1 by (by apply list_lookup_insert_eq). pose proof Hox as [En Hr _ _ Hv _ _].
  assert (i_ref x = R n) as Er.
  { rewrite <- (lk_refs _ _ _ _ Hlk), <- En. by rewrite (refs_entry SB _ D ip x (lk_ok _ _ _ _ Hlk) Hx Hr). }
  assert (orphan D x1 = (d_nlink (D n) =? 0) && (R n =? 1)) as Eo.
  { unfold orphan. cbn [x1 i_valid i_inum i_ref set_ilock]. by rewrite Hv, En, Er. }
  eapply wpa_mono; [apply (wpa_iput cur pd SB fuel bswtch swtch Hfuel G a1 D ip x1); try done; [apply Ht1|cbn [x1 i_ref set_ilock]; lia]|].
  intros _ a' (D' & Hdr). destruct (dropped_txn a1 D L R ip x1 a' D' Ht1 Hx1 Hr Hnin Hdr) as (H1 & H2 & H3).
  change (i_inum x1) with (i_inum x) in *. rewrite En in H1, H2, H3. exists D'. constructor; [done|exact H2| | |exact (dr_log _ _ _ _ _ _ _ Hdr)].
  - intros m jp Hm. apply H3. by apply (holds_insert _ ip x).
  - pose proof (dr_free _ _ _ _ _ _ _ Hdr) as Hfr. rewrite Eo in Hfr. cbn [x1 i_inum set_ilock] in Hfr. rewrite En in Hfr. exact Hfr.
Qed.

(** A reference to inode [n] is taken at entry [ip]. *)
Lemma took_txn a D L R n ip ic' :
  txn a D L R -> took SB (a_ic a) D n ip ic' ->
  txn (set_ic ic' a) D L (plus1 R n) /\ holds ic' n ip /\ forall m jp, holds (a_ic a) m jp -> holds ic' m jp.
Proof.
  intros [Hf Ho Hlk Hh] Htk. pose proof Htk as [Hok' (x & Hx & En & Hr & Hnew & Hll) Hrefs' Hoth Hsm].
  pose proof Hlk as [Hok Hown Hfree Hrefs].
  assert (forall jp z, a_ic a !! jp = Some z -> 0 < i_ref z -> jp = ip -> i_inum z = n) as Hsame.
  { intros jp z Hz Hrz ->. destruct (decide (i_inum z = n)) as [|Hzn]; [done|].
    by destruct (took_elsewhere SB _ D n ip ic' ip z Hok Htk Hz Hrz Hzn). }
  split; [|split; [by exists x|]].
  - constructor; try done. constructor; cbn [a_ic set_ic]; [done| | |intros m; by rewrite Hrefs', Hrefs].
    + intros jp m Hin. destruct (Hown jp m Hin) as (z & Hz & Hoz).
      destruct (decide (jp = ip)) as [->|Hne]; [|exists z; by rewrite Hoth]. exists x. split; [done|]. destruct Hoz as [E1 E2 E3 E4 E5 E6 E7].
      assert (m = n) as -> by (rewrite <- E1; by apply (Hsame ip)). destruct (io_dev _ _ _ Hok' ip x Hx Hr).
      destruct (Hsm z Hz E2) as (x' & Hx' & Ev & Ed). assert (x' = x) as -> by congruence.
      constructor; try done; [by rewrite (Hll z Hz)|congruence..].
    + intros jp z Hjp Hz. destruct (decide (jp = ip)) as [->|Hne]; [|rewrite Hoth in Hz by done; by apply (Hfree jp)].
      assert (is_Some (a_ic a !! ip)) as [y Hy].
      { apply lookup_lt_is_Some. rewrite (io_len _ _ _ Hok), <- (io_len _ _ _ Hok'). by eapply lookup_lt_Some. }
      assert (z = x) as -> by congruence. rewrite (Hll y Hy). by apply (Hfree ip).
  - intros m jp (z & Hz & Ez & Hrz). destruct (decide (jp = ip)) as [->|Hne]; [|exists z; by rewrite Hoth].
    exists x. split; [done|]. split; [|done]. rewrite En, <- Ez. symmetry. by apply (Hsame ip).
Qed.

(** ** Changes to a locked inode *)

Lemma locks_upd D D' ic L R ip n x :
  locks D ic L R -> ic !! ip = Some x -> owned D n x -> live (D' n) -> (forall j, j <> n -> D' j = D j) ->
  locks D' (<[ip := set_idi (D' n) x]> ic) L R.
Proof.
  intros Hlk Hx [En Hr Hlo Hd Hv Hdi Hl] Hl' HD. pose proof Hlk as [Hok Hown Hfree Hrefs].
  assert (ip < length ic)%nat as Hlt by (by eapply lookup_lt_Some).
  assert (forall jp y, jp <> ip -> ic !! jp = Some y -> 0 < i_ref y -> i_inum y <> n) as Hoth.
  { intros jp y Hne Hy Hry E. apply Hne. apply (io_uniq _ _ _ Hok jp ip y x); try done. congruence. }
  assert (forall jp y, <[ip := set_idi (D' n) x]> ic !! jp = Some y ->
    exists z, ic !! jp = Some z /\ i_inum y = i_inum z /\ i_ref y = i_ref z /\ i_dev y = i_dev z /\ i_lock y = i_lock z) as Hold.
  { intros jp y Hy. apply list_lookup_insert_Some in Hy as [(<- & <- & _)|(Hne & Hy)]; [by exists x|by exists y]. }
  constructor.
  - constructor.
    + rewrite length_insert. apply Hok.
    + intros jp y (z & Hz & _ & -> & _)%Hold. by apply (io_ref _ _ _ Hok jp).
    + intros jp y (z & Hz & -> & -> & -> & _)%Hold. by apply (io_dev _ _ _ Hok jp).
    + intros jp y Hy Hry. apply list_lookup_insert_Some in Hy as [(<- & <- & _)|(Hne & Hy)].
      * right. cbn [i_valid i_di i_inum set_idi]. by rewrite En.
      * rewrite HD by (apply (Hoth jp); congruence || done). by apply (io_valid _ _ _ Hok jp).
    + intros jp y (z & Hz & _ & -> & _ & ->)%Hold. by apply (io_free _ _ _ Hok jp).
    + intros jp kp y w (z & Hz & -> & -> & _)%Hold (z' & Hz' & -> & -> & _)%Hold. by apply (io_uniq _ _ _ Hok jp kp).
  - intros jp m Hin. destruct (Hown jp m Hin) as (y & Hy & Hoy). destruct (decide (jp = ip)) as [->|Hne].
    + eexists. split; [by apply list_lookup_insert_eq|]. assert (y = x) as -> by congruence.
      assert (m = n) as -> by (rewrite <- En; symmetry; apply Hoy). by constructor.
    + exists y. rewrite list_lookup_insert_ne by done. split; [done|]. destruct Hoy as [E1 E2 E3 E4 E5 E6 E7].
      assert (m <> n) as Hm by (rewrite <- E1; by apply (Hoth jp)). by constructor; rewrite ?(HD m Hm).
  - intros jp y Hjp (z & Hz & _ & _ & _ & ->)%Hold. by apply (Hfree jp).
  - intros m. rewrite (refs_insert ic ip x _ m Hx). unfold contrib. simpl. rewrite Hrefs. lia.
Qed.

Lemma written_txn a D L R ip n x f a' D' :
  txn a D L R -> a_ic a !! ip = Some x -> owned D n x -> written SB a D ip x f a' D' ->
  txn a' D' L R /\ same_files [n] a D a' D' /\ fbytes (a_blk a') (D' n) = f /\
  (forall m jp, holds (a_ic a) m jp -> holds (a_ic a') m jp) /\
  d_type (D' n) = d_type (D n) /\ d_nlink (D' n) = d_nlink (D n) /\ d_major (D' n) = d_major (D n) /\ d_minor (D' n) = d_minor (D n).
Proof.
  intros [Hf Ho Hlk Hh] Hx Hox [H1 H2 H3 H4 H5 H6 H7 H8 H9 H10 H11]. pose proof Hox as [En _ _ _ _ _ Hl]. rewrite En in *.
  split_and!; try done.
  - constructor; [done|by apply H2| |done]. rewrite H11. apply (locks_upd D); try done. unfold live. by rewrite H5.
  - intros j Hj. apply not_elem_of_cons in Hj as [Hj _]. split; [by apply H3|]. intros Hi Hlj. rewrite H3 by done.
    by apply (keeps_bytes SB (a_blk a) D [] (a_blk a') j), H4.
  - intros m jp. rewrite H11. by apply (holds_insert _ ip x).
Qed.

(** A change to the other fields of a locked inode, written to the disk. *)
Record attr_set (n : Z) (y : dinode) (a : astate) (D : Z -> dinode) (L : list (nat * Z)) (R : Z -> Z) (a' : astate) : Prop := AttrSet {
  as_txn : txn a' (upd D n y) L R;
  as_same : same_files [n] a D a' (upd D n y);
  as_bytes : fbytes (a_blk a') y = fbytes (a_blk a) (D n);
  as_free b : blk_ok SB b -> free SB (a_blk a') b = free SB (a_blk a) b;
  as_log : (length (a_log a') <= length (a_log a) + 1)%nat;
  as_holds m jp : holds (a_ic a) m jp -> holds (a_ic a') m jp;
  as_in m : m ∈ a_log a' -> m ∈ a_log a \/ m = IBLOCK n SB }.

Lemma wpa_attr a D L R ip n (g : dinode -> dinode) :
  txn a D L R -> (ip, n) ∈ L -> (length (a_log a) < 29)%nat -> di_ok (g (D n)) ->
  d_type (g (D n)) = d_type (D n) /\ d_size (g (D n)) = d_size (D n) /\ d_addrs (g (D n)) = d_addrs (D n) ->
  wpa (iupd ip (fun x => set_idi (g (i_di x)) x);; iupdate fuel bswtch ip) a (fun _ a' => attr_set n (g (D n)) a D L R a').
Proof.
  intros Ht Hin Hlog Hdi Hg. pose proof Ht as [Hf Ho Hlk Hh]. destruct (lk_own _ _ _ _ Hlk ip n Hin) as (x & Hx & Hox).
  assert (ip < length (a_ic a))%nat as Hlt by (by eapply lookup_lt_Some).
  destruct (owned_inum D _ L R ip n Hlk Hin) as [Hi Hl]. set (y := g (D n)) in *. set (D' := upd D n y).
  assert (D' n = y) as ED by apply upd_eq. assert (forall j, j <> n -> D' j = D j) as EDj by (intros j Hj; by apply upd_ne).
  eapply wpa_bind; [by apply wpa_iupd|]. intros _ ? ->. rewrite (ow_di _ _ _ Hox). fold y. pose proof (ow_inum _ _ _ Hox) as En.
  destruct (fo_blk _ _ _ _ Hf _ (inode_blk SB G n Hi)) as (d & Hd & _).
  assert (fs_ok SB (a_blk a) D' []) as Hf'.
  { apply (attr_ok SB (a_blk a) D); [done| |].
    - intros j Hj. destruct (decide (j = n)) as [->|Hne]; [by rewrite ED|rewrite EDj by done; by apply Hf].
    - intros j. destruct (decide (j = n)) as [->|Hne]; [by rewrite ED|by rewrite EDj]. }
  destruct (iupdate_ok SB G (a_blk a) D' [] n d Hf' Hi Hd) as (H1 & H2 & H3).
  { intros j Hj HjX. rewrite EDj by set_solver. by apply Ho, not_elem_of_nil. }
  rewrite ED in H1, H2, H3.
  eapply wpa_mono; [apply (wpa_iupdate cur pd SB fuel bswtch Hfuel G _ ip (set_idi y x) d); cbn [a_ic set_ic a_held a_blk a_log i_dev i_inum set_idi];
    rewrite ?En; try done; [by apply list_lookup_insert_eq|apply Hox]|].
  intros [] ? ->. cbn [a_ic set_ic a_held a_blk a_log i_di i_inum set_idi]. rewrite En.
  assert (live (D' n)) as Hl' by (unfold live; rewrite ED; by destruct Hg as (-> & _)).
  assert (fbytes (a_blk a) y = fbytes (a_blk a) (D n)) as Efb.
  { destruct Hg as (_ & E1 & E2). unfold fbytes, fbyte, dblk, slot. by rewrite E1, E2. }
  constructor; fold D'; cbn [a_ic a_held a_blk a_log].
  - constructor; try done. cbn [a_ic]. rewrite <- ED. by apply (locks_upd D).
  - intros j Hj. apply not_elem_of_cons in Hj as [Hj _]. split; [by apply EDj|]. intros Hji Hlj. rewrite <- (EDj j Hj) in Hlj.
    cbn [a_blk]. rewrite (keeps_bytes SB (a_blk a) D' [] _ j (D' j) Hf' Hji Hlj (H2 j Hji Hlj)). by rewrite EDj.
  - rewrite <- Efb. specialize (H2 n Hi Hl'). rewrite <- ED. rewrite <- ED in H2. exact (keeps_bytes SB (a_blk a) D' [] _ n (D' n) Hf' Hi Hl' H2).
  - intros b Hb. destruct (IBLOCK_eq SB G n Hi). by rewrite free_insert by (done || lia).
  - pose proof (add_block_length (IBLOCK n SB) (a_log a)). lia.
  - intros m jp. by apply (holds_insert _ ip x).
  - intros m. apply add_block_elem.
Qed.

(** The count of links changes. *)
Lemma wpa_add_nlink a D L R ip n d :
  txn a D L R -> (ip, n) ∈ L -> (length (a_log a) < 29)%nat -> - 2 ^ 15 <= d_nlink (D n) + d < 2 ^ 15 ->
  wpa (add_nlink ip d;; iupdate fuel bswtch ip) a
    (fun _ a' => attr_set n (set_dnlink (d_nlink (D n) + d) (D n)) a D L R a').
Proof.
  intros Ht Hin Hlog Hd. destruct (owned_inum D _ L R ip n (tx_locks _ _ _ _ Ht) Hin) as [Hi _].
  assert (i16 (d_nlink (D n) + d) = d_nlink (D n) + d) as E by (unfold i16; dlia).
  pose proof (wpa_attr a D L R ip n (fun x => set_dnlink (i16 (d_nlink x + d)) x) Ht Hin Hlog) as H. cbv beta in H. rewrite E in H.
  apply H; [|done]. destruct (fo_di _ _ _ _ (tx_fs _ _ _ _ Ht) n Hi). by constructor.
Qed.

(** ** Directories *)

Section dir.
Context (a : astate) (D : Z -> dinode) (L : list (nat * Z)) (R : Z -> Z) (dp : nat) (dn : Z).
Context (Ht : txn a D L R) (Hin : (dp, dn) ∈ L) (Hty : d_type (D dn) = T_DIR) (Hlog : (length (a_log a) < 26)%nat).
Let f := fbytes (a_blk a) (D dn).
Context (Hdir : dir_ok SB f).

Lemma dir_own : exists x, a_ic a !! dp = Some x /\ owned D dn x /\ entry SB a D dp x.
Proof.
  destruct (lk_own _ _ _ _ (tx_locks _ _ _ _ Ht) dp dn Hin) as (x & Hx & Hox). exists x. split; [done|]. split; [done|].
  by apply (own_entry a D L R dp dn x).
Qed.

Lemma wpa_find name :
  roomy SB (a_ic a) ->
  wpa (dirlookup fuel bswtch dp name) a (fun r a' =>
    match dslot_of f (cname name) with
    | None => r = None /\ a' = a
    | Some t => let n := de_inum (ent f t) in exists ip ic', r = Some (ip, DESIZE * Z.of_nat t) /\ a' = set_ic ic' a /\
        txn a' D L (plus1 R n) /\ holds ic' n ip /\ forall m jp, holds (a_ic a) m jp -> holds ic' m jp
    end).
Proof.
  intros Hroom. destruct dir_own as (x & Hx & Hox & He). pose proof (ow_inum _ _ _ Hox) as En.
  eapply wpa_mono; [apply (wpa_dirlookup cur pd SB fuel bswtch Hfuel G a D dp x); rewrite ?En; try apply Ht; try done|].
  rewrite En. fold f. intros r a' H. destruct (dslot_of f (cname name)) as [t|]; [|done].
  destruct H as (ip & ic' & -> & -> & Htk). exists ip, ic'. split; [done|]. split; [done|]. by apply took_txn.
Qed.

Lemma wpa_erase t :
  (t < nents f)%nat -> (length (a_log a) < 14)%nat ->
  wpa (writei fuel bswtch dp (replicate (Z.to_nat DESIZE) 0) (DESIZE * Z.of_nat t) DESIZE) a (fun v a' => v = DESIZE /\
    exists D', txn a' D' L R /\ same_files [dn] a D a' D' /\ fbytes (a_blk a') (D' dn) = erased f t /\
      (forall m jp, holds (a_ic a) m jp -> holds (a_ic a') m jp) /\
      d_type (D' dn) = d_type (D dn) /\ d_nlink (D' dn) = d_nlink (D dn) /\ (length (a_log a') <= length (a_log a) + 4)%nat /\
      (nfree SB (a_blk a) <= nfree SB (a_blk a') + 2)%nat).
Proof.
  intros Hk Hl. pose proof (nents_bound f t Hk) as Hb. destruct dir_own as (x & Hx & Hox & He). pose proof (ow_inum _ _ _ Hox) as En.
  pose proof (tx_fs _ _ _ _ Ht) as Hf. destruct (owned_inum D _ L R dp dn (tx_locks _ _ _ _ Ht) Hin) as [Hi Hlv].
  destruct (fo_size _ _ _ _ Hf dn Hi Hlv) as [Hmax Hslot].
  assert (Z.of_nat (length f) = d_size (D dn)) as Ef.
  { unfold f. rewrite length_fbytes. pose proof (do_size _ (fo_di _ _ _ _ Hf dn Hi)). lia. }
  change (Z.to_nat DESIZE) with 16%nat. unfold DESIZE in *. set (o := 16 * Z.of_nat t) in *. change (MAXFILE * BSIZE) with 71680 in *.
  assert (Hone : touched (Z.to_nat o) 16 = [(Z.to_nat o / 512)%nat]).
  { apply (touched_one (Z.to_nat o) (replicate 16 0)); cbn [length replicate]; [lia|]. replace (Z.to_nat o) with (16 * t)%nat by (unfold o; lia).
    pose proof (Nat.div_mod_eq (16 * t) 512). pose proof (Nat.mod_upper_bound (16 * t) 512 ltac:(lia)). lia. }
  assert (slot (a_blk a) (D dn) (dslot (Z.to_nat o / 512)) <> 0) as Hs.
  { apply Hslot. change BSIZE with 512. pose proof (Nat.div_mod_eq (Z.to_nat o) 512). lia. }
  assert (cost (a_blk a) (D dn) (touched (Z.to_nat o) 16) = 1)%nat as Hc.
  { rewrite Hone. cbn [cost foldr]. by rewrite decide_False. }
  eapply wpa_mono; [apply (wpa_writei cur pd SB fuel bswtch Hfuel G a D dp x (replicate 16 0) o 16); rewrite ?En, ?length_replicate; try done|].
  - apply Ht.
  - by rewrite Hty.
  - lia.
  - intros _. rewrite Hc. lia.
  - intros _. left. rewrite Hone. intros bn ->%list_elem_of_singleton. done.
  - cbv zeta. rewrite En, length_replicate, Hc. fold f. change (MAXFILE * BSIZE) with 71680. intros v a'.
    rewrite (proj2 (Z.ltb_ge _ _)) by lia. rewrite (proj2 (Z.leb_gt _ _)) by lia. rewrite (proj2 (Z.ltb_ge _ _)) by lia. cbn [orb].
    intros (-> & (D' & Hw & [_ Hfr]) & Hlg). split; [done|]. exists D'. rewrite Hone in Hfr. cbn [length] in Hfr.
    destruct (written_txn a D L R dp dn x _ a' D' Ht Hx Hox Hw) as (H1 & H2 & H3 & H4 & H5 & H6 & _). split_and!; try done; lia.
Qed.

Lemma wpa_isdirempty : wpa (isdirempty fuel bswtch dp) a (fun r a' => a' = a /\ r = dir_empty f).
Proof.
  destruct dir_own as (x & Hx & Hox & He). pose proof (ow_inum _ _ _ Hox) as En. pose proof (tx_fs _ _ _ _ Ht) as Hf.
  assert (d_type (D (i_inum x)) = T_DIR) as Hty' by (by rewrite En).
  destruct (dir_size SB fuel Hfuel a D dp x Hf He Hlog) as [Hs Hm]. rewrite En in Hs, Hm. fold f in Hs, Hm.
  pose proof (nents_len SB f Hdir) as Hn. change (MAXFILE * BSIZE) with 71680 in Hm.
  assert (forall k j, (0 < k)%nat -> Z.of_nat j <= 71680 -> (nents f < j + k)%nat ->
    wpa (isdirempty_loop fuel bswtch k dp (DESIZE * Z.of_nat j)) a (fun r a' => a' = a /\
      r = forallb (fun k => de_inum (ent f k) =? 0) (seq j (nents f - j)))) as Hloop.
  { intros k. induction k as [|k IH]; intros j Hk0 Hj Hk; [lia|]. cbn [isdirempty_loop].
    eapply wpa_bind; [by apply (wpa_own a D L R dp dn)|]. intros y ? [-> Hoy]. rewrite (ow_di _ _ _ Hoy), Hs, Hn.
    unfold DESIZE in *. rewrite u32_small by lia. destruct (Z.ltb_spec (16 * Z.of_nat j) (16 * Z.of_nat (nents f))) as [Hlt|Hge].
    - eapply wpa_bind; [apply (wpa_read_ent cur pd SB fuel bswtch Hfuel G a D dp x Hf He (tx_held _ _ _ _ Ht) Hlog Hty'); rewrite En; fold f; lia|].
      rewrite En. fold f. intros ? ? [-> ->]. change (negb (DESIZE =? 16)) with false. cbv iota.
      replace (nents f - j)%nat with (S (nents f - S j)) by lia. cbn [seq forallb].
      destruct (de_inum (ent f j) =? 0); [|by apply wpa_ret]. cbn [negb andb].
      assert (i32 (16 * Z.of_nat j + 16) = 16 * Z.of_nat (S j)) as -> by (rewrite i32_small; lia). apply IH; lia.
    - replace (nents f - j)%nat with 0%nat by lia. by apply wpa_ret. }
  unfold isdirempty. eapply wpa_bind; [by apply (wpa_own a D L R dp dn)|]. intros y ? [-> Hoy]. rewrite (ow_di _ _ _ Hoy), Hs, Hn.
  apply (Hloop _ 2%nat); unfold DESIZE; [dlia|lia|dlia].
Qed.

(** A reference to inode [n] was taken at entry [ip] and given back. *)
Lemma put_back_txn ip n ic' :
  L = [(dp, dn)] -> ic_ok SB ic' D -> (forall m, refs ic' m = refs (a_ic a) m) -> ip <> dp ->
  (forall jp, jp <> ip -> ic' !! jp = a_ic a !! jp) ->
  (exists y, ic' !! ip = Some y /\ i_inum y = n /\ sl_locked (i_lock y) = 0 /\ i_ref y = refs (a_ic a) n) ->
  txn (set_ic ic' a) D L R /\ pins R (a_ic a) ic'.
Proof.
  intros EL Hok' Hrefs' Hip Hoth (y & Hy & Ey & Hly & Hry). destruct Ht as [Hf Ho [Hok Hown Hfree Hrefs] Hh]. subst L. split.
  - constructor; try done. constructor; cbn [a_ic set_ic]; [done| | |intros m; by rewrite Hrefs'].
    + intros jp m Hjm. destruct (Hown jp m Hjm) as (z & Hz & Hoz). assert ((jp, m) = (dp, dn)) as Ejm by (by apply list_elem_of_singleton).
      injection Ejm as -> ->. exists z. by rewrite Hoth.
    + intros jp z Hjp Hz. destruct (decide (jp = ip)) as [->|Hne]; [congruence|]. rewrite Hoth in Hz by done. by apply (Hfree jp).
  - intros m jp (z & Hz & Ez & Hrz) HRm. destruct (decide (jp = ip)) as [->|Hne]; [|exists z; by rewrite Hoth].
    destruct (decide (n = m)) as [<-|Hnm]; [exists y; rewrite <- Hrefs in HRm; split_and!; [done|done|lia]|].
    exfalso. rewrite <- Hrefs, <- Hrefs' in HRm. rewrite refs_zero in HRm; [lia|intros ? ?; by apply (io_ref _ _ _ Hok')|].
    intros kp w Hw Hrw E. destruct (decide (kp = ip)) as [->|Hk]; [congruence|]. rewrite Hoth in Hw by done. apply Hk.
    apply (io_uniq _ _ _ Hok kp ip w z); try done. congruence.
Qed.

Lemma wpa_addname name inum :
  roomy SB (a_ic a) -> 0 < inum < 2 ^ 16 -> dlookup f (cname name) <> Some dn -> (dlookup f (cname name) <> None -> L = [(dp, dn)]) ->
  Z.of_nat (length f) + DESIZE <= MAXFILE * BSIZE -> (length (a_log a) < 14)%nat -> (2 < nfree SB (a_blk a))%nat ->
  wpa (dirlink fuel bswtch swtch dp name inum) a (fun v a' =>
    match dlookup f (cname name) with
    | Some _ => v = -1 /\ exists ic', a' = set_ic ic' a /\ txn a' D L R /\ pins R (a_ic a) ic'
    | None => v = 0 /\ exists D', txn a' D' L R /\ same_files [dn] a D a' D' /\ fbytes (a_blk a') (D' dn) = linked f name inum /\
        (forall m jp, holds (a_ic a) m jp -> holds (a_ic a') m jp) /\
        d_type (D' dn) = d_type (D dn) /\ d_nlink (D' dn) = d_nlink (D dn) /\ (length (a_log a') <= length (a_log a) + 5)%nat /\
        (exists b1 b2, forall m, m ∈ a_log a' -> m ∈ a_log a \/ m ∈ bitmaps ++ [IBLOCK dn SB; b1; b2]) /\
        (nfree SB (a_blk a) <= nfree SB (a_blk a') + 2)%nat /\ d_major (D' dn) = d_major (D dn) /\ d_minor (D' dn) = d_minor (D dn)
    end).
Proof.
  intros Hroom Hinum Hself HL Hfull Hl Hfree. destruct dir_own as (x & Hx & Hox & He). pose proof (ow_inum _ _ _ Hox) as En.
  pose proof Ht as [Hf _ Hlk Hh]. pose proof Hlk as [Hok Hown Hun _].
  eapply wpa_mono; [apply (wpa_dirlink cur pd SB fuel bswtch swtch Hfuel G a D dp x Hf He Hh Hlog); rewrite ?En; try done; [apply Hox|]|].
  { fold f. intros Hne jp y Hjp. apply Hun. rewrite (HL Hne). cbn [fmap list_fmap fst]. by intros ->%list_elem_of_singleton. }
  rewrite En. fold f. intros v a' H. destruct (dlookup f (cname name)) as [n|] eqn:E.
  - destruct H as (-> & ip & ic' & -> & H1 & H2 & H3 & H4 & H5). split; [done|]. exists ic'. split; [done|].
    by apply (put_back_txn ip n); [apply HL|..].
  - destruct H as (-> & (D' & t & Hw & [Hb Hfr] & Ht1) & Hlg). split; [done|]. exists D'.
    destruct (written_txn a D L R dp dn x _ a' D' Ht Hx Hox Hw) as (H1 & H2 & H3 & H4 & H5 & H6 & H7 & H8). split_and!; try done; [|lia].
    exists (slot (a_blk a') (D' dn) NDIRECT), (slot (a_blk a') (D' dn) (dslot (default 0%nat (head t)))).
    intros m [Hm|[->|[(b & Hbo & ->)|[->|(bn & Hbn & ->)]]]]%Hb; [by left|right; apply elem_of_app..].
    + right. left.
    + left. by apply bblock_bitmaps.
    + right. right. left.
    + destruct t as [|b1 [|? ?]]; [by apply elem_of_nil in Hbn| |simpl in Ht1; lia]. apply list_elem_of_singleton in Hbn as ->. set_solver.
Qed.
End dir.
End tx.
