(* ===== verification/Xv6Unlink.v ===== *)
(** * [unlink] (lab2/sysfile.c)

    A name is removed from its directory and its inode loses a link; with the
    last link, and when no process has the file open, the inode and its blocks
    are free.  The call is one transaction. *)

From S2P Require Import Prelude CMem JosPrintfmt Xv6Lock Xv6Proc Xv6World Xv6Bio Xv6Log Xv6Txn Xv6Inode Xv6Disk Xv6Iops Xv6Content Xv6Wrote Xv6Writei Xv6Icache Xv6Trunc Xv6Ialloc Xv6Dir Xv6Dirops Xv6Path Xv6Image Xv6Syscall Xv6Fs Xv6Sysfile Xv6Tx.
From stdpp Require Import base numbers option list gmap strings.
Open Scope Z_scope.

#[local] Opaque Nat.div Nat.modulo.

(** The names no call removes. *)
Definition dots (nm : list Z) : bool := bool_decide (nm = cname (zs ".")) || bool_decide (nm = cname (zs "..")).

Lemma dots_namecmp name : (namecmp name (zs ".") =? 0) || (namecmp name (zs "..") =? 0) = dots (cname name).
Proof.
  unfold dots. f_equal; apply eq_bool_prop_intro; rewrite bool_decide_spec, Is_true_true, Z.eqb_eq; apply namecmp_eq.
Qed.

Section frame.
Context (cur : nat) (pd : Z) (SB : superblock) (fuel : nat) (bswtch : MF unit).
Context (Hfuel : (0 < fuel)%nat) (G : geom SB).
Notation wpa := (wpa cur pd SB).
Notation wpi := (wpx (R := ist) (Some cur) pd).

(** A call that began in the state [r], now in [r1]. *)
Record during (r r1 : ist) (a : astate) : Prop := During {
  du_aok : aok pd SB a r1;
  du_disk : disk (blk r1) = disk (blk r);
  du_writes : writes (blk r1) = writes (blk r);
  du_one : l_outstanding (log (blk r1)) = 1 }.

Lemma wpi_open {B} r D (f : unit -> MI B) Q :
  fs_idle pd SB r D -> (forall r1, during r r1 (AS (icache r) [] (contents r) []) -> wpi [] r1 (f tt) Q) ->
  wpi [] r (bl (begin_op bswtch fuel) ≫= f) Q.
Proof. intros Hi Hk. eapply wpi_begin; [done|done|]. intros r1 H1 H2 H3 H4. by apply Hk. Qed.

Lemma wpi_step {A B} (m : MI A) (f : A -> MI B) r r1 a Q1 Q :
  during r r1 a -> wpa m a Q1 -> (forall v a' r2, during r r2 a' -> Q1 v a' -> wpi [] r2 (f v) Q) -> wpi [] r1 (m ≫= f) Q.
Proof.
  intros [H1 H2 H3 H4] Hm Hf. eapply wpi_run; [done|done|]. intros v a' r2 Ha' (E1 & E2 & E3). apply Hf. constructor; congruence || done.
Qed.

Lemma wpi_assoc {A B C} (m1 : MI A) (m2 : A -> MI B) (f : B -> MI C) r Q :
  wpi [] r ((x ← m1; m2 x) ≫= f) Q -> wpi [] r (x ← m1; m2 x ≫= f) Q.
Proof.
  intros H s Hw Hr. specialize (H s Hw Hr). unfold wp, mbind, M_bind in *. by destruct (m1 s).
Qed.

Lemma wpi_ret_bind {A B} (v : A) (f : A -> MI B) r Q : wpi [] r (f v) Q -> wpi [] r (mret v ≫= f) Q.
Proof. intros H s Hw Hr. exact (H s Hw Hr). Qed.

Lemma wpi_close {B} r D r1 a D' L R (f : unit -> MI B) Q :
  fs_idle pd SB r D -> during r r1 a -> txn pd SB a D' L R -> (length (a_log a) <= 10)%nat ->
  (forall r', fs_idle pd SB r' D' -> icache r' = a_ic a -> atomic cur pd SB fuel bswtch r D r' D' ->
     (forall i, inum_ok SB i -> live (D' i) -> file_of r' D' i = fbytes (a_blk a) (D' i)) ->
     nfree SB (contents r') = nfree SB (a_blk a) -> wpi [] r' (f tt) Q) ->
  wpi [] r1 (bl (end_op fuel bswtch) ≫= f) Q.
Proof.
  intros Hi [H1 H2 H3 H4] [Hf Ho Hlk Hh] Hlog Hk. apply (wpi_end cur pd SB fuel bswtch Hfuel G r D r1 a D'); try done; apply Hlk.
Qed.
End frame.

(** ** The tree of directories *)

Section tree.
Context (SB : superblock) (C : gmap Z (list Z)) (D : Z -> dinode).

Definition linked_dir (d : Z) : Prop := inum_ok SB d /\ d_type (D d) = T_DIR /\ d_nlink (D d) <> 0.

(** What [unlink] relies on: no directory has a name twice, none but "." and ".."
    leads a directory to itself, and a directory with a directory in it has the
    link of its "..". *)
Record tree_wf : Prop := TreeWf {
  tw_tree : tree_ok C D SB;
  tw_root : linked_dir ROOTINO;
  tw_links m : inum_ok SB m -> live (D m) -> 0 <= d_nlink (D m);
  tw_uniq d : linked_dir d -> uniq_names (fbytes C (D d));
  tw_self d nm : linked_dir d -> dots nm = false -> dlookup (fbytes C (D d)) nm <> Some d;
  tw_sub d nm m : linked_dir d -> dots nm = false -> dlookup (fbytes C (D d)) nm = Some m -> d_type (D m) = T_DIR ->
    1 < d_nlink (D d) }.

Lemma dir_target d nm m :
  tree_ok C D SB -> linked_dir d -> dlookup (fbytes C (D d)) nm = Some m -> inum_ok SB m /\ live (D m) /\ d_nlink (D m) <> 0.
Proof.
  intros Ht (Hi & Hty & Hn) Hl. destruct (Ht d Hi Hty Hn) as [Hd Hm]. destruct (dlookup_inum SB _ nm m Hd Hl).
  split; [done|]. by apply (Hm nm).
Qed.

(** The walk ends at an inode with links. *)
Lemma walk_linked parent n ns m :
  tree_ok C D SB -> inum_ok SB n -> live (D n) -> d_nlink (D n) <> 0 -> walk C D parent n ns = Some m ->
  inum_ok SB m /\ live (D m) /\ d_nlink (D m) <> 0 /\ (parent = true -> linked_dir m).
Proof.
  intros Ht. revert n. induction ns as [|nm ns IH]; intros n Hi Hl Hn; cbn [walk].
  - destruct parent; [done|]. intros [= <-]. done.
  - destruct (Z.eqb_spec (d_type (D n)) T_DIR) as [Hty|]; [|done].
    destruct (parent && bool_decide (ns = [])).
    + intros [= <-]. done.
    + destruct (dlookup _ nm) as [k|] eqn:E; [|done].
      destruct (dir_target n nm k Ht) as (? & ? & ?); [done|done|]. by apply IH.
Qed.
End tree.

Section perm.
Context (pd : Z) (SB : superblock).

Lemma txn_perm a D L L' R R' : txn pd SB a D L R -> L ≡ₚ L' -> (forall m, R' m = R m) -> txn pd SB a D L' R'.
Proof.
  intros [Hf Ho [Hok Hown Hfree Hrefs] Hh] HP HR. constructor; try done. constructor; [done| | |].
  - intros ip n Hin. apply Hown. by rewrite HP.
  - intros ip x Hip. apply Hfree. by rewrite HP.
  - intros m. by rewrite Hrefs, HR.
Qed.
End perm.

(** ** The call *)

Section unlink.
Context (cur : nat) (pd : Z) (SB : superblock) (fuel : nat) (bswtch : MF unit) (swtch : MI unit) (junk : list Z) `{DV : Devsw}.
Context (Hfuel : (0 < fuel)%nat) (G : geom SB) (Hbm : (nbitmap SB <= 2)%nat) (Hjunk : length junk = DIRSIZ).
Notation wpa := (wpa cur pd SB).
Notation wpi := (wpx (R := ist) (Some cur) pd).
Notation txn := (txn pd SB).
Notation during := (during pd SB).

Context (r : ist) (D : Z -> dinode) (Hi : fs_idle pd SB r D) (Htree : tree_wf SB (contents r) D).
Context (R : Z -> Z) (U : gset Z) (HR : forall m, 0 <= R m < 2 ^ 31 - 3) (HU : forall m, 0 < R m -> m ∈ U)
  (Hroom : (size U + 2 <= NINODE)%nat) (Hc : cached SB D (icache r) R).
Notation C := (contents r).
Notation F d := (fbytes C (D d)).

(** The call fails and changes nothing. *)
Definition untouched (r' : ist) : Prop :=
  fs_idle pd SB r' D /\ atomic cur pd SB fuel bswtch r D r' D /\ cached SB D (icache r') R /\
  (forall i, inum_ok SB i -> live (D i) -> file_of r' D i = file_of r D i) /\ nfree SB (contents r') = nfree SB C.

Definition unchanged (v : Z) (H' : list nat) (r' : ist) : Prop := H' = [] /\ v = -1 /\ untouched r'.

Lemma wpi_fail (w : Z) r1 a :
  during r r1 a -> txn a D [] R -> a_log a = [] -> a_blk a = C ->
  wpi [] r1 (bl (end_op fuel bswtch);; mret w) (fun v H' r' => H' = [] /\ v = w /\ untouched r').
Proof.
  intros Hd Ht Hlog Hblk. apply (wpi_close cur pd SB fuel bswtch Hfuel G r D r1 a D [] R); [done|done|done|by rewrite Hlog; apply Nat.le_0_l|].
  intros r' Hi' Eic Hat Hfi Hnf. apply wpx_ret. unfold untouched. split_and!; try done.
  - rewrite Eic. apply (cached_locks pd SB), Ht.
  - intros i Hii Hl. rewrite Hfi by done. by rewrite Hblk.
  - by rewrite Hnf, Hblk.
Qed.

Lemma wpi_unlink_bad dp dn r1 a :
  during r r1 a -> txn a D [(dp, dn)] (plus1 R dn) -> a_log a = [] -> a_blk a = C -> d_nlink (D dn) <> 0 ->
  wpi [] r1 (unlink_bad fuel bswtch swtch dp) unchanged.
Proof.
  intros Hd Ht Hlog Hblk Hn. unfold unlink_bad. pose proof (HR dn) as HRd.
  eapply wpi_step; [done|apply (wpa_unlock_give cur pd SB fuel bswtch swtch Hfuel G a D [] (plus1 R dn) dp dn); try done|].
  - apply not_elem_of_nil.
  - unfold plus1. rewrite Z.eqb_refl. lia.
  - rewrite Hlog. simpl. lia.
  - intros _ a' r2 Hd2 (D' & [H1 _ _ Hfr _]). rewrite (proj2 (Z.eqb_neq _ 0) Hn) in Hfr. destruct Hfr as (-> & Eb & El).
    apply (wpi_fail (-1) r2 a'); [done| |congruence|congruence]. eapply txn_perm; [done|done|].
    intros m. unfold minus1, plus1. destruct (_ =? _); lia.
Qed.

(** The last link, of a file that is not open. *)
Definition freed (n : Z) : bool := (d_nlink (D n) =? 1) && (R n =? 0).

(** Inode [n] has lost its name [nm] in the directory [dn]. *)
Record removed (dn : Z) (nm : list Z) (n : Z) (r' : ist) (D' : Z -> dinode) : Prop := Removed {
  rm_idle : fs_idle pd SB r' D';
  rm_atomic : atomic cur pd SB fuel bswtch r D r' D';
  rm_cached : cached SB D' (icache r') R;
  rm_names nm' : dlookup (file_of r' D' dn) nm' = if decide (nm' = nm) then None else dlookup (file_of r D dn) nm';
  rm_bytes : exists t, dslot_of (file_of r D dn) nm = Some t /\ file_of r' D' dn = erased (file_of r D dn) t;
  rm_dir : d_type (D' dn) = T_DIR /\ d_nlink (D' dn) = d_nlink (D dn) - (if d_type (D n) =? T_DIR then 1 else 0);
  rm_inode : if freed n then ~ live (D' n)
    else D' n = set_dnlink (d_nlink (D n) - 1) (D n) /\ file_of r' D' n = file_of r D n;
  rm_other j : j ∉ [dn; n] -> D' j = D j /\ (inum_ok SB j -> live (D j) -> file_of r' D' j = file_of r D j);
  rm_free : (nfree SB C <= nfree SB (contents r') + 2)%nat }.

(** The inodes after the entry is cleared and, for a directory, its parent has
    lost a link. *)
Record cleared (dn : Z) (t : nat) (n : Z) (L : list (nat * Z)) (R' : Z -> Z) (a : astate) (D2 : Z -> dinode) : Prop := Cleared {
  cl_txn : txn a D2 L R';
  cl_same : same_files SB [dn] (AS (icache r) [] C []) D a D2;
  cl_bytes : fbytes (a_blk a) (D2 dn) = erased (F dn) t;
  cl_type : d_type (D2 dn) = T_DIR;
  cl_nlink : d_nlink (D2 dn) = d_nlink (D dn) - (if d_type (D n) =? T_DIR then 1 else 0);
  cl_log : (length (a_log a) <= 5)%nat;
  cl_free : (nfree SB C <= nfree SB (a_blk a) + 2)%nat }.

Lemma wpa_unlink_parent dp dn t n L R' a D1 :
  txn a D1 L R' -> same_files SB [dn] (AS (icache r) [] C []) D a D1 -> fbytes (a_blk a) (D1 dn) = erased (F dn) t ->
  d_type (D1 dn) = T_DIR -> d_nlink (D1 dn) = d_nlink (D dn) -> (length (a_log a) <= 4)%nat -> (dp, dn) ∈ L -> inum_ok SB dn ->
  0 <= d_nlink (D dn) -> (nfree SB C <= nfree SB (a_blk a) + 2)%nat ->
  wpa (if d_type (D n) =? T_DIR then add_nlink dp (-1);; iupdate fuel bswtch dp else mret tt) a (fun _ a' =>
    exists D2, cleared dn t n L R' a' D2).
Proof.
  intros Ht Hs Hb Hty Hn Hlog Hin Hdi Hpos Hnf. destruct (Z.eqb_spec (d_type (D n)) T_DIR) as [E|E].
  - pose proof (do_nlink _ (fo_di _ _ _ _ (tx_fs _ _ _ _ _ _ Ht) dn Hdi)).
    eapply wpa_mono; [apply (wpa_add_nlink cur pd SB fuel bswtch Hfuel G a D1 L R' dp dn (-1)); [done|done|lia|lia]|].
    intros _ a' [H1 H2 H3 H4 H5 _]. eexists. constructor.
    + done.
    + by eapply same_trans.
    + by rewrite upd_eq, H3.
    + by rewrite upd_eq.
    + rewrite upd_eq, E, Z.eqb_refl. cbn [d_nlink set_dnlink]. lia.
    + lia.
    + by rewrite (nfree_ext SB (a_blk a) (a_blk a')).
  - apply wpa_ret. exists D1. constructor; try done; [|lia]. rewrite (proj2 (Z.eqb_neq _ _) E), Hn. lia.
Qed.

(** The inode has lost its link and is unlocked. *)
Lemma unlinked_removed dn t nm n a2 D2 L L' R2 a3 a4 D4 r' :
  n <> dn -> uniq_names (F dn) -> dslot_of (F dn) nm = Some t ->
  inum_ok SB dn -> linked_dir SB D dn -> inum_ok SB n -> live (D n) ->
  cleared dn t n L R2 a2 D2 -> attr_set pd SB n (set_dnlink (d_nlink (D2 n) + -1) (D2 n)) a2 D2 L' R2 a3 ->
  gave pd SB (freed n) a3 (upd D2 n (set_dnlink (d_nlink (D2 n) + -1) (D2 n))) [] R2 n a4 D4 ->
  (forall m, minus1 R2 n m = R m) ->
  fs_idle pd SB r' D4 -> icache r' = a_ic a4 -> atomic cur pd SB fuel bswtch r D r' D4 ->
  (forall i, inum_ok SB i -> live (D4 i) -> file_of r' D4 i = fbytes (a_blk a4) (D4 i)) -> nfree SB (contents r') = nfree SB (a_blk a4) ->
  removed dn nm n r' D4.
Proof.
  intros Hne Hu Hslot Hdi (_ & Hdt & _) Hni Hnl [_ K2 K3 K4 K5 _ K7] [A1 A2 A3 A4 _ _] [G1 G2 _ G4 _] HRm Hi' Eic Hat Hfi Hnf.
  destruct (dslot_of_lt _ _ _ Hslot) as [Ht Hnm].
  destruct (K2 n) as [En Hfn]; [by intros ->%list_elem_of_singleton|]. rewrite En in *. specialize (Hfn Hni Hnl). cbn [a_blk] in Hfn.
  set (D3 := upd D2 n (set_dnlink (d_nlink (D n) + -1) (D n))) in *.
  assert (same_files SB [n] a2 D2 a4 D4) as S24 by (by eapply same_trans). destruct (S24 dn) as [Ed Hfd]; [intros ?%list_elem_of_singleton; congruence|].
  assert (live (D2 dn)) as Hld by (unfold live; by rewrite K4).
  assert (same_files SB [dn; n] (AS (icache r) [] C []) D a4 D4) as S04.
  { eapply same_trans; eapply same_sub; [|exact K2| |exact S24]; intros j ->%list_elem_of_singleton; set_solver. }
  constructor; [done|done| | | | | | |].
  - rewrite Eic. apply (cached_locks pd SB). destruct (tx_locks _ _ _ _ _ _ G1) as [L1 L2 L3 L4].
    constructor; [done|done|done|]. intros m. by rewrite L4.
  - intros nm'. rewrite Hfi by (done || by rewrite Ed). rewrite (Hfd Hdi Hld), K3. by apply (dlookup_erased).
  - exists t. split; [done|]. rewrite Hfi by (done || by rewrite Ed). by rewrite (Hfd Hdi Hld), K3.
  - by rewrite Ed, K4, K5.
  - destruct (freed n); [by destruct G4|]. destruct G4 as (-> & Eb & _). assert (D3 n = set_dnlink (d_nlink (D n) + -1) (D n)) as E3 by apply upd_eq.
    split; [rewrite E3; f_equal; lia|]. rewrite Hfi by (done || by rewrite E3). rewrite Eb, E3, A3. exact Hfn.
  - intros j Hj. destruct (S04 j Hj) as [Ej Hfj]. split; [done|]. intros Hji Hjl. rewrite Hfi by (done || by rewrite Ej).
    exact (Hfj Hji Hjl).
  - rewrite Hnf. etransitivity; [exact K7|]. apply Nat.add_le_mono_r. rewrite <- (nfree_ext SB (a_blk a2) (a_blk a3)) by done.
    destruct (freed n); [|destruct G4 as (_ & -> & _); done]. apply nfree_mono. intros b Hb Hfr. apply G4; [done|by left].
Qed.

(** The code from the clearing of the entry on. *)
Lemma wpi_unlink_do dp dn ip n t nm r1 a :
  during r r1 a -> txn a D [(ip, n); (dp, dn)] (plus1 (plus1 R dn) n) -> a_log a = [] -> a_blk a = C ->
  linked_dir SB D dn -> n <> dn -> dslot_of (F dn) nm = Some t -> de_inum (ent (F dn) t) = n -> 0 < d_nlink (D n) -> dots nm = false ->
  wpi [] r1 (n ← writei fuel bswtch dp (replicate (Z.to_nat DESIZE) 0) (DESIZE * Z.of_nat t) DESIZE;
    if negb (n =? DESIZE) then panic "unlink: writei"
    else
      x ← iread ip;
      (if d_type (i_di x) =? T_DIR then add_nlink dp (-1);; iupdate fuel bswtch dp else mret tt);;
      iunlockput fuel bswtch swtch dp;;
      add_nlink ip (-1);; iupdate fuel bswtch ip;; iunlockput fuel bswtch swtch ip;;
      bl (end_op fuel bswtch);; mret 0) (fun v H' r' => H' = [] /\ v = 0 /\ exists D', removed dn nm n r' D').
Proof.
  intros Hd Ht Hlog Hblk Hdir Hne Hslot Hent Hpos Hdots. pose proof Hdir as (Hdi & Hdt & Hdn). destruct (dslot_of_lt _ _ _ Hslot) as [Htl Hnm].
  pose proof (tw_tree _ _ _ Htree dn Hdi Hdt Hdn) as [Hdok _]. pose proof (tw_links _ _ _ Htree dn Hdi ltac:(unfold live; by rewrite Hdt)) as Hdl.
  assert (dlookup (F dn) nm = Some n) as Hlk by (unfold dlookup; rewrite Hslot; cbn; by rewrite Hent).
  destruct (dir_target SB C D dn nm n (tw_tree _ _ _ Htree) Hdir Hlk) as (Hni & Hnl & _).
  pose proof (do_nlink _ (fo_di _ _ _ _ (fi_ok _ _ _ _ Hi) n Hni)) as Hnr. pose proof (HR dn). pose proof (HR n).
  eapply wpi_step; [exact Hd|apply (wpa_erase cur pd SB fuel bswtch Hfuel G a D _ _ dp dn Ht); rewrite ?Hlog, ?Hblk; try done; [set_solver|simpl; lia..]|].
  rewrite Hblk, Hlog. intros ? a1 r2 Hd1 (-> & D1 & T1 & S1 & B1 & _ & Y1 & N1 & G1 & FR1). cbn [negb]. rewrite Z.eqb_refl. cbn [negb].
  assert (same_files SB [dn] (AS (icache r) [] C []) D a1 D1) as S1'.
  { intros j Hj. destruct (S1 j Hj) as [? Hs]. split; [done|]. rewrite Hblk in Hs. exact Hs. }
  eapply wpi_step; [exact Hd1|apply (wpa_own cur pd SB a1 D1 _ _ ip n T1); left|]. intros x ? r3 Hd2 [-> Hox].
  rewrite (ow_di _ _ _ _ Hox). destruct (S1 n) as [-> _]; [by intros ->%list_elem_of_singleton|].
  eapply wpi_step; [exact Hd2|apply (wpa_unlink_parent dp dn t n _ _ a1 D1 T1); try done; [by rewrite Y1|set_solver]|].
  intros _ a2 r4 Hd3 (D2 & K2). pose proof K2 as [T2 S2 B2 Y2 N2 G2 FR2].
  assert (d_nlink (D2 dn) <> 0) as Hn2.
  { rewrite N2. destruct (Z.eqb_spec (d_type (D n)) T_DIR) as [E|]; [|lia]. pose proof (tw_sub _ _ _ Htree dn nm n Hdir Hdots Hlk E). lia. }
  eapply wpi_step; [exact Hd3|apply (wpa_unlock_give cur pd SB fuel bswtch swtch Hfuel G a2 D2 [(ip, n)] (plus1 (plus1 R dn) n) dp dn)|].
  { eapply txn_perm; [exact T2|apply Permutation_swap|done]. } { cbn. intros ?%list_elem_of_singleton. congruence. }
  { unfold plus1. rewrite Z.eqb_refl. destruct (dn =? n); lia. } { lia. }
  intros _ a3 r5 Hd4 (D3 & [T3 S3 _ F3 _]). rewrite (proj2 (Z.eqb_neq _ 0) Hn2) in F3. destruct F3 as (-> & Eb3 & El3). rewrite <- El3 in G2.
  destruct (S2 n) as [En2 _]; [by intros ->%list_elem_of_singleton|]. set (R3 := minus1 (plus1 (plus1 R dn) n) dn) in *.
  apply wpi_assoc. eapply wpi_step; [exact Hd4|apply (wpa_add_nlink cur pd SB fuel bswtch Hfuel G a3 D2 [(ip, n)] R3 ip n (-1) T3); [left|lia|rewrite En2; lia]|].
  intros ? a4 r6 Hd5 A4. pose proof A4 as [T4 _ _ _ G4 _].
  assert (R3 n = R n + 1) as ER. { unfold R3, minus1, plus1. rewrite Z.eqb_refl, (proj2 (Z.eqb_neq n dn) Hne). lia. }
  eapply wpi_step; [exact Hd5|apply (wpa_unlock_give cur pd SB fuel bswtch swtch Hfuel G a4 _ [] R3 ip n T4); [apply not_elem_of_nil|lia|lia]|].
  intros _ a5 r7 Hd6 (D5 & G5). rewrite upd_eq in G5. cbn [d_nlink set_dnlink] in G5.
  assert ((d_nlink (D2 n) + -1 =? 0) && (R3 n =? 1) = freed n) as Efr.
  { unfold freed. rewrite En2, ER. f_equal; apply eq_bool_prop_intro; rewrite !Is_true_true, !Z.eqb_eq; lia. }
  rewrite Efr in G5. pose proof G5 as [T5 _ _ _ L5].
  eapply (wpi_close cur pd SB fuel bswtch Hfuel G r D r7 a5 D5 [] _); [done|exact Hd6|exact T5|lia|].
  intros r' Hi' Eic Hat Hfi Hnf. apply wpx_ret. split_and!; [done|done|]. exists D5.
  eapply (unlinked_removed dn t nm n a3 D2 [(ip, n)] [(ip, n)] R3 a4 a5 D5); try done.
  - by apply (tw_uniq _ _ _ Htree).
  - constructor; try done; [|by rewrite Eb3|by rewrite Eb3].
    intros j Hj. destruct (S2 j Hj) as [? Hs]. split; [done|]. cbn [a_blk]. by rewrite Eb3.
  - intros m. unfold R3, minus1, plus1. destruct (_ =? n), (_ =? dn); lia.
Qed.

(** What a path asks to remove: the name in the directory that holds it, and the
    inode; nothing for "." and "..", for a name that is not there, and for a
    directory that is not empty. *)
Definition unlink_target (path : list Z) : option (Z * list Z * Z) :=
  match walk C D true ROOTINO (names path), last (names path) with
  | Some dn, Some nm =>
      if dots nm then None
      else match dlookup (F dn) nm with
           | Some n => if (d_type (D n) =? T_DIR) && negb (dir_empty (F n)) then None else Some (dn, nm, n)
           | None => None
           end
  | _, _ => None
  end.

Lemma roomy_one a dp dn : txn a D [(dp, dn)] (plus1 R dn) -> roomy SB (a_ic a).
Proof.
  intros Ht. apply (roomy_more pd SB D (a_ic a) _ _ U [dn] (tx_locks _ _ _ _ _ _ Ht)); [| |simpl; lia].
  - intros m. unfold plus1. pose proof (HR m). destruct (m =? dn); lia.
  - intros m. unfold plus1. destruct (Z.eqb_spec m dn) as [->|]; [left; left|]. rewrite Z.add_0_r. intros ?%HU. by right.
Qed.

Lemma wpa_unlink_full ip n L' a D' R' :
  txn a D' L' R' -> (ip, n) ∈ L' -> (length (a_log a) < 26)%nat ->
  (d_type (D' n) = T_DIR -> dir_ok SB (fbytes (a_blk a) (D' n))) ->
  wpa (if d_type (D' n) =? T_DIR then e ← isdirempty fuel bswtch ip; mret (negb e) else mret false) a
    (fun full a' => a' = a /\ full = (d_type (D' n) =? T_DIR) && negb (dir_empty (fbytes (a_blk a) (D' n)))).
Proof.
  intros Ht Hin Hlog Hdok. destruct (Z.eqb_spec (d_type (D' n)) T_DIR) as [E|E]; [|by apply wpa_ret].
  eapply wpa_bind; [by apply (wpa_isdirempty cur pd SB fuel bswtch Hfuel G a D' L' R' ip n Ht Hin E Hlog (Hdok E))|].
  intros e ? [-> ->]. by apply wpa_ret.
Qed.

(** The directory is locked; the name is looked up. *)
Lemma wpi_unlink_name dp dn name r1 a :
  during r r1 a -> txn a D [(dp, dn)] (plus1 R dn) -> a_log a = [] -> a_blk a = C -> linked_dir SB D dn -> dots (cname name) = false ->
  wpi [] r1 (r ← dirlookup fuel bswtch dp name;
    match r with
    | None => unlink_bad fuel bswtch swtch dp
    | Some (ip, off) =>
        ilock fuel bswtch swtch (Some ip);;
        x ← iread ip;
        if d_nlink (i_di x) <? 1 then panic "unlink: nlink < 1"
        else
          full ← (if d_type (i_di x) =? T_DIR then e ← isdirempty fuel bswtch ip; mret (negb e) else mret false);
          if full : bool then iunlockput fuel bswtch swtch ip;; unlink_bad fuel bswtch swtch dp
          else
            n ← writei fuel bswtch dp (replicate (Z.to_nat DESIZE) 0) off DESIZE;
            if negb (n =? DESIZE) then panic "unlink: writei"
            else
              x ← iread ip;
              (if d_type (i_di x) =? T_DIR then add_nlink dp (-1);; iupdate fuel bswtch dp else mret tt);;
              iunlockput fuel bswtch swtch dp;;
              add_nlink ip (-1);; iupdate fuel bswtch ip;; iunlockput fuel bswtch swtch ip;;
              bl (end_op fuel bswtch);; mret 0
    end) (fun v H' r' => match dlookup (F dn) (cname name) with
    | Some n => if (d_type (D n) =? T_DIR) && negb (dir_empty (F n)) then unchanged v H' r'
                else H' = [] /\ v = 0 /\ exists D', removed dn (cname name) n r' D'
    | None => unchanged v H' r'
    end).
Proof.
  intros Hd Ht Hlog Hblk Hdir Hdots. pose proof Hdir as (Hdi & Hdt & Hdn). pose proof (tw_tree _ _ _ Htree dn Hdi Hdt Hdn) as [Hdok _].
  eapply wpi_step; [exact Hd|apply (wpa_find cur pd SB fuel bswtch Hfuel G a D _ _ dp dn Ht); rewrite ?Hblk, ?Hlog; try done; [left|simpl; lia|by eapply roomy_one]|].
  rewrite Hblk. intros res a1 r2 Hd1 Hres. destruct (dslot_of (F dn) (cname name)) as [t|] eqn:Hslot.
  2:{ destruct Hres as [-> ->]. unfold dlookup. rewrite Hslot. cbn [fmap option_fmap option_map]. by eapply wpi_unlink_bad. }
  destruct Hres as (ip & ic1 & -> & -> & T1 & H1 & _). set (n := de_inum (ent (F dn) t)) in *.
  assert (dlookup (F dn) (cname name) = Some n) as Hlk by (unfold dlookup; by rewrite Hslot). rewrite Hlk.
  destruct (dir_target SB C D dn _ n (tw_tree _ _ _ Htree) Hdir Hlk) as (Hni & Hnl & Hn0). pose proof (tw_links _ _ _ Htree n Hni Hnl) as Hpos.
  assert (n <> dn) as Hne by (intros E; apply (tw_self _ _ _ Htree dn (cname name) Hdir Hdots); congruence).
  eapply wpi_step; [exact Hd1|apply (wpa_lock cur pd SB fuel bswtch swtch Hfuel G _ D _ _ ip n T1 H1); [|done|cbn [a_log set_ic]; rewrite Hlog; simpl; lia]|].
  { cbn. by intros ?%list_elem_of_singleton. }
  intros _ ? r3 Hd2 (ic2 & -> & T2 & _). eapply wpi_step; [exact Hd2|apply (wpa_own cur pd SB _ D _ _ ip n T2); left|].
  intros x ? r4 Hd3 [-> Hox]. rewrite (ow_di _ _ _ _ Hox), (proj2 (Z.ltb_ge _ _)) by lia.
  set (a2 := set_ic ic2 _) in *. assert (a_blk a2 = C) as Hb2 by done. assert (a_log a2 = []) as Hl2 by done. clearbody a2.
  eapply wpi_step; [exact Hd3|apply (wpa_unlink_full ip n _ a2 D _ T2); try done; [left|rewrite Hl2; simpl; lia|rewrite Hb2; intros E; by apply (tw_tree _ _ _ Htree n)]|].
  rewrite Hb2. intros full ? r5 Hd4 [-> ->]. pose proof (HR n). destruct ((d_type (D n) =? T_DIR) && negb (dir_empty (F n))).
  - eapply wpi_step; [exact Hd4|apply (wpa_unlock_give cur pd SB fuel bswtch swtch Hfuel G a2 D [(dp, dn)] _ ip n T2)|].
    { cbn. by intros ?%list_elem_of_singleton. } { unfold plus1. rewrite Z.eqb_refl. destruct (n =? dn); lia. } { rewrite Hl2. simpl. lia. }
    intros _ a3 r6 Hd5 (D3 & [T3 _ _ F3 _]). rewrite (proj2 (Z.eqb_neq _ 0) Hn0) in F3. destruct F3 as (-> & Eb3 & El3).
    eapply wpi_unlink_bad; [exact Hd5|eapply txn_perm; [exact T3|done|]|congruence|congruence|done].
    intros m. unfold minus1, plus1. destruct (m =? n), (m =? dn); lia.
  - eapply wpi_unlink_do; try done. lia.
Qed.

Definition unlinked (path : list Z) (v : Z) (H' : list nat) (r' : ist) : Prop :=
  match unlink_target path with
  | None => unchanged v H' r'
  | Some (dn, nm, n) => H' = [] /\ v = 0 /\ exists D', removed dn nm n r' D'
  end.

Lemma wpi_unlink path : hd 0 path = slash -> wpi [] r (unlink_path fuel bswtch swtch junk path) (unlinked path).
Proof.
  intros Habs. unfold unlink_path. eapply wpi_open; [done|exact Hi|]. intros r1 Hd. pose proof Hi as [_ _ _ Hf Ho Hic].
  pose proof (tw_root _ _ _ Htree) as (Hri & Hrt & Hrn). assert (live (D ROOTINO)) as Hrl by (unfold live; by rewrite Hrt).
  assert (start 0 path = ROOTINO) as Es by (unfold start; by rewrite Habs).
  eapply wpi_step; [exact Hd|apply (wpa_namex cur pd SB fuel bswtch swtch Hfuel G C [] D Hf Ho (Nat.lt_0_succ _) (tw_tree _ _ _ Htree)
    R U HR HU Hroom (icache r) path true junk 0); rewrite ?Es; try done|].
  rewrite Es. intros [res name] ? r2 Hd1 (ic1 & -> & Hfound & Hlast & _ & _). cbn [fst snd] in *. unfold unlinked, unlink_target.
  destruct (walk C D true ROOTINO (names path)) as [dn|] eqn:Ew.
  2:{ destruct Hfound as [-> Hc1]. eapply (wpi_fail (-1) r2); [exact Hd1| |done|done]. constructor; try done. by apply (cached_locks pd SB). }
  destruct Hfound as (dp & -> & Hdp & Hc1). rewrite Hlast by done.
  destruct (walk_linked SB C D true ROOTINO (names path) dn (tw_tree _ _ _ Htree) Hri Hrl Hrn Ew) as (_ & Hdl & Hdn & Hdir). specialize (Hdir eq_refl).
  assert (txn (AS ic1 [] C []) D [] (plus1 R dn)) as T1 by (constructor; try done; by apply (cached_locks pd SB)).
  eapply wpi_step; [exact Hd1|apply (wpa_lock cur pd SB fuel bswtch swtch Hfuel G _ D [] _ dp dn T1 Hdp); [apply not_elem_of_nil|done|simpl; lia]|].
  intros _ ? r3 Hd2 (ic2 & -> & T2 & _). rewrite dots_namecmp. destruct (dots (cname name)) eqn:Hdots.
  - by eapply wpi_unlink_bad.
  - eapply wpx_mono; [by apply (wpi_unlink_name dp dn name r3 _ Hd2 T2)|]. intros v H' r' HQ.
    destruct (dlookup (F dn) (cname name)) as [n|]; [|done]. by destruct ((d_type (D n) =? T_DIR) && negb (dir_empty (F n))).
Qed.

(** C7: [unlink] of an absolute path, in a file system whose directories are well
    formed, is one transaction of at most [MAXOPBLOCKS] blocks.  The name is gone
    from its directory and every other name is there; the inode has a link less,
    or, when that was the last one and no process holds the file, is free with
    its blocks; a directory that goes takes a link from its parent; no other file
    changes, and the call keeps no reference and no lock.  For ".", "..", a name
    that is not there and a directory that is not empty the call returns -1 and
    nothing changes.  A stop after any disk write leaves the file system before
    the call or the one after it. *)
Theorem unlink_atomic path :
  hd 0 path = slash ->
  wpi [] r (unlink_path fuel bswtch swtch junk path) (fun v H' r' =>
    match unlink_target path with
    | None => unchanged v H' r'
    | Some (dn, nm, n) => H' = [] /\ v = 0 /\ exists D', removed dn nm n r' D'
    end).
Proof. apply wpi_unlink. Qed.
End unlink.

(** ** The example *)

Lemma ex_refs_any rn fn m : refs (ex_icache rn fn) m = (if 1 =? m then rn else 0) + (if 2 =? m then fn else 0).
Proof.
  unfold refs, ex_icache. cbn [foldr i_inum i_ref]. assert (foldr (fun x s => (if i_inum x =? m then i_ref x else 0) + s) 0 (replicate 48 ino_free) = 0) as ->; [|lia].
  generalize 48%nat as k. induction k as [|k IH]; [done|]. cbn [replicate foldr]. rewrite IH. simpl. by destruct m.
Qed.

Lemma ex_cached_any rn fn : 0 <= rn -> 0 <= fn -> cached ex_sb ex_inodes (ex_icache rn fn) (refs (ex_icache rn fn)).
Proof.
  intros Hr Hf. constructor; [by apply ex_icache_ok| |done]. intros [|[|ip]] x Hx; cbn [ex_icache lookup list_lookup] in Hx; [by simplify_eq..|].
  by apply lookup_replicate in Hx as [-> _].
Qed.

Lemma ex_linked d : linked_dir ex_sb ex_inodes d -> d = 1 /\ fbytes ex_blocks (ex_inodes d) = ex_dir.
Proof.
  intros (_ & Hty & _). assert (d = 1 /\ ex_inodes d = ex_root) as [-> E].
  { destruct (ex_live d) as [?|[-> E]]; [unfold live; by rewrite Hty|done|]. by rewrite E in Hty. }
  split; [done|]. apply ex_dir_bytes.
Qed.

Lemma ex_tree_wf : tree_wf ex_sb ex_blocks ex_inodes.
Proof.
  assert (forall nm k, has_name ex_dir nm k = true -> (k < 3)%nat -> k = 0%nat /\ nm = [46] \/ k = 1%nat /\ nm = [46; 46] \/ k = 2%nat /\ nm = [97]) as Hn.
  { intros nm k Hk Hlt. unfold has_name in Hk. apply andb_true_iff in Hk as [_ Hk%bool_decide_eq_true].
    assert (k = 0 \/ k = 1 \/ k = 2)%nat as [->|[->| ->]] by lia; vm_compute in Hk; subst; tauto. }
  constructor.
  - apply ex_tree.
  - split; [unfold inum_ok, ROOTINO; simpl; lia|done].
  - intros m _. unfold ex_inodes. repeat case_match; done.
  - intros d [_ ->]%ex_linked nm j k Hj Hk Hnj Hnk. change (nents ex_dir) with 3%nat in *.
    apply Hn in Hnj; [|done]. apply Hn in Hnk; [|done]. destruct Hnj as [[-> ->]|[[-> ->]|[-> ->]]], Hnk as [[-> ?]|[[-> ?]|[-> ?]]]; done.
  - intros d nm [-> ->]%ex_linked Hdots (k & [Hk Hnm]%dslot_of_lt & E)%fmap_Some. change (nents ex_dir) with 3%nat in Hk.
    apply Hn in Hnm as [[-> ->]|[[-> ->]|[-> ->]]]; [done|done| |done]. by vm_compute in E.
  - intros d nm m [-> ->]%ex_linked Hdots (k & [Hk Hnm]%dslot_of_lt & ->)%fmap_Some Hty. change (nents ex_dir) with 3%nat in Hk.
    apply Hn in Hnm as [[-> ->]|[[-> ->]|[-> ->]]]; [done|done| |done]. by vm_compute in Hty.
Qed.

(** The last name of the file, which no process has open. *)
Lemma unlink_atomic_witness :
  wp (unlink_path 1 leave leave (replicate 14 0) [47; 97]) (fun v s' => v = 0 /\
    exists D', ~ live (D' 2) /\ dlookup (file_of (x_rest s') D' 1) [97] = None /\ dlookup (file_of (x_rest s') D' 1) [46] = Some 1)
    (ex_running (ex_ist 1 0)).
Proof.
  pose proof (unlink_atomic 0 7 ex_sb 1 leave leave (replicate 14 0) (Nat.lt_0_succ 0) ex_geom) as H.
  refine (wp_mono _ _ _ _ (H _ eq_refl (ex_ist 1 0) ex_inodes _ ex_tree_wf (refs (ex_icache 1 0)) {[1; 2]} _ _ _
    (ex_cached_any 1 0 _ _) [47; 97] eq_refl (ex_running (ex_ist 1 0)) (ex_running_world _) eq_refl) _); clear H.
  - apply Nat.leb_le. vm_compute. reflexivity.
  - apply ex_fs_idle; lia.
  - intros m. rewrite ex_refs_any. destruct (1 =? m), (2 =? m); lia.
  - intros m. rewrite ex_refs_any. destruct (Z.eqb_spec 1 m), (Z.eqb_spec 2 m); intros; (lia || set_solver).
  - apply Nat.leb_le. vm_compute. reflexivity.
  - lia.
  - lia.
  - intros v s' (H' & _ & HQ).
    assert (unlink_target (ex_ist 1 0) ex_inodes [47; 97] = Some (1, [97], 2)) as E by (vm_compute; reflexivity).
    rewrite E in HQ. destruct HQ as (_ & -> & D' & Hrm). split; [reflexivity|]. exists D'.
    pose proof (rm_inode _ _ _ _ _ _ _ _ _ _ _ _ _ Hrm) as Hn. assert (freed ex_inodes (refs (ex_icache 1 0)) 2 = true) as Ef by (vm_compute; reflexivity).
    rewrite Ef in Hn. split; [exact Hn|]. rewrite !(rm_names _ _ _ _ _ _ _ _ _ _ _ _ _ Hrm).
    split; [reflexivity|]. vm_compute. reflexivity.
Defined.
