(* ===== verification/Xv6Link.v ===== *)
(** * [link] (lab2/sysfile.c)

    A second name for a file: the inode gains a link, the directory gains the
    name.  A call that cannot add the name takes the link back. *)

From S2P Require Import Prelude CMem JosPrintfmt Xv6Lock Xv6Proc Xv6World Xv6Bio Xv6Log Xv6Txn Xv6Inode Xv6Disk Xv6Iops Xv6Content Xv6Wrote Xv6Writei Xv6Icache Xv6Trunc Xv6Ialloc Xv6Dir Xv6Dirops Xv6Path Xv6Image Xv6Syscall Xv6Fs Xv6Sysfile Xv6Tx Xv6Unlink.
From stdpp Require Import base numbers option list gmap strings.
Open Scope Z_scope.

#[local] Opaque Nat.div Nat.modulo.

Section same.
Context (SB : superblock).

(** Two file systems with the same directories. *)
Definition same_dirs (C : gmap Z (list Z)) (D : Z -> dinode) (C1 : gmap Z (list Z)) (D1 : Z -> dinode) : Prop :=
  forall d, inum_ok SB d -> live (D d) -> d_type (D1 d) = d_type (D d) /\ (d_type (D d) = T_DIR -> fbytes C1 (D1 d) = fbytes C (D d)).

Lemma walk_same C D C1 D1 parent n ns :
  tree_ok C D SB -> same_dirs C D C1 D1 -> inum_ok SB n -> live (D n) -> d_nlink (D n) <> 0 ->
  walk C1 D1 parent n ns = walk C D parent n ns.
Proof.
  intros Ht Hs. revert n. induction ns as [|nm ns IH]; intros n Hi Hl Hn; [done|]. cbn [walk]. destruct (Hs n Hi Hl) as [-> Hfb].
  destruct (Z.eqb_spec (d_type (D n)) T_DIR) as [Hty|]; [|done]. destruct (parent && _); [done|]. rewrite (Hfb Hty).
  destruct (dlookup _ nm) as [m|] eqn:E; [|done]. destruct (dir_target SB C D n nm m Ht) as (? & ? & ?); [done|done|]. by apply IH.
Qed.

Lemma tree_same C D C1 D1 :
  tree_ok C D SB -> same_dirs C D C1 D1 -> (forall d, inum_ok SB d -> d_type (D1 d) = T_DIR -> live (D d) /\ (d_nlink (D1 d) <> 0 -> d_nlink (D d) <> 0)) ->
  (forall m, inum_ok SB m -> d_nlink (D m) <> 0 -> d_nlink (D1 m) <> 0) -> tree_ok C1 D1 SB.
Proof.
  intros Ht Hs Hd Hn d Hi Hty Hnd. destruct (Hd d Hi Hty) as [Hl Hnd']. destruct (Hs d Hi Hl) as [Et Hfb].
  assert (d_type (D d) = T_DIR) as Hty' by congruence. rewrite (Hfb Hty'). destruct (Ht d Hi Hty' (Hnd' Hnd)) as [Hdok Htgt]. split; [done|].
  intros nm m Hm. destruct (Htgt nm m Hm) as [Hlm Hnm]. destruct (dlookup_inum SB _ nm m Hdok Hm) as [Him _].
  destruct (Hs m Him Hlm) as [Em _]. split; [unfold live; by rewrite Em|by apply Hn].
Qed.
End same.

Section link.
Context (cur : nat) (pd : Z) (SB : superblock) (fuel : nat) (bswtch : MF unit) (swtch : MI unit) (junk : list Z) `{DV : Devsw}.
Context (Hfuel : (0 < fuel)%nat) (G : geom SB) (Hbm : (nbitmap SB <= 2)%nat) (Hjunk : length junk = DIRSIZ).
Notation wpa := (wpa cur pd SB).
Notation wpi := (wpx (R := ist) (Some cur) pd).
Notation txn := (txn pd SB).
Notation during := (during pd SB).

Context (r : ist) (D : Z -> dinode) (Hi : fs_idle pd SB r D) (Htree : tree_wf SB (contents r) D).
Context (R : Z -> Z) (U : gset Z) (HR : forall m, 0 <= R m < 2 ^ 31 - 4) (HU : forall m, 0 < R m -> m ∈ U)
  (Hroom : (size U + 3 <= NINODE)%nat) (Hc : cached SB D (icache r) R).
Notation C := (contents r).
Notation F d := (fbytes C (D d)).
Notation a0 := (AS (icache r) [] C []).

(** The call fails: the inodes and the files are as before. *)
Definition restored (v : Z) (H' : list nat) (r' : ist) : Prop :=
  H' = [] /\ v = -1 /\ exists D', fs_idle pd SB r' D' /\ atomic cur pd SB fuel bswtch r D r' D' /\ cached SB D' (icache r') R /\
  (forall i, D' i = D i /\ (inum_ok SB i -> live (D i) -> file_of r' D' i = file_of r D i)) /\ nfree SB (contents r') = nfree SB C.

Lemma wpi_restored r1 a D' R' :
  during r r1 a -> txn a D' [] R' -> (forall m, R' m = R m) -> (length (a_log a) <= 10)%nat -> same_files SB [] a0 D a D' -> nfree SB (a_blk a) = nfree SB C ->
  wpi [] r1 (bl (end_op fuel bswtch);; mret (-1)) restored.
Proof.
  intros Hd Ht HR' Hlog Hs Hnfa. apply (wpi_close cur pd SB fuel bswtch Hfuel G r D r1 a D' [] R'); [done..|].
  intros r' Hi' Eic Hat Hfi Hnf. apply wpx_ret. split_and!; [done|done|]. exists D'. split_and!; [done|done| | |by rewrite Hnf].
  - rewrite Eic. apply (cached_locks pd SB). destruct (tx_locks _ _ _ _ _ _ Ht) as [L1 L2 L3 L4].
    constructor; [done|done|done|]. intros m. by rewrite L4.
  - intros i. destruct (Hs i (not_elem_of_nil i)) as [E Hf]. split; [done|]. intros Hii Hl. rewrite Hfi by (done || by rewrite E). by apply Hf.
Qed.

Lemma cached_txn a D' R' : fs_ok SB (a_blk a) D' [] -> on_disk SB (a_blk a) D' [] -> a_held a = [] -> cached SB D' (a_ic a) R' -> txn a D' [] R'.
Proof. intros. constructor; try done. by apply (cached_locks pd SB). Qed.

(** ** The link is taken back *)

(** Inode [n] has a link more than [D] tells; the rest is as in [D]. *)
Record linked_up (n : Z) (L : list (nat * Z)) (R' : Z -> Z) (a : astate) (D1 : Z -> dinode) : Prop := LinkedUp {
  lu_txn : txn a D1 L R';
  lu_same : same_files SB [n] a0 D a D1;
  lu_inode : D1 n = set_dnlink (d_nlink (D n) + 1) (D n);
  lu_bytes : fbytes (a_blk a) (D1 n) = F n;
  lu_free : nfree SB (a_blk a) = nfree SB C }.

Lemma set_dnlink_id x : set_dnlink (d_nlink x) x = x.
Proof. by destruct x. Qed.

Lemma wpi_link_bad ip n r1 a D1 :
  during r r1 a -> linked_up n [] (plus1 R n) a D1 -> holds (a_ic a) n ip -> (length (a_log a) <= 7)%nat ->
  inum_ok SB n -> live (D n) -> d_nlink (D n) <> 0 -> 0 <= d_nlink (D n) < 2 ^ 15 - 1 ->
  wpi [] r1 (link_bad fuel bswtch swtch ip) restored.
Proof.
  intros Hd [T1 S1 E1 B1 FR1] Hh Hlog Hni Hl Hn0 Hn. unfold link_bad. pose proof (HR n).
  assert (live (D1 n)) as Hl1 by (unfold live; rewrite E1; exact Hl).
  eapply wpi_step; [exact Hd|apply (wpa_lock cur pd SB fuel bswtch swtch Hfuel G a D1 [] _ ip n T1 Hh); [apply not_elem_of_nil|done|lia]|].
  intros _ ? r2 Hd2 (ic2 & -> & T2 & _). apply wpi_assoc.
  eapply wpi_step; [exact Hd2|apply (wpa_add_nlink cur pd SB fuel bswtch Hfuel G _ D1 _ _ ip n (-1) T2); [left|cbn [a_log set_ic]; lia|rewrite E1; cbn; lia]|].
  intros ? a3 r3 Hd3 [T3 S3 B3 FR3 L3 _]. cbn [a_log set_ic] in L3.
  assert (set_dnlink (d_nlink (D1 n) + -1) (D1 n) = D n) as Ey.
  { rewrite E1. unfold set_dnlink. cbn [d_nlink d_type d_major d_minor d_size d_addrs].
    replace (d_nlink (D n) + 1 + -1) with (d_nlink (D n)) by lia. apply set_dnlink_id. }
  rewrite Ey in *. assert (plus1 R n n = R n + 1) as ER by (unfold plus1; by rewrite Z.eqb_refl).
  eapply wpi_step; [exact Hd3|apply (wpa_unlock_give cur pd SB fuel bswtch swtch Hfuel G a3 _ [] _ ip n T3); [apply not_elem_of_nil|lia|lia]|].
  rewrite upd_eq, (proj2 (Z.eqb_neq _ 0) Hn0). cbn [andb]. intros _ a4 r4 Hd4 (D4 & [T4 _ _ (-> & Eb & El) _]).
  apply (wpi_restored r4 a4 _ _ Hd4 T4); [intros m; unfold minus1, plus1; destruct (m =? n); lia|rewrite El; lia| |].
  2:{ rewrite Eb, (nfree_ext SB (a_blk a) (a_blk a3)); done. }
  intros j _. destruct (decide (j = n)) as [->|Hj].
  - rewrite upd_eq. split; [done|]. intros _ _. cbn [a_blk]. rewrite Eb, B3. exact B1.
  - destruct (S1 j) as [F1 G1]; [by intros ->%list_elem_of_singleton|]. rewrite upd_ne by done. split; [done|]. intros Hj1 Hj2.
    destruct (S3 j) as [_ G3]; [by intros ->%list_elem_of_singleton|]. rewrite upd_ne in G3 by done. cbn [a_blk set_ic] in G3.
    rewrite Eb, G3 by (done || by rewrite F1). by apply G1.
Qed.

(** ** The name is added *)

(** The file [n] has the name [nm] in the directory [dn] too. *)
Record added (dn : Z) (nm : list Z) (n : Z) (r' : ist) (D' : Z -> dinode) : Prop := Added {
  ad_idle : fs_idle pd SB r' D';
  ad_atomic : atomic cur pd SB fuel bswtch r D r' D';
  ad_cached : cached SB D' (icache r') R;
  ad_names nm' : dlookup (file_of r' D' dn) nm' = if decide (nm' = nm) then Some n else dlookup (file_of r D dn) nm';
  ad_bytes : exists name, cname name = nm /\ file_of r' D' dn = linked (file_of r D dn) name n;
  ad_dir : d_type (D' dn) = T_DIR /\ d_nlink (D' dn) = d_nlink (D dn);
  ad_inode : D' n = set_dnlink (d_nlink (D n) + 1) (D n) /\ file_of r' D' n = file_of r D n;
  ad_other j : j ∉ [dn; n] -> D' j = D j /\ (inum_ok SB j -> live (D j) -> file_of r' D' j = file_of r D j);
  ad_free : (nfree SB C <= nfree SB (contents r') + 2)%nat }.

Lemma wpa_held a D' L R' ip n :
  txn a D' L R' -> holds (a_ic a) n ip -> wpa (iread ip) a (fun x a' => a' = a /\ i_inum x = n /\ i_dev x = 1).
Proof.
  intros [_ _ [Hok _ _ _] _] (x & Hx & En & Hr). destruct (io_dev _ _ _ Hok ip x Hx Hr).
  eapply wpa_mono; [by apply wpa_iread|]. by intros ? ? [-> ->].
Qed.

Section dir.
Context (n dn : Z) (ip dp : nat) (name : list Z).
Context (Hn : inum_ok SB n /\ live (D n) /\ d_nlink (D n) <> 0 /\ d_type (D n) <> T_DIR /\ n < 2 ^ 16) (Hnl : d_nlink (D n) < 2 ^ 15 - 1).
Context (Hdn : linked_dir SB D dn) (Hdots : dots (cname name) = false).
Context (Hfull : Z.of_nat (length (F dn)) + DESIZE <= MAXFILE * BSIZE).

(** The end of a call that added the name. *)
Lemma wpi_link_done r1 a D2 R2 :
  during r r1 a -> txn a D2 [(dp, dn)] R2 -> (forall m, R2 m = plus1 (plus1 R n) dn m) -> holds (a_ic a) n ip ->
  (length (a_log a) <= 6)%nat -> same_files SB [dn; n] a0 D a D2 -> D2 n = set_dnlink (d_nlink (D n) + 1) (D n) -> fbytes (a_blk a) (D2 n) = F n ->
  d_type (D2 dn) = T_DIR -> d_nlink (D2 dn) = d_nlink (D dn) -> dlookup (F dn) (cname name) = None ->
  fbytes (a_blk a) (D2 dn) = linked (F dn) name n -> (nfree SB C <= nfree SB (a_blk a) + 2)%nat ->
  wpi [] r1 (iunlockput fuel bswtch swtch dp;; iput fuel bswtch swtch ip;; bl (end_op fuel bswtch);; mret 0)
    (fun v H' r' => H' = [] /\ v = 0 /\ exists D', added dn (cname name) n r' D').
Proof.
  intros Hd Ht ER Hh Hlog Hs En Bn Yd Nd Hnone Bd FR. destruct Hn as (Hni & Hl & Hn0 & Hnd & Hn16). destruct Hdn as (Hdi & Hdt & Hdn0).
  pose proof (HR n). pose proof (HR dn). assert (n <> dn) as Hne by (intros ->; done). pose proof (tw_links _ _ _ Htree n Hni Hl).
  assert (R2 dn = R dn + 1 /\ R2 n = R n + 1) as [ERd ERn].
  { rewrite !ER. unfold plus1. rewrite !Z.eqb_refl, (proj2 (Z.eqb_neq n dn) Hne). rewrite (proj2 (Z.eqb_neq dn n)) by done. lia. }
  eapply wpi_step; [exact Hd|apply (wpa_unlock_give cur pd SB fuel bswtch swtch Hfuel G a D2 [] R2 dp dn Ht); [apply not_elem_of_nil|lia|lia]|].
  rewrite Nd, (proj2 (Z.eqb_neq _ 0) Hdn0). cbn [andb]. intros _ a3 r3 Hd3 (D3 & [T3 _ P3 (-> & Eb & El) _]).
  assert (minus1 R2 dn n = R n + 1) as ER3 by (unfold minus1; rewrite (proj2 (Z.eqb_neq n dn) Hne); lia).
  eapply wpi_step; [exact Hd3|apply (wpa_give cur pd SB fuel bswtch swtch Hfuel G a3 D2 [] _ ip n T3)|].
  { apply P3; [done|lia]. } { apply not_elem_of_nil. } { lia. } { left. rewrite En. cbn. lia. }
  intros _ a4 r4 Hd4 [T4 _ _ (_ & Eb4 & El4) _].
  eapply (wpi_close cur pd SB fuel bswtch Hfuel G r D r4 a4 D2 [] _); [done|exact Hd4|exact T4|rewrite El4, El; lia|].
  intros r' Hi' Eic Hat Hfi Hnf. rewrite Eb4, Eb in Hfi, Hnf. apply wpx_ret. split_and!; [done|done|]. exists D2.
  assert (live (D2 n)) as Hl2 by (unfold live; rewrite En; exact Hl). assert (live (D2 dn)) as Hld2 by (unfold live; by rewrite Yd).
  constructor; [done|done| | | |done| | |by rewrite Hnf].
  - rewrite Eic. apply (cached_locks pd SB). destruct (tx_locks _ _ _ _ _ _ T4) as [L1 L2 L3 L4]. constructor; [done|done|done|].
    intros m. rewrite L4. unfold minus1. rewrite ER. unfold plus1. destruct (m =? n), (m =? dn); lia.
  - intros nm'. rewrite Hfi by done. rewrite Bd. apply (dlookup_linked SB); [|unfold inum_ok in Hni; lia|done]. by apply (tw_tree _ _ _ Htree dn).
  - exists name. split; [done|]. by rewrite Hfi.
  - split; [done|]. rewrite Hfi by done. exact Bn.
  - intros j Hj. destruct (Hs j Hj) as [Ej Hfj]. split; [done|]. intros Hj1 Hj2. rewrite Hfi by (done || by rewrite Ej). by apply Hfj.
Qed.

Lemma roomy_two a D' L R' : txn a D' L R' -> (forall m, R' m = plus1 (plus1 R n) dn m) -> roomy SB (a_ic a).
Proof.
  intros Ht ER. apply (roomy_more pd SB D' (a_ic a) L R' U [n; dn] (tx_locks _ _ _ _ _ _ Ht)); [| |simpl; lia].
  - intros m. rewrite ER. unfold plus1. pose proof (HR m). destruct (m =? n), (m =? dn); lia.
  - intros m. rewrite ER. unfold plus1. destruct (Z.eqb_spec m n) as [->|]; [left; left|]. destruct (Z.eqb_spec m dn) as [->|]; [left; right; left|].
    rewrite !Z.add_0_r. intros ?%HU. by right.
Qed.

(** The directory of the new name is known. *)
Lemma wpi_link_dir r1 a D1 R1 :
  during r r1 a -> linked_up n [] R1 a D1 -> (forall m, R1 m = plus1 (plus1 R n) dn m) -> holds (a_ic a) n ip -> holds (a_ic a) dn dp ->
  (length (a_log a) <= 1)%nat -> (2 < nfree SB C)%nat ->
  wpi [] r1 (ilock fuel bswtch swtch (Some dp);; d ← iread dp; x ← iread ip;
    n ← (if negb (i_dev d =? i_dev x) then mret (-1) else dirlink fuel bswtch swtch dp name (i_inum x));
    if n <? 0 then iunlockput fuel bswtch swtch dp;; link_bad fuel bswtch swtch ip
    else iunlockput fuel bswtch swtch dp;; iput fuel bswtch swtch ip;; bl (end_op fuel bswtch);; mret 0)
    (fun v H' r' => match dlookup (F dn) (cname name) with
     | Some _ => restored v H' r'
     | None => H' = [] /\ v = 0 /\ exists D', added dn (cname name) n r' D' end).
Proof.
  intros Hd [T1 S1 E1 B1 F1] ER Hh Hhd Hlog Hfree. pose proof Hn as (Hni & Hl & Hn0 & Hnd & Hn16). pose proof Hdn as (Hdi & Hdt & Hdn0).
  assert (n <> dn) as Hne by (intros ->; done). pose proof (tw_links _ _ _ Htree n Hni Hl). pose proof (HR dn). pose proof (HR n).
  destruct (S1 dn) as [Ed Bd]; [intros ?%list_elem_of_singleton; congruence|]. assert (live (D dn)) as Hld by (unfold live; by rewrite Hdt).
  specialize (Bd Hdi Hld). cbn [a_blk] in Bd. destruct (tw_tree _ _ _ Htree dn Hdi Hdt Hdn0) as [Hdok _].
  eapply wpi_step; [exact Hd|apply (wpa_lock cur pd SB fuel bswtch swtch Hfuel G a D1 [] _ dp dn T1 Hhd); [apply not_elem_of_nil|by rewrite Ed|lia]|].
  intros _ ? r2 Hd2 (ic2 & -> & T2 & P2). eapply wpi_step; [exact Hd2|apply (wpa_own cur pd SB _ D1 _ _ dp dn T2); left|].
  intros d ? r3 Hd3 [-> Hod]. eapply wpi_step; [exact Hd3|apply (wpa_held _ D1 _ _ ip n T2); by apply P2|].
  intros x ? r4 Hd4 (-> & Ex & Edx). rewrite (ow_dev _ _ _ _ Hod), Edx, Ex. cbn [negb Z.eqb Pos.eqb].
  eapply wpi_step; [exact Hd4|apply (wpa_addname cur pd SB fuel bswtch swtch Hfuel G _ D1 _ _ dp dn T2); cbn [a_blk a_log set_ic]; rewrite ?Bd, ?Ed, ?F1;
    try done; try lia; [left|by eapply roomy_two|unfold inum_ok in Hni; lia|by apply (tw_self _ _ _ Htree)]|].
  cbn [a_blk set_ic a_log]. rewrite Bd. intros v a5 r5 Hd5 Hv. destruct (dlookup (F dn) (cname name)) as [m|] eqn:Em.
  - destruct Hv as (-> & ic5 & -> & T5 & P5). cbn [Z.ltb Z.compare].
    eapply wpi_step; [exact Hd5|apply (wpa_unlock_give cur pd SB fuel bswtch swtch Hfuel G _ D1 [] R1 dp dn T5); [apply not_elem_of_nil| |cbn [a_log set_ic]; lia]|].
    { rewrite ER. unfold plus1. destruct (dn =? n), (dn =? dn); lia. }
    rewrite Ed, (proj2 (Z.eqb_neq _ 0) Hdn0). cbn [andb]. intros _ a6 r6 Hd6 (D6 & [T6 _ P6 (-> & Eb & El) _]).
    cbn [a_blk a_log set_ic] in Eb, El. apply (wpi_link_bad ip n r6 a6 D1 Hd6); try done; [|apply P6; [apply P5; [by apply P2|]|]|rewrite El; lia].
    + constructor; [eapply txn_perm; [exact T6|done|]|intros j Hj|done|by rewrite Eb|by rewrite Eb].
      * intros k. unfold minus1. rewrite ER. unfold plus1. destruct (k =? n), (k =? dn); lia.
      * rewrite Eb. by apply S1.
    + rewrite ER. unfold plus1. rewrite Z.eqb_refl. destruct (n =? dn); lia.
    + unfold minus1. rewrite ER. unfold plus1. rewrite Z.eqb_refl, (proj2 (Z.eqb_neq n dn) Hne). lia.
  - destruct Hv as (-> & D5 & T5 & S5 & B5 & P5 & Y5 & N5 & L5 & _ & FR5 & _). cbn [Z.ltb Z.compare].
    destruct (S5 n) as [E5 G5]; [by intros ->%list_elem_of_singleton|].
    apply (wpi_link_done r5 a5 D5 R1); try done; rewrite ?E5, ?Y5, ?N5, ?Ed; try done; [by apply P5, P2|lia| | |by rewrite <- F1].
    + eapply same_trans; eapply same_sub; [|exact S1| |exact S5]; intros j ->%list_elem_of_singleton; set_solver.
    + rewrite E5 in G5. rewrite G5; [exact B1|done|unfold live; rewrite E1; exact Hl].
Qed.
End dir.

(** ** The call *)

Context (Hsmall : sb_ninodes SB <= 2 ^ 16) (Hmax : forall m, inum_ok SB m -> live (D m) -> d_nlink (D m) < 2 ^ 15 - 1)
  (Hfull : forall d, linked_dir SB D d -> Z.of_nat (length (F d)) + DESIZE <= MAXFILE * BSIZE) (Hfree : (2 < nfree SB C)%nat).

(** What two paths ask for: a name in a directory, for an inode. *)
Definition link_target (old new : list Z) : option (Z * list Z * Z) :=
  match walk C D false ROOTINO (names old) with
  | Some n =>
      if d_type (D n) =? T_DIR then None
      else match walk C D true ROOTINO (names new), last (names new) with
           | Some dn, Some nm => match dlookup (F dn) nm with None => Some (dn, nm, n) | Some _ => None end
           | _, _ => None
           end
  | None => None
  end.

(** A walk from the root, in a file system with the directories of [D]. *)
Lemma wpa_walk a D1 R1 (U1 : gset Z) path parent :
  txn a D1 [] R1 -> tree_ok (a_blk a) D1 SB -> live (D1 ROOTINO) -> d_nlink (D1 ROOTINO) <> 0 -> (length (a_log a) < 26)%nat ->
  (forall m, 0 <= R1 m < 2 ^ 31 - 3) -> (forall m, 0 < R1 m -> m ∈ U1) -> (size U1 + 2 <= NINODE)%nat -> hd 0 path = slash ->
  wpa (namex fuel bswtch swtch path parent junk) a (fun res a' => exists ic', a' = set_ic ic' a /\
    found SB D1 R1 (walk (a_blk a) D1 parent ROOTINO (names path)) (fst res) ic' /\
    (parent = true -> fst res <> None -> last (names path) = Some (cname (snd res))) /\ pins R1 (a_ic a) ic').
Proof.
  intros [Hf Ho Hlk Hh] Ht Hl Hn Hlog HR1 HU1 Hr1 Habs. assert (start 0 path = ROOTINO) as Es by (unfold start; by rewrite Habs).
  assert (a = AS (a_ic a) [] (a_blk a) (a_log a)) as Ea by (rewrite <- Hh; by destruct a). rewrite Ea at 1.
  eapply wpa_mono; [apply (wpa_namex cur pd SB fuel bswtch swtch Hfuel G (a_blk a) (a_log a) D1 Hf Ho Hlog Ht R1 U1 HR1 HU1 Hr1 (a_ic a) path parent junk 0);
    rewrite ?Es; try done; by apply (cached_locks pd SB)|].
  rewrite Es. intros res a' (ic' & -> & H1 & H2 & _ & H3). exists ic'. split; [|done]. unfold set_ic. by rewrite Hh.
Qed.

Lemma wpa_namei a D1 R1 (U1 : gset Z) path :
  txn a D1 [] R1 -> tree_ok (a_blk a) D1 SB -> live (D1 ROOTINO) -> d_nlink (D1 ROOTINO) <> 0 -> (length (a_log a) < 26)%nat ->
  (forall m, 0 <= R1 m < 2 ^ 31 - 3) -> (forall m, 0 < R1 m -> m ∈ U1) -> (size U1 + 2 <= NINODE)%nat -> hd 0 path = slash ->
  wpa (namei fuel bswtch swtch junk path) a (fun res a' => exists ic', a' = set_ic ic' a /\
    found SB D1 R1 (walk (a_blk a) D1 false ROOTINO (names path)) res ic').
Proof.
  intros. unfold namei. eapply wpa_bind; [by apply (wpa_walk a D1 R1 U1 path false)|].
  intros res ? (ic' & -> & Hfd & _). apply wpa_ret. by exists ic'.
Qed.

(** The directories are as before. *)
Lemma linked_up_dirs n L R1 a D1 :
  linked_up n L R1 a D1 -> inum_ok SB n -> live (D n) -> d_type (D n) <> T_DIR ->
  same_dirs SB C D (a_blk a) D1 /\ (forall d, d_type (D1 d) = d_type (D d)) /\ (forall d, d <> n -> d_nlink (D1 d) = d_nlink (D d)) /\
  tree_ok (a_blk a) D1 SB.
Proof.
  intros [T1 S1 E1 B1 F1] Hni Hl Hnd. pose proof (tw_links _ _ _ Htree n Hni Hl) as Hpos.
  assert (same_dirs SB C D (a_blk a) D1) as Hsd.
  { intros d Hdi Hdl. destruct (decide (d = n)) as [->|Hne]; [by rewrite E1|]. destruct (S1 d) as [-> Hfb]; [by intros ->%list_elem_of_singleton|].
    split; [done|]. intros _. by apply Hfb. }
  assert (forall d, d_type (D1 d) = d_type (D d)) as Et.
  { intros d. destruct (decide (d = n)) as [->|Hne]; [by rewrite E1|]. by destruct (S1 d) as [-> _]; [intros ->%list_elem_of_singleton|]. }
  assert (forall d, d <> n -> d_nlink (D1 d) = d_nlink (D d)) as Enl.
  { intros d Hne. by destruct (S1 d) as [-> _]; [intros ->%list_elem_of_singleton|]. }
  assert (tree_ok (a_blk a) D1 SB) as Ht1.
  { apply (tree_same SB C D); [apply Htree|done| |].
    - intros d Hdi Hty. rewrite Et in Hty. split; [unfold live; by rewrite Hty|]. rewrite Enl; [done|]. by intros ->.
    - intros m Hm Hm0. destruct (decide (m = n)) as [->|Hne]; [rewrite E1; cbn; lia|by rewrite Enl]. }
  done.
Qed.

(** The link of the file is there; the directory of the new name is looked for. *)
Lemma wpi_link_new n ip new r1 a D1 :
  during r r1 a -> linked_up n [] (plus1 R n) a D1 -> holds (a_ic a) n ip -> (length (a_log a) <= 1)%nat ->
  inum_ok SB n /\ live (D n) /\ d_nlink (D n) <> 0 /\ d_type (D n) <> T_DIR /\ n < 2 ^ 16 ->
  hd 0 new = slash -> (forall nm, last (names new) = Some nm -> dots nm = false) ->
  wpi [] r1 ('(res, name) ← nameiparent fuel bswtch swtch new junk;
    match res with
    | None => link_bad fuel bswtch swtch ip
    | Some dp =>
        ilock fuel bswtch swtch (Some dp);; d ← iread dp; x ← iread ip;
        n ← (if negb (i_dev d =? i_dev x) then mret (-1) else dirlink fuel bswtch swtch dp name (i_inum x));
        if n <? 0 then iunlockput fuel bswtch swtch dp;; link_bad fuel bswtch swtch ip
        else iunlockput fuel bswtch swtch dp;; iput fuel bswtch swtch ip;; bl (end_op fuel bswtch);; mret 0
    end) (fun v H' r' => match walk C D true ROOTINO (names new), last (names new) with
      | Some dn, Some nm => match dlookup (F dn) nm with
          | None => H' = [] /\ v = 0 /\ exists D', added dn nm n r' D'
          | Some _ => restored v H' r' end
      | _, _ => restored v H' r' end).
Proof.
  intros Hd Hlu Hh Hlog Hn Habs Hlastd. pose proof Hn as (Hni & Hl & Hn0 & Hnd & Hn16). pose proof Hlu as [T1 S1 E1 B1 F1].
  pose proof (tw_links _ _ _ Htree n Hni Hl) as Hpos. pose proof (tw_root _ _ _ Htree) as (Hri & Hrt & Hrn).
  assert (live (D ROOTINO)) as Hrl by (unfold live; by rewrite Hrt).
  destruct (linked_up_dirs n _ _ a D1 Hlu Hni Hl Hnd) as (Hsd & Et & Enl & Ht1).
  assert (ROOTINO <> n) as Hrne by congruence.
  eapply wpi_step; [exact Hd|apply (wpa_walk a D1 (plus1 R n) ({[n]} ∪ U) new true T1 Ht1); try done; [unfold live; by rewrite Et|by rewrite Enl|lia| | |]|].
  { intros m. unfold plus1. pose proof (HR m). destruct (m =? n); lia. }
  { intros m. unfold plus1. destruct (Z.eqb_spec m n) as [->|]; [set_solver|]. rewrite Z.add_0_r. set_solver. }
  { pose proof (size_union_alt {[n]} U) as E. pose proof (subseteq_size (U ∖ {[n]}) U ltac:(set_solver)). rewrite size_singleton in E. lia. }
  rewrite (walk_same SB C D) by (done || apply Htree). intros [res name] ? r2 Hd2 (ic2 & -> & Hfd & Hlast & P2). cbn [fst snd] in *.
  assert (forall R2, locks pd SB D1 ic2 [] R2 -> linked_up n [] R2 (set_ic ic2 a) D1) as Hlu2.
  { intros R2 Hlk2. constructor; try done. destruct T1. by constructor. }
  assert (holds ic2 n ip) as Hh2. { apply P2; [done|]. unfold plus1. rewrite Z.eqb_refl. pose proof (HR n). lia. }
  destruct (walk C D true ROOTINO (names new)) as [dn|] eqn:Ew.
  - destruct Hfd as (dp & -> & Hdp & Hc2). rewrite Hlast by done.
    destruct (walk_linked SB C D true ROOTINO (names new) dn (tw_tree _ _ _ Htree) Hri Hrl Hrn Ew) as (_ & _ & _ & Hdir). specialize (Hdir eq_refl).
    eapply wpx_mono; [eapply (wpi_link_dir n dn ip dp name Hn (Hmax n Hni Hl) Hdir); try done; [by apply Hlastd, Hlast|by apply Hfull|apply Hlu2; by apply (cached_locks pd SB)]|].
    intros v H' r' HQ. by destruct (dlookup (F dn) (cname name)).
  - destruct Hfd as [-> Hc2]. eapply (wpi_link_bad ip n r2 _ D1 Hd2); try done; [apply Hlu2; by apply (cached_locks pd SB)|cbn [a_log set_ic]; lia|].
    pose proof (Hmax n Hni Hl). lia.
Qed.

Definition linked_name (old new : list Z) (v : Z) (H' : list nat) (r' : ist) : Prop :=
  match link_target old new with
  | None => restored v H' r'
  | Some (dn, nm, n) => H' = [] /\ v = 0 /\ exists D', added dn nm n r' D'
  end.

Lemma wpi_link old new :
  hd 0 old = slash -> hd 0 new = slash -> (forall nm, last (names new) = Some nm -> dots nm = false) ->
  wpi [] r (link_paths fuel bswtch swtch junk old new) (linked_name old new).
Proof.
  intros Hold Hnew Hlastd. unfold link_paths. eapply wpi_open; [done|exact Hi|]. intros r1 Hd. pose proof Hi as [_ _ _ Hf Ho Hic].
  pose proof (tw_root _ _ _ Htree) as (Hri & Hrt & Hrn). assert (live (D ROOTINO)) as Hrl by (unfold live; by rewrite Hrt).
  assert (txn a0 D [] R) as T0 by (by apply cached_txn).
  eapply wpi_step; [exact Hd|apply (wpa_namei a0 D R U old T0 (tw_tree _ _ _ Htree)); try done; [simpl; lia|intros m; pose proof (HR m); lia|lia]|].
  cbn [a_blk]. intros res ? r2 Hd2 (ic2 & -> & Hfd). unfold linked_name, link_target. destruct (walk C D false ROOTINO (names old)) as [n|] eqn:Ew.
  2:{ destruct Hfd as [-> Hc2]. eapply (wpi_restored r2 _ D R Hd2); [by apply cached_txn|done|simpl; lia|by intros j _|done]. }
  destruct Hfd as (ip & -> & Hip & Hc2).
  destruct (walk_linked SB C D false ROOTINO (names old) n (tw_tree _ _ _ Htree) Hri Hrl Hrn Ew) as (Hni & Hnl & Hn0 & _).
  pose proof (HR n) as HRn. pose proof (Hmax n Hni Hnl). pose proof (tw_links _ _ _ Htree n Hni Hnl).
  assert (plus1 R n n = R n + 1) as ER by (unfold plus1; by rewrite Z.eqb_refl).
  assert (txn (AS ic2 [] C []) D [] (plus1 R n)) as T2 by (by apply cached_txn).
  eapply wpi_step; [exact Hd2|apply (wpa_lock cur pd SB fuel bswtch swtch Hfuel G _ D [] _ ip n T2 Hip); [apply not_elem_of_nil|done|simpl; lia]|].
  intros _ ? r3 Hd3 (ic3 & -> & T3 & P3). eapply wpi_step; [exact Hd3|apply (wpa_own cur pd SB _ D _ _ ip n T3); left|].
  intros x ? r4 Hd4 [-> Hox]. rewrite (ow_di _ _ _ _ Hox). destruct (Z.eqb_spec (d_type (D n)) T_DIR) as [Hty|Hty].
  - eapply wpi_step; [exact Hd4|apply (wpa_unlock_give cur pd SB fuel bswtch swtch Hfuel G _ D [] _ ip n T3); [apply not_elem_of_nil|lia|simpl; lia]|].
    rewrite (proj2 (Z.eqb_neq _ 0) Hn0). cbn [andb]. intros _ a5 r5 Hd5 (D5 & [T5 _ _ (-> & Eb & El) _]).
    apply (wpi_restored r5 a5 D _ Hd5 T5); [intros m; unfold minus1, plus1; destruct (m =? n); lia|rewrite El; simpl; lia| |by rewrite Eb].
    intros j _. split; [done|]. intros _ _. by rewrite Eb.
  - apply wpi_assoc. eapply wpi_step; [exact Hd4|apply (wpa_add_nlink cur pd SB fuel bswtch Hfuel G _ D _ _ ip n 1 T3); [left|simpl; lia|lia]|].
    intros ? a5 r5 Hd5 [T5 S5 B5 F5 L5 P5].
    eapply wpi_step; [exact Hd5|eapply wpa_unlock; [done|exact T5|apply not_elem_of_nil]|].
    intros _ ? r6 Hd6 (ic6 & -> & T6 & P6). eapply wpx_mono; [eapply (wpi_link_new n ip new r6 _ _ Hd6); try done|].
    + constructor; [exact T6|exact S5|apply upd_eq|rewrite upd_eq; exact B5|by apply nfree_ext].
    + by apply P6, P5, P3.
    + split_and!; try done. unfold inum_ok in Hni. lia.
    + intros w H' r' HQ. destruct (walk C D true ROOTINO (names new)) as [dn|]; [|done]. destruct (last (names new)) as [nm|]; [|done].
      by destruct (dlookup (F dn) nm).
Qed.

(** C12: [link] on two absolute paths, of which the second does not end in "." or
    "..", is one transaction.  When the first leads to a file that is not a
    directory, and the second to a name that is not there in a directory that is,
    the name stands for the file, which has a link more, and no other name and no
    other file changes.  Otherwise the call returns -1, and the inodes and the
    files are as they were, the link that was added and taken back included. *)
Theorem link_atomic old new :
  hd 0 old = slash -> hd 0 new = slash -> (forall nm, last (names new) = Some nm -> dots nm = false) ->
  wpi [] r (link_paths fuel bswtch swtch junk old new) (fun v H' r' =>
    match link_target old new with
    | None => restored v H' r'
    | Some (dn, nm, n) => H' = [] /\ v = 0 /\ exists D', added dn nm n r' D'
    end).
Proof. apply wpi_link. Qed.
End link.

(** A second name for the file of the example. *)
Lemma link_atomic_witness :
  wp (link_paths 1 leave leave (replicate 14 0) [47; 97] [47; 98]) (fun v s' => v = 0 /\
    exists D', d_nlink (D' 2) = 2 /\ dlookup (file_of (x_rest s') D' 1) [98] = Some 2 /\ dlookup (file_of (x_rest s') D' 1) [97] = Some 2)
    (ex_running (ex_ist 1 1)).
Proof.
  pose proof (link_atomic 0 7 ex_sb 1 leave leave (replicate 14 0) (Nat.lt_0_succ 0) ex_geom) as H.
  refine (wp_mono _ _ _ _ (H _ eq_refl (ex_ist 1 1) ex_inodes _ ex_tree_wf (refs (ex_icache 1 1)) {[1; 2]} _ _ _
    (ex_cached_any 1 1 _ _) _ _ _ _ [47; 97] [47; 98] eq_refl eq_refl _ (ex_running (ex_ist 1 1)) (ex_running_world _) eq_refl) _); clear H.
  - apply Nat.leb_le. vm_compute. reflexivity.
  - apply ex_fs_idle; lia.
  - intros m. rewrite ex_refs_any. destruct (1 =? m), (2 =? m); lia.
  - intros m. rewrite ex_refs_any. destruct (Z.eqb_spec 1 m), (Z.eqb_spec 2 m); intros; (lia || set_solver).
  - apply Nat.leb_le. vm_compute. reflexivity.
  - lia.
  - lia.
  - simpl. lia.
  - intros m _ _. unfold ex_inodes. destruct (m =? 1); [|destruct (m =? 2)]; simpl; lia.
  - intros d Hd. destruct (ex_linked d Hd) as [_ E]. change (contents (ex_ist 1 1)) with ex_blocks. rewrite E. vm_compute. discriminate.
  - apply Nat.ltb_lt. vm_compute. reflexivity.
  - intros nm Hnm. assert (last (names [47; 98]) = Some [98]) as E by (vm_compute; reflexivity). rewrite E in Hnm. injection Hnm as <-. reflexivity.
  - intros v s' (H' & _ & HQ).
    assert (link_target (ex_ist 1 1) ex_inodes [47; 97] [47; 98] = Some (1, [98], 2)) as E by (vm_compute; reflexivity).
    rewrite E in HQ. destruct HQ as (_ & -> & D' & Had). split; [reflexivity|]. exists D'.
    destruct Had as [_ _ _ Hnm _ _ [En _] _]. rewrite En. split; [reflexivity|].
    rewrite !Hnm. split; [reflexivity|]. vm_compute. reflexivity.
Defined.
