(* ===== verification/Xv6Create.v ===== *)
(** * [create] (lab2/sysfile.c)

    A new inode and its name, for [open], [mkdir] and [mknod]; a new directory
    starts with "." and "..", and its parent has the link of the latter. *)

From S2P Require Import Prelude CMem JosPrintfmt Xv6Lock Xv6Proc Xv6World Xv6Bio Xv6Log Xv6Txn Xv6Inode Xv6Disk Xv6Iops Xv6Content Xv6Wrote Xv6Writei Xv6Icache Xv6Trunc Xv6Ialloc Xv6Dir Xv6Dirops Xv6Path Xv6Image Xv6Syscall Xv6Fs Xv6Sysfile Xv6Tx Xv6Unlink Xv6Link.
From stdpp Require Import base numbers option list gmap strings.
Open Scope Z_scope.

#[local] Opaque Nat.div Nat.modulo.

Section create.
Context (cur : nat) (pd : Z) (SB : superblock) (fuel : nat) (bswtch : MF unit) (swtch : MI unit) (junk : list Z) `{DV : Devsw}.
Context (Hfuel : (0 < fuel)%nat) (G : geom SB) (Hbm : (nbitmap SB <= 2)%nat) (Hjunk : length junk = DIRSIZ).
Notation wpa := (wpa cur pd SB).
Notation wpi := (wpx (R := ist) (Some cur) pd).
Notation txn := (txn pd SB).
Notation during := (during pd SB).

Lemma wpa_assoc {A B E} (m1 : MI A) (m2 : A -> MI B) (f : B -> MI E) a Q :
  wpa ((x ← m1; m2 x) ≫= f) a Q -> wpa (x ← m1; m2 x ≫= f) a Q.
Proof.
  intros H r1 Ha s Hw Hr. specialize (H r1 Ha s Hw Hr). unfold wp, mbind, M_bind in *. by destruct (m1 s).
Qed.

(** An inode that was free is taken. *)
Lemma allocated_txn ty a D L R n ip a' :
  txn a D L R -> ty <> 0 -> allocated SB ty a D n ip a' ->
  txn a' (upd D n (fresh_di ty)) L (plus1 R n) /\ holds (a_ic a') n ip /\ n ∉ L.*2 /\
  (forall m jp, holds (a_ic a) m jp -> holds (a_ic a') m jp) /\ same_files SB [n] a D a' (upd D n (fresh_di ty)).
Proof.
  intros [Hf Ho [Hok Hown Hfree Hrefs] Hh] Hty [H1 H2 H3 H4 H5 H6 H7 H8 _]. set (D' := upd D n (fresh_di ty)) in *.
  assert (forall j, live (D j) -> D' j = D j) as HD by (intros j Hj; apply upd_ne; by intros ->).
  assert (locks pd SB D' (a_ic a) L R) as Hlk.
  { constructor; [|intros jp m Hin|done|done].
    - apply (ic_ext SB _ D); [done|]. intros jp y Hy Hry Hv. apply HD. by destruct (io_valid _ _ _ Hok jp y Hy Hry) as [?|(_ & _ & ?)]; [lia|].
    - destruct (Hown jp m Hin) as (x & Hx & []). exists x. split; [done|]. constructor; by rewrite ?HD. }
  assert (txn (AS (a_ic a) [] (a_blk a') (a_log a')) D' L R) as Ht by (by constructor).
  destruct (took_txn pd SB _ D' L R n ip (a_ic a') Ht H8) as ([T1 T2 T3 T4] & T5 & T6). cbn [a_ic a_blk set_ic] in *.
  split_and!; [by constructor|done| |done|].
  - intros ([jp m] & -> & Hin)%list_elem_of_fmap. destruct (Hown jp m Hin) as (x & _ & Hox). by destruct H2, Hox.
  - intros j Hj. apply not_elem_of_cons in Hj as [Hj _]. assert (D' j = D j) as E by (by apply upd_ne). split; [done|]. intros Hi Hl.
    rewrite E. by apply (keeps_bytes SB (a_blk a) D [] (a_blk a') j), H5.
Qed.

Context (r : ist) (D : Z -> dinode) (Hi : fs_idle pd SB r D) (Htree : tree_wf SB (contents r) D).
Context (R : Z -> Z) (U : gset Z) (HR : forall m, 0 <= R m < 2 ^ 31 - 4) (HU : forall m, 0 < R m -> m ∈ U)
  (Hroom : (size U + 3 <= NINODE)%nat) (Hc : cached SB D (icache r) R).
Context (Hsmall : sb_ninodes SB <= 2 ^ 16) (Hmax : forall m, inum_ok SB m -> live (D m) -> d_nlink (D m) < 2 ^ 15 - 1).
Notation C := (contents r).
Notation F d := (fbytes C (D d)).
Notation a0 := (AS (icache r) [] C []).
Context (Hfull : forall d, linked_dir SB D d -> Z.of_nat (length (F d)) + DESIZE <= MAXFILE * BSIZE) (Hfree : (6 < nfree SB C)%nat).
Context (unused : Z) (Hui : inum_ok SB unused) (Hul : ~ live (D unused)).
Context (ty major minor : Z) (Hty : - 2 ^ 15 <= ty < 2 ^ 15) (Hty0 : ty <> 0) (Hmaj : - 2 ^ 15 <= major < 2 ^ 15)
  (Hmin : - 2 ^ 15 <= minor < 2 ^ 15).

Section node.
Context (dn : Z) (dp : nat) (Hdn : linked_dir SB D dn).

(** On the way: the new inode [n] has the bytes [f], its directory [d] links
    more; the blocks logged are those of [X] and of the inodes and the free map,
    and [k] free blocks have been taken. *)
Record stage (n : Z) (ip : nat) (d : Z) (f : list Z) (X : list Z) (k : nat) (a : astate) (D1 : Z -> dinode) : Prop := Stage {
  sg_txn : txn a D1 [(ip, n); (dp, dn)] (plus1 (plus1 R dn) n);
  sg_new : inum_ok SB n /\ ~ live (D n);
  sg_same : same_files SB [dn; n] a0 D a D1;
  sg_dir : d_type (D1 dn) = T_DIR /\ d_nlink (D1 dn) = d_nlink (D dn) + d /\ fbytes (a_blk a) (D1 dn) = F dn;
  sg_node : d_type (D1 n) = ty /\ d_major (D1 n) = major /\ d_minor (D1 n) = minor /\ d_nlink (D1 n) = 1 /\ fbytes (a_blk a) (D1 n) = f;
  sg_log m : m ∈ a_log a -> m ∈ bitmaps SB ++ IBLOCK n SB :: IBLOCK dn SB :: X;
  sg_free : (nfree SB C <= nfree SB (a_blk a) + k)%nat }.

Lemma logged_more B n X b1 b2 k (m : Z) :
  k ∈ [n; dn] -> (m ∈ B ++ IBLOCK n SB :: IBLOCK dn SB :: X \/ m ∈ B ++ [IBLOCK k SB; b1; b2]) ->
  m ∈ B ++ IBLOCK n SB :: IBLOCK dn SB :: X ++ [b1; b2].
Proof.
  clear. rewrite !elem_of_app, !elem_of_cons, !elem_of_app, !elem_of_cons. intros [->|[->|[]%elem_of_nil]] [[?|?]|[?|[?|?]]]; tauto.
Qed.

Lemma wpa_alloc_node {A} a (K : nat -> MI A) Q :
  txn a D [(dp, dn)] (plus1 R dn) -> a_blk a = C -> a_log a = [] ->
  (forall n ip a1 D1, stage n ip 0 [] [] 0 a1 D1 -> (length (a_log a1) <= 2)%nat -> wpa (K ip) a1 Q) ->
  wpa (ip ← ialloc fuel bswtch 1 ty;
       ilock fuel bswtch swtch (Some ip);;
       iupd ip (fun x => set_idi (set_dnlink 1 (set_ddev major minor (i_di x))) x);; iupdate fuel bswtch ip;; K ip) a Q.
Proof.
  intros Ht Hb Hl HK. destruct Hdn as (Hdi & Hdt & Hdn0). pose proof Ht as [Hf Ho Hlk Hh].
  assert (roomy SB (a_ic a)) as [Hs Hrm].
  { apply (roomy_more pd SB D (a_ic a) _ _ U [dn] Hlk); [| |simpl; lia].
    - intros m. unfold plus1. pose proof (HR m). destruct (m =? dn); lia.
    - intros m. unfold plus1. destruct (Z.eqb_spec m dn) as [->|]; [left; left|]. rewrite Z.add_0_r. intros ?%HU. by right. }
  eapply wpa_bind; [apply (wpa_ialloc cur pd SB fuel bswtch Hfuel G a D ty Hf Ho (lk_ok _ _ _ _ _ _ Hlk) Hh ltac:(rewrite Hl; simpl; lia) Hty unused); done|].
  intros ip a1 (n & Hal). destruct (allocated_txn ty a D _ _ n ip a1 Ht Hty0 Hal) as (T1 & H1 & Hn1 & P1 & S1).
  pose proof Hal as [Hni Hnl _ _ _ El _ _ Enf]. rewrite Hl in El. set (D1 := upd D n (fresh_di ty)) in *.
  assert (D1 n = fresh_di ty) as E1 by apply upd_eq. assert (length (a_log a1) <= 1)%nat as Hl1.
  { rewrite El. pose proof (add_block_length (IBLOCK n SB) []). simpl in *. lia. }
  eapply wpa_bind; [apply (wpa_lock cur pd SB fuel bswtch swtch Hfuel G a1 D1 _ _ ip n T1 H1 Hn1); [by rewrite E1|lia]|].
  intros _ ? (ic2 & -> & T2 & _). apply wpa_assoc. eapply wpa_bind.
  { apply (wpa_attr cur pd SB fuel bswtch Hfuel G _ D1 _ _ ip n (fun x => set_dnlink 1 (set_ddev major minor x)) T2); [left|cbn [a_log set_ic]; lia| |done].
    rewrite E1. pose proof (fresh_di_ok ty Hty) as []. by constructor. }
  intros _ a3 [T3 S3 B3 F3 L3 _ I3]. cbn [a_log set_ic] in L3, I3. rewrite E1 in *. set (y := set_dnlink 1 _) in *.
  assert (dn <> n) as Hne by (intros ->; by destruct Hn1; left). apply (HK n ip a3 (upd D1 n y)); [|lia].
  assert (same_files SB [n] a D a3 (upd D1 n y)) as S13 by (eapply same_trans; [exact S1|exact S3]).
  assert (same_files SB [n] a0 D a3 (upd D1 n y)) as S03.
  { intros j Hj. destruct (S13 j Hj) as [E Hfb]. split; [done|]. rewrite Hb in Hfb. exact Hfb. }
  constructor; [exact T3|done| | |rewrite upd_eq; split_and!; try done| |].
  - eapply same_sub; [|exact S03]. intros j ->%list_elem_of_singleton. set_solver.
  - destruct (S03 dn) as [-> Hfb]; [by intros ?%list_elem_of_singleton|]. rewrite Hdt, Z.add_0_r. split_and!; [done|done|]. apply Hfb; [done|].
    unfold live. by rewrite Hdt.
  - intros m [Hm| ->]%I3; [rewrite El in Hm; apply add_block_elem in Hm as [Hm| ->]; [by apply elem_of_nil in Hm|]|]; set_solver.
  - rewrite (nfree_ext SB (a_blk a1) (a_blk a3)) by (intros b Hbo; by apply F3). rewrite Enf, Hb. lia.
Qed.

Lemma stage_roomy n ip d f X k a D1 : stage n ip d f X k a D1 -> roomy SB (a_ic a).
Proof.
  intros Hs. apply (roomy_more pd SB D1 (a_ic a) _ _ U [n; dn] (tx_locks _ _ _ _ _ _ (sg_txn _ _ _ _ _ _ _ _ Hs))); [| |simpl; lia].
  - intros m. unfold plus1. pose proof (HR m). destruct (m =? n), (m =? dn); lia.
  - intros m. unfold plus1. destruct (Z.eqb_spec m n) as [->|]; [left; left|]. destruct (Z.eqb_spec m dn) as [->|]; [left; right; left|].
    rewrite !Z.add_0_r. intros ?%HU. by right.
Qed.

Lemma stage_ne n ip d f X k a D1 : stage n ip d f X k a D1 -> n <> dn.
Proof. intros Hs ->. destruct (sg_new _ _ _ _ _ _ _ _ Hs) as [_ []]. destruct Hdn as (_ & E & _). unfold live. by rewrite E. Qed.

(** A name is added to the new directory. *)
Lemma wpa_stage_name n ip d f X k a D1 nm m :
  stage n ip d f X k a D1 -> ty = T_DIR -> dir_ok SB f -> dlookup f (cname nm) = None -> 0 < m < 2 ^ 16 ->
  Z.of_nat (length f) <= 1024 -> (length (a_log a) < 14)%nat -> (k <= 4)%nat ->
  wpa (dirlink fuel bswtch swtch ip nm m) a (fun v a' => v = 0 /\ exists D2 b1 b2,
    stage n ip d (linked f nm m) (X ++ [b1; b2]) (k + 2) a' D2 /\ (length (a_log a') <= length (a_log a) + 5)%nat).
Proof.
  intros Hs Et Hdok Hnone Hm Hlen Hlog Hk. pose proof (stage_ne _ _ _ _ _ _ _ _ Hs) as Hne. pose proof (stage_roomy _ _ _ _ _ _ _ _ Hs) as Hrm.
  destruct Hs as [T1 [N1 N2] S1 (Y1 & Y2 & Y3) (Z1 & Z2 & Z3 & Z4 & Z5) L1 F1].
  eapply wpa_mono; [apply (wpa_addname cur pd SB fuel bswtch swtch Hfuel G a D1 _ _ ip n T1); rewrite ?Z5, ?Hnone; try done; try lia;
    [left|first [congruence|change (MAXFILE * BSIZE) with 71680; unfold DESIZE; lia]..]|].
  rewrite Z5, Hnone. intros v a' (-> & D2 & T2 & S2 & B2 & _ & A1 & A2 & G2 & (b1 & b2 & I2) & F2 & A3 & A4). split; [done|].
  exists D2, b1, b2. split; [|done]. destruct (S2 dn) as [Ed Bd]; [by intros ->%list_elem_of_singleton|]. constructor; [done|done| | | | |lia].
  - eapply same_trans; [exact S1|]. eapply same_sub; [|exact S2]. intros j ->%list_elem_of_singleton. set_solver.
  - rewrite Ed in *. split_and!; [done|done|]. rewrite Bd; [done|by destruct Hdn|]. unfold live. by rewrite Y1.
  - split_and!; congruence.
  - intros b Hb%I2. apply (logged_more _ _ _ _ _ n); [by left|]. destruct Hb as [Hb%L1|Hb]; [by left|by right].
Qed.

(** The entries "." and ".." of a new directory, and the link of the latter. *)
Definition first_dots (n : Z) : list Z := if ty =? T_DIR then linked (linked [] (zs ".") n) (zs "..") dn else [].
Definition one_if_dir : Z := if ty =? T_DIR then 1 else 0.

Lemma dir_ok_nil : dir_ok SB [].
Proof. clear. split; [done|]. intros k Hk. change (nents []) with 0%nat in Hk. lia. Qed.

Lemma wpa_stage_dots n ip a D1 (x d : inode) :
  stage n ip 0 [] [] 0 a D1 -> (length (a_log a) <= 2)%nat -> i_inum x = n -> i_inum d = dn ->
  wpa (if ty =? T_DIR then
         add_nlink dp 1;; iupdate fuel bswtch dp;;
         n ← dirlink fuel bswtch swtch ip (zs ".") (i_inum x);
         n ← (if n <? 0 then mret n else dirlink fuel bswtch swtch ip (zs "..") (i_inum d));
         if n <? 0 then panic "create dots" else mret tt
       else mret tt) a (fun _ a' => exists D2 X, stage n ip one_if_dir (first_dots n) X 4 a' D2 /\ (length X <= 4)%nat /\ (length (a_log a') <= 13)%nat).
Proof.
  intros Hs Hlog Ex Ed. unfold one_if_dir, first_dots. pose proof (stage_ne _ _ _ _ _ _ _ _ Hs) as Hne.
  pose proof Hs as [T1 [N1 N2] S1 (Y1 & Y2 & Y3) Z1 L1 F1]. destruct (Z.eqb_spec ty T_DIR) as [Et|Et].
  2:{ apply wpa_ret. exists D1, []. split_and!; [|simpl; lia|lia]. destruct Hs. constructor; try done. lia. }
  rewrite Ex, Ed. pose proof Hdn as (Hdi & Hdt & Hdn0). assert (live (D dn)) as Hdl by (unfold live; by rewrite Hdt). pose proof (Hmax dn Hdi Hdl). pose proof (tw_links _ _ _ Htree dn Hdi ltac:(unfold live; by rewrite Hdt)). rewrite Z.add_0_r in Y2.
  apply wpa_assoc. eapply wpa_bind; [apply (wpa_add_nlink cur pd SB fuel bswtch Hfuel G a D1 _ _ dp dn 1 T1); [right; left|lia|lia]|].
  intros _ a2 [T2 S2 B2 F2 L2 _ I2]. assert (stage n ip 1 [] [] 0 a2 (upd D1 dn (set_dnlink (d_nlink (D1 dn) + 1) (D1 dn)))) as Hs2.
  { destruct (S2 n) as [En Bn]; [by intros ?%list_elem_of_singleton|]. destruct Z1 as (Z1 & Z2 & Z3 & Z4 & Z5).
    constructor; [done|done| | | | |].
    - eapply same_trans; [exact S1|]. eapply same_sub; [|exact S2]. intros j ->%list_elem_of_singleton. set_solver.
    - rewrite upd_eq. split_and!; [done|cbn; lia|by rewrite B2].
    - rewrite En in *. split_and!; try done. rewrite Bn; [done|done|]. unfold live. by rewrite Z1.
    - intros m [Hm| ->]%I2; [by apply L1|set_solver].
    - by rewrite (nfree_ext SB (a_blk a) (a_blk a2)). }
  assert (0 < n < 2 ^ 16 /\ 0 < dn < 2 ^ 16) as [Hn16 Hd16] by (unfold inum_ok in *; lia).
  eapply wpa_bind; [apply (wpa_stage_name _ _ _ _ _ _ _ _ (zs ".") n Hs2 Et dir_ok_nil); [done|done|simpl; lia|lia|lia]|].
  intros ? a3 (-> & D3 & b1 & b2 & Hs3 & L3). cbn [Z.ltb Z.compare].
  eapply wpa_bind; [apply (wpa_stage_name _ _ _ _ _ _ _ _ (zs "..") dn Hs3 Et); [by apply dir_ok_linked; [apply dir_ok_nil|..]| |done| |lia|lia]|].
  { by rewrite (dlookup_linked SB [] dir_ok_nil (zs ".") n Hn16). }
  { rewrite (length_linked SB [] dir_ok_nil). by vm_compute. }
  intros ? a4 (-> & D4 & b3 & b4 & Hs4 & L4). cbn [Z.ltb Z.compare]. apply wpa_ret. exists D4, ([] ++ [b1; b2] ++ [b3; b4]).
  split_and!; [exact Hs4|simpl; lia|lia].
Qed.

(** The node is there, locked, and the directory is given back. *)
Record born (nm : list Z) (n : Z) (ip : nat) (a : astate) (D1 : Z -> dinode) : Prop := Born {
  bo_txn : txn a D1 [(ip, n)] (plus1 R n);
  bo_new : inum_ok SB n /\ ~ live (D n);
  bo_same : same_files SB [dn; n] a0 D a D1;
  bo_dir : d_type (D1 dn) = T_DIR /\ d_nlink (D1 dn) = d_nlink (D dn) + one_if_dir;
  bo_names : exists name, cname name = nm /\ fbytes (a_blk a) (D1 dn) = linked (F dn) name n;
  bo_node : d_type (D1 n) = ty /\ d_major (D1 n) = major /\ d_minor (D1 n) = minor /\ d_nlink (D1 n) = 1 /\
    fbytes (a_blk a) (D1 n) = first_dots n;
  bo_log : (length (a_log a) <= 10)%nat;
  bo_free : (nfree SB C <= nfree SB (a_blk a) + 6)%nat }.

Lemma one_if_dir_range : 0 <= one_if_dir <= 1.
Proof. clear. unfold one_if_dir. destruct (_ =? _); lia. Qed.

(** The name of the node, and the end. *)
Lemma wpa_stage_done n ip X a D1 name :
  stage n ip one_if_dir (first_dots n) X 4 a D1 -> (length X <= 4)%nat -> (length (a_log a) <= 13)%nat -> dlookup (F dn) (cname name) = None ->
  wpa (v ← dirlink fuel bswtch swtch dp name n; if v <? 0 then panic "create: dirlink" else iunlockput fuel bswtch swtch dp;; mret (Some ip)) a
    (fun v a' => v = Some ip /\ exists D2, born (cname name) n ip a' D2).
Proof.
  intros Hs HX Hlog Hnone. pose proof (stage_ne _ _ _ _ _ _ _ _ Hs) as Hne. pose proof (stage_roomy _ _ _ _ _ _ _ _ Hs) as Hrm.
  pose proof Hdn as (Hdi & Hdt & Hdn0). destruct Hs as [T1 [N1 N2] S1 (Y1 & Y2 & Y3) (Z1 & Z2 & Z3 & Z4 & Z5) L1 F1].
  destruct (tw_tree _ _ _ Htree dn Hdi Hdt Hdn0) as [Hdok _]. pose proof (Hfull dn Hdn). pose proof one_if_dir_range.
  pose proof (tw_links _ _ _ Htree dn Hdi ltac:(unfold live; by rewrite Hdt)). pose proof (HR dn). pose proof (HR n).
  eapply wpa_bind; [apply (wpa_addname cur pd SB fuel bswtch swtch Hfuel G a D1 _ _ dp dn T1); rewrite ?Y3, ?Hnone; try done; try lia;
    [right; left|unfold inum_ok in N1; lia]|].
  rewrite Y3, Hnone. intros v a2 (-> & D2 & T2 & S2 & B2 & _ & A1 & A2 & G2 & (b1 & b2 & I2) & F2 & _). cbn [Z.ltb Z.compare].
  apply wpa_nodup. intros Hnd. assert (length (a_log a2) <= 10)%nat as Hl2.
  { pose proof (log_count (a_log a2) (bitmaps SB ++ IBLOCK n SB :: IBLOCK dn SB :: X ++ [b1; b2]) Hnd) as Hcnt.
    rewrite length_app in Hcnt. cbn [length] in Hcnt. rewrite length_app in Hcnt. cbn [length] in Hcnt.
    assert (length (bitmaps SB) <= 2)%nat by (unfold bitmaps; rewrite length_seqZ; lia).
    etransitivity; [apply Hcnt|lia].
    intros m Hm%I2. apply (logged_more _ _ _ _ _ dn); [by right; left|]. destruct Hm as [Hm%L1|Hm]; [by left|by right]. }
  eapply wpa_bind; [apply (wpa_unlock_give cur pd SB fuel bswtch swtch Hfuel G a2 D2 [(ip, n)] (plus1 (plus1 R dn) n) dp dn)|].
  { eapply txn_perm; [exact T2|apply Permutation_swap|done]. } { by intros ->%list_elem_of_singleton. }
  { unfold plus1. destruct (dn =? n), (dn =? dn); lia. } { lia. }
  rewrite A2, Y2, (proj2 (Z.eqb_neq _ 0)) by lia. cbn [andb]. intros _ a3 (D3 & [T3 _ _ (-> & Eb & El) _]). apply wpa_ret. split; [done|].
  destruct (S2 n) as [En Bn]; [by intros ?%list_elem_of_singleton|]. exists D2. constructor; rewrite ?Eb, ?El, ?En; try done.
  - eapply txn_perm; [exact T3|done|]. intros m. unfold minus1, plus1. destruct (m =? n), (m =? dn); lia.
  - intros j Hj. rewrite Eb. revert j Hj. eapply same_trans; [exact S1|]. eapply same_sub; [|exact S2]. intros j ->%list_elem_of_singleton. set_solver.
  - rewrite A1, A2. done.
  - by exists name.
  - split_and!; try done. rewrite En in Bn. rewrite Bn; [done|done|]. unfold live. by rewrite Z1.
  - lia.
Qed.

(** The branch of [create] that makes a node. *)
Lemma wpa_create_new a name :
  txn a D [(dp, dn)] (plus1 R dn) -> a_blk a = C -> a_log a = [] -> dlookup (F dn) (cname name) = None ->
  wpa (d ← iread dp;
       ip ← ialloc fuel bswtch (i_dev d) ty;
       ilock fuel bswtch swtch (Some ip);;
       iupd ip (fun x => set_idi (set_dnlink 1 (set_ddev major minor (i_di x))) x);;
       iupdate fuel bswtch ip;;
       x ← iread ip;
       (if ty =? T_DIR then
          add_nlink dp 1;; iupdate fuel bswtch dp;;
          n ← dirlink fuel bswtch swtch ip (zs ".") (i_inum x);
          n ← (if n <? 0 then mret n else dirlink fuel bswtch swtch ip (zs "..") (i_inum d));
          if n <? 0 then panic "create dots" else mret tt
        else mret tt);;
       n ← dirlink fuel bswtch swtch dp name (i_inum x);
       if n <? 0 then panic "create: dirlink"
       else iunlockput fuel bswtch swtch dp;; mret (Some ip)) a
    (fun v a' => exists n ip D2, v = Some ip /\ born (cname name) n ip a' D2).
Proof.
  intros Ht Hb Hl Hnone. eapply wpa_bind; [apply (wpa_own cur pd SB a D _ _ dp dn Ht); left|]. intros d ? [-> Hod].
  rewrite (ow_dev _ _ _ _ Hod). apply wpa_alloc_node; try done. intros n ip a1 D1 Hs Hl1.
  eapply wpa_bind; [apply (wpa_own cur pd SB a1 D1 _ _ ip n (sg_txn _ _ _ _ _ _ _ _ Hs)); left|]. intros x ? [-> Hox].
  eapply wpa_bind; [apply (wpa_stage_dots n ip a1 D1 x d Hs Hl1); [apply Hox|apply Hod]|]. intros _ a2 (D2 & X & Hs2 & HX & Hl2).
  rewrite (ow_inum _ _ _ _ Hox). eapply wpa_mono; [by eapply wpa_stage_done|]. intros v a3 (-> & D3 & Hbo). by exists n, ip, D3.
Qed.
End node.

(** What a path asks for: a name in a directory, and what it stands for. *)
Definition create_at (path : list Z) : option (Z * list Z * option Z) :=
  match walk C D true ROOTINO (names path), last (names path) with
  | Some dn, Some nm => Some (dn, nm, dlookup (F dn) nm)
  | _, _ => None
  end.

Lemma wpa_create_found dp dn n ip a :
  linked_dir SB D dn -> inum_ok SB n -> live (D n) -> d_nlink (D n) <> 0 ->
  txn a D [(dp, dn)] (plus1 (plus1 R dn) n) -> a_blk a = C -> a_log a = [] -> holds (a_ic a) n ip ->
  wpa (iunlockput fuel bswtch swtch dp;;
       ilock fuel bswtch swtch (Some ip);;
       x ← iread ip;
       if (ty =? T_FILE) && (d_type (i_di x) =? T_FILE) then mret (Some ip)
       else iunlockput fuel bswtch swtch ip;; mret None) a
    (fun v a' => a_blk a' = C /\ a_log a' = [] /\
       if (ty =? T_FILE) && (d_type (D n) =? T_FILE) then v = Some ip /\ txn a' D [(ip, n)] (plus1 R n)
       else v = None /\ txn a' D [] R).
Proof.
  intros (Hdi & Hdt & Hdn0) Hni Hl Hn0 Ht Hb Hlog Hh. pose proof (HR dn). pose proof (HR n).
  eapply wpa_bind; [apply (wpa_unlock_give cur pd SB fuel bswtch swtch Hfuel G a D [] _ dp dn Ht); [apply not_elem_of_nil| |rewrite Hlog; simpl; lia]|].
  { unfold plus1. destruct (dn =? n), (dn =? dn); lia. }
  rewrite (proj2 (Z.eqb_neq _ 0) Hdn0). cbn [andb]. intros _ a2 (D2 & [T2 _ P2 (-> & Eb & El) _]).
  assert (txn a2 D [] (plus1 R n)) as T2'.
  { eapply txn_perm; [exact T2|done|]. intros m. unfold minus1, plus1. destruct (m =? n), (m =? dn); lia. }
  assert (plus1 R n n = R n + 1) as ER by (unfold plus1; by rewrite Z.eqb_refl).
  eapply wpa_bind; [apply (wpa_lock cur pd SB fuel bswtch swtch Hfuel G a2 D [] _ ip n T2'); [|apply not_elem_of_nil|done|rewrite El, Hlog; simpl; lia]|].
  { apply P2; [done|]. unfold minus1, plus1. rewrite Z.eqb_refl. destruct (n =? dn); lia. }
  intros _ ? (ic3 & -> & T3 & _). eapply wpa_bind; [apply (wpa_own cur pd SB _ D _ _ ip n T3); left|]. intros x ? [-> Hox].
  rewrite (ow_di _ _ _ _ Hox). destruct ((ty =? T_FILE) && (d_type (D n) =? T_FILE)).
  - apply wpa_ret. cbn [a_blk a_log set_ic]. rewrite Eb, El. done.
  - eapply wpa_bind; [apply (wpa_unlock_give cur pd SB fuel bswtch swtch Hfuel G _ D [] _ ip n T3); [apply not_elem_of_nil|lia|cbn [a_log set_ic]; rewrite El, Hlog; simpl; lia]|].
    rewrite (proj2 (Z.eqb_neq _ 0) Hn0). cbn [andb]. intros _ a4 (D4 & [T4 _ _ (-> & Eb4 & El4) _]). apply wpa_ret.
    cbn [a_blk a_log set_ic] in Eb4, El4. split_and!; [congruence|congruence|done|]. eapply txn_perm; [exact T4|done|].
    intros m. unfold minus1, plus1. destruct (m =? n); lia.
Qed.

(** [create], in a transaction. *)
Lemma wpa_create path :
  hd 0 path = slash ->
  wpa (create fuel bswtch swtch junk path ty major minor) a0 (fun v a' =>
    match create_at path with
    | Some (dn, nm, None) => exists n ip D', v = Some ip /\ linked_dir SB D dn /\ dlookup (F dn) nm = None /\ born dn nm n ip a' D'
    | Some (dn, nm, Some n) => a_blk a' = C /\ a_log a' = [] /\ d_nlink (D n) <> 0 /\
        if (ty =? T_FILE) && (d_type (D n) =? T_FILE) then exists ip, v = Some ip /\ txn a' D [(ip, n)] (plus1 R n)
        else v = None /\ txn a' D [] R
    | None => v = None /\ txn a' D [] R /\ a_blk a' = C /\ a_log a' = []
    end).
Proof.
  intros Habs. unfold create, create_at, nameiparent. pose proof Hi as [_ _ _ Hf Ho Hic]. pose proof (tw_root _ _ _ Htree) as (Hri & Hrt & Hrn).
  assert (live (D ROOTINO)) as Hrl by (unfold live; by rewrite Hrt). assert (txn a0 D [] R) as T0 by (by apply cached_txn).
  eapply wpa_bind; [apply (wpa_walk cur pd SB fuel bswtch swtch junk Hfuel G Hjunk a0 D R U path true T0 (tw_tree _ _ _ Htree) Hrl Hrn); [apply Nat.lt_0_succ| |exact HU|lia|exact Habs]|].
  { intros m. pose proof (HR m). lia. }
  cbn [a_blk]. intros [res name] ? (ic1 & -> & Hfd & Hlast & _). cbn [fst snd] in *.
  destruct (walk C D true ROOTINO (names path)) as [dn|] eqn:Ew.
  2:{ destruct Hfd as [-> Hc1]. apply wpa_ret. split_and!; try done. by apply cached_txn. }
  destruct Hfd as (dp & -> & Hdp & Hc1). rewrite Hlast by done.
  destruct (walk_linked SB C D true ROOTINO (names path) dn (tw_tree _ _ _ Htree) Hri Hrl Hrn Ew) as (Hdi & Hdl & Hdn0 & Hdn). specialize (Hdn eq_refl).
  pose proof Hdn as (_ & Hdt & _). destruct (tw_tree _ _ _ Htree dn Hdi Hdt Hdn0) as [Hdok _].
  assert (txn (AS ic1 [] C []) D [] (plus1 R dn)) as T1 by (by apply cached_txn).
  eapply wpa_bind; [apply (wpa_lock cur pd SB fuel bswtch swtch Hfuel G _ D [] _ dp dn T1 Hdp); [apply not_elem_of_nil|done|simpl; lia]|].
  intros _ ? (ic2 & -> & T2 & _). eapply wpa_bind.
  { apply (wpa_find cur pd SB fuel bswtch Hfuel G _ D _ _ dp dn T2); [left|done|simpl; lia|done|].
    apply (roomy_more pd SB D _ _ _ U [dn] (tx_locks _ _ _ _ _ _ T2)); [| |simpl; lia].
    - intros m. unfold plus1. pose proof (HR m). destruct (m =? dn); lia.
    - intros m. unfold plus1. destruct (Z.eqb_spec m dn) as [->|]; [left; left|]. rewrite Z.add_0_r. intros ?%HU. by right. }
  cbn [a_blk a_log set_ic]. intros res a3 Hres. destruct (dslot_of (F dn) (cname name)) as [t|] eqn:Es.
  - destruct Hres as (ip & ic3 & -> & -> & T3 & Hip & _). set (n := de_inum (ent (F dn) t)) in *.
    assert (dlookup (F dn) (cname name) = Some n) as El by (unfold dlookup; by rewrite Es). rewrite El.
    destruct (dir_target SB C D dn (cname name) n (tw_tree _ _ _ Htree) Hdn El) as (Hni & Hnl & Hn0).
    eapply wpa_mono; [by apply (wpa_create_found dp dn n ip _ Hdn Hni Hnl Hn0 T3)|]. intros v a4 (H1 & H2 & H3). split_and!; try done.
    destruct (_ && _); [by exists ip|done].
  - destruct Hres as [-> ->]. assert (dlookup (F dn) (cname name) = None) as El by (unfold dlookup; by rewrite Es). rewrite El.
    eapply wpa_mono; [by apply (wpa_create_new dn dp Hdn)|]. intros v a4 (n & ip & D4 & -> & Hbo). by exists n, ip, D4.
Qed.

(** Node [n] has been made, with the name [nm] in the directory [dn]. *)
Record created (dn : Z) (nm : list Z) (n : Z) (r' : ist) (D' : Z -> dinode) : Prop := Created {
  cr_idle : fs_idle pd SB r' D';
  cr_atomic : atomic cur pd SB fuel bswtch r D r' D';
  cr_cached : cached SB D' (icache r') R;
  cr_new : inum_ok SB n /\ ~ live (D n);
  cr_names nm' : dlookup (file_of r' D' dn) nm' = if decide (nm' = nm) then Some n else dlookup (file_of r D dn) nm';
  cr_bytes : exists name, cname name = nm /\ file_of r' D' dn = linked (file_of r D dn) name n;
  cr_dir : d_type (D' dn) = T_DIR /\ d_nlink (D' dn) = d_nlink (D dn) + one_if_dir;
  cr_node : d_type (D' n) = ty /\ d_major (D' n) = major /\ d_minor (D' n) = minor /\ d_nlink (D' n) = 1 /\ file_of r' D' n = first_dots dn n;
  cr_other j : j ∉ [dn; n] -> D' j = D j /\ (inum_ok SB j -> live (D j) -> file_of r' D' j = file_of r D j);
  cr_free : (nfree SB C <= nfree SB (contents r') + 6)%nat }.

(** The node is given back and the transaction ends. *)
Lemma wpi_create_end dn nm n ip r1 a D' :
  during r r1 a -> linked_dir SB D dn -> dlookup (F dn) nm = None -> born dn nm n ip a D' ->
  wpi [] r1 (iunlockput fuel bswtch swtch ip;; bl (end_op fuel bswtch);; mret 0) (fun v H' r' =>
    H' = [] /\ v = 0 /\ exists D', created dn nm n r' D').
Proof.
  intros Hd Hdn Hnone [T1 [N1 N2] S1 [Y1 Y2] (name & <- & B1) (Z1 & Z2 & Z3 & Z4 & Z5) L1 FR1]. pose proof Hdn as (Hdi & Hdt & Hdn0). pose proof (HR n).
  assert (plus1 R n n = R n + 1) as ER by (unfold plus1; by rewrite Z.eqb_refl).
  eapply wpi_step; [exact Hd|apply (wpa_unlock_give cur pd SB fuel bswtch swtch Hfuel G a D' [] _ ip n T1); [apply not_elem_of_nil|lia|lia]|].
  rewrite Z4. cbn [Z.eqb andb]. intros _ a2 r2 Hd2 (D2 & [T2 _ _ (-> & Eb & El) _]).
  eapply (wpi_close cur pd SB fuel bswtch Hfuel G r D r2 a2 D' [] _); [done|exact Hd2|exact T2|rewrite El; lia|].
  intros r' Hi' Eic Hat Hfi Hnf. rewrite Eb in Hfi, Hnf. apply wpx_ret. split_and!; [done|done|]. exists D'.
  assert (live (D' n)) as Hl by (unfold live; by rewrite Z1). assert (live (D' dn)) as Hld by (unfold live; by rewrite Y1).
  constructor; [done|done| |done| | |done| | |by rewrite Hnf].
  - rewrite Eic. apply (cached_locks pd SB). destruct (tx_locks _ _ _ _ _ _ T2) as [H1 H2 H3 H4]. constructor; [done|done|done|].
    intros m. rewrite H4. unfold minus1, plus1. destruct (m =? n); lia.
  - intros nm'. rewrite Hfi by done. rewrite B1. apply (dlookup_linked SB); [|unfold inum_ok in N1; lia|done]. by apply (tw_tree _ _ _ Htree dn).
  - exists name. split; [done|]. by rewrite Hfi.
  - rewrite Hfi by done. done.
  - intros j Hj. destruct (S1 j Hj) as [Ej Hfj]. split; [done|]. intros Hj1 Hj2. rewrite Hfi by (done || by rewrite Ej). by apply Hfj.
Qed.

Definition made (path : list Z) (v : Z) (H' : list nat) (r' : ist) : Prop :=
  match create_at path with
  | Some (dn, nm, None) => H' = [] /\ v = 0 /\ exists n D', created dn nm n r' D'
  | Some (dn, nm, Some n) => H' = [] /\ v = (if (ty =? T_FILE) && (d_type (D n) =? T_FILE) then 0 else -1) /\ untouched cur pd SB fuel bswtch r D R r'
  | None => H' = [] /\ v = -1 /\ untouched cur pd SB fuel bswtch r D R r'
  end.

Lemma wpi_create path :
  hd 0 path = slash ->
  wpi [] r (bl (begin_op bswtch fuel);; v ← create fuel bswtch swtch junk path ty major minor; made_node fuel bswtch swtch v) (made path).
Proof.
  intros Habs. eapply wpi_open; [done|exact Hi|]. intros r1 Hd. eapply wpi_step; [exact Hd|by apply wpa_create|].
  intros v a2 r2 Hd2 HQ. unfold made. destruct (create_at path) as [[[dn nm] [n|]]|].
  - destruct HQ as (Eb & El & Hn0 & HQ). pose proof (HR n). assert (plus1 R n n = R n + 1) as ER by (unfold plus1; by rewrite Z.eqb_refl).
    destruct ((ty =? T_FILE) && (d_type (D n) =? T_FILE)).
    + destruct HQ as (ip & -> & T2). cbn [made_node].
      eapply wpi_step; [exact Hd2|apply (wpa_unlock_give cur pd SB fuel bswtch swtch Hfuel G a2 D [] _ ip n T2); [apply not_elem_of_nil|lia|rewrite El; simpl; lia]|].
      rewrite (proj2 (Z.eqb_neq _ 0) Hn0). cbn [andb]. intros _ a3 r3 Hd3 (D3 & [T3 _ _ (-> & Eb3 & El3) _]).
      apply (wpi_fail cur pd SB fuel bswtch Hfuel G r D Hi R 0 r3 a3 Hd3); [|congruence|congruence]. eapply txn_perm; [exact T3|done|].
      intros m. unfold minus1, plus1. destruct (m =? n); lia.
    + destruct HQ as [-> T2]. by apply (wpi_fail cur pd SB fuel bswtch Hfuel G r D Hi R (-1) r2 a2 Hd2).
  - destruct HQ as (n & ip & D2 & -> & Hdn & Hnone & Hbo). eapply wpx_mono; [by eapply wpi_create_end|]. intros w H' r' (-> & -> & D' & HD'). by eauto.
  - destruct HQ as (-> & T2 & Eb & El). by apply (wpi_fail cur pd SB fuel bswtch Hfuel G r D Hi R (-1) r2 a2 Hd2).
Qed.

(** C11: [create] on an absolute path, as [mkdir] and [mknod] use it, is one
    transaction.  Where the directory of the last name has no such name, the
    inode taken was free; it has the type and the device numbers asked for, one
    link and, for a directory, the entries "." and ".." and no other; the name
    stands for it, and its directory has a link more when it is a directory; no
    other name and no other file changes.  Where the name is there, or the path
    leads nowhere, nothing changes. *)
Theorem create_atomic path :
  hd 0 path = slash ->
  wpi [] r (bl (begin_op bswtch fuel);; v ← create fuel bswtch swtch junk path ty major minor; made_node fuel bswtch swtch v) (fun v H' r' =>
    match create_at path with
    | Some (dn, nm, None) => H' = [] /\ v = 0 /\ exists n D', created dn nm n r' D'
    | Some (dn, nm, Some n) => H' = [] /\ v = (if (ty =? T_FILE) && (d_type (D n) =? T_FILE) then 0 else -1) /\ untouched cur pd SB fuel bswtch r D R r'
    | None => H' = [] /\ v = -1 /\ untouched cur pd SB fuel bswtch r D R r'
    end).
Proof. apply wpi_create. Qed.
End create.

(** A directory in the root of the example. *)
Lemma create_atomic_witness :
  wp (bl (begin_op leave 1);; v ← create 1 leave leave (replicate 14 0) [47; 100] T_DIR 0 0; made_node 1 leave leave v) (fun v s' => v = 0 /\
    exists n D', d_type (D' n) = T_DIR /\ d_nlink (D' 1) = 2 /\ dlookup (file_of (x_rest s') D' 1) [100] = Some n /\
      dlookup (file_of (x_rest s') D' 1) [97] = Some 2 /\ dlookup (file_of (x_rest s') D' n) [46; 46] = Some 1)
    (ex_running (ex_ist 1 1)).
Proof.
  pose proof (create_atomic 0 7 ex_sb 1 leave leave (replicate 14 0) (Nat.lt_0_succ 0) ex_geom) as H.
  refine (wp_mono _ _ _ _ (H _ eq_refl (ex_ist 1 1) ex_inodes _ ex_tree_wf (refs (ex_icache 1 1)) {[1; 2]} _ _ _
    (ex_cached_any 1 1 _ _) _ _ _ _ 3 _ _ T_DIR 0 0 _ _ _ _ [47; 100] eq_refl (ex_running (ex_ist 1 1)) (ex_running_world _) eq_refl) _); clear H.
  - apply Nat.leb_le. vm_compute. reflexivity.
  - apply ex_fs_idle; lia.
  - intros m. rewrite ex_refs_any. destruct (1 =? m), (2 =? m); lia.
  - intros m. rewrite ex_refs_any. destruct (Z.eqb_spec 1 m), (Z.eqb_spec 2 m); intros; (lia || set_solver).
  - apply Nat.leb_le. vm_compute. reflexivity.
  - lia.
  - lia.
  - simpl. lia.
  - intros m _ _. unfold ex_inodes. destruct (m =? 1); [|destruct (m =? 2)]; simpl; lia.
  - intros d Hd. destruct (ex_linked d Hd) as [_ E]. change (contents (ex_ist 1 1)) with ex_blocks. rewrite E. vm_compute. discriminate.
  - apply Nat.ltb_lt. vm_compute. reflexivity.
  - split; [lia|]. vm_compute. reflexivity.
  - unfold live. vm_compute. auto.
  - unfold T_DIR. lia.
  - done.
  - lia.
  - lia.
  - intros v s' (H' & _ & HQ).
    assert (create_at (ex_ist 1 1) ex_inodes [47; 100] = Some (1, [100], None)) as E by (vm_compute; reflexivity).
    rewrite E in HQ. destruct HQ as (_ & -> & n & D' & Hcr). split; [reflexivity|]. exists n, D'.
    destruct Hcr as [_ _ _ [[Hn1 Hn2] _] Hnm _ [_ Hl] [Ht [_ [_ [_ Hby]]]] _]. rewrite Hl, Hby, !Hnm.
    split; [exact Ht|]. split; [reflexivity|]. split; [reflexivity|]. split; [vm_compute; reflexivity|].
    change (sb_ninodes ex_sb) with 7 in Hn2. assert (0 < n < 2 ^ 16) as Hn by lia. unfold first_dots. cbn [Z.eqb T_DIR Pos.eqb].
    assert (dlookup (linked [] (zs ".") n) (cname (zs "..")) = None) as Hno by (by rewrite (dlookup_linked ex_sb [] (dir_ok_nil ex_sb) (zs ".") n Hn)).
    by rewrite (dlookup_linked ex_sb _ (dir_ok_linked ex_sb [] (dir_ok_nil ex_sb) (zs ".") n Hn (conj Hn1 Hn2)) (zs "..") 1 ltac:(lia) _ Hno).
Defined.
