(* ===== verification/Xv6Cwd.v ===== *)
(** * A current directory that is removed (lab2/sysfile.c)

    [sys_unlink] lets a directory go that is some process's current directory:
    the inode stays while it is referred to, and so does its entry "..", which
    holds no link of the directory it names.  That one may then go as well, and
    its inode be freed; the next walk through ".." locks an inode with no type. *)

From S2P Require Import Prelude CMem JosPrintfmt Xv6Proc Xv6World Xv6Bio Xv6Log Xv6Inode Xv6Image Xv6Syscall Xv6Sysfile.
From stdpp Require Import base numbers option list gmap strings.
Open Scope Z_scope.

Notation junk14 := (replicate 14 0).

(** The system calls, after their arguments are read. *)
Definition mkdir (path : list Z) : MI Z :=
  bl (begin_op leave 1);; v ← create 1 leave leave junk14 path T_DIR 0 0; made_node 1 leave leave v.
Definition chdir (path : list Z) : MI Z := bl (begin_op leave 1);; chdir_path 1 leave leave junk14 path.
Definition unlink (path : list Z) : MI Z := unlink_path 1 leave leave junk14 path.

(** The example's image; the process that runs is in the root directory. *)
Definition in_root : xst ist :=
  let s := ex_running (ex_ist 1 1) in
  XSt (x_hw s) (<[0%nat := set_files (replicate NOFILE 0) 1 (set_pid 7 (set_state RUNNING proc0))]> (replicate NPROC proc0))
    8 (Some 0%nat) 0 0 false false [] (x_rest s).

(** Two directories, one in the other, removed from inside the inner one. *)
Definition removed_inside : MI (list Z) :=
  a ← mkdir (zs "/d"); b ← mkdir (zs "/d/e"); c ← chdir (zs "/d/e"); d ← unlink (zs "/d/e"); e ← unlink (zs "/d");
  mret [a; b; c; d; e].

Definition panic_of {A} (m : MI A) : option string := match m in_root with Panic msg _ => Some msg | _ => None end.

