(* ===== verification/Xv6Fsck.v ===== *)
(** * The consistency of the directory tree (lab2/sysfile.c)

    What a file-system checker looks for: every directory has "." and ".." in its
    first two entries and no name twice, names lead to inodes in use, an inode
    has as many links as entries other than "." name it, a directory has one name
    beside the dots and its ".." is the directory that name is in, and every
    inode with links can be reached from the root.  [unlink], [link] and [create]
    keep it; and it implies what they ask of the tree. *)

From S2P Require Import Prelude CMem JosPrintfmt Xv6Lock Xv6Proc Xv6World Xv6Bio Xv6Log Xv6Txn Xv6Inode Xv6Disk Xv6Iops Xv6Content Xv6Icache Xv6Dir Xv6Path Xv6Image Xv6Syscall Xv6Sysfile Xv6Tx Xv6Unlink Xv6Link Xv6Create.
From stdpp Require Import base numbers option list gmap sets fin_sets strings.
Open Scope Z_scope.

#[local] Opaque Nat.div Nat.modulo.

(** ** Entries *)

Notation dot := ([46] : list Z).
Notation dotdot := ([46; 46] : list Z).

(** Entry [k] of a directory is in use, with the name [nm] for inode [m]. *)
Definition at_ent (f : list Z) (k : nat) (nm : list Z) (m : Z) : Prop :=
  (k < nents f)%nat /\ de_inum (ent f k) = m /\ m <> 0 /\ cname (de_name (ent f k)) = nm.

Lemma has_name_at f nm k : (k < nents f)%nat -> has_name f nm k = true <-> at_ent f k nm (de_inum (ent f k)).
Proof.
  intros Hk. unfold has_name, at_ent. rewrite andb_true_iff, negb_true_iff, Z.eqb_neq, bool_decide_eq_true. tauto.
Qed.

Lemma at_ent_fun f k nm m nm' m' : at_ent f k nm m -> at_ent f k nm' m' -> nm = nm' /\ m = m'.
Proof. intros (_ & <- & _ & <-) (_ & <- & _ & <-). done. Qed.

Lemma at_ent_uniq f j k nm m m' : uniq_names f -> at_ent f j nm m -> at_ent f k nm m' -> j = k.
Proof.
  intros Hu H1 H2. pose proof H1 as (Hj & <- & _). pose proof H2 as (Hk & <- & _).
  apply (Hu nm); [done|done|by apply has_name_at|by apply has_name_at].
Qed.

Lemma slot_at f nm k : dslot_of f nm = Some k -> at_ent f k nm (de_inum (ent f k)).
Proof. intros [Hk ?]%dslot_of_lt. by apply has_name_at. Qed.

Lemma lookup_at f nm m : dlookup f nm = Some m -> exists k, at_ent f k nm m.
Proof. intros (k & Hk%slot_at & ->)%fmap_Some. by exists k. Qed.

Lemma at_none f k nm m : dlookup f nm = None -> ~ at_ent f k nm m.
Proof.
  intros E%fmap_None Hk. unfold dslot_of in E. rewrite dfind_none in E. pose proof Hk as (Hlt & <- & _).
  apply has_name_at in Hk; [|done]. rewrite E in Hk; [done|]. apply elem_of_seq. lia.
Qed.

Lemma at_lookup f k nm m : uniq_names f -> at_ent f k nm m -> dlookup f nm = Some m.
Proof.
  intros Hu Hk. destruct (dlookup f nm) as [m'|] eqn:E; [|by destruct (at_none f k nm m E)].
  destruct (lookup_at f nm m' E) as (j & Hj). pose proof (at_ent_uniq f j k nm m' m Hu Hj Hk) as ->. f_equal. by eapply at_ent_fun.
Qed.

Lemma at_erased f t k nm m : (t < nents f)%nat -> at_ent (erased f t) k nm m <-> k <> t /\ at_ent f k nm m.
Proof.
  intros Ht. unfold at_ent. rewrite nents_erased, ent_erased by done. destruct (decide (k = t)) as [->|Hne]; [|tauto].
  split; [|tauto]. intros (_ & <- & H & _). done.
Qed.

Lemma at_linked SB f name i k nm m :
  dir_ok SB f -> 0 < i < 2 ^ 16 ->
  at_ent (linked f name i) k nm m <-> (k = dfree f /\ nm = cname name /\ m = i) \/ at_ent f k nm m.
Proof.
  intros Hok Hi. unfold at_ent. rewrite (nents_linked SB), (ent_linked SB) by done. destruct (dfree_le f) as [Hle Hz].
  destruct (decide (k = dfree f)) as [->|Hne].
  - rewrite de_inum_mk by done. assert (cname (de_name (mk_dirent i name)) = cname name) as -> by exact (cname_strncpy DIRSIZ name). split.
    + intros (_ & <- & _ & <-). by left.
    + intros [(_ & -> & ->)|(Hk & E1 & E2 & _)]; [split_and!; [lia|done|lia|done]|]. rewrite Hz in E1 by done. lia.
  - split.
    + intros (Hk & H). right. split; [|done]. destruct (decide (k < nents f)%nat); [done|lia].
    + intros [[? _]|(Hk & H)]; [done|]. split; [lia|done].
Qed.

Lemma uniq_linked SB f name i : dir_ok SB f -> 0 < i < 2 ^ 16 -> uniq_names f -> dlookup f (cname name) = None -> uniq_names (linked f name i).
Proof.
  intros Hok Hi Hu Hno nm j k Hj Hk H1 H2. apply has_name_at in H1; [|done]. apply has_name_at in H2; [|done].
  apply (at_linked SB) in H1; [|done|done]. apply (at_linked SB) in H2; [|done|done].
  destruct H1 as [(-> & -> & _)|H1], H2 as [(-> & E & _)|H2]; [done|..].
  - by destruct (at_none f k _ _ Hno H2).
  - subst nm. by destruct (at_none f j _ _ Hno H1).
  - by eapply at_ent_uniq.
Qed.

Lemma empty_at f k nm m : dir_empty f = true -> at_ent f k nm m -> (k < 2)%nat.
Proof.
  intros He (Hk & Hm & Hm0 & _). destruct (decide (k < 2)%nat); [done|]. unfold dir_empty in He. rewrite forallb_forall in He.
  specialize (He k). rewrite <- Hm in Hm0. destruct Hm0. apply Z.eqb_eq, He, in_seq. lia.
Qed.

Lemma dots_dot : dots dot = true.
Proof. done. Qed.
Lemma dots_dotdot : dots dotdot = true.
Proof. done. Qed.
Lemma dots_true nm : dots nm = true -> nm = dot \/ nm = dotdot.
Proof. unfold dots. rewrite orb_true_iff, !bool_decide_eq_true. done. Qed.

(** ** The tree *)

Section fsck.
Context (SB : superblock).

Section state.
Context (C : gmap Z (list Z)) (D : Z -> dinode).
Notation F d := (fbytes C (D d)).

Definition edge (d : Z) (k : nat) (nm : list Z) (m : Z) : Prop := linked_dir SB D d /\ at_ent (F d) k nm m.

(** The entries, beside ".", that name [m]. *)
Definition named (m : Z) (S : gset (Z * nat)) : Prop := forall d k, (d, k) ∈ S <-> exists nm, edge d k nm m /\ nm <> dot.

Inductive reach : Z -> Prop :=
| reach_root : reach ROOTINO
| reach_edge d k nm m : reach d -> edge d k nm m -> dots nm = false -> reach m.

Record fsck : Prop := Fsck {
  fk_root : linked_dir SB D ROOTINO;
  fk_dir d : linked_dir SB D d -> dir_ok SB (F d) /\ uniq_names (F d);
  fk_live d k nm m : edge d k nm m -> live (D m);
  fk_links m : inum_ok SB m -> live (D m) -> exists S, named m S /\ d_nlink (D m) = Z.of_nat (size S);
  fk_dot d : linked_dir SB D d -> at_ent (F d) 0 dot d;
  fk_dotdot d : linked_dir SB D d -> exists p, at_ent (F d) 1 dotdot p /\
    (if decide (d = ROOTINO) then p = ROOTINO else exists k nm, edge p k nm d /\ dots nm = false);
  fk_one p k nm d : edge p k nm d -> dots nm = false -> d_type (D d) = T_DIR -> d <> ROOTINO /\
    forall p' k' nm', edge p' k' nm' d -> dots nm' = false -> p' = p /\ k' = k;
  fk_reach m : inum_ok SB m -> live (D m) -> d_nlink (D m) <> 0 -> reach m }.

Context (Hk : fsck).

Lemma linked_live d : linked_dir SB D d -> inum_ok SB d /\ live (D d).
Proof. intros (? & Ht & ?). split; [done|]. unfold live. by rewrite Ht. Qed.

Lemma edge_inum d k nm m : edge d k nm m -> inum_ok SB m.
Proof. intros [Hd (Hlt & <- & H0 & _)]. destruct (fk_dir Hk d Hd) as [[_ Hin] _]. by apply Hin. Qed.

Lemma edge_slot d nm m : linked_dir SB D d -> dlookup (F d) nm = Some m -> exists k, edge d k nm m.
Proof. intros Hd (k & Hat)%lookup_at. by exists k. Qed.

(** The dots are the first two entries. *)
Lemma edge_dot d k m : edge d k dot m -> k = 0%nat /\ m = d.
Proof.
  intros [Hd Hat]. pose proof (fk_dot Hk d Hd) as H0. destruct (fk_dir Hk d Hd) as [_ Hu].
  pose proof (at_ent_uniq _ _ _ _ _ _ Hu Hat H0) as ->. split; [done|]. by eapply at_ent_fun.
Qed.

Lemma edge_dotdot d k m : edge d k dotdot m -> k = 1%nat /\ at_ent (F d) 1 dotdot m.
Proof.
  intros [Hd Hat]. destruct (fk_dotdot Hk d Hd) as (p & H1 & _). destruct (fk_dir Hk d Hd) as [_ Hu].
  pose proof (at_ent_uniq _ _ _ _ _ _ Hu Hat H1) as ->. done.
Qed.

(** ".." of a directory is the one that names it. *)
Lemma parent_of p k nm d m :
  edge p k nm d -> dots nm = false -> linked_dir SB D d -> at_ent (F d) 1 dotdot m -> m = p.
Proof.
  intros He Hdots Hd Hat. pose proof Hd as (_ & Ht & _). destruct (fk_one Hk p k nm d He Hdots Ht) as [Hr Hone].
  destruct (fk_dotdot Hk d Hd) as (p' & Hat' & Hp). rewrite decide_False in Hp by done. destruct Hp as (k' & nm' & He' & Hd').
  destruct (Hone p' k' nm' He' Hd') as [<- _]. by eapply at_ent_fun.
Qed.

(** A directory other than the root is not named, by a name beside the dots, in
    itself. *)
Lemma no_self d k nm : reach d -> d_type (D d) = T_DIR -> edge d k nm d -> dots nm = false -> False.
Proof.
  intros Hr Ht He Hdots. induction Hr as [|p j nm' m Hr IH Hp Hdots'] in k, nm, Ht, He, Hdots |- *.
  - by destruct (fk_one Hk _ _ _ _ He Hdots Ht).
  - destruct (fk_one Hk _ _ _ _ He Hdots Ht) as [_ Hone]. destruct (Hone p j nm' Hp Hdots') as [-> ->]. by eapply IH.
Qed.

(** A linked directory has a name, or is the root and its own parent. *)
Lemma dir_named d : linked_dir SB D d -> exists p k nm, edge p k nm d /\ nm <> dot /\ (d <> ROOTINO -> dots nm = false) /\ (d = ROOTINO -> p = d /\ k = 1%nat).
Proof.
  intros Hd. destruct (fk_dotdot Hk d Hd) as (p & Hat & Hp). destruct (decide (d = ROOTINO)) as [E|Hne].
  - exists d, 1%nat, dotdot. subst p. rewrite E in *. done.
  - destruct Hp as (k & nm & He & Hdots). exists p, k, nm. split_and!; try done. by intros ->.
Qed.

(** Names count. *)
Lemma edge_nlink d k nm m : edge d k nm m -> 0 < d_nlink (D m).
Proof.
  intros He. destruct (fk_links Hk m (edge_inum _ _ _ _ He) (fk_live Hk _ _ _ _ He)) as (S & HS & ->).
  assert (exists x, x ∈ S) as [x Hx].
  { destruct (decide (nm = dot)) as [->|Hne]; [|exists (d, k); apply HS; by exists nm]. destruct (edge_dot _ _ _ He) as [-> ->].
    destruct (dir_named d (proj1 He)) as (p & j & nm & Hp & Hnm & _). exists (p, j). apply HS. by exists nm. }
  assert (size S <> 0)%nat; [|lia]. intros E%size_empty_inv. set_solver.
Qed.

Lemma edge_dir d k nm m : edge d k nm m -> d_type (D m) = T_DIR -> linked_dir SB D m.
Proof. intros He Ht. split; [by eapply edge_inum|]. split; [done|]. pose proof (edge_nlink _ _ _ _ He). lia. Qed.

(** The link of a subdirectory's ".." comes on top. *)
Lemma sub_nlink d k nm m : edge d k nm m -> dots nm = false -> d_type (D m) = T_DIR -> 1 < d_nlink (D d).
Proof.
  intros He Hdots Ht. pose proof (proj1 He) as Hd. destruct (linked_live d Hd) as [Hdi Hdl].
  destruct (fk_links Hk d Hdi Hdl) as (S & HS & ->). pose proof (edge_dir _ _ _ _ He Ht) as Hm.
  destruct (fk_one Hk _ _ _ _ He Hdots Ht) as [Hmr _]. destruct (fk_dotdot Hk m Hm) as (p & Hat & _).
  pose proof (parent_of _ _ _ _ _ He Hdots Hm Hat) as ->.
  destruct (dir_named d Hd) as (p & j & nm' & Hp & Hnm & Hnr & Hr).
  assert ({[(m, 1%nat); (p, j)]} ⊆ S) as Hsub%subseteq_size.
  { intros [x y] [E|E]%elem_of_union; apply elem_of_singleton in E; injection E as -> ->; apply HS; [by exists dotdot|by exists nm']. }
  rewrite size_union, !size_singleton in Hsub; [lia|]. apply disjoint_singleton_l, not_elem_of_singleton. intros [= <- <-].
  destruct (decide (d = ROOTINO)) as [E|E]; [by destruct (Hr E); subst|]. destruct (at_ent_fun _ _ _ _ _ _ Hat (proj2 Hp)) as [<- _].
  by specialize (Hnr E).
Qed.

(** The tree that the calls need. *)
Lemma fsck_tree_wf : tree_wf SB C D.
Proof.
  constructor; [| |intros m Hm Hl| |intros d nm Hd Hdots E|intros d nm m Hd Hdots E Ht].
  - intros n Hn Ht H0. assert (linked_dir SB D n) as Hd by done. destruct (fk_dir Hk n Hd) as [Hok _]. split; [done|].
    intros nm m (k & He)%edge_slot; [|done]. split; [by eapply fk_live|]. pose proof (edge_nlink _ _ _ _ He). lia.
  - apply Hk.
  - destruct (fk_links Hk m Hm Hl) as (S & _ & ->). lia.
  - intros d Hd. by apply fk_dir.
  - destruct (edge_slot _ _ _ Hd E) as (k & He). destruct (linked_live d Hd) as [Hdi Hdl]. pose proof Hd as (_ & Ht & H0).
    by apply (no_self d k nm (fk_reach Hk d Hdi Hdl H0)).
  - destruct (edge_slot _ _ _ Hd E) as (k & He). by eapply sub_nlink.
Qed.

(** A directory that is empty has one link and no names but the dots. *)
Lemma empty_edges d k nm m : dir_empty (F d) = true -> edge d k nm m -> dots nm = true.
Proof.
  intros He Hm. pose proof (empty_at _ _ _ _ He (proj2 Hm)). assert (k = 0 \/ k = 1)%nat as [->| ->] by lia.
  - destruct (at_ent_fun _ _ _ _ _ _ (fk_dot Hk d (proj1 Hm)) (proj2 Hm)) as [<- _]. done.
  - destruct (fk_dotdot Hk d (proj1 Hm)) as (p & Hat & _). destruct (at_ent_fun _ _ _ _ _ _ Hat (proj2 Hm)) as [<- _]. done.
Qed.

Lemma empty_named d p k nm S :
  edge p k nm d -> dots nm = false -> d_type (D d) = T_DIR -> dir_empty (F d) = true -> named d S -> S = {[(p, k)]}.
Proof.
  intros He Hdots Ht Hem HS. destruct (fk_one Hk _ _ _ _ He Hdots Ht) as [Hr Hone]. apply set_eq. intros [p' k'].
  rewrite elem_of_singleton. split.
  - intros (nm' & He' & Hne)%HS. destruct (dots nm') eqn:Hd'; [|by destruct (Hone p' k' nm' He' Hd') as [-> ->]].
    apply dots_true in Hd' as [->| ->]; [done|]. destruct (edge_dotdot _ _ _ He') as [-> Hat]. pose proof (proj1 He') as Hp'.
    destruct (fk_dotdot Hk p' Hp') as (q & Hat' & Hq). destruct (at_ent_fun _ _ _ _ _ _ Hat Hat') as [_ <-].
    destruct (decide (p' = ROOTINO)) as [->|]; [done|]. destruct Hq as (j & nm'' & Hj & Hd''). pose proof (empty_edges _ _ _ _ Hem Hj). congruence.
  - intros [= -> ->]. apply HS. exists nm. split; [done|]. by intros ->.
Qed.
End state.

(** ** A name less *)

Section removed.
Context (C C' : gmap Z (list Z)) (D D' : Z -> dinode) (Hk : fsck C D).
Notation F d := (fbytes C (D d)).
Notation F' d := (fbytes C' (D' d)).
Context (dn n : Z) (t : nat) (nm : list Z) (Hin : edge C D dn t nm n) (Hdots : dots nm = false)
  (Hemp : d_type (D n) = T_DIR -> dir_empty (F n) = true).
Context (Hb : F' dn = erased (F dn) t) (Ht : d_type (D' dn) = T_DIR)
  (Hl : d_nlink (D' dn) = d_nlink (D dn) - (if d_type (D n) =? T_DIR then 1 else 0)).
Context (Hn : (d_nlink (D n) = 1 /\ ~ live (D' n)) \/ (D' n = set_dnlink (d_nlink (D n) - 1) (D n) /\ F' n = F n)).
Context (Ho : forall j, j ∉ [dn; n] -> D' j = D j /\ (inum_ok SB j -> live (D j) -> F' j = F j)).

Lemma rm_ne : n <> dn.
Proof.
  intros E. pose proof (proj1 Hin) as Hd. destruct (linked_live D dn Hd) as [Hdi Hdl]. pose proof Hd as (_ & Hty & H0).
  revert Hin. rewrite E. intros He. by apply (no_self C D Hk dn t nm (fk_reach _ _ Hk dn Hdi Hdl H0)).
Qed.

Lemma rm_one : d_type (D n) = T_DIR -> d_nlink (D n) = 1.
Proof.
  intros Hty. destruct (fk_links _ _ Hk n (edge_inum _ _ Hk _ _ _ _ Hin) (fk_live _ _ Hk _ _ _ _ Hin)) as (S & HS & ->).
  rewrite (empty_named C D Hk n dn t nm S Hin Hdots Hty (Hemp Hty) HS). by rewrite size_singleton.
Qed.

Lemma rm_linked d : linked_dir SB D' d <-> linked_dir SB D d /\ d <> n.
Proof.
  unfold linked_dir. destruct (decide (d = n)) as [->|Hne].
  - split; [|by intros [_ ?]]. intros (_ & Hty & H0). destruct Hn as [[_ []]|[E _]]; [unfold live; by rewrite Hty|].
    rewrite E in Hty, H0. cbn in Hty, H0. pose proof (rm_one Hty). lia.
  - destruct (decide (d = dn)) as [->|Hnd].
    + pose proof (proj1 Hin) as (H1 & H2 & H3). split; [done|]. intros _. split_and!; [done|done|]. rewrite Hl.
      destruct (Z.eqb_spec (d_type (D n)) T_DIR) as [E|_]; [|lia]. pose proof (sub_nlink C D Hk _ _ _ _ Hin Hdots E). lia.
    + destruct (Ho d) as [-> _]; [set_solver|]. tauto.
Qed.

Lemma rm_edge d k nm' m : edge C' D' d k nm' m <-> edge C D d k nm' m /\ d <> n /\ (d, k) <> (dn, t).
Proof.
  unfold edge. rewrite rm_linked. destruct (decide (d = n)) as [->|Hne]; [tauto|]. destruct (decide (d = dn)) as [->|Hnd].
  - rewrite Hb, at_erased by apply Hin. split; [|intros ([H1 H2] & _ & H4); split_and!; try done; congruence].
    intros ([H1 _] & H2 & H3). split_and!; try done. congruence.
  - split.
    + intros [[H1 _] H2]. destruct (Ho d) as [_ E]; [set_solver|]. destruct (linked_live D d H1). rewrite E in H2 by done. split_and!; try done. congruence.
    + intros ([H1 H2] & _). destruct (Ho d) as [_ E]; [set_solver|]. destruct (linked_live D d H1). by rewrite E.
Qed.

(** The entries of the removed directory name it and its parent. *)
Lemma rm_own k nm' m : edge C D n k nm' m -> nm' <> dot -> d_type (D n) = T_DIR /\ k = 1%nat /\ m = dn.
Proof.
  intros He Hnd. pose proof (proj1 He) as Hd. pose proof Hd as (_ & Hty & _). split; [done|].
  pose proof (empty_edges C D Hk _ _ _ _ (Hemp Hty) He) as Hdt. apply dots_true in Hdt as [->| ->]; [done|].
  destruct (edge_dotdot C D Hk _ _ _ He) as [-> Hat]. split; [done|]. by apply (parent_of C D Hk dn t nm n m).
Qed.

(** The entries for [m] that are lost. *)
Definition rm_lost (m : Z) : gset (Z * nat) :=
  if decide (m = n) then {[(dn, t)]} else if decide (m = dn /\ d_type (D n) = T_DIR) then {[(n, 1%nat)]} else ∅.

Lemma rm_lost_spec m S d k : named C D m S -> (d, k) ∈ rm_lost m <-> (d, k) ∈ S /\ (d = n \/ (d, k) = (dn, t)).
Proof.
  intros HS. pose proof rm_ne as Hne. pose proof (edge_dir C D Hk _ _ _ _ Hin) as Hnd.
  assert ((dn, t) ∈ S <-> m = n) as Hdt.
  { split; [intros (nm' & He & _)%HS; symmetry; by eapply at_ent_fun; [apply Hin|apply He]|].
    intros ->. apply HS. exists nm. split; [done|]. by intros ->. }
  assert (forall k, (n, k) ∈ S <-> k = 1%nat /\ m = dn /\ d_type (D n) = T_DIR) as Hnk.
  { intros j. split.
    - intros (nm' & He & Hnm)%HS. by destruct (rm_own j nm' m He Hnm) as (? & ? & ?).
    - intros (-> & -> & Hty). apply HS. exists dotdot. split; [|done]. destruct (fk_dotdot _ _ Hk n (Hnd Hty)) as (p & Hat & _).
      pose proof (parent_of C D Hk _ _ _ _ _ Hin Hdots (Hnd Hty) Hat) as ->. split; [by apply Hnd|done]. }
  unfold rm_lost. destruct (decide (m = n)) as [->|Hmn]; [|destruct (decide (m = dn /\ _)) as [Hmd|Hmd]].
  - rewrite elem_of_singleton. split; [intros [= -> ->]; split; [by apply Hdt|by right]|]. intros [HdS [->|E]]; [|done]. by apply Hnk in HdS as (_ & ? & _).
  - rewrite elem_of_singleton. split; [intros [= -> ->]; split; [by apply Hnk|by left]|]. intros [HdS [->|E]]; [by apply Hnk in HdS as (-> & _)|].
    rewrite E in HdS. by apply Hdt in HdS.
  - split; [set_solver|]. intros [HdS [->|E]]; [by apply Hnk in HdS as (_ & ?)|]. rewrite E in HdS. by apply Hdt in HdS.
Qed.

Lemma rm_named m S : named C D m S -> named C' D' m (S ∖ rm_lost m) /\ Z.of_nat (size (S ∖ rm_lost m)) = Z.of_nat (size S) - Z.of_nat (size (rm_lost m)).
Proof.
  intros HS. split.
  - intros d k. rewrite elem_of_difference, (rm_lost_spec m S) by done. split.
    + intros [HdS Hno]. pose proof HdS as (nm' & He & Hnm)%HS. exists nm'. split; [|done]. apply rm_edge. tauto.
    + intros (nm' & (He & H1 & H2)%rm_edge & Hnm). assert ((d, k) ∈ S) by (apply HS; by exists nm'). tauto.
  - assert (rm_lost m ⊆ S) as Hsub by (intros [d k] Hdk; by apply (rm_lost_spec m S) in Hdk as [? _]).
    rewrite size_difference by done. pose proof (subseteq_size _ _ Hsub). lia.
Qed.

Lemma rm_nlink m : live (D' m) -> live (D m) /\ d_nlink (D' m) = d_nlink (D m) - Z.of_nat (size (rm_lost m)) /\ d_type (D' m) = d_type (D m).
Proof.
  intros Hm. pose proof rm_ne. unfold rm_lost. destruct (decide (m = n)) as [->|Hmn].
  - rewrite size_singleton. destruct Hn as [[_ ?]|[E _]]; [done|]. unfold live in *. rewrite E in *. done.
  - destruct (decide (m = dn)) as [->|Hmd].
    + pose proof (proj1 Hin) as (_ & Hty & _). rewrite Ht, Hl. split; [unfold live; by rewrite Hty|]. split; [|done].
      destruct (Z.eqb_spec (d_type (D n)) T_DIR); [rewrite decide_True by done; by rewrite size_singleton|].
      rewrite decide_False by tauto. by rewrite size_empty.
    + rewrite decide_False by tauto. rewrite size_empty, Z.sub_0_r. destruct (Ho m) as [E _]; [set_solver|]. rewrite E in *. done.
Qed.

Lemma rm_live d k nm' m : edge C' D' d k nm' m -> live (D' m).
Proof.
  intros (He & H1 & H2)%rm_edge. pose proof (fk_live _ _ Hk _ _ _ _ He) as Hlv. destruct (decide (m = n)) as [->|Hmn].
  - destruct Hn as [[E1 _]|[E _]]; [|unfold live; by rewrite E]. exfalso.
    destruct (fk_links _ _ Hk n (edge_inum _ _ Hk _ _ _ _ He) Hlv) as (S & HS & ES).
    assert (nm' <> dot) as Hnm by (intros ->; by destruct (edge_dot C D Hk _ _ _ He)).
    assert ({[(dn, t); (d, k)]} ⊆ S) as Hsub%subseteq_size.
    { intros [x y] [E|E]%elem_of_union; apply elem_of_singleton in E; injection E as -> ->; apply HS; [exists nm|by exists nm'].
      split; [done|]. by intros ->. }
    rewrite size_union, !size_singleton in Hsub; [lia|]. apply disjoint_singleton_l, not_elem_of_singleton. congruence.
  - destruct (decide (m = dn)) as [->|Hmd]; [unfold live; by rewrite Ht|]. destruct (Ho m) as [-> _]; [set_solver|done].
Qed.

Lemma rm_reach m : reach C D m -> m <> n -> reach C' D' m.
Proof.
  intros Hr. induction Hr as [|d k nm' m Hr IH He Hd']; intros Hm; [constructor|].
  assert (d <> n) as Hdn.
  { intros ->. destruct (rm_own k nm' m He) as (Hty & _); [by intros ->|]. pose proof (empty_edges C D Hk _ _ _ _ (Hemp Hty) He). congruence. }
  apply (reach_edge _ _ d k nm' m); [by apply IH| |done]. apply rm_edge. split_and!; [done|done|]. intros [= -> ->]. apply Hm.
  by eapply at_ent_fun; [apply He|apply Hin].
Qed.

(** The file that has lost a name has another one, if it has a link left. *)
Lemma rm_reach_n : live (D' n) -> d_nlink (D' n) <> 0 -> reach C' D' n.
Proof.
  intros Hlv H0. destruct (rm_nlink n Hlv) as (Hlv0 & El & _).
  assert (d_type (D n) <> T_DIR) as Hty.
  { intros E. pose proof (rm_one E). unfold rm_lost in El. rewrite decide_True, size_singleton in El by done. lia. }
  destruct (fk_links _ _ Hk n (edge_inum _ _ Hk _ _ _ _ Hin) Hlv0) as (S & HS & ES). destruct (rm_named n S HS) as [HS' Esz].
  assert (exists x, x ∈ S ∖ rm_lost n) as [[d k] Hx].
  { apply set_choose_L. intros E. rewrite E in Esz. change (size (∅ : gset (Z * nat))) with 0%nat in Esz. lia. }
  apply HS' in Hx as (nm' & He' & Hnm). pose proof He' as (He & Hdn & _)%rm_edge.
  assert (dots nm' = false) as Hd'.
  { apply not_true_is_false. intros [->| ->]%dots_true; [done|]. destruct (edge_dotdot C D Hk _ _ _ He) as [-> Hat].
    destruct (fk_dotdot _ _ Hk d (proj1 He)) as (p & Hat' & Hp). destruct (at_ent_fun _ _ _ _ _ _ Hat Hat') as [_ <-].
    destruct (decide (d = ROOTINO)) as [->|]; [destruct Hp; by destruct (fk_root _ _ Hk) as (_ & ? & _)|].
    destruct Hp as (j & nm2 & [(_ & ? & _) _] & _). done. }
  destruct (linked_live D d (proj1 He)) as [Hdi Hdl]. pose proof (proj1 He) as (_ & _ & Hd0).
  apply (reach_edge _ _ d k nm' n); [|done|done]. apply rm_reach; [|done]. by apply (fk_reach _ _ Hk).
Qed.

Lemma fsck_removed : fsck C' D'.
Proof.
  pose proof rm_ne as Hne. assert (forall d k nm' m, edge C D d k nm' m -> d <> n -> m <> n -> edge C' D' d k nm' m) as Hkeep.
  { intros d k nm' m He H1 H2. apply rm_edge. split_and!; [done|done|]. intros [= -> ->]. apply H2. by eapply at_ent_fun; [apply He|apply Hin]. }
  assert (forall d, linked_dir SB D' d -> linked_dir SB D d /\ d <> n) as Hld by (intros d; apply rm_linked).
  constructor.
  - apply rm_linked. split; [apply Hk|]. intros E. pose proof (fk_root _ _ Hk) as (_ & Hty & _).
    destruct (fk_one _ _ Hk _ _ _ _ Hin Hdots) as [? _]; [by rewrite <- E|done].
  - intros d [Hd Hdn]%Hld. destruct (fk_dir _ _ Hk d Hd) as [H1 H2]. destruct (decide (d = dn)) as [->|Hnd].
    + rewrite Hb. split; [apply dir_ok_erased|apply uniq_erased]; done || apply Hin.
    + destruct (Ho d) as [_ E]; [set_solver|]. destruct (linked_live D d Hd). by rewrite E.
  - apply rm_live.
  - intros m Hm Hlv. destruct (rm_nlink m Hlv) as (Hlv0 & -> & _). destruct (fk_links _ _ Hk m Hm Hlv0) as (S & HS & ->).
    destruct (rm_named m S HS) as [HS' E]. exists (S ∖ rm_lost m). by rewrite E.
  - intros d Hd'. pose proof Hd' as [Hd Hdn]%Hld. apply (Hkeep d 0%nat dot d); [|done|done]. split; [done|]. by apply (fk_dot _ _ Hk).
  - intros d Hd'. pose proof Hd' as [Hd Hdn]%Hld. destruct (fk_dotdot _ _ Hk d Hd) as (p & Hat & Hp). exists p. assert (p <> n) as Hpn.
    { intros ->. destruct (decide (d = ROOTINO)) as [->|]; [done|]. destruct Hp as (k & nm' & He & Hd2).
      destruct (rm_own k nm' d He) as (Hty & _); [by intros ->|]. pose proof (empty_edges C D Hk _ _ _ _ (Hemp Hty) He). congruence. }
    split; [by apply (Hkeep d 1%nat dotdot p)|]. destruct (decide _); [done|]. destruct Hp as (k & nm' & He & Hd2). exists k, nm'. split; [by apply Hkeep|done].
  - intros p k nm' d He' Hd' Hty. destruct (rm_nlink d (rm_live _ _ _ _ He')) as (_ & _ & E). rewrite E in Hty.
    pose proof He' as (He & _)%rm_edge. destruct (fk_one _ _ Hk _ _ _ _ He Hd' Hty) as [H1 H2]. split; [done|].
    intros p' k' nm2 (He2 & _)%rm_edge. by apply H2.
  - intros m Hm Hlv H0. destruct (decide (m = n)) as [->|Hmn]; [by apply rm_reach_n|]. apply rm_reach; [|done].
    destruct (rm_nlink m Hlv) as (Hlv0 & E & _). apply (fk_reach _ _ Hk m Hm Hlv0).
    destruct (fk_links _ _ Hk m Hm Hlv0) as (S & HS & ES). destruct (rm_named m S HS) as [_ E']. intros E0.
    rewrite ES in E, E0. lia.
Qed.
End removed.

(** ** A name more *)

(** The name [nm] for [n] is added in [dn]; where [b] holds, [n] is a directory
    that was not there before. *)
Section grown.
Context (C C' : gmap Z (list Z)) (D D' : Z -> dinode) (Hk : fsck C D).
Context (dn n : Z) (k0 : nat) (nm : list Z) (b : bool) (Hdn : linked_dir SB D dn) (Hdots : dots nm = false) (Hne : n <> dn).

Definition dots_of (d : Z) (k : nat) (nm' : list Z) (m : Z) : Prop :=
  b = true /\ d = n /\ (k = 0%nat /\ nm' = dot /\ m = n \/ k = 1%nat /\ nm' = dotdot /\ m = dn).
Definition gained (m : Z) : gset (Z * nat) :=
  if decide (m = n) then {[(dn, k0)]} else if decide (m = dn /\ b = true) then {[(n, 1%nat)]} else ∅.

Context (Hlk : forall d, linked_dir SB D' d <-> linked_dir SB D d \/ b = true /\ d = n)
  (Hed : forall d k nm' m, edge C' D' d k nm' m <->
     edge C D d k nm' m \/ (d = dn /\ k = k0 /\ nm' = nm /\ m = n) \/ dots_of d k nm' m)
  (Hfresh : forall nm' m, ~ edge C D dn k0 nm' m) (Hnew : b = true -> ~ live (D n)) (Hn : live (D' n) /\ (d_type (D' n) = T_DIR -> b = true))
  (Hty : forall m, live (D m) -> d_type (D' m) = d_type (D m))
  (Hdir : forall d, linked_dir SB D' d -> dir_ok SB (fbytes C' (D' d)) /\ uniq_names (fbytes C' (D' d)))
  (Hlinks : forall m, inum_ok SB m -> live (D' m) -> exists S, named C D m S /\ d_nlink (D' m) = Z.of_nat (size S) + Z.of_nat (size (gained m)))
  (Hold : forall m, inum_ok SB m -> live (D' m) -> d_nlink (D' m) <> 0 -> m <> n -> live (D m) /\ d_nlink (D m) <> 0).

Lemma gr_not_linked : b = true -> ~ linked_dir SB D n.
Proof. intros Hb Hd. apply (Hnew Hb). by apply linked_live. Qed.

Lemma gr_named m S : named C D m S -> named C' D' m (S ∪ gained m) /\ size (S ∪ gained m) = (size S + size (gained m))%nat.
Proof.
  intros HS. assert (forall d k, (d, k) ∈ gained m <-> d = dn /\ k = k0 /\ m = n \/ b = true /\ d = n /\ k = 1%nat /\ m = dn) as Hgn.
  { intros d k. unfold gained. destruct (decide (m = n)) as [->|Hmn]; [|destruct (decide _) as [[-> Hb]|Hmd]].
    - rewrite elem_of_singleton. split; [intros [= -> ->]; by left|]. intros [(-> & -> & _)|(_ & _ & _ & ?)]; done.
    - rewrite elem_of_singleton. split; [intros [= -> ->]; by right|]. intros [(_ & _ & ?)|(_ & -> & -> & _)]; done.
    - split; [intros []%elem_of_empty|]. intros [(_ & _ & ?)|(? & _ & _ & ?)]; tauto. }
  split.
  - intros d k. rewrite elem_of_union, Hgn. split.
    + intros [(nm' & He & Hnm)%HS|[(-> & -> & ->)|(Hb & -> & -> & ->)]].
      * exists nm'. split; [apply Hed; by left|done].
      * exists nm. split; [apply Hed; right; by left|]. by intros ->.
      * exists dotdot. split; [|done]. apply Hed. do 2 right. split_and!; try done. by right.
    + intros (nm' & He & Hnm). apply Hed in He as [He|[(-> & -> & -> & ->)|(Hb & -> & [(-> & -> & _)|(-> & _ & ->)])]]; [|tauto|done|tauto].
      left. apply HS. by exists nm'.
  - apply size_union. intros [d k] HdS [(-> & -> & ->)|(Hb & -> & _ & _)]%Hgn; apply HS in HdS as (nm' & He & _).
    + by apply (Hfresh nm' n).
    + by apply (gr_not_linked Hb), He.
Qed.

Lemma gr_reach m : reach C D m -> reach C' D' m.
Proof.
  intros Hr. induction Hr as [|d k nm' m Hr IH He Hd']; [constructor|]. apply (reach_edge _ _ d k nm' m); [done| |done]. apply Hed. by left.
Qed.

Lemma fsck_grown : fsck C' D'.
Proof.
  assert (edge C' D' dn k0 nm n) as Hnew' by (apply Hed; right; by left).
  assert (reach C' D' n) as Hrn.
  { apply (reach_edge _ _ dn k0 nm n); [|done|done]. apply gr_reach. destruct (linked_live D dn Hdn). apply (fk_reach _ _ Hk); [done|done|apply Hdn]. }
  constructor.
  - apply Hlk. left. apply Hk.
  - exact Hdir.
  - intros d k nm' m [He|[(_ & _ & _ & ->)|(_ & _ & [(_ & _ & ->)|(_ & _ & ->)])]]%Hed; try apply Hn.
    + pose proof (fk_live _ _ Hk _ _ _ _ He) as Hm. unfold live in *. by rewrite Hty.
    + unfold live. rewrite Hty by (by apply linked_live). by destruct (linked_live D dn Hdn).
  - intros m Hm Hlv. destruct (Hlinks m Hm Hlv) as (S & HS & ->). destruct (gr_named m S HS) as [HS' E]. exists (S ∪ gained m).
    split; [done|]. rewrite E. lia.
  - intros d [Hd|[Hb ->]]%Hlk; [apply (Hed d 0%nat dot d)|apply (Hed n 0%nat dot n)].
    + left. split; [done|]. by apply (fk_dot _ _ Hk).
    + do 2 right. split_and!; try done. by left.
  - intros d Hd. pose proof Hd as [Hd0|[Hb ->]]%Hlk.
    + destruct (fk_dotdot _ _ Hk d Hd0) as (p & Hat & Hp). exists p. split.
      * apply (Hed d 1%nat dotdot p). by left.
      * destruct (decide _); [done|]. destruct Hp as (k & nm' & He & Hd'). exists k, nm'. split; [apply Hed; by left|done].
    + exists dn. split; [apply (Hed n 1%nat dotdot dn); do 2 right; split_and!; try done; by right|]. rewrite decide_False; [by exists k0, nm|].
      intros E. apply (gr_not_linked Hb). rewrite E. apply Hk.
  - intros p k nm' d He Hd' Ht. assert (d <> n -> edge C D p k nm' d) as Hek.
    { intros Hdn'. apply Hed in He as [He|[(_ & _ & _ & ->)|(_ & _ & [(_ & -> & _)|(_ & -> & _)])]]; done. }
    destruct (decide (d = n)) as [->|Hdn'].
    + pose proof (proj2 Hn Ht) as Hb. assert (forall p' k' nm2, edge C' D' p' k' nm2 n -> dots nm2 = false -> p' = dn /\ k' = k0) as Hone.
      { intros p' k' nm2 [He2|[(-> & -> & _)|(_ & _ & [(_ & -> & _)|(_ & -> & _)])]]%Hed; try done.
        destruct (Hnew Hb). exact (fk_live _ _ Hk _ _ _ _ He2). }
      destruct (Hone p k nm' He Hd') as [-> ->]. split; [|intros p' k' nm2; apply Hone]. intros E. apply (gr_not_linked Hb). rewrite E. apply Hk.
    + specialize (Hek Hdn'). rewrite Hty in Ht by (by eapply (fk_live _ _ Hk)). destruct (fk_one _ _ Hk _ _ _ _ Hek Hd' Ht) as [H1 H2]. split; [done|].
      intros p' k' nm2 [He2|[(_ & _ & _ & ->)|(_ & _ & [(_ & -> & _)|(_ & -> & _)])]]%Hed; try done. by apply H2.
  - intros m Hm Hlv H0. destruct (decide (m = n)) as [->|Hmn]; [done|]. destruct (Hold m Hm Hlv H0 Hmn). by apply gr_reach, (fk_reach _ _ Hk).
Qed.
End grown.

(** The entries of a new directory. *)
Section dots.
Context (dn n : Z) (Hn16 : 0 < n < 2 ^ 16) (Hni : inum_ok SB n) (Hd16 : 0 < dn < 2 ^ 16) (Hdi : inum_ok SB dn).
Notation one := (linked [] (zs ".") n).

Lemma dot_ok : dir_ok SB one.
Proof. apply dir_ok_linked; [apply dir_ok_nil|done|done]. Qed.

Lemma dot_none : dlookup one (cname (zs "..")) = None.
Proof. by rewrite (dlookup_linked SB [] (dir_ok_nil SB) (zs ".") n). Qed.

Lemma dot_free : dfree one = 1%nat.
Proof.
  unfold dfree. rewrite (nents_linked SB) by apply dir_ok_nil. change (Nat.max (nents []) (S (dfree []))) with 1%nat. cbn [seq dfind].
  rewrite (ent_linked SB) by apply dir_ok_nil. rewrite decide_True by done. rewrite de_inum_mk by done. destruct (Z.eqb_spec n 0); [lia|done].
Qed.

Lemma at_dots k nm m :
  at_ent (linked one (zs "..") dn) k nm m <-> k = 0%nat /\ nm = dot /\ m = n \/ k = 1%nat /\ nm = dotdot /\ m = dn.
Proof.
  rewrite (at_linked SB) by (done || apply dot_ok). rewrite dot_free, (at_linked SB) by (done || apply dir_ok_nil).
  change (dfree []) with 0%nat. change (cname (zs ".")) with dot. change (cname (zs "..")) with dotdot. split; [|tauto].
  intros [?|[?|(Hlt & _)]]; [tauto|tauto|]. change (nents []) with 0%nat in Hlt. lia.
Qed.

Lemma dots_ok : dir_ok SB (linked one (zs "..") dn) /\ uniq_names (linked one (zs "..") dn).
Proof.
  split; [by apply dir_ok_linked; [apply dot_ok|..]|]. apply (uniq_linked SB); [apply dot_ok|done| |apply dot_none].
  apply (uniq_linked SB); [apply dir_ok_nil|done| |done]. intros nm j k Hj. change (nents []) with 0%nat in Hj. lia.
Qed.
End dots.

Section name.
Context (C C' : gmap Z (list Z)) (D D' : Z -> dinode) (Hk : fsck C D).
Notation F d := (fbytes C (D d)).
Notation F' d := (fbytes C' (D' d)).
Context (dn n : Z) (name : list Z) (Hdn : linked_dir SB D dn) (Hn16 : 0 < n < 2 ^ 16) (Hni : inum_ok SB n)
  (Hno : dlookup (F dn) (cname name) = None).
Context (Hb : F' dn = linked (F dn) name n) (Ht : d_type (D' dn) = T_DIR).
Context (Ho : forall j, j ∉ [dn; n] -> D' j = D j /\ (inum_ok SB j -> live (D j) -> F' j = F j)).

(** A name that is not there is not one of the dots. *)
Lemma nm_dots : dots (cname name) = false.
Proof.
  apply not_true_is_false. intros [E|E]%dots_true; rewrite E in Hno.
  - exact (at_none _ _ _ _ Hno (fk_dot _ _ Hk dn Hdn)).
  - destruct (fk_dotdot _ _ Hk dn Hdn) as (p & Hat & _). exact (at_none _ _ _ _ Hno Hat).
Qed.

Lemma nm_fresh nm m : ~ edge C D dn (dfree (F dn)) nm m.
Proof. intros [_ (Hlt & E1 & E2 & _)]. destruct (dfree_le (F dn)) as [_ Hz]. rewrite Hz in E1 by done. congruence. Qed.

Lemma nm_at d k nm m :
  linked_dir SB D d -> d <> n -> at_ent (F' d) k nm m <-> at_ent (F d) k nm m \/ (d = dn /\ k = dfree (F dn) /\ nm = cname name /\ m = n).
Proof.
  intros Hd Hdn'. destruct (decide (d = dn)) as [->|Hne].
  - destruct (fk_dir _ _ Hk dn Hdn) as [Hok _]. rewrite Hb, (at_linked SB) by done. tauto.
  - destruct (Ho d) as [_ E]; [set_solver|]. destruct (linked_live D d Hd). rewrite E by done. tauto.
Qed.

Lemma nm_dir d : linked_dir SB D d -> d <> n -> dir_ok SB (F' d) /\ uniq_names (F' d).
Proof.
  intros Hd Hdn'. destruct (fk_dir _ _ Hk d Hd) as [H1 H2]. destruct (decide (d = dn)) as [->|Hne].
  - rewrite Hb. split; [by apply dir_ok_linked|by apply (uniq_linked SB)].
  - destruct (Ho d) as [_ E]; [set_solver|]. destruct (linked_live D d Hd). by rewrite E.
Qed.

(** A second name for a file. *)
Lemma fsck_added :
  live (D n) -> d_type (D n) <> T_DIR -> d_nlink (D' dn) = d_nlink (D dn) ->
  D' n = set_dnlink (d_nlink (D n) + 1) (D n) -> fsck C' D'.
Proof.
  intros Hlv Hnd Hl Hn. assert (n <> dn) as Hne by (intros E; apply Hnd; rewrite E; apply Hdn).
  assert (forall m, m <> n -> d_type (D' m) = d_type (D m) /\ d_nlink (D' m) = d_nlink (D m)) as Hoth.
  { intros m Hm. destruct (decide (m = dn)) as [->|Hmd]; [split; [rewrite Ht; symmetry; apply Hdn|done]|]. by destruct (Ho m) as [-> _]; [set_solver|]. }
  assert (forall m, d_type (D' m) = d_type (D m)) as Hty.
  { intros m. destruct (decide (m = n)) as [->|Hm]; [by rewrite Hn|by apply Hoth]. }
  assert (forall d, linked_dir SB D' d <-> linked_dir SB D d) as Hlk.
  { intros d. unfold linked_dir. rewrite Hty. destruct (decide (d = n)) as [->|Hd]; [tauto|]. destruct (Hoth d Hd) as [_ ->]. done. }
  assert (forall d, linked_dir SB D d -> d <> n) as Hdn' by (intros d (_ & ? & _) ->; done).
  apply (fsck_grown C C' D D' Hk dn n (dfree (F dn)) (cname name) false Hdn nm_dots Hne).
  - intros d. rewrite Hlk. naive_solver.
  - intros d k nm m. unfold edge, dots_of. rewrite Hlk. split.
    + intros [Hd Hat]. apply nm_at in Hat; [|done|by apply Hdn']. tauto.
    + intros [[Hd Hat]|[(-> & -> & -> & ->)|[? _]]]; [| |done]; (split; [done|]); apply nm_at; auto.
  - apply nm_fresh.
  - done.
  - split; [unfold live; by rewrite Hty|]. rewrite Hty. done.
  - intros m _. apply Hty.
  - intros d Hd%Hlk. apply nm_dir; auto.
  - intros m Hm Hlm. assert (live (D m)) as Hlm' by (unfold live in *; by rewrite <- Hty). destruct (fk_links _ _ Hk m Hm Hlm') as (S & HS & E).
    exists S. split; [done|]. unfold gained. destruct (decide (m = n)) as [->|Hmn]; [rewrite Hn, size_singleton; cbn; lia|].
    rewrite decide_False by (by intros [_ ?]). destruct (Hoth m Hmn) as [_ ->]. rewrite size_empty. lia.
  - intros m Hm Hlm H0 Hmn. destruct (Hoth m Hmn) as [E1 E2]. unfold live in *. by rewrite <- E1, <- E2.
Qed.

(** A new node. *)
Lemma fsck_created ty :
  0 < dn < 2 ^ 16 -> ~ live (D n) -> ty <> 0 -> d_nlink (D' dn) = d_nlink (D dn) + one_if_dir ty ->
  d_type (D' n) = ty -> d_nlink (D' n) = 1 -> F' n = first_dots ty dn n -> fsck C' D'.
Proof.
  intros Hd16 Hnl Hty0 Hl Hnt Hn1 Hnb. destruct (linked_live D dn Hdn) as [Hdi Hdl].
  assert (n <> dn) as Hne by (intros E; apply Hnl; by rewrite E). assert (forall d, linked_dir SB D d -> d <> n) as Hdn'.
  { intros d Hd ->. by apply Hnl, linked_live. }
  assert (forall m, live (D m) -> d_type (D' m) = d_type (D m)) as Hty.
  { intros m Hm. destruct (decide (m = n)) as [->|Hmn]; [done|]. destruct (decide (m = dn)) as [->|Hmd]; [rewrite Ht; symmetry; apply Hdn|].
    by destruct (Ho m) as [-> _]; [set_solver|]. }
  assert (live (D' n)) as Hln by (unfold live; by rewrite Hnt).
  assert (0 <= d_nlink (D dn)) as Hpos by (by destruct (fk_links _ _ Hk dn Hdi Hdl) as (S & _ & ->); lia).
  pose proof Hdn as (_ & _ & Hd0). unfold first_dots in Hnb. unfold one_if_dir in Hl.
  assert (forall m, m <> n -> m <> dn -> D' m = D m) as Hoth by (intros m H1 H2; by destruct (Ho m) as [-> _]; [set_solver|]).
  assert (forall d, d <> n -> linked_dir SB D' d <-> linked_dir SB D d) as Hlk.
  { intros d Hd. destruct (decide (d = dn)) as [->|Hnd]; [|unfold linked_dir; by rewrite Hoth]. split; [done|]. intros _.
    split_and!; [done|done|]. rewrite Hl. destruct (_ =? _); lia. }
  apply (fsck_grown C C' D D' Hk dn n (dfree (F dn)) (cname name) (ty =? T_DIR) Hdn nm_dots Hne).
  - intros d. destruct (decide (d = n)) as [->|Hd]; [|rewrite Hlk by done; tauto]. split.
    + intros (_ & E & _). right. rewrite <- Hnt, E. done.
    + intros [Hd|[E _]]; [by destruct (Hdn' _ Hd)|]. split_and!; [done|rewrite Hnt; lia|lia].
  - intros d k nm m. unfold edge, dots_of. destruct (decide (d = n)) as [->|Hd].
    + destruct (Z.eqb_spec ty T_DIR) as [E|E].
      * rewrite Hnb, at_dots by done. split; [intros [_ H]; by do 2 right|]. intros [[H _]|[(? & _)|(_ & _ & H)]]; [by destruct (Hdn' _ H)|done|].
        split; [|done]. split_and!; [done|by rewrite Hnt|lia].
      * split; [intros [(_ & H & _) _]; congruence|]. intros [[H _]|[(? & _)|(? & _)]]; [by destruct (Hdn' _ H)|done|done].
    + rewrite Hlk by done. split.
      * intros [H1 H2]. apply nm_at in H2; [tauto|done|done].
      * intros [[H1 H2]|[(-> & -> & -> & ->)|(_ & ? & _)]]; [| |done]; (split; [done|]); apply nm_at; auto.
  - apply nm_fresh.
  - done.
  - split; [done|]. rewrite Hnt. intros ->. done.
  - exact Hty.
  - intros d Hd. destruct (decide (d = n)) as [->|Hdn2]; [|apply nm_dir; [by apply Hlk|done]].
    destruct Hd as (_ & E & _). rewrite Hnb. destruct (Z.eqb_spec ty T_DIR) as [_|E2]; [|congruence]. apply dots_ok; done.
  - intros m Hm Hlm. destruct (decide (m = n)) as [->|Hmn].
    + exists ∅. split; [|unfold gained; rewrite decide_True, size_singleton by done; by rewrite Hn1].
      intros d k. split; [by intros []%elem_of_empty|]. intros (nm & He & _). destruct Hnl. exact (fk_live _ _ Hk _ _ _ _ He).
    + assert (live (D m)) as Hlm'. { destruct (decide (m = dn)) as [->|]; [done|]. by rewrite <- Hoth. }
      destruct (fk_links _ _ Hk m Hm Hlm') as (S & HS & E). exists S. split; [done|]. unfold gained. rewrite decide_False by done.
      destruct (decide (m = dn)) as [->|Hmd].
      * rewrite Hl, E. destruct (ty =? T_DIR); [rewrite decide_True by done; by rewrite size_singleton|].
        rewrite decide_False by (by intros [_ ?]). by rewrite size_empty.
      * rewrite decide_False by tauto. rewrite size_empty, Hoth by done. lia.
  - intros m Hm Hlm H0 Hmn. destruct (decide (m = dn)) as [->|Hmd]; [done|]. by rewrite <- Hoth.
Qed.
End name.
End fsck.
