(* ===== verification/Xv6Calls.v ===== *)
(** * Sequences of file-system calls (lab2/sysfile.c)

    [unlink], [link], [mkdir] and [mknod], one after the other.  Each call keeps
    the tree consistent, and uses a bounded part of what the disk and the inodes
    have to give, so that a sequence that finds enough of it runs to the end. *)

From S2P Require Import Prelude CMem JosPrintfmt Xv6Lock Xv6Proc Xv6World Xv6Bio Xv6Log Xv6Crash Xv6Txn Xv6Inode Xv6Disk Xv6Iops Xv6Content Xv6Icache Xv6Trunc Xv6Dir Xv6Path Xv6Image Xv6Syscall Xv6Fs Xv6Sysfile Xv6Tx Xv6Unlink Xv6Link Xv6Create Xv6Fsck.
From stdpp Require Import base numbers option list gmap sets fin_sets strings.
Open Scope Z_scope.

(** A call, after its arguments are read. *)
Inductive call :=
| Unlink (path : list Z)
| Link (old new : list Z)
| Node (path : list Z) (ty major minor : Z).

Definition absolute (path : list Z) : Prop := hd 0 path = slash.
Definition short (v : Z) : Prop := - 2 ^ 15 <= v < 2 ^ 15.
Definition call_ok (c : call) : Prop :=
  match c with
  | Unlink path => absolute path
  | Link old new => absolute old /\ absolute new /\ forall nm, last (names new) = Some nm -> dots nm = false
  | Node path ty major minor => absolute path /\ short ty /\ ty <> 0 /\ short major /\ short minor
  end.

(** The blocks a call may take: a new directory has one, each of the two
    directories that get a name may grow by one, and by an indirect block. *)
Definition call_blocks (c : call) : nat := match c with Node _ _ _ _ => 6 | _ => 2 end.
Definition calls_blocks (l : list call) : nat := sum_list_with call_blocks l.

Section calls.
Context (cur : nat) (pd : Z) (SB : superblock) (fuel : nat) (bswtch : MF unit) (swtch : MI unit) (junk : list Z) `{DV : Devsw}.
Context (Hfuel : (0 < fuel)%nat) (G : geom SB) (Hbm : (nbitmap SB <= 2)%nat) (Hjunk : length junk = DIRSIZ)
  (Hsmall : sb_ninodes SB <= 2 ^ 16).
Context (R : Z -> Z) (U : gset Z) (HR : forall m, 0 <= R m < 2 ^ 31 - 4) (HU : forall m, 0 < R m -> m ∈ U) (Hroom : (size U + 3 <= NINODE)%nat).
Notation wpi := (wpx (R := ist) (Some cur) pd).

Definition do_call (c : call) : MI Z :=
  match c with
  | Unlink path => unlink_path fuel bswtch swtch junk path
  | Link old new => link_paths fuel bswtch swtch junk old new
  | Node path ty major minor =>
      bl (begin_op bswtch fuel);; v ← create fuel bswtch swtch junk path ty major minor; made_node fuel bswtch swtch v
  end.

(** No call is in progress, the tree is consistent, and there is room for [k]
    calls that take at most [b] blocks: links, entries of the directories, free
    blocks and inodes. *)
Record ready (k b : nat) (r : ist) (D : Z -> dinode) : Prop := Ready {
  rd_idle : fs_idle pd SB r D;
  rd_fsck : fsck SB (contents r) D;
  rd_cached : cached SB D (icache r) R;
  rd_links m : inum_ok SB m -> live (D m) -> d_nlink (D m) + Z.of_nat k < 2 ^ 15;
  rd_dirs d : linked_dir SB D d -> Z.of_nat (length (file_of r D d)) + DESIZE * Z.of_nat k <= MAXFILE * BSIZE;
  rd_new : DESIZE * (Z.of_nat k + 1) <= MAXFILE * BSIZE;
  rd_blocks : (b < nfree SB (contents r))%nat;
  rd_inodes : exists X : gset Z, (k <= size X)%nat /\ forall m, m ∈ X -> inum_ok SB m /\ ~ live (D m) }.

(** After a stop at any of its disk writes and a boot, the tree is consistent. *)
Definition recovers (r r' : ist) : Prop :=
  exists W, writes (blk r') = writes (blk r) ++ W /\ forall k,
    wpx (Some cur) pd [] (fs0 (apply_writes (take k W) (disk (blk r)))) (binit;; initlog fuel bswtch ROOTDEV) (fun _ _ r2 =>
      exists D2, fs_ok SB (disk_map (disk r2)) D2 [] /\ on_disk SB (disk_map (disk r2)) D2 [] /\ fsck SB (disk_map (disk r2)) D2).

Lemma fsck_same C D C' D' :
  fsck SB C D -> (forall i, D' i = D i) -> (forall i, inum_ok SB i -> live (D i) -> fbytes C' (D' i) = fbytes C (D i)) -> fsck SB C' D'.
Proof.
  intros Hk HD Hf. assert (forall d, linked_dir SB D' d <-> linked_dir SB D d) as Hl by (intros d; unfold linked_dir; by rewrite HD).
  assert (forall d k nm m, edge SB C' D' d k nm m <-> edge SB C D d k nm m) as He.
  { intros d k nm m. unfold edge. rewrite Hl. split; intros [Hd Hat]; (split; [done|]); destruct (linked_live SB D d Hd);
      [rewrite Hf in Hat by done|rewrite Hf by done]; done. }
  destruct Hk as [K1 K2 K3 K4 K5 K6 K7 K8]. constructor.
  - by apply Hl.
  - intros d Hd%Hl. destruct (linked_live SB D d Hd). rewrite Hf by done. by apply K2.
  - intros d k nm m H%He. rewrite HD. by eapply K3.
  - intros m Hm. rewrite HD. intros Hlm. destruct (K4 m Hm Hlm) as (S & HS & E). exists S. split; [|done]. intros d k. rewrite (HS d k). by setoid_rewrite He.
  - intros d Hd%Hl. destruct (linked_live SB D d Hd). rewrite Hf by done. by apply K5.
  - intros d Hd%Hl. destruct (linked_live SB D d Hd). rewrite Hf by done. destruct (K6 d Hd) as (p & H1 & H2). exists p. split; [done|].
    destruct (decide _); [done|]. by setoid_rewrite He.
  - intros p k nm d H%He. rewrite HD. intros H1 H2. destruct (K7 p k nm d H H1 H2) as [H3 H4]. split; [done|]. intros p' k' nm' H'%He. by apply H4.
  - intros m. rewrite HD. intros H1 H2 H3. specialize (K8 m H1 H2 H3). clear H1 H2 H3.
    induction K8 as [|d k nm m _ IH H1 H2]; [constructor|]. apply (reach_edge SB C' D' d k nm m); [done|by apply He|done].
Qed.

Lemma atomic_recovers r D r' D' :
  atomic cur pd SB fuel bswtch r D r' D' -> fsck SB (contents r) D -> fsck SB (contents r') D' -> recovers r r'.
Proof.
  intros (W & c & HW & _ & _ & Hrec) Hk Hk'. exists W. split; [done|]. intros k. eapply wpx_mono; [apply (Hrec k)|].
  intros ? ? r2 Hq. cbv beta in *. destruct (k <=? c)%nat; destruct Hq as (H1 & H2 & H3).
  - exists D. split_and!; [done|done|]. by apply (fsck_same (contents r) D).
  - exists D'. split_and!; [done|done|]. by apply (fsck_same (contents r') D').
Qed.

(** What one call may use. *)
Lemma ready_step k u b r D r' D' :
  ready (S k) (u + b) r D -> fs_idle pd SB r' D' -> fsck SB (contents r') D' -> cached SB D' (icache r') R ->
  (forall m, inum_ok SB m -> live (D' m) -> live (D m) /\ d_nlink (D' m) <= d_nlink (D m) + 1 \/ d_nlink (D' m) <= 1) ->
  (forall d, linked_dir SB D' d -> linked_dir SB D d /\ Z.of_nat (length (file_of r' D' d)) <= Z.of_nat (length (file_of r D d)) + DESIZE \/
     Z.of_nat (length (file_of r' D' d)) <= 2 * DESIZE) ->
  (nfree SB (contents r) <= nfree SB (contents r') + u)%nat ->
  (exists x, forall m, m <> x -> inum_ok SB m -> ~ live (D m) -> ~ live (D' m)) ->
  ready k b r' D'.
Proof.
  intros [_ _ _ H4 H5 H6 H7 (X & HX1 & HX2)] Hi Hk Hc Hl Hd Hf (x & Hx). change (MAXFILE * BSIZE) with 71680 in *. unfold DESIZE in *.
  constructor; [done|done|done| | | | |].
  - intros m Hm Hlm. destruct (Hl m Hm Hlm) as [[Hm' ?]|?]; [specialize (H4 m Hm Hm')|]; lia.
  - intros d Hd'. change (MAXFILE * BSIZE) with 71680. unfold DESIZE. destruct (Hd d Hd') as [[Hd0 ?]|?]; [specialize (H5 d Hd0)|]; lia.
  - change (MAXFILE * BSIZE) with 71680. unfold DESIZE. lia.
  - lia.
  - exists (X ∖ {[x]}). split.
    + pose proof (size_union_alt {[x]} X) as E. pose proof (subseteq_size X ({[x]} ∪ X) ltac:(set_solver)) as E2. rewrite size_singleton in E. lia.
    + intros m [Hm Hmx]%elem_of_difference. apply not_elem_of_singleton in Hmx. destruct (HX2 m Hm). split; [done|]. by apply Hx.
Qed.

Lemma ready_same k u b r D r' D' :
  ready (S k) (u + b) r D -> fs_idle pd SB r' D' -> cached SB D' (icache r') R -> (forall i, D' i = D i) ->
  (forall i, inum_ok SB i -> live (D i) -> file_of r' D' i = file_of r D i) -> nfree SB (contents r') = nfree SB (contents r) -> ready k b r' D'.
Proof.
  intros Hr Hi Hc HD Hf Hn. apply (ready_step k u b r D); [done|done| |done|..].
  - by apply (fsck_same (contents r) D); [apply Hr|..].
  - intros m Hm Hl. rewrite HD in *. left. split; [done|lia].
  - intros d Hd. left. assert (linked_dir SB D d) as Hd0 by (unfold linked_dir in *; by rewrite <- HD). split; [done|].
    destruct (linked_live SB D d Hd0). rewrite Hf by done. unfold DESIZE. lia.
  - rewrite Hn. lia.
  - exists 0. intros m _ _. by rewrite HD.
Qed.

(** ** The calls *)

Section call.
Context (k u b : nat) (r : ist) (D : Z -> dinode) (Hr : ready (S k) (u + b) r D).
Notation C := (contents r).
Notation F d := (fbytes C (D d)).

(** Where a path leads. *)
Lemma walk_to parent path m :
  walk C D parent ROOTINO (names path) = Some m -> inum_ok SB m /\ live (D m) /\ d_nlink (D m) <> 0 /\ (parent = true -> linked_dir SB D m).
Proof.
  intros Hw. pose proof (rd_fsck _ _ _ _ Hr) as Hk. destruct (linked_live SB D ROOTINO (fk_root _ _ _ Hk)) as [H1 H2].
  pose proof (fk_root _ _ _ Hk) as (_ & _ & H3). by apply (walk_linked SB C D parent ROOTINO (names path) m (tw_tree _ _ _ (fsck_tree_wf SB C D Hk))).
Qed.

Lemma removed_ready dn nm n r' D' :
  linked_dir SB D dn -> dots nm = false -> dlookup (F dn) nm = Some n -> (d_type (D n) = T_DIR -> dir_empty (F n) = true) ->
  (2 <= u)%nat -> removed cur pd SB fuel bswtch r D R dn nm n r' D' -> ready k b r' D' /\ recovers r r'.
Proof.
  intros Hdn Hdots Hlk Hem Hu [H1 H2 H3 _ (t & Hslot & Hby) [Hdt Hdl] Hin Ho Hfr]. pose proof (rd_fsck _ _ _ _ Hr) as Hk.
  assert (edge SB C D dn t nm n) as He.
  { split; [done|]. unfold dlookup, file_of in *. rewrite Hslot in Hlk. injection Hlk as <-. by apply slot_at. }
  pose proof (rm_ne SB C D Hk dn n t nm He Hdots) as Hne. pose proof (edge_nlink SB C D Hk _ _ _ _ He) as Hpos.
  assert (Hn : d_nlink (D n) = 1 /\ ~ live (D' n) \/ D' n = set_dnlink (d_nlink (D n) - 1) (D n) /\ file_of r' D' n = file_of r D n).
  { destruct (freed D R n) eqn:E; [left|by right]. unfold freed in E. apply andb_true_iff in E as [E%Z.eqb_eq _]. done. }
  assert (fsck SB (contents r') D') as Hk' by (by apply (fsck_removed SB C (contents r') D D' Hk dn n t nm He Hdots Hem)).
  split; [|by eapply atomic_recovers]. apply (ready_step k u b r D); try done.
  - intros m Hm Hl. left. destruct (rm_nlink SB C (contents r') D D' Hk dn n t nm He Hdots Hem Hby Hdt Hdl Hn Ho m Hl) as (Hlm & E & _).
    split; [done|lia].
  - intros d Hd. left. apply (rm_linked SB C (contents r') D D' Hk dn n t nm He Hdots Hem Hby Hdt Hdl Hn Ho) in Hd as [Hd Hdn']. split; [done|].
    destruct (decide (d = dn)) as [->|Hnd]; [rewrite Hby, length_erased by apply He; unfold DESIZE; lia|].
    destruct (linked_live SB D d Hd). destruct (Ho d) as [_ E]; [set_solver|]. rewrite E by done. unfold DESIZE. lia.
  - lia.
  - exists 0. intros m _ Hm Hl Hl'. apply Hl.
    by destruct (rm_nlink SB C (contents r') D D' Hk dn n t nm He Hdots Hem Hby Hdt Hdl Hn Ho m Hl') as (? & _).
Qed.

(** A directory with a name more is sixteen bytes longer at most. *)
Lemma linked_grows dn n name :
  linked_dir SB D dn -> Z.of_nat (length (linked (F dn) name n)) <= Z.of_nat (length (F dn)) + DESIZE.
Proof.
  intros Hdn. destruct (fk_dir _ _ _ (rd_fsck _ _ _ _ Hr) dn Hdn) as [Hok _]. rewrite (length_linked SB), (nents_len SB _ Hok) by done.
  destruct (dfree_le (F dn)). unfold DESIZE. lia.
Qed.

Lemma added_ready dn nm n r' D' :
  linked_dir SB D dn -> dlookup (F dn) nm = None -> inum_ok SB n -> live (D n) -> d_type (D n) <> T_DIR ->
  (2 <= u)%nat -> added cur pd SB fuel bswtch r D R dn nm n r' D' -> ready k b r' D' /\ recovers r r'.
Proof.
  intros Hdn Hno Hni Hnl Hnd Hu [H1 H2 H3 _ (name & <- & Hby) [Hdt Hdl] [Hn Hnb] Ho Hfr]. pose proof (rd_fsck _ _ _ _ Hr) as Hk.
  assert (0 < n < 2 ^ 16) as Hn16 by (unfold inum_ok in Hni; lia). assert (n <> dn) as Hne by (intros ->; by destruct Hdn as (_ & ? & _)).
  assert (fsck SB (contents r') D') as Hk' by (by apply (fsck_added SB C (contents r') D D' Hk dn n name)).
  assert (forall m, m <> n -> d_type (D' m) = d_type (D m) /\ d_nlink (D' m) = d_nlink (D m)) as Hoth.
  { intros m Hm. destruct (decide (m = dn)) as [->|Hmd]; [split; [rewrite Hdt; symmetry; apply Hdn|done]|]. by destruct (Ho m) as [-> _]; [set_solver|]. }
  split; [|by eapply atomic_recovers]. apply (ready_step k u b r D); try done.
  - intros m Hm Hl. left. destruct (decide (m = n)) as [->|Hmn]; [rewrite Hn; cbn; split; [done|lia]|]. destruct (Hoth m Hmn) as [E1 E2].
    unfold live in *. rewrite E1 in Hl. split; [done|lia].
  - intros d Hd. left. destruct (decide (d = n)) as [->|Hdn']; [destruct Hd as (_ & E & _); by rewrite Hn in E|].
    assert (linked_dir SB D d) as Hd0. { unfold linked_dir in *. destruct (Hoth d Hdn') as [<- <-]. done. } split; [done|].
    destruct (decide (d = dn)) as [->|Hnd']; [rewrite Hby; by apply linked_grows|].
    destruct (linked_live SB D d Hd0). destruct (Ho d) as [_ E]; [set_solver|]. rewrite E by done. unfold DESIZE. lia.
  - lia.
  - exists n. intros m Hmn _ Hl Hl'. apply Hl. unfold live in *. by destruct (Hoth m Hmn) as [<- _].
Qed.

Lemma created_ready ty major minor dn nm n r' D' :
  linked_dir SB D dn -> dlookup (F dn) nm = None -> ty <> 0 ->
  (6 <= u)%nat -> created cur pd SB fuel bswtch r D R ty major minor dn nm n r' D' -> ready k b r' D' /\ recovers r r'.
Proof.
  intros Hdn Hno Hty0 Hu [H1 H2 H3 [Hni Hnl] _ (name & <- & Hby) [Hdt Hdl] (Hnt & _ & _ & Hn1 & Hnb) Ho Hfr]. pose proof (rd_fsck _ _ _ _ Hr) as Hk.
  destruct (linked_live SB D dn Hdn) as [Hdi Hdlv]. assert (0 < n < 2 ^ 16 /\ 0 < dn < 2 ^ 16) as [Hn16 Hd16] by (unfold inum_ok in *; lia).
  assert (fsck SB (contents r') D') as Hk' by (by apply (fsck_created SB C (contents r') D D' Hk dn n name Hdn Hn16 Hni Hno Hby Hdt Ho ty)).
  pose proof (one_if_dir_range ty). split; [|by eapply atomic_recovers]. apply (ready_step k u b r D); try done.
  - intros m Hm Hl. destruct (decide (m = n)) as [->|Hmn]; [right; lia|]. left. destruct (decide (m = dn)) as [->|Hmd]; [split; [done|lia]|].
    destruct (Ho m) as [E _]; [set_solver|]. rewrite E in *. split; [done|lia].
  - intros d Hd. destruct (decide (d = n)) as [->|Hdn'].
    + right. rewrite Hnb. unfold first_dots. destruct (Z.eqb_spec ty T_DIR) as [E|E]; [|simpl; unfold DESIZE; lia].
      pose proof (nents_len SB _ (proj1 (dots_ok SB dn n Hn16 Hni Hd16 Hdi))) as ->. rewrite (nents_linked SB) by (by apply dot_ok).
      rewrite (dot_free SB) by done. rewrite (nents_linked SB) by apply dir_ok_nil. by vm_compute.
    + left. destruct (decide (d = dn)) as [->|Hnd'].
      * split; [done|]. rewrite Hby. by apply linked_grows.
      * destruct (Ho d) as [E1 E2]; [set_solver|]. assert (linked_dir SB D d) as Hd0 by (unfold linked_dir in *; by rewrite <- E1). split; [done|].
        destruct (linked_live SB D d Hd0). rewrite E2 by done. unfold DESIZE. lia.
  - lia.
  - exists n. intros m Hmn _ Hl Hl'. apply Hl. destruct (decide (m = dn)) as [->|Hmd]; [done|]. by destruct (Ho m) as [<- _]; [set_solver|].
Qed.

(** After the call. *)
Definition called (v : Z) (H' : list nat) (r' : ist) : Prop :=
  H' = [] /\ (v = 0 \/ v = -1) /\ recovers r r' /\ exists D', ready k b r' D'.

Lemma kept_called v H' r' : H' = [] /\ v = -1 /\ untouched cur pd SB fuel bswtch r D R r' -> called v H' r'.
Proof.
  intros (-> & -> & H1 & H2 & H3 & H4 & H5). pose proof (rd_fsck _ _ _ _ Hr) as Hk. split; [done|]. split; [by right|]. split.
  - eapply atomic_recovers; [done|done|]. by apply (fsck_same C D).
  - exists D. by apply (ready_same k u b r D).
Qed.

Lemma unlinked_called path v H' r' : (2 <= u)%nat -> unlinked cur pd SB fuel bswtch r D R path v H' r' -> called v H' r'.
Proof.
  intros Hu. unfold unlinked, unlink_target. destruct (walk C D true ROOTINO (names path)) as [dn|] eqn:Ew; [|apply kept_called].
  destruct (last (names path)) as [nm|]; [|apply kept_called]. destruct (dots nm) eqn:Hdots; [apply kept_called|].
  destruct (dlookup (F dn) nm) as [n|] eqn:El; [|apply kept_called].
  destruct ((d_type (D n) =? T_DIR) && negb (dir_empty (F n))) eqn:Ee; [apply kept_called|].
  intros (-> & -> & D' & HQ). destruct (walk_to true path dn Ew) as (_ & _ & _ & Hdn).
  destruct (removed_ready dn nm n r' D' (Hdn eq_refl) Hdots El) as [H1 H2]; [|done|done|].
  - intros E. rewrite E in Ee. by destruct (dir_empty (F n)).
  - split_and!; [done|by left|done|by exists D'].
Qed.

Lemma linked_called old new v H' r' : (2 <= u)%nat -> linked_name cur pd SB fuel bswtch r D R old new v H' r' -> called v H' r'.
Proof.
  intros Hu. assert (restored cur pd SB fuel bswtch r D R v H' r' -> called v H' r') as Hrest.
  { intros (-> & -> & D' & H1 & H2 & H3 & H4 & H5). pose proof (rd_fsck _ _ _ _ Hr) as Hk. split; [done|]. split; [by right|].
    assert (fsck SB (contents r') D') as Hk' by (apply (fsck_same C D); [done|intros i; apply H4..]). split; [by eapply atomic_recovers|].
    exists D'. apply (ready_same k u b r D); try done; intros i; apply H4. }
  unfold linked_name, link_target. destruct (walk C D false ROOTINO (names old)) as [n|] eqn:Eo; [|done].
  destruct (Z.eqb_spec (d_type (D n)) T_DIR) as [?|Hnd]; [done|]. destruct (walk C D true ROOTINO (names new)) as [dn|] eqn:Ew; [|done].
  destruct (last (names new)) as [nm|]; [|done]. destruct (dlookup (F dn) nm) as [?|] eqn:El; [done|]. intros (-> & -> & D' & HQ).
  destruct (walk_to true new dn Ew) as (_ & _ & _ & Hdn). destruct (walk_to false old n Eo) as (Hni & Hnl & _).
  destruct (added_ready dn nm n r' D' (Hdn eq_refl) El Hni Hnl Hnd Hu HQ). split_and!; [done|by left|done|by exists D'].
Qed.

Lemma made_called ty major minor path v H' r' :
  ty <> 0 -> (6 <= u)%nat -> made cur pd SB fuel bswtch r D R ty major minor path v H' r' -> called v H' r'.
Proof.
  intros Hty0 Hu. unfold made, create_at. destruct (walk C D true ROOTINO (names path)) as [dn|] eqn:Ew; [|apply kept_called].
  destruct (last (names path)) as [nm|]; [|apply kept_called]. destruct (walk_to true path dn Ew) as (_ & _ & _ & Hdn).
  destruct (dlookup (F dn) nm) as [n|] eqn:El.
  - intros (-> & -> & HQ). destruct (kept_called (-1) [] r') as (_ & _ & H1 & H2); [done|]. split_and!; [done| |done|done].
    destruct (_ && _); [by left|by right].
  - intros (-> & -> & n & D' & HQ). destruct (created_ready ty major minor dn nm n r' D' (Hdn eq_refl) El Hty0 Hu HQ).
    split_and!; [done|by left|done|by exists D'].
Qed.

Lemma wpi_call c : call_ok c -> (call_blocks c <= u)%nat -> wpi [] r (do_call c) called.
Proof.
  intros Hc Hu. pose proof Hr as [Hi Hk Hca Hl Hd Hnew Hb (X & HX1 & HX2)]. pose proof (fsck_tree_wf SB C D Hk) as Ht.
  assert (forall m, 0 <= R m < 2 ^ 31 - 3) as HR' by (intros m; pose proof (HR m); lia).
  assert (forall m, inum_ok SB m -> live (D m) -> d_nlink (D m) < 2 ^ 15 - 1) as Hmax by (intros m Hm Hlm; specialize (Hl m Hm Hlm); lia).
  assert (forall d, linked_dir SB D d -> Z.of_nat (length (F d)) + DESIZE <= MAXFILE * BSIZE) as Hfull.
  { intros d Hld. specialize (Hd d Hld). unfold file_of, DESIZE in *. lia. }
  destruct c as [path|old new|path ty major minor]; cbn [call_ok do_call call_blocks] in *.
  - eapply wpx_mono; [by apply (wpi_unlink cur pd SB fuel bswtch swtch junk Hfuel G Hbm Hjunk r D Hi Ht R U HR' HU ltac:(lia) Hca)|].
    intros v H' r'. by apply unlinked_called.
  - destruct Hc as (H1 & H2 & H3).
    eapply wpx_mono; [by apply (wpi_link cur pd SB fuel bswtch swtch junk Hfuel G Hbm Hjunk r D Hi Ht R U HR HU ltac:(lia) Hca Hsmall Hmax Hfull ltac:(lia))|].
    intros v H' r'. by apply linked_called.
  - destruct Hc as (H1 & H2 & H3 & H4 & H5). assert (exists x, x ∈ X) as [x Hx]. { apply set_choose_L. intros ->. rewrite size_empty in HX1. lia. }
    destruct (HX2 x Hx) as [Hx1 Hx2].
    eapply wpx_mono; [by apply (wpi_create cur pd SB fuel bswtch swtch junk Hfuel G Hbm Hjunk r D Hi Ht R U HR HU ltac:(lia) Hca Hsmall Hmax Hfull ltac:(lia) x)|].
    intros v H' r'. by apply made_called.
Qed.
End call.

(** ** Sequences of calls *)

Fixpoint do_calls (l : list call) : MI (list Z) :=
  match l with
  | [] => mret []
  | c :: l => v ← do_call c; vs ← do_calls l; mret (v :: vs)
  end.

Lemma wpi_calls l r D :
  ready (length l) (calls_blocks l) r D -> Forall call_ok l ->
  wpi [] r (do_calls l) (fun vs H' r' => H' = [] /\ length vs = length l /\ Forall (fun v => v = 0 \/ v = -1) vs /\ exists D', ready 0 0 r' D').
Proof.
  induction l as [|c l IH] in r, D |- *; intros Hr Hok; cbn [do_calls length].
  - apply wpx_ret. split_and!; [done|done|constructor|by exists D].
  - inversion Hok as [|? ? Hc Hl]; subst. eapply wpx_bind; [by apply (wpi_call (length l) (call_blocks c) (calls_blocks l) r D Hr c Hc)|].
    intros v H' r' (-> & Hv & _ & D' & Hr'). eapply wpx_bind; [by apply (IH r' D' Hr' Hl)|]. intros vs H' r2 (-> & Hlen & Hvs & HD). apply wpx_ret.
    split_and!; [done|by cbn; rewrite Hlen|by constructor|done].
Qed.


(** C3: a call on absolute paths, in a consistent tree with room for it, leaves a
    consistent tree, and stopped at any of its disk writes and booted again, the
    disk has a consistent tree as well. *)
Theorem call_recovers c r D :
  ready 1 (call_blocks c) r D -> call_ok c ->
  wpi [] r (do_call c) (fun v H' r' => H' = [] /\ (v = 0 \/ v = -1) /\ recovers r r' /\ exists D', ready 0 0 r' D').
Proof. intros Hr Hc. apply (wpi_call 0 (call_blocks c) 0 r D); [by rewrite Nat.add_0_r|done|done]. Qed.
End calls.

(** ** The example *)

Lemma ex_at k nm m : at_ent ex_dir k nm m <-> k = 0%nat /\ nm = dot /\ m = 1 \/ k = 1%nat /\ nm = dotdot /\ m = 1 \/ k = 2%nat /\ nm = [97] /\ m = 2.
Proof.
  assert (at_ent ex_dir 0 dot 1 /\ at_ent ex_dir 1 dotdot 1 /\ at_ent ex_dir 2 [97] 2) as (H0 & H1 & H2).
  { unfold at_ent. change (nents ex_dir) with 3%nat. split_and!; try lia; by vm_compute. }
  split; [|intros [(-> & -> & ->)|[(-> & -> & ->)|(-> & -> & ->)]]; done].
  intros Hat. pose proof Hat as (Hk & _). change (nents ex_dir) with 3%nat in Hk.
  assert (k = 0 \/ k = 1 \/ k = 2)%nat as [->|[->| ->]] by lia.
  - destruct (at_ent_fun _ _ _ _ _ _ Hat H0). auto.
  - destruct (at_ent_fun _ _ _ _ _ _ Hat H1). auto.
  - destruct (at_ent_fun _ _ _ _ _ _ Hat H2). auto 6.
Qed.

Lemma ex_edge d k nm m : edge ex_sb ex_blocks ex_inodes d k nm m <-> d = 1 /\ at_ent ex_dir k nm m.
Proof.
  assert (linked_dir ex_sb ex_inodes 1) as H1 by (split; [unfold inum_ok; simpl; lia|done]). split.
  - intros [Hd Hat]. destruct (ex_linked d Hd) as [-> E]. rewrite E in Hat. split; [reflexivity|exact Hat].
  - intros [-> Hat]. split; [done|]. destruct (ex_linked 1 H1) as [_ E]. by rewrite E.
Qed.

Lemma ex_fsck : fsck ex_sb ex_blocks ex_inodes.
Proof.
  assert (forall d, linked_dir ex_sb ex_inodes d -> d = 1) as Hd by (intros d Hd; by destruct (ex_linked d Hd)).
  assert (edge ex_sb ex_blocks ex_inodes 1 2 [97] 2) as H2 by (apply ex_edge; split; [done|]; apply ex_at; auto 6).
  constructor.
  - split; [unfold inum_ok, ROOTINO; simpl; lia|done].
  - intros d Hld. destruct (ex_linked d Hld) as [_ ->]. split; [apply ex_dir_ok|]. apply (tw_uniq _ _ _ ex_tree_wf) in Hld as Hu.
    by destruct (ex_linked d Hld) as [_ <-].
  - intros d k nm m [_ [(_ & _ & ->)|[(_ & _ & ->)|(_ & _ & ->)]]%ex_at]%ex_edge; done.
  - intros m _ [[-> ->]|[-> ->]]%ex_live; [exists {[(1, 1%nat)]}|exists {[(1, 2%nat)]}]; (split; [|by rewrite size_singleton]);
      intros d k; rewrite elem_of_singleton; setoid_rewrite ex_edge; setoid_rewrite ex_at; naive_solver.
  - intros d Hld. destruct (ex_linked d Hld) as [-> ->]. apply ex_at. auto.
  - intros d Hld. destruct (ex_linked d Hld) as [-> ->]. exists 1. split; [apply ex_at; auto|]. by rewrite decide_True.
  - intros p k nm d [-> [(_ & -> & ->)|[(_ & -> & ->)|(-> & -> & ->)]]%ex_at]%ex_edge Hdots Ht; done.
  - intros m _ [[-> _]|[-> _]]%ex_live _; [constructor|]. apply (reach_edge _ _ _ 1 2 [97] 2); [constructor|done|done].
Qed.

Definition ex_calls : list call := [Link [47; 97] [47; 98]; Unlink [47; 97]; Unlink [47; 98]].

Lemma ex_disk_ready k b : (k <= 4)%nat -> (b < 8)%nat -> ready 7 ex_sb (refs (ex_icache 1 1)) k b (ex_ist 1 1) ex_inodes.
Proof.
  intros Hk Hb. constructor.
  - apply ex_fs_idle; lia.
  - apply ex_fsck.
  - by apply ex_cached_any.
  - intros m _ [[-> ->]|[-> ->]]%ex_live; simpl; lia.
  - intros d Hd. destruct (ex_linked d Hd) as [_ E]. unfold file_of. change (contents (ex_ist 1 1)) with ex_blocks. rewrite E.
    change (length ex_dir) with 48%nat. change (MAXFILE * BSIZE) with 71680. unfold DESIZE. lia.
  - change (MAXFILE * BSIZE) with 71680. unfold DESIZE. lia.
  - change (contents (ex_ist 1 1)) with ex_blocks. assert (nfree ex_sb ex_blocks = 8%nat) as -> by (vm_compute; reflexivity). done.
  - exists {[3; 4; 5; 6]}. split; [change (size ({[3; 4; 5; 6]} : gset Z)) with 4%nat; done|].
    intros m Hm. assert (m = 3 \/ m = 4 \/ m = 5 \/ m = 6) as H by set_solver. unfold inum_ok. simpl.
    destruct H as [->|[->|[->| ->]]]; (split; [lia|]); unfold live; vm_compute; auto.
Qed.


(** A directory in the root. *)
Lemma call_recovers_witness :
  wp (do_call 1 leave leave (replicate 14 0) (Node [47; 100] T_DIR 0 0)) (fun v s' => recovers 0 7 ex_sb 1 leave (ex_ist 1 1) (x_rest s'))
    (ex_running (ex_ist 1 1)).
Proof.
  pose proof (call_recovers 0 7 ex_sb 1 leave leave (replicate 14 0) (Nat.lt_0_succ 0) ex_geom) as H.
  refine (wp_mono _ _ _ _ (H _ eq_refl _ (refs (ex_icache 1 1)) {[1; 2]} _ _ _ (Node [47; 100] T_DIR 0 0) (ex_ist 1 1) ex_inodes
    (ex_disk_ready 1 6 _ _) _ (ex_running (ex_ist 1 1)) (ex_running_world _) eq_refl) _); clear H.
  - apply Nat.leb_le. vm_compute. reflexivity.
  - simpl. lia.
  - intros m. rewrite ex_refs_any. destruct (1 =? m), (2 =? m); lia.
  - intros m. rewrite ex_refs_any. destruct (Z.eqb_spec 1 m), (Z.eqb_spec 2 m); intros; (lia || set_solver).
  - apply Nat.leb_le. vm_compute. reflexivity.
  - lia.
  - lia.
  - unfold call_ok, short, T_DIR. split_and!; try lia. reflexivity.
  - intros v s' (H' & _ & _ & _ & Hr & _). exact Hr.
Defined.
