(* ===== verification/Xv6MkfsTree.v ===== *)
(** * From [mkfs] to the system calls (lab2/mkfs.c, lab2/sysfile.c)

    The image that [mkfs] makes holds a consistent tree, and a kernel that starts
    from it can run a sequence of file-system calls. *)

From S2P Require Import Prelude CMem JosPrintfmt Xv6Lock Xv6Proc Xv6World Xv6Bio Xv6Log Xv6Crash Xv6Txn Xv6Inode Xv6Disk Xv6Iops Xv6Content Xv6Icache Xv6Trunc Xv6Dir Xv6Path Xv6Image Xv6Syscall Xv6Mkfs Xv6MkfsOk Xv6MkfsMain Xv6Sysfile Xv6Unlink Xv6Fsck Xv6Calls.
From stdpp Require Import base numbers option list gmap sets fin_sets strings.
Open Scope Z_scope.

#[local] Opaque Nat.div Nat.modulo.

(** ** The root directory *)

Lemma ent_mid (a c : list Z) e k : length a = (16 * k)%nat -> length e = 16%nat -> ent (a ++ e ++ c) k = e.
Proof.
  intros Ha He. unfold ent, read_at, DESIZE. replace (Z.to_nat (16 * Z.of_nat k)) with (length a) by lia. rewrite drop_app_length.
  replace (Z.to_nat 16) with (length e) by lia. apply take_app_length.
Qed.

Lemma ent_dir_bytes t z k e : t !! k = Some e -> ent (dir_bytes t ++ replicate z 0) k = mk_dirent e.2 e.1.
Proof.
  intros Hk. rewrite <- (take_drop_middle t k e Hk). unfold dir_bytes. rewrite fmap_app, fmap_cons, join_app. cbn [mjoin list_join].
  rewrite <- !app_assoc. apply ent_mid; [|apply length_mk_dirent]. fold (dir_bytes (take k t)). rewrite length_dir_bytes, length_take.
  apply lookup_lt_Some in Hk. lia.
Qed.

Lemma at_dir_bytes t z k nm m :
  (forall e, e ∈ t -> 0 < e.2 < 2 ^ 16) -> (z mod 16 = 0)%nat ->
  at_ent (dir_bytes t ++ replicate z 0) k nm m <-> exists e, t !! k = Some e /\ cname e.1 = nm /\ e.2 = m.
Proof.
  intros Ht Hz. assert (nents (dir_bytes t ++ replicate z 0) = (length t + z / 16)%nat) as Hn.
  { unfold nents, DESIZE. rewrite length_app, length_dir_bytes, length_replicate. pose proof (Nat.div_mod z 16 ltac:(lia)). dlia. }
  unfold at_ent. rewrite Hn. destruct (t !! k) as [e|] eqn:Hk.
  - rewrite (ent_dir_bytes t z k e Hk). pose proof (Ht e (list_elem_of_lookup_2 _ _ _ Hk)) as He. rewrite de_inum_mk by done.
    assert (cname (de_name (mk_dirent e.2 e.1)) = cname e.1) as -> by exact (cname_strncpy DIRSIZ e.1). apply lookup_lt_Some in Hk.
    split; [intros (_ & <- & _ & <-); by exists e|]. intros (? & [= <-] & <- & <-). split_and!; [lia|done|lia|done].
  - apply lookup_ge_None in Hk. rewrite ent_zeros by (rewrite length_dir_bytes; unfold DESIZE; lia). split; [intros (_ & <- & ? & _); done|]. by intros (e & ? & _).
Qed.

Section tree.
Context `{HO : Host} (args : list (list Z)) (img : list (list Z)) (D : Z -> dinode) (Hm : made args img D) (Hn : (length args <= 198)%nat)
  (Hnd : NoDup (cname (zs ".") :: cname (zs "..") :: ((fun arg => cname (skip_underscore arg)) <$> args))).
Notation C := (disk_map img).

Lemma mk_live i : inum_ok SB i -> live (D i) -> i = ROOTINO \/ exists j arg, args !! j = Some arg /\ i = 2 + Z.of_nat j.
Proof.
  intros Hi Hl. pose proof (proj1 (mkfs_inum i) Hi). destruct (decide (i = ROOTINO)) as [|Hne]; [by left|right].
  unfold ROOTINO in Hne. destruct (decide (2 + Z.of_nat (length args) <= i)) as [Hge|Hlt]; [by destruct (md_free _ _ _ Hm i)|].
  destruct (lookup_lt_is_Some_2 args (Z.to_nat (i - 2))) as [arg Ha]; [lia|]. exists (Z.to_nat (i - 2)), arg. split; [done|lia].
Qed.

Lemma mk_root : linked_dir SB D ROOTINO.
Proof. destruct (md_root _ _ _ Hm) as [H1 H2]. split; [by apply mkfs_inum|]. split; [done|]. by rewrite H2. Qed.

Lemma mk_linked d : linked_dir SB D d -> d = ROOTINO.
Proof.
  intros (Hi & Ht & _). destruct (mk_live d Hi) as [|(j & arg & Hj & ->)]; [unfold live; by rewrite Ht|done|].
  destruct (md_file _ _ _ Hm j arg Hj) as (Ht' & _). by rewrite Ht in Ht'.
Qed.

Lemma mk_entry k e : root_entries args !! k = Some e -> 
  k = 0%nat /\ e = (zs ".", 1) \/ k = 1%nat /\ e = (zs "..", 1) \/
  exists j arg, k = S (S j) /\ args !! j = Some arg /\ e = (skip_underscore arg, 2 + Z.of_nat j).
Proof.
  destruct k as [|[|j]]; [intros [= <-]; auto..|]. change (root_entries args !! S (S j)) with (imap (fun k arg => (skip_underscore arg, 2 + Z.of_nat k)) args !! j).
  intros (arg & Ha & ->)%list_lookup_imap_Some. right. right. by exists j, arg.
Qed.

Lemma mk_edge d k nm m :
  edge SB C D d k nm m <-> d = ROOTINO /\ exists e, root_entries args !! k = Some e /\ cname e.1 = nm /\ e.2 = m.
Proof.
  pose proof (md_bytes _ _ _ Hm) as Hz. cbv zeta in Hz. set (z := pad _) in Hz. pose proof mk_root as Hr. pose proof Hr as (Hri & Hrt & Hr0).
  destruct (md_tree _ _ _ Hm ROOTINO Hri Hrt Hr0) as [[Hlen _] _].
  assert (z mod 16 = 0)%nat as Hz16.
  { rewrite Hz, length_app, length_dir_bytes, length_replicate in Hlen. unfold DESIZE in Hlen.
    apply Nat2Z.inj. rewrite Nat2Z.inj_mod. change (Z.of_nat 16) with 16. rewrite Nat2Z.inj_add, Nat2Z.inj_mul in Hlen. Z.to_euclidean_division_equations. lia. }
  assert (forall e, e ∈ root_entries args -> 0 < e.2 < 2 ^ 16) as He.
  { intros e He. destruct (root_entries_inum args e Hn He) as [H1 _]. pose proof (proj1 (mkfs_inum _) H1). lia. }
  unfold edge. split.
  - intros [Hd Hat]. rewrite (mk_linked d Hd) in *. rewrite Hz in Hat. apply at_dir_bytes in Hat; done.
  - intros [-> Hex]. split; [done|]. rewrite Hz. by apply at_dir_bytes.
Qed.

(** The two entries for the root, and one for each file. *)
Lemma mk_edges d k nm m :
  edge SB C D d k nm m <-> d = ROOTINO /\ (k = 0%nat /\ nm = dot /\ m = ROOTINO \/ k = 1%nat /\ nm = dotdot /\ m = ROOTINO \/
    exists j arg, k = S (S j) /\ args !! j = Some arg /\ nm = cname (skip_underscore arg) /\ m = 2 + Z.of_nat j).
Proof.
  rewrite mk_edge. split.
  - intros (-> & e & [(-> & ->)|[(-> & ->)|(j & arg & -> & Ha & ->)]]%mk_entry & <- & <-); split; try done; auto. right. right. by exists j, arg.
  - intros (-> & [(-> & -> & ->)|[(-> & -> & ->)|(j & arg & -> & Ha & -> & ->)]]); (split; [done|]); [by eexists..|].
    exists (skip_underscore arg, 2 + Z.of_nat j). split; [|done]. change (root_entries args !! S (S j)) with (imap (fun k arg => (skip_underscore arg, 2 + Z.of_nat k)) args !! j).
    by rewrite list_lookup_imap, Ha.
Qed.

Lemma mk_names j arg : args !! j = Some arg -> dots (cname (skip_underscore arg)) = false.
Proof.
  intros Ha. apply not_true_is_false. intros H. apply NoDup_cons in Hnd as [H1 [H2 _]%NoDup_cons].
  assert (cname (skip_underscore arg) ∈ (fun arg => cname (skip_underscore arg)) <$> args) as Hin by (apply list_elem_of_fmap; exists arg; split; [done|]; by eapply list_elem_of_lookup_2).
  apply dots_true in H as [E|E]; rewrite E in Hin; [apply H1; by right|by apply H2].
Qed.

Lemma mk_uniq : uniq_names (fbytes C (D ROOTINO)).
Proof.
  intros nm j k Hj Hk H1 H2. apply has_name_at in H1; [|done]. apply has_name_at in H2; [|done]. set (f := fbytes C (D ROOTINO)) in *.
  assert (edge SB C D ROOTINO j nm (de_inum (ent f j))) as E1 by (split; [apply mk_root|done]).
  assert (edge SB C D ROOTINO k nm (de_inum (ent f k))) as E2 by (split; [apply mk_root|done]).
  apply mk_edges in E1 as (_ & E1). apply mk_edges in E2 as (_ & E2).
  destruct E1 as [(-> & -> & _)|[(-> & -> & _)|(j1 & a1 & -> & Ha1 & -> & _)]], E2 as [(-> & E & _)|[(-> & E & _)|(j2 & a2 & -> & Ha2 & E & _)]];
    try done; try (by pose proof (mk_names _ _ Ha2) as Hd; rewrite <- E in Hd); try (by pose proof (mk_names _ _ Ha1) as Hd; rewrite E in Hd).
  do 2 f_equal. apply NoDup_cons in Hnd as [_ [_ Hnd']%NoDup_cons]. eapply (proj1 (NoDup_alt _) Hnd'); rewrite list_lookup_fmap, ?Ha1, ?Ha2; simpl; by rewrite ?E.
Qed.

Lemma made_fsck : fsck SB C D.
Proof.
  pose proof mk_root as Hr. constructor.
  - done.
  - intros d Hd. rewrite (mk_linked d Hd). split; [|apply mk_uniq]. destruct Hr as (? & ? & ?). by apply (md_tree _ _ _ Hm).
  - intros d k nm m (-> & [(_ & _ & ->)|[(_ & _ & ->)|(j & arg & _ & Ha & _ & ->)]])%mk_edges; [by apply (linked_live SB)..|].
    unfold live. by destruct (md_file _ _ _ Hm j arg Ha) as (-> & _).
  - intros m Hi Hl. destruct (mk_live m Hi Hl) as [->|(j & arg & Ha & ->)].
    + exists {[(ROOTINO, 1%nat)]}. split; [|rewrite size_singleton; by destruct (md_root _ _ _ Hm)]. intros d k. rewrite elem_of_singleton. setoid_rewrite mk_edges. split.
      * intros [= -> ->]. exists dotdot. split; [|done]. split; [done|]. auto.
      * intros (nm & (-> & [(_ & -> & _)|[(-> & _)|(j & arg & _ & _ & _ & ?)]]) & Hne); [done|done|unfold ROOTINO in *; lia].
    + exists {[(ROOTINO, S (S j))]}. split; [|rewrite size_singleton; by destruct (md_file _ _ _ Hm j arg Ha) as (_ & -> & _)]. intros d k. rewrite elem_of_singleton. setoid_rewrite mk_edges. split.
      * intros [= -> ->]. exists (cname (skip_underscore arg)). split; [split; [done|]; right; right; by exists j, arg|]. intros E. pose proof (mk_names _ _ Ha) as Hd. by rewrite E in Hd.
      * intros (nm & (-> & [(_ & _ & ?)|[(_ & _ & ?)|(j' & arg' & -> & _ & _ & ?)]]) & Hne); [unfold ROOTINO in *; lia..|]. do 3 f_equal. lia.
  - intros d Hd. rewrite (mk_linked d Hd). apply mk_edges. auto.
  - intros d Hd. rewrite (mk_linked d Hd). exists ROOTINO. split; [apply mk_edges; split; [done|]; right; by left|]. by rewrite decide_True.
  - intros p k nm d He Hdots Ht. apply mk_edges in He as (-> & [(_ & -> & _)|[(_ & -> & _)|(j & arg & _ & Ha & _ & ->)]]); [done|done|].
    destruct (md_file _ _ _ Hm j arg Ha) as (E & _). by rewrite E in Ht.
  - intros m Hi Hl _. destruct (mk_live m Hi Hl) as [->|(j & arg & Ha & ->)]; [constructor|].
    apply (reach_edge SB C D ROOTINO (S (S j)) (cname (skip_underscore arg)) _); [constructor| |by eapply mk_names]. apply mk_edges. split; [done|]. right. right. by exists j, arg.
Qed.

(** ** The first calls *)

(** The inode layer of a kernel that starts from the image. *)
Definition start_fs : ist := MkIst (replicate NINODE ino_free) SB (booted img).

Lemma fs_start_cached : cached SB D (icache start_fs) (fun _ => 0).
Proof.
  assert (forall ip x, replicate NINODE ino_free !! ip = Some x -> x = ino_free) as Hx by (by intros ip x [-> _]%lookup_replicate).
  constructor; cbn [start_fs icache].
  - constructor; [by rewrite length_replicate|..].
    + intros ip x ->%Hx. done.
    + intros ip x ->%Hx ?. by simpl in *.
    + intros ip x ->%Hx ?. by simpl in *.
    + intros ip x ->%Hx. done.
    + intros ip jp x y ->%Hx _ ?. by simpl in *.
  - intros ip x ->%Hx. done.
  - intros m. apply refs_zero; [intros ip x ->%Hx; done|]. intros ip x ->%Hx ?. by simpl in *.
Qed.

Lemma made_ready pd k b :
  (length args + k <= 198)%nat -> Z.of_nat b < FSSIZE - (nmeta + used (final_files args)) -> ready pd SB (fun _ => 0) k b start_fs D.
Proof.
  intros Hk Hb. assert (forall m, inum_ok SB m -> live (D m) -> d_nlink (D m) = 1) as Hl.
  { intros m Hi Hlv. destruct (mk_live m Hi Hlv) as [->|(j & arg & Ha & ->)]; [by destruct (md_root _ _ _ Hm)|].
    by destruct (md_file _ _ _ Hm j arg Ha) as (_ & ? & _). }
  change (Xv6Syscall.contents start_fs) with C. constructor.
  - constructor; [done| |apply (md_idle _ _ _ Hm)|apply Hm|apply Hm|apply fs_start_cached].
    cbn [start_fs blk booted cache0 disk]. rewrite (md_len _ _ _ Hm). done.
  - apply made_fsck.
  - apply fs_start_cached.
  - intros m Hi Hlv. rewrite Hl by done. lia.
  - intros d Hd. rewrite (mk_linked d Hd). unfold file_of. change (Xv6Syscall.contents start_fs) with C. rewrite (md_bytes _ _ _ Hm). cbv zeta.
    rewrite length_app, length_replicate, length_dir_bytes, length_root_entries. change (MAXFILE * BSIZE) with 71680. unfold pad, DESIZE.
    pose proof (Nat.div_mod (16 * (2 + length args)) 512 ltac:(lia)). lia.
  - change (MAXFILE * BSIZE) with 71680. unfold DESIZE. lia.
  - apply Nat2Z.inj_lt. change (Xv6Syscall.contents start_fs) with C. by rewrite (md_blocks _ _ _ Hm).
  - exists (list_to_set (seqZ (2 + Z.of_nat (length args)) (Z.of_nat k))). split.
    + rewrite size_list_to_set by apply NoDup_seqZ. rewrite length_seqZ. lia.
    + intros m Hin. apply elem_of_list_to_set, elem_of_seqZ in Hin. assert (inum_ok SB m) by (apply mkfs_inum; lia). split; [done|].
      apply (md_free _ _ _ Hm); [done|lia].
Qed.
End tree.


(** Two files, a directory, and one of the files moved into it. *)
Definition ex_moves : list call := [Node (zs "/d") T_DIR 0 0; Link (zs "/cat") (zs "/d/c"); Unlink (zs "/cat")].

